(* ===== verification/_CoqProject ===== *)
-Q . S2P
Prelude.v
CLib.v
WireBits.v
PacketInfo.v
WireProto.v
World.v
Tagging.v
GatewayQueue.v
BulbTable.v
Router.v
Bulb.v
Gateway.v
Discovery.v
Proto.v
WorldFrames.v
QueueSpec.v
TagsInv.v
SendSpec.v
DeviceInv.v
DeviceOps.v
Invariant.v
HandlersInv.v
GatewayInv.v
CloseInv.v
EventsInv.v
RouterSpec.v
RouteSpec.v
ProtoInv.v
Daemon.v
Example.v
SafetyThms.v
SendThms.v
QueueLive.v
ProtoThms.v
DiscoveryThms.v
Jsmn.v
JsmnSpec.v
JsonText.v
JsonThms.v
JsonNumbers.v
NumberSpec.v
NumberThms.v
Printf.v
Session.v
LightState.v
Jsonrpc.v
JsonrpcLoops.v
JsonrpcSpec.v
Client.v
ClientSpec.v
LightStateSpec.v
RpcThms.v
Files.v
ServerState.v
Connections.v
Pipe.v
Listen.v
MakedirsSpec.v
JsmnPrefix.v
PipeSpec.v
SocketsSpec.v
ServerThms.v
Process.v
Startup.v
Log.v
CleanupSpec.v
StartSpec.v
ClientsInv.v
ServerInv.v
StartThms.v
LogThms.v
RbTree.v
RbShape.v
RbColors.v
RbRemove.v
RbSearch.v
RbWalk.v
RbThms.v
SysQueue.v
Clocks.v
