(* ===== verification/Prelude.v ===== *)
(** * lightsd: a verification development

    lightsd is a daemon that drives LIFX bulbs. On one side it speaks the LIFX
    protocol over UDP with _gateways_, the bulbs that relay to others; on the
    other side _clients_ send it JSON-RPC requests over TCP, Unix sockets and
    command pipes. This library models the C code under src/lifx/ and src/core/,
    from the main function to the cleanup, with the trees, lists and clocks of
    src/compat/, and proves what makes it correct.

    ** How the code is modelled

    Stateful code runs in the monad [M] below: a state and an outcome, a value
    with a new state or a [crash] (a failed [assert], undefined behaviour, or an
    exit; on the LIFX side [lgtd_err] is a bare exit, and in the process it runs the
    cleanup first, which may crash itself). There are five states, each one around the one before:

    - [world] (World), the LIFX side: the heap of gateways, tags, timers and bulbs,
      the lists and trees that link them, the counters, and two oracles, the
      results of the calls that can fail (system calls, allocations, libevent)
      and the passing of time;
    - [session] (Session), the world and the client whose request is served;
    - [server] (ServerState), the world with the connections, the command pipes, the
      listening sockets, the files and the descriptors that were opened and closed;
    - [process] (Process), the server with the options, the user, the privileges
      and the events of signals;
    - [logs] (Log), the process with what it printed and sent to the system log.

    Pointers are keys of finite maps or of lists, so that a use after free is a
    lookup that fails and crashes the model. Integers are [Z] with their
    wrap-around written out, and memory is a list of bytes.

    What is not in the repository is a parameter, a type class with the laws its
    documentation gives: [Endianness] (CLib), the byte order of the host; [LibC]
    (Printf), [inet_ntop], [gmtime_r] and the layout of addresses; [Libevent]
    (Client), the buffers, with [chains] as an instance; [FileSystem] (Files),
    with [memory]; [Accounts] (Process), the users and groups; [LogEnv] (Log), the
    time and the texts of errors. The theorems hold for all of them.

    ** Files: the code

    - CLib: the C library the code uses: byte order, strings, [strtol], [strtoull].
    - WireBits: bit scan and tag id loops of lifx/wire_proto.h.
    - PacketInfo: the packet types, their layouts and the table of
      lifx/wire_proto.c.
    - WireProto: headers, encoders and decoders of lifx/wire_proto.c.
    - World: the structures of lifx/bulb.h, lifx/gateway.h, lifx/tagging.h,
      core/timer.h and core/stats.h, and the operations of core/timer.c,
      core/stats.c and the small ones of discovery.c and broadcast.c.
    - Tagging: lifx/tagging.c.
    - GatewayQueue: the packet ring, tag ids and reference counts of
      lifx/gateway.c.
    - BulbTable, Bulb: lifx/bulb.c.
    - Router: core/router.c.
    - Gateway: the rest of lifx/gateway.c (open, close, handlers, callbacks), the
      receive loop of wire_proto.c, the timer callback, the watchdog.
    - Discovery: lifx/broadcast.c and the timer of lifx/discovery.c.
    - Proto: the commands of core/proto.c; LightState: [get_light_state] and the
      JSON it prints.
    - Jsmn: the JSON tokenizer, core/jsmn.c.
    - JsonNumbers, Jsonrpc: core/jsonrpc.c: the types and conversions of values; the
      extraction of parameters against schemas, the methods, batches.
    - Printf: core/utils.c and the macros of core/lightsd.h that print.
    - Session: what a client is written: the responses of core/jsonrpc.c.
    - Client: the read callback of core/client.c; Connections: the rest of it.
    - Pipe: core/pipe.c and the directories of core/daemon.c.
    - Listen: core/listen.c.
    - Process: core/daemon.c, and the cleanup of core/lightsd.c that every error
      runs. Startup: the rest of core/lightsd.c, signals included, and what it calls
      before the event loop.
    - Log: core/log.c, core/console.c and the system log of core/daemon.c.
    - RbTree: the red-black trees of compat/generic/sys/tree.h, on a memory of nodes
      with pointers to their parents and children.
    - SysQueue: the SLIST and LIST macros of compat/generic/sys/queue.h, the same way,
      with the proof that they are lists.
    - Clocks: the clocks and sleeps of compat/, for the three systems.
    - Daemon: the LIFX side as one machine: an [event] is a callback libevent may
      run or a command of a client, [run_event] runs it, [reachable] is the set
      of states any sequence of admissible events leads to, those where the broadcast
      endpoint was lost included. ServerInv has the events of clients, pipes and sockets with them
      ([server_event], [server_reaches]).

    ** Files: specifications and proofs

    - QueueSpec, SendSpec: the ring refines a bounded queue of packets
      ([queue_repr]); what a send may change ([send_frame]).
    - WorldFrames: what no code of the LIFX side changes ([gentle]): the counter of
      clients, the broadcast endpoint once it is open, and the order of the results
      of calls.
    - TagsInv, DeviceInv, DeviceOps, Invariant: the invariant [world_inv] and that
      each operation keeps it.
    - HandlersInv, GatewayInv, CloseInv, EventsInv, ProtoInv: the same for the
      packet handlers, opening, closing, the callbacks and the commands.
    - RouterSpec, RouteSpec: what targets select, and the packets a command comes
      to for each gateway ([pushes], [command_packets]).
    - JsmnSpec: the invariant of the tokenizer; JsonText: JSON values, their text
      and their tokens, strings by the grammar of JSON; JsmnPrefix: the beginning of the text of an object.
    - NumberSpec: components of colors as decimal numbers.
    - JsonrpcLoops, JsonrpcSpec: the loops of core/jsonrpc.c end; what dispatch does
      with the text of a request.
    - ClientSpec, PipeSpec: from the bytes of a request to the end of its service, on
      a connection and on a pipe; LightStateSpec: the objects that describe lights,
      and that their text is JSON by RFC 8259 ([valid_json]).
    - MakedirsSpec, SocketsSpec: directories, and opening pipes and sockets, with the
      descriptors each exit opened and closed ([descriptors]).
    - CleanupSpec: each step of the cleanup; StartSpec: each step of the main function;
      ClientsInv, ServerInv: no code but opening and closing a client changes
      the counter of clients, and the events keep [server_ok].
    - RbShape: a memory has a tree, or a tree with a hole, which each macro changes;
      RbColors, RbRemove: the loops that restore the colors, insertion and
      removal; RbSearch: lookups, for any [Comparison]; RbWalk: the walks.
    - Example: a network of one gateway, one bulb and one tag, reached from the
      initial state by three datagrams; the witnesses use it.
    - SafetyThms, SendThms, ProtoThms, DiscoveryThms, JsonThms,
      NumberThms, RpcThms, ServerThms, StartThms, QueueLive, LogThms, RbThms: the
      theorems.

    ** What is proved

    - Safety (SafetyThms): no event the network may cause makes the daemon fail
      an assertion or follow a bad pointer, but for the assertion that the broadcast
      endpoint is open, which fails only after a system call did (lifx/broadcast.c
      does not look at the result of its setup there); and the invariant holds in every
      reachable state: reference counts, counters, lists, the tables of tags, and
      fields that have values of their C types.
    - Refinement (SendThms, ProtoThms): the router and the commands put in the
      queue of each gateway exactly the packets of the protocol that the targets
      come to; the socket callback takes them out in order, and all of them leave
      if the socket is writable again and again (QueueLive).
    - Data structures (RbThms, SysQueue): the trees and lists, pointers and all, are the
      finite maps and lists that the other files have for them; insertion and removal
      keep a red-black tree, whose lookups are logarithmic.
    - Wire format (WireBits, PacketInfo, WireProto): encoders and decoders agree
      with the little endian protocol on every host, round trips, the bit scan,
      the packet table.
    - Discovery and closing (DiscoveryThms, SafetyThms).
    - JSON (JsonThms, NumberThms): the tokenizer ends on any bytes and stays in its
      array, its two passes agree, and it finds the structure of every JSON text;
      colors are printed and read back.
    - Requests (RpcThms, ServerThms): from the bytes of a request to the command it runs
      and the bytes of the response, on connections and on pipes; what an
      unknown method is answered; reading any bytes ends, unless [reallocarray]
      fails for ever.
    - Sockets and files (ServerThms): directories are made, pipes and sockets are
      opened entirely or not at all, and no descriptor is lost.
    - The process (StartThms): the main function exits after its cleanup or gets to
      its event loop with the invariant and the privileges it should have (when the
      event of a signal cannot be made the cleanup follows a null pointer); the clients are counted
      whatever happens then; a signal ends the process in order; the cleanup closes
      everything.
    - Messages (LogThms): each one is written once, where the options want it; an
      error cleans up, is reported and ends with its status.
    - Clocks (Clocks): the clocks of the three systems agree.
    - What goes wrong (the end of SafetyThms, RpcThms, ServerThms, StartThms, LogThms
      and Clocks, and parts of SendThms and ProtoThms): runs that end in a failed assertion
      or do something else than what is meant.

    ** Bounds and hypotheses

    Most loops are structural recursions here, over lists or over the 64 ids of a
    word; [foreach_tag_id_correct] shows that 65 turns are enough for the bit loop,
    and [close_bulbs] has as much fuel as the gateway has bulbs. The loops that find
    requests in a buffer have twice its length and the number of results of
    [reallocarray] as fuel ([read_fuel], [pipe_fuel]), and those over tokens the number of tokens; [requests_end] shows that it is
    enough. [makedirs_fuel] is the length of the path, [dirname] making it
    shorter; [makedirs_correct] says that it returns. The loops on trees and lists
    have one turn more than there are nodes in memory ([turns]); the theorems about
    them say that they return.
    [event_ok] says what the network must not do: a datagram must not open a
    bulb with the null address or the 256th bulb of a gateway, nor label two ids
    of a gateway alike, a label must be shorter than 32 bytes, and a socket that
    is writable does not return [EAGAIN]. The end of SafetyThms shows why the first ones
    are needed. The results of [reallocarray] are a list, and it succeeds after the
    last of them: while it fails, the code loops ([realloc_starves]). The theorems on
    requests have the text contiguous in its buffer, those on tags ids below 31, and
    those on [get_light_state] labels that need no escape, since the code is
    wrong beyond these (the findings at core/client.c:97, core/proto.c:460
    and core/proto.c:348).

    Simplifications: positions in a text are natural numbers (an incomplete request
    is dropped past 4096 bytes), the counters are unbounded, the descriptor of a gateway
    is a constant that nothing reads, datagrams come from addresses of the family of
    the socket, a write is only asked of a buffer that is not empty, and the calls
    that print the header of a message leave [errno] alone.

    ** Not modelled

    The state machines above the log do not carry the texts of their messages: where
    they log, only what the code does besides is there, and Log says what a
    message does. The updates of the title of the process are output only, but for
    the title itself; core/setproctitle.c, which puts it in the memory of the
    process, is third-party code. Splay trees and the queues of sys/queue.h that are not
    SLIST or LIST are not used by the program. The event loop is libevent's: events
    are any sequence of callbacks. The other programs of the repository
    (the Python client, packaging). *)

From Stdlib Require Import ZArith Lia String Ascii.
From stdpp Require Import base tactics list gmap.

#[global] Open Scope Z_scope.

(** ** Outcomes of C code

    A C function of the daemon runs to completion and returns a value with the
    new state, or it stops the process: a failed [assert], an access the
    language leaves undefined (a null or dangling pointer, an index out of an
    array), or a call of [lgtd_err], which exits. *)
Inductive crash : Type :=
| AssertFailed
| UndefinedBehaviour
| Exited.

#[export] Instance crash_eq_dec : EqDecision crash.
Proof. solve_decision. Defined.

Inductive outcome (S A : Type) : Type :=
| Ret (a : A) (s : S)
| Crash (c : crash).
Arguments Ret {S A} a s.
Arguments Crash {S A} c.

(** The state and crash monad all stateful code is written in. *)
Definition M (S A : Type) : Type := S -> outcome S A.

#[export] Instance M_ret {S} : MRet (M S) := fun A a s => Ret a s.
#[export] Instance M_bind {S} : MBind (M S) := fun A B k m s =>
  match m s with
  | Ret a s' => k a s'
  | Crash c => Crash c
  end.
#[export] Instance M_fmap {S} : FMap (M S) := fun A B f m s =>
  match m s with
  | Ret a s' => Ret (f a) s'
  | Crash c => Crash c
  end.

Section Monad.
Context {S : Type}.

Definition mget : M S S := fun s => Ret s s.
Definition mgets {A} (f : S -> A) : M S A := fun s => Ret (f s) s.
Definition mput (s' : S) : M S unit := fun _ => Ret tt s'.
Definition mmodify (f : S -> S) : M S unit := fun s => Ret tt (f s).
Definition mcrash {A} (c : crash) : M S A := fun _ => Crash c.

(** [assert(b)] of a build without [NDEBUG]. *)
Definition massert (b : bool) : M S unit :=
  if b then mret tt else mcrash AssertFailed.

(** The value behind a pointer or an array cell; none is undefined behaviour. *)
Definition mderef {A} (o : option A) : M S A :=
  match o with
  | Some a => mret a
  | None => mcrash UndefinedBehaviour
  end.

Definition mwhen (b : bool) (m : M S unit) : M S unit :=
  if b then m else mret tt.

(** A loop over a list fixed before it starts ([LIST_FOREACH] and friends). *)
Fixpoint mforeach {A} (l : list A) (body : A -> M S unit) : M S unit :=
  match l with
  | [] => mret tt
  | x :: l' => body x ;; mforeach l' body
  end.

(** The same with an early exit: the loop stops at the first [false]. *)
Fixpoint mforeach_while {A} (l : list A) (body : A -> M S bool) : M S bool :=
  match l with
  | [] => mret true
  | x :: l' => ok ← body x; if (ok : bool) then mforeach_while l' body else mret false
  end.

(** ** Reasoning about the monad: weakest preconditions *)

(** [wp m Q s]: from [s], [m] terminates without a crash and [Q] holds of the
    result and the new state. *)
Definition wp {A} (m : M S A) (Q : A -> S -> Prop) (s : S) : Prop :=
  match m s with
  | Ret a s' => Q a s'
  | Crash _ => False
  end.

Lemma wp_ret {A} (a : A) (Q : A -> S -> Prop) s : Q a s -> wp (mret a) Q s.
Proof. done. Qed.

Lemma wp_bind {A B} (m : M S A) (k : A -> M S B) Q s :
  wp m (fun a => wp (k a) Q) s -> wp (m ≫= k) Q s.
Proof. unfold wp, mbind, M_bind. by destruct (m s). Qed.

Lemma wp_mono {A} (m : M S A) (P Q : A -> S -> Prop) s :
  wp m P s -> (forall a s', P a s' -> Q a s') -> wp m Q s.
Proof. unfold wp. destruct (m s); auto. Qed.

Lemma wp_get (Q : S -> S -> Prop) s : Q s s -> wp mget Q s.
Proof. done. Qed.

Lemma wp_gets {A} (f : S -> A) (Q : A -> S -> Prop) s : Q (f s) s -> wp (mgets f) Q s.
Proof. done. Qed.

Lemma wp_put s' (Q : unit -> S -> Prop) s : Q tt s' -> wp (mput s') Q s.
Proof. done. Qed.

Lemma wp_modify f (Q : unit -> S -> Prop) s : Q tt (f s) -> wp (mmodify f) Q s.
Proof. done. Qed.

Lemma wp_assert b (Q : unit -> S -> Prop) s :
  b = true -> Q tt s -> wp (massert b) Q s.
Proof. by intros ->. Qed.

Lemma wp_deref {A} (o : option A) (Q : A -> S -> Prop) s a :
  o = Some a -> Q a s -> wp (mderef o) Q s.
Proof. by intros ->. Qed.

Lemma wp_when b (m : M S unit) (Q : unit -> S -> Prop) s :
  (b = true -> wp m Q s) -> (b = false -> Q tt s) -> wp (mwhen b m) Q s.
Proof. unfold mwhen. destruct b; [auto|]. intros _ HQ. by apply wp_ret, HQ. Qed.

(** A loop keeps an invariant indexed by the elements that are left. *)
Lemma wp_foreach {A} (Inv : list A -> S -> Prop) (l : list A) body
    (Q : unit -> S -> Prop) s :
  Inv l s ->
  (forall x l' s, Inv (x :: l') s -> wp (body x) (fun _ => Inv l') s) ->
  (forall s, Inv [] s -> Q tt s) ->
  wp (mforeach l body) Q s.
Proof.
  intros Hl Hbody Hend. revert s Hl. induction l as [|x l IH]; intros s Hl; simpl.
  - by apply Hend.
  - apply wp_bind. eapply wp_mono; [by apply Hbody|]. intros a s' ?. by apply IH.
Qed.

Lemma wp_foreach_while {A} (Inv : list A -> S -> Prop) (l : list A) body (Q : bool -> S -> Prop) s :
  Inv l s ->
  (forall x l' s', Inv (x :: l') s' ->
     wp (body x) (fun ok s'' => if (ok : bool) then Inv l' s'' else Q false s'') s') ->
  (forall s', Inv [] s' -> Q true s') ->
  wp (mforeach_while l body) Q s.
Proof.
  intros Hi Hb HQ. revert s Hi. induction l as [|x l IH]; intros s Hi; simpl; [by apply wp_ret, HQ|].
  apply wp_bind. eapply wp_mono; [by apply Hb|]. intros ok s' Hs'. destruct ok; [by apply IH|by apply wp_ret].
Qed.

(** A weakest precondition is a statement about the run. *)
Lemma wp_run {A} (m : M S A) (Q : A -> S -> Prop) s :
  wp m Q s -> exists a s', m s = Ret a s' /\ Q a s'.
Proof. unfold wp. destruct (m s) as [a s'|]; [|done]. intros HQ. by exists a, s'. Qed.

Lemma wp_of_run {A} (m : M S A) (Q : A -> S -> Prop) s a s' : m s = Ret a s' -> Q a s' -> wp m Q s.
Proof. unfold wp. by intros ->. Qed.

Lemma run_bind {A B} (m : M S A) (k : A -> M S B) s a s' : m s = Ret a s' -> (m ≫= k) s = k a s'.
Proof. unfold mbind, M_bind. by intros ->. Qed.

Lemma wp_and_imp {A} (m : M S A) (P : Prop) (Q1 Q2 : A -> S -> Prop) s :
  wp m Q1 s -> (P -> wp m Q2 s) -> wp m (fun a s' => Q1 a s' /\ (P -> Q2 a s')) s.
Proof. unfold wp. by destruct (m s). Qed.

(** [wpx m Q s]: the same for code that may also give up with [lgtd_err], which
    ends the process on purpose. *)
Definition wpx {A} (m : M S A) (Q : A -> S -> Prop) (s : S) : Prop :=
  match m s with
  | Ret a s' => Q a s'
  | Crash Exited => True
  | Crash _ => False
  end.

Lemma wpx_of_wp {A} (m : M S A) (Q : A -> S -> Prop) s : wp m Q s -> wpx m Q s.
Proof. unfold wp, wpx. by destruct (m s). Qed.

Lemma wpx_ret {A} (a : A) (Q : A -> S -> Prop) s : Q a s -> wpx (mret a) Q s.
Proof. done. Qed.

Lemma wpx_bind {A B} (m : M S A) (k : A -> M S B) Q s :
  wpx m (fun a => wpx (k a) Q) s -> wpx (m ≫= k) Q s.
Proof. unfold wpx, mbind, M_bind. by destruct (m s) as [|[]]. Qed.

Lemma wpx_bind_wp {A B} (m : M S A) (k : A -> M S B) Q s :
  wp m (fun a => wpx (k a) Q) s -> wpx (m ≫= k) Q s.
Proof. intros Hm. by apply wpx_bind, wpx_of_wp. Qed.

Lemma wpx_mono {A} (m : M S A) (P Q : A -> S -> Prop) s :
  wpx m P s -> (forall a s', P a s' -> Q a s') -> wpx m Q s.
Proof. unfold wpx. destruct (m s) as [|[]]; auto. Qed.

Lemma wpx_exit {A} (Q : A -> S -> Prop) s : wpx (mcrash Exited) Q s.
Proof. done. Qed.

(** [wpc C m Q s]: the same for code that may stop in the ways [C] allows. *)
Definition wpc {A} (C : crash -> Prop) (m : M S A) (Q : A -> S -> Prop) (s : S) : Prop :=
  match m s with
  | Ret a s' => Q a s'
  | Crash c => C c
  end.

Lemma wpc_of_wp {A} C (m : M S A) (Q : A -> S -> Prop) s : wp m Q s -> wpc C m Q s.
Proof. unfold wp, wpc. by destruct (m s). Qed.

Lemma wpc_of_wpx {A} (C : crash -> Prop) (m : M S A) (Q : A -> S -> Prop) s : C Exited -> wpx m Q s -> wpc C m Q s.
Proof. unfold wpx, wpc. by destruct (m s) as [|[]]. Qed.

Lemma wpc_ret {A} C (a : A) (Q : A -> S -> Prop) s : Q a s -> wpc C (mret a) Q s.
Proof. done. Qed.

Lemma wpc_bind {A B} C (m : M S A) (k : A -> M S B) Q s :
  wpc C m (fun a => wpc C (k a) Q) s -> wpc C (m ≫= k) Q s.
Proof. unfold wpc, mbind, M_bind. by destruct (m s). Qed.

Lemma wpc_bind_wp {A B} C (m : M S A) (k : A -> M S B) Q s :
  wp m (fun a => wpc C (k a) Q) s -> wpc C (m ≫= k) Q s.
Proof. intros Hm. by apply wpc_bind, wpc_of_wp. Qed.

Lemma wpc_mono {A} C (m : M S A) (P Q : A -> S -> Prop) s :
  wpc C m P s -> (forall a s', P a s' -> Q a s') -> wpc C m Q s.
Proof. unfold wpc. destruct (m s); auto. Qed.

Lemma wpc_weaken {A} (C D : crash -> Prop) (m : M S A) (Q : A -> S -> Prop) s :
  (forall c, C c -> D c) -> wpc C m Q s -> wpc D m Q s.
Proof. unfold wpc. destruct (m s); auto. Qed.

(** When [C] allows nothing. *)
Lemma wp_of_wpc {A} C (m : M S A) (Q : A -> S -> Prop) s : (forall c, ~ C c) -> wpc C m Q s -> wp m Q s.
Proof. intros HC. unfold wp, wpc. destruct (m s) as [|c]; [done|]. apply HC. Qed.

Lemma wpc_foreach {A} C (Inv : list A -> S -> Prop) (l : list A) body (Q : unit -> S -> Prop) s :
  Inv l s ->
  (forall x l' s, Inv (x :: l') s -> wpc C (body x) (fun _ => Inv l') s) ->
  (forall s, Inv [] s -> Q tt s) ->
  wpc C (mforeach l body) Q s.
Proof.
  intros Hl Hbody Hend. revert s Hl. induction l as [|x l IH]; intros s Hl; simpl; [by apply Hend|].
  apply wpc_bind. eapply wpc_mono; [by apply Hbody|]. intros a s' ?. by apply IH.
Qed.

Lemma wpx_foreach {A} (Inv : list A -> S -> Prop) (l : list A) body (Q : unit -> S -> Prop) s :
  Inv l s ->
  (forall x l' s, Inv (x :: l') s -> wpx (body x) (fun _ => Inv l') s) ->
  (forall s, Inv [] s -> Q tt s) ->
  wpx (mforeach l body) Q s.
Proof.
  intros Hl Hbody Hend. revert s Hl. induction l as [|x l IH]; intros s Hl; simpl; [by apply Hend|].
  apply wpx_bind. eapply wpx_mono; [by apply Hbody|]. intros a s' ?. by apply IH.
Qed.

Lemma wp_crash_false {A} c (Q : A -> S -> Prop) s : wp (mcrash c) Q s -> False.
Proof. done. Qed.

(** ** Code that does not look at a part of the state *)

(** Changing the state with [f] before [m] is changing it after. *)
Definition blind {A} (f : S -> S) (m : M S A) : Prop :=
  forall s, m (f s) = match m s with
                      | Ret a s' => Ret a (f s')
                      | Crash c => Crash c
                      end.

Lemma blind_ret {A} f (a : A) : blind f (mret a).
Proof. done. Qed.
Lemma blind_crash {A} f c : blind f (mcrash c : M S A).
Proof. done. Qed.

Lemma blind_bind {A B} f (m : M S A) (k : A -> M S B) : blind f m -> (forall a, blind f (k a)) -> blind f (m ≫= k).
Proof. intros Hm Hk s. unfold mbind, M_bind. rewrite Hm. destruct (m s) as [a s'|c]; [apply Hk|done]. Qed.

Lemma blind_get {B} f (k : S -> M S B) : (forall s, k (f s) = k s) -> (forall s, blind f (k s)) -> blind f (mget ≫= k).
Proof. intros He Hk s. unfold mbind, M_bind, mget. rewrite He. apply Hk. Qed.

Lemma blind_modify f g : (forall s, g (f s) = f (g s)) -> blind f (mmodify g).
Proof. intros Hg s. unfold mmodify. by rewrite Hg. Qed.

Lemma blind_assert f b : blind f (massert b).
Proof. by destruct b. Qed.
Lemma blind_deref {A} f (o : option A) : blind f (mderef o).
Proof. by destruct o. Qed.
Lemma blind_when f b m : blind f m -> blind f (mwhen b m).
Proof. intros Hm. by destruct b. Qed.

Lemma blind_foreach {A} f (l : list A) body : (forall x, blind f (body x)) -> blind f (mforeach l body).
Proof. intros Hb. induction l; [done|]. cbn [mforeach]. apply blind_bind; [apply Hb|done]. Qed.

Lemma wp_blind {A} f (m : M S A) s (Q : A -> S -> Prop) :
  blind f m -> wp m (fun a s' => Q a (f s')) s -> wp m Q (f s).
Proof. unfold wp. intros Hm. rewrite Hm. by destruct (m s). Qed.

(** ** What code keeps *)

(** Every run that returns is in the relation [R]. *)
Definition framed {A} (R : S -> S -> Prop) (m : M S A) : Prop :=
  forall s, match m s with
            | Ret _ s' => R s s'
            | Crash _ => True
            end.

Lemma framed_ret {A} R `{!Reflexive R} (a : A) : framed R (mret a).
Proof. exact (fun s => reflexivity s). Qed.
Lemma framed_crash {A} R c : framed R (mcrash c : M S A).
Proof. done. Qed.

Lemma framed_bind {A B} R `{!Transitive R} (m : M S A) (k : A -> M S B) :
  framed R m -> (forall a, framed R (k a)) -> framed R (m ≫= k).
Proof.
  intros Hm Hk s. unfold mbind, M_bind. specialize (Hm s). destruct (m s) as [a s'|]; [|done].
  specialize (Hk a s'). destruct (k a s') as [b s''|]; [|done]. by transitivity s'.
Qed.

Lemma framed_get R `{!Reflexive R} : framed R mget.
Proof. exact (fun s => reflexivity s). Qed.
Lemma framed_gets {A} R `{!Reflexive R} (f : S -> A) : framed R (mgets f).
Proof. exact (fun s => reflexivity s). Qed.
Lemma framed_modify R f : (forall s, R s (f s)) -> framed R (mmodify f).
Proof. exact (fun Hf s => Hf s). Qed.
Lemma framed_assert R `{!Reflexive R} b : framed R (massert b).
Proof. destruct b; [by apply framed_ret|apply framed_crash]. Qed.
Lemma framed_deref {A} R `{!Reflexive R} (o : option A) : framed R (mderef o).
Proof. destruct o; [by apply framed_ret|apply framed_crash]. Qed.
Lemma framed_when R `{!Reflexive R} b m : framed R m -> framed R (mwhen b m).
Proof. intros Hm. destruct b; [exact Hm|]. by apply framed_ret. Qed.

Lemma framed_foreach {A} R `{!Reflexive R, !Transitive R} (l : list A) body :
  (forall x, framed R (body x)) -> framed R (mforeach l body).
Proof. intros Hb. induction l; [by apply framed_ret|]. cbn [mforeach]. by apply framed_bind. Qed.

Lemma framed_foreach_while {A} R `{!Reflexive R, !Transitive R} (l : list A) body :
  (forall x, framed R (body x)) -> framed R (mforeach_while l body).
Proof.
  intros Hb. induction l; [by apply framed_ret|]. cbn [mforeach_while]. apply framed_bind; [done..|]. intros []; [done|]. by apply framed_ret.
Qed.

(** A frame is part of what a run gives. *)
Lemma wp_framed {A} R (m : M S A) (Q : A -> S -> Prop) s :
  framed R m -> wp m (fun a s' => R s s' -> Q a s') s -> wp m Q s.
Proof. intros Hf. specialize (Hf s). unfold wp. destruct (m s); [|done]. auto. Qed.

Lemma framed_run {A} R (m : M S A) s a s' : framed R m -> m s = Ret a s' -> R s s'.
Proof. intros Hm Hrun. specialize (Hm s). by rewrite Hrun in Hm. Qed.

End Monad.

Create HintDb frames.

(** Frames of code that is built from parts: the parts are in the database
    [frames], or the code is a loop with an induction hypothesis. *)
Ltac frame_step :=
  lazymatch goal with
  | |- forall _, _ => intros ?
  | |- framed _ (mret _) => apply framed_ret; apply _
  | |- framed _ (mcrash _) => apply framed_crash
  | |- framed _ (massert _) => apply framed_assert; apply _
  | |- framed _ (mderef _) => apply framed_deref; apply _
  | |- framed _ mget => apply framed_get; apply _
  | |- framed _ (mgets _) => apply framed_gets; apply _
  | |- framed _ (_ ≫= _) => apply framed_bind; [apply _|..]
  | |- framed _ (mforeach _ _) => apply framed_foreach; [apply _..|]
  | |- framed _ (mforeach_while _ _) => apply framed_foreach_while; [apply _..|]
  | |- framed _ (mwhen _ _) => apply framed_when; [apply _|]
  | |- framed _ (match ?x with _ => _ end) => destruct x
  | |- framed _ (let _ := _ in _) => cbv zeta
  | |- framed _ _ => solve [eauto with frames]
  end.
Ltac frame := repeat frame_step.

(** One step of a weakest-precondition proof. *)
Ltac wp_step :=
  lazymatch goal with
  | |- wp (mret _) _ _ => apply wp_ret
  | |- wp (_ ≫= _) _ _ => apply wp_bind
  | |- wp mget _ _ => apply wp_get
  | |- wp (mgets _) _ _ => apply wp_gets
  | |- wp (mput _) _ _ => apply wp_put
  | |- wp (mmodify _) _ _ => apply wp_modify
  end.
Ltac wp_steps := repeat (wp_step; cbv beta).

(** ** Machine integers *)

Definition u8 (z : Z) : Z := z mod 2 ^ 8.
Definition u16 (z : Z) : Z := z mod 2 ^ 16.
Definition u32 (z : Z) : Z := z mod 2 ^ 32.
Definition u64 (z : Z) : Z := z mod 2 ^ 64.

(** Conversion to a two's complement [int]. *)
Definition i32 (z : Z) : Z := (z + 2 ^ 31) mod 2 ^ 32 - 2 ^ 31.

(** ** Lists *)

Lemma alter_as_insert {A} (f : A -> A) (l : list A) (i : nat) (x : A) :
  l !! i = Some x -> alter f i l = <[i := f x]> l.
Proof.
  revert i. induction l as [|y l IH]; intros [|i] Hi; simpl in *; simplify_eq; [done|].
  f_equal. by apply IH.
Qed.

(** Removing an element by name, as [LIST_REMOVE] does. *)
Lemma filter_ne_id {A} `{!EqDecision A} (a : A) (l : list A) :
  a ∉ l -> filter (fun x => x <> a) l = l.
Proof.
  induction l as [|x l IH]; [done|]. intros [Hx Hl]%not_elem_of_cons.
  rewrite filter_cons, decide_True by congruence. by rewrite IH.
Qed.

Lemma length_filter_ne {A} `{!EqDecision A} (a : A) (l : list A) :
  NoDup l -> a ∈ l -> length l = S (length (filter (fun x => x <> a) l)).
Proof.
  induction l as [|x l IH]; [by intros _ ?%elem_of_nil|].
  intros [Hni Hnd]%NoDup_cons Hin. rewrite filter_cons. case_decide as Hx.
  - apply elem_of_cons in Hin as [->|Hin]; [done|]. simpl. by rewrite (IH Hnd Hin).
  - subst x. by rewrite filter_ne_id.
Qed.
