(* ===== verification/CLib.v ===== *)
(** * The parts of the C library the daemon calls

    Bytes are integers from 0 to 255 and memory is a list of them. This file
    has the byte images of integers in host memory and the conversions of
    [endian.h], the [string.h] functions on zero-terminated buffers, and
    [strtol] / [strtoull] of [stdlib.h] (on a host with 64-bit [long]). *)

From Stdlib Require Import ZArith Lia String Ascii.
From stdpp Require Import base tactics list.
From S2P Require Import Prelude.

(** ** Definitions *)

Definition is_byte (b : Z) : Prop := 0 <= b < 256.

(** The bytes of an ASCII literal. *)
Fixpoint bytes_of_string (s : string) : list Z :=
  match s with
  | EmptyString => []
  | String c s => Z.of_N (N_of_ascii c) :: bytes_of_string s
  end.

(** The same for JSON text: a literal with ['] where the text has a double
    quote. *)
Definition quoted (s : string) : list Z :=
  (fun b => if b =? 39 then 34 else b) <$> bytes_of_string s.

(** *** Integers in memory *)

(** [n] bytes of [x], least significant first. *)
Fixpoint le_bytes (n : nat) (x : Z) : list Z :=
  match n with
  | O => []
  | S n => x mod 256 :: le_bytes n (x / 256)
  end.

Fixpoint le_value (bs : list Z) : Z :=
  match bs with
  | [] => 0
  | b :: bs => b + 256 * le_value bs
  end.

(** [LGTD_BIG_ENDIAN_SYSTEM], which the build detects. *)
Class Endianness : Type := LGTD_BIG_ENDIAN_SYSTEM : bool.

Section Endian.
Context {E : Endianness}.

(** The image in host memory of an [n]-byte integer, and reading it back. *)
Definition store (n : nat) (x : Z) : list Z :=
  if LGTD_BIG_ENDIAN_SYSTEM then rev (le_bytes n x) else le_bytes n x.
Definition load (bs : list Z) : Z :=
  le_value (if LGTD_BIG_ENDIAN_SYSTEM then rev bs else bs).

Definition bswap (n : nat) (x : Z) : Z := le_value (rev (le_bytes n x)).
Definition htole (n : nat) (x : Z) : Z :=
  if LGTD_BIG_ENDIAN_SYSTEM then bswap n x else x.
Definition letoh (n : nat) (x : Z) : Z :=
  if LGTD_BIG_ENDIAN_SYSTEM then bswap n x else x.
Definition htobe64 (x : Z) : Z :=
  if LGTD_BIG_ENDIAN_SYSTEM then x else bswap 8 x.
End Endian.

Abbreviation htole16 := (htole 2).
Abbreviation htole32 := (htole 4).
Abbreviation htole64 := (htole 8).
Abbreviation le16toh := (letoh 2).
Abbreviation le32toh := (letoh 4).
Abbreviation le64toh := (letoh 8).

(** A field of [len] bytes at offset [off]. *)
Definition field (off len : nat) (bs : list Z) : list Z := take len (drop off bs).

(** *** Strings *)

(** The bytes before the terminator. *)
Fixpoint cstr (s : list Z) : list Z :=
  match s with
  | [] => []
  | b :: s => if b =? 0 then [] else b :: cstr s
  end.

Definition strlen (s : list Z) : Z := Z.of_nat (length (cstr s)).
Definition strcmp_eq (a b : list Z) : bool := bool_decide (cstr a = cstr b).

(** [memcmp(a, b, n) == 0]. *)
Definition memcmp_eq (a b : list Z) (n : nat) : bool := bool_decide (take n a = take n b).

(** [strncpy] into a zeroed array of [n] bytes that is never filled entirely:
    at most [n - 1] bytes are copied. *)
Definition strncpy_label (n : nat) (s : list Z) : list Z :=
  let c := take (n - 1) (cstr s) in c ++ replicate (n - length c) 0.

Definition isspace (c : Z) : bool := (c =? 32) || ((9 <=? c) && (c <=? 13)).
Definition isdigit (c : Z) : bool := (48 <=? c) && (c <=? 57).
Definition isxdigit (c : Z) : bool :=
  isdigit c || ((65 <=? c) && (c <=? 70)) || ((97 <=? c) && (c <=? 102)).
Definition digit_value (c : Z) : Z :=
  if isdigit c then c - 48 else if c <=? 70 then c - 55 else c - 87.

(** *** Numbers *)

(** Reads the longest run of digits: the value and the number of digits. *)
Fixpoint read_digits (base : Z) (isd : Z -> bool) (acc : Z) (s : list Z) : Z * nat :=
  match s with
  | c :: s' =>
    if isd c then
      let '(v, n) := read_digits base isd (acc * base + digit_value c) s' in (v, S n)
    else (acc, O)
  | [] => (acc, O)
  end.

Fixpoint skip_spaces (s : list Z) : nat :=
  match s with
  | c :: s' => if isspace c then S (skip_spaces s') else O
  | [] => O
  end.

(** A sign: its factor and its length. *)
Definition read_sign (s : list Z) : Z * nat :=
  match s with
  | c :: _ => if c =? 45 then (-1, 1%nat) else if c =? 43 then (1, 1%nat) else (1, O)
  | [] => (1, O)
  end.

Record strto_result : Type := {
  st_value : Z;
  st_endptr : nat;     (* offset of [*endptr] from the string *)
  st_erange : bool     (* [errno] was set to [ERANGE] *)
}.

Definition LONG_MAX : Z := 2 ^ 63 - 1.
Definition LONG_MIN : Z := - 2 ^ 63.
Definition ULLONG_MAX : Z := 2 ^ 64 - 1.

(** [strtol(s, &endptr, 10)]. *)
Definition strtol (s : list Z) : strto_result :=
  let sp := skip_spaces s in
  let '(sg, sl) := read_sign (drop sp s) in
  let '(v, n) := read_digits 10 isdigit 0 (drop (sp + sl) s) in
  if (n =? 0)%nat then {| st_value := 0; st_endptr := 0; st_erange := false |}
  else
    let v := sg * v in
    {| st_value := Z.max LONG_MIN (Z.min LONG_MAX v);
       st_endptr := sp + sl + n;
       st_erange := (v <? LONG_MIN) || (LONG_MAX <? v) |}.

(** An optional [0x] before a hexadecimal digit. *)
Definition read_0x (s : list Z) : nat :=
  match s with
  | z :: x :: d :: _ =>
    if (z =? 48) && ((x =? 120) || (x =? 88)) && isxdigit d then 2%nat else O
  | _ => O
  end.

(** [strtoull(s, &endptr, 16)]. *)
Definition strtoull16 (s : list Z) : strto_result :=
  let sp := skip_spaces s in
  let '(sg, sl) := read_sign (drop sp s) in
  let px := read_0x (drop (sp + sl) s) in
  let '(v, n) := read_digits 16 isxdigit 0 (drop (sp + sl + px) s) in
  if (n =? 0)%nat then {| st_value := 0; st_endptr := 0; st_erange := false |}
  else if ULLONG_MAX <? v then
    {| st_value := ULLONG_MAX; st_endptr := sp + sl + px + n; st_erange := true |}
  else
    {| st_value := u64 (sg * v); st_endptr := sp + sl + px + n; st_erange := false |}.

(** ** Lemmas on byte images *)

Lemma length_le_bytes n x : length (le_bytes n x) = n.
Proof. revert x. induction n; intros x; simpl; auto. Qed.

Lemma le_bytes_is_byte n x : Forall is_byte (le_bytes n x).
Proof.
  revert x. induction n; intros x; simpl; constructor; auto.
  apply Z.mod_pos_bound. lia.
Qed.

Lemma pow256_succ n : 256 ^ Z.of_nat (S n) = 256 * 256 ^ Z.of_nat n.
Proof. rewrite Nat2Z.inj_succ, Z.pow_succ_r; lia. Qed.

Lemma le_value_bytes n x : 0 <= x < 256 ^ Z.of_nat n -> le_value (le_bytes n x) = x.
Proof.
  revert x. induction n as [|n IH]; intros x Hx; simpl; [change (256 ^ Z.of_nat 0) with 1 in Hx; lia|].
  rewrite pow256_succ in Hx.
  rewrite IH; [pose proof (Z.div_mod x 256); lia|].
  split; [apply Z.div_pos; lia | apply Z.div_lt_upper_bound; lia].
Qed.

Lemma le_bytes_value bs : Forall is_byte bs -> le_bytes (length bs) (le_value bs) = bs.
Proof.
  induction 1 as [|b bs Hb _ IH]; simpl; [done|]. unfold is_byte in Hb.
  rewrite (Z.mul_comm 256), Z_mod_plus_full, Z.mod_small by lia.
  rewrite Z.div_add, Z.div_small, Z.add_0_l by lia. by rewrite IH.
Qed.

Lemma le_value_bound bs : Forall is_byte bs -> 0 <= le_value bs < 256 ^ Z.of_nat (length bs).
Proof.
  induction 1 as [|b bs Hb _ IH]; cbn [le_value length]; [lia|].
  rewrite pow256_succ. unfold is_byte in Hb. lia.
Qed.

Section EndianLemmas.
Context {E : Endianness}.

Lemma length_store n x : length (store n x) = n.
Proof. unfold store. destruct LGTD_BIG_ENDIAN_SYSTEM; rewrite ?length_rev; apply length_le_bytes. Qed.

Lemma store_is_byte n x : Forall is_byte (store n x).
Proof.
  unfold store. destruct LGTD_BIG_ENDIAN_SYSTEM; [apply Forall_rev|]; apply le_bytes_is_byte.
Qed.

Lemma load_store n x : 0 <= x < 256 ^ Z.of_nat n -> load (store n x) = x.
Proof.
  intros Hx. unfold load, store.
  destruct LGTD_BIG_ENDIAN_SYSTEM; rewrite ?rev_involutive; by apply le_value_bytes.
Qed.

Lemma store_load bs : Forall is_byte bs -> store (length bs) (load bs) = bs.
Proof.
  intros Hb. unfold load, store. destruct LGTD_BIG_ENDIAN_SYSTEM; [|by apply le_bytes_value].
  rewrite <- (length_rev bs), le_bytes_value by (by apply Forall_rev). apply rev_involutive.
Qed.

Lemma load_bound bs : Forall is_byte bs -> 0 <= load bs < 256 ^ Z.of_nat (length bs).
Proof.
  intros Hb. unfold load. destruct LGTD_BIG_ENDIAN_SYSTEM; [|by apply le_value_bound].
  rewrite <- (length_rev bs). apply le_value_bound. by apply Forall_rev.
Qed.

Lemma bswap_bound n x : 0 <= bswap n x < 256 ^ Z.of_nat n.
Proof.
  unfold bswap. rewrite <- (length_le_bytes n x) at 3. rewrite <- length_rev.
  apply le_value_bound, Forall_rev, le_bytes_is_byte.
Qed.

Lemma bswap_involutive n x : 0 <= x < 256 ^ Z.of_nat n -> bswap n (bswap n x) = x.
Proof.
  intros Hx. unfold bswap.
  assert (Hl : n = length (rev (le_bytes n x))) by (by rewrite length_rev, length_le_bytes).
  rewrite Hl at 1. rewrite le_bytes_value by (apply Forall_rev, le_bytes_is_byte).
  rewrite rev_involutive. by apply le_value_bytes.
Qed.

Lemma htole_bound n x : 0 <= x < 256 ^ Z.of_nat n -> 0 <= htole n x < 256 ^ Z.of_nat n.
Proof. intros Hx. unfold htole. destruct LGTD_BIG_ENDIAN_SYSTEM; [apply bswap_bound|done]. Qed.

Lemma letoh_htole n x : 0 <= x < 256 ^ Z.of_nat n -> letoh n (htole n x) = x.
Proof.
  intros Hx. unfold letoh, htole. destruct LGTD_BIG_ENDIAN_SYSTEM; [by apply bswap_involutive|done].
Qed.

(** What goes out: a field converted with [htole] is little endian in memory,
    whatever the host. *)
Lemma store_htole n x : store n (htole n x) = le_bytes n x.
Proof.
  unfold store, htole. destruct LGTD_BIG_ENDIAN_SYSTEM; [|done]. unfold bswap.
  assert (Hl : n = length (rev (le_bytes n x))) by (by rewrite length_rev, length_le_bytes).
  rewrite Hl at 1. rewrite le_bytes_value by (apply Forall_rev, le_bytes_is_byte).
  apply rev_involutive.
Qed.

(** What comes in: a field read and converted with [letoh] is the little endian
    value of its bytes. *)
Lemma letoh_load n bs : length bs = n -> Forall is_byte bs -> letoh n (load bs) = le_value bs.
Proof.
  intros Hl Hb. unfold letoh, load. destruct LGTD_BIG_ENDIAN_SYSTEM; [|done]. unfold bswap.
  assert (Hl' : n = length (rev bs)) by (by rewrite length_rev).
  rewrite Hl' at 1. rewrite le_bytes_value by (by apply Forall_rev). by rewrite rev_involutive.
Qed.

End EndianLemmas.

Create HintDb bytes.
#[export] Hint Resolve le_bytes_is_byte store_is_byte : bytes.

(** ** Lemmas on strings *)

Lemma cstr_app_zero s t : Forall (fun b => b <> 0) s -> cstr (s ++ 0 :: t) = s.
Proof. induction 1 as [|b s Hb _ IH]; simpl; [done|]. destruct (Z.eqb_spec b 0); [done|]. by rewrite IH. Qed.

Lemma cstr_nonzero s : Forall (fun b => b <> 0) (cstr s).
Proof.
  induction s as [|b s IH]; simpl; [constructor|].
  destruct (Z.eqb_spec b 0); [constructor|by constructor].
Qed.

Lemma cstr_id s : Forall (fun b => b <> 0) s -> cstr s = s.
Proof. induction 1 as [|b s Hb _ IH]; simpl; [done|]. destruct (Z.eqb_spec b 0); [done|]. by rewrite IH. Qed.

Lemma cstr_idemp s : cstr (cstr s) = cstr s.
Proof. apply cstr_id, cstr_nonzero. Qed.

Lemma length_strncpy_label n s : length (strncpy_label n s) = n \/ n = O.
Proof.
  destruct n as [|n]; [by right|left]. unfold strncpy_label.
  rewrite length_app, length_replicate, length_take. lia.
Qed.

Lemma cstr_strncpy_label n s : (0 < n)%nat -> cstr (strncpy_label n s) = take (n - 1) (cstr s).
Proof.
  intros Hn. unfold strncpy_label. set (c := take (n - 1) (cstr s)).
  assert (Hc : (length c < n)%nat) by (unfold c; rewrite length_take; lia).
  destruct (n - length c)%nat as [|k] eqn:Ek; [lia|]. simpl.
  apply cstr_app_zero. apply Forall_take, cstr_nonzero.
Qed.
