(* ===== verification/WireBits.v ===== *)
(** * Tag bit sets of the LIFX wire protocol

    A bulb or a gateway carries its tags as a 64-bit set. This file models the
    bit scanning of [lifx/wire_proto.h]: the de Bruijn multiplication that finds
    the lowest set bit, the step to the next tag id, and the loop macro
    [LGTD_LIFX_WIRE_FOREACH_TAG_ID] all tag code of the daemon is built on. *)

From Stdlib Require Import ZArith Lia.
From stdpp Require Import base tactics list.
From S2P Require Import Prelude.

(** ** Definitions *)

Definition LGTD_LIFX_DEBRUIJN_NUMBER : Z := 0x03f79d71b4cb0a89.

Definition LGTD_LIFX_DEBRUIJN_SEQUENCE : list Z :=
  [  0; 47;  1; 56; 48; 27;  2; 60;
    57; 49; 41; 37; 28; 16;  3; 61;
    54; 58; 35; 52; 50; 42; 21; 44;
    38; 32; 29; 23; 17; 11;  4; 62;
    46; 55; 26; 59; 40; 36; 15; 53;
    34; 51; 20; 43; 31; 22; 10; 45;
    25; 39; 14; 33; 19; 30;  9; 24;
    13; 18;  8; 12;  7;  6;  5; 63 ].

(** The table is read at a 6-bit index, so the default is never used. *)
Definition lgtd_lifx_wire_bitscan64_forward (n : Z) : Z :=
  if n =? 0 then -1
  else nth (Z.to_nat (Z.shiftr
         (u64 (Z.lxor n (u64 (n - 1)) * LGTD_LIFX_DEBRUIJN_NUMBER)) 58))
       LGTD_LIFX_DEBRUIJN_SEQUENCE (-1).

Definition lgtd_lifx_wire_next_tag_id (current_tag_id tags : Z) : Z :=
  if current_tag_id <? 63 then
    let tags := Z.land tags (u64 (Z.shiftl (2 ^ 64 - 1) (current_tag_id + 1))) in
    lgtd_lifx_wire_bitscan64_forward tags
  else -1.

Definition LGTD_LIFX_WIRE_TAG_ID_TO_VALUE (x : Z) : Z := u64 (Z.shiftl 1 x).

(** The ids the loop macro visits, in order, starting after [tag_id]. The loop
    ends when the next id is -1; [fuel] bounds the iterations. *)
Fixpoint foreach_tag_id_from (fuel : nat) (tag_id tags : Z) : list Z :=
  match fuel with
  | O => []
  | S fuel =>
    let next := lgtd_lifx_wire_next_tag_id tag_id tags in
    if next =? -1 then [] else next :: foreach_tag_id_from fuel next tags
  end.

(** 64 ids and the final test: 65 iterations are always enough. *)
Definition LGTD_LIFX_WIRE_FOREACH_TAG_ID (tags : Z) : list Z :=
  foreach_tag_id_from 65 (-1) tags.

(** The specification: the members of a bit set, in increasing order. *)
Definition tag_bits (tags : Z) : list Z :=
  filter (fun i => Z.testbit tags i = true) (Z.of_nat <$> seq 0 64).

(** [is_lowest_bit n i]: [i] is the lowest bit set in [n]. *)
Definition is_lowest_bit (n i : Z) : Prop :=
  0 <= i /\ Z.testbit n i = true /\ forall j, 0 <= j < i -> Z.testbit n j = false.

(** ** Lemmas *)

Lemma is_lowest_bit_unique n i j : is_lowest_bit n i -> is_lowest_bit n j -> i = j.
Proof.
  intros (Hi & Bi & Li) (Hj & Bj & Lj).
  destruct (Z.lt_trichotomy i j) as [?|[?|?]]; [|done|];
    [rewrite Lj in Bi by lia | rewrite Li in Bj by lia]; done.
Qed.

Lemma pos_lowest_bit p : exists i, is_lowest_bit (Zpos p) i.
Proof.
  induction p as [p _|p [i (Hi & Bi & Li)]|].
  - exists 0. split_and!; [lia|done|lia].
  - exists (i + 1). rewrite Pos2Z.inj_xO. split_and!; [lia| |].
    + by rewrite Z.add_1_r, Z.testbit_even_succ by lia.
    + intros j Hj. destruct (Z.eq_dec j 0) as [->|]; [by rewrite Z.testbit_even_0|].
      replace j with (Z.succ (j - 1)) by lia.
      rewrite Z.testbit_even_succ by lia. apply Li. lia.
  - exists 0. split_and!; [lia|done|lia].
Qed.

Lemma lowest_bit_exists n : 0 < n -> exists i, is_lowest_bit n i.
Proof. destruct n; [lia| |lia]. intros _. apply pos_lowest_bit. Qed.

Lemma testbit_bound n i w : 0 <= w -> 0 <= n < 2 ^ w -> Z.testbit n i = true -> i < w.
Proof.
  intros Hw Hn Hb. destruct (Z.lt_ge_cases i w) as [|Hge]; [done|].
  rewrite <- (Z.mod_small n (2 ^ w)), Z.mod_pow2_bits_high in Hb by lia. done.
Qed.

Lemma testbit_high n i : 0 <= n < 2 ^ 64 -> 64 <= i -> Z.testbit n i = false.
Proof.
  intros Hn Hi. destruct (Z.testbit n i) eqn:Hb; [|done].
  apply (testbit_bound n i 64) in Hb; lia.
Qed.

Lemma bits_below n : 0 <= n -> (forall i, 64 <= i -> Z.testbit n i = false) -> n < 2 ^ 64.
Proof.
  intros Hn Hb. destruct (Z.eq_dec n 0) as [->|Hnz]; [lia|].
  apply Z.log2_lt_pow2; [lia|]. destruct (Z.lt_ge_cases (Z.log2 n) 64) as [|Hge]; [done|].
  pose proof (Z.bit_log2 n ltac:(lia)) as Hl. by rewrite Hb in Hl.
Qed.

Lemma is_lowest_bit_mod n i :
  is_lowest_bit n i -> n mod 2 ^ (i + 1) = 2 ^ i.
Proof.
  intros (Hi & Bi & Li). apply Z.bits_inj'. intros j Hj.
  destruct (Z.lt_trichotomy j i) as [?|[->|?]].
  - rewrite Z.mod_pow2_bits_low, Li by lia. by rewrite Z.pow2_bits_false by lia.
  - rewrite Z.mod_pow2_bits_low by lia. by rewrite Bi, Z.pow2_bits_true.
  - rewrite Z.mod_pow2_bits_high by lia. by rewrite Z.pow2_bits_false by lia.
Qed.

(** Clearing the lowest set bit and everything below it by subtraction. *)
Lemma lxor_pred_lowest n i :
  is_lowest_bit n i -> Z.lxor n (n - 1) = Z.ones (i + 1).
Proof.
  intros Hl. pose proof (is_lowest_bit_mod n i Hl) as Hmod. destruct Hl as (Hi & _ & _).
  assert (Hp : 2 ^ (i + 1) = 2 * 2 ^ i) by (rewrite Z.pow_add_r; lia).
  assert (0 < 2 ^ i) by (apply Z.pow_pos_nonneg; lia).
  set (q := n / 2 ^ (i + 1)).
  assert (Hn : n = q * 2 ^ (i + 1) + 2 ^ i) by (pose proof (Z.div_mod n (2 ^ (i + 1))); unfold q; lia).
  assert (Hd : (n - 1) / 2 ^ (i + 1) = q)
    by (symmetry; apply (Z.div_unique_pos _ _ _ (2 ^ i - 1)); lia).
  assert (Hm : (n - 1) mod 2 ^ (i + 1) = 2 ^ i - 1)
    by (symmetry; apply (Z.mod_unique_pos _ _ q); lia).
  apply Z.bits_inj'. intros j Hj. rewrite Z.lxor_spec.
  destruct (Z.lt_ge_cases j (i + 1)) as [Hlt|Hge].
  - rewrite Z.ones_spec_low by lia.
    rewrite <- (Z.mod_pow2_bits_low n (i + 1) j), <- (Z.mod_pow2_bits_low (n - 1) (i + 1) j) by lia.
    rewrite Hmod, Hm, Z.sub_1_r, <- Z.ones_equiv.
    destruct (Z.eq_dec j i) as [->|].
    + by rewrite Z.pow2_bits_true, Z.ones_spec_high by lia.
    + by rewrite Z.pow2_bits_false, Z.ones_spec_low by lia.
  - rewrite Z.ones_spec_high by lia.
    replace j with (j - (i + 1) + (i + 1)) by lia.
    rewrite <- !Z.div_pow2_bits by lia. fold q. rewrite Hd. by rewrite xorb_nilpotent.
Qed.

(** The multiplication indexes the table at the right cell, for each of the 64
    possible masks. *)
Lemma debruijn_cells :
  Forall (fun i =>
    nth (Z.to_nat (Z.shiftr (u64 (Z.ones (i + 1) * LGTD_LIFX_DEBRUIJN_NUMBER)) 58))
      LGTD_LIFX_DEBRUIJN_SEQUENCE (-1) = i) (Z.of_nat <$> seq 0 64).
Proof. repeat (constructor; [vm_compute; reflexivity|]). constructor. Qed.

Lemma elem_of_ids i : i ∈ Z.of_nat <$> seq 0 64 <-> 0 <= i < 64.
Proof.
  rewrite list_elem_of_fmap. split.
  - intros (k & -> & Hk). rewrite elem_of_seq in Hk. lia.
  - intros Hi. exists (Z.to_nat i). rewrite elem_of_seq. lia.
Qed.

Lemma bitscan64_forward_lowest n i :
  0 < n < 2 ^ 64 -> is_lowest_bit n i -> lgtd_lifx_wire_bitscan64_forward n = i.
Proof.
  intros Hn Hl. unfold lgtd_lifx_wire_bitscan64_forward.
  destruct (Z.eqb_spec n 0); [lia|].
  assert (Hu : u64 (n - 1) = n - 1) by (unfold u64; apply Z.mod_small; lia).
  rewrite Hu, (lxor_pred_lowest _ _ Hl).
  pose proof debruijn_cells as Hc. rewrite Forall_forall in Hc. apply Hc, elem_of_ids.
  destruct Hl as (? & Hb & _). split; [done|]. by apply (testbit_bound n i 64); try lia.
Qed.

Lemma bitscan64_forward_zero : lgtd_lifx_wire_bitscan64_forward 0 = -1.
Proof. done. Qed.

(** The mask of the bits above [c]. *)
Lemma testbit_mask_above c j :
  -1 <= c < 63 -> 0 <= j ->
  Z.testbit (u64 (Z.shiftl (2 ^ 64 - 1) (c + 1))) j = bool_decide (c < j < 64).
Proof.
  intros Hc Hj. unfold u64. case_bool_decide as Hd.
  - rewrite Z.mod_pow2_bits_low, Z.shiftl_spec by lia.
    change (2 ^ 64 - 1) with (Z.ones 64). apply Z.ones_spec_low. lia.
  - destruct (Z.lt_ge_cases j 64).
    + rewrite Z.mod_pow2_bits_low by lia. rewrite Z.shiftl_spec_low by lia. done.
    + by rewrite Z.mod_pow2_bits_high by lia.
Qed.

Lemma u64_land_bound a b : 0 <= a < 2 ^ 64 -> 0 <= Z.land a b < 2 ^ 64.
Proof.
  intros Ha. split; [apply Z.land_nonneg; lia|].
  destruct (Z.eq_dec (Z.land a b) 0) as [->|Hnz]; [lia|].
  assert (0 <= Z.land a b) by (apply Z.land_nonneg; lia).
  apply Z.log2_lt_pow2; [lia|].
  apply (testbit_bound a _ 64); [lia..|].
  assert (Hb : Z.testbit (Z.land a b) (Z.log2 (Z.land a b)) = true) by (apply Z.bit_log2; lia).
  rewrite Z.land_spec in Hb. apply andb_true_iff in Hb as [Hb _]. exact Hb.
Qed.

(** What [next_tag_id] promises: the next member of the set, or -1. *)
Lemma next_tag_id_spec c tags :
  -1 <= c < 64 -> 0 <= tags < 2 ^ 64 ->
  let next := lgtd_lifx_wire_next_tag_id c tags in
  (next = -1 /\ forall j, c < j < 64 -> Z.testbit tags j = false)
  \/ (c < next < 64 /\ Z.testbit tags next = true
      /\ forall j, c < j < next -> Z.testbit tags j = false).
Proof.
  intros Hc Ht. cbv zeta. unfold lgtd_lifx_wire_next_tag_id.
  destruct (Z.ltb_spec c 63) as [Hlt|Hge]; [|left; split; [done|lia]].
  set (m := Z.land tags _).
  assert (Hm : forall j, 0 <= j -> Z.testbit m j = Z.testbit tags j && bool_decide (c < j < 64)).
  { intros j Hj. unfold m. by rewrite Z.land_spec, testbit_mask_above by lia. }
  assert (Hr : 0 <= m < 2 ^ 64) by (by apply u64_land_bound).
  clearbody m.
  destruct (Z.eq_dec m 0) as [E|Hnz].
  - left. rewrite E, bitscan64_forward_zero. split; [done|]. intros j Hj.
    specialize (Hm j ltac:(lia)). rewrite E, Z.testbit_0_l in Hm.
    rewrite bool_decide_eq_true_2, andb_true_r in Hm by lia. done.
  - right. destruct (lowest_bit_exists m ltac:(lia)) as [i Hi].
    rewrite (bitscan64_forward_lowest m i) by (done || lia).
    destruct Hi as (Hi0 & Hb & Hlow). rewrite Hm in Hb by done.
    apply andb_true_iff in Hb as [Hb Hci]. apply bool_decide_eq_true in Hci.
    split_and!; [lia|lia|done|]. intros j Hj. specialize (Hlow j ltac:(lia)).
    rewrite Hm in Hlow by lia. rewrite bool_decide_eq_true_2, andb_true_r in Hlow by lia. done.
Qed.

(** The members above [c]. *)
Definition tag_bits_above (c tags : Z) : list Z :=
  filter (fun i => Z.testbit tags i = true)
    (Z.of_nat <$> seq (Z.to_nat (c + 1)) (Z.to_nat (63 - c))).

Lemma filter_nil_ids tags a n :
  (forall j, Z.of_nat a <= j < Z.of_nat (a + n) -> Z.testbit tags j = false) ->
  filter (fun i => Z.testbit tags i = true) (Z.of_nat <$> seq a n) = [].
Proof.
  revert a. induction n as [|n IH]; intros a Hf; [done|]. csimpl.
  rewrite filter_cons_False by (rewrite Hf; [done|lia]).
  apply IH. intros j Hj. apply Hf. lia.
Qed.

Lemma tag_bits_above_none c tags :
  -1 <= c < 64 -> (forall j, c < j < 64 -> Z.testbit tags j = false) -> tag_bits_above c tags = [].
Proof. intros Hc Hf. apply filter_nil_ids. intros j Hj. apply Hf. lia. Qed.

Lemma tag_bits_above_some c i tags :
  -1 <= c < i -> i < 64 -> Z.testbit tags i = true ->
  (forall j, c < j < i -> Z.testbit tags j = false) ->
  tag_bits_above c tags = i :: tag_bits_above i tags.
Proof.
  intros Hc Hi Hb Hf. unfold tag_bits_above.
  replace (Z.to_nat (63 - c)) with (Z.to_nat (i - c - 1) + S (Z.to_nat (63 - i)))%nat by lia.
  rewrite seq_app, fmap_app, filter_app, filter_nil_ids by (intros j Hj; apply Hf; lia).
  replace (Z.to_nat (c + 1) + Z.to_nat (i - c - 1))%nat with (Z.to_nat i) by lia.
  csimpl. rewrite Z2Nat.id by lia. rewrite filter_cons_True by done.
  do 3 f_equal. f_equal. lia.
Qed.

Lemma foreach_tag_id_from_bits fuel c tags :
  -1 <= c < 64 -> 0 <= tags < 2 ^ 64 -> (64 - c <= Z.of_nat fuel)%Z ->
  foreach_tag_id_from fuel c tags = tag_bits_above c tags.
Proof.
  revert c. induction fuel as [|fuel IH]; intros c Hc Ht Hf; [lia|]. cbn [foreach_tag_id_from].
  destruct (next_tag_id_spec c tags Hc Ht) as [[-> Hn]|(Hn & Hb & Hlow)]; cbv zeta.
  - by rewrite tag_bits_above_none.
  - destruct (Z.eqb_spec (lgtd_lifx_wire_next_tag_id c tags) (-1)); [lia|].
    rewrite (tag_bits_above_some c (lgtd_lifx_wire_next_tag_id c tags)) by (done || lia).
    f_equal. apply IH; lia.
Qed.

Lemma foreach_tag_id_bits tags :
  0 <= tags < 2 ^ 64 -> LGTD_LIFX_WIRE_FOREACH_TAG_ID tags = tag_bits tags.
Proof. intros Ht. apply (foreach_tag_id_from_bits 65 (-1) tags); lia. Qed.

Lemma elem_of_tag_bits tags i : i ∈ tag_bits tags <-> 0 <= i < 64 /\ Z.testbit tags i = true.
Proof. unfold tag_bits. rewrite list_elem_of_filter, elem_of_ids. tauto. Qed.

Lemma NoDup_tag_bits tags : NoDup (tag_bits tags).
Proof.
  apply NoDup_filter, NoDup_fmap; [intros ??; lia | apply NoDup_seq].
Qed.

Lemma TAG_ID_TO_VALUE_pow x : 0 <= x < 64 -> LGTD_LIFX_WIRE_TAG_ID_TO_VALUE x = 2 ^ x.
Proof.
  intros Hx. unfold LGTD_LIFX_WIRE_TAG_ID_TO_VALUE, u64.
  rewrite Z.shiftl_1_l. apply Z.mod_small. split; [lia|].
  apply Z.pow_lt_mono_r; lia.
Qed.

(** Testing a tag of a set by masking. *)
Lemma land_TAG_ID_TO_VALUE tags x :
  0 <= x < 64 -> Z.land tags (LGTD_LIFX_WIRE_TAG_ID_TO_VALUE x) <> 0 <-> Z.testbit tags x = true.
Proof.
  intros Hx. rewrite TAG_ID_TO_VALUE_pow by done. split.
  - intros Hnz. destruct (Z.testbit tags x) eqn:E; [done|]. exfalso. apply Hnz.
    apply Z.bits_inj'. intros j Hj. rewrite Z.land_spec, Z.bits_0.
    destruct (Z.eq_dec j x) as [->|]; [by rewrite E|].
    rewrite Z.pow2_bits_false by lia. apply andb_false_r.
  - intros Hb Hz. apply (f_equal (fun z => Z.testbit z x)) in Hz.
    rewrite Z.land_spec, Hb, Z.pow2_bits_true, Z.bits_0 in Hz by lia. done.
Qed.

(** ** Properties *)

(** C39: on every non-zero 64-bit word the de Bruijn bit scan returns the index
    of the lowest set bit, and -1 on zero. *)
Theorem bitscan64_forward_correct (n : Z) (Hn : 0 <= n < 2 ^ 64) :
  (n = 0 /\ lgtd_lifx_wire_bitscan64_forward n = -1)
  \/ (0 <= lgtd_lifx_wire_bitscan64_forward n < 64
      /\ is_lowest_bit n (lgtd_lifx_wire_bitscan64_forward n)).
Proof.
  destruct (Z.eq_dec n 0) as [->|]; [by left|]. right.
  destruct (lowest_bit_exists n ltac:(lia)) as [i Hi].
  rewrite (bitscan64_forward_lowest n i) by (done || lia).
  split; [|done]. destruct Hi as (? & Hb & _). split; [done|].
  by apply (testbit_bound n i 64); try lia.
Qed.

Lemma bitscan64_forward_correct_witness :
  (0 <= 40 < 2 ^ 64) /\ is_lowest_bit 40 3.
Proof.
  split; [lia|].
  destruct (bitscan64_forward_correct 40 ltac:(lia)) as [[H _]|[_ H]]; [discriminate|exact H].
Defined.

(** The loop macro [LGTD_LIFX_WIRE_FOREACH_TAG_ID] ends within 65
    iterations and visits exactly the ids whose bit is set, each once and in
    increasing order; more fuel does not change what it visits. *)
Theorem foreach_tag_id_correct (tags : Z) (fuel : nat)
    (Ht : 0 <= tags < 2 ^ 64) (Hf : (65 <= fuel)%nat) :
  foreach_tag_id_from fuel (-1) tags = tag_bits tags
  /\ LGTD_LIFX_WIRE_FOREACH_TAG_ID tags = tag_bits tags.
Proof.
  split; [|by apply foreach_tag_id_bits].
  apply (foreach_tag_id_from_bits fuel (-1) tags); lia.
Qed.

Lemma foreach_tag_id_correct_witness :
  LGTD_LIFX_WIRE_FOREACH_TAG_ID (2 ^ 63 + 5) = [0; 2; 63].
Proof.
  rewrite (proj2 (foreach_tag_id_correct (2 ^ 63 + 5) 65 ltac:(lia) ltac:(lia))).
  vm_compute. reflexivity.
Defined.
