(* ===== verification/PacketInfo.v ===== *)
(** * LIFX packet types and the packet table

    The packet types of [lifx/wire_proto.h] and the table of
    [lgtd_lifx_wire_load_packet_info_map] in [lifx/wire_proto.c], which says for
    each packet the daemon knows its payload size and which functions decode,
    encode and handle it. The function pointers are values of three enumerated
    types; [WireProto] and [Gateway] interpret them. The red-black tree the
    table is loaded into is a finite map keyed by the numeric type. *)

From Stdlib Require Import ZArith Lia String.
From stdpp Require Import base tactics list gmap.
From S2P Require Import Prelude.

(** ** Packet types *)

Inductive lgtd_lifx_packet_type : Type :=
| LGTD_LIFX_SET_SITE | LGTD_LIFX_GET_PAN_GATEWAY | LGTD_LIFX_PAN_GATEWAY
| LGTD_LIFX_GET_TIME | LGTD_LIFX_SET_TIME | LGTD_LIFX_TIME_STATE
| LGTD_LIFX_GET_RESET_SWITCH_STATE | LGTD_LIFX_RESET_SWITCH_STATE | LGTD_LIFX_GET_DUMMY_PAYLOAD
| LGTD_LIFX_SET_DUMMY_PAYLOAD | LGTD_LIFX_STATE_DUMMY_PAYLOAD | LGTD_LIFX_GET_MESH_INFO
| LGTD_LIFX_MESH_INFO | LGTD_LIFX_GET_MESH_FIRMWARE | LGTD_LIFX_MESH_FIRMWARE
| LGTD_LIFX_GET_WIFI_INFO | LGTD_LIFX_WIFI_INFO | LGTD_LIFX_GET_WIFI_FIRMWARE_STATE
| LGTD_LIFX_WIFI_FIRMWARE_STATE | LGTD_LIFX_GET_POWER_STATE | LGTD_LIFX_SET_POWER_STATE
| LGTD_LIFX_POWER_STATE | LGTD_LIFX_GET_BULB_LABEL | LGTD_LIFX_SET_BULB_LABEL
| LGTD_LIFX_BULB_LABEL | LGTD_LIFX_GET_TAGS | LGTD_LIFX_SET_TAGS
| LGTD_LIFX_TAGS | LGTD_LIFX_GET_TAG_LABELS | LGTD_LIFX_SET_TAG_LABELS
| LGTD_LIFX_TAG_LABELS | LGTD_LIFX_GET_VERSION | LGTD_LIFX_VERSION_STATE
| LGTD_LIFX_GET_INFO | LGTD_LIFX_INFO_STATE | LGTD_LIFX_GET_MCU_RAIL_VOLTAGE
| LGTD_LIFX_MCU_RAIL_VOLTAGE | LGTD_LIFX_REBOOT | LGTD_LIFX_SET_FACTORY_TEST_MODE
| LGTD_LIFX_DISABLE_FACTORY_TEST_MODE | LGTD_LIFX_STATE_FACTORY_TEST_MODE | LGTD_LIFX_STATE_SITE
| LGTD_LIFX_STATE_REBOOT | LGTD_LIFX_SET_PAN_GATEWAY | LGTD_LIFX_ACK
| LGTD_LIFX_SET_FACTORY_RESET | LGTD_LIFX_STATE_FACTORY_RESET | LGTD_LIFX_GET_LOCATION
| LGTD_LIFX_SET_LOCATION | LGTD_LIFX_STATE_LOCATION | LGTD_LIFX_GET_GROUP
| LGTD_LIFX_SET_GROUP | LGTD_LIFX_STATE_GROUP | LGTD_LIFX_GET_OWNER
| LGTD_LIFX_SET_OWNER | LGTD_LIFX_STATE_OWNER | LGTD_LIFX_GET_FACTORY_TEST_MODE
| LGTD_LIFX_ECHO_REQUEST | LGTD_LIFX_ECHO_RESPONSE | LGTD_LIFX_GET_LIGHT_STATE
| LGTD_LIFX_SET_LIGHT_COLOR | LGTD_LIFX_SET_WAVEFORM | LGTD_LIFX_SET_DIM_ABSOLUTE
| LGTD_LIFX_SET_DIM_RELATIVE | LGTD_LIFX_SET_RGBW | LGTD_LIFX_LIGHT_STATUS
| LGTD_LIFX_GET_RAIL_VOLTAGE | LGTD_LIFX_STATE_RAIL_VOLTAGE | LGTD_LIFX_GET_TEMPERATURE
| LGTD_LIFX_STATE_TEMPERATURE | LGTD_LIFX_SET_CALIBRATION_COEFFICIENTS | LGTD_LIFX_SET_SIMPLE_EVENT
| LGTD_LIFX_GET_SIMPLE_EVENT | LGTD_LIFX_STATE_SIMPLE_EVENT | LGTD_LIFX_GET_POWER
| LGTD_LIFX_SET_POWER | LGTD_LIFX_STATE_POWER | LGTD_LIFX_SET_WAVEFORM_OPTIONAL
| LGTD_LIFX_CONNECT_PLAIN | LGTD_LIFX_CONNECT_KEY | LGTD_LIFX_STATE_CONNECT
| LGTD_LIFX_GET_AUTH_KEY | LGTD_LIFX_SET_AUTH_KEY | LGTD_LIFX_STATE_AUTH_KEY
| LGTD_LIFX_SET_KEEP_ALIVE | LGTD_LIFX_STATE_KEEP_ALIVE | LGTD_LIFX_SET_HOST
| LGTD_LIFX_GET_HOST | LGTD_LIFX_STATE_HOST | LGTD_LIFX_GET_WIFI_STATE
| LGTD_LIFX_SET_WIFI_STATE | LGTD_LIFX_WIFI_STATE | LGTD_LIFX_GET_ACCESS_POINTS
| LGTD_LIFX_SET_ACCESS_POINTS | LGTD_LIFX_STATE_ACCESS_POINTS | LGTD_LIFX_GET_ACCESS_POINT
| LGTD_LIFX_STATE_ACCESS_POINT | LGTD_LIFX_SET_ACCESS_POINT_BROADCAST | LGTD_LIFX_GET_AMBIENT_LIGHT
| LGTD_LIFX_STATE_AMBIENT_LIGHT | LGTD_LIFX_GET_DIMMER_VOLTAGE | LGTD_LIFX_STATE_DIMMER_VOLTAGE.

Definition packet_type_value (t : lgtd_lifx_packet_type) : Z :=
  match t with
  | LGTD_LIFX_SET_SITE => 0x01
  | LGTD_LIFX_GET_PAN_GATEWAY => 0x02
  | LGTD_LIFX_PAN_GATEWAY => 0x03
  | LGTD_LIFX_GET_TIME => 0x04
  | LGTD_LIFX_SET_TIME => 0x05
  | LGTD_LIFX_TIME_STATE => 0x06
  | LGTD_LIFX_GET_RESET_SWITCH_STATE => 0x07
  | LGTD_LIFX_RESET_SWITCH_STATE => 0x08
  | LGTD_LIFX_GET_DUMMY_PAYLOAD => 0x09
  | LGTD_LIFX_SET_DUMMY_PAYLOAD => 0x0a
  | LGTD_LIFX_STATE_DUMMY_PAYLOAD => 0x0b
  | LGTD_LIFX_GET_MESH_INFO => 0x0c
  | LGTD_LIFX_MESH_INFO => 0x0d
  | LGTD_LIFX_GET_MESH_FIRMWARE => 0x0e
  | LGTD_LIFX_MESH_FIRMWARE => 0x0f
  | LGTD_LIFX_GET_WIFI_INFO => 0x10
  | LGTD_LIFX_WIFI_INFO => 0x11
  | LGTD_LIFX_GET_WIFI_FIRMWARE_STATE => 0x12
  | LGTD_LIFX_WIFI_FIRMWARE_STATE => 0x13
  | LGTD_LIFX_GET_POWER_STATE => 0x14
  | LGTD_LIFX_SET_POWER_STATE => 0x15
  | LGTD_LIFX_POWER_STATE => 0x16
  | LGTD_LIFX_GET_BULB_LABEL => 0x17
  | LGTD_LIFX_SET_BULB_LABEL => 0x18
  | LGTD_LIFX_BULB_LABEL => 0x19
  | LGTD_LIFX_GET_TAGS => 0x1a
  | LGTD_LIFX_SET_TAGS => 0x1b
  | LGTD_LIFX_TAGS => 0x1c
  | LGTD_LIFX_GET_TAG_LABELS => 0x1d
  | LGTD_LIFX_SET_TAG_LABELS => 0x1e
  | LGTD_LIFX_TAG_LABELS => 0x1f
  | LGTD_LIFX_GET_VERSION => 0x20
  | LGTD_LIFX_VERSION_STATE => 0x21
  | LGTD_LIFX_GET_INFO => 0x22
  | LGTD_LIFX_INFO_STATE => 0x23
  | LGTD_LIFX_GET_MCU_RAIL_VOLTAGE => 0x24
  | LGTD_LIFX_MCU_RAIL_VOLTAGE => 0x25
  | LGTD_LIFX_REBOOT => 0x26
  | LGTD_LIFX_SET_FACTORY_TEST_MODE => 0x27
  | LGTD_LIFX_DISABLE_FACTORY_TEST_MODE => 0x28
  | LGTD_LIFX_STATE_FACTORY_TEST_MODE => 0x29
  | LGTD_LIFX_STATE_SITE => 0x2a
  | LGTD_LIFX_STATE_REBOOT => 0x2b
  | LGTD_LIFX_SET_PAN_GATEWAY => 0x2c
  | LGTD_LIFX_ACK => 0x2d
  | LGTD_LIFX_SET_FACTORY_RESET => 0x2e
  | LGTD_LIFX_STATE_FACTORY_RESET => 0x2f
  | LGTD_LIFX_GET_LOCATION => 0x30
  | LGTD_LIFX_SET_LOCATION => 0x31
  | LGTD_LIFX_STATE_LOCATION => 0x32
  | LGTD_LIFX_GET_GROUP => 0x33
  | LGTD_LIFX_SET_GROUP => 0x34
  | LGTD_LIFX_STATE_GROUP => 0x35
  | LGTD_LIFX_GET_OWNER => 0x36
  | LGTD_LIFX_SET_OWNER => 0x37
  | LGTD_LIFX_STATE_OWNER => 0x38
  | LGTD_LIFX_GET_FACTORY_TEST_MODE => 0x39
  | LGTD_LIFX_ECHO_REQUEST => 0x3a
  | LGTD_LIFX_ECHO_RESPONSE => 0x3b
  | LGTD_LIFX_GET_LIGHT_STATE => 0x65
  | LGTD_LIFX_SET_LIGHT_COLOR => 0x66
  | LGTD_LIFX_SET_WAVEFORM => 0x67
  | LGTD_LIFX_SET_DIM_ABSOLUTE => 0x68
  | LGTD_LIFX_SET_DIM_RELATIVE => 0x69
  | LGTD_LIFX_SET_RGBW => 0x6a
  | LGTD_LIFX_LIGHT_STATUS => 0x6b
  | LGTD_LIFX_GET_RAIL_VOLTAGE => 0x6c
  | LGTD_LIFX_STATE_RAIL_VOLTAGE => 0x6d
  | LGTD_LIFX_GET_TEMPERATURE => 0x6e
  | LGTD_LIFX_STATE_TEMPERATURE => 0x6f
  | LGTD_LIFX_SET_CALIBRATION_COEFFICIENTS => 0x70
  | LGTD_LIFX_SET_SIMPLE_EVENT => 0x71
  | LGTD_LIFX_GET_SIMPLE_EVENT => 0x72
  | LGTD_LIFX_STATE_SIMPLE_EVENT => 0x73
  | LGTD_LIFX_GET_POWER => 0x74
  | LGTD_LIFX_SET_POWER => 0x75
  | LGTD_LIFX_STATE_POWER => 0x76
  | LGTD_LIFX_SET_WAVEFORM_OPTIONAL => 0x77
  | LGTD_LIFX_CONNECT_PLAIN => 0xc9
  | LGTD_LIFX_CONNECT_KEY => 0xca
  | LGTD_LIFX_STATE_CONNECT => 0xcb
  | LGTD_LIFX_GET_AUTH_KEY => 0xcc
  | LGTD_LIFX_SET_AUTH_KEY => 0xcd
  | LGTD_LIFX_STATE_AUTH_KEY => 0xce
  | LGTD_LIFX_SET_KEEP_ALIVE => 0xcf
  | LGTD_LIFX_STATE_KEEP_ALIVE => 0xd0
  | LGTD_LIFX_SET_HOST => 0xd1
  | LGTD_LIFX_GET_HOST => 0xd2
  | LGTD_LIFX_STATE_HOST => 0xd3
  | LGTD_LIFX_GET_WIFI_STATE => 0x12d
  | LGTD_LIFX_SET_WIFI_STATE => 0x12e
  | LGTD_LIFX_WIFI_STATE => 0x12f
  | LGTD_LIFX_GET_ACCESS_POINTS => 0x130
  | LGTD_LIFX_SET_ACCESS_POINTS => 0x131
  | LGTD_LIFX_STATE_ACCESS_POINTS => 0x132
  | LGTD_LIFX_GET_ACCESS_POINT => 0x133
  | LGTD_LIFX_STATE_ACCESS_POINT => 0x134
  | LGTD_LIFX_SET_ACCESS_POINT_BROADCAST => 0x135
  | LGTD_LIFX_GET_AMBIENT_LIGHT => 0x191
  | LGTD_LIFX_STATE_AMBIENT_LIGHT => 0x192
  | LGTD_LIFX_GET_DIMMER_VOLTAGE => 0x193
  | LGTD_LIFX_STATE_DIMMER_VOLTAGE => 0x194
  end.

Definition all_packet_types : list lgtd_lifx_packet_type :=
  [ LGTD_LIFX_SET_SITE; LGTD_LIFX_GET_PAN_GATEWAY; LGTD_LIFX_PAN_GATEWAY;
    LGTD_LIFX_GET_TIME; LGTD_LIFX_SET_TIME; LGTD_LIFX_TIME_STATE;
    LGTD_LIFX_GET_RESET_SWITCH_STATE; LGTD_LIFX_RESET_SWITCH_STATE; LGTD_LIFX_GET_DUMMY_PAYLOAD;
    LGTD_LIFX_SET_DUMMY_PAYLOAD; LGTD_LIFX_STATE_DUMMY_PAYLOAD; LGTD_LIFX_GET_MESH_INFO;
    LGTD_LIFX_MESH_INFO; LGTD_LIFX_GET_MESH_FIRMWARE; LGTD_LIFX_MESH_FIRMWARE;
    LGTD_LIFX_GET_WIFI_INFO; LGTD_LIFX_WIFI_INFO; LGTD_LIFX_GET_WIFI_FIRMWARE_STATE;
    LGTD_LIFX_WIFI_FIRMWARE_STATE; LGTD_LIFX_GET_POWER_STATE; LGTD_LIFX_SET_POWER_STATE;
    LGTD_LIFX_POWER_STATE; LGTD_LIFX_GET_BULB_LABEL; LGTD_LIFX_SET_BULB_LABEL;
    LGTD_LIFX_BULB_LABEL; LGTD_LIFX_GET_TAGS; LGTD_LIFX_SET_TAGS;
    LGTD_LIFX_TAGS; LGTD_LIFX_GET_TAG_LABELS; LGTD_LIFX_SET_TAG_LABELS;
    LGTD_LIFX_TAG_LABELS; LGTD_LIFX_GET_VERSION; LGTD_LIFX_VERSION_STATE;
    LGTD_LIFX_GET_INFO; LGTD_LIFX_INFO_STATE; LGTD_LIFX_GET_MCU_RAIL_VOLTAGE;
    LGTD_LIFX_MCU_RAIL_VOLTAGE; LGTD_LIFX_REBOOT; LGTD_LIFX_SET_FACTORY_TEST_MODE;
    LGTD_LIFX_DISABLE_FACTORY_TEST_MODE; LGTD_LIFX_STATE_FACTORY_TEST_MODE; LGTD_LIFX_STATE_SITE;
    LGTD_LIFX_STATE_REBOOT; LGTD_LIFX_SET_PAN_GATEWAY; LGTD_LIFX_ACK;
    LGTD_LIFX_SET_FACTORY_RESET; LGTD_LIFX_STATE_FACTORY_RESET; LGTD_LIFX_GET_LOCATION;
    LGTD_LIFX_SET_LOCATION; LGTD_LIFX_STATE_LOCATION; LGTD_LIFX_GET_GROUP;
    LGTD_LIFX_SET_GROUP; LGTD_LIFX_STATE_GROUP; LGTD_LIFX_GET_OWNER;
    LGTD_LIFX_SET_OWNER; LGTD_LIFX_STATE_OWNER; LGTD_LIFX_GET_FACTORY_TEST_MODE;
    LGTD_LIFX_ECHO_REQUEST; LGTD_LIFX_ECHO_RESPONSE; LGTD_LIFX_GET_LIGHT_STATE;
    LGTD_LIFX_SET_LIGHT_COLOR; LGTD_LIFX_SET_WAVEFORM; LGTD_LIFX_SET_DIM_ABSOLUTE;
    LGTD_LIFX_SET_DIM_RELATIVE; LGTD_LIFX_SET_RGBW; LGTD_LIFX_LIGHT_STATUS;
    LGTD_LIFX_GET_RAIL_VOLTAGE; LGTD_LIFX_STATE_RAIL_VOLTAGE; LGTD_LIFX_GET_TEMPERATURE;
    LGTD_LIFX_STATE_TEMPERATURE; LGTD_LIFX_SET_CALIBRATION_COEFFICIENTS; LGTD_LIFX_SET_SIMPLE_EVENT;
    LGTD_LIFX_GET_SIMPLE_EVENT; LGTD_LIFX_STATE_SIMPLE_EVENT; LGTD_LIFX_GET_POWER;
    LGTD_LIFX_SET_POWER; LGTD_LIFX_STATE_POWER; LGTD_LIFX_SET_WAVEFORM_OPTIONAL;
    LGTD_LIFX_CONNECT_PLAIN; LGTD_LIFX_CONNECT_KEY; LGTD_LIFX_STATE_CONNECT;
    LGTD_LIFX_GET_AUTH_KEY; LGTD_LIFX_SET_AUTH_KEY; LGTD_LIFX_STATE_AUTH_KEY;
    LGTD_LIFX_SET_KEEP_ALIVE; LGTD_LIFX_STATE_KEEP_ALIVE; LGTD_LIFX_SET_HOST;
    LGTD_LIFX_GET_HOST; LGTD_LIFX_STATE_HOST; LGTD_LIFX_GET_WIFI_STATE;
    LGTD_LIFX_SET_WIFI_STATE; LGTD_LIFX_WIFI_STATE; LGTD_LIFX_GET_ACCESS_POINTS;
    LGTD_LIFX_SET_ACCESS_POINTS; LGTD_LIFX_STATE_ACCESS_POINTS; LGTD_LIFX_GET_ACCESS_POINT;
    LGTD_LIFX_STATE_ACCESS_POINT; LGTD_LIFX_SET_ACCESS_POINT_BROADCAST; LGTD_LIFX_GET_AMBIENT_LIGHT;
    LGTD_LIFX_STATE_AMBIENT_LIGHT; LGTD_LIFX_GET_DIMMER_VOLTAGE; LGTD_LIFX_STATE_DIMMER_VOLTAGE ].

Definition packet_type_of_value (z : Z) : option lgtd_lifx_packet_type :=
  List.find (fun t => packet_type_value t =? z) all_packet_types.

Lemma packet_type_of_to_value t : packet_type_of_value (packet_type_value t) = Some t.
Proof. destruct t; reflexivity. Qed.

#[export] Instance packet_type_value_inj : Inj (=) (=) packet_type_value.
Proof.
  intros a b E. apply (f_equal packet_type_of_value) in E.
  rewrite !packet_type_of_to_value in E. congruence.
Qed.

#[export] Instance packet_type_eq_dec : EqDecision lgtd_lifx_packet_type.
Proof.
  refine (fun a b => cast_if (decide (packet_type_value a = packet_type_value b)));
    [by apply (inj packet_type_value) | congruence].
Defined.

(** ** Packet information *)

(** [lgtd_lifx_wire_null_packet_encoder_decoder] and the decoders. *)
Inductive packet_decoder : Type :=
| D_null | D_ambient_light | D_ip_firmware_info | D_ip_state | D_light_status | D_pan_gateway | D_power_state | D_product_info | D_runtime_info | D_tag_labels | D_tags.

Inductive packet_encoder : Type :=
| E_null | E_light_color | E_pan_gateway | E_tag_labels | E_tags | E_waveform.

(** [lgtd_lifx_wire_null_packet_handler],
    [lgtd_lifx_wire_enosys_packet_handler] and the gateway's handlers. *)
Inductive packet_handler : Type :=
| H_null | H_enosys | H_ambient_light | H_bulb_label | H_ip_firmware_info | H_ip_state | H_light_status | H_pan_gateway | H_power_state | H_product_info | H_runtime_info | H_tag_labels | H_tags.

#[export] Instance packet_handler_eq_dec : EqDecision packet_handler.
Proof. solve_decision. Defined.

(** The sizes of the packed payload structs. *)
Definition sizeof_pan_gateway : Z := 5.
Definition sizeof_light_status : Z := 52.
Definition sizeof_power_state : Z := 2.
Definition sizeof_light_color : Z := 13.
Definition sizeof_waveform : Z := 21.
Definition sizeof_tags : Z := 8.
Definition sizeof_label : Z := 32.
Definition sizeof_tag_labels : Z := 40.
Definition sizeof_ip_state : Z := 14.
Definition sizeof_ip_firmware_info : Z := 20.
Definition sizeof_product_info : Z := 12.
Definition sizeof_runtime_info : Z := 24.
Definition sizeof_ambient_light : Z := 4.

Record lgtd_lifx_packet_info : Type := mk_packet_info {
  pi_name : string;
  pi_type : lgtd_lifx_packet_type;
  pi_size : Z;
  pi_decode : packet_decoder;
  pi_encode : packet_encoder;
  pi_handle : packet_handler
}.

(** Entries that only send, only receive, or are known and not implemented. *)
Definition REQUEST_ONLY (name : string) (type : lgtd_lifx_packet_type) (size : Z)
    (encode : packet_encoder) : lgtd_lifx_packet_info :=
  mk_packet_info name type size D_null encode H_null.
Definition RESPONSE_ONLY (name : string) (type : lgtd_lifx_packet_type) (size : Z)
    (decode : packet_decoder) (handle : packet_handler) : lgtd_lifx_packet_info :=
  mk_packet_info name type size decode E_null handle.
Definition UNIMPLEMENTED (name : string) (type : lgtd_lifx_packet_type) :
    lgtd_lifx_packet_info :=
  mk_packet_info name type 0 D_null E_null H_enosys.

Open Scope string_scope.

Definition gateway_packets : list lgtd_lifx_packet_info :=
  [ REQUEST_ONLY "GET_PAN_GATEWAY" LGTD_LIFX_GET_PAN_GATEWAY 0 E_null;
    mk_packet_info "PAN_GATEWAY" LGTD_LIFX_PAN_GATEWAY sizeof_pan_gateway
      D_pan_gateway E_pan_gateway H_pan_gateway;
    REQUEST_ONLY "SET_TAG_LABELS" LGTD_LIFX_SET_TAG_LABELS sizeof_tag_labels E_tag_labels;
    REQUEST_ONLY "GET_TAG_LABELS" LGTD_LIFX_GET_TAG_LABELS sizeof_tags E_tags;
    RESPONSE_ONLY "TAG_LABELS" LGTD_LIFX_TAG_LABELS sizeof_tag_labels
      D_tag_labels H_tag_labels ].

Definition bulb_packets : list lgtd_lifx_packet_info :=
  [ REQUEST_ONLY "SET_LIGHT_COLOR" LGTD_LIFX_SET_LIGHT_COLOR sizeof_light_color E_light_color;
    REQUEST_ONLY "SET_WAVEFORM" LGTD_LIFX_SET_WAVEFORM sizeof_waveform E_waveform;
    REQUEST_ONLY "GET_LIGHT_STATUS" LGTD_LIFX_GET_LIGHT_STATE 0 E_null;
    RESPONSE_ONLY "LIGHT_STATUS" LGTD_LIFX_LIGHT_STATUS sizeof_light_status
      D_light_status H_light_status;
    REQUEST_ONLY "SET_POWER_STATE" LGTD_LIFX_SET_POWER_STATE sizeof_power_state E_null;
    RESPONSE_ONLY "POWER_STATE" LGTD_LIFX_POWER_STATE sizeof_power_state
      D_power_state H_power_state;
    REQUEST_ONLY "SET_TAGS" LGTD_LIFX_SET_TAGS sizeof_tags E_tags;
    RESPONSE_ONLY "TAGS" LGTD_LIFX_TAGS sizeof_tags
      D_tags H_tags;
    REQUEST_ONLY "GET_MESH_INFO" LGTD_LIFX_GET_MESH_INFO 0 E_null;
    RESPONSE_ONLY "MESH_INFO" LGTD_LIFX_MESH_INFO sizeof_ip_state
      D_ip_state H_ip_state;
    REQUEST_ONLY "GET_MESH_FIRMWARE" LGTD_LIFX_GET_MESH_FIRMWARE 0 E_null;
    RESPONSE_ONLY "MESH_FIRMWARE" LGTD_LIFX_MESH_FIRMWARE sizeof_ip_firmware_info
      D_ip_firmware_info H_ip_firmware_info;
    REQUEST_ONLY "GET_WIFI_INFO" LGTD_LIFX_GET_WIFI_INFO 0 E_null;
    RESPONSE_ONLY "WIFI_INFO" LGTD_LIFX_WIFI_INFO sizeof_ip_state
      D_ip_state H_ip_state;
    REQUEST_ONLY "GET_WIFI_FIRMWARE_STATE" LGTD_LIFX_GET_WIFI_FIRMWARE_STATE 0 E_null;
    RESPONSE_ONLY "WIFI_FIRMWARE_STATE" LGTD_LIFX_WIFI_FIRMWARE_STATE sizeof_ip_firmware_info
      D_ip_firmware_info H_ip_firmware_info ].

Definition bulb_info_packets : list lgtd_lifx_packet_info :=
  [ REQUEST_ONLY "GET_VERSION" LGTD_LIFX_GET_VERSION 0 E_null;
    RESPONSE_ONLY "VERSION_STATE" LGTD_LIFX_VERSION_STATE sizeof_product_info
      D_product_info H_product_info;
    REQUEST_ONLY "GET_INFO" LGTD_LIFX_GET_INFO 0 E_null;
    RESPONSE_ONLY "INFO_STATE" LGTD_LIFX_INFO_STATE sizeof_runtime_info
      D_runtime_info H_runtime_info;
    REQUEST_ONLY "SET_BULB_LABEL" LGTD_LIFX_SET_BULB_LABEL sizeof_label E_null;
    RESPONSE_ONLY "BULB_LABEL" LGTD_LIFX_BULB_LABEL sizeof_label
      D_null H_bulb_label;
    REQUEST_ONLY "GET_AMBIENT_LIGHT" LGTD_LIFX_GET_AMBIENT_LIGHT 0 E_null;
    RESPONSE_ONLY "STATE_AMBIENT_LIGHT" LGTD_LIFX_STATE_AMBIENT_LIGHT sizeof_ambient_light
      D_ambient_light H_ambient_light ].

Definition unimplemented_device_packets : list lgtd_lifx_packet_info :=
  [ UNIMPLEMENTED "GET_TIME" LGTD_LIFX_GET_TIME;
    UNIMPLEMENTED "SET_TIME" LGTD_LIFX_SET_TIME;
    UNIMPLEMENTED "TIME_STATE" LGTD_LIFX_TIME_STATE;
    UNIMPLEMENTED "GET_RESET_SWITCH_STATE" LGTD_LIFX_GET_RESET_SWITCH_STATE;
    UNIMPLEMENTED "RESET_SWITCH_STATE" LGTD_LIFX_RESET_SWITCH_STATE;
    UNIMPLEMENTED "GET_DUMMY_PAYLOAD" LGTD_LIFX_GET_DUMMY_PAYLOAD;
    UNIMPLEMENTED "SET_DUMMY_PAYLOAD" LGTD_LIFX_SET_DUMMY_PAYLOAD;
    UNIMPLEMENTED "STATE_DUMMY_PAYLOAD" LGTD_LIFX_STATE_DUMMY_PAYLOAD;
    UNIMPLEMENTED "GET_BULB_LABEL" LGTD_LIFX_GET_BULB_LABEL;
    UNIMPLEMENTED "GET_MCU_RAIL_VOLTAGE" LGTD_LIFX_GET_MCU_RAIL_VOLTAGE;
    UNIMPLEMENTED "MCU_RAIL_VOLTAGE" LGTD_LIFX_MCU_RAIL_VOLTAGE;
    UNIMPLEMENTED "REBOOT" LGTD_LIFX_REBOOT;
    UNIMPLEMENTED "SET_FACTORY_TEST_MODE" LGTD_LIFX_SET_FACTORY_TEST_MODE;
    UNIMPLEMENTED "DISABLE_FACTORY_TEST_MODE" LGTD_LIFX_DISABLE_FACTORY_TEST_MODE;
    UNIMPLEMENTED "STATE_FACTORY_TEST_MODE" LGTD_LIFX_STATE_FACTORY_TEST_MODE;
    UNIMPLEMENTED "STATE_SITE" LGTD_LIFX_STATE_SITE;
    UNIMPLEMENTED "STATE_REBOOT" LGTD_LIFX_STATE_REBOOT;
    UNIMPLEMENTED "SET_PAN_GATEWAY" LGTD_LIFX_SET_PAN_GATEWAY;
    UNIMPLEMENTED "ACK" LGTD_LIFX_ACK ].

Definition unimplemented_group_packets : list lgtd_lifx_packet_info :=
  [ UNIMPLEMENTED "SET_FACTORY_RESET" LGTD_LIFX_SET_FACTORY_RESET;
    UNIMPLEMENTED "STATE_FACTORY_RESET" LGTD_LIFX_STATE_FACTORY_RESET;
    UNIMPLEMENTED "GET_LOCATION" LGTD_LIFX_GET_LOCATION;
    UNIMPLEMENTED "SET_LOCATION" LGTD_LIFX_SET_LOCATION;
    UNIMPLEMENTED "STATE_LOCATION" LGTD_LIFX_STATE_LOCATION;
    UNIMPLEMENTED "GET_GROUP" LGTD_LIFX_GET_GROUP;
    UNIMPLEMENTED "SET_GROUP" LGTD_LIFX_SET_GROUP;
    UNIMPLEMENTED "STATE_GROUP" LGTD_LIFX_STATE_GROUP;
    UNIMPLEMENTED "GET_OWNER" LGTD_LIFX_GET_OWNER;
    UNIMPLEMENTED "SET_OWNER" LGTD_LIFX_SET_OWNER;
    UNIMPLEMENTED "STATE_OWNER" LGTD_LIFX_STATE_OWNER;
    UNIMPLEMENTED "GET_FACTORY_TEST_MODE" LGTD_LIFX_GET_FACTORY_TEST_MODE;
    UNIMPLEMENTED "ECHO_REQUEST" LGTD_LIFX_ECHO_REQUEST;
    UNIMPLEMENTED "ECHO_RESPONSE" LGTD_LIFX_ECHO_RESPONSE ].

Definition unimplemented_light_packets : list lgtd_lifx_packet_info :=
  [ UNIMPLEMENTED "SET_DIM_ABSOLUTE" LGTD_LIFX_SET_DIM_ABSOLUTE;
    UNIMPLEMENTED "SET_DIM_RELATIVE" LGTD_LIFX_SET_DIM_RELATIVE;
    UNIMPLEMENTED "SET_RGBW" LGTD_LIFX_SET_RGBW;
    UNIMPLEMENTED "GET_RAIL_VOLTAGE" LGTD_LIFX_GET_RAIL_VOLTAGE;
    UNIMPLEMENTED "STATE_RAIL_VOLTAGE" LGTD_LIFX_STATE_RAIL_VOLTAGE;
    UNIMPLEMENTED "GET_TEMPERATURE" LGTD_LIFX_GET_TEMPERATURE;
    UNIMPLEMENTED "STATE_TEMPERATURE" LGTD_LIFX_STATE_TEMPERATURE;
    UNIMPLEMENTED "SET_CALIBRATION_COEFFICIENTS" LGTD_LIFX_SET_CALIBRATION_COEFFICIENTS;
    UNIMPLEMENTED "SET_SIMPLE_EVENT" LGTD_LIFX_SET_SIMPLE_EVENT;
    UNIMPLEMENTED "GET_SIMPLE_EVENT" LGTD_LIFX_GET_SIMPLE_EVENT;
    UNIMPLEMENTED "STATE_SIMPLE_EVENT" LGTD_LIFX_STATE_SIMPLE_EVENT;
    UNIMPLEMENTED "GET_POWER" LGTD_LIFX_GET_POWER;
    UNIMPLEMENTED "SET_POWER" LGTD_LIFX_SET_POWER;
    UNIMPLEMENTED "STATE_POWER" LGTD_LIFX_STATE_POWER;
    UNIMPLEMENTED "SET_WAVEFORM_OPTIONAL" LGTD_LIFX_SET_WAVEFORM_OPTIONAL;
    UNIMPLEMENTED "CONNECT_PLAIN" LGTD_LIFX_CONNECT_PLAIN;
    UNIMPLEMENTED "CONNECT_KEY" LGTD_LIFX_CONNECT_KEY;
    UNIMPLEMENTED "STATE_CONNECT" LGTD_LIFX_STATE_CONNECT;
    UNIMPLEMENTED "GET_AUTH_KEY" LGTD_LIFX_GET_AUTH_KEY ].

Definition unimplemented_wan_packets : list lgtd_lifx_packet_info :=
  [ UNIMPLEMENTED "SET_AUTH_KEY" LGTD_LIFX_SET_AUTH_KEY;
    UNIMPLEMENTED "STATE_AUTH_KEY" LGTD_LIFX_STATE_AUTH_KEY;
    UNIMPLEMENTED "SET_KEEP_ALIVE" LGTD_LIFX_SET_KEEP_ALIVE;
    UNIMPLEMENTED "STATE_KEEP_ALIVE" LGTD_LIFX_STATE_KEEP_ALIVE;
    UNIMPLEMENTED "SET_HOST" LGTD_LIFX_SET_HOST;
    UNIMPLEMENTED "GET_HOST" LGTD_LIFX_GET_HOST;
    UNIMPLEMENTED "STATE_HOST" LGTD_LIFX_STATE_HOST;
    UNIMPLEMENTED "GET_WIFI_STATE" LGTD_LIFX_GET_WIFI_STATE;
    UNIMPLEMENTED "SET_WIFI_STATE" LGTD_LIFX_SET_WIFI_STATE;
    UNIMPLEMENTED "WIFI_STATE" LGTD_LIFX_WIFI_STATE;
    UNIMPLEMENTED "GET_ACCESS_POINTS" LGTD_LIFX_GET_ACCESS_POINTS;
    UNIMPLEMENTED "SET_ACCESS_POINTS" LGTD_LIFX_SET_ACCESS_POINTS;
    UNIMPLEMENTED "STATE_ACCESS_POINTS" LGTD_LIFX_STATE_ACCESS_POINTS;
    UNIMPLEMENTED "GET_ACCESS_POINT" LGTD_LIFX_GET_ACCESS_POINT;
    UNIMPLEMENTED "STATE_ACCESS_POINT" LGTD_LIFX_STATE_ACCESS_POINT;
    UNIMPLEMENTED "SET_ACCESS_POINT_BROADCAST" LGTD_LIFX_SET_ACCESS_POINT_BROADCAST;
    UNIMPLEMENTED "GET_DIMMER_VOLTAGE" LGTD_LIFX_GET_DIMMER_VOLTAGE;
    UNIMPLEMENTED "STATE_DIMMER_VOLTAGE" LGTD_LIFX_STATE_DIMMER_VOLTAGE ].

Close Scope string_scope.

Definition packet_table : list lgtd_lifx_packet_info :=
  gateway_packets ++ bulb_packets ++ bulb_info_packets
  ++ unimplemented_device_packets ++ unimplemented_group_packets
  ++ unimplemented_light_packets ++ unimplemented_wan_packets.

(** [RB_INSERT]: an element whose key is in the tree already is not inserted. *)
Definition packet_info_insert (m : gmap Z lgtd_lifx_packet_info) (p : lgtd_lifx_packet_info) :
    gmap Z lgtd_lifx_packet_info :=
  match m !! packet_type_value (pi_type p) with
  | Some _ => m
  | None => <[packet_type_value (pi_type p) := p]> m
  end.

Definition lgtd_lifx_wire_load_packet_info_map : gmap Z lgtd_lifx_packet_info :=
  foldl packet_info_insert ∅ packet_table.

(** [RB_FIND]; none is the null pointer. *)
Definition lgtd_lifx_wire_get_packet_info (packet_type : Z) : option lgtd_lifx_packet_info :=
  lgtd_lifx_wire_load_packet_info_map !! packet_type.

(** The three types of the enumeration the table has no entry for. *)
Definition packet_types_without_info : list lgtd_lifx_packet_type :=
  [LGTD_LIFX_SET_SITE; LGTD_LIFX_GET_POWER_STATE; LGTD_LIFX_GET_TAGS].

(** ** Lemmas *)

Lemma elem_of_all_packet_types t : t ∈ all_packet_types.
Proof. destruct t; apply list_elem_of_In; simpl; tauto. Qed.

Lemma packet_info_insert_lookup m p z :
  packet_info_insert m p !! z =
    match m !! z with
    | Some q => Some q
    | None => if bool_decide (packet_type_value (pi_type p) = z) then Some p else None
    end.
Proof.
  unfold packet_info_insert. destruct (m !! packet_type_value (pi_type p)) eqn:Em.
  - destruct (m !! z) eqn:Ez; [done|]. case_bool_decide; [congruence|done].
  - rewrite lookup_insert. case_decide as Hd; case_bool_decide; try done.
    + subst z. by rewrite Em.
    + by destruct (m !! z).
Qed.

(** Loading a table: the first entry of a type is found. *)
Lemma foldl_packet_info_insert l m z :
  foldl packet_info_insert m l !! z =
    match m !! z with
    | Some q => Some q
    | None => List.find (fun p => packet_type_value (pi_type p) =? z) l
    end.
Proof.
  revert m. induction l as [|p l IH]; intros m; cbn [foldl List.find]; [by destruct (m !! z)|].
  rewrite IH, packet_info_insert_lookup. destruct (m !! z); [done|].
  destruct (Z.eqb_spec (packet_type_value (pi_type p)) z); case_bool_decide; done.
Qed.

Lemma get_packet_info_find z :
  lgtd_lifx_wire_get_packet_info z = List.find (fun p => packet_type_value (pi_type p) =? z) packet_table.
Proof.
  unfold lgtd_lifx_wire_get_packet_info, lgtd_lifx_wire_load_packet_info_map.
  by rewrite foldl_packet_info_insert, lookup_empty.
Qed.

Lemma get_packet_info_type z p :
  lgtd_lifx_wire_get_packet_info z = Some p -> packet_type_value (pi_type p) = z /\ p ∈ packet_table.
Proof.
  rewrite get_packet_info_find. intros [Hin Hz]%List.find_some.
  apply Z.eqb_eq in Hz. by rewrite list_elem_of_In.
Qed.

Lemma packet_table_found :
  Forall (fun p => List.find (fun q => packet_type_value (pi_type q) =? packet_type_value (pi_type p))
                     packet_table = Some p) packet_table.
Proof. repeat (constructor; [reflexivity|]). constructor. Qed.

Lemma packet_types_without_info_found :
  Forall (fun t => true =
    match List.find (fun q => packet_type_value (pi_type q) =? packet_type_value t) packet_table with
    | None => bool_decide (t ∈ packet_types_without_info)
    | Some _ => negb (bool_decide (t ∈ packet_types_without_info))
    end) all_packet_types.
Proof. repeat (constructor; [vm_compute; reflexivity|]). constructor. Qed.

Lemma packet_table_sizes p : p ∈ packet_table -> 0 <= pi_size p <= 52.
Proof.
  revert p. apply Forall_forall. repeat (constructor; [vm_compute; split; congruence|]). constructor.
Qed.

(** ** Properties *)

(** [lgtd_lifx_wire_get_packet_info] is exact on the packet table: every
    entry is found under its own type (no entry hides another), what is found
    has the type asked for, and a type of the enumeration has no entry only when
    it is SET_SITE, GET_POWER_STATE or GET_TAGS. *)
Theorem get_packet_info_correct :
  (forall p, p ∈ packet_table ->
     lgtd_lifx_wire_get_packet_info (packet_type_value (pi_type p)) = Some p)
  /\ (forall z p, lgtd_lifx_wire_get_packet_info z = Some p ->
       packet_type_value (pi_type p) = z /\ p ∈ packet_table)
  /\ (forall t, lgtd_lifx_wire_get_packet_info (packet_type_value t) = None
       <-> t ∈ packet_types_without_info).
Proof.
  split_and!.
  - intros p Hp. rewrite get_packet_info_find.
    pose proof packet_table_found as Hf. rewrite Forall_forall in Hf. by apply Hf.
  - apply get_packet_info_type.
  - intros t. rewrite get_packet_info_find. unfold packet_types_without_info.
    pose proof packet_types_without_info_found as Hf. rewrite Forall_forall in Hf.
    specialize (Hf t (elem_of_all_packet_types t)). fold packet_types_without_info.
    destruct (List.find _ _).
    + symmetry in Hf. apply negb_true_iff, bool_decide_eq_false in Hf. by split; intros H; [discriminate|].
    + symmetry in Hf. apply bool_decide_eq_true in Hf. done.
Qed.

(** The table is only searched by evaluation or through its lemmas. *)
#[global] Opaque lgtd_lifx_wire_get_packet_info.
