(* ===== verification/WireProto.v ===== *)
(** * The LIFX wire format

    The packet header and the payload structs of [lifx/wire_proto.h] with their
    memory images, and the functions of [lifx/wire_proto.c] that convert them
    between host and wire order and fill a header for sending. Everything is
    stated for both byte orders of the host. A [float] field is kept as its
    32-bit pattern. *)

From Stdlib Require Import ZArith Lia String.
From stdpp Require Import base tactics list gmap.
From S2P Require Import Prelude CLib PacketInfo.

(** ** Constants *)

Definition LGTD_LIFX_ADDR_LENGTH : nat := 6.
Definition LGTD_LIFX_LABEL_SIZE : nat := 32.
Definition LGTD_LIFX_PACKET_HEADER_SIZE : Z := 36.
Definition LGTD_LIFX_MAX_PACKET_SIZE : Z := 4096.
Definition LGTD_LIFX_PROTOCOL_V1 : Z := 0x400.
Definition LGTD_LIFX_POWER_OFF : Z := 0.
Definition LGTD_LIFX_POWER_ON : Z := 0xffff.
Definition LGTD_LIFX_ALL_TAGS : Z := 2 ^ 64 - 1.

Section Masks.
Context {E : Endianness}.
Definition LGTD_LIFX_PROTOCOL_VERSION_MASK : Z :=
  if LGTD_BIG_ENDIAN_SYSTEM then 0xff0f else 0x0fff.
Definition LGTD_LIFX_PROTOCOL_FLAGS_MASK : Z :=
  if LGTD_BIG_ENDIAN_SYSTEM then 0x00f0 else 0xf000.
Definition LGTD_LIFX_PROTOCOL_ADDRESSABLE : Z :=
  if LGTD_BIG_ENDIAN_SYSTEM then 0x0010 else 0x1000.
Definition LGTD_LIFX_PROTOCOL_TAGGED : Z :=
  if LGTD_BIG_ENDIAN_SYSTEM then 0x0020 else 0x2000.
End Masks.

(** [enum lgtd_lifx_flags]. *)
Definition LGTD_LIFX_FLAG_RES_REQUIRED : Z := 1.
Definition LGTD_LIFX_FLAG_ACK_REQUIRED : Z := 2.

(** [enum lgtd_lifx_header_flags], the argument of [encode_header]. *)
Definition LGTD_LIFX_ADDRESSABLE : Z := 1.
Definition LGTD_LIFX_TAGGED : Z := 2.
Definition LGTD_LIFX_ACK_REQUIRED : Z := 4.
Definition LGTD_LIFX_RES_REQUIRED : Z := 8.

Definition has_flag (v flag : Z) : bool := negb (Z.land v flag =? 0).

(** ** The header *)

(** Integer fields are the values a host reads from them. The target is the
    eight bytes of the union: [tags] reads all of them, [device_addr] is the
    first six. *)
Record lgtd_lifx_packet_header : Type := {
  hdr_size : Z;
  hdr_protocol : Z;
  hdr_source : Z;
  hdr_target : list Z;
  hdr_site : list Z;
  hdr_flags : Z;
  hdr_seqn : Z;
  hdr_at_time : Z;
  hdr_packet_type : Z;
  hdr_reserved : list Z
}.

Section Header.
Context {E : Endianness}.

Definition hdr_target_tags (h : lgtd_lifx_packet_header) : Z := load (hdr_target h).
Definition hdr_device_addr (h : lgtd_lifx_packet_header) : list Z :=
  take LGTD_LIFX_ADDR_LENGTH (hdr_target h).

(** The packed struct in memory. *)
Definition header_bytes (h : lgtd_lifx_packet_header) : list Z :=
  store 2 (hdr_size h) ++ store 2 (hdr_protocol h) ++ store 4 (hdr_source h)
  ++ hdr_target h ++ hdr_site h ++ [hdr_flags h] ++ [hdr_seqn h]
  ++ store 8 (hdr_at_time h) ++ store 2 (hdr_packet_type h) ++ hdr_reserved h.

Definition header_of_bytes (bs : list Z) : lgtd_lifx_packet_header := {|
  hdr_size := load (field 0 2 bs);
  hdr_protocol := load (field 2 2 bs);
  hdr_source := load (field 4 4 bs);
  hdr_target := field 8 8 bs;
  hdr_site := field 16 6 bs;
  hdr_flags := load (field 22 1 bs);
  hdr_seqn := load (field 23 1 bs);
  hdr_at_time := load (field 24 8 bs);
  hdr_packet_type := load (field 32 2 bs);
  hdr_reserved := field 34 2 bs
|}.

Definition lgtd_lifx_wire_encode_header (hdr : lgtd_lifx_packet_header) (flags : Z) :
    lgtd_lifx_packet_header :=
  let protocol := htole16 LGTD_LIFX_PROTOCOL_V1 in
  let protocol := if has_flag flags LGTD_LIFX_ADDRESSABLE
    then Z.lor protocol LGTD_LIFX_PROTOCOL_ADDRESSABLE else protocol in
  let '(protocol, target) := if has_flag flags LGTD_LIFX_TAGGED
    then (Z.lor protocol LGTD_LIFX_PROTOCOL_TAGGED,
          store 8 (htole64 (hdr_target_tags hdr)))
    else (protocol, hdr_target hdr) in
  let hflags := if has_flag flags LGTD_LIFX_ACK_REQUIRED
    then Z.lor (hdr_flags hdr) LGTD_LIFX_FLAG_ACK_REQUIRED else hdr_flags hdr in
  let hflags := if has_flag flags LGTD_LIFX_RES_REQUIRED
    then Z.lor hflags LGTD_LIFX_FLAG_RES_REQUIRED else hflags in
  {| hdr_size := htole16 (hdr_size hdr);
     hdr_protocol := protocol;
     hdr_source := htole32 (hdr_source hdr);
     hdr_target := target;
     hdr_site := hdr_site hdr;
     hdr_flags := hflags;
     hdr_seqn := hdr_seqn hdr;
     hdr_at_time := htole64 (hdr_at_time hdr);
     hdr_packet_type := htole16 (hdr_packet_type hdr);
     hdr_reserved := hdr_reserved hdr |}.

Definition lgtd_lifx_wire_decode_header (hdr : lgtd_lifx_packet_header) :
    lgtd_lifx_packet_header :=
  let protocol :=
    Z.lor (le16toh (Z.land (hdr_protocol hdr) LGTD_LIFX_PROTOCOL_VERSION_MASK))
          (Z.land (hdr_protocol hdr) LGTD_LIFX_PROTOCOL_FLAGS_MASK) in
  {| hdr_size := le16toh (hdr_size hdr);
     hdr_protocol := protocol;
     hdr_source := le32toh (hdr_source hdr);
     hdr_target :=
       if has_flag protocol LGTD_LIFX_PROTOCOL_TAGGED
       then store 8 (le64toh (hdr_target_tags hdr)) else hdr_target hdr;
     hdr_site := hdr_site hdr;
     hdr_flags := hdr_flags hdr;
     hdr_seqn := hdr_seqn hdr;
     hdr_at_time := le64toh (hdr_at_time hdr);
     hdr_packet_type := le16toh (hdr_packet_type hdr);
     hdr_reserved := hdr_reserved hdr |}.

Inductive lgtd_lifx_target_type : Type :=
| LGTD_LIFX_TARGET_SITE
| LGTD_LIFX_TARGET_TAGS
| LGTD_LIFX_TARGET_DEVICE
| LGTD_LIFX_TARGET_ALL_DEVICES.

(** [union lgtd_lifx_target]: an integer or a pointer to an address. *)
Inductive lgtd_lifx_target : Type :=
| target_tags (tags : Z)
| target_addr (addr : list Z).

(** The header in host order before [encode_header], with its flags; none when
    the union holds another member than the target type reads. *)
Definition fill_header (pkt_info : lgtd_lifx_packet_info) (client_id packet_type : Z)
    (target_type : lgtd_lifx_target_type) (target : lgtd_lifx_target) (site : option (list Z))
    : option (lgtd_lifx_packet_header * Z) :=
  let hdr := fun bytes8 => {|
    hdr_size := u16 (pi_size pkt_info + LGTD_LIFX_PACKET_HEADER_SIZE);
    hdr_protocol := 0;
    hdr_source := client_id;
    hdr_target := bytes8;
    hdr_site := default (replicate 6 0) site;
    hdr_flags := 0;
    hdr_seqn := 0;
    hdr_at_time := 0;
    hdr_packet_type := packet_type;
    hdr_reserved := replicate 2 0 |} in
  let flags := Z.lor LGTD_LIFX_ADDRESSABLE LGTD_LIFX_RES_REQUIRED in
  match target_type, target with
  | LGTD_LIFX_TARGET_SITE, _ | LGTD_LIFX_TARGET_ALL_DEVICES, _ =>
    Some (hdr (replicate 8 0), Z.lor flags LGTD_LIFX_TAGGED)
  | LGTD_LIFX_TARGET_TAGS, target_tags tags =>
    Some (hdr (store 8 tags), Z.lor flags LGTD_LIFX_TAGGED)
  | LGTD_LIFX_TARGET_DEVICE, target_addr addr =>
    Some (hdr (take LGTD_LIFX_ADDR_LENGTH addr ++ replicate 2 0), flags)
  | _, _ => None
  end.

(** [client_id] is the global [lgtd_lifx_client_id]. *)
Definition lgtd_lifx_wire_setup_header {S} (client_id : Z)
    (target_type : lgtd_lifx_target_type) (target : lgtd_lifx_target)
    (site : option (list Z)) (packet_type : lgtd_lifx_packet_type)
    : M S (lgtd_lifx_packet_header * lgtd_lifx_packet_info) :=
  massert (negb (client_id =? 0)) ;;
  match lgtd_lifx_wire_get_packet_info (packet_type_value packet_type) with
  | None => mcrash AssertFailed
  | Some pkt_info =>
    massert (match site, target_type with
             | None, LGTD_LIFX_TARGET_ALL_DEVICES => true
             | None, _ => false
             | Some _, _ => true
             end) ;;
    '(hdr, flags) ← mderef
      (fill_header pkt_info client_id (packet_type_value packet_type) target_type target site);
    mret (lgtd_lifx_wire_encode_header hdr flags, pkt_info)
  end.

End Header.

(** ** Payloads

    A record per packed struct, its image in memory and the struct read at an
    address; [label] fields are their 32 bytes. *)

Record lgtd_lifx_packet_light_status : Type := {
  ls_hue : Z;
  ls_saturation : Z;
  ls_brightness : Z;
  ls_kelvin : Z;
  ls_dim : Z;
  ls_power : Z;
  ls_label : list Z;
  ls_tags : Z
}.

Record lgtd_lifx_packet_power_state : Type := {
  ps_power : Z
}.

Record lgtd_lifx_packet_pan_gateway : Type := {
  pg_service_type : Z;
  pg_port : Z
}.

Record lgtd_lifx_packet_light_color : Type := {
  lc_stream : Z;
  lc_hue : Z;
  lc_saturation : Z;
  lc_brightness : Z;
  lc_kelvin : Z;
  lc_transition : Z
}.

Record lgtd_lifx_packet_waveform : Type := {
  wf_stream : Z;
  wf_transient : Z;
  wf_hue : Z;
  wf_saturation : Z;
  wf_brightness : Z;
  wf_kelvin : Z;
  wf_period : Z;
  wf_cycles : Z;
  wf_skew_ratio : Z;
  wf_waveform : Z
}.

Record lgtd_lifx_packet_tags : Type := {
  pt_tags : Z
}.

Record lgtd_lifx_packet_label : Type := {
  pl_label : list Z
}.

Record lgtd_lifx_packet_tag_labels : Type := {
  tl_tags : Z;
  tl_label : list Z
}.

Record lgtd_lifx_packet_ip_state : Type := {
  is_signal_strength : Z;
  is_tx_bytes : Z;
  is_rx_bytes : Z;
  is_temperature : Z
}.

Record lgtd_lifx_packet_ip_firmware_info : Type := {
  fw_built_at : Z;
  fw_installed_at : Z;
  fw_version : Z
}.

Record lgtd_lifx_packet_product_info : Type := {
  pr_vendor_id : Z;
  pr_product_id : Z;
  pr_version : Z
}.

Record lgtd_lifx_packet_runtime_info : Type := {
  ri_time : Z;
  ri_uptime : Z;
  ri_downtime : Z
}.

Record lgtd_lifx_packet_ambient_light : Type := {
  al_illuminance : Z
}.

Section Payloads.
Context {E : Endianness}.

Definition light_status_bytes (p : lgtd_lifx_packet_light_status) : list Z :=
  store 2 (ls_hue p) ++ store 2 (ls_saturation p) ++ store 2 (ls_brightness p)
  ++ store 2 (ls_kelvin p) ++ store 2 (ls_dim p) ++ store 2 (ls_power p) ++ ls_label p
  ++ store 8 (ls_tags p).
Definition light_status_of_bytes (bs : list Z) : lgtd_lifx_packet_light_status := {|
  ls_hue := load (field 0 2 bs);
  ls_saturation := load (field 2 2 bs);
  ls_brightness := load (field 4 2 bs);
  ls_kelvin := load (field 6 2 bs);
  ls_dim := load (field 8 2 bs);
  ls_power := load (field 10 2 bs);
  ls_label := field 12 32 bs;
  ls_tags := load (field 44 8 bs)
|}.

Definition power_state_bytes (p : lgtd_lifx_packet_power_state) : list Z :=
  store 2 (ps_power p).
Definition power_state_of_bytes (bs : list Z) : lgtd_lifx_packet_power_state := {|
  ps_power := load (field 0 2 bs)
|}.

Definition pan_gateway_bytes (p : lgtd_lifx_packet_pan_gateway) : list Z :=
  store 1 (pg_service_type p) ++ store 4 (pg_port p).
Definition pan_gateway_of_bytes (bs : list Z) : lgtd_lifx_packet_pan_gateway := {|
  pg_service_type := load (field 0 1 bs);
  pg_port := load (field 1 4 bs)
|}.

Definition light_color_bytes (p : lgtd_lifx_packet_light_color) : list Z :=
  store 1 (lc_stream p) ++ store 2 (lc_hue p) ++ store 2 (lc_saturation p)
  ++ store 2 (lc_brightness p) ++ store 2 (lc_kelvin p) ++ store 4 (lc_transition p).
Definition light_color_of_bytes (bs : list Z) : lgtd_lifx_packet_light_color := {|
  lc_stream := load (field 0 1 bs);
  lc_hue := load (field 1 2 bs);
  lc_saturation := load (field 3 2 bs);
  lc_brightness := load (field 5 2 bs);
  lc_kelvin := load (field 7 2 bs);
  lc_transition := load (field 9 4 bs)
|}.

Definition waveform_bytes (p : lgtd_lifx_packet_waveform) : list Z :=
  store 1 (wf_stream p) ++ store 1 (wf_transient p) ++ store 2 (wf_hue p)
  ++ store 2 (wf_saturation p) ++ store 2 (wf_brightness p) ++ store 2 (wf_kelvin p)
  ++ store 4 (wf_period p) ++ store 4 (wf_cycles p) ++ store 2 (wf_skew_ratio p)
  ++ store 1 (wf_waveform p).
Definition waveform_of_bytes (bs : list Z) : lgtd_lifx_packet_waveform := {|
  wf_stream := load (field 0 1 bs);
  wf_transient := load (field 1 1 bs);
  wf_hue := load (field 2 2 bs);
  wf_saturation := load (field 4 2 bs);
  wf_brightness := load (field 6 2 bs);
  wf_kelvin := load (field 8 2 bs);
  wf_period := load (field 10 4 bs);
  wf_cycles := load (field 14 4 bs);
  wf_skew_ratio := load (field 18 2 bs);
  wf_waveform := load (field 20 1 bs)
|}.

Definition tags_bytes (p : lgtd_lifx_packet_tags) : list Z :=
  store 8 (pt_tags p).
Definition tags_of_bytes (bs : list Z) : lgtd_lifx_packet_tags := {|
  pt_tags := load (field 0 8 bs)
|}.

Definition label_bytes (p : lgtd_lifx_packet_label) : list Z :=
  pl_label p.
Definition label_of_bytes (bs : list Z) : lgtd_lifx_packet_label := {|
  pl_label := field 0 32 bs
|}.

Definition tag_labels_bytes (p : lgtd_lifx_packet_tag_labels) : list Z :=
  store 8 (tl_tags p) ++ tl_label p.
Definition tag_labels_of_bytes (bs : list Z) : lgtd_lifx_packet_tag_labels := {|
  tl_tags := load (field 0 8 bs);
  tl_label := field 8 32 bs
|}.

Definition ip_state_bytes (p : lgtd_lifx_packet_ip_state) : list Z :=
  store 4 (is_signal_strength p) ++ store 4 (is_tx_bytes p) ++ store 4 (is_rx_bytes p)
  ++ store 2 (is_temperature p).
Definition ip_state_of_bytes (bs : list Z) : lgtd_lifx_packet_ip_state := {|
  is_signal_strength := load (field 0 4 bs);
  is_tx_bytes := load (field 4 4 bs);
  is_rx_bytes := load (field 8 4 bs);
  is_temperature := load (field 12 2 bs)
|}.

Definition ip_firmware_info_bytes (p : lgtd_lifx_packet_ip_firmware_info) : list Z :=
  store 8 (fw_built_at p) ++ store 8 (fw_installed_at p) ++ store 4 (fw_version p).
Definition ip_firmware_info_of_bytes (bs : list Z) : lgtd_lifx_packet_ip_firmware_info := {|
  fw_built_at := load (field 0 8 bs);
  fw_installed_at := load (field 8 8 bs);
  fw_version := load (field 16 4 bs)
|}.

Definition product_info_bytes (p : lgtd_lifx_packet_product_info) : list Z :=
  store 4 (pr_vendor_id p) ++ store 4 (pr_product_id p) ++ store 4 (pr_version p).
Definition product_info_of_bytes (bs : list Z) : lgtd_lifx_packet_product_info := {|
  pr_vendor_id := load (field 0 4 bs);
  pr_product_id := load (field 4 4 bs);
  pr_version := load (field 8 4 bs)
|}.

Definition runtime_info_bytes (p : lgtd_lifx_packet_runtime_info) : list Z :=
  store 8 (ri_time p) ++ store 8 (ri_uptime p) ++ store 8 (ri_downtime p).
Definition runtime_info_of_bytes (bs : list Z) : lgtd_lifx_packet_runtime_info := {|
  ri_time := load (field 0 8 bs);
  ri_uptime := load (field 8 8 bs);
  ri_downtime := load (field 16 8 bs)
|}.

Definition ambient_light_bytes (p : lgtd_lifx_packet_ambient_light) : list Z :=
  store 4 (al_illuminance p).
Definition ambient_light_of_bytes (bs : list Z) : lgtd_lifx_packet_ambient_light := {|
  al_illuminance := load (field 0 4 bs)
|}.

End Payloads.

Section Codecs.
Context {E : Endianness}.

Definition lgtd_lifx_wire_htolefloat (f : Z) : Z := htole32 f.
Definition lgtd_lifx_wire_lefloattoh (f : Z) : Z := le32toh f.

Definition lgtd_lifx_wire_decode_pan_gateway (p : lgtd_lifx_packet_pan_gateway) :
    lgtd_lifx_packet_pan_gateway :=
  {| pg_service_type := pg_service_type p; pg_port := le32toh (pg_port p) |}.
Definition lgtd_lifx_wire_encode_pan_gateway (p : lgtd_lifx_packet_pan_gateway) :
    lgtd_lifx_packet_pan_gateway :=
  {| pg_service_type := pg_service_type p; pg_port := htole32 (pg_port p) |}.

(** Anything that is not fully on is off. *)
Definition normalize_power (power : Z) : Z :=
  if negb (power =? LGTD_LIFX_POWER_ON) then LGTD_LIFX_POWER_OFF else power.

Definition lgtd_lifx_wire_decode_light_status (p : lgtd_lifx_packet_light_status) :
    lgtd_lifx_packet_light_status :=
  {| ls_hue := le16toh (ls_hue p);
     ls_saturation := le16toh (ls_saturation p);
     ls_brightness := le16toh (ls_brightness p);
     ls_kelvin := le16toh (ls_kelvin p);
     ls_dim := le16toh (ls_dim p);
     ls_power := normalize_power (ls_power p);
     ls_label := ls_label p;
     ls_tags := le64toh (ls_tags p) |}.

Definition lgtd_lifx_wire_decode_power_state (p : lgtd_lifx_packet_power_state) :
    lgtd_lifx_packet_power_state :=
  {| ps_power := normalize_power (ps_power p) |}.

Definition lgtd_lifx_wire_encode_light_color (p : lgtd_lifx_packet_light_color) :
    lgtd_lifx_packet_light_color :=
  {| lc_stream := lc_stream p;
     lc_hue := htole16 (lc_hue p);
     lc_saturation := htole16 (lc_saturation p);
     lc_brightness := htole16 (lc_brightness p);
     lc_kelvin := htole16 (lc_kelvin p);
     lc_transition := htole32 (lc_transition p) |}.

Definition lgtd_lifx_wire_encode_waveform (p : lgtd_lifx_packet_waveform) :
    lgtd_lifx_packet_waveform :=
  {| wf_stream := wf_stream p;
     wf_transient := wf_transient p;
     wf_hue := htole16 (wf_hue p);
     wf_saturation := htole16 (wf_saturation p);
     wf_brightness := htole16 (wf_brightness p);
     wf_kelvin := htole16 (wf_kelvin p);
     wf_period := htole32 (wf_period p);
     wf_cycles := lgtd_lifx_wire_htolefloat (wf_cycles p);
     wf_skew_ratio := htole16 (wf_skew_ratio p);
     wf_waveform := wf_waveform p |}.

Definition lgtd_lifx_wire_encode_tag_labels (p : lgtd_lifx_packet_tag_labels) :
    lgtd_lifx_packet_tag_labels :=
  {| tl_tags := htole64 (tl_tags p); tl_label := tl_label p |}.

(** The last byte of the label is overwritten with the terminator. *)
Definition lgtd_lifx_wire_decode_tag_labels (p : lgtd_lifx_packet_tag_labels) :
    lgtd_lifx_packet_tag_labels :=
  {| tl_tags := le64toh (tl_tags p);
     tl_label := <[(LGTD_LIFX_LABEL_SIZE - 1)%nat := 0]> (tl_label p) |}.

Definition lgtd_lifx_wire_encode_tags (p : lgtd_lifx_packet_tags) : lgtd_lifx_packet_tags :=
  {| pt_tags := htole64 (pt_tags p) |}.
Definition lgtd_lifx_wire_decode_tags (p : lgtd_lifx_packet_tags) : lgtd_lifx_packet_tags :=
  {| pt_tags := le64toh (pt_tags p) |}.

Definition lgtd_lifx_wire_decode_ip_state (p : lgtd_lifx_packet_ip_state) :
    lgtd_lifx_packet_ip_state :=
  {| is_signal_strength := lgtd_lifx_wire_lefloattoh (is_signal_strength p);
     is_tx_bytes := le32toh (is_tx_bytes p);
     is_rx_bytes := le32toh (is_rx_bytes p);
     is_temperature := le16toh (is_temperature p) |}.

Definition lgtd_lifx_wire_decode_ip_firmware_info (p : lgtd_lifx_packet_ip_firmware_info) :
    lgtd_lifx_packet_ip_firmware_info :=
  {| fw_built_at := le64toh (fw_built_at p);
     fw_installed_at := le64toh (fw_installed_at p);
     fw_version := le32toh (fw_version p) |}.

Definition lgtd_lifx_wire_decode_product_info (p : lgtd_lifx_packet_product_info) :
    lgtd_lifx_packet_product_info :=
  {| pr_vendor_id := le32toh (pr_vendor_id p);
     pr_product_id := le32toh (pr_product_id p);
     pr_version := le32toh (pr_version p) |}.

Definition lgtd_lifx_wire_decode_runtime_info (p : lgtd_lifx_packet_runtime_info) :
    lgtd_lifx_packet_runtime_info :=
  {| ri_time := le64toh (ri_time p);
     ri_uptime := le64toh (ri_uptime p);
     ri_downtime := le64toh (ri_downtime p) |}.

Definition lgtd_lifx_wire_decode_ambient_light (p : lgtd_lifx_packet_ambient_light) :
    lgtd_lifx_packet_ambient_light :=
  {| al_illuminance := lgtd_lifx_wire_lefloattoh (al_illuminance p) |}.

(** [pkt_info->decode(pkt)]: the decoder rewrites the struct at the start of
    the payload memory. *)
Definition packet_decode (d : packet_decoder) (mem : list Z) : list Z :=
  let write := fun image => image ++ drop (length image) mem in
  match d with
  | D_null => mem
  | D_pan_gateway =>
    write (pan_gateway_bytes (lgtd_lifx_wire_decode_pan_gateway (pan_gateway_of_bytes mem)))
  | D_light_status =>
    write (light_status_bytes (lgtd_lifx_wire_decode_light_status (light_status_of_bytes mem)))
  | D_power_state =>
    write (power_state_bytes (lgtd_lifx_wire_decode_power_state (power_state_of_bytes mem)))
  | D_tag_labels =>
    write (tag_labels_bytes (lgtd_lifx_wire_decode_tag_labels (tag_labels_of_bytes mem)))
  | D_tags => write (tags_bytes (lgtd_lifx_wire_decode_tags (tags_of_bytes mem)))
  | D_ip_state =>
    write (ip_state_bytes (lgtd_lifx_wire_decode_ip_state (ip_state_of_bytes mem)))
  | D_ip_firmware_info =>
    write (ip_firmware_info_bytes
             (lgtd_lifx_wire_decode_ip_firmware_info (ip_firmware_info_of_bytes mem)))
  | D_product_info =>
    write (product_info_bytes (lgtd_lifx_wire_decode_product_info (product_info_of_bytes mem)))
  | D_runtime_info =>
    write (runtime_info_bytes (lgtd_lifx_wire_decode_runtime_info (runtime_info_of_bytes mem)))
  | D_ambient_light =>
    write (ambient_light_bytes
             (lgtd_lifx_wire_decode_ambient_light (ambient_light_of_bytes mem)))
  end.

End Codecs.

(** ** Waveforms *)

Inductive lgtd_lifx_waveform_type : Type :=
| LGTD_LIFX_WAVEFORM_SAW
| LGTD_LIFX_WAVEFORM_SINE
| LGTD_LIFX_WAVEFORM_HALF_SINE
| LGTD_LIFX_WAVEFORM_TRIANGLE
| LGTD_LIFX_WAVEFORM_SQUARE
| LGTD_LIFX_WAVEFORM_INVALID.

Definition waveform_value (w : lgtd_lifx_waveform_type) : Z :=
  match w with
  | LGTD_LIFX_WAVEFORM_SAW => 0
  | LGTD_LIFX_WAVEFORM_SINE => 1
  | LGTD_LIFX_WAVEFORM_HALF_SINE => 2
  | LGTD_LIFX_WAVEFORM_TRIANGLE => 3
  | LGTD_LIFX_WAVEFORM_SQUARE => 4
  | LGTD_LIFX_WAVEFORM_INVALID => 5
  end.

Open Scope string_scope.
Definition lgtd_lifx_waveform_table : list (list Z * lgtd_lifx_waveform_type) :=
  [ (bytes_of_string "SAW", LGTD_LIFX_WAVEFORM_SAW);
    (bytes_of_string "SINE", LGTD_LIFX_WAVEFORM_SINE);
    (bytes_of_string "HALF_SINE", LGTD_LIFX_WAVEFORM_HALF_SINE);
    (bytes_of_string "TRIANGLE", LGTD_LIFX_WAVEFORM_TRIANGLE);
    (bytes_of_string "SQUARE", LGTD_LIFX_WAVEFORM_SQUARE);
    (bytes_of_string "INVALID", LGTD_LIFX_WAVEFORM_INVALID) ].
Close Scope string_scope.

(** The first entry of the same length and the same bytes. *)
Fixpoint waveform_lookup (table : list (list Z * lgtd_lifx_waveform_type)) (s : list Z) (len : nat) :
    lgtd_lifx_waveform_type :=
  match table with
  | [] => LGTD_LIFX_WAVEFORM_INVALID
  | (str, w) :: table =>
    if (length str =? len)%nat && memcmp_eq str s len then w else waveform_lookup table s len
  end.

Definition lgtd_lifx_wire_waveform_string_id_to_type (s : list Z) (len : nat) :
    lgtd_lifx_waveform_type :=
  waveform_lookup lgtd_lifx_waveform_table s len.

(** ** Specifications *)

(** A buffer of exactly [n] bytes. *)
Definition is_bytes (n : nat) (bs : list Z) : Prop := length bs = n /\ Forall is_byte bs.

(** A header whose fields have the widths of the struct. *)
Record wf_header (h : lgtd_lifx_packet_header) : Prop := {
  wf_hdr_size : 0 <= hdr_size h < 2 ^ 16;
  wf_hdr_source : 0 <= hdr_source h < 2 ^ 32;
  wf_hdr_target : is_bytes 8 (hdr_target h);
  wf_hdr_site : is_bytes 6 (hdr_site h);
  wf_hdr_at_time : 0 <= hdr_at_time h < 2 ^ 64;
  wf_hdr_packet_type : 0 <= hdr_packet_type h < 2 ^ 16
}.

(** The header as the protocol defines it, byte by byte, from its logical
    content: version 0x400, the addressable bit (12) always, the tagged bit (13)
    when the target is a tag set, a response required, no sequence number. *)
Definition wire_header (size source : Z) (tagged : bool) (target site : list Z) (ptype : Z) : list Z :=
  le_bytes 2 size ++ le_bytes 2 (if tagged then 0x3400 else 0x1400)
  ++ le_bytes 4 source ++ target ++ site ++ [1] ++ [0] ++ le_bytes 8 0
  ++ le_bytes 2 ptype ++ [0; 0].

Definition target_is_tagged (t : lgtd_lifx_target_type) : bool :=
  match t with LGTD_LIFX_TARGET_DEVICE => false | _ => true end.

(** The eight target bytes on the wire. *)
Definition wire_target (t : lgtd_lifx_target_type) (target : lgtd_lifx_target) : option (list Z) :=
  match t, target with
  | LGTD_LIFX_TARGET_SITE, _ | LGTD_LIFX_TARGET_ALL_DEVICES, _ => Some (replicate 8 0)
  | LGTD_LIFX_TARGET_TAGS, target_tags tags => Some (le_bytes 8 tags)
  | LGTD_LIFX_TARGET_DEVICE, target_addr addr =>
    Some (take LGTD_LIFX_ADDR_LENGTH addr ++ replicate 2 0)
  | _, _ => None
  end.

(** ** Lemmas *)

Lemma field_head a b n : length a = n -> field 0 n (a ++ b) = a.
Proof. intros <-. unfold field. rewrite drop_0. apply take_app_length. Qed.

Lemma field_skip a b off n :
  (length a <= off)%nat -> field off n (a ++ b) = field (off - length a) n b.
Proof.
  intros Hl. unfold field. rewrite drop_app_ge by done. done.
Qed.

Lemma field_exact a n : length a = n -> field 0 n a = a.
Proof. intros <-. unfold field. rewrite drop_0. apply firstn_all. Qed.

Lemma field_is_bytes off n bs :
  (off + n <= length bs)%nat -> Forall is_byte bs -> is_bytes n (field off n bs).
Proof.
  intros Hl Hb. unfold field. split; [rewrite length_take, length_drop; lia|].
  by apply Forall_take, Forall_drop.
Qed.

(** Reads a field of a concatenation of stored fields. *)
Ltac read_field :=
  repeat first
    [ rewrite field_head by (rewrite ?length_store; try assumption; try reflexivity; lia)
    | rewrite field_exact by (rewrite ?length_store; try assumption; try reflexivity; lia)
    | rewrite field_skip by (rewrite ?length_store; simpl; lia);
      rewrite ?length_store; cbn [Nat.sub length] ].

Section Lemmas.
Context {E : Endianness}.

Lemma load_store_htole64 t : is_bytes 8 t -> store 8 (le64toh (load (store 8 (htole64 (load t))))) = t.
Proof.
  intros [Hl Hb].
  assert (Hr : 0 <= load t < 256 ^ Z.of_nat 8) by (rewrite <- Hl; by apply load_bound).
  rewrite load_store by (by apply htole_bound).
  rewrite letoh_htole by done. rewrite <- Hl. by apply store_load.
Qed.

Lemma length_header_bytes h : wf_header h -> length (hdr_reserved h) = 2%nat ->
  length (header_bytes h) = 36%nat.
Proof.
  intros [] Hr. unfold header_bytes. rewrite !length_app, !length_store.
  destruct wf_hdr_target0 as [-> _], wf_hdr_site0 as [-> _]. by rewrite Hr.
Qed.

(** The protocol word after encoding and decoding, for every choice of flags. *)
Lemma protocol_roundtrip (adr tag : bool) :
  let p := htole16 LGTD_LIFX_PROTOCOL_V1 in
  let p := if adr then Z.lor p LGTD_LIFX_PROTOCOL_ADDRESSABLE else p in
  let p := if tag then Z.lor p LGTD_LIFX_PROTOCOL_TAGGED else p in
  let q := Z.lor (le16toh (Z.land p LGTD_LIFX_PROTOCOL_VERSION_MASK))
             (Z.land p LGTD_LIFX_PROTOCOL_FLAGS_MASK) in
  has_flag q LGTD_LIFX_PROTOCOL_TAGGED = tag
  /\ has_flag q LGTD_LIFX_PROTOCOL_ADDRESSABLE = adr
  /\ Z.land q LGTD_LIFX_PROTOCOL_VERSION_MASK = LGTD_LIFX_PROTOCOL_V1
  /\ store 2 p = le_bytes 2 (0x400 + (if adr then 0x1000 else 0) + (if tag then 0x2000 else 0)).
Proof.
  unfold LGTD_LIFX_PROTOCOL_ADDRESSABLE, LGTD_LIFX_PROTOCOL_TAGGED,
    LGTD_LIFX_PROTOCOL_VERSION_MASK, LGTD_LIFX_PROTOCOL_FLAGS_MASK, htole, letoh, store.
  destruct LGTD_BIG_ENDIAN_SYSTEM, adr, tag; vm_compute; tauto.
Qed.

Lemma le_bytes_mod n x : le_bytes n (x mod 256 ^ Z.of_nat n) = le_bytes n x.
Proof.
  revert x. induction n as [|n IH]; intros x; [done|].
  rewrite pow256_succ. cbn [le_bytes].
  pose proof (Z.pow_pos_nonneg 256 (Z.of_nat n) ltac:(lia) ltac:(lia)).
  rewrite Z.rem_mul_r, (Z.mul_comm 256) by lia. f_equal.
  - rewrite Z_mod_plus_full. apply Z.mod_mod. lia.
  - rewrite Z.div_add, Z.div_small, Z.add_0_l by (try lia; apply Z.mod_pos_bound; lia). apply IH.
Qed.

Lemma load_store_mod n x : load (store n x) = x mod 256 ^ Z.of_nat n.
Proof.
  transitivity (load (store n (x mod 256 ^ Z.of_nat n))).
  - unfold store. by rewrite le_bytes_mod.
  - apply load_store, Z.mod_pos_bound. lia.
Qed.

(** A field converted in place and read again is the little endian value of the
    bytes that were received. *)
Lemma load_store_letoh n bs : is_bytes n bs -> load (store n (letoh n (load bs))) = le_value bs.
Proof.
  intros [Hl Hb]. rewrite letoh_load by done. apply load_store. rewrite <- Hl.
  by apply le_value_bound.
Qed.

(** An unconverted field of one byte, or one only copied, keeps its value. *)
Lemma load_store_load n bs : is_bytes n bs -> load (store n (load bs)) = load bs.
Proof. intros [<- Hb]. by apply load_store, load_bound. Qed.

Lemma load_byte bs : length bs = 1%nat -> load bs = le_value bs.
Proof. destruct bs as [|b [|? ?]]; [done| |done]. unfold load. by destruct LGTD_BIG_ENDIAN_SYSTEM. Qed.

Lemma load_zeros n : load (replicate n 0) = 0.
Proof.
  unfold load. assert (Hz : le_value (replicate n 0) = 0) by (induction n; simpl; lia).
  destruct LGTD_BIG_ENDIAN_SYSTEM; [|done].
  rewrite rev_alt. fold (reverse (replicate n 0)). by rewrite reverse_replicate.
Qed.

Lemma load_power bs : is_bytes 2 bs -> normalize_power (load bs) = normalize_power (le_value bs).
Proof.
  intros [Hl Hb]. unfold load. destruct LGTD_BIG_ENDIAN_SYSTEM; [|done].
  destruct bs as [|a [|b [|? ?]]]; try done.
  apply Forall_cons in Hb as [Ha Hb]. apply Forall_cons in Hb as [Hb _].
  unfold is_byte in *. unfold normalize_power, LGTD_LIFX_POWER_ON. simpl.
  do 2 case Z.eqb_spec; simpl; intros; lia.
Qed.

Lemma normalize_power_bound p : 0 <= normalize_power p < 256 ^ Z.of_nat 2.
Proof.
  unfold normalize_power, LGTD_LIFX_POWER_ON, LGTD_LIFX_POWER_OFF.
  case Z.eqb_spec; simpl; lia.
Qed.

End Lemmas.

(** The protocol word of a received header of the protocol's version. *)
Lemma protocol_received {E : Endianness} (bs : list Z) :
  is_bytes 2 bs -> le_value bs mod 2 ^ 12 = LGTD_LIFX_PROTOCOL_V1 ->
  let p := load bs in
  let q := Z.lor (le16toh (Z.land p LGTD_LIFX_PROTOCOL_VERSION_MASK))
             (Z.land p LGTD_LIFX_PROTOCOL_FLAGS_MASK) in
  Z.land q LGTD_LIFX_PROTOCOL_VERSION_MASK = LGTD_LIFX_PROTOCOL_V1
  /\ has_flag q LGTD_LIFX_PROTOCOL_ADDRESSABLE = Z.testbit (le_value bs) 12
  /\ has_flag q LGTD_LIFX_PROTOCOL_TAGGED = Z.testbit (le_value bs) 13.
Proof.
  intros [Hl Hb] Hv.
  assert (Hr := le_value_bound bs Hb). rewrite Hl in Hr.
  change (256 ^ Z.of_nat 2) with 65536 in Hr. change LGTD_LIFX_PROTOCOL_V1 with 1024 in Hv.
  change (2 ^ 12) with 4096 in Hv.
  assert (Hk : exists k, 0 <= k < 16 /\ le_value bs = 1024 + 4096 * k).
  { exists (le_value bs / 4096). pose proof (Z.div_mod (le_value bs) 4096). split; [|lia].
    split; [apply Z.div_pos; lia|apply Z.div_lt_upper_bound; lia]. }
  destruct Hk as (k & Hk & Hbs).
  assert (Hbs' : bs = le_bytes 2 (1024 + 4096 * k)) by (rewrite <- Hbs, <- Hl; symmetry; by apply le_bytes_value).
  rewrite Hbs'. clear -Hk.
  assert (Hin : k ∈ seqZ 0 16) by (apply elem_of_seqZ; lia). clear Hk. revert k Hin.
  apply Forall_forall.
  unfold LGTD_LIFX_PROTOCOL_ADDRESSABLE, LGTD_LIFX_PROTOCOL_TAGGED,
    LGTD_LIFX_PROTOCOL_VERSION_MASK, LGTD_LIFX_PROTOCOL_FLAGS_MASK, letoh, load.
  destruct LGTD_BIG_ENDIAN_SYSTEM; repeat (constructor; [vm_compute; tauto|]); constructor.
Qed.

(** The memory image of an encoded header that asks for a response. *)
Lemma encode_header_bytes {E : Endianness} h (tag : bool) :
  header_bytes (lgtd_lifx_wire_encode_header h (if tag then 11 else 9))
  = le_bytes 2 (hdr_size h) ++ le_bytes 2 (if tag then 0x3400 else 0x1400)
    ++ le_bytes 4 (hdr_source h)
    ++ (if tag then le_bytes 8 (load (hdr_target h)) else hdr_target h) ++ hdr_site h
    ++ [Z.lor (hdr_flags h) 1] ++ [hdr_seqn h] ++ le_bytes 8 (hdr_at_time h)
    ++ le_bytes 2 (hdr_packet_type h) ++ hdr_reserved h.
Proof.
  pose proof (protocol_roundtrip true tag) as (_ & _ & _ & Hp). cbv zeta iota in Hp.
  unfold header_bytes, lgtd_lifx_wire_encode_header, hdr_target_tags.
  assert (Hf : has_flag (if tag then 11 else 9) LGTD_LIFX_ADDRESSABLE = true
               /\ has_flag (if tag then 11 else 9) LGTD_LIFX_TAGGED = tag
               /\ has_flag (if tag then 11 else 9) LGTD_LIFX_ACK_REQUIRED = false
               /\ has_flag (if tag then 11 else 9) LGTD_LIFX_RES_REQUIRED = true)
    by (by destruct tag).
  destruct Hf as (-> & -> & -> & ->).
  destruct tag;
    cbn [hdr_size hdr_protocol hdr_source hdr_target hdr_site hdr_flags hdr_seqn hdr_at_time
         hdr_packet_type hdr_reserved];
    rewrite Hp, !store_htole; reflexivity.
Qed.

(** [fill_header] on every target type. *)
Lemma fill_header_spec {E : Endianness} info client_id ptype target_type target site tgt :
  wire_target target_type target = Some tgt ->
  exists bytes8,
    fill_header info client_id ptype target_type target site
    = Some ({| hdr_size := u16 (pi_size info + LGTD_LIFX_PACKET_HEADER_SIZE); hdr_protocol := 0;
               hdr_source := client_id; hdr_target := bytes8;
               hdr_site := default (replicate 6 0) site; hdr_flags := 0; hdr_seqn := 0;
               hdr_at_time := 0; hdr_packet_type := ptype; hdr_reserved := replicate 2 0 |},
            if target_is_tagged target_type then 11 else 9)
    /\ (if target_is_tagged target_type then le_bytes 8 (load bytes8) else bytes8) = tgt.
Proof.
  destruct target_type, target; cbn [wire_target]; intros [= <-]; (eexists; split; [reflexivity|]);
    cbn [target_is_tagged]; rewrite ?load_zeros, ?load_store_mod, ?le_bytes_mod; reflexivity.
Qed.

(** Two fields of an encoded header. *)
Lemma encode_header_site {E : Endianness} h flags :
  hdr_site (lgtd_lifx_wire_encode_header h flags) = hdr_site h.
Proof. unfold lgtd_lifx_wire_encode_header. by destruct (has_flag flags LGTD_LIFX_TAGGED). Qed.

Lemma decode_encode_size {E : Endianness} h flags :
  hdr_size (lgtd_lifx_wire_decode_header (lgtd_lifx_wire_encode_header h flags))
  = le16toh (htole16 (hdr_size h)).
Proof. unfold lgtd_lifx_wire_encode_header. by destruct (has_flag flags LGTD_LIFX_TAGGED). Qed.

Lemma u16_range z : 0 <= u16 z < 256 ^ Z.of_nat 2.
Proof. apply Z.mod_pos_bound. lia. Qed.

(** [setup_header] on valid arguments: the image of the header and the fields
    the send path checks. *)
Lemma setup_header_spec {E : Endianness} {S : Type} (s : S) client_id target_type target tgt site ptype info :
  client_id <> 0 ->
  lgtd_lifx_wire_get_packet_info (packet_type_value ptype) = Some info ->
  is_Some site \/ target_type = LGTD_LIFX_TARGET_ALL_DEVICES ->
  wire_target target_type target = Some tgt ->
  exists h,
    lgtd_lifx_wire_setup_header client_id target_type target site ptype s = Ret (h, info) s
    /\ header_bytes h
       = wire_header (pi_size info + 36) client_id (target_is_tagged target_type) tgt
           (default (replicate 6 0) site) (packet_type_value ptype)
    /\ hdr_site h = default (replicate 6 0) site
    /\ hdr_size (lgtd_lifx_wire_decode_header h) = u16 (pi_size info + 36).
Proof.
  intros Hid Hinfo Hsite Htgt.
  unfold lgtd_lifx_wire_setup_header. rewrite Hinfo.
  rewrite (proj2 (Z.eqb_neq _ _) Hid).
  assert (Hs : match site, target_type with
               | None, LGTD_LIFX_TARGET_ALL_DEVICES => true | None, _ => false | Some _, _ => true
               end = true).
  { destruct Hsite as [[? ->]| ->]; [done|]. by destruct site. }
  unfold mbind, M_bind, massert. rewrite Hs. cbn [negb mret M_ret].
  destruct (fill_header_spec info client_id (packet_type_value ptype) target_type target site tgt Htgt)
    as (bytes8 & -> & Ht).
  eexists; split; [reflexivity|].
  assert (Hsz : hdr_size (lgtd_lifx_wire_decode_header (lgtd_lifx_wire_encode_header
    {| hdr_size := u16 (pi_size info + LGTD_LIFX_PACKET_HEADER_SIZE); hdr_protocol := 0;
       hdr_source := client_id; hdr_target := bytes8;
       hdr_site := default (replicate 6 0) site; hdr_flags := 0; hdr_seqn := 0;
       hdr_at_time := 0; hdr_packet_type := packet_type_value ptype; hdr_reserved := replicate 2 0 |}
    (if target_is_tagged target_type then 11 else 9))) = u16 (pi_size info + 36)).
  { rewrite decode_encode_size. apply letoh_htole, u16_range. }
  rewrite encode_header_bytes, encode_header_site.
  cbn [hdr_size hdr_source hdr_target hdr_site hdr_flags hdr_seqn hdr_at_time hdr_packet_type
       hdr_reserved].
  rewrite Ht. change (u16 ?x) with (x mod 256 ^ Z.of_nat 2). rewrite le_bytes_mod.
  split_and!; [reflexivity|reflexivity|exact Hsz].
Qed.

(** The reading a little endian host makes of wire bytes: the value of a field
    is the little endian value of its bytes. *)
Definition little : Endianness := false.

Lemma load_little bs : @load little bs = le_value bs.
Proof. done. Qed.


Lemma field_bytes mem off n N : is_bytes N mem -> (off + n <= N)%nat -> is_bytes n (field off n mem).
Proof. intros [Hl Hb] ?. apply field_is_bytes; [lia|done]. Qed.

Lemma load_store_power {E : Endianness} bs : is_bytes 2 bs ->
  load (store 2 (normalize_power (load bs))) = if le_value bs =? 0xffff then 0xffff else 0.
Proof.
  intros Hb. rewrite load_store by (by apply normalize_power_bound). rewrite load_power by done.
  unfold normalize_power, LGTD_LIFX_POWER_ON, LGTD_LIFX_POWER_OFF.
  by case Z.eqb_spec; simpl; [intros ->|].
Qed.

Lemma label_terminated mem :
  (52 <= length mem)%nat -> <[(LGTD_LIFX_LABEL_SIZE - 1)%nat := 0]> (field 8 32 mem) = field 8 31 mem ++ [0].
Proof.
  intros Hl. unfold field.
  assert (Hlt : (31 < length (take 32 (drop 8 mem)))%nat) by (rewrite length_take, length_drop; lia).
  change (LGTD_LIFX_LABEL_SIZE - 1)%nat with 31%nat.
  rewrite insert_take_drop by done. rewrite take_take.
  rewrite (drop_ge (take 32 (drop 8 mem))) by (rewrite length_take, length_drop; lia). done.
Qed.

Lemma store_byte {E : Endianness} x : store 1 x = le_bytes 1 x.
Proof. unfold store. by destruct LGTD_BIG_ENDIAN_SYSTEM. Qed.

Lemma waveform_table_keys : NoDup lgtd_lifx_waveform_table.*1.
Proof. refine (bool_decide_unpack _ _). vm_compute. exact I. Qed.

Lemma waveform_lookup_spec table s rest w :
  w <> LGTD_LIFX_WAVEFORM_INVALID -> NoDup table.*1 ->
  waveform_lookup table (s ++ rest) (length s) = w <-> (s, w) ∈ table.
Proof.
  intros Hw. induction table as [|[str w'] table IH]; intros Hnd; simpl.
  - split; [intros <-; done|]. by intros ?%elem_of_nil.
  - apply NoDup_cons in Hnd as [Hni Hnd]. specialize (IH Hnd).
    rewrite elem_of_cons. unfold memcmp_eq. rewrite take_app_length.
    destruct (Nat.eqb_spec (length str) (length s)) as [Hl|Hl]; simpl.
    + rewrite take_ge by lia. case_bool_decide as Hs.
      * subst str. split; [intros <-; by left|]. intros [[= ->]|Hin]; [done|].
        destruct Hni. apply list_elem_of_fmap. by exists (s, w).
      * rewrite IH. split; [by right|]. intros [[= -> ->]|]; done.
    + rewrite IH. split; [by right|]. intros [[= -> ->]|]; done.
Qed.

(** Reads the fields of a decoded payload back from memory; [Hf] gives the
    lengths of the fields received and [Hmem] says they are bytes. *)
Ltac payload_len Hf := rewrite ?length_store, ?length_insert, ?Hf by lia; lia.
Ltac payload_fields Hf :=
  repeat first
    [ rewrite field_head by payload_len Hf
    | rewrite field_exact by payload_len Hf
    | rewrite field_skip by payload_len Hf;
      rewrite ?length_store, ?Hf by lia; cbn [Nat.sub] ].
Ltac payload_read Hf Hmem :=
  rewrite <- ?app_assoc; payload_fields Hf;
  repeat first
    [ rewrite load_store_letoh by (eapply (field_bytes _ _ _ _ Hmem); lia)
    | rewrite load_store_power by (eapply (field_bytes _ _ _ _ Hmem); lia)
    | rewrite load_store_load by (eapply (field_bytes _ _ _ _ Hmem); lia)
    | rewrite load_byte by (rewrite Hf; lia) ].

(** Every payload after its decoder ran on memory that holds it. *)
Lemma payload_decode_spec {E : Endianness} (mem : list Z) (N : nat) :
  (52 <= N)%nat -> is_bytes N mem ->
  pan_gateway_of_bytes (packet_decode D_pan_gateway mem) = @pan_gateway_of_bytes little mem
  /\ light_status_of_bytes (packet_decode D_light_status mem)
     = (let p := @light_status_of_bytes little mem in
        {| ls_hue := ls_hue p; ls_saturation := ls_saturation p; ls_brightness := ls_brightness p;
           ls_kelvin := ls_kelvin p; ls_dim := ls_dim p;
           ls_power := if ls_power p =? 0xffff then 0xffff else 0;
           ls_label := ls_label p; ls_tags := ls_tags p |})
  /\ ps_power (power_state_of_bytes (packet_decode D_power_state mem))
     = (if le_value (field 0 2 mem) =? 0xffff then 0xffff else 0)
  /\ tag_labels_of_bytes (packet_decode D_tag_labels mem)
     = {| tl_tags := le_value (field 0 8 mem); tl_label := field 8 31 mem ++ [0] |}
  /\ tags_of_bytes (packet_decode D_tags mem) = @tags_of_bytes little mem
  /\ ip_state_of_bytes (packet_decode D_ip_state mem) = @ip_state_of_bytes little mem
  /\ ip_firmware_info_of_bytes (packet_decode D_ip_firmware_info mem)
     = @ip_firmware_info_of_bytes little mem
  /\ product_info_of_bytes (packet_decode D_product_info mem) = @product_info_of_bytes little mem
  /\ runtime_info_of_bytes (packet_decode D_runtime_info mem) = @runtime_info_of_bytes little mem
  /\ ambient_light_of_bytes (packet_decode D_ambient_light mem)
     = @ambient_light_of_bytes little mem.
Proof.
  intros HN Hmem.
  assert (Hf : forall off n, (off + n <= N)%nat -> length (field off n mem) = n)
    by (intros; by apply (field_bytes _ _ _ _ Hmem)).
  split_and!.
  - unfold packet_decode, lgtd_lifx_wire_decode_pan_gateway, pan_gateway_of_bytes, pan_gateway_bytes.
    cbn [pg_service_type pg_port]. payload_read Hf Hmem. done.
  - unfold packet_decode, lgtd_lifx_wire_decode_light_status, light_status_of_bytes, light_status_bytes.
    cbn [ls_hue ls_saturation ls_brightness ls_kelvin ls_dim ls_power ls_label ls_tags]. payload_read Hf Hmem. done.
  - unfold packet_decode, lgtd_lifx_wire_decode_power_state, power_state_of_bytes, power_state_bytes.
    cbn [ps_power]. payload_read Hf Hmem. done.
  - unfold packet_decode, lgtd_lifx_wire_decode_tag_labels, tag_labels_of_bytes, tag_labels_bytes.
    cbn [tl_tags tl_label]. payload_read Hf Hmem. 
    by rewrite label_terminated by (destruct Hmem; lia).
  - unfold packet_decode, lgtd_lifx_wire_decode_tags, tags_of_bytes, tags_bytes.
    cbn [pt_tags]. payload_read Hf Hmem. done.
  - unfold packet_decode, lgtd_lifx_wire_decode_ip_state, lgtd_lifx_wire_lefloattoh,
      ip_state_of_bytes, ip_state_bytes.
    cbn [is_signal_strength is_tx_bytes is_rx_bytes is_temperature]. payload_read Hf Hmem. done.
  - unfold packet_decode, lgtd_lifx_wire_decode_ip_firmware_info, ip_firmware_info_of_bytes, ip_firmware_info_bytes.
    cbn [fw_built_at fw_installed_at fw_version]. payload_read Hf Hmem. done.
  - unfold packet_decode, lgtd_lifx_wire_decode_product_info, product_info_of_bytes, product_info_bytes.
    cbn [pr_vendor_id pr_product_id pr_version]. payload_read Hf Hmem. done.
  - unfold packet_decode, lgtd_lifx_wire_decode_runtime_info, runtime_info_of_bytes, runtime_info_bytes.
    cbn [ri_time ri_uptime ri_downtime]. payload_read Hf Hmem. done.
  - unfold packet_decode, lgtd_lifx_wire_decode_ambient_light, lgtd_lifx_wire_lefloattoh,
      ambient_light_of_bytes, ambient_light_bytes.
    cbn [al_illuminance]. payload_read Hf Hmem. done.
Qed.

(** ** Properties *)

(** C26: decoding an encoded header gives the header back, on hosts of both byte
    orders and for every combination of flags: the same size, source, target,
    site, time and type, the version of the protocol, the addressable and
    tagged bits asked for, and the response and acknowledgement flags added. *)
Theorem header_encode_decode {E : Endianness} (h : lgtd_lifx_packet_header) (flags : Z)
    (Hwf : wf_header h) :
  let d := lgtd_lifx_wire_decode_header (lgtd_lifx_wire_encode_header h flags) in
  hdr_size d = hdr_size h /\ hdr_source d = hdr_source h /\ hdr_target d = hdr_target h
  /\ hdr_site d = hdr_site h /\ hdr_seqn d = hdr_seqn h /\ hdr_at_time d = hdr_at_time h
  /\ hdr_packet_type d = hdr_packet_type h
  /\ Z.land (hdr_protocol d) LGTD_LIFX_PROTOCOL_VERSION_MASK = LGTD_LIFX_PROTOCOL_V1
  /\ has_flag (hdr_protocol d) LGTD_LIFX_PROTOCOL_ADDRESSABLE = has_flag flags LGTD_LIFX_ADDRESSABLE
  /\ has_flag (hdr_protocol d) LGTD_LIFX_PROTOCOL_TAGGED = has_flag flags LGTD_LIFX_TAGGED
  /\ hdr_flags d = Z.lor (Z.lor (hdr_flags h)
       (if has_flag flags LGTD_LIFX_ACK_REQUIRED then LGTD_LIFX_FLAG_ACK_REQUIRED else 0))
       (if has_flag flags LGTD_LIFX_RES_REQUIRED then LGTD_LIFX_FLAG_RES_REQUIRED else 0).
Proof.
  destruct Hwf as [Hs Hsrc Ht Hsite Hat Hp]. cbv zeta.
  destruct (protocol_roundtrip (has_flag flags LGTD_LIFX_ADDRESSABLE) (has_flag flags LGTD_LIFX_TAGGED))
    as (Htag & Hadr & Hver & _).
  unfold lgtd_lifx_wire_encode_header, lgtd_lifx_wire_decode_header, hdr_target_tags.
  destruct (has_flag flags LGTD_LIFX_ADDRESSABLE), (has_flag flags LGTD_LIFX_TAGGED);
    cbn [hdr_size hdr_protocol hdr_source hdr_target hdr_site hdr_flags hdr_seqn hdr_at_time
         hdr_packet_type];
    rewrite Htag, ?load_store_htole64, !letoh_htole by (done || lia);
    split_and!; try done;
    destruct (has_flag flags LGTD_LIFX_ACK_REQUIRED), (has_flag flags LGTD_LIFX_RES_REQUIRED);
    rewrite ?Z.lor_0_r; done.
Qed.

Definition header_example : lgtd_lifx_packet_header := {|
  hdr_size := 49; hdr_protocol := 0; hdr_source := 0x1234; hdr_target := [1; 2; 3; 4; 5; 6; 0; 0];
  hdr_site := [9; 8; 7; 6; 5; 4]; hdr_flags := 0; hdr_seqn := 3; hdr_at_time := 77;
  hdr_packet_type := 0x66; hdr_reserved := [0; 0] |}.

Lemma header_example_wf : wf_header header_example.
Proof.
  constructor; simpl; try lia; (split; [done|]);
    repeat constructor; unfold is_byte; lia.
Qed.

Lemma header_encode_decode_witness :
  wf_header header_example
  /\ hdr_source (@lgtd_lifx_wire_decode_header true (@lgtd_lifx_wire_encode_header true header_example 3))
     = 0x1234.
Proof.
  split; [exact header_example_wf|].
  exact (proj1 (proj2 (@header_encode_decode true header_example 3 header_example_wf))).
Defined.

(** C37: for a packet the table knows, [setup_header] succeeds and the header it
    leaves in memory has exactly the bytes of the protocol, on hosts of both byte
    orders: the payload size plus the header, version and flags, the client id,
    the tags in little endian or the device address, the site and the type. *)
Theorem setup_header_wire_image {E : Endianness} {S : Type} (s : S) (client_id : Z)
    (target_type : lgtd_lifx_target_type) (target : lgtd_lifx_target) (tgt : list Z)
    (site : option (list Z)) (ptype : lgtd_lifx_packet_type) (info : lgtd_lifx_packet_info)
    (Hid : client_id <> 0)
    (Hinfo : lgtd_lifx_wire_get_packet_info (packet_type_value ptype) = Some info)
    (Hsite : is_Some site \/ target_type = LGTD_LIFX_TARGET_ALL_DEVICES)
    (Htgt : wire_target target_type target = Some tgt) :
  exists h,
    lgtd_lifx_wire_setup_header client_id target_type target site ptype s = Ret (h, info) s
    /\ header_bytes h
       = wire_header (pi_size info + 36) client_id (target_is_tagged target_type) tgt
           (default (replicate 6 0) site) (packet_type_value ptype).
Proof.
  destruct (setup_header_spec s client_id target_type target tgt site ptype info Hid Hinfo Hsite Htgt)
    as (h & Hh & Hb & _). exists h. exact (conj Hh Hb).
Qed.

Lemma setup_header_wire_image_witness :
  exists h info,
    @lgtd_lifx_wire_setup_header true unit 0x2a LGTD_LIFX_TARGET_TAGS (target_tags 5)
      (Some [1; 2; 3; 4; 5; 6]) LGTD_LIFX_SET_POWER_STATE tt = Ret (h, info) tt
    /\ @header_bytes true h
       = [38; 0; 0; 0x34; 0x2a; 0; 0; 0; 5; 0; 0; 0; 0; 0; 0; 0; 1; 2; 3; 4; 5; 6; 1; 0;
          0; 0; 0; 0; 0; 0; 0; 0; 0x15; 0; 0; 0].
Proof.
  destruct (lgtd_lifx_wire_get_packet_info (packet_type_value LGTD_LIFX_SET_POWER_STATE))
    as [info|] eqn:Hinfo; [|exfalso; vm_compute in Hinfo; discriminate].
  destruct (@setup_header_wire_image true unit tt 0x2a LGTD_LIFX_TARGET_TAGS (target_tags 5)
              (le_bytes 8 5) (Some [1; 2; 3; 4; 5; 6]) LGTD_LIFX_SET_POWER_STATE info
              ltac:(discriminate) Hinfo ltac:(left; by eexists) eq_refl) as (h & Hh & Hb).
  exists h, info. split; [exact Hh|]. rewrite Hb. vm_compute in Hinfo.
  injection Hinfo as <-. reflexivity.
Defined.

(** Any 36 bytes a peer sends are read the same way on hosts of both byte
    orders: size, source, time and packet type are the little endian values of
    their bytes, site and flags are copied; when the version field is that of
    the protocol the version, addressable and tagged bits are read from bits
    0-11, 12 and 13 of the wire value, and a tagged target is the little endian
    tag set while a device address is kept as its bytes. *)
Theorem decode_header_received {E : Endianness} (bs : list Z) (Hbs : is_bytes 36 bs) :
  let d := lgtd_lifx_wire_decode_header (header_of_bytes bs) in
  let proto := le_value (field 2 2 bs) in
  hdr_size d = le_value (field 0 2 bs)
  /\ hdr_source d = le_value (field 4 4 bs)
  /\ hdr_site d = field 16 6 bs
  /\ hdr_at_time d = le_value (field 24 8 bs)
  /\ hdr_packet_type d = le_value (field 32 2 bs)
  /\ (proto mod 2 ^ 12 = LGTD_LIFX_PROTOCOL_V1 ->
      Z.land (hdr_protocol d) LGTD_LIFX_PROTOCOL_VERSION_MASK = LGTD_LIFX_PROTOCOL_V1
      /\ has_flag (hdr_protocol d) LGTD_LIFX_PROTOCOL_ADDRESSABLE = Z.testbit proto 12
      /\ has_flag (hdr_protocol d) LGTD_LIFX_PROTOCOL_TAGGED = Z.testbit proto 13
      /\ (if Z.testbit proto 13 then hdr_target_tags d = le_value (field 8 8 bs)
          else hdr_device_addr d = field 8 6 bs)).
Proof.
  destruct Hbs as [Hl Hb].
  assert (Hf : forall off n, (off + n <= 36)%nat -> is_bytes n (field off n bs))
    by (intros; apply field_is_bytes; [lia|done]).
  cbv zeta. unfold lgtd_lifx_wire_decode_header.
  cbn [hdr_size hdr_source hdr_site hdr_at_time hdr_packet_type hdr_protocol header_of_bytes].
  rewrite !letoh_load by (apply Hf; lia).
  do 5 (split; [done|]). intros Hv.
  destruct (protocol_received (field 2 2 bs) (Hf 2%nat 2%nat ltac:(lia)) Hv) as (Hver & Hadr & Htag).
  split_and!; [done|done|done|]. rewrite <- Htag.
  unfold hdr_target_tags, hdr_device_addr. cbn [hdr_target header_of_bytes].
  match goal with |- context [has_flag ?q LGTD_LIFX_PROTOCOL_TAGGED] =>
    destruct (has_flag q LGTD_LIFX_PROTOCOL_TAGGED) end; [apply load_store_letoh, Hf; lia|].
  unfold field. by rewrite take_take.
Qed.

Definition received_header_example : list Z :=
  [88; 0; 0; 0x34; 0x2a; 0; 0; 0; 5; 0; 0; 0; 0; 0; 0; 0; 1; 2; 3; 4; 5; 6; 0; 0;
   0; 0; 0; 0; 0; 0; 0; 0; 0x6b; 0; 0; 0].

Lemma decode_header_received_witness :
  let d := @lgtd_lifx_wire_decode_header true (@header_of_bytes true received_header_example) in
  is_bytes 36 received_header_example /\ hdr_size d = 88 /\ hdr_packet_type d = 0x6b
  /\ @hdr_target_tags true d = 5.
Proof.
  assert (Hb : is_bytes 36 received_header_example).
  { split; [reflexivity|]. repeat constructor; vm_compute; congruence. }
  destruct (@decode_header_received true received_header_example Hb)
    as (Hs & _ & _ & _ & Hp & Hrest).
  split; [exact Hb|]. split; [exact Hs|]. split; [exact Hp|].
  exact (proj2 (proj2 (proj2 (Hrest eq_refl)))).
Defined.

(** C38: every received payload is decoded in place to what a little endian
    reading of the bytes gives, on hosts of both byte orders; power is
    normalised to fully on or off and a tag label is always terminated. *)
Theorem payload_decode_received {E : Endianness} (mem : list Z)
    (N : nat) (HN : (52 <= N)%nat) (Hmem : is_bytes N mem) :
  pan_gateway_of_bytes (packet_decode D_pan_gateway mem) = @pan_gateway_of_bytes little mem
  /\ light_status_of_bytes (packet_decode D_light_status mem)
     = (let p := @light_status_of_bytes little mem in
        {| ls_hue := ls_hue p; ls_saturation := ls_saturation p; ls_brightness := ls_brightness p;
           ls_kelvin := ls_kelvin p; ls_dim := ls_dim p;
           ls_power := if ls_power p =? 0xffff then 0xffff else 0;
           ls_label := ls_label p; ls_tags := ls_tags p |})
  /\ ps_power (power_state_of_bytes (packet_decode D_power_state mem))
     = (if le_value (field 0 2 mem) =? 0xffff then 0xffff else 0)
  /\ tag_labels_of_bytes (packet_decode D_tag_labels mem)
     = {| tl_tags := le_value (field 0 8 mem); tl_label := field 8 31 mem ++ [0] |}
  /\ tags_of_bytes (packet_decode D_tags mem) = @tags_of_bytes little mem
  /\ ip_state_of_bytes (packet_decode D_ip_state mem) = @ip_state_of_bytes little mem
  /\ ip_firmware_info_of_bytes (packet_decode D_ip_firmware_info mem)
     = @ip_firmware_info_of_bytes little mem
  /\ product_info_of_bytes (packet_decode D_product_info mem) = @product_info_of_bytes little mem
  /\ runtime_info_of_bytes (packet_decode D_runtime_info mem) = @runtime_info_of_bytes little mem
  /\ ambient_light_of_bytes (packet_decode D_ambient_light mem)
     = @ambient_light_of_bytes little mem.
Proof. exact (payload_decode_spec mem N HN Hmem). Qed.

Lemma payload_decode_received_witness :
  let mem := [0xff; 0xff] ++ replicate 62 0 in
  is_bytes 64 mem /\ ps_power (@power_state_of_bytes true (@packet_decode true D_power_state mem)) = 0xffff.
Proof.
  assert (Hb : is_bytes 64 ([0xff; 0xff] ++ replicate 62 0)).
  { split; [reflexivity|]. repeat constructor; vm_compute; congruence. }
  split; [exact Hb|]. exact (proj1 (proj2 (proj2 (@payload_decode_received true _ 64 ltac:(lia) Hb)))).
Defined.

(** The payloads the daemon sends are little endian on the wire whatever the
    host: the memory image of an encoded payload is the image a little endian
    host has of the payload itself. *)
Theorem payload_encode_wire {E : Endianness} (c : lgtd_lifx_packet_light_color)
    (w : lgtd_lifx_packet_waveform) (t : lgtd_lifx_packet_tags) (l : lgtd_lifx_packet_tag_labels)
    (g : lgtd_lifx_packet_pan_gateway) :
  light_color_bytes (lgtd_lifx_wire_encode_light_color c) = @light_color_bytes little c
  /\ waveform_bytes (lgtd_lifx_wire_encode_waveform w) = @waveform_bytes little w
  /\ tags_bytes (lgtd_lifx_wire_encode_tags t) = @tags_bytes little t
  /\ tag_labels_bytes (lgtd_lifx_wire_encode_tag_labels l) = @tag_labels_bytes little l
  /\ pan_gateway_bytes (lgtd_lifx_wire_encode_pan_gateway g) = @pan_gateway_bytes little g.
Proof.
  unfold light_color_bytes, waveform_bytes, tags_bytes, tag_labels_bytes, pan_gateway_bytes.
  unfold lgtd_lifx_wire_encode_light_color, lgtd_lifx_wire_encode_waveform,
    lgtd_lifx_wire_encode_tags, lgtd_lifx_wire_encode_tag_labels, lgtd_lifx_wire_encode_pan_gateway,
    lgtd_lifx_wire_htolefloat.
  cbn [lc_stream lc_hue lc_saturation lc_brightness lc_kelvin lc_transition
       wf_stream wf_transient wf_hue wf_saturation wf_brightness wf_kelvin wf_period wf_cycles
       wf_skew_ratio wf_waveform pt_tags tl_tags tl_label pg_service_type pg_port].
  rewrite !store_htole, !store_byte. done.
Qed.

(** The name of a waveform is found exactly: a string of the table gives its
    own type, and any other string, a prefix or an extension of a name included,
    is invalid. *)
Theorem waveform_string_id_to_type_correct (s rest : list Z) (w : lgtd_lifx_waveform_type)
    (Hw : w <> LGTD_LIFX_WAVEFORM_INVALID) :
  lgtd_lifx_wire_waveform_string_id_to_type (s ++ rest) (length s) = w
  <-> (s, w) ∈ lgtd_lifx_waveform_table.
Proof.
  unfold lgtd_lifx_wire_waveform_string_id_to_type. rewrite waveform_lookup_spec.
  - done.
  - done.
  - apply waveform_table_keys.
Qed.

Lemma waveform_string_id_to_type_correct_witness :
  lgtd_lifx_wire_waveform_string_id_to_type (bytes_of_string "SINE" ++ bytes_of_string "x") 4
  = LGTD_LIFX_WAVEFORM_SINE.
Proof.
  apply (waveform_string_id_to_type_correct (bytes_of_string "SINE") (bytes_of_string "x")
           LGTD_LIFX_WAVEFORM_SINE ltac:(discriminate)).
  right. left.
Defined.
