(* ===== verification/World.v ===== *)
(** * The state of the daemon

    The structs of [lifx/gateway.h], [lifx/bulb.h], [lifx/tagging.h] and
    [core/timer.h], the global lists and tables, and the calls of the operating
    system and of libevent they depend on.

    Objects on the heap are entries of finite maps. A gateway, a tag and a timer
    are named by an abstract pointer; a bulb is named by its address, which is
    its key in [lgtd_lifx_bulbs_table] as long as it is allocated. Reading an
    entry that is not there is a use of freed memory. The intrusive lists of
    [sys/queue.h] are lists of these names, first element first.

    The outcome of every call that can fail (an allocation, a socket, an event)
    is taken from [w_os_results] and the successive readings of the monotonic
    clock from [w_clock]; both are arbitrary, so a theorem about all states
    covers every failure at every place. *)

From Stdlib Require Import ZArith Lia String.
From stdpp Require Import base tactics list gmap sorting.
From S2P Require Import Prelude CLib PacketInfo WireProto.

(** ** Names of objects *)

Abbreviation gw_ptr := positive.
Abbreviation tag_ptr := positive.
Abbreviation timer_ptr := positive.
Abbreviation addr := (list Z).

(** A pointer that is not in use. *)
Definition fresh_ptr {A} (m : gmap positive A) : positive :=
  Pos.succ (foldr Pos.max 1%positive (map_to_list m).*1).

(** ** Bulbs *)

(** The structs of bulb.h have the layout of the packets they are copied from:
    the code casts one to the other. *)
Definition lgtd_lifx_light_state : Type := lgtd_lifx_packet_light_status.
Definition lgtd_lifx_ip_state : Type := lgtd_lifx_packet_ip_state.
Definition lgtd_lifx_ip_firmware_info : Type := lgtd_lifx_packet_ip_firmware_info.
Definition lgtd_lifx_product_info : Type := lgtd_lifx_packet_product_info.
Definition lgtd_lifx_runtime_info : Type := lgtd_lifx_packet_runtime_info.

Inductive lgtd_lifx_bulb_ips : Type :=
| LGTD_LIFX_BULB_MCU_IP
| LGTD_LIFX_BULB_WIFI_IP.

Definition bulb_ip_index (ip : lgtd_lifx_bulb_ips) : nat :=
  match ip with LGTD_LIFX_BULB_MCU_IP => 0 | LGTD_LIFX_BULB_WIFI_IP => 1 end.


Record lgtd_lifx_bulb_ip : Type := {
  ip_state : lgtd_lifx_ip_state;
  ip_state_updated_at : Z;
  ip_fw_info : lgtd_lifx_ip_firmware_info;
  ip_fw_info_updated_at : Z
}.

(** [ips] has one entry per [lgtd_lifx_bulb_ips]. *)
Record lgtd_lifx_bulb : Type := {
  bulb_last_light_state_at : Z;
  bulb_runtime_info_updated_at : Z;
  bulb_dirty_at : Z;
  bulb_expected_power_on : Z;
  bulb_addr : addr;
  bulb_ambient_light : Z;
  bulb_model : option string;
  bulb_vendor : option string;
  bulb_gw : gw_ptr;
  bulb_state : lgtd_lifx_light_state;
  bulb_ips : list lgtd_lifx_bulb_ip;
  bulb_product_info : lgtd_lifx_product_info;
  bulb_runtime_info : lgtd_lifx_runtime_info
}.

(** ** Tags *)

Record lgtd_lifx_site : Type := {
  site_tag_id : Z;
  site_gw : gw_ptr
}.

#[export] Instance lgtd_lifx_site_eq_dec : EqDecision lgtd_lifx_site.
Proof. solve_decision. Defined.


Record lgtd_lifx_tag : Type := {
  tag_label : list Z;
  tag_sites : list lgtd_lifx_site
}.

(** ** Gateways *)

Definition LGTD_LIFX_GATEWAY_MIN_REFRESH_INTERVAL_MSECS : Z := 800.
Definition LGTD_LIFX_GATEWAY_PACKET_RING_SIZE : nat := 16.
Definition LGTD_LIFX_GATEWAY_MAX_TAGS : Z := 64.

Record lgtd_lifx_message : Type := {
  msg_type : Z;
  msg_size : Z
}.

(** [socket_ev] says if the event is added, [write_buf] is the content of the
    buffer. The text of the peer address is not kept: it is only logged. *)
Record lgtd_lifx_gateway : Type := {
  gw_bulbs : list addr;
  gw_peer : list Z;
  gw_site : list Z;
  gw_tag_ids : Z;
  gw_tags : list (option tag_ptr);
  gw_tag_refcounts : list Z;
  gw_socket : Z;
  gw_last_req_at : Z;
  gw_next_req_at : Z;
  gw_last_pkt_at : Z;
  gw_pkt_ring : list lgtd_lifx_message;
  gw_pkt_ring_head : nat;
  gw_pkt_ring_tail : nat;
  gw_pkt_ring_full : bool;
  gw_socket_ev : bool;
  gw_write_buf : list Z;
  gw_pending_refresh_req : bool;
  gw_refresh_timer : timer_ptr
}.

(** ** Timers *)

Inductive lgtd_timer_callback_fn : Type :=
| lgtd_lifx_gateway_refresh_callback_fn
| lgtd_lifx_bulb_fetch_hardware_info_fn.

(** [union lgtd_timer_ctx], with the member each callback reads. *)
Inductive lgtd_timer_ctx : Type :=
| ctx_as_ptr (gw : gw_ptr)
| ctx_as_uint (n : Z).

Record lgtd_timer : Type := {
  timer_callback : lgtd_timer_callback_fn;
  timer_ctx : lgtd_timer_ctx;
  timer_persistent : bool;        (* [EV_PERSIST] *)
  timer_timeout : option Z;       (* pending, in milliseconds *)
  timer_active : bool             (* made active with [event_active] *)
}.

(** ** Counters *)


Record lgtd_stats : Type := {
  stats_gateways : Z;
  stats_bulbs : Z;
  stats_bulbs_powered_on : Z;
  stats_clients : Z
}.

(** ** The whole state *)

(** [w_broadcast_write_ev] is the write event of the broadcast endpoint, none
    before it is set up, and says if it is added. [w_discovery_timeout]
    is [lgtd_discovery_timeout] and [w_discovery_ev] the pending timeout of its
    event. [w_client_id] is [lgtd_lifx_client_id]. *)
Record world : Type := {
  w_gateways : gmap gw_ptr lgtd_lifx_gateway;
  w_gateway_list : list gw_ptr;
  w_bulbs_table : gmap addr lgtd_lifx_bulb;
  w_tags : gmap tag_ptr lgtd_lifx_tag;
  w_tag_list : list tag_ptr;
  w_timers : gmap timer_ptr lgtd_timer;
  w_counters : lgtd_stats;
  w_broadcast_write_ev : option bool;
  w_watchdog_pending : bool;
  w_discovery_timeout : Z;
  w_discovery_ev : option Z;
  w_client_id : Z;
  w_now : Z;
  w_os_results : list bool;
  w_clock : list Z
}.

(** ** Updates of one field *)

Definition set_ls_power (v : Z) (r : lgtd_lifx_packet_light_status) : lgtd_lifx_packet_light_status :=
  {|
     ls_hue := ls_hue r; ls_saturation := ls_saturation r; ls_brightness := ls_brightness r;
     ls_kelvin := ls_kelvin r; ls_dim := ls_dim r; ls_power := v; ls_label := ls_label r;
     ls_tags := ls_tags r |}.
Definition set_ls_label (v : list Z) (r : lgtd_lifx_packet_light_status) : lgtd_lifx_packet_light_status :=
  {|
     ls_hue := ls_hue r; ls_saturation := ls_saturation r; ls_brightness := ls_brightness r;
     ls_kelvin := ls_kelvin r; ls_dim := ls_dim r; ls_power := ls_power r; ls_label := v;
     ls_tags := ls_tags r |}.
Definition set_ls_tags (v : Z) (r : lgtd_lifx_packet_light_status) : lgtd_lifx_packet_light_status :=
  {|
     ls_hue := ls_hue r; ls_saturation := ls_saturation r; ls_brightness := ls_brightness r;
     ls_kelvin := ls_kelvin r; ls_dim := ls_dim r; ls_power := ls_power r; ls_label :=
     ls_label r; ls_tags := v |}.
Definition set_ip_state (v : lgtd_lifx_ip_state) (r : lgtd_lifx_bulb_ip) : lgtd_lifx_bulb_ip :=
  {|
     ip_state := v; ip_state_updated_at := ip_state_updated_at r; ip_fw_info := ip_fw_info
     r; ip_fw_info_updated_at := ip_fw_info_updated_at r |}.
Definition set_ip_state_updated_at (v : Z) (r : lgtd_lifx_bulb_ip) : lgtd_lifx_bulb_ip :=
  {|
     ip_state := ip_state r; ip_state_updated_at := v; ip_fw_info := ip_fw_info r;
     ip_fw_info_updated_at := ip_fw_info_updated_at r |}.
Definition set_ip_fw_info (v : lgtd_lifx_ip_firmware_info) (r : lgtd_lifx_bulb_ip) : lgtd_lifx_bulb_ip :=
  {|
     ip_state := ip_state r; ip_state_updated_at := ip_state_updated_at r; ip_fw_info := v;
     ip_fw_info_updated_at := ip_fw_info_updated_at r |}.
Definition set_ip_fw_info_updated_at (v : Z) (r : lgtd_lifx_bulb_ip) : lgtd_lifx_bulb_ip :=
  {|
     ip_state := ip_state r; ip_state_updated_at := ip_state_updated_at r; ip_fw_info :=
     ip_fw_info r; ip_fw_info_updated_at := v |}.
Definition set_bulb_last_light_state_at (v : Z) (r : lgtd_lifx_bulb) : lgtd_lifx_bulb :=
  {|
     bulb_last_light_state_at := v; bulb_runtime_info_updated_at :=
     bulb_runtime_info_updated_at r; bulb_dirty_at := bulb_dirty_at r;
     bulb_expected_power_on := bulb_expected_power_on r; bulb_addr := bulb_addr r;
     bulb_ambient_light := bulb_ambient_light r; bulb_model := bulb_model r; bulb_vendor :=
     bulb_vendor r; bulb_gw := bulb_gw r; bulb_state := bulb_state r; bulb_ips := bulb_ips
     r; bulb_product_info := bulb_product_info r; bulb_runtime_info := bulb_runtime_info r |}.
Definition set_bulb_runtime_info_updated_at (v : Z) (r : lgtd_lifx_bulb) : lgtd_lifx_bulb :=
  {|
     bulb_last_light_state_at := bulb_last_light_state_at r; bulb_runtime_info_updated_at :=
     v; bulb_dirty_at := bulb_dirty_at r; bulb_expected_power_on := bulb_expected_power_on
     r; bulb_addr := bulb_addr r; bulb_ambient_light := bulb_ambient_light r; bulb_model :=
     bulb_model r; bulb_vendor := bulb_vendor r; bulb_gw := bulb_gw r; bulb_state :=
     bulb_state r; bulb_ips := bulb_ips r; bulb_product_info := bulb_product_info r;
     bulb_runtime_info := bulb_runtime_info r |}.
Definition set_bulb_dirty_at (v : Z) (r : lgtd_lifx_bulb) : lgtd_lifx_bulb :=
  {|
     bulb_last_light_state_at := bulb_last_light_state_at r; bulb_runtime_info_updated_at :=
     bulb_runtime_info_updated_at r; bulb_dirty_at := v; bulb_expected_power_on :=
     bulb_expected_power_on r; bulb_addr := bulb_addr r; bulb_ambient_light :=
     bulb_ambient_light r; bulb_model := bulb_model r; bulb_vendor := bulb_vendor r; bulb_gw
     := bulb_gw r; bulb_state := bulb_state r; bulb_ips := bulb_ips r; bulb_product_info :=
     bulb_product_info r; bulb_runtime_info := bulb_runtime_info r |}.
Definition set_bulb_expected_power_on (v : Z) (r : lgtd_lifx_bulb) : lgtd_lifx_bulb :=
  {|
     bulb_last_light_state_at := bulb_last_light_state_at r; bulb_runtime_info_updated_at :=
     bulb_runtime_info_updated_at r; bulb_dirty_at := bulb_dirty_at r;
     bulb_expected_power_on := v; bulb_addr := bulb_addr r; bulb_ambient_light :=
     bulb_ambient_light r; bulb_model := bulb_model r; bulb_vendor := bulb_vendor r; bulb_gw
     := bulb_gw r; bulb_state := bulb_state r; bulb_ips := bulb_ips r; bulb_product_info :=
     bulb_product_info r; bulb_runtime_info := bulb_runtime_info r |}.
Definition set_bulb_ambient_light (v : Z) (r : lgtd_lifx_bulb) : lgtd_lifx_bulb :=
  {|
     bulb_last_light_state_at := bulb_last_light_state_at r; bulb_runtime_info_updated_at :=
     bulb_runtime_info_updated_at r; bulb_dirty_at := bulb_dirty_at r;
     bulb_expected_power_on := bulb_expected_power_on r; bulb_addr := bulb_addr r;
     bulb_ambient_light := v; bulb_model := bulb_model r; bulb_vendor := bulb_vendor r;
     bulb_gw := bulb_gw r; bulb_state := bulb_state r; bulb_ips := bulb_ips r;
     bulb_product_info := bulb_product_info r; bulb_runtime_info := bulb_runtime_info r |}.
Definition set_bulb_model (v : option string) (r : lgtd_lifx_bulb) : lgtd_lifx_bulb :=
  {|
     bulb_last_light_state_at := bulb_last_light_state_at r; bulb_runtime_info_updated_at :=
     bulb_runtime_info_updated_at r; bulb_dirty_at := bulb_dirty_at r;
     bulb_expected_power_on := bulb_expected_power_on r; bulb_addr := bulb_addr r;
     bulb_ambient_light := bulb_ambient_light r; bulb_model := v; bulb_vendor := bulb_vendor
     r; bulb_gw := bulb_gw r; bulb_state := bulb_state r; bulb_ips := bulb_ips r;
     bulb_product_info := bulb_product_info r; bulb_runtime_info := bulb_runtime_info r |}.
Definition set_bulb_vendor (v : option string) (r : lgtd_lifx_bulb) : lgtd_lifx_bulb :=
  {|
     bulb_last_light_state_at := bulb_last_light_state_at r; bulb_runtime_info_updated_at :=
     bulb_runtime_info_updated_at r; bulb_dirty_at := bulb_dirty_at r;
     bulb_expected_power_on := bulb_expected_power_on r; bulb_addr := bulb_addr r;
     bulb_ambient_light := bulb_ambient_light r; bulb_model := bulb_model r; bulb_vendor :=
     v; bulb_gw := bulb_gw r; bulb_state := bulb_state r; bulb_ips := bulb_ips r;
     bulb_product_info := bulb_product_info r; bulb_runtime_info := bulb_runtime_info r |}.
Definition set_bulb_state (v : lgtd_lifx_light_state) (r : lgtd_lifx_bulb) : lgtd_lifx_bulb :=
  {|
     bulb_last_light_state_at := bulb_last_light_state_at r; bulb_runtime_info_updated_at :=
     bulb_runtime_info_updated_at r; bulb_dirty_at := bulb_dirty_at r;
     bulb_expected_power_on := bulb_expected_power_on r; bulb_addr := bulb_addr r;
     bulb_ambient_light := bulb_ambient_light r; bulb_model := bulb_model r; bulb_vendor :=
     bulb_vendor r; bulb_gw := bulb_gw r; bulb_state := v; bulb_ips := bulb_ips r;
     bulb_product_info := bulb_product_info r; bulb_runtime_info := bulb_runtime_info r |}.
Definition set_bulb_ips (v : list lgtd_lifx_bulb_ip) (r : lgtd_lifx_bulb) : lgtd_lifx_bulb :=
  {|
     bulb_last_light_state_at := bulb_last_light_state_at r; bulb_runtime_info_updated_at :=
     bulb_runtime_info_updated_at r; bulb_dirty_at := bulb_dirty_at r;
     bulb_expected_power_on := bulb_expected_power_on r; bulb_addr := bulb_addr r;
     bulb_ambient_light := bulb_ambient_light r; bulb_model := bulb_model r; bulb_vendor :=
     bulb_vendor r; bulb_gw := bulb_gw r; bulb_state := bulb_state r; bulb_ips := v;
     bulb_product_info := bulb_product_info r; bulb_runtime_info := bulb_runtime_info r |}.
Definition set_bulb_product_info (v : lgtd_lifx_product_info) (r : lgtd_lifx_bulb) : lgtd_lifx_bulb :=
  {|
     bulb_last_light_state_at := bulb_last_light_state_at r; bulb_runtime_info_updated_at :=
     bulb_runtime_info_updated_at r; bulb_dirty_at := bulb_dirty_at r;
     bulb_expected_power_on := bulb_expected_power_on r; bulb_addr := bulb_addr r;
     bulb_ambient_light := bulb_ambient_light r; bulb_model := bulb_model r; bulb_vendor :=
     bulb_vendor r; bulb_gw := bulb_gw r; bulb_state := bulb_state r; bulb_ips := bulb_ips
     r; bulb_product_info := v; bulb_runtime_info := bulb_runtime_info r |}.
Definition set_bulb_runtime_info (v : lgtd_lifx_runtime_info) (r : lgtd_lifx_bulb) : lgtd_lifx_bulb :=
  {|
     bulb_last_light_state_at := bulb_last_light_state_at r; bulb_runtime_info_updated_at :=
     bulb_runtime_info_updated_at r; bulb_dirty_at := bulb_dirty_at r;
     bulb_expected_power_on := bulb_expected_power_on r; bulb_addr := bulb_addr r;
     bulb_ambient_light := bulb_ambient_light r; bulb_model := bulb_model r; bulb_vendor :=
     bulb_vendor r; bulb_gw := bulb_gw r; bulb_state := bulb_state r; bulb_ips := bulb_ips
     r; bulb_product_info := bulb_product_info r; bulb_runtime_info := v |}.
Definition set_tag_sites (v : list lgtd_lifx_site) (r : lgtd_lifx_tag) : lgtd_lifx_tag :=
  {|
     tag_label := tag_label r; tag_sites := v |}.
Definition set_gw_bulbs (v : list addr) (r : lgtd_lifx_gateway) : lgtd_lifx_gateway :=
  {|
     gw_bulbs := v; gw_peer := gw_peer r; gw_site := gw_site r; gw_tag_ids := gw_tag_ids r;
     gw_tags := gw_tags r; gw_tag_refcounts := gw_tag_refcounts r; gw_socket := gw_socket r;
     gw_last_req_at := gw_last_req_at r; gw_next_req_at := gw_next_req_at r; gw_last_pkt_at
     := gw_last_pkt_at r; gw_pkt_ring := gw_pkt_ring r; gw_pkt_ring_head := gw_pkt_ring_head
     r; gw_pkt_ring_tail := gw_pkt_ring_tail r; gw_pkt_ring_full := gw_pkt_ring_full r;
     gw_socket_ev := gw_socket_ev r; gw_write_buf := gw_write_buf r; gw_pending_refresh_req
     := gw_pending_refresh_req r; gw_refresh_timer := gw_refresh_timer r |}.
Definition set_gw_tag_ids (v : Z) (r : lgtd_lifx_gateway) : lgtd_lifx_gateway :=
  {|
     gw_bulbs := gw_bulbs r; gw_peer := gw_peer r; gw_site := gw_site r; gw_tag_ids := v;
     gw_tags := gw_tags r; gw_tag_refcounts := gw_tag_refcounts r; gw_socket := gw_socket r;
     gw_last_req_at := gw_last_req_at r; gw_next_req_at := gw_next_req_at r; gw_last_pkt_at
     := gw_last_pkt_at r; gw_pkt_ring := gw_pkt_ring r; gw_pkt_ring_head := gw_pkt_ring_head
     r; gw_pkt_ring_tail := gw_pkt_ring_tail r; gw_pkt_ring_full := gw_pkt_ring_full r;
     gw_socket_ev := gw_socket_ev r; gw_write_buf := gw_write_buf r; gw_pending_refresh_req
     := gw_pending_refresh_req r; gw_refresh_timer := gw_refresh_timer r |}.
Definition set_gw_tags (v : list (option tag_ptr)) (r : lgtd_lifx_gateway) : lgtd_lifx_gateway :=
  {|
     gw_bulbs := gw_bulbs r; gw_peer := gw_peer r; gw_site := gw_site r; gw_tag_ids :=
     gw_tag_ids r; gw_tags := v; gw_tag_refcounts := gw_tag_refcounts r; gw_socket :=
     gw_socket r; gw_last_req_at := gw_last_req_at r; gw_next_req_at := gw_next_req_at r;
     gw_last_pkt_at := gw_last_pkt_at r; gw_pkt_ring := gw_pkt_ring r; gw_pkt_ring_head :=
     gw_pkt_ring_head r; gw_pkt_ring_tail := gw_pkt_ring_tail r; gw_pkt_ring_full :=
     gw_pkt_ring_full r; gw_socket_ev := gw_socket_ev r; gw_write_buf := gw_write_buf r;
     gw_pending_refresh_req := gw_pending_refresh_req r; gw_refresh_timer :=
     gw_refresh_timer r |}.
Definition set_gw_tag_refcounts (v : list Z) (r : lgtd_lifx_gateway) : lgtd_lifx_gateway :=
  {|
     gw_bulbs := gw_bulbs r; gw_peer := gw_peer r; gw_site := gw_site r; gw_tag_ids :=
     gw_tag_ids r; gw_tags := gw_tags r; gw_tag_refcounts := v; gw_socket := gw_socket r;
     gw_last_req_at := gw_last_req_at r; gw_next_req_at := gw_next_req_at r; gw_last_pkt_at
     := gw_last_pkt_at r; gw_pkt_ring := gw_pkt_ring r; gw_pkt_ring_head := gw_pkt_ring_head
     r; gw_pkt_ring_tail := gw_pkt_ring_tail r; gw_pkt_ring_full := gw_pkt_ring_full r;
     gw_socket_ev := gw_socket_ev r; gw_write_buf := gw_write_buf r; gw_pending_refresh_req
     := gw_pending_refresh_req r; gw_refresh_timer := gw_refresh_timer r |}.
Definition set_gw_last_req_at (v : Z) (r : lgtd_lifx_gateway) : lgtd_lifx_gateway :=
  {|
     gw_bulbs := gw_bulbs r; gw_peer := gw_peer r; gw_site := gw_site r; gw_tag_ids :=
     gw_tag_ids r; gw_tags := gw_tags r; gw_tag_refcounts := gw_tag_refcounts r; gw_socket
     := gw_socket r; gw_last_req_at := v; gw_next_req_at := gw_next_req_at r; gw_last_pkt_at
     := gw_last_pkt_at r; gw_pkt_ring := gw_pkt_ring r; gw_pkt_ring_head := gw_pkt_ring_head
     r; gw_pkt_ring_tail := gw_pkt_ring_tail r; gw_pkt_ring_full := gw_pkt_ring_full r;
     gw_socket_ev := gw_socket_ev r; gw_write_buf := gw_write_buf r; gw_pending_refresh_req
     := gw_pending_refresh_req r; gw_refresh_timer := gw_refresh_timer r |}.
Definition set_gw_next_req_at (v : Z) (r : lgtd_lifx_gateway) : lgtd_lifx_gateway :=
  {|
     gw_bulbs := gw_bulbs r; gw_peer := gw_peer r; gw_site := gw_site r; gw_tag_ids :=
     gw_tag_ids r; gw_tags := gw_tags r; gw_tag_refcounts := gw_tag_refcounts r; gw_socket
     := gw_socket r; gw_last_req_at := gw_last_req_at r; gw_next_req_at := v; gw_last_pkt_at
     := gw_last_pkt_at r; gw_pkt_ring := gw_pkt_ring r; gw_pkt_ring_head := gw_pkt_ring_head
     r; gw_pkt_ring_tail := gw_pkt_ring_tail r; gw_pkt_ring_full := gw_pkt_ring_full r;
     gw_socket_ev := gw_socket_ev r; gw_write_buf := gw_write_buf r; gw_pending_refresh_req
     := gw_pending_refresh_req r; gw_refresh_timer := gw_refresh_timer r |}.
Definition set_gw_last_pkt_at (v : Z) (r : lgtd_lifx_gateway) : lgtd_lifx_gateway :=
  {|
     gw_bulbs := gw_bulbs r; gw_peer := gw_peer r; gw_site := gw_site r; gw_tag_ids :=
     gw_tag_ids r; gw_tags := gw_tags r; gw_tag_refcounts := gw_tag_refcounts r; gw_socket
     := gw_socket r; gw_last_req_at := gw_last_req_at r; gw_next_req_at := gw_next_req_at r;
     gw_last_pkt_at := v; gw_pkt_ring := gw_pkt_ring r; gw_pkt_ring_head := gw_pkt_ring_head
     r; gw_pkt_ring_tail := gw_pkt_ring_tail r; gw_pkt_ring_full := gw_pkt_ring_full r;
     gw_socket_ev := gw_socket_ev r; gw_write_buf := gw_write_buf r; gw_pending_refresh_req
     := gw_pending_refresh_req r; gw_refresh_timer := gw_refresh_timer r |}.
Definition set_gw_pkt_ring (v : list lgtd_lifx_message) (r : lgtd_lifx_gateway) : lgtd_lifx_gateway :=
  {|
     gw_bulbs := gw_bulbs r; gw_peer := gw_peer r; gw_site := gw_site r; gw_tag_ids :=
     gw_tag_ids r; gw_tags := gw_tags r; gw_tag_refcounts := gw_tag_refcounts r; gw_socket
     := gw_socket r; gw_last_req_at := gw_last_req_at r; gw_next_req_at := gw_next_req_at r;
     gw_last_pkt_at := gw_last_pkt_at r; gw_pkt_ring := v; gw_pkt_ring_head :=
     gw_pkt_ring_head r; gw_pkt_ring_tail := gw_pkt_ring_tail r; gw_pkt_ring_full :=
     gw_pkt_ring_full r; gw_socket_ev := gw_socket_ev r; gw_write_buf := gw_write_buf r;
     gw_pending_refresh_req := gw_pending_refresh_req r; gw_refresh_timer :=
     gw_refresh_timer r |}.
Definition set_gw_pkt_ring_head (v : nat) (r : lgtd_lifx_gateway) : lgtd_lifx_gateway :=
  {|
     gw_bulbs := gw_bulbs r; gw_peer := gw_peer r; gw_site := gw_site r; gw_tag_ids :=
     gw_tag_ids r; gw_tags := gw_tags r; gw_tag_refcounts := gw_tag_refcounts r; gw_socket
     := gw_socket r; gw_last_req_at := gw_last_req_at r; gw_next_req_at := gw_next_req_at r;
     gw_last_pkt_at := gw_last_pkt_at r; gw_pkt_ring := gw_pkt_ring r; gw_pkt_ring_head :=
     v; gw_pkt_ring_tail := gw_pkt_ring_tail r; gw_pkt_ring_full := gw_pkt_ring_full r;
     gw_socket_ev := gw_socket_ev r; gw_write_buf := gw_write_buf r; gw_pending_refresh_req
     := gw_pending_refresh_req r; gw_refresh_timer := gw_refresh_timer r |}.
Definition set_gw_pkt_ring_tail (v : nat) (r : lgtd_lifx_gateway) : lgtd_lifx_gateway :=
  {|
     gw_bulbs := gw_bulbs r; gw_peer := gw_peer r; gw_site := gw_site r; gw_tag_ids :=
     gw_tag_ids r; gw_tags := gw_tags r; gw_tag_refcounts := gw_tag_refcounts r; gw_socket
     := gw_socket r; gw_last_req_at := gw_last_req_at r; gw_next_req_at := gw_next_req_at r;
     gw_last_pkt_at := gw_last_pkt_at r; gw_pkt_ring := gw_pkt_ring r; gw_pkt_ring_head :=
     gw_pkt_ring_head r; gw_pkt_ring_tail := v; gw_pkt_ring_full := gw_pkt_ring_full r;
     gw_socket_ev := gw_socket_ev r; gw_write_buf := gw_write_buf r; gw_pending_refresh_req
     := gw_pending_refresh_req r; gw_refresh_timer := gw_refresh_timer r |}.
Definition set_gw_pkt_ring_full (v : bool) (r : lgtd_lifx_gateway) : lgtd_lifx_gateway :=
  {|
     gw_bulbs := gw_bulbs r; gw_peer := gw_peer r; gw_site := gw_site r; gw_tag_ids :=
     gw_tag_ids r; gw_tags := gw_tags r; gw_tag_refcounts := gw_tag_refcounts r; gw_socket
     := gw_socket r; gw_last_req_at := gw_last_req_at r; gw_next_req_at := gw_next_req_at r;
     gw_last_pkt_at := gw_last_pkt_at r; gw_pkt_ring := gw_pkt_ring r; gw_pkt_ring_head :=
     gw_pkt_ring_head r; gw_pkt_ring_tail := gw_pkt_ring_tail r; gw_pkt_ring_full := v;
     gw_socket_ev := gw_socket_ev r; gw_write_buf := gw_write_buf r; gw_pending_refresh_req
     := gw_pending_refresh_req r; gw_refresh_timer := gw_refresh_timer r |}.
Definition set_gw_socket_ev (v : bool) (r : lgtd_lifx_gateway) : lgtd_lifx_gateway :=
  {|
     gw_bulbs := gw_bulbs r; gw_peer := gw_peer r; gw_site := gw_site r; gw_tag_ids :=
     gw_tag_ids r; gw_tags := gw_tags r; gw_tag_refcounts := gw_tag_refcounts r; gw_socket
     := gw_socket r; gw_last_req_at := gw_last_req_at r; gw_next_req_at := gw_next_req_at r;
     gw_last_pkt_at := gw_last_pkt_at r; gw_pkt_ring := gw_pkt_ring r; gw_pkt_ring_head :=
     gw_pkt_ring_head r; gw_pkt_ring_tail := gw_pkt_ring_tail r; gw_pkt_ring_full :=
     gw_pkt_ring_full r; gw_socket_ev := v; gw_write_buf := gw_write_buf r;
     gw_pending_refresh_req := gw_pending_refresh_req r; gw_refresh_timer :=
     gw_refresh_timer r |}.
Definition set_gw_write_buf (v : list Z) (r : lgtd_lifx_gateway) : lgtd_lifx_gateway :=
  {|
     gw_bulbs := gw_bulbs r; gw_peer := gw_peer r; gw_site := gw_site r; gw_tag_ids :=
     gw_tag_ids r; gw_tags := gw_tags r; gw_tag_refcounts := gw_tag_refcounts r; gw_socket
     := gw_socket r; gw_last_req_at := gw_last_req_at r; gw_next_req_at := gw_next_req_at r;
     gw_last_pkt_at := gw_last_pkt_at r; gw_pkt_ring := gw_pkt_ring r; gw_pkt_ring_head :=
     gw_pkt_ring_head r; gw_pkt_ring_tail := gw_pkt_ring_tail r; gw_pkt_ring_full :=
     gw_pkt_ring_full r; gw_socket_ev := gw_socket_ev r; gw_write_buf := v;
     gw_pending_refresh_req := gw_pending_refresh_req r; gw_refresh_timer :=
     gw_refresh_timer r |}.
Definition set_gw_pending_refresh_req (v : bool) (r : lgtd_lifx_gateway) : lgtd_lifx_gateway :=
  {|
     gw_bulbs := gw_bulbs r; gw_peer := gw_peer r; gw_site := gw_site r; gw_tag_ids :=
     gw_tag_ids r; gw_tags := gw_tags r; gw_tag_refcounts := gw_tag_refcounts r; gw_socket
     := gw_socket r; gw_last_req_at := gw_last_req_at r; gw_next_req_at := gw_next_req_at r;
     gw_last_pkt_at := gw_last_pkt_at r; gw_pkt_ring := gw_pkt_ring r; gw_pkt_ring_head :=
     gw_pkt_ring_head r; gw_pkt_ring_tail := gw_pkt_ring_tail r; gw_pkt_ring_full :=
     gw_pkt_ring_full r; gw_socket_ev := gw_socket_ev r; gw_write_buf := gw_write_buf r;
     gw_pending_refresh_req := v; gw_refresh_timer := gw_refresh_timer r |}.
Definition set_stats_gateways (v : Z) (r : lgtd_stats) : lgtd_stats :=
  {|
     stats_gateways := v; stats_bulbs := stats_bulbs r; stats_bulbs_powered_on :=
     stats_bulbs_powered_on r; stats_clients := stats_clients r |}.
Definition set_stats_bulbs (v : Z) (r : lgtd_stats) : lgtd_stats :=
  {|
     stats_gateways := stats_gateways r; stats_bulbs := v; stats_bulbs_powered_on :=
     stats_bulbs_powered_on r; stats_clients := stats_clients r |}.
Definition set_stats_bulbs_powered_on (v : Z) (r : lgtd_stats) : lgtd_stats :=
  {|
     stats_gateways := stats_gateways r; stats_bulbs := stats_bulbs r;
     stats_bulbs_powered_on := v; stats_clients := stats_clients r |}.
Definition set_stats_clients (v : Z) (r : lgtd_stats) : lgtd_stats :=
  {|
     stats_gateways := stats_gateways r; stats_bulbs := stats_bulbs r;
     stats_bulbs_powered_on := stats_bulbs_powered_on r; stats_clients := v |}.
Definition set_w_gateways (v : gmap gw_ptr lgtd_lifx_gateway) (r : world) : world :=
  {|
     w_gateways := v; w_gateway_list := w_gateway_list r; w_bulbs_table := w_bulbs_table r;
     w_tags := w_tags r; w_tag_list := w_tag_list r; w_timers := w_timers r; w_counters :=
     w_counters r; w_broadcast_write_ev := w_broadcast_write_ev r; w_watchdog_pending :=
     w_watchdog_pending r; w_discovery_timeout := w_discovery_timeout r; w_discovery_ev :=
     w_discovery_ev r; w_client_id := w_client_id r; w_now := w_now r; w_os_results :=
     w_os_results r; w_clock := w_clock r |}.
Definition set_w_gateway_list (v : list gw_ptr) (r : world) : world :=
  {|
     w_gateways := w_gateways r; w_gateway_list := v; w_bulbs_table := w_bulbs_table r;
     w_tags := w_tags r; w_tag_list := w_tag_list r; w_timers := w_timers r; w_counters :=
     w_counters r; w_broadcast_write_ev := w_broadcast_write_ev r; w_watchdog_pending :=
     w_watchdog_pending r; w_discovery_timeout := w_discovery_timeout r; w_discovery_ev :=
     w_discovery_ev r; w_client_id := w_client_id r; w_now := w_now r; w_os_results :=
     w_os_results r; w_clock := w_clock r |}.
Definition set_w_bulbs_table (v : gmap addr lgtd_lifx_bulb) (r : world) : world :=
  {|
     w_gateways := w_gateways r; w_gateway_list := w_gateway_list r; w_bulbs_table := v;
     w_tags := w_tags r; w_tag_list := w_tag_list r; w_timers := w_timers r; w_counters :=
     w_counters r; w_broadcast_write_ev := w_broadcast_write_ev r; w_watchdog_pending :=
     w_watchdog_pending r; w_discovery_timeout := w_discovery_timeout r; w_discovery_ev :=
     w_discovery_ev r; w_client_id := w_client_id r; w_now := w_now r; w_os_results :=
     w_os_results r; w_clock := w_clock r |}.
Definition set_w_tags (v : gmap tag_ptr lgtd_lifx_tag) (r : world) : world :=
  {|
     w_gateways := w_gateways r; w_gateway_list := w_gateway_list r; w_bulbs_table :=
     w_bulbs_table r; w_tags := v; w_tag_list := w_tag_list r; w_timers := w_timers r;
     w_counters := w_counters r; w_broadcast_write_ev := w_broadcast_write_ev r;
     w_watchdog_pending := w_watchdog_pending r; w_discovery_timeout := w_discovery_timeout
     r; w_discovery_ev := w_discovery_ev r; w_client_id := w_client_id r; w_now := w_now r;
     w_os_results := w_os_results r; w_clock := w_clock r |}.
Definition set_w_tag_list (v : list tag_ptr) (r : world) : world :=
  {|
     w_gateways := w_gateways r; w_gateway_list := w_gateway_list r; w_bulbs_table :=
     w_bulbs_table r; w_tags := w_tags r; w_tag_list := v; w_timers := w_timers r;
     w_counters := w_counters r; w_broadcast_write_ev := w_broadcast_write_ev r;
     w_watchdog_pending := w_watchdog_pending r; w_discovery_timeout := w_discovery_timeout
     r; w_discovery_ev := w_discovery_ev r; w_client_id := w_client_id r; w_now := w_now r;
     w_os_results := w_os_results r; w_clock := w_clock r |}.
Definition set_w_timers (v : gmap timer_ptr lgtd_timer) (r : world) : world :=
  {|
     w_gateways := w_gateways r; w_gateway_list := w_gateway_list r; w_bulbs_table :=
     w_bulbs_table r; w_tags := w_tags r; w_tag_list := w_tag_list r; w_timers := v;
     w_counters := w_counters r; w_broadcast_write_ev := w_broadcast_write_ev r;
     w_watchdog_pending := w_watchdog_pending r; w_discovery_timeout := w_discovery_timeout
     r; w_discovery_ev := w_discovery_ev r; w_client_id := w_client_id r; w_now := w_now r;
     w_os_results := w_os_results r; w_clock := w_clock r |}.
Definition set_w_counters (v : lgtd_stats) (r : world) : world :=
  {|
     w_gateways := w_gateways r; w_gateway_list := w_gateway_list r; w_bulbs_table :=
     w_bulbs_table r; w_tags := w_tags r; w_tag_list := w_tag_list r; w_timers := w_timers
     r; w_counters := v; w_broadcast_write_ev := w_broadcast_write_ev r; w_watchdog_pending
     := w_watchdog_pending r; w_discovery_timeout := w_discovery_timeout r; w_discovery_ev
     := w_discovery_ev r; w_client_id := w_client_id r; w_now := w_now r; w_os_results :=
     w_os_results r; w_clock := w_clock r |}.
Definition set_w_broadcast_write_ev (v : option bool) (r : world) : world :=
  {|
     w_gateways := w_gateways r; w_gateway_list := w_gateway_list r; w_bulbs_table :=
     w_bulbs_table r; w_tags := w_tags r; w_tag_list := w_tag_list r; w_timers := w_timers
     r; w_counters := w_counters r; w_broadcast_write_ev := v; w_watchdog_pending :=
     w_watchdog_pending r; w_discovery_timeout := w_discovery_timeout r; w_discovery_ev :=
     w_discovery_ev r; w_client_id := w_client_id r; w_now := w_now r; w_os_results :=
     w_os_results r; w_clock := w_clock r |}.
Definition set_w_watchdog_pending (v : bool) (r : world) : world :=
  {|
     w_gateways := w_gateways r; w_gateway_list := w_gateway_list r; w_bulbs_table :=
     w_bulbs_table r; w_tags := w_tags r; w_tag_list := w_tag_list r; w_timers := w_timers
     r; w_counters := w_counters r; w_broadcast_write_ev := w_broadcast_write_ev r;
     w_watchdog_pending := v; w_discovery_timeout := w_discovery_timeout r; w_discovery_ev
     := w_discovery_ev r; w_client_id := w_client_id r; w_now := w_now r; w_os_results :=
     w_os_results r; w_clock := w_clock r |}.
Definition set_w_discovery_timeout (v : Z) (r : world) : world :=
  {|
     w_gateways := w_gateways r; w_gateway_list := w_gateway_list r; w_bulbs_table :=
     w_bulbs_table r; w_tags := w_tags r; w_tag_list := w_tag_list r; w_timers := w_timers
     r; w_counters := w_counters r; w_broadcast_write_ev := w_broadcast_write_ev r;
     w_watchdog_pending := w_watchdog_pending r; w_discovery_timeout := v; w_discovery_ev :=
     w_discovery_ev r; w_client_id := w_client_id r; w_now := w_now r; w_os_results :=
     w_os_results r; w_clock := w_clock r |}.
Definition set_w_discovery_ev (v : option Z) (r : world) : world :=
  {|
     w_gateways := w_gateways r; w_gateway_list := w_gateway_list r; w_bulbs_table :=
     w_bulbs_table r; w_tags := w_tags r; w_tag_list := w_tag_list r; w_timers := w_timers
     r; w_counters := w_counters r; w_broadcast_write_ev := w_broadcast_write_ev r;
     w_watchdog_pending := w_watchdog_pending r; w_discovery_timeout := w_discovery_timeout
     r; w_discovery_ev := v; w_client_id := w_client_id r; w_now := w_now r; w_os_results :=
     w_os_results r; w_clock := w_clock r |}.
Definition set_w_now (v : Z) (r : world) : world :=
  {|
     w_gateways := w_gateways r; w_gateway_list := w_gateway_list r; w_bulbs_table :=
     w_bulbs_table r; w_tags := w_tags r; w_tag_list := w_tag_list r; w_timers := w_timers
     r; w_counters := w_counters r; w_broadcast_write_ev := w_broadcast_write_ev r;
     w_watchdog_pending := w_watchdog_pending r; w_discovery_timeout := w_discovery_timeout
     r; w_discovery_ev := w_discovery_ev r; w_client_id := w_client_id r; w_now := v;
     w_os_results := w_os_results r; w_clock := w_clock r |}.
Definition set_w_os_results (v : list bool) (r : world) : world :=
  {|
     w_gateways := w_gateways r; w_gateway_list := w_gateway_list r; w_bulbs_table :=
     w_bulbs_table r; w_tags := w_tags r; w_tag_list := w_tag_list r; w_timers := w_timers
     r; w_counters := w_counters r; w_broadcast_write_ev := w_broadcast_write_ev r;
     w_watchdog_pending := w_watchdog_pending r; w_discovery_timeout := w_discovery_timeout
     r; w_discovery_ev := w_discovery_ev r; w_client_id := w_client_id r; w_now := w_now r;
     w_os_results := v; w_clock := w_clock r |}.
Definition set_w_clock (v : list Z) (r : world) : world :=
  {|
     w_gateways := w_gateways r; w_gateway_list := w_gateway_list r; w_bulbs_table :=
     w_bulbs_table r; w_tags := w_tags r; w_tag_list := w_tag_list r; w_timers := w_timers
     r; w_counters := w_counters r; w_broadcast_write_ev := w_broadcast_write_ev r;
     w_watchdog_pending := w_watchdog_pending r; w_discovery_timeout := w_discovery_timeout
     r; w_discovery_ev := w_discovery_ev r; w_client_id := w_client_id r; w_now := w_now r;
     w_os_results := w_os_results r; w_clock := v |}.

(** Reads the fields of updated records, without unfolding anything else. *)
Ltac fields :=
  cbn [
     ip_state ip_state_updated_at ip_fw_info ip_fw_info_updated_at bulb_last_light_state_at
     bulb_runtime_info_updated_at bulb_dirty_at bulb_expected_power_on bulb_addr
     bulb_ambient_light bulb_model bulb_vendor bulb_gw bulb_state bulb_ips bulb_product_info
     bulb_runtime_info tag_label tag_sites gw_bulbs gw_peer gw_site gw_tag_ids gw_tags
     gw_tag_refcounts gw_socket gw_last_req_at gw_next_req_at gw_last_pkt_at gw_pkt_ring
     gw_pkt_ring_head gw_pkt_ring_tail gw_pkt_ring_full gw_socket_ev gw_write_buf
     gw_pending_refresh_req gw_refresh_timer stats_gateways stats_bulbs
     stats_bulbs_powered_on stats_clients w_gateways w_gateway_list w_bulbs_table w_tags
     w_tag_list w_timers w_counters w_broadcast_write_ev w_watchdog_pending
     w_discovery_timeout w_discovery_ev w_client_id w_now w_os_results w_clock ls_hue
     ls_saturation ls_brightness ls_kelvin ls_dim ls_power ls_label ls_tags set_ls_power
     set_ls_label set_ls_tags set_ip_state set_ip_state_updated_at set_ip_fw_info
     set_ip_fw_info_updated_at set_bulb_last_light_state_at set_bulb_runtime_info_updated_at
     set_bulb_dirty_at set_bulb_expected_power_on set_bulb_ambient_light set_bulb_model
     set_bulb_vendor set_bulb_state set_bulb_ips set_bulb_product_info set_bulb_runtime_info
     set_tag_sites set_gw_bulbs set_gw_tag_ids set_gw_tags set_gw_tag_refcounts
     set_gw_last_req_at set_gw_next_req_at set_gw_last_pkt_at set_gw_pkt_ring
     set_gw_pkt_ring_head set_gw_pkt_ring_tail set_gw_pkt_ring_full set_gw_socket_ev
     set_gw_write_buf set_gw_pending_refresh_req set_stats_gateways set_stats_bulbs
     set_stats_bulbs_powered_on set_stats_clients set_w_gateways set_w_gateway_list
     set_w_bulbs_table set_w_tags set_w_tag_list set_w_timers set_w_counters
     set_w_broadcast_write_ev set_w_watchdog_pending set_w_discovery_timeout
     set_w_discovery_ev set_w_now set_w_os_results set_w_clock].
Ltac fields_in H :=
  cbn [
     ip_state ip_state_updated_at ip_fw_info ip_fw_info_updated_at bulb_last_light_state_at
     bulb_runtime_info_updated_at bulb_dirty_at bulb_expected_power_on bulb_addr
     bulb_ambient_light bulb_model bulb_vendor bulb_gw bulb_state bulb_ips bulb_product_info
     bulb_runtime_info tag_label tag_sites gw_bulbs gw_peer gw_site gw_tag_ids gw_tags
     gw_tag_refcounts gw_socket gw_last_req_at gw_next_req_at gw_last_pkt_at gw_pkt_ring
     gw_pkt_ring_head gw_pkt_ring_tail gw_pkt_ring_full gw_socket_ev gw_write_buf
     gw_pending_refresh_req gw_refresh_timer stats_gateways stats_bulbs
     stats_bulbs_powered_on stats_clients w_gateways w_gateway_list w_bulbs_table w_tags
     w_tag_list w_timers w_counters w_broadcast_write_ev w_watchdog_pending
     w_discovery_timeout w_discovery_ev w_client_id w_now w_os_results w_clock ls_hue
     ls_saturation ls_brightness ls_kelvin ls_dim ls_power ls_label ls_tags set_ls_power
     set_ls_label set_ls_tags set_ip_state set_ip_state_updated_at set_ip_fw_info
     set_ip_fw_info_updated_at set_bulb_last_light_state_at set_bulb_runtime_info_updated_at
     set_bulb_dirty_at set_bulb_expected_power_on set_bulb_ambient_light set_bulb_model
     set_bulb_vendor set_bulb_state set_bulb_ips set_bulb_product_info set_bulb_runtime_info
     set_tag_sites set_gw_bulbs set_gw_tag_ids set_gw_tags set_gw_tag_refcounts
     set_gw_last_req_at set_gw_next_req_at set_gw_last_pkt_at set_gw_pkt_ring
     set_gw_pkt_ring_head set_gw_pkt_ring_tail set_gw_pkt_ring_full set_gw_socket_ev
     set_gw_write_buf set_gw_pending_refresh_req set_stats_gateways set_stats_bulbs
     set_stats_bulbs_powered_on set_stats_clients set_w_gateways set_w_gateway_list
     set_w_bulbs_table set_w_tags set_w_tag_list set_w_timers set_w_counters
     set_w_broadcast_write_ev set_w_watchdog_pending set_w_discovery_timeout
     set_w_discovery_ev set_w_now set_w_os_results set_w_clock] in H.

(** ** Memory *)

Definition get_gw (p : gw_ptr) : M world lgtd_lifx_gateway :=
  w ← mget; mderef (w_gateways w !! p).
Definition get_bulb (a : addr) : M world lgtd_lifx_bulb :=
  w ← mget; mderef (w_bulbs_table w !! a).
Definition get_tag (t : tag_ptr) : M world lgtd_lifx_tag :=
  w ← mget; mderef (w_tags w !! t).
Definition get_timer (t : timer_ptr) : M world lgtd_timer :=
  w ← mget; mderef (w_timers w !! t).

(** An assignment through a pointer. *)
Definition upd_gw (p : gw_ptr) (f : lgtd_lifx_gateway -> lgtd_lifx_gateway) : M world unit :=
  gw ← get_gw p;
  mmodify (fun w => set_w_gateways (<[p := f gw]> (w_gateways w)) w).
Definition upd_bulb (a : addr) (f : lgtd_lifx_bulb -> lgtd_lifx_bulb) : M world unit :=
  b ← get_bulb a;
  mmodify (fun w => set_w_bulbs_table (<[a := f b]> (w_bulbs_table w)) w).
Definition upd_tag (t : tag_ptr) (f : lgtd_lifx_tag -> lgtd_lifx_tag) : M world unit :=
  tag ← get_tag t;
  mmodify (fun w => set_w_tags (<[t := f tag]> (w_tags w)) w).
Definition upd_timer (t : timer_ptr) (f : lgtd_timer -> lgtd_timer) : M world unit :=
  tm ← get_timer t;
  mmodify (fun w => set_w_timers (<[t := f tm]> (w_timers w)) w).

(** ** The operating system *)

(** Whether the next call that can fail succeeds. *)
Definition os_call : M world bool := fun w =>
  match w_os_results w with
  | [] => Ret true w
  | r :: rs => Ret r (set_w_os_results rs w)
  end.

(** The clock never goes back and does not reach the end of its 64 bits. *)
Definition lgtd_time_monotonic_msecs : M world Z := fun w =>
  match w_clock w with
  | [] => Ret (w_now w) w
  | d :: ds =>
    let t := Z.max (w_now w) (Z.min (2 ^ 64 - 1) (w_now w + d)) in
    Ret t (set_w_clock ds (set_w_now t w))
  end.

(** ** Ordered traversal of the bulbs *)

(** [memcmp(a, b, n) <= 0] on buffers of the same length. *)
Fixpoint addr_le (a b : addr) : bool :=
  match a, b with
  | [], _ => true
  | _ :: _, [] => false
  | x :: a, y :: b => (x <? y) || ((x =? y) && addr_le a b)
  end.

Definition addr_order (a b : addr) : Prop := addr_le a b = true.

#[export] Instance addr_order_dec : RelDecision addr_order.
Proof. intros a b. unfold addr_order. apply _. Defined.

(** The order of [RB_FOREACH] on [lgtd_lifx_bulbs_table]. *)
Definition bulbs_in_order (w : world) : list addr :=
  merge_sort addr_order (map_to_list (w_bulbs_table w)).*1.

(** ** Counters *)

Inductive stats_field : Type :=
| counter_gateways
| counter_bulbs
| counter_bulbs_powered_on
| counter_clients.

Definition get_counter (f : stats_field) (s : lgtd_stats) : Z :=
  match f with
  | counter_gateways => stats_gateways s
  | counter_bulbs => stats_bulbs s
  | counter_bulbs_powered_on => stats_bulbs_powered_on s
  | counter_clients => stats_clients s
  end.

Definition set_counter (f : stats_field) (v : Z) (s : lgtd_stats) : lgtd_stats :=
  match f with
  | counter_gateways => set_stats_gateways v s
  | counter_bulbs => set_stats_bulbs v s
  | counter_bulbs_powered_on => set_stats_bulbs_powered_on v s
  | counter_clients => set_stats_clients v s
  end.

Definition lgtd_stats_add (f : stats_field) (value : Z) : M world unit :=
  w ← mget;
  massert (0 <=? get_counter f (w_counters w) + value) ;;
  mmodify (fun w => set_w_counters (set_counter f (get_counter f (w_counters w) + value) (w_counters w)) w).

Definition lgtd_stats_get (f : stats_field) : M world Z :=
  mgets (fun w => get_counter f (w_counters w)).

(** ** Timers *)

Definition set_timer_timeout (v : option Z) (t : lgtd_timer) : lgtd_timer :=
  {| timer_callback := timer_callback t; timer_ctx := timer_ctx t;
     timer_persistent := timer_persistent t; timer_timeout := v; timer_active := timer_active t |}.
Definition set_timer_active (v : bool) (t : lgtd_timer) : lgtd_timer :=
  {| timer_callback := timer_callback t; timer_ctx := timer_ctx t;
     timer_persistent := timer_persistent t; timer_timeout := timer_timeout t; timer_active := v |}.

Definition lgtd_timer_activate (t : timer_ptr) : M world unit :=
  upd_timer t (set_timer_active true).

(** [evtimer_add] replaces the timeout of a pending event. *)
Definition lgtd_timer_reschedule (t : timer_ptr) (ms : Z) : M world bool :=
  ok ← os_call;
  mwhen ok (upd_timer t (set_timer_timeout (Some ms))) ;;
  mret ok.

Definition lgtd_timer_start (activate_now persistent : bool) (ms : Z)
    (cb : lgtd_timer_callback_fn) (ctx : lgtd_timer_ctx) : M world (option timer_ptr) :=
  massert (0 <? ms) ;;
  allocated ← os_call;
  if negb allocated then mret None else
  event_ok ← os_call;
  if negb event_ok then mret None else
  added ← os_call;
  if negb added then mret None else
  w ← mget;
  let t := fresh_ptr (w_timers w) in
  let timer := {| timer_callback := cb; timer_ctx := ctx; timer_persistent := persistent;
                  timer_timeout := Some ms; timer_active := activate_now |} in
  mmodify (fun w => set_w_timers (<[t := timer]> (w_timers w)) w) ;;
  mret (Some t).

Definition lgtd_timer_stop (t : timer_ptr) : M world unit :=
  get_timer t ;;
  mmodify (fun w => set_w_timers (delete t (w_timers w)) w).

(** ** The broadcast endpoint and the watchdog *)

(** [event_add] on the write event. *)
Definition lgtd_lifx_broadcast_discovery : M world bool :=
  w ← mget;
  massert (bool_decide (is_Some (w_broadcast_write_ev w))) ;;
  ok ← os_call;
  mwhen ok (mmodify (set_w_broadcast_write_ev (Some true))) ;;
  mret ok.

Definition lgtd_lifx_discovery_start_watchdog : M world unit :=
  w ← mget;
  massert (bool_decide (w_bulbs_table w <> ∅) || bool_decide (w_gateway_list w <> [])) ;;
  if w_watchdog_pending w then mret tt
  else
    added ← os_call;
    if (added : bool) then mmodify (set_w_watchdog_pending true) else mcrash Exited.

(** ** Lemmas *)

(** The state after an assignment. *)
Definition gw_put (p : gw_ptr) (gw : lgtd_lifx_gateway) (w : world) : world :=
  set_w_gateways (<[p := gw]> (w_gateways w)) w.
Definition bulb_put (a : addr) (b : lgtd_lifx_bulb) (w : world) : world :=
  set_w_bulbs_table (<[a := b]> (w_bulbs_table w)) w.
Definition tag_put (t : tag_ptr) (tag : lgtd_lifx_tag) (w : world) : world :=
  set_w_tags (<[t := tag]> (w_tags w)) w.

Lemma get_gw_ret w p gw : w_gateways w !! p = Some gw -> get_gw p w = Ret gw w.
Proof. intros Hp. unfold get_gw, mbind, M_bind, mget. by rewrite Hp. Qed.
Lemma get_bulb_ret w a b : w_bulbs_table w !! a = Some b -> get_bulb a w = Ret b w.
Proof. intros Hp. unfold get_bulb, mbind, M_bind, mget. by rewrite Hp. Qed.
Lemma get_tag_ret w t tag : w_tags w !! t = Some tag -> get_tag t w = Ret tag w.
Proof. intros Hp. unfold get_tag, mbind, M_bind, mget. by rewrite Hp. Qed.
Lemma get_timer_ret w t tm : w_timers w !! t = Some tm -> get_timer t w = Ret tm w.
Proof. intros Hp. unfold get_timer, mbind, M_bind, mget. by rewrite Hp. Qed.

Lemma upd_gw_ret w p gw f : w_gateways w !! p = Some gw -> upd_gw p f w = Ret tt (gw_put p (f gw) w).
Proof. intros Hp. unfold upd_gw, mbind, M_bind. by rewrite (get_gw_ret _ _ _ Hp). Qed.
Lemma upd_bulb_ret w a b f :
  w_bulbs_table w !! a = Some b -> upd_bulb a f w = Ret tt (bulb_put a (f b) w).
Proof. intros Hp. unfold upd_bulb, mbind, M_bind. by rewrite (get_bulb_ret _ _ _ Hp). Qed.
Lemma upd_tag_ret w t tag f : w_tags w !! t = Some tag -> upd_tag t f w = Ret tt (tag_put t (f tag) w).
Proof. intros Hp. unfold upd_tag, mbind, M_bind. by rewrite (get_tag_ret _ _ _ Hp). Qed.

Lemma gw_put_put p a b w : gw_put p a (gw_put p b w) = gw_put p a w.
Proof. unfold gw_put. destruct w; fields. by rewrite insert_insert_eq. Qed.
Lemma gw_put_lookup p gw w : w_gateways (gw_put p gw w) !! p = Some gw.
Proof. unfold gw_put. fields. apply lookup_insert_eq. Qed.
Lemma bulb_put_put p a b w : bulb_put p a (bulb_put p b w) = bulb_put p a w.
Proof. unfold bulb_put. destruct w; fields. by rewrite insert_insert_eq. Qed.
Lemma bulb_put_lookup p b w : w_bulbs_table (bulb_put p b w) !! p = Some b.
Proof. unfold bulb_put. fields. apply lookup_insert_eq. Qed.

Lemma fresh_ptr_fresh {A} (m : gmap positive A) : m !! fresh_ptr m = None.
Proof.
  destruct (m !! fresh_ptr m) as [x|] eqn:Hx; [exfalso|done].
  apply elem_of_map_to_list, (list_elem_of_fmap_2 fst) in Hx. simpl in Hx.
  revert Hx. unfold fresh_ptr. generalize (map_to_list m).*1 as l. intros l Hin.
  assert (Hle : forall k, k ∈ l -> (k <= foldr Pos.max 1 l)%positive).
  { clear Hin. induction l as [|y l IH]; intros k; [by intros ?%elem_of_nil|].
    intros [->|Hk]%elem_of_cons; simpl; [lia|]. specialize (IH k Hk). lia. }
  specialize (Hle _ Hin). lia.
Qed.

(** [upd_] and [get_] in a weakest-precondition proof. *)
Lemma wp_get_gw p gw w Q : w_gateways w !! p = Some gw -> Q gw w -> wp (get_gw p) Q w.
Proof. intros Hp HQ. unfold wp. by rewrite (get_gw_ret _ _ _ Hp). Qed.
Lemma wp_get_bulb a b w Q : w_bulbs_table w !! a = Some b -> Q b w -> wp (get_bulb a) Q w.
Proof. intros Hp HQ. unfold wp. by rewrite (get_bulb_ret _ _ _ Hp). Qed.
Lemma wp_get_tag t tag w Q : w_tags w !! t = Some tag -> Q tag w -> wp (get_tag t) Q w.
Proof. intros Hp HQ. unfold wp. by rewrite (get_tag_ret _ _ _ Hp). Qed.
Lemma wp_get_timer t tm w Q : w_timers w !! t = Some tm -> Q tm w -> wp (get_timer t) Q w.
Proof. intros Hp HQ. unfold wp. by rewrite (get_timer_ret _ _ _ Hp). Qed.
Lemma wp_upd_gw p gw f w Q :
  w_gateways w !! p = Some gw -> Q tt (gw_put p (f gw) w) -> wp (upd_gw p f) Q w.
Proof. intros Hp HQ. unfold wp. by rewrite (upd_gw_ret _ _ _ _ Hp). Qed.
Lemma wp_upd_bulb a b f w Q :
  w_bulbs_table w !! a = Some b -> Q tt (bulb_put a (f b) w) -> wp (upd_bulb a f) Q w.
Proof. intros Hp HQ. unfold wp. by rewrite (upd_bulb_ret _ _ _ _ Hp). Qed.
Lemma wp_upd_tag t tag f w Q :
  w_tags w !! t = Some tag -> Q tt (tag_put t (f tag) w) -> wp (upd_tag t f) Q w.
Proof. intros Hp HQ. unfold wp. by rewrite (upd_tag_ret _ _ _ _ Hp). Qed.

Lemma wp_os_call (Q : bool -> world -> Prop) w :
  (forall b rs, Q b (set_w_os_results rs w)) -> wp os_call Q w.
Proof.
  intros HQ. unfold wp, os_call. destruct (w_os_results w) eqn:Hr; [|apply HQ].
  specialize (HQ true []). rewrite <- Hr in HQ. by destruct w.
Qed.

(** [spends rs rs' failed]: of the results to come [rs], [rs'] are left, and if [failed] then one of the
    calls can fail. *)
Definition spends (rs rs' : list bool) (failed : Prop) : Prop := rs' `suffix_of` rs /\ (failed -> false ∈ rs).

Lemma spends_nothing rs : spends rs rs False.
Proof. by split. Qed.

Lemma suffix_failed (rs rs' : list bool) : rs' `suffix_of` rs -> false ∈ rs' -> false ∈ rs.
Proof. intros [l ->] H. apply elem_of_app. by right. Qed.

Lemma spends_trans rs rs1 rs2 (F1 F2 : Prop) : spends rs rs1 F1 -> spends rs1 rs2 F2 -> spends rs rs2 (F1 \/ F2).
Proof. intros [Hs1 H1] [Hs2 H2]. split; [by etransitivity|]. intros [?|?]; [by apply H1|]. by eapply suffix_failed, H2. Qed.

Lemma spends_imp rs rs' (F F' : Prop) : (F' -> F) -> spends rs rs' F -> spends rs rs' F'.
Proof. intros Hi [? H]. split; [done|]. intros ?. by apply H, Hi. Qed.

Lemma wp_os_call_results (Q : bool -> world -> Prop) w :
  (forall b rs, spends (w_os_results w) rs (b = false) -> Q b (set_w_os_results rs w)) -> wp os_call Q w.
Proof.
  intros HQ. unfold wp, os_call. destruct (w_os_results w) as [|b rs] eqn:Hr.
  - specialize (HQ true []). replace (set_w_os_results [] w) with w in HQ by (destruct w; cbn in Hr; by subst).
    apply HQ. by split.
  - apply HQ. split; [by exists [b]|]. intros ->. by left.
Qed.

Lemma wp_time (Q : Z -> world -> Prop) w :
  (forall t ds, w_now w <= t /\ (w_now w < 2 ^ 64 -> t < 2 ^ 64) ->
     Q t (set_w_clock ds (set_w_now t w))) ->
  wp lgtd_time_monotonic_msecs Q w.
Proof.
  intros HQ. unfold wp, lgtd_time_monotonic_msecs. destruct (w_clock w) eqn:Hr.
  - specialize (HQ (w_now w) [] ltac:(lia)). rewrite <- Hr in HQ. by destruct w.
  - apply HQ. lia.
Qed.
