(* ===== verification/Tagging.v ===== *)
(** * Tags

    [lifx/tagging.c]: the global list of tags and, for each tag, the list of the
    gateways that know it with the tag id they use for it. *)

From Stdlib Require Import ZArith Lia.
From stdpp Require Import base tactics list gmap.
From S2P Require Import Prelude CLib WireProto World.

(** ** Operations *)

Fixpoint lgtd_lifx_tagging_find_site (sites : list lgtd_lifx_site) (gw : gw_ptr) :
    option lgtd_lifx_site :=
  match sites with
  | [] => None
  | site :: sites =>
    if bool_decide (site_gw site = gw) then Some site else lgtd_lifx_tagging_find_site sites gw
  end.

(** The walk of [LIST_FOREACH] in [find_tag]. *)
Fixpoint find_tag_from (tags : list tag_ptr) (tag_label' : list Z) : M world (option tag_ptr) :=
  match tags with
  | [] => mret None
  | t :: tags =>
    tag ← get_tag t;
    if strcmp_eq (tag_label tag) tag_label' then mret (Some t) else find_tag_from tags tag_label'
  end.

Definition lgtd_lifx_tagging_find_tag (tag_label : list Z) : M world (option tag_ptr) :=
  w ← mget; find_tag_from (w_tag_list w) tag_label.

Definition lgtd_lifx_tagging_allocate_tag (tag_label : list Z) : M world (option tag_ptr) :=
  massert (strlen tag_label <? Z.of_nat LGTD_LIFX_LABEL_SIZE) ;;
  allocated ← os_call;
  if negb allocated then mret None else
  w ← mget;
  let t := fresh_ptr (w_tags w) in
  let tag := {| World.tag_label := strncpy_label LGTD_LIFX_LABEL_SIZE tag_label; tag_sites := [] |} in
  mmodify (fun w => set_w_tags (<[t := tag]> (w_tags w)) w) ;;
  mmodify (fun w => set_w_tag_list (t :: w_tag_list w) w) ;;
  mret (Some t).

Definition lgtd_lifx_tagging_deallocate_tag (t : tag_ptr) : M world unit :=
  tag ← get_tag t;
  massert (bool_decide (tag_sites tag = [])) ;;
  mmodify (fun w => set_w_tag_list (filter (fun x => x <> t) (w_tag_list w)) w) ;;
  mmodify (fun w => set_w_tags (delete t (w_tags w)) w).

(** The body of [incref] once the tag is known; [dealloc_tag] says that it was
    allocated by this call. *)
Definition incref_site (t : tag_ptr) (dealloc_tag : bool) (gw : gw_ptr) (tag_id : Z) :
    M world (option tag_ptr) :=
  tag ← get_tag t;
  match lgtd_lifx_tagging_find_site (tag_sites tag) gw with
  | Some site =>
    massert (site_tag_id site =? tag_id) ;;
    mret (Some t)
  | None =>
    allocated ← os_call;
    if negb allocated then
      mwhen dealloc_tag (lgtd_lifx_tagging_deallocate_tag t) ;;
      mret None
    else
      let site := {| site_tag_id := tag_id; site_gw := gw |} in
      upd_tag t (fun tag => set_tag_sites (site :: tag_sites tag) tag) ;;
      massert (site_tag_id site =? tag_id) ;;
      mret (Some t)
  end.

Definition lgtd_lifx_tagging_incref (tag_label : list Z) (gw : gw_ptr) (tag_id : Z) :
    M world (option tag_ptr) :=
  massert (strlen tag_label <? Z.of_nat LGTD_LIFX_LABEL_SIZE) ;;
  massert (tag_id <? LGTD_LIFX_GATEWAY_MAX_TAGS) ;;
  found ← lgtd_lifx_tagging_find_tag tag_label;
  match found with
  | Some t => incref_site t false gw tag_id
  | None =>
    allocated ← lgtd_lifx_tagging_allocate_tag tag_label;
    match allocated with
    | Some t => incref_site t true gw tag_id
    | None => mret None
    end
  end.

Definition lgtd_lifx_tagging_decref (t : tag_ptr) (gw : gw_ptr) : M world unit :=
  tag ← get_tag t;
  match lgtd_lifx_tagging_find_site (tag_sites tag) gw with
  | Some site =>
    upd_tag t (fun tag => set_tag_sites (filter (fun s => s <> site) (tag_sites tag)) tag)
  | None => mret tt
  end ;;
  tag ← get_tag t;
  mwhen (bool_decide (tag_sites tag = [])) (lgtd_lifx_tagging_deallocate_tag t).
