(* ===== verification/GatewayQueue.v ===== *)
(** * Sending on a gateway and its tags

    The parts of [lifx/gateway.c] other components call: the ring of messages
    waiting to be written with the buffer that holds their bytes, the tag ids a
    gateway uses and their reference counts. *)

From Stdlib Require Import ZArith Lia.
From stdpp Require Import base tactics list gmap.
From S2P Require Import Prelude CLib WireBits PacketInfo WireProto World Tagging.

Section GatewayQueue.
Context {E : Endianness}.

(** ** The packet ring *)

Definition LGTD_LIFX_GATEWAY_INC_MESSAGE_RING_INDEX (idx : nat) : nat :=
  (idx + 1) mod LGTD_LIFX_GATEWAY_PACKET_RING_SIZE.

(** The assignments of [enqueue_packet] once the bytes are in the buffer. *)
Definition ring_push (type size : Z) (gw : lgtd_lifx_gateway) : lgtd_lifx_gateway :=
  let head := gw_pkt_ring_head gw in
  let gw := set_gw_pkt_ring
    (<[head := {| msg_type := type; msg_size := size |}]> (gw_pkt_ring gw)) gw in
  let gw := set_gw_pkt_ring_head (LGTD_LIFX_GATEWAY_INC_MESSAGE_RING_INDEX head) gw in
  let gw := if (gw_pkt_ring_head gw =? gw_pkt_ring_tail gw)%nat
            then set_gw_pkt_ring_full true gw else gw in
  set_gw_socket_ev true gw.

(** [pkt] is the memory at the payload pointer, none for [NULL]. *)
Definition lgtd_lifx_gateway_enqueue_packet (p : gw_ptr) (hdr : lgtd_lifx_packet_header)
    (pkt_info : lgtd_lifx_packet_info) (pkt : option (list Z)) : M world unit :=
  gw ← get_gw p;
  massert (memcmp_eq (hdr_site hdr) (gw_site gw) LGTD_LIFX_ADDR_LENGTH) ;;
  massert ((gw_pkt_ring_head gw <? LGTD_LIFX_GATEWAY_PACKET_RING_SIZE)%nat) ;;
  if gw_pkt_ring_full gw then mret tt
  else
    upd_gw p (fun gw => set_gw_write_buf (gw_write_buf gw ++ header_bytes hdr) gw) ;;
    match pkt with
    | Some payload =>
      let decoded_hdr := lgtd_lifx_wire_decode_header hdr in
      massert (pi_size pkt_info =? hdr_size decoded_hdr - LGTD_LIFX_PACKET_HEADER_SIZE) ;;
      upd_gw p (fun gw =>
        set_gw_write_buf (gw_write_buf gw ++ take (Z.to_nat (pi_size pkt_info)) payload) gw)
    | None => mret tt
    end ;;
    upd_gw p (ring_push (packet_type_value (pi_type pkt_info))
                (LGTD_LIFX_PACKET_HEADER_SIZE + pi_size pkt_info)).

(** ** Packets to the whole site *)

Definition lgtd_lifx_gateway_send_to_site_impl (p : gw_ptr) (pkt_type : lgtd_lifx_packet_type)
    (pkt : option (list Z)) : M world bool :=
  gw ← get_gw p;
  w ← mget;
  '(hdr, pkt_info) ← lgtd_lifx_wire_setup_header (w_client_id w) LGTD_LIFX_TARGET_SITE
    (target_addr (gw_site gw)) (Some (gw_site gw)) pkt_type;
  lgtd_lifx_gateway_enqueue_packet p hdr pkt_info pkt ;;
  mret true.

(** They differ in the level of the message that is logged. *)
Definition lgtd_lifx_gateway_send_to_site_quiet (p : gw_ptr) (pkt_type : lgtd_lifx_packet_type)
    (pkt : option (list Z)) : M world bool :=
  lgtd_lifx_gateway_send_to_site_impl p pkt_type pkt.
Definition lgtd_lifx_gateway_send_to_site (p : gw_ptr) (pkt_type : lgtd_lifx_packet_type)
    (pkt : option (list Z)) : M world bool :=
  lgtd_lifx_gateway_send_to_site_impl p pkt_type pkt.

Definition lgtd_lifx_gateway_send_get_all_light_state (p : gw_ptr) : M world unit :=
  lgtd_lifx_gateway_send_to_site_quiet p LGTD_LIFX_GET_LIGHT_STATE None ;;
  let pkt := {| pt_tags := LGTD_LIFX_ALL_TAGS |} in
  lgtd_lifx_gateway_send_to_site_quiet p LGTD_LIFX_GET_TAG_LABELS (Some (tags_bytes pkt)) ;;
  upd_gw p (set_gw_pending_refresh_req true).

(** ** Tag reference counts *)

Definition UINT8_MAX : Z := 255.

(** [gw->tag_refcounts[tag_id]], read and assigned; the counters are bytes. *)
Definition get_refcount (p : gw_ptr) (tag_id : Z) : M world Z :=
  gw ← get_gw p; mderef (gw_tag_refcounts gw !! Z.to_nat tag_id).
Definition set_refcount (p : gw_ptr) (tag_id v : Z) : M world unit :=
  upd_gw p (fun gw => set_gw_tag_refcounts (<[Z.to_nat tag_id := u8 v]> (gw_tag_refcounts gw)) gw).

Definition add_tag_ref (p : gw_ptr) (tag_id : Z) : M world unit :=
  n ← get_refcount p tag_id;
  mwhen (negb (n =? UINT8_MAX)) (set_refcount p tag_id (n + 1)).

Definition remove_tag_ref (p : gw_ptr) (tag_id : Z) : M world unit :=
  n ← get_refcount p tag_id;
  massert (0 <? n) ;;
  set_refcount p tag_id (n - 1) ;;
  n ← get_refcount p tag_id;
  if n =? 0 then
    gw ← get_gw p;
    let pkt := lgtd_lifx_wire_encode_tag_labels
      {| tl_tags := u64 (Z.lnot (Z.land (gw_tag_ids gw)
                                   (Z.lnot (LGTD_LIFX_WIRE_TAG_ID_TO_VALUE tag_id))));
         tl_label := replicate LGTD_LIFX_LABEL_SIZE 0 |} in
    lgtd_lifx_gateway_send_to_site p LGTD_LIFX_SET_TAG_LABELS (Some (tag_labels_bytes pkt)) ;;
    mret tt
  else mret tt.

Definition lgtd_lifx_gateway_update_tag_refcounts (p : gw_ptr) (bulb_tags pkt_tags : Z) : M world unit :=
  let changes := Z.lxor bulb_tags pkt_tags in
  let added_tags := Z.land changes pkt_tags in
  let removed_tags := Z.land changes bulb_tags in
  mforeach (LGTD_LIFX_WIRE_FOREACH_TAG_ID added_tags) (add_tag_ref p) ;;
  mforeach (LGTD_LIFX_WIRE_FOREACH_TAG_ID removed_tags) (remove_tag_ref p).

Definition lgtd_lifx_gateway_latency (gw : lgtd_lifx_gateway) : Z :=
  if gw_last_req_at gw <? gw_last_pkt_at gw
  then gw_last_pkt_at gw - gw_last_req_at gw
  else 0.

(** ** Tag ids *)

(** [gw->tags[tag_id]]. *)
Definition get_gw_tag (gw : lgtd_lifx_gateway) (tag_id : Z) : M world (option tag_ptr) :=
  mderef (gw_tags gw !! Z.to_nat tag_id).

Fixpoint get_tag_id_from (ids : list Z) (gw : lgtd_lifx_gateway) (t : tag_ptr) : M world Z :=
  match ids with
  | [] => mret (-1)
  | tag_id :: ids =>
    cell ← get_gw_tag gw tag_id;
    if bool_decide (cell = Some t) then mret tag_id else get_tag_id_from ids gw t
  end.

Definition lgtd_lifx_gateway_get_tag_id (p : gw_ptr) (t : tag_ptr) : M world Z :=
  gw ← get_gw p;
  get_tag_id_from (LGTD_LIFX_WIRE_FOREACH_TAG_ID (gw_tag_ids gw)) gw t.

(** The second half of [allocate_tag_id], with an id that is not -1. *)
Definition allocate_known_tag_id (p : gw_ptr) (tag_id : Z) (tag_label : list Z) : M world Z :=
  gw ← get_gw p;
  if negb (has_flag (gw_tag_ids gw) (LGTD_LIFX_WIRE_TAG_ID_TO_VALUE tag_id)) then
    tag ← lgtd_lifx_tagging_incref tag_label p tag_id;
    match tag with
    | None => mret (-1)
    | Some t =>
      upd_gw p (fun gw => set_gw_tag_ids
        (Z.lor (gw_tag_ids gw) (LGTD_LIFX_WIRE_TAG_ID_TO_VALUE tag_id)) gw) ;;
      upd_gw p (fun gw => set_gw_tags (<[Z.to_nat tag_id := Some t]> (gw_tags gw)) gw) ;;
      mret tag_id
    end
  else mret tag_id.

Definition lgtd_lifx_gateway_allocate_tag_id (p : gw_ptr) (tag_id : Z) (tag_label : list Z) : M world Z :=
  massert ((-1 <=? tag_id) && (tag_id <? LGTD_LIFX_GATEWAY_MAX_TAGS)) ;;
  if tag_id =? -1 then
    gw ← get_gw p;
    let tag_id := lgtd_lifx_wire_bitscan64_forward (u64 (Z.lnot (gw_tag_ids gw))) in
    if tag_id =? -1 then mret (-1) else allocate_known_tag_id p tag_id tag_label
  else allocate_known_tag_id p tag_id tag_label.

Definition lgtd_lifx_gateway_deallocate_tag_id (p : gw_ptr) (tag_id : Z) : M world unit :=
  massert ((0 <=? tag_id) && (tag_id <? LGTD_LIFX_GATEWAY_MAX_TAGS)) ;;
  gw ← get_gw p;
  if has_flag (gw_tag_ids gw) (LGTD_LIFX_WIRE_TAG_ID_TO_VALUE tag_id) then
    cell ← get_gw_tag gw tag_id;
    t ← mderef cell;
    lgtd_lifx_tagging_decref t p ;;
    upd_gw p (fun gw => set_gw_tag_ids
      (Z.land (gw_tag_ids gw) (Z.lnot (LGTD_LIFX_WIRE_TAG_ID_TO_VALUE tag_id))) gw) ;;
    upd_gw p (fun gw => set_gw_tags (<[Z.to_nat tag_id := None]> (gw_tags gw)) gw)
  else mret tt.

End GatewayQueue.
