(* ===== verification/BulbTable.v ===== *)
(** * Looking bulbs up

    The parts of [lifx/bulb.c] that only read: the table of all bulbs, the
    comparison of labels and the names of the hardware models. *)

From Stdlib Require Import ZArith Lia String.
From stdpp Require Import base tactics list gmap.
From S2P Require Import Prelude CLib WireProto World.

(** The bulb with an address: its name in the model, none for [NULL]. *)
Definition lgtd_lifx_bulb_get (bulb_addr : list Z) : M world (option addr) :=
  w ← mget;
  let key := take LGTD_LIFX_ADDR_LENGTH bulb_addr in
  mret (match w_bulbs_table w !! key with Some _ => Some key | None => None end).

(** [label] is a C string; the label of a bulb fills its array or is ended by a
    zero, which is what [memchr] looks for. *)
Definition lgtd_lifx_bulb_has_label (bulb : lgtd_lifx_bulb) (label : list Z) : bool :=
  let bulb_label := ls_label (bulb_state bulb) in
  let bulb_label_len := length (cstr (take LGTD_LIFX_LABEL_SIZE bulb_label)) in
  let label_len := Nat.min (length (cstr label)) LGTD_LIFX_LABEL_SIZE in
  (label_len =? bulb_label_len)%nat && memcmp_eq bulb_label (cstr label) label_len.

Definition LGTD_LIFX_VENDOR_ID : Z := 1.

Definition lgtd_lifx_bulb_get_model_name (vendor_id product_id : Z) : string :=
  if negb (vendor_id =? LGTD_LIFX_VENDOR_ID) then "Unknown"%string
  else if (product_id =? 0x1) || (product_id =? 0x2) then "Original 1000"%string
  else if product_id =? 0x3 then "Color 650"%string
  else if (product_id =? 0xa) || (product_id =? 0xb) then "White 800"%string
  else if product_id =? 0x12 then "White 900 BR30"%string
  else if product_id =? 0x14 then "Color 1000 BR30"%string
  else if product_id =? 0x16 then "Color 1000"%string
  else if product_id =? 0x1b then "A19"%string
  else if product_id =? 0x1c then "BR30"%string
  else if product_id =? 0x1d then "A19+"%string
  else if product_id =? 0x1e then "BR30+"%string
  else if product_id =? 0x1f then "Z"%string
  else "Unknown"%string.

Definition lgtd_lifx_bulb_get_vendor_name (vendor_id : Z) : string :=
  if vendor_id =? LGTD_LIFX_VENDOR_ID then "LIFX"%string else "Unknown"%string.
