(* ===== verification/Router.v ===== *)
(** * The router

    [core/router.c]: sending a packet to one bulb, to the bulbs that carry a tag
    or a label, or to all of them, and resolving the targets of a request. *)

From Stdlib Require Import ZArith Lia String.
From stdpp Require Import base tactics list gmap.
From S2P Require Import Prelude CLib WireBits PacketInfo WireProto World Tagging GatewayQueue.
From S2P Require Import BulbTable.

Section Router.
Context {E : Endianness}.

(** ** Sending *)

(** [bulb->dirty_at = now; bulb->expected_power_on = payload->power], with the
    payload of a SET_POWER_STATE packet. *)
Definition expect_power (now : Z) (pkt : option (list Z)) (a : addr) : M world unit :=
  payload ← mderef pkt;
  upd_bulb a (set_bulb_dirty_at now) ;;
  upd_bulb a (set_bulb_expected_power_on (ps_power (power_state_of_bytes payload))).

Definition is_set_power (pkt_type : lgtd_lifx_packet_type) : bool :=
  bool_decide (pkt_type = LGTD_LIFX_SET_POWER_STATE).

(** One turn of the loop of [broadcast]. *)
Definition broadcast_on (pkt_type : lgtd_lifx_packet_type) (pkt : option (list Z)) (p : gw_ptr) :
    M world unit :=
  gw ← get_gw p;
  w ← mget;
  '(hdr, pkt_info) ← lgtd_lifx_wire_setup_header (w_client_id w) LGTD_LIFX_TARGET_ALL_DEVICES
    (target_tags 0) (Some (gw_site gw)) pkt_type;
  lgtd_lifx_gateway_enqueue_packet p hdr pkt_info pkt ;;
  mwhen (is_set_power pkt_type) (
    now ← lgtd_time_monotonic_msecs;
    mforeach (gw_bulbs gw) (expect_power now pkt)).

Definition lgtd_router_broadcast (pkt_type : lgtd_lifx_packet_type) (pkt : option (list Z)) :
    M world unit :=
  w ← mget;
  mforeach (w_gateway_list w) (broadcast_on pkt_type pkt).

Definition lgtd_router_send_to_device (a : addr) (pkt_type : lgtd_lifx_packet_type)
    (pkt : option (list Z)) : M world unit :=
  bulb ← get_bulb a;
  gw ← get_gw (bulb_gw bulb);
  w ← mget;
  '(hdr, pkt_info) ← lgtd_lifx_wire_setup_header (w_client_id w) LGTD_LIFX_TARGET_DEVICE
    (target_addr (bulb_addr bulb)) (Some (gw_site gw)) pkt_type;
  lgtd_lifx_gateway_enqueue_packet (bulb_gw bulb) hdr pkt_info pkt ;;
  mwhen (is_set_power pkt_type) (
    now ← lgtd_time_monotonic_msecs;
    expect_power now pkt a).

(** One turn of the loop of [send_to_tag]. *)
Definition send_to_site_of_tag (t : tag_ptr) (pkt_type : lgtd_lifx_packet_type)
    (pkt : option (list Z)) (site : lgtd_lifx_site) : M world unit :=
  let p := site_gw site in
  let tag_id := site_tag_id site in
  gw ← get_gw p;
  cell ← get_gw_tag gw tag_id;
  massert (bool_decide (cell = Some t)) ;;
  w ← mget;
  '(hdr, pkt_info) ← lgtd_lifx_wire_setup_header (w_client_id w) LGTD_LIFX_TARGET_TAGS
    (target_tags (LGTD_LIFX_WIRE_TAG_ID_TO_VALUE tag_id)) (Some (gw_site gw)) pkt_type;
  lgtd_lifx_gateway_enqueue_packet p hdr pkt_info pkt ;;
  mwhen (is_set_power pkt_type) (
    now ← lgtd_time_monotonic_msecs;
    mforeach (gw_bulbs gw) (fun a =>
      bulb ← get_bulb a;
      mwhen (has_flag (ls_tags (bulb_state bulb)) (LGTD_LIFX_WIRE_TAG_ID_TO_VALUE tag_id))
        (expect_power now pkt a))).

Definition lgtd_router_send_to_tag (t : tag_ptr) (pkt_type : lgtd_lifx_packet_type)
    (pkt : option (list Z)) : M world unit :=
  tag ← get_tag t;
  mforeach (tag_sites tag) (send_to_site_of_tag t pkt_type pkt).

(** The turn of the loop of [send_to_label] on a bulb is [send_to_device] when
    the bulb has the label: the same header, the same queue and the same
    bookkeeping of the power asked for. *)
Definition lgtd_router_send_to_label (label : list Z) (pkt_type : lgtd_lifx_packet_type)
    (pkt : option (list Z)) : M world unit :=
  w ← mget;
  mforeach (bulbs_in_order w) (fun a =>
    bulb ← get_bulb a;
    mwhen (lgtd_lifx_bulb_has_label bulb label) (
      gw ← get_gw (bulb_gw bulb);
      w ← mget;
      '(hdr, pkt_info) ← lgtd_lifx_wire_setup_header (w_client_id w) LGTD_LIFX_TARGET_DEVICE
        (target_addr (bulb_addr bulb)) (Some (gw_site gw)) pkt_type;
      lgtd_lifx_gateway_enqueue_packet (bulb_gw bulb) hdr pkt_info pkt ;;
      mwhen (is_set_power pkt_type) (
        now ← lgtd_time_monotonic_msecs;
        expect_power now pkt a))).

(** ** Targets *)

(** A hardware address written in hexadecimal: the last six of the eight bytes of
    the number, most significant first. *)
Definition device_addr_bytes (device_addr : list Z) : option (list Z) :=
  let s := cstr device_addr in
  let r := strtoull16 s in
  if (st_endptr r =? length s)%nat && negb (st_erange r)
  then Some (drop 2 (store 8 (htobe64 (st_value r))))
  else None.

Definition lgtd_router_device_addr_to_device (device_addr : list Z) : M world (option addr) :=
  match device_addr_bytes device_addr with
  | Some bytes => lgtd_lifx_bulb_get bytes
  | None => mret None
  end.

(** The first character of a C string, its terminator when it is empty. *)
Definition first_char (s : list Z) : Z := default 0 (head s).

Definition ASCII_STAR : list Z := [42].
Definition ASCII_HASH : Z := 35.

(** One turn of the loop of [lgtd_router_send]: whether the target is valid. *)
Definition send_to_target (pkt_type : lgtd_lifx_packet_type) (pkt : option (list Z))
    (target : list Z) : M world bool :=
  if strcmp_eq target ASCII_STAR then
    lgtd_router_broadcast pkt_type pkt ;; mret true
  else if first_char target =? ASCII_HASH then
    tag ← lgtd_lifx_tagging_find_tag (drop 1 target);
    match tag with
    | Some t => lgtd_router_send_to_tag t pkt_type pkt ;; mret true
    | None => mret false
    end
  else if negb (first_char target =? 0) then
    bulb ← (if isxdigit (first_char target)
            then lgtd_router_device_addr_to_device target else mret None);
    match bulb with
    | Some a => lgtd_router_send_to_device a pkt_type pkt
    | None => lgtd_router_send_to_label target pkt_type pkt
    end ;;
    mret true
  else mret false.

Fixpoint lgtd_router_send (targets : list (list Z)) (pkt_type : lgtd_lifx_packet_type)
    (pkt : option (list Z)) : M world bool :=
  match targets with
  | [] => mret true
  | target :: targets =>
    ok ← send_to_target pkt_type pkt target;
    rv ← lgtd_router_send targets pkt_type pkt;
    mret (ok && rv)
  end.

(** A device list is the list of the bulbs it points to, first element first;
    none stands for the [device_alloc_error] exit. *)
Definition lgtd_router_insert_device_if_not_in_list (devices : list addr) (device : addr) :
    M world (option (list addr)) :=
  if bool_decide (device ∈ devices) then mret (Some devices)
  else
    allocated ← os_call;
    mret (if (allocated : bool) then Some (device :: devices) else None).

(** Adds the bulbs that satisfy a condition to the list, in order. *)
Fixpoint insert_devices_if (cond : lgtd_lifx_bulb -> bool) (bulbs devices : list addr) :
    M world (option (list addr)) :=
  match bulbs with
  | [] => mret (Some devices)
  | a :: bulbs =>
    bulb ← get_bulb a;
    if cond bulb then
      res ← lgtd_router_insert_device_if_not_in_list devices a;
      match res with
      | Some devices => insert_devices_if cond bulbs devices
      | None => mret None
      end
    else insert_devices_if cond bulbs devices
  end.

(** The loop of the ["*"] target: every bulb, on an empty list. *)
Fixpoint all_devices (bulbs devices : list addr) : M world (option (list addr)) :=
  match bulbs with
  | [] => mret (Some devices)
  | a :: bulbs =>
    allocated ← os_call;
    if (allocated : bool) then all_devices bulbs (a :: devices) else mret None
  end.

Fixpoint devices_of_sites (sites : list lgtd_lifx_site) (devices : list addr) :
    M world (option (list addr)) :=
  match sites with
  | [] => mret (Some devices)
  | site :: sites =>
    gw ← get_gw (site_gw site);
    let tag := LGTD_LIFX_WIRE_TAG_ID_TO_VALUE (site_tag_id site) in
    res ← insert_devices_if (fun bulb => has_flag (ls_tags (bulb_state bulb)) tag)
            (gw_bulbs gw) devices;
    match res with
    | Some devices => devices_of_sites sites devices
    | None => mret None
    end
  end.

(** The loop over the targets; ["*"] ends it. *)
Fixpoint targets_to_devices_from (targets : list (list Z)) (devices : list addr) :
    M world (option (list addr)) :=
  match targets with
  | [] => mret (Some devices)
  | target :: targets =>
    w ← mget;
    if strcmp_eq target ASCII_STAR then all_devices (bulbs_in_order w) []
    else
      res ← (
        if first_char target =? ASCII_HASH then
          found ← lgtd_lifx_tagging_find_tag (drop 1 target);
          match found with
          | Some t => tag ← get_tag t; devices_of_sites (tag_sites tag) devices
          | None => mret (Some devices)
          end
        else if negb (first_char target =? 0) then
          bulb ← (if isxdigit (first_char target)
                  then lgtd_router_device_addr_to_device target else mret None);
          match bulb with
          | Some a => lgtd_router_insert_device_if_not_in_list devices a
          | None =>
            insert_devices_if (fun bulb => lgtd_lifx_bulb_has_label bulb target)
              (bulbs_in_order w) devices
          end
        else mret (Some devices));
      match res with
      | Some devices => targets_to_devices_from targets devices
      | None => mret None
      end
  end.

Definition lgtd_router_targets_to_devices (targets : list (list Z)) : M world (option (list addr)) :=
  allocated ← os_call;
  if (allocated : bool) then targets_to_devices_from targets [] else mret None.

End Router.
