(* ===== verification/Bulb.v ===== *)
(** * Bulbs

    [lifx/bulb.c]: opening and closing a bulb, recording what it reports, and
    the timer that asks for its hardware information. *)

From Stdlib Require Import ZArith Lia String.
From stdpp Require Import base tactics list gmap.
From S2P Require Import Prelude CLib WireBits PacketInfo WireProto World Tagging GatewayQueue.
From S2P Require Import BulbTable Router.

Definition LGTD_LIFX_BULB_FETCH_HARDWARE_INFO_TIMER_MSECS : Z := 5000.
Definition LGTD_LIFX_BULB_FETCH_WIFI_FW_INFO_TIMEOUT_MSECS : Z :=
  LGTD_LIFX_BULB_FETCH_HARDWARE_INFO_TIMER_MSECS * 4.

Section Bulb.
Context {E : Endianness}.

(** ** The hardware information timer *)

(** [RESEND_IF]: whether the packet was sent. *)
Definition resend_if (test : bool) (a : addr) (pkt_type : lgtd_lifx_packet_type) : M world bool :=
  mwhen test (lgtd_router_send_to_device a pkt_type None) ;;
  mret test.

Definition bulb_ip (b : lgtd_lifx_bulb) (ip : lgtd_lifx_bulb_ips) : M world lgtd_lifx_bulb_ip :=
  mderef (bulb_ips b !! bulb_ip_index ip).

Definition lgtd_lifx_bulb_fetch_hardware_info (timer : timer_ptr) (as_uint : Z) : M world unit :=
  massert (negb (as_uint =? 0)) ;;
  found ← lgtd_lifx_bulb_get (take LGTD_LIFX_ADDR_LENGTH (store 8 as_uint));
  match found with
  | None => lgtd_timer_stop timer
  | Some a =>
    b ← get_bulb a;
    sent_version ← resend_if (pr_vendor_id (bulb_product_info b) =? 0) a LGTD_LIFX_GET_VERSION;
    b ← get_bulb a;
    mcu ← bulb_ip b LGTD_LIFX_BULB_MCU_IP;
    sent_mesh ← resend_if (fw_version (ip_fw_info mcu) =? 0) a LGTD_LIFX_GET_MESH_FIRMWARE;
    b ← get_bulb a;
    mcu ← bulb_ip b LGTD_LIFX_BULB_MCU_IP;
    wifi ← bulb_ip b LGTD_LIFX_BULB_WIFI_IP;
    let state_updated_at := ip_state_updated_at mcu in
    test ← (if fw_version (ip_fw_info wifi) =? 0 then
              now ← lgtd_time_monotonic_msecs;
              mret (u64 (now - state_updated_at) <? LGTD_LIFX_BULB_FETCH_WIFI_FW_INFO_TIMEOUT_MSECS)
            else mret false);
    sent_wifi ← resend_if test a LGTD_LIFX_GET_WIFI_FIRMWARE_STATE;
    mwhen (negb (sent_version || sent_mesh || sent_wifi)) (lgtd_timer_stop timer)
  end.

(** ** Opening and closing *)

(** The structs [calloc] leaves. *)
Definition zero_light_state : lgtd_lifx_light_state :=
  {| ls_hue := 0; ls_saturation := 0; ls_brightness := 0; ls_kelvin := 0; ls_dim := 0;
     ls_power := 0; ls_label := replicate LGTD_LIFX_LABEL_SIZE 0; ls_tags := 0 |}.
Definition zero_bulb_ip : lgtd_lifx_bulb_ip :=
  {| ip_state := {| is_signal_strength := 0; is_tx_bytes := 0; is_rx_bytes := 0; is_temperature := 0 |};
     ip_state_updated_at := 0;
     ip_fw_info := {| fw_built_at := 0; fw_installed_at := 0; fw_version := 0 |};
     ip_fw_info_updated_at := 0 |}.
Definition new_bulb (gw : gw_ptr) (a : addr) : lgtd_lifx_bulb :=
  {| bulb_last_light_state_at := 0; bulb_runtime_info_updated_at := 0; bulb_dirty_at := 0;
     bulb_expected_power_on := 0; bulb_addr := a; bulb_ambient_light := 0;
     bulb_model := None; bulb_vendor := None; bulb_gw := gw; bulb_state := zero_light_state;
     bulb_ips := [zero_bulb_ip; zero_bulb_ip];
     bulb_product_info := {| pr_vendor_id := 0; pr_product_id := 0; pr_version := 0 |};
     bulb_runtime_info := {| ri_time := 0; ri_uptime := 0; ri_downtime := 0 |} |}.

(** [RB_INSERT] keeps an element that is already there; a bulb is only opened
    when the table has none with its address. *)
Definition lgtd_lifx_bulb_open (gw : gw_ptr) (bulb_addr : list Z) : M world (option addr) :=
  allocated ← os_call;
  if negb allocated then mret None else
  let a := take LGTD_LIFX_ADDR_LENGTH bulb_addr in
  w ← mget;
  match w_bulbs_table w !! a with
  | Some _ => mcrash UndefinedBehaviour
  | None =>
    mmodify (fun w => set_w_bulbs_table (<[a := new_bulb gw a]> (w_bulbs_table w)) w) ;;
    lgtd_stats_add counter_bulbs 1 ;;
    now ← lgtd_time_monotonic_msecs;
    upd_bulb a (set_bulb_last_light_state_at now) ;;
    let ctx := ctx_as_uint (load (a ++ [0; 0])) in
    lgtd_timer_start true true LGTD_LIFX_BULB_FETCH_HARDWARE_INFO_TIMER_MSECS
      lgtd_lifx_bulb_fetch_hardware_info_fn ctx ;;
    mret (Some a)
  end.

(** The count of the bulbs of a list that have a tag; the closed bulb must not be
    one of them. *)
Fixpoint count_tagged (bulbs : list addr) (closed : addr) (tag_id : Z) : M world Z :=
  match bulbs with
  | [] => mret 0
  | a :: bulbs =>
    massert (bool_decide (a <> closed)) ;;
    b ← get_bulb a;
    n ← count_tagged bulbs closed tag_id;
    mret (if has_flag (LGTD_LIFX_WIRE_TAG_ID_TO_VALUE tag_id) (ls_tags (bulb_state b))
          then 1 + n else n)
  end.

Definition lgtd_lifx_bulb_close (a : addr) : M world unit :=
  bulb ← get_bulb a;
  gw ← get_gw (bulb_gw bulb);
  mforeach (LGTD_LIFX_WIRE_FOREACH_TAG_ID (ls_tags (bulb_state bulb))) (fun tag_id =>
    n ← count_tagged (gw_bulbs gw) a tag_id;
    r ← get_refcount (bulb_gw bulb) tag_id;
    massert (r =? n)) ;;
  lgtd_stats_add counter_bulbs (-1) ;;
  mwhen (ls_power (bulb_state bulb) =? LGTD_LIFX_POWER_ON)
    (lgtd_stats_add counter_bulbs_powered_on (-1)) ;;
  mmodify (fun w => set_w_bulbs_table (delete a (w_bulbs_table w)) w).

(** ** Recording what a bulb reports *)

(** The part [set_light_state] and [set_power_state] share. *)
Definition update_power (a : addr) (power : Z) : M world unit :=
  bulb ← get_bulb a;
  mwhen (negb (power =? ls_power (bulb_state bulb))) (
    lgtd_stats_add counter_bulbs_powered_on (if power =? LGTD_LIFX_POWER_ON then 1 else -1) ;;
    lgtd_router_send_to_device a LGTD_LIFX_GET_INFO None).

Definition lgtd_lifx_bulb_set_light_state (a : addr) (state : lgtd_lifx_light_state)
    (received_at : Z) : M world unit :=
  update_power a (ls_power state) ;;
  bulb ← get_bulb a;
  lgtd_lifx_gateway_update_tag_refcounts (bulb_gw bulb) (ls_tags (bulb_state bulb)) (ls_tags state) ;;
  upd_bulb a (set_bulb_last_light_state_at received_at) ;;
  upd_bulb a (set_bulb_state state).

Definition lgtd_lifx_bulb_set_power_state (a : addr) (power : Z) : M world unit :=
  update_power a power ;;
  upd_bulb a (fun b => set_bulb_state (set_ls_power power (bulb_state b)) b).

Definition lgtd_lifx_bulb_set_tags (a : addr) (tags : Z) : M world unit :=
  bulb ← get_bulb a;
  lgtd_lifx_gateway_update_tag_refcounts (bulb_gw bulb) (ls_tags (bulb_state bulb)) tags ;;
  upd_bulb a (fun b => set_bulb_state (set_ls_tags tags (bulb_state b)) b).

Definition upd_bulb_ip (a : addr) (ip : lgtd_lifx_bulb_ips)
    (f : lgtd_lifx_bulb_ip -> lgtd_lifx_bulb_ip) : M world unit :=
  upd_bulb a (fun b => set_bulb_ips (alter f (bulb_ip_index ip) (bulb_ips b)) b).

Definition lgtd_lifx_bulb_set_ip_state (a : addr) (ip_id : lgtd_lifx_bulb_ips)
    (state : lgtd_lifx_ip_state) (received_at : Z) : M world unit :=
  upd_bulb_ip a ip_id (set_ip_state_updated_at received_at) ;;
  upd_bulb_ip a ip_id (set_ip_state state).

Definition lgtd_lifx_bulb_set_ip_firmware_info (a : addr) (ip_id : lgtd_lifx_bulb_ips)
    (info : lgtd_lifx_ip_firmware_info) (received_at : Z) : M world unit :=
  upd_bulb_ip a ip_id (set_ip_fw_info_updated_at received_at) ;;
  upd_bulb_ip a ip_id (set_ip_fw_info info).

Definition lgtd_lifx_bulb_set_product_info (a : addr) (info : lgtd_lifx_product_info) : M world unit :=
  upd_bulb a (set_bulb_product_info info) ;;
  upd_bulb a (set_bulb_vendor (Some (lgtd_lifx_bulb_get_vendor_name (pr_vendor_id info)))) ;;
  upd_bulb a (set_bulb_model
    (Some (lgtd_lifx_bulb_get_model_name (pr_vendor_id info) (pr_product_id info)))).

Definition lgtd_lifx_bulb_set_runtime_info (a : addr) (info : lgtd_lifx_runtime_info)
    (received_at : Z) : M world unit :=
  upd_bulb a (set_bulb_runtime_info_updated_at received_at) ;;
  upd_bulb a (set_bulb_runtime_info info).

Definition lgtd_lifx_bulb_set_label (a : addr) (label : list Z) : M world unit :=
  upd_bulb a (fun b => set_bulb_state
    (set_ls_label (take LGTD_LIFX_LABEL_SIZE label) (bulb_state b)) b).

Definition lgtd_lifx_bulb_set_ambient_light (a : addr) (illuminance : Z) : M world unit :=
  upd_bulb a (set_bulb_ambient_light illuminance).

End Bulb.
