(* ===== verification/Gateway.v ===== *)
(** * Gateways

    The rest of [lifx/gateway.c]: opening and closing a gateway, the handlers of
    the packets it sends, the callbacks of its socket and of its refresh timer;
    and [lgtd_lifx_wire_handle_receive] of [lifx/wire_proto.c], which reads
    datagrams and dispatches them. *)

From Stdlib Require Import ZArith Lia String.
From stdpp Require Import base tactics list gmap.
From S2P Require Import Prelude CLib WireBits PacketInfo WireProto World Tagging GatewayQueue.
From S2P Require Import BulbTable Router Bulb.

Section Gateway.
Context {E : Endianness}.

(** ** Closing *)

Definition lgtd_lifx_gateway_remove_and_close_bulb (p : gw_ptr) (a : addr) : M world unit :=
  bulb ← get_bulb a;
  mforeach (LGTD_LIFX_WIRE_FOREACH_TAG_ID (ls_tags (bulb_state bulb))) (fun tag_id =>
    n ← get_refcount p tag_id;
    massert (0 <? n) ;;
    set_refcount p tag_id (n - 1)) ;;
  gw ← get_gw p;
  (if bool_decide (a ∈ gw_bulbs gw)
   then upd_gw p (fun gw => set_gw_bulbs (filter (fun x => x <> a) (gw_bulbs gw)) gw)
   else mcrash UndefinedBehaviour) ;;
  lgtd_lifx_bulb_close a.

(** The loop over the cells of [gw->tags]. *)
Definition decref_all (p : gw_ptr) : M world unit :=
  gw ← get_gw p;
  mforeach (gw_tags gw) (fun cell =>
    match cell with
    | Some t => lgtd_lifx_tagging_decref t p
    | None => mret tt
    end).

(** [while (!SLIST_EMPTY(&gw->bulbs))]: every turn removes the first bulb. *)
Fixpoint close_bulbs (fuel : nat) (p : gw_ptr) : M world unit :=
  match fuel with
  | O => mcrash UndefinedBehaviour
  | S fuel =>
    gw ← get_gw p;
    match gw_bulbs gw with
    | [] => mret tt
    | a :: _ => lgtd_lifx_gateway_remove_and_close_bulb p a ;; close_bulbs fuel p
    end
  end.

Definition lgtd_lifx_gateway_close (p : gw_ptr) : M world unit :=
  lgtd_stats_add counter_gateways (-1) ;;
  gw ← get_gw p;
  lgtd_timer_stop (gw_refresh_timer gw) ;;
  upd_gw p (set_gw_socket_ev false) ;;
  mwhen (negb (gw_socket gw =? -1))
    (mmodify (fun w => set_w_gateway_list (filter (fun x => x <> p) (w_gateway_list w)) w)) ;;
  decref_all p ;;
  gw ← get_gw p;
  close_bulbs (S (length (gw_bulbs gw))) p ;;
  mmodify (fun w => set_w_gateways (delete p (w_gateways w)) w).

(** [LIST_FOREACH_SAFE]: the next gateway is read before the current one is
    closed, and closing a gateway leaves the others in the list. *)
Definition lgtd_lifx_gateway_close_all : M world unit :=
  w ← mget;
  mforeach (w_gateway_list w) lgtd_lifx_gateway_close.

(** ** Opening *)

Definition sa_family (peer : list Z) : list Z := take 2 peer.

Fixpoint gateway_get_from (gws : list gw_ptr) (peer : list Z) : M world (option gw_ptr) :=
  match gws with
  | [] => mret None
  | p :: gws =>
    gw ← get_gw p;
    if bool_decide (sa_family peer = sa_family (gw_peer gw))
       && (length peer =? length (gw_peer gw))%nat
       && memcmp_eq (gw_peer gw) peer (length peer)
    then mret (Some p) else gateway_get_from gws peer
  end.

Definition lgtd_lifx_gateway_get (peer : list Z) : M world (option gw_ptr) :=
  w ← mget; gateway_get_from (w_gateway_list w) peer.

Definition new_gateway (peer site : list Z) (socket received_at : Z) (refresh_timer : timer_ptr) :
    lgtd_lifx_gateway :=
  {| gw_bulbs := []; gw_peer := peer; gw_site := site; gw_tag_ids := 0;
     gw_tags := replicate 64 None; gw_tag_refcounts := replicate 64 0; gw_socket := socket;
     gw_last_req_at := received_at; gw_next_req_at := received_at; gw_last_pkt_at := received_at;
     gw_pkt_ring := replicate LGTD_LIFX_GATEWAY_PACKET_RING_SIZE {| msg_type := 0; msg_size := 0 |};
     gw_pkt_ring_head := 0; gw_pkt_ring_tail := 0; gw_pkt_ring_full := false;
     gw_socket_ev := false; gw_write_buf := []; gw_pending_refresh_req := false;
     gw_refresh_timer := refresh_timer |}.

(** The calls before the timer: [calloc], [socket], [connect] or non-blocking,
    [event_new], [evbuffer_new], [malloc]. The events and buffers of a gateway
    that is given up are released before it returns. *)
Definition open_calls : M world bool :=
  allocated ← os_call; if negb allocated then mret false else
  socket ← os_call; if negb socket then mret false else
  connected ← os_call; if negb connected then mret false else
  nonblocking ← os_call; if negb nonblocking then mret false else
  event ← os_call;
  buffer ← os_call; if negb (event && buffer) then mret false else
  os_call.

Definition lgtd_lifx_gateway_open (peer site : list Z) (received_at : Z) : M world (option gw_ptr) :=
  ok ← open_calls;
  if negb ok then mret None else
  w ← mget;
  let p := fresh_ptr (w_gateways w) in
  timer ← lgtd_timer_start true false LGTD_LIFX_GATEWAY_MIN_REFRESH_INTERVAL_MSECS
    lgtd_lifx_gateway_refresh_callback_fn (ctx_as_ptr p);
  match timer with
  | None => mret None
  | Some t =>
    let gw := new_gateway peer (take LGTD_LIFX_ADDR_LENGTH site) 3 received_at t in
    mmodify (fun w => set_w_gateways (<[p := gw]> (w_gateways w)) w) ;;
    mmodify (fun w => set_w_gateway_list (p :: w_gateway_list w) w) ;;
    lgtd_lifx_discovery_start_watchdog ;;
    lgtd_stats_add counter_gateways 1 ;;
    mret (Some p)
  end.

(** ** The handlers *)

Definition lgtd_lifx_gateway_get_or_open_bulb (p : gw_ptr) (bulb_addr : list Z) : M world (option addr) :=
  found ← lgtd_lifx_bulb_get bulb_addr;
  match found with
  | Some a => mret (Some a)
  | None =>
    opened ← lgtd_lifx_bulb_open p bulb_addr;
    match opened with
    | Some a =>
      upd_gw p (fun gw => set_gw_bulbs (a :: gw_bulbs gw) gw) ;;
      mret (Some a)
    | None => mret None
    end
  end.

(** [LGTD_LIFX_GATEWAY_SET_BULB_ATTR]. *)
Definition set_bulb_attr (p : gw_ptr) (hdr : lgtd_lifx_packet_header) (bulb_fn : addr -> M world unit) :
    M world unit :=
  b ← lgtd_lifx_gateway_get_or_open_bulb p (hdr_device_addr hdr);
  match b with
  | Some a => bulb_fn a
  | None => mret tt
  end.

(** The power asked for is checked against the power reported, and asked for
    again when they still differ after 400 ms. *)
Definition check_dirty (a : addr) : M world unit :=
  b ← get_bulb a;
  gw ← get_gw (bulb_gw b);
  if negb (bulb_dirty_at b =? 0) && (bulb_dirty_at b <? bulb_last_light_state_at b)
     && (400 <? u64 (gw_last_pkt_at gw - bulb_dirty_at b)) then
    if bulb_expected_power_on b =? ls_power (bulb_state b) then upd_bulb a (set_bulb_dirty_at 0)
    else
      let power := if negb (bulb_expected_power_on b =? 0)
                   then LGTD_LIFX_POWER_ON else LGTD_LIFX_POWER_OFF in
      lgtd_router_send_to_device a LGTD_LIFX_SET_POWER_STATE
        (Some (power_state_bytes {| ps_power := power |}))
  else mret tt.

Definition lgtd_lifx_gateway_handle_light_status (p : gw_ptr) (hdr : lgtd_lifx_packet_header)
    (pkt : lgtd_lifx_packet_light_status) : M world unit :=
  b ← lgtd_lifx_gateway_get_or_open_bulb p (hdr_device_addr hdr);
  match b with
  | None => mret tt
  | Some a =>
    gw ← get_gw p;
    lgtd_lifx_bulb_set_light_state a pkt (gw_last_pkt_at gw) ;;
    check_dirty a ;;
    gw ← get_gw p;
    let latency := lgtd_lifx_gateway_latency gw in
    if latency <? LGTD_LIFX_GATEWAY_MIN_REFRESH_INTERVAL_MSECS then
      lgtd_timer_reschedule (gw_refresh_timer gw)
        (LGTD_LIFX_GATEWAY_MIN_REFRESH_INTERVAL_MSECS - latency) ;;
      mret tt
    else mwhen (negb (gw_pending_refresh_req gw)) (lgtd_lifx_gateway_send_get_all_light_state p)
  end.

Definition lgtd_lifx_gateway_handle_power_state (p : gw_ptr) (hdr : lgtd_lifx_packet_header)
    (pkt : lgtd_lifx_packet_power_state) : M world unit :=
  set_bulb_attr p hdr (fun a => lgtd_lifx_bulb_set_power_state a (ps_power pkt)).

Definition lgtd_lifx_gateway_handle_tag_labels (p : gw_ptr) (hdr : lgtd_lifx_packet_header)
    (pkt : lgtd_lifx_packet_tag_labels) : M world unit :=
  mforeach (LGTD_LIFX_WIRE_FOREACH_TAG_ID (tl_tags pkt)) (fun tag_id =>
    if negb (first_char (tl_label pkt) =? 0) then
      lgtd_lifx_gateway_allocate_tag_id p tag_id (tl_label pkt) ;; mret tt
    else
      gw ← get_gw p;
      cell ← get_gw_tag gw tag_id;
      match cell with
      | Some _ => lgtd_lifx_gateway_deallocate_tag_id p tag_id
      | None => mret tt
      end).

(** Tag ids the gateway does not know are logged and set all the same. *)
Definition lgtd_lifx_gateway_handle_tags (p : gw_ptr) (hdr : lgtd_lifx_packet_header)
    (pkt : lgtd_lifx_packet_tags) : M world unit :=
  set_bulb_attr p hdr (fun a => lgtd_lifx_bulb_set_tags a (pt_tags pkt)).

(** The processor a packet type is about; any other type aborts. *)
Definition ip_of_packet_type (packet_type : Z) (mcu wifi : lgtd_lifx_packet_type) :
    M world lgtd_lifx_bulb_ips :=
  if packet_type =? packet_type_value mcu then mret LGTD_LIFX_BULB_MCU_IP
  else if packet_type =? packet_type_value wifi then mret LGTD_LIFX_BULB_WIFI_IP
  else mcrash AssertFailed.

Definition lgtd_lifx_gateway_handle_ip_state (p : gw_ptr) (hdr : lgtd_lifx_packet_header)
    (pkt : lgtd_lifx_packet_ip_state) : M world unit :=
  ip_id ← ip_of_packet_type (hdr_packet_type hdr) LGTD_LIFX_MESH_INFO LGTD_LIFX_WIFI_INFO;
  set_bulb_attr p hdr (fun a =>
    gw ← get_gw p; lgtd_lifx_bulb_set_ip_state a ip_id pkt (gw_last_pkt_at gw)).

Definition lgtd_lifx_gateway_handle_ip_firmware_info (p : gw_ptr) (hdr : lgtd_lifx_packet_header)
    (pkt : lgtd_lifx_packet_ip_firmware_info) : M world unit :=
  ip_id ← ip_of_packet_type (hdr_packet_type hdr)
    LGTD_LIFX_MESH_FIRMWARE LGTD_LIFX_WIFI_FIRMWARE_STATE;
  set_bulb_attr p hdr (fun a =>
    gw ← get_gw p; lgtd_lifx_bulb_set_ip_firmware_info a ip_id pkt (gw_last_pkt_at gw)).

Definition lgtd_lifx_gateway_handle_product_info (p : gw_ptr) (hdr : lgtd_lifx_packet_header)
    (pkt : lgtd_lifx_packet_product_info) : M world unit :=
  set_bulb_attr p hdr (fun a => lgtd_lifx_bulb_set_product_info a pkt).

Definition lgtd_lifx_gateway_handle_runtime_info (p : gw_ptr) (hdr : lgtd_lifx_packet_header)
    (pkt : lgtd_lifx_packet_runtime_info) : M world unit :=
  set_bulb_attr p hdr (fun a =>
    gw ← get_gw p; lgtd_lifx_bulb_set_runtime_info a pkt (gw_last_pkt_at gw)).

Definition lgtd_lifx_gateway_handle_bulb_label (p : gw_ptr) (hdr : lgtd_lifx_packet_header)
    (pkt : lgtd_lifx_packet_label) : M world unit :=
  set_bulb_attr p hdr (fun a => lgtd_lifx_bulb_set_label a (pl_label pkt)).

Definition lgtd_lifx_gateway_handle_ambient_light (p : gw_ptr) (hdr : lgtd_lifx_packet_header)
    (pkt : lgtd_lifx_packet_ambient_light) : M world unit :=
  set_bulb_attr p hdr (fun a => lgtd_lifx_bulb_set_ambient_light a (al_illuminance pkt)).

(** ** Dispatch *)

(** [pkt_info->handle(gw, hdr, pkt)]; [pkt] is the decoded payload memory. The
    handlers of PAN_GATEWAY and of unimplemented packets only log. *)
Definition packet_handle (h : packet_handler) (p : gw_ptr) (hdr : lgtd_lifx_packet_header)
    (pkt : list Z) : M world unit :=
  match h with
  | H_null | H_enosys | H_pan_gateway => mret tt
  | H_light_status => lgtd_lifx_gateway_handle_light_status p hdr (light_status_of_bytes pkt)
  | H_power_state => lgtd_lifx_gateway_handle_power_state p hdr (power_state_of_bytes pkt)
  | H_tag_labels => lgtd_lifx_gateway_handle_tag_labels p hdr (tag_labels_of_bytes pkt)
  | H_tags => lgtd_lifx_gateway_handle_tags p hdr (tags_of_bytes pkt)
  | H_ip_state => lgtd_lifx_gateway_handle_ip_state p hdr (ip_state_of_bytes pkt)
  | H_ip_firmware_info =>
    lgtd_lifx_gateway_handle_ip_firmware_info p hdr (ip_firmware_info_of_bytes pkt)
  | H_product_info => lgtd_lifx_gateway_handle_product_info p hdr (product_info_of_bytes pkt)
  | H_runtime_info => lgtd_lifx_gateway_handle_runtime_info p hdr (runtime_info_of_bytes pkt)
  | H_bulb_label => lgtd_lifx_gateway_handle_bulb_label p hdr (label_of_bytes pkt)
  | H_ambient_light => lgtd_lifx_gateway_handle_ambient_light p hdr (ambient_light_of_bytes pkt)
  end.

Definition lgtd_lifx_gateway_handle_packet (gw : option gw_ptr) (peer : list Z)
    (pkt_info : lgtd_lifx_packet_info) (hdr : lgtd_lifx_packet_header) (pkt : list Z)
    (received_at : Z) : M world unit :=
  massert (negb (length peer =? 0)%nat) ;;
  massert (negb (received_at =? 0)) ;;
  gw ← match gw with
       | Some p =>
         g ← get_gw p;
         massert (length (gw_peer g) =? length peer)%nat ;;
         massert (memcmp_eq peer (gw_peer g) (length peer)) ;;
         mret (Some p)
       | None =>
         found ← lgtd_lifx_gateway_get peer;
         match found with
         | Some p => mret (Some p)
         | None =>
           if hdr_packet_type hdr =? packet_type_value LGTD_LIFX_PAN_GATEWAY
           then lgtd_lifx_gateway_open peer (hdr_site hdr) received_at
           else mret None
         end
       end;
  match gw with
  | Some p =>
    mwhen (negb (bool_decide (pi_handle pkt_info = H_enosys)))
      (upd_gw p (set_gw_last_pkt_at received_at)) ;;
    packet_handle (pi_handle pkt_info) p hdr pkt
  | None => mret tt
  end.

(** ** Receiving *)

(** What one call of [recvfrom] does. *)
Inductive recv_result : Type :=
| recv_EINTR
| recv_EAGAIN
| recv_error
| recv_datagram (nbytes : Z) (buf peer : list Z).

(** One datagram of [nbytes] bytes, with the content of the whole buffer after
    the call: what follows the datagram is whatever was on the stack. False ends
    the loop with an error. *)
Definition receive_datagram (gw : option gw_ptr) (nbytes : Z) (buf peer : list Z) : M world bool :=
  received_at ← lgtd_time_monotonic_msecs;
  if nbytes <? LGTD_LIFX_PACKET_HEADER_SIZE then mret false else
  let hdr := lgtd_lifx_wire_decode_header (header_of_bytes buf) in
  if negb (hdr_size hdr =? nbytes) then mret false else
  if hdr_packet_type hdr =? packet_type_value LGTD_LIFX_GET_PAN_GATEWAY then mret true else
  match lgtd_lifx_wire_get_packet_info (hdr_packet_type hdr) with
  | None => mret true
  | Some pkt_info =>
    if negb (has_flag (hdr_protocol hdr) LGTD_LIFX_PROTOCOL_ADDRESSABLE) then mret true else
    let pkt := packet_decode (pi_decode pkt_info) (drop 36 buf) in
    lgtd_lifx_gateway_handle_packet gw peer pkt_info hdr pkt received_at ;;
    mret true
  end.

(** The loop, on the results of the successive calls; when they run out the
    socket has nothing to read. *)
Fixpoint lgtd_lifx_wire_handle_receive (rs : list recv_result) (gw : option gw_ptr) : M world bool :=
  match rs with
  | [] | recv_EAGAIN :: _ => mret true
  | recv_EINTR :: rs => lgtd_lifx_wire_handle_receive rs gw
  | recv_error :: _ => mret false
  | recv_datagram nbytes buf peer :: rs =>
    ok ← receive_datagram gw nbytes buf peer;
    if (ok : bool) then lgtd_lifx_wire_handle_receive rs gw else mret false
  end.

(** ** Callbacks *)

(** What [evbuffer_write_atmost] did: a number of bytes written, EAGAIN, or
    another error. *)
Inductive write_result : Type :=
| write_ok (nbytes : nat)
| write_EAGAIN
| write_error.

Definition set_msg_size (v : Z) (m : lgtd_lifx_message) : lgtd_lifx_message :=
  {| msg_type := msg_type m; msg_size := v |}.
Definition set_msg_type (v : Z) (m : lgtd_lifx_message) : lgtd_lifx_message :=
  {| msg_type := v; msg_size := msg_size m |}.

(** The assignments after a write of [nbytes] bytes, -1 for EAGAIN. *)
Definition ring_pop (nbytes : Z) (gw : lgtd_lifx_gateway) : lgtd_lifx_gateway :=
  let tail := gw_pkt_ring_tail gw in
  let gw := set_gw_pkt_ring
    (alter (fun m => set_msg_size (msg_size m - nbytes) m) tail (gw_pkt_ring gw)) gw in
  match gw_pkt_ring gw !! tail with
  | Some m =>
    if msg_size m =? 0 then
      let gw := if msg_type m =? packet_type_value LGTD_LIFX_GET_TAG_LABELS
                then set_gw_pending_refresh_req false gw else gw in
      let gw := set_gw_pkt_ring (alter (set_msg_type 0) tail (gw_pkt_ring gw)) gw in
      let gw := set_gw_pkt_ring_tail (LGTD_LIFX_GATEWAY_INC_MESSAGE_RING_INDEX tail) gw in
      set_gw_pkt_ring_full false gw
    else gw
  | None => gw
  end.

(** The [EV_WRITE] branch: false on an error. [evbuffer_write_atmost] writes at
    most the bytes asked for and drains what it wrote. *)
Definition gateway_write (p : gw_ptr) (wr : write_result) : M world bool :=
  gw ← get_gw p;
  massert (gw_pkt_ring_tail gw <? LGTD_LIFX_GATEWAY_PACKET_RING_SIZE)%nat ;;
  m ← mderef (gw_pkt_ring gw !! gw_pkt_ring_tail gw);
  let to_write := msg_size m in
  match wr with
  | write_error => mret false
  | _ =>
    let nbytes := match wr with
                  | write_ok n => Z.min (Z.of_nat n) (Z.min to_write (Z.of_nat (length (gw_write_buf gw))))
                  | _ => -1
                  end in
    upd_gw p (fun gw => set_gw_write_buf (drop (Z.to_nat nbytes) (gw_write_buf gw)) gw) ;;
    upd_gw p (fun gw => set_gw_last_req_at (gw_next_req_at gw) gw) ;;
    now ← lgtd_time_monotonic_msecs;
    upd_gw p (set_gw_next_req_at now) ;;
    upd_gw p (ring_pop nbytes) ;;
    gw ← get_gw p;
    mwhen (bool_decide (gw_write_buf gw = [])) (upd_gw p (set_gw_socket_ev false)) ;;
    mret true
  end.

Definition drop_gw_and_restart_discovery (p : gw_ptr) : M world unit :=
  lgtd_lifx_gateway_close p ;;
  ok ← lgtd_lifx_broadcast_discovery;
  if (ok : bool) then mret tt else mcrash Exited.

(** [ev_read] has what [recvfrom] returns when [EV_READ] is set, [ev_write] what
    the write does when [EV_WRITE] is set. *)
Definition lgtd_lifx_gateway_socket_event_callback (ev_timeout : bool)
    (ev_read : option (list recv_result)) (ev_write : option write_result) (p : gw_ptr) : M world unit :=
  if ev_timeout then drop_gw_and_restart_discovery p
  else
    read_ok ← match ev_read with
              | Some rs => get_gw p ;; lgtd_lifx_wire_handle_receive rs (Some p)
              | None => mret true
              end;
    if negb read_ok then drop_gw_and_restart_discovery p
    else
      write_ok ← match ev_write with
                 | Some wr => gateway_write p wr
                 | None => mret true
                 end;
      if negb write_ok then drop_gw_and_restart_discovery p else mret tt.

Definition lgtd_lifx_gateway_refresh_callback (p : gw_ptr) : M world unit :=
  lgtd_lifx_gateway_send_get_all_light_state p ;;
  gw ← get_gw p;
  lgtd_timer_reschedule (gw_refresh_timer gw) LGTD_LIFX_GATEWAY_MIN_REFRESH_INTERVAL_MSECS ;;
  mret tt.

Definition lgtd_lifx_gateway_force_refresh (p : gw_ptr) : M world unit :=
  gw ← get_gw p; lgtd_timer_activate (gw_refresh_timer gw).

Definition lgtd_lifx_gateway_msecs_since_last_update (p : gw_ptr) : M world Z :=
  gw ← get_gw p;
  now ← lgtd_time_monotonic_msecs;
  mret (u64 (now - gw_last_pkt_at gw)).

(** [lgtd_timer_callback]: the callback of a timer that fires. *)
Definition lgtd_timer_callback (t : timer_ptr) : M world unit :=
  timer ← get_timer t;
  match timer_callback timer, timer_ctx timer with
  | lgtd_lifx_gateway_refresh_callback_fn, ctx_as_ptr p => lgtd_lifx_gateway_refresh_callback p
  | lgtd_lifx_bulb_fetch_hardware_info_fn, ctx_as_uint n => lgtd_lifx_bulb_fetch_hardware_info t n
  | _, _ => mcrash UndefinedBehaviour
  end.

(** ** The watchdog *)

Definition LGTD_LIFX_DISCOVERY_DEVICE_TIMEOUT_MSECS : Z := 20000.
Definition LGTD_LIFX_DISCOVERY_DEVICE_FORCE_REFRESH_MSECS : Z := 2000.

(** Both loops return whether a discovery is needed. *)
Fixpoint watchdog_bulbs (now : Z) (bulbs : list addr) (start_discovery : bool) : M world bool :=
  match bulbs with
  | [] => mret start_discovery
  | a :: bulbs =>
    bulb ← get_bulb a;
    let light_state_lag := i32 (u64 (now - bulb_last_light_state_at bulb)) in
    if LGTD_LIFX_DISCOVERY_DEVICE_TIMEOUT_MSECS <=? light_state_lag then
      lgtd_lifx_gateway_remove_and_close_bulb (bulb_gw bulb) a ;;
      watchdog_bulbs now bulbs true
    else watchdog_bulbs now bulbs start_discovery
  end.

Fixpoint watchdog_gateways (gws : list gw_ptr) (start_discovery : bool) : M world bool :=
  match gws with
  | [] => mret start_discovery
  | p :: gws =>
    lag ← lgtd_lifx_gateway_msecs_since_last_update p;
    let gw_lag := i32 lag in
    if LGTD_LIFX_DISCOVERY_DEVICE_TIMEOUT_MSECS <=? gw_lag then
      lgtd_lifx_gateway_close p ;; watchdog_gateways gws true
    else if LGTD_LIFX_DISCOVERY_DEVICE_FORCE_REFRESH_MSECS <=? gw_lag then
      lgtd_lifx_gateway_force_refresh p ;; watchdog_gateways gws start_discovery
    else watchdog_gateways gws start_discovery
  end.

Definition lgtd_lifx_discovery_watchdog_interval_callback : M world unit :=
  now ← lgtd_time_monotonic_msecs;
  w ← mget;
  start_discovery ← watchdog_bulbs now (bulbs_in_order w) false;
  w ← mget;
  start_discovery ← watchdog_gateways (w_gateway_list w) start_discovery;
  mwhen start_discovery (lgtd_lifx_broadcast_discovery ;; mret tt).

End Gateway.
