(* ===== verification/Discovery.v ===== *)
(** * Discovery

    The broadcast endpoint of [lifx/broadcast.c], which asks for gateways and
    receives what is not sent to the socket of a gateway, and the timer of
    [lifx/discovery.c], which starts it again and again. *)

From Stdlib Require Import ZArith Lia.
From stdpp Require Import base tactics list gmap.
From S2P Require Import Prelude CLib WireBits PacketInfo WireProto World Gateway.

Section Discovery.
Context {E : Endianness}.

(** ** The broadcast endpoint *)

(** What a call to [sendto] that is repeated on [EINTR] comes to. *)
Inductive sendto_result : Type :=
| sendto_returns (nbytes : Z)
| sendto_EINTR (again : sendto_result).

(** Whether the whole packet was sent. *)
Fixpoint lgtd_lifx_broadcast_send_packet (pkt_sz : Z) (r : sendto_result) : bool :=
  match r with
  | sendto_EINTR again => lgtd_lifx_broadcast_send_packet pkt_sz again
  | sendto_returns nbytes => nbytes =? pkt_sz
  end.

Definition AF_INET : Z := 2.
Definition IFF_BROADCAST : Z := 2.

(** One element of the list [getifaddrs] makes, with what [sendto] does there:
    the family of the broadcast address, if it has one, its flags and whether it
    has a netmask. *)
Record ifaddr : Type := {
  ifa_broadaddr : option Z;
  ifa_flags : Z;
  ifa_netmask : bool;
  ifa_sendto : sendto_result;
}.

(** [getifaddrs] failed, and the packet is sent to the default address; or it
    gives a list of interfaces. *)
Inductive ifaddrs_result : Type :=
| ifaddrs_error (default : sendto_result)
| ifaddrs_list (ifaddrs : list ifaddr).

Definition can_broadcast (ifa : ifaddr) : bool :=
  bool_decide (is_Some (ifa_broadaddr ifa)) && has_flag (ifa_flags ifa) IFF_BROADCAST
  && bool_decide (ifa_broadaddr ifa = Some AF_INET) && ifa_netmask ifa.

(** The datagrams that went out, one per address that worked. *)
Definition lgtd_lifx_broadcast_handle_write (ifaddrs : ifaddrs_result) : M world (bool * list (list Z)) :=
  w ← mget;
  massert (bool_decide (is_Some (w_broadcast_write_ev w))) ;;
  '(get_pan_gateway, _) ← lgtd_lifx_wire_setup_header (w_client_id w) LGTD_LIFX_TARGET_ALL_DEVICES
    (target_tags 0) None LGTD_LIFX_GET_PAN_GATEWAY;
  let sends := match ifaddrs with
               | ifaddrs_error r => [r]
               | ifaddrs_list l => ifa_sendto <$> filter (fun ifa => can_broadcast ifa = true) l
               end in
  let sent := lgtd_lifx_broadcast_send_packet LGTD_LIFX_PACKET_HEADER_SIZE <$> sends in
  let datagrams := (fun _ => header_bytes get_pan_gateway) <$> filter (fun s => s = true) sent in
  let ok := bool_decide (true ∈ sent) in
  if (ok : bool) then
    deleted ← os_call;
    if (deleted : bool) then
      mmodify (set_w_broadcast_write_ev (Some false)) ;;
      mret (true, datagrams)
    else mcrash Exited
  else mret (false, datagrams).

Definition lgtd_lifx_broadcast_close : M world unit :=
  mmodify (set_w_broadcast_write_ev None).

(** The calls after [socket]; any failure closes what was opened. *)
Definition setup_calls : M world bool :=
  broadcast ← os_call; if negb broadcast then mret false else
  reuseable ← os_call; if negb reuseable then mret false else
  nonblocking ← os_call; if negb nonblocking then mret false else
  bound ← os_call; if negb bound then mret false else
  read_ev ← os_call;
  write_ev ← os_call; if negb (read_ev && write_ev) then mret false else
  os_call.

Definition lgtd_lifx_broadcast_setup : M world bool :=
  w ← mget;
  massert (bool_decide (w_broadcast_write_ev w = None)) ;;
  socket ← os_call;
  if negb socket then mret false else
  ok ← setup_calls;
  if (ok : bool) then mmodify (set_w_broadcast_write_ev (Some false)) ;; mret true
  else lgtd_lifx_broadcast_close ;; mret false.

(** [error_reset]: the result of the setup is not looked at. *)
Definition broadcast_reset : M world unit :=
  lgtd_lifx_broadcast_close ;;
  lgtd_lifx_broadcast_setup ;;
  mret tt.

Definition lgtd_lifx_broadcast_event_callback (ev_timeout : bool)
    (ev_read : option (list recv_result)) (ev_write : option ifaddrs_result) : M world (list (list Z)) :=
  if ev_timeout then broadcast_reset ;; mret []
  else
    read_ok ← match ev_read with
              | Some rs => lgtd_lifx_wire_handle_receive rs None
              | None => mret true
              end;
    if negb read_ok then broadcast_reset ;; mret []
    else
      '(ok, datagrams) ← match ev_write with
                               | Some r => lgtd_lifx_broadcast_handle_write r
                               | None => mret (true, [])
                               end;
      (if (ok : bool) then mret tt else broadcast_reset) ;;
      mret datagrams.

(** ** The discovery timer *)

Definition LGTD_LIFX_DISCOVERY_ACTIVE_DISCOVERY_INTERVAL_MSECS : Z := 2000.
Definition LGTD_LIFX_DISCOVERY_PASSIVE_DISCOVERY_INTERVAL_MSECS : Z := 10000.

Definition lgtd_lifx_discovery_timeout_event_callback : M world unit :=
  mmodify (fun w => set_w_discovery_timeout
    (if bool_decide (w_gateway_list w = []) then LGTD_LIFX_DISCOVERY_ACTIVE_DISCOVERY_INTERVAL_MSECS
     else Z.min (w_discovery_timeout w * 2) LGTD_LIFX_DISCOVERY_PASSIVE_DISCOVERY_INTERVAL_MSECS) w) ;;
  added ← os_call;
  if negb added then mcrash Exited else
  mmodify (fun w => set_w_discovery_ev (Some (w_discovery_timeout w)) w) ;;
  ok ← lgtd_lifx_broadcast_discovery;
  if (ok : bool) then mret tt else mcrash Exited.

Definition lgtd_lifx_discovery_start : M world unit :=
  w ← mget;
  massert (bool_decide (w_discovery_ev w = None)) ;;
  mmodify (set_w_discovery_timeout LGTD_LIFX_DISCOVERY_ACTIVE_DISCOVERY_INTERVAL_MSECS) ;;
  lgtd_lifx_discovery_timeout_event_callback.

End Discovery.
