(* ===== verification/Proto.v ===== *)
(** * The commands of clients

    [core/proto.c]: what the daemon does for each method of its API, once the
    parameters are parsed. [get_light_state] is the exception: it only prints. *)

From Stdlib Require Import ZArith Lia String.
From stdpp Require Import base tactics list gmap.
From S2P Require Import Prelude CLib WireBits PacketInfo WireProto World Tagging GatewayQueue.
From S2P Require Import BulbTable Router.

(** What is sent back to the client: [SEND_RESULT] or [lgtd_client_send_error]
    with the code of an internal error. *)
Inductive reply : Type :=
| SEND_RESULT (ok : bool)
| LGTD_CLIENT_INTERNAL_ERROR (msg : string).

Definition UINT16_MAX : Z := 65535.

Section Proto.
Context {E : Endianness}.

Definition lgtd_proto_power (power : Z) (targets : list (list Z)) : M world reply :=
  ok ← lgtd_router_send targets LGTD_LIFX_SET_POWER_STATE (Some (power_state_bytes {| ps_power := power |}));
  mret (SEND_RESULT ok).

Definition lgtd_proto_power_on (targets : list (list Z)) : M world reply :=
  lgtd_proto_power LGTD_LIFX_POWER_ON targets.

Definition lgtd_proto_power_off (targets : list (list Z)) : M world reply :=
  lgtd_proto_power LGTD_LIFX_POWER_OFF targets.

(** The reply when [lgtd_router_targets_to_devices] has no memory. *)
Definition memory_error : reply := LGTD_CLIENT_INTERNAL_ERROR "couldn't allocate memory".

Definition lgtd_proto_power_toggle (targets : list (list Z)) : M world reply :=
  devices ← lgtd_router_targets_to_devices targets;
  match devices with
  | None => mret memory_error
  | Some devices =>
    mforeach devices (fun a =>
      bulb ← get_bulb a;
      lgtd_router_send_to_device a LGTD_LIFX_SET_POWER_STATE
        (Some (power_state_bytes {| ps_power := u16 (Z.lnot (ls_power (bulb_state bulb))) |}))) ;;
    mret (SEND_RESULT true)
  end.

Definition in_range (lo hi v : Z) : bool := (lo <=? v) && (v <=? hi).

(** The assertions both commands on colors start with. *)
Definition assert_color (hue saturation brightness kelvin : Z) : M world unit :=
  massert (in_range 0 UINT16_MAX hue) ;;
  massert (in_range 0 UINT16_MAX saturation) ;;
  massert (in_range 0 UINT16_MAX brightness) ;;
  massert (in_range 2500 9000 kelvin).

Definition lgtd_proto_set_light_from_hsbk (targets : list (list Z))
    (hue saturation brightness kelvin transition_msecs : Z) : M world reply :=
  assert_color hue saturation brightness kelvin ;;
  massert (0 <=? transition_msecs) ;;
  let pkt := lgtd_lifx_wire_encode_light_color
    {| lc_stream := 0; lc_hue := hue; lc_saturation := saturation; lc_brightness := brightness;
       lc_kelvin := kelvin; lc_transition := transition_msecs |} in
  ok ← lgtd_router_send targets LGTD_LIFX_SET_LIGHT_COLOR (Some (light_color_bytes pkt));
  mret (SEND_RESULT ok).

(** [cycles >= 0] on the bits of a binary32: not a NaN, and positive or a zero. *)
Definition float_nonneg (bits : Z) : bool :=
  let magnitude := Z.land bits 0x7fffffff in
  (magnitude <=? 0x7f800000) && ((bits <? 2 ^ 31) || (magnitude =? 0)).

Definition lgtd_proto_set_waveform (targets : list (list Z)) (waveform : lgtd_lifx_waveform_type)
    (hue saturation brightness kelvin period cycles skew_ratio : Z) (transient : bool) : M world reply :=
  assert_color hue saturation brightness kelvin ;;
  massert (waveform_value waveform <=? waveform_value LGTD_LIFX_WAVEFORM_SQUARE) ;;
  massert (in_range (-32767) 32768 skew_ratio) ;;
  massert (0 <=? period) ;;
  massert (float_nonneg cycles) ;;
  let pkt := lgtd_lifx_wire_encode_waveform
    {| wf_stream := 0; wf_transient := Z.b2z transient; wf_hue := hue; wf_saturation := saturation;
       wf_brightness := brightness; wf_kelvin := kelvin; wf_period := period; wf_cycles := cycles;
       wf_skew_ratio := u16 skew_ratio; wf_waveform := waveform_value waveform |} in
  ok ← lgtd_router_send targets LGTD_LIFX_SET_WAVEFORM (Some (waveform_bytes pkt));
  mret (SEND_RESULT ok).

(** ** Tags *)

(** [int tag_value = LGTD_LIFX_WIRE_TAG_ID_TO_VALUE(tag_id)]: the value goes
    through an [int]. *)
Definition tag_value (tag_id : Z) : Z := i32 (LGTD_LIFX_WIRE_TAG_ID_TO_VALUE tag_id).

Definition is_tag_id (tag_id : Z) : bool := (-1 <? tag_id) && (tag_id <? LGTD_LIFX_GATEWAY_MAX_TAGS).

(** The first loop of [lgtd_proto_tag]: false jumps to [error_site_alloc]. *)
Definition tag_allocate (t : tag_ptr) (tag_label : list Z) (devices : list addr) : M world bool :=
  mforeach_while devices (fun a =>
    bulb ← get_bulb a;
    tag_id ← lgtd_lifx_gateway_get_tag_id (bulb_gw bulb) t;
    if tag_id =? -1 then
      tag_id ← lgtd_lifx_gateway_allocate_tag_id (bulb_gw bulb) (-1) tag_label;
      mret (negb (tag_id =? -1))
    else mret true).

(** The second loop, over the sites of the tag. *)
Definition tag_send_labels (tag_label : list Z) (sites : list lgtd_lifx_site) : M world bool :=
  mforeach_while sites (fun site =>
    massert (is_tag_id (site_tag_id site)) ;;
    let pkt := lgtd_lifx_wire_encode_tag_labels
      {| tl_tags := LGTD_LIFX_WIRE_TAG_ID_TO_VALUE (site_tag_id site);
         tl_label := strncpy_label LGTD_LIFX_LABEL_SIZE tag_label |} in
    lgtd_lifx_gateway_send_to_site (site_gw site) LGTD_LIFX_SET_TAG_LABELS (Some (tag_labels_bytes pkt))).

(** The third loop. *)
Definition tag_send_tags (t : tag_ptr) (devices : list addr) : M world unit :=
  mforeach devices (fun a =>
    bulb ← get_bulb a;
    tag_id ← lgtd_lifx_gateway_get_tag_id (bulb_gw bulb) t;
    massert (is_tag_id tag_id) ;;
    let value := u64 (tag_value tag_id) in
    if negb (has_flag (ls_tags (bulb_state bulb)) value) then
      let pkt := lgtd_lifx_wire_encode_tags
        {| pt_tags := Z.lor (ls_tags (bulb_state bulb)) value |} in
      lgtd_router_send_to_device a LGTD_LIFX_SET_TAGS (Some (tags_bytes pkt))
    else mret tt).

(** [error_site_alloc]: the tag is removed from every gateway that has it, the
    ones that had it before the command too. *)
Definition tag_rollback (t : tag_ptr) : M world unit :=
  tag ← get_tag t;
  if bool_decide (tag_sites tag = []) then lgtd_lifx_tagging_deallocate_tag t
  else mforeach (tag_sites tag) (fun site =>
    lgtd_lifx_gateway_deallocate_tag_id (site_gw site) (site_tag_id site)).

Definition tag_alloc_error : reply := LGTD_CLIENT_INTERNAL_ERROR "couldn't allocate new tag".

Definition lgtd_proto_tag (targets : list (list Z)) (tag_label : list Z) : M world reply :=
  devices ← lgtd_router_targets_to_devices targets;
  match devices with
  | None => mret tag_alloc_error
  | Some devices =>
    found ← lgtd_lifx_tagging_find_tag tag_label;
    tag ← match found with
          | Some t => mret (Some t)
          | None => lgtd_lifx_tagging_allocate_tag tag_label
          end;
    match tag with
    | None => mret tag_alloc_error
    | Some t =>
      allocated ← tag_allocate t tag_label devices;
      enqueued ← (if (allocated : bool) then
                    tag ← get_tag t; tag_send_labels tag_label (tag_sites tag)
                  else mret false);
      if (enqueued : bool) then
        tag_send_tags t devices ;;
        mret (SEND_RESULT true)
      else
        tag_rollback t ;;
        mret tag_alloc_error
    end
  end.

Definition lgtd_proto_untag (targets : list (list Z)) (tag_label : list Z) : M world reply :=
  found ← lgtd_lifx_tagging_find_tag tag_label;
  match found with
  | None => mret (SEND_RESULT true)
  | Some t =>
    devices ← lgtd_router_targets_to_devices targets;
    match devices with
    | None => mret memory_error
    | Some devices =>
      mforeach devices (fun a =>
        bulb ← get_bulb a;
        tag_id ← lgtd_lifx_gateway_get_tag_id (bulb_gw bulb) t;
        if negb (tag_id =? -1) then
          let value := tag_value tag_id in
          if has_flag (ls_tags (bulb_state bulb)) (u64 value) then
            let pkt := lgtd_lifx_wire_encode_tags
              {| pt_tags := Z.land (ls_tags (bulb_state bulb)) (u64 (Z.lnot value)) |} in
            lgtd_router_send_to_device a LGTD_LIFX_SET_TAGS (Some (tags_bytes pkt))
          else mret tt
        else mret tt) ;;
      mret (SEND_RESULT true)
    end
  end.

(** The label is cut at 32 bytes and padded with zeros. *)
Definition lgtd_proto_set_label (targets : list (list Z)) (label : list Z) : M world reply :=
  let s := take LGTD_LIFX_LABEL_SIZE (cstr label) in
  let pkt := {| pl_label := s ++ replicate (LGTD_LIFX_LABEL_SIZE - length s) 0 |} in
  ok ← lgtd_router_send targets LGTD_LIFX_SET_BULB_LABEL (Some (label_bytes pkt));
  mret (SEND_RESULT ok).
End Proto.
