(* ===== verification/WorldFrames.v ===== *)
(** * What the code of the LIFX side leaves alone

    Whatever it does, the code of the LIFX side does not count clients, does not close the broadcast endpoint (but for its
    own error path) and takes the results of its calls in order. *)

From Stdlib Require Import ZArith Lia.
From stdpp Require Import base tactics list gmap.
From S2P Require Import Prelude CLib WireBits PacketInfo WireProto World Tagging GatewayQueue BulbTable Router Bulb Gateway.
From S2P Require Import Discovery Proto.

(** Frames of code that is not in the database come from its definition. *)
Ltac frame_unfold :=
  lazymatch goal with
  | |- framed _ ?m =>
    let rec head t := lazymatch t with ?f _ => head f | ?f => f end in
    let h := head m in unfold h
  end.
Ltac frame_all := repeat first [progress frame_step | frame_unfold].

(** The counter of clients, the endpoint, and the results of calls to come. *)
Record gentle (w w' : world) : Prop := {
  gn_clients : stats_clients (w_counters w') = stats_clients (w_counters w);
  gn_endpoint : w_broadcast_write_ev w' = None -> w_broadcast_write_ev w = None;
  gn_results : w_os_results w' `suffix_of` w_os_results w
}.

#[export] Instance gentle_refl : Reflexive gentle.
Proof. by split. Qed.
#[export] Instance gentle_trans : Transitive gentle.
Proof. intros w1 w2 w3 [H1 H2 H3] [H4 H5 H6]. split; [congruence|auto|by etransitivity]. Qed.

Lemma gentle_os : framed gentle os_call.
Proof. intros w. unfold os_call. destruct (w_os_results w) as [|b rs] eqn:Hr; [done|]. split; [done|done|]. rewrite Hr. by exists [b]. Qed.
Lemma gentle_clock : framed gentle lgtd_time_monotonic_msecs.
Proof. intros w. unfold lgtd_time_monotonic_msecs. by destruct (w_clock w). Qed.

#[export] Hint Resolve gentle_os gentle_clock : frames.
#[export] Hint Extern 1 (framed gentle (mmodify _)) => by apply framed_modify : frames.

Section World.
Context {E : Endianness}.

Lemma gentle_find_tag tags label : framed gentle (find_tag_from tags label).
Proof. induction tags; cbn [find_tag_from]; frame_all. Qed.
Lemma gentle_get_tag_id ids gw t : framed gentle (get_tag_id_from ids gw t).
Proof. induction ids; cbn [get_tag_id_from]; frame_all. Qed.
Lemma gentle_count_tagged l a i : framed gentle (count_tagged l a i).
Proof. induction l; cbn [count_tagged]; frame_all. Qed.
#[local] Hint Resolve gentle_find_tag gentle_get_tag_id gentle_count_tagged : frames.

Lemma gentle_insert_if cond bulbs : forall devices, framed gentle (insert_devices_if cond bulbs devices).
Proof. induction bulbs; intros devices; cbn [insert_devices_if]; frame_all. Qed.
Lemma gentle_all_devices bulbs : forall devices, framed gentle (all_devices bulbs devices).
Proof. induction bulbs; intros devices; cbn [all_devices]; frame_all. Qed.
#[local] Hint Resolve gentle_insert_if gentle_all_devices : frames.
Lemma gentle_sites sites : forall devices, framed gentle (devices_of_sites sites devices).
Proof. induction sites; intros devices; cbn [devices_of_sites]; frame_all. Qed.
#[local] Hint Resolve gentle_sites : frames.
Lemma gentle_targets targets : forall devices, framed gentle (targets_to_devices_from targets devices).
Proof. induction targets; intros devices; cbn [targets_to_devices_from]; frame_all. Qed.
#[local] Hint Resolve gentle_targets : frames.

Lemma gentle_enqueue p hdr pkt_type pkt : framed gentle (lgtd_lifx_gateway_enqueue_packet p hdr pkt_type pkt).
Proof. frame_all. Qed.
#[local] Hint Resolve gentle_enqueue : frames.
Lemma gentle_to_site p pkt_type pkt : framed gentle (lgtd_lifx_gateway_send_to_site p pkt_type pkt).
Proof. frame_all. Qed.
Lemma gentle_to_device a pkt_type pkt : framed gentle (lgtd_router_send_to_device a pkt_type pkt).
Proof. frame_all. Qed.
#[local] Hint Resolve gentle_to_site gentle_to_device : frames.
Lemma gentle_send_to_target pkt_type pkt target : framed gentle (send_to_target pkt_type pkt target).
Proof. frame_all. Qed.
#[local] Hint Resolve gentle_send_to_target : frames.
Lemma gentle_send targets pkt_type pkt : framed gentle (lgtd_router_send targets pkt_type pkt).
Proof. induction targets; cbn [lgtd_router_send]; frame_all. Qed.
#[local] Hint Resolve gentle_send : frames.

Lemma gentle_remove_bulb p a : framed gentle (lgtd_lifx_gateway_remove_and_close_bulb p a).
Proof. frame_all. Qed.
#[local] Hint Resolve gentle_remove_bulb : frames.
Lemma gentle_close_bulbs fuel p : framed gentle (close_bulbs fuel p).
Proof. induction fuel; cbn [close_bulbs]; frame_all. Qed.
#[local] Hint Resolve gentle_close_bulbs : frames.
Lemma gentle_gateway_close p : framed gentle (lgtd_lifx_gateway_close p).
Proof. frame_all. Qed.
Lemma gentle_gateway_get gws peer : framed gentle (gateway_get_from gws peer).
Proof. induction gws; cbn [gateway_get_from]; frame_all. Qed.
#[local] Hint Resolve gentle_gateway_close gentle_gateway_get : frames.

Lemma gentle_packet h p hdr pkt : framed gentle (packet_handle h p hdr pkt).
Proof. destruct h; cbn [packet_handle]; frame_all. Qed.
#[local] Hint Resolve gentle_packet : frames.
Lemma gentle_receive rs gw : framed gentle (lgtd_lifx_wire_handle_receive rs gw).
Proof. induction rs as [|[] rs IH]; cbn [lgtd_lifx_wire_handle_receive]; frame_all. Qed.
Lemma gentle_watchdog_bulbs now bulbs : forall b, framed gentle (watchdog_bulbs now bulbs b).
Proof. induction bulbs; intros b; cbn [watchdog_bulbs]; frame_all. Qed.
Lemma gentle_watchdog_gateways gws : forall b, framed gentle (watchdog_gateways gws b).
Proof. induction gws; intros b; cbn [watchdog_gateways]; frame_all. Qed.
#[local] Hint Resolve gentle_receive gentle_watchdog_bulbs gentle_watchdog_gateways : frames.

End World.

#[export] Hint Resolve gentle_find_tag gentle_get_tag_id gentle_targets gentle_to_site gentle_to_device gentle_send
  gentle_gateway_close gentle_receive gentle_watchdog_bulbs gentle_watchdog_gateways : frames.
