(* ===== verification/QueueSpec.v ===== *)
(** * The packet ring is a bounded queue

    [pkt_ring], its two indexes and its flag, and the bytes of [write_buf],
    refine a queue of at most 16 packets, each with its type and the bytes that
    are left to write. *)

From Stdlib Require Import ZArith Lia ZifyNat.
From stdpp Require Import base tactics list gmap.
From S2P Require Import Prelude CLib WireBits PacketInfo WireProto World Tagging GatewayQueue.
From S2P Require Import BulbTable Router Bulb Gateway.

Ltac Zify.zify_post_hook ::= Z.div_mod_to_equations.

(** ** The abstract queue *)

Record packet : Type := {
  packet_type : Z;
  packet_bytes : list Z
}.

Definition queue_push (pkt : packet) (q : list packet) : list packet :=
  if (length q <? LGTD_LIFX_GATEWAY_PACKET_RING_SIZE)%nat then q ++ [pkt] else q.

(** After [n] bytes of the first packet were written: it leaves the queue once
    it is complete. *)
Definition queue_write (n : nat) (q : list packet) : list packet :=
  match q with
  | [] => []
  | pkt :: q =>
    if (length (packet_bytes pkt) <=? n)%nat then q
    else {| packet_type := packet_type pkt; packet_bytes := drop n (packet_bytes pkt) |} :: q
  end.

Definition packet_message (pkt : packet) : lgtd_lifx_message :=
  {| msg_type := packet_type pkt; msg_size := Z.of_nat (length (packet_bytes pkt)) |}.

Record queue_repr (gw : lgtd_lifx_gateway) (q : list packet) : Prop := {
  qr_ring : length (gw_pkt_ring gw) = LGTD_LIFX_GATEWAY_PACKET_RING_SIZE;
  qr_length : (length q <= LGTD_LIFX_GATEWAY_PACKET_RING_SIZE)%nat;
  qr_tail : (gw_pkt_ring_tail gw < LGTD_LIFX_GATEWAY_PACKET_RING_SIZE)%nat;
  qr_head : gw_pkt_ring_head gw
            = ((gw_pkt_ring_tail gw + length q) mod LGTD_LIFX_GATEWAY_PACKET_RING_SIZE)%nat;
  qr_full : gw_pkt_ring_full gw = (length q =? LGTD_LIFX_GATEWAY_PACKET_RING_SIZE)%nat;
  qr_messages : forall k pkt, q !! k = Some pkt ->
    gw_pkt_ring gw !! ((gw_pkt_ring_tail gw + k) mod LGTD_LIFX_GATEWAY_PACKET_RING_SIZE)%nat
    = Some (packet_message pkt);
  qr_bytes : gw_write_buf gw = mjoin (packet_bytes <$> q);
  qr_nonempty : Forall (fun pkt => packet_bytes pkt <> []) q;
  qr_event : gw_socket_ev gw = negb (length q =? 0)%nat
}.

(** ** Lemmas *)

#[local] Arguments Nat.modulo : simpl never.

(** The fields [ring_push] assigns. *)
Lemma ring_push_fields type size gw :
  let head := LGTD_LIFX_GATEWAY_INC_MESSAGE_RING_INDEX (gw_pkt_ring_head gw) in
  let gw' := ring_push type size gw in
  gw_pkt_ring gw' = <[gw_pkt_ring_head gw := {| msg_type := type; msg_size := size |}]> (gw_pkt_ring gw)
  /\ gw_pkt_ring_head gw' = head
  /\ gw_pkt_ring_tail gw' = gw_pkt_ring_tail gw
  /\ gw_pkt_ring_full gw' = ((head =? gw_pkt_ring_tail gw)%nat || gw_pkt_ring_full gw)
  /\ gw_write_buf gw' = gw_write_buf gw
  /\ gw_socket_ev gw' = true.
Proof. unfold ring_push. simpl. by destruct (_ =? _)%nat. Qed.

Lemma queue_repr_push gw q pkt :
  queue_repr gw q -> gw_pkt_ring_full gw = false -> packet_bytes pkt <> [] ->
  queue_repr (ring_push (packet_type pkt) (Z.of_nat (length (packet_bytes pkt)))
                (set_gw_write_buf (gw_write_buf gw ++ packet_bytes pkt) gw))
    (queue_push pkt q).
Proof.
  intros [Hr Hl Ht Hh Hf Hm Hb Hn He] Hfull Hp.
  rewrite Hfull in Hf. symmetry in Hf. apply Nat.eqb_neq in Hf.
  unfold queue_push, LGTD_LIFX_GATEWAY_PACKET_RING_SIZE in *.
  rewrite (proj2 (Nat.ltb_lt _ _)) by lia.
  destruct (ring_push_fields (packet_type pkt) (Z.of_nat (length (packet_bytes pkt)))
    (set_gw_write_buf (gw_write_buf gw ++ packet_bytes pkt) gw)) as (Er & Eh & Et & Ef & Eb & Ee).
  unfold LGTD_LIFX_GATEWAY_INC_MESSAGE_RING_INDEX, LGTD_LIFX_GATEWAY_PACKET_RING_SIZE in *.
  fields_in Er. fields_in Eh. fields_in Et. fields_in Ef. fields_in Eb.
  constructor; rewrite ?Er, ?Eh, ?Et, ?Ef, ?Eb, ?Ee, ?length_insert, ?length_app;
    unfold LGTD_LIFX_GATEWAY_PACKET_RING_SIZE; cbn [length].
  - done.
  - lia.
  - lia.
  - lia.
  - rewrite Hfull, orb_false_r. do 2 case Nat.eqb_spec; intros; lia.
  - intros k pkt' [[Hlt Hk]|[Hk <-]]%lookup_snoc_Some.
    + rewrite list_lookup_insert_ne by lia. by apply Hm.
    + rewrite Hk, Hh, list_lookup_insert_eq by lia. done.
  - rewrite fmap_app, join_app, Hb. simpl. by rewrite app_nil_r.
  - apply Forall_app. split; [done|by constructor].
  - by rewrite Nat.add_1_r.
Qed.

(** The fields [ring_pop] assigns when the first message is [m]. *)
Lemma ring_pop_fields nbytes gw m :
  let done := msg_size m - nbytes =? 0 in
  let gw' := ring_pop nbytes gw in
  gw_pkt_ring gw !! gw_pkt_ring_tail gw = Some m ->
  gw_pkt_ring gw' = <[gw_pkt_ring_tail gw :=
    {| msg_type := if done then 0 else msg_type m; msg_size := msg_size m - nbytes |}]> (gw_pkt_ring gw)
  /\ gw_pkt_ring_head gw' = gw_pkt_ring_head gw
  /\ gw_pkt_ring_tail gw' = (if done then LGTD_LIFX_GATEWAY_INC_MESSAGE_RING_INDEX (gw_pkt_ring_tail gw)
                             else gw_pkt_ring_tail gw)
  /\ gw_pkt_ring_full gw' = negb done && gw_pkt_ring_full gw
  /\ gw_write_buf gw' = gw_write_buf gw
  /\ gw_socket_ev gw' = gw_socket_ev gw.
Proof.
  intros done gw' Hm. subst gw'. unfold ring_pop. fields.
  rewrite list_lookup_alter_eq, Hm. cbn [fmap option_fmap option_map set_msg_size msg_size].
  assert (Ha : forall f : lgtd_lifx_message -> lgtd_lifx_message,
    alter f (gw_pkt_ring_tail gw) (gw_pkt_ring gw) = <[gw_pkt_ring_tail gw := f m]> (gw_pkt_ring gw))
    by (intros f; by apply alter_as_insert).
  subst done. destruct (_ =? 0) eqn:Hz; [|rewrite Ha; by fields].
  destruct (_ =? packet_type_value _); fields; split_and!; try done;
    rewrite list_alter_alter_eq, Ha; unfold compose; simpl; by rewrite (proj1 (Z.eqb_eq _ _) Hz).
Qed.

Lemma queue_bytes_nil q :
  Forall (fun pkt => packet_bytes pkt <> []) q -> mjoin (packet_bytes <$> q) = [] <-> q = [].
Proof.
  destruct 1 as [|pkt q Hp _]; [done|]. split; [|done].
  intros [? _]%app_eq_nil. done.
Qed.

(** The event is removed with the last packet. *)
Definition stop_event_if_empty (gw : lgtd_lifx_gateway) : lgtd_lifx_gateway :=
  if bool_decide (gw_write_buf gw = []) then set_gw_socket_ev false gw else gw.

Lemma stop_event_fields gw :
  let gw' := stop_event_if_empty gw in
  gw_pkt_ring gw' = gw_pkt_ring gw /\ gw_pkt_ring_head gw' = gw_pkt_ring_head gw
  /\ gw_pkt_ring_tail gw' = gw_pkt_ring_tail gw /\ gw_pkt_ring_full gw' = gw_pkt_ring_full gw
  /\ gw_write_buf gw' = gw_write_buf gw
  /\ gw_socket_ev gw' = negb (bool_decide (gw_write_buf gw = [])) && gw_socket_ev gw.
Proof. unfold stop_event_if_empty. case_bool_decide; by fields. Qed.

(** Writing [n] bytes of the first packet. *)
Lemma queue_repr_write gw q pkt n :
  queue_repr gw (pkt :: q) ->
  (n <= length (packet_bytes pkt))%nat ->
  queue_repr
    (stop_event_if_empty (ring_pop (Z.of_nat n) (set_gw_write_buf (drop n (gw_write_buf gw)) gw)))
    (queue_write n (pkt :: q)).
Proof.
  intros [Hr Hl Ht Hh Hf Hm Hb Hn He] Hle.
  unfold LGTD_LIFX_GATEWAY_PACKET_RING_SIZE in *. cbn [length] in *.
  pose proof (Hm 0%nat pkt eq_refl) as Hm0. rewrite Nat.add_0_r, Nat.mod_small in Hm0 by done.
  set (gw1 := ring_pop (Z.of_nat n) (set_gw_write_buf (drop n (gw_write_buf gw)) gw)).
  destruct (ring_pop_fields (Z.of_nat n) (set_gw_write_buf (drop n (gw_write_buf gw)) gw)
    (packet_message pkt) Hm0) as (Er & Eh & Et & Ef & Eb & Ee).
  fold gw1 in Er, Eh, Et, Ef, Eb, Ee.
  fields_in Er. fields_in Eh. fields_in Et. fields_in Ef. fields_in Eb. fields_in Ee.
  destruct (stop_event_fields gw1) as (Sr & Sh & St & Sf & Sb & Se).
  set (gw2 := stop_event_if_empty gw1) in *. clearbody gw1 gw2.
  rewrite Er in Sr. rewrite Eh in Sh. rewrite Et in St. rewrite Ef in Sf. rewrite Eb in Sb.
  rewrite Ee, Eb, He in Se. clear Er Eh Et Ef Eb Ee gw1.
  apply Forall_cons in Hn as [Hp Hn].
  assert (Hbuf : drop n (gw_write_buf gw) = drop n (packet_bytes pkt) ++ mjoin (packet_bytes <$> q)).
  { rewrite Hb. cbn [fmap list_fmap mjoin list_join]. by rewrite drop_app_le. }
  rewrite Hbuf in Sb, Se. cbn [packet_message msg_size] in *.
  unfold LGTD_LIFX_GATEWAY_INC_MESSAGE_RING_INDEX, LGTD_LIFX_GATEWAY_PACKET_RING_SIZE in *.
  unfold queue_write. destruct (Nat.leb_spec (length (packet_bytes pkt)) n) as [Hd|Hd].
  - assert (n = length (packet_bytes pkt)) as -> by lia. rewrite Z.sub_diag in *. cbn [Z.eqb negb andb] in *.
    rewrite drop_all in Sb, Se. cbn [app] in *.
    constructor; rewrite ?Sr, ?Sh, ?St, ?Sf, ?Sb, ?Se, ?length_insert;
      unfold LGTD_LIFX_GATEWAY_PACKET_RING_SIZE; try done; try lia.
    + symmetry. apply Nat.eqb_neq. lia.
    + intros k pkt' Hk. pose proof (lookup_lt_Some _ _ _ Hk).
      rewrite list_lookup_insert_ne by lia. rewrite <- (Hm (S k) pkt' Hk). f_equal. lia.
    + rewrite andb_true_r. rewrite (bool_decide_ext _ _ (queue_bytes_nil q Hn)). by destruct q.
  - replace (Z.of_nat (length (packet_bytes pkt)) - Z.of_nat n =? 0) with false in *
      by (symmetry; apply Z.eqb_neq; lia).
    cbn [negb andb] in *.
    assert (Hne : drop n (packet_bytes pkt) <> []).
    { intros Hz. apply (f_equal length) in Hz. rewrite length_drop in Hz. simpl in Hz. lia. }
    constructor; rewrite ?Sr, ?Sh, ?St, ?Sf, ?Sb, ?Se, ?length_insert;
      unfold LGTD_LIFX_GATEWAY_PACKET_RING_SIZE; cbn [length]; try done; try lia.
    + intros [|k] pkt' Hk.
      * injection Hk as <-. rewrite Nat.add_0_r, Nat.mod_small by done.
        rewrite list_lookup_insert_eq by lia. unfold packet_message. simpl.
        rewrite length_drop. f_equal. f_equal. lia.
      * pose proof (lookup_lt_Some _ _ _ Hk) as Hlt. simpl in Hlt.
        rewrite list_lookup_insert_ne by lia. by apply Hm.
    + by constructor.
    + case_bool_decide as Hz; [|done]. by apply app_eq_nil in Hz as [? _].
Qed.

(** ** Sending a packet *)

(** The bytes of the payload that are sent. *)
Definition payload_bytes (info : lgtd_lifx_packet_info) (pkt : option (list Z)) : list Z :=
  match pkt with
  | Some payload => take (Z.to_nat (pi_size info)) payload
  | None => []
  end.

(** A caller gives the payload its packet type needs. *)
Definition payload_ok (info : lgtd_lifx_packet_info) (pkt : option (list Z)) : Prop :=
  match pkt with
  | Some payload => pi_size info <= Z.of_nat (length payload)
  | None => pi_size info = 0
  end.

(** The packet as the protocol defines it. *)
Definition wire_packet (client_id : Z) (info : lgtd_lifx_packet_info) (tagged : bool)
    (tgt site payload : list Z) : packet :=
  let type := packet_type_value (pi_type info) in
  {| packet_type := type;
     packet_bytes := wire_header (pi_size info + 36) client_id tagged tgt site type ++ payload |}.

(** What sending leaves as it is in a gateway. *)
Record queue_frame (gw gw' : lgtd_lifx_gateway) : Prop := {
  qf_bulbs : gw_bulbs gw' = gw_bulbs gw;
  qf_peer : gw_peer gw' = gw_peer gw;
  qf_site : gw_site gw' = gw_site gw;
  qf_tag_ids : gw_tag_ids gw' = gw_tag_ids gw;
  qf_tags : gw_tags gw' = gw_tags gw;
  qf_tag_refcounts : gw_tag_refcounts gw' = gw_tag_refcounts gw;
  qf_socket : gw_socket gw' = gw_socket gw;
  qf_last_pkt_at : gw_last_pkt_at gw' = gw_last_pkt_at gw;
  qf_refresh_timer : gw_refresh_timer gw' = gw_refresh_timer gw
}.

Lemma queue_frame_refl gw : queue_frame gw gw.
Proof. by constructor. Qed.
Lemma queue_frame_trans gw1 gw2 gw3 : queue_frame gw1 gw2 -> queue_frame gw2 gw3 -> queue_frame gw1 gw3.
Proof. intros [] []. constructor; congruence. Qed.
#[export] Instance queue_frame_preorder : PreOrder queue_frame.
Proof. split; [exact queue_frame_refl|exact queue_frame_trans]. Qed.

Lemma queue_frame_ring_push type size buf gw :
  queue_frame gw (ring_push type size (set_gw_write_buf buf gw)).
Proof. unfold ring_push. fields. by destruct (_ =? _)%nat; constructor. Qed.

Section Send.
Context {E : Endianness}.

Lemma length_wire_header size source tagged tgt site ptype :
  length tgt = 8%nat -> length site = 6%nat ->
  length (wire_header size source tagged tgt site ptype) = 36%nat.
Proof.
  intros Ht Hs. unfold wire_header. rewrite !length_app, !length_le_bytes, Ht, Hs. done.
Qed.

(** [enqueue_packet] with the checks its callers satisfy. *)
Lemma enqueue_packet_ret w p gw hdr info pkt :
  w_gateways w !! p = Some gw -> hdr_site hdr = gw_site gw ->
  (gw_pkt_ring_head gw < LGTD_LIFX_GATEWAY_PACKET_RING_SIZE)%nat ->
  (is_Some pkt -> hdr_size (lgtd_lifx_wire_decode_header hdr) = pi_size info + 36) ->
  lgtd_lifx_gateway_enqueue_packet p hdr info pkt w
  = Ret tt (if gw_pkt_ring_full gw then w else
      gw_put p (ring_push (packet_type_value (pi_type info)) (36 + pi_size info)
                  (set_gw_write_buf (gw_write_buf gw ++ header_bytes hdr ++ payload_bytes info pkt) gw)) w).
Proof.
  intros Hp Hsite Hhead Hsize. unfold lgtd_lifx_gateway_enqueue_packet, mbind, M_bind.
  rewrite (get_gw_ret _ _ _ Hp), Hsite. unfold memcmp_eq.
  rewrite bool_decide_eq_true_2 by done. cbn [massert mret M_ret].
  rewrite (proj2 (Nat.ltb_lt _ _) Hhead). cbn [massert mret M_ret].
  destruct (gw_pkt_ring_full gw); [done|].
  rewrite (upd_gw_ret _ _ _ _ Hp). unfold payload_bytes. destruct pkt as [payload|].
  - rewrite Hsize by done. replace (_ =? _) with true by (symmetry; apply Z.eqb_eq; unfold LGTD_LIFX_PACKET_HEADER_SIZE; lia).
    cbn [massert mret M_ret].
    rewrite (upd_gw_ret _ _ _ _ (gw_put_lookup _ _ _)), gw_put_put.
    rewrite (upd_gw_ret _ _ _ _ (gw_put_lookup _ _ _)), gw_put_put.
    fields. rewrite <- app_assoc. done.
  - cbn [mret M_ret]. rewrite (upd_gw_ret _ _ _ _ (gw_put_lookup _ _ _)), gw_put_put.
    by rewrite app_nil_r.
Qed.

(** Setting a header up and enqueueing the packet, the pattern of every send:
    nothing else changes than the queue, which gets the packet of the protocol
    unless it is full. *)
Lemma wp_send {A} w p gw q target_type target tgt ptype info pkt (K : M world A)
    (Q : A -> world -> Prop) :
  w_client_id w <> 0 ->
  w_gateways w !! p = Some gw -> queue_repr gw q -> length (gw_site gw) = 6%nat ->
  lgtd_lifx_wire_get_packet_info (packet_type_value ptype) = Some info ->
  wire_target target_type target = Some tgt -> length tgt = 8%nat -> payload_ok info pkt ->
  (forall gw', queue_frame gw gw' ->
     gw_pending_refresh_req gw' = gw_pending_refresh_req gw ->
     queue_repr gw' (queue_push (wire_packet (w_client_id w) info (target_is_tagged target_type) tgt
                                   (gw_site gw) (payload_bytes info pkt)) q) ->
     wp K Q (gw_put p gw' w)) ->
  wp ('(hdr, pkt_info) ← lgtd_lifx_wire_setup_header (w_client_id w) target_type target
        (Some (gw_site gw)) ptype;
      lgtd_lifx_gateway_enqueue_packet p hdr pkt_info pkt ;; K) Q w.
Proof.
  intros Hid Hp Hq Hsite Hinfo Htgt Htl Hpkt HK.
  destruct (setup_header_spec w (w_client_id w) target_type target tgt (Some (gw_site gw)) ptype info)
    as (h & Hh & Hb & Hhs & Hsz); [done|done|by left; eexists|done|].
  destruct (get_packet_info_type _ _ Hinfo) as [Hty Hin].
  pose proof (packet_table_sizes _ Hin) as Hps.
  apply wp_bind. unfold wp at 1. rewrite Hh. apply wp_bind. unfold wp at 1.
  assert (Hhd : (gw_pkt_ring_head gw < LGTD_LIFX_GATEWAY_PACKET_RING_SIZE)%nat).
  { rewrite (qr_head _ _ Hq). apply Nat.mod_upper_bound. done. }
  rewrite (enqueue_packet_ret w p gw h info pkt Hp Hhs Hhd).
  2:{ intros _. rewrite Hsz. apply Z.mod_small. lia. }
  destruct (gw_pkt_ring_full gw) eqn:Hfull.
  - specialize (HK gw (queue_frame_refl gw) eq_refl).
    replace (gw_put p gw w) with w in HK by (unfold gw_put; rewrite insert_id by done; by destruct w).
    apply HK. pose proof (qr_full _ _ Hq) as Hf. rewrite Hfull in Hf. symmetry in Hf. apply Nat.eqb_eq in Hf.
    unfold queue_push. by rewrite Hf, Nat.ltb_irrefl.
  - apply HK.
    + apply queue_frame_ring_push.
    + unfold ring_push. fields. by destruct (_ =? _)%nat.
    + set (pk := wire_packet _ _ _ _ _ _).
      assert (Hlen : 36 + pi_size info = Z.of_nat (length (packet_bytes pk))).
      { unfold pk, wire_packet. cbn [packet_bytes]. rewrite length_app, length_wire_header by done.
        unfold payload_bytes. destruct pkt; simpl in Hpkt; [rewrite length_take|simpl]; lia. }
      rewrite Hlen, Hb, <- Hty. apply (queue_repr_push gw q pk Hq Hfull).
      intros Hnil. rewrite Hnil in Hlen. simpl in Hlen. lia.
Qed.

End Send.
