(* ===== verification/TagsInv.v ===== *)
(** * The tag structures are consistent

    A tag points to the gateways that know it and a gateway points to its tags.
    The invariant says that the two directions agree, that a gateway uses one id
    per tag and that no two tags have the same label; [incref] and [decref] keep
    it together with the assignment their callers make to [gw->tags]. *)

From Stdlib Require Import ZArith Lia.
From stdpp Require Import base tactics list gmap.
From S2P Require Import Prelude CLib WireProto World Tagging.

Definition mk_site (p : gw_ptr) (i : nat) : lgtd_lifx_site :=
  {| site_tag_id := Z.of_nat i; site_gw := p |}.

(** [cell G p i]: the tag in cell [i] of the tags of gateway [p]. *)
Definition cell (G : gmap gw_ptr lgtd_lifx_gateway) (p : gw_ptr) (i : nat) : option tag_ptr :=
  gw ← G !! p; mjoin (gw_tags gw !! i).

Record tags_inv (G : gmap gw_ptr lgtd_lifx_gateway) (tags : gmap tag_ptr lgtd_lifx_tag)
    (tl : list tag_ptr) : Prop := {
  ti_nodup : NoDup tl;
  ti_list : forall t, t ∈ tl <-> is_Some (tags !! t);
  ti_label : forall t tag, tags !! t = Some tag ->
    (length (cstr (tag_label tag)) < LGTD_LIFX_LABEL_SIZE)%nat;
  ti_labels : forall t t' tag tag', tags !! t = Some tag -> tags !! t' = Some tag' ->
    cstr (tag_label tag) = cstr (tag_label tag') -> t = t';
  ti_sites_nodup : forall t tag, tags !! t = Some tag -> NoDup (site_gw <$> tag_sites tag);
  ti_sites : forall t tag s, tags !! t = Some tag -> s ∈ tag_sites tag ->
    exists i, (i < 64)%nat /\ s = mk_site (site_gw s) i /\ cell G (site_gw s) i = Some t;
  ti_cells : forall p i t, cell G p i = Some t ->
    (i < 64)%nat /\ exists tag, tags !! t = Some tag /\ mk_site p i ∈ tag_sites tag
}.

(** ** Lookups *)

Lemma find_site_Some sites p s :
  lgtd_lifx_tagging_find_site sites p = Some s -> s ∈ sites /\ site_gw s = p.
Proof.
  induction sites as [|s' sites IH]; simpl; [done|]. case_bool_decide as Hp.
  - intros [= ->]. split; [by left|done].
  - intros Hs. destruct (IH Hs). split; [by right|done].
Qed.

Lemma find_site_None sites p :
  lgtd_lifx_tagging_find_site sites p = None -> forall s, s ∈ sites -> site_gw s <> p.
Proof.
  induction sites as [|s' sites IH]; simpl; [by intros _ s ?%elem_of_nil|].
  case_bool_decide as Hp; [done|]. intros Hn s [->|Hs]%elem_of_cons; [done|]. by apply IH.
Qed.

Lemma find_site_elem sites s :
  NoDup (site_gw <$> sites) -> s ∈ sites -> lgtd_lifx_tagging_find_site sites (site_gw s) = Some s.
Proof.
  induction sites as [|s' sites IH]; simpl; [by intros _ ?%elem_of_nil|].
  intros [Hni Hnd]%NoDup_cons [->|Hs]%elem_of_cons; [by rewrite bool_decide_eq_true_2|].
  rewrite bool_decide_eq_false_2; [by apply IH|].
  intros Heq. destruct Hni. rewrite Heq. by apply list_elem_of_fmap_2.
Qed.

(** [find_tag] reads the list only, and finds the tag with the label. *)
Lemma find_tag_from_ret w l label :
  (forall t, t ∈ l -> is_Some (w_tags w !! t)) ->
  exists r, find_tag_from l label w = Ret r w
    /\ match r with
       | Some t => t ∈ l /\ exists tag, w_tags w !! t = Some tag /\ cstr (tag_label tag) = cstr label
       | None => forall t tag, t ∈ l -> w_tags w !! t = Some tag -> cstr (tag_label tag) <> cstr label
       end.
Proof.
  induction l as [|t l IH]; intros Hl; cbn [find_tag_from].
  - exists None. split; [done|]. by intros t tag ?%elem_of_nil.
  - destruct (Hl t ltac:(by left)) as [tag Ht].
    unfold mbind, M_bind. rewrite (get_tag_ret _ _ _ Ht). unfold strcmp_eq.
    case_bool_decide as Hc.
    + exists (Some t). split; [done|]. split; [by left|]. by exists tag.
    + destruct IH as (r & Hr & Hres); [intros; apply Hl; by right|].
      exists r. split; [done|]. destruct r as [t'|].
      * destruct Hres as [? ?]. split; [by right|done].
      * intros t' tag' [->|Hin]%elem_of_cons Ht'; [by simplify_eq|]. by eapply Hres.
Qed.

Lemma find_tag_ret w G label :
  tags_inv G (w_tags w) (w_tag_list w) ->
  exists r, lgtd_lifx_tagging_find_tag label w = Ret r w
    /\ match r with
       | Some t => exists tag, w_tags w !! t = Some tag /\ cstr (tag_label tag) = cstr label
       | None => forall t tag, w_tags w !! t = Some tag -> cstr (tag_label tag) <> cstr label
       end.
Proof.
  intros Hinv. destruct (find_tag_from_ret w (w_tag_list w) label) as (r & Hr & Hres).
  { intros t Ht. by apply (ti_list _ _ _ Hinv). }
  exists r. split; [done|]. destruct r as [t|]; [by destruct Hres|].
  intros t tag Ht. eapply Hres; [|done]. apply (ti_list _ _ _ Hinv). by eexists.
Qed.

(** ** Changes of one cell *)

Definition set_cell (p : gw_ptr) (i : nat) (v : option tag_ptr) (gw : lgtd_lifx_gateway)
    (G : gmap gw_ptr lgtd_lifx_gateway) : gmap gw_ptr lgtd_lifx_gateway :=
  <[p := set_gw_tags (<[i := v]> (gw_tags gw)) gw]> G.

Lemma cell_set_cell G p gw i v q j :
  G !! p = Some gw -> (i < length (gw_tags gw))%nat ->
  cell (set_cell p i v gw G) q j = if bool_decide (q = p /\ j = i) then v else cell G q j.
Proof.
  intros Hp Hi. unfold cell, set_cell. rewrite lookup_insert.
  case_bool_decide as Hd.
  - destruct Hd as [-> ->]. rewrite decide_True by done. simpl.
    by rewrite list_lookup_insert_eq.
  - case_decide as Hq; [|done]. subst q. simpl. rewrite Hp. simpl.
    rewrite list_lookup_insert_ne by naive_solver. done.
Qed.

(** The invariant only reads the cells. *)
Lemma tags_inv_cells G G' tags tl :
  (forall p i, cell G p i = cell G' p i) -> tags_inv G tags tl -> tags_inv G' tags tl.
Proof.
  intros HG [? ? ? ? ? Hs Hc]. constructor; try done.
  - intros t tag s Ht Hin. destruct (Hs t tag s Ht Hin) as (i & ? & ? & ?). exists i. by rewrite <- HG.
  - intros p i t. rewrite <- HG. apply Hc.
Qed.

(** ** The operations *)

Definition tags_put (tags : gmap tag_ptr lgtd_lifx_tag) (tl : list tag_ptr) (w : world) : world :=
  set_w_tag_list tl (set_w_tags tags w).

(** A tag without gateways can be added and removed. *)
Lemma tags_inv_new G tags tl t label :
  tags_inv G tags tl -> tags !! t = None ->
  (length (cstr label) < LGTD_LIFX_LABEL_SIZE)%nat ->
  (forall t' tag, tags !! t' = Some tag -> cstr (tag_label tag) <> cstr label) ->
  tags_inv G (<[t := {| tag_label := label; tag_sites := [] |}]> tags) (t :: tl).
Proof.
  intros [Hnd Hl Hlab Hlabs Hsn Hs Hc] Ht Hlen Hnew. constructor.
  - apply NoDup_cons. split; [|done]. rewrite Hl, Ht. by intros [? ?].
  - intros t'. rewrite elem_of_cons, lookup_insert. case_decide; [naive_solver|]. rewrite Hl. naive_solver.
  - intros t' tag. rewrite lookup_insert. case_decide; [by intros [= <-]|]. apply Hlab.
  - intros t1 t2 tag1 tag2. rewrite !lookup_insert. do 2 case_decide; simplify_eq; try done.
    + intros [= <-] H2. simpl. intros Heq. by destruct (Hnew _ _ H2).
    + intros H1 [= <-]. simpl. intros Heq. by destruct (Hnew _ _ H1).
    + apply Hlabs.
  - intros t' tag. rewrite lookup_insert. case_decide; [intros [= <-]; constructor|]. apply Hsn.
  - intros t' tag s. rewrite lookup_insert. case_decide; [intros [= <-] []%elem_of_nil|]. apply Hs.
  - intros p i t' Hcell. destruct (Hc p i t' Hcell) as (? & tag & Ht' & ?). split; [done|].
    exists tag. rewrite lookup_insert_ne by congruence. done.
Qed.

Lemma tags_inv_delete G tags tl t tag :
  tags_inv G tags tl -> tags !! t = Some tag -> tag_sites tag = [] ->
  tags_inv G (delete t tags) (filter (fun x => x <> t) tl).
Proof.
  intros [Hnd Hl Hlab Hlabs Hsn Hs Hc] Ht Hnil. constructor.
  - by apply NoDup_filter.
  - intros t'. rewrite list_elem_of_filter, Hl, lookup_delete. case_decide; [|naive_solver].
    subst. split; [naive_solver|]. by intros [? ?].
  - intros t' tag' [_ H']%lookup_delete_Some. by eapply Hlab.
  - intros t1 t2 tag1 tag2 [_ H1]%lookup_delete_Some [_ H2]%lookup_delete_Some. by eapply Hlabs.
  - intros t' tag' [_ H']%lookup_delete_Some. by eapply Hsn.
  - intros t' tag' s [_ H']%lookup_delete_Some. by eapply Hs.
  - intros p i t' Hcell. destruct (Hc p i t' Hcell) as (? & tag' & Ht' & Hin). split; [done|].
    exists tag'. rewrite lookup_delete_ne; [done|]. intros <-. simplify_eq. rewrite Hnil in Hin.
    by apply elem_of_nil in Hin.
Qed.

(** Linking a tag and a gateway that does not have it yet. *)
Lemma tags_inv_link G tags tl t tag p gw i :
  tags_inv G tags tl -> tags !! t = Some tag -> G !! p = Some gw ->
  (i < 64)%nat -> length (gw_tags gw) = 64%nat -> cell G p i = None ->
  (forall s, s ∈ tag_sites tag -> site_gw s <> p) ->
  tags_inv (set_cell p i (Some t) gw G)
    (<[t := set_tag_sites (mk_site p i :: tag_sites tag) tag]> tags) tl.
Proof.
  intros [Hnd Hl Hlab Hlabs Hsn Hs Hc] Ht Hp Hi Hlen Hcell Hns.
  assert (HG := fun q j => cell_set_cell G p gw i (Some t) q j Hp ltac:(lia)).
  constructor.
  - done.
  - intros t'. rewrite lookup_insert, Hl. case_decide; [|done]. subst. rewrite Ht. naive_solver.
  - intros t' tag'. rewrite lookup_insert. case_decide; [|apply Hlab]. subst. intros [= <-]. fields. by eapply Hlab.
  - intros t1 t2 tag1 tag2. rewrite !lookup_insert.
    do 2 case_decide; simplify_eq; try done.
    + intros [= <-] H2. fields. by apply Hlabs.
    + intros H1 [= <-]. fields. by apply Hlabs.
    + apply Hlabs.
  - intros t' tag'. rewrite lookup_insert. case_decide; [|apply Hsn]. subst. intros [= <-]. fields.
    cbn [fmap list_fmap]. apply NoDup_cons. split; [|by eapply Hsn].
    intros (s & Heq & Hin)%list_elem_of_fmap. by apply (Hns s Hin).
  - intros t' tag' s. rewrite lookup_insert. case_decide as Hd.
    + subst t'. intros [= <-]. fields. intros [->|Hin]%elem_of_cons.
      * exists i. simpl. split; [done|]. split; [done|]. rewrite HG. by rewrite bool_decide_eq_true_2.
      * destruct (Hs t tag s Ht Hin) as (j & ? & ? & ?). exists j. rewrite HG.
        rewrite bool_decide_eq_false_2; [done|]. intros [? _]. by apply (Hns s Hin).
    + intros H' Hin. destruct (Hs t' tag' s H' Hin) as (j & ? & ? & ?). exists j. rewrite HG.
      rewrite bool_decide_eq_false_2; [done|]. intros [Hq ->]. congruence.
  - intros q j t'. rewrite HG. case_bool_decide as Hd.
    + destruct Hd as [-> ->]. intros [= ->]. split; [done|]. eexists. rewrite lookup_insert_eq.
      split; [done|]. fields. by left.
    + intros Hq. destruct (Hc q j t' Hq) as (? & tag' & Ht' & Hin). split; [done|].
      rewrite lookup_insert. case_decide; [|by exists tag']. simplify_eq. eexists. split; [done|].
      fields. by right.
Qed.

(** Unlinking them. *)
Lemma tags_inv_unlink G tags tl t tag p gw i :
  tags_inv G tags tl -> tags !! t = Some tag -> G !! p = Some gw ->
  (i < length (gw_tags gw))%nat -> cell G p i = Some t ->
  tags_inv (set_cell p i None gw G)
    (<[t := set_tag_sites (filter (fun s => s <> mk_site p i) (tag_sites tag)) tag]> tags) tl.
Proof.
  intros [Hnd Hl Hlab Hlabs Hsn Hs Hc] Ht Hp Hi Hcell.
  assert (HG := fun q j => cell_set_cell G p gw i None q j Hp Hi).
  constructor.
  - done.
  - intros t'. rewrite lookup_insert, Hl. case_decide; [|done]. subst. rewrite Ht. naive_solver.
  - intros t' tag'. rewrite lookup_insert. case_decide; [|apply Hlab]. subst. intros [= <-]. fields. by eapply Hlab.
  - intros t1 t2 tag1 tag2. rewrite !lookup_insert.
    do 2 case_decide; simplify_eq; try done.
    + intros [= <-] H2. fields. by apply Hlabs.
    + intros H1 [= <-]. fields. by apply Hlabs.
    + apply Hlabs.
  - intros t' tag'. rewrite lookup_insert. case_decide; [|apply Hsn]. subst. intros [= <-]. fields.
    eapply sublist_NoDup; [by eapply Hsn|]. apply fmap_sublist, sublist_filter.
  - intros t' tag' s Ht' Hin.
    assert (Hold : exists tag'', tags !! t' = Some tag'' /\ s ∈ tag_sites tag''
                     /\ (t' = t -> s <> mk_site p i)).
    { rewrite lookup_insert in Ht'. case_decide as Hd; [|by exists tag'].
      subst t'. injection Ht' as <-. fields_in Hin. apply list_elem_of_filter in Hin as [? ?].
      by exists tag. }
    destruct Hold as (tag'' & H'' & Hin'' & Hne).
    destruct (Hs t' tag'' s H'' Hin'') as (j & ? & Heq & Hj). exists j. rewrite HG.
    rewrite bool_decide_eq_false_2; [done|]. intros [Hgw ->]. rewrite Hgw in Heq, Hj.
    apply Hne; [congruence|done].
  - intros q j t'. rewrite HG. case_bool_decide as Hd; [done|]. intros Hq.
    destruct (Hc q j t' Hq) as (? & tag' & Ht' & Hin). split; [done|].
    rewrite lookup_insert. case_decide; [|by exists tag']. simplify_eq. eexists. split; [done|].
    fields. apply list_elem_of_filter. split; [|done]. unfold mk_site. intros [= ? ?]. naive_solver lia.
Qed.

(** [deallocate_tag] on a tag without gateways. *)
Lemma deallocate_tag_ret w t tag :
  w_tags w !! t = Some tag -> tag_sites tag = [] ->
  lgtd_lifx_tagging_deallocate_tag t w
  = Ret tt (tags_put (delete t (w_tags w)) (filter (fun x => x <> t) (w_tag_list w)) w).
Proof.
  intros Ht Hs. unfold lgtd_lifx_tagging_deallocate_tag, mbind, M_bind.
  rewrite (get_tag_ret _ _ _ Ht), Hs. done.
Qed.

(** [decref] of the tag in a cell keeps the invariant of the state where the
    cell is cleared. *)
Lemma wp_decref G p gw i t w (Q : unit -> world -> Prop) :
  tags_inv G (w_tags w) (w_tag_list w) -> G !! p = Some gw ->
  (i < length (gw_tags gw))%nat -> cell G p i = Some t ->
  (forall tags' tl', tags_inv (set_cell p i None gw G) tags' tl' -> Q tt (tags_put tags' tl' w)) ->
  wp (lgtd_lifx_tagging_decref t p) Q w.
Proof.
  intros Hinv Hp Hi Hcell HQ.
  destruct (ti_cells _ _ _ Hinv _ _ _ Hcell) as (_ & tag & Ht & Hin).
  assert (Hfind : lgtd_lifx_tagging_find_site (tag_sites tag) p = Some (mk_site p i))
    by (apply (find_site_elem _ (mk_site p i)); [by eapply (ti_sites_nodup _ _ _ Hinv)|done]).
  pose proof (tags_inv_unlink G _ _ t tag p gw i Hinv Ht Hp Hi Hcell) as Hinv'.
  unfold lgtd_lifx_tagging_decref. apply wp_bind. eapply wp_get_tag; [done|]. cbv beta.
  rewrite Hfind. apply wp_bind. eapply wp_upd_tag; [done|]. cbv beta.
  set (w' := tag_put _ _ _).
  assert (Ht' : w_tags w' !! t = Some (set_tag_sites (filter (fun s => s <> mk_site p i) (tag_sites tag)) tag))
    by (unfold w', tag_put; fields; apply lookup_insert_eq).
  apply wp_bind. eapply wp_get_tag; [done|]. cbv beta. fields.
  apply wp_when.
  - intros Hnil%bool_decide_eq_true. unfold wp.
    rewrite (deallocate_tag_ret _ _ _ Ht') by (fields; done).
    apply HQ. unfold w', tag_put. fields. eapply tags_inv_delete; [done|apply lookup_insert_eq|done].
  - intros _. specialize (HQ _ _ Hinv'). unfold tags_put in HQ. unfold w', tag_put.
    destruct w; exact HQ.
Qed.

(** The second half of [incref], on a tag the gateway does not have. *)
Lemma wp_incref_site G p gw i t tag (dealloc : bool) w (Q : option tag_ptr -> world -> Prop) :
  tags_inv G (w_tags w) (w_tag_list w) -> w_tags w !! t = Some tag -> G !! p = Some gw ->
  length (gw_tags gw) = 64%nat -> (i < 64)%nat -> cell G p i = None ->
  (forall s, s ∈ tag_sites tag -> site_gw s <> p) ->
  (dealloc = true -> tag_sites tag = []) ->
  (forall tags' tl' rs, spends (w_os_results w) rs True -> tags_inv G tags' tl' ->
     tags' = (if dealloc then delete t (w_tags w) else w_tags w) ->
     Q None (tags_put tags' tl' (set_w_os_results rs w))) ->
  (forall tags' tl' rs tag', spends (w_os_results w) rs False -> tags_inv (set_cell p i (Some t) gw G) tags' tl' ->
     tags' = <[t := tag']> (w_tags w) -> tag_label tag' = tag_label tag ->
     Q (Some t) (tags_put tags' tl' (set_w_os_results rs w))) ->
  wp (incref_site t dealloc p (Z.of_nat i)) Q w.
Proof.
  intros Hinv Ht Hp Hlen Hi Hcell Hns Hd HNone HSome. unfold incref_site.
  apply wp_bind. eapply wp_get_tag; [done|]. cbv beta.
  destruct (lgtd_lifx_tagging_find_site (tag_sites tag) p) as [s|] eqn:Hf.
  { apply find_site_Some in Hf as [Hin Heq]. by destruct (Hns s Hin). }
  apply wp_bind, wp_os_call_results. intros ok rs Hrs. destruct ok; cbn [negb].
  - apply wp_bind. eapply wp_upd_tag; [by fields|]. cbv beta.
    apply wp_bind. apply wp_assert; [apply Z.eqb_refl|]. apply wp_ret.
    specialize (HSome _ _ rs (set_tag_sites (mk_site p i :: tag_sites tag) tag) (spends_imp _ _ _ _ (False_ind _) Hrs)
      (tags_inv_link G _ _ t tag p gw i Hinv Ht Hp Hi Hlen Hcell Hns)
      eq_refl eq_refl).
    unfold tags_put in HSome. unfold tag_put. destruct w; exact HSome.
  - apply wp_bind. apply wp_when.
    + intros ->. unfold wp. rewrite (deallocate_tag_ret _ t tag) by (fields; auto).
      apply wp_ret. fields. apply (HNone _ _ rs); [by eapply spends_imp; [|exact Hrs]| |done]. by eapply tags_inv_delete; [| |apply Hd].
    + intros ->. apply wp_ret. specialize (HNone _ _ rs (spends_imp _ _ _ _ (fun _ => eq_refl) Hrs) Hinv eq_refl). unfold tags_put in HNone.
      destruct w; exact HNone.
Qed.

(** The tags there were are still there, with their labels. *)
Definition tags_kept (tags tags' : gmap tag_ptr lgtd_lifx_tag) : Prop :=
  forall t tag, tags !! t = Some tag ->
    exists tag', tags' !! t = Some tag' /\ tag_label tag' = tag_label tag.

Lemma tags_kept_refl tags : tags_kept tags tags.
Proof. intros t tag ?. by exists tag. Qed.

Lemma tags_kept_insert tags t tag tag' :
  tags !! t = Some tag -> tag_label tag' = tag_label tag -> tags_kept tags (<[t := tag']> tags).
Proof.
  intros Ht Hl t1 tag1 Ht1. rewrite lookup_insert. case_decide as Hd; [|by exists tag1].
  exists tag'. split; [done|]. subst. congruence.
Qed.

(** [incref] of a label no other cell of the gateway has: it fails and changes
    nothing that matters, or the tag it returns completes the link. *)
Lemma wp_incref G p gw i label w (Q : option tag_ptr -> world -> Prop) :
  tags_inv G (w_tags w) (w_tag_list w) -> G !! p = Some gw ->
  length (gw_tags gw) = 64%nat -> (i < 64)%nat -> cell G p i = None ->
  (length (cstr label) < LGTD_LIFX_LABEL_SIZE)%nat ->
  (forall j t tag, cell G p j = Some t -> w_tags w !! t = Some tag ->
     cstr (tag_label tag) <> cstr label) ->
  (forall tags' tl' rs, spends (w_os_results w) rs True -> tags_inv G tags' tl' -> tags_kept (w_tags w) tags' ->
     Q None (tags_put tags' tl' (set_w_os_results rs w))) ->
  (forall t tag' tags' tl' rs, spends (w_os_results w) rs False -> tags_inv (set_cell p i (Some t) gw G) tags' tl' ->
     tags_kept (w_tags w) tags' -> tags' !! t = Some tag' -> cstr (tag_label tag') = cstr label ->
     Q (Some t) (tags_put tags' tl' (set_w_os_results rs w))) ->
  wp (lgtd_lifx_tagging_incref label p (Z.of_nat i)) Q w.
Proof.
  intros Hinv Hp Hlen Hi Hcell Hlab Hnew HNone HSome. unfold lgtd_lifx_tagging_incref.
  assert (Hshort : (strlen label <? Z.of_nat LGTD_LIFX_LABEL_SIZE) = true)
    by (apply Z.ltb_lt; unfold strlen; lia).
  apply wp_bind, wp_assert; [done|].
  apply wp_bind, wp_assert; [apply Z.ltb_lt; unfold LGTD_LIFX_GATEWAY_MAX_TAGS; lia|].
  destruct (find_tag_ret w G label Hinv) as (r & Hr & Hres).
  apply wp_bind. unfold wp at 1. rewrite Hr. destruct r as [t|].
  - destruct Hres as (tag & Ht & Hlbl).
    eapply (wp_incref_site G p gw i t tag); try done.
    + intros s Hin Hs. destruct (ti_sites _ _ _ Hinv t tag s Ht Hin) as (j & _ & _ & Hj).
      rewrite Hs in Hj. by apply (Hnew j t tag Hj Ht).
    + intros tags' tl' rs Hrs Hi' ->. apply HNone; [done|done|apply tags_kept_refl].
    + intros tags' tl' rs tag' Hrs Hi' -> Hl'. eapply HSome; [done|done| |apply lookup_insert_eq|by rewrite Hl'].
      by eapply tags_kept_insert.
  - apply wp_bind. unfold lgtd_lifx_tagging_allocate_tag. apply wp_bind, wp_assert; [done|].
    apply wp_bind, wp_os_call_results. intros ok rs Hrs. destruct ok; cbn [negb].
    2:{ apply wp_ret, wp_ret. specialize (HNone _ _ rs (spends_imp _ _ _ _ (fun _ => eq_refl) Hrs) Hinv (tags_kept_refl _)). unfold tags_put in HNone.
        destruct w; exact HNone. }
    apply wp_bind, wp_get. cbv zeta. apply wp_bind, wp_modify, wp_bind, wp_modify, wp_ret. fields.
    set (t := fresh_ptr (w_tags w)).
    set (tag := {| tag_label := strncpy_label LGTD_LIFX_LABEL_SIZE label; tag_sites := [] |}).
    assert (Hcl : cstr (strncpy_label LGTD_LIFX_LABEL_SIZE label) = cstr label).
    { rewrite cstr_strncpy_label by (unfold LGTD_LIFX_LABEL_SIZE; lia).
      apply take_ge. unfold LGTD_LIFX_LABEL_SIZE in *. lia. }
    assert (Hinv' : tags_inv G (<[t := tag]> (w_tags w)) (t :: w_tag_list w)).
    { apply tags_inv_new; [done|apply fresh_ptr_fresh| |].
      - by rewrite Hcl.
      - intros t' tag' Ht'. rewrite Hcl. by eapply Hres. }
    eapply (wp_incref_site G p gw i t tag); fields; try done.
    + apply lookup_insert_eq.
    + by intros s ?%elem_of_nil.
    + intros tags' tl' rs' Hrs' HI ->. pose proof (spends_trans _ _ _ _ _ Hrs Hrs') as Hall.
      specialize (HNone _ tl' rs' (spends_imp _ _ _ _ (fun _ => or_intror I) Hall) HI). rewrite delete_insert_id in HNone
        by apply fresh_ptr_fresh. specialize (HNone (tags_kept_refl _)). 
      rewrite delete_insert_id by apply fresh_ptr_fresh. by destruct w.
    + intros tags' tl' rs' tag' Hrs' HI -> Hl'. rewrite insert_insert_eq in *.
      pose proof (spends_trans _ _ _ _ _ Hrs Hrs') as Hall.
      specialize (HSome t tag' _ tl' rs' (spends_imp _ _ _ _ (False_ind _) Hall) HI). rewrite lookup_insert_eq in HSome.
      assert (Hkept : tags_kept (w_tags w) (<[t := tag']> (w_tags w))).
      { intros t1 tag1 Ht1. exists tag1. split; [|done]. rewrite lookup_insert_ne; [done|].
        intros <-. unfold t in Ht1. by rewrite fresh_ptr_fresh in Ht1. }
      specialize (HSome Hkept eq_refl ltac:(by rewrite Hl')). by destruct w.
Qed.
