(* ===== verification/SendSpec.v ===== *)
(** * What sending changes

    The functions that send only change the queues of gateways and, for a power
    packet, the power expected of bulbs. [send_frame] says so once for all of
    them, and the invariants that do not read these fields are kept. *)

From Stdlib Require Import ZArith Lia.
From stdpp Require Import base tactics list gmap.
From S2P Require Import Prelude CLib WireBits PacketInfo WireProto World Tagging GatewayQueue.
From S2P Require Import BulbTable Router Bulb Gateway QueueSpec.

(** ** Frames *)

Definition bulb_frame (b b' : lgtd_lifx_bulb) : Prop :=
  exists d e, b' = set_bulb_dirty_at d (set_bulb_expected_power_on e b).

#[export] Instance bulb_frame_preorder : PreOrder bulb_frame.
Proof.
  split.
  - intros b. exists (bulb_dirty_at b), (bulb_expected_power_on b). by destruct b.
  - intros b1 b2 b3 (d & e & ->) (d' & e' & ->). by exists d', e'.
Qed.

(** [frame R C]: gateways change as [R] allows, the counters as [C] allows, bulbs
    in the power expected of them, and the clock goes on. *)
Record frame (R : relation lgtd_lifx_gateway) (C : relation lgtd_stats) (w w' : world) : Prop := {
  sf_gateways : forall p, option_Forall2 R (w_gateways w !! p) (w_gateways w' !! p);
  sf_gateway_list : w_gateway_list w' = w_gateway_list w;
  sf_bulbs : forall a, option_Forall2 bulb_frame (w_bulbs_table w !! a) (w_bulbs_table w' !! a);
  sf_tags : w_tags w' = w_tags w;
  sf_tag_list : w_tag_list w' = w_tag_list w;
  sf_timers : w_timers w' = w_timers w;
  sf_counters : C (w_counters w) (w_counters w');
  sf_broadcast : w_broadcast_write_ev w' = w_broadcast_write_ev w;
  sf_watchdog : w_watchdog_pending w' = w_watchdog_pending w;
  sf_client_id : w_client_id w' = w_client_id w;
  sf_now : w_now w <= w_now w' /\ (w_now w < 2 ^ 64 -> w_now w' < 2 ^ 64)
}.
Abbreviation send_frame := (frame queue_frame eq).

#[export] Instance frame_preorder R C `{!PreOrder R, !PreOrder C} : PreOrder (frame R C).
Proof.
  split.
  - intros w. constructor; done || lia.
  - intros w1 w2 w3 [] []. constructor; try congruence; try lia; try (by etransitivity); intros k.
    + specialize (sf_gateways0 k). specialize (sf_gateways1 k).
      destruct sf_gateways0; inversion sf_gateways1; constructor. by etransitivity.
    + specialize (sf_bulbs0 k). specialize (sf_bulbs1 k).
      destruct sf_bulbs0; inversion sf_bulbs1; constructor. by etransitivity.
Qed.

Lemma frame_mono (R R' : relation lgtd_lifx_gateway) (C C' : relation lgtd_stats) w w' :
  (forall gw gw', R gw gw' -> R' gw gw') -> (forall c c', C c c' -> C' c c') ->
  frame R C w w' -> frame R' C' w w'.
Proof.
  intros HR HC []. constructor; auto. intros p. destruct (sf_gateways0 p); constructor. auto.
Qed.

Lemma gateway_after R C w w' p gw :
  frame R C w w' -> w_gateways w !! p = Some gw ->
  exists gw', w_gateways w' !! p = Some gw' /\ R gw gw'.
Proof.
  intros Hf Hp. pose proof (sf_gateways _ _ _ _ Hf p) as Hr. rewrite Hp in Hr.
  inversion Hr; subst. by eexists.
Qed.

Lemma gateway_before R C w w' p gw' :
  frame R C w w' -> w_gateways w' !! p = Some gw' ->
  exists gw, w_gateways w !! p = Some gw /\ R gw gw'.
Proof.
  intros Hf Hp. pose proof (sf_gateways _ _ _ _ Hf p) as Hr. rewrite Hp in Hr.
  inversion Hr; subst. by eexists.
Qed.

Lemma bulb_after R C w w' a b :
  frame R C w w' -> w_bulbs_table w !! a = Some b ->
  exists b', w_bulbs_table w' !! a = Some b' /\ bulb_frame b b'.
Proof.
  intros Hf Ha. pose proof (sf_bulbs _ _ _ _ Hf a) as Hr. rewrite Ha in Hr.
  inversion Hr; subst. by eexists.
Qed.

Lemma bulb_before R C w w' a b' :
  frame R C w w' -> w_bulbs_table w' !! a = Some b' ->
  exists b, w_bulbs_table w !! a = Some b /\ bulb_frame b b'.
Proof.
  intros Hf Ha. pose proof (sf_bulbs _ _ _ _ Hf a) as Hr. rewrite Ha in Hr.
  inversion Hr; subst. by eexists.
Qed.

(** The precondition of every send, which sending keeps. *)
Record sendable (w : world) : Prop := {
  sd_client_id : w_client_id w <> 0;
  sd_gateways : forall p gw, w_gateways w !! p = Some gw ->
    (exists q, queue_repr gw q) /\ length (gw_site gw) = 6%nat
}.

(** [sends m w]: [m] runs from [w] and does nothing but send. *)
Definition sends {A} (m : M world A) (w : world) : Prop :=
  wp m (fun _ w' => send_frame w w' /\ sendable w') w.

Lemma sends_bind {A B} (m : M world A) (k : A -> M world B) w :
  sends m w -> (forall a w', send_frame w w' -> sendable w' -> sends (k a) w') -> sends (m ≫= k) w.
Proof.
  intros Hm Hk. apply wp_bind. eapply wp_mono; [exact Hm|]. intros a w' [Hf Hs].
  eapply wp_mono; [by apply Hk|]. intros b w'' [Hf' Hs']. split; [by etransitivity|done].
Qed.

Lemma sends_ret {A} (a : A) w : sendable w -> sends (mret a) w.
Proof. intros Hs. apply wp_ret. split; [reflexivity|done]. Qed.

Lemma sends_when b m w : sendable w -> (b = true -> sends m w) -> sends (mwhen b m) w.
Proof. intros Hs Hm. destruct b; [by apply Hm|]. by apply sends_ret. Qed.

Lemma sends_foreach {A} (l : list A) body w :
  sendable w ->
  (forall x w', x ∈ l -> send_frame w w' -> sendable w' -> sends (body x) w') ->
  sends (mforeach l body) w.
Proof.
  intros Hs Hb. revert w Hs Hb. induction l as [|x l IH]; intros w Hs Hb; [by apply sends_ret|].
  apply sends_bind; [apply Hb; [by left|reflexivity|done]|].
  intros _ w' Hf Hs'. apply IH; [done|]. intros y w'' Hy Hf' Hs''.
  apply Hb; [by right|by etransitivity|done].
Qed.

(** Frames of single updates. *)
Lemma send_frame_gw_put w p gw gw' :
  w_gateways w !! p = Some gw -> queue_frame gw gw' -> send_frame w (gw_put p gw' w).
Proof.
  intros Hp Hf. constructor; try done; unfold gw_put; fields; try lia; intros k.
  rewrite lookup_insert. case_decide as Hd.
  - subst. rewrite Hp. by constructor.
  - reflexivity.
Qed.

Lemma send_frame_bulb_put w a b b' :
  w_bulbs_table w !! a = Some b -> bulb_frame b b' -> send_frame w (bulb_put a b' w).
Proof.
  intros Ha Hf. constructor; try done; unfold bulb_put; fields; try lia; intros k.
  rewrite lookup_insert. case_decide as Hd.
  - subst. rewrite Ha. by constructor.
  - reflexivity.
Qed.

Lemma sendable_frame w w' :
  sendable w -> send_frame w w' ->
  (forall p gw', w_gateways w' !! p = Some gw' -> exists q, queue_repr gw' q) -> sendable w'.
Proof.
  intros [Hc Hg] Hf Hq. constructor; [by rewrite (sf_client_id _ _ _ _ Hf)|].
  intros p gw' Hp. split; [by eapply Hq|].
  destruct (gateway_before _ _ _ _ _ _ Hf Hp) as (gw & Hgw & Hfr). rewrite (qf_site _ _ Hfr).
  by destruct (Hg p gw Hgw).
Qed.

Lemma sends_now w : sendable w -> sends lgtd_time_monotonic_msecs w.
Proof.
  intros [Hc Hg]. apply wp_time. intros t ds Ht. split; [|by constructor].
  constructor; done.
Qed.

(** ** The functions that send *)

(** The size of the payload of a packet type, if the table has it. *)
Definition packet_size (ptype : lgtd_lifx_packet_type) : option Z :=
  pi_size <$> lgtd_lifx_wire_get_packet_info (packet_type_value ptype).

(** A payload of the right size for the type. *)
Definition payload_for (ptype : lgtd_lifx_packet_type) (pkt : option (list Z)) : Prop :=
  exists n, packet_size ptype = Some n
    /\ match pkt with Some m => n <= Z.of_nat (length m) | None => n = 0 end.

Lemma payload_for_info ptype pkt :
  payload_for ptype pkt ->
  exists info, lgtd_lifx_wire_get_packet_info (packet_type_value ptype) = Some info /\ payload_ok info pkt.
Proof.
  intros (n & Hn & Hp). unfold packet_size in Hn. revert Hn.
  generalize (lgtd_lifx_wire_get_packet_info (packet_type_value ptype)). intros o Ho.
  apply fmap_Some in Ho as (info & Hi & ->).
  exists info. exact (conj Hi Hp).
Qed.

Section Sends.
Context {E : Endianness}.

(** The pattern of every send. *)
Lemma sends_packet {A} w p gw target_type target tgt ptype pkt (K : M world A) :
  sendable w -> w_gateways w !! p = Some gw ->
  wire_target target_type target = Some tgt -> length tgt = 8%nat -> payload_for ptype pkt ->
  (forall w', send_frame w w' -> sendable w' -> sends K w') ->
  sends ('(hdr, pkt_info) ← lgtd_lifx_wire_setup_header (w_client_id w) target_type target
           (Some (gw_site gw)) ptype;
         lgtd_lifx_gateway_enqueue_packet p hdr pkt_info pkt ;; K) w.
Proof.
  intros Hs Hp Htgt Hlen Hpkt HK.
  destruct (payload_for_info _ _ Hpkt) as (info & Hinfo & Hok).
  destruct (sd_gateways _ Hs p gw Hp) as [[q Hq] Hsite].
  eapply (wp_send w p gw q _ _ tgt _ info);
    [exact (sd_client_id _ Hs)|exact Hp|exact Hq|exact Hsite|exact Hinfo|exact Htgt|exact Hlen|exact Hok|].
  intros gw' Hfr _ Hq'.
  assert (Hf : send_frame w (gw_put p gw' w)) by (by eapply send_frame_gw_put).
  eapply wp_mono; [apply HK; [done|]|].
  - eapply sendable_frame; [done..|]. intros p' gw''. unfold gw_put. fields.
    rewrite lookup_insert. case_decide; [intros [= <-]; by eexists|]. intros Hp'.
    by destruct (sd_gateways _ Hs p' gw'' Hp').
  - intros a w' [Hf' Hs']. split; [by etransitivity|done].
Qed.

Lemma sends_to_site w p ptype pkt :
  sendable w -> is_Some (w_gateways w !! p) -> payload_for ptype pkt ->
  sends (lgtd_lifx_gateway_send_to_site p ptype pkt) w.
Proof.
  intros Hs [gw Hp] Hpkt. unfold lgtd_lifx_gateway_send_to_site, lgtd_lifx_gateway_send_to_site_impl.
  apply wp_bind. eapply wp_get_gw; [done|]. apply wp_bind, wp_get.
  eapply sends_packet; [exact Hs|exact Hp|reflexivity|reflexivity|exact Hpkt|].
  intros w' _ Hs'. by apply sends_ret.
Qed.

Lemma sends_upd_pending w p gw v :
  sendable w -> w_gateways w !! p = Some gw -> sends (upd_gw p (set_gw_pending_refresh_req v)) w.
Proof.
  intros Hs Hp. eapply wp_upd_gw; [done|].
  assert (Hf : send_frame w (gw_put p (set_gw_pending_refresh_req v gw) w))
    by (eapply send_frame_gw_put; [done|by constructor]).
  split; [done|]. eapply sendable_frame; [done..|]. intros p' gw'. unfold gw_put. fields.
  rewrite lookup_insert. case_decide as Hd.
  - intros [= <-]. subst. destruct (sd_gateways _ Hs _ _ Hp) as [[q []] _]. exists q. by constructor.
  - intros Hp'. by destruct (sd_gateways _ Hs p' gw' Hp').
Qed.

Lemma sends_get_all_light_state w p :
  sendable w -> is_Some (w_gateways w !! p) ->
  sends (lgtd_lifx_gateway_send_get_all_light_state p) w.
Proof.
  intros Hs [gw Hp]. unfold lgtd_lifx_gateway_send_get_all_light_state.
  apply sends_bind.
  { apply sends_to_site; [done|by eexists|]. exists 0. split; [by vm_compute|done]. }
  intros _ w' Hf Hs'. destruct (gateway_after _ _ _ _ _ _ Hf Hp) as (gw' & Hp' & _).
  apply sends_bind.
  { apply sends_to_site; [done|by eexists|]. exists 8. split; [by vm_compute|].
    unfold tags_bytes. by rewrite length_store. }
  intros _ w'' Hf' Hs''. destruct (gateway_after _ _ _ _ _ _ Hf' Hp') as (gw'' & Hp'' & _).
  by eapply sends_upd_pending.
Qed.

Lemma sends_expect_power w now m a :
  sendable w -> is_Some (w_bulbs_table w !! a) -> sends (expect_power now (Some m) a) w.
Proof.
  intros Hs [b Ha]. unfold expect_power. apply wp_bind. eapply wp_deref; [done|].
  apply wp_bind. eapply wp_upd_bulb; [done|]. eapply wp_upd_bulb; [apply bulb_put_lookup|].
  rewrite bulb_put_put. split.
  - eapply send_frame_bulb_put; [done|]. eexists _, _. by destruct b.
  - destruct Hs. by constructor.
Qed.

Lemma sends_to_device w a b ptype pkt :
  sendable w -> w_bulbs_table w !! a = Some b -> is_Some (w_gateways w !! bulb_gw b) ->
  length (bulb_addr b) = 6%nat -> payload_for ptype pkt ->
  sends (lgtd_router_send_to_device a ptype pkt) w.
Proof.
  intros Hs Ha [gw Hp] Hl Hpkt. unfold lgtd_router_send_to_device.
  apply wp_bind. eapply wp_get_bulb; [done|]. apply wp_bind. eapply wp_get_gw; [done|].
  apply wp_bind, wp_get. cbv beta.
  eapply sends_packet; [done|done|reflexivity| |done|].
  { rewrite length_app, length_take, Hl. done. }
  intros w' Hf Hs'. apply sends_when; [done|]. intros Hpow. apply sends_bind; [by apply sends_now|].
  intros now w'' Hf' Hs''.
  destruct pkt as [m|].
  - apply sends_expect_power; [done|].
    destruct (bulb_after _ _ _ _ _ _ Hf Ha) as (b' & Ha' & _).
    destruct (bulb_after _ _ _ _ _ _ Hf' Ha') as (b'' & Ha'' & _). by eexists.
  - apply bool_decide_eq_true in Hpow as ->. destruct Hpkt as (n & Hn & ->). by vm_compute in Hn.
Qed.
End Sends.
