(* ===== verification/DeviceInv.v ===== *)
(** * Bulbs, reference counts and counters are consistent

    A bulb is in the list of its gateway and of no other, the reference count of
    a tag id is the number of bulbs of the gateway that have it, and the
    counters are the sizes of the tables. The invariant is stated for a view of
    the tags and of the power of the bulbs, so that it can be followed through an
    operation that updates the counts first and the bulb last. *)

From Stdlib Require Import ZArith Lia.
From stdpp Require Import base tactics list gmap.
From S2P Require Import Prelude CLib WireBits PacketInfo WireProto World Tagging GatewayQueue.
From S2P Require Import BulbTable Router Bulb Gateway QueueSpec SendSpec.

(** ** Views *)

(** [T a i]: bulb [a] has tag id [i]. *)
Definition tag_view : Type := addr -> Z -> bool.
(** [P a]: bulb [a] is on. *)
Definition power_view : Type := addr -> bool.

Definition tags_of (B : gmap addr lgtd_lifx_bulb) : tag_view := fun a i =>
  match B !! a with Some b => Z.testbit (ls_tags (bulb_state b)) i | None => false end.
Definition power_of (B : gmap addr lgtd_lifx_bulb) : power_view := fun a =>
  match B !! a with Some b => ls_power (bulb_state b) =? LGTD_LIFX_POWER_ON | None => false end.

Definition view_set (T : tag_view) (a : addr) (i : Z) (v : bool) : tag_view := fun a' j =>
  if bool_decide (a' = a /\ j = i) then v else T a' j.
Definition power_set (P : power_view) (a : addr) (v : bool) : power_view := fun a' =>
  if bool_decide (a' = a) then v else P a'.

(** The number of bulbs of a list that have a tag. *)
Definition tag_count (T : tag_view) (l : list addr) (i : Z) : Z :=
  Z.of_nat (length (filter (fun a => T a i = true) l)).

(** The number of bulbs of the table that are on. *)
Definition power_count (P : power_view) (B : gmap addr lgtd_lifx_bulb) : Z :=
  Z.of_nat (size (filter (fun a => P a = true) (dom B))).

(** ** The invariant *)

Record bulb_ok (a : addr) (b : lgtd_lifx_bulb) : Prop := {
  bo_addr : bulb_addr b = a;
  bo_length : length a = LGTD_LIFX_ADDR_LENGTH;
  bo_tags : 0 <= ls_tags (bulb_state b) < 2 ^ 64;
  bo_power : ls_power (bulb_state b) = LGTD_LIFX_POWER_OFF
             \/ ls_power (bulb_state b) = LGTD_LIFX_POWER_ON;
  bo_ips : length (bulb_ips b) = 2%nat
}.

Record bulbs_inv (G : gmap gw_ptr lgtd_lifx_gateway) (B : gmap addr lgtd_lifx_bulb) : Prop := {
  bi_ok : forall a b, B !! a = Some b -> bulb_ok a b;
  bi_gw : forall a b, B !! a = Some b ->
    exists gw, G !! bulb_gw b = Some gw /\ a ∈ gw_bulbs gw;
  bi_bulbs : forall p gw a, G !! p = Some gw -> a ∈ gw_bulbs gw ->
    exists b, B !! a = Some b /\ bulb_gw b = p
}.

(** Up to 255 bulbs per gateway, so that the counts fit their bytes. *)
Record gw_counts (T : tag_view) (gw : lgtd_lifx_gateway) : Prop := {
  gc_nodup : NoDup (gw_bulbs gw);
  gc_bulbs : (length (gw_bulbs gw) <= 255)%nat;
  gc_length : length (gw_tag_refcounts gw) = 64%nat;
  gc_refcounts : forall i, 0 <= i < 64 ->
    gw_tag_refcounts gw !! Z.to_nat i = Some (tag_count T (gw_bulbs gw) i)
}.

Record device_inv (T : tag_view) (P : power_view) (w : world) : Prop := {
  dv_send : sendable w;
  dv_counts : forall p gw, w_gateways w !! p = Some gw -> gw_counts T gw;
  dv_bulbs : bulbs_inv (w_gateways w) (w_bulbs_table w);
  dv_found : stats_bulbs (w_counters w) = Z.of_nat (size (w_bulbs_table w));
  dv_on : stats_bulbs_powered_on (w_counters w) = power_count P (w_bulbs_table w)
}.

(** ** Counting *)

Lemma tag_count_nonneg T l i : 0 <= tag_count T l i <= Z.of_nat (length l).
Proof. unfold tag_count. pose proof (length_filter (fun a => T a i = true) l). lia. Qed.

Lemma tag_count_ext T T' l i : (forall a, a ∈ l -> T a i = T' a i) -> tag_count T l i = tag_count T' l i.
Proof.
  intros HT. unfold tag_count. induction l as [|x l IH]; [done|].
  rewrite !filter_cons, (HT x) by (by left).
  case_decide; simpl; rewrite ?Nat2Z.inj_succ, IH; auto; intros; apply HT; by right.
Qed.

Lemma tag_count_cons T a l i : tag_count T (a :: l) i = Z.b2z (T a i) + tag_count T l i.
Proof. unfold tag_count. rewrite filter_cons. destruct (T a i); case_decide; simpl; done || lia. Qed.

Lemma view_set_eq T a i v : view_set T a i v a i = v.
Proof. unfold view_set. by rewrite bool_decide_eq_true_2. Qed.
Lemma view_set_ne T a i v a' j : a' <> a \/ j <> i -> view_set T a i v a' j = T a' j.
Proof. intros H. unfold view_set. rewrite bool_decide_eq_false_2; naive_solver. Qed.

(** Removing a bulb from the list of its gateway. *)
Lemma tag_count_remove T l a i :
  NoDup l -> a ∈ l -> tag_count T (filter (fun x => x <> a) l) i = tag_count T l i - Z.b2z (T a i).
Proof.
  induction l as [|x l IH]; [by intros _ ?%elem_of_nil|].
  intros [Hni Hnd]%NoDup_cons Hin. rewrite tag_count_cons, filter_cons.
  case_decide as Hx.
  - apply elem_of_cons in Hin as [->|Hin]; [done|]. rewrite tag_count_cons, IH by done. lia.
  - subst x. rewrite filter_ne_id by done. lia.
Qed.

(** Changing one tag of one bulb of the list. *)
Lemma tag_count_view_set T l a i v :
  NoDup l -> a ∈ l -> tag_count (view_set T a i v) l i = tag_count T l i + Z.b2z v - Z.b2z (T a i).
Proof.
  induction l as [|x l IH]; [by intros _ ?%elem_of_nil|].
  intros [Hni Hnd]%NoDup_cons Hin. rewrite !tag_count_cons.
  destruct (decide (x = a)) as [->|Hx].
  - rewrite view_set_eq, (tag_count_ext (view_set T a i v) T); [lia|].
    intros b Hb. apply view_set_ne. left. by intros ->.
  - apply elem_of_cons in Hin as [->|Hin]; [done|].
    rewrite view_set_ne by (by left). rewrite IH by done. lia.
Qed.

Lemma tag_count_pos T l a i : a ∈ l -> T a i = true -> 0 < tag_count T l i.
Proof.
  intros Hin HT. induction l as [|x l IH]; [by apply elem_of_nil in Hin|].
  rewrite tag_count_cons. pose proof (tag_count_nonneg T l i).
  apply elem_of_cons in Hin as [->|Hin]; [rewrite HT; simpl; lia|]. specialize (IH Hin).
  destruct (T x i); simpl; lia.
Qed.

Lemma tag_count_lt T l a i : a ∈ l -> T a i = false -> tag_count T l i < Z.of_nat (length l).
Proof.
  intros Hin HT. induction l as [|x l IH]; [by apply elem_of_nil in Hin|].
  rewrite tag_count_cons. pose proof (tag_count_nonneg T l i). simpl length.
  apply elem_of_cons in Hin as [->|Hin]; [rewrite HT; simpl; lia|]. specialize (IH Hin).
  destruct (T x i); simpl; lia.
Qed.

Lemma power_count_nonneg P B : 0 <= power_count P B.
Proof. unfold power_count. lia. Qed.

Lemma power_count_ext P P' B :
  (forall a, is_Some (B !! a) -> P a = P' a) -> power_count P B = power_count P' B.
Proof.
  intros HP. unfold power_count. do 2 f_equal. apply leibniz_equiv. intros a.
  rewrite !elem_of_filter, elem_of_dom. naive_solver.
Qed.

Lemma power_count_dom P B B' : dom B = dom B' -> power_count P B = power_count P B'.
Proof. unfold power_count. by intros ->. Qed.

Lemma size_filter_split (P : power_view) (X : gset addr) a :
  a ∈ X ->
  Z.of_nat (size (filter (fun x => P x = true) X))
  = Z.b2z (P a) + Z.of_nat (size (filter (fun x => P x = true) (X ∖ {[a]}))).
Proof.
  intros Ha. destruct (P a) eqn:HP; cbn [Z.b2z].
  - replace (filter (fun x => P x = true) X) with ({[a]} ∪ filter (fun x => P x = true) (X ∖ {[a]})).
    + rewrite size_union, size_singleton; [lia|]. set_solver.
    + apply leibniz_equiv. intros x. rewrite elem_of_union, !elem_of_filter, elem_of_difference,
        elem_of_singleton. destruct (decide (x = a)) as [->|]; intuition congruence.
  - rewrite Z.add_0_l. do 2 f_equal. apply leibniz_equiv. intros x.
    rewrite !elem_of_filter, elem_of_difference, elem_of_singleton.
    destruct (decide (x = a)) as [->|]; intuition congruence.
Qed.

Lemma power_count_set P B a v :
  is_Some (B !! a) ->
  power_count (power_set P a v) B = power_count P B + Z.b2z v - Z.b2z (P a).
Proof.
  intros Ha%elem_of_dom. unfold power_count.
  rewrite (size_filter_split P _ a Ha), (size_filter_split (power_set P a v) _ a Ha).
  unfold power_set at 1. rewrite bool_decide_eq_true_2 by done.
  replace (filter (fun x => power_set P a v x = true) (dom B ∖ {[a]}))
    with (filter (fun x => P x = true) (dom B ∖ {[a]})); [lia|].
  apply leibniz_equiv. intros x. rewrite !elem_of_filter, elem_of_difference, elem_of_singleton.
  unfold power_set. case_bool_decide; naive_solver.
Qed.

Lemma power_count_delete P B a :
  is_Some (B !! a) -> power_count P (delete a B) = power_count P B - Z.b2z (P a).
Proof.
  intros Ha%elem_of_dom. unfold power_count.
  rewrite (size_filter_split P _ a Ha), dom_delete_L. lia.
Qed.

Lemma power_count_insert P B a b :
  B !! a = None -> power_count P (<[a := b]> B) = power_count P B + Z.b2z (P a).
Proof.
  intros Ha. assert (HB : B = delete a (<[a := b]> B)) by (by rewrite delete_insert_id).
  rewrite HB at 2. rewrite power_count_delete; [lia|]. rewrite lookup_insert_eq. by eexists.
Qed.

(** ** Frames *)

(** Sending and counting references. *)
Record ref_gw_frame (gw gw' : lgtd_lifx_gateway) : Prop := {
  rf_bulbs : gw_bulbs gw' = gw_bulbs gw;
  rf_peer : gw_peer gw' = gw_peer gw;
  rf_site : gw_site gw' = gw_site gw;
  rf_tag_ids : gw_tag_ids gw' = gw_tag_ids gw;
  rf_tags : gw_tags gw' = gw_tags gw;
  rf_socket : gw_socket gw' = gw_socket gw;
  rf_last_pkt_at : gw_last_pkt_at gw' = gw_last_pkt_at gw;
  rf_refresh_timer : gw_refresh_timer gw' = gw_refresh_timer gw
}.
Abbreviation ref_frame := (frame ref_gw_frame eq).

#[export] Instance ref_gw_frame_preorder : PreOrder ref_gw_frame.
Proof.
  split; [by constructor|]. intros gw1 gw2 gw3 [] []. constructor; congruence.
Qed.

Lemma queue_ref_frame gw gw' : queue_frame gw gw' -> ref_gw_frame gw gw'.
Proof. intros []. by constructor. Qed.

Lemma send_ref_frame w w' : send_frame w w' -> ref_frame w w'.
Proof. apply frame_mono; [apply queue_ref_frame|done]. Qed.

Lemma frame_dom_bulbs R C w w' : frame R C w w' -> dom (w_bulbs_table w') = dom (w_bulbs_table w).
Proof.
  intros Hf. apply leibniz_equiv. intros a. rewrite !elem_of_dom.
  destruct (sf_bulbs _ _ _ _ Hf a); split; intros [? ?]; done.
Qed.

Lemma bulbs_inv_frame C w w' :
  frame ref_gw_frame C w w' -> bulbs_inv (w_gateways w) (w_bulbs_table w) ->
  bulbs_inv (w_gateways w') (w_bulbs_table w').
Proof.
  intros Hf [Hok Hgw Hbs]. constructor.
  - intros a b' Hb'. destruct (bulb_before _ _ _ _ _ _ Hf Hb') as (b & Hb & d & e & ->).
    destruct (Hok a b Hb). by constructor.
  - intros a b' Hb'. destruct (bulb_before _ _ _ _ _ _ Hf Hb') as (b & Hb & d & e & ->).
    destruct (Hgw a b Hb) as (gw & Hp & Hin).
    destruct (gateway_after _ _ _ _ _ _ Hf Hp) as (gw' & Hp' & Hfr). exists gw'. fields.
    by rewrite (rf_bulbs _ _ Hfr).
  - intros p gw' a Hp' Hin. destruct (gateway_before _ _ _ _ _ _ Hf Hp') as (gw & Hp & Hfr).
    rewrite (rf_bulbs _ _ Hfr) in Hin. destruct (Hbs p gw a Hp Hin) as (b & Hb & Hbg).
    destruct (bulb_after _ _ _ _ _ _ Hf Hb) as (b' & Hb' & d & e & ->). eexists. split; [done|]. by fields.
Qed.

Lemma size_bulbs_frame R C w w' : frame R C w w' -> size (w_bulbs_table w') = size (w_bulbs_table w).
Proof. intros Hf. by rewrite <- !size_dom, (frame_dom_bulbs _ _ _ _ Hf). Qed.

(** The invariant after a change that keeps the lists of bulbs; the new counts
    are given. *)
Lemma device_inv_ref_frame T T' P w w' :
  device_inv T P w -> ref_frame w w' -> sendable w' ->
  (forall p gw', w_gateways w' !! p = Some gw' -> gw_counts T' gw') -> device_inv T' P w'.
Proof.
  intros [Hs Hc Hb Hfound Hon] Hf Hs' Hc'. constructor; try done.
  - by eapply bulbs_inv_frame.
  - by rewrite <- (sf_counters _ _ _ _ Hf), (size_bulbs_frame _ _ _ _ Hf).
  - rewrite <- (sf_counters _ _ _ _ Hf), Hon. apply power_count_dom. symmetry. by eapply frame_dom_bulbs.
Qed.

Lemma device_inv_send T P w w' :
  device_inv T P w -> send_frame w w' -> sendable w' -> device_inv T P w'.
Proof.
  intros Hd Hf Hs'. eapply device_inv_ref_frame; [done|by apply send_ref_frame|done|].
  intros p gw' Hp'. destruct (gateway_before _ _ _ _ _ _ Hf Hp') as (gw & Hp & Hfr).
  destruct (dv_counts _ _ _ Hd p gw Hp). constructor;
    rewrite ?(qf_bulbs _ _ Hfr), ?(qf_tag_refcounts _ _ Hfr); done.
Qed.

Lemma device_inv_ext T T' P w :
  (forall a i, 0 <= i < 64 -> T a i = T' a i) -> device_inv T P w -> device_inv T' P w.
Proof.
  intros HT [Hs Hc Hb Hfound Hon]. constructor; try done. intros p gw Hp. destruct (Hc p gw Hp).
  constructor; try done. intros i Hi. rewrite gc_refcounts0 by done. f_equal.
  apply tag_count_ext. intros. by apply HT.
Qed.

(** ** Reference counts *)

Section Refcounts.
Context {E : Endianness}.

(** Assigning the count that matches a changed tag of one bulb. *)
Lemma device_inv_set_refcount T P w p gw a i v n :
  device_inv T P w -> w_gateways w !! p = Some gw -> a ∈ gw_bulbs gw -> 0 <= i < 64 ->
  n = tag_count T (gw_bulbs gw) i + Z.b2z v - Z.b2z (T a i) -> 0 <= n < 256 ->
  let w' := gw_put p (set_gw_tag_refcounts (<[Z.to_nat i := u8 n]> (gw_tag_refcounts gw)) gw) w in
  device_inv (view_set T a i v) P w' /\ ref_frame w w'.
Proof.
  intros Hd Hp Ha Hi Hn Hn8 w'. destruct (dv_counts _ _ _ Hd p gw Hp) as [Hnd Hlen Hl Hr].
  assert (Hf : ref_frame w w').
  { constructor; try done; unfold w', gw_put; fields; try lia; intros k.
    rewrite lookup_insert. case_decide as Hk; [|reflexivity]. subst. rewrite Hp. by do 2 constructor. }
  split; [|done]. eapply device_inv_ref_frame; [done|done| |].
  - destruct (dv_send _ _ _ Hd) as [Hc Hg]. constructor; [done|]. intros p' gw'.
    unfold w', gw_put. fields. rewrite lookup_insert. case_decide as Hk; [|apply Hg]. intros [= <-].
    subst. destruct (Hg _ _ Hp) as [[q []] ?]. split; [|done]. exists q. by constructor.
  - intros p' gw'. unfold w', gw_put. fields. rewrite lookup_insert. case_decide as Hk.
    + intros [= <-]. constructor; fields; [done|done|by rewrite length_insert|].
      intros j Hj. destruct (decide (j = i)) as [->|Hji].
      * rewrite list_lookup_insert_eq by lia. unfold u8. rewrite Z.mod_small by lia.
        by rewrite tag_count_view_set, Hn.
      * rewrite list_lookup_insert_ne by lia. rewrite Hr by done. f_equal. apply tag_count_ext.
        intros b _. symmetry. apply view_set_ne. by right.
    + intros Hp'. destruct (dv_counts _ _ _ Hd p' gw' Hp') as [Hnd' Hlen' Hl' Hr'].
      constructor; try done. intros j Hj. rewrite Hr' by done. f_equal. apply tag_count_ext.
      intros b Hb. symmetry. apply view_set_ne. left. intros ->.
      destruct (bi_bulbs _ _ (dv_bulbs _ _ _ Hd) _ _ _ Hp Ha) as (b1 & Hb1 & Hg1).
      destruct (bi_bulbs _ _ (dv_bulbs _ _ _ Hd) _ _ _ Hp' Hb) as (b2 & Hb2 & Hg2). congruence.
Qed.

Lemma wp_get_refcount T P w p gw i (Q : Z -> world -> Prop) :
  device_inv T P w -> w_gateways w !! p = Some gw -> 0 <= i < 64 ->
  Q (tag_count T (gw_bulbs gw) i) w -> wp (get_refcount p i) Q w.
Proof.
  intros Hd Hp Hi HQ. unfold get_refcount. apply wp_bind. eapply wp_get_gw; [done|]. cbv beta.
  eapply wp_deref; [|done]. by apply (dv_counts _ _ _ Hd p gw Hp).
Qed.

(** What one step of a loop over tag ids does to the tags of bulb [a]. *)
Definition ref_step (P : power_view) (p : gw_ptr) (a : addr) (v : bool) (op : Z -> M world unit) : Prop :=
  forall T w gw i, device_inv T P w -> w_gateways w !! p = Some gw -> a ∈ gw_bulbs gw -> 0 <= i < 64 ->
    T a i = negb v ->
    wp (op i) (fun _ w' => device_inv (view_set T a i v) P w' /\ ref_frame w w') w.

Lemma add_tag_ref_step P p a : ref_step P p a true (add_tag_ref p).
Proof.
  intros T w gw i Hd Hp Ha Hi HT. unfold add_tag_ref. apply wp_bind.
  eapply wp_get_refcount; [done..|].
  destruct (dv_counts _ _ _ Hd p gw Hp) as [Hnd Hlen Hl Hr].
  pose proof (tag_count_lt T _ a i Ha HT). pose proof (tag_count_nonneg T (gw_bulbs gw) i).
  unfold UINT8_MAX. rewrite (proj2 (Z.eqb_neq _ _)) by lia. cbn [negb mwhen].
  unfold set_refcount. eapply wp_upd_gw; [done|].
  apply (device_inv_set_refcount T P w p gw a i true); try done; rewrite ?HT; simpl; lia.
Qed.

Lemma remove_tag_ref_step P p a : ref_step P p a false (remove_tag_ref p).
Proof.
  intros T w gw i Hd Hp Ha Hi HT. unfold remove_tag_ref. apply wp_bind.
  eapply wp_get_refcount; [done..|].
  destruct (dv_counts _ _ _ Hd p gw Hp) as [Hnd Hlen Hl Hr].
  pose proof (tag_count_pos T _ a i Ha HT). pose proof (tag_count_nonneg T (gw_bulbs gw) i).
  apply wp_bind, wp_assert; [by apply Z.ltb_lt|].
  apply wp_bind. unfold set_refcount. eapply wp_upd_gw; [done|].
  set (n := tag_count T (gw_bulbs gw) i - 1).
  destruct (device_inv_set_refcount T P w p gw a i false n) as [Hd' Hf']; try done;
    [unfold n; rewrite HT; simpl; lia|unfold n; lia|].
  set (w1 := gw_put p _ w) in *.
  apply wp_bind. eapply wp_get_refcount; [done|apply gw_put_lookup|done|].
  case Z.eqb_spec; intros _; [|by apply wp_ret].
  apply wp_bind. eapply wp_get_gw; [apply gw_put_lookup|]. cbv beta zeta.
  apply wp_bind. eapply wp_mono.
  { apply sends_to_site; [exact (dv_send _ _ _ Hd')|eexists; apply gw_put_lookup|].
    exists 40. split; [by vm_compute|]. unfold tag_labels_bytes.
    rewrite length_app, length_store. done. }
  intros _ w2 [Hf2 Hs2]. apply wp_ret. split; [by eapply device_inv_send|].
  etransitivity; [done|]. by apply send_ref_frame.
Qed.

(** The loops of [update_tag_refcounts] and of [remove_and_close_bulb]. *)
Lemma wp_foreach_refs P p a v op ids T w gw (Q : unit -> world -> Prop) :
  ref_step P p a v op -> NoDup ids ->
  (forall i, i ∈ ids -> 0 <= i < 64 /\ T a i = negb v) ->
  device_inv T P w -> w_gateways w !! p = Some gw -> a ∈ gw_bulbs gw ->
  (forall w', device_inv (fun a' j => if bool_decide (a' = a /\ j ∈ ids) then v else T a' j) P w' ->
     ref_frame w w' -> Q tt w') ->
  wp (mforeach ids op) Q w.
Proof.
  intros Hstep. revert T w gw Q. induction ids as [|i ids IH]; intros T w gw Q Hnd Hids Hd Hp Ha HQ.
  - apply wp_ret, HQ; [|reflexivity]. eapply device_inv_ext; [|exact Hd]. intros a' j _.
    rewrite bool_decide_eq_false_2; [done|]. by intros [_ ?%elem_of_nil].
  - apply NoDup_cons in Hnd as [Hni Hnd]. destruct (Hids i ltac:(by left)) as [Hi HT].
    cbn [mforeach]. apply wp_bind. eapply wp_mono; [by eapply Hstep|].
    intros _ w1 [Hd1 Hf1]. destruct (gateway_after _ _ _ _ _ _ Hf1 Hp) as (gw1 & Hp1 & Hfr).
    eapply (IH (view_set T a i v) w1 gw1); [done| |done|done|by rewrite (rf_bulbs _ _ Hfr)|].
    + intros j Hj. destruct (Hids j ltac:(by right)) as [Hj64 HTj]. split; [done|].
      rewrite view_set_ne; [done|]. right. by intros ->.
    + intros w2 Hd2 Hf2. apply HQ; [|by etransitivity]. eapply device_inv_ext; [|exact Hd2].
      intros a' j _. unfold view_set.
      destruct (decide (a' = a)) as [->|Hne].
      * destruct (decide (j ∈ ids)) as [Hj|Hj].
        -- rewrite !bool_decide_eq_true_2; [done|split; [done|by right]|done].
        -- rewrite (bool_decide_eq_false_2 (a = a /\ j ∈ ids)) by naive_solver.
           destruct (decide (j = i)) as [->|Hji].
           ++ rewrite !bool_decide_eq_true_2; [done|split; [done|by left]|done].
           ++ rewrite !bool_decide_eq_false_2; [done|rewrite elem_of_cons; naive_solver|naive_solver].
      * rewrite !bool_decide_eq_false_2; naive_solver.
Qed.

(** [update_tag_refcounts] moves the counts from the old tags of a bulb to the
    new ones. *)
Lemma wp_update_tag_refcounts T P w p gw a old new (Q : unit -> world -> Prop) :
  device_inv T P w -> w_gateways w !! p = Some gw -> a ∈ gw_bulbs gw ->
  0 <= old < 2 ^ 64 -> 0 <= new < 2 ^ 64 ->
  (forall i, 0 <= i < 64 -> T a i = Z.testbit old i) ->
  (forall w', device_inv (fun a' j => if bool_decide (a' = a) then Z.testbit new j else T a' j) P w' ->
     ref_frame w w' -> Q tt w') ->
  wp (lgtd_lifx_gateway_update_tag_refcounts p old new) Q w.
Proof.
  intros Hd Hp Ha Hold Hnew HT HQ. unfold lgtd_lifx_gateway_update_tag_refcounts.
  set (added := Z.land (Z.lxor old new) new). set (removed := Z.land (Z.lxor old new) old).
  assert (Hadded : forall i, Z.testbit added i = negb (Z.testbit old i) && Z.testbit new i).
  { intros i. unfold added. rewrite Z.land_spec, Z.lxor_spec.
    by destruct (Z.testbit old i), (Z.testbit new i). }
  assert (Hremoved : forall i, Z.testbit removed i = Z.testbit old i && negb (Z.testbit new i)).
  { intros i. unfold removed. rewrite Z.land_spec, Z.lxor_spec.
    by destruct (Z.testbit old i), (Z.testbit new i). }
  assert (Ra : 0 <= added < 2 ^ 64)
    by (unfold added; rewrite Z.land_comm; by apply u64_land_bound).
  assert (Rr : 0 <= removed < 2 ^ 64)
    by (unfold removed; rewrite Z.land_comm; by apply u64_land_bound).
  rewrite !foreach_tag_id_bits by done. apply wp_bind.
  eapply (wp_foreach_refs P p a true (add_tag_ref p) _ T w gw);
    [apply add_tag_ref_step|apply NoDup_tag_bits| |done|done|done|].
  { intros i [Hi Hb]%elem_of_tag_bits. split; [done|]. rewrite HT by done. rewrite Hadded in Hb.
    by apply andb_true_iff in Hb as [Hb%negb_true_iff _]. }
  intros w1 Hd1 Hf1. destruct (gateway_after _ _ _ _ _ _ Hf1 Hp) as (gw1 & Hp1 & Hfr1).
  eapply (wp_foreach_refs P p a false (remove_tag_ref p) _ _ w1 gw1);
    [apply remove_tag_ref_step|apply NoDup_tag_bits| |done|done|by rewrite (rf_bulbs _ _ Hfr1)|].
  { intros i [Hi Hb]%elem_of_tag_bits. split; [done|]. rewrite Hremoved in Hb.
    apply andb_true_iff in Hb as [Ho Hn%negb_true_iff].
    case_bool_decide; [done|]. by rewrite HT. }
  intros w2 Hd2 Hf2. apply HQ; [|by etransitivity]. eapply device_inv_ext; [|exact Hd2].
  intros a' j Hj. cbv beta. destruct (decide (a' = a)) as [->|Hne].
  - rewrite (bool_decide_eq_true_2 (a = a)) by done. rewrite HT by done.
    assert (Hbit : forall z, bool_decide (a = a /\ j ∈ tag_bits z) = Z.testbit z j).
    { intros z. apply Bool.eq_true_iff_eq. rewrite bool_decide_eq_true, elem_of_tag_bits. tauto. }
    rewrite !Hbit, Hadded, Hremoved. by destruct (Z.testbit old j), (Z.testbit new j).
  - rewrite !bool_decide_eq_false_2; naive_solver.
Qed.

End Refcounts.
