(* ===== verification/DeviceOps.v ===== *)
(** * The operations on bulbs keep the invariant

    Recording what a bulb reports, opening a bulb and closing it: each keeps
    [device_ok] and changes nothing that the tags, the timers and the list of
    gateways depend on. *)

From Stdlib Require Import ZArith Lia.
From stdpp Require Import base tactics list gmap.
From S2P Require Import Prelude CLib WireBits PacketInfo WireProto World Tagging GatewayQueue.
From S2P Require Import BulbTable Router Bulb Gateway QueueSpec SendSpec DeviceInv.

(** The invariant, for what the bulbs have recorded. *)
Definition device_ok (w : world) : Prop :=
  device_inv (tags_of (w_bulbs_table w)) (power_of (w_bulbs_table w)) w.

(** ** Frames *)

Record rest_gw_frame (gw gw' : lgtd_lifx_gateway) : Prop := {
  ro_peer : gw_peer gw' = gw_peer gw;
  ro_site : gw_site gw' = gw_site gw;
  ro_tag_ids : gw_tag_ids gw' = gw_tag_ids gw;
  ro_tags : gw_tags gw' = gw_tags gw;
  ro_socket : gw_socket gw' = gw_socket gw;
  ro_refresh_timer : gw_refresh_timer gw' = gw_refresh_timer gw
}.

#[export] Instance rest_gw_frame_preorder : PreOrder rest_gw_frame.
Proof. split; [by constructor|]. intros gw1 gw2 gw3 [] []. constructor; congruence. Qed.

(** Timers that ask a bulb for its hardware information may be added. *)
Definition hardware_timer (tm : lgtd_timer) : Prop :=
  timer_callback tm = lgtd_lifx_bulb_fetch_hardware_info_fn
  /\ exists n, timer_ctx tm = ctx_as_uint n /\ n <> 0.

Definition timers_grow (tms tms' : gmap timer_ptr lgtd_timer) : Prop :=
  (forall t tm, tms !! t = Some tm -> tms' !! t = Some tm)
  /\ (forall t tm, tms' !! t = Some tm -> tms !! t = Some tm \/ hardware_timer tm).

#[export] Instance timers_grow_preorder : PreOrder timers_grow.
Proof.
  split; [split; auto|]. intros tms1 tms2 tms3 [H12 H21] [H23 H32]. split; [auto|].
  intros t tm Ht. destruct (H32 t tm Ht); auto.
Qed.

Record rest_frame (w w' : world) : Prop := {
  re_gateways : forall p, option_Forall2 rest_gw_frame (w_gateways w !! p) (w_gateways w' !! p);
  re_gateway_list : w_gateway_list w' = w_gateway_list w;
  re_tags : w_tags w' = w_tags w;
  re_tag_list : w_tag_list w' = w_tag_list w;
  re_timers : timers_grow (w_timers w) (w_timers w');
  re_gateways_found : stats_gateways (w_counters w') = stats_gateways (w_counters w);
  re_clients : stats_clients (w_counters w') = stats_clients (w_counters w);
  re_broadcast : w_broadcast_write_ev w' = w_broadcast_write_ev w;
  re_watchdog : w_watchdog_pending w' = w_watchdog_pending w;
  re_client_id : w_client_id w' = w_client_id w;
  re_now : w_now w <= w_now w' /\ (w_now w < 2 ^ 64 -> w_now w' < 2 ^ 64)
}.

#[export] Instance rest_frame_preorder : PreOrder rest_frame.
Proof.
  split.
  - intros w. constructor; done || lia.
  - intros w1 w2 w3 [] []. constructor; try congruence; try lia; try (by etransitivity). intros k.
    specialize (re_gateways0 k). specialize (re_gateways1 k).
    destruct re_gateways0; inversion re_gateways1; constructor. by etransitivity.
Qed.

(** Counters of other components are left alone. *)
Definition stats_frame (c c' : lgtd_stats) : Prop :=
  stats_gateways c' = stats_gateways c /\ stats_clients c' = stats_clients c.

#[export] Instance stats_frame_preorder : PreOrder stats_frame.
Proof. split; [done|]. intros c1 c2 c3 [] []. split; congruence. Qed.

Lemma ref_rest_frame gw gw' : ref_gw_frame gw gw' -> rest_gw_frame gw gw'.
Proof. intros []. by constructor. Qed.

Lemma frame_rest_frame w w' : frame ref_gw_frame stats_frame w w' -> rest_frame w w'.
Proof.
  intros [Hg]. destruct sf_counters. constructor; try done.
  - intros p. destruct (Hg p); constructor. by apply ref_rest_frame.
  - by rewrite sf_timers.
Qed.

Lemma ref_frame_power w w' : ref_frame w w' -> frame ref_gw_frame stats_frame w w'.
Proof. apply frame_mono; [done|]. by intros c c' ->. Qed.

Lemma send_frame_rest w w' : send_frame w w' -> rest_frame w w'.
Proof. intros Hf. by apply frame_rest_frame, ref_frame_power, send_ref_frame. Qed.

(** ** Views of the recorded state *)

Lemma tags_of_frame R C w w' : frame R C w w' ->
  forall a i, tags_of (w_bulbs_table w') a i = tags_of (w_bulbs_table w) a i.
Proof.
  intros Hf a i. unfold tags_of. destruct (sf_bulbs _ _ _ _ Hf a) as [b b' (d & e & ->)|]; done.
Qed.

Lemma power_of_frame R C w w' : frame R C w w' ->
  forall a, power_of (w_bulbs_table w') a = power_of (w_bulbs_table w) a.
Proof.
  intros Hf a. unfold power_of. destruct (sf_bulbs _ _ _ _ Hf a) as [b b' (d & e & ->)|]; done.
Qed.

Lemma device_inv_views T T' P P' w :
  (forall a i, 0 <= i < 64 -> T a i = T' a i) ->
  (forall a, is_Some (w_bulbs_table w !! a) -> P a = P' a) ->
  device_inv T P w -> device_inv T' P' w.
Proof.
  intros HT HP Hd. apply (device_inv_ext T); [done|]. destruct Hd. constructor; try done.
  rewrite dv_on. by apply power_count_ext.
Qed.

Lemma device_ok_send w w' : device_ok w -> send_frame w w' -> sendable w' -> device_ok w'.
Proof.
  intros Hd Hf Hs. unfold device_ok. eapply device_inv_views; [| |by eapply device_inv_send].
  - intros a i _. symmetry. by eapply tags_of_frame.
  - intros a _. symmetry. by eapply power_of_frame.
Qed.

(** Assigning to a bulb: the counts must match what is recorded then. *)
Lemma device_ok_bulb_put T P w a b b' :
  device_inv T P w -> w_bulbs_table w !! a = Some b ->
  bulb_gw b' = bulb_gw b -> bulb_ok a b' ->
  (forall i, 0 <= i < 64 -> T a i = Z.testbit (ls_tags (bulb_state b')) i) ->
  P a = (ls_power (bulb_state b') =? LGTD_LIFX_POWER_ON) ->
  (forall a' i, a' <> a -> 0 <= i < 64 -> T a' i = tags_of (w_bulbs_table w) a' i) ->
  (forall a', a' <> a -> P a' = power_of (w_bulbs_table w) a') ->
  device_ok (bulb_put a b' w).
Proof.
  intros Hd Ha Hgw Hok HT HP HT' HP'. unfold device_ok.
  assert (Hd' : device_inv T P (bulb_put a b' w)).
  { destruct Hd as [Hs Hc [Hbok Hbgw Hbs] Hfound Hon]. constructor; unfold bulb_put; fields; try done.
    - destruct Hs. by constructor.
    - constructor.
      + intros a' b1. rewrite lookup_insert. case_decide as Hd; [by intros [= <-]; subst|]. apply Hbok.
      + intros a' b1. rewrite lookup_insert. case_decide as Hd; [|apply Hbgw].
        intros [= <-]. subst. rewrite Hgw. by apply Hbgw.
      + intros p gw a' Hp Hin. rewrite lookup_insert. case_decide as Hd; [|by eapply Hbs].
        subst. eexists. split; [done|]. rewrite Hgw.
        destruct (Hbs p gw _ Hp Hin) as (b1 & Hb1 & <-). congruence.
    - rewrite Hfound. f_equal. rewrite map_size_insert_Some; [done|by eexists].
    - rewrite Hon. apply power_count_dom. rewrite dom_insert_L.
      assert (a ∈ dom (w_bulbs_table w)) by (apply elem_of_dom; by eexists). set_solver. }
  eapply device_inv_views; [| |exact Hd']; unfold bulb_put; fields.
  - intros a' i Hi. unfold tags_of. rewrite lookup_insert. case_decide as Hd0; [subst; by apply HT|].
    by rewrite HT'.
  - intros a' _. unfold power_of. rewrite lookup_insert. case_decide as Hd0; [by subst|]. by rewrite HP'.
Qed.

Lemma rest_frame_bulb_put a b w : rest_frame w (bulb_put a b w).
Proof. constructor; unfold bulb_put; fields; done || lia. Qed.

(** ** Operations on one bulb *)

(** [m] keeps the invariant and the set of bulbs. *)
Definition keeps_devices {A} (m : M world A) (w : world) : Prop :=
  wp m (fun _ w' => device_ok w' /\ rest_frame w w'
                    /\ dom (w_bulbs_table w') = dom (w_bulbs_table w)) w.

Lemma keeps_bind {A B} (m : M world A) (k : A -> M world B) w :
  keeps_devices m w ->
  (forall a w', device_ok w' -> rest_frame w w' -> dom (w_bulbs_table w') = dom (w_bulbs_table w) ->
     keeps_devices (k a) w') ->
  keeps_devices (m ≫= k) w.
Proof.
  intros Hm Hk. apply wp_bind. eapply wp_mono; [exact Hm|]. intros a w' (Hd & Hf & Hdom).
  eapply wp_mono; [by apply Hk|]. intros b w'' (Hd' & Hf' & Hdom').
  split_and!; [done|by etransitivity|congruence].
Qed.

Lemma keeps_ret {A} (a : A) w : device_ok w -> keeps_devices (mret a) w.
Proof. intros Hd. apply wp_ret. split_and!; [done|reflexivity|done]. Qed.

Lemma keeps_sends {A} (m : M world A) w : device_ok w -> sends m w -> keeps_devices m w.
Proof.
  intros Hd Hs. eapply wp_mono; [exact Hs|]. intros a w' [Hf Hs'].
  split_and!; [by eapply device_ok_send|by apply send_frame_rest|by eapply frame_dom_bulbs].
Qed.

(** An assignment to fields the invariant does not read. *)
Lemma keeps_upd_bulb w a f :
  device_ok w -> is_Some (w_bulbs_table w !! a) ->
  (forall b, bulb_gw (f b) = bulb_gw b /\ bulb_addr (f b) = bulb_addr b
     /\ ls_tags (bulb_state (f b)) = ls_tags (bulb_state b)
     /\ ls_power (bulb_state (f b)) = ls_power (bulb_state b)
     /\ length (bulb_ips (f b)) = length (bulb_ips b)) ->
  keeps_devices (upd_bulb a f) w.
Proof.
  intros Hd [b Ha] Hf. destruct (Hf b) as (Hgw & Haddr & Htags & Hpow & Hips).
  eapply wp_upd_bulb; [done|]. split_and!.
  - eapply device_ok_bulb_put; try done.
    + destruct (bi_ok _ _ (dv_bulbs _ _ _ Hd) a b Ha). constructor; congruence.
    + intros i _. unfold tags_of. by rewrite Ha, Htags.
    + unfold power_of. by rewrite Ha, Hpow.
  - apply rest_frame_bulb_put.
  - unfold bulb_put. fields. rewrite dom_insert_L.
    assert (a ∈ dom (w_bulbs_table w)) by (apply elem_of_dom; by eexists). set_solver.
Qed.

Lemma dom_bulbs_put w a b b' :
  w_bulbs_table w !! a = Some b -> dom (w_bulbs_table (bulb_put a b' w)) = dom (w_bulbs_table w).
Proof.
  intros Ha. unfold bulb_put. fields. rewrite dom_insert_L.
  assert (a ∈ dom (w_bulbs_table w)) by (apply elem_of_dom; by eexists). set_solver.
Qed.

Lemma bulb_in_gateway w a b T P :
  device_inv T P w -> w_bulbs_table w !! a = Some b ->
  exists gw, w_gateways w !! bulb_gw b = Some gw /\ a ∈ gw_bulbs gw /\ length (bulb_addr b) = 6%nat.
Proof.
  intros Hd Ha. destruct (bi_gw _ _ (dv_bulbs _ _ _ Hd) a b Ha) as (gw & Hp & Hin).
  destruct (bi_ok _ _ (dv_bulbs _ _ _ Hd) a b Ha) as [Haddr Hlen _ _ _].
  exists gw. by rewrite Haddr.
Qed.

Section Operations.
Context {E : Endianness}.

(** A packet without payload to a bulb. *)
Lemma sends_to_bulb T P w a ptype pkt :
  device_inv T P w -> is_Some (w_bulbs_table w !! a) -> payload_for ptype pkt ->
  sends (lgtd_router_send_to_device a ptype pkt) w.
Proof.
  intros Hd [b Ha] Hp. destruct (bulb_in_gateway w a b T P Hd Ha) as (gw & Hgw & _ & Hlen).
  eapply sends_to_device; [exact (dv_send _ _ _ Hd)|exact Ha|by eexists|done|done].
Qed.

(** The counter of bulbs that are on follows the power. *)
Lemma wp_update_power T P w a b power (Q : unit -> world -> Prop) :
  device_inv T P w -> w_bulbs_table w !! a = Some b ->
  P a = (ls_power (bulb_state b) =? LGTD_LIFX_POWER_ON) ->
  power = LGTD_LIFX_POWER_OFF \/ power = LGTD_LIFX_POWER_ON ->
  (forall w', device_inv T (power_set P a (power =? LGTD_LIFX_POWER_ON)) w' ->
     frame ref_gw_frame stats_frame w w' -> Q tt w') ->
  wp (update_power a power) Q w.
Proof.
  intros Hd Ha HP Hpow HQ. unfold update_power. apply wp_bind. eapply wp_get_bulb; [done|]. cbv beta.
  pose proof (bo_power _ _ (bi_ok _ _ (dv_bulbs _ _ _ Hd) a b Ha)) as Hb.
  apply wp_when; intros Hne.
  2:{ apply negb_false_iff, Z.eqb_eq in Hne. apply HQ; [|reflexivity]. subst power.
      eapply device_inv_views; [done| |exact Hd]. intros a' _. unfold power_set.
      case_bool_decide; [by subst|done]. }
  apply negb_true_iff, Z.eqb_neq in Hne.
  set (v := power =? LGTD_LIFX_POWER_ON).
  assert (Hv : (if v then 1 else -1) = Z.b2z v - Z.b2z (P a)).
  { unfold v. rewrite HP. unfold LGTD_LIFX_POWER_OFF, LGTD_LIFX_POWER_ON in *.
    destruct Hpow as [-> | ->], Hb as [Hb|Hb]; rewrite Hb in *; done. }
  pose proof (power_count_set P (w_bulbs_table w) a v (ex_intro _ b Ha)) as Hcount.
  pose proof (power_count_nonneg (power_set P a v) (w_bulbs_table w)) as Hpos.
  apply wp_bind. unfold lgtd_stats_add. apply wp_bind, wp_get. cbv beta. cbn [get_counter].
  apply wp_bind, wp_assert.
  { apply Z.leb_le. rewrite (dv_on _ _ _ Hd), Hv. lia. }
  apply wp_modify. cbn [get_counter set_counter].
  set (w1 := set_w_counters _ w).
  assert (Hd1 : device_inv T (power_set P a v) w1).
  { destruct Hd as [[] ? ? ? Hon]. constructor; try done. unfold w1. fields. rewrite Hon, Hv, Hcount. lia. }
  assert (Hf1 : frame ref_gw_frame stats_frame w w1) by (constructor; unfold w1; fields; done || lia).
  eapply wp_mono.
  { eapply (sends_to_bulb _ _ w1 a); [exact Hd1|by eexists|]. exists 0. split; [by vm_compute|done]. }
  intros [] w2 [Hf2 Hs2]. apply HQ; [by eapply device_inv_send|].
  etransitivity; [done|]. by apply ref_frame_power, send_ref_frame.
Qed.

(** What a peer may report about a light. *)
Definition light_state_ok (st : lgtd_lifx_light_state) : Prop :=
  0 <= ls_tags st < 2 ^ 64
  /\ (ls_power st = LGTD_LIFX_POWER_OFF \/ ls_power st = LGTD_LIFX_POWER_ON).

Lemma keeps_set_light_state w a st at_ :
  device_ok w -> is_Some (w_bulbs_table w !! a) -> light_state_ok st ->
  keeps_devices (lgtd_lifx_bulb_set_light_state a st at_) w.
Proof.
  intros Hd [b Ha] [Htags Hpow]. unfold lgtd_lifx_bulb_set_light_state.
  apply wp_bind. eapply wp_update_power; [exact Hd|exact Ha| |done|].
  { unfold power_of. by rewrite Ha. }
  intros w1 Hd1 Hf1. destruct (bulb_after _ _ _ _ _ _ Hf1 Ha) as (b1 & Ha1 & d & e & ->).
  apply wp_bind. eapply wp_get_bulb; [done|]. fields.
  destruct (bulb_in_gateway w1 a _ _ _ Hd1 Ha1) as (gw1 & Hgw1 & Hin1 & _). fields_in Hgw1.
  pose proof (bi_ok _ _ (dv_bulbs _ _ _ Hd) a b Ha) as Hok.
  apply wp_bind. eapply wp_update_tag_refcounts; [exact Hd1|exact Hgw1|done|apply Hok|done| |].
  { intros i _. unfold tags_of. by rewrite Ha. }
  intros w2 Hd2 Hf2. destruct (bulb_after _ _ _ _ _ _ Hf2 Ha1) as (b2 & Ha2 & d2 & e2 & ->).
  assert (Hf : frame ref_gw_frame stats_frame w w2)
    by (etransitivity; [done|by apply ref_frame_power]).
  apply wp_bind. eapply wp_upd_bulb; [done|]. eapply wp_upd_bulb; [apply bulb_put_lookup|].
  rewrite bulb_put_put. split_and!.
  - eapply device_ok_bulb_put; [exact Hd2|done|done| | | | |]; fields.
    + destruct Hok. by constructor; fields.
    + intros i _. by rewrite bool_decide_eq_true_2.
    + unfold power_set. by rewrite bool_decide_eq_true_2.
    + intros a' i Hne _. rewrite bool_decide_eq_false_2 by done. symmetry. by eapply tags_of_frame.
    + intros a' Hne. unfold power_set. rewrite bool_decide_eq_false_2 by done. symmetry.
      by eapply power_of_frame.
  - etransitivity; [by apply frame_rest_frame|apply rest_frame_bulb_put].
  - rewrite (dom_bulbs_put _ _ _ _ Ha2). by eapply frame_dom_bulbs.
Qed.

Lemma keeps_set_power_state w a power :
  device_ok w -> is_Some (w_bulbs_table w !! a) ->
  power = LGTD_LIFX_POWER_OFF \/ power = LGTD_LIFX_POWER_ON ->
  keeps_devices (lgtd_lifx_bulb_set_power_state a power) w.
Proof.
  intros Hd [b Ha] Hpow. unfold lgtd_lifx_bulb_set_power_state.
  apply wp_bind. eapply wp_update_power; [exact Hd|exact Ha| |done|].
  { unfold power_of. by rewrite Ha. }
  intros w1 Hd1 Hf1. destruct (bulb_after _ _ _ _ _ _ Hf1 Ha) as (b1 & Ha1 & d & e & ->).
  pose proof (bi_ok _ _ (dv_bulbs _ _ _ Hd) a b Ha) as Hok.
  eapply wp_upd_bulb; [done|]. split_and!.
  - eapply device_ok_bulb_put; [exact Hd1|done|done| | | | |]; fields.
    + destruct Hok. by constructor; fields.
    + intros i _. unfold tags_of. by rewrite Ha.
    + unfold power_set. by rewrite bool_decide_eq_true_2.
    + intros a' i Hne _. symmetry. by eapply tags_of_frame.
    + intros a' Hne. unfold power_set. rewrite bool_decide_eq_false_2 by done. symmetry.
      by eapply power_of_frame.
  - etransitivity; [by apply frame_rest_frame|apply rest_frame_bulb_put].
  - rewrite (dom_bulbs_put _ _ _ _ Ha1). by eapply frame_dom_bulbs.
Qed.

Lemma keeps_set_tags w a tags :
  device_ok w -> is_Some (w_bulbs_table w !! a) -> 0 <= tags < 2 ^ 64 ->
  keeps_devices (lgtd_lifx_bulb_set_tags a tags) w.
Proof.
  intros Hd [b Ha] Htags. unfold lgtd_lifx_bulb_set_tags.
  apply wp_bind. eapply wp_get_bulb; [done|].
  destruct (bulb_in_gateway w a _ _ _ Hd Ha) as (gw & Hgw & Hin & _).
  pose proof (bi_ok _ _ (dv_bulbs _ _ _ Hd) a b Ha) as Hok.
  apply wp_bind. eapply wp_update_tag_refcounts; [exact Hd|exact Hgw|done|apply Hok|done| |].
  { intros i _. unfold tags_of. by rewrite Ha. }
  intros w1 Hd1 Hf1. destruct (bulb_after _ _ _ _ _ _ Hf1 Ha) as (b1 & Ha1 & d & e & ->).
  eapply wp_upd_bulb; [done|]. split_and!.
  - eapply device_ok_bulb_put; [exact Hd1|done|done| | | | |]; fields.
    + destruct Hok. by constructor; fields.
    + intros i _. by rewrite bool_decide_eq_true_2.
    + unfold power_of. by rewrite Ha.
    + intros a' i Hne _. rewrite bool_decide_eq_false_2 by done. symmetry. by eapply tags_of_frame.
    + intros a' Hne. symmetry. by eapply power_of_frame.
  - etransitivity; [by apply frame_rest_frame, ref_frame_power|apply rest_frame_bulb_put].
  - rewrite (dom_bulbs_put _ _ _ _ Ha1). by eapply frame_dom_bulbs.
Qed.

(** ** Closing a bulb *)

Lemma close_tag_ref_step P p a :
  ref_step P p a false (fun tag_id =>
    n ← get_refcount p tag_id; massert (0 <? n) ;; set_refcount p tag_id (n - 1)).
Proof.
  intros T w gw i Hd Hp Ha Hi HT. apply wp_bind. eapply wp_get_refcount; [done..|].
  destruct (dv_counts _ _ _ Hd p gw Hp) as [Hnd Hlen Hl Hr].
  pose proof (tag_count_pos T _ a i Ha HT). pose proof (tag_count_nonneg T (gw_bulbs gw) i).
  apply wp_bind, wp_assert; [by apply Z.ltb_lt|]. unfold set_refcount. eapply wp_upd_gw; [done|].
  apply (device_inv_set_refcount T P w p gw a i false); try done; rewrite ?HT; simpl; lia.
Qed.

Lemma has_flag_bit tags i :
  0 <= i < 64 -> has_flag tags (LGTD_LIFX_WIRE_TAG_ID_TO_VALUE i) = Z.testbit tags i.
Proof.
  intros Hi. unfold has_flag. apply Bool.eq_true_iff_eq. rewrite negb_true_iff, Z.eqb_neq.
  by apply land_TAG_ID_TO_VALUE.
Qed.

Lemma count_tagged_ret w l a i :
  0 <= i < 64 -> (forall x, x ∈ l -> x <> a /\ is_Some (w_bulbs_table w !! x)) ->
  count_tagged l a i w = Ret (tag_count (tags_of (w_bulbs_table w)) l i) w.
Proof.
  intros Hi. induction l as [|x l IH]; intros Hl; [done|].
  destruct (Hl x ltac:(by left)) as [Hx [b Hb]]. cbn [count_tagged]. unfold mbind, M_bind.
  rewrite bool_decide_eq_true_2 by done. cbn [massert mret M_ret].
  rewrite (get_bulb_ret _ _ _ Hb), IH by (intros; apply Hl; by right).
  rewrite tag_count_cons.
  replace (tags_of (w_bulbs_table w) x i) with (Z.testbit (ls_tags (bulb_state b)) i)
    by (unfold tags_of; by rewrite Hb).
  unfold has_flag. rewrite Z.land_comm. fold (has_flag (ls_tags (bulb_state b)) (LGTD_LIFX_WIRE_TAG_ID_TO_VALUE i)).
  rewrite has_flag_bit by done. by destruct (Z.testbit (ls_tags (bulb_state b)) i).
Qed.

(** The state while a bulb is closed: it left the list of its gateway and its
    references are gone, and it is still in the table. *)
Record closing (T : tag_view) (P : power_view) (p : gw_ptr) (a : addr) (w : world) : Prop := {
  cl_inv : forall gw, w_gateways w !! p = Some gw ->
    device_inv T P (gw_put p (set_gw_bulbs (a :: gw_bulbs gw) gw) w);
  cl_gw : is_Some (w_gateways w !! p);
  cl_tags : forall i, 0 <= i < 64 -> T a i = false
}.

(** Deleting it completes the operation. *)
Lemma closing_delete T P p a b w cs :
  closing T P p a w -> w_bulbs_table w !! a = Some b -> bulb_gw b = p ->
  (forall a' i, a' <> a -> 0 <= i < 64 -> T a' i = tags_of (w_bulbs_table w) a' i) ->
  (forall a', is_Some (w_bulbs_table w !! a') -> P a' = power_of (w_bulbs_table w) a') ->
  stats_bulbs cs = stats_bulbs (w_counters w) - 1 ->
  stats_bulbs_powered_on cs = stats_bulbs_powered_on (w_counters w) - Z.b2z (P a) ->
  device_ok (set_w_bulbs_table (delete a (w_bulbs_table w)) (set_w_counters cs w)).
Proof.
  intros [Hinv [gw Hp] Hta] Ha Hbp HT HP Hcs1 Hcs2.
  destruct (Hinv gw Hp) as [Hs Hc [Hok Hgw Hbs] Hfound Hon].
  unfold gw_put in *. fields_in Hc. fields_in Hfound. fields_in Hon. fields_in Hbs. fields_in Hgw.
  assert (Hnd : a ∉ gw_bulbs gw).
  { destruct (Hc p _ ltac:(apply lookup_insert_eq)) as [Hnd _ _ _]. fields_in Hnd.
    by apply NoDup_cons in Hnd as [? _]. }
  assert (Hdel : forall a', a' <> a -> w_bulbs_table w !! a' = delete a (w_bulbs_table w) !! a')
    by (intros; by rewrite lookup_delete_ne).
  unfold device_ok. fields. constructor; fields.
  - destruct Hs as [Hcl Hg]. fields_in Hcl. constructor; fields; [done|]. intros p' gw' Hp'.
    destruct (decide (p' = p)) as [->|Hne].
    + rewrite Hp in Hp'; injection Hp' as <-. destruct (Hg p _ ltac:(fields; apply lookup_insert_eq)) as [[q []] ?]. fields_in H.
      split; [|done]. exists q. by constructor.
    + apply (Hg p'). fields. by rewrite lookup_insert_ne.
  - intros p' gw' Hp'. destruct (decide (p' = p)) as [->|Hne].
    + rewrite Hp in Hp'; injection Hp' as <-. destruct (Hc p _ ltac:(apply lookup_insert_eq)) as [Hnd' Hlen Hl Hr].
      fields_in Hnd'. fields_in Hlen. fields_in Hl. fields_in Hr.
      constructor; [by apply NoDup_cons in Hnd' as [_ ?]|simpl in Hlen; lia|done|].
      intros i Hi. rewrite Hr by done. rewrite tag_count_cons, Hta by done. simpl. f_equal.
      apply tag_count_ext. intros x Hx. rewrite HT; [|by intros ->|done]. unfold tags_of.
      rewrite Hdel by (by intros ->). done.
    + destruct (Hc p' gw') as [Hnd' Hlen Hl Hr]; [by rewrite lookup_insert_ne|].
      constructor; try done. intros i Hi. rewrite Hr by done. f_equal. apply tag_count_ext.
      intros x Hx. assert (x <> a).
      { intros ->. destruct (Hbs p' gw' a) as (b1 & Hb1 & Hg1); [by rewrite lookup_insert_ne|done|].
        congruence. }
      rewrite HT by done. unfold tags_of. by rewrite Hdel.
  - constructor.
    + intros a' b' [_ Hb']%lookup_delete_Some. by apply Hok.
    + intros a' b' [Hne Hb']%lookup_delete_Some. destruct (Hgw a' b' Hb') as (gw' & Hg' & Hin).
      rewrite lookup_insert in Hg'. case_decide as Hd; [|by exists gw'].
      injection Hg' as <-. fields_in Hin. exists gw. rewrite <- Hd. split; [done|].
      apply elem_of_cons in Hin as [->|?]; done.
    + intros p' gw' a' Hp' Hin. assert (Hne : a' <> a).
      { intros ->. destruct (decide (p' = p)) as [->|Hne]; [rewrite Hp in Hp'; by injection Hp' as <-|].
        destruct (Hbs p' gw' a) as (b1 & Hb1 & Hg1); [by rewrite lookup_insert_ne|done|]. congruence. }
      rewrite <- Hdel by done. destruct (decide (p' = p)) as [->|Hne'].
      * rewrite Hp in Hp'; injection Hp' as <-. eapply Hbs; [apply lookup_insert_eq|]. fields. by right.
      * eapply Hbs; [by rewrite lookup_insert_ne|done].
  - rewrite Hcs1, Hfound. assert (Hsz : size (w_bulbs_table w) = S (size (delete a (w_bulbs_table w)))).
    { rewrite <- (map_size_insert_None a b) by (apply lookup_delete_eq). by rewrite insert_delete_id. }
    rewrite Hsz. lia.
  - rewrite Hcs2, Hon, <- power_count_delete by (by eexists). apply power_count_ext.
    intros a' [b' [Hne Hb']%lookup_delete_Some]. rewrite HP by (by eexists). unfold power_of.
    by rewrite Hdel.
Qed.

(** The counters after [lgtd_stats_add]. *)
Lemma wp_stats_add f v w (Q : unit -> world -> Prop) :
  0 <= get_counter f (w_counters w) + v ->
  Q tt (set_w_counters (set_counter f (get_counter f (w_counters w) + v) (w_counters w)) w) ->
  wp (lgtd_stats_add f v) Q w.
Proof.
  intros Hv HQ. unfold lgtd_stats_add. apply wp_bind, wp_get. apply wp_bind, wp_assert; [by apply Z.leb_le|].
  by apply wp_modify.
Qed.

(** [bulb_close] on a bulb that is being closed. *)
Lemma wp_bulb_close T P p a b w (Q : unit -> world -> Prop) :
  closing T P p a w -> w_bulbs_table w !! a = Some b -> bulb_gw b = p ->
  (forall a' i, a' <> a -> 0 <= i < 64 -> T a' i = tags_of (w_bulbs_table w) a' i) ->
  (forall a', is_Some (w_bulbs_table w !! a') -> P a' = power_of (w_bulbs_table w) a') ->
  (forall cs, device_ok (set_w_bulbs_table (delete a (w_bulbs_table w)) (set_w_counters cs w)) ->
     stats_frame (w_counters w) cs ->
     Q tt (set_w_bulbs_table (delete a (w_bulbs_table w)) (set_w_counters cs w))) ->
  wp (lgtd_lifx_bulb_close a) Q w.
Proof.
  intros Hcl Ha Hbp HT HP HQ. pose proof Hcl as [Hinv [gw Hp] Hta]. specialize (Hinv gw Hp).
  unfold lgtd_lifx_bulb_close. apply wp_bind. eapply wp_get_bulb; [done|]. cbv beta. rewrite Hbp.
  apply wp_bind. eapply wp_get_gw; [done|]. cbv beta.
  destruct (dv_counts _ _ _ Hinv p (set_gw_bulbs (a :: gw_bulbs gw) gw)) as [Hnd Hlen Hl Hr];
    [apply gw_put_lookup|]. fields_in Hnd. fields_in Hlen. fields_in Hl. fields_in Hr.
  apply NoDup_cons in Hnd as [Hni Hnd].
  pose proof (bi_ok _ _ (dv_bulbs _ _ _ Hinv) a b Ha) as Hok.
  rewrite foreach_tag_id_bits by apply Hok.
  apply wp_bind. apply (wp_foreach (fun l w' => w' = w /\ forall i, i ∈ l -> 0 <= i < 64)).
  { split; [done|]. by intros i [? _]%elem_of_tag_bits. }
  { intros i l w' [-> Hids]. specialize (Hids i ltac:(by left)) as Hi. apply wp_bind. unfold wp at 1.
    rewrite count_tagged_ret; [|done|].
    - apply wp_bind. unfold get_refcount. apply wp_bind. eapply wp_get_gw; [done|].
      eapply wp_deref; [by apply Hr|]. apply wp_assert.
      + apply Z.eqb_eq. rewrite tag_count_cons, Hta by done. simpl. apply tag_count_ext.
        intros x Hx. rewrite HT; [done|by intros ->|done].
      + split; [done|]. intros j Hj. apply Hids. by right.
    - intros x Hx. split; [by intros ->|].
      destruct (bi_bulbs _ _ (dv_bulbs _ _ _ Hinv) p (set_gw_bulbs (a :: gw_bulbs gw) gw) x)
        as (bx & Hbx & _); [apply gw_put_lookup|fields; by right|by eexists]. }
  intros w' [-> _].
  assert (Hsz : (1 <= size (w_bulbs_table w))%nat).
  { destruct (size (w_bulbs_table w)) eqn:Hz; [|lia]. apply map_size_empty_inv in Hz.
    rewrite Hz, lookup_empty in Ha. done. }
  pose proof (dv_found _ _ _ Hinv) as Hfound. pose proof (dv_on _ _ _ Hinv) as Hon.
  unfold gw_put in Hfound, Hon. fields_in Hfound. fields_in Hon.
  apply wp_bind, wp_stats_add; cbn [get_counter set_counter]; [lia|].
  assert (Hpa : P a = (ls_power (bulb_state b) =? LGTD_LIFX_POWER_ON)).
  { rewrite HP by (by eexists). unfold power_of. by rewrite Ha. }
  apply wp_bind. apply wp_when; intros Hpw; rewrite Hpw in Hpa.
  - assert (Hon1 : 1 <= power_count P (w_bulbs_table w)).
    { pose proof (power_count_delete P _ a (ex_intro _ b Ha)) as Hpd. rewrite Hpa in Hpd. simpl in Hpd.
      pose proof (power_count_nonneg P (delete a (w_bulbs_table w))). lia. }
    apply wp_stats_add; cbn [get_counter set_counter]; fields; [lia|].
    apply wp_modify. eapply HQ; [|done].
    eapply closing_delete; [done..| |]; fields; rewrite ?Hpa; simpl; lia.
  - apply wp_modify. eapply HQ; [|done].
    eapply closing_delete; [done..| |]; fields; rewrite ?Hpa; simpl; lia.
Qed.

(** Removing a bulb from the list of its gateway starts to close it. *)
Lemma closing_start T P p a b gw w :
  device_inv T P w -> w_gateways w !! p = Some gw -> w_bulbs_table w !! a = Some b -> bulb_gw b = p ->
  (forall i, 0 <= i < 64 -> T a i = false) ->
  closing T P p a (gw_put p (set_gw_bulbs (filter (fun x => x <> a) (gw_bulbs gw)) gw) w).
Proof.
  intros Hd Hp Ha Hbp HT. constructor; [|eexists; apply gw_put_lookup|done].
  intros gw1. rewrite gw_put_lookup. intros [= <-]. rewrite gw_put_put. fields.
  assert (Hin : a ∈ gw_bulbs gw).
  { destruct (bi_gw _ _ (dv_bulbs _ _ _ Hd) a b Ha) as (gw' & Hp' & Hin). congruence. }
  assert (Hmem : forall x, x ∈ a :: filter (fun x => x <> a) (gw_bulbs gw) <-> x ∈ gw_bulbs gw).
  { intros x. rewrite elem_of_cons, list_elem_of_filter. destruct (decide (x = a)) as [->|]; tauto. }
  pose proof (dv_counts _ _ _ Hd p gw Hp) as [Hnd Hlen Hl Hr].
  assert (Hlen' := length_filter_ne a (gw_bulbs gw) Hnd Hin).
  destruct Hd as [[Hcl Hg] Hc [Hok Hgw Hbs] Hfound Hon]. constructor; unfold gw_put; fields; try done.
  - constructor; fields; [done|]. intros p' gw'. rewrite lookup_insert. case_decide; [|apply Hg].
    intros [= <-]. destruct (Hg p gw Hp) as [[q []] ?]. split; [|done]. exists q. by constructor.
  - intros p' gw'. rewrite lookup_insert. case_decide; [|apply Hc]. intros [= <-].
    constructor; fields; [|cbn [length]; lia|done|].
    + apply NoDup_cons. split; [rewrite list_elem_of_filter; tauto|by apply NoDup_filter].
    + intros i Hi. rewrite Hr by done. f_equal. rewrite tag_count_cons, tag_count_remove by done. lia.
  - constructor; [done| |].
    + intros a' b' Hb'. destruct (Hgw a' b' Hb') as (gw' & Hp' & Hin'). rewrite lookup_insert.
      case_decide as Hd; [|by exists gw']. eexists. split; [done|]. fields. apply Hmem. congruence.
    + intros p' gw' a'. rewrite lookup_insert. case_decide as Hd; [|apply Hbs].
      intros [= <-]. fields. rewrite Hmem. subst p'. by apply Hbs.
Qed.

Lemma wp_remove_and_close_bulb w p gw a b (Q : unit -> world -> Prop) :
  device_ok w -> w_gateways w !! p = Some gw -> w_bulbs_table w !! a = Some b -> bulb_gw b = p ->
  (forall w' gw', device_ok w' -> rest_frame w w' ->
     dom (w_bulbs_table w') = dom (w_bulbs_table w) ∖ {[a]} ->
     (forall a', a' <> a -> option_Forall2 bulb_frame (w_bulbs_table w !! a') (w_bulbs_table w' !! a')) ->
     w_gateways w' !! p = Some gw' -> gw_bulbs gw' = filter (fun x => x <> a) (gw_bulbs gw) ->
     Q tt w') ->
  wp (lgtd_lifx_gateway_remove_and_close_bulb p a) Q w.
Proof.
  intros Hd Hp Ha Hbp HQ. unfold lgtd_lifx_gateway_remove_and_close_bulb.
  assert (Hin : a ∈ gw_bulbs gw).
  { destruct (bi_gw _ _ (dv_bulbs _ _ _ Hd) a b Ha) as (gw' & Hp' & Hin). congruence. }
  pose proof (bi_ok _ _ (dv_bulbs _ _ _ Hd) a b Ha) as Hok.
  apply wp_bind. eapply wp_get_bulb; [done|]. cbv beta. rewrite foreach_tag_id_bits by apply Hok.
  apply wp_bind. eapply (wp_foreach_refs _ p a false _ _ _ w gw);
    [apply close_tag_ref_step|apply NoDup_tag_bits| |exact Hd|done|done|].
  { intros i [Hi Hb]%elem_of_tag_bits. split; [done|]. unfold tags_of. by rewrite Ha. }
  intros w1 Hd1 Hf1. destruct (gateway_after _ _ _ _ _ _ Hf1 Hp) as (gw1 & Hp1 & Hfr1).
  destruct (bulb_after _ _ _ _ _ _ Hf1 Ha) as (b1 & Ha1 & d & e & ->).
  apply wp_bind. eapply wp_get_gw; [done|]. cbv beta.
  rewrite (rf_bulbs _ _ Hfr1), bool_decide_eq_true_2 by done.
  apply wp_bind. eapply wp_upd_gw; [done|].
  eapply wp_bulb_close; [eapply closing_start; [exact Hd1|done|exact Ha1|done|]|exact Ha1|done| | |].
  - intros i Hi. cbv beta. case_bool_decide as Hc; [done|]. unfold tags_of. rewrite Ha.
    destruct (Z.testbit (ls_tags (bulb_state b)) i) eqn:Hb; [|done]. destruct Hc. split; [done|].
    by apply elem_of_tag_bits.
  - intros a' i Hne Hi. cbv beta. rewrite bool_decide_eq_false_2 by naive_solver.
    symmetry. exact (tags_of_frame _ _ _ _ Hf1 a' i).
  - intros a' _. symmetry. exact (power_of_frame _ _ _ _ Hf1 a').
  - intros cs Hdok Hst. eapply HQ; [exact Hdok| | | |apply gw_put_lookup|].
    + etransitivity; [by apply frame_rest_frame, ref_frame_power|]. destruct Hst.
      constructor; unfold gw_put; fields; try done; try lia. intros k. rewrite lookup_insert.
      case_decide as Hk; [|reflexivity]. subst k. rewrite Hp1. by do 2 constructor.
    + unfold gw_put. fields. rewrite dom_delete_L. f_equal. by eapply frame_dom_bulbs.
    + intros a' Hne. unfold gw_put. fields. rewrite lookup_delete_ne by done. apply (sf_bulbs _ _ _ _ Hf1).
    + fields. by rewrite (rf_bulbs _ _ Hfr1).
Qed.

(** ** Opening a bulb *)

(** The invariant reads four parts of the state. *)
Lemma device_ok_same w w' :
  w_gateways w' = w_gateways w -> w_bulbs_table w' = w_bulbs_table w ->
  w_counters w' = w_counters w -> w_client_id w' = w_client_id w -> device_ok w -> device_ok w'.
Proof.
  intros HG HB HC HI Hd. unfold device_ok in *. rewrite HB. destruct Hd as [[Hc Hg] Hcs Hb Hf Ho].
  constructor; [constructor|..]; rewrite ?HI, ?HG, ?HB, ?HC; done.
Qed.

Lemma device_ok_open w p gw a b cs :
  device_ok w -> w_gateways w !! p = Some gw -> w_bulbs_table w !! a = None ->
  (length (gw_bulbs gw) < 255)%nat -> bulb_ok a b -> bulb_gw b = p ->
  ls_tags (bulb_state b) = 0 -> ls_power (bulb_state b) = 0 ->
  stats_bulbs cs = stats_bulbs (w_counters w) + 1 ->
  stats_bulbs_powered_on cs = stats_bulbs_powered_on (w_counters w) ->
  device_ok (gw_put p (set_gw_bulbs (a :: gw_bulbs gw) gw) (set_w_counters cs (bulb_put a b w))).
Proof.
  intros Hd Hp Ha Hlt Hbok Hbp Htags Hpow Hcs1 Hcs2.
  destruct Hd as [[Hcl Hg] Hc [Hok Hgw Hbs] Hfound Hon]. unfold device_ok, gw_put, bulb_put. fields.
  assert (Hni : a ∉ gw_bulbs gw).
  { intros Hin. destruct (Hbs p gw a Hp Hin) as (b1 & Hb1 & _). congruence. }
  assert (HT : forall x i, x <> a -> tags_of (<[a := b]> (w_bulbs_table w)) x i = tags_of (w_bulbs_table w) x i).
  { intros x i Hx. unfold tags_of. by rewrite lookup_insert_ne. }
  constructor; fields.
  - constructor; fields; [done|]. intros p' gw'. rewrite lookup_insert. case_decide; [|apply Hg].
    intros [= <-]. destruct (Hg p gw Hp) as [[q []] ?]. split; [|done]. exists q. by constructor.
  - intros p' gw'. rewrite lookup_insert. case_decide as Hd.
    + intros [= <-]. destruct (Hc p gw Hp) as [Hnd Hlen Hl Hr].
      constructor; fields; [by apply NoDup_cons|simpl; lia|done|].
      intros i Hi. rewrite Hr, tag_count_cons by done. unfold tags_of at 2. rewrite lookup_insert_eq, Htags.
      rewrite Z.bits_0. simpl. f_equal. apply tag_count_ext. intros x Hx. rewrite HT; [done|by intros ->].
    + intros Hp'. destruct (Hc p' gw' Hp') as [Hnd Hlen Hl Hr]. constructor; try done.
      intros i Hi. rewrite Hr by done. f_equal. apply tag_count_ext. intros x Hx. rewrite HT; [done|].
      intros ->. destruct (Hbs p' gw' a Hp' Hx) as (b1 & Hb1 & _). congruence.
  - constructor.
    + intros a' b'. rewrite lookup_insert. case_decide; [by intros [= <-]; subst|]. apply Hok.
    + intros a' b'. rewrite lookup_insert. case_decide as Hd.
      * intros [= <-]. subst a'. rewrite Hbp. eexists. rewrite lookup_insert_eq. split; [done|]. fields. by left.
      * intros Hb'. destruct (Hgw a' b' Hb') as (gw' & Hp' & Hin). rewrite lookup_insert.
        case_decide as Hd'; [|by exists gw']. eexists. split; [done|]. fields. right. congruence.
    + intros p' gw' a'. rewrite lookup_insert. case_decide as Hd.
      * intros [= <-]. fields. subst p'. intros [->|Hin]%elem_of_cons.
        -- exists b. by rewrite lookup_insert_eq.
        -- rewrite lookup_insert_ne by (by intros ->). by eapply Hbs.
      * intros Hp' Hin. rewrite lookup_insert_ne; [by eapply Hbs|]. intros <-.
        destruct (Hbs p' gw' a Hp' Hin) as (b1 & Hb1 & _). congruence.
  - rewrite Hcs1, Hfound, map_size_insert_None by done. lia.
  - rewrite Hcs2, Hon, power_count_insert by done. unfold power_of at 3. rewrite lookup_insert_eq, Hpow.
    simpl. rewrite Z.add_0_r. apply power_count_ext. intros x [bx Hx]. unfold power_of.
    rewrite lookup_insert_ne by congruence. done.
Qed.

Lemma wp_timer_start now_ persistent ms cb ctx w (Q : option timer_ptr -> world -> Prop) :
  0 < ms ->
  (forall rs, Q None (set_w_os_results rs w)) ->
  (forall rs tm, timer_callback tm = cb -> timer_ctx tm = ctx ->
     Q (Some (fresh_ptr (w_timers w)))
       (set_w_timers (<[fresh_ptr (w_timers w) := tm]> (w_timers w)) (set_w_os_results rs w))) ->
  wp (lgtd_timer_start now_ persistent ms cb ctx) Q w.
Proof.
  intros Hms HN HS. unfold lgtd_timer_start. apply wp_bind, wp_assert; [by apply Z.ltb_lt|].
  apply wp_bind, wp_os_call. intros [] rs1; cbn [negb]; [|apply wp_ret, HN].
  apply wp_bind, wp_os_call. intros [] rs2; cbn [negb]; [|apply wp_ret, (HN rs2)].
  apply wp_bind, wp_os_call. intros [] rs3; cbn [negb]; [|apply wp_ret, (HN rs3)].
  apply wp_bind, wp_get. cbv zeta. apply wp_bind, wp_modify, wp_ret. fields.
  exact (HS rs3 {| timer_callback := cb; timer_ctx := ctx; timer_persistent := persistent;
                   timer_timeout := Some ms; timer_active := now_ |} eq_refl eq_refl).
Qed.

Lemma timers_grow_insert tms tm :
  hardware_timer tm -> timers_grow tms (<[fresh_ptr tms := tm]> tms).
Proof.
  intros Htm. pose proof (fresh_ptr_fresh tms) as Hf. split; intros t tm' Ht.
  - rewrite lookup_insert_ne; [done|]. intros <-. congruence.
  - rewrite lookup_insert in Ht. case_decide; [|by left]. injection Ht as <-. by right.
Qed.

(** An address whose timer context is not the null one. *)
Lemma timer_context_nonzero a :
  Forall is_byte a -> a <> replicate (length a) 0 -> load (a ++ [0; 0]) <> 0.
Proof.
  intros Hb Hne Hz. apply Hne.
  assert (Hb' : Forall is_byte (a ++ [0; 0])).
  { apply Forall_app. split; [done|]. repeat constructor; unfold is_byte; lia. }
  pose proof (store_load _ Hb') as Hs. rewrite Hz in Hs.
  assert (Hzero : forall n, store n 0 = replicate n 0).
  { intros n. unfold store. assert (He : le_bytes n 0 = replicate n 0)
      by (induction n as [|n IH]; [done|]; cbn [le_bytes]; change (0 / 256) with 0; by rewrite IH).
    destruct LGTD_BIG_ENDIAN_SYSTEM; [|done]. rewrite He, rev_alt. fold (reverse (replicate n 0)).
    by rewrite reverse_replicate. }
  rewrite Hzero, length_app in Hs. simpl in Hs. rewrite replicate_add in Hs.
  apply app_inj_1 in Hs as [Hs _]; [done|]. by rewrite length_replicate.
Qed.

(** The handlers find the bulb of a packet or open it; when its gateway has room
    the invariant holds afterwards. *)
Lemma wp_get_or_open_bulb w p gw a (Q : option addr -> world -> Prop) :
  device_ok w -> w_gateways w !! p = Some gw -> length a = 6%nat -> Forall is_byte a ->
  (is_Some (w_bulbs_table w !! a)
   \/ (length (gw_bulbs gw) < 255)%nat /\ a <> replicate 6 0) ->
  (forall w', device_ok w' -> rest_frame w w' -> is_Some (w_bulbs_table w' !! a) -> Q (Some a) w') ->
  (forall w', device_ok w' -> rest_frame w w' -> Q None w') ->
  wp (lgtd_lifx_gateway_get_or_open_bulb p a) Q w.
Proof.
  intros Hd Hp Hlen Hbytes Hroom HS HN. unfold lgtd_lifx_gateway_get_or_open_bulb.
  apply wp_bind. unfold lgtd_lifx_bulb_get. apply wp_bind, wp_get, wp_ret.
  assert (Htake : take LGTD_LIFX_ADDR_LENGTH a = a) by (apply take_ge; unfold LGTD_LIFX_ADDR_LENGTH; lia).
  rewrite Htake. destruct (w_bulbs_table w !! a) as [b|] eqn:Ha.
  { apply wp_ret, HS; [done|reflexivity|by eexists]. }
  destruct Hroom as [[? ?]|[Hroom Hnz]]; [done|].
  apply wp_bind. unfold lgtd_lifx_bulb_open. apply wp_bind, wp_os_call. intros [] rs; cbn [negb].
  2:{ apply wp_ret, wp_ret, HN; [by apply (device_ok_same w)|]. constructor; fields; done || lia. }
  rewrite Htake. apply wp_bind, wp_get. fields. rewrite Ha.
  apply wp_bind, wp_modify. apply wp_bind, wp_stats_add; cbn [get_counter set_counter]; fields.
  { rewrite (dv_found _ _ _ Hd). lia. }
  apply wp_bind, wp_time. intros t ds Ht. fields.
  apply wp_bind. eapply wp_upd_bulb; [fields; apply lookup_insert_eq|].
  apply wp_bind. apply wp_timer_start; [unfold LGTD_LIFX_BULB_FETCH_HARDWARE_INFO_TIMER_MSECS; lia| |].
  all: [> intros rs'|intros rs' tm Hcb Hctx].
  all: apply wp_ret; apply wp_bind; eapply wp_upd_gw; [unfold bulb_put; fields; exact Hp|].
  all: apply wp_ret; apply HS.
  all: try (unfold gw_put, bulb_put; fields; rewrite lookup_insert_eq; by eexists).
  1, 3: eapply device_ok_same;
    [..|apply (device_ok_open w p gw a (set_bulb_last_light_state_at t (new_bulb p a))
                 (set_stats_bulbs (stats_bulbs (w_counters w) + 1) (w_counters w)))];
    unfold gw_put, bulb_put; fields; rewrite ?insert_insert_eq; try done.
  1, 2: by constructor; unfold new_bulb; fields; [| |cbn; lia|left|].
  - constructor; unfold gw_put, bulb_put; fields; try done; try lia. intros k.
    rewrite lookup_insert. case_decide as Hk; [|reflexivity]. subst k. rewrite Hp. by do 2 constructor.
  - constructor; unfold gw_put, bulb_put; fields; try done; try lia.
    + intros k. rewrite lookup_insert. case_decide as Hk; [|reflexivity]. subst k. rewrite Hp.
      by do 2 constructor.
    + apply timers_grow_insert. split; [done|]. eexists. split; [done|].
      apply timer_context_nonzero; [done|]. by rewrite Hlen.
Qed.

End Operations.
