(* ===== verification/Invariant.v ===== *)
(** * The invariant of the daemon

    What holds between two events: the devices, the tags, the timers, the list of
    gateways and the counters are consistent with each other. This file states
    it and proves that the operations of gateways keep it. *)

From Stdlib Require Import ZArith Lia.
From stdpp Require Import base tactics list gmap.
From S2P Require Import Prelude CLib WireBits PacketInfo WireProto World Tagging GatewayQueue.
From S2P Require Import BulbTable Router Bulb Gateway QueueSpec TagsInv SendSpec DeviceInv.
From S2P Require Import DeviceOps.

(** ** Statement *)

(** The ids in use are the cells that have a tag. *)
Record tag_ids_ok (gw : lgtd_lifx_gateway) : Prop := {
  tio_length : length (gw_tags gw) = 64%nat;
  tio_range : 0 <= gw_tag_ids gw < 2 ^ 64;
  tio_bits : forall i, (i < 64)%nat ->
    Z.testbit (gw_tag_ids gw) (Z.of_nat i) = true <-> is_Some (mjoin (gw_tags gw !! i))
}.

Definition refresh_timer_of (p : gw_ptr) (tm : lgtd_timer) : Prop :=
  timer_callback tm = lgtd_lifx_gateway_refresh_callback_fn /\ timer_ctx tm = ctx_as_ptr p.

Record rest_inv (w : world) : Prop := {
  ri_nodup : NoDup (w_gateway_list w);
  ri_list : forall p, p ∈ w_gateway_list w <-> is_Some (w_gateways w !! p);
  ri_socket : forall p gw, w_gateways w !! p = Some gw -> gw_socket gw <> -1;
  ri_tag_ids : forall p gw, w_gateways w !! p = Some gw -> tag_ids_ok gw;
  ri_tags : tags_inv (w_gateways w) (w_tags w) (w_tag_list w);
  ri_refresh : forall p gw, w_gateways w !! p = Some gw ->
    exists tm, w_timers w !! gw_refresh_timer gw = Some tm /\ refresh_timer_of p tm;
  ri_timers : forall t tm, w_timers w !! t = Some tm ->
    hardware_timer tm
    \/ exists p gw, refresh_timer_of p tm /\ w_gateways w !! p = Some gw /\ gw_refresh_timer gw = t;
  ri_found : stats_gateways (w_counters w) = Z.of_nat (size (w_gateways w));
  ri_now : 0 < w_now w < 2 ^ 64
}.

Record world_inv (w : world) : Prop := {
  wi_devices : device_ok w;
  wi_rest : rest_inv w
}.

(** ** Frames *)

Lemma rest_gateway_after w w' p gw :
  rest_frame w w' -> w_gateways w !! p = Some gw ->
  exists gw', w_gateways w' !! p = Some gw' /\ rest_gw_frame gw gw'.
Proof.
  intros Hf Hp. pose proof (re_gateways _ _ Hf p) as Hr. rewrite Hp in Hr. inversion Hr; subst. by eexists.
Qed.

Lemma rest_gateway_before w w' p gw' :
  rest_frame w w' -> w_gateways w' !! p = Some gw' ->
  exists gw, w_gateways w !! p = Some gw /\ rest_gw_frame gw gw'.
Proof.
  intros Hf Hp. pose proof (re_gateways _ _ Hf p) as Hr. rewrite Hp in Hr. inversion Hr; subst. by eexists.
Qed.

Lemma rest_frame_dom w w' : rest_frame w w' -> dom (w_gateways w') = dom (w_gateways w).
Proof.
  intros Hf. apply leibniz_equiv. intros p. rewrite !elem_of_dom.
  destruct (re_gateways _ _ Hf p); split; intros [? ?]; done.
Qed.

Lemma rest_frame_cell w w' p i : rest_frame w w' -> cell (w_gateways w) p i = cell (w_gateways w') p i.
Proof.
  intros Hf. unfold cell. destruct (re_gateways _ _ Hf p) as [gw gw' Hfr|]; [|done]. simpl.
  by rewrite (ro_tags _ _ Hfr).
Qed.

Lemma rest_inv_frame w w' : rest_inv w -> rest_frame w w' -> rest_inv w'.
Proof.
  intros Hi Hf. destruct Hi as [Hnd Hl Hso Hti Hta Hre Hti' Hfo Hno]. constructor.
  - by rewrite (re_gateway_list _ _ Hf).
  - intros p. rewrite (re_gateway_list _ _ Hf), Hl.
    destruct (re_gateways _ _ Hf p); split; intros [? ?]; done.
  - intros p gw' Hp'. destruct (rest_gateway_before _ _ _ _ Hf Hp') as (gw & Hp & Hfr).
    rewrite (ro_socket _ _ Hfr). by eapply Hso.
  - intros p gw' Hp'. destruct (rest_gateway_before _ _ _ _ Hf Hp') as (gw & Hp & Hfr).
    destruct (Hti p gw Hp). constructor; rewrite ?(ro_tags _ _ Hfr), ?(ro_tag_ids _ _ Hfr); done.
  - rewrite (re_tags _ _ Hf), (re_tag_list _ _ Hf). eapply tags_inv_cells; [|done].
    intros p i. by apply rest_frame_cell.
  - intros p gw' Hp'. destruct (rest_gateway_before _ _ _ _ Hf Hp') as (gw & Hp & Hfr).
    destruct (Hre p gw Hp) as (tm & Ht & Hrt). exists tm. rewrite (ro_refresh_timer _ _ Hfr).
    split; [|done]. by apply (re_timers _ _ Hf).
  - intros t tm Ht. destruct (proj2 (re_timers _ _ Hf) t tm Ht) as [Ht'|]; [|by left].
    destruct (Hti' t tm Ht') as [|(p & gw & Hrt & Hp & Hg)]; [by left|right].
    destruct (rest_gateway_after _ _ _ _ Hf Hp) as (gw' & Hp' & Hfr). exists p, gw'.
    by rewrite (ro_refresh_timer _ _ Hfr).
  - rewrite (re_gateways_found _ _ Hf), Hfo, <- !size_dom. by rewrite (rest_frame_dom _ _ Hf).
  - pose proof (re_now _ _ Hf). lia.
Qed.

(** [m] keeps the invariant and the set of gateways. *)
Definition keeps {A} (m : M world A) (w : world) : Prop :=
  wp m (fun _ w' => world_inv w' /\ dom (w_gateways w') = dom (w_gateways w)) w.

Lemma keeps_seq {A B} (m : M world A) (k : A -> M world B) w :
  keeps m w ->
  (forall a w', world_inv w' -> dom (w_gateways w') = dom (w_gateways w) -> keeps (k a) w') ->
  keeps (m ≫= k) w.
Proof.
  intros Hm Hk. apply wp_bind. eapply wp_mono; [exact Hm|]. intros a w' [Hi Hd].
  eapply wp_mono; [by apply Hk|]. intros b w'' [Hi' Hd']. split; [done|congruence].
Qed.

Lemma keeps_mret {A} (a : A) w : world_inv w -> keeps (mret a) w.
Proof. intros Hi. by apply wp_ret. Qed.

Lemma keeps_of_devices {A} (m : M world A) w : world_inv w -> keeps_devices m w -> keeps m w.
Proof.
  intros [Hd Hr] Hk. eapply wp_mono; [exact Hk|]. intros a w' (Hd' & Hf & _).
  split; [|by apply rest_frame_dom]. constructor; [done|]. by eapply rest_inv_frame.
Qed.

Lemma keeps_of_sends {A} (m : M world A) w : world_inv w -> sends m w -> keeps m w.
Proof. intros Hi Hs. apply keeps_of_devices; [done|]. apply keeps_sends; [apply Hi|done]. Qed.

Lemma gateway_of_dom (w w' : world) p :
  dom (w_gateways w') = dom (w_gateways w) -> is_Some (w_gateways w !! p) -> is_Some (w_gateways w' !! p).
Proof. intros Hd Hp. rewrite <- elem_of_dom, Hd. by apply elem_of_dom. Qed.

(** ** Timers *)

(** Timers can be rescheduled and made active, and those of bulbs stopped. *)
Lemma world_inv_timer_put w t tm tm' :
  world_inv w -> w_timers w !! t = Some tm ->
  timer_callback tm' = timer_callback tm -> timer_ctx tm' = timer_ctx tm ->
  world_inv (set_w_timers (<[t := tm']> (w_timers w)) w).
Proof.
  intros [Hd Hr] Ht Hcb Hctx. constructor; [by apply (device_ok_same w)|].
  destruct Hr as [Hnd Hl Hso Hti Hta Hre Hti' Hfo Hno]. constructor; fields; try done.
  - intros p gw Hp. destruct (Hre p gw Hp) as (tm1 & Ht1 & [H1 H2]). rewrite lookup_insert.
    case_decide as Hdec; [|exists tm1; done]. exists tm'. split; [done|].
    assert (tm1 = tm) as -> by congruence. split; congruence.
  - intros t1 tm1. rewrite lookup_insert. case_decide as Hdec; [|apply Hti']. intros [= <-]. subst t1.
    destruct (Hti' t tm Ht) as [[H1 (n & H2 & H3)]|(p & gw & [H1 H2] & Hp & Hg)].
    + left. split; [congruence|]. exists n. split; [congruence|done].
    + right. exists p, gw. split_and!; [split; congruence|done|done].
Qed.

Lemma world_inv_timer_delete w t tm :
  world_inv w -> w_timers w !! t = Some tm -> hardware_timer tm ->
  world_inv (set_w_timers (delete t (w_timers w)) w).
Proof.
  intros [Hd Hr] Ht Hhw. constructor; [by apply (device_ok_same w)|].
  destruct Hr as [Hnd Hl Hso Hti Hta Hre Hti' Hfo Hno]. constructor; fields; try done.
  - intros p gw Hp. destruct (Hre p gw Hp) as (tm1 & Ht1 & [H1 H2]). exists tm1.
    rewrite lookup_delete_ne; [done|]. intros ->. destruct Hhw as [H3 _]. congruence.
  - intros t1 tm1 [_ Ht1]%lookup_delete_Some. by apply Hti'.
Qed.

Lemma world_inv_os w rs : world_inv w -> world_inv (set_w_os_results rs w).
Proof.
  intros [Hd Hr]. constructor; [by apply (device_ok_same w)|].
  eapply rest_inv_frame; [done|]. constructor; fields; done || lia.
Qed.

Lemma keeps_upd_timer w p gw f :
  world_inv w -> w_gateways w !! p = Some gw ->
  (forall tm, timer_callback (f tm) = timer_callback tm /\ timer_ctx (f tm) = timer_ctx tm) ->
  keeps (upd_timer (gw_refresh_timer gw) f) w.
Proof.
  intros Hi Hp Hf. destruct (ri_refresh _ (wi_rest _ Hi) p gw Hp) as (tm & Ht & _).
  unfold upd_timer. apply wp_bind. eapply wp_get_timer; [done|]. apply wp_modify.
  split; [|done]. eapply world_inv_timer_put; [done|done|apply Hf|apply Hf].
Qed.

Lemma keeps_reschedule w p gw ms :
  world_inv w -> w_gateways w !! p = Some gw -> keeps (lgtd_timer_reschedule (gw_refresh_timer gw) ms) w.
Proof.
  intros Hi Hp. unfold lgtd_timer_reschedule. apply wp_bind, wp_os_call. intros ok rs.
  apply (world_inv_os _ rs) in Hi. change (keeps (mwhen ok (upd_timer (gw_refresh_timer gw)
    (set_timer_timeout (Some ms))) ;; mret ok) (set_w_os_results rs w)).
  eapply keeps_seq; [|intros; by apply keeps_mret].
  destruct ok; [|by apply keeps_mret]. by eapply keeps_upd_timer.
Qed.

Lemma keeps_activate w p gw :
  world_inv w -> w_gateways w !! p = Some gw -> keeps (lgtd_timer_activate (gw_refresh_timer gw)) w.
Proof. intros Hi Hp. by eapply keeps_upd_timer. Qed.

(** ** Tag ids *)

(** Assignments to fields of a gateway the devices do not depend on. *)
Lemma device_ok_gw_put w p gw gw' :
  device_ok w -> w_gateways w !! p = Some gw ->
  gw_bulbs gw' = gw_bulbs gw -> gw_tag_refcounts gw' = gw_tag_refcounts gw ->
  gw_site gw' = gw_site gw -> (forall q, queue_repr gw q -> exists q', queue_repr gw' q') ->
  device_ok (gw_put p gw' w).
Proof.
  intros [[Hcl Hg] Hc [Hok Hgw Hbs] Hfound Hon] Hp Hb Hrc Hsite Hq.
  unfold device_ok, gw_put. fields. constructor; fields; try done.
  - constructor; fields; [done|]. intros p' gw1. rewrite lookup_insert. case_decide; [|apply Hg].
    intros [= <-]. destruct (Hg p gw Hp) as [[q Hqr] Hs]. split; [by eapply Hq|congruence].
  - intros p' gw1. rewrite lookup_insert. case_decide; [|apply Hc]. intros [= <-].
    destruct (Hc p gw Hp). constructor; rewrite ?Hb, ?Hrc; done.
  - constructor; [done| |].
    + intros a b Hab. destruct (Hgw a b Hab) as (gw1 & Hp1 & Hin). rewrite lookup_insert.
      case_decide as Hd; [|by exists gw1]. exists gw'. split; [done|]. rewrite Hb. congruence.
    + intros p' gw1 a. rewrite lookup_insert. case_decide as Hd; [|apply Hbs]. intros [= <-].
      rewrite Hb. subst p'. by apply Hbs.
Qed.

(** Setting or clearing a cell with its bit. *)
Lemma tag_ids_ok_set gw i v :
  tag_ids_ok gw -> (i < 64)%nat ->
  let bit := LGTD_LIFX_WIRE_TAG_ID_TO_VALUE (Z.of_nat i) in
  tag_ids_ok (set_gw_tags (<[i := v]> (gw_tags gw))
    (set_gw_tag_ids (match v with
                     | Some _ => Z.lor (gw_tag_ids gw) bit
                     | None => Z.land (gw_tag_ids gw) (Z.lnot bit)
                     end) gw)).
Proof.
  intros [Hl Hr Hb] Hi bit. unfold bit. rewrite TAG_ID_TO_VALUE_pow by lia.
  assert (Hpow : forall j, Z.testbit (2 ^ Z.of_nat i) (Z.of_nat j) = bool_decide (j = i)).
  { intros j. destruct (decide (j = i)) as [->|Hne].
    - rewrite Z.pow2_bits_true by lia. by rewrite bool_decide_eq_true_2.
    - rewrite Z.pow2_bits_false by lia. by rewrite bool_decide_eq_false_2. }
  constructor; fields.
  - by rewrite length_insert.
  - destruct v; [|by apply u64_land_bound].
    assert (Hp2 : 0 <= 2 ^ Z.of_nat i < 2 ^ 64)
      by (split; [lia|apply Z.pow_lt_mono_r; lia]).
    split; [apply Z.lor_nonneg; lia|]. apply bits_below; [apply Z.lor_nonneg; lia|].
    intros j Hj. rewrite Z.lor_spec, !testbit_high by lia. done.
  - intros j Hj. destruct (decide (j = i)) as [->|Hne].
    + rewrite list_lookup_insert_eq by lia. destruct v; simpl.
      * rewrite Z.lor_spec, Hpow, bool_decide_eq_true_2, orb_true_r by done. split; [by eexists|done].
      * rewrite Z.land_spec, Z.lnot_spec, Hpow, bool_decide_eq_true_2, andb_false_r by (done || lia).
        split; [done|]. by intros [? ?].
    + rewrite list_lookup_insert_ne by done. rewrite <- Hb by done. destruct v.
      * by rewrite Z.lor_spec, Hpow, bool_decide_eq_false_2, orb_false_r.
      * rewrite Z.land_spec, Z.lnot_spec, Hpow, bool_decide_eq_false_2 by (done || lia).
        by rewrite andb_true_r.
Qed.

Lemma queue_repr_tags gw tags ids q : queue_repr gw q -> queue_repr (set_gw_tags tags (set_gw_tag_ids ids gw)) q.
Proof. intros []. by constructor. Qed.

(** The state after a cell was assigned together with its bit. *)
Definition cell_put (p : gw_ptr) (i : nat) (v : option tag_ptr) (gw : lgtd_lifx_gateway) (w : world) : world :=
  let bit := LGTD_LIFX_WIRE_TAG_ID_TO_VALUE (Z.of_nat i) in
  gw_put p (set_gw_tags (<[i := v]> (gw_tags gw))
    (set_gw_tag_ids (match v with
                     | Some _ => Z.lor (gw_tag_ids gw) bit
                     | None => Z.land (gw_tag_ids gw) (Z.lnot bit)
                     end) gw)) w.

Lemma dom_gw_put w p gw gw' :
  w_gateways w !! p = Some gw -> dom (w_gateways (gw_put p gw' w)) = dom (w_gateways w).
Proof.
  intros Hp. unfold gw_put. fields. rewrite dom_insert_L.
  assert (p ∈ dom (w_gateways w)) by (apply elem_of_dom; by eexists). set_solver.
Qed.

Lemma world_inv_cell_put w p gw i v tags tl rs :
  world_inv w -> w_gateways w !! p = Some gw -> (i < 64)%nat ->
  tags_inv (set_cell p i v gw (w_gateways w)) tags tl ->
  world_inv (cell_put p i v gw (tags_put tags tl (set_w_os_results rs w))).
Proof.
  intros [Hd Hr] Hp Hi Htags. set (w1 := tags_put tags tl (set_w_os_results rs w)).
  assert (Hd1 : device_ok w1) by (by apply (device_ok_same w)).
  destruct Hr as [Hnd Hl Hso Hti Hta Hre Hti' Hfo Hno]. constructor.
  - eapply (device_ok_gw_put w1 p gw); try done. intros q Hq. exists q. by apply queue_repr_tags.
  - unfold cell_put. constructor; try done.
    + intros p'. unfold gw_put, w1, tags_put. fields. rewrite Hl, lookup_insert. case_decide; [|done].
      subst. rewrite Hp. naive_solver.
    + intros p' gw'. unfold gw_put, w1, tags_put. fields. rewrite lookup_insert.
      case_decide; [intros [= <-]; fields; by eapply (Hso p)|apply Hso].
    + intros p' gw'. unfold gw_put, w1, tags_put. fields. rewrite lookup_insert.
      case_decide; [|apply Hti]. intros [= <-]. apply tag_ids_ok_set; [by eapply Hti|done].
    + unfold w1, tags_put. fields. eapply tags_inv_cells; [|exact Htags]. intros q j.
      unfold set_cell, gw_put, cell. fields. rewrite !lookup_insert. by case_decide.
    + intros p' gw'. unfold gw_put, w1, tags_put. fields. rewrite lookup_insert.
      case_decide; [|apply Hre]. intros [= <-]. subst. fields. by apply Hre.
    + intros t tm. unfold gw_put, w1, tags_put. fields. intros Ht.
      destruct (Hti' t tm Ht) as [|(q & gwq & Hrt & Hq & Hg)]; [by left|right].
      destruct (decide (q = p)) as [->|Hne].
      * eexists p, _. rewrite lookup_insert_eq. split_and!; [done|done|]. fields. congruence.
      * exists q, gwq. by rewrite lookup_insert_ne.
    + unfold gw_put, w1, tags_put. fields. rewrite Hfo, map_size_insert_Some; [done|by eexists].
Qed.

Lemma world_inv_tags_put w tags tl rs :
  world_inv w -> tags_inv (w_gateways w) tags tl -> world_inv (tags_put tags tl (set_w_os_results rs w)).
Proof.
  intros [Hd Hr] Htags. constructor; [by apply (device_ok_same w)|]. by destruct Hr.
Qed.

(** A label that no tag of the gateway has. *)
Definition label_free (w : world) (p : gw_ptr) (label : list Z) : Prop :=
  forall j t tag, cell (w_gateways w) p j = Some t -> w_tags w !! t = Some tag ->
    cstr (tag_label tag) <> cstr label.

(** [allocate_tag_id] with an id that is given. *)
Lemma wp_allocate_known w p gw i label (Q : Z -> world -> Prop) :
  world_inv w -> w_gateways w !! p = Some gw -> (i < 64)%nat ->
  (length (cstr label) < LGTD_LIFX_LABEL_SIZE)%nat ->
  (is_Some (cell (w_gateways w) p i) -> Q (Z.of_nat i) w) ->
  (cell (w_gateways w) p i = None -> label_free w p label) ->
  (forall tags tl rs, spends (w_os_results w) rs True -> cell (w_gateways w) p i = None -> tags_inv (w_gateways w) tags tl ->
     tags_kept (w_tags w) tags -> Q (-1) (tags_put tags tl (set_w_os_results rs w))) ->
  (forall t tag tags tl rs, spends (w_os_results w) rs False -> cell (w_gateways w) p i = None ->
     tags_inv (set_cell p i (Some t) gw (w_gateways w)) tags tl -> tags_kept (w_tags w) tags ->
     tags !! t = Some tag -> cstr (tag_label tag) = cstr label ->
     Q (Z.of_nat i) (cell_put p i (Some t) gw (tags_put tags tl (set_w_os_results rs w)))) ->
  wp (allocate_known_tag_id p (Z.of_nat i) label) Q w.
Proof.
  intros Hi Hp Hi64 Hlab Hset Hfree HN HS. unfold allocate_known_tag_id.
  apply wp_bind. eapply wp_get_gw; [done|]. cbv beta.
  destruct (ri_tag_ids _ (wi_rest _ Hi) p gw Hp) as [Hl Hr Hb].
  assert (Hcell : cell (w_gateways w) p i = mjoin (gw_tags gw !! i)) by (unfold cell; by rewrite Hp).
  rewrite has_flag_bit by lia. destruct (Z.testbit (gw_tag_ids gw) (Z.of_nat i)) eqn:Hbit; cbn [negb].
  - apply wp_ret, Hset. rewrite Hcell. by apply Hb.
  - assert (Hnone : cell (w_gateways w) p i = None).
    { rewrite Hcell. destruct (mjoin (gw_tags gw !! i)) eqn:Hm; [|done].
      rewrite (proj2 (Hb i Hi64)) in Hbit by (by eexists). done. }
    apply wp_bind. eapply (wp_incref (w_gateways w) p gw i label w); try done.
    + apply (ri_tags _ (wi_rest _ Hi)).
    + by apply Hfree.
    + intros tags tl rs Hrs Htags Hk. apply wp_ret. by apply HN.
    + intros t tag tags tl rs Hrs Htags Hk Ht Htl.
      apply wp_bind. eapply wp_upd_gw; [exact Hp|]. apply wp_bind.
      eapply wp_upd_gw; [apply gw_put_lookup|]. rewrite gw_put_put. apply wp_ret. rewrite Nat2Z.id.
      by apply (HS t tag tags tl rs).
Qed.

(** [deallocate_tag_id]. *)
Lemma wp_deallocate_tag_id w p gw i (Q : unit -> world -> Prop) :
  world_inv w -> w_gateways w !! p = Some gw -> (i < 64)%nat ->
  (cell (w_gateways w) p i = None -> Q tt w) ->
  (forall t tags tl, cell (w_gateways w) p i = Some t ->
     tags_inv (set_cell p i None gw (w_gateways w)) tags tl ->
     Q tt (cell_put p i None gw (tags_put tags tl w))) ->
  wp (lgtd_lifx_gateway_deallocate_tag_id p (Z.of_nat i)) Q w.
Proof.
  intros Hi Hp Hi64 HN HS. unfold lgtd_lifx_gateway_deallocate_tag_id.
  destruct (ri_tag_ids _ (wi_rest _ Hi) p gw Hp) as [Hl Hr Hb].
  assert (Hcell : cell (w_gateways w) p i = mjoin (gw_tags gw !! i)) by (unfold cell; by rewrite Hp).
  apply wp_bind, wp_assert; [apply andb_true_iff; split; [apply Z.leb_le|apply Z.ltb_lt];
    unfold LGTD_LIFX_GATEWAY_MAX_TAGS; lia|].
  apply wp_bind. eapply wp_get_gw; [done|]. cbv beta.
  rewrite has_flag_bit by lia. destruct (Z.testbit (gw_tag_ids gw) (Z.of_nat i)) eqn:Hbit.
  - apply Hb in Hbit as [t Ht]; [|done]. unfold get_gw_tag. rewrite Nat2Z.id.
    destruct (gw_tags gw !! i) as [c|] eqn:Hc; [|done]. simpl in Ht. subst c.
    apply wp_bind. eapply wp_deref; [done|]. apply wp_bind. eapply wp_deref; [done|].
    apply wp_bind. eapply (wp_decref (w_gateways w) p gw i t w); [apply (ri_tags _ (wi_rest _ Hi))|done|lia| |].
    { by rewrite Hcell. }
    intros tags tl Htags. apply wp_bind. eapply wp_upd_gw; [exact Hp|].
    eapply wp_upd_gw; [apply gw_put_lookup|]. rewrite gw_put_put.
    by apply (HS t tags tl).
  - apply wp_ret, HN. rewrite Hcell. destruct (mjoin (gw_tags gw !! i)) eqn:Hm; [|done].
    rewrite (proj2 (Hb i Hi64)) in Hbit by (by eexists). done.
Qed.
