(* ===== verification/HandlersInv.v ===== *)
(** * Packets keep the invariant

    Every packet a gateway may send is handled without a crash and leaves the
    invariant true, under conditions on the network that are spelled out: a
    gateway has at most 255 bulbs, none with the null address, and does not
    reuse a tag label for a second id. *)

From Stdlib Require Import ZArith Lia.
From stdpp Require Import base tactics list gmap.
From S2P Require Import Prelude CLib WireBits PacketInfo WireProto World Tagging GatewayQueue.
From S2P Require Import BulbTable Router Bulb Gateway QueueSpec TagsInv SendSpec DeviceInv.
From S2P Require Import DeviceOps Invariant.

(** ** What the network may do *)

(** The bulb is known, or it is a new one its gateway has room for. *)
Definition room_for (w : world) (p : gw_ptr) (a : addr) : Prop :=
  is_Some (w_bulbs_table w !! a)
  \/ (exists gw, w_gateways w !! p = Some gw /\ (length (gw_bulbs gw) < 255)%nat) /\ a <> replicate 6 0.

(** A label is given to at most one new id, and to no second one. *)
Definition labels_ok (w : world) (p : gw_ptr) (pkt : lgtd_lifx_packet_tag_labels) : Prop :=
  first_char (tl_label pkt) = 0
  \/ (forall i, i ∈ tag_bits (tl_tags pkt) -> cell (w_gateways w) p (Z.to_nat i) = None ->
        label_free w p (tl_label pkt))
     /\ (forall i j, i ∈ tag_bits (tl_tags pkt) -> j ∈ tag_bits (tl_tags pkt) ->
           cell (w_gateways w) p (Z.to_nat i) = None -> cell (w_gateways w) p (Z.to_nat j) = None -> i = j).

Section Handlers.
Context {E : Endianness}.

Definition handler_ok (w : world) (p : gw_ptr) (h : packet_handler) (hdr : lgtd_lifx_packet_header)
    (pkt : list Z) : Prop :=
  match h with
  | H_null | H_enosys | H_pan_gateway => True
  | H_tag_labels => labels_ok w p (tag_labels_of_bytes pkt)
  | _ => room_for w p (hdr_device_addr hdr)
  end.

(** ** Bulbs *)

Lemma keeps_get_or_open {A} w p a (k : option addr -> M world A) :
  world_inv w -> is_Some (w_gateways w !! p) -> length a = 6%nat -> Forall is_byte a -> room_for w p a ->
  (forall w', world_inv w' -> dom (w_gateways w') = dom (w_gateways w) ->
     is_Some (w_bulbs_table w' !! a) -> keeps (k (Some a)) w') ->
  (forall w', world_inv w' -> keeps (k None) w') ->
  keeps (b ← lgtd_lifx_gateway_get_or_open_bulb p a; k b) w.
Proof.
  intros Hi [gw Hp] Hl Hb Hroom HS HN. apply wp_bind.
  eapply (wp_get_or_open_bulb w p gw a); [apply Hi|done|done|done| | |].
  - destruct Hroom as [?|[(gw' & Hp' & Hlt) Hne]]; [by left|right]. split; [congruence|done].
  - intros w' Hd Hf Ha. assert (Hi' : world_inv w') by (constructor; [done|eapply rest_inv_frame; [apply Hi|done]]).
    eapply wp_mono; [apply HS; [done|by apply rest_frame_dom|done]|]. intros x w'' [? Hdom].
    split; [done|]. by rewrite Hdom, (rest_frame_dom _ _ Hf).
  - intros w' Hd Hf. assert (Hi' : world_inv w') by (constructor; [done|eapply rest_inv_frame; [apply Hi|done]]).
    eapply wp_mono; [by apply HN|]. intros x w'' [? Hdom]. split; [done|].
    by rewrite Hdom, (rest_frame_dom _ _ Hf).
Qed.

Lemma keeps_set_bulb_attr w p hdr f :
  world_inv w -> is_Some (w_gateways w !! p) -> length (hdr_device_addr hdr) = 6%nat ->
  Forall is_byte (hdr_device_addr hdr) -> room_for w p (hdr_device_addr hdr) ->
  (forall w', world_inv w' -> is_Some (w_gateways w' !! p) ->
     is_Some (w_bulbs_table w' !! hdr_device_addr hdr) -> keeps_devices (f (hdr_device_addr hdr)) w') ->
  keeps (set_bulb_attr p hdr f) w.
Proof.
  intros Hi Hp Hl Hb Hroom Hf. unfold set_bulb_attr. apply keeps_get_or_open; try done.
  intros w' Hi' Hdom Ha. apply keeps_of_devices; [done|]. apply Hf; [done| |done].
  by eapply gateway_of_dom.
Qed.

(** An operation on bulbs followed by another. *)
Lemma keeps_devices_seq {A B} (m : M world A) (k : A -> M world B) w :
  world_inv w -> keeps_devices m w ->
  (forall a w', world_inv w' -> dom (w_gateways w') = dom (w_gateways w) ->
     dom (w_bulbs_table w') = dom (w_bulbs_table w) -> keeps (k a) w') ->
  keeps (m ≫= k) w.
Proof.
  intros Hi Hm Hk. apply wp_bind. eapply wp_mono; [exact Hm|]. intros a w' (Hd & Hf & Hdom).
  assert (Hi' : world_inv w') by (constructor; [done|eapply rest_inv_frame; [apply Hi|done]]).
  pose proof (rest_frame_dom _ _ Hf) as Hdg.
  eapply wp_mono; [by apply Hk|]. intros b w'' [? Hd2]. split; [done|]. by rewrite Hd2.
Qed.

Lemma bulb_of_dom (w w' : world) a :
  dom (w_bulbs_table w') = dom (w_bulbs_table w) -> is_Some (w_bulbs_table w !! a) ->
  is_Some (w_bulbs_table w' !! a).
Proof. intros Hd Ha. rewrite <- elem_of_dom, Hd. by apply elem_of_dom. Qed.

Lemma keeps_two_upd w a f g :
  device_ok w -> is_Some (w_bulbs_table w !! a) ->
  (forall w', device_ok w' -> is_Some (w_bulbs_table w' !! a) -> keeps_devices (upd_bulb a f) w') ->
  (forall w', device_ok w' -> is_Some (w_bulbs_table w' !! a) -> keeps_devices (upd_bulb a g) w') ->
  keeps_devices (upd_bulb a f ;; upd_bulb a g) w.
Proof.
  intros Hd Ha Hf Hg. apply keeps_bind; [by apply Hf|]. intros _ w' Hd' _ Hdom. apply Hg; [done|].
  by eapply bulb_of_dom.
Qed.

Lemma plain_update w a f :
  (forall b, bulb_gw (f b) = bulb_gw b /\ bulb_addr (f b) = bulb_addr b
     /\ ls_tags (bulb_state (f b)) = ls_tags (bulb_state b)
     /\ ls_power (bulb_state (f b)) = ls_power (bulb_state b)
     /\ length (bulb_ips (f b)) = length (bulb_ips b)) ->
  device_ok w -> is_Some (w_bulbs_table w !! a) -> keeps_devices (upd_bulb a f) w.
Proof. intros Hf Hd Ha. by apply keeps_upd_bulb. Qed.

Lemma keeps_get_gw {B} (k : lgtd_lifx_gateway -> M world B) w p :
  is_Some (w_gateways w !! p) -> (forall gw, w_gateways w !! p = Some gw -> keeps_devices (k gw) w) ->
  keeps_devices (gw ← get_gw p; k gw) w.
Proof. intros [gw Hp] Hk. apply wp_bind. eapply wp_get_gw; [done|]. by apply Hk. Qed.

Ltac plain := intros; apply plain_update; [intros []; fields; rewrite ?length_alter; by split_and!|done|done].

(** The setters that only record a value. *)
Lemma keeps_plain_setters w a :
  device_ok w -> is_Some (w_bulbs_table w !! a) ->
  (forall ip st at_, keeps_devices (lgtd_lifx_bulb_set_ip_state a ip st at_) w)
  /\ (forall ip fw at_, keeps_devices (lgtd_lifx_bulb_set_ip_firmware_info a ip fw at_) w)
  /\ (forall info, keeps_devices (lgtd_lifx_bulb_set_product_info a info) w)
  /\ (forall info at_, keeps_devices (lgtd_lifx_bulb_set_runtime_info a info at_) w)
  /\ (forall label, keeps_devices (lgtd_lifx_bulb_set_label a label) w)
  /\ (forall lux, keeps_devices (lgtd_lifx_bulb_set_ambient_light a lux) w).
Proof.
  intros Hd Ha. split_and!; intros.
  - apply keeps_two_upd; [done|done|plain|plain].
  - apply keeps_two_upd; [done|done|plain|plain].
  - unfold lgtd_lifx_bulb_set_product_info. apply keeps_bind; [plain|].
    intros _ w' Hd' _ Hdom. apply keeps_two_upd; [done| |plain|plain].
    by eapply bulb_of_dom.
  - apply keeps_two_upd; [done|done|plain|plain].
  - unfold lgtd_lifx_bulb_set_label. plain.
  - unfold lgtd_lifx_bulb_set_ambient_light. plain.
Qed.

(** ** Light status *)

Lemma keeps_check_dirty w a :
  world_inv w -> is_Some (w_bulbs_table w !! a) -> keeps (check_dirty a) w.
Proof.
  intros Hi [b Ha]. pose proof (wi_devices _ Hi) as Hd. unfold check_dirty.
  apply wp_bind. eapply wp_get_bulb; [done|]. cbv beta.
  destruct (bulb_in_gateway w a b _ _ Hd Ha) as (gw & Hgw & _ & _).
  apply wp_bind. eapply wp_get_gw; [done|]. cbv beta.
  destruct (_ && _ && _); [|by apply keeps_mret].
  destruct (_ =? _).
  - apply keeps_of_devices; [done|]. apply plain_update; [by intros []; split_and!|done|by eexists].
  - apply keeps_of_sends; [done|]. eapply sends_to_bulb; [exact Hd|by eexists|].
    exists 2. split; [by vm_compute|]. unfold power_state_bytes. by rewrite length_store.
Qed.

Lemma keeps_handle_light_status w p hdr pkt :
  world_inv w -> is_Some (w_gateways w !! p) -> length (hdr_device_addr hdr) = 6%nat ->
  Forall is_byte (hdr_device_addr hdr) -> room_for w p (hdr_device_addr hdr) -> light_state_ok pkt ->
  keeps (lgtd_lifx_gateway_handle_light_status p hdr pkt) w.
Proof.
  intros Hi Hp Hl Hb Hroom Hst. unfold lgtd_lifx_gateway_handle_light_status.
  apply keeps_get_or_open; try done.
  intros w1 Hi1 Hdom1 Ha1. cbv beta iota.
  destruct (gateway_of_dom _ _ p Hdom1 Hp) as [gw1 Hp1].
  apply wp_bind. eapply wp_get_gw; [done|]. cbv beta.
  apply keeps_devices_seq; [done|apply keeps_set_light_state; [apply Hi1|done|done]|].
  intros _ w2 Hi2 Hdom2 Hdomb. apply keeps_seq.
  { apply keeps_check_dirty; [done|]. by eapply bulb_of_dom. }
  intros _ w3 Hi3 Hdom3.
  destruct (gateway_of_dom w1 w3 p ltac:(congruence) ltac:(by eexists)) as [gw3 Hp3].
  apply wp_bind. eapply wp_get_gw; [done|]. cbv beta zeta. destruct (_ <? _).
  - apply keeps_seq; [by eapply keeps_reschedule|]. intros; by apply keeps_mret.
  - unfold mwhen. destruct (negb _); [|by apply keeps_mret].
    apply keeps_of_sends; [done|]. apply sends_get_all_light_state; [|by eexists].
    apply (dv_send _ _ _ (wi_devices _ Hi3)).
Qed.

(** ** Tag labels *)

Lemma cell_cell_put w p gw i v q j :
  w_gateways w !! p = Some gw -> (i < length (gw_tags gw))%nat ->
  cell (w_gateways (cell_put p i v gw w)) q j
  = if bool_decide (q = p /\ j = i) then v else cell (w_gateways w) q j.
Proof.
  intros Hp Hi. rewrite <- (cell_set_cell _ _ gw i v q j Hp Hi).
  unfold cell_put, gw_put, set_cell, cell. fields. rewrite !lookup_insert. by case_decide.
Qed.

Lemma wp_label_step w p i label (Q : unit -> world -> Prop) :
  world_inv w -> is_Some (w_gateways w !! p) -> 0 <= i < 64 -> first_char label <> 0 ->
  (length (cstr label) < LGTD_LIFX_LABEL_SIZE)%nat ->
  (cell (w_gateways w) p (Z.to_nat i) = None -> label_free w p label) ->
  (forall w', world_inv w' -> dom (w_gateways w') = dom (w_gateways w) ->
     (is_Some (cell (w_gateways w) p (Z.to_nat i)) -> w' = w) ->
     (forall j, j <> Z.to_nat i -> cell (w_gateways w') p j = cell (w_gateways w) p j) -> Q tt w') ->
  wp (lgtd_lifx_gateway_allocate_tag_id p i label ;; mret tt) Q w.
Proof.
  intros Hi [gw Hp] Hi64 _ Hlab Hfree HQ. unfold lgtd_lifx_gateway_allocate_tag_id. apply wp_bind.
  apply wp_bind, wp_assert.
  { apply andb_true_iff. split; [apply Z.leb_le|apply Z.ltb_lt]; unfold LGTD_LIFX_GATEWAY_MAX_TAGS; lia. }
  rewrite (proj2 (Z.eqb_neq i (-1))) by lia.
  rewrite <- (Z2Nat.id i) at 1 by lia.
  destruct (ri_tag_ids _ (wi_rest _ Hi) p gw Hp) as [Hl _ _].
  eapply (wp_allocate_known w p gw (Z.to_nat i) label); try done; [lia| | |].
  - intros _. apply wp_ret, HQ; done.
  - intros tags tl rs _ Hn Ht _. apply wp_ret, HQ; [by apply world_inv_tags_put|done| |done].
    rewrite Hn. by intros [? ?].
  - intros t tag tags tl rs _ Hn Ht _ _ _. apply wp_ret, HQ.
    + apply world_inv_cell_put; [done|done|lia|done].
    + unfold cell_put. by erewrite dom_gw_put by exact Hp.
    + rewrite Hn. by intros [? ?].
    + intros j Hj. erewrite cell_cell_put; [|exact Hp|lia].
      rewrite bool_decide_eq_false_2; [done|]. by intros [_ ?].
Qed.

(** An empty label takes the ids back, one after the other. *)
Lemma keeps_clear_tag_labels w p hdr pkt :
  world_inv w -> is_Some (w_gateways w !! p) -> 0 <= tl_tags pkt < 2 ^ 64 -> first_char (tl_label pkt) = 0 ->
  keeps (lgtd_lifx_gateway_handle_tag_labels p hdr pkt) w.
Proof.
  intros Hi Hp Htags Hz. unfold lgtd_lifx_gateway_handle_tag_labels.
  rewrite foreach_tag_id_bits, Hz by done. cbn [Z.eqb negb].
  apply (wp_foreach (fun l w' => world_inv w' /\ dom (w_gateways w') = dom (w_gateways w)
                        /\ forall i, i ∈ l -> 0 <= i < 64)).
  { split_and!; [done|done|]. by intros i [? _]%elem_of_tag_bits. }
  2:{ intros w' (? & ? & _). done. }
  intros i l w' (Hi' & Hdom & Hids). pose proof (Hids i ltac:(by left)) as Hi64.
  destruct (gateway_of_dom _ _ p Hdom Hp) as [gw Hgw].
  destruct (ri_tag_ids _ (wi_rest _ Hi') p gw Hgw) as [Hl _ _].
  assert (Hrest : forall j, j ∈ l -> 0 <= j < 64) by (intros; apply Hids; by right).
  apply wp_bind. eapply wp_get_gw; [done|]. cbv beta. apply wp_bind. unfold get_gw_tag.
  destruct (lookup_lt_is_Some_2 (gw_tags gw) (Z.to_nat i)) as [c Hc]; [lia|].
  eapply wp_deref; [done|]. destruct c as [t|]; [|by apply wp_ret].
  rewrite <- (Z2Nat.id i) at 1 by lia.
  eapply (wp_deallocate_tag_id w' p gw (Z.to_nat i)); [done|done|lia|done|].
  intros t' tags tl Hcell Ht. split_and!; [|unfold cell_put; by erewrite dom_gw_put by exact Hgw|done].
  pose proof (world_inv_cell_put w' p gw (Z.to_nat i) None tags tl (w_os_results w') Hi' Hgw ltac:(lia) Ht) as HI.
  replace (set_w_os_results (w_os_results w') w') with w' in HI by (by destruct w'). done.
Qed.

(** Another one is given to the ids that have no tag. *)
Lemma keeps_set_tag_labels w p hdr pkt :
  world_inv w -> is_Some (w_gateways w !! p) -> 0 <= tl_tags pkt < 2 ^ 64 ->
  (length (cstr (tl_label pkt)) < LGTD_LIFX_LABEL_SIZE)%nat -> labels_ok w p pkt -> first_char (tl_label pkt) <> 0 ->
  keeps (lgtd_lifx_gateway_handle_tag_labels p hdr pkt) w.
Proof.
  intros Hi Hp Htags Hlab Hok Hnz. unfold lgtd_lifx_gateway_handle_tag_labels.
  rewrite foreach_tag_id_bits, (proj2 (Z.eqb_neq _ _) Hnz) by done. cbn [negb].
  destruct Hok as [?|[Hfree Huniq]]; [done|].
  apply (wp_foreach (fun l w' => world_inv w' /\ dom (w_gateways w') = dom (w_gateways w)
     /\ NoDup l /\ (forall i, i ∈ l -> 0 <= i < 64)
     /\ (forall i, i ∈ l -> cell (w_gateways w') p (Z.to_nat i) = None -> label_free w' p (tl_label pkt))
     /\ (forall i j, i ∈ l -> j ∈ l -> cell (w_gateways w') p (Z.to_nat i) = None ->
           cell (w_gateways w') p (Z.to_nat j) = None -> i = j))).
  { split_and!; try done; [apply NoDup_tag_bits|]. by intros i [? _]%elem_of_tag_bits. }
  2:{ intros w' (? & ? & _). done. }
  intros i l w' (Hi' & Hdom & Hnd & Hids & Hf & Hu). apply NoDup_cons in Hnd as [Hni Hnd].
  apply wp_label_step; [done|by eapply gateway_of_dom|apply Hids; by left|done|done|apply Hf; by left|].
  intros w'' Hi'' Hdom' Hsame Hcells.
  destruct (cell (w_gateways w') p (Z.to_nat i)) eqn:Hc.
  + rewrite Hsame in * by (by eexists). split_and!; try done.
    * intros j Hj. apply Hids. by right.
    * intros j Hj. apply Hf. by right.
    * intros j k Hj Hk. apply Hu; by right.
  + assert (Hnone : forall j, j ∈ l -> cell (w_gateways w'') p (Z.to_nat j) <> None).
    { intros j Hj. pose proof (Hids j ltac:(by right)). pose proof (Hids i ltac:(by left)).
      assert (j <> i) by (by intros ->). rewrite Hcells by lia.
      intros Hjn. by rewrite (Hu i j ltac:(by left) ltac:(by right) Hc Hjn) in Hni. }
    split_and!; [done|congruence|done| | |].
    * intros j Hj. apply Hids. by right.
    * intros j Hj Hjn. by destruct (Hnone j Hj).
    * intros j k Hj _ Hjn. by destruct (Hnone j Hj).
Qed.

Lemma keeps_handle_tag_labels w p hdr pkt :
  world_inv w -> is_Some (w_gateways w !! p) -> 0 <= tl_tags pkt < 2 ^ 64 ->
  (length (cstr (tl_label pkt)) < LGTD_LIFX_LABEL_SIZE)%nat -> labels_ok w p pkt ->
  keeps (lgtd_lifx_gateway_handle_tag_labels p hdr pkt) w.
Proof.
  intros Hi Hp Htags Hlab Hok. destruct (decide (first_char (tl_label pkt) = 0)).
  - by apply keeps_clear_tag_labels.
  - by apply keeps_set_tag_labels.
Qed.

(** ** Dispatch *)

(** A handler runs on what its decoder leaves. *)
Definition handler_decoder (h : packet_handler) : option packet_decoder :=
  match h with
  | H_light_status => Some D_light_status
  | H_power_state => Some D_power_state
  | H_tag_labels => Some D_tag_labels
  | H_tags => Some D_tags
  | _ => None
  end.

Lemma table_decoders info :
  info ∈ packet_table ->
  match handler_decoder (pi_handle info) with Some d => pi_decode info = d | None => True end.
Proof.
  revert info. apply Forall_forall.
  repeat (constructor; [vm_compute; first [exact I|reflexivity]|]). constructor.
Qed.

(** The handlers of processor states are only used for the types they know. *)
Definition handler_types (h : packet_handler) : list lgtd_lifx_packet_type :=
  match h with
  | H_ip_state => [LGTD_LIFX_MESH_INFO; LGTD_LIFX_WIFI_INFO]
  | H_ip_firmware_info => [LGTD_LIFX_MESH_FIRMWARE; LGTD_LIFX_WIFI_FIRMWARE_STATE]
  | _ => []
  end.

Lemma table_types info :
  info ∈ packet_table -> handler_types (pi_handle info) = [] \/ pi_type info ∈ handler_types (pi_handle info).
Proof.
  revert info. apply Forall_forall.
  repeat (constructor; [first [by left|right; apply list_elem_of_In; vm_compute; tauto]|]). constructor.
Qed.

Lemma keeps_ip_of_packet_type {A} w ty mcu wifi (k : lgtd_lifx_bulb_ips -> M world A) :
  ty = packet_type_value mcu \/ ty = packet_type_value wifi ->
  (forall ip, keeps (k ip) w) -> keeps (ip ← ip_of_packet_type ty mcu wifi; k ip) w.
Proof.
  intros Hty Hk. unfold ip_of_packet_type. apply wp_bind.
  destruct (Z.eqb_spec ty (packet_type_value mcu)); [apply wp_ret, Hk|].
  destruct (Z.eqb_spec ty (packet_type_value wifi)); [apply wp_ret, Hk|]. by destruct Hty.
Qed.

Lemma length_cstr_terminated (l : list Z) : (length (cstr (l ++ [0%Z])) <= length l)%nat.
Proof.
  induction l as [|b l IH]; simpl; [lia|]. destruct (b =? 0); simpl; lia.
Qed.

Lemma le_value_field mem off n N :
  is_bytes N mem -> (off + n <= N)%nat -> 0 <= le_value (field off n mem) < 256 ^ Z.of_nat n.
Proof.
  intros Hm Hn. destruct (field_bytes _ _ _ _ Hm Hn) as [Hl Hb]. rewrite <- Hl at 3.
  by apply le_value_bound.
Qed.

Lemma keeps_packet_handle w p info hdr mem N :
  world_inv w -> is_Some (w_gateways w !! p) -> info ∈ packet_table ->
  hdr_packet_type hdr = packet_type_value (pi_type info) ->
  length (hdr_device_addr hdr) = 6%nat -> Forall is_byte (hdr_device_addr hdr) ->
  (52 <= N)%nat -> is_bytes N mem ->
  handler_ok w p (pi_handle info) hdr (packet_decode (pi_decode info) mem) ->
  keeps (packet_handle (pi_handle info) p hdr (packet_decode (pi_decode info) mem)) w.
Proof.
  intros Hi Hp Hin Hty Hl Hb HN Hmem Hok.
  destruct (payload_decode_spec mem N HN Hmem) as (_ & Hls & Hps & Htl & Htg & _).
  pose proof (table_decoders info Hin) as Hdec. pose proof (table_types info Hin) as Htypes.
  assert (Hpow : forall v, (if v =? 0xffff then 0xffff else 0) = LGTD_LIFX_POWER_OFF
                           \/ (if v =? 0xffff then 0xffff else 0) = LGTD_LIFX_POWER_ON).
  { intros v. destruct (v =? 0xffff); [by right|by left]. }
  destruct (pi_handle info); cbn [handler_ok handler_decoder handler_types packet_handle] in *;
    try rewrite Hdec in *; try (by apply keeps_mret).
  - (* ambient light *)
    apply keeps_set_bulb_attr; try done. intros w' Hi' _ Ha. by apply keeps_plain_setters; [apply Hi'|].
  - apply keeps_set_bulb_attr; try done. intros w' Hi' _ Ha. by apply keeps_plain_setters; [apply Hi'|].
  - destruct Htypes as [?|Ht]; [done|]. apply keeps_ip_of_packet_type.
    { rewrite Hty. apply elem_of_cons in Ht as [->|Ht%list_elem_of_singleton]; [by left|right; by rewrite Ht]. }
    intros ip. apply keeps_set_bulb_attr; try done. intros w' Hi' Hp' Ha.
    apply keeps_get_gw; [done|]. intros gw _. by apply keeps_plain_setters; [apply Hi'|].
  - destruct Htypes as [?|Ht]; [done|]. apply keeps_ip_of_packet_type.
    { rewrite Hty. apply elem_of_cons in Ht as [->|Ht%list_elem_of_singleton]; [by left|right; by rewrite Ht]. }
    intros ip. apply keeps_set_bulb_attr; try done. intros w' Hi' Hp' Ha.
    apply keeps_get_gw; [done|]. intros gw _. by apply keeps_plain_setters; [apply Hi'|].
  - apply keeps_handle_light_status; try done. rewrite Hls. split; cbn [ls_tags ls_power light_status_of_bytes].
    + apply (le_value_field mem 44 8 N Hmem). lia.
    + apply Hpow.
  - apply keeps_set_bulb_attr; try done. intros w' Hi' _ Ha.
    apply keeps_set_power_state; [apply Hi'|done|]. rewrite Hps. apply Hpow.
  - apply keeps_set_bulb_attr; try done. intros w' Hi' _ Ha. by apply keeps_plain_setters; [apply Hi'|].
  - apply keeps_set_bulb_attr; try done. intros w' Hi' Hp' Ha.
    apply keeps_get_gw; [done|]. intros gw _. by apply keeps_plain_setters; [apply Hi'|].
  - apply keeps_handle_tag_labels; try done; rewrite Htl; cbn [tl_tags tl_label].
    + apply (le_value_field mem 0 8 N Hmem). lia.
    + pose proof (length_cstr_terminated (field 8 31 mem)) as Hlen.
      destruct (field_bytes mem 8 31 N Hmem ltac:(lia)) as [Hfl _]. rewrite Hfl in Hlen.
      unfold LGTD_LIFX_LABEL_SIZE. lia.
  - apply keeps_set_bulb_attr; try done. intros w' Hi' _ Ha.
    apply keeps_set_tags; [apply Hi'|done|]. rewrite Htg. cbn [pt_tags tags_of_bytes].
    apply (le_value_field mem 0 8 N Hmem). lia.
Qed.
End Handlers.
