(* ===== verification/GatewayInv.v ===== *)
(** * Gateways come and go, and the invariant holds

    Opening and closing a gateway, receiving datagrams, writing the queue, the
    timers and the watchdog. *)

From Stdlib Require Import ZArith Lia.
From stdpp Require Import base tactics list gmap sorting.
From S2P Require Import Prelude CLib WireBits PacketInfo WireProto World Tagging GatewayQueue.
From S2P Require Import BulbTable Router Bulb Gateway QueueSpec TagsInv SendSpec DeviceInv.
From S2P Require Import DeviceOps Invariant HandlersInv.

Section GatewayInv.
Context {E : Endianness}.

(** ** Opening *)

Lemma queue_repr_new peer site socket at_ t : queue_repr (new_gateway peer site socket at_ t) [].
Proof.
  constructor; try done; unfold new_gateway, LGTD_LIFX_GATEWAY_PACKET_RING_SIZE; simpl; try lia.
Qed.

Lemma new_gateway_cell peer site socket at_ t j :
  mjoin (gw_tags (new_gateway peer site socket at_ t) !! j) = None.
Proof.
  cbn [new_gateway gw_tags]. destruct (replicate 64 None !! j) as [c|] eqn:Hc; [|done].
  by apply lookup_replicate in Hc as [-> _].
Qed.

(** A gateway without bulbs nor tags is added, with its timer. *)
Lemma world_inv_open w p t tm peer site socket at_ cs :
  world_inv w -> w_gateways w !! p = None -> w_timers w !! t = None -> refresh_timer_of p tm ->
  length site = 6%nat -> socket <> -1 ->
  cs = set_stats_gateways (stats_gateways (w_counters w) + 1) (w_counters w) ->
  world_inv (set_w_counters cs (set_w_gateway_list (p :: w_gateway_list w)
    (gw_put p (new_gateway peer site socket at_ t)
       (set_w_timers (<[t := tm]> (w_timers w)) w)))).
Proof.
  intros [Hd Hr] Hp Ht Htm Hsite Hsock ->.
  assert (Hcell : forall gw', gw_tags gw' = replicate 64 None -> forall q j,
    cell (w_gateways w) q j = cell (<[p := gw']> (w_gateways w)) q j).
  { intros gw' Hg q j. unfold cell. rewrite lookup_insert. case_decide as Hq; [|done]. subst q. rewrite Hp.
    simpl. rewrite Hg. destruct (replicate 64 None !! j) as [c|] eqn:Hc; [|done].
    by apply lookup_replicate in Hc as [-> _]. }
  constructor.
  - destruct Hd as [[Hcl Hg] Hc [Hok Hgw Hbs] Hfound Hon]. unfold device_ok, gw_put. fields.
    constructor; fields; try done.
    + constructor; fields; [done|]. intros p' gw'. rewrite lookup_insert. case_decide; [|apply Hg].
      intros [= <-]. split; [exists []; apply queue_repr_new|done].
    + intros p' gw'. rewrite lookup_insert. case_decide; [|apply Hc]. intros [= <-].
      constructor; [constructor|simpl; lia|done|].
      intros i Hi. apply lookup_replicate. split; [done|lia].
    + constructor; [done| |].
      * intros a b Hb. destruct (Hgw a b Hb) as (gw' & Hp' & Hin). exists gw'.
        rewrite lookup_insert_ne; [done|]. intros Heq. congruence.
      * intros p' gw' a. rewrite lookup_insert. case_decide; [|apply Hbs]. intros [= <-] ?%elem_of_nil. done.
  - destruct Hr as [Hnd Hl Hso Hti Hta Hre Hti' Hfo Hno]. unfold gw_put. constructor; fields; try done.
    + apply NoDup_cons. split; [|done]. rewrite Hl, Hp. by intros [? ?].
    + intros p'. rewrite elem_of_cons, Hl, lookup_insert. case_decide; naive_solver.
    + intros p' gw'. rewrite lookup_insert. case_decide; [by intros [= <-]|apply Hso].
    + intros p' gw'. rewrite lookup_insert. case_decide; [|apply Hti]. intros [= <-].
      constructor; [done|cbn; lia|]. intros i Hi. cbn [new_gateway gw_tag_ids gw_tags]. rewrite Z.bits_0.
      rewrite (lookup_replicate_2 64 (None : option tag_ptr) i) by lia. simpl.
      split; [done|]. by intros [? ?].
    + eapply tags_inv_cells; [|exact Hta]. by apply Hcell.
    + intros p' gw'. rewrite lookup_insert. case_decide as Hdec.
      * intros [= <-]. subst p'. exists tm. cbn [new_gateway gw_refresh_timer]. by rewrite lookup_insert_eq.
      * intros Hp'. destruct (Hre p' gw' Hp') as (tm' & Htm' & Hrt). exists tm'.
        rewrite lookup_insert_ne; [done|]. intros ->. congruence.
    + intros t' tm'. rewrite lookup_insert. case_decide as Hdec.
      * intros [= <-]. right. eexists p, _. rewrite lookup_insert_eq. split_and!; [done|done|done].
      * intros Ht'. destruct (Hti' t' tm' Ht') as [|(q & gw' & Hrt & Hq & Hg)]; [by left|right].
        exists q, gw'. rewrite lookup_insert_ne; [done|]. intros <-. congruence.
    + rewrite Hfo, map_size_insert_None by done. lia.
Qed.

(** Only the results of calls change. *)
Lemma wp_open_calls (Q : bool -> world -> Prop) w :
  (forall ok rs, Q ok (set_w_os_results rs w)) -> wp open_calls Q w.
Proof.
  intros HQ. unfold open_calls.
  apply wp_bind, wp_os_call. intros [] r1; cbn [negb]; [|apply wp_ret, HQ].
  apply wp_bind, wp_os_call. intros [] r2; cbn [negb]; [|apply wp_ret, (HQ false r2)].
  apply wp_bind, wp_os_call. intros [] r3; cbn [negb]; [|apply wp_ret, (HQ false r3)].
  apply wp_bind, wp_os_call. intros [] r4; cbn [negb]; [|apply wp_ret, (HQ false r4)].
  apply wp_bind, wp_os_call. intros ev r5. apply wp_bind, wp_os_call. intros buf r6.
  destruct (negb (ev && buf)); [apply wp_ret, (HQ false r6)|].
  apply wp_os_call. intros ok r7. exact (HQ ok r7).
Qed.

Lemma world_inv_watchdog w v : world_inv w -> world_inv (set_w_watchdog_pending v w).
Proof.
  intros [Hd Hr]. constructor; [by apply (device_ok_same w)|]. destruct Hr. by constructor.
Qed.

Lemma wpx_gateway_open w peer site at_ (Q : option gw_ptr -> world -> Prop) :
  world_inv w -> length site = 6%nat ->
  (forall w', world_inv w' -> w_gateways w' = w_gateways w -> Q None w') ->
  (forall w' p gw, world_inv w' -> dom (w_gateways w) ⊆ dom (w_gateways w') -> w_gateways w' !! p = Some gw -> gw_peer gw = peer -> gw_bulbs gw = [] ->
     (forall j, cell (w_gateways w') p j = None) -> w_bulbs_table w' = w_bulbs_table w ->
     Q (Some p) w') ->
  wpx (lgtd_lifx_gateway_open peer site at_) Q w.
Proof.
  intros Hi Hsite HN HS. unfold lgtd_lifx_gateway_open. apply wpx_bind_wp, wp_open_calls.
  intros ok rs. apply (world_inv_os _ rs) in Hi as Hi1.
  destruct ok; cbn [negb]; [|apply wpx_ret, HN; done].
  apply wpx_bind_wp, wp_get. cbv zeta.
  apply wpx_bind_wp, wp_timer_start; [unfold LGTD_LIFX_GATEWAY_MIN_REFRESH_INTERVAL_MSECS; lia| |].
  { intros rs'. apply wpx_ret, HN; [|done]. by apply (world_inv_os _ rs'). }
  intros rs' tm Hcb Hctx. fields. apply wpx_bind_wp, wp_modify, wpx_bind_wp, wp_modify. fields.
  set (p := fresh_ptr (w_gateways w)). set (t := fresh_ptr (w_timers w)).
  rewrite (take_ge site) by (unfold LGTD_LIFX_ADDR_LENGTH; lia).
  apply (world_inv_os _ rs') in Hi.
  pose proof (world_inv_open _ p t tm peer site 3 at_ _ Hi
    (fresh_ptr_fresh _) (fresh_ptr_fresh _) (conj Hcb Hctx) Hsite ltac:(lia) eq_refl) as Hopen.
  unfold gw_put in Hopen. fields_in Hopen.
  assert (Hdone : forall wd, world_inv (set_w_watchdog_pending wd (set_w_counters
    (set_stats_gateways (stats_gateways (w_counters w) + 1) (w_counters w))
    (set_w_gateway_list (p :: w_gateway_list w)
       (set_w_gateways (<[p := new_gateway peer site 3 at_ t]> (w_gateways w))
          (set_w_timers (<[t := tm]> (w_timers w)) (set_w_os_results rs' w))))))).
  { intros wd. apply world_inv_watchdog. exact Hopen. }
  apply wpx_bind. unfold lgtd_lifx_discovery_start_watchdog. apply wpx_bind_wp, wp_get.
  apply wpx_bind_wp, wp_assert.
  { fields. rewrite (bool_decide_eq_true_2 (p :: _ <> [])) by done. apply orb_true_r. }
  pose proof (ri_found _ (wi_rest _ Hi)) as Hfo. fields_in Hfo.
  assert (Hfin : forall wd rs2, wpx (lgtd_stats_add counter_gateways 1 ;; mret (Some p)) Q
    (set_w_watchdog_pending wd (set_w_os_results rs2 (set_w_gateway_list (p :: w_gateway_list w)
       (set_w_gateways (<[p := new_gateway peer site 3 at_ t]> (w_gateways w))
          (set_w_timers (<[t := tm]> (w_timers w)) (set_w_os_results rs' w))))))).
  { intros wd rs2. apply wpx_bind_wp, wp_stats_add; cbn [get_counter set_counter]; fields; [lia|].
    apply wpx_ret. eapply (HS _ p (new_gateway peer site 3 at_ t)).
    - specialize (Hdone wd). by apply (world_inv_os _ rs2) in Hdone.
    - fields. rewrite dom_insert_L. set_solver.
    - fields. apply lookup_insert_eq.
    - done.
    - done.
    - intros j. unfold cell. fields. rewrite lookup_insert_eq. apply new_gateway_cell.
    - done. }
  fields. destruct (w_watchdog_pending w) eqn:Hwd.
  - apply wpx_ret. specialize (Hfin true rs'). rewrite <- Hwd in Hfin. by destruct w.
  - apply wpx_bind_wp, wp_os_call. intros added rs2. destruct added; [|apply wpx_exit].
    apply wpx_of_wp, wp_modify. exact (Hfin true rs2).
Qed.


(** ** Receiving *)

Lemma memcmp_eq_same (a b : list Z) : length a = length b -> memcmp_eq a b (length b) = true -> a = b.
Proof.
  intros Hl Hm%bool_decide_eq_true. by rewrite !take_ge in Hm by lia.
Qed.

Lemma wp_gateway_get w peer (Q : option gw_ptr -> world -> Prop) :
  world_inv w -> Q None w ->
  (forall p gw, w_gateways w !! p = Some gw -> gw_peer gw = peer -> Q (Some p) w) ->
  wp (lgtd_lifx_gateway_get peer) Q w.
Proof.
  intros Hi HN HS. unfold lgtd_lifx_gateway_get. apply wp_bind, wp_get.
  assert (Hl : forall p, p ∈ w_gateway_list w -> is_Some (w_gateways w !! p))
    by (intros p; apply (ri_list _ (wi_rest _ Hi))).
  revert Hl. induction (w_gateway_list w) as [|p l IH]; intros Hl; [by apply wp_ret|].
  destruct (Hl p ltac:(by left)) as [gw Hp]. cbn [gateway_get_from].
  apply wp_bind. eapply wp_get_gw; [done|]. cbv beta.
  destruct (bool_decide _ && _ && _) eqn:Hc; [|apply IH; intros; apply Hl; by right].
  apply andb_true_iff in Hc as [[_ Hlen%Nat.eqb_eq]%andb_true_iff Hm].
  apply wp_ret. apply (HS p gw Hp). by apply memcmp_eq_same.
Qed.

(** What the handlers read of the state. *)
Lemma handler_ok_same w w' p h hdr pkt :
  handler_ok w p h hdr pkt ->
  w_bulbs_table w' = w_bulbs_table w -> w_tags w' = w_tags w ->
  (forall gw, w_gateways w !! p = Some gw ->
     exists gw', w_gateways w' !! p = Some gw' /\ gw_bulbs gw' = gw_bulbs gw) ->
  (forall q j, cell (w_gateways w') q j = cell (w_gateways w) q j) ->
  handler_ok w' p h hdr pkt.
Proof.
  intros Hok HB HT HG HC.
  assert (Hroom : forall a, room_for w p a -> room_for w' p a).
  { intros a [Ha|[(gw & Hp & Hlt) Hne]]; [left; by rewrite HB|right]. split; [|done].
    destruct (HG gw Hp) as (gw' & Hp' & Hb). exists gw'. by rewrite Hb. }
  destruct h; cbn [handler_ok] in *; auto.
  destruct Hok as [?|[Hf Hu]]; [by left|right]. split.
  - intros i Hi. rewrite HC. intros Hn j t tag. rewrite HC, HT. by apply (Hf i Hi Hn).
  - intros i j. rewrite !HC. apply Hu.
Qed.

(** The state after a packet was accepted from a gateway. *)
Lemma world_inv_last_pkt w p gw at_ :
  world_inv w -> w_gateways w !! p = Some gw -> world_inv (gw_put p (set_gw_last_pkt_at at_ gw) w).
Proof.
  intros [Hd Hr] Hp. constructor.
  - eapply device_ok_gw_put; try done. intros q []. exists q. by constructor.
  - eapply rest_inv_frame; [done|]. constructor; unfold gw_put; fields; try done; try lia.
    intros k. rewrite lookup_insert. case_decide as Hk; [|done]. subst k. rewrite Hp. by do 2 constructor.
Qed.

Lemma cell_last_pkt w p gw at_ q j :
  w_gateways w !! p = Some gw ->
  cell (w_gateways (gw_put p (set_gw_last_pkt_at at_ gw) w)) q j = cell (w_gateways w) q j.
Proof.
  intros Hp. unfold cell, gw_put. fields. rewrite lookup_insert. case_decide as Hq; [|done].
  subst q. by rewrite Hp.
Qed.

(** The invariant holds after, and no gateway went away. *)
Definition grows {A} (m : M world A) (w : world) : Prop :=
  wpx m (fun _ w' => world_inv w' /\ dom (w_gateways w) ⊆ dom (w_gateways w')) w.

Lemma grows_handle w p info hdr mem N at_ :
  world_inv w -> is_Some (w_gateways w !! p) -> info ∈ packet_table ->
  hdr_packet_type hdr = packet_type_value (pi_type info) ->
  length (hdr_device_addr hdr) = 6%nat -> Forall is_byte (hdr_device_addr hdr) ->
  (52 <= N)%nat -> is_bytes N mem ->
  handler_ok w p (pi_handle info) hdr (packet_decode (pi_decode info) mem) ->
  grows (mwhen (negb (bool_decide (pi_handle info = H_enosys))) (upd_gw p (set_gw_last_pkt_at at_)) ;;
         packet_handle (pi_handle info) p hdr (packet_decode (pi_decode info) mem)) w.
Proof.
  intros Hi [gw Hp] Hin Hty Hl Hb HN Hmem Hok. unfold grows.
  assert (Hrun : forall w1, world_inv w1 -> dom (w_gateways w1) = dom (w_gateways w) ->
    handler_ok w1 p (pi_handle info) hdr (packet_decode (pi_decode info) mem) ->
    wpx (packet_handle (pi_handle info) p hdr (packet_decode (pi_decode info) mem))
      (fun _ w' => world_inv w' /\ dom (w_gateways w) ⊆ dom (w_gateways w')) w1).
  { intros w1 Hi1 Hdom Hok1. apply wpx_of_wp. eapply wp_mono.
    - eapply keeps_packet_handle; try done. by eapply gateway_of_dom; [exact Hdom|eexists].
    - intros _ w2 [Hi2 Hdom2]. split; [done|]. by rewrite Hdom2, Hdom. }
  unfold mwhen. destruct (negb _); [|by apply wpx_bind_wp, wp_ret, Hrun].
  apply wpx_bind_wp. eapply wp_upd_gw; [done|]. apply Hrun.
  - by apply world_inv_last_pkt.
  - by eapply dom_gw_put.
  - eapply handler_ok_same; [done|done|done| |].
    + intros gw' Hp'. eexists. split; [apply gw_put_lookup|]. fields. congruence.
    + intros q j. by apply cell_last_pkt.
Qed.
(** A packet that is read from the socket of a gateway comes from its peer, since
    the socket is connected; whoever sent it behaves. *)
Record packet_ok (w : world) (gw : option gw_ptr) (peer : list Z) (info : lgtd_lifx_packet_info)
    (hdr : lgtd_lifx_packet_header) (pkt : list Z) : Prop := {
  pk_peer : peer <> [];
  pk_gateway : forall p, gw = Some p -> exists g, w_gateways w !! p = Some g /\ gw_peer g = peer;
  pk_handler : forall p g, w_gateways w !! p = Some g -> gw_peer g = peer ->
    handler_ok w p (pi_handle info) hdr pkt
}.

Lemma table_pan_gateway info :
  info ∈ packet_table -> packet_type_value (pi_type info) = packet_type_value LGTD_LIFX_PAN_GATEWAY ->
  pi_handle info = H_pan_gateway.
Proof.
  revert info. apply (Forall_forall (fun info => packet_type_value (pi_type info)
    = packet_type_value LGTD_LIFX_PAN_GATEWAY -> pi_handle info = H_pan_gateway)).
  repeat (constructor; [vm_compute; first [reflexivity|discriminate]|]). constructor.
Qed.

Lemma grows_handle_packet w gw peer info hdr mem N at_ :
  world_inv w -> info ∈ packet_table -> hdr_packet_type hdr = packet_type_value (pi_type info) ->
  length (hdr_device_addr hdr) = 6%nat -> Forall is_byte (hdr_device_addr hdr) ->
  length (hdr_site hdr) = 6%nat -> (52 <= N)%nat -> is_bytes N mem -> at_ <> 0 ->
  packet_ok w gw peer info hdr (packet_decode (pi_decode info) mem) ->
  grows (lgtd_lifx_gateway_handle_packet gw peer info hdr (packet_decode (pi_decode info) mem) at_) w.
Proof.
  intros Hi Hin Hty Hl Hb Hsite HN Hmem Hat [Hpeer Hfrom Hok].
  unfold lgtd_lifx_gateway_handle_packet, grows.
  apply wpx_bind_wp, wp_assert; [by destruct peer|].
  apply wpx_bind_wp, wp_assert; [by apply negb_true_iff, Z.eqb_neq|].
  assert (Hknown : forall p g, w_gateways w !! p = Some g -> gw_peer g = peer ->
    grows (mwhen (negb (bool_decide (pi_handle info = H_enosys))) (upd_gw p (set_gw_last_pkt_at at_)) ;;
           packet_handle (pi_handle info) p hdr (packet_decode (pi_decode info) mem)) w).
  { intros p g Hp Hg. eapply grows_handle; try done. by eapply Hok. }
  apply wpx_bind. destruct gw as [p|].
  - destruct (Hfrom p eq_refl) as (g & Hp & Hg). apply wpx_bind_wp. eapply wp_get_gw; [done|]. cbv beta.
    rewrite Hg. apply wpx_bind_wp, wp_assert; [by apply Nat.eqb_eq|].
    apply wpx_bind_wp, wp_assert; [by apply bool_decide_eq_true|]. by apply wpx_ret, (Hknown p g).
  - apply wpx_bind_wp, wp_gateway_get; [done| |].
    2:{ intros p g Hp Hg. by apply wpx_ret, (Hknown p g). }
    destruct (Z.eqb_spec (hdr_packet_type hdr) (packet_type_value LGTD_LIFX_PAN_GATEWAY)) as [Hpan|_];
      [|by apply wpx_ret, wpx_ret].
    apply wpx_gateway_open; [done|done| |].
    + intros w' Hi' Hdom. apply wpx_ret. by rewrite Hdom.
    + intros w' p g Hi' Hdom Hp _ _ _ _. cbv beta iota.
      eapply wpx_mono; [eapply grows_handle; try done|].
      * rewrite table_pan_gateway; [done|done|congruence].
      * intros _ w'' [? ?]. split; [done|]. etransitivity; [exact Hdom|done].
Qed.

(** The size of [read.buf]. *)
Definition read_size : nat := Z.to_nat LGTD_LIFX_MAX_PACKET_SIZE.

(** The header and payload of any buffer that [recvfrom] filled. *)
Lemma decoded_header_ok buf :
  is_bytes read_size buf ->
  let hdr := lgtd_lifx_wire_decode_header (header_of_bytes buf) in
  length (hdr_device_addr hdr) = 6%nat /\ Forall is_byte (hdr_device_addr hdr) /\ length (hdr_site hdr) = 6%nat.
Proof.
  intros [Hl Hb]. unfold read_size, LGTD_LIFX_MAX_PACKET_SIZE in Hl. cbv zeta.
  unfold hdr_device_addr, lgtd_lifx_wire_decode_header.
  cbn [hdr_target hdr_site header_of_bytes hdr_protocol].
  destruct (field_is_bytes 8 8 buf ltac:(lia) Hb) as [Hl8 Hb8].
  destruct (field_is_bytes 16 6 buf ltac:(lia) Hb) as [Hl6 _].
  destruct (has_flag _ _); split_and!; try done;
    rewrite ?length_take, ?length_store, ?Hl8; try done; apply Forall_take; [apply store_is_byte|done].
Qed.

(** What the network may send: the conditions of the handlers, for the packet a
    datagram decodes to. *)
Record datagram_ok (w : world) (gw : option gw_ptr) (buf peer : list Z) : Prop := {
  dg_buf : is_bytes read_size buf;
  dg_gateway : forall p, gw = Some p -> is_Some (w_gateways w !! p);
  dg_packet : forall info,
    let hdr := lgtd_lifx_wire_decode_header (header_of_bytes buf) in
    lgtd_lifx_wire_get_packet_info (hdr_packet_type hdr) = Some info ->
    packet_ok w gw peer info hdr (packet_decode (pi_decode info) (drop 36 buf))
}.

Lemma world_inv_clock w t ds :
  world_inv w -> w_now w <= t /\ (w_now w < 2 ^ 64 -> t < 2 ^ 64) ->
  world_inv (set_w_clock ds (set_w_now t w)).
Proof.
  intros [Hd Hr] Ht. constructor; [by apply (device_ok_same w)|]. eapply rest_inv_frame; [done|].
  constructor; fields; done || lia.
Qed.

Lemma packet_ok_clock w t ds gw peer info hdr pkt :
  packet_ok w gw peer info hdr pkt -> packet_ok (set_w_clock ds (set_w_now t w)) gw peer info hdr pkt.
Proof.
  intros [Hp Hg Hh]. constructor; fields; [done|done|]. intros p g Hgp Hpeer.
  eapply handler_ok_same; [by eapply Hh|done|done| |done]. fields. intros g' ?. by exists g'.
Qed.

Lemma grows_datagram w gw nbytes buf peer :
  world_inv w -> datagram_ok w gw buf peer -> grows (receive_datagram gw nbytes buf peer) w.
Proof.
  intros Hi [Hbuf _ Hpk]. unfold receive_datagram, grows. apply wpx_bind_wp, wp_time. intros t ds Ht.
  pose proof (world_inv_clock w t ds Hi Ht) as Hi'. pose proof (ri_now _ (wi_rest _ Hi)) as Hnow.
  assert (Hstop : forall b : bool, wpx (mret b) (fun _ w' => world_inv w' /\ dom (w_gateways w) ⊆ dom (w_gateways w'))
    (set_w_clock ds (set_w_now t w))) by (intros; by apply wpx_ret).
  destruct (_ <? _); [exact (Hstop false)|]. cbv zeta.
  destruct (negb (_ =? _)); [exact (Hstop false)|]. destruct (_ =? _); [exact (Hstop true)|].
  destruct (lgtd_lifx_wire_get_packet_info _) as [info|] eqn:Hinfo; [|exact (Hstop true)].
  destruct (negb _); [exact (Hstop true)|].
  destruct (get_packet_info_type _ _ Hinfo) as [Hty Hin].
  destruct (decoded_header_ok buf Hbuf) as (Hl & Hb & Hs).
  apply wpx_bind. eapply wpx_mono; [eapply (grows_handle_packet _ _ _ _ _ (drop 36 buf) (read_size - 36))|].
  - exact Hi'.
  - exact Hin.
  - symmetry. exact Hty.
  - exact Hl.
  - exact Hb.
  - exact Hs.
  - unfold read_size, LGTD_LIFX_MAX_PACKET_SIZE. lia.
  - destruct Hbuf as [Hlb Hbb]. split; [rewrite length_drop; lia|by apply Forall_drop].
  - lia.
  - apply packet_ok_clock, Hpk. exact Hinfo.
  - intros u w' Hw'. apply wpx_ret. exact Hw'.
Qed.

(** Every datagram of a burst is fine when it is handled. *)
Fixpoint receive_ok (rs : list recv_result) (gw : option gw_ptr) (w : world) : Prop :=
  match rs with
  | [] | recv_EAGAIN :: _ | recv_error :: _ => True
  | recv_EINTR :: rs => receive_ok rs gw w
  | recv_datagram nbytes buf peer :: rs =>
    datagram_ok w gw buf peer
    /\ forall w', receive_datagram gw nbytes buf peer w = Ret true w' -> receive_ok rs gw w'
  end.

Lemma grows_receive rs gw w :
  world_inv w -> receive_ok rs gw w -> grows (lgtd_lifx_wire_handle_receive rs gw) w.
Proof.
  revert w. induction rs as [|r rs IH]; intros w Hi Hok; [by apply wpx_ret|].
  destruct r as [| | |nbytes buf peer]; cbn [lgtd_lifx_wire_handle_receive receive_ok] in *;
    [by apply IH|by apply wpx_ret|by apply wpx_ret|].
  destruct Hok as [Hdg Hrest]. pose proof (grows_datagram w gw nbytes buf peer Hi Hdg) as Hg.
  unfold grows, wpx, mbind, M_bind in *.
  destruct (receive_datagram gw nbytes buf peer w) as [ok w'|]; [|done]. destruct Hg as [Hi' Hdom].
  destruct ok; [|done]. specialize (IH w' Hi' (Hrest w' eq_refl)). unfold wpx in IH.
  destruct (lgtd_lifx_wire_handle_receive rs gw w') as [|[]]; try done.
  destruct IH as [? ?]. split; [done|]. by etransitivity.
Qed.
End GatewayInv.
