(* ===== verification/CloseInv.v ===== *)
(** * Closing a gateway

    The events and the buffer of a gateway are released first, then its tags and
    its bulbs, then the gateway itself. The invariant holds again at the end. *)

From Stdlib Require Import ZArith Lia.
From stdpp Require Import base tactics list gmap.
From S2P Require Import Prelude CLib WireBits PacketInfo WireProto World Tagging GatewayQueue.
From S2P Require Import BulbTable Router Bulb Gateway QueueSpec TagsInv SendSpec DeviceInv.
From S2P Require Import DeviceOps Invariant.

Section Close.
Context {E : Endianness}.

(** ** The event is not read while bulbs are closed *)

(** [w] after [event_del] on the socket of [p]. *)
Definition unarmed (p : gw_ptr) (w : world) : world :=
  set_w_gateways (alter (set_gw_socket_ev false) p (w_gateways w)) w.

(** Running [m] after [event_del] is running it before. *)
#[local] Abbreviation ev_blind p m := (blind (unarmed p) m).

Lemma ev_blind_get_bulb p a : ev_blind p (get_bulb a).
Proof. intros w. unfold get_bulb, mbind, M_bind, mget, mderef. cbn. by destruct (w_bulbs_table w !! a). Qed.

(** What follows must not depend on the event. *)
Lemma ev_blind_get_gw {B} p q (k : lgtd_lifx_gateway -> M world B) :
  (forall gw, ev_blind p (k gw)) -> (forall gw, k (set_gw_socket_ev false gw) = k gw) ->
  ev_blind p (gw ← get_gw q; k gw).
Proof.
  intros Hk He w. unfold mbind, M_bind, get_gw, mget, mderef, mbind, M_bind, unarmed. fields.
  destruct (decide (p = q)) as [->|Hne].
  - rewrite lookup_alter_eq. destruct (w_gateways w !! q) as [gw|]; [|done]. simpl. rewrite He. apply Hk.
  - rewrite lookup_alter_ne by done. destruct (w_gateways w !! q) as [gw|]; [|done]. apply Hk.
Qed.

Lemma set_w_gateways_twice G G' w : set_w_gateways G (set_w_gateways G' w) = set_w_gateways G w.
Proof. by destruct w. Qed.

Lemma ev_blind_upd_gw p q f :
  (forall gw, f (set_gw_socket_ev false gw) = set_gw_socket_ev false (f gw)) -> ev_blind p (upd_gw q f).
Proof.
  intros Hf w. unfold upd_gw, get_gw, mbind, M_bind, mget, mderef, mmodify, unarmed. fields.
  destruct (decide (p = q)) as [->|Hne].
  - rewrite lookup_alter_eq. destruct (w_gateways w !! q) as [gw|]; [|done]. cbn [fmap option_fmap option_map]. fields.
    unfold mret, M_ret. fields. rewrite !set_w_gateways_twice. do 2 f_equal. rewrite Hf. apply map_eq. intros k.
    destruct (decide (q = k)) as [->|];
      [by rewrite lookup_insert_eq, lookup_alter_eq, lookup_insert_eq|].
    by rewrite lookup_insert_ne, !lookup_alter_ne, lookup_insert_ne by done.
  - rewrite lookup_alter_ne by done. destruct (w_gateways w !! q) as [gw|]; [|done]. unfold mret, M_ret. fields.
    rewrite !set_w_gateways_twice. do 2 f_equal. symmetry. by apply alter_insert_ne.
Qed.

Lemma ev_blind_stats_add p f v : ev_blind p (lgtd_stats_add f v).
Proof.
  intros w. unfold lgtd_stats_add, mbind, M_bind, mget, massert, unarmed. fields.
  by destruct (0 <=? _).
Qed.

Lemma ev_blind_get_refcount p q i : ev_blind p (get_refcount q i).
Proof. apply ev_blind_get_gw; [intros; apply blind_deref|done]. Qed.

Lemma ev_blind_count_tagged p l a i : ev_blind p (count_tagged l a i).
Proof.
  induction l; [done|]. cbn [count_tagged].
  apply blind_bind; [apply blind_assert|intros _].
  apply blind_bind; [apply ev_blind_get_bulb|intros b].
  by apply blind_bind.
Qed.

Lemma ev_blind_remove_and_close_bulb p q a : ev_blind p (lgtd_lifx_gateway_remove_and_close_bulb q a).
Proof.
  apply blind_bind; [apply ev_blind_get_bulb|intros b].
  apply blind_bind.
  { apply blind_foreach. intros i. apply blind_bind; [apply ev_blind_get_refcount|intros n].
    apply blind_bind; [apply blind_assert|intros _]. by apply ev_blind_upd_gw. }
  intros _. apply ev_blind_get_gw; [|done]. intros gw. apply blind_bind.
  { destruct (bool_decide _); [by apply ev_blind_upd_gw|apply blind_crash]. }
  intros _. apply blind_bind; [apply ev_blind_get_bulb|intros b'].
  apply ev_blind_get_gw; [|done]. intros gw'. apply blind_bind.
  { apply blind_foreach. intros i. apply blind_bind; [apply ev_blind_count_tagged|intros n].
    apply blind_bind; [apply ev_blind_get_refcount|intros r]. apply blind_assert. }
  intros _. apply blind_bind; [apply ev_blind_stats_add|intros _].
  apply blind_bind; [apply blind_when, ev_blind_stats_add|done].
Qed.

(** ** The loops *)

Lemma tags_put_put tags tl tags' tl' w : tags_put tags tl (tags_put tags' tl' w) = tags_put tags tl w.
Proof. by destruct w. Qed.

(** From cell [k] on, every tag is released. *)
Lemma wp_decref_cells p l : forall k G gw w (Q : unit -> world -> Prop),
  tags_inv G (w_tags w) (w_tag_list w) -> G !! p = Some gw -> drop k (gw_tags gw) = l ->
  (forall j, (j < k)%nat -> cell G p j = None) ->
  (forall G' tags tl, tags_inv G' tags tl -> (forall q j, q <> p -> cell G' q j = cell G q j) ->
     (forall j, cell G' p j = None) -> Q tt (tags_put tags tl w)) ->
  wp (mforeach l (fun cell => match cell with
                              | Some t => lgtd_lifx_tagging_decref t p
                              | None => mret tt
                              end)) Q w.
Proof.
  induction l as [|c l IH]; intros k G gw w Q Htags Hp Hdrop Hlow HQ; cbn [mforeach].
  - apply wp_ret. replace w with (tags_put (w_tags w) (w_tag_list w) w) by (by destruct w).
    eapply HQ; [exact Htags|done|]. intros j. unfold cell. rewrite Hp. simpl.
    destruct (gw_tags gw !! j) as [c|] eqn:Hj; [|done]. assert (j < k)%nat as Hlt.
    { apply lookup_lt_Some in Hj. apply (f_equal length) in Hdrop. rewrite length_drop in Hdrop. simpl in Hdrop. lia. }
    specialize (Hlow j Hlt). unfold cell in Hlow. rewrite Hp in Hlow. simpl in Hlow.
    by rewrite Hj in Hlow.
  - assert (Hk : gw_tags gw !! k = Some c)
      by (rewrite <- (Nat.add_0_r k), <- lookup_drop, Hdrop; done).
    assert (Hdrop' : drop (S k) (gw_tags gw) = l)
      by (rewrite <- Nat.add_1_r, <- drop_drop, Hdrop; done).
    assert (Hc : cell G p k = c) by (unfold cell; by rewrite Hp; simpl; rewrite Hk).
    apply wp_bind. destruct c as [t|].
    + eapply (wp_decref G p gw k t w); [done|done|by eapply lookup_lt_Some|done|].
      intros tags' tl' Htags'. pose proof (lookup_lt_Some _ _ _ Hk) as Hlt.
      eapply (IH (S k) (set_cell p k None gw G)).
      * exact Htags'.
      * apply lookup_insert_eq.
      * fields. by rewrite drop_insert_lt by lia.
      * intros j Hj. rewrite cell_set_cell by done. case_bool_decide as Hd; [done|]. apply Hlow.
        assert (j <> k) by naive_solver. lia.
      * intros G' tags tl HG' Hq Hn. rewrite tags_put_put. eapply HQ; [exact HG'| |exact Hn].
        intros q j Hne. rewrite Hq, cell_set_cell by done. rewrite bool_decide_eq_false_2; [done|]. by intros [? _].
    + apply wp_ret. eapply (IH (S k) G gw); try done. intros j Hj.
      destruct (decide (j = k)) as [->|]; [done|]. apply Hlow. lia.
Qed.

Lemma unarmed_lookup p q w gw :
  w_gateways w !! q = Some gw ->
  w_gateways (unarmed p w) !! q = Some (if decide (q = p) then set_gw_socket_ev false gw else gw).
Proof.
  intros Hq. unfold unarmed. fields. case_decide as Hd; [subst; by rewrite lookup_alter_eq, Hq|].
  by rewrite lookup_alter_ne.
Qed.

Lemma wp_close_bulbs fuel : forall w p gw (Q : unit -> world -> Prop),
  device_ok w -> w_gateways w !! p = Some gw -> (length (gw_bulbs gw) < fuel)%nat ->
  (forall w' gw', device_ok w' -> rest_frame w w' -> w_gateways w' !! p = Some gw' -> gw_bulbs gw' = [] ->
     dom (w_bulbs_table w') = dom (w_bulbs_table w) ∖ list_to_set (gw_bulbs gw) -> Q tt (unarmed p w')) ->
  wp (close_bulbs fuel p) Q (unarmed p w).
Proof.
  induction fuel as [|fuel IH]; intros w p gw Q Hd Hp Hlt HQ; [lia|]. cbn [close_bulbs].
  apply wp_bind. eapply wp_get_gw; [by apply unarmed_lookup|]. rewrite decide_True by done. cbv beta. fields.
  destruct (gw_bulbs gw) as [|a l] eqn:Hb.
  - apply wp_ret. apply (HQ w gw); [done|reflexivity|done|done|]. set_solver.
  - destruct (bi_bulbs _ _ (dv_bulbs _ _ _ Hd) p gw a Hp) as (b & Ha & Hbp); [rewrite Hb; by left|].
    apply wp_bind, wp_blind; [apply ev_blind_remove_and_close_bulb|].
    eapply wp_remove_and_close_bulb; [done|done|exact Ha|done|].
    intros w1 gw1 Hd1 Hf1 Hdom1 _ Hp1 Hb1.
    assert (Hfl : filter (fun x => x <> a) (a :: l) = l).
    { destruct (dv_counts _ _ _ Hd p gw Hp) as [Hnd _ _ _]. rewrite Hb in Hnd.
      apply NoDup_cons in Hnd as [Hni _]. rewrite filter_cons_False by naive_solver. by apply filter_ne_id. }
    rewrite Hb, Hfl in Hb1. eapply IH; [exact Hd1|exact Hp1|rewrite Hb1; simpl in Hlt; lia|].
    intros w2 gw2 Hd2 Hf2 Hp2 Hb2 Hdom2. eapply HQ; [done|by etransitivity|done|done|].
    rewrite Hdom2, Hdom1, Hb1. cbn [list_to_set]. set_solver.
Qed.

(** ** The invariant afterwards *)

(** A gateway without bulbs can go. *)
Lemma device_ok_delete_gw w p gw :
  device_ok w -> w_gateways w !! p = Some gw -> gw_bulbs gw = [] ->
  device_ok (set_w_gateways (delete p (w_gateways w)) w).
Proof.
  intros [[Hcl Hg] Hc [Hok Hgw Hbs] Hfound Hon] Hp Hb. unfold device_ok. constructor; fields; try done.
  - constructor; fields; [done|]. intros p' gw' [_ Hp']%lookup_delete_Some. by apply (Hg p').
  - intros p' gw' [_ Hp']%lookup_delete_Some. by apply (Hc p').
  - constructor; [done| |].
    + intros a b Ha. destruct (Hgw a b Ha) as (gw' & Hp' & Hin). exists gw'.
      rewrite lookup_delete_ne; [done|]. intros Heq. rewrite <- Heq, Hp in Hp'. injection Hp' as <-.
      rewrite Hb in Hin. by apply elem_of_nil in Hin.
    + intros p' gw' a [_ Hp']%lookup_delete_Some. by apply Hbs.
Qed.

(** The state when the tags were released: what is left is to close the bulbs. *)
Definition disconnected (p : gw_ptr) (gw : lgtd_lifx_gateway) (w : world) : world :=
  set_w_gateway_list (filter (fun x => x <> p) (w_gateway_list w))
    (set_w_timers (delete (gw_refresh_timer gw) (w_timers w))
       (set_w_counters (set_stats_gateways (stats_gateways (w_counters w) - 1) (w_counters w)) w)).

Lemma device_ok_disconnected p gw w tags tl : device_ok w -> device_ok (tags_put tags tl (disconnected p gw w)).
Proof.
  intros [[Hcl Hg] Hc Hbs Hfound Hon]. unfold device_ok, disconnected, tags_put. fields.
  constructor; fields; try done.
Qed.

Lemma world_inv_closed w p gw G' tags tl w' gw' :
  world_inv w -> w_gateways w !! p = Some gw ->
  tags_inv G' tags tl -> (forall q j, q <> p -> cell G' q j = cell (w_gateways w) q j) ->
  (forall j, cell G' p j = None) ->
  device_ok w' -> rest_frame (tags_put tags tl (disconnected p gw w)) w' ->
  w_gateways w' !! p = Some gw' -> gw_bulbs gw' = [] ->
  world_inv (set_w_gateways (delete p (w_gateways w')) w').
Proof.
  intros [_ [Hnd Hl Hso Hti Hta Hre Hti' Hfo Hno]] Hp Htags Hcq Hcp Hd Hf Hp' Hb.
  constructor; [by eapply device_ok_delete_gw|].
  assert (Hlook : forall q gq', q <> p -> w_gateways w' !! q = Some gq' ->
    exists gq, w_gateways w !! q = Some gq /\ rest_gw_frame gq gq')
    by (intros q gq' _ Hq'; exact (rest_gateway_before _ _ _ _ Hf Hq')).
  pose proof (re_timers _ _ Hf) as [Hgrow1 Hgrow2]. unfold tags_put, disconnected in Hgrow1, Hgrow2.
  fields_in Hgrow1. fields_in Hgrow2.
  assert (Hdistinct : forall q gq, q <> p -> w_gateways w !! q = Some gq ->
    gw_refresh_timer gq <> gw_refresh_timer gw).
  { intros q gq Hne Hq Heq. destruct (Hre q gq Hq) as (t1 & Ht1 & _ & Hc1).
    destruct (Hre p gw Hp) as (t2 & Ht2 & _ & Hc2). rewrite Heq in Ht1. congruence. }
  constructor; fields.
  - rewrite (re_gateway_list _ _ Hf). unfold tags_put, disconnected. fields. by apply NoDup_filter.
  - intros q. rewrite (re_gateway_list _ _ Hf). unfold tags_put, disconnected. fields.
    rewrite list_elem_of_filter, Hl. destruct (decide (q = p)) as [->|Hne].
    + rewrite lookup_delete_eq. split; [by intros [? _]|by intros [? ?]].
    + rewrite lookup_delete_ne by done.
      pose proof (re_gateways _ _ Hf q) as Hr. unfold tags_put, disconnected in Hr. fields_in Hr.
      destruct Hr; split; try (by intros [_ [? ?]]); try (by intros [? ?]); done.
  - intros q gq [Hne Hq]%lookup_delete_Some. destruct (Hlook q gq) as (g0 & Hq0 & Hfr); [done|done|].
    rewrite (ro_socket _ _ Hfr). by eapply Hso.
  - intros q gq [Hne Hq]%lookup_delete_Some. destruct (Hlook q gq) as (g0 & Hq0 & Hfr); [done|done|].
    destruct (Hti q g0 Hq0). constructor; rewrite ?(ro_tags _ _ Hfr), ?(ro_tag_ids _ _ Hfr); done.
  - rewrite (re_tags _ _ Hf), (re_tag_list _ _ Hf). unfold tags_put. fields.
    eapply tags_inv_cells; [|exact Htags]. intros q j. destruct (decide (q = p)) as [->|Hne].
    + rewrite Hcp. unfold cell. by rewrite lookup_delete_eq.
    + rewrite Hcq by done. transitivity (cell (w_gateways w') q j).
      * apply (rest_frame_cell _ _ q j Hf).
      * unfold cell. by rewrite lookup_delete_ne.
  - intros q gq [Hne Hq]%lookup_delete_Some. destruct (Hlook q gq) as (g0 & Hq0 & Hfr); [done|done|].
    destruct (Hre q g0 Hq0) as (tm & Htm & Hrt). exists tm. rewrite (ro_refresh_timer _ _ Hfr).
    split; [|done]. apply Hgrow1. rewrite lookup_delete_ne; [done|]. intros Heq. by eapply Hdistinct.
  - intros t tm Ht. destruct (Hgrow2 t tm Ht) as [[Hne Ht']%lookup_delete_Some|]; [|by left].
    destruct (Hti' t tm Ht') as [|(q & gq & Hrt & Hq & Hgt)]; [by left|right].
    assert (q <> p) by (intros ->; congruence).
    destruct (rest_gateway_after _ _ q gq Hf Hq) as (gq' & Hq' & Hfr). exists q, gq'.
    rewrite lookup_delete_ne by done. by rewrite (ro_refresh_timer _ _ Hfr).
  - rewrite (re_gateways_found _ _ Hf). unfold tags_put, disconnected. fields. rewrite Hfo.
    rewrite map_size_delete, Hp'. rewrite <- (size_dom (w_gateways w')), (rest_frame_dom _ _ Hf).
    unfold tags_put, disconnected. fields. rewrite size_dom.
    assert (size (w_gateways w) <> 0%nat) by (apply map_size_ne_0_lookup; eauto). lia.
  - pose proof (re_now _ _ Hf) as Hn. unfold tags_put, disconnected in Hn. fields_in Hn. lia.
Qed.

Lemma wp_gateway_close w p gw (Q : unit -> world -> Prop) :
  world_inv w -> w_gateways w !! p = Some gw ->
  (forall w', world_inv w' -> dom (w_gateways w') = dom (w_gateways w) ∖ {[p]} ->
     w_gateway_list w' = filter (fun x => x <> p) (w_gateway_list w) ->
     dom (w_bulbs_table w') = dom (w_bulbs_table w) ∖ list_to_set (gw_bulbs gw) -> Q tt w') ->
  wp (lgtd_lifx_gateway_close p) Q w.
Proof.
  intros Hi Hp HQ. unfold lgtd_lifx_gateway_close.
  pose proof (wi_rest _ Hi) as Hr. destruct (ri_refresh _ Hr p gw Hp) as (tm & Htm & _).
  apply wp_bind, wp_stats_add; cbn [get_counter set_counter].
  { rewrite (ri_found _ Hr). assert (size (w_gateways w) <> 0%nat) by (apply map_size_ne_0_lookup; eauto). lia. }
  apply wp_bind. eapply wp_get_gw; [exact Hp|]. cbv beta.
  apply wp_bind. unfold lgtd_timer_stop. apply wp_bind. eapply wp_get_timer; [exact Htm|]. apply wp_modify. fields.
  apply wp_bind. eapply wp_upd_gw; [exact Hp|].
  rewrite (proj2 (Z.eqb_neq _ _) (ri_socket _ Hr p gw Hp)). cbn [negb mwhen].
  apply wp_bind, wp_modify. apply wp_bind. unfold decref_all. apply wp_bind.
  set (w1 := set_w_gateway_list _ _).
  assert (Hw1 : w1 = unarmed p (disconnected p gw w)).
  { unfold w1, unarmed, disconnected, gw_put. fields. rewrite (alter_alt_Some _ _ _ gw) by done. by destruct w. }
  rewrite Hw1. clear w1 Hw1.
  eapply wp_get_gw; [by apply unarmed_lookup|]. rewrite decide_True by done. cbv beta. fields.
  eapply (wp_decref_cells p _ 0 (w_gateways w) gw); [apply (ri_tags _ Hr)|done|done|lia|].
  intros G' tags tl Htags Hcq Hcp.
  change (tags_put tags tl (unarmed p (disconnected p gw w)))
    with (unarmed p (tags_put tags tl (disconnected p gw w))).
  apply wp_bind. eapply wp_get_gw; [by apply unarmed_lookup|]. rewrite decide_True by done. cbv beta. fields.
  apply wp_bind. eapply wp_close_bulbs; [apply device_ok_disconnected, Hi|exact Hp|lia|].
  intros w' gw' Hd' Hf Hp' Hb' Hdom. apply wp_modify.
  assert (Heq : set_w_gateways (delete p (w_gateways (unarmed p w'))) (unarmed p w')
    = set_w_gateways (delete p (w_gateways w')) w').
  { unfold unarmed. fields. rewrite set_w_gateways_twice. f_equal. apply delete_alter_eq. }
  rewrite Heq. apply HQ.
  - by eapply world_inv_closed.
  - fields. rewrite dom_delete_L, (rest_frame_dom _ _ Hf). done.
  - fields. by rewrite (re_gateway_list _ _ Hf).
  - fields. rewrite Hdom. done.
Qed.
End Close.
