(* ===== verification/EventsInv.v ===== *)
(** * Events of the daemon

    The callbacks the event loop runs: the socket of a gateway is readable,
    writable or timed out, a timer fires, the watchdog runs. Each one keeps the
    invariant and neither fails an assertion nor reads memory it does not own. *)

From Stdlib Require Import ZArith Lia.
From stdpp Require Import base tactics list gmap sorting.
From S2P Require Import Prelude CLib WireBits PacketInfo WireProto World Tagging GatewayQueue.
From S2P Require Import BulbTable Router Bulb Gateway QueueSpec TagsInv SendSpec DeviceInv.
From S2P Require Import DeviceOps Invariant HandlersInv GatewayInv CloseInv WorldFrames.

Section Events.
Context {E : Endianness}.

(** ** Writing *)

Lemma queue_frame_ring_pop nbytes gw : queue_frame gw (ring_pop nbytes gw).
Proof.
  unfold ring_pop. destruct (_ !! _) as [m|]; [|by constructor].
  destruct (_ =? 0); [|by constructor]. by destruct (_ =? _); constructor.
Qed.

Lemma queue_frame_stop_event gw : queue_frame gw (stop_event_if_empty gw).
Proof. unfold stop_event_if_empty. by case_bool_decide; constructor. Qed.

(** The write event of a gateway whose queue has a packet. *)
Lemma wp_gateway_write w p gw pkt q wr (Q : bool -> world -> Prop) :
  w_gateways w !! p = Some gw -> queue_repr gw (pkt :: q) -> wr <> write_EAGAIN ->
  (wr = write_error -> Q false w) ->
  (forall n t ds gw', wr = write_ok n ->
     w_now w <= t /\ (w_now w < 2 ^ 64 -> t < 2 ^ 64) ->
     queue_frame gw gw' -> gw_last_req_at gw' = gw_next_req_at gw -> gw_next_req_at gw' = t ->
     queue_repr gw' (queue_write (Nat.min n (length (packet_bytes pkt))) (pkt :: q)) ->
     Q true (gw_put p gw' (set_w_clock ds (set_w_now t w)))) ->
  wp (gateway_write p wr) Q w.
Proof.
  intros Hp Hq Hwr Herr Hok. unfold gateway_write. apply wp_bind. eapply wp_get_gw; [done|]. cbv beta.
  pose proof Hq as [Hr Hl Ht _ _ Hm Hb _ _].
  apply wp_bind, wp_assert; [by apply Nat.ltb_lt|].
  pose proof (Hm 0%nat pkt eq_refl) as Hm0. rewrite Nat.add_0_r, Nat.mod_small in Hm0 by done.
  apply wp_bind. eapply wp_deref; [done|]. cbn [packet_message msg_size].
  destruct wr as [n| |]; [|done|by apply wp_ret, Herr].
  set (k := Nat.min n (length (packet_bytes pkt))).
  replace (Z.min (Z.of_nat n) _) with (Z.of_nat k).
  2:{ unfold k. rewrite Hb. cbn [fmap list_fmap mjoin list_join]. rewrite length_app. lia. }
  rewrite Nat2Z.id. apply wp_bind. eapply wp_upd_gw; [done|].
  apply wp_bind. eapply wp_upd_gw; [apply gw_put_lookup|]. rewrite gw_put_put. fields.
  apply wp_bind, wp_time. intros t ds Htime.
  assert (Hput : forall g, set_w_clock ds (set_w_now t (gw_put p g w)) = gw_put p g (set_w_clock ds (set_w_now t w)))
    by (intros; by destruct w).
  rewrite Hput. unfold gw_put at 2 in Htime. fields_in Htime.
  apply wp_bind. eapply wp_upd_gw; [apply gw_put_lookup|]. rewrite gw_put_put.
  apply wp_bind. eapply wp_upd_gw; [apply gw_put_lookup|]. rewrite gw_put_put.
  apply wp_bind. eapply wp_get_gw; [apply gw_put_lookup|]. cbv beta.
  set (gw0 := set_gw_next_req_at t (set_gw_last_req_at (gw_next_req_at gw) gw)).
  change (set_gw_next_req_at t _) with (set_gw_write_buf (drop k (gw_write_buf gw0)) gw0).
  set (gw1 := ring_pop (Z.of_nat k) _).
  assert (Hq0 : queue_repr gw0 (pkt :: q)) by (destruct Hq; by constructor).
  pose proof (queue_repr_write gw0 q pkt k Hq0 ltac:(lia)) as Hq'. fold gw1 in Hq'.
  assert (Hreq : gw_last_req_at gw1 = gw_next_req_at gw /\ gw_next_req_at gw1 = t).
  { unfold gw1, ring_pop. fields. destruct (alter _ _ _ !! _) as [m|]; [|done].
    destruct (msg_size m =? 0); [|done]. by destruct (_ =? _). }
  assert (Hf : queue_frame gw gw1).
  { transitivity (set_gw_write_buf (drop k (gw_write_buf gw0)) gw0); [by constructor|apply queue_frame_ring_pop]. }
  apply wp_bind. unfold mwhen, stop_event_if_empty in *. destruct Hreq as [Hlast Hnext].
  destruct (bool_decide (gw_write_buf gw1 = [])).
  - eapply wp_upd_gw; [apply gw_put_lookup|]. rewrite gw_put_put. apply wp_ret.
    eapply Hok; [reflexivity|done| |done|done|exact Hq'].
    transitivity gw1; [done|by constructor].
  - apply wp_ret, wp_ret. by eapply Hok.
Qed.

Lemma sends_gateway_write w p gw wr :
  sendable w -> w_gateways w !! p = Some gw -> gw_socket_ev gw = true -> wr <> write_EAGAIN ->
  sends (gateway_write p wr) w.
Proof.
  intros Hs Hp Hev Hwr. destruct (sd_gateways _ Hs p gw Hp) as [[q Hq] Hsite].
  destruct q as [|pkt q]; [pose proof (qr_event _ _ Hq); simpl in *; congruence|].
  eapply wp_gateway_write; [done|exact Hq|done|by split|].
  intros n t ds gw' _ Ht Hf _ _ Hq'.
  assert (Hf1 : send_frame w (set_w_clock ds (set_w_now t w)))
    by (constructor; fields; done || lia).
  assert (Hfr : send_frame w (gw_put p gw' (set_w_clock ds (set_w_now t w)))).
  { etransitivity; [exact Hf1|]. by eapply send_frame_gw_put. }
  split; [done|]. eapply sendable_frame; [exact Hs|exact Hfr|]. intros p' gw''. unfold gw_put. fields.
  rewrite lookup_insert. case_decide; [intros [= <-]; by eexists|]. intros Hp'.
  by destruct (sd_gateways _ Hs p' gw'' Hp').
Qed.

(** ** Timers *)

Lemma keeps_refresh_callback w p :
  world_inv w -> is_Some (w_gateways w !! p) -> keeps (lgtd_lifx_gateway_refresh_callback p) w.
Proof.
  intros Hi Hp. unfold lgtd_lifx_gateway_refresh_callback. apply keeps_seq.
  { apply keeps_of_sends; [done|]. apply sends_get_all_light_state; [apply (dv_send _ _ _ (wi_devices _ Hi))|done]. }
  intros _ w' Hi' Hdom. destruct (gateway_of_dom _ _ p Hdom Hp) as [gw' Hp'].
  apply wp_bind. eapply wp_get_gw; [done|]. cbv beta.
  apply keeps_seq; [by eapply keeps_reschedule|]. intros; by apply keeps_mret.
Qed.

Lemma sends_resend_if T P w test a ptype :
  device_inv T P w -> is_Some (w_bulbs_table w !! a) -> packet_size ptype = Some 0 ->
  sends (resend_if test a ptype) w.
Proof.
  intros Hd Ha Hsz. unfold resend_if. apply sends_bind.
  - apply sends_when; [apply (dv_send _ _ _ Hd)|]. intros _. eapply sends_to_bulb; [done|done|].
    exists 0. by split.
  - intros _ w' _ Hs. by apply sends_ret.
Qed.

Lemma keeps_timer_stop w t tm :
  world_inv w -> w_timers w !! t = Some tm -> hardware_timer tm -> keeps (lgtd_timer_stop t) w.
Proof.
  intros Hi Ht Hh. unfold lgtd_timer_stop. apply wp_bind. eapply wp_get_timer; [done|]. apply wp_modify.
  split; [|done]. by eapply world_inv_timer_delete.
Qed.

(** An operation that only sends, then more; the timers are the same. *)
Lemma keeps_sends_seq {A B} (m : M world A) (k : A -> M world B) w a t tm :
  world_inv w -> sends m w -> is_Some (w_bulbs_table w !! a) -> w_timers w !! t = Some tm ->
  (forall x w', world_inv w' -> is_Some (w_bulbs_table w' !! a) -> w_timers w' !! t = Some tm -> keeps (k x) w') ->
  keeps (m ≫= k) w.
Proof.
  intros Hi Hm [b Ha] Ht Hk. apply wp_bind. eapply wp_mono; [exact Hm|]. intros x w' [Hf Hs].
  destruct (bulb_after _ _ _ _ _ _ Hf Ha) as (b' & Ha' & _).
  assert (Hi' : world_inv w').
  { constructor; [eapply device_ok_send; [apply Hi|done|done]|].
    eapply rest_inv_frame; [apply Hi|by apply send_frame_rest]. }
  eapply wp_mono; [apply (Hk x w' Hi' ltac:(by eexists))|].
  - by rewrite (sf_timers _ _ _ _ Hf).
  - intros y w'' [? Hdom]. split; [done|]. rewrite Hdom. apply rest_frame_dom. by apply send_frame_rest.
Qed.

Lemma wp_bulb_ip w a b ip (Q : lgtd_lifx_bulb_ip -> world -> Prop) :
  bulb_ok a b -> (forall i, Q i w) -> wp (bulb_ip b ip) Q w.
Proof.
  intros Hok HQ. unfold bulb_ip. destruct (lookup_lt_is_Some_2 (bulb_ips b) (bulb_ip_index ip)) as [i Hi].
  - rewrite (bo_ips _ _ Hok). destruct ip; simpl; lia.
  - eapply wp_deref; [done|]. apply HQ.
Qed.

Lemma keeps_fetch_hardware_info w t tm n :
  world_inv w -> w_timers w !! t = Some tm -> hardware_timer tm -> n <> 0 ->
  keeps (lgtd_lifx_bulb_fetch_hardware_info t n) w.
Proof.
  intros Hi Ht Hh Hn. unfold lgtd_lifx_bulb_fetch_hardware_info.
  apply wp_bind, wp_assert; [by apply negb_true_iff, Z.eqb_neq|].
  apply wp_bind. unfold lgtd_lifx_bulb_get. apply wp_bind, wp_get, wp_ret. cbv zeta.
  generalize (take LGTD_LIFX_ADDR_LENGTH (take LGTD_LIFX_ADDR_LENGTH (store 8 n))). intros a.
  destruct (w_bulbs_table w !! a) as [b|] eqn:Ha; [|by eapply keeps_timer_stop].
  assert (Hd : forall w', world_inv w' -> device_ok w') by (intros ? [? _]; done).
  apply wp_bind. eapply wp_get_bulb; [exact Ha|]. cbv beta.
  eapply keeps_sends_seq; [exact Hi| |by eexists|exact Ht|].
  { eapply sends_resend_if; [by apply Hd|by eexists|by vm_compute]. }
  intros s1 w1 Hi1 [b1 Ha1] Ht1. pose proof (bi_ok _ _ (dv_bulbs _ _ _ (Hd _ Hi1)) a b1 Ha1) as Hok1.
  apply wp_bind. eapply wp_get_bulb; [exact Ha1|]. cbv beta.
  apply wp_bind. eapply wp_bulb_ip; [exact Hok1|]. intros mcu. cbv beta.
  eapply keeps_sends_seq; [exact Hi1| |by eexists|exact Ht1|].
  { eapply sends_resend_if; [by apply Hd|by eexists|by vm_compute]. }
  intros s2 w2 Hi2 [b2 Ha2] Ht2. pose proof (bi_ok _ _ (dv_bulbs _ _ _ (Hd _ Hi2)) a b2 Ha2) as Hok2.
  apply wp_bind. eapply wp_get_bulb; [exact Ha2|]. cbv beta.
  apply wp_bind. eapply wp_bulb_ip; [exact Hok2|]. intros mcu2. cbv beta.
  apply wp_bind. eapply wp_bulb_ip; [exact Hok2|]. intros wifi. cbv beta zeta.
  pose proof (dv_send _ _ _ (Hd _ Hi2)) as Hs2.
  eapply (keeps_sends_seq _ _ w2 a); [exact Hi2| |by eexists|exact Ht2|].
  { destruct (_ =? 0); [|by apply sends_ret]. apply sends_bind; [by apply sends_now|].
    intros now w' _ Hs'. by apply sends_ret. }
  intros test w3 Hi3 Ha3 Ht3.
  eapply keeps_sends_seq; [exact Hi3| |exact Ha3|exact Ht3|].
  { eapply sends_resend_if; [by apply Hd|done|by vm_compute]. }
  intros s3 w4 Hi4 _ Ht4. unfold mwhen. destruct (negb _); [|by apply keeps_mret].
  by eapply keeps_timer_stop.
Qed.

(** A timer that fires exists. *)
Lemma keeps_timer_callback w t :
  world_inv w -> is_Some (w_timers w !! t) -> keeps (lgtd_timer_callback t) w.
Proof.
  intros Hi [tm Ht]. unfold lgtd_timer_callback. apply wp_bind. eapply wp_get_timer; [done|]. cbv beta.
  destruct (ri_timers _ (wi_rest _ Hi) t tm Ht) as [Hh|(p & gw & [Hcb Hctx] & Hp & _)].
  - pose proof Hh as [Hcb (n & Hctx & Hn)]. rewrite Hcb, Hctx. by eapply keeps_fetch_hardware_info.
  - rewrite Hcb, Hctx. apply keeps_refresh_callback; [done|by eexists].
Qed.

(** ** The watchdog *)

Lemma world_inv_rest w w' : world_inv w -> device_ok w' -> rest_frame w w' -> world_inv w'.
Proof. intros [_ Hr] Hd Hf. constructor; [done|]. by eapply rest_inv_frame. Qed.

(** A bulb whose last state is too old at time [now]. *)
Definition stale (now : Z) (b : lgtd_lifx_bulb) : bool :=
  LGTD_LIFX_DISCOVERY_DEVICE_TIMEOUT_MSECS <=? i32 (u64 (now - bulb_last_light_state_at b)).

Lemma stale_frame now b b' : bulb_frame b b' -> stale now b' = stale now b.
Proof. by intros (d & e & ->). Qed.

(** The loop closes the stale bulbs of its list and keeps the others. *)
Lemma wp_watchdog_bulbs now l : forall w start (Q : bool -> world -> Prop),
  world_inv w -> NoDup l -> (forall a, a ∈ l -> is_Some (w_bulbs_table w !! a)) ->
  (forall b w', world_inv w' -> dom (w_gateways w') = dom (w_gateways w) ->
     w_gateway_list w' = w_gateway_list w ->
     (forall a, a ∉ l -> option_Forall2 bulb_frame (w_bulbs_table w !! a) (w_bulbs_table w' !! a)) ->
     (forall a bu, a ∈ l -> w_bulbs_table w !! a = Some bu ->
        if stale now bu then w_bulbs_table w' !! a = None else is_Some (w_bulbs_table w' !! a)) ->
     (start = true -> b = true) ->
     Q b w') ->
  wp (watchdog_bulbs now l start) Q w.
Proof.
  induction l as [|a l IH]; intros w start Q Hi Hnd Hl HQ; cbn [watchdog_bulbs].
  { apply wp_ret. apply HQ; try done. by intros a bu ?%elem_of_nil. }
  apply NoDup_cons in Hnd as [Hni Hnd]. destruct (Hl a ltac:(by left)) as [b Ha].
  apply wp_bind. eapply wp_get_bulb; [exact Ha|]. cbv beta zeta. fold (stale now b).
  destruct (stale now b) eqn:Hstale.
  - destruct (bulb_in_gateway w a b _ _ (wi_devices _ Hi) Ha) as (gw & Hgw & _ & _).
    apply wp_bind. eapply wp_remove_and_close_bulb; [apply Hi|exact Hgw|exact Ha|done|].
    intros w1 gw1 Hd1 Hf1 Hdom1 Hothers _ _.
    assert (Hgone : w_bulbs_table w1 !! a = None)
      by (apply not_elem_of_dom; rewrite Hdom1; set_solver).
    apply IH; [by eapply world_inv_rest|done| |].
    { intros x Hx. assert (x <> a) by (by intros ->).
      destruct (Hl x ltac:(by right)) as [bx Hbx]. pose proof (Hothers x ltac:(done)) as Ho.
      rewrite Hbx in Ho. inversion Ho; subst. by eexists. }
    intros r w2 Hi2 Hdom2 Hlist2 Hnot Hin Hstart. apply HQ; [done| | | | |].
    + rewrite Hdom2. by apply rest_frame_dom.
    + rewrite Hlist2. apply (re_gateway_list _ _ Hf1).
    + intros x [Hxa Hxl]%not_elem_of_cons. pose proof (Hothers x Hxa) as H1. pose proof (Hnot x Hxl) as H2.
      destruct H1; inversion H2; subst; constructor. by etransitivity.
    + intros x bu [->|Hx]%elem_of_cons Hbu.
      * rewrite Ha in Hbu. injection Hbu as <-. rewrite Hstale.
        pose proof (Hnot a Hni) as H2. rewrite Hgone in H2. by inversion H2.
      * assert (Hne : x <> a) by (by intros ->). pose proof (Hothers x Hne) as H1. rewrite Hbu in H1.
        inversion H1 as [? b1 Hbf Heq1 Heq2|]; subst. specialize (Hin x b1 Hx (eq_sym Heq2)).
        by rewrite (stale_frame _ _ _ Hbf) in Hin.
    + intros _. by apply Hstart.
  - apply IH; [done|done|intros; apply Hl; by right|].
    intros r w2 Hi2 Hdom2 Hlist2 Hnot Hin Hstart. apply HQ; try done.
    + intros x [Hxa Hxl]%not_elem_of_cons. by apply Hnot.
    + intros x bu [->|Hx]%elem_of_cons Hbu; [|by apply Hin].
      rewrite Ha in Hbu. injection Hbu as <-. rewrite Hstale.
      pose proof (Hnot a Hni) as H2. rewrite Ha in H2. inversion H2; subst. by eexists.
Qed.

Lemma bulbs_in_order_spec w :
  NoDup (bulbs_in_order w) /\ forall a, a ∈ bulbs_in_order w <-> is_Some (w_bulbs_table w !! a).
Proof.
  assert (Hp : bulbs_in_order w ≡ₚ (map_to_list (w_bulbs_table w)).*1) by apply merge_sort_Permutation.
  split; [rewrite Hp; apply NoDup_fst_map_to_list|].
  intros a. rewrite Hp, list_elem_of_fmap. split.
  - intros ([a' b] & -> & Hin%elem_of_map_to_list). by eexists.
  - intros [b Hb]. exists (a, b). split; [done|]. by apply elem_of_map_to_list.
Qed.

Lemma wp_watchdog_gateways l : forall w start (Q : bool -> world -> Prop),
  world_inv w -> NoDup l -> (forall p, p ∈ l -> is_Some (w_gateways w !! p)) ->
  (forall b w', world_inv w' -> dom (w_gateways w') ⊆ dom (w_gateways w) ->
     dom (w_bulbs_table w') ⊆ dom (w_bulbs_table w) -> Q b w') ->
  wp (watchdog_gateways l start) Q w.
Proof.
  induction l as [|p l IH]; intros w start Q Hi Hnd Hl HQ; cbn [watchdog_gateways]; [by apply wp_ret, HQ|].
  apply NoDup_cons in Hnd as [Hni Hnd]. destruct (Hl p ltac:(by left)) as [gw Hp].
  apply wp_bind. unfold lgtd_lifx_gateway_msecs_since_last_update.
  apply wp_bind. eapply wp_get_gw; [exact Hp|]. apply wp_bind, wp_time. intros t ds Ht. apply wp_ret. cbv zeta.
  pose proof (world_inv_clock w t ds Hi Ht) as Hi1. set (w1 := set_w_clock ds (set_w_now t w)) in *.
  destruct (_ <=? _).
  - apply wp_bind. eapply (wp_gateway_close w1 p gw); [done|exact Hp|].
    intros w2 Hi2 Hdom2 _ Hdb. apply IH; [done|done| |].
    + intros q Hq. apply elem_of_dom. rewrite Hdom2. apply elem_of_difference.
      split; [apply elem_of_dom, Hl; by right|]. rewrite elem_of_singleton. by intros ->.
    + intros b w3 Hi3 Hd3 Hb3. apply HQ; [done| |].
      * rewrite Hd3, Hdom2. unfold w1. fields. set_solver.
      * rewrite Hb3, Hdb. unfold w1. fields. set_solver.
  - assert (Hrest : forall s w2, world_inv w2 -> dom (w_gateways w2) = dom (w_gateways w) ->
      dom (w_bulbs_table w2) = dom (w_bulbs_table w) -> wp (watchdog_gateways l s) Q w2).
    { intros s w2 Hi2 Hd2 Hb2. apply IH; [done|done| |].
      - intros q Hq. eapply gateway_of_dom; [exact Hd2|]. apply Hl. by right.
      - intros b w3 Hi3 Hd3 Hb3. apply HQ; [done|by rewrite Hd3, Hd2|by rewrite Hb3, Hb2]. }
    destruct (_ <=? _); [|by apply Hrest].
    apply wp_bind. unfold lgtd_lifx_gateway_force_refresh. apply wp_bind.
    eapply wp_get_gw; [exact Hp|]. cbv beta. unfold lgtd_timer_activate, upd_timer.
    destruct (ri_refresh _ (wi_rest _ Hi1) p gw Hp) as (tm & Htm & _).
    apply wp_bind. eapply wp_get_timer; [exact Htm|]. apply wp_modify.
    apply Hrest; [|done|done]. by eapply world_inv_timer_put.
Qed.

Lemma world_inv_broadcast w v : world_inv w -> world_inv (set_w_broadcast_write_ev v w).
Proof.
  intros [Hd Hr]. constructor; [by apply (device_ok_same w)|]. destruct Hr. by constructor.
Qed.

(** How the callback of an event may stop: because it looks for gateways with an endpoint that was closed before the
    event, [w] being the state then, or on purpose. *)
Definition endpoint_closed (w : world) (c : crash) : Prop := c = AssertFailed /\ w_broadcast_write_ev w = None.

Definition stops (w : world) (c : crash) : Prop := c = Exited \/ endpoint_closed w c.

Lemma stops_exit w : stops w Exited.
Proof. by left. Qed.

Lemma stops_of_closed w {A} (m : M world A) (Q : A -> world -> Prop) s :
  wpc (endpoint_closed w) m Q s -> wpc (stops w) m Q s.
Proof. apply wpc_weaken. by right. Qed.

(** The event of the broadcast socket and the results of calls change only. *)
Lemma wp_broadcast_discovery w (Q : bool -> world -> Prop) :
  is_Some (w_broadcast_write_ev w) ->
  (forall ok rs, Q ok (set_w_os_results rs
     (if (ok : bool) then set_w_broadcast_write_ev (Some true) w else w))) ->
  wp lgtd_lifx_broadcast_discovery Q w.
Proof.
  intros Hi HQ. unfold lgtd_lifx_broadcast_discovery. apply wp_bind, wp_get.
  apply wp_bind, wp_assert; [by apply bool_decide_eq_true|].
  apply wp_bind, wp_os_call. intros ok rs. apply wp_bind. destruct ok; cbn [mwhen].
  - apply wp_modify, wp_ret. exact (HQ true rs).
  - apply wp_ret, wp_ret. exact (HQ false rs).
Qed.

Lemma wpc_broadcast_discovery w0 w (Q : bool -> world -> Prop) :
  (w_broadcast_write_ev w = None -> w_broadcast_write_ev w0 = None) ->
  (forall ok rs, Q ok (set_w_os_results rs
     (if (ok : bool) then set_w_broadcast_write_ev (Some true) w else w))) ->
  wpc (endpoint_closed w0) lgtd_lifx_broadcast_discovery Q w.
Proof.
  intros H0 HQ. destruct (w_broadcast_write_ev w) as [b|] eqn:Hev.
  - apply wpc_of_wp, wp_broadcast_discovery; [by rewrite Hev|exact HQ].
  - unfold wpc, lgtd_lifx_broadcast_discovery, mbind, M_bind, mget. rewrite Hev. cbn. by split; [|apply H0].
Qed.

(** The bulbs left were not stale when the watchdog started. *)
Lemma wpc_watchdog w (Q : unit -> world -> Prop) :
  world_inv w ->
  (forall w' t ds, lgtd_time_monotonic_msecs w = Ret t (set_w_clock ds (set_w_now t w)) ->
     world_inv w' -> dom (w_gateways w') ⊆ dom (w_gateways w) ->
     (forall a, is_Some (w_bulbs_table w' !! a) ->
        exists b, w_bulbs_table w !! a = Some b /\ stale t b = false) ->
     Q tt w') ->
  wpc (endpoint_closed w) lgtd_lifx_discovery_watchdog_interval_callback Q w.
Proof.
  intros Hi HQ. unfold lgtd_lifx_discovery_watchdog_interval_callback.
  assert (Htime : exists t ds, lgtd_time_monotonic_msecs w = Ret t (set_w_clock ds (set_w_now t w))
    /\ world_inv (set_w_clock ds (set_w_now t w))).
  { assert (Hwp : wp lgtd_time_monotonic_msecs
      (fun t w' => exists ds, w' = set_w_clock ds (set_w_now t w) /\ world_inv w') w)
      by (apply wp_time; intros t ds Ht; exists ds; split; [done|by apply world_inv_clock]).
    unfold wp in Hwp. destruct (lgtd_time_monotonic_msecs w) as [t w1|]; [|done].
    destruct Hwp as (ds & -> & ?). eauto. }
  destruct Htime as (t & ds & Ht & Hi1). apply wpc_bind. unfold wpc at 1. rewrite Ht.
  set (w1 := set_w_clock ds (set_w_now t w)) in *. apply wpc_bind_wp, wp_get.
  destruct (bulbs_in_order_spec w1) as [Hnd Hmem].
  apply wpc_bind_wp, (wp_framed gentle); [frame|]. apply wp_watchdog_bulbs; [done|done|intros a; apply Hmem|].
  intros start w2 Hi2 Hd2 Hl2 Hnot Hin _ Hg2. apply wpc_bind_wp, wp_get. apply wpc_bind_wp, (wp_framed gentle); [frame|].
  apply wp_watchdog_gateways; [done|apply (ri_nodup _ (wi_rest _ Hi2))| |].
  { intros p. apply (ri_list _ (wi_rest _ Hi2)). }
  intros start' w3 Hi3 Hd3 Hb3 Hg3.
  assert (Hfinal : forall a, is_Some (w_bulbs_table w3 !! a) ->
    exists b, w_bulbs_table w !! a = Some b /\ stale t b = false).
  { intros a Ha3%elem_of_dom. apply Hb3, elem_of_dom in Ha3 as [b2 Ha2].
    destruct (w_bulbs_table w !! a) as [b|] eqn:Ha.
    - exists b. split; [done|]. specialize (Hin a b). rewrite Hmem in Hin.
      specialize (Hin ltac:(by eexists) Ha). destruct (stale t b); [congruence|done].
    - assert (Hna : a ∉ bulbs_in_order w1) by (rewrite Hmem; unfold w1; fields; rewrite Ha; by intros [? ?]).
      pose proof (Hnot a Hna) as Ho. unfold w1 in Ho. fields_in Ho. rewrite Ha, Ha2 in Ho. inversion Ho. }
  assert (Hdom : dom (w_gateways w3) ⊆ dom (w_gateways w)) by (rewrite Hd3, Hd2; done).
  unfold mwhen. destruct start'; [|apply wpc_ret; by eapply HQ].
  apply wpc_bind, wpc_broadcast_discovery; [intros Hn; by apply (gn_endpoint _ _ Hg2), (gn_endpoint _ _ Hg3)|].
  intros ok rs. apply wpc_ret.
  eapply HQ; [done|apply world_inv_os; destruct ok; [by apply world_inv_broadcast|done]| |].
  - by destruct ok.
  - intros a. destruct ok; apply Hfinal.
Qed.
End Events.
