(* ===== verification/RouterSpec.v ===== *)
(** * The router

    Sending to any list of targets runs without a crash and only sends; the
    devices a list of targets stands for are exactly those the targets select. *)

From Stdlib Require Import ZArith Lia.
From stdpp Require Import base tactics list gmap sorting.
From S2P Require Import Prelude CLib WireBits PacketInfo WireProto World Tagging GatewayQueue.
From S2P Require Import BulbTable Router Bulb Gateway QueueSpec TagsInv SendSpec DeviceInv.
From S2P Require Import DeviceOps Invariant EventsInv.

Section Router.
Context {E : Endianness}.

(** ** Sending keeps the invariant *)

Lemma world_inv_send w w' : world_inv w -> send_frame w w' -> sendable w' -> world_inv w'.
Proof.
  intros [Hd Hr] Hf Hs. constructor; [by eapply device_ok_send|].
  eapply rest_inv_frame; [done|by apply send_frame_rest].
Qed.

Lemma sends_of_inv {A} (m : M world A) w :
  world_inv w -> (sendable w -> sends m w) -> sends m w.
Proof. intros Hi Hm. apply Hm. apply (dv_send _ _ _ (wi_devices _ Hi)). Qed.

(** A payload of a SET_POWER_STATE packet is there to be read. *)
Lemma set_power_payload ptype pkt :
  payload_for ptype pkt -> is_set_power ptype = true -> is_Some pkt.
Proof.
  intros Hpkt Hpow%bool_decide_eq_true. subst ptype. destruct pkt as [m|]; [by eexists|].
  destruct Hpkt as (n & Hn & ->). by vm_compute in Hn.
Qed.

Lemma sends_expect_all w now pkt l :
  sendable w -> is_Some pkt -> (forall a, a ∈ l -> is_Some (w_bulbs_table w !! a)) ->
  sends (mforeach l (expect_power now pkt)) w.
Proof.
  intros Hs [m ->] Hl. apply sends_foreach; [done|]. intros a w' Ha Hf Hs'.
  apply sends_expect_power; [done|]. destruct (Hl a Ha) as [b Hb].
  destruct (bulb_after _ _ _ _ _ _ Hf Hb) as (b' & Hb' & _). by eexists.
Qed.

Lemma bulbs_of_gateway w p gw :
  world_inv w -> w_gateways w !! p = Some gw -> forall a, a ∈ gw_bulbs gw -> is_Some (w_bulbs_table w !! a).
Proof.
  intros Hi Hp a Ha. destruct (bi_bulbs _ _ (dv_bulbs _ _ _ (wi_devices _ Hi)) p gw a Hp Ha) as (b & Hb & _).
  by eexists.
Qed.

Lemma bulb_kept w w' a : send_frame w w' -> is_Some (w_bulbs_table w !! a) -> is_Some (w_bulbs_table w' !! a).
Proof. intros Hf [b Hb]. destruct (bulb_after _ _ _ _ _ _ Hf Hb) as (b' & Hb' & _). by eexists. Qed.

Lemma sends_broadcast w ptype pkt :
  world_inv w -> payload_for ptype pkt -> sends (lgtd_router_broadcast ptype pkt) w.
Proof.
  intros Hi Hpkt. apply sends_of_inv; [done|]. intros Hs. unfold lgtd_router_broadcast.
  apply wp_bind, wp_get. apply sends_foreach; [done|]. intros p w1 Hin Hf1 Hs1.
  pose proof (world_inv_send w w1 Hi Hf1 Hs1) as Hi1.
  apply (ri_list _ (wi_rest _ Hi)) in Hin as [gw0 Hp0].
  destruct (gateway_after _ _ _ _ _ _ Hf1 Hp0) as (gw & Hp & _).
  unfold broadcast_on. apply wp_bind. eapply wp_get_gw; [done|]. apply wp_bind, wp_get. cbv beta.
  eapply sends_packet; [done|exact Hp|reflexivity|reflexivity|done|].
  intros w2 Hf2 Hs2. apply sends_when; [done|]. intros Hpow.
  apply sends_bind; [by apply sends_now|]. intros now w3 Hf3 Hs3.
  apply sends_expect_all; [done|by eapply set_power_payload|]. intros a Ha.
  eapply bulb_kept; [exact Hf3|]. eapply bulb_kept; [exact Hf2|]. by eapply bulbs_of_gateway.
Qed.

Lemma sends_send_to_tag w t ptype pkt :
  world_inv w -> is_Some (w_tags w !! t) -> payload_for ptype pkt ->
  sends (lgtd_router_send_to_tag t ptype pkt) w.
Proof.
  intros Hi [tag Ht] Hpkt. apply sends_of_inv; [done|]. intros Hs. unfold lgtd_router_send_to_tag.
  apply wp_bind. eapply wp_get_tag; [done|]. apply sends_foreach; [done|]. intros s w1 Hin Hf1 Hs1.
  pose proof (world_inv_send w w1 Hi Hf1 Hs1) as Hi1.
  assert (Ht1 : w_tags w1 !! t = Some tag) by (by rewrite (sf_tags _ _ _ _ Hf1)).
  destruct (ti_sites _ _ _ (ri_tags _ (wi_rest _ Hi1)) t tag s Ht1 Hin) as (i & Hi64 & Hsite & Hcell).
  unfold cell in Hcell. destruct (w_gateways w1 !! site_gw s) as [gw|] eqn:Hp; [|done].
  simpl in Hcell. destruct (gw_tags gw !! i) as [c|] eqn:Hc; [|done]. simpl in Hcell. subst c.
  unfold send_to_site_of_tag. apply wp_bind. eapply wp_get_gw; [exact Hp|]. cbv beta zeta.
  assert (Hid : site_tag_id s = Z.of_nat i) by (by rewrite Hsite). rewrite Hid.
  apply wp_bind. unfold get_gw_tag. rewrite Nat2Z.id. eapply wp_deref; [exact Hc|].
  apply wp_bind, wp_assert; [by apply bool_decide_eq_true|]. apply wp_bind, wp_get. cbv beta.
  eapply sends_packet; [done|exact Hp|reflexivity|apply length_le_bytes|done|].
  intros w2 Hf2 Hs2. apply sends_when; [done|]. intros Hpow.
  apply sends_bind; [by apply sends_now|]. intros now w3 Hf3 Hs3.
  destruct (set_power_payload _ _ Hpkt Hpow) as [m ->].
  apply sends_foreach; [done|]. intros a w4 Ha Hf4 Hs4.
  assert (Ha4 : is_Some (w_bulbs_table w4 !! a)).
  { eapply bulb_kept; [exact Hf4|]. eapply bulb_kept; [exact Hf3|]. eapply bulb_kept; [exact Hf2|].
    by eapply bulbs_of_gateway. }
  destruct Ha4 as [b Hb]. apply wp_bind. eapply wp_get_bulb; [exact Hb|]. cbv beta.
  apply sends_when; [done|]. intros _. apply sends_expect_power; [done|by eexists].
Qed.

Lemma sends_send_to_label w label ptype pkt :
  world_inv w -> payload_for ptype pkt -> sends (lgtd_router_send_to_label label ptype pkt) w.
Proof.
  intros Hi Hpkt. apply sends_of_inv; [done|]. intros Hs. unfold lgtd_router_send_to_label.
  apply wp_bind, wp_get. apply sends_foreach; [done|]. intros a w1 Hin Hf1 Hs1.
  pose proof (world_inv_send w w1 Hi Hf1 Hs1) as Hi1.
  apply bulbs_in_order_spec in Hin. apply (bulb_kept _ _ _ Hf1) in Hin as [b Hb].
  apply wp_bind. eapply wp_get_bulb; [exact Hb|]. cbv beta. apply sends_when; [done|]. intros _.
  assert (Hsend := sends_to_bulb _ _ w1 a ptype pkt (wi_devices _ Hi1) ltac:(by eexists) Hpkt).
  unfold sends, lgtd_router_send_to_device in Hsend. unfold sends.
  unfold wp at 1 in Hsend. unfold mbind at 1, M_bind at 1 in Hsend. by rewrite (get_bulb_ret _ _ _ Hb) in Hsend.
Qed.

Lemma wp_device_addr_to_device w target (Q : option addr -> world -> Prop) :
  Q (match device_addr_bytes target with
     | Some bs => if decide (is_Some (w_bulbs_table w !! take LGTD_LIFX_ADDR_LENGTH bs))
                  then Some (take LGTD_LIFX_ADDR_LENGTH bs) else None
     | None => None
     end) w ->
  wp (lgtd_router_device_addr_to_device target) Q w.
Proof.
  intros HQ. unfold lgtd_router_device_addr_to_device.
  destruct (device_addr_bytes target) as [bs|]; [|by apply wp_ret].
  unfold lgtd_lifx_bulb_get. apply wp_bind, wp_get, wp_ret. cbv zeta.
  destruct (w_bulbs_table w !! _); case_decide as Hd; try done.
  by destruct Hd.
Qed.

Lemma sends_to_target w target ptype pkt :
  world_inv w -> payload_for ptype pkt -> sends (send_to_target ptype pkt target) w.
Proof.
  intros Hi Hpkt. apply sends_of_inv; [done|]. intros Hs. unfold send_to_target.
  destruct (strcmp_eq _ _).
  { apply sends_bind; [by apply sends_broadcast|]. intros; by apply sends_ret. }
  destruct (_ =? ASCII_HASH).
  { destruct (find_tag_ret w _ (drop 1 target) (ri_tags _ (wi_rest _ Hi))) as (r & Hr & Hres).
    apply wp_bind. unfold wp at 1. rewrite Hr. destruct r as [t|]; [|by apply sends_ret].
    destruct Hres as (tag & Ht & _).
    apply sends_bind; [by apply sends_send_to_tag|]. intros; by apply sends_ret. }
  destruct (negb _); [|by apply sends_ret].
  assert (Hsend : forall r, (forall a, r = Some a -> is_Some (w_bulbs_table w !! a)) ->
    sends (match r with
           | Some a => lgtd_router_send_to_device a ptype pkt
           | None => lgtd_router_send_to_label target ptype pkt
           end ;; mret true) w).
  { intros r Hr. apply sends_bind; [|intros; by apply sends_ret].
    destruct r as [a|]; [|by apply sends_send_to_label].
    eapply sends_to_bulb; [apply Hi|by apply Hr|done]. }
  apply wp_bind. destruct (isxdigit _); [|by apply wp_ret, (Hsend None)].
  apply wp_device_addr_to_device, Hsend. intros a. destruct (device_addr_bytes target); [|done].
  case_decide; [by intros [= <-]|done].
Qed.

Lemma sends_router_send targets : forall w ptype pkt,
  world_inv w -> payload_for ptype pkt -> sends (lgtd_router_send targets ptype pkt) w.
Proof.
  induction targets as [|target targets IH]; intros w ptype pkt Hi Hpkt; cbn [lgtd_router_send].
  { apply sends_of_inv; [done|]. intros Hs. by apply sends_ret. }
  apply sends_bind; [by apply sends_to_target|]. intros ok w1 Hf1 Hs1.
  apply sends_bind; [apply IH; [by eapply world_inv_send|done]|].
  intros rv w2 _ Hs2. by apply sends_ret.
Qed.

(** ** The devices of a list of targets *)

(** The bulb whose hardware address a target is. *)
Definition addressed (w : world) (target : list Z) : option addr :=
  if isxdigit (first_char target) then
    match device_addr_bytes target with
    | Some bs => if decide (is_Some (w_bulbs_table w !! take LGTD_LIFX_ADDR_LENGTH bs))
                 then Some (take LGTD_LIFX_ADDR_LENGTH bs) else None
    | None => None
    end
  else None.

(** The bulb [b] carries a tag with the label: an id set in its state whose cell
    on its gateway holds a tag with that label. *)
Definition has_tag_label (w : world) (b : lgtd_lifx_bulb) (label : list Z) : Prop :=
  exists i t tag, cell (w_gateways w) (bulb_gw b) i = Some t /\ w_tags w !! t = Some tag
    /\ strcmp_eq (tag_label tag) label = true
    /\ Z.testbit (ls_tags (bulb_state b)) (Z.of_nat i) = true.

(** What the documentation promises of a target: every bulb, the bulbs with a
    tag, the bulb with an address, or else the bulbs with a label. *)
Definition selects (w : world) (target : list Z) (a : addr) : Prop :=
  exists b, w_bulbs_table w !! a = Some b /\
  if strcmp_eq target ASCII_STAR then True
  else if first_char target =? ASCII_HASH then has_tag_label w b (drop 1 target)
  else if first_char target =? 0 then False
  else match addressed w target with
       | Some a' => a = a'
       | None => lgtd_lifx_bulb_has_label b target = true
       end.

(** The devices of a command: those its targets select, once each. *)
Definition selection (w : world) (targets : list (list Z)) (devices : list addr) : Prop :=
  NoDup devices /\ forall a, a ∈ devices <-> exists target, target ∈ targets /\ selects w target a.

(** [r] is the list [devices] with the bulbs that satisfy [pred] added once; it
    is none when an allocation failed, and nothing else changed. *)
Definition adds (w : world) (devices : list addr) (pred : addr -> Prop) (r : option (list addr))
    (w' : world) : Prop :=
  exists rs, w' = set_w_os_results rs w /\ spends (w_os_results w) rs (r = None)
  /\ forall l, r = Some l -> NoDup devices -> NoDup l /\ forall x, x ∈ l <-> x ∈ devices \/ pred x.

Lemma adds_none w devices (pred : addr -> Prop) :
  (forall x, pred x -> x ∈ devices) -> adds w devices pred (Some devices) w.
Proof.
  intros Hp. exists (w_os_results w). split_and!; [by destruct w|by eapply spends_imp; [|apply spends_nothing]|].
  intros l [= <-] Hnd. split; [done|]. naive_solver.
Qed.

Lemma wp_insert_device w devices a :
  wp (lgtd_router_insert_device_if_not_in_list devices a) (adds w devices (eq a)) w.
Proof.
  unfold lgtd_router_insert_device_if_not_in_list. case_bool_decide as Hin.
  { apply wp_ret, adds_none. by intros x <-. }
  apply wp_bind, wp_os_call_results. intros b rs Hrs. apply wp_ret. exists rs. split; [done|]. split.
  { eapply spends_imp; [|exact Hrs]. by destruct b. }
  destruct b; [|done]. intros l [= <-] Hnd. split; [by apply NoDup_cons|].
  intros x. rewrite elem_of_cons. naive_solver.
Qed.

(** One addition after another. *)
Lemma adds_seq w devices pred1 pred2 pred r1 w1 (k : list addr -> M world (option (list addr))) :
  adds w devices pred1 r1 w1 ->
  (forall l1, r1 = Some l1 -> wp (k l1) (adds w1 l1 pred2) w1) ->
  (forall x, pred x <-> pred1 x \/ pred2 x) ->
  wp (match r1 with Some l1 => k l1 | None => mret None end) (adds w devices pred) w1.
Proof.
  intros (rs & -> & Hrs & Hl) Hk Hpred. destruct r1 as [l1|].
  - eapply wp_mono; [by apply Hk|]. intros r2 w2 (rs2 & -> & Hrs2 & Hl2). fields_in Hrs2.
    exists rs2. split; [by destruct w|]. split.
    { eapply spends_imp; [|eapply spends_trans; [exact Hrs|exact Hrs2]]. by right. }
    intros l Hr2 Hnd. destruct (Hl l1 eq_refl Hnd) as [Hnd1 Hm1].
    destruct (Hl2 l Hr2 Hnd1) as [Hnd2 Hm2]. split; [done|]. intros x. rewrite Hm2, Hm1, Hpred. tauto.
  - apply wp_ret. exists rs. split; [done|]. split; [exact Hrs|done].
Qed.

Lemma adds_ext w devices pred pred' r w' :
  (forall x, pred x <-> pred' x) -> adds w devices pred r w' -> adds w devices pred' r w'.
Proof.
  intros Hp (rs & ? & ? & Hl). exists rs. split_and!; [done|done|]. intros l Hr Hnd.
  destruct (Hl l Hr Hnd) as [? Hm]. split; [done|]. intros x. rewrite Hm, Hp. done.
Qed.

Lemma wp_insert_devices_if cond bulbs : forall w devices,
  (forall a, a ∈ bulbs -> is_Some (w_bulbs_table w !! a)) ->
  wp (insert_devices_if cond bulbs devices)
    (adds w devices (fun x => x ∈ bulbs /\ exists b, w_bulbs_table w !! x = Some b /\ cond b = true)) w.
Proof.
  induction bulbs as [|a bulbs IH]; intros w devices Hb; cbn [insert_devices_if].
  { apply wp_ret, adds_none. by intros x [?%elem_of_nil _]. }
  destruct (Hb a ltac:(by left)) as [b Ha]. apply wp_bind. eapply wp_get_bulb; [exact Ha|]. cbv beta.
  assert (Hb' : forall x, x ∈ bulbs -> is_Some (w_bulbs_table w !! x)) by (intros; apply Hb; by right).
  destruct (cond b) eqn:Hc.
  - apply wp_bind. eapply wp_mono; [apply wp_insert_device|]. intros r1 w1 Hr1. cbv beta.
    pose proof Hr1 as (rs & -> & _ & _).
    eapply adds_seq; [exact Hr1| |].
    + intros l1 _. apply (IH (set_w_os_results rs w)). done.
    + intros x. fields. rewrite elem_of_cons. split.
      * intros [[->|?] ?]; [by left|right; done].
      * intros [<-|[? ?]]; [split; [by left|by exists b]|split; [by right|done]].
  - eapply wp_mono; [by apply IH|]. intros r w1. apply adds_ext. intros x. rewrite elem_of_cons.
    split; [intros [? ?]; split; [by right|done]|]. intros [[->|?] (b' & Hx & Hc')]; [congruence|].
    split; [done|]. by exists b'.
Qed.

Lemma wp_all_devices bulbs : forall w devices,
  NoDup (bulbs ++ devices) ->
  wp (all_devices bulbs devices)
    (fun r w' => exists rs, w' = set_w_os_results rs w /\ spends (w_os_results w) rs (r = None)
       /\ forall l, r = Some l -> NoDup l /\ forall x, x ∈ l <-> x ∈ devices \/ x ∈ bulbs) w.
Proof.
  induction bulbs as [|a bulbs IH]; intros w devices Hnd; cbn [all_devices].
  { apply wp_ret. exists (w_os_results w). split_and!; [by destruct w|by eapply spends_imp; [|apply spends_nothing]|].
    intros l [= <-]. split; [done|]. intros x. rewrite elem_of_nil. tauto. }
  apply wp_bind, wp_os_call_results. intros b rs Hrs. destruct b.
  - eapply wp_mono; [apply IH|].
    { simpl in Hnd. by rewrite <- Permutation_middle. }
    intros r w' (rs' & -> & Hrs' & Hl). fields_in Hrs'. exists rs'. split_and!; [by destruct w| |].
    + eapply spends_imp; [|eapply spends_trans; [exact Hrs|exact Hrs']]. by right.
    + intros l Hr. destruct (Hl l Hr) as [? Hm]. split; [done|]. intros x. rewrite Hm, !elem_of_cons. tauto.
  - apply wp_ret. exists rs. split_and!; [done|by eapply spends_imp; [|exact Hrs]|done].
Qed.

(** The bulbs of the gateways of a tag that have its id. *)
Definition tagged_on (w : world) (sites : list lgtd_lifx_site) (x : addr) : Prop :=
  exists s gw b, s ∈ sites /\ w_gateways w !! site_gw s = Some gw /\ x ∈ gw_bulbs gw
    /\ w_bulbs_table w !! x = Some b
    /\ has_flag (ls_tags (bulb_state b)) (LGTD_LIFX_WIRE_TAG_ID_TO_VALUE (site_tag_id s)) = true.

Lemma wp_devices_of_sites sites : forall w devices,
  (forall s, s ∈ sites -> is_Some (w_gateways w !! site_gw s)) ->
  (forall p gw a, w_gateways w !! p = Some gw -> a ∈ gw_bulbs gw -> is_Some (w_bulbs_table w !! a)) ->
  wp (devices_of_sites sites devices) (adds w devices (tagged_on w sites)) w.
Proof.
  induction sites as [|s sites IH]; intros w devices Hs Hb; cbn [devices_of_sites].
  { apply wp_ret, adds_none. by intros x (s & gw & b & ?%elem_of_nil & _). }
  destruct (Hs s ltac:(by left)) as [gw Hp]. apply wp_bind. eapply wp_get_gw; [exact Hp|]. cbv beta zeta.
  apply wp_bind. eapply wp_mono; [apply wp_insert_devices_if; intros a; by apply (Hb _ gw a Hp)|].
  intros r1 w1 Hr1. pose proof Hr1 as (rs & -> & _ & _). eapply adds_seq; [exact Hr1| |].
  - intros l1 _. apply (IH (set_w_os_results rs w)); fields; [|done]. intros s' Hs'. apply Hs. by right.
  - intros x. unfold tagged_on. fields. split.
    + intros (s' & gw' & b & [->|Hin]%elem_of_cons & Hp' & Hx & Hbx & Hf).
      * left. rewrite Hp in Hp'. injection Hp' as <-. split; [done|]. by exists b.
      * right. by exists s', gw', b.
    + intros [(Hx & b & Hbx & Hf)|(s' & gw' & b & Hin & Hrest)].
      * exists s, gw, b. split_and!; try done. by left.
      * exists s', gw', b. split; [by right|done].
Qed.

Lemma has_tag_label_sites w t tag label x b :
  world_inv w -> w_tags w !! t = Some tag -> cstr (tag_label tag) = cstr label ->
  w_bulbs_table w !! x = Some b -> tagged_on w (tag_sites tag) x <-> has_tag_label w b label.
Proof.
  intros Hi Ht Hlab Hx. pose proof (ri_tags _ (wi_rest _ Hi)) as Htags.
  pose proof (dv_bulbs _ _ _ (wi_devices _ Hi)) as [_ Hgw Hbs]. split.
  - intros (s & gw & b' & Hs & Hp & Hin & Hx' & Hf). rewrite Hx in Hx'. injection Hx' as <-.
    destruct (ti_sites _ _ _ Htags t tag s Ht Hs) as (i & Hi64 & Hsite & Hcell).
    destruct (Hbs _ _ _ Hp Hin) as (b1 & Hb1 & Hbp). rewrite Hx in Hb1. injection Hb1 as <-.
    exists i, t, tag. rewrite Hbp. split_and!; [done|done|by apply bool_decide_eq_true|].
    rewrite <- has_flag_bit by lia. by rewrite Hsite in Hf.
  - intros (i & t' & tag' & Hcell & Ht' & Hlab'%bool_decide_eq_true & Hbit).
    assert (t' = t) as -> by (eapply (ti_labels _ _ _ Htags); [done|done|congruence]).
    rewrite Ht in Ht'. injection Ht' as <-.
    destruct (ti_cells _ _ _ Htags _ _ _ Hcell) as (Hi64 & tag1 & Ht1 & Hin). rewrite Ht in Ht1. injection Ht1 as <-.
    destruct (Hgw x b Hx) as (gw & Hp & Hxin).
    exists (mk_site (bulb_gw b) i), gw, b. split_and!; try done.
    cbn [mk_site site_tag_id]. by rewrite has_flag_bit by lia.
Qed.

(** One target that is not ["*"]. *)
Definition target_devices (target : list Z) (devices : list addr) : M world (option (list addr)) :=
  w ← mget;
  if first_char target =? ASCII_HASH then
    found ← lgtd_lifx_tagging_find_tag (drop 1 target);
    match found with
    | Some t => tag ← get_tag t; devices_of_sites (tag_sites tag) devices
    | None => mret (Some devices)
    end
  else if negb (first_char target =? 0) then
    bulb ← (if isxdigit (first_char target)
            then lgtd_router_device_addr_to_device target else mret None);
    match bulb with
    | Some a => lgtd_router_insert_device_if_not_in_list devices a
    | None =>
      insert_devices_if (fun bulb => lgtd_lifx_bulb_has_label bulb target)
        (bulbs_in_order w) devices
    end
  else mret (Some devices).

Lemma wp_target_devices w target devices :
  world_inv w -> strcmp_eq target ASCII_STAR = false ->
  wp (target_devices target devices) (adds w devices (selects w target)) w.
Proof.
  intros Hi Hstar. unfold target_devices, selects. rewrite Hstar. apply wp_bind, wp_get.
  destruct (first_char target =? ASCII_HASH).
  - destruct (find_tag_ret w _ (drop 1 target) (ri_tags _ (wi_rest _ Hi))) as (r & Hr & Hres).
    apply wp_bind. unfold wp at 1. rewrite Hr. destruct r as [t|].
    + destruct Hres as (tag & Ht & Hlab). apply wp_bind. eapply wp_get_tag; [exact Ht|]. cbv beta.
      eapply wp_mono; [apply wp_devices_of_sites|].
      * intros s Hs. destruct (ti_sites _ _ _ (ri_tags _ (wi_rest _ Hi)) t tag s Ht Hs) as (i & _ & _ & Hcell).
        unfold cell in Hcell. by destruct (w_gateways w !! site_gw s).
      * intros p gw a Hp Ha. by eapply bulbs_of_gateway.
      * intros r w'. apply adds_ext. intros x. split.
        { intros Hx. pose proof Hx as (s & gw & b & _ & _ & _ & Hb & _). exists b. split; [done|].
          by eapply has_tag_label_sites. }
        { intros (b & Hb & Htl). by eapply has_tag_label_sites. }
    + apply wp_ret, adds_none. intros x (b & _ & i & t & tag & _ & Ht & Hlab%bool_decide_eq_true & _).
      by destruct (Hres t tag Ht).
  - destruct (first_char target =? 0); cbn [negb].
    { apply wp_ret, adds_none. by intros x (b & _ & ?). }
    assert (Hrun : wp (match addressed w target with
                       | Some a => lgtd_router_insert_device_if_not_in_list devices a
                       | None => insert_devices_if (fun bulb => lgtd_lifx_bulb_has_label bulb target)
                                   (bulbs_in_order w) devices
                       end)
      (adds w devices (fun x => exists b, w_bulbs_table w !! x = Some b /\
         match addressed w target with Some a' => x = a' | None => lgtd_lifx_bulb_has_label b target = true end)) w).
    { destruct (bulbs_in_order_spec w) as [_ Hmem].
      destruct (addressed w target) as [a|] eqn:Ha.
      - assert (Hsome : is_Some (w_bulbs_table w !! a)).
        { unfold addressed in Ha. destruct (isxdigit _); [|done]. destruct (device_addr_bytes target); [|done].
          case_decide; [by injection Ha as <-|done]. }
        destruct Hsome as [b Hb].
        eapply wp_mono; [apply wp_insert_device|]. intros r w'. apply adds_ext. intros x.
        split; [intros <-; by exists b|]. by intros (? & _ & ->).
      - eapply wp_mono; [apply wp_insert_devices_if; intros x; apply Hmem|]. intros r w'. apply adds_ext.
        intros x. split; [intros [_ ?]; done|]. intros (b & Hb & Hl). split; [apply Hmem; by eexists|]. by exists b. }
    apply wp_bind. unfold addressed in Hrun. unfold addressed. destruct (isxdigit _); [|by apply wp_ret].
    by apply wp_device_addr_to_device.
Qed.

Lemma selects_os w rs target a : selects (set_w_os_results rs w) target a <-> selects w target a.
Proof. done. Qed.

Lemma wp_targets_to_devices_from targets : forall w devices,
  world_inv w -> NoDup devices -> (forall a, a ∈ devices -> is_Some (w_bulbs_table w !! a)) ->
  wp (targets_to_devices_from targets devices)
    (adds w devices (fun a => exists target, target ∈ targets /\ selects w target a)) w.
Proof.
  induction targets as [|target targets IH]; intros w devices Hi Hnd Hd; cbn [targets_to_devices_from].
  { apply wp_ret, adds_none. by intros x (t & ?%elem_of_nil & _). }
  apply wp_bind, wp_get. destruct (strcmp_eq target ASCII_STAR) eqn:Hstar.
  - destruct (bulbs_in_order_spec w) as [Hndb Hmem].
    eapply wp_mono; [apply wp_all_devices; by rewrite app_nil_r|].
    intros r w' (rs & -> & Hrs & Hl). exists rs. split_and!; [done|done|]. intros l Hr _.
    destruct (Hl l Hr) as [Hndl Hm]. split; [done|]. intros x. rewrite Hm, elem_of_nil, Hmem. split.
    + intros [[]|[b Hb]]. right. exists target. split; [by left|]. exists b. by rewrite Hstar.
    + intros [Hx|(t & _ & b & Hb & _)]; right; [by apply Hd|by eexists].
  - apply wp_bind. eapply wp_mono; [exact (wp_target_devices w target devices Hi Hstar)|]. intros r1 w1 Ht.
    pose proof Ht as (rs & -> & _ & Hl1).
    eapply adds_seq; [exact Ht| |].
    + intros l1 Hl. destruct (Hl1 l1 Hl Hnd) as [Hnd1 Hm1].
      apply (IH (set_w_os_results rs w)); [by apply world_inv_os|done|].
      intros a [Ha|(b & Hb & _)]%Hm1; fields; [by apply Hd|by eexists].
    + intros x. split.
      * intros (t & [->|Hin]%elem_of_cons & Hs); [by left|right; by exists t].
      * intros [Hs|(t & Hin & Hs)]; [exists target; split; [by left|done]|exists t; split; [by right|done]].
Qed.
End Router.
