(* ===== verification/RouteSpec.v ===== *)
(** * What a command puts on the wire

    An abstract account of [lgtd_router_send]: for each gateway, the packets of
    the protocol that the targets of a command come to, in order. The queues of
    the gateways get these packets and nothing else. *)

From Stdlib Require Import ZArith Lia ZifyNat.
From stdpp Require Import base tactics list sorting gmap.
From S2P Require Import Prelude CLib WireBits PacketInfo WireProto World Tagging GatewayQueue.
From S2P Require Import BulbTable Router Bulb Gateway QueueSpec TagsInv SendSpec DeviceInv.
From S2P Require Import DeviceOps Invariant EventsInv RouterSpec.

Ltac Zify.zify_post_hook ::= Z.div_mod_to_equations.

(** ** The specification *)

Section Spec.
Context {E : Endianness}.

(** A queue that has room for 16 packets and loses the ones it has no room for. *)
Definition push_all (pkts : list packet) (q : list packet) : list packet :=
  foldl (fun q pkt => queue_push pkt q) q pkts.

(** The sites of the tag that has the label, if there is one. *)
Definition sites_with_label (w : world) (label : list Z) : list lgtd_lifx_site :=
  match head (filter (fun x => strcmp_eq (tag_label x.2) label = true) (map_to_list (w_tags w))) with
  | Some (_, tag) => tag_sites tag
  | None => []
  end.

Definition labelled (w : world) (label : list Z) (a : addr) : bool :=
  match w_bulbs_table w !! a with
  | Some b => lgtd_lifx_bulb_has_label b label
  | None => false
  end.

(** The bulbs a target that is not ["*"] and not a tag stands for. *)
Definition target_bulbs (w : world) (target : list Z) : list addr :=
  match addressed w target with
  | Some a => [a]
  | None => filter (fun a => labelled w target a = true) (bulbs_in_order w)
  end.

Definition on_gateway (w : world) (p : gw_ptr) (a : addr) : bool :=
  match w_bulbs_table w !! a with
  | Some b => bool_decide (bulb_gw b = p)
  | None => false
  end.

(** What one target sends through the gateway [p]: one packet to all the
    devices, one to the devices that have the tag, or one to each bulb. *)
Definition target_packets (w : world) (info : lgtd_lifx_packet_info) (pkt : option (list Z))
    (target : list Z) (p : gw_ptr) : list packet :=
  match w_gateways w !! p with
  | None => []
  | Some gw =>
    let send tagged tgt := wire_packet (w_client_id w) info tagged tgt (gw_site gw) (payload_bytes info pkt) in
    if strcmp_eq target ASCII_STAR then [send true (replicate 8 0)]
    else if first_char target =? ASCII_HASH then
      (fun s => send true (le_bytes 8 (2 ^ site_tag_id s)))
        <$> filter (fun s => site_gw s = p) (sites_with_label w (drop 1 target))
    else if first_char target =? 0 then []
    else (fun a => send false (a ++ replicate 2 0))
           <$> filter (fun a => on_gateway w p a = true) (target_bulbs w target)
  end.

(** A target is valid unless it is empty or names a tag nobody has. *)
Definition target_valid (w : world) (target : list Z) : bool :=
  if strcmp_eq target ASCII_STAR then true
  else if first_char target =? ASCII_HASH then
    bool_decide (filter (fun x => strcmp_eq (tag_label x.2) (drop 1 target) = true) (map_to_list (w_tags w)) <> [])
  else negb (first_char target =? 0).

Definition command_packets (w : world) (info : lgtd_lifx_packet_info) (pkt : option (list Z))
    (targets : list (list Z)) (p : gw_ptr) : list packet :=
  targets ≫= (fun target => target_packets w info pkt target p).

End Spec.

(** ** The order of the bulbs *)

#[export] Instance addr_order_trans : Transitive addr_order.
Proof.
  unfold addr_order. intros a. induction a as [|x a IH]; intros [|y b] [|z c]; simpl; try done.
  rewrite !orb_true_iff, !andb_true_iff, !Z.ltb_lt, !Z.eqb_eq.
  intros [?|[-> ?]] [?|[-> ?]]; [left; lia|by left|by left|]. right. split; [done|]. by eapply IH.
Qed.

#[export] Instance addr_order_antisymm : AntiSymm (=) addr_order.
Proof.
  unfold addr_order. intros a. induction a as [|x a IH]; intros [|y b]; simpl; try done.
  rewrite !orb_true_iff, !andb_true_iff, !Z.ltb_lt, !Z.eqb_eq.
  intros [?|[-> ?]] [?|[? ?]]; [lia..|]. f_equal. by apply IH.
Qed.

#[export] Instance addr_order_total : Total addr_order.
Proof.
  unfold addr_order. intros a. induction a as [|x a IH]; intros [|y b]; simpl; try (by left); try (by right).
  rewrite !orb_true_iff, !andb_true_iff, !Z.ltb_lt, !Z.eqb_eq.
  destruct (Z.lt_trichotomy x y) as [?|[->|?]]; [by left; left| |by right; left].
  destruct (IH b); [left|right]; by right.
Qed.

(** The order of the bulbs depends on their addresses only. *)
Lemma bulbs_in_order_ext w w' :
  (forall a, is_Some (w_bulbs_table w !! a) <-> is_Some (w_bulbs_table w' !! a)) ->
  bulbs_in_order w = bulbs_in_order w'.
Proof.
  intros Hdom. destruct (bulbs_in_order_spec w) as [Hnd Hm]. destruct (bulbs_in_order_spec w') as [Hnd' Hm'].
  apply (StronglySorted_unique addr_order); [apply StronglySorted_merge_sort; apply _..|].
  apply NoDup_Permutation; [done|done|]. intros a. by rewrite Hm, Hm'.
Qed.

(** ** Sending does not change what targets come to *)

Section Frame.
Context {E : Endianness}.
Context (w w' : world) (Hf : send_frame w w').

Lemma frame_bulb_there a : is_Some (w_bulbs_table w !! a) <-> is_Some (w_bulbs_table w' !! a).
Proof using Hf.
  pose proof (sf_bulbs _ _ _ _ Hf a) as Hr. inversion Hr; split; intros [? ?]; try done; by eexists.
Qed.

Lemma frame_labelled label a : labelled w' label a = labelled w label a.
Proof using Hf.
  unfold labelled. pose proof (sf_bulbs _ _ _ _ Hf a) as Hr. inversion Hr as [b b' (d & e & ->)|]; [|done].
  by destruct b.
Qed.

Lemma frame_on_gateway p a : on_gateway w' p a = on_gateway w p a.
Proof using Hf.
  unfold on_gateway. pose proof (sf_bulbs _ _ _ _ Hf a) as Hr. inversion Hr as [b b' (d & e & ->)|]; [|done].
  by destruct b.
Qed.

Lemma frame_addressed target : addressed w' target = addressed w target.
Proof using Hf.
  unfold addressed. destruct (isxdigit _); [|done]. destruct (device_addr_bytes target) as [bs|]; [|done].
  pose proof (frame_bulb_there (take LGTD_LIFX_ADDR_LENGTH bs)). do 2 case_decide; tauto.
Qed.

Lemma frame_target_bulbs target : target_bulbs w' target = target_bulbs w target.
Proof using Hf.
  unfold target_bulbs. rewrite frame_addressed. destruct (addressed w target); [done|].
  rewrite (bulbs_in_order_ext w' w) by (intros a; symmetry; apply frame_bulb_there).
  apply list_filter_iff. intros a. by rewrite frame_labelled.
Qed.

Lemma frame_sites_with_label label : sites_with_label w' label = sites_with_label w label.
Proof using Hf. unfold sites_with_label. by rewrite (sf_tags _ _ _ _ Hf). Qed.

Lemma frame_target_packets info pkt target p :
  target_packets w' info pkt target p = target_packets w info pkt target p.
Proof using Hf.
  unfold target_packets. rewrite (sf_client_id _ _ _ _ Hf), frame_sites_with_label, frame_target_bulbs.
  pose proof (sf_gateways _ _ _ _ Hf p) as Hr. inversion Hr as [gw gw' Hg Hx Hy|]; [|done].
  rewrite (qf_site _ _ Hg). do 3 (case_match; [done|]). f_equal.
  apply list_filter_iff. intros a. by rewrite frame_on_gateway.
Qed.

Lemma frame_target_valid target : target_valid w' target = target_valid w target.
Proof using Hf. unfold target_valid. by rewrite (sf_tags _ _ _ _ Hf). Qed.
End Frame.

(** ** Pushing packets *)

(** From [w] to [w'] every queue got the packets [out] has for its gateway. *)
Definition queued (w w' : world) (out : gw_ptr -> list packet) : Prop :=
  forall p gw gw' q, w_gateways w !! p = Some gw -> w_gateways w' !! p = Some gw' ->
    queue_repr gw q -> queue_repr gw' (push_all (out p) q).

(** [m] returns a value that satisfies [R], does nothing but send, and sends [out]. *)
Definition pushes {A} (m : M world A) (R : A -> Prop) (out : gw_ptr -> list packet) (w : world) : Prop :=
  wp m (fun a w' => send_frame w w' /\ sendable w' /\ queued w w' out /\ R a) w.

Lemma push_all_app l1 l2 q : push_all (l1 ++ l2) q = push_all l2 (push_all l1 q).
Proof. apply foldl_app. Qed.

Lemma pushes_ext {A} (m : M world A) R out out' w :
  (forall p gw, w_gateways w !! p = Some gw -> out p = out' p) -> pushes m R out w -> pushes m R out' w.
Proof.
  intros Ho Hm. eapply wp_mono; [exact Hm|]. intros a w' (Hf & Hs & Hq & HR). split_and!; try done.
  intros p gw gw' q Hp Hp' Hr. rewrite <- (Ho p gw Hp). by apply (Hq p gw gw').
Qed.

Lemma pushes_bind {A B} (m : M world A) (k : A -> M world B) (R : A -> Prop) (S : B -> Prop) out1 out2 w :
  pushes m R out1 w ->
  (forall a w', R a -> send_frame w w' -> sendable w' -> pushes (k a) S out2 w') ->
  pushes (m ≫= k) S (fun p => out1 p ++ out2 p) w.
Proof.
  intros Hm Hk. apply wp_bind. eapply wp_mono; [exact Hm|]. intros a w1 (Hf1 & Hs1 & Hq1 & HR).
  eapply wp_mono; [by apply (Hk a w1)|]. intros b w2 (Hf2 & Hs2 & Hq2 & HS).
  split_and!; [by etransitivity|done| |done].
  intros p gw gw2 q Hp Hp2 Hr. destruct (gateway_after _ _ _ _ _ _ Hf1 Hp) as (gw1 & Hp1 & _).
  rewrite push_all_app. eapply Hq2; [done..|]. by eapply Hq1.
Qed.

Lemma pushes_ret {A} (a : A) (R : A -> Prop) w : sendable w -> R a -> pushes (mret a) R (fun _ => []) w.
Proof.
  intros Hs HR. apply wp_ret. split_and!; [reflexivity|done| |done].
  intros p gw gw' q Hp Hp' Hr. simplify_eq. done.
Qed.

(** What sends and touches no queue: reading the clock, noting the power that was
    asked for. *)
Definition no_push {A} (m : M world A) (w : world) : Prop := pushes m (fun _ => True) (fun _ => []) w.

Lemma no_push_same {A} (m : M world A) w :
  sends m w -> wp m (fun _ w' => w_gateways w' = w_gateways w) w -> no_push m w.
Proof.
  unfold sends, no_push, pushes, wp. destruct (m w) as [a w'|]; [|done]. intros [Hf Hs] Hg.
  split_and!; [done..| |done]. intros p gw gw' q Hp Hp' Hr. rewrite Hg in Hp'. by simplify_eq.
Qed.

Lemma pushes_then {A B} (m : M world A) (k : A -> M world B) (R : A -> Prop) (S : B -> Prop) out w :
  pushes m R out w -> (forall a w', R a -> send_frame w w' -> sendable w' -> pushes (k a) S (fun _ => []) w') ->
  pushes (m ≫= k) S out w.
Proof.
  intros Hm Hk. eapply pushes_ext; [|by eapply pushes_bind]. intros p gw _. cbv beta. apply app_nil_r.
Qed.

Lemma no_push_now w : sendable w -> no_push lgtd_time_monotonic_msecs w.
Proof. intros Hs. apply no_push_same; [by apply sends_now|]. apply wp_time. intros t ds _. done. Qed.

Lemma no_push_when b m w : sendable w -> (b = true -> no_push m w) -> no_push (mwhen b m) w.
Proof. intros Hs Hm. destruct b; [by apply Hm|]. by apply pushes_ret. Qed.

Lemma pushes_foreach {A} (l : list A) body (out : A -> gw_ptr -> list packet) w :
  sendable w ->
  (forall x w', x ∈ l -> send_frame w w' -> sendable w' -> pushes (body x) (fun _ => True) (out x) w') ->
  pushes (mforeach l body) (fun _ => True) (fun p => l ≫= (fun x => out x p)) w.
Proof.
  intros Hs Hb. revert w Hs Hb. induction l as [|x l IH]; intros w Hs Hb; [by apply pushes_ret|].
  apply (pushes_bind _ _ (fun _ => True)); [apply Hb; [by left|reflexivity|done]|].
  intros _ w' _ Hf Hs'. apply IH; [done|]. intros y w'' Hy Hf' Hs''.
  apply Hb; [by right|by etransitivity|done].
Qed.

Lemma no_push_foreach {A} (l : list A) body w :
  sendable w -> (forall x w', x ∈ l -> send_frame w w' -> sendable w' -> no_push (body x) w') ->
  no_push (mforeach l body) w.
Proof.
  intros Hs Hb. eapply pushes_ext; [|by apply (pushes_foreach l body (fun _ _ => []))].
  intros p gw _. cbv beta. clear. by induction l.
Qed.

(** A ring and its buffer stand for one queue only. *)
Lemma packets_unique q1 : forall q2,
  packet_message <$> q1 = packet_message <$> q2 -> mjoin (packet_bytes <$> q1) = mjoin (packet_bytes <$> q2) ->
  q1 = q2.
Proof.
  induction q1 as [|[ty bs] q1 IH]; intros [|[ty' bs'] q2] Hm Hb; try done.
  simpl in Hm. unfold packet_message in Hm. injection Hm as Hty Hlen Hm. cbn [packet_type packet_bytes] in *.
  simpl in Hb. apply app_inj_1 in Hb as [-> Hb]; [|lia]. subst ty'. f_equal. by apply IH.
Qed.

Lemma queue_repr_unique gw q1 q2 : queue_repr gw q1 -> queue_repr gw q2 -> q1 = q2.
Proof.
  intros [_ Hl1 Ht Hh1 Hf1 Hm1 Hb1 _ _] [_ Hl2 _ Hh2 Hf2 Hm2 Hb2 _ _].
  assert (Hlen : length q1 = length q2).
  { rewrite Hh1 in Hh2. rewrite Hf1 in Hf2. unfold LGTD_LIFX_GATEWAY_PACKET_RING_SIZE in *.
    revert Hf2. do 2 case Nat.eqb_spec; intros; try done; try lia. }
  apply packets_unique; [|congruence]. apply list_eq_same_length with (length q1); rewrite ?length_fmap; try done.
  intros k m1 m2 Hk. rewrite !list_lookup_fmap. intros (k1 & Hk1 & ->)%fmap_Some (k2 & Hk2 & ->)%fmap_Some.
  pose proof (Hm1 k k1 Hk1) as H1. rewrite (Hm2 k k2 Hk2) in H1. congruence.
Qed.

Section Pushes.
Context {E : Endianness}.

Lemma no_push_expect_power w now m a :
  sendable w -> is_Some (w_bulbs_table w !! a) -> no_push (expect_power now (Some m) a) w.
Proof.
  intros Hs Ha. apply no_push_same; [by apply sends_expect_power|]. destruct Ha as [b Ha].
  apply wp_bind. eapply wp_deref; [done|]. apply wp_bind. eapply wp_upd_bulb; [done|].
  eapply wp_upd_bulb; [apply bulb_put_lookup|]. done.
Qed.

(** Every send: a header, the queue, then the bookkeeping. *)
Lemma pushes_packet {A} w p gw target_type target tgt ptype info pkt (K : M world A) (R : A -> Prop) :
  sendable w -> w_gateways w !! p = Some gw ->
  wire_target target_type target = Some tgt -> length tgt = 8%nat ->
  lgtd_lifx_wire_get_packet_info (packet_type_value ptype) = Some info -> payload_ok info pkt ->
  (forall w', send_frame w w' -> sendable w' -> pushes K R (fun _ => []) w') ->
  pushes ('(hdr, pkt_info) ← lgtd_lifx_wire_setup_header (w_client_id w) target_type target
            (Some (gw_site gw)) ptype;
          lgtd_lifx_gateway_enqueue_packet p hdr pkt_info pkt ;; K) R
    (fun p' => if decide (p' = p)
               then [wire_packet (w_client_id w) info (target_is_tagged target_type) tgt (gw_site gw)
                       (payload_bytes info pkt)] else []) w.
Proof.
  intros Hs Hp Htgt Hlen Hinfo Hok HK.
  destruct (sd_gateways _ Hs p gw Hp) as [[q Hq] Hsite].
  eapply (wp_send w p gw q _ _ tgt _ info);
    [exact (sd_client_id _ Hs)|exact Hp|exact Hq|exact Hsite|exact Hinfo|exact Htgt|exact Hlen|exact Hok|].
  intros gw' Hfr _ Hq'.
  assert (Hf : send_frame w (gw_put p gw' w)) by (by eapply send_frame_gw_put).
  eapply wp_mono; [apply HK; [done|]|].
  - eapply sendable_frame; [done..|]. intros p' gw''. unfold gw_put. fields.
    rewrite lookup_insert. case_decide; [intros [= <-]; by eexists|]. intros Hp'.
    by destruct (sd_gateways _ Hs p' gw'' Hp').
  - intros a w' (Hf' & Hs' & Hqd & HR). split_and!; [by etransitivity|done| |done].
    intros p' g g' q' Hg Hg' Hr.
    destruct (gateway_before _ _ _ _ _ _ Hf' Hg') as (gi & Hgi & _).
    apply (Hqd p' gi g' _ Hgi Hg'). revert Hgi. unfold gw_put. fields.
    destruct (decide (p' = p)) as [->|Hd].
    + rewrite lookup_insert_eq. intros [= <-]. rewrite Hp in Hg. injection Hg as <-.
      rewrite (queue_repr_unique _ _ _ Hr Hq). exact Hq'.
    + rewrite lookup_insert_ne by done. rewrite Hg. intros [= <-]. done.
Qed.
(** The bookkeeping after a SET_POWER_STATE packet. *)
Lemma no_push_expect w ptype pkt (body : Z -> M world unit) :
  sendable w -> payload_for ptype pkt ->
  (forall now m w', pkt = Some m -> send_frame w w' -> sendable w' -> no_push (body now) w') ->
  no_push (mwhen (is_set_power ptype) (now ← lgtd_time_monotonic_msecs; body now)) w.
Proof.
  intros Hs Hpkt Hb. apply no_push_when; [done|]. intros Hpow.
  destruct (set_power_payload _ _ Hpkt Hpow) as [m Hm].
  eapply pushes_then; [by apply no_push_now|]. intros now w' _ Hf Hs'. by eapply Hb.
Qed.

Lemma pushes_to_device w a b ptype info pkt :
  world_inv w -> w_bulbs_table w !! a = Some b -> payload_for ptype pkt ->
  lgtd_lifx_wire_get_packet_info (packet_type_value ptype) = Some info ->
  pushes (lgtd_router_send_to_device a ptype pkt) (fun _ => True)
    (fun p => if decide (p = bulb_gw b)
              then match w_gateways w !! p with
                   | Some gw => [wire_packet (w_client_id w) info false (a ++ replicate 2 0) (gw_site gw)
                                   (payload_bytes info pkt)]
                   | None => []
                   end
              else []) w.
Proof.
  intros Hi Ha Hpkt Hinfo. pose proof (dv_send _ _ _ (wi_devices _ Hi)) as Hs.
  destruct (bi_ok _ _ (dv_bulbs _ _ _ (wi_devices _ Hi)) a b Ha) as [Haddr Hlen _ _ _].
  destruct (bi_gw _ _ (dv_bulbs _ _ _ (wi_devices _ Hi)) a b Ha) as (gw & Hp & _).
  unfold lgtd_router_send_to_device. apply wp_bind. eapply wp_get_bulb; [done|].
  apply wp_bind. eapply wp_get_gw; [done|]. apply wp_bind, wp_get. cbv beta.
  destruct (payload_for_info _ _ Hpkt) as (info' & Hinfo' & Hok). rewrite Hinfo in Hinfo'. injection Hinfo' as <-.
  assert (Htake : take LGTD_LIFX_ADDR_LENGTH (bulb_addr b) = a) by (rewrite Haddr; apply take_ge; lia).
  eapply pushes_ext; [|eapply pushes_packet; [done|exact Hp|reflexivity| |exact Hinfo|exact Hok|]].
  - intros p gw' Hp'. cbv beta. destruct (decide (p = bulb_gw b)) as [->|]; [|done].
    rewrite Hp. unfold wire_target. by rewrite Htake.
  - rewrite Htake, length_app, Hlen. done.
  - intros w1 Hf1 Hs1. eapply no_push_expect; [done|exact Hpkt|]. intros now m w2 -> Hf2 Hs2.
    apply no_push_expect_power; [done|]. eapply bulb_kept; [exact Hf2|]. eapply bulb_kept; [exact Hf1|]. by eexists.
Qed.

Lemma bind_if_filter {A B} (P : A -> Prop) `{!forall x, Decision (P x)} (h : A -> B) (l : list A) :
  l ≫= (fun x => if decide (P x) then [h x] else []) = h <$> filter P l.
Proof.
  induction l as [|x l IH]; [done|]. cbn [mbind list_bind]. rewrite filter_cons.
  case_decide; [rewrite fmap_cons; exact (f_equal (cons _) IH)|exact IH].
Qed.

Lemma filter_eq_single {A} `{EqDecision A} (p : A) (l : list A) :
  NoDup l -> p ∈ l -> filter (fun x => p = x) l = [p].
Proof.
  induction 1 as [|x l Hx Hnd IH]; [by intros ?%elem_of_nil|]. rewrite elem_of_cons, filter_cons.
  intros [->|Hin].
  - rewrite decide_True by done. f_equal. destruct (filter _ l) as [|y l'] eqn:Hl; [done|].
    assert (Hy : y ∈ filter (fun z => x = z) l) by (rewrite Hl; by left).
    apply list_elem_of_filter in Hy as [<- Hy]. done.
  - rewrite decide_False by (intros ->; done). by apply IH.
Qed.

Lemma pushes_broadcast w ptype info pkt target :
  world_inv w -> payload_for ptype pkt ->
  lgtd_lifx_wire_get_packet_info (packet_type_value ptype) = Some info ->
  strcmp_eq target ASCII_STAR = true ->
  pushes (lgtd_router_broadcast ptype pkt) (fun _ => True) (target_packets w info pkt target) w.
Proof.
  intros Hi Hpkt Hinfo Hstar. pose proof (dv_send _ _ _ (wi_devices _ Hi)) as Hs.
  destruct (payload_for_info _ _ Hpkt) as (info' & Hinfo' & Hok). rewrite Hinfo in Hinfo'. injection Hinfo' as <-.
  set (send := fun gw => wire_packet (w_client_id w) info true (replicate 8 0) (gw_site gw) (payload_bytes info pkt)).
  set (out := fun p x => if decide (x = p) then (match w_gateways w !! p with Some gw => [send gw] | None => [] end) else []).
  unfold lgtd_router_broadcast. apply wp_bind, wp_get.
  eapply pushes_ext; [|apply (pushes_foreach _ _ out)]; [|done|].
  - intros p gw Hp. cbv beta. unfold target_packets, out. rewrite Hp, Hstar.
    assert (Hin : p ∈ w_gateway_list w) by (apply (ri_list _ (wi_rest _ Hi)); by eexists).
    transitivity (w_gateway_list w ≫= (fun x => if decide (p = x) then [send gw] else [])).
    + apply list_bind_ext; [|done]. intros x. case_decide as Hd; [|done]. subst x. by rewrite Hp.
    + rewrite bind_if_filter, filter_eq_single; [done|apply (ri_nodup _ (wi_rest _ Hi))|done].
  - intros p w1 Hin Hf1 Hs1. pose proof (world_inv_send w w1 Hi Hf1 Hs1) as Hi1.
    apply (ri_list _ (wi_rest _ Hi)) in Hin as [gw0 Hp0].
    destruct (gateway_after _ _ _ _ _ _ Hf1 Hp0) as (gw & Hp & Hfr).
    unfold broadcast_on. apply wp_bind. eapply wp_get_gw; [done|]. apply wp_bind, wp_get. cbv beta.
    eapply pushes_ext; [|eapply pushes_packet; [done|exact Hp|reflexivity|done|exact Hinfo|exact Hok|]].
    + intros p' gw' _. unfold out. case_decide; [|done]. rewrite Hp0. unfold send.
      by rewrite (qf_site _ _ Hfr), (sf_client_id _ _ _ _ Hf1).
    + intros w2 Hf2 Hs2. eapply no_push_expect; [done|exact Hpkt|]. intros now m w3 -> Hf3 Hs3.
      apply no_push_foreach; [done|]. intros a w4 Ha Hf4 Hs4. apply no_push_expect_power; [done|].
      eapply bulb_kept; [exact Hf4|]. eapply bulb_kept; [exact Hf3|]. eapply bulb_kept; [exact Hf2|].
      by eapply bulbs_of_gateway.
Qed.

Lemma sites_with_label_tag w t tag label :
  world_inv w -> w_tags w !! t = Some tag -> cstr (tag_label tag) = cstr label ->
  sites_with_label w label = tag_sites tag.
Proof.
  intros Hi Ht Hl. unfold sites_with_label. set (l := filter _ _).
  assert (Hin : (t, tag) ∈ l).
  { apply list_elem_of_filter. split; [by apply bool_decide_eq_true|by apply elem_of_map_to_list]. }
  destruct l as [|[t' tag'] l'] eqn:Hfl; [by apply elem_of_nil in Hin|]. simpl.
  assert (Hin' : (t', tag') ∈ l) by (rewrite Hfl; by left).
  apply list_elem_of_filter in Hin' as [Hl'%bool_decide_eq_true Ht'%elem_of_map_to_list]. simpl in Hl'.
  assert (t = t') as <- by (eapply (ti_labels _ _ _ (ri_tags _ (wi_rest _ Hi))); [exact Ht|exact Ht'|congruence]).
  congruence.
Qed.

Lemma no_tag_with_label w label :
  (forall t tag, w_tags w !! t = Some tag -> cstr (tag_label tag) <> cstr label) ->
  filter (fun x => strcmp_eq (tag_label x.2) label = true) (map_to_list (w_tags w)) = [].
Proof.
  intros Hno. destruct (filter _ _) as [|[t tag] l] eqn:Hfl; [done|].
  assert (Hin : (t, tag) ∈ (t, tag) :: l) by (by left). rewrite <- Hfl in Hin.
  apply list_elem_of_filter in Hin as [Hl%bool_decide_eq_true Ht%elem_of_map_to_list]. by destruct (Hno t tag Ht).
Qed.

Lemma pushes_send_to_tag w t tag ptype info pkt target :
  world_inv w -> w_tags w !! t = Some tag -> cstr (tag_label tag) = cstr (drop 1 target) ->
  payload_for ptype pkt -> lgtd_lifx_wire_get_packet_info (packet_type_value ptype) = Some info ->
  strcmp_eq target ASCII_STAR = false -> first_char target = ASCII_HASH ->
  pushes (lgtd_router_send_to_tag t ptype pkt) (fun _ => True) (target_packets w info pkt target) w.
Proof.
  intros Hi Ht Hlab Hpkt Hinfo Hstar Hhash. pose proof (dv_send _ _ _ (wi_devices _ Hi)) as Hs.
  destruct (payload_for_info _ _ Hpkt) as (info' & Hinfo' & Hok). rewrite Hinfo in Hinfo'. injection Hinfo' as <-.
  set (send := fun gw s => wire_packet (w_client_id w) info true (le_bytes 8 (2 ^ site_tag_id s)) (gw_site gw)
                             (payload_bytes info pkt)).
  set (out := fun s p => if decide (site_gw s = p)
    then (match w_gateways w !! p with Some gw => [send gw s] | None => [] end) else []).
  unfold lgtd_router_send_to_tag. apply wp_bind. eapply wp_get_tag; [done|]. cbv beta.
  eapply pushes_ext; [|apply (pushes_foreach _ _ out)]; [|done|].
  - intros p gw Hp. cbv beta. unfold target_packets, out. rewrite Hp, Hstar, Hhash, Z.eqb_refl.
    rewrite (sites_with_label_tag w t tag _ Hi Ht Hlab), <- bind_if_filter. done.
  - intros s w1 Hin Hf1 Hs1. pose proof (world_inv_send w w1 Hi Hf1 Hs1) as Hi1.
    assert (Ht1 : w_tags w1 !! t = Some tag) by (by rewrite (sf_tags _ _ _ _ Hf1)).
    destruct (ti_sites _ _ _ (ri_tags _ (wi_rest _ Hi1)) t tag s Ht1 Hin) as (i & Hi64 & Hsite & Hcell).
    unfold cell in Hcell. destruct (w_gateways w1 !! site_gw s) as [gw|] eqn:Hp; [|done].
    simpl in Hcell. destruct (gw_tags gw !! i) as [c|] eqn:Hc; [|done]. simpl in Hcell. subst c.
    destruct (gateway_before _ _ _ _ _ _ Hf1 Hp) as (gw0 & Hp0 & Hfr).
    unfold send_to_site_of_tag. apply wp_bind. eapply wp_get_gw; [exact Hp|]. cbv beta zeta.
    assert (Hid : site_tag_id s = Z.of_nat i) by (by rewrite Hsite).
    apply wp_bind. unfold get_gw_tag. rewrite Hid, Nat2Z.id. eapply wp_deref; [exact Hc|].
    apply wp_bind, wp_assert; [by apply bool_decide_eq_true|]. apply wp_bind, wp_get. cbv beta.
    eapply pushes_ext; [|eapply pushes_packet; [done|exact Hp|reflexivity|apply length_le_bytes|exact Hinfo|exact Hok|]].
    + intros p' gw' _. unfold out, wire_target, target_is_tagged. cbv beta.
      destruct (decide (p' = site_gw s)) as [->|Hne]; [|by rewrite decide_False by congruence].
      rewrite decide_True by done. rewrite Hp0. unfold send.
      by rewrite (qf_site _ _ Hfr), (sf_client_id _ _ _ _ Hf1), Hid, TAG_ID_TO_VALUE_pow by lia.
    + intros w2 Hf2 Hs2. eapply no_push_expect; [done|exact Hpkt|]. intros now m w3 -> Hf3 Hs3.
      apply no_push_foreach; [done|]. intros a w4 Ha Hf4 Hs4.
      assert (Ha4 : is_Some (w_bulbs_table w4 !! a)).
      { eapply bulb_kept; [exact Hf4|]. eapply bulb_kept; [exact Hf3|]. eapply bulb_kept; [exact Hf2|].
        by eapply bulbs_of_gateway. }
      destruct Ha4 as [b Hb]. apply wp_bind. eapply wp_get_bulb; [exact Hb|]. cbv beta.
      apply no_push_when; [done|]. intros _. apply no_push_expect_power; [done|by eexists].
Qed.

(** What a list of bulbs gets through the gateway [p], one packet each. *)
Definition packets_to_bulbs (w : world) (info : lgtd_lifx_packet_info) (pkt : option (list Z)) (p : gw_ptr)
    (bulbs : list addr) : list packet :=
  match w_gateways w !! p with
  | None => []
  | Some gw => (fun a => wire_packet (w_client_id w) info false (a ++ replicate 2 0) (gw_site gw)
                           (payload_bytes info pkt)) <$> filter (fun a => on_gateway w p a = true) bulbs
  end.

Lemma target_packets_bulbs w info pkt target p :
  strcmp_eq target ASCII_STAR = false -> (first_char target =? ASCII_HASH) = false -> (first_char target =? 0) = false ->
  target_packets w info pkt target p = packets_to_bulbs w info pkt p (target_bulbs w target).
Proof. intros H1 H2 H3. unfold target_packets, packets_to_bulbs. by rewrite H1, H2, H3. Qed.

Lemma pushes_to_bulb w a ptype info pkt :
  world_inv w -> is_Some (w_bulbs_table w !! a) -> payload_for ptype pkt ->
  lgtd_lifx_wire_get_packet_info (packet_type_value ptype) = Some info ->
  pushes (lgtd_router_send_to_device a ptype pkt) (fun _ => True) (fun p => packets_to_bulbs w info pkt p [a]) w.
Proof.
  intros Hi [b Ha] Hpkt Hinfo. eapply pushes_ext; [|by eapply pushes_to_device].
  intros p gw Hp. cbv beta. unfold packets_to_bulbs, on_gateway. rewrite Hp, filter_cons, Ha.
  destruct (decide (p = bulb_gw b)) as [->|Hne].
  - by rewrite decide_True by (by apply bool_decide_eq_true).
  - by rewrite decide_False by (rewrite bool_decide_eq_true; congruence).
Qed.

Lemma pushes_send_to_label w label ptype info pkt :
  world_inv w -> payload_for ptype pkt ->
  lgtd_lifx_wire_get_packet_info (packet_type_value ptype) = Some info ->
  pushes (lgtd_router_send_to_label label ptype pkt) (fun _ => True)
    (fun p => packets_to_bulbs w info pkt p (filter (fun a => labelled w label a = true) (bulbs_in_order w))) w.
Proof.
  intros Hi Hpkt Hinfo. pose proof (dv_send _ _ _ (wi_devices _ Hi)) as Hs.
  unfold lgtd_router_send_to_label. apply wp_bind, wp_get.
  eapply pushes_ext; [|apply (pushes_foreach _ _ (fun a p =>
    if labelled w label a then packets_to_bulbs w info pkt p [a] else []))]; [|done|].
  - intros p gw Hp. cbv beta. clear Hs. induction (bulbs_in_order w) as [|a l IH].
    { unfold packets_to_bulbs. by rewrite Hp. }
    cbn [mbind list_bind]. rewrite filter_cons.
    etransitivity; [exact (f_equal (app _) IH)|]. destruct (labelled w label a) eqn:Hlab.
    + rewrite decide_True by done. unfold packets_to_bulbs. rewrite Hp, <- fmap_app, <- filter_app. done.
    + by rewrite decide_False by done.
  - intros a w1 Hin Hf1 Hs1. pose proof (world_inv_send w w1 Hi Hf1 Hs1) as Hi1.
    apply bulbs_in_order_spec in Hin. apply (bulb_kept _ _ _ Hf1) in Hin as [b Hb].
    apply wp_bind. eapply wp_get_bulb; [exact Hb|]. cbv beta.
    assert (Hlab : labelled w label a = lgtd_lifx_bulb_has_label b label).
    { rewrite <- (frame_labelled w w1 Hf1). unfold labelled. by rewrite Hb. }
    rewrite Hlab. unfold mwhen. destruct (lgtd_lifx_bulb_has_label b label); [|by apply pushes_ret].
    eapply pushes_ext.
    2:{ assert (Hsend := pushes_to_bulb w1 a ptype info pkt Hi1 ltac:(by eexists) Hpkt Hinfo).
        unfold pushes, lgtd_router_send_to_device in Hsend. unfold pushes.
        unfold wp at 1 in Hsend. unfold mbind at 1, M_bind at 1 in Hsend. rewrite (get_bulb_ret _ _ _ Hb) in Hsend.
        exact Hsend. }
    intros p gw Hp. destruct (gateway_before _ _ _ _ _ _ Hf1 Hp) as (gw0 & Hp0 & Hfr). unfold packets_to_bulbs.
    rewrite Hp, Hp0, (qf_site _ _ Hfr), (sf_client_id _ _ _ _ Hf1). f_equal.
    apply list_filter_iff. intros x. by rewrite (frame_on_gateway w w1 Hf1).
Qed.

Lemma pushes_to_target w target ptype info pkt :
  world_inv w -> payload_for ptype pkt ->
  lgtd_lifx_wire_get_packet_info (packet_type_value ptype) = Some info ->
  pushes (send_to_target ptype pkt target) (fun ok => ok = target_valid w target)
    (target_packets w info pkt target) w.
Proof.
  intros Hi Hpkt Hinfo. pose proof (dv_send _ _ _ (wi_devices _ Hi)) as Hs.
  unfold send_to_target, target_valid. destruct (strcmp_eq target ASCII_STAR) eqn:Hstar.
  { eapply pushes_then; [by eapply pushes_broadcast|]. intros; by apply pushes_ret. }
  destruct (first_char target =? ASCII_HASH) eqn:Hhash.
  { destruct (find_tag_ret w _ (drop 1 target) (ri_tags _ (wi_rest _ Hi))) as (r & Hr & Hres).
    apply wp_bind. unfold wp at 1. rewrite Hr. destruct r as [t|].
    - destruct Hres as (tag & Ht & Hl). pose proof Hhash as Hhash'%Z.eqb_eq.
      eapply pushes_then; [by eapply pushes_send_to_tag|]. intros; apply pushes_ret; [done|].
      symmetry. apply bool_decide_eq_true. intros Hnil.
      assert (Hin : (t, tag) ∈ filter (fun x => strcmp_eq (tag_label x.2) (drop 1 target) = true) (map_to_list (w_tags w)))
        by (apply list_elem_of_filter; split; [by apply bool_decide_eq_true|by apply elem_of_map_to_list]).
      rewrite Hnil in Hin. by apply elem_of_nil in Hin.
    - eapply pushes_ext; [|apply pushes_ret; [done|]].
      + intros p gw Hp. unfold target_packets, sites_with_label. by rewrite Hp, Hstar, Hhash, no_tag_with_label.
      + symmetry. apply bool_decide_eq_false. rewrite no_tag_with_label by done. tauto. }
  destruct (first_char target =? 0) eqn:Hzero; cbn [negb].
  { eapply pushes_ext; [|by apply pushes_ret]. intros p gw Hp. unfold target_packets. by rewrite Hp, Hstar, Hhash, Hzero. }
  eapply pushes_ext.
  { intros p gw Hp. symmetry. by apply target_packets_bulbs. }
  unfold target_bulbs. assert (Hsend : forall r, r = addressed w target ->
    (forall a, r = Some a -> is_Some (w_bulbs_table w !! a)) ->
    pushes (match r with
            | Some a => lgtd_router_send_to_device a ptype pkt
            | None => lgtd_router_send_to_label target ptype pkt
            end ;; mret true) (fun ok => ok = true)
      (fun p => packets_to_bulbs w info pkt p (match addressed w target with
         | Some a => [a]
         | None => filter (fun a => labelled w target a = true) (bulbs_in_order w) end)) w).
  { intros r <- Hr. eapply pushes_then; [|intros; by apply pushes_ret].
    destruct r as [a|]; [apply pushes_to_bulb; [done|by apply Hr|done|done]|by apply pushes_send_to_label]. }
  unfold addressed in Hsend at 1. apply wp_bind. destruct (isxdigit _); [|by apply wp_ret, (Hsend None)].
  apply wp_device_addr_to_device, Hsend; [done|]. intros a. destruct (device_addr_bytes target); [|done].
  case_decide; [by intros [= <-]|done].
Qed.

Lemma pushes_router_send targets : forall w ptype info pkt,
  world_inv w -> payload_for ptype pkt ->
  lgtd_lifx_wire_get_packet_info (packet_type_value ptype) = Some info ->
  pushes (lgtd_router_send targets ptype pkt) (fun ok => ok = forallb (target_valid w) targets)
    (command_packets w info pkt targets) w.
Proof.
  induction targets as [|target targets IH]; intros w ptype info pkt Hi Hpkt Hinfo; cbn [lgtd_router_send].
  { apply pushes_ret; [apply (dv_send _ _ _ (wi_devices _ Hi))|done]. }
  eapply pushes_bind; [by apply pushes_to_target|]. intros ok w1 Hok Hf1 Hs1. cbv beta in Hok. subst ok.
  pose proof (world_inv_send w w1 Hi Hf1 Hs1) as Hi1.
  eapply pushes_then; [eapply pushes_ext; [|by apply IH]|].
  - intros p gw Hp. cbv beta. unfold command_packets. apply list_bind_ext; [|done]. intros t.
    by apply frame_target_packets.
  - intros rv w2 -> _ Hs2. apply pushes_ret; [done|]. simpl. f_equal.
    clear -Hf1. induction targets as [|t l IHl]; [done|]. simpl. by rewrite (frame_target_valid w w1 Hf1), IHl.
Qed.

End Pushes.
