(* ===== verification/ProtoInv.v ===== *)
(** * Commands keep the invariant

    Whatever a client asks for, with parameters in their ranges, is done without a
    crash and leaves the invariant true. *)

From Stdlib Require Import ZArith Lia.
From stdpp Require Import base tactics list gmap.
From S2P Require Import Prelude CLib WireBits PacketInfo WireProto World Tagging GatewayQueue.
From S2P Require Import BulbTable Router Bulb Gateway Proto QueueSpec TagsInv SendSpec DeviceInv.
From S2P Require Import DeviceOps Invariant HandlersInv EventsInv RouterSpec.

Section ProtoInv.
Context {E : Endianness}.

(** ** Commands that send *)

Lemma wp_targets_to_devices w targets (Q : option (list addr) -> world -> Prop) :
  world_inv w -> (forall rs, spends (w_os_results w) rs True -> Q None (set_w_os_results rs w)) ->
  (forall rs l, spends (w_os_results w) rs False -> NoDup l -> (forall a, a ∈ l <-> exists target, target ∈ targets /\ selects w target a) ->
     Q (Some l) (set_w_os_results rs w)) ->
  wp (lgtd_router_targets_to_devices targets) Q w.
Proof.
  intros Hi HN HS. unfold lgtd_router_targets_to_devices. apply wp_bind, wp_os_call_results. intros ok rs Hrs.
  destruct ok; [|apply wp_ret, HN; by eapply spends_imp; [|exact Hrs]].
  eapply wp_mono; [apply wp_targets_to_devices_from; [by apply world_inv_os|constructor|]|].
  - by intros a ?%elem_of_nil.
  - intros r w' (rs' & -> & Hrs' & Hl). fields_in Hrs'. pose proof (spends_trans _ _ _ _ _ Hrs Hrs') as Hall.
    destruct r as [l|]; [|specialize (HN rs' (spends_imp _ _ _ _ (fun _ => or_intror eq_refl) Hall)); by destruct w].
    destruct (Hl l eq_refl ltac:(constructor)) as [Hnd Hm].
    specialize (HS rs' l (spends_imp _ _ _ _ (False_ind _) Hall) Hnd).
    replace (set_w_os_results rs' (set_w_os_results rs w)) with (set_w_os_results rs' w) by (by destruct w).
    apply HS. intros a. rewrite Hm, elem_of_nil.
    split; [intros [[]|?]; done|by right].
Qed.

Lemma selected_bulbs w (targets : list (list Z)) (l : list addr) rs :
  (forall a, a ∈ l <-> exists target, target ∈ targets /\ selects w target a) ->
  forall a, a ∈ l -> is_Some (w_bulbs_table (set_w_os_results rs w) !! a).
Proof. intros Hm a (t & _ & b & Hb & _)%Hm. by eexists. Qed.

Lemma payload_power v : payload_for LGTD_LIFX_SET_POWER_STATE (Some (power_state_bytes {| ps_power := v |})).
Proof. exists 2. split; [by vm_compute|]. unfold power_state_bytes. by rewrite length_store. Qed.

Lemma payload_tags v : payload_for LGTD_LIFX_SET_TAGS (Some (tags_bytes v)).
Proof. exists 8. split; [by vm_compute|]. unfold tags_bytes. by rewrite length_store. Qed.

Lemma payload_light_color v : payload_for LGTD_LIFX_SET_LIGHT_COLOR (Some (light_color_bytes v)).
Proof.
  exists 13. split; [by vm_compute|]. unfold light_color_bytes. by rewrite !length_app, !length_store.
Qed.

Lemma payload_waveform v : payload_for LGTD_LIFX_SET_WAVEFORM (Some (waveform_bytes v)).
Proof.
  exists 21. split; [by vm_compute|]. unfold waveform_bytes. by rewrite !length_app, !length_store.
Qed.

(** A command that routes one packet and answers. *)
Lemma keeps_route w targets ptype pkt :
  world_inv w -> payload_for ptype pkt ->
  keeps (ok ← lgtd_router_send targets ptype pkt; mret (SEND_RESULT ok)) w.
Proof.
  intros Hi Hpkt. apply keeps_seq.
  - apply keeps_of_sends; [done|]. by apply sends_router_send.
  - intros ok w' Hi' _. by apply keeps_mret.
Qed.

(** A loop over devices where every turn only sends. *)
Lemma keeps_devices_loop w l body (r : reply) :
  world_inv w -> (forall a, a ∈ l -> is_Some (w_bulbs_table w !! a)) ->
  (forall a b w', world_inv w' -> send_frame w w' -> w_bulbs_table w' !! a = Some b -> sends (body a) w') ->
  keeps (mforeach l body ;; mret r) w.
Proof.
  intros Hi Hl Hb. apply keeps_seq.
  - apply keeps_of_sends; [done|]. apply sends_of_inv; [done|]. intros Hs. apply sends_foreach; [done|].
    intros a w' Ha Hf Hs'. destruct (bulb_kept w w' a Hf (Hl a Ha)) as [b Hb'].
    eapply Hb; [by eapply world_inv_send|done|done].
  - intros _ w' Hi' _. by apply keeps_mret.
Qed.

Lemma keeps_power_toggle w targets : world_inv w -> keeps (lgtd_proto_power_toggle targets) w.
Proof.
  intros Hi. unfold lgtd_proto_power_toggle. apply wp_bind, wp_targets_to_devices; [done| |].
  - intros rs _. apply wp_ret. split; [by apply world_inv_os|done].
  - intros rs l _ _ Hm. apply (keeps_devices_loop (set_w_os_results rs w)); [by apply world_inv_os| |].
    + by eapply selected_bulbs.
    + intros a b w' Hi' _ Hb. apply wp_bind. eapply wp_get_bulb; [exact Hb|]. cbv beta.
      eapply sends_to_bulb; [apply Hi'|by eexists|apply payload_power].
Qed.

Lemma wp_assert_color hue saturation brightness kelvin w (Q : unit -> world -> Prop) :
  0 <= hue <= UINT16_MAX -> 0 <= saturation <= UINT16_MAX -> 0 <= brightness <= UINT16_MAX ->
  2500 <= kelvin <= 9000 -> Q tt w -> wp (assert_color hue saturation brightness kelvin) Q w.
Proof.
  intros Hh Hs Hb Hk HQ. assert (Hr : forall lo hi v, lo <= v <= hi -> in_range lo hi v = true).
  { intros lo hi v Hv. apply andb_true_iff. split; apply Z.leb_le; lia. }
  unfold assert_color. do 3 (apply wp_bind, wp_assert; [by apply Hr|]). apply wp_assert; [by apply Hr|done].
Qed.

Lemma keeps_set_light_from_hsbk w targets hue saturation brightness kelvin transition :
  world_inv w ->
  0 <= hue <= UINT16_MAX -> 0 <= saturation <= UINT16_MAX -> 0 <= brightness <= UINT16_MAX ->
  2500 <= kelvin <= 9000 -> 0 <= transition ->
  keeps (lgtd_proto_set_light_from_hsbk targets hue saturation brightness kelvin transition) w.
Proof.
  intros Hi Hh Hs Hb Hk Ht. unfold lgtd_proto_set_light_from_hsbk.
  apply wp_bind, wp_assert_color; [done..|]. apply wp_bind, wp_assert; [by apply Z.leb_le|]. cbv zeta.
  apply keeps_route; [done|apply payload_light_color].
Qed.

Lemma keeps_set_waveform w targets wf hue saturation brightness kelvin period cycles skew transient :
  world_inv w -> wf <> LGTD_LIFX_WAVEFORM_INVALID ->
  0 <= hue <= UINT16_MAX -> 0 <= saturation <= UINT16_MAX -> 0 <= brightness <= UINT16_MAX ->
  2500 <= kelvin <= 9000 -> 0 <= period -> float_nonneg cycles = true -> -32767 <= skew <= 32768 ->
  keeps (lgtd_proto_set_waveform targets wf hue saturation brightness kelvin period cycles skew transient) w.
Proof.
  intros Hi Hwf Hh Hs Hb Hk Hp Hc Hsk. unfold lgtd_proto_set_waveform.
  apply wp_bind, wp_assert_color; [done..|].
  apply wp_bind, wp_assert; [by destruct wf|].
  apply wp_bind, wp_assert; [apply andb_true_iff; split; apply Z.leb_le; lia|].
  apply wp_bind, wp_assert; [by apply Z.leb_le|]. apply wp_bind, wp_assert; [done|]. cbv zeta.
  apply keeps_route; [done|apply payload_waveform].
Qed.

Lemma keeps_set_label w targets label : world_inv w -> keeps (lgtd_proto_set_label targets label) w.
Proof.
  intros Hi. unfold lgtd_proto_set_label. cbv zeta. apply keeps_route; [done|].
  exists 32. split; [by vm_compute|]. unfold label_bytes. cbn [pl_label].
  rewrite length_app, length_replicate, length_take. unfold LGTD_LIFX_LABEL_SIZE. lia.
Qed.

(** ** Tag ids *)

(** [get_tag_id] finds the cell of the tag. *)
Lemma wp_get_tag_id w p gw t (Q : Z -> world -> Prop) :
  world_inv w -> w_gateways w !! p = Some gw ->
  (forall i, (i < 64)%nat -> cell (w_gateways w) p i = Some t -> Q (Z.of_nat i) w) ->
  ((forall i, cell (w_gateways w) p i <> Some t) -> Q (-1) w) ->
  wp (lgtd_lifx_gateway_get_tag_id p t) Q w.
Proof.
  intros Hi Hp HS HN. unfold lgtd_lifx_gateway_get_tag_id. apply wp_bind. eapply wp_get_gw; [exact Hp|]. cbv beta.
  destruct (ri_tag_ids _ (wi_rest _ Hi) p gw Hp) as [Hlen Hr Hbits].
  assert (Hcell : forall i, cell (w_gateways w) p i = mjoin (gw_tags gw !! i)) by (intros; unfold cell; by rewrite Hp).
  rewrite foreach_tag_id_bits by done.
  assert (Hin : forall i, i ∈ tag_bits (gw_tag_ids gw) -> 0 <= i < 64) by (by intros i [? _]%elem_of_tag_bits).
  assert (Hall : forall i, cell (w_gateways w) p i = Some t -> Z.of_nat i ∈ tag_bits (gw_tag_ids gw)).
  { intros i Hc. destruct (ti_cells _ _ _ (ri_tags _ (wi_rest _ Hi)) _ _ _ Hc) as [Hi64 _].
    apply elem_of_tag_bits. split; [lia|]. apply Hbits; [done|]. rewrite <- Hcell, Hc. by eexists. }
  revert Hin Hall. generalize (tag_bits (gw_tag_ids gw)) as l. induction l as [|i l IH]; intros Hin Hall;
    cbn [get_tag_id_from].
  - apply wp_ret, HN. intros i Hc. by apply Hall, elem_of_nil in Hc.
  - pose proof (Hin i ltac:(by left)) as Hi64. apply wp_bind. unfold get_gw_tag.
    destruct (lookup_lt_is_Some_2 (gw_tags gw) (Z.to_nat i)) as [c Hc]; [lia|].
    eapply wp_deref; [exact Hc|]. case_bool_decide as Hd.
    + apply wp_ret. rewrite <- (Z2Nat.id i) at 1 by lia. apply HS; [lia|]. rewrite Hcell, Hc. by rewrite Hd.
    + apply IH; [intros; apply Hin; by right|]. intros j Hj. pose proof (Hall j Hj) as Hjl.
      apply elem_of_cons in Hjl as [<-|?]; [|done]. rewrite Hcell, Nat2Z.id in *. rewrite Hc in Hj. done.
Qed.

(** The lowest id that is free, when there is one. *)
Lemma bitscan_free ids :
  0 <= ids < 2 ^ 64 ->
  let i := lgtd_lifx_wire_bitscan64_forward (u64 (Z.lnot ids)) in
  i = -1 /\ (forall j, 0 <= j < 64 -> Z.testbit ids j = true) \/ 0 <= i < 64 /\ Z.testbit ids i = false.
Proof.
  intros Hids. cbv zeta. unfold u64. set (n := Z.lnot ids mod 2 ^ 64).
  assert (Hn : 0 <= n < 2 ^ 64) by (apply Z.mod_pos_bound; lia).
  destruct (Z.eq_dec n 0) as [Hz|Hnz]; [left|right].
  { rewrite Hz. split; [apply bitscan64_forward_zero|]. intros j Hj. assert (Hb : Z.testbit n j = false) by (rewrite Hz; apply Z.bits_0).
    unfold n in Hb. rewrite Z.mod_pow2_bits_low, Z.lnot_spec in Hb by lia. by apply negb_false_iff in Hb. }
  destruct (lowest_bit_exists n ltac:(lia)) as [i Hl]. rewrite (bitscan64_forward_lowest n i) by (done || lia).
  destruct Hl as (Hi & Hb & _). pose proof (testbit_bound n i 64 ltac:(lia) Hn Hb) as Hi64.
  split; [lia|]. unfold n in Hb. rewrite Z.mod_pow2_bits_low, Z.lnot_spec in Hb by lia.
  by apply negb_true_iff in Hb.
Qed.

(** Gateways whose tables of tags may have changed, and nothing else. *)
Definition retagged_gw (gw gw' : lgtd_lifx_gateway) : Prop :=
  exists ids tags, gw' = set_gw_tags tags (set_gw_tag_ids ids gw).

#[export] Instance retagged_gw_preorder : PreOrder retagged_gw.
Proof.
  split.
  - intros gw. exists (gw_tag_ids gw), (gw_tags gw). by destruct gw.
  - intros gw1 gw2 gw3 (ids & tags & ->) (ids' & tags' & ->). exists ids', tags'. by destruct gw1.
Qed.

Definition retagged (w w' : world) : Prop :=
  forall p, option_Forall2 retagged_gw (w_gateways w !! p) (w_gateways w' !! p).

#[export] Instance retagged_preorder : PreOrder retagged.
Proof.
  split.
  - intros w p. by destruct (w_gateways w !! p); constructor.
  - intros w1 w2 w3 H12 H23 p. specialize (H12 p). specialize (H23 p).
    inversion H12 as [? ? Ha|]; inversion H23 as [? ? Hb|]; constructor || (exfalso; congruence).
    assert (y = x0) as -> by congruence. by etransitivity.
Qed.

Lemma retagged_same w w' : w_gateways w' = w_gateways w -> retagged w w'.
Proof. intros Hg p. rewrite Hg. by destruct (w_gateways w !! p); constructor. Qed.

Lemma retagged_cell_put w w0 p i v gw :
  w_gateways w0 = w_gateways w -> w_gateways w !! p = Some gw -> retagged w (cell_put p i v gw w0).
Proof.
  intros H0 Hp q. unfold cell_put, gw_put. fields. rewrite H0, lookup_insert. case_decide as Hd.
  - subst q. rewrite Hp. constructor. by eexists _, _.
  - exact (retagged_same w w eq_refl q).
Qed.

(** Every id of the gateway is taken. *)
Definition gateway_full (w : world) (p : gw_ptr) : Prop :=
  forall j, (j < 64)%nat -> is_Some (cell (w_gateways w) p j).

(** [allocate_tag_id(gw, -1, label)] for a label the gateway does not have. *)
Lemma wp_allocate_fresh w p gw label (Q : Z -> world -> Prop) :
  world_inv w -> w_gateways w !! p = Some gw -> (length (cstr label) < LGTD_LIFX_LABEL_SIZE)%nat ->
  label_free w p label ->
  (forall w', world_inv w' -> dom (w_gateways w') = dom (w_gateways w) -> w_bulbs_table w' = w_bulbs_table w ->
     retagged w w' -> w_os_results w' `suffix_of` w_os_results w ->
     tags_kept (w_tags w) (w_tags w') -> (forall q j, cell (w_gateways w') q j = cell (w_gateways w) q j) ->
     false ∈ w_os_results w \/ gateway_full w p -> Q (-1) w') ->
  (forall w' i t tag, world_inv w' -> dom (w_gateways w') = dom (w_gateways w) ->
     w_bulbs_table w' = w_bulbs_table w -> retagged w w' -> w_os_results w' `suffix_of` w_os_results w ->
     tags_kept (w_tags w) (w_tags w') -> (i < 64)%nat -> w_tags w' !! t = Some tag ->
     cstr (tag_label tag) = cstr label -> cell (w_gateways w') p i = Some t ->
     (forall q j t', cell (w_gateways w) q j = Some t' -> cell (w_gateways w') q j = Some t') ->
     (forall q j, cell (w_gateways w') q j = cell (w_gateways w) q j \/ cell (w_gateways w') q j = Some t) ->
     Q (Z.of_nat i) w') ->
  wp (lgtd_lifx_gateway_allocate_tag_id p (-1) label) Q w.
Proof.
  intros Hi Hp Hlab Hfree HN HS. unfold lgtd_lifx_gateway_allocate_tag_id.
  apply wp_bind, wp_assert; [done|]. change (-1 =? -1) with true. cbv iota.
  apply wp_bind. eapply wp_get_gw; [exact Hp|]. cbv beta zeta.
  destruct (ri_tag_ids _ (wi_rest _ Hi) p gw Hp) as [Hlen Hr Hbits].
  pose proof (bitscan_free (gw_tag_ids gw) Hr) as Hscan. cbv zeta in Hscan.
  set (i := lgtd_lifx_wire_bitscan64_forward (u64 (Z.lnot (gw_tag_ids gw)))) in *.
  destruct (Z.eqb_spec i (-1)) as [He|Hne].
  { apply wp_ret. apply HN; [done|done|done|done|done|apply tags_kept_refl|done|]. right. intros j Hj.
    destruct Hscan as [[_ Hall]|[? _]]; [|lia]. unfold cell. rewrite Hp. apply Hbits; [done|]. apply Hall. lia. }
  destruct Hscan as [[? _]|[Hi64 Hbit]]; [done|].
  assert (Hnone : cell (w_gateways w) p (Z.to_nat i) = None).
  { destruct (cell (w_gateways w) p (Z.to_nat i)) eqn:Hc; [|done]. unfold cell in Hc. rewrite Hp in Hc.
    simpl in Hc. rewrite <- (Z2Nat.id i) in Hbit by lia.
    rewrite (proj2 (Hbits (Z.to_nat i) ltac:(lia))) in Hbit by (by eexists). done. }
  rewrite <- (Z2Nat.id i) at 1 by lia.
  eapply (wp_allocate_known w p gw (Z.to_nat i)); [done|done|lia|done| |done| |].
  - rewrite Hnone. by intros [? ?].
  - intros tags tl rs [Hrs Hfail] _ Ht Hk.
    apply HN; [by apply world_inv_tags_put|done|done|by apply retagged_same|done|done|done|left; by apply Hfail].
  - intros t tag tags tl rs [Hrs _] _ Ht Hk Htag Hl.
    assert (Hcells : forall q j, cell (w_gateways (cell_put p (Z.to_nat i) (Some t) gw (tags_put tags tl (set_w_os_results rs w)))) q j
      = if bool_decide (q = p /\ j = Z.to_nat i) then Some t else cell (w_gateways w) q j)
      by (intros q j; apply (cell_cell_put (tags_put tags tl (set_w_os_results rs w))); [exact Hp|lia]).
    eapply (HS _ (Z.to_nat i) t tag);
      [apply world_inv_cell_put; [done|done|lia|done]| |done| |done|done|lia|done|done| | |].
    + unfold cell_put. by erewrite dom_gw_put by exact Hp.
    + by apply (retagged_cell_put w (tags_put tags tl (set_w_os_results rs w))).
    + by rewrite Hcells, bool_decide_eq_true_2.
    + intros q j t' Hc. rewrite Hcells. case_bool_decide as Hd; [|done]. destruct Hd as [-> ->]. congruence.
    + intros q j. rewrite Hcells. case_bool_decide; [by right|by left].
Qed.

(** ** Untagging *)

Lemma sends_get_tag_id {B} w p t (k : Z -> M world B) :
  world_inv w -> is_Some (w_gateways w !! p) -> (forall z, sends (k z) w) ->
  sends (z ← lgtd_lifx_gateway_get_tag_id p t; k z) w.
Proof. intros Hi [gw Hp] Hk. apply wp_bind. eapply wp_get_tag_id; [done|exact Hp| |]; intros; apply Hk. Qed.

Lemma gateway_of_bulb w a b : world_inv w -> w_bulbs_table w !! a = Some b -> is_Some (w_gateways w !! bulb_gw b).
Proof.
  intros Hi Hb. destruct (bulb_in_gateway w a b _ _ (wi_devices _ Hi) Hb) as (gw & Hp & _). by eexists.
Qed.

Lemma keeps_untag w targets label : world_inv w -> keeps (lgtd_proto_untag targets label) w.
Proof.
  intros Hi. unfold lgtd_proto_untag.
  destruct (find_tag_ret w _ label (ri_tags _ (wi_rest _ Hi))) as (r & Hr & _).
  apply wp_bind. unfold wp at 1. rewrite Hr. destruct r as [t|]; [|by apply wp_ret].
  apply wp_bind, wp_targets_to_devices; [done| |].
  - intros rs _. apply wp_ret. split; [by apply world_inv_os|done].
  - intros rs l _ _ Hm. apply (keeps_devices_loop (set_w_os_results rs w)); [by apply world_inv_os| |].
    + by eapply selected_bulbs.
    + intros a b w' Hi' _ Hb. apply wp_bind. eapply wp_get_bulb; [exact Hb|]. cbv beta.
      apply sends_get_tag_id; [done|by eapply gateway_of_bulb|]. intros z.
      assert (Hs : sendable w') by apply (dv_send _ _ _ (wi_devices _ Hi')).
      destruct (negb _); [|by apply sends_ret]. cbv zeta. destruct (has_flag _ _); [|by apply sends_ret].
      eapply sends_to_bulb; [apply Hi'|by eexists|apply payload_tags].
Qed.

(** ** Tagging *)

(** The tag of a command exists with its label. *)
Definition tag_there (w : world) (t : tag_ptr) (label : list Z) : Prop :=
  exists tag, w_tags w !! t = Some tag /\ cstr (tag_label tag) = cstr label.

Definition tagged_gw (w : world) (a : addr) (t : tag_ptr) : Prop :=
  exists b i, w_bulbs_table w !! a = Some b /\ (i < 64)%nat /\ cell (w_gateways w) (bulb_gw b) i = Some t.

Lemma tag_there_kept w w' t label :
  tag_there w t label -> tags_kept (w_tags w) (w_tags w') -> tag_there w' t label.
Proof. intros (tag & Ht & Hl) Hk. destruct (Hk t tag Ht) as (tag' & Ht' & Hl'). exists tag'. by rewrite Hl'. Qed.

(** A tag of the label that a gateway has is the tag of the command. *)
Lemma label_free_of_tag w p t label :
  world_inv w -> tag_there w t label -> (forall i, cell (w_gateways w) p i <> Some t) -> label_free w p label.
Proof.
  intros Hi (tag & Ht & Hl) Hn j t' tag' Hc Ht' Hl'.
  assert (t' = t) as -> by (eapply (ti_labels _ _ _ (ri_tags _ (wi_rest _ Hi))); [done|done|congruence]).
  by apply (Hn j).
Qed.

(** A device whose gateway has all its ids taken, none of them by the tag. *)
Definition ids_short (w : world) (devices : list addr) (t : tag_ptr) : Prop :=
  exists a b, a ∈ devices /\ w_bulbs_table w !! a = Some b /\ gateway_full w (bulb_gw b)
    /\ forall i, cell (w_gateways w) (bulb_gw b) i <> Some t.

Lemma wp_tag_allocate w t label devices (Q : bool -> world -> Prop) :
  world_inv w -> tag_there w t label -> (length (cstr label) < LGTD_LIFX_LABEL_SIZE)%nat ->
  (forall a, a ∈ devices -> is_Some (w_bulbs_table w !! a)) ->
  (forall ok w', world_inv w' -> tag_there w' t label -> dom (w_gateways w') = dom (w_gateways w) ->
     w_bulbs_table w' = w_bulbs_table w -> retagged w w' -> w_os_results w' `suffix_of` w_os_results w ->
     (ok = true -> forall a, a ∈ devices -> tagged_gw w' a t) ->
     (ok = false -> false ∈ w_os_results w \/ ids_short w devices t) -> Q ok w') ->
  wp (tag_allocate t label devices) Q w.
Proof.
  intros Hi Htag Hlab Hdev HQ. unfold tag_allocate.
  apply (wp_foreach_while (fun l w' => world_inv w' /\ tag_there w' t label
    /\ dom (w_gateways w') = dom (w_gateways w) /\ w_bulbs_table w' = w_bulbs_table w
    /\ retagged w w' /\ w_os_results w' `suffix_of` w_os_results w
    /\ (forall q j, cell (w_gateways w') q j = cell (w_gateways w) q j \/ cell (w_gateways w') q j = Some t)
    /\ (forall q j t', cell (w_gateways w) q j = Some t' -> cell (w_gateways w') q j = Some t')
    /\ (forall a, a ∈ l -> a ∈ devices)
    /\ forall a, a ∈ devices -> a ∈ l \/ tagged_gw w' a t)).
  - split_and!; try done; by left.
  - intros a l w1 (Hi1 & Ht1 & Hd1 & Hb1 & Hg1 & Hr1 & Hc1 & Hm1 & Hsub & Hin).
    assert (Hsub' : forall x, x ∈ l -> x ∈ devices) by (intros; apply Hsub; by right).
    destruct (Hdev a (Hsub a ltac:(by left))) as [b Hb]. rewrite <- Hb1 in Hb.
    destruct (gateway_of_bulb w1 a b Hi1 Hb) as [gw Hp].
    apply wp_bind. eapply wp_get_bulb; [exact Hb|]. cbv beta. apply wp_bind.
    eapply wp_get_tag_id; [exact Hi1|exact Hp| |].
    + intros i Hi64 Hc. rewrite (proj2 (Z.eqb_neq _ _)) by lia. apply wp_ret. split_and!; try done.
      intros x Hx. destruct (Hin x Hx) as [[->|?]%elem_of_cons|?]; [|by left|by right].
      right. exists b, i. done.
    + intros Hn. change (-1 =? -1) with true. cbv iota. apply wp_bind.
      eapply wp_allocate_fresh; [exact Hi1|exact Hp|exact Hlab|by eapply label_free_of_tag| |].
      * intros w2 Hi2 Hd2 Hb2 Hg2 Hr2 Hk2 _ Hwhy. apply wp_ret. change (negb (-1 =? -1)) with false. cbv iota.
        apply HQ; [done|by eapply tag_there_kept|congruence|congruence|by etransitivity|by etransitivity|done|].
        intros _. destruct Hwhy as [Hf|Hfull]; [left; by eapply suffix_failed|right].
        exists a, b. rewrite Hb1 in Hb. split_and!; [apply Hsub; by left|done| |].
        { intros j Hj. destruct (Hc1 (bulb_gw b) j) as [<-|Hc]; [by apply Hfull|by destruct (Hn j)]. }
        { intros j Hc. by apply (Hn j), Hm1. }
      * intros w2 i t' tag' Hi2 Hd2 Hb2 Hg2 Hr2 Hk2 Hi64 Ht' Hl' Hc2 Hmono Hcells. apply wp_ret.
        rewrite (proj2 (Z.eqb_neq _ _)) by lia. cbn [negb]. cbv iota.
        pose proof (tag_there_kept _ _ _ _ Ht1 Hk2) as Ht2.
        assert (t' = t) as ->.
        { destruct Ht2 as (tag2 & Ht2 & Hl2).
          eapply (ti_labels _ _ _ (ri_tags _ (wi_rest _ Hi2))); [done|done|congruence]. }
        split_and!; [done|done|congruence|congruence|by etransitivity|by etransitivity| |by auto|done|].
        { intros q j. destruct (Hcells q j) as [->|?]; [apply Hc1|by right]. }
        intros x Hx. destruct (Hin x Hx) as [[->|?]%elem_of_cons|(bx & j & Hbx & Hj & Hcx)]; [|by left|].
        { right. exists b, i. rewrite Hb2. done. }
        { right. exists bx, j. rewrite Hb2. split_and!; [done|done|by apply Hmono]. }
  - intros w' (Hi' & Ht' & Hd' & ? & ? & ? & _ & _ & _ & Hin). apply HQ; try done. intros _ a Ha.
    destruct (Hin a Ha) as [?%elem_of_nil|?]; done.
Qed.

(** What is known of a tag survives sending. *)
Lemma tag_there_frame w w' t label : send_frame w w' -> tag_there w t label -> tag_there w' t label.
Proof. intros Hf (tag & Ht & Hl). exists tag. by rewrite (sf_tags _ _ _ _ Hf). Qed.

Lemma send_frame_cell w w' p i : send_frame w w' -> cell (w_gateways w') p i = cell (w_gateways w) p i.
Proof. intros Hf. symmetry. by apply rest_frame_cell, send_frame_rest. Qed.

Lemma tagged_gw_frame w w' a t : send_frame w w' -> tagged_gw w a t -> tagged_gw w' a t.
Proof.
  intros Hf (b & i & Hb & Hi & Hc). destruct (bulb_after _ _ _ _ _ _ Hf Hb) as (b' & Hb' & d & e & ->).
  eexists _, i. split; [exact Hb'|]. split; [done|]. fields. by rewrite (send_frame_cell w w' _ _ Hf).
Qed.

Lemma is_tag_id_nat i : (i < 64)%nat -> is_tag_id (Z.of_nat i) = true.
Proof. intros Hi. unfold is_tag_id, LGTD_LIFX_GATEWAY_MAX_TAGS. apply andb_true_iff. split; apply Z.ltb_lt; lia. Qed.

Lemma sends_tag_labels w t tag label :
  world_inv w -> w_tags w !! t = Some tag -> sends (tag_send_labels label (tag_sites tag)) w.
Proof.
  intros Hi Ht. unfold tag_send_labels.
  apply (wp_foreach_while (fun l w' => send_frame w w' /\ sendable w' /\ forall s, s ∈ l -> s ∈ tag_sites tag)).
  - split_and!; [reflexivity|apply (dv_send _ _ _ (wi_devices _ Hi))|done].
  - intros s l w1 (Hf1 & Hs1 & Hsub).
    destruct (ti_sites _ _ _ (ri_tags _ (wi_rest _ Hi)) t tag s Ht (Hsub s ltac:(by left))) as (i & Hi64 & Hs & Hc).
    assert (Hid : site_tag_id s = Z.of_nat i) by (by rewrite Hs).
    apply wp_bind, wp_assert; [rewrite Hid; by apply is_tag_id_nat|]. cbv zeta.
    eapply wp_mono; [apply sends_to_site; [done| |]|].
    + unfold cell in Hc. destruct (w_gateways w !! site_gw s) as [gw|] eqn:Hp; [|done].
      destruct (gateway_after _ _ _ _ _ _ Hf1 Hp) as (gw1 & Hp1 & _). by eexists.
    + exists 40. split; [by vm_compute|]. unfold tag_labels_bytes. cbn [tl_label lgtd_lifx_wire_encode_tag_labels].
      rewrite length_app, length_store. destruct (length_strncpy_label LGTD_LIFX_LABEL_SIZE label) as [->|?]; done.
    + intros ok w2 [Hf2 Hs2]. assert (send_frame w w2) by (by etransitivity). destruct ok; [|done].
      split_and!; [done|done|]. intros s' Hs'. apply Hsub. by right.
  - by intros w' (? & ? & _).
Qed.

Lemma sends_tag_send_tags w t devices :
  world_inv w -> (forall a, a ∈ devices -> tagged_gw w a t) -> sends (tag_send_tags t devices) w.
Proof.
  intros Hi Htg. unfold tag_send_tags. apply sends_of_inv; [done|]. intros Hs. apply sends_foreach; [done|].
  intros a w1 Ha Hf1 Hs1. pose proof (world_inv_send w w1 Hi Hf1 Hs1) as Hi1.
  destruct (tagged_gw_frame w w1 a t Hf1 (Htg a Ha)) as (b & i & Hb & Hi64 & Hc).
  destruct (gateway_of_bulb w1 a b Hi1 Hb) as [gw Hp].
  apply wp_bind. eapply wp_get_bulb; [exact Hb|]. cbv beta. apply wp_bind.
  eapply wp_get_tag_id; [exact Hi1|exact Hp| |intros Hn; by destruct (Hn i)].
  intros j Hj64 _. apply wp_bind, wp_assert; [by apply is_tag_id_nat|]. cbv zeta.
  destruct (negb _); [|by apply sends_ret].
  eapply sends_to_bulb; [apply Hi1|by eexists|apply payload_tags].
Qed.

(** The ids of a tag are given back one gateway after another. *)
Lemma wp_tag_rollback w t tag (Q : unit -> world -> Prop) :
  world_inv w -> w_tags w !! t = Some tag ->
  (forall w', world_inv w' -> dom (w_gateways w') = dom (w_gateways w) -> retagged w w' -> Q tt w') ->
  wp (tag_rollback t) Q w.
Proof.
  intros Hi Ht HQ. unfold tag_rollback. pose proof (ri_tags _ (wi_rest _ Hi)) as Htags.
  apply wp_bind. eapply wp_get_tag; [exact Ht|]. cbv beta. case_bool_decide as Hnil.
  { unfold wp. rewrite (deallocate_tag_ret _ _ _ Ht Hnil). apply HQ; [|done|by apply retagged_same].
    pose proof (world_inv_tags_put w _ _ (w_os_results w) Hi (tags_inv_delete _ _ _ _ _ Htags Ht Hnil)) as Hd.
    unfold tags_put in Hd. by destruct w. }
  apply (wp_foreach (fun l w' => world_inv w' /\ dom (w_gateways w') = dom (w_gateways w) /\ retagged w w'
    /\ NoDup (site_gw <$> l) /\ forall s, s ∈ l -> exists i, (i < 64)%nat /\ s = mk_site (site_gw s) i
         /\ is_Some (w_gateways w' !! site_gw s))).
  - split_and!; [done|done|done|by eapply (ti_sites_nodup _ _ _ Htags)|].
    intros s Hs. destruct (ti_sites _ _ _ Htags t tag s Ht Hs) as (i & Hi64 & Hsite & Hc). exists i.
    split_and!; [done|done|]. unfold cell in Hc. by destruct (w_gateways w !! site_gw s).
  - intros s l w1 (Hi1 & Hd1 & Hr1 & Hnd & Hl). destruct (Hl s ltac:(by left)) as (i & Hi64 & Hs & [gw Hp]).
    assert (Hid : site_tag_id s = Z.of_nat i) by (by rewrite Hs). rewrite Hid.
    assert (Hrest : forall w2, dom (w_gateways w2) = dom (w_gateways w1) -> forall s', s' ∈ l ->
      exists i', (i' < 64)%nat /\ s' = mk_site (site_gw s') i' /\ is_Some (w_gateways w2 !! site_gw s')).
    { intros w2 Hd2 s' Hs'. destruct (Hl s' ltac:(by right)) as (i' & ? & ? & ?). exists i'.
      split_and!; [done|done|by eapply gateway_of_dom]. }
    cbn [fmap list_fmap] in Hnd. apply NoDup_cons in Hnd as [_ Hnd].
    eapply (wp_deallocate_tag_id w1 (site_gw s) gw i); [exact Hi1|exact Hp|exact Hi64| |].
    + intros _. split_and!; [done|done|done|done|]. by apply Hrest.
    + intros t' tags tl Hc Ht'.
      pose proof (world_inv_cell_put w1 (site_gw s) gw i None tags tl (w_os_results w1) Hi1 Hp Hi64 Ht') as HI.
      replace (set_w_os_results (w_os_results w1) w1) with w1 in HI by (by destruct w1).
      assert (Hd2 : dom (w_gateways (cell_put (site_gw s) i None gw (tags_put tags tl w1))) = dom (w_gateways w1))
        by (unfold cell_put; by erewrite dom_gw_put by exact Hp).
      split_and!; [done|congruence| |done|by apply Hrest]. etransitivity; [exact Hr1|].
      by apply (retagged_cell_put w1 (tags_put tags tl w1)).
  - intros w' (Hi' & Hd' & Hr' & _). by apply HQ.
Qed.

(** The tag of a command is found or allocated. *)
Lemma wp_find_or_allocate {B} w label (K : option tag_ptr -> M world B) (Q : B -> world -> Prop) :
  world_inv w -> (length (cstr label) < LGTD_LIFX_LABEL_SIZE)%nat ->
  (forall w', world_inv w' -> w_gateways w' = w_gateways w -> false ∈ w_os_results w -> wp (K None) Q w') ->
  (forall t w', world_inv w' -> w_gateways w' = w_gateways w -> w_bulbs_table w' = w_bulbs_table w ->
     w_os_results w' `suffix_of` w_os_results w -> tags_kept (w_tags w) (w_tags w') -> tag_there w' t label ->
     wp (K (Some t)) Q w') ->
  wp (found ← lgtd_lifx_tagging_find_tag label;
      tag ← match found with
            | Some t => mret (Some t)
            | None => lgtd_lifx_tagging_allocate_tag label
            end;
      K tag) Q w.
Proof.
  intros Hi Hlab HN HS. pose proof (ri_tags _ (wi_rest _ Hi)) as Htags.
  destruct (find_tag_ret w _ label Htags) as (r & Hr & Hres).
  apply wp_bind. unfold wp at 1. rewrite Hr. destruct r as [t|]; [by apply wp_bind, wp_ret, HS; [..|apply tags_kept_refl|]|].
  apply wp_bind. unfold lgtd_lifx_tagging_allocate_tag. apply wp_bind, wp_assert; [apply Z.ltb_lt; unfold strlen; lia|].
  apply wp_bind, wp_os_call_results. intros ok rs [Hrs Hfail].
  destruct ok; cbn [negb]; [|apply wp_ret, HN; [by apply world_inv_os|done|by apply Hfail]].
  apply wp_bind, wp_get. cbv zeta. apply wp_bind, wp_modify, wp_bind, wp_modify, wp_ret. fields.
  assert (Hcl : cstr (strncpy_label LGTD_LIFX_LABEL_SIZE label) = cstr label).
  { rewrite cstr_strncpy_label by (unfold LGTD_LIFX_LABEL_SIZE; lia).
    apply take_ge. unfold LGTD_LIFX_LABEL_SIZE in *. lia. }
  set (t := fresh_ptr (w_tags w)). set (tag := {| tag_label := _; tag_sites := [] |}).
  assert (Hnew : tags_inv (w_gateways w) (<[t := tag]> (w_tags w)) (t :: w_tag_list w)).
  { apply tags_inv_new; [done|apply fresh_ptr_fresh|by rewrite Hcl|].
    intros t' tag' Ht'. rewrite Hcl. by eapply Hres. }
  apply HS; [|done|done|done| |].
  - pose proof (world_inv_tags_put w _ _ rs Hi Hnew) as HI. unfold tags_put in HI. by destruct w.
  - intros t' tag' Ht'. exists tag'. split; [|done]. fields. rewrite lookup_insert_ne; [done|].
    intros <-. unfold t in Ht'. by rewrite fresh_ptr_fresh in Ht'.
  - exists tag. fields. rewrite lookup_insert_eq. done.
Qed.

Lemma keeps_tag w targets label :
  world_inv w -> (length (cstr label) < LGTD_LIFX_LABEL_SIZE)%nat -> keeps (lgtd_proto_tag targets label) w.
Proof.
  intros Hi Hlab. unfold lgtd_proto_tag. apply wp_bind, wp_targets_to_devices; [done| |].
  { intros rs _. apply wp_ret. split; [by apply world_inv_os|done]. }
  intros rs l _ _ Hm. pose proof (selected_bulbs w targets l rs Hm) as Hl. cbv iota.
  set (w0 := set_w_os_results rs w) in *. assert (Hi0 : world_inv w0) by (by apply world_inv_os).
  assert (Hdom0 : dom (w_gateways w0) = dom (w_gateways w)) by done. clearbody w0.
  apply wp_find_or_allocate; [done|done| |].
  { intros w1 Hi1 Hg1 _. apply wp_ret. split; [done|congruence]. }
  intros t w1 Hi1 Hg1 Hb1 _ _ Ht1. cbv iota. apply wp_bind.
  eapply wp_tag_allocate; [exact Hi1|exact Ht1|exact Hlab|by rewrite Hb1|].
  intros ok w2 Hi2 Ht2 Hd2 _ _ _ Hok _. assert (Hdom2 : dom (w_gateways w2) = dom (w_gateways w)) by congruence.
  assert (Hback : forall w', world_inv w' -> dom (w_gateways w') = dom (w_gateways w) -> tag_there w' t label ->
    wp (tag_rollback t ;; mret tag_alloc_error)
      (fun _ w'' => world_inv w'' /\ dom (w_gateways w'') = dom (w_gateways w)) w').
  { intros w' Hi' Hd' (tag & Ht & _). apply wp_bind. eapply wp_tag_rollback; [done|exact Ht|].
    intros w'' Hi'' Hd'' _. apply wp_ret. split; [done|congruence]. }
  destruct ok; [|by apply wp_bind, wp_ret, Hback].
  pose proof Ht2 as (tag & Htag & _). apply wp_bind, wp_bind. eapply wp_get_tag; [exact Htag|]. cbv beta.
  eapply wp_mono; [by eapply sends_tag_labels|]. intros enqueued w3 [Hf3 Hs3].
  pose proof (world_inv_send w2 w3 Hi2 Hf3 Hs3) as Hi3.
  assert (Hdom3 : dom (w_gateways w3) = dom (w_gateways w))
    by (rewrite <- Hdom2; by apply rest_frame_dom, send_frame_rest).
  destruct enqueued; [|by apply Hback; [| |eapply tag_there_frame]].
  apply wp_bind. eapply wp_mono.
  { apply sends_tag_send_tags; [exact Hi3|]. intros a Ha. eapply tagged_gw_frame; [exact Hf3|]. by apply Hok. }
  intros _ w4 [Hf4 Hs4]. apply wp_ret. split; [by eapply world_inv_send|].
  rewrite <- Hdom3. by apply rest_frame_dom, send_frame_rest.
Qed.
End ProtoInv.
