(* ===== verification/Daemon.v ===== *)
(** * The daemon

    The events the daemon reacts to, the states it reaches and what holds of
    them: no assertion fails and no freed or missing memory is read, as long as
    the network behaves as [event_ok] says. *)

From Stdlib Require Import ZArith Lia.
From stdpp Require Import base tactics list gmap.
From S2P Require Import Prelude CLib WireBits PacketInfo WireProto World Tagging GatewayQueue.
From S2P Require Import BulbTable Router Bulb Gateway Discovery Proto QueueSpec TagsInv SendSpec.
From S2P Require Import DeviceInv DeviceOps Invariant HandlersInv GatewayInv CloseInv EventsInv.
From S2P Require Import RouterSpec ProtoInv WorldFrames.

(** ** Events *)

(** The methods of the API that change something, with parsed parameters. *)
Inductive command : Type :=
| cmd_power_on (targets : list (list Z))
| cmd_power_off (targets : list (list Z))
| cmd_power_toggle (targets : list (list Z))
| cmd_set_light_from_hsbk (targets : list (list Z)) (hue saturation brightness kelvin transition : Z)
| cmd_set_waveform (targets : list (list Z)) (waveform : lgtd_lifx_waveform_type)
    (hue saturation brightness kelvin period cycles skew_ratio : Z) (transient : bool)
| cmd_tag (targets : list (list Z)) (label : list Z)
| cmd_untag (targets : list (list Z)) (label : list Z)
| cmd_set_label (targets : list (list Z)) (label : list Z).

Inductive event : Type :=
| ev_gateway (p : gw_ptr) (timeout : bool) (read : option (list recv_result)) (write : option write_result)
| ev_broadcast (timeout : bool) (read : option (list recv_result)) (write : option ifaddrs_result)
| ev_timer (t : timer_ptr)
| ev_watchdog
| ev_discovery
| ev_command (c : command)
| ev_shutdown.

Section Daemon.
Context {E : Endianness}.

Definition run_command (c : command) : M world reply :=
  match c with
  | cmd_power_on targets => lgtd_proto_power_on targets
  | cmd_power_off targets => lgtd_proto_power_off targets
  | cmd_power_toggle targets => lgtd_proto_power_toggle targets
  | cmd_set_light_from_hsbk targets h s b k t => lgtd_proto_set_light_from_hsbk targets h s b k t
  | cmd_set_waveform targets wf h s b k p c sk tr => lgtd_proto_set_waveform targets wf h s b k p c sk tr
  | cmd_tag targets label => lgtd_proto_tag targets label
  | cmd_untag targets label => lgtd_proto_untag targets label
  | cmd_set_label targets label => lgtd_proto_set_label targets label
  end.

(** The callback of an event. The timer of the discovery is not pending any more
    when it fires. *)
Definition run_event (e : event) : M world unit :=
  match e with
  | ev_gateway p timeout read write => lgtd_lifx_gateway_socket_event_callback timeout read write p
  | ev_broadcast timeout read write =>
    lgtd_lifx_broadcast_event_callback timeout read write ;; mret tt
  | ev_timer t => lgtd_timer_callback t
  | ev_watchdog => lgtd_lifx_discovery_watchdog_interval_callback
  | ev_discovery =>
    mmodify (set_w_discovery_ev None) ;; lgtd_lifx_discovery_timeout_event_callback
  | ev_command c => run_command c ;; mret tt
  | ev_shutdown => lgtd_lifx_gateway_close_all
  end.

(** ** What is asked of the environment *)

Definition command_ok (c : command) : Prop :=
  match c with
  | cmd_set_light_from_hsbk _ h s b k t =>
    0 <= h <= UINT16_MAX /\ 0 <= s <= UINT16_MAX /\ 0 <= b <= UINT16_MAX /\ 2500 <= k <= 9000 /\ 0 <= t
  | cmd_set_waveform _ wf h s b k p c sk _ =>
    wf <> LGTD_LIFX_WAVEFORM_INVALID /\ 0 <= h <= UINT16_MAX /\ 0 <= s <= UINT16_MAX
    /\ 0 <= b <= UINT16_MAX /\ 2500 <= k <= 9000 /\ 0 <= p /\ float_nonneg c = true
    /\ -32767 <= sk <= 32768
  | cmd_tag _ label => (length (cstr label) < LGTD_LIFX_LABEL_SIZE)%nat
  | _ => True
  end.

Definition armed (w : world) (p : gw_ptr) : Prop :=
  exists gw, w_gateways w !! p = Some gw /\ gw_socket_ev gw = true.

(** An event of a gateway or of a timer is for one that exists; a socket is
    writable for the gateway only while its event is added (it is read first
    when both happen), and [EAGAIN] is not returned then; datagrams are what a
    well-behaved network sends. The events of the broadcast endpoint are there while it is open. *)
Definition event_ok (w : world) (e : event) : Prop :=
  match e with
  | ev_gateway p timeout read write =>
    is_Some (w_gateways w !! p)
    /\ (forall rs, read = Some rs -> receive_ok rs (Some p) w)
    /\ (forall wr, write = Some wr -> wr <> write_EAGAIN
        /\ match read with
           | None => armed w p
           | Some rs => forall w', lgtd_lifx_wire_handle_receive rs (Some p) w = Ret true w' -> armed w' p
           end)
  | ev_broadcast timeout read write =>
    is_Some (w_broadcast_write_ev w) /\ forall rs, read = Some rs -> receive_ok rs None w
  | ev_timer t => is_Some (w_timers w !! t)
  | ev_command c => command_ok c
  | ev_watchdog | ev_discovery | ev_shutdown => True
  end.

(** ** Shutdown *)

Lemma wp_close_all w (Q : unit -> world -> Prop) :
  world_inv w ->
  (forall w', world_inv w' -> w_gateways w' = ∅ -> w_bulbs_table w' = ∅ -> Q tt w') ->
  wp lgtd_lifx_gateway_close_all Q w.
Proof.
  intros Hi HQ. unfold lgtd_lifx_gateway_close_all. apply wp_bind, wp_get.
  apply (wp_foreach (fun l w' => world_inv w' /\ w_gateway_list w' = l)); [done| |].
  - intros p l w1 [Hi1 Hl1]. assert (Hp : is_Some (w_gateways w1 !! p))
      by (apply (ri_list _ (wi_rest _ Hi1)); rewrite Hl1; by left).
    destruct Hp as [gw Hp]. eapply wp_gateway_close; [exact Hi1|exact Hp|].
    intros w2 Hi2 _ Hl2 _. split; [done|]. rewrite Hl2, Hl1.
    pose proof (ri_nodup _ (wi_rest _ Hi1)) as Hnd. rewrite Hl1 in Hnd. apply NoDup_cons in Hnd as [Hni _].
    rewrite filter_cons_False by naive_solver. by apply filter_ne_id.
  - intros w' [Hi' Hl']. assert (HG : w_gateways w' = ∅).
    { apply map_eq. intros p. rewrite lookup_empty. destruct (w_gateways w' !! p) eqn:Hp; [|done].
      assert (p ∈ w_gateway_list w') as Hin by (apply (ri_list _ (wi_rest _ Hi')); by eexists).
      rewrite Hl' in Hin. by apply elem_of_nil in Hin. }
    apply HQ; [done|done|]. apply map_eq. intros a. rewrite lookup_empty.
    destruct (w_bulbs_table w' !! a) as [b|] eqn:Hb; [|done].
    destruct (bulb_in_gateway w' a b _ _ (wi_devices _ Hi') Hb) as (gw & Hp & _). by rewrite HG in Hp.
Qed.

(** ** Sockets *)

(** From [w], in the course of an event that started in [w0]. *)
Definition inv_after {A} (w0 : world) (m : M world A) (w : world) : Prop := wpc (stops w0) m (fun _ w' => world_inv w') w.

Lemma inv_after_drop w0 w p :
  world_inv w -> gentle w0 w -> is_Some (w_gateways w !! p) -> inv_after w0 (drop_gw_and_restart_discovery p) w.
Proof.
  intros Hi H0 [gw Hp]. unfold drop_gw_and_restart_discovery. apply wpc_bind_wp, (wp_framed gentle); [frame|].
  eapply wp_gateway_close; [done|exact Hp|]. intros w1 Hi1 _ _ _ Hg1.
  apply wpc_bind, stops_of_closed, wpc_broadcast_discovery; [intros Hn; by apply (gn_endpoint _ _ H0), (gn_endpoint _ _ Hg1)|].
  intros ok rs. destruct ok; [|apply stops_exit]. apply wpc_ret. by apply world_inv_os, world_inv_broadcast.
Qed.

Lemma inv_after_gateway w p timeout read write :
  world_inv w -> event_ok w (ev_gateway p timeout read write) ->
  inv_after w (lgtd_lifx_gateway_socket_event_callback timeout read write p) w.
Proof.
  intros Hi (Hp & Hrd & Hwr). unfold lgtd_lifx_gateway_socket_event_callback.
  destruct timeout; [by apply inv_after_drop|].
  assert (Hwrite : forall w', world_inv w' -> gentle w w' -> is_Some (w_gateways w' !! p) ->
    (forall wr, write = Some wr -> wr <> write_EAGAIN /\ armed w' p) ->
    inv_after w (write_ok ← match write with Some wr => gateway_write p wr | None => mret true end;
               if negb write_ok then drop_gw_and_restart_discovery p else mret tt) w').
  { intros w' Hi' H0 Hp' Hw. destruct write as [wr|]; [|by apply wpc_bind_wp, wp_ret, wpc_ret].
    destruct (Hw wr eq_refl) as (Hne & gw & Hgw & Hev).
    apply wpc_bind_wp, (wp_framed gentle); [frame_all|]. eapply wp_mono.
    - apply (keeps_of_sends _ w' Hi'). eapply sends_gateway_write; [|exact Hgw|done|done].
      apply (dv_send _ _ _ (wi_devices _ Hi')).
    - intros ok w2 [Hi2 Hd2] Hg2. destruct ok; [by apply wpc_ret|].
      apply inv_after_drop; [done|by etransitivity|]. by eapply gateway_of_dom. }
  apply wpc_bind. destruct read as [rs|].
  - destruct Hp as [gw Hp]. apply wpc_bind_wp. eapply wp_get_gw; [exact Hp|].
    pose proof (grows_receive rs (Some p) w Hi (Hrd rs eq_refl)) as Hg. unfold grows, wpx at 1 in Hg. unfold wpc at 1.
    pose proof (gentle_receive rs (Some p) w) as Hg1.
    destruct (lgtd_lifx_wire_handle_receive rs (Some p) w) as [ok w1|[]]; [|done|done|apply stops_exit].
    destruct Hg as [Hi1 Hd1].
    assert (Hp1 : is_Some (w_gateways w1 !! p)) by (apply elem_of_dom, Hd1, elem_of_dom; by eexists).
    destruct ok; [|by apply inv_after_drop]. apply Hwrite; [done|done|done|].
    intros wr Hw. destruct (Hwr wr Hw) as [? Ha]. split; [done|]. by apply Ha.
  - apply wpc_ret. by apply Hwrite.
Qed.

(** Only a call that fails leaves the endpoint closed. *)
Lemma wp_setup_calls (Q : bool -> world -> Prop) w :
  (forall ok rs, spends (w_os_results w) rs (ok = false) -> Q ok (set_w_os_results rs w)) -> wp setup_calls Q w.
Proof.
  intros HQ. unfold setup_calls.
  assert (Hcall : forall rs (k : bool -> M world bool), spends (w_os_results w) rs False ->
    (forall b rs', spends (w_os_results w) rs' (b = false) -> wp (k b) Q (set_w_os_results rs' w)) ->
    wp (os_call ≫= k) Q (set_w_os_results rs w)).
  { intros rs k Hrs Hk. apply wp_bind, wp_os_call_results. intros b rs' Hrs'. apply (Hk b rs').
    eapply spends_imp; [|eapply spends_trans; [exact Hrs|exact Hrs']]. by right. }
  replace w with (set_w_os_results (w_os_results w) w) at 1 by (by destruct w).
  assert (Hgo : forall rs b, spends (w_os_results w) rs (b = false) -> b = true -> spends (w_os_results w) rs False)
    by (intros rs b H _; by eapply spends_imp; [|exact H]).
  assert (Hno : forall rs, spends (w_os_results w) rs (false = false) -> wp (mret false) Q (set_w_os_results rs w))
    by (intros rs H; by apply wp_ret, HQ).
  do 4 (apply Hcall; [apply spends_nothing || by eapply Hgo|]; intros [] ? ?; cbn [negb]; [|by apply Hno]).
  apply Hcall; [by eapply Hgo|]. intros rd r5 H5. apply wp_bind, wp_os_call_results. intros wr r6 H6. fields_in H6.
  pose proof (spends_trans _ _ _ _ _ H5 H6) as H56.
  destruct rd, wr; cbn [negb andb];
    try (apply wp_ret, (HQ false r6); eapply spends_imp; [|exact H56]; (by left) || by right).
  apply wp_os_call_results. intros ok r7 H7. apply (HQ ok r7). fields_in H7.
  eapply spends_imp; [|eapply spends_trans; [exact H56|exact H7]]. by right.
Qed.

(** The endpoint is open, or closed as it was. *)
Lemma wp_broadcast_setup (Q : bool -> world -> Prop) w :
  w_broadcast_write_ev w = None ->
  (forall ok rs, spends (w_os_results w) rs (ok = false) ->
     Q ok (set_w_broadcast_write_ev (if ok then Some false else None) (set_w_os_results rs w))) ->
  wp lgtd_lifx_broadcast_setup Q w.
Proof.
  intros Hev HQ. unfold lgtd_lifx_broadcast_setup. apply wp_bind, wp_get. apply wp_bind, wp_assert.
  { by apply bool_decide_eq_true. }
  apply wp_bind, wp_os_call_results. intros socket rs Hrs. destruct socket; cbn [negb].
  - apply wp_bind, wp_setup_calls. intros ok rs' Hrs'. fields_in Hrs'.
    assert (Hall : spends (w_os_results w) rs' (ok = false))
      by (eapply spends_imp; [|eapply spends_trans; [exact Hrs|exact Hrs']]; by right).
    destruct ok; apply wp_bind, wp_modify, wp_ret; [by apply (HQ true rs')|by apply (HQ false rs')].
  - apply wp_ret. specialize (HQ false rs Hrs). destruct w. cbn in Hev. by subst.
Qed.

(** After an event that started in [w0]: the endpoint is closed only if it was, or if a call failed. *)
Definition endpoint_lost (w0 w' : world) : Prop :=
  w_broadcast_write_ev w' = None -> w_broadcast_write_ev w0 = None \/ false ∈ w_os_results w0.

Lemma gentle_endpoint w0 w' : gentle w0 w' -> endpoint_lost w0 w'.
Proof. intros Hg Hn. left. by apply (gn_endpoint _ _ Hg). Qed.

(** [error_reset] leaves an endpoint that may be closed. *)
Lemma wp_broadcast_reset w0 w :
  world_inv w -> gentle w0 w -> wp broadcast_reset (fun _ w' => world_inv w' /\ endpoint_lost w0 w') w.
Proof.
  intros Hi H0. unfold broadcast_reset. apply wp_bind, wp_modify. apply wp_bind, wp_broadcast_setup; [done|].
  intros ok rs [_ Hrs]. apply wp_ret. fields_in Hrs. split.
  - pose proof (world_inv_os _ rs (world_inv_broadcast w (if ok then Some false else None) Hi)) as Hd. by destruct w.
  - intros Hn. right. eapply suffix_failed; [apply (gn_results _ _ H0)|]. apply Hrs. by destruct ok.
Qed.

(** An event of the broadcast endpoint. *)
Lemma wpx_broadcast_callback w timeout read write :
  world_inv w -> event_ok w (ev_broadcast timeout read write) ->
  wpx (lgtd_lifx_broadcast_event_callback timeout read write) (fun _ w' => world_inv w' /\ endpoint_lost w w') w.
Proof.
  intros Hi [Hopen Hok]. unfold lgtd_lifx_broadcast_event_callback.
  assert (Hreset : forall w' (l : list (list Z)), world_inv w' -> gentle w w' ->
    wpx (broadcast_reset ;; mret l) (fun _ w' => world_inv w' /\ endpoint_lost w w') w').
  { intros w' l Hi' Hg. apply wpx_bind_wp. eapply wp_mono; [by apply (wp_broadcast_reset w)|].
    intros u w'' Hw. by apply wpx_ret. }
  destruct timeout; [by apply Hreset|].
  assert (Hread : wpx (match read with
                       | Some rs => lgtd_lifx_wire_handle_receive rs None
                       | None => mret true
                       end) (fun _ w' => world_inv w' /\ gentle w w') w).
  { destruct read as [rs|]; [|by apply wpx_ret].
    pose proof (grows_receive rs None w Hi (Hok rs eq_refl)) as Hg. pose proof (gentle_receive rs None w) as Hg1.
    unfold grows, wpx in Hg |- *. destruct (lgtd_lifx_wire_handle_receive rs None w) as [ok w1|[]]; [|done..].
    split; [apply Hg|done]. }
  apply wpx_bind. eapply wpx_mono; [exact Hread|]. intros ok w1 [Hi1 Hg1].
  destruct ok; cbn [negb]; [|by apply Hreset].
  destruct write as [r|]; [|apply wpx_bind_wp, wp_ret, wpx_bind_wp, wp_ret, wpx_ret; split; [done|by apply gentle_endpoint]].
  apply wpx_bind. unfold lgtd_lifx_broadcast_handle_write. apply wpx_bind_wp, wp_get.
  apply wpx_bind_wp, wp_assert.
  { apply bool_decide_eq_true. pose proof (gn_endpoint _ _ Hg1) as He. destruct (w_broadcast_write_ev w1); [done|].
    rewrite (He eq_refl) in Hopen. by destruct Hopen. }
  destruct (lgtd_lifx_wire_get_packet_info (packet_type_value LGTD_LIFX_GET_PAN_GATEWAY)) as [info|] eqn:Hinfo;
    [|by vm_compute in Hinfo].
  destruct (setup_header_spec w1 (w_client_id w1) LGTD_LIFX_TARGET_ALL_DEVICES (target_tags 0)
    (replicate 8 0) None LGTD_LIFX_GET_PAN_GATEWAY info) as (h & Hh & _ & _ & _).
  - apply (sd_client_id _ (dv_send _ _ _ (wi_devices _ Hi1))).
  - exact Hinfo.
  - right. done.
  - done.
  - apply wpx_bind_wp. unfold wp. rewrite Hh. cbv zeta.
    destruct (bool_decide _).
    + apply wpx_bind_wp, wp_os_call. intros deleted rs. destruct deleted; [|apply wpx_exit].
      apply wpx_bind_wp, wp_modify, wpx_ret. apply wpx_bind_wp, wp_ret, wpx_ret. split; [|done].
      pose proof (world_inv_os _ rs (world_inv_broadcast w1 (Some false) Hi1)) as Hd. by destruct w1.
    + apply wpx_ret. by apply Hreset.
Qed.

(** ** Commands *)

Lemma keeps_command w c : world_inv w -> command_ok c -> keeps (run_command c) w.
Proof.
  intros Hi Hok. destruct c; cbn [run_command command_ok] in *.
  - apply keeps_route; [done|apply payload_power].
  - apply keeps_route; [done|apply payload_power].
  - by apply keeps_power_toggle.
  - destruct Hok as (? & ? & ? & ? & ?). by apply keeps_set_light_from_hsbk.
  - destruct Hok as (? & ? & ? & ? & ? & ? & ? & ?). by apply keeps_set_waveform.
  - by apply keeps_tag.
  - by apply keeps_untag.
  - by apply keeps_set_label.
Qed.

(** ** The discovery timer *)

Lemma world_inv_discovery w t ev : world_inv w -> world_inv (set_w_discovery_ev ev (set_w_discovery_timeout t w)).
Proof.
  intros [Hd Hr]. constructor; [by apply (device_ok_same w)|]. destruct Hr. by constructor.
Qed.

Definition next_timeout (w : world) : Z :=
  if bool_decide (w_gateway_list w = []) then LGTD_LIFX_DISCOVERY_ACTIVE_DISCOVERY_INTERVAL_MSECS
  else Z.min (w_discovery_timeout w * 2) LGTD_LIFX_DISCOVERY_PASSIVE_DISCOVERY_INTERVAL_MSECS.

Lemma wpc_discovery_callback w :
  world_inv w ->
  wpc (stops w) lgtd_lifx_discovery_timeout_event_callback
    (fun _ w' => world_inv w' /\ w_gateways w' = w_gateways w
       /\ w_discovery_timeout w' = next_timeout w /\ w_discovery_ev w' = Some (next_timeout w)
       /\ w_broadcast_write_ev w' = Some true) w.
Proof.
  intros Hi. unfold lgtd_lifx_discovery_timeout_event_callback. apply wpc_bind_wp, wp_modify.
  fold (next_timeout w). apply wpc_bind_wp, wp_os_call. intros added rs.
  destruct added; cbn [negb]; [|apply stops_exit]. apply wpc_bind_wp, wp_modify. fields.
  pose proof (world_inv_discovery _ (next_timeout w) (Some (next_timeout w)) (world_inv_os _ rs Hi)) as Hi1.
  apply wpc_bind, stops_of_closed, wpc_broadcast_discovery; [done|]. intros ok rs'. destruct ok; [|apply stops_exit].
  apply wpc_ret. split; [|by destruct w]. apply world_inv_os, world_inv_broadcast. by destruct w.
Qed.

(** ** Every event *)

Lemma gentle_command c : framed gentle (run_command c).
Proof. destruct c; cbn [run_command]; frame_all. Qed.
#[local] Hint Resolve gentle_command : frames.

(** No event but the one of the endpoint itself closes the endpoint. *)
Lemma gentle_event e : (forall timeout read write, e <> ev_broadcast timeout read write) -> framed gentle (run_event e).
Proof. intros He. destruct e; [| |..]; cbn [run_event]; try (exfalso; by eapply He); frame_all. Qed.

Lemma inv_after_event w e : world_inv w -> event_ok w e -> inv_after w (run_event e) w.
Proof.
  intros Hi Hok. unfold inv_after. destruct e as [p timeout read write|timeout read write|t| | |c|]; cbn [run_event].
  - by apply inv_after_gateway.
  - apply wpc_bind, wpc_of_wpx; [apply stops_exit|]. eapply wpx_mono; [by apply wpx_broadcast_callback|].
    intros l w' [? _]. by apply wpc_ret.
  - apply wpc_of_wp. eapply wp_mono; [by apply keeps_timer_callback|]. by intros _ w' [? _].
  - by apply stops_of_closed, wpc_watchdog.
  - apply wpc_bind_wp, wp_modify.
    pose proof (world_inv_discovery w (w_discovery_timeout w) None Hi) as Hi1.
    eapply wpc_mono; [apply (wpc_discovery_callback (set_w_discovery_ev None w)); by destruct w|]. by intros _ w' [? _].
  - apply wpc_bind_wp. eapply wp_mono; [by apply keeps_command|]. intros r w' [? _]. by apply wpc_ret.
  - apply wpc_of_wp, wp_close_all; done.
Qed.

Lemma event_endpoint w e w' :
  world_inv w -> event_ok w e -> run_event e w = Ret tt w' -> endpoint_lost w w'.
Proof.
  intros Hi Hok Hrun.
  assert (Hcase : (exists timeout read write, e = ev_broadcast timeout read write)
    \/ forall timeout read write, e <> ev_broadcast timeout read write)
    by (destruct e; try (by right); left; by eexists _, _, _).
  destruct Hcase as [(timeout & read & write & ->)|He].
  - pose proof (wpx_broadcast_callback w timeout read write Hi Hok) as Hw. cbn [run_event] in Hrun.
    unfold wpx in Hw. unfold mbind, M_bind in Hrun.
    destruct (lgtd_lifx_broadcast_event_callback timeout read write w) as [l w1|]; [|done]. injection Hrun as <-. apply Hw.
  - by apply gentle_endpoint, (framed_run _ _ _ _ _ (gentle_event e He) Hrun).
Qed.

(** ** Reachable states *)

(** Between two events anything may be decided about the calls to come and the
    time that will pass. *)
Definition environment (rs : list bool) (ds : list Z) (w : world) : world :=
  set_w_clock ds (set_w_os_results rs w).

Lemma world_inv_environment rs ds w : world_inv w -> world_inv (environment rs ds w).
Proof.
  intros Hi. apply (world_inv_os _ rs) in Hi. destruct Hi as [Hd Hr].
  constructor; [by apply (device_ok_same (set_w_os_results rs w))|]. destruct Hr. by constructor.
Qed.

(** The state when [lgtd_lifx_broadcast_setup] and the rest of the setup are
    done: no gateway is known. *)
Definition initial_world (client_id now : Z) : world :=
  {| w_gateways := ∅; w_gateway_list := []; w_bulbs_table := ∅; w_tags := ∅; w_tag_list := [];
     w_timers := ∅;
     w_counters := {| stats_gateways := 0; stats_bulbs := 0; stats_bulbs_powered_on := 0; stats_clients := 0 |};
     w_broadcast_write_ev := Some false; w_watchdog_pending := false;
     w_discovery_timeout := LGTD_LIFX_DISCOVERY_ACTIVE_DISCOVERY_INTERVAL_MSECS; w_discovery_ev := None;
     w_client_id := client_id; w_now := now; w_os_results := []; w_clock := [] |}.

Lemma world_inv_initial client_id now :
  client_id <> 0 -> 0 < now < 2 ^ 64 -> world_inv (initial_world client_id now).
Proof.
  intros Hc Hn. constructor.
  - by constructor; [constructor|..].
  - constructor; cbn; try done.
    + constructor.
    + intros p. rewrite elem_of_nil, lookup_empty. split; [done|by intros [? ?]].
    + constructor; try done.
      * constructor.
      * intros t. rewrite elem_of_nil, lookup_empty. split; [done|by intros [? ?]].
Qed.

Inductive reachable : world -> Prop :=
| reachable_initial client_id now :
    client_id <> 0 -> 0 < now < 2 ^ 64 -> reachable (initial_world client_id now)
| reachable_step w rs ds e w' :
    reachable w -> event_ok (environment rs ds w) e ->
    run_event e (environment rs ds w) = Ret tt w' ->
    reachable w'.

Lemma reachable_inv w : reachable w -> world_inv w.
Proof.
  induction 1 as [client_id now Hc Hn|w rs ds e w' _ IH Hok Hrun]; [by apply world_inv_initial|].
  pose proof (inv_after_event _ e (world_inv_environment rs ds w IH) Hok) as Hw. unfold inv_after, wpc in Hw.
  by rewrite Hrun in Hw.
Qed.
End Daemon.
