(* ===== verification/Example.v ===== *)
(** * A small network

    One gateway announces itself, its bulb reports its state and the gateway
    names a tag. The state this leads to is computed, and shown to be reachable:
    it is where the theorems about reachable states are tried out. *)

From Stdlib Require Import ZArith Lia.
From stdpp Require Import base tactics list gmap.
From S2P Require Import Prelude CLib WireBits PacketInfo WireProto World Tagging GatewayQueue.
From S2P Require Import BulbTable Router Bulb Gateway Discovery Proto QueueSpec TagsInv SendSpec.
From S2P Require Import DeviceInv DeviceOps Invariant HandlersInv GatewayInv CloseInv EventsInv.
From S2P Require Import RouterSpec ProtoInv Daemon.

#[local] Existing Instance little.

(** ** The datagrams *)

Definition example_site : list Z := [0xd0; 0x73; 0xd5; 1; 2; 3].
Definition example_bulb : addr := [0xd0; 0x73; 0xd5; 1; 2; 4].
Definition example_peer : list Z := [2; 0; 0xdd; 0x7c; 192; 168; 1; 10; 0; 0; 0; 0; 0; 0; 0; 0].

Definition label_of (s : list Z) : list Z := s ++ replicate (32 - length s) 0.
Definition room : list Z := [114; 111; 111; 109].
Definition kitchen : list Z := [107; 105; 116; 99; 104; 101; 110].

(** A packet from a device, in a buffer whose end is left from earlier. *)
Definition datagram (ptype : lgtd_lifx_packet_type) (payload : list Z) : recv_result :=
  let size := 36 + Z.of_nat (length payload) in
  recv_datagram size
    (wire_header size 7 false (example_bulb ++ [0; 0]) example_site (packet_type_value ptype) ++ payload
     ++ replicate (read_size - Z.to_nat size) 0) example_peer.

Definition pan_gateway_datagram : recv_result := datagram LGTD_LIFX_PAN_GATEWAY [2; 0x7c; 0xdd; 0; 0].
Definition light_status_datagram : recv_result :=
  datagram LGTD_LIFX_LIGHT_STATUS
    (light_status_bytes {| ls_hue := 0; ls_saturation := 0; ls_brightness := 0xffff; ls_kelvin := 3500;
       ls_dim := 0; ls_power := 0xffff; ls_label := label_of kitchen; ls_tags := 2 |}).
Definition tag_labels_datagram : recv_result :=
  datagram LGTD_LIFX_TAG_LABELS (tag_labels_bytes {| tl_tags := 2; tl_label := label_of room |}).

(** ** The states *)

Definition world_after (e : event) (w : world) : world :=
  match run_event e w with
  | Ret _ w' => w'
  | Crash _ => w
  end.

Definition receive (d : recv_result) : event := ev_broadcast false (Some [d]) None.

Definition example_start : world := initial_world 0x2a 1000.
Definition example_gateway : world := world_after (receive pan_gateway_datagram) (environment [] [] example_start).
Definition example_lit : world := world_after (receive light_status_datagram) (environment [] [] example_gateway).
Definition example_world : world := world_after (receive tag_labels_datagram) (environment [] [] example_lit).

(** ** They are reachable *)

Definition is_ret {S A} (o : outcome S A) : bool :=
  match o with Ret _ _ => true | Crash _ => false end.

Lemma world_after_run e w : is_ret (run_event e w) = true -> run_event e w = Ret tt (world_after e w).
Proof. unfold world_after. by destruct (run_event e w) as [[]|]. Qed.

Definition bytes_ok (n : nat) (bs : list Z) : bool :=
  (length bs =? n)%nat && forallb (fun b => (0 <=? b) && (b <? 256)) bs.

Lemma bytes_ok_spec n bs : bytes_ok n bs = true -> is_bytes n bs.
Proof.
  intros [Hl%Nat.eqb_eq Hb]%andb_true_iff. split; [done|]. apply Forall_forall. intros b Hin.
  apply list_elem_of_In in Hin. pose proof (proj1 (forallb_forall _ _) Hb b Hin) as [H1 H2]%andb_true_iff.
  apply Z.leb_le in H1. apply Z.ltb_lt in H2. unfold is_byte. lia.
Qed.

(** Receiving one datagram on the broadcast endpoint. *)
Lemma receive_event_ok w nbytes buf info :
  bytes_ok read_size buf = true ->
  lgtd_lifx_wire_get_packet_info
    (hdr_packet_type (lgtd_lifx_wire_decode_header (header_of_bytes buf))) = Some info ->
  (forall p g, w_gateways w !! p = Some g ->
     handler_ok w p (pi_handle info) (lgtd_lifx_wire_decode_header (header_of_bytes buf))
       (packet_decode (pi_decode info) (drop 36 buf))) ->
  is_Some (w_broadcast_write_ev w) ->
  event_ok w (receive (recv_datagram nbytes buf example_peer)).
Proof.
  intros Hb Hinfo Hok Hopen. split; [exact Hopen|]. intros rs [= <-]. cbn [receive_ok]. split; [|intros w' _; exact I]. constructor.
  - by apply bytes_ok_spec.
  - intros p Hp. discriminate Hp.
  - intros info' hdr Hinfo'. unfold hdr in Hinfo'. rewrite Hinfo in Hinfo'. injection Hinfo' as <-.
    constructor; [discriminate|intros p Hp; discriminate Hp|]. intros p g Hp _. by apply (Hok p g).
Qed.

Lemma step_example e w :
  reachable w -> event_ok (environment [] [] w) e -> is_ret (run_event e (environment [] [] w)) = true ->
  reachable (world_after e (environment [] [] w)).
Proof. intros Hr Hok Hret. eapply (reachable_step w [] [] e); [done|done|by apply world_after_run]. Qed.

Ltac found_info :=
  match goal with
  | |- lgtd_lifx_wire_get_packet_info ?t = _ =>
    let v := eval vm_compute in (lgtd_lifx_wire_get_packet_info t) in
    match v with Some ?i => exact (eq_refl (Some i) <: lgtd_lifx_wire_get_packet_info t = Some i) end
  end.

Lemma unique_bit (tags k : Z) :
  tag_bits tags = [k] -> forall i j, i ∈ tag_bits tags -> j ∈ tag_bits tags -> i = j.
Proof. intros -> i j ->%list_elem_of_singleton ->%list_elem_of_singleton. done. Qed.

Lemma lookup_of_empty {A} (m : gmap positive A) k x : m = ∅ -> m !! k = Some x -> False.
Proof. intros ->. by rewrite lookup_empty. Qed.

Lemma reachable_example_start : reachable example_start.
Proof. apply reachable_initial; [discriminate|lia]. Qed.

Lemma reachable_example_gateway : reachable example_gateway.
Proof.
  apply step_example; [apply reachable_example_start| |by vm_compute].
  eapply receive_event_ok; [by vm_compute|found_info| |by eexists; vm_compute]. intros p g _. exact I.
Qed.

Lemma gateways_of_example_gateway p g :
  w_gateways example_gateway !! p = Some g -> (length (gw_bulbs g) < 255)%nat.
Proof.
  intros Hp. assert (Hall : bool_decide (map_Forall (fun _ g => (length (gw_bulbs g) < 255)%nat)
    (w_gateways example_gateway)) = true) by (by vm_compute).
  apply bool_decide_eq_true in Hall. by apply (Hall p g).
Qed.

Lemma reachable_example_lit : reachable example_lit.
Proof.
  apply step_example; [apply reachable_example_gateway| |by vm_compute].
  eapply receive_event_ok; [by vm_compute|found_info| |by eexists; vm_compute]. intros p g Hp. right.
  split; [|vm_compute; discriminate]. exists g. split; [exact Hp|]. by apply (gateways_of_example_gateway p).
Qed.

Lemma reachable_example_world : reachable example_world.
Proof.
  apply step_example; [apply reachable_example_lit| |by vm_compute].
  eapply receive_event_ok; [by vm_compute|found_info| |by eexists; vm_compute]. intros p g _. right. split.
  - intros i _ _ j t tag _ Ht. assert (Hnone : w_tags (environment [] [] example_lit) = ∅) by (by vm_compute).
    destruct (lookup_of_empty _ t tag Hnone Ht).
  - intros i j Hi Hj _ _. refine (unique_bit _ 1 _ i j Hi Hj). by vm_compute.
Qed.
