(* ===== verification/SafetyThms.v ===== *)
(** * What holds of the daemon

    The theorems about every state the daemon reaches and about the operations
    that open, close and watch gateways. Each one comes with an instance on the
    network of [Example]. *)

From Stdlib Require Import ZArith Lia.
From stdpp Require Import base tactics list gmap.
From S2P Require Import Prelude CLib WireBits PacketInfo WireProto World Tagging GatewayQueue.
From S2P Require Import BulbTable Router Bulb Gateway Discovery Proto QueueSpec TagsInv SendSpec.
From S2P Require Import DeviceInv DeviceOps Invariant HandlersInv GatewayInv CloseInv EventsInv.
From S2P Require Import WorldFrames RouterSpec ProtoInv Daemon Example.

(** ** Values of the types of the C structs *)

(** The bounds the C compiler gives the fields of a gateway: the lengths of its
    arrays, the indexes of its ring and the widths of its integers. *)
Record gateway_typed (gw : lgtd_lifx_gateway) : Prop := {
  gt_site : length (gw_site gw) = LGTD_LIFX_ADDR_LENGTH;
  gt_tag_ids : 0 <= gw_tag_ids gw < 2 ^ 64;
  gt_tags : Z.of_nat (length (gw_tags gw)) = LGTD_LIFX_GATEWAY_MAX_TAGS;
  gt_refcounts : Z.of_nat (length (gw_tag_refcounts gw)) = LGTD_LIFX_GATEWAY_MAX_TAGS;
  gt_refcount : forall i n, gw_tag_refcounts gw !! i = Some n -> 0 <= n < 2 ^ 8;
  gt_ring : length (gw_pkt_ring gw) = LGTD_LIFX_GATEWAY_PACKET_RING_SIZE;
  gt_head : (gw_pkt_ring_head gw < LGTD_LIFX_GATEWAY_PACKET_RING_SIZE)%nat;
  gt_tail : (gw_pkt_ring_tail gw < LGTD_LIFX_GATEWAY_PACKET_RING_SIZE)%nat
}.

(** A bulb is kept at the key of its address, and its power is one of the two
    values of [enum lgtd_lifx_power_state]. *)
Record bulb_typed (a : addr) (b : lgtd_lifx_bulb) : Prop := {
  bt_addr : bulb_addr b = a /\ length a = LGTD_LIFX_ADDR_LENGTH;
  bt_tags : 0 <= ls_tags (bulb_state b) < 2 ^ 64;
  bt_power : ls_power (bulb_state b) = LGTD_LIFX_POWER_OFF
             \/ ls_power (bulb_state b) = LGTD_LIFX_POWER_ON;
  bt_ips : length (bulb_ips b) = 2%nat
}.

(** A label ends in its 32 bytes and the ids of a tag index the arrays of 64
    cells of the gateways of its sites. *)
Record tag_typed (w : world) (tag : lgtd_lifx_tag) : Prop := {
  tt_label : (length (cstr (tag_label tag)) < LGTD_LIFX_LABEL_SIZE)%nat;
  tt_sites : forall s, s ∈ tag_sites tag ->
    0 <= site_tag_id s < LGTD_LIFX_GATEWAY_MAX_TAGS /\ is_Some (w_gateways w !! site_gw s)
}.

Lemma gateway_typed_inv (w : world) (p : gw_ptr) (gw : lgtd_lifx_gateway) :
  world_inv w -> w_gateways w !! p = Some gw -> gateway_typed gw.
Proof.
  intros [[Hs Hc _ _ _] Hrest] Hp.
  destruct (Hc p gw Hp) as [_ Hb Hl Hr], (ri_tag_ids _ Hrest p gw Hp) as [Htl Htr _].
  destruct (sd_gateways _ Hs p gw Hp) as [[q Hq] Hsite].
  constructor; rewrite ?Htl, ?Hl; try done; try apply Hq; [|rewrite (qr_head _ _ Hq); apply Nat.mod_upper_bound; by vm_compute].
  intros i n Hi. assert (i < 64)%nat by (rewrite <- Hl; by eapply lookup_lt_Some).
  assert (Hn : 0 <= Z.of_nat i < 64) by lia. pose proof (Hr _ Hn) as He. rewrite Nat2Z.id, Hi in He.
  injection He as ->.
  pose proof (tag_count_nonneg (tags_of (w_bulbs_table w)) (gw_bulbs gw) (Z.of_nat i)). lia.
Qed.

Lemma bulb_typed_inv (w : world) (a : addr) (b : lgtd_lifx_bulb) :
  world_inv w -> w_bulbs_table w !! a = Some b -> bulb_typed a b.
Proof.
  intros [[_ _ [Hok _ _] _ _] _] Hb. destruct (Hok a b Hb). by constructor.
Qed.

Lemma tag_typed_inv (w : world) (t : tag_ptr) (tag : lgtd_lifx_tag) :
  world_inv w -> w_tags w !! t = Some tag -> tag_typed w tag.
Proof.
  intros [_ Hrest] Ht. pose proof (ri_tags _ Hrest) as Hti. constructor; [by eapply ti_label|].
  intros s Hs. destruct (ti_sites _ _ _ Hti t tag s Ht Hs) as (i & Hi & -> & Hc). cbn [mk_site site_tag_id site_gw].
  split; [unfold LGTD_LIFX_GATEWAY_MAX_TAGS; lia|].
  unfold cell in Hc. cbn [mk_site site_gw] in Hc. by destruct (w_gateways w !! _).
Qed.

Lemma example_inv : @world_inv example_world.
Proof. exact (@reachable_inv little _ reachable_example_world). Qed.

(** The gateway of the example is the second block that was allocated. *)
Lemma example_gateway_there : is_Some (w_gateways example_world !! 2%positive).
Proof. apply (bool_decide_eq_true _). by vm_compute. Qed.

Lemma example_bulb_there : is_Some (w_bulbs_table example_world !! example_bulb).
Proof. apply (bool_decide_eq_true _). by vm_compute. Qed.



(** C3: in every state the daemon reaches the counters are exact: the reference
    count of a tag id on a gateway is the number of bulbs of the gateway that
    have the id, [lgtd_counters] has the numbers of gateways, of bulbs and of
    bulbs that are on, and a bulb is in the list of its own gateway, once, and
    in no other. *)
Theorem reachable_counts {E : Endianness} (w : world) (Hr : reachable w) :
  (forall p gw i, w_gateways w !! p = Some gw -> 0 <= i < 64 ->
     gw_tag_refcounts gw !! Z.to_nat i = Some (tag_count (tags_of (w_bulbs_table w)) (gw_bulbs gw) i))
  /\ stats_gateways (w_counters w) = Z.of_nat (size (w_gateways w))
  /\ stats_bulbs (w_counters w) = Z.of_nat (size (w_bulbs_table w))
  /\ stats_bulbs_powered_on (w_counters w) = power_count (power_of (w_bulbs_table w)) (w_bulbs_table w)
  /\ (forall p gw a, w_gateways w !! p = Some gw ->
        a ∈ gw_bulbs gw <-> exists b, w_bulbs_table w !! a = Some b /\ bulb_gw b = p)
  /\ (forall p gw, w_gateways w !! p = Some gw -> NoDup (gw_bulbs gw)).
Proof.
  destruct (reachable_inv w Hr) as [[_ Hc [_ Hgw Hbs] Hfound Hon] Hrest]. split_and!.
  - intros p gw i Hp Hi. by apply (gc_refcounts _ _ (Hc p gw Hp)).
  - apply (ri_found _ Hrest).
  - done.
  - done.
  - intros p gw a Hp. split; [by apply Hbs|]. intros (b & Hb & <-).
    destruct (Hgw a b Hb) as (gw' & Hp' & Hin). congruence.
  - intros p gw Hp. apply (gc_nodup _ _ (Hc p gw Hp)).
Qed.

Lemma reachable_counts_witness :
  reachable (E := little) example_world
  /\ stats_bulbs_powered_on (w_counters example_world)
     = power_count (power_of (w_bulbs_table example_world)) (w_bulbs_table example_world)
  /\ stats_bulbs_powered_on (w_counters example_world) = 1.
Proof.
  split; [exact reachable_example_world|]. split; [|by vm_compute].
  apply (@reachable_counts little example_world reachable_example_world).
Defined.

(** C4: in every state the daemon reaches the tags and the gateways agree: a bit
    of [tag_ids] is set when its cell of [tags] points to a tag, which is then
    in the list and has a site with that gateway and that id, and every site of
    a tag is such a cell; two tags never share a label, and a tag has at most
    one id per gateway. *)
Theorem reachable_tags {E : Endianness} (w : world) (Hr : reachable w) :
  (forall p gw i, w_gateways w !! p = Some gw -> (i < 64)%nat ->
     Z.testbit (gw_tag_ids gw) (Z.of_nat i) = true <-> is_Some (cell (w_gateways w) p i))
  /\ (forall p i t, cell (w_gateways w) p i = Some t ->
        exists tag, w_tags w !! t = Some tag /\ t ∈ w_tag_list w /\ mk_site p i ∈ tag_sites tag)
  /\ (forall t tag s, w_tags w !! t = Some tag -> s ∈ tag_sites tag ->
        exists i, s = mk_site (site_gw s) i /\ cell (w_gateways w) (site_gw s) i = Some t)
  /\ (forall t t' tag tag', w_tags w !! t = Some tag -> w_tags w !! t' = Some tag' ->
        strcmp_eq (tag_label tag) (tag_label tag') = true -> t = t')
  /\ (forall t p i j, cell (w_gateways w) p i = Some t -> cell (w_gateways w) p j = Some t -> i = j).
Proof.
  destruct (reachable_inv w Hr) as [_ Hrest]. pose proof (ri_tags _ Hrest) as Ht. split_and!.
  - intros p gw i Hp Hi. rewrite (tio_bits _ (ri_tag_ids _ Hrest p gw Hp) i Hi). unfold cell. by rewrite Hp.
  - intros p i t Hc. destruct (ti_cells _ _ _ Ht p i t Hc) as (_ & tag & Htag & Hs). exists tag.
    split_and!; [done|apply (ti_list _ _ _ Ht); by eexists|done].
  - intros t tag s Htag Hs. destruct (ti_sites _ _ _ Ht t tag s Htag Hs) as (i & _ & ? & ?). by exists i.
  - intros t t' tag tag' Htag Htag' Hl%bool_decide_eq_true. by eapply (ti_labels _ _ _ Ht).
  - intros t p i j Hci Hcj. destruct (ti_cells _ _ _ Ht p i t Hci) as (_ & tag & Htag & Hsi).
    destruct (ti_cells _ _ _ Ht p j t Hcj) as (_ & tag' & Htag' & Hsj).
    assert (tag' = tag) as -> by congruence.
    pose proof (ti_sites_nodup _ _ _ Ht t tag Htag) as Hnd.
    pose proof (find_site_elem _ _ Hnd Hsi) as Hfi. pose proof (find_site_elem _ _ Hnd Hsj) as Hfj.
    cbn [mk_site site_gw] in Hfi, Hfj. rewrite Hfi in Hfj. injection Hfj. lia.
Qed.

Lemma reachable_tags_witness :
  exists t tag, cell (w_gateways example_world) 2 1 = Some t
    /\ w_tags example_world !! t = Some tag /\ t ∈ w_tag_list example_world /\ mk_site 2 1 ∈ tag_sites tag.
Proof.
  destruct (@reachable_tags little example_world reachable_example_world) as (_ & Hcell & _).
  assert (Hc : cell (w_gateways example_world) 2 1 = Some 2%positive) by (by vm_compute).
  exists 2%positive. destruct (Hcell 2%positive 1%nat 2%positive Hc) as (tag & Htag). exists tag.
  split; [exact Hc|exact Htag].
Defined.

(** C15: in every state the daemon reaches the fields of gateways, bulbs and tags
    have values of their C types: the arrays of a gateway keep their declared
    lengths and its ring indexes stay inside them, tag words fit 64 bits and
    reference counts one byte, addresses and sites have 6 bytes, a bulb is on or
    off, a label ends within its 32 bytes and every tag id in use indexes a cell
    of a gateway that is open; and any event handled from there that returns
    gives such values again. *)
Theorem reachable_typed {E : Endianness} (w : world) (Hr : reachable w) :
  let typed w :=
    (forall p gw, w_gateways w !! p = Some gw -> gateway_typed gw)
    /\ (forall a b, w_bulbs_table w !! a = Some b -> bulb_typed a b)
    /\ (forall t tag, w_tags w !! t = Some tag -> tag_typed w tag) in
  typed w
  /\ (forall rs ds e w', event_ok (environment rs ds w) e ->
        run_event e (environment rs ds w) = Ret tt w' -> typed w').
Proof.
  intros typed.
  assert (Ht : forall w, world_inv w -> typed w).
  { intros w1 Hi. split_and!; intros;
      [by eapply gateway_typed_inv|by eapply bulb_typed_inv|by eapply tag_typed_inv]. }
  split; [by apply Ht, reachable_inv|]. intros rs ds e w' Hok Hrun. apply Ht.
  pose proof (inv_after_event _ e (world_inv_environment rs ds w (reachable_inv w Hr)) Hok) as Hw.
  unfold inv_after, wpc in Hw. by rewrite Hrun in Hw.
Qed.

Lemma reachable_typed_witness :
  exists gw b, w_gateways example_world !! 2%positive = Some gw /\ gateway_typed gw
    /\ w_bulbs_table example_world !! example_bulb = Some b /\ bulb_typed example_bulb b.
Proof.
  destruct (@reachable_typed little example_world reachable_example_world) as ((Hg & Hb & _) & _).
  destruct example_gateway_there as [gw Hgw], example_bulb_there as [b Hbb]. exists gw, b.
  split_and!; [exact Hgw|exact (Hg _ _ Hgw)|exact Hbb|exact (Hb _ _ Hbb)].
Defined.

(** C16: closing a gateway leaves the invariant true: the gateway is gone from
    the memory and from the list, exactly its bulbs are gone with it, the
    others stay, its refresh timer does not fire any more and no tag refers to
    it; the broadcast endpoint stays open if it was. *)
Theorem gateway_close_correct (w : world) (p : gw_ptr) (gw : lgtd_lifx_gateway)
    (Hi : world_inv w) (Hp : w_gateways w !! p = Some gw) :
  exists w', lgtd_lifx_gateway_close p w = Ret tt w' /\ world_inv w'
    /\ dom (w_gateways w') = dom (w_gateways w) ∖ {[p]}
    /\ w_gateway_list w' = filter (fun q => q <> p) (w_gateway_list w)
    /\ dom (w_bulbs_table w') = dom (w_bulbs_table w) ∖ list_to_set (gw_bulbs gw)
    /\ (forall t tag s, w_tags w' !! t = Some tag -> s ∈ tag_sites tag -> site_gw s <> p)
    /\ (forall t tm, w_timers w' !! t = Some tm -> timer_ctx tm <> ctx_as_ptr p)
    /\ (is_Some (w_broadcast_write_ev w) -> is_Some (w_broadcast_write_ev w')).
Proof.
  assert (Hwp : wp (lgtd_lifx_gateway_close p) (fun _ w' => world_inv w'
    /\ dom (w_gateways w') = dom (w_gateways w) ∖ {[p]}
    /\ w_gateway_list w' = filter (fun q => q <> p) (w_gateway_list w)
    /\ dom (w_bulbs_table w') = dom (w_bulbs_table w) ∖ list_to_set (gw_bulbs gw)) w)
    by (eapply wp_gateway_close; [done|exact Hp|intros; by split_and!]).
  pose proof (gentle_gateway_close p w) as Hgentle.
  unfold wp in Hwp. destruct (lgtd_lifx_gateway_close p w) as [[] w'|]; [|done].
  destruct Hwp as (Hi' & Hdom & Hl & Hb). exists w'. split_and!; try done.
  - intros t tag s Ht Hs Hsp. destruct (ti_sites _ _ _ (ri_tags _ (wi_rest _ Hi')) t tag s Ht Hs) as (i & _ & _ & Hc).
    unfold cell in Hc. destruct (w_gateways w' !! site_gw s) eqn:Hg; [|done]. rewrite Hsp in Hg.
    assert (p ∈ dom (w_gateways w')) by (apply elem_of_dom; by eexists). set_solver.
  - intros t tm Ht Hctx. destruct (ri_timers _ (wi_rest _ Hi') t tm Ht) as [[_ (n & Hn & _)]|(q & g & [_ Hq] & Hg & _)].
    + congruence.
    + assert (q = p) as -> by congruence.
      assert (p ∈ dom (w_gateways w')) by (apply elem_of_dom; by eexists). set_solver.
  - rewrite <- !not_eq_None_Some. intros Hopen Hn. by apply Hopen, (gn_endpoint _ _ Hgentle).
Qed.

Lemma gateway_close_correct_witness :
  exists w', lgtd_lifx_gateway_close 2 example_world = Ret tt w' /\ world_inv w'
    /\ dom (w_gateways w') = dom (w_gateways example_world) ∖ {[2%positive]}.
Proof.
  destruct example_gateway_there as [gw Hp].
  destruct (gateway_close_correct example_world 2 gw example_inv Hp) as (w' & Hrun & Hi & Hdom & _).
  exists w'. split; [exact Hrun|]. split; [exact Hi|exact Hdom].
Defined.

(** Closing all the gateways leaves no gateway, no bulb, no refresh timer
    and no site in any tag. *)
Theorem gateway_close_all_correct (w : world) (Hi : world_inv w) :
  exists w', lgtd_lifx_gateway_close_all w = Ret tt w' /\ w_gateways w' = ∅ /\ w_gateway_list w' = []
    /\ w_bulbs_table w' = ∅
    /\ (forall t tag, w_tags w' !! t = Some tag -> tag_sites tag = [])
    /\ (forall t tm, w_timers w' !! t = Some tm -> hardware_timer tm)
    /\ stats_gateways (w_counters w') = 0 /\ stats_bulbs (w_counters w') = 0
    /\ stats_bulbs_powered_on (w_counters w') = 0.
Proof.
  assert (Hwp : wp lgtd_lifx_gateway_close_all
    (fun _ w' => world_inv w' /\ w_gateways w' = ∅ /\ w_bulbs_table w' = ∅) w)
    by (apply wp_close_all; [done|intros; by split_and!]).
  unfold wp in Hwp. destruct (lgtd_lifx_gateway_close_all w) as [[] w'|]; [|done].
  destruct Hwp as ([Hd Hr] & HG & HB). exists w'. split_and!; try done.
  - destruct (w_gateway_list w') as [|p l] eqn:Hl; [done|].
    assert (is_Some (w_gateways w' !! p)) as [? Hp] by (apply (ri_list _ Hr); rewrite Hl; by left).
    by rewrite HG in Hp.
  - intros t tag Ht. destruct (tag_sites tag) as [|s l] eqn:Hs; [done|].
    destruct (ti_sites _ _ _ (ri_tags _ Hr) t tag s Ht ltac:(rewrite Hs; by left)) as (i & _ & _ & Hc).
    unfold cell in Hc. by rewrite HG in Hc.
  - intros t tm Ht. destruct (ri_timers _ Hr t tm Ht) as [|(q & g & _ & Hg & _)]; [done|]. by rewrite HG in Hg.
  - by rewrite (ri_found _ Hr), HG.
  - by rewrite (dv_found _ _ _ Hd), HB.
  - rewrite (dv_on _ _ _ Hd), HB. unfold power_count. by rewrite dom_empty_L.
Qed.

Lemma gateway_close_all_correct_witness :
  exists w', lgtd_lifx_gateway_close_all example_world = Ret tt w' /\ w_bulbs_table w' = ∅
    /\ stats_bulbs (w_counters example_world) = 1 /\ stats_bulbs (w_counters w') = 0.
Proof.
  destruct (gateway_close_all_correct example_world example_inv)
    as (w' & Hrun & _ & _ & Hb & _ & _ & _ & Hs & _).
  exists w'. split; [exact Hrun|]. split; [exact Hb|]. split; [by vm_compute|exact Hs].
Defined.

(** C23: the watchdog closes every bulb whose last state is at least 20 seconds
    old when it starts, opens nothing, and leaves the invariant true and the
    broadcast endpoint, which it may use to look for devices again, open. *)
Theorem watchdog_correct (w : world) (Hi : world_inv w) (Hev : is_Some (w_broadcast_write_ev w)) :
  exists t w1 w', lgtd_time_monotonic_msecs w = Ret t w1
    /\ lgtd_lifx_discovery_watchdog_interval_callback w = Ret tt w' /\ world_inv w'
    /\ is_Some (w_broadcast_write_ev w')
    /\ dom (w_gateways w') ⊆ dom (w_gateways w)
    /\ (forall a, is_Some (w_bulbs_table w' !! a) ->
          exists b, w_bulbs_table w !! a = Some b
            /\ i32 (u64 (t - bulb_last_light_state_at b)) < LGTD_LIFX_DISCOVERY_DEVICE_TIMEOUT_MSECS).
Proof.
  assert (Hwp : wp lgtd_lifx_discovery_watchdog_interval_callback (fun _ w' => exists t w1,
    lgtd_time_monotonic_msecs w = Ret t w1 /\ world_inv w' /\ dom (w_gateways w') ⊆ dom (w_gateways w)
    /\ (forall a, is_Some (w_bulbs_table w' !! a) ->
          exists b, w_bulbs_table w !! a = Some b /\ stale t b = false)) w)
    by (apply (wp_of_wpc (endpoint_closed w));
        [intros c [_ Hn]; rewrite Hn in Hev; by destruct Hev|]; apply wpc_watchdog; [done|]; intros w' t ds Ht ? ? ?; by exists t, (set_w_clock ds (set_w_now t w))).
  assert (Hf : framed gentle lgtd_lifx_discovery_watchdog_interval_callback) by frame_all.
  pose proof (Hf w) as Hgentle.
  unfold wp in Hwp. destruct (lgtd_lifx_discovery_watchdog_interval_callback w) as [[] w'|]; [|done].
  destruct Hwp as (t & w1 & Ht & Hi' & Hdom & Hb). exists t, w1, w'. split_and!; try done.
  { revert Hev. rewrite <- !not_eq_None_Some. intros Hopen Hn. by apply Hopen, (gn_endpoint _ _ Hgentle). }
  intros a Ha. destruct (Hb a Ha) as (b & Hw & Hs). exists b. split; [done|]. by apply Z.leb_gt in Hs.
Qed.

Lemma watchdog_correct_witness :
  exists w', lgtd_lifx_discovery_watchdog_interval_callback (environment [] [30000] example_world)
    = Ret tt w' /\ world_inv w'.
Proof.
  destruct (watchdog_correct (environment [] [30000] example_world)
    (world_inv_environment _ _ _ example_inv) ltac:(by eexists; vm_compute)) as (t & w1 & w' & _ & Hrun & Hi & _).
  exists w'. split; [exact Hrun|exact Hi].
Defined.

(** ** Where the code stops short of its intent

    Runs of the daemon from a reachable state that end in a failed assertion,
    each after one datagram any host of the network can send: [event_ok] asks the
    network not to send these. *)

#[local] Existing Instance little.

(** The status of a light whose address is all zeros. *)
Definition null_address_datagram : recv_result :=
  let payload := light_status_bytes {| ls_hue := 0; ls_saturation := 0; ls_brightness := 0; ls_kelvin := 3500;
    ls_dim := 0; ls_power := 0; ls_label := label_of kitchen; ls_tags := 0 |} in
  let size := 36 + Z.of_nat (length payload) in
  recv_datagram size
    (wire_header size 7 false (replicate 8 0) example_site (packet_type_value LGTD_LIFX_LIGHT_STATUS) ++ payload
     ++ replicate (read_size - Z.to_nat size) 0) example_peer.

(** Two tag ids in one message, which then get the same label. *)
Definition two_ids_datagram : recv_result :=
  datagram LGTD_LIFX_TAG_LABELS (tag_labels_bytes {| tl_tags := 6; tl_label := label_of room |}).

Definition null_address_world : world :=
  world_after (receive null_address_datagram) (environment [] [] example_gateway).

(** Two packets that stop the daemon. A light whose address is all zeros is
    opened like any other, but the timer that asks for its hardware keeps the
    address as a number and takes zero for a missing context: its first tick fails
    an assertion. A TAG_LABELS packet with two tag ids gives both of them its label;
    the second one finds the tag with a site for this gateway already and fails an
    assertion. *)
Theorem packets_crash :
  (reachable example_gateway
   /\ run_event (receive null_address_datagram) (environment [] [] example_gateway) = Ret tt null_address_world
   /\ bool_decide (is_Some (w_bulbs_table null_address_world !! replicate 6 0)) = true
   /\ run_event (ev_timer 3) null_address_world = Crash AssertFailed)
  /\ reachable example_lit
  /\ run_event (receive two_ids_datagram) (environment [] [] example_lit) = Crash AssertFailed.
Proof.
  split; [split; [exact reachable_example_gateway|]|split; [exact reachable_example_lit|by vm_compute]].
  split; [apply world_after_run; by vm_compute|]. split; by vm_compute.
Qed.
