(* ===== verification/SendThms.v ===== *)
(** * What the daemon sends

    Theorems about the packets that leave the daemon: the router and the
    commands of clients put the packets of the protocol in the queues of the
    gateways, and the socket callback takes them out in order. *)

From Stdlib Require Import ZArith Lia ZifyNat.
From stdpp Require Import base tactics list gmap.
From S2P Require Import Prelude CLib WireBits PacketInfo WireProto World Tagging GatewayQueue.
From S2P Require Import BulbTable Router Bulb Gateway Discovery Proto QueueSpec TagsInv SendSpec.
From S2P Require Import DeviceInv DeviceOps Invariant HandlersInv GatewayInv CloseInv EventsInv.
From S2P Require Import RouterSpec RouteSpec ProtoInv Daemon Example.

Ltac Zify.zify_post_hook ::= Z.div_mod_to_equations.

(** The invariant of a reachable state gives every gateway a queue. *)
Lemma queue_of_gateway w p gw : world_inv w -> w_gateways w !! p = Some gw -> exists q, queue_repr gw q.
Proof. intros Hi Hp. apply (sd_gateways _ (dv_send _ _ _ (wi_devices _ Hi)) p gw Hp). Qed.

(** C2: the router refines its specification: it ends normally, says whether
    every target is valid, and puts in the queue of each gateway exactly the
    packets of the protocol the targets come to there, in their order (the ones
    a full ring has no room for are lost); the broadcast endpoint is not touched. *)
Theorem router_send_refines {E : Endianness} (w : world) (targets : list (list Z))
    (ptype : lgtd_lifx_packet_type) (info : lgtd_lifx_packet_info) (pkt : option (list Z))
    (Hi : world_inv w) (Hpkt : payload_for ptype pkt)
    (Hinfo : lgtd_lifx_wire_get_packet_info (packet_type_value ptype) = Some info) :
  exists w', lgtd_router_send targets ptype pkt w = Ret (forallb (target_valid w) targets) w'
    /\ world_inv w' /\ w_broadcast_write_ev w' = w_broadcast_write_ev w
    /\ forall p gw q, w_gateways w !! p = Some gw -> queue_repr gw q ->
         exists gw', w_gateways w' !! p = Some gw'
           /\ queue_repr gw' (push_all (command_packets w info pkt targets p) q).
Proof.
  pose proof (pushes_router_send targets w ptype info pkt Hi Hpkt Hinfo) as Hw. clear Hinfo. unfold pushes, wp in Hw.
  destruct (lgtd_router_send targets ptype pkt w) as [ok w'|]; [|done]. destruct Hw as (Hf & Hs & Hq & ->).
  exists w'. split_and!; [done|by eapply world_inv_send|apply (sf_broadcast _ _ _ _ Hf)|]. intros p gw q Hp Hr.
  destruct (gateway_after _ _ _ _ _ _ Hf Hp) as (gw' & Hp' & _). exists gw'. split; [done|]. by eapply Hq.
Qed.

Lemma router_send_refines_witness :
  exists info w', lgtd_lifx_wire_get_packet_info (packet_type_value LGTD_LIFX_SET_POWER_STATE) = Some info
    /\ @lgtd_router_send little [ASCII_STAR] LGTD_LIFX_SET_POWER_STATE
         (Some (@power_state_bytes little {| ps_power := LGTD_LIFX_POWER_ON |})) example_world = Ret true w'
    /\ forall gw q, w_gateways example_world !! 2%positive = Some gw -> queue_repr gw q ->
         exists gw', w_gateways w' !! 2%positive = Some gw'
           /\ queue_repr gw' (queue_push (wire_packet (w_client_id example_world) info true (replicate 8 0) (gw_site gw)
                (payload_bytes info (Some (@power_state_bytes little {| ps_power := LGTD_LIFX_POWER_ON |})))) q).
Proof.
  destruct (payload_for_info _ _ (@payload_power little LGTD_LIFX_POWER_ON)) as (info & Hinfo & _).
  destruct (@router_send_refines little example_world [ASCII_STAR] LGTD_LIFX_SET_POWER_STATE info _
    (@reachable_inv little _ reachable_example_world) (@payload_power little LGTD_LIFX_POWER_ON) Hinfo) as (w' & Hrun & _ & _ & Hq).
  exists info, w'. split; [exact Hinfo|]. split; [exact Hrun|]. intros gw q Hp Hr.
  destruct (Hq _ gw q Hp Hr) as (gw' & Hp' & Hr'). exists gw'. split; [exact Hp'|].
  unfold command_packets, target_packets in Hr'. cbn [mbind list_bind] in Hr'. rewrite Hp in Hr'. exact Hr'.
Defined.

(** C8: the devices of a command are exactly the bulbs its targets select, each
    once, whatever the order and the repetitions of the targets; only a failed
    allocation ends the call without a list, and nothing else changes. *)
Theorem targets_to_devices_correct {E : Endianness} (w : world) (targets : list (list Z)) (Hi : world_inv w) :
  exists r rs, lgtd_router_targets_to_devices targets w = Ret r (set_w_os_results rs w)
    /\ (forall l, r = Some l -> selection w targets l)
    /\ (r = None -> false ∈ w_os_results w).
Proof.
  assert (Hw : wp (lgtd_router_targets_to_devices targets) (fun r w' => exists rs, w' = set_w_os_results rs w
    /\ (forall l, r = Some l -> selection w targets l) /\ (r = None -> false ∈ w_os_results w)) w).
  { apply wp_targets_to_devices; [done|intros rs [_ Hrs]|intros rs l _ Hnd Hl]; exists rs.
    - split_and!; [done|done|]. intros _. by apply Hrs.
    - split_and!; [done| |done]. intros l' [= <-]. by split. }
  unfold wp in Hw. destruct (lgtd_router_targets_to_devices targets w) as [r w'|]; [|done].
  destruct Hw as (rs & -> & ?). by exists r, rs.
Qed.

Lemma targets_to_devices_correct_witness :
  exists r rs, @lgtd_router_targets_to_devices little [ASCII_STAR; ASCII_STAR] example_world
    = Ret r (set_w_os_results rs example_world)
    /\ (forall l, r = Some l -> @selection little example_world [ASCII_STAR; ASCII_STAR] l).
Proof.
  destruct (@targets_to_devices_correct little example_world [ASCII_STAR; ASCII_STAR]
    (@reachable_inv little _ reachable_example_world)) as (r & rs & Hrun & Hl & _).
  exists r, rs. split; [exact Hrun|exact Hl].
Defined.

(** C5: the write side of the socket callback refines the queue: of a queue that
    is not empty it takes the bytes the socket accepted from the first packet,
    which leaves the queue when it is complete; an error other than [EAGAIN]
    changes nothing. *)
Theorem gateway_write_refines (w : world) (p : gw_ptr) (gw : lgtd_lifx_gateway) (pkt : packet)
    (q : list packet) (wr : write_result)
    (Hp : w_gateways w !! p = Some gw) (Hq : queue_repr gw (pkt :: q)) (Hwr : wr <> write_EAGAIN) :
  match wr with
  | write_ok n => exists gw' w', gateway_write p wr w = Ret true w' /\ w_gateways w' = <[p := gw']> (w_gateways w)
      /\ queue_repr gw' (queue_write (Nat.min n (length (packet_bytes pkt))) (pkt :: q))
      /\ gw_write_buf gw = take (Nat.min n (length (packet_bytes pkt))) (packet_bytes pkt) ++ gw_write_buf gw'
  | _ => gateway_write p wr w = Ret false w
  end.
Proof.
  assert (Hw : wp (gateway_write p wr) (fun r w' =>
    match wr with
    | write_ok n => r = true /\ exists gw', w_gateways w' = <[p := gw']> (w_gateways w)
        /\ queue_repr gw' (queue_write (Nat.min n (length (packet_bytes pkt))) (pkt :: q))
    | _ => r = false /\ w' = w
    end) w).
  { eapply wp_gateway_write; [done..| |].
    - intros ->. done.
    - intros n t ds gw' -> _ _ _ _ Hq'. split; [done|]. by exists gw'. }
  unfold wp in Hw. destruct (gateway_write p wr w) as [r w'|]; destruct wr as [n| |]; try done.
  - destruct Hw as (-> & gw' & Hg & Hq'). exists gw', w'. split_and!; try done.
    rewrite (qr_bytes _ _ Hq), (qr_bytes _ _ Hq'). unfold queue_write. case Nat.leb_spec; intros Hle; cbn.
    + rewrite take_ge by lia. done.
    + rewrite app_assoc, take_drop. done.
  - by destruct Hw as [-> ->].
Qed.

(** The gateway of the example has a packet to write. *)
Lemma example_queue :
  exists gw pkt q, w_gateways example_world !! 2%positive = Some gw /\ queue_repr gw (pkt :: q).
Proof.
  destruct (w_gateways example_world !! 2%positive) as [gw|] eqn:Hp; [|by vm_compute in Hp].
  destruct (queue_of_gateway _ _ _ (@reachable_inv little _ reachable_example_world) Hp) as [[|pkt q] Hq];
    [|exists gw, pkt, q; exact (conj eq_refl Hq)].
  assert (Hev : (gw_socket_ev <$> w_gateways example_world !! 2%positive) = Some true) by (by vm_compute).
  rewrite Hp in Hev. injection Hev as Hev. rewrite (qr_event _ _ Hq) in Hev. done.
Qed.

Lemma gateway_write_refines_witness :
  exists gw gw' pkt q w', w_gateways example_world !! 2%positive = Some gw /\ queue_repr gw (pkt :: q)
    /\ gateway_write 2 (write_ok 7) example_world = Ret true w'
    /\ queue_repr gw' (queue_write (Nat.min 7 (length (packet_bytes pkt))) (pkt :: q)).
Proof.
  destruct example_queue as (gw & pkt & q & Hp & Hq).
  destruct (gateway_write_refines example_world 2 gw pkt q (write_ok 7) Hp Hq ltac:(discriminate))
    as (gw' & w' & Hrun & _ & Hq' & _).
  exists gw, gw', pkt, q, w'. split; [exact Hp|]. split; [exact Hq|]. split; [exact Hrun|exact Hq'].
Defined.

(** The sizes in the ring add up to the bytes in the buffer. *)
Lemma same_messages_same_bytes q1 : forall q2,
  packet_message <$> q1 = packet_message <$> q2 ->
  length (mjoin (packet_bytes <$> q1)) = length (mjoin (packet_bytes <$> q2)).
Proof.
  induction q1 as [|[ty bs] q1 IH]; intros [|[ty' bs'] q2] Hm; try done.
  rewrite !fmap_cons in Hm. unfold packet_message at 1 3 in Hm. injection Hm as _ Hlen Hm. cbn [packet_type packet_bytes] in *.
  specialize (IH q2 Hm). cbn [fmap list_fmap mjoin list_join packet_bytes] in *. rewrite !length_app.
  apply (f_equal2 Nat.add); [lia|exact IH].
Qed.

(** A ring whose first size does not match what is left of its buffer stands for
    no queue. *)
Lemma queue_repr_wrong_size gw gw' pkt q n :
  queue_repr gw (pkt :: q) -> n <> Z.of_nat (length (packet_bytes pkt)) ->
  gw_pkt_ring gw' = <[gw_pkt_ring_tail gw := {| msg_type := packet_type pkt; msg_size := n |}]> (gw_pkt_ring gw) ->
  gw_pkt_ring_head gw' = gw_pkt_ring_head gw -> gw_pkt_ring_tail gw' = gw_pkt_ring_tail gw ->
  gw_pkt_ring_full gw' = gw_pkt_ring_full gw -> gw_write_buf gw' = gw_write_buf gw ->
  forall q', ~ queue_repr gw' q'.
Proof.
  intros [Hr Hl Ht Hh Hf Hm Hb _ _] Hn Er Eh Et Ef Eb q' [_ Hl' _ Hh' Hf' Hm' Hb' _ _].
  rewrite Eh, Et in *. rewrite Ef in Hf'. rewrite Er in Hm'. rewrite Eb in Hb'.
  assert (Hlen : length q' = length (pkt :: q)).
  { rewrite Hh in Hh'. rewrite Hf in Hf'. unfold LGTD_LIFX_GATEWAY_PACKET_RING_SIZE in *.
    revert Hf'. do 2 case Nat.eqb_spec; intros; try done; try lia. }
  destruct q' as [|pkt' q']; [done|].
  pose proof (Hm' 0%nat pkt' eq_refl) as H0. unfold LGTD_LIFX_GATEWAY_PACKET_RING_SIZE in *.
  rewrite Nat.add_0_r, Nat.mod_small, list_lookup_insert_eq in H0 by lia. injection H0 as _ Hsz.
  assert (Hrest : packet_message <$> q' = packet_message <$> q).
  { apply list_eq_same_length with (length q'); rewrite ?length_fmap; [by injection Hlen|done|].
    intros k m1 m2 Hk. rewrite !list_lookup_fmap. intros (k1 & Hk1 & ->)%fmap_Some (k2 & Hk2 & ->)%fmap_Some.
    pose proof (Hm' (S k) k1 Hk1) as H1. cbn [length] in Hlen, Hl.
    rewrite list_lookup_insert_ne in H1 by lia. rewrite (Hm (S k) k2 Hk2) in H1. congruence. }
  apply same_messages_same_bytes in Hrest. rewrite Hb in Hb'. apply (f_equal length) in Hb'.
  cbn [fmap list_fmap mjoin list_join] in Hb'. rewrite !length_app in Hb'.
  assert (length (packet_bytes pkt') = length (packet_bytes pkt)); [|lia].
  eapply Nat.add_cancel_r. etransitivity; [|symmetry; exact Hb']. f_equal. symmetry. exact Hrest.
Qed.

(** On [EAGAIN] the callback still subtracts the -1 it got from the size of
    the first message, which then never comes down to zero with its bytes: the
    ring stands for no queue any more. *)
Theorem gateway_write_eagain (w : world) (p : gw_ptr) (gw : lgtd_lifx_gateway) (pkt : packet) (q : list packet)
    (Hp : w_gateways w !! p = Some gw) (Hq : queue_repr gw (pkt :: q)) :
  exists w' gw', gateway_write p write_EAGAIN w = Ret true w' /\ w_gateways w' !! p = Some gw'
    /\ gw_write_buf gw' = gw_write_buf gw
    /\ gw_pkt_ring gw' !! gw_pkt_ring_tail gw'
       = Some {| msg_type := packet_type pkt; msg_size := Z.of_nat (length (packet_bytes pkt)) + 1 |}
    /\ forall q', ~ queue_repr gw' q'.
Proof.
  assert (Hw : wp (gateway_write p write_EAGAIN) (fun r w' => r = true /\ exists gw', w_gateways w' !! p = Some gw'
    /\ gw_pkt_ring gw' = <[gw_pkt_ring_tail gw := {| msg_type := packet_type pkt;
         msg_size := Z.of_nat (length (packet_bytes pkt)) + 1 |}]> (gw_pkt_ring gw)
    /\ gw_pkt_ring_head gw' = gw_pkt_ring_head gw /\ gw_pkt_ring_tail gw' = gw_pkt_ring_tail gw
    /\ gw_pkt_ring_full gw' = gw_pkt_ring_full gw /\ gw_write_buf gw' = gw_write_buf gw) w).
  { unfold gateway_write. apply wp_bind. eapply wp_get_gw; [done|]. cbv beta.
    pose proof Hq as [_ _ Ht _ _ Hm _ _ _]. apply wp_bind, wp_assert; [by apply Nat.ltb_lt|].
    pose proof (Hm 0%nat pkt eq_refl) as Hm0. rewrite Nat.add_0_r, Nat.mod_small in Hm0 by done.
    apply wp_bind. eapply wp_deref; [done|]. cbv zeta.
    apply wp_bind. eapply wp_upd_gw; [done|]. apply wp_bind. eapply wp_upd_gw; [apply gw_put_lookup|].
    rewrite gw_put_put. apply wp_bind, wp_time. intros t ds _.
    assert (Hput : forall g, set_w_clock ds (set_w_now t (gw_put p g w)) = gw_put p g (set_w_clock ds (set_w_now t w)))
      by (intros g; by destruct w).
    rewrite Hput. apply wp_bind. eapply wp_upd_gw; [apply gw_put_lookup|]. rewrite gw_put_put.
    apply wp_bind. eapply wp_upd_gw; [apply gw_put_lookup|]. rewrite gw_put_put.
    apply wp_bind. eapply wp_get_gw; [apply gw_put_lookup|]. cbv beta.
    set (g := set_gw_next_req_at _ _).
    assert (Hg : gw_pkt_ring g !! gw_pkt_ring_tail g = Some (packet_message pkt)) by (unfold g; fields; done).
    destruct (ring_pop_fields (-1) g _ Hg) as (Er & Eh & Et & Ef & Eb & _).
    cbn [packet_message msg_size msg_type] in *.
    assert (Hz : (Z.of_nat (length (packet_bytes pkt)) - -1 =? 0) = false) by (apply Z.eqb_neq; lia).
    rewrite Hz in *. replace (Z.of_nat (length (packet_bytes pkt)) - -1)
      with (Z.of_nat (length (packet_bytes pkt)) + 1) in * by lia.
    rewrite bool_decide_eq_false_2.
    2:{ rewrite Eb. unfold g. fields. rewrite drop_0, (qr_bytes _ _ Hq). simpl.
        pose proof (qr_nonempty _ _ Hq) as [Hne _]%Forall_cons. destruct (packet_bytes pkt); done. }
    apply wp_bind, wp_ret, wp_ret. split; [done|]. eexists. split; [apply gw_put_lookup|].
    rewrite Er, Eh, Et, Ef, Eb. unfold g. fields. by rewrite drop_0. }
  unfold wp in Hw. destruct (gateway_write p write_EAGAIN w) as [r w'|]; [|done].
  destruct Hw as (-> & gw' & Hp' & Er & Eh & Et & Ef & Eb). exists w', gw'. split_and!; [done|done|done| |].
  - rewrite Er, Et. apply list_lookup_insert_eq. rewrite (qr_ring _ _ Hq). apply (qr_tail _ _ Hq).
  - eapply queue_repr_wrong_size; [exact Hq| |exact Er|done..]. lia.
Qed.

Lemma gateway_write_eagain_witness :
  exists w' gw', gateway_write 2 write_EAGAIN example_world = Ret true w'
    /\ w_gateways w' !! 2%positive = Some gw' /\ forall q', ~ queue_repr gw' q'.
Proof.
  destruct example_queue as (gw & pkt & q & Hp & Hq).
  destruct (gateway_write_eagain example_world 2 gw pkt q Hp Hq) as (w' & gw' & Hrun & Hp' & _ & _ & Hno).
  exists w', gw'. split; [exact Hrun|]. split; [exact Hp'|exact Hno].
Defined.
