(* ===== verification/QueueLive.v ===== *)
(** * The queue of a gateway drains

    The write side of the socket callback, called by the event loop as long as the event of the gateway asks for
    it and the socket is writable: what was put in the queue leaves, in order, whatever the sizes of the writes, as
    long as the socket is writable again and again. *)

From Stdlib Require Import ZArith Lia String.
From stdpp Require Import base tactics list gmap.
From S2P Require Import Prelude CLib WireBits PacketInfo WireProto World Tagging GatewayQueue.
From S2P Require Import BulbTable Router Bulb Gateway Discovery Proto QueueSpec TagsInv SendSpec.
From S2P Require Import DeviceInv DeviceOps Invariant HandlersInv GatewayInv CloseInv EventsInv.
From S2P Require Import RouterSpec ProtoInv Daemon Example SendThms.

Section Drain.
Context {E : Endianness} (p : gw_ptr).

(** A turn of the event loop for the gateway: when its write event is there and its socket is writable the callback runs,
    and the socket accepts at most [n] bytes, which are returned; with [n] zero the socket is not writable and the
    callback does not run (a write the system refuses with [EAGAIN] is the subject of [gateway_write_eagain]). *)
Definition write_turn (n : nat) : M world (list Z) :=
  gw ← get_gw p;
  if gw_socket_ev gw && (0 <? n)%nat then
    lgtd_lifx_gateway_socket_event_callback false None (Some (write_ok n)) p ;;
    gw' ← get_gw p;
    mret (take (length (gw_write_buf gw) - length (gw_write_buf gw')) (gw_write_buf gw))
  else mret [].

(** [accepted i] is what the socket takes at the turn [i]. *)
Fixpoint write_turns (accepted : nat -> nat) (i n : nat) : M world (list Z) :=
  match n with
  | O => mret []
  | S n => sent ← write_turn (accepted i); rest ← write_turns accepted (S i) n; mret (sent ++ rest)
  end.

(** The gateway has the queue [q] to write. *)
Definition has_queue (q : list packet) (w : world) : Prop :=
  exists gw, w_gateways w !! p = Some gw /\ queue_repr gw q.

Definition queue_bytes (q : list packet) : list Z := mjoin (packet_bytes <$> q).

(** What [n] bytes of the first packet are. *)
Definition first_bytes (n : nat) (q : list packet) : list Z :=
  match q with [] => [] | pkt :: _ => take n (packet_bytes pkt) end.

Lemma queue_bytes_write n q : queue_bytes q = first_bytes n q ++ queue_bytes (queue_write n q).
Proof.
  destruct q as [|pkt q]; [done|]. unfold queue_bytes, queue_write, first_bytes. cbn. case Nat.leb_spec; intros Hle; cbn.
  - by rewrite take_ge by lia.
  - by rewrite app_assoc, take_drop.
Qed.

(** The bytes of a turn: no more than the first packet. *)
Definition clip (n : nat) (q : list packet) : nat :=
  match q with [] => 0 | pkt :: _ => Nat.min n (length (packet_bytes pkt)) end.

Lemma queue_write_zero q : Forall (fun pkt => packet_bytes pkt <> []) q -> queue_write 0 q = q.
Proof.
  destruct q as [|[ty bs] q]; [done|]. intros [Hne _]%Forall_cons. unfold queue_write. cbn in *. by destruct bs.
Qed.

Lemma wp_write_turn n q w (Q : list Z -> world -> Prop) :
  has_queue q w ->
  (forall w', has_queue (queue_write (clip n q) q) w' -> Q (first_bytes (clip n q) q) w') -> wp (write_turn n) Q w.
Proof.
  intros (gw & Hp & Hq) HQ. unfold write_turn. apply wp_bind. eapply wp_get_gw; [done|]. cbv beta.
  rewrite (qr_event _ _ Hq). destruct q as [|pkt q]; cbn [length Nat.eqb negb andb].
  { apply wp_ret, HQ. by exists gw. }
  destruct (Nat.ltb_spec 0 n) as [Hn|Hn].
  2:{ assert (n = 0%nat) as -> by lia. apply wp_ret, HQ. cbn [clip Nat.min]. rewrite queue_write_zero; [by exists gw|].
      apply (qr_nonempty _ _ Hq). }
  apply wp_bind. unfold lgtd_lifx_gateway_socket_event_callback. apply wp_bind, wp_ret. cbn [negb].
  apply wp_bind. eapply wp_gateway_write; [done..| |]; [done|]. intros n' t ds gw' [= <-] _ _ _ _ Hq'. cbn [negb]. apply wp_ret.
  apply wp_bind. eapply wp_get_gw; [apply gw_put_lookup|]. cbv beta. apply wp_ret.
  assert (Hbytes : queue_bytes (pkt :: q) = first_bytes (clip n (pkt :: q)) (pkt :: q) ++ queue_bytes (queue_write (clip n (pkt :: q)) (pkt :: q)))
    by apply queue_bytes_write.
  rewrite (qr_bytes _ _ Hq), (qr_bytes _ _ Hq'). fold (queue_bytes (pkt :: q)).
  change (mjoin (packet_bytes <$> queue_write ?k ?l)) with (queue_bytes (queue_write k l)).
  change (Nat.min n (length (packet_bytes pkt))) with (clip n (pkt :: q)). rewrite Hbytes at 1. rewrite length_app, Nat.add_sub.
  rewrite Hbytes, take_app_length. apply HQ. exists gw'. split; [apply gw_put_lookup|exact Hq'].
Qed.

Lemma queue_write_less n q :
  (0 < n)%nat -> q <> [] -> Forall (fun pkt => packet_bytes pkt <> []) q ->
  (length (queue_bytes (queue_write (clip n q) q)) < length (queue_bytes q))%nat.
Proof.
  intros Hn Hq Hne. rewrite (queue_bytes_write (clip n q) q), length_app. destruct q as [|pkt q]; [done|].
  apply Forall_cons in Hne as [Hpkt _]. cbn [first_bytes clip]. rewrite length_take. destruct (packet_bytes pkt); [done|]. cbn [length]. lia.
Qed.

Lemma has_queue_nonempty q w : has_queue q w -> Forall (fun pkt => packet_bytes pkt <> []) q.
Proof. intros (gw & _ & Hq). apply (qr_nonempty _ _ Hq). Qed.

(** Nothing leaves an empty queue. *)
Lemma write_turns_idle accepted n : forall i w, has_queue [] w -> write_turns accepted i n w = Ret [] w.
Proof.
  induction n as [|n IH]; intros i w Hw; [done|]. cbn [write_turns]. destruct Hw as (gw & Hp & Hq).
  assert (Hturn : write_turn (accepted i) w = Ret [] w).
  { unfold write_turn. rewrite (run_bind _ _ _ gw w); [by rewrite (qr_event _ _ Hq)|]. unfold get_gw, mbind, M_bind, mget. by rewrite Hp. }
  rewrite (run_bind _ _ _ _ _ Hturn). rewrite (run_bind _ _ _ [] w); [done|]. apply IH. by exists gw.
Qed.

(** A turn, and the ones after it. *)
Lemma write_turns_step accepted i w q :
  has_queue q w ->
  exists w', has_queue (queue_write (clip (accepted i) q) q) w'
    /\ forall n rest w'', write_turns accepted (S i) n w' = Ret rest w'' ->
       write_turns accepted i (S n) w = Ret (first_bytes (clip (accepted i) q) q ++ rest) w''.
Proof.
  intros Hw. destruct (wp_run (write_turn (accepted i))
    (fun sent w' => sent = first_bytes (clip (accepted i) q) q /\ has_queue (queue_write (clip (accepted i) q) q) w') w)
    as (sent & w' & Hrun & -> & Hw'); [by apply (wp_write_turn (accepted i) q)|].
  exists w'. split; [done|]. intros n rest w'' Hrest. cbn [write_turns]. rewrite (run_bind _ _ _ _ _ Hrun). by rewrite (run_bind _ _ _ _ _ Hrest).
Qed.

(** The socket is writable, and accepts something, again and again. *)
Definition fair (accepted : nat -> nat) : Prop := forall i, exists j, (i <= j)%nat /\ (0 < accepted j)%nat.

(** The queue is empty from some turn on, and all of its bytes left. *)
Definition drained (accepted : nat -> nat) (i : nat) (q : list packet) (w : world) : Prop :=
  exists n w', has_queue [] w' /\ forall m, (n <= m)%nat -> write_turns accepted i m w = Ret (queue_bytes q) w'.

(** A turn that leaves less to write is enough. *)
Lemma drained_step accepted i q w :
  has_queue q w -> (forall w', has_queue (queue_write (clip (accepted i) q) q) w' ->
    drained accepted (S i) (queue_write (clip (accepted i) q) q) w') -> drained accepted i q w.
Proof.
  intros Hw Hnext. destruct (write_turns_step accepted i w q Hw) as (w' & Hw' & Hstep).
  destruct (Hnext w' Hw') as (n & w'' & Hw'' & Hrun). exists (S n), w''. split; [done|]. intros [|m] Hm; [lia|].
  rewrite (Hstep m (queue_bytes (queue_write (clip (accepted i) q) q)) w''); [by rewrite <- queue_bytes_write|]. apply Hrun. lia.
Qed.

Lemma fair_drains accepted : fair accepted -> forall b q i w, (length (queue_bytes q) <= b)%nat -> has_queue q w -> drained accepted i q w.
Proof.
  intros Hfair b. induction b as [b IH] using lt_wf_ind. intros q i w Hb Hw.
  destruct q as [|pkt q].
  { exists 0%nat, w. split; [done|]. intros m _. by apply write_turns_idle. }
  destruct (Hfair i) as (j & Hij & Hj). remember (j - i)%nat as d eqn:Hd. revert i w Hd Hij Hw.
  induction d as [|d IHd]; intros i w Hd Hij Hw; apply drained_step; [done| |done|]; intros w' Hw'.
  1: assert (i = j) as -> by lia. 2: destruct (decide (accepted i = 0%nat)) as [Hz|Hz].
  2: { rewrite Hz, queue_write_zero in * by (by eapply has_queue_nonempty). apply IHd; [lia| |done]. lia. }
  all: refine (IH _ _ _ _ _ (Nat.le_refl _) Hw');
    eapply Nat.lt_le_trans; [|exact Hb]; apply queue_write_less; [lia|done|by eapply has_queue_nonempty].
Qed.
End Drain.

(** C14: what is queued for a gateway is sent. Whatever the queue and the number of bytes the socket accepts each time it is writable
    (the callback runs at no other time, and a write then neither fails nor ends in [EAGAIN]), if the socket is writable again
    and again then after a finite number of turns of the event loop exactly the bytes of the queued packets have left,
    in order, and from then on the queue is empty, the write event is not asked for and nothing more is sent. *)
Theorem queue_drains {E : Endianness} (p : gw_ptr) (accepted : nat -> nat) (w : world) (gw : lgtd_lifx_gateway) (q : list packet)
    (Hp : w_gateways w !! p = Some gw) (Hq : queue_repr gw q) (Hfair : fair accepted) :
  exists n w' gw', w_gateways w' !! p = Some gw' /\ queue_repr gw' [] /\ gw_socket_ev gw' = false
    /\ forall m, (n <= m)%nat -> write_turns p accepted 0 m w = Ret (gw_write_buf gw) w'.
Proof.
  destruct (fair_drains p accepted Hfair (length (queue_bytes q)) q 0 w) as (n & w' & (gw' & Hp' & Hq') & Hrun); [done|by exists gw|].
  exists n, w', gw'. split_and!; [done|done|by rewrite (qr_event _ _ Hq')|]. intros m Hm. rewrite (qr_bytes _ _ Hq). by apply Hrun.
Qed.

(** A socket that is writable every other time, and takes seven bytes. *)
Definition every_other (i : nat) : nat := if Nat.even i then 0 else 7.

Lemma every_other_fair : fair every_other.
Proof.
  intros i. destruct (Nat.even i) eqn:Hi.
  - exists (S i). split; [lia|]. unfold every_other. rewrite Nat.even_succ, <- Nat.negb_even, Hi. cbn. lia.
  - exists i. unfold every_other. rewrite Hi. lia.
Qed.

Lemma queue_drains_witness :
  exists gw n w' gw', w_gateways example_world !! 2%positive = Some gw
    /\ w_gateways w' !! 2%positive = Some gw' /\ queue_repr gw' [] /\ gw_socket_ev gw' = false
    /\ forall m, (n <= m)%nat -> @write_turns little 2 every_other 0 m example_world = Ret (gw_write_buf gw) w'.
Proof.
  destruct example_queue as (gw & pkt & q & Hp & Hq). exists gw.
  destruct (@queue_drains little 2 every_other example_world gw (pkt :: q) Hp Hq every_other_fair) as (n & w' & gw' & H1 & H2 & H3 & H4).
  exists n, w', gw'. exact (conj Hp (conj H1 (conj H2 (conj H3 H4)))).
Defined.
