(* ===== verification/ProtoThms.v ===== *)
(** * What the commands of clients do

    Functional correctness of the commands of [core/proto.c] that work on a
    list of devices: the packets they send, device by device. *)

From Stdlib Require Import ZArith Lia.
From stdpp Require Import base tactics list gmap.
From S2P Require Import Prelude CLib WireBits PacketInfo WireProto World Tagging GatewayQueue.
From S2P Require Import BulbTable Router Bulb Gateway Discovery Proto QueueSpec TagsInv SendSpec.
From S2P Require Import DeviceInv DeviceOps Invariant HandlersInv GatewayInv CloseInv EventsInv.
From S2P Require Import RouterSpec RouteSpec ProtoInv Daemon Example.

(** ** Specifications *)

Section Spec.
Context {E : Endianness}.

(** The packet of a type with a payload for one bulb, through its gateway. *)
Definition packet_to (w : world) (ptype : lgtd_lifx_packet_type) (payload : list Z) (p : gw_ptr) (a : addr) :
    list packet :=
  match lgtd_lifx_wire_get_packet_info (packet_type_value ptype) with
  | Some info => packets_to_bulbs w info (Some payload) p [a]
  | None => []
  end.

(** The power a bulb does not have. *)
Definition other_power (b : lgtd_lifx_bulb) : Z :=
  if ls_power (bulb_state b) =? LGTD_LIFX_POWER_ON then LGTD_LIFX_POWER_OFF else LGTD_LIFX_POWER_ON.

Definition toggle_packets (w : world) (p : gw_ptr) (a : addr) : list packet :=
  match w_bulbs_table w !! a with
  | Some b => packet_to w LGTD_LIFX_SET_POWER_STATE (power_state_bytes {| ps_power := other_power b |}) p a
  | None => []
  end.

(** The id of a tag on a gateway. *)
Definition id_of_tag (w : world) (p : gw_ptr) (t : tag_ptr) : option nat :=
  snd <$> list_find (fun i => cell (w_gateways w) p i = Some t) (seq 0 64).

(** A bulb that has the tag is told to drop its bit and keep the others. *)
Definition untag_packets (w : world) (t : tag_ptr) (p : gw_ptr) (a : addr) : list packet :=
  match w_bulbs_table w !! a with
  | Some b =>
    match id_of_tag w (bulb_gw b) t with
    | Some i =>
      if Z.testbit (ls_tags (bulb_state b)) (Z.of_nat i)
      then packet_to w LGTD_LIFX_SET_TAGS
             (tags_bytes (lgtd_lifx_wire_encode_tags
                {| pt_tags := Z.clearbit (ls_tags (bulb_state b)) (Z.of_nat i) |})) p a
      else []
    | None => []
    end
  | None => []
  end.




(** ** Lemmas *)

Lemma frame_bulb_packets w w' info pkt p gw l :
  send_frame w w' -> w_gateways w' !! p = Some gw -> packets_to_bulbs w' info pkt p l = packets_to_bulbs w info pkt p l.
Proof.
  intros Hf Hp. destruct (gateway_before _ _ _ _ _ _ Hf Hp) as (gw0 & Hp0 & Hfr). unfold packets_to_bulbs.
  rewrite Hp, Hp0, (qf_site _ _ Hfr), (sf_client_id _ _ _ _ Hf). f_equal.
  apply list_filter_iff. intros x. by rewrite (frame_on_gateway w w' Hf).
Qed.

Lemma pushes_packet_to w0 w a b ptype payload :
  send_frame w0 w -> world_inv w -> w_bulbs_table w !! a = Some b -> payload_for ptype (Some payload) ->
  pushes (lgtd_router_send_to_device a ptype (Some payload)) (fun _ => True)
    (fun p => packet_to w0 ptype payload p a) w.
Proof.
  intros Hf Hi Ha Hpay. destruct (payload_for_info _ _ Hpay) as (info & Hinfo & _).
  eapply pushes_ext; [|eapply (pushes_to_bulb w a ptype info); [exact Hi|by eexists|exact Hpay|exact Hinfo]].
  intros p gw Hp. unfold packet_to. rewrite Hinfo. by eapply frame_bulb_packets.
Qed.




(** A loop over the devices of a command, each with what it sends. *)
Lemma pushes_devices w devices body (out : addr -> gw_ptr -> list packet) :
  world_inv w -> (forall a, a ∈ devices -> is_Some (w_bulbs_table w !! a)) ->
  (forall a b b' w', a ∈ devices -> world_inv w' -> send_frame w w' -> w_bulbs_table w !! a = Some b ->
     w_bulbs_table w' !! a = Some b' -> bulb_state b' = bulb_state b -> bulb_gw b' = bulb_gw b ->
     pushes (body a) (fun _ => True) (out a) w') ->
  pushes (mforeach devices body) (fun _ => True) (fun p => devices ≫= (fun a => out a p)) w.
Proof.
  intros Hi Hd Hb. apply pushes_foreach; [apply (dv_send _ _ _ (wi_devices _ Hi))|]. intros a w' Ha Hf Hs'.
  destruct (Hd a Ha) as [b Hab]. destruct (bulb_after _ _ _ _ _ _ Hf Hab) as (b' & Hab' & d & e & ->).
  eapply (Hb a b); [done|by eapply world_inv_send|done|done|exact Hab'|by destruct b|by destruct b].
Qed.

Lemma id_of_tag_spec w p t i :
  world_inv w -> cell (w_gateways w) p i = Some t -> id_of_tag w p t = Some i.
Proof.
  intros Hi Hc. pose proof (ri_tags _ (wi_rest _ Hi)) as Ht.
  destruct (ti_cells _ _ _ Ht p i t Hc) as (Hi64 & tag & Htag & Hsi). unfold id_of_tag.
  destruct (list_find _ (seq 0 64)) as [[k j]|] eqn:Hfind.
  - apply list_find_Some in Hfind as (_ & Hcj & _). destruct (ti_cells _ _ _ Ht p j t Hcj) as (_ & tag' & Htag' & Hsj).
    assert (tag' = tag) as -> by congruence. pose proof (ti_sites_nodup _ _ _ Ht t tag Htag) as Hnd.
    pose proof (find_site_elem _ _ Hnd Hsi) as Hfi. pose proof (find_site_elem _ _ Hnd Hsj) as Hfj.
    cbn [mk_site site_gw] in Hfi, Hfj. rewrite Hfi in Hfj. injection Hfj. simpl. intros. f_equal. lia.
  - apply list_find_None in Hfind. rewrite Forall_forall in Hfind. destruct (Hfind i); [|done].
    apply elem_of_seq. lia.
Qed.

Lemma id_of_tag_none w p t : (forall i, cell (w_gateways w) p i <> Some t) -> id_of_tag w p t = None.
Proof.
  intros Hn. unfold id_of_tag. rewrite (proj2 (list_find_None _ _)); [done|]. apply Forall_forall. intros i _. apply Hn.
Qed.

Lemma frame_id_of_tag w w' p t : send_frame w w' -> id_of_tag w' p t = id_of_tag w p t.
Proof.
  intros Hf. unfold id_of_tag. f_equal. generalize (seq 0 64). intros l.
  induction l as [|i l IH]; [done|]. cbn [list_find]. rewrite IH. pose proof (send_frame_cell w w' p i Hf) as Hc.
  do 2 case_decide; congruence.
Qed.


Lemma toggled_power b :
  ls_power (bulb_state b) = LGTD_LIFX_POWER_OFF \/ ls_power (bulb_state b) = LGTD_LIFX_POWER_ON ->
  u16 (Z.lnot (ls_power (bulb_state b))) = other_power b.
Proof. unfold other_power. by intros [-> | ->]. Qed.

(** The [int] of the code holds the bit of the first 31 tags. *)
Lemma tag_value_small i : (i < 31)%nat -> u64 (tag_value (Z.of_nat i)) = 2 ^ Z.of_nat i.
Proof.
  intros Hi. unfold tag_value. rewrite TAG_ID_TO_VALUE_pow by lia.
  assert (0 < 2 ^ Z.of_nat i < 2 ^ 31) by (split; [lia|apply Z.pow_lt_mono_r; lia]).
  unfold u64, i32. rewrite (Z.mod_small (_ + _)) by lia. rewrite Z.mod_small by lia. lia.
Qed.

Lemma clear_small tags i :
  0 <= tags < 2 ^ 64 -> (i < 31)%nat ->
  Z.land tags (u64 (Z.lnot (tag_value (Z.of_nat i)))) = Z.clearbit tags (Z.of_nat i).
Proof.
  intros Ht Hi. assert (Hv : tag_value (Z.of_nat i) = 2 ^ Z.of_nat i).
  { unfold tag_value. rewrite TAG_ID_TO_VALUE_pow by lia.
    assert (0 < 2 ^ Z.of_nat i < 2 ^ 31) by (split; [lia|apply Z.pow_lt_mono_r; lia]).
    unfold i32. rewrite Z.mod_small by lia. lia. }
  rewrite Hv. apply Z.bits_inj'. intros k Hk. unfold u64.
  rewrite Z.land_spec, Z.clearbit_spec', Z.ldiff_spec, <- Z.land_ones, Z.land_spec, Z.lnot_spec by lia.
  destruct (Z.lt_ge_cases k 64) as [Hlt|Hge].
  - by rewrite Z.ones_spec_low, andb_true_r by lia.
  - rewrite (testbit_high tags k) by lia. done.
Qed.

End Spec.

(** ** The commands *)

(** No call of the example fails. *)
Lemma example_calls : ~ false ∈ w_os_results example_world.
Proof. assert (He : w_os_results example_world = []) by (by vm_compute). rewrite He. apply not_elem_of_nil. Qed.

(** C9: toggling the power sends to each selected bulb, once, the power it does
    not have, through its gateway, and nothing else; only a failed allocation
    makes it reply with an error, and then nothing is sent. *)
Theorem power_toggle_correct {E : Endianness} (w : world) (targets : list (list Z)) (Hi : world_inv w) :
  exists r w', lgtd_proto_power_toggle targets w = Ret r w' /\ world_inv w'
    /\ ((r = memory_error /\ w_gateways w' = w_gateways w
         /\ false ∈ w_os_results w)
        \/ (r = SEND_RESULT true /\ exists devices, selection w targets devices
            /\ queued w w' (fun p => devices ≫= toggle_packets w p))).
Proof.
  apply wp_run. unfold lgtd_proto_power_toggle. apply wp_bind, wp_targets_to_devices; [done| |].
  { intros rs [_ Hrs]. apply wp_ret. split; [by apply world_inv_os|]. left. split_and!; [done|done|by apply Hrs]. }
  intros rs l _ Hnd Hm. set (w0 := set_w_os_results rs w).
  assert (Hi0 : world_inv w0) by (by apply world_inv_os).
  assert (Hp : pushes (mforeach l (fun a => bulb ← get_bulb a;
      lgtd_router_send_to_device a LGTD_LIFX_SET_POWER_STATE
        (Some (power_state_bytes {| ps_power := u16 (Z.lnot (ls_power (bulb_state bulb))) |}))) ;;
      mret (SEND_RESULT true)) (fun r => r = SEND_RESULT true) (fun p => l ≫= toggle_packets w0 p) w0).
  { eapply pushes_then; [|intros; by apply pushes_ret].
    apply (pushes_devices w0 l _ (fun a p => toggle_packets w0 p a)); [done|by eapply selected_bulbs|].
    intros a b b' w' _ Hi' Hf Hb Hb' Hst _. apply wp_bind. eapply wp_get_bulb; [exact Hb'|]. cbv beta.
    rewrite Hst, toggled_power by (apply (bi_ok _ _ (dv_bulbs _ _ _ (wi_devices _ Hi0)) a b Hb)).
    unfold toggle_packets. rewrite Hb. eapply pushes_packet_to; [exact Hf|exact Hi'|exact Hb'|apply payload_power]. }
  eapply wp_mono; [exact Hp|]. intros r w' (Hf & Hs & Hq & ->). split; [by eapply world_inv_send|].
  right. split; [done|]. exists l. split; [by split|]. exact Hq.
Qed.

Lemma power_toggle_correct_witness :
  exists w' devices, @lgtd_proto_power_toggle little [ASCII_STAR] example_world = Ret (SEND_RESULT true) w'
    /\ @selection little example_world [ASCII_STAR] devices
    /\ queued example_world w' (fun p => devices ≫= @toggle_packets little example_world p).
Proof.
  destruct (@power_toggle_correct little example_world [ASCII_STAR] (@reachable_inv little _ reachable_example_world))
    as (r & w' & Hrun & _ & [(_ & _ & Hf)|(-> & devices & Hsel & Hq)]).
  - destruct (example_calls Hf).
  - exists w', devices. split; [exact Hrun|]. split; [exact Hsel|exact Hq].
Defined.

(** The loop of [lgtd_proto_untag] for one device. *)
Lemma pushes_untag_device {E : Endianness} w0 w t a b b' :
  world_inv w0 -> (forall p i, cell (w_gateways w0) p i = Some t -> (i < 31)%nat) ->
  world_inv w -> send_frame w0 w -> w_bulbs_table w0 !! a = Some b -> w_bulbs_table w !! a = Some b' ->
  bulb_state b' = bulb_state b -> bulb_gw b' = bulb_gw b ->
  pushes (bulb ← get_bulb a;
      tag_id ← lgtd_lifx_gateway_get_tag_id (bulb_gw bulb) t;
      if negb (tag_id =? -1) then
        let value := tag_value tag_id in
        if has_flag (ls_tags (bulb_state bulb)) (u64 value) then
          let pkt := lgtd_lifx_wire_encode_tags
            {| pt_tags := Z.land (ls_tags (bulb_state bulb)) (u64 (Z.lnot value)) |} in
          lgtd_router_send_to_device a LGTD_LIFX_SET_TAGS (Some (tags_bytes pkt))
        else mret tt
      else mret tt) (fun _ => True) (fun p => untag_packets w0 t p a) w.
Proof.
  intros Hi0 Hsmall Hi Hf Hb Hb' Hst Hgw. pose proof (dv_send _ _ _ (wi_devices _ Hi)) as Hs.
  apply wp_bind. eapply wp_get_bulb; [exact Hb'|]. cbv beta. rewrite Hst, Hgw.
  destruct (gateway_of_bulb w a b' Hi Hb') as [gw Hp]. rewrite Hgw in Hp.
  unfold untag_packets. rewrite Hb. rewrite <- (frame_id_of_tag w0 w _ t Hf).
  apply wp_bind. eapply wp_get_tag_id; [exact Hi|exact Hp| |].
  - intros i Hi64 Hc. rewrite (id_of_tag_spec w _ t i Hi Hc).
    assert (Hi31 : (i < 31)%nat) by (eapply Hsmall; rewrite <- (send_frame_cell w0 w _ i Hf); exact Hc).
    rewrite (proj2 (Z.eqb_neq _ _)) by lia. cbn [negb]. cbv zeta.
    rewrite tag_value_small by done. rewrite <- (TAG_ID_TO_VALUE_pow (Z.of_nat i)), has_flag_bit by lia.
    destruct (Z.testbit _ _); [|by apply pushes_ret].
    rewrite clear_small by (done || apply (bi_ok _ _ (dv_bulbs _ _ _ (wi_devices _ Hi0)) a b Hb)).
    eapply pushes_packet_to; [exact Hf|exact Hi|exact Hb'|apply payload_tags].
  - intros Hn. rewrite (id_of_tag_none w _ t Hn). by apply pushes_ret.
Qed.











(** C7: removing a tag whose ids are below 31 sends to each selected bulb that
    has it, once, its tags without that bit and with every other one, and sends
    nothing to the other bulbs; only a failed allocation makes it reply with an
    error, and then nothing is sent; a label no tag has is no error and changes
    nothing. *)
Theorem untag_correct {E : Endianness} (w : world) (targets : list (list Z)) (label : list Z)
    (Hi : world_inv w)
    (Hsmall : forall t p i, tag_there w t label -> cell (w_gateways w) p i = Some t -> (i < 31)%nat) :
  exists r w', lgtd_proto_untag targets label w = Ret r w' /\ world_inv w'
    /\ (((forall t, ~ tag_there w t label) /\ r = SEND_RESULT true /\ w' = w)
        \/ exists t, tag_there w t label
            /\ ((r = memory_error /\ w_gateways w' = w_gateways w
                 /\ false ∈ w_os_results w)
                \/ (r = SEND_RESULT true /\ exists devices, selection w targets devices
                    /\ queued w w' (fun p => devices ≫= untag_packets w t p)))).
Proof.
  apply wp_run. unfold lgtd_proto_untag. pose proof (ri_tags _ (wi_rest _ Hi)) as Htags.
  destruct (find_tag_ret w _ label Htags) as (r & Hr & Hres).
  apply wp_bind. unfold wp at 1. rewrite Hr. destruct r as [t|].
  2:{ apply wp_ret. split; [done|left]. split_and!; [|done|done]. intros t (tag & Ht & Hl). by apply (Hres t tag Ht). }
  assert (Ht : tag_there w t label) by exact Hres.
  apply wp_bind, wp_targets_to_devices; [done| |].
  { intros rs [_ Hrs]. apply wp_ret. split; [by apply world_inv_os|right]. exists t. split; [done|left].
    split_and!; [done|done|by apply Hrs]. }
  intros rs l _ Hnd Hm. set (w0 := set_w_os_results rs w).
  assert (Hi0 : world_inv w0) by (by apply world_inv_os).
  eapply wp_mono; [eapply (pushes_then _ _ (fun _ => True) (fun r => r = SEND_RESULT true)
    (fun p => l ≫= untag_packets w0 t p))|].
  - apply (pushes_devices w0 l _ (fun a p => untag_packets w0 t p a)); [done|by eapply selected_bulbs|].
    intros a b b' w' _ Hi' Hf Hb Hb' Hst Hg. eapply pushes_untag_device; [done| |done..].
    intros p i Hc. by apply (Hsmall t p i).
  - intros; by apply pushes_ret.
  - intros r w' (Hf & Hs & Hq & ->). split; [by eapply world_inv_send|right]. exists t. split; [done|].
    right. split; [done|]. exists l. split; [by split|]. exact Hq.
Qed.

(** The tag of the example: its label and its one site. *)
Lemma example_tag_sites : (tag_sites <$> w_tags example_world !! 2%positive) = Some [mk_site 2 1].
Proof. by vm_compute. Qed.

Lemma example_tag_cells p i : cell (w_gateways example_world) p i = Some 2%positive -> (i < 31)%nat.
Proof.
  intros Hc. pose proof (ri_tags _ (wi_rest _ (@reachable_inv little _ reachable_example_world))) as Ht.
  destruct (ti_cells _ _ _ Ht p i _ Hc) as (_ & tag & Htag & Hs). pose proof example_tag_sites as Hsites.
  rewrite Htag in Hsites. injection Hsites as Hsites. rewrite Hsites in Hs.
  apply list_elem_of_singleton in Hs. unfold mk_site in Hs. injection Hs. lia.
Qed.

Lemma untag_correct_witness :
  exists label w' devices, tag_there example_world 2 label
    /\ @lgtd_proto_untag little [ASCII_STAR] label example_world = Ret (SEND_RESULT true) w'
    /\ @selection little example_world [ASCII_STAR] devices
    /\ queued example_world w' (fun p => devices ≫= @untag_packets little example_world 2 p).
Proof.
  destruct (w_tags example_world !! 2%positive) as [tag|] eqn:Ht;
    [|pose proof example_tag_sites as Hs; rewrite Ht in Hs; discriminate].
  assert (Hthere : tag_there example_world 2 (tag_label tag)) by (exists tag; exact (conj Ht eq_refl)).
  assert (Honly : forall t, tag_there example_world t (tag_label tag) -> t = 2%positive).
  { intros t (tag' & Ht' & Hl). pose proof (ri_tags _ (wi_rest _ (@reachable_inv little _ reachable_example_world))) as Hti.
    exact (ti_labels _ _ _ Hti t 2 tag' tag Ht' Ht Hl). }
  destruct (@untag_correct little example_world [ASCII_STAR] (tag_label tag)
    (@reachable_inv little _ reachable_example_world)) as (r & w' & Hrun & _ & [(Hno & _)|(t & Htt & Hcase)]).
  - intros t p i Htt Hc. rewrite (Honly t Htt) in Hc. exact (example_tag_cells p i Hc).
  - destruct (Hno _ Hthere).
  - rewrite (Honly t Htt) in Hcase. destruct Hcase as [(_ & _ & Hf)|(-> & devices & Hsel & Hq)];
      [destruct (example_calls Hf)|].
    exists (tag_label tag), w', devices. split; [exact Hthere|]. split; [exact Hrun|]. split; [exact Hsel|exact Hq].
Defined.

(** The value of a tag goes through an [int]: it is the bit of the tag for
    the ids below 31 only. For the id 31 it has all the bits above too, and for
    the others no bit at all, so that [tag] and [untag] never send anything for
    these. *)
Theorem tag_value_exact (i : nat) (Hi : (i < 64)%nat) :
  u64 (tag_value (Z.of_nat i)) = if (i <? 31)%nat then 2 ^ Z.of_nat i
                                 else if (i =? 31)%nat then 2 ^ 64 - 2 ^ 31 else 0.
Proof.
  case Nat.ltb_spec; intros Hlt; [by apply tag_value_small|].
  assert (Hall : forallb (fun j => u64 (tag_value (Z.of_nat j))
    =? (if (j =? 31)%nat then 2 ^ 64 - 2 ^ 31 else 0)) (seq 31 33) = true) by (by vm_compute).
  rewrite forallb_forall in Hall. apply Z.eqb_eq, Hall, in_seq. lia.
Qed.

Lemma tag_value_exact_witness : u64 (tag_value 40) = 0.
Proof. exact (tag_value_exact 40 ltac:(lia)). Defined.
