(* ===== verification/DiscoveryThms.v ===== *)
(** * Discovery

    Theorems about the broadcast endpoint and the timer that uses it. *)

From Stdlib Require Import ZArith Lia.
From stdpp Require Import base tactics list gmap.
From S2P Require Import Prelude CLib WireBits PacketInfo WireProto World Tagging GatewayQueue.
From S2P Require Import BulbTable Router Bulb Gateway Discovery Proto QueueSpec TagsInv SendSpec.
From S2P Require Import DeviceInv DeviceOps Invariant HandlersInv GatewayInv CloseInv EventsInv.
From S2P Require Import RouterSpec ProtoInv Daemon Example.

(** A tick of the discovery timer looks for gateways again and is armed for
    the next one: after 2 seconds while no gateway is known, and else after
    twice the time it waited, up to 10 seconds. It exits the daemon when libevent
    refuses, and does nothing else. *)
Theorem discovery_timeout_correct (w : world) (Hi : world_inv w)
    (Hev : is_Some (w_broadcast_write_ev w))
    (Ht : LGTD_LIFX_DISCOVERY_ACTIVE_DISCOVERY_INTERVAL_MSECS <= w_discovery_timeout w
          <= LGTD_LIFX_DISCOVERY_PASSIVE_DISCOVERY_INTERVAL_MSECS) :
  match lgtd_lifx_discovery_timeout_event_callback w with
  | Ret _ w' =>
    world_inv w' /\ w_gateways w' = w_gateways w /\ w_broadcast_write_ev w' = Some true
    /\ w_discovery_ev w' = Some (w_discovery_timeout w')
    /\ (w_gateway_list w = [] -> w_discovery_timeout w' = 2000)
    /\ (w_gateway_list w <> [] -> w_discovery_timeout w' = Z.min (2 * w_discovery_timeout w) 10000)
    /\ 2000 <= w_discovery_timeout w' <= 10000
  | Crash c => c = Exited /\ w_os_results w <> []
  end.
Proof.
  unfold LGTD_LIFX_DISCOVERY_ACTIVE_DISCOVERY_INTERVAL_MSECS,
    LGTD_LIFX_DISCOVERY_PASSIVE_DISCOVERY_INTERVAL_MSECS in Ht.
  pose proof (wpc_discovery_callback w Hi) as Hw. unfold wpc in Hw.
  destruct (lgtd_lifx_discovery_timeout_event_callback w) as [u w'|c] eqn:Hrun.
  - destruct Hw as (Hi' & Hg & -> & -> & Hb). unfold next_timeout,
      LGTD_LIFX_DISCOVERY_ACTIVE_DISCOVERY_INTERVAL_MSECS,
      LGTD_LIFX_DISCOVERY_PASSIVE_DISCOVERY_INTERVAL_MSECS.
    case_bool_decide as Hl; split_and!; try done; intros; lia.
  - split.
    { destruct Hw as [|[_ Hn]]; [done|]. rewrite Hn in Hev. by destruct Hev. }
    intros Hos. revert Hrun.
    unfold lgtd_lifx_discovery_timeout_event_callback, lgtd_lifx_broadcast_discovery, os_call, mbind, M_bind.
    destruct Hev as [ev Hev]. destruct w. simpl in *. subst. simpl. by vm_compute.
Qed.

Lemma discovery_timeout_correct_witness :
  match lgtd_lifx_discovery_timeout_event_callback (environment [] [] example_world) with
  | Ret _ w' => w_discovery_timeout w' = 4000
  | Crash _ => False
  end.
Proof.
  pose proof (discovery_timeout_correct (environment [] [] example_world)
    (world_inv_environment _ _ _ (@reachable_inv little _ reachable_example_world)) ltac:(by eexists; vm_compute)
    ltac:(vm_compute; split; discriminate)) as H.
  destruct (lgtd_lifx_discovery_timeout_event_callback (environment [] [] example_world)) as [u w'|c].
  - destruct H as (_ & _ & _ & _ & _ & Ht & _). rewrite Ht; [by vm_compute|by vm_compute].
  - destruct H as [_ H]. exact (H eq_refl).
Defined.

(** The addresses a discovery goes to, with what [sendto] does for each. *)
Definition broadcast_sends (ifaddrs : ifaddrs_result) : list sendto_result :=
  match ifaddrs with
  | ifaddrs_error r => [r]
  | ifaddrs_list l => ifa_sendto <$> filter (fun ifa => can_broadcast ifa = true) l
  end.

(** When the endpoint can be written the GET_PAN_GATEWAY packet of the
    protocol, for all the devices of any site, leaves once per address that
    accepts all of it; the event is disarmed when one did, and otherwise nothing
    changes and the callback resets the endpoint. *)
Theorem broadcast_write_correct {E : Endianness} (w : world) (ifaddrs : ifaddrs_result)
    (Hid : w_client_id w <> 0) (Hev : w_broadcast_write_ev w <> None) (Hos : w_os_results w = []) :
  let sent := filter (fun r => lgtd_lifx_broadcast_send_packet 36 r = true) (broadcast_sends ifaddrs) in
  lgtd_lifx_broadcast_handle_write ifaddrs w
  = Ret (bool_decide (sent <> []),
         replicate (length sent) (wire_header 36 (w_client_id w) true (replicate 8 0) (replicate 6 0)
                                    (packet_type_value LGTD_LIFX_GET_PAN_GATEWAY)))
      (if bool_decide (sent <> []) then set_w_broadcast_write_ev (Some false) w else w).
Proof.
  intros sent. unfold lgtd_lifx_broadcast_handle_write, mbind, M_bind. cbn [mget].
  rewrite bool_decide_eq_true_2 by (by destruct (w_broadcast_write_ev w)). cbn [massert mret M_ret].
  destruct (lgtd_lifx_wire_get_packet_info (packet_type_value LGTD_LIFX_GET_PAN_GATEWAY)) as [info|] eqn:Hinfo;
    [|by vm_compute in Hinfo].
  assert (Hsize : pi_size info = 0).
  { assert (H : (pi_size <$> lgtd_lifx_wire_get_packet_info (packet_type_value LGTD_LIFX_GET_PAN_GATEWAY)) = Some 0)
      by (by vm_compute). rewrite Hinfo in H. by injection H. }
  destruct (setup_header_spec w (w_client_id w) LGTD_LIFX_TARGET_ALL_DEVICES (target_tags 0)
    (replicate 8 0) None LGTD_LIFX_GET_PAN_GATEWAY info) as (h & -> & Hb & _ & _);
    [done|exact Hinfo|by right|done|]. clear Hinfo.
  rewrite Hsize in Hb. rewrite Hb. fold (broadcast_sends ifaddrs). cbv zeta.
  assert (Hfil : forall l, length (filter (fun s => s = true) (lgtd_lifx_broadcast_send_packet 36 <$> l))
    = length (filter (fun r => lgtd_lifx_broadcast_send_packet 36 r = true) l)).
  { induction l as [|r l IH]; [done|]. rewrite fmap_cons, !filter_cons. repeat case_decide; cbn [length]; congruence. }
  assert (Hrep : forall (x : list Z) (l : list bool), (fun _ => x) <$> l = replicate (length l) x)
    by (intros x l; induction l as [|? l IH]; [done|exact (f_equal (cons x) IH)]).
  rewrite Hrep. unfold LGTD_LIFX_PACKET_HEADER_SIZE. rewrite Hfil. fold sent.
  assert (Hdec : bool_decide (true ∈ lgtd_lifx_broadcast_send_packet 36 <$> broadcast_sends ifaddrs)
    = bool_decide (sent <> [])).
  { apply bool_decide_ext. rewrite list_elem_of_fmap. split.
    - intros (r & Hr & Hin) Hnil. assert (Hs : r ∈ sent) by (apply list_elem_of_filter; by rewrite <- Hr).
      rewrite Hnil in Hs. by apply elem_of_nil in Hs.
    - intros Hne. destruct sent as [|r l] eqn:Hl; [done|]. assert (Hin : r ∈ sent) by (rewrite Hl; by left).
      apply list_elem_of_filter in Hin as [Hr Hin]. by exists r. }
  rewrite Hdec. destruct (bool_decide (sent <> [])); [|done].
  unfold os_call. rewrite Hos. done.
Qed.

Lemma broadcast_write_correct_witness :
  exists w', @lgtd_lifx_broadcast_handle_write little
      (ifaddrs_list [{| ifa_broadaddr := Some AF_INET; ifa_flags := IFF_BROADCAST; ifa_netmask := true;
                        ifa_sendto := sendto_EINTR (sendto_returns 36) |};
                     {| ifa_broadaddr := Some AF_INET; ifa_flags := IFF_BROADCAST; ifa_netmask := true;
                        ifa_sendto := sendto_returns (-1) |}]) example_start
    = Ret (true, [wire_header 36 0x2a true (replicate 8 0) (replicate 6 0) 2]) w'.
Proof.
  eexists. apply (@broadcast_write_correct little example_start
    (ifaddrs_list [{| ifa_broadaddr := Some AF_INET; ifa_flags := IFF_BROADCAST; ifa_netmask := true;
                      ifa_sendto := sendto_EINTR (sendto_returns 36) |};
                   {| ifa_broadaddr := Some AF_INET; ifa_flags := IFF_BROADCAST; ifa_netmask := true;
                      ifa_sendto := sendto_returns (-1) |}])); [discriminate|discriminate|reflexivity].
Defined.
