(* ===== verification/Jsmn.v ===== *)
(** * The JSON tokenizer

    [core/jsmn.c], compiled with [JSMN_STRICT] and [JSMN_PARENT_LINKS] as the
    build does. A text is the list of its bytes. Positions and indexes are
    natural numbers, and the -1 the code uses for "none" is [None]. *)

From Stdlib Require Import ZArith Lia.
From stdpp Require Import base tactics list.
From S2P Require Import Prelude CLib.

(** ** Tokens and parser *)

Inductive jsmntype_t : Type :=
| JSMN_UNDEFINED
| JSMN_OBJECT
| JSMN_ARRAY
| JSMN_STRING
| JSMN_PRIMITIVE.

#[export] Instance jsmntype_eq_dec : EqDecision jsmntype_t.
Proof. solve_decision. Defined.

Inductive jsmnerr : Type :=
| JSMN_ERROR_NOMEM
| JSMN_ERROR_INVAL
| JSMN_ERROR_PART.

Record jsmntok_t : Type := {
  tok_type : jsmntype_t;
  tok_start : option nat;
  tok_end : option nat;
  tok_size : nat;
  tok_parent : option nat
}.

(** The parser with the array of tokens it fills: none is the null pointer the
    first pass of [lgtd_client_read_callback] gives, which only counts. The
    number of tokens of the array is its length. *)
Record jsmn_parser : Type := {
  js_pos : nat;
  js_toknext : nat;
  js_toksuper : option nat;
  js_tokens : option (list jsmntok_t)
}.

Definition set_pos (p : nat) (st : jsmn_parser) : jsmn_parser :=
  {| js_pos := p; js_toknext := js_toknext st; js_toksuper := js_toksuper st; js_tokens := js_tokens st |}.
Definition set_toknext (n : nat) (st : jsmn_parser) : jsmn_parser :=
  {| js_pos := js_pos st; js_toknext := n; js_toksuper := js_toksuper st; js_tokens := js_tokens st |}.
Definition set_toksuper (s : option nat) (st : jsmn_parser) : jsmn_parser :=
  {| js_pos := js_pos st; js_toknext := js_toknext st; js_toksuper := s; js_tokens := js_tokens st |}.
Definition set_tokens (l : list jsmntok_t) (st : jsmn_parser) : jsmn_parser :=
  {| js_pos := js_pos st; js_toknext := js_toknext st; js_toksuper := js_toksuper st; js_tokens := Some l |}.

Definition set_tok_type (t : jsmntype_t) (k : jsmntok_t) : jsmntok_t :=
  {| tok_type := t; tok_start := tok_start k; tok_end := tok_end k; tok_size := tok_size k; tok_parent := tok_parent k |}.
Definition set_tok_start (s : option nat) (k : jsmntok_t) : jsmntok_t :=
  {| tok_type := tok_type k; tok_start := s; tok_end := tok_end k; tok_size := tok_size k; tok_parent := tok_parent k |}.
Definition set_tok_end (e : option nat) (k : jsmntok_t) : jsmntok_t :=
  {| tok_type := tok_type k; tok_start := tok_start k; tok_end := e; tok_size := tok_size k; tok_parent := tok_parent k |}.
Definition set_tok_size (n : nat) (k : jsmntok_t) : jsmntok_t :=
  {| tok_type := tok_type k; tok_start := tok_start k; tok_end := tok_end k; tok_size := n; tok_parent := tok_parent k |}.
Definition set_tok_parent (p : option nat) (k : jsmntok_t) : jsmntok_t :=
  {| tok_type := tok_type k; tok_start := tok_start k; tok_end := tok_end k; tok_size := tok_size k; tok_parent := p |}.

Definition jsmn_init (tokens : option (list jsmntok_t)) : jsmn_parser :=
  {| js_pos := 0; js_toknext := 0; js_toksuper := None; js_tokens := tokens |}.

(** [tokens[i]], read and updated: out of the array it is undefined. *)
Definition get_tok (i : nat) : M jsmn_parser jsmntok_t :=
  st ← mget; l ← mderef (js_tokens st); mderef (l !! i).

Definition upd_tok (i : nat) (f : jsmntok_t -> jsmntok_t) : M jsmn_parser unit :=
  st ← mget; l ← mderef (js_tokens st); t ← mderef (l !! i); mmodify (set_tokens (<[i := f t]> l)).

(** ** Scanning *)

(** Where a primitive or a string ends, or why it does not. *)
Inductive scan : Type :=
| scan_found (pos : nat)
| scan_error (e : jsmnerr).

Definition is_space (c : Z) : bool := (c =? 9) || (c =? 13) || (c =? 10) || (c =? 32).

(** The characters that end a primitive: white space, [","], ["]"] and ["}"]. *)
Definition ends_primitive (c : Z) : bool := is_space c || (c =? 44) || (c =? 93) || (c =? 125).

(** The loop of [jsmn_parse_primitive] over the text from [pos] on. *)
Fixpoint primitive_scan (rest : list Z) (pos : nat) : scan :=
  match rest with
  | [] => scan_error JSMN_ERROR_PART
  | c :: rest =>
    if c =? 0 then scan_error JSMN_ERROR_PART
    else if ends_primitive c then scan_found pos
    else if (c <? 32) || (127 <=? c) then scan_error JSMN_ERROR_INVAL
    else primitive_scan rest (S pos)
  end.

(** The escapes of one character. *)
Definition is_escape (c : Z) : bool :=
  (c =? 34) || (c =? 47) || (c =? 92) || (c =? 98) || (c =? 102) || (c =? 114) || (c =? 110) || (c =? 116).

Definition is_hex (c : Z) : bool :=
  ((48 <=? c) && (c <=? 57)) || ((65 <=? c) && (c <=? 70)) || ((97 <=? c) && (c <=? 102)).

(** The loop of [jsmn_parse_string] after the opening quote. [hex] is the number
    of digits the inner loop of an escaped code point has still to read; when the
    text ends there the outer loop ends too. *)
Fixpoint string_scan (rest : list Z) (pos hex : nat) : scan :=
  match rest with
  | [] => scan_error JSMN_ERROR_PART
  | c :: rest =>
    if c =? 0 then scan_error JSMN_ERROR_PART
    else match hex with
    | S hex => if is_hex c then string_scan rest (S pos) hex else scan_error JSMN_ERROR_INVAL
    | O =>
      if c =? 34 then scan_found pos
      else if c =? 92 then
        match rest with
        | [] => scan_error JSMN_ERROR_PART
        | c2 :: rest2 =>
          if is_escape c2 then string_scan rest2 (S (S pos)) 0
          else if c2 =? 117 then string_scan rest2 (S (S pos)) 4
          else scan_error JSMN_ERROR_INVAL
        end
      else string_scan rest (S pos) 0
    end
  end.

(** ** The parser *)

Definition jsmn_alloc_token : M jsmn_parser (option nat) :=
  st ← mget;
  l ← mderef (js_tokens st);
  if (length l <=? js_toknext st)%nat then mret None
  else
    let i := js_toknext st in
    mmodify (set_toknext (S i)) ;;
    upd_tok i (fun t => set_tok_parent None (set_tok_size 0 (set_tok_end None (set_tok_start None t)))) ;;
    mret (Some i).

Definition jsmn_fill_token (i : nat) (type : jsmntype_t) (start end_ : nat) : M jsmn_parser unit :=
  upd_tok i (fun t => set_tok_size 0 (set_tok_end (Some end_) (set_tok_start (Some start) (set_tok_type type t)))).

(** A token that was scanned from [start] to [end_]: the part the two functions
    below share. False is [JSMN_ERROR_NOMEM]. *)
Definition new_token (type : jsmntype_t) (start end_ : nat) : M jsmn_parser bool :=
  tok ← jsmn_alloc_token;
  match tok with
  | None => mret false
  | Some i =>
    jsmn_fill_token i type start end_ ;;
    st ← mget;
    upd_tok i (set_tok_parent (js_toksuper st)) ;;
    mret true
  end.

Definition jsmn_parse_primitive (js : list Z) : M jsmn_parser (option jsmnerr) :=
  st ← mget;
  let start := js_pos st in
  match primitive_scan (drop start js) start with
  | scan_error e => mret (Some e)
  | scan_found pos =>
    ok ← match js_tokens st with
         | None => mret true
         | Some _ => new_token JSMN_PRIMITIVE start pos
         end;
    if (ok : bool) then mmodify (set_pos (pred pos)) ;; mret None
    else mret (Some JSMN_ERROR_NOMEM)
  end.

Definition jsmn_parse_string (js : list Z) : M jsmn_parser (option jsmnerr) :=
  st ← mget;
  let start := js_pos st in
  match string_scan (drop (S start) js) (S start) 0 with
  | scan_error e => mret (Some e)
  | scan_found pos =>
    ok ← match js_tokens st with
         | None => mret true
         | Some _ => new_token JSMN_STRING (S start) pos
         end;
    if (ok : bool) then mmodify (set_pos pos) ;; mret None
    else mret (Some JSMN_ERROR_NOMEM)
  end.

Definition is_container (t : jsmntype_t) : bool :=
  bool_decide (t = JSMN_OBJECT) || bool_decide (t = JSMN_ARRAY).

(** [tokens[parser->toksuper].size++], when there is one. *)
Definition count_in_super : M jsmn_parser unit :=
  st ← mget;
  match js_toksuper st, js_tokens st with
  | Some k, Some _ => upd_tok k (fun t => set_tok_size (S (tok_size t)) t)
  | _, _ => mret tt
  end.

(** ["{"] or ["["]: false is [JSMN_ERROR_NOMEM]. *)
Definition open_container (type : jsmntype_t) : M jsmn_parser bool :=
  st ← mget;
  match js_tokens st with
  | None => mret true
  | Some _ =>
    tok ← jsmn_alloc_token;
    match tok with
    | None => mret false
    | Some i =>
      match js_toksuper st with
      | Some _ => count_in_super ;; upd_tok i (set_tok_parent (js_toksuper st))
      | None => mret tt
      end ;;
      upd_tok i (fun t => set_tok_start (Some (js_pos st)) (set_tok_type type t)) ;;
      mmodify (set_toksuper (Some i)) ;;
      mret true
    end
  end.

Definition is_open (t : jsmntok_t) : bool :=
  bool_decide (is_Some (tok_start t)) && bool_decide (tok_end t = None).

(** The loop of ["}"] and ["]"] from the token [i] up through its parents: false
    is [JSMN_ERROR_INVAL]. *)
Fixpoint close_container (fuel : nat) (type : jsmntype_t) (i : nat) : M jsmn_parser bool :=
  match fuel with
  | O => mcrash UndefinedBehaviour
  | S fuel =>
    token ← get_tok i;
    if is_open token then
      if bool_decide (tok_type token = type) then
        st ← mget;
        upd_tok i (set_tok_end (Some (S (js_pos st)))) ;;
        mmodify (set_toksuper (tok_parent token)) ;;
        mret true
      else mret false
    else match tok_parent token with
    | None =>
      st ← mget;
      mret (bool_decide (tok_type token = type) && bool_decide (is_Some (js_toksuper st)))
    | Some p => close_container fuel type p
    end
  end.

Definition parse_close (type : jsmntype_t) : M jsmn_parser bool :=
  st ← mget;
  match js_tokens st with
  | None => mret true
  | Some _ =>
    match js_toknext st with
    | O => mret false
    | S i => close_container (S i) type i
    end
  end.

(** [":"]. *)
Definition parse_colon : M jsmn_parser unit :=
  mmodify (fun st => set_toksuper (match js_toknext st with O => None | S i => Some i end) st).

(** [","]. *)
Definition parse_comma : M jsmn_parser unit :=
  st ← mget;
  match js_tokens st, js_toksuper st with
  | Some _, Some k =>
    t ← get_tok k;
    if is_container (tok_type t) then mret tt
    else mmodify (set_toksuper (tok_parent t))
  | _, _ => mret tt
  end.

(** A primitive must not be a key: whether it may be here. *)
Definition may_be_primitive : M jsmn_parser bool :=
  st ← mget;
  match js_tokens st, js_toksuper st with
  | Some _, Some k =>
    t ← get_tok k;
    mret (negb (bool_decide (tok_type t = JSMN_OBJECT)
                || (bool_decide (tok_type t = JSMN_STRING) && negb (tok_size t =? 0)%nat)))
  | _, _ => mret true
  end.

(** The characters a primitive starts with: ["-"], the digits, ["t"], ["f"] and ["n"]. *)
Definition starts_primitive (c : Z) : bool :=
  (c =? 45) || ((48 <=? c) && (c <=? 57)) || (c =? 116) || (c =? 102) || (c =? 110).

(** What one turn of the loop comes to: an error, or the number of tokens to count. *)
Definition turn (b : bool) (e : jsmnerr) (n : nat) : M jsmn_parser (jsmnerr + nat) :=
  mret (if b then inr n else inl e).

(** One value that is not a container. *)
Definition parse_scalar (parse : M jsmn_parser (option jsmnerr)) : M jsmn_parser (jsmnerr + nat) :=
  r ← parse;
  match r with
  | Some e => mret (inl e)
  | None => count_in_super ;; mret (inr 1%nat)
  end.

(** The body of the loop of [jsmn_parse] on the character [c]. *)
Definition parse_char (js : list Z) (c : Z) : M jsmn_parser (jsmnerr + nat) :=
  if c =? 123 then ok ← open_container JSMN_OBJECT; turn ok JSMN_ERROR_NOMEM 1
  else if c =? 91 then ok ← open_container JSMN_ARRAY; turn ok JSMN_ERROR_NOMEM 1
  else if c =? 125 then ok ← parse_close JSMN_OBJECT; turn ok JSMN_ERROR_INVAL 0
  else if c =? 93 then ok ← parse_close JSMN_ARRAY; turn ok JSMN_ERROR_INVAL 0
  else if c =? 34 then parse_scalar (jsmn_parse_string js)
  else if is_space c then mret (inr 0%nat)
  else if c =? 58 then parse_colon ;; mret (inr 0%nat)
  else if c =? 44 then parse_comma ;; mret (inr 0%nat)
  else if starts_primitive c then
    ok ← may_be_primitive;
    if (ok : bool) then parse_scalar (jsmn_parse_primitive js) else mret (inl JSMN_ERROR_INVAL)
  else mret (inl JSMN_ERROR_INVAL).

Fixpoint parse_loop (fuel : nat) (js : list Z) (count : nat) : M jsmn_parser (jsmnerr + nat) :=
  st ← mget;
  match js !! js_pos st with
  | None => mret (inr count)
  | Some c =>
    if c =? 0 then mret (inr count)
    else match fuel with
    | O => mcrash UndefinedBehaviour
    | S fuel =>
      r ← parse_char js c;
      match r with
      | inl e => mret (inl e)
      | inr n =>
        mmodify (fun st => set_pos (S (js_pos st)) st) ;;
        parse_loop fuel js (count + n)
      end
    end
  end.

(** Whether a token is left open. *)
Definition has_open (st : jsmn_parser) : bool :=
  match js_tokens st with
  | None => false
  | Some l => existsb is_open (take (js_toknext st) l)
  end.

(** Every turn moves on by a character at least: the length of the text is fuel
    enough. *)
Definition jsmn_parse (js : list Z) : M jsmn_parser (jsmnerr + nat) :=
  st ← mget;
  r ← parse_loop (length js) js (js_toknext st);
  st ← mget;
  mret (match r with
        | inr count => if has_open st then inl JSMN_ERROR_PART else inr count
        | inl e => inl e
        end).
