(* ===== verification/JsmnSpec.v ===== *)
(** * The tokenizer is safe and its two passes agree

    Whatever the text, [jsmn_parse] ends, never leaves its array, and fills
    tokens that lie in the text and point to parents before them; and an array
    of as many tokens as the counting pass finds is always large enough. *)

From Stdlib Require Import ZArith Lia.
From stdpp Require Import base tactics list.
From S2P Require Import Prelude CLib Jsmn.

#[local] Open Scope nat_scope.

(** ** Specifications *)

(** A token in use: it lies in the part of the text that was read, only a
    container may be open, and its parent is an earlier token. *)
Record tok_ok (len pos i : nat) (t : jsmntok_t) : Prop := {
  to_range : exists s, tok_start t = Some s /\ s <= pos
             /\ match tok_end t with
                | Some e => s <= e <= len /\ 0 < e
                | None => is_container (tok_type t) = true
                end;
  to_parent : forall p, tok_parent t = Some p -> p < i
}.

(** The parser on an array of tokens. *)
Record parser_ok (len : nat) (st : jsmn_parser) (l : list jsmntok_t) : Prop := {
  po_tokens : js_tokens st = Some l;
  po_next : js_toknext st <= length l;
  po_super : forall k, js_toksuper st = Some k -> k < js_toknext st;
  po_toks : forall i t, i < js_toknext st -> l !! i = Some t -> tok_ok len (js_pos st) i t
}.

(** What the counting pass does with the character [c] at [pos]: the tokens it
    counts and the last position it looks at. *)
Definition advance (js : list Z) (c : Z) (pos : nat) : jsmnerr + (nat * nat) :=
  if (c =? 123)%Z || (c =? 91)%Z then inr (1, pos)
  else if (c =? 125)%Z || (c =? 93)%Z then inr (0, pos)
  else if (c =? 34)%Z then
    match string_scan (drop (S pos) js) (S pos) 0 with
    | scan_found p => inr (1, p)
    | scan_error e => inl e
    end
  else if is_space c || (c =? 58)%Z || (c =? 44)%Z then inr (0, pos)
  else if starts_primitive c then
    match primitive_scan (drop pos js) pos with
    | scan_found p => inr (1, pred p)
    | scan_error e => inl e
    end
  else inl JSMN_ERROR_INVAL.

(** ** Scanning *)

Lemma primitive_scan_found rest : forall pos p,
  primitive_scan rest pos = scan_found p -> pos <= p < pos + length rest.
Proof.
  induction rest as [|c rest IH]; intros pos p; cbn [primitive_scan length]; [done|].
  destruct (c =? 0)%Z; [done|]. destruct (ends_primitive c); [intros [= <-]; lia|].
  destruct (_ || _); [done|]. intros H%IH. lia.
Qed.

Lemma string_scan_found n : forall rest pos hex p,
  length rest <= n -> string_scan rest pos hex = scan_found p -> pos <= p < pos + length rest.
Proof.
  induction n as [|n IH]; intros [|c rest] pos hex p Hn; cbn [string_scan length] in *; try done; [lia|].
  destruct (c =? 0)%Z; [done|]. destruct hex as [|hex].
  - destruct (c =? 34)%Z; [intros [= <-]; lia|]. destruct (c =? 92)%Z.
    + destruct rest as [|c2 rest]; [done|]. cbn [length] in *.
      destruct (is_escape c2); [|destruct (c2 =? 117)%Z; [|done]]; intros H%IH; lia.
    + intros H%IH; lia.
  - destruct (is_hex c); [|done]. intros H%IH; lia.
Qed.

Lemma starts_not_ends c : starts_primitive c = true -> ends_primitive c = false.
Proof.
  unfold starts_primitive, ends_primitive, is_space.
  rewrite !orb_true_iff, !orb_false_iff, !andb_true_iff, !Z.leb_le, !Z.eqb_eq, !Z.eqb_neq. lia.
Qed.

(** A primitive has a character at least. *)
Lemma primitive_scan_start js pos c p :
  js !! pos = Some c -> starts_primitive c = true ->
  primitive_scan (drop pos js) pos = scan_found p -> pos < p < length js.
Proof.
  intros Hc Hs. rewrite (drop_S js c pos Hc). cbn [primitive_scan]. rewrite (starts_not_ends c Hs).
  destruct (c =? 0)%Z; [done|]. destruct (_ || _); [done|]. intros H%primitive_scan_found.
  rewrite length_drop in H. lia.
Qed.

(** ** One turn of the loop *)

Lemma tok_ok_later len pos pos' i t : pos <= pos' -> tok_ok len pos i t -> tok_ok len pos' i t.
Proof. intros Hp [(s & Hs & Hle & He) Hpar]. constructor; [|done]. exists s. split_and!; [done|lia|done]. Qed.

(** Updating one token keeps the others. *)
Lemma parser_ok_upd len st l k f t :
  parser_ok len st l -> l !! k = Some t -> k < js_toknext st -> tok_ok len (js_pos st) k (f t) ->
  parser_ok len (set_tokens (<[k := f t]> l) st) (<[k := f t]> l).
Proof.
  intros [Ht Hn Hs Htoks] Hk Hlt Hf. constructor; cbn; rewrite ?length_insert; try done.
  intros i t' Hi. destruct (decide (i = k)) as [->|Hne].
  - rewrite list_lookup_insert_eq by (by eapply lookup_lt_Some). by intros [= <-].
  - rewrite list_lookup_insert_ne by done. by apply Htoks.
Qed.

Lemma wp_upd_tok st l k f t (Q : unit -> jsmn_parser -> Prop) :
  js_tokens st = Some l -> l !! k = Some t ->
  Q tt (set_tokens (<[k := f t]> l) st) -> wp (upd_tok k f) Q st.
Proof.
  intros Hl Hk HQ. unfold upd_tok. apply wp_bind, wp_get. apply wp_bind. eapply wp_deref; [exact Hl|].
  apply wp_bind. eapply wp_deref; [exact Hk|]. by apply wp_modify.
Qed.

Lemma wp_get_tok st l k t (Q : jsmntok_t -> jsmn_parser -> Prop) :
  js_tokens st = Some l -> l !! k = Some t -> Q t st -> wp (get_tok k) Q st.
Proof.
  intros Hl Hk HQ. unfold get_tok. apply wp_bind, wp_get. apply wp_bind. eapply wp_deref; [exact Hl|].
  by eapply wp_deref.
Qed.

Lemma parser_ok_lookup len st l k :
  parser_ok len st l -> k < js_toknext st -> exists t, l !! k = Some t /\ tok_ok len (js_pos st) k t.
Proof.
  intros [_ Hn _ Htoks] Hk. destruct (lookup_lt_is_Some_2 l k ltac:(lia)) as [t Ht]. exists t. split; [done|by apply Htoks].
Qed.

Lemma parser_ok_super len st l s :
  parser_ok len st l -> (forall k, s = Some k -> k < js_toknext st) -> parser_ok len (set_toksuper s st) l.
Proof. intros []. by constructor. Qed.

Lemma parser_ok_pos len st l p : parser_ok len st l -> js_pos st <= p -> parser_ok len (set_pos p st) l.
Proof.
  intros [? ? ? Htoks] Hp. constructor; try done. intros i t Hi Ht. eapply tok_ok_later; [exact Hp|]. by apply Htoks.
Qed.

Lemma list_alter_insert_ne {A} (f : A -> A) (l : list A) (i k : nat) x :
  i <> k -> alter f k (<[i := x]> l) = <[i := x]> (alter f k l).
Proof.
  intros Hne. apply list_eq. intros j. destruct (decide (j = k)) as [->|].
  - rewrite list_lookup_alter_eq, !list_lookup_insert_ne, list_lookup_alter_eq by done. done.
  - rewrite list_lookup_alter_ne by done. destruct (decide (j = i)) as [->|].
    + destruct (decide (i < length l)).
      * rewrite !list_lookup_insert_eq by (rewrite ?length_alter; done). done.
      * rewrite !lookup_ge_None_2 by (rewrite ?length_insert, ?length_alter; lia). done.
    + rewrite !list_lookup_insert_ne, list_lookup_alter_ne by done. done.
Qed.

(** [size++] on a parent, if there is one. *)
Definition bump (super : option nat) (l : list jsmntok_t) : list jsmntok_t :=
  match super with
  | Some k => alter (fun t => set_tok_size (S (tok_size t)) t) k l
  | None => l
  end.

Lemma length_bump super l : length (bump super l) = length l.
Proof. destruct super; [apply length_alter|done]. Qed.

Lemma parser_ok_bump len st l super :
  parser_ok len st l -> parser_ok len (set_tokens (bump super l) st) (bump super l).
Proof.
  intros [Ht Hn Hs Htoks]. constructor; cbn; rewrite ?length_bump; try done. destruct super as [k|]; [|done].
  intros i t Hi. cbn [bump]. destruct (decide (i = k)) as [->|Hne].
  - rewrite list_lookup_alter_eq. intros (t' & Ht' & ->)%fmap_Some. destruct (Htoks k t' Hi Ht') as [Hr Hp]. by constructor.
  - rewrite list_lookup_alter_ne by done. by apply Htoks.
Qed.

Lemma wp_count_in_super st l (Q : unit -> jsmn_parser -> Prop) :
  js_tokens st = Some l -> (forall k, js_toksuper st = Some k -> k < length l) ->
  Q tt (set_tokens (bump (js_toksuper st) l) st) -> wp count_in_super Q st.
Proof.
  intros Hl Hs HQ. unfold count_in_super. apply wp_bind, wp_get. rewrite Hl.
  destruct (js_toksuper st) as [k|] eqn:Hsup.
  - destruct (lookup_lt_is_Some_2 l k (Hs k eq_refl)) as [t Ht]. eapply wp_upd_tok; [exact Hl|exact Ht|].
    cbn [bump] in HQ. by rewrite (alter_as_insert _ _ _ t Ht) in HQ.
  - apply wp_ret. cbn [bump] in HQ. destruct st. cbn in *. by subst.
Qed.

(** The state after a token was taken from the array, before it is filled. *)
Lemma wp_alloc_token len st l (Q : option nat -> jsmn_parser -> Prop) :
  parser_ok len st l ->
  (js_toknext st = length l -> Q None st) ->
  (forall t, js_toknext st < length l -> l !! js_toknext st = Some t ->
     Q (Some (js_toknext st))
       (set_tokens (<[js_toknext st := set_tok_parent None (set_tok_size 0 (set_tok_end None (set_tok_start None t)))]> l)
          (set_toknext (S (js_toknext st)) st))) ->
  wp jsmn_alloc_token Q st.
Proof.
  intros Hok HN HS. pose proof (po_next _ _ _ Hok) as Hn. unfold jsmn_alloc_token. apply wp_bind, wp_get.
  apply wp_bind. eapply wp_deref; [apply Hok|]. case Nat.leb_spec; intros Hle; [apply wp_ret, HN; lia|].
  apply wp_bind, wp_modify. destruct (lookup_lt_is_Some_2 l (js_toknext st) Hle) as [t Ht].
  apply wp_bind. eapply wp_upd_tok; [apply Hok|exact Ht|]. apply wp_ret. by apply HS.
Qed.

(** One more token, and the parser further on. *)
Lemma parser_ok_new len st l t pos super :
  parser_ok len st l -> js_toknext st < length l -> js_pos st <= pos ->
  tok_ok len pos (js_toknext st) t -> (forall k, super = Some k -> k <= js_toknext st) ->
  parser_ok len {| js_pos := pos; js_toknext := S (js_toknext st); js_toksuper := super;
                   js_tokens := Some (<[js_toknext st := t]> l) |} (<[js_toknext st := t]> l).
Proof.
  intros [_ Hn _ Htoks] Hlt Hpos Ht Hsup. constructor; cbn; rewrite ?length_insert; [done|lia| |].
  - intros k Hk. specialize (Hsup k Hk). lia.
  - intros i t' Hi. destruct (decide (i = js_toknext st)) as [->|Hne].
    + rewrite list_lookup_insert_eq by done. by intros [= <-].
    + rewrite list_lookup_insert_ne by done. intros Hl. eapply tok_ok_later; [exact Hpos|].
      apply Htoks; [lia|done].
Qed.

(** The token a scalar comes to. *)
Definition scalar_tok (type : jsmntype_t) (start end_ : nat) (parent : option nat) : jsmntok_t :=
  {| tok_type := type; tok_start := Some start; tok_end := Some end_; tok_size := 0; tok_parent := parent |}.

Lemma wp_new_token len st l type start end_ (Q : bool -> jsmn_parser -> Prop) :
  parser_ok len st l ->
  (js_toknext st = length l -> Q false st) ->
  (js_toknext st < length l ->
   Q true {| js_pos := js_pos st; js_toknext := S (js_toknext st); js_toksuper := js_toksuper st;
             js_tokens := Some (<[js_toknext st := scalar_tok type start end_ (js_toksuper st)]> l) |}) ->
  wp (new_token type start end_) Q st.
Proof.
  intros Hok HN HS. unfold new_token. apply wp_bind. eapply wp_alloc_token; [exact Hok| |].
  - intros H. by apply wp_ret, HN.
  - intros t Hlt Ht. cbv beta iota. unfold jsmn_fill_token.
    apply wp_bind. eapply wp_upd_tok; [done|apply list_lookup_insert_eq; done|].
    apply wp_bind, wp_get. cbv beta. cbn [js_toksuper set_tokens set_toknext].
    apply wp_bind. eapply wp_upd_tok; [done|rewrite list_insert_insert_eq; apply list_lookup_insert_eq; done|].
    rewrite !list_insert_insert_eq. apply wp_ret. by apply HS.
Qed.

(** The token of a container that was just opened. *)
Definition open_tok (type : jsmntype_t) (start : nat) (parent : option nat) : jsmntok_t :=
  {| tok_type := type; tok_start := Some start; tok_end := None; tok_size := 0; tok_parent := parent |}.

(** ["{"] and ["["]. *)
Lemma wp_open_container len st l type (Q : bool -> jsmn_parser -> Prop) :
  parser_ok len st l ->
  (js_toknext st = length l -> Q false st) ->
  (js_toknext st < length l ->
   Q true {| js_pos := js_pos st; js_toknext := S (js_toknext st); js_toksuper := Some (js_toknext st);
             js_tokens := Some (<[js_toknext st := open_tok type (js_pos st) (js_toksuper st)]>
                                  (bump (js_toksuper st) l)) |}) ->
  wp (open_container type) Q st.
Proof.
  intros Hok HN HS. unfold open_container. apply wp_bind, wp_get. rewrite (po_tokens _ _ _ Hok).
  apply wp_bind. eapply wp_alloc_token; [exact Hok| |].
  { intros H. by apply wp_ret, HN. }
  intros t Hlt Ht. cbv beta iota. specialize (HS Hlt). pose proof (po_super _ _ _ Hok) as Hsup. set (i := js_toknext st) in *.
  destruct (js_toksuper st) as [k|] eqn:Hs.
  - specialize (Hsup k eq_refl). apply wp_bind, wp_bind. eapply wp_count_in_super; [done| |].
    { cbn. intros k' Hk'. rewrite length_insert. rewrite Hs in Hk'. injection Hk' as <-. lia. }
    cbn [js_toksuper set_tokens set_toknext]. rewrite Hs. cbn [bump] in *.
    rewrite list_alter_insert_ne by lia.
    assert (Hlen : i < length (alter (fun t => set_tok_size (S (tok_size t)) t) k l)) by (by rewrite length_alter).
    eapply wp_upd_tok; [done|apply list_lookup_insert_eq; done|]. rewrite list_insert_insert_eq.
    apply wp_bind. eapply wp_upd_tok; [done|apply list_lookup_insert_eq; done|]. rewrite list_insert_insert_eq.
    apply wp_bind, wp_modify, wp_ret. exact HS.
  - apply wp_bind, wp_ret, wp_bind. eapply wp_upd_tok; [done|apply list_lookup_insert_eq; done|].
    rewrite list_insert_insert_eq. apply wp_bind, wp_modify, wp_ret. exact HS.
Qed.

(** ["}"] and ["]"]: walking up through the parents of [i]. *)
Lemma wp_close_container len type fuel : forall st l i (Q : bool -> jsmn_parser -> Prop),
  parser_ok len st l -> i < js_toknext st -> i < fuel -> js_pos st < len ->
  Q false st ->
  (forall st' l', parser_ok len st' l' -> length l' = length l -> js_toknext st' = js_toknext st ->
     js_pos st' = js_pos st -> Q true st') ->
  wp (close_container fuel type i) Q st.
Proof.
  induction fuel as [|fuel IH]; intros st l i Q Hok Hi Hfuel Hpos HN HS; [lia|]. cbn [close_container].
  destruct (parser_ok_lookup _ _ _ _ Hok Hi) as (t & Ht & [(s & Hst & Hs & He) Hpar]).
  apply wp_bind. eapply wp_get_tok; [apply Hok|exact Ht|]. cbv beta. destruct (is_open t) eqn:Hopen.
  - case_bool_decide; [|by apply wp_ret]. apply wp_bind, wp_get. apply wp_bind.
    eapply wp_upd_tok; [apply Hok|exact Ht|]. apply wp_bind, wp_modify, wp_ret.
    eapply HS; [|by rewrite length_insert|done|done].
    apply parser_ok_super; [|intros k Hk%Hpar; cbn; lia].
    eapply (parser_ok_upd _ _ _ _ _ t); [done..|]. constructor; [|done]. exists s. cbn. split_and!; [done|done|lia|lia|lia].
  - destruct (tok_parent t) as [p|] eqn:Hp.
    + specialize (Hpar p eq_refl). eapply IH; [exact Hok|lia|lia|done|done|done].
    + apply wp_bind, wp_get, wp_ret. destruct (_ && _); [|done]. by eapply HS.
Qed.

(** A scalar that was scanned up to [p], with the parser left at [pos']. *)
Lemma wp_scalar len st l type start p pos' (Q : jsmnerr + nat -> jsmn_parser -> Prop) :
  parser_ok len st l -> start <= p <= len /\ 0 < p -> start <= pos' -> js_pos st <= pos' ->
  (js_toknext st = length l -> Q (inl JSMN_ERROR_NOMEM) st) ->
  (js_toknext st < length l -> forall l',
     l' = bump (js_toksuper st) (<[js_toknext st := scalar_tok type start p (js_toksuper st)]> l) ->
     parser_ok len {| js_pos := pos'; js_toknext := S (js_toknext st); js_toksuper := js_toksuper st;
                      js_tokens := Some l' |} l' ->
     Q (inr 1) {| js_pos := pos'; js_toknext := S (js_toknext st); js_toksuper := js_toksuper st;
                  js_tokens := Some l' |}) ->
  wp (parse_scalar (ok ← new_token type start p;
                    if (ok : bool) then mmodify (set_pos pos') ;; mret None
                    else mret (Some JSMN_ERROR_NOMEM))) Q st.
Proof.
  intros Hok Hp Hs Hpos HN HS. unfold parse_scalar. apply wp_bind, wp_bind. eapply wp_new_token; [exact Hok| |].
  { intros H. by apply wp_ret, wp_ret, HN. }
  intros Hlt. apply wp_bind, wp_modify, wp_ret. cbv iota.
  assert (Hok' : parser_ok len {| js_pos := pos'; js_toknext := S (js_toknext st); js_toksuper := js_toksuper st;
    js_tokens := Some (<[js_toknext st := scalar_tok type start p (js_toksuper st)]> l) |}
    (<[js_toknext st := scalar_tok type start p (js_toksuper st)]> l)).
  { apply parser_ok_new; [done|done|done| |intros k Hk%(po_super _ _ _ Hok); lia].
    constructor; cbn; [exists start; split_and!; done || lia|]. apply (po_super _ _ _ Hok). }
  apply wp_bind. eapply wp_count_in_super; [done| |].
  { cbn. intros k Hk%(po_super _ _ _ Hok). rewrite length_insert. lia. }
  apply wp_ret. apply HS; [done|done|]. by apply (parser_ok_bump _ _ _ (js_toksuper st)) in Hok'.
Qed.

(** What a turn of the loop may come to on an array of tokens. *)
Definition turn_ok (js : list Z) (c : Z) (st : jsmn_parser) (l : list jsmntok_t) (r : jsmnerr + nat)
    (st' : jsmn_parser) : Prop :=
  match r with
  | inl e =>
    (exists e', advance js c (js_pos st) = inl e') \/ e = JSMN_ERROR_INVAL
    \/ (js_toknext st = length l /\ exists p, advance js c (js_pos st) = inr (1, p))
  | inr n =>
    advance js c (js_pos st) = inr (n, js_pos st') /\ js_toknext st' = js_toknext st + n
    /\ js_pos st <= js_pos st' < length js
    /\ exists l', parser_ok (length js) st' l' /\ length l' = length l
  end.

Lemma parse_close_turn js c st l type :
  parser_ok (length js) st l -> js !! js_pos st = Some c -> advance js c (js_pos st) = inr (0, js_pos st) ->
  wp (ok ← parse_close type; turn ok JSMN_ERROR_INVAL 0) (turn_ok js c st l) st.
Proof.
  intros Hok Hc Ha. assert (Hpos : js_pos st < length js) by (by eapply lookup_lt_Some).
  apply wp_bind. unfold parse_close. apply wp_bind, wp_get. rewrite (po_tokens _ _ _ Hok).
  destruct (js_toknext st) as [|i] eqn:Hn; [apply wp_ret, wp_ret; right; by left|].
  eapply wp_close_container; [exact Hok|rewrite Hn; lia|lia|done| |].
  - apply wp_ret. right. by left.
  - intros st' l' Hok' Hl Hn' Hp'. apply wp_ret. cbn. rewrite Hp', Hn'. split_and!; [done|lia|lia|lia|by exists l'].
Qed.

Lemma open_container_turn js c st l type :
  parser_ok (length js) st l -> js !! js_pos st = Some c -> advance js c (js_pos st) = inr (1, js_pos st) ->
  is_container type = true ->
  wp (ok ← open_container type; turn ok JSMN_ERROR_NOMEM 1) (turn_ok js c st l) st.
Proof.
  intros Hok Hc Ha Hty. assert (Hpos : js_pos st < length js) by (by eapply lookup_lt_Some).
  apply wp_bind. eapply wp_open_container; [exact Hok| |].
  - intros H. apply wp_ret. right. right. split; [done|by eexists].
  - intros Hlt. apply wp_ret. cbn. split_and!; [done|lia|lia|lia|]. eexists. split; [|by rewrite length_insert, length_bump].
    apply (parser_ok_new _ (set_tokens (bump (js_toksuper st) l) st)); [by apply parser_ok_bump|by rewrite length_bump|done| |].
    + constructor; cbn; [exists (js_pos st); done|]. apply (po_super _ _ _ Hok).
    + intros k [= <-]. done.
Qed.

(** Reading the parser first changes nothing. *)
Lemma parse_scalar_string js st l :
  js_tokens st = Some l ->
  parse_scalar (jsmn_parse_string js) st
  = parse_scalar (match string_scan (drop (S (js_pos st)) js) (S (js_pos st)) 0 with
      | scan_error e => mret (Some e)
      | scan_found pos => ok ← new_token JSMN_STRING (S (js_pos st)) pos;
          if (ok : bool) then mmodify (set_pos pos) ;; mret None else mret (Some JSMN_ERROR_NOMEM)
      end) st.
Proof. intros Hl. unfold parse_scalar, jsmn_parse_string, mbind, M_bind, mget. cbv beta iota zeta. by rewrite Hl. Qed.

Lemma parse_scalar_primitive js st l :
  js_tokens st = Some l ->
  parse_scalar (jsmn_parse_primitive js) st
  = parse_scalar (match primitive_scan (drop (js_pos st) js) (js_pos st) with
      | scan_error e => mret (Some e)
      | scan_found pos => ok ← new_token JSMN_PRIMITIVE (js_pos st) pos;
          if (ok : bool) then mmodify (set_pos (pred pos)) ;; mret None else mret (Some JSMN_ERROR_NOMEM)
      end) st.
Proof. intros Hl. unfold parse_scalar, jsmn_parse_primitive, mbind, M_bind, mget. cbv beta iota zeta. by rewrite Hl. Qed.

Lemma string_turn js c st l :
  parser_ok (length js) st l -> js !! js_pos st = Some c ->
  advance js c (js_pos st) = match string_scan (drop (S (js_pos st)) js) (S (js_pos st)) 0 with
                             | scan_found p => inr (1, p) | scan_error e => inl e end ->
  wp (parse_scalar (jsmn_parse_string js)) (turn_ok js c st l) st.
Proof.
  intros Hok Hc Hadv. assert (Hpos : js_pos st < length js) by (by eapply lookup_lt_Some).
  unfold wp. rewrite (parse_scalar_string _ _ _ (po_tokens _ _ _ Hok)).
  destruct (string_scan _ _ _) as [p|e] eqn:Hscan; [|apply wp_bind, wp_ret, wp_ret; left; by eexists].
  apply string_scan_found with (n := length (drop (S (js_pos st)) js)) in Hscan; [|done].
  rewrite length_drop in Hscan. eapply wp_scalar; [exact Hok|lia|lia|lia| |].
  - intros H. right. right. split; [done|]. by eexists.
  - intros Hlt l' -> Hok'. cbn. split_and!; [done|lia|lia|lia|]. eexists. split; [exact Hok'|].
    by rewrite length_bump, length_insert.
Qed.

Lemma primitive_turn js c st l :
  parser_ok (length js) st l -> js !! js_pos st = Some c -> starts_primitive c = true ->
  advance js c (js_pos st) = match primitive_scan (drop (js_pos st) js) (js_pos st) with
                             | scan_found p => inr (1, pred p) | scan_error e => inl e end ->
  wp (parse_scalar (jsmn_parse_primitive js)) (turn_ok js c st l) st.
Proof.
  intros Hok Hc Hst Hadv. unfold wp. rewrite (parse_scalar_primitive _ _ _ (po_tokens _ _ _ Hok)).
  destruct (primitive_scan _ _) as [p|e] eqn:Hscan; [|apply wp_bind, wp_ret, wp_ret; left; by eexists].
  apply (primitive_scan_start js _ c) in Hscan; [|done|done].
  eapply wp_scalar; [exact Hok|lia|lia|lia| |].
  - intros H. right. right. split; [done|]. by eexists.
  - intros Hlt l' -> Hok'. cbn. split_and!; [done|lia|lia|lia|]. eexists. split; [exact Hok'|].
    by rewrite length_bump, length_insert.
Qed.

Lemma wp_parse_char js c st l :
  parser_ok (length js) st l -> js !! js_pos st = Some c -> wp (parse_char js c) (turn_ok js c st l) st.
Proof.
  intros Hok Hc. assert (Hpos : js_pos st < length js) by (by eapply lookup_lt_Some).
  assert (Hstay : forall st', advance js c (js_pos st) = inr (0, js_pos st) -> parser_ok (length js) st' l ->
    js_toknext st' = js_toknext st -> js_pos st' = js_pos st -> turn_ok js c st l (inr 0) st').
  { intros st' Ha Hok' Hn Hp. cbn. rewrite Hp, Hn. split_and!; [done|lia|lia|lia|by exists l]. }
  assert (Hadv : c <> 123%Z -> c <> 91%Z -> c <> 125%Z -> c <> 93%Z -> advance js c (js_pos st) =
    if (c =? 34)%Z then match string_scan (drop (S (js_pos st)) js) (S (js_pos st)) 0 with
                        | scan_found p => inr (1, p) | scan_error e => inl e end
    else if is_space c || (c =? 58)%Z || (c =? 44)%Z then inr (0, js_pos st)
    else if starts_primitive c then match primitive_scan (drop (js_pos st) js) (js_pos st) with
                                    | scan_found p => inr (1, pred p) | scan_error e => inl e end
    else inl JSMN_ERROR_INVAL).
  { intros. unfold advance. rewrite !(proj2 (Z.eqb_neq _ _)) by done. done. }
  unfold parse_char.
  destruct (Z.eqb_spec c 123) as [->|H1]; [by apply open_container_turn|].
  destruct (Z.eqb_spec c 91) as [->|H2]; [by apply open_container_turn|].
  destruct (Z.eqb_spec c 125) as [->|H3]; [by apply parse_close_turn|].
  destruct (Z.eqb_spec c 93) as [->|H4]; [by apply parse_close_turn|].
  specialize (Hadv H1 H2 H3 H4). clear H1 H2 H3 H4.
  destruct (c =? 34)%Z eqn:H5; [by apply string_turn|].
  destruct (is_space c); [by apply wp_ret, Hstay|].
  destruct (c =? 58)%Z.
  { apply wp_bind, wp_modify, wp_ret. apply Hstay; [done| |done|done].
    apply parser_ok_super; [done|]. intros k. destruct (js_toknext st); [done|]. intros [= <-]. lia. }
  destruct (c =? 44)%Z.
  { apply wp_bind. unfold parse_comma. apply wp_bind, wp_get. rewrite (po_tokens _ _ _ Hok).
    destruct (js_toksuper st) as [k|] eqn:Hk; [|by apply wp_ret, wp_ret, Hstay].
    pose proof (po_super _ _ _ Hok k Hk) as Hlt. destruct (parser_ok_lookup _ _ _ _ Hok Hlt) as (t & Ht & Htok).
    apply wp_bind. eapply wp_get_tok; [apply Hok|exact Ht|]. cbv beta.
    destruct (is_container _); [by apply wp_ret, wp_ret, Hstay|]. apply wp_modify, wp_ret.
    apply Hstay; [done| |done|done]. apply parser_ok_super; [done|]. intros p Hp%(to_parent _ _ _ _ Htok). lia. }
  destruct (starts_primitive c) eqn:Hst; [|apply wp_ret; right; by left].
  assert (Hinval : turn_ok js c st l (inl JSMN_ERROR_INVAL) st) by (right; by left).
  apply wp_bind. unfold may_be_primitive. apply wp_bind, wp_get. rewrite (po_tokens _ _ _ Hok).
  destruct (js_toksuper st) as [k|] eqn:Hk; [|apply wp_ret; by apply primitive_turn].
  pose proof (po_super _ _ _ Hok k Hk) as Hlt. destruct (parser_ok_lookup _ _ _ _ Hok Hlt) as (t & Ht & Htok).
  apply wp_bind. eapply wp_get_tok; [apply Hok|exact Ht|]. apply wp_ret.
  destruct (negb _); [by apply primitive_turn|by apply wp_ret].
Qed.

(** ** The loop *)

Lemma parser_ok_step len st l :
  parser_ok len st l -> parser_ok len (set_pos (S (js_pos st)) st) l.
Proof. intros Hok. apply parser_ok_pos; [done|lia]. Qed.

(** What is left of the text from the parser on, in the number of turns. *)
Fixpoint counting (fuel : nat) (js : list Z) (pos count : nat) : jsmnerr + nat :=
  match js !! pos with
  | None => inr count
  | Some c =>
    if (c =? 0)%Z then inr count
    else match fuel with
    | O => inl JSMN_ERROR_PART
    | S fuel =>
      match advance js c pos with
      | inl e => inl e
      | inr (n, p) => counting fuel js (S p) (count + n)
      end
    end
  end.

Lemma counting_le fuel : forall js pos count c, counting fuel js pos count = inr c -> count <= c.
Proof.
  induction fuel as [|fuel IH]; intros js pos count c; cbn [counting];
    (destruct (js !! pos) as [ch|]; [|intros [= <-]; lia]); (destruct (ch =? 0)%Z; [intros [= <-]; lia|]); [done|].
  destruct (advance js ch pos) as [e|[n p]]; [done|]. intros H%IH. lia.
Qed.

(** The loop on an array ends without a crash, with the parser in order; it
    needs no more tokens than are counted. *)
Lemma wp_parse_loop js fuel : forall st l count,
  parser_ok (length js) st l -> length js <= js_pos st + fuel -> count = js_toknext st ->
  wp (parse_loop fuel js count) (fun r st' =>
    match r with
    | inl e => forall c, counting fuel js (js_pos st) count = inr c -> c <= length l -> e = JSMN_ERROR_INVAL
    | inr n => n = js_toknext st' /\ (exists l', parser_ok (length js) st' l' /\ length l' = length l)
        /\ counting fuel js (js_pos st) count = inr n
    end) st.
Proof.
  induction fuel as [|fuel IH]; intros st l count Hok Hfuel Hcount; cbn [parse_loop counting]; apply wp_bind, wp_get;
    (destruct (js !! js_pos st) as [c|] eqn:Hc; [|apply wp_ret; split_and!; [done|by exists l|done]]);
    (destruct (c =? 0)%Z; [apply wp_ret; split_and!; [done|by exists l|done]|]).
  { apply lookup_lt_Some in Hc. lia. }
  apply wp_bind. eapply wp_mono; [by apply wp_parse_char|]. intros [e|n] st1 Hturn; cbn [turn_ok] in Hturn.
  - apply wp_ret. intros c' Hcnt Hlen. destruct Hturn as [[e' He]|[He|[Hfull [p He]]]]; [by rewrite He in Hcnt|done|].
    rewrite He in Hcnt. apply counting_le in Hcnt. lia.
  - destruct Hturn as (-> & Hn & Hp & l' & Hok' & Hl'). apply wp_bind, wp_modify.
    eapply wp_mono; [eapply IH; [by apply parser_ok_step|cbn; lia|cbn; lia]|].
    intros [e|m] st2; cbn [js_pos set_pos].
    + rewrite Hl'. done.
    + intros (-> & (l2 & Hok2 & Hl2) & Hcnt). split_and!; [done|exists l2; split; [done|lia]|done].
Qed.

(** The counting pass. *)
Lemma null_parse_char js c pos :
  let st := {| js_pos := pos; js_toknext := 0; js_toksuper := None; js_tokens := None |} in
  parse_char js c st
  = match advance js c pos with
    | inl e => Ret (inl e) st
    | inr (n, p) => Ret (inr n) (set_pos p st)
    end.
Proof.
  cbv zeta. unfold parse_char, advance.
  destruct (Z.eqb_spec c 123) as [->|H1]; [done|]. destruct (Z.eqb_spec c 91) as [->|H2]; [done|].
  destruct (Z.eqb_spec c 125) as [->|H3]; [done|]. destruct (Z.eqb_spec c 93) as [->|H4]; [done|]. cbn [orb].
  destruct (c =? 34)%Z.
  { unfold parse_scalar, jsmn_parse_string, mbind, M_bind, mget. cbn [js_pos js_tokens].
    by destruct (string_scan _ _ _). }
  destruct (is_space c); [done|]. destruct (c =? 58)%Z; [done|]. destruct (c =? 44)%Z; [done|]. cbn [orb].
  destruct (starts_primitive c); [|done].
  unfold may_be_primitive, parse_scalar, jsmn_parse_primitive, mbind, M_bind, mget. cbn [js_pos js_tokens js_toksuper].
  simpl. by destruct (primitive_scan (drop pos js) pos).
Qed.

Lemma advance_bound js c pos n p : js !! pos = Some c -> advance js c pos = inr (n, p) -> pos <= p < length js.
Proof.
  intros Hc. pose proof (lookup_lt_Some _ _ _ Hc) as Hlt. unfold advance.
  destruct (_ || _); [intros [= <- <-]; lia|]. destruct (_ || _); [intros [= <- <-]; lia|].
  destruct (c =? 34)%Z.
  { destruct (string_scan _ _ _) as [q|] eqn:Hs; [|done]. intros [= <- <-].
    apply string_scan_found with (n := length (drop (S pos) js)) in Hs; [|done]. rewrite length_drop in Hs. lia. }
  destruct (_ || _); [intros [= <- <-]; lia|]. destruct (starts_primitive c) eqn:Hst; [|done].
  destruct (primitive_scan _ _) as [q|] eqn:Hs; [|done]. intros [= <- <-].
  apply (primitive_scan_start js _ c) in Hs; [lia|done|done].
Qed.

Lemma null_parse_loop js fuel : forall pos count,
  length js <= pos + fuel ->
  exists p', parse_loop fuel js count {| js_pos := pos; js_toknext := 0; js_toksuper := None; js_tokens := None |}
    = Ret (counting fuel js pos count) {| js_pos := p'; js_toknext := 0; js_toksuper := None; js_tokens := None |}.
Proof.
  induction fuel as [|fuel IH]; intros pos count Hf; cbn [parse_loop counting]; unfold mbind at 1, M_bind at 1; cbn [mget js_pos];
    (destruct (js !! pos) as [c|] eqn:Hc; [|by exists pos]); (destruct (c =? 0)%Z; [by exists pos|]).
  { apply lookup_lt_Some in Hc. lia. }
  unfold mbind at 1, M_bind at 1. rewrite null_parse_char. destruct (advance js c pos) as [e|[n p]] eqn:Ha; [by exists pos|].
  pose proof (advance_bound _ _ _ _ _ Hc Ha). unfold mbind, M_bind. cbn. apply IH. lia.
Qed.

(** ** The whole function *)

Lemma parser_ok_init len l : parser_ok len (jsmn_init (Some l)) l.
Proof. constructor; cbn; [done|lia|done|intros; lia]. Qed.

Lemma wp_jsmn_parse js l :
  wp (jsmn_parse js) (fun r st => forall n, r = inr n ->
    n = js_toknext st /\ has_open st = false /\ exists l', parser_ok (length js) st l' /\ length l' = length l)
    (jsmn_init (Some l)).
Proof.
  unfold jsmn_parse. apply wp_bind, wp_get, wp_bind.
  eapply wp_mono; [apply (wp_parse_loop js _ (jsmn_init (Some l)) l); [apply parser_ok_init|cbn; lia|done]|].
  intros [e|n] st H; apply wp_bind, wp_get, wp_ret; [done|]. destruct H as (-> & Hl & _).
  destruct (has_open st) eqn:Hopen; [done|]. by intros _ [= <-].
Qed.

(** The tokens of a parser without an open container are closed. *)
Lemma parser_ok_closed len st l i t :
  parser_ok len st l -> has_open st = false -> i < js_toknext st -> l !! i = Some t ->
  (exists s e, tok_start t = Some s /\ tok_end t = Some e /\ s <= e <= len /\ 0 < e)
  /\ forall p, tok_parent t = Some p -> p < i.
Proof.
  intros Hok Hopen Hi Ht. destruct (po_toks _ _ _ Hok i t Hi Ht) as [(s & Hs & _ & He) Hp]. split; [|done].
  exists s. destruct (tok_end t) as [e|] eqn:Hend; [by exists e|]. exfalso.
  unfold has_open in Hopen. rewrite (po_tokens _ _ _ Hok) in Hopen.
  apply not_true_iff_false in Hopen. apply Hopen, existsb_exists. exists t. split.
  - apply list_elem_of_In, (list_elem_of_lookup_2 _ i). by rewrite lookup_take_lt.
  - unfold is_open. by rewrite Hs, Hend.
Qed.

(** The counting pass always returns, and leaves no array. *)
Lemma count_run js : exists r st, jsmn_parse js (jsmn_init None) = Ret r st /\ js_tokens st = None.
Proof.
  destruct (null_parse_loop js (length js) 0 0 ltac:(lia)) as [p' Hloop].
  unfold jsmn_parse, mbind, M_bind. cbn [mget]. change (js_toknext (jsmn_init None)) with 0.
  unfold jsmn_init at 1. rewrite Hloop. by eexists _, _.
Qed.
