(* ===== verification/JsonText.v ===== *)
(** * Tokens of a JSON text

    A JSON value, its text, and the tokens [jsmn_parse] should find in it: one
    per value in the order of the text, each with its bounds, the number of its
    children and its parent. The tokenizer finds exactly these. *)

From Stdlib Require Import ZArith Lia.
From stdpp Require Import base tactics list relations.
From S2P Require Import Prelude CLib Jsmn JsmnSpec.

#[local] Open Scope nat_scope.

(** ** Values and their text *)

(** The text of a number, [true], [false] or [null], and of a string, between its
    quotes, is kept as it is. *)
Local Unset Elimination Schemes.
Inductive json : Type :=
| JPrimitive (text : list Z)
| JString (text : list Z)
| JArray (values : list json)
| JObject (members : list (list Z * json)).
Local Set Elimination Schemes.

(** Induction with the hypothesis for every value inside. *)
Section Induction.
Context (P : json -> Prop).
Context (HP : forall t, P (JPrimitive t)) (HS : forall t, P (JString t)).
Context (HA : forall l, Forall P l -> P (JArray l)) (HO : forall l, Forall (fun m => P m.2) l -> P (JObject l)).

Fixpoint json_ind' (v : json) : P v :=
  match v with
  | JPrimitive t => HP t
  | JString t => HS t
  | JArray l => HA l ((fix go l : Forall P l :=
      match l with [] => Forall_nil_2 _ | v :: l => Forall_cons_2 _ _ _ (json_ind' v) (go l) end) l)
  | JObject l => HO l ((fix go l : Forall (fun m => P m.2) l :=
      match l with [] => Forall_nil_2 _ | m :: l => Forall_cons_2 _ _ _ (json_ind' m.2) (go l) end) l)
  end.
End Induction.

Fixpoint commas (texts : list (list Z)) : list Z :=
  match texts with
  | [] => []
  | [t] => t
  | t :: texts => t ++ 44%Z :: commas texts
  end.

Fixpoint print (v : json) : list Z :=
  match v with
  | JPrimitive t => t
  | JString t => 34%Z :: t ++ [34%Z]
  | JArray l => 91%Z :: commas (print <$> l) ++ [93%Z]
  | JObject l => 123%Z :: commas ((fun m => (34%Z :: m.1 ++ [34%Z; 58%Z]) ++ print m.2) <$> l) ++ [125%Z]
  end.

(** A primitive has a character that may start one, and then printable ones that
    do not end it. *)
Definition wf_primitive (t : list Z) : bool :=
  match t with
  | [] => false
  | c :: _ => starts_primitive c && forallb (fun c => (32 <=? c)%Z && (c <? 127)%Z && negb (ends_primitive c)) t
  end.

(** The text of a string, by the grammar of JSON (RFC 8259, section 7): any byte but
    a quote or a backslash (the tokenizer also lets control characters through, and
    only the zero byte ends its text), or a backslash and one of its eight
    letters, or a backslash, a [u] and four hexadecimal digits. *)
Definition escape_letters : list Z := [34; 92; 47; 98; 102; 110; 114; 116]%Z.

Definition hexadecimal (c : Z) : bool :=
  bool_decide (48 <= c <= 57)%Z || bool_decide (65 <= c <= 70)%Z || bool_decide (97 <= c <= 102)%Z.

Fixpoint wf_string (t : list Z) : bool :=
  match t with
  | [] => true
  | 92 :: 117 :: a :: b :: c :: d :: t => forallb hexadecimal [a; b; c; d] && wf_string t
  | 92 :: c :: t => bool_decide (c ∈ escape_letters) && wf_string t
  | c :: t => bool_decide (c ∉ [0; 34; 92]) && wf_string t
  end%Z.

Fixpoint wf_json (v : json) : bool :=
  match v with
  | JPrimitive t => wf_primitive t
  | JString t => wf_string t
  | JArray l => forallb wf_json l
  | JObject l => forallb (fun m => wf_string m.1 && wf_json m.2) l
  end.

(** ** Its tokens *)

Fixpoint ntokens (v : json) : nat :=
  match v with
  | JPrimitive _ | JString _ => 1
  | JArray l => S (sum_list (ntokens <$> l))
  | JObject l => S (sum_list ((fun m => S (ntokens m.2)) <$> l))
  end.

(** The tokens of the values of an array from position [pos] and index [i] on. *)
Fixpoint tokens_of (v : json) (pos i : nat) (parent : option nat) : list jsmntok_t :=
  match v with
  | JPrimitive t => [scalar_tok JSMN_PRIMITIVE pos (pos + length t) parent]
  | JString t => [scalar_tok JSMN_STRING (S pos) (S pos + length t) parent]
  | JArray l =>
    {| tok_type := JSMN_ARRAY; tok_start := Some pos; tok_end := Some (pos + length (print v));
       tok_size := length l; tok_parent := parent |}
    :: (fix values l pos k :=
          match l with
          | [] => []
          | v :: l => tokens_of v pos k (Some i) ++ values l (S (pos + length (print v))) (k + ntokens v)
          end) l (S pos) (S i)
  | JObject l =>
    {| tok_type := JSMN_OBJECT; tok_start := Some pos; tok_end := Some (pos + length (print v));
       tok_size := length l; tok_parent := parent |}
    :: (fix members l pos k :=
          match l with
          | [] => []
          | (key, v) :: l =>
            let vpos := pos + length key + 3 in
            set_tok_size 1 (scalar_tok JSMN_STRING (S pos) (S pos + length key) (Some i))
            :: tokens_of v vpos (S k) (Some k) ++ members l (S (vpos + length (print v))) (S k + ntokens v)
          end) l (S pos) (S i)
  end.

Fixpoint values_tokens (i : nat) (l : list json) (pos k : nat) : list jsmntok_t :=
  match l with
  | [] => []
  | v :: l => tokens_of v pos k (Some i) ++ values_tokens i l (S (pos + length (print v))) (k + ntokens v)
  end.

Fixpoint members_tokens (i : nat) (l : list (list Z * json)) (pos k : nat) : list jsmntok_t :=
  match l with
  | [] => []
  | (key, v) :: l =>
    let vpos := pos + length key + 3 in
    set_tok_size 1 (scalar_tok JSMN_STRING (S pos) (S pos + length key) (Some i))
    :: tokens_of v vpos (S k) (Some k) ++ members_tokens i l (S (vpos + length (print v))) (S k + ntokens v)
  end.

Definition container_tok (type : jsmntype_t) (start end_ size : nat) (parent : option nat) : jsmntok_t :=
  {| tok_type := type; tok_start := Some start; tok_end := Some end_; tok_size := size; tok_parent := parent |}.

Lemma tokens_of_array l pos i parent :
  tokens_of (JArray l) pos i parent
  = container_tok JSMN_ARRAY pos (pos + length (print (JArray l))) (length l) parent :: values_tokens i l (S pos) (S i).
Proof.
  cbn [tokens_of]. unfold container_tok. f_equal. generalize (S pos) (S i).
  induction l as [|v l IH]; intros p k; cbn [values_tokens]; [done|]. by rewrite IH.
Qed.

Lemma tokens_of_object l pos i parent :
  tokens_of (JObject l) pos i parent
  = container_tok JSMN_OBJECT pos (pos + length (print (JObject l))) (length l) parent :: members_tokens i l (S pos) (S i).
Proof.
  cbn [tokens_of]. unfold container_tok. f_equal. generalize (S pos) (S i).
  induction l as [|[key v] l IH]; intros p k; cbn [members_tokens]; [done|]. cbv zeta. by rewrite IH.
Qed.

Lemma length_tokens_of v : forall pos i parent, length (tokens_of v pos i parent) = ntokens v.
Proof.
  induction v as [t|t|l IH|l IH] using json_ind'; intros pos i parent; [done|done|..].
  - rewrite tokens_of_array. cbn [length ntokens]. f_equal. generalize (S pos) (S i).
    induction IH as [|v l Hv _ IHl]; intros p k; cbn [values_tokens]; [done|].
    rewrite length_app, Hv, IHl. done.
  - rewrite tokens_of_object. cbn [length ntokens]. f_equal. generalize (S pos) (S i).
    induction IH as [|[key v] l Hv _ IHl]; intros p k; cbn [members_tokens]; [done|].
    cbv zeta. cbn [length]. rewrite length_app, Hv, IHl. done.
Qed.

(** ** Turns of the loop *)

(** One turn of the loop of [jsmn_parse] that is not an error. *)
Definition step (js : list Z) (s s' : jsmn_parser * nat) : Prop :=
  exists c n st1, js !! js_pos s.1 = Some c /\ c <> 0%Z /\ parse_char js c s.1 = Ret (inr n) st1
    /\ s' = (set_pos (S (js_pos st1)) st1, s.2 + n).

Lemma step_ok js s s' l :
  step js s s' -> parser_ok (length js) s.1 l ->
  exists l', parser_ok (length js) s'.1 l' /\ length l' = length l /\ js_pos s.1 < js_pos s'.1.
Proof.
  intros (c & n & st1 & Hc & _ & Hp & ->) Hok. pose proof (wp_parse_char js c s.1 l Hok Hc) as Hw.
  unfold wp in Hw. rewrite Hp in Hw. destruct Hw as (_ & _ & Hpos & l' & Hok' & Hl'). exists l'. cbn.
  split_and!; [by apply parser_ok_step|done|lia].
Qed.

Lemma steps_ok js s s' l :
  rtc (step js) s s' -> parser_ok (length js) s.1 l ->
  exists l', parser_ok (length js) s'.1 l' /\ length l' = length l /\ js_pos s.1 <= js_pos s'.1.
Proof.
  intros Hs. revert l. induction Hs as [s|s s1 s2 Hstep _ IH]; intros l Hok; [by exists l|].
  destruct (step_ok _ _ _ _ Hstep Hok) as (l1 & Hok1 & Hl1 & Hp1).
  destruct (IH l1 Hok1) as (l2 & Hok2 & Hl2 & Hp2). exists l2. split_and!; [done|lia|lia].
Qed.

(** Turns up to the end of the text make up the loop. *)
Lemma steps_loop js s s' :
  rtc (step js) s s' -> js_pos s'.1 = length js ->
  forall l fuel, parser_ok (length js) s.1 l -> length js <= js_pos s.1 + fuel ->
  parse_loop fuel js s.2 s.1 = Ret (inr s'.2) s'.1.
Proof.
  intros Hs Hend. induction Hs as [s|s s1 s2 Hstep Hs IH]; intros l fuel Hok Hfuel.
  - destruct fuel; cbn [parse_loop]; unfold mbind, M_bind; cbn [mget]; by rewrite Hend, lookup_ge_None_2.
  - destruct (step_ok _ _ _ _ Hstep Hok) as (l1 & Hok1 & Hl1 & Hp1).
    destruct Hstep as (c & n & st1 & Hc & Hc0 & Hp & ->).
    pose proof (lookup_lt_Some _ _ _ Hc). destruct fuel as [|fuel]; [lia|]. cbn [parse_loop].
    unfold mbind, M_bind. cbn [mget]. rewrite Hc, (proj2 (Z.eqb_neq _ _) Hc0), Hp. cbn [mmodify].
    cbn [fst snd] in *. apply (IH Hend l1); [done|cbn in *; lia].
Qed.

(** The parser with the tokens [dn] made and [rest] still to be used. *)
Definition at_ (pos : nat) (dn : list jsmntok_t) (super : option nat) (rest : list jsmntok_t) : jsmn_parser :=
  {| js_pos := pos; js_toknext := length dn; js_toksuper := super; js_tokens := Some (dn ++ rest) |}.

Lemma char_step js pos dn super rest count c n st1 :
  js !! pos = Some c -> c <> 0%Z ->
  wp (parse_char js c) (fun r st => r = inr n /\ st = st1) (at_ pos dn super rest) ->
  step js (at_ pos dn super rest, count) (set_pos (S (js_pos st1)) st1, count + n).
Proof.
  intros Hc H0 Hw. destruct (wp_run _ _ _ Hw) as (r & st & Hrun & -> & ->). by exists c, n, st1.
Qed.

Lemma insert_next {A} (dn rest : list A) x r : <[length dn := x]> (dn ++ r :: rest) = dn ++ x :: rest.
Proof. rewrite insert_app_r_alt by lia. by rewrite Nat.sub_diag. Qed.

Lemma bump_app super dn rest :
  (forall k, super = Some k -> k < length dn) -> bump super (dn ++ rest) = bump super dn ++ rest.
Proof.
  destruct super as [k|]; [|done]. intros Hk. specialize (Hk k eq_refl). cbn [bump].
  destruct (lookup_lt_is_Some_2 dn k Hk) as [t Ht].
  rewrite (alter_as_insert _ _ _ t); [|by apply lookup_app_l_Some].
  rewrite insert_app_l by done. by rewrite (alter_as_insert _ _ _ t Ht).
Qed.

Definition ok (js : list Z) (st : jsmn_parser) : Prop := exists l, parser_ok (length js) st l.

Lemma ok_at js pos dn super rest : ok js (at_ pos dn super rest) -> parser_ok (length js) (at_ pos dn super rest) (dn ++ rest).
Proof. intros [l Hok]. pose proof (po_tokens _ _ _ Hok) as Hl. cbn in Hl. by injection Hl as <-. Qed.

Lemma ok_super js pos dn super rest k : ok js (at_ pos dn super rest) -> super = Some k -> k < length dn.
Proof. intros Hok%ok_at Hk. exact (po_super _ _ _ Hok k Hk). Qed.

Lemma ok_steps js s s' : rtc (step js) s s' -> ok js s.1 -> ok js s'.1.
Proof. intros Hs [l Hok]. destruct (steps_ok _ _ _ _ Hs Hok) as (l' & ? & _). by exists l'. Qed.

Lemma ok_step js s s' : step js s s' -> ok js s.1 -> ok js s'.1.
Proof. intros Hs. apply ok_steps. by apply rtc_once. Qed.

Lemma open_step js pos dn super r rest count c type :
  ok js (at_ pos dn super (r :: rest)) -> js !! pos = Some c ->
  (c = 123%Z /\ type = JSMN_OBJECT) \/ (c = 91%Z /\ type = JSMN_ARRAY) ->
  step js (at_ pos dn super (r :: rest), count)
    (at_ (S pos) (bump super dn ++ [open_tok type pos super]) (Some (length dn)) rest, count + 1).
Proof.
  intros Hok Hc Hty. pose proof (ok_at _ _ _ _ _ Hok) as Hp.
  refine (char_step js pos dn super (r :: rest) count c 1
    (at_ pos (bump super dn ++ [open_tok type pos super]) (Some (length dn)) rest) Hc _ _);
    [destruct Hty as [[-> _]|[-> _]]; done|].
  assert (Hw : wp (ok ← open_container type; turn ok JSMN_ERROR_NOMEM 1)
    (fun r0 st => r0 = inr 1 /\ st = at_ pos (bump super dn ++ [open_tok type pos super]) (Some (length dn)) rest)
    (at_ pos dn super (r :: rest))).
  { apply wp_bind. eapply wp_open_container; [exact Hp| |].
    - cbn. rewrite length_app. cbn. lia.
    - intros _. apply wp_ret. split; [done|]. unfold at_. cbn [js_pos js_toknext js_toksuper].
      rewrite length_app, length_bump. cbn [length]. rewrite Nat.add_1_r. f_equal. f_equal.
      rewrite bump_app by (intros k; by apply (ok_super _ _ _ _ _ _ Hok)).
      rewrite <- (length_bump super dn), insert_next. by rewrite <- app_assoc. }
  unfold parse_char. by destruct Hty as [[-> ->]|[-> ->]].
Qed.

(** A scalar that was scanned: [pos'] is where the parser is left. *)
Lemma scalar_result js pos dn super r rest type start p pos' :
  ok js (at_ pos dn super (r :: rest)) -> start <= p <= length js /\ 0 < p -> start <= pos' -> pos <= pos' ->
  wp (parse_scalar (ok ← new_token type start p;
                    if (ok : bool) then mmodify (set_pos pos') ;; mret None
                    else mret (Some JSMN_ERROR_NOMEM)))
    (fun r0 st => r0 = inr 1 /\ st = at_ pos' (bump super dn ++ [scalar_tok type start p super]) super rest)
    (at_ pos dn super (r :: rest)).
Proof.
  intros Hok Hp Hs Hpos. eapply wp_scalar; [by apply ok_at|done|done|done| |].
  - cbn. rewrite length_app. cbn. lia.
  - intros _ l' -> _. split; [done|]. unfold at_. cbn [js_toknext js_toksuper].
    rewrite length_app, length_bump. cbn [length]. rewrite Nat.add_1_r. f_equal. f_equal.
    rewrite insert_next. change (dn ++ scalar_tok type start p super :: rest) with (dn ++ [scalar_tok type start p super] ++ rest).
    rewrite bump_app by (intros k; by apply (ok_super _ _ _ _ _ _ Hok)). by rewrite <- app_assoc.
Qed.

Lemma string_step js pos dn super r rest count p :
  ok js (at_ pos dn super (r :: rest)) -> js !! pos = Some 34%Z ->
  string_scan (drop (S pos) js) (S pos) 0 = scan_found p ->
  step js (at_ pos dn super (r :: rest), count)
    (at_ (S p) (bump super dn ++ [scalar_tok JSMN_STRING (S pos) p super]) super rest, count + 1).
Proof.
  intros Hok Hc Hscan.
  pose proof (string_scan_found (length (drop (S pos) js)) _ _ _ _ (le_n _) Hscan) as Hp. rewrite length_drop in Hp.
  pose proof (lookup_lt_Some _ _ _ Hc).
  refine (char_step js pos dn super (r :: rest) count 34%Z 1
    (at_ p (bump super dn ++ [scalar_tok JSMN_STRING (S pos) p super]) super rest) Hc _ _); [done|].
  change (parse_char js 34%Z) with (parse_scalar (jsmn_parse_string js)).
  unfold wp. rewrite (parse_scalar_string js (at_ pos dn super (r :: rest)) _ eq_refl). cbn [js_pos at_]. rewrite Hscan.
  apply (scalar_result js); [done|lia|lia|lia].
Qed.

(** Whether a primitive may be a child of a token: not of an object, nor a second
    value of a key. *)
Definition takes_primitive (dn : list jsmntok_t) (super : option nat) : Prop :=
  forall k t, super = Some k -> dn !! k = Some t ->
    tok_type t = JSMN_ARRAY \/ (tok_type t = JSMN_STRING /\ tok_size t = 0).

Lemma primitive_step js pos dn super r rest count c p :
  ok js (at_ pos dn super (r :: rest)) -> js !! pos = Some c -> starts_primitive c = true ->
  takes_primitive dn super -> primitive_scan (drop pos js) pos = scan_found p ->
  step js (at_ pos dn super (r :: rest), count)
    (at_ p (bump super dn ++ [scalar_tok JSMN_PRIMITIVE pos p super]) super rest, count + 1).
Proof.
  intros Hok Hc Hst Htakes Hscan. pose proof (primitive_scan_start js pos c p Hc Hst Hscan) as Hp.
  assert (Hend : p = S (pred p)) by lia.
  rewrite Hend at 1. refine (char_step js pos dn super (r :: rest) count c 1
    (at_ (pred p) (bump super dn ++ [scalar_tok JSMN_PRIMITIVE pos p super]) super rest) Hc _ _).
  { intros ->. done. }
  assert (Hchar : parse_char js c = (ok ← may_be_primitive;
    if (ok : bool) then parse_scalar (jsmn_parse_primitive js) else mret (inl JSMN_ERROR_INVAL))).
  { unfold parse_char, is_space. unfold starts_primitive in Hst. revert Hst.
    rewrite !orb_true_iff, !andb_true_iff, !Z.leb_le, !Z.eqb_eq. intros Hst.
    rewrite !(proj2 (Z.eqb_neq c _)) by lia. cbn [orb]. unfold starts_primitive.
    replace (_ || _) with true; [done|]. symmetry.
    rewrite !orb_true_iff, !andb_true_iff, !Z.leb_le, !Z.eqb_eq. done. }
  rewrite Hchar. apply wp_bind. unfold may_be_primitive. apply wp_bind, wp_get. cbn [js_tokens js_toksuper at_].
  assert (Hrun : wp (parse_scalar (jsmn_parse_primitive js))
    (fun r0 st => r0 = inr 1 /\ st = at_ (pred p) (bump super dn ++ [scalar_tok JSMN_PRIMITIVE pos p super]) super rest)
    (at_ pos dn super (r :: rest))).
  { unfold wp. rewrite (parse_scalar_primitive js (at_ pos dn super (r :: rest)) _ eq_refl). cbn [js_pos at_]. rewrite Hscan.
    apply (scalar_result js); [done|lia|lia|lia]. }
  destruct super as [k|]; [|by apply wp_ret].
  pose proof (ok_super _ _ _ _ _ _ Hok eq_refl) as Hk. destruct (lookup_lt_is_Some_2 dn k Hk) as [t Ht].
  apply wp_bind. eapply wp_get_tok; [done|by apply lookup_app_l_Some|]. apply wp_ret.
  destruct (Htakes k t eq_refl Ht) as [Hty|[Hty Hsz]]; rewrite Hty; [|rewrite Hsz]; exact Hrun.
Qed.

Lemma colon_step js pos dn super rest count :
  js !! pos = Some 58%Z -> dn <> [] ->
  step js (at_ pos dn super rest, count) (at_ (S pos) dn (Some (pred (length dn))) rest, count + 0).
Proof.
  intros Hc Hne. refine (char_step js pos dn super rest count 58%Z 0
    (at_ pos dn (Some (pred (length dn))) rest) Hc _ _); [done|].
  change (parse_char js 58%Z) with (parse_colon ;; mret (inr 0) : M jsmn_parser (jsmnerr + nat)).
  apply wp_bind, wp_modify, wp_ret. split; [done|]. unfold at_, set_toksuper. cbn.
  destruct dn; [done|]. done.
Qed.

Lemma comma_step js pos dn k t rest count :
  ok js (at_ pos dn (Some k) rest) -> js !! pos = Some 44%Z -> dn !! k = Some t ->
  step js (at_ pos dn (Some k) rest, count)
    (at_ (S pos) dn (if is_container (tok_type t) then Some k else tok_parent t) rest, count + 0).
Proof.
  intros Hok Hc Ht. refine (char_step js pos dn (Some k) rest count 44%Z 0
    (at_ pos dn (if is_container (tok_type t) then Some k else tok_parent t) rest) Hc _ _); [done|].
  change (parse_char js 44%Z) with (parse_comma ;; mret (inr 0) : M jsmn_parser (jsmnerr + nat)).
  apply wp_bind. unfold parse_comma. apply wp_bind, wp_get. cbn [js_tokens js_toksuper at_].
  apply wp_bind. eapply wp_get_tok; [done|by apply lookup_app_l_Some|]. cbv beta.
  destruct (is_container (tok_type t)); [by apply wp_ret, wp_ret|]. by apply wp_modify, wp_ret.
Qed.

(** Walking up through closed tokens, to the open one at [n]. *)
Lemma wp_close_chain type n o fuel : forall pos dn super rest i (Q : bool -> jsmn_parser -> Prop),
  dn !! n = Some o -> is_open o = true -> tok_type o = type ->
  (forall j t, n < j -> dn !! j = Some t -> is_open t = false /\ exists p, tok_parent t = Some p /\ n <= p < j) ->
  n <= i < length dn -> i < fuel ->
  Q true (at_ pos (<[n := set_tok_end (Some (S pos)) o]> dn) (tok_parent o) rest) ->
  wp (close_container fuel type i) Q (at_ pos dn super rest).
Proof.
  induction fuel as [|fuel IH]; intros pos dn super rest i Q Ho Hopen Hty Hchain Hi Hfuel HQ; [lia|].
  cbn [close_container]. destruct (lookup_lt_is_Some_2 dn i ltac:(lia)) as [t Ht].
  apply wp_bind. eapply wp_get_tok; [done|by apply lookup_app_l_Some|]. cbv beta.
  destruct (decide (i = n)) as [->|Hne].
  - rewrite Ho in Ht. injection Ht as <-. rewrite Hopen, bool_decide_eq_true_2 by done. apply wp_bind, wp_get.
    apply wp_bind. eapply wp_upd_tok; [done|by apply lookup_app_l_Some|]. apply wp_bind, wp_modify, wp_ret.
    rewrite insert_app_l by lia. unfold at_ in *. cbn. by rewrite length_insert in HQ.
  - destruct (Hchain i t ltac:(lia) Ht) as (-> & p & -> & Hp). eapply IH; [exact Ho|done|done|done|lia|lia|done].
Qed.

Lemma close_step js pos dn super rest count c type n o :
  js !! pos = Some c -> (c = 125%Z /\ type = JSMN_OBJECT) \/ (c = 93%Z /\ type = JSMN_ARRAY) ->
  dn !! n = Some o -> is_open o = true -> tok_type o = type ->
  (forall j t, n < j -> dn !! j = Some t -> is_open t = false /\ exists p, tok_parent t = Some p /\ n <= p < j) ->
  step js (at_ pos dn super rest, count)
    (at_ (S pos) (<[n := set_tok_end (Some (S pos)) o]> dn) (tok_parent o) rest, count + 0).
Proof.
  intros Hc Hty Ho Hopen Htype Hchain. refine (char_step js pos dn super rest count c 0
    (at_ pos (<[n := set_tok_end (Some (S pos)) o]> dn) (tok_parent o) rest) Hc _ _).
  { by destruct Hty as [[-> _]|[-> _]]. }
  assert (Hw : wp (ok ← parse_close type; turn ok JSMN_ERROR_INVAL 0)
    (fun r st => r = inr 0 /\ st = at_ pos (<[n := set_tok_end (Some (S pos)) o]> dn) (tok_parent o) rest)
    (at_ pos dn super rest)).
  { apply wp_bind. unfold parse_close. apply wp_bind, wp_get. cbn [js_tokens js_toknext at_].
    pose proof (lookup_lt_Some _ _ _ Ho) as Hn. destruct (length dn) as [|i] eqn:Hlen; [lia|].
    eapply (wp_close_chain type n o); [done|done|done|done|lia|lia|]. by apply wp_ret. }
  destruct Hty as [[-> ->]|[-> ->]]; exact Hw.
Qed.

(** ** The scanners on a text *)

Lemma is_hex_hexadecimal c : is_hex c = hexadecimal c.
Proof. unfold is_hex, hexadecimal. repeat case_bool_decide; lia. Qed.

Lemma is_escape_letter c : is_escape c = bool_decide (c ∈ escape_letters).
Proof.
  unfold is_escape, escape_letters. case_bool_decide as Hc; rewrite !elem_of_cons, elem_of_nil in Hc; lia.
Qed.

(** An ordinary byte, and the two kinds of escapes. *)
Lemma string_scan_byte c t pos :
  c ∉ [0; 34; 92]%Z -> string_scan (c :: t) pos 0 = string_scan t (S pos) 0.
Proof.
  rewrite !elem_of_cons, elem_of_nil. intros Hc. cbn [string_scan].
  by rewrite !(proj2 (Z.eqb_neq _ _)) by tauto.
Qed.

Lemma string_scan_hex n : forall ds t pos,
  length ds = n -> forallb hexadecimal ds = true -> string_scan (ds ++ t) pos n = string_scan t (pos + n) 0.
Proof.
  induction n as [|n IH]; intros [|d ds] t pos Hl Hd; try done; [by rewrite Nat.add_0_r|].
  cbn [forallb] in Hd. apply andb_true_iff in Hd as [Hd Hds]. cbn [app string_scan].
  assert (Hz : (d =? 0)%Z = false) by (destruct (Z.eqb_spec d 0) as [->|]; [by vm_compute in Hd|done]).
  rewrite Hz, is_hex_hexadecimal, Hd, IH by (done || by injection Hl). f_equal. lia.
Qed.

Lemma string_scan_escape c t pos :
  bool_decide (c ∈ escape_letters) = true -> string_scan (92%Z :: c :: t) pos 0 = string_scan t (S (S pos)) 0.
Proof. rewrite <- is_escape_letter. intros Hc. cbn [string_scan]. change (92 =? 0)%Z with false. by rewrite Hc. Qed.

Lemma string_scan_unicode a b c d t pos :
  forallb hexadecimal [a; b; c; d] = true ->
  string_scan (92 :: 117 :: a :: b :: c :: d :: t)%Z pos 0 = string_scan t (pos + 6) 0.
Proof.
  intros Hd. pose proof (string_scan_hex 4 [a; b; c; d] t (S (S pos)) eq_refl Hd) as Hs.
  cbn [app] in Hs. replace (pos + 6) with (S (S pos) + 4) by lia. rewrite <- Hs. done.
Qed.

(** The cases of the grammar. *)
Lemma wf_string_letter c t :
  c <> 117%Z -> wf_string (92%Z :: c :: t) = bool_decide (c ∈ escape_letters) && wf_string t.
Proof. intros Hc. destruct c as [|c|c]; [done| |done]. do 7 (destruct c as [c|c|]; try done). Qed.

Lemma wf_string_other c t : c <> 92%Z -> wf_string (c :: t) = bool_decide (c ∉ [0; 34; 92]%Z) && wf_string t.
Proof. intros Hc. destruct c as [|c|c]; [done| |done]. do 7 (destruct c as [c|c|]; try done). Qed.

Lemma wf_string_byte c t : c ∉ [0; 34; 92]%Z -> wf_string (c :: t) = wf_string t.
Proof.
  intros Hc. rewrite wf_string_other, bool_decide_eq_true_2 by (done || intros ->; set_solver). done.
Qed.

Lemma wf_string_cases (P : list Z -> Prop) :
  P [] -> (forall c t, c ∉ [0; 34; 92]%Z -> P t -> P (c :: t)) ->
  (forall c t, bool_decide (c ∈ escape_letters) = true -> P t -> P (92%Z :: c :: t)) ->
  (forall a b c d t, forallb hexadecimal [a; b; c; d] = true -> P t -> P (92 :: 117 :: a :: b :: c :: d :: t)%Z) ->
  forall t, wf_string t = true -> P t.
Proof.
  intros H0 Hbyte Hesc Hu t. induction t as [t IH] using (induction_ltof1 _ length). unfold ltof in IH.
  destruct t as [|c t]; [done|]. intros Hwf. destruct (decide (c = 92%Z)) as [->|Hc].
  - destruct t as [|c t]; [done|]. destruct (decide (c = 117%Z)) as [->|Hc].
    + destruct t as [|a [|b [|c [|d t]]]]; try done. cbn [wf_string] in Hwf. apply andb_true_iff in Hwf as [Hd Hwf].
      apply Hu; [done|]. apply IH; [cbn; lia|done].
    + rewrite wf_string_letter in Hwf by done. apply andb_true_iff in Hwf as [Hd Hwf]. apply Hesc; [done|]. apply IH; [cbn; lia|done].
  - assert (Hs : wf_string (c :: t) = bool_decide (c ∉ [0; 34; 92]%Z) && wf_string t) by (by apply wf_string_other).
    rewrite Hs in Hwf. apply andb_true_iff in Hwf as [Hd%bool_decide_eq_true Hwf]. apply Hbyte; [done|].
    apply IH; [cbn; lia|done].
Qed.

(** The scanner stops at the quote that ends a string, and at no quote before it. *)
Lemma wf_string_scan t pos k : wf_string t = true -> string_scan (t ++ 34%Z :: k) pos 0 = scan_found (pos + length t).
Proof.
  intros Hwf. revert pos. pattern t. revert t Hwf. apply wf_string_cases.
  - intros pos. cbn. by rewrite Nat.add_0_r.
  - intros c t Hc IH pos. cbn [app]. rewrite string_scan_byte, IH by done. cbn [length]. f_equal. lia.
  - intros c t Hc IH pos. cbn [app]. rewrite string_scan_escape, IH by done. cbn [length]. f_equal. lia.
  - intros a b c d t Hd IH pos. cbn [app]. rewrite string_scan_unicode, IH by done. cbn [length]. f_equal. lia.
Qed.

Lemma string_scan_hex_inv t pos n p :
  string_scan (t ++ [34%Z]) pos (S n) = scan_found p ->
  exists d t', t = d :: t' /\ hexadecimal d = true /\ string_scan (t' ++ [34%Z]) (S pos) n = scan_found p.
Proof.
  destruct t as [|d t]; [done|]. cbn [app string_scan]. destruct (d =? 0)%Z; [done|]. rewrite is_hex_hexadecimal.
  destruct (hexadecimal d) eqn:Hd; [|done]. intros Hs. by exists d, t.
Qed.

(** It accepts no other text. *)
Lemma string_scan_wf n : forall t pos,
  length t <= n -> string_scan (t ++ [34%Z]) pos 0 = scan_found (pos + length t) -> wf_string t = true.
Proof.
  induction n as [|n IH]; intros [|c t] pos Hn; cbn [length] in Hn; try done; try lia. cbn [app length].
  destruct (decide (c ∈ [0; 34; 92]%Z)) as [Hc|Hc].
  - rewrite !elem_of_cons, elem_of_nil in Hc. destruct Hc as [->|[->|[->|[]]]]; [done|cbn; intros [= H]; lia|].
    destruct t as [|c t]; [done|]. cbn [app length] in *.
    destruct (bool_decide (c ∈ escape_letters)) eqn:Hesc.
    + rewrite string_scan_escape by done. intros Hs. rewrite wf_string_letter, Hesc; [apply (IH t (S (S pos))); [lia|rewrite Hs; f_equal; lia]|].
      intros ->. by vm_compute in Hesc.
    + cbn [string_scan]. change (92 =? 0)%Z with false. change (92 =? 34)%Z with false. change (92 =? 92)%Z with true.
      cbv iota. rewrite is_escape_letter, Hesc. destruct (Z.eqb_spec c 117) as [->|]; [|done].
      intros Hs. do 4 (apply string_scan_hex_inv in Hs as (? & ? & -> & ? & Hs)). cbn [length] in *.
      cbn [wf_string forallb]. repeat match goal with H : hexadecimal _ = true |- _ => rewrite H end.
      eapply IH; [|rewrite Hs; f_equal]; lia.
  - rewrite string_scan_byte by done. intros Hs. rewrite wf_string_byte by done.
    apply (IH t (S pos)); [lia|rewrite Hs; f_equal; lia].
Qed.

Lemma wf_primitive_scan t d k pos :
  wf_primitive t = true -> ends_primitive d = true ->
  primitive_scan (t ++ d :: k) pos = scan_found (pos + length t).
Proof.
  intros Ht Hd. assert (Hd0 : (d =? 0)%Z = false).
  { apply Z.eqb_neq. intros ->. done. }
  assert (Hall : forallb (fun c => (32 <=? c)%Z && (c <? 127)%Z && negb (ends_primitive c)) t = true).
  { destruct t; [done|]. by apply andb_true_iff in Ht as [_ ?]. }
  clear Ht. revert pos. induction t as [|c t IH]; intros pos; cbn [app primitive_scan length].
  - rewrite Hd0, Hd. by rewrite Nat.add_0_r.
  - apply andb_true_iff in Hall as [Hc Hall]. apply andb_true_iff in Hc as [Hc He].
    apply andb_true_iff in Hc as [H1%Z.leb_le H2%Z.ltb_lt].
    rewrite (proj2 (Z.eqb_neq c 0)) by lia. apply negb_true_iff in He as ->.
    rewrite (proj2 (Z.ltb_ge c 32)), (proj2 (Z.leb_gt 127 c)) by lia. cbn [orb].
    rewrite IH by done. f_equal. lia.
Qed.

(** ** The tokens of a value are closed and in order *)

Definition chained (n i : nat) (ts : list jsmntok_t) : Prop :=
  forall j t, ts !! j = Some t -> is_open t = false /\ exists p, tok_parent t = Some p /\ n <= p < i + j.

Lemma chained_app n i ts1 ts2 : chained n i ts1 -> chained n (i + length ts1) ts2 -> chained n i (ts1 ++ ts2).
Proof.
  intros H1 H2 j t [Ht|[Hj Ht]]%lookup_app_Some; [by apply H1|].
  destruct (H2 _ _ Ht) as (Ho & p & Hp & Hlt). split; [done|]. exists p. split; [done|lia].
Qed.

Lemma chained_mono n n' i ts : n <= n' -> chained n' i ts -> chained n i ts.
Proof. intros Hn H j t Ht. destruct (H j t Ht) as (? & p & ? & ?). split; [done|]. exists p. split; [done|lia]. Qed.

Lemma chained_cons n i t ts :
  is_open t = false -> (exists p, tok_parent t = Some p /\ n <= p < i) -> chained n (S i) ts -> chained n i (t :: ts).
Proof.
  intros Ho (p & Hp & Hlt) Hts [|j] t'; cbn.
  - intros [= <-]. split; [done|]. exists p. split; [done|lia].
  - intros Ht. destruct (Hts j t' Ht) as (? & q & ? & ?). split; [done|]. exists q. split; [done|lia].
Qed.

Lemma tokens_of_chained v : forall pos i sup, sup < i -> chained sup i (tokens_of v pos i (Some sup)).
Proof.
  induction v as [t|t|l IH|l IH] using json_ind'; intros pos i sup Hi.
  1,2: apply chained_cons; [done|exists sup; split; [done|lia]|by intros [|?] ?].
  - rewrite tokens_of_array. apply chained_cons; [done|exists sup; split; [done|lia]|].
    apply (chained_mono _ i); [lia|].
    assert (Hk : i < S i) by lia. revert Hk. generalize (S pos) (S i).
    induction IH as [|v l Hv _ IHl]; intros p k Hk; cbn [values_tokens]; [by intros ? ?|].
    apply chained_app; [by apply Hv|]. rewrite length_tokens_of. apply IHl. lia.
  - rewrite tokens_of_object. apply chained_cons; [done|exists sup; split; [done|lia]|].
    apply (chained_mono _ i); [lia|].
    assert (Hk : i < S i) by lia. revert Hk. generalize (S pos) (S i).
    induction IH as [|[key v] l Hv _ IHl]; intros p k Hk; cbn [members_tokens]; [by intros ? ?|].
    cbv zeta. apply chained_cons; [done|exists i; split; [done|lia]|]. apply chained_app.
    + apply (chained_mono _ k); [lia|]. apply Hv. lia.
    + rewrite length_tokens_of. apply IHl. lia.
Qed.

Lemma values_tokens_chained n l : forall pos k, n < k -> chained n k (values_tokens n l pos k).
Proof.
  induction l as [|v l IH]; intros pos k Hk; cbn [values_tokens]; [by intros ? ?|].
  apply chained_app; [by apply tokens_of_chained|]. rewrite length_tokens_of. apply IH. lia.
Qed.

Lemma members_tokens_chained n l : forall pos k, n < k -> chained n k (members_tokens n l pos k).
Proof.
  induction l as [|[key v] l IH]; intros pos k Hk; cbn [members_tokens]; [by intros ? ?|].
  cbv zeta. apply chained_cons; [done|exists n; split; [done|lia]|]. apply chained_app.
  - apply (chained_mono _ k); [lia|]. apply tokens_of_chained. lia.
  - rewrite length_tokens_of. apply IH. lia.
Qed.

(** ** A value from its first character to its last *)

(** A container that is open, with [m] children so far. *)
Definition opened (type : jsmntype_t) (pos : nat) (super : option nat) (m : nat) : jsmntok_t :=
  set_tok_size m (open_tok type pos super).

Lemma bump_opened dn type pos super m ts :
  bump (Some (length dn)) (dn ++ opened type pos super m :: ts) = dn ++ opened type pos super (S m) :: ts.
Proof.
  cbn [bump]. rewrite (alter_as_insert _ _ _ (opened type pos super m)) by apply list_lookup_middle, eq_refl.
  by rewrite insert_next.
Qed.

Definition delimited (v : json) (k : list Z) : Prop :=
  match v with
  | JPrimitive _ => exists d k', k = d :: k' /\ ends_primitive d = true
  | _ => True
  end.

Definition value_ok (v : json) : Prop :=
  wf_json v = true -> forall js pre k dn super rest count,
  js = pre ++ print v ++ k -> delimited v k -> ok js (at_ (length pre) dn super rest) ->
  takes_primitive dn super -> ntokens v <= length rest ->
  rtc (step js) (at_ (length pre) dn super rest, count)
    (at_ (length pre + length (print v)) (bump super dn ++ tokens_of v (length pre) (length dn) super) super
       (drop (ntokens v) rest), count + ntokens v).

Lemma primitive_ok t : value_ok (JPrimitive t).
Proof.
  intros Hwf js pre k dn super rest count -> (d & k' & -> & Hd) Hok Htakes Hrest. cbn [print] in *.
  destruct rest as [|r rest]; [cbn in Hrest; lia|]. apply rtc_once. destruct t as [|c t]; [done|].
  cbn [tokens_of ntokens drop]. eapply primitive_step; [exact Hok| |by apply andb_true_iff in Hwf as [? _]|done|].
  - by apply list_lookup_middle.
  - rewrite drop_app_length. by apply wf_primitive_scan.
Qed.

Lemma drop_after {A} (pre : list A) c l : drop (S (length pre)) (pre ++ c :: l) = l.
Proof. rewrite <- Nat.add_1_r, <- drop_drop, drop_app_length. done. Qed.

Lemma string_ok t : value_ok (JString t).
Proof.
  intros Hwf js pre k dn super rest count -> _ Hok Htakes Hrest. cbn [print] in *.
  destruct rest as [|r rest]; [cbn in Hrest; lia|]. apply rtc_once. cbn [tokens_of ntokens drop].
  replace (length pre + length (34%Z :: t ++ [34%Z])) with (S (S (length pre) + length t))
    by (cbn [length]; rewrite length_app; cbn; lia).
  eapply string_step; [exact Hok|by apply list_lookup_middle|].
  rewrite <- (wf_string_scan t _ k Hwf). f_equal. cbn [app]. rewrite drop_after. by rewrite <- app_assoc.
Qed.

Lemma rtc_to {A} (R : A -> A -> Prop) x y z : rtc R x y -> y = z -> rtc R x z.
Proof. by intros ? <-. Qed.

Lemma at_eq pos pos' dn dn' super rest rest' (count count' : nat) :
  pos = pos' -> dn = dn' -> rest = rest' -> count = count' ->
  (at_ pos dn super rest, count) = (at_ pos' dn' super rest', count').
Proof. by intros -> -> -> ->. Qed.

Lemma commas_cons t texts : texts <> [] -> commas (t :: texts) = t ++ 44%Z :: commas texts.
Proof. by destruct texts. Qed.

(** The values of an array. *)
Lemma values_ok l : Forall value_ok l -> forallb wf_json l = true ->
  forall js pre k dn apos super m ts rest count,
  js = pre ++ commas (print <$> l) ++ 93%Z :: k ->
  let o := opened JSMN_ARRAY apos super in
  ok js (at_ (length pre) (dn ++ o m :: ts) (Some (length dn)) rest) ->
  sum_list (ntokens <$> l) <= length rest ->
  rtc (step js) (at_ (length pre) (dn ++ o m :: ts) (Some (length dn)) rest, count)
    (at_ (length pre + length (commas (print <$> l)))
       (dn ++ o (m + length l) :: ts ++ values_tokens (length dn) l (length pre) (S (length dn) + length ts))
       (Some (length dn)) (drop (sum_list (ntokens <$> l)) rest), count + sum_list (ntokens <$> l)).
Proof.
  induction 1 as [|v l Hv _ IH]; intros Hwf js pre k dn apos super m ts rest count Hjs o Hok Hrest.
  { cbn. rewrite !Nat.add_0_r, app_nil_r, drop_0. reflexivity. }
  apply andb_true_iff in Hwf as [Hwv Hwl]. change (ntokens v + sum_list (ntokens <$> l) <= length rest) in Hrest.
  set (pos := length pre) in *.
  assert (Htext : exists k', js = pre ++ print v ++ k' /\ delimited v k'
    /\ match l with [] => k' = 93%Z :: k | _ => k' = 44%Z :: commas (print <$> l) ++ 93%Z :: k end).
  { destruct l as [|v2 l].
    - exists (93%Z :: k). split_and!; [done| |done]. destruct v; try done. by exists 93%Z, k.
    - exists (44%Z :: commas (print <$> v2 :: l) ++ 93%Z :: k). split_and!; [| |done].
      + rewrite Hjs. cbn [fmap list_fmap commas]. by rewrite <- app_assoc.
      + destruct v; try done. by eexists 44%Z, _. }
  destruct Htext as (k' & Hjs' & Hdel & Hk').
  assert (Hlen : length (dn ++ o m :: ts) = S (length dn) + length ts) by (rewrite length_app; cbn; lia).
  assert (Htakes : takes_primitive (dn ++ o m :: ts) (Some (length dn))).
  { intros ? t [= <-] Ht. rewrite list_lookup_middle in Ht by done. injection Ht as <-. by left. }
  pose proof (Hv Hwv js pre k' _ _ rest count Hjs' Hdel Hok Htakes ltac:(lia)) as Hsteps.
  unfold o in Hsteps. rewrite bump_opened, <- app_assoc in Hsteps. fold o in Hsteps. rewrite Hlen in Hsteps.
  cbn [app] in Hsteps.
  etransitivity; [exact Hsteps|]. apply (ok_steps _ _ _ Hsteps) in Hok. cbn [fst] in Hok.
  destruct l as [|v2 l].
  { cbn [fmap list_fmap commas length sum_list values_tokens]. rewrite !Nat.add_0_r, app_nil_r, Nat.add_1_r. reflexivity. }
  subst k'. assert (Hcomma : step js
    (at_ (pos + length (print v)) (dn ++ o (S m) :: ts ++ tokens_of v pos (S (length dn) + length ts) (Some (length dn)))
       (Some (length dn)) (drop (ntokens v) rest), count + ntokens v)
    (at_ (length (pre ++ print v ++ [44%Z]))
       (dn ++ o (S m) :: ts ++ tokens_of v pos (S (length dn) + length ts) (Some (length dn)))
       (Some (length dn)) (drop (ntokens v) rest), count + ntokens v + 0)).
  { replace (length (pre ++ print v ++ [44%Z])) with (S (pos + length (print v)))
      by (rewrite !length_app; cbn; unfold pos; lia).
    eapply (comma_step js _ _ (length dn) (o (S m))); [exact Hok| |by apply list_lookup_middle].
    rewrite Hjs', app_assoc. apply list_lookup_middle. by rewrite length_app. }
  eapply rtc_l; [exact Hcomma|]. apply (ok_step _ _ _ Hcomma) in Hok. cbn [fst] in Hok.
  eapply rtc_to.
  - apply (IH Hwl js (pre ++ print v ++ [44%Z]) k); [|exact Hok|rewrite length_drop; lia].
    rewrite Hjs', <- !app_assoc. done.
  - apply at_eq.
    + rewrite !length_app. cbn [fmap list_fmap]. rewrite (commas_cons (print v)), length_app by done. cbn [length]. unfold pos. lia.
    + f_equal. f_equal; [cbn [length]; f_equal; lia|]. cbn [values_tokens]. rewrite <- app_assoc. f_equal. f_equal.
      rewrite !length_app, length_tokens_of. cbn [length]. f_equal; unfold pos; f_equal; lia.
    + by rewrite drop_drop.
    + cbn. lia.
Qed.

(** A key and its colon. *)
Lemma key_ok js pre key k dn apos super m ts r rest count :
  wf_string key = true -> js = pre ++ (34%Z :: key ++ [34%Z; 58%Z]) ++ k ->
  let o := opened JSMN_OBJECT apos super in
  let key_tok := scalar_tok JSMN_STRING (S (length pre)) (S (length pre) + length key) (Some (length dn)) in
  ok js (at_ (length pre) (dn ++ o m :: ts) (Some (length dn)) (r :: rest)) ->
  rtc (step js) (at_ (length pre) (dn ++ o m :: ts) (Some (length dn)) (r :: rest), count)
    (at_ (length (pre ++ 34%Z :: key ++ [34%Z; 58%Z])) ((dn ++ o (S m) :: ts) ++ [key_tok])
       (Some (S (length dn) + length ts)) rest, count + 1).
Proof.
  intros Hwf Hjs o key_tok Hok.
  assert (Hpos : length (pre ++ 34%Z :: key ++ [34%Z; 58%Z]) = S (S (S (length pre) + length key)))
    by (rewrite length_app; cbn; rewrite length_app; cbn; lia).
  assert (Hstr : step js (at_ (length pre) (dn ++ o m :: ts) (Some (length dn)) (r :: rest), count)
    (at_ (S (S (length pre) + length key)) ((dn ++ o (S m) :: ts) ++ [key_tok]) (Some (length dn)) rest, count + 1)).
  { unfold o. rewrite <- bump_opened. apply string_step; [exact Hok| |].
    - rewrite Hjs. by apply list_lookup_middle.
    - rewrite <- (wf_string_scan key _ (58%Z :: k) Hwf). f_equal. rewrite Hjs. cbn [app]. rewrite drop_after.
      by rewrite <- app_assoc. }
  eapply rtc_l; [exact Hstr|]. apply rtc_once. rewrite Hpos.
  replace (S (length dn) + length ts) with (pred (length ((dn ++ o (S m) :: ts) ++ [key_tok])))
    by (rewrite !length_app; cbn; lia).
  rewrite <- (Nat.add_0_r (count + 1)) at 2. apply colon_step; [|by destruct (dn ++ o (S m) :: ts)].
  rewrite Hjs. cbn [app]. rewrite <- app_assoc. cbn [app].
  replace (pre ++ 34%Z :: key ++ 34%Z :: 58%Z :: k) with ((pre ++ 34%Z :: key ++ [34%Z]) ++ 58%Z :: k)
    by (rewrite <- app_assoc; cbn; by rewrite <- app_assoc).
  apply list_lookup_middle. rewrite length_app. cbn. rewrite length_app. cbn. lia.
Qed.

(** A key, its colon and its value. *)
Lemma member_ok js pre key v k dn apos super m ts rest count :
  value_ok v -> wf_string key = true -> wf_json v = true ->
  js = pre ++ ((34%Z :: key ++ [34%Z; 58%Z]) ++ print v) ++ k -> delimited v k ->
  let o := opened JSMN_OBJECT apos super in
  ok js (at_ (length pre) (dn ++ o m :: ts) (Some (length dn)) rest) ->
  S (ntokens v) <= length rest ->
  rtc (step js) (at_ (length pre) (dn ++ o m :: ts) (Some (length dn)) rest, count)
    (at_ (length pre + length ((34%Z :: key ++ [34%Z; 58%Z]) ++ print v))
       (dn ++ o (S m) :: ts ++ members_tokens (length dn) [(key, v)] (length pre) (S (length dn) + length ts))
       (Some (S (length dn) + length ts)) (drop (S (ntokens v)) rest), count + S (ntokens v)).
Proof.
  intros Hv Hwk Hwv Hjs Hdel o Hok Hrest. destruct rest as [|r rest]; [cbn in Hrest; lia|].
  pose proof (key_ok js pre key (print v ++ k) dn apos super m ts r rest count Hwk
    ltac:(rewrite Hjs, <- app_assoc; done) Hok) as Hkey. cbv zeta in Hkey. fold o in Hkey.
  set (kt := scalar_tok _ _ _ _) in Hkey. etransitivity; [exact Hkey|]. apply (ok_steps _ _ _ Hkey) in Hok. cbn [fst] in Hok.
  set (d1 := (dn ++ o (S m) :: ts) ++ [kt]) in *.
  assert (Hn : S (length dn) + length ts = length (dn ++ o (S m) :: ts)) by (rewrite length_app; cbn; lia).
  assert (Hlook : d1 !! (S (length dn) + length ts) = Some kt) by (by apply list_lookup_middle).
  eapply rtc_to.
  - apply (Hv Hwv js _ k); [rewrite Hjs, <- !app_assoc; done|exact Hdel|exact Hok| |cbn in Hrest; lia].
    intros ? t [= <-] Ht. change (d1 !! (S (length dn) + length ts) = Some t) in Ht. rewrite Hlook in Ht. injection Ht as <-. by right.
  - apply at_eq.
    + rewrite !length_app. cbn [length]. rewrite !length_app. cbn. lia.
    + cbn [bump]. rewrite (alter_as_insert _ _ _ kt Hlook). unfold d1. rewrite Hn, insert_next, <- !app_assoc. cbn [app].
      f_equal. f_equal. f_equal. cbn [members_tokens]. cbv zeta. rewrite app_nil_r. cbn [app]. f_equal.
      rewrite <- Hn. f_equal; rewrite !length_app; cbn [length]; rewrite ?length_app; cbn; lia.
    + done.
    + lia.
Qed.

Lemma delimited_by v d k : ends_primitive d = true -> delimited v (d :: k).
Proof. destruct v; [|done..]. by exists d, k. Qed.

Definition member_text (m : list Z * json) : list Z := (34%Z :: m.1 ++ [34%Z; 58%Z]) ++ print m.2.

Lemma members_tokens_cons i key v l pos k :
  members_tokens i ((key, v) :: l) pos k
  = members_tokens i [(key, v)] pos k ++ members_tokens i l (S (pos + length (member_text (key, v)))) (k + S (ntokens v)).
Proof.
  cbn [members_tokens]. cbv zeta. rewrite app_nil_r. cbn [app]. f_equal. f_equal.
  unfold member_text. cbn [fst snd]. rewrite !length_app. cbn [length]. rewrite length_app. cbn [length]. f_equal; lia.
Qed.

Lemma length_member_tokens i key v pos k : length (members_tokens i [(key, v)] pos k) = S (ntokens v).
Proof. cbn. by rewrite app_nil_r, length_tokens_of. Qed.

(** The members of an object: the last key, if any, is left the super token. *)
Lemma members_ok l : Forall (fun m => value_ok m.2) l -> forallb (fun m => wf_string m.1 && wf_json m.2) l = true ->
  forall js pre k dn apos super m ts rest count,
  js = pre ++ commas (member_text <$> l) ++ 125%Z :: k ->
  let o := opened JSMN_OBJECT apos super in
  ok js (at_ (length pre) (dn ++ o m :: ts) (Some (length dn)) rest) ->
  sum_list ((fun m => S (ntokens m.2)) <$> l) <= length rest ->
  exists super', rtc (step js) (at_ (length pre) (dn ++ o m :: ts) (Some (length dn)) rest, count)
    (at_ (length pre + length (commas (member_text <$> l)))
       (dn ++ o (m + length l) :: ts ++ members_tokens (length dn) l (length pre) (S (length dn) + length ts))
       super' (drop (sum_list ((fun m => S (ntokens m.2)) <$> l)) rest),
     count + sum_list ((fun m => S (ntokens m.2)) <$> l)).
Proof.
  induction 1 as [|[key v] l Hv _ IH]; intros Hwf js pre k dn apos super m ts rest count Hjs o Hok Hrest.
  { exists (Some (length dn)). cbn. rewrite !Nat.add_0_r, app_nil_r, drop_0. reflexivity. }
  cbn [fst snd] in Hv. apply andb_true_iff in Hwf as [[Hwk Hwv]%andb_true_iff Hwl].
  change (S (ntokens v) + sum_list ((fun m => S (ntokens m.2)) <$> l) <= length rest) in Hrest.
  destruct l as [|m2 l].
  { eexists. eapply rtc_to.
    - eapply (member_ok js pre key v (125%Z :: k)); [done|done|done|exact Hjs|by apply delimited_by|exact Hok|lia].
    - cbn [fmap list_fmap commas length]. rewrite Nat.add_1_r. apply at_eq; [done|done|by cbn; rewrite Nat.add_0_r|cbn; lia]. }
  set (text := commas (member_text <$> m2 :: l)) in *.
  assert (Hjs' : js = pre ++ member_text (key, v) ++ 44%Z :: text ++ 125%Z :: k)
    by (rewrite Hjs; cbn [fmap list_fmap commas]; by rewrite <- app_assoc).
  pose proof (member_ok js pre key v (44%Z :: text ++ 125%Z :: k) dn apos super m ts rest count Hv Hwk Hwv
    Hjs' ltac:(by apply delimited_by) Hok ltac:(lia)) as Hsteps. cbv zeta in Hsteps. fold o in Hsteps.
  change ((34%Z :: key ++ [34%Z; 58%Z]) ++ print v) with (member_text (key, v)) in Hsteps.
  set (mts := members_tokens _ [(key, v)] _ _) in Hsteps.
  apply (ok_steps _ _ _ Hsteps) in Hok. cbn [fst] in Hok.
  assert (Hcomma : step js
    (at_ (length pre + length (member_text (key, v))) (dn ++ o (S m) :: ts ++ mts)
       (Some (S (length dn) + length ts)) (drop (S (ntokens v)) rest), count + S (ntokens v))
    (at_ (length (pre ++ member_text (key, v) ++ [44%Z])) (dn ++ o (S m) :: ts ++ mts)
       (Some (length dn)) (drop (S (ntokens v)) rest), count + S (ntokens v) + 0)).
  { replace (length (pre ++ member_text (key, v) ++ [44%Z])) with (S (length pre + length (member_text (key, v))))
      by (rewrite !length_app; cbn [length]; lia).
    eapply (comma_step js _ _ (S (length dn) + length ts)
      (set_tok_size 1 (scalar_tok JSMN_STRING (S (length pre)) (S (length pre) + length key) (Some (length dn)))));
      [exact Hok| |].
    - rewrite Hjs', app_assoc. apply list_lookup_middle. by rewrite length_app.
    - change (dn ++ o (S m) :: ts ++ mts) with (dn ++ (o (S m) :: ts) ++ mts). rewrite app_assoc.
      apply list_lookup_middle. rewrite length_app. cbn. lia. }
  destruct (IH Hwl js (pre ++ member_text (key, v) ++ [44%Z]) k dn apos super (S m) (ts ++ mts)
    (drop (S (ntokens v)) rest) (count + S (ntokens v) + 0)) as (super' & Hrest').
  { rewrite Hjs', <- !app_assoc. done. }
  { by apply (ok_step _ _ _ Hcomma) in Hok. }
  { rewrite length_drop. lia. }
  exists super'. etransitivity; [exact Hsteps|]. eapply rtc_l; [exact Hcomma|]. eapply rtc_to; [exact Hrest'|].
  apply at_eq.
  - unfold text. rewrite !length_app. cbn [fmap list_fmap]. rewrite (commas_cons (member_text (key, v))), length_app by done.
    cbn [length]. lia.
  - fold o. f_equal. f_equal; [cbn [length]; f_equal; lia|]. rewrite (members_tokens_cons _ key v).
    fold mts. rewrite <- app_assoc. f_equal. f_equal. rewrite !length_app.
    unfold mts at 1. rewrite length_member_tokens. cbn [length]. f_equal; lia.
  - by rewrite drop_drop.
  - cbn. lia.
Qed.

(** The end of a container whose children are [ts]. *)
Lemma container_close js pos dn super' rest count c type apos super m ts :
  js !! pos = Some c -> (c = 125%Z /\ type = JSMN_OBJECT) \/ (c = 93%Z /\ type = JSMN_ARRAY) ->
  chained (length dn) (S (length dn)) ts ->
  step js (at_ pos (dn ++ opened type apos super m :: ts) super' rest, count)
    (at_ (S pos) (dn ++ container_tok type apos (S pos) m super :: ts) super rest, count + 0).
Proof.
  intros Hc Hty Hts. pose proof (close_step js pos (dn ++ opened type apos super m :: ts) super' rest count c type
    (length dn) (opened type apos super m) Hc Hty) as Hclose.
  rewrite insert_next in Hclose. apply Hclose; [by apply list_lookup_middle|done|done|].
  intros j t Hj Ht. rewrite lookup_app_r in Ht by lia. destruct (j - length dn) as [|i] eqn:Hi; [lia|]. cbn in Ht.
  destruct (Hts i t Ht) as (Ho & p & Hp & Hlt). split; [done|]. exists p. split; [done|lia].
Qed.

(** A container, given what its inside makes of the parser. *)
Lemma container_ok js pre inside k dn super r rest count o c type m n ts :
  js = pre ++ (o :: inside ++ [c]) ++ k ->
  (o = 123%Z /\ c = 125%Z /\ type = JSMN_OBJECT) \/ (o = 91%Z /\ c = 93%Z /\ type = JSMN_ARRAY) ->
  ok js (at_ (length pre) dn super (r :: rest)) ->
  chained (length dn) (S (length dn)) ts ->
  (ok js (at_ (length (pre ++ [o])) (bump super dn ++ [opened type (length pre) super 0]) (Some (length (bump super dn))) rest) ->
   exists super',
   rtc (step js) (at_ (length (pre ++ [o])) (bump super dn ++ [opened type (length pre) super 0])
                    (Some (length (bump super dn))) rest, count + 1)
     (at_ (length (pre ++ [o]) + length inside) (bump super dn ++ opened type (length pre) super m :: ts) super'
        (drop n rest), count + 1 + n)) ->
  rtc (step js) (at_ (length pre) dn super (r :: rest), count)
    (at_ (length pre + length (o :: inside ++ [c]))
       (bump super dn ++ container_tok type (length pre) (length pre + length (o :: inside ++ [c])) m super :: ts)
       super (drop n rest), count + S n).
Proof.
  intros Hjs Hty Hok Hts Hin.
  assert (Hopen : step js (at_ (length pre) dn super (r :: rest), count)
    (at_ (length (pre ++ [o])) (bump super dn ++ [opened type (length pre) super 0]) (Some (length (bump super dn))) rest, count + 1)).
  { rewrite length_app, Nat.add_1_r, length_bump. eapply open_step; [exact Hok|rewrite Hjs; by apply list_lookup_middle|].
    destruct Hty as [(-> & _ & ->)|(-> & _ & ->)]; auto. }
  destruct Hin as (super' & Hin); [by apply (ok_step _ _ _ Hopen) in Hok|].
  eapply rtc_l; [exact Hopen|]. etransitivity; [exact Hin|].
  replace (length pre + length (o :: inside ++ [c])) with (S (length (pre ++ [o]) + length inside))
    by (rewrite length_app; cbn [length]; rewrite length_app; cbn; lia).
  replace (count + S n) with (count + 1 + n + 0) by lia. apply rtc_once.
  eapply (container_close js _ _ _ _ _ c); [|destruct Hty as [(_ & -> & ->)|(_ & -> & ->)]; auto|by rewrite length_bump].
  rewrite Hjs. replace (pre ++ (o :: inside ++ [c]) ++ k) with (((pre ++ [o]) ++ inside) ++ c :: k)
    by (cbn [app]; by rewrite <- !app_assoc).
  apply list_lookup_middle. by rewrite (length_app (pre ++ [o])).
Qed.

Lemma array_ok l : Forall value_ok l -> value_ok (JArray l).
Proof.
  intros Hl Hwf js pre k dn super rest count Hjs _ Hok _ Hrest.
  destruct rest as [|r rest]; [cbn in Hrest; lia|]. rewrite tokens_of_array. cbn [wf_json print ntokens drop] in *.
  eapply container_ok; [exact Hjs|by right|exact Hok|apply values_tokens_chained; lia|].
  intros Hok1. eexists. eapply rtc_to.
  - eapply (values_ok l Hl Hwf js (pre ++ [91%Z]) k); [rewrite Hjs, <- !app_assoc; cbn; by rewrite <- app_assoc|exact Hok1|].
    cbn in Hrest. lia.
  - apply at_eq; [done| |done|done]. rewrite length_bump, length_app, Nat.add_1_r, Nat.add_0_r. done.
Qed.

Lemma object_ok l : Forall (fun m => value_ok m.2) l -> value_ok (JObject l).
Proof.
  intros Hl Hwf js pre k dn super rest count Hjs _ Hok _ Hrest.
  destruct rest as [|r rest]; [cbn in Hrest; lia|]. rewrite tokens_of_object. cbn [wf_json print ntokens drop] in *.
  eapply container_ok; [exact Hjs|by left|exact Hok|apply members_tokens_chained; lia|].
  intros Hok1. edestruct (members_ok l Hl Hwf js (pre ++ [123%Z]) k) as (super' & Hsteps); [|exact Hok1| |].
  - rewrite Hjs, <- !app_assoc. cbn. by rewrite <- app_assoc.
  - cbn in Hrest. lia.
  - exists super'. eapply rtc_to; [exact Hsteps|].
    apply at_eq; [done| |done|done]. rewrite length_bump, length_app, Nat.add_1_r, Nat.add_0_r. done.
Qed.

Lemma values_are_ok v : value_ok v.
Proof.
  induction v as [t|t|l IH|l IH] using json_ind'; [apply primitive_ok|apply string_ok|by apply array_ok|by apply object_ok].
Qed.

(** ** A whole text *)

Lemma has_open_closed pos ts super rest :
  Forall (fun t => is_open t = false) ts -> has_open (at_ pos ts super rest) = false.
Proof.
  intros Hts. unfold has_open, at_. cbn [js_tokens js_toknext]. rewrite take_app_length.
  induction Hts as [|t ts Ht _ IH]; cbn; [done|]. by rewrite Ht, IH.
Qed.

Lemma tokens_of_closed v pos i parent : Forall (fun t => is_open t = false) (tokens_of v pos i parent).
Proof.
  assert (Hsub : forall n k ts, chained n k ts -> Forall (fun t => is_open t = false) ts).
  { intros n k ts Hts. apply Forall_lookup. intros j t Ht. by destruct (Hts j t Ht). }
  destruct v as [t|t|l|l]; [by repeat constructor|by repeat constructor|..].
  - rewrite tokens_of_array. constructor; [done|]. eapply Hsub, (values_tokens_chained i l _ (S i)). lia.
  - rewrite tokens_of_object. constructor; [done|]. eapply Hsub, (members_tokens_chained i l _ (S i)). lia.
Qed.

Lemma parse_print_loop v (l : list jsmntok_t) :
  wf_json v = true -> (forall t, v <> JPrimitive t) -> ntokens v <= length l ->
  parse_loop (length (print v)) (print v) 0 (jsmn_init (Some l))
  = Ret (inr (ntokens v)) (at_ (length (print v)) (tokens_of v 0 0 None) None (drop (ntokens v) l)).
Proof.
  intros Hwf Hv Hl.
  assert (Hdel : delimited v []) by (destruct v as [t| | |]; [by destruct (Hv t)|done..]).
  assert (Hok : ok (print v) (at_ 0 [] None l)) by (exists l; apply parser_ok_init).
  pose proof (values_are_ok v Hwf (print v) [] [] [] None l 0 ltac:(by rewrite app_nil_r) Hdel Hok ltac:(done) Hl) as Hs.
  cbn [length bump app Nat.add] in Hs. destruct Hok as [l0 Hok].
  exact (steps_loop _ _ _ Hs eq_refl l0 (length (print v)) Hok ltac:(cbn; lia)).
Qed.

Lemma parse_print v (l : list jsmntok_t) :
  wf_json v = true -> (forall t, v <> JPrimitive t) -> ntokens v <= length l ->
  jsmn_parse (print v) (jsmn_init (Some l))
  = Ret (inr (ntokens v))
        {| js_pos := length (print v); js_toknext := ntokens v; js_toksuper := None;
           js_tokens := Some (tokens_of v 0 0 None ++ drop (ntokens v) l) |}.
Proof.
  intros Hwf Hv Hl. unfold jsmn_parse, mbind, M_bind. cbn [mget].
  change (js_toknext (jsmn_init (Some l))) with 0. rewrite (parse_print_loop v l Hwf Hv Hl).
  rewrite has_open_closed by apply tokens_of_closed. unfold at_. by rewrite length_tokens_of.
Qed.

Lemma count_print v (l : list jsmntok_t) :
  wf_json v = true -> (forall t, v <> JPrimitive t) -> ntokens v <= length l ->
  exists st, jsmn_parse (print v) (jsmn_init None) = Ret (inr (ntokens v)) st.
Proof.
  intros Hwf Hv Hl.
  pose proof (wp_parse_loop (print v) (length (print v)) (jsmn_init (Some l)) l 0 (parser_ok_init _ l) (le_n _) eq_refl) as Hw.
  unfold wp in Hw. rewrite (parse_print_loop v l Hwf Hv Hl) in Hw. destruct Hw as (_ & _ & Hc).
  destruct (null_parse_loop (print v) (length (print v)) 0 0 (le_n _)) as [p' Hloop].
  unfold jsmn_parse, mbind, M_bind. cbn [mget]. change (js_toknext (jsmn_init None)) with 0.
  unfold jsmn_init at 1. rewrite Hloop. change (js_pos (jsmn_init (Some l))) with 0 in Hc. rewrite Hc. by eexists.
Qed.
