(* ===== verification/JsonThms.v ===== *)
(** * What the tokenizer guarantees

    The properties of [core/jsmn.c] its caller relies on: [lgtd_client_read_callback]
    counts the tokens of its buffer, then makes an array of as many and parses the
    buffer again, and the dispatch reads the text between the bounds of each
    token. *)

From Stdlib Require Import ZArith Lia.
From stdpp Require Import base tactics list relations.
From S2P Require Import Prelude CLib Jsmn JsmnSpec JsonText.

#[local] Open Scope nat_scope.

(** C35: whatever the bytes of the text and whatever was in the array of tokens,
    [jsmn_parse] ends and never leaves the array; when it reports [n] tokens, these
    are the first [n] of the array, which has kept its length, each of them lies in
    the text, was closed, and has a parent, if any, that comes before it. *)
Theorem jsmn_parse_safe js l :
  exists r st, jsmn_parse js (jsmn_init (Some l)) = Ret r st
  /\ forall n, r = inr n -> n = js_toknext st /\ n <= length l
     /\ exists l', js_tokens st = Some l' /\ length l' = length l
     /\ forall i t, i < n -> l' !! i = Some t ->
        (exists s e, tok_start t = Some s /\ tok_end t = Some e /\ s <= e <= length js /\ 0 < e)
        /\ forall p, tok_parent t = Some p -> p < i.
Proof.
  destruct (wp_run _ _ _ (wp_jsmn_parse js l)) as (r & st & Hrun & Hr). exists r, st. split; [done|].
  intros n Hn. destruct (Hr n Hn) as (-> & Hopen & l' & Hok & Hl). pose proof (po_next _ _ _ Hok).
  split_and!; [done|lia|]. exists l'. split_and!; [apply Hok|done|].
  intros i t Hi Ht. by apply (parser_ok_closed _ _ _ i t Hok Hopen).
Qed.

(** C36: the two passes of [lgtd_client_read_callback] agree: when the counting pass
    finds [c] tokens in a text, parsing the text again into an array of [c] tokens
    never runs out of tokens, and uses them all when it succeeds. *)
Theorem jsmn_two_passes js c st l :
  jsmn_parse js (jsmn_init None) = Ret (inr c) st -> length l = c ->
  exists r st', jsmn_parse js (jsmn_init (Some l)) = Ret r st'
  /\ match r with
     | inl e => e = JSMN_ERROR_INVAL \/ e = JSMN_ERROR_PART
     | inr n => n = c
     end.
Proof.
  intros Hcount Hl.
  assert (Hc : counting (length js) js 0 0 = inr c).
  { unfold jsmn_parse, mbind, M_bind in Hcount. cbn [mget] in Hcount.
    destruct (null_parse_loop js (length js) 0 0) as [p' Hloop]; [lia|].
    unfold jsmn_init in Hcount. cbn [js_toknext] in Hcount. rewrite Hloop in Hcount. cbv iota in Hcount.
    destruct (counting (length js) js 0 0); injection Hcount as Hc _; [done|by rewrite Hc]. }
  apply (wp_run _ (fun r st => match r with inl e => _ | inr n => n = c end)).
  unfold jsmn_parse. apply wp_bind, wp_get, wp_bind.
  eapply wp_mono; [apply (wp_parse_loop js _ (jsmn_init (Some l)) l); [apply parser_ok_init|cbn; lia|done]|].
  cbn [js_toknext js_pos jsmn_init]. intros [e|n] st' H; apply wp_bind, wp_get, wp_ret.
  - left. apply (H c Hc). lia.
  - destruct H as (_ & _ & Hn). destruct (has_open st'); [by right|]. congruence.
Qed.

(** C34: [jsmn_parse] finds the structure of a JSON text: for every array, object or
    string, nested to any depth and printed without blanks, the counting pass reports
    the number of values and keys, and on an array of tokens that is large enough the
    second pass reports the same number, and the tokens
    are those of the values in the order of the text, each with its type, its first
    and last positions, the number of its children and the index of its parent (the
    container for a key, the key for its value). *)
Theorem jsmn_parse_print v l :
  wf_json v = true -> (forall t, v <> JPrimitive t) -> ntokens v <= length l ->
  (exists st, jsmn_parse (print v) (jsmn_init None) = Ret (inr (ntokens v)) st)
  /\ jsmn_parse (print v) (jsmn_init (Some l))
     = Ret (inr (ntokens v))
         {| js_pos := length (print v); js_toknext := ntokens v; js_toksuper := None;
            js_tokens := Some (tokens_of v 0 0 None ++ drop (ntokens v) l) |}.
Proof. intros Hwf Hv Hl. split; [by apply (count_print v l)|by apply parse_print]. Qed.

(** ** Witnesses *)

(** [{"a":[1,true],"b":""}]. *)
Definition json_example : json :=
  JObject [([97%Z], JArray [JPrimitive [49%Z]; JPrimitive [116; 114; 117; 101]%Z]); ([98%Z], JString [])].

Definition blank_tok : jsmntok_t :=
  {| tok_type := JSMN_UNDEFINED; tok_start := None; tok_end := None; tok_size := 0; tok_parent := None |}.

Lemma jsmn_two_passes_witness :
  exists r st', jsmn_parse (print json_example) (jsmn_init (Some (replicate 7 blank_tok))) = Ret r st'
  /\ match r with
     | inl e => e = JSMN_ERROR_INVAL \/ e = JSMN_ERROR_PART
     | inr n => n = 7
     end.
Proof.
  refine (jsmn_two_passes (print json_example) 7 _ (replicate 7 blank_tok) _ _); vm_compute; reflexivity.
Defined.

Lemma jsmn_parse_print_witness :
  (exists st, jsmn_parse (print json_example) (jsmn_init None) = Ret (inr 7) st)
  /\ jsmn_parse (print json_example) (jsmn_init (Some (replicate 7 blank_tok)))
     = Ret (inr 7)
         {| js_pos := 21; js_toknext := 7; js_toksuper := None;
            js_tokens := Some (tokens_of json_example 0 0 None) |}.
Proof.
  refine (jsmn_parse_print json_example (replicate 7 blank_tok) _ _ _); vm_compute; [reflexivity|discriminate|].
  repeat constructor.
Defined.
