(* ===== verification/JsonNumbers.v ===== *)
(** * Values of a request: type checks and numbers

    The first part of [core/jsonrpc.c]: the predicates a schema uses to check the
    value of a parameter, and the conversions between the decimal numbers of the
    API and the 16-bit integers of the protocol. The tokens are those of
    [jsmn_parse], which lie in the text. *)

From Stdlib Require Import ZArith Lia String.
From stdpp Require Import base tactics list.
From S2P Require Import Prelude CLib Jsmn.

(** ** Tokens and their text *)

Definition tok_from (t : jsmntok_t) : nat := default 0%nat (tok_start t).
Definition tok_to (t : jsmntok_t) : nat := default 0%nat (tok_end t).
Definition LGTD_JSONRPC_TOKEN_LEN (t : jsmntok_t) : nat := (tok_to t - tok_from t)%nat.

(** [&json[t->start]], and the character there. *)
Definition text_at (t : jsmntok_t) (json : list Z) : list Z := drop (tok_from t) json.
Definition char_at (t : jsmntok_t) (json : list Z) : Z := default 0 (head (text_at t json)).
Definition token_text (t : jsmntok_t) (json : list Z) : list Z := take (LGTD_JSONRPC_TOKEN_LEN t) (text_at t json).

Definition is_type (type : jsmntype_t) (t : jsmntok_t) : bool := bool_decide (tok_type t = type).

(** ** Type checks *)

Definition lgtd_jsonrpc_type_integer (t : jsmntok_t) (json : list Z) : bool :=
  is_type JSMN_PRIMITIVE t
  && let r := strtol (text_at t json) in
     (st_endptr r =? LGTD_JSONRPC_TOKEN_LEN t)%nat && negb (st_erange r).

Fixpoint float01_loop (dot_seen first_digit_is_one : bool) (text : list Z) : bool :=
  match text with
  | [] => true
  | c :: text =>
    if c =? 46 then if dot_seen then false else float01_loop true first_digit_is_one text
    else if dot_seen then
      if (c <? 48) || (57 <? c) then false
      else if first_digit_is_one && negb (c =? 48) then false
      else float01_loop dot_seen first_digit_is_one text
    else if first_digit_is_one then false
    else if c =? 49 then float01_loop dot_seen true text
    else if negb (c =? 48) then false
    else float01_loop dot_seen first_digit_is_one text
  end.

Definition lgtd_jsonrpc_type_float_between_0_and_1 (t : jsmntok_t) (json : list Z) : bool :=
  is_type JSMN_PRIMITIVE t && float01_loop false false (token_text t json).

Definition lgtd_jsonrpc_type_float_between_0_and_360 (t : jsmntok_t) (json : list Z) : bool :=
  let s := text_at t json in
  let len := LGTD_JSONRPC_TOKEN_LEN t in
  let c := char_at t json in
  if negb (is_type JSMN_PRIMITIVE t) then false
  else if negb (c =? 45) && ((57 <? c) || (c <? 48)) then false
  else
    let r := strtol s in
    let endptr := st_endptr r in
    let intpart := st_value r in
    if (negb (endptr =? len)%nat && negb (default 0 (s !! endptr) =? 46))
       || st_erange r || (intpart <? 0) || (360 <? intpart) || ((intpart =? 0) && (c =? 45))
    then false
    else if (endptr =? len)%nat then true
    else
      let f := strtol (drop (S endptr) s) in
      (S endptr + st_endptr f =? len)%nat && negb (st_erange f)
      && (0 <=? st_value f) && ((intpart <? 360) || (st_value f =? 0)).

Definition lgtd_jsonrpc_type_number (t : jsmntok_t) (json : list Z) : bool :=
  is_type JSMN_PRIMITIVE t && ((char_at t json =? 45) || ((48 <=? char_at t json) && (char_at t json <=? 57))).

Definition lgtd_jsonrpc_type_bool (t : jsmntok_t) (json : list Z) : bool :=
  is_type JSMN_PRIMITIVE t && ((char_at t json =? 116) || (char_at t json =? 102)).

(** [memcmp(&json[t->start], "null", LGTD_MIN(t->size, sizeof("null")))], which is
    not zero when they differ: the comparison is not negated, and the length is
    the number of children of the token. *)
Definition lgtd_jsonrpc_type_null (t : jsmntok_t) (json : list Z) : bool :=
  negb (memcmp_eq (text_at t json) (bytes_of_string "null" ++ [0]) (tok_size t `min` 5)).

Definition lgtd_jsonrpc_type_string (t : jsmntok_t) (json : list Z) : bool := is_type JSMN_STRING t.
Definition lgtd_jsonrpc_type_array (t : jsmntok_t) (json : list Z) : bool := is_type JSMN_ARRAY t.
Definition lgtd_jsonrpc_type_object (t : jsmntok_t) (json : list Z) : bool := is_type JSMN_OBJECT t.

Definition lgtd_jsonrpc_type_object_or_array (t : jsmntok_t) (json : list Z) : bool :=
  is_type JSMN_OBJECT t || is_type JSMN_ARRAY t.

Definition lgtd_jsonrpc_type_string_number_or_null (t : jsmntok_t) (json : list Z) : bool :=
  lgtd_jsonrpc_type_number t json || lgtd_jsonrpc_type_null t json || lgtd_jsonrpc_type_string t json.

Definition lgtd_jsonrpc_type_string_or_number (t : jsmntok_t) (json : list Z) : bool :=
  lgtd_jsonrpc_type_string t json || lgtd_jsonrpc_type_number t json.

Definition lgtd_jsonrpc_type_string_number_or_array (t : jsmntok_t) (json : list Z) : bool :=
  lgtd_jsonrpc_type_string t json || lgtd_jsonrpc_type_number t json || lgtd_jsonrpc_type_array t json.

(** ** From decimal numbers to the protocol *)

Definition LGTD_JSONRPC_FLOAT_PREC : Z := 1000000.

(** A result of signed 64-bit arithmetic. *)
Definition fits_int64 (z : Z) : bool := (- 2 ^ 63 <=? z) && (z <? 2 ^ 63).

(** The loop over the digits after the point: [multiplier] is 0 after six turns. *)
Fixpoint fracpart_loop (fuel : nat) (s : list Z) (i len : nat) (multiplier fracpart : Z) : Z :=
  match fuel with
  | O => fracpart
  | S fuel =>
    if (i =? len)%nat || (multiplier =? 0) then fracpart
    else fracpart_loop fuel s (S i) len (multiplier / 10) (fracpart + (default 0 (s !! i) - 48) * multiplier)
  end.

Definition lgtd_jsonrpc_float_range_to_uint16 {S} (s : list Z) (len : nat) (start stop : Z) : M S Z :=
  massert (0 <? len)%nat ;;
  massert (start <? stop) ;;
  let range := stop * LGTD_JSONRPC_FLOAT_PREC - start * LGTD_JSONRPC_FLOAT_PREC in
  let dot := st_endptr (strtol s) in
  let intpart := st_value (strtol s) * LGTD_JSONRPC_FLOAT_PREC in
  let fracpart :=
    if negb (dot =? len)%nat && (default 0 (s !! dot) =? 46)
    then fracpart_loop 7 s (dot + 1)%nat len (LGTD_JSONRPC_FLOAT_PREC / 10) 0
    else 0 in
  if fits_int64 intpart && fits_int64 ((intpart + fracpart) * 65535) then
    mret (i32 (((intpart + fracpart) * 65535) ÷ range))
  else mcrash UndefinedBehaviour.

(** ** And back *)

Fixpoint multiplier_loop (fuel : nat) (value multiplier : Z) : Z :=
  match fuel with
  | O => multiplier
  | S fuel => if value / (multiplier * 10) =? 0 then multiplier else multiplier_loop fuel value (multiplier * 10)
  end.

(** [if (i != size) out[i++] = c]: [out] is what was written so far. *)
Definition put_char (size : nat) (c : Z) (out : list Z) : list Z :=
  if (length out =? size)%nat then out else out ++ [c].

(** The zeros between the point and the first digit. *)
Fixpoint zeros_loop (fuel size : nat) (multiplier divider : Z) (out : list Z) : list Z :=
  match fuel with
  | O => out
  | S fuel =>
    if (multiplier <? LGTD_JSONRPC_FLOAT_PREC / divider) && negb (length out =? size)%nat
    then zeros_loop fuel size multiplier (divider * 10) (out ++ [48])
    else out
  end.

Fixpoint digits_loop (fuel size : nat) (value multiplier : Z) (out : list Z) : list Z :=
  match fuel with
  | O => out
  | S fuel =>
    let out :=
      if multiplier =? LGTD_JSONRPC_FLOAT_PREC / 10
      then put_char size 46 (if (length out =? 0)%nat then out ++ [48] else out)
      else out in
    let out := put_char size (48 + value / multiplier) out in
    let value := value - value / multiplier * multiplier in
    let multiplier := multiplier / 10 in
    if (negb (value =? 0) || (LGTD_JSONRPC_FLOAT_PREC <=? multiplier)) && negb (multiplier =? 0)
       && negb (length out =? size)%nat
    then digits_loop fuel size value multiplier out
    else out
  end.

(** The text left in [out], up to its terminator, for a number of millionths. An
    [int] has at most ten digits, which bounds the three loops. *)
Definition float_string {S} (value : Z) (size : nat) : M S (list Z) :=
  if value =? 0 then mret [48]
  else
    let multiplier := multiplier_loop 10 value 1 in
    let out :=
      if multiplier <? LGTD_JSONRPC_FLOAT_PREC / 10
      then zeros_loop 10 size multiplier 10 (put_char size 46 [48])
      else [] in
    let out := digits_loop 10 size value multiplier out in
    massert (length out <=? size)%nat ;;
    mret (take (length out `min` (size - 1)) out).

Definition lgtd_jsonrpc_uint16_range_to_float_string {S} (encoded start stop : Z) (size : nat) : M S (list Z) :=
  massert (1 <? size)%nat ;;
  massert (start <? stop) ;;
  let range := stop * LGTD_JSONRPC_FLOAT_PREC - start * LGTD_JSONRPC_FLOAT_PREC in
  float_string (encoded * range / 65535) size.
