(* ===== verification/NumberSpec.v ===== *)
(** * Decimal numbers

    Lemmas on [strtol] and on the two conversions of core/jsonrpc.c: what the
    type checks let through, and what is printed. *)

From Stdlib Require Import ZArith Lia String.
From stdpp Require Import base tactics list.
From S2P Require Import Prelude CLib Jsmn JsmnSpec JsonNumbers.

(** ** Digits *)

Abbreviation digit c := (48 <= c <= 57).

Lemma isdigit_spec c : isdigit c = true <-> digit c.
Proof. unfold isdigit. rewrite andb_true_iff, !Z.leb_le. lia. Qed.

(** The value of a list of decimal digits, after [acc]. *)
Definition decimal (acc : Z) (ds : list Z) : Z := foldl (fun acc c => acc * 10 + (c - 48)) acc ds.

Definition no_digit (rest : list Z) : Prop := forall c, head rest = Some c -> ~ digit c.

Lemma digit_value_dec c : digit c -> digit_value c = c - 48.
Proof. intros Hc. unfold digit_value. by rewrite (proj2 (isdigit_spec c) Hc). Qed.

Lemma read_digits_app ds : forall acc rest,
  Forall (fun c => digit c) ds -> no_digit rest ->
  read_digits 10 isdigit acc (ds ++ rest) = (decimal acc ds, length ds).
Proof.
  induction ds as [|c ds IH]; intros acc rest Hds Hrest; cbn [app read_digits].
  - destruct rest as [|c rest]; [done|]. cbn [read_digits].
    destruct (isdigit c) eqn:Hc; [|done]. apply isdigit_spec in Hc. by destruct (Hrest c).
  - inversion Hds as [|? ? Hc Hds']; subst. rewrite (proj2 (isdigit_spec c) Hc), IH by done.
    rewrite digit_value_dec by done. done.
Qed.

(** Every text is a run of digits and a rest. *)
Lemma digits_split s : exists ds rest, s = ds ++ rest /\ Forall (fun c => digit c) ds /\ no_digit rest.
Proof.
  induction s as [|c s (ds & rest & -> & Hds & Hrest)]; [by exists [], []|].
  destruct (decide (digit c)) as [Hc|Hc].
  - exists (c :: ds), rest. split_and!; [done|by constructor|done].
  - exists [], (c :: ds ++ rest). split_and!; [done|done|]. by intros ? [= <-].
Qed.

Lemma decimal_nonneg ds : forall acc, 0 <= acc -> Forall (fun c => digit c) ds -> acc <= decimal acc ds.
Proof.
  induction ds as [|c ds IH]; intros acc Hacc Hds; cbn; [lia|]. inversion Hds; subst.
  pose proof (IH (acc * 10 + (c - 48)) ltac:(lia) ltac:(done)) as H. unfold decimal in H. lia.
Qed.

(** [strtol] on digits. *)
Lemma strtol_digits ds rest :
  ds <> [] -> Forall (fun c => digit c) ds -> no_digit rest ->
  strtol (ds ++ rest) =
  {| st_value := Z.min LONG_MAX (decimal 0 ds); st_endptr := length ds;
     st_erange := LONG_MAX <? decimal 0 ds |}.
Proof.
  intros Hne Hds Hrest. destruct ds as [|c ds]; [done|]. inversion Hds as [|? ? Hc Hds']; subst. unfold strtol.
  assert (Hsp : skip_spaces ((c :: ds) ++ rest) = 0%nat).
  { cbn. unfold isspace. rewrite (proj2 (Z.eqb_neq c 32)), (proj2 (Z.leb_gt c 13)) by lia. by rewrite andb_false_r. }
  assert (Hsg : read_sign ((c :: ds) ++ rest) = (1, 0%nat)).
  { cbn. rewrite (proj2 (Z.eqb_neq c 45)), (proj2 (Z.eqb_neq c 43)) by lia. done. }
  rewrite Hsp, drop_0, Hsg. cbn [Nat.add]. rewrite drop_0, read_digits_app by done.
  cbn [length Nat.eqb]. cbv zeta. rewrite Z.mul_1_l.
  pose proof (decimal_nonneg (c :: ds) 0 ltac:(lia) Hds). f_equal.
  - rewrite Z.max_r; [done|]. apply Z.min_glb; [done|]. unfold LONG_MIN. lia.
  - rewrite (proj2 (Z.ltb_ge (decimal 0 (c :: ds)) LONG_MIN)) by (unfold LONG_MIN; lia). done.
Qed.

(** And on a text without digits or sign, once spaces are skipped: nothing is read. *)
Lemma strtol_value_no_minus s : head s <> Some 45 -> skip_spaces s = 0%nat -> 0 <= st_value (strtol s).
Proof.
  intros Hm Hsp. unfold strtol. rewrite Hsp, drop_0. destruct (read_sign s) as [sg sl] eqn:Hsg.
  assert (Hpos : sg = 1).
  { destruct s as [|c s]; cbn in Hsg; [congruence|]. destruct (Z.eqb_spec c 45) as [->|]; [done|].
    destruct (c =? 43); congruence. }
  subst sg. destruct (digits_split (drop (0 + sl) s)) as (ds & rest & Hd & Hds & Hrest). rewrite Hd.
  rewrite read_digits_app by done. destruct (length ds =? 0)%nat; [done|]. cbn [st_value].
  pose proof (decimal_nonneg ds 0 ltac:(lia) Hds). rewrite Z.mul_1_l. unfold LONG_MIN, LONG_MAX. lia.
Qed.

(** ** The digits after the point *)

Lemma fracpart_bounds fuel : forall s i len m acc,
  0 <= m -> (forall j c, (i <= j < len)%nat -> s !! j = Some c -> digit c) -> (len <= length s)%nat -> (i <= len)%nat ->
  acc <= fracpart_loop fuel s i len m acc <= acc + 10 * m.
Proof.
  induction fuel as [|fuel IH]; intros s i len m acc Hm Hs Hlen Hi; cbn [fracpart_loop]; [lia|].
  destruct (Nat.eqb_spec i len) as [->|Hne]; [cbn; lia|]. destruct (Z.eqb_spec m 0) as [->|Hm0]; [cbn; lia|].
  cbn [orb]. destruct (lookup_lt_is_Some_2 s i ltac:(lia)) as [c Hc]. rewrite Hc. cbn [default].
  pose proof (Hs i c ltac:(lia) Hc).
  pose proof (Z.div_mod m 10 ltac:(lia)). pose proof (Z.mod_pos_bound m 10 ltac:(lia)).
  specialize (IH s (S i) len (m / 10) (acc + (c - 48) * m) ltac:(lia) ltac:(intros j c' ? ?; apply (Hs j); [lia|done]) Hlen ltac:(lia)).
  cbn [default] in *. unfold id. nia.
Qed.

Lemma fracpart_zero fuel : forall s i len m acc,
  (forall j c, (i <= j < len)%nat -> s !! j = Some c -> c = 48) -> (len <= length s)%nat -> (i <= len)%nat ->
  fracpart_loop fuel s i len m acc = acc.
Proof.
  induction fuel as [|fuel IH]; intros s i len m acc Hs Hlen Hi; cbn [fracpart_loop]; [done|].
  destruct (Nat.eqb_spec i len) as [->|Hne]; [done|]. destruct (Z.eqb_spec m 0) as [->|Hm0]; [done|].
  cbn [orb]. destruct (lookup_lt_is_Some_2 s i ltac:(lia)) as [c Hc]. rewrite Hc. cbn [default].
  rewrite (Hs i c ltac:(lia) Hc). rewrite IH; [cbn; lia|intros j c' ? ?; apply (Hs j); [lia|done]|done|lia].
Qed.

(** ** The conversion of a number with an integer part and digits *)

(** The text of a number: digits, and then nothing or a point and digits. *)
Definition point_text (ip : list Z) (fp : option (list Z)) : list Z :=
  ip ++ match fp with Some fs => 46 :: fs | None => [] end.

Definition frac_of (fp : option (list Z)) : list Z := match fp with Some fs => fs | None => [] end.

Lemma not_digit_46 rest : no_digit (46 :: rest).
Proof. intros c [= <-]. lia. Qed.

(** The characters after the point are the digits of the fraction. *)
Lemma fraction_chars ip fs rest (P : Z -> Prop) :
  Forall P fs -> forall j c, (length ip + 1 <= j < length (ip ++ 46%Z :: fs))%nat ->
  (ip ++ 46 :: fs ++ rest) !! j = Some c -> P c.
Proof.
  intros HP j c Hj Hc. rewrite length_app in Hj. cbn [length] in Hj.
  rewrite lookup_app_r in Hc by lia. destruct (j - length ip)%nat as [|k] eqn:Hk; [lia|].
  change ((fs ++ rest) !! k = Some c) in Hc. rewrite lookup_app_l in Hc by lia. by apply (Forall_lookup_1 _ _ _ _ HP Hc).
Qed.

(** So that the fraction, in millionths, is no more than one, and zero for zeros. *)
Lemma fraction_bounds ip fs rest :
  Forall (fun c => digit c) fs ->
  let frac := fracpart_loop 7 (ip ++ 46 :: fs ++ rest) (length ip + 1) (length (ip ++ 46 :: fs)) 100000 0 in
  0 <= frac <= 1000000 /\ (Forall (fun c => c = 48) fs -> frac = 0).
Proof.
  intros Hfs frac. subst frac.
  assert (Hlens : (length (ip ++ 46%Z :: fs) <= length (ip ++ 46%Z :: fs ++ rest))%nat)
    by (rewrite !length_app; cbn; rewrite length_app; lia).
  assert (Hle : (length ip + 1 <= length (ip ++ 46%Z :: fs))%nat) by (rewrite length_app; cbn; lia). split.
  - pose proof (fracpart_bounds 7 (ip ++ 46 :: fs ++ rest) (length ip + 1) (length (ip ++ 46 :: fs)) 100000 0
      ltac:(lia) (fraction_chars ip fs rest (fun c => digit c) Hfs) Hlens Hle). lia.
  - intros Hz. apply fracpart_zero; [|done|done]. intros j c Hj Hc.
    by apply (fraction_chars ip fs rest (fun c => c = 48) Hz j c Hj Hc).
Qed.

(** What [lgtd_jsonrpc_float_range_to_uint16] computes on such a text. *)
Lemma float_range_run {S} ip fp rest stop (s0 : S) :
  ip <> [] -> Forall (fun c => digit c) ip -> no_digit rest -> decimal 0 ip <= 360 -> 0 < stop <= 360 ->
  Forall (fun c => digit c) (frac_of fp) ->
  exists frac,
  lgtd_jsonrpc_float_range_to_uint16 (point_text ip fp ++ rest) (length (point_text ip fp)) 0 stop s0
  = Ret ((decimal 0 ip * 1000000 + frac) * 65535 / (stop * 1000000)) s0
  /\ 0 <= frac <= 1000000
  /\ (fp = None -> frac = 0)
  /\ (Forall (fun c => c = 48) (frac_of fp) -> frac = 0)
  /\ (forall fs, fp = Some fs -> frac = fracpart_loop 7 (ip ++ 46 :: fs ++ rest) (length ip + 1) (length (ip ++ 46 :: fs)) 100000 0).
Proof.
  intros Hne Hip Hrest Hmax Hstop Hfs.
  pose proof (decimal_nonneg ip 0 ltac:(lia) Hip) as Hpos.
  set (text := point_text ip fp ++ rest). set (len := length (point_text ip fp)).
  assert (Hsplit : exists tail, text = ip ++ tail /\ no_digit tail).
  { unfold text, point_text. destruct fp as [fs|].
    - exists (46 :: fs ++ rest). rewrite <- app_assoc. split; [done|apply not_digit_46].
    - exists rest. by rewrite app_nil_r. }
  destruct Hsplit as (tail & Htext & Htail).
  assert (Hl : (0 < length ip)%nat) by (destruct ip; [done|cbn; lia]).
  set (frac := if negb (length ip =? len)%nat && (default 0 (text !! length ip) =? 46)
               then fracpart_loop 7 text (length ip + 1) len (LGTD_JSONRPC_FLOAT_PREC / 10) 0 else 0).
  assert (Hcase : (fp = None /\ frac = 0) \/ exists fs, fp = Some fs
    /\ frac = fracpart_loop 7 (ip ++ 46 :: fs ++ rest) (length ip + 1) (length (ip ++ 46 :: fs)) 100000 0).
  { unfold frac, len, text, point_text. destruct fp as [fs|].
    - right. exists fs. split; [done|]. rewrite <- app_assoc. cbn [app]. rewrite list_lookup_middle by done. cbn [default].
      assert (Hlt : (length ip =? length (ip ++ 46%Z :: fs))%nat = false)
        by (apply Nat.eqb_neq; rewrite length_app; cbn; lia).
      rewrite Hlt. done.
    - left. split; [done|]. rewrite app_nil_r, Nat.eqb_refl. done. }
  assert (Hfrac : 0 <= frac <= 1000000 /\ (Forall (fun c => c = 48) (frac_of fp) -> frac = 0)).
  { destruct Hcase as [[_ ->]|(fs & Hfp & ->)]; [lia|]. rewrite Hfp in Hfs |- *. by apply fraction_bounds. }
  exists frac. destruct Hfrac as [Hb Hz]. split_and!; [|lia|lia|by destruct Hcase as [[_ ?]|(? & -> & _)]|done|].
  2:{ intros fs Hfp. destruct Hcase as [[? _]|(fs' & Hfp' & ->)]; congruence. }
  assert (Hv : decimal 0 ip <= 360) by done.
  unfold lgtd_jsonrpc_float_range_to_uint16, mbind, M_bind.
  assert (Hlen : (0 <? len)%nat = true) by (apply Nat.ltb_lt; unfold len, point_text; rewrite length_app; lia).
  rewrite Hlen, (proj2 (Z.ltb_lt 0 stop)) by lia. cbn [massert mret M_ret].
  assert (Hst := strtol_digits ip tail Hne Hip Htail). rewrite <- Htext in Hst.
  rewrite Hst. cbn [st_value st_endptr]. rewrite Z.min_r by (unfold LONG_MAX; lia). fold frac.
  unfold LGTD_JSONRPC_FLOAT_PREC. rewrite Z.mul_0_l, Z.sub_0_r.
  assert (H1 : fits_int64 (decimal 0 ip * 1000000) = true)
    by (unfold fits_int64; rewrite andb_true_iff, Z.leb_le, Z.ltb_lt; lia).
  assert (H2 : fits_int64 ((decimal 0 ip * 1000000 + frac) * 65535) = true)
    by (unfold fits_int64; rewrite andb_true_iff, Z.leb_le, Z.ltb_lt; lia).
  rewrite H1, H2. cbn [andb]. f_equal. rewrite Z.quot_div_nonneg by lia.
  set (q := (decimal 0 ip * 1000000 + frac) * 65535 / (stop * 1000000)).
  assert (0 <= q < 2 ^ 31).
  { split; [apply Z.div_pos; lia|]. apply Z.div_lt_upper_bound; [lia|]. nia. }
  unfold i32. rewrite Z.mod_small by lia. lia.
Qed.

(** ** Tokens of primitives *)

(** A primitive as [jsmn_parse_primitive] finds it in the text. *)
Definition scanned_primitive (json : list Z) (t : jsmntok_t) : Prop :=
  exists s e c, tok_type t = JSMN_PRIMITIVE /\ tok_start t = Some s /\ tok_end t = Some e
  /\ json !! s = Some c /\ starts_primitive c = true /\ primitive_scan (drop s json) s = scan_found e.

Lemma primitive_scan_split l : forall pos e,
  primitive_scan l pos = scan_found e ->
  exists p d rest, l = p ++ d :: rest /\ e = (pos + length p)%nat /\ ends_primitive d = true
  /\ Forall (fun c => ends_primitive c = false /\ 32 <= c) p.
Proof.
  induction l as [|c l IH]; intros pos e; cbn [primitive_scan]; [done|].
  destruct (c =? 0); [done|]. destruct (ends_primitive c) eqn:Hc.
  - intros [= <-]. exists [], c, l. split_and!; [done|cbn; lia|done|done].
  - destruct (Z.ltb_spec c 32); [done|]. destruct (127 <=? c); [done|]. cbn [orb]. intros (p & d & rest & -> & -> & Hd & Hp)%IH.
    exists (c :: p), d, rest. split_and!; [done|cbn; lia|done|by constructor].
Qed.

Lemma scanned_text json t :
  scanned_primitive json t ->
  exists d rest, text_at t json = token_text t json ++ d :: rest /\ ends_primitive d = true
  /\ Forall (fun c => ends_primitive c = false /\ 32 <= c) (token_text t json)
  /\ length (token_text t json) = LGTD_JSONRPC_TOKEN_LEN t
  /\ exists c, head (token_text t json) = Some c /\ starts_primitive c = true.
Proof.
  intros (s & e & c & _ & Hs & He & Hc & Hst & Hscan).
  assert (Hlen : forall p : list Z, e = (s + length p)%nat -> LGTD_JSONRPC_TOKEN_LEN t = length p)
    by (intros p ->; unfold LGTD_JSONRPC_TOKEN_LEN, tok_to, tok_from; rewrite Hs, He; cbn; lia).
  assert (Htext : text_at t json = drop s json) by (unfold text_at, tok_from; by rewrite Hs).
  apply primitive_scan_split in Hscan as (p & d & rest & Hp & Hpe & Hd & Hall).
  exists d, rest. unfold token_text. rewrite Htext, (Hlen p Hpe), Hp, take_app_length. split_and!; try done.
  apply Hlen in Hpe. destruct p as [|c' p].
  - rewrite <- (Nat.add_0_r s), <- lookup_drop, Hp in Hc. injection Hc as ->.
    apply starts_not_ends in Hst. congruence.
  - exists c. split; [|done]. rewrite <- (Nat.add_0_r s), <- lookup_drop, Hp in Hc. by injection Hc as ->.
Qed.

Lemma ends_no_digit d rest : ends_primitive d = true -> no_digit (d :: rest).
Proof.
  intros Hd c [= <-] Hc. unfold ends_primitive, is_space in Hd.
  rewrite !orb_true_iff, !Z.eqb_eq in Hd. lia.
Qed.

(** ** What the checks let through *)

Lemma float01_frac one text :
  float01_loop true one text = true ->
  Forall (fun c => digit c) text /\ (one = true -> Forall (fun c => c = 48) text).
Proof.
  induction text as [|c text IH]; cbn [float01_loop]; [done|].
  destruct (c =? 46); [done|]. destruct (Z.ltb_spec c 48); [done|]. destruct (Z.ltb_spec 57 c); [done|]. cbn [orb].
  destruct (one && negb (c =? 48)) eqn:Hone; [done|]. intros [Hd Hz]%IH.
  split; [constructor; [lia|done]|]. intros ->. cbn [andb] in Hone. apply negb_false_iff, Z.eqb_eq in Hone.
  constructor; [done|auto].
Qed.

Lemma float01_text text :
  float01_loop false false text = true ->
  exists ip fp, text = point_text ip fp /\ Forall (fun c => digit c) ip /\ Forall (fun c => digit c) (frac_of fp)
  /\ forall acc, acc = 0 -> decimal acc ip = 0 \/ (decimal acc ip = 1 /\ Forall (fun c => c = 48) (frac_of fp)).
Proof.
  induction text as [|c text IH]; cbn [float01_loop].
  - intros _. exists [], None. split_and!; [done|done|done|]. intros ? ->. by left.
  - destruct (Z.eqb_spec c 46) as [->|_].
    { intros [Hd _]%float01_frac. exists [], (Some text). split_and!; [done|done|done|]. intros ? ->. by left. }
    destruct (Z.eqb_spec c 49) as [->|_].
    { destruct text as [|c text]; [intros _|].
      - exists [49], None. split_and!; [done|by constructor|done|]. intros ? ->. by right.
      - cbn [float01_loop]. destruct (Z.eqb_spec c 46) as [->|_]; [|done]. intros [Hd Hz]%float01_frac.
        exists [49], (Some text). split_and!; [done|by constructor|done|]. intros ? ->. right. split; [done|by apply Hz]. }
    destruct (Z.eqb_spec c 48) as [->|_]; [|done]. intros (ip & fp & -> & Hip & Hfp & Hv)%IH.
    exists (48 :: ip), fp. split_and!; [done|by constructor|done|]. intros ? ->. by apply Hv.
Qed.

Lemma type_float01_text json t :
  scanned_primitive json t -> lgtd_jsonrpc_type_float_between_0_and_1 t json = true ->
  exists ip fp d rest, text_at t json = point_text ip fp ++ d :: rest /\ ends_primitive d = true
  /\ LGTD_JSONRPC_TOKEN_LEN t = length (point_text ip fp)
  /\ ip <> [] /\ Forall (fun c => digit c) ip /\ Forall (fun c => digit c) (frac_of fp)
  /\ (decimal 0 ip = 0 \/ (decimal 0 ip = 1 /\ Forall (fun c => c = 48) (frac_of fp))).
Proof.
  intros (d & rest & Htext & Hd & _ & Hlen & c & Hc & Hst)%scanned_text Hty.
  apply andb_true_iff in Hty as [_ Hty]. destruct (float01_text _ Hty) as (ip & fp & Hp & Hip & Hfp & Hv).
  exists ip, fp, d, rest. rewrite <- Hp, <- Hlen. split_and!; try done; [|by apply Hv].
  intros ->. rewrite Hp in Hc. destruct fp as [fs|]; [|done]. injection Hc as <-. done.
Qed.

Lemma decimal_zero ds : Forall (fun c => digit c) ds -> decimal 0 ds = 0 -> Forall (fun c => c = 48) ds.
Proof.
  induction 1 as [|c ds Hc Hds IH]; [done|]. change (decimal 0 (c :: ds)) with (decimal (0 * 10 + (c - 48)) ds). intros Hz.
  pose proof (decimal_nonneg ds (0 * 10 + (c - 48)) ltac:(lia) Hds). assert (c = 48) as -> by lia.
  constructor; [done|by apply IH].
Qed.

(** [strtol] on a text that starts with neither a digit, a sign nor a space. *)
Lemma strtol_none c s :
  ~ digit c -> c <> 43 -> c <> 45 -> isspace c = false -> st_endptr (strtol (c :: s)) = 0%nat.
Proof.
  intros Hd Hp Hm Hs. unfold strtol. cbn [skip_spaces]. rewrite Hs, drop_0. cbn [read_sign].
  rewrite (proj2 (Z.eqb_neq c 45)), (proj2 (Z.eqb_neq c 43)) by done. cbn [Nat.add drop read_digits].
  destruct (isdigit c) eqn:Hc; [by apply isdigit_spec in Hc|]. done.
Qed.

(** [strtol] stops exactly at the end of a text without signs or spaces: it is
    made of digits. *)
Lemma strtol_whole fs rest :
  Forall (fun c => c <> 43 /\ c <> 45 /\ isspace c = false) fs -> no_digit rest -> fs <> [] ->
  st_endptr (strtol (fs ++ rest)) = length fs -> st_erange (strtol (fs ++ rest)) = false ->
  Forall (fun c => digit c) fs /\ st_value (strtol (fs ++ rest)) = decimal 0 fs.
Proof.
  intros Hfs Hrest Hne Hend Hr. destruct (digits_split fs) as (ds & tl & Hsp & Hds & Htl).
  destruct ds as [|y ds].
  - cbn in Hsp. subst tl. destruct fs as [|c fs]; [done|]. inversion Hfs as [|? ? (? & ? & ?) _]; subst.
    cbn [app] in Hend. rewrite strtol_none in Hend; [done| |done|done|done]. by apply Htl.
  - assert (Hno : no_digit (tl ++ rest)).
    { destruct tl as [|z tl]; [done|]. intros c [= <-]. by apply Htl. }
    rewrite Hsp in Hend, Hr |- *. rewrite <- app_assoc, strtol_digits in * by done. cbn [st_endptr st_value st_erange] in *.
    rewrite length_app in Hend. assert (tl = []) as -> by (apply length_zero_iff_nil; lia). rewrite app_nil_r.
    apply Z.ltb_ge in Hr. split; [done|lia].
Qed.

Lemma primitive_char_space c : ends_primitive c = false -> 32 <= c -> isspace c = false.
Proof.
  intros Hc Hge. unfold ends_primitive, is_space in Hc. rewrite !orb_false_iff, !Z.eqb_neq in Hc. unfold isspace.
  rewrite (proj2 (Z.eqb_neq c 32)) by tauto. rewrite (proj2 (Z.leb_gt c 13)) by lia. by rewrite andb_false_r.
Qed.

(** A hue: a sign after the point is all that may be wrong with it. *)
Lemma type_hue_text json t :
  scanned_primitive json t -> lgtd_jsonrpc_type_float_between_0_and_360 t json = true ->
  Forall (fun c => c <> 43 /\ c <> 45) (token_text t json) ->
  exists ip fp d rest, text_at t json = point_text ip fp ++ d :: rest /\ ends_primitive d = true
  /\ LGTD_JSONRPC_TOKEN_LEN t = length (point_text ip fp)
  /\ ip <> [] /\ Forall (fun c => digit c) ip /\ Forall (fun c => digit c) (frac_of fp)
  /\ (decimal 0 ip < 360 \/ (decimal 0 ip = 360 /\ Forall (fun c => c = 48) (frac_of fp))).
Proof.
  intros (d & rest & Htext & Hd & Hall & Hlen & c & Hc & _)%scanned_text Hty Hsign.
  set (tt := token_text t json) in *. clearbody tt. pose proof (ends_no_digit d rest Hd) as Hrest.
  unfold lgtd_jsonrpc_type_float_between_0_and_360 in Hty. rewrite Htext, <- Hlen in Hty.
  destruct (negb (is_type _ t)); [done|].
  assert (Hchar : char_at t json = c) by (unfold char_at; rewrite Htext; destruct tt; [done|by injection Hc as ->]).
  rewrite Hchar in Hty.
  assert (Hc45 : c <> 45) by (destruct tt; [done|injection Hc as ->]; by inversion Hsign as [|? ? [? ?]]).
  rewrite (proj2 (Z.eqb_neq c 45) Hc45), andb_false_r, orb_false_r in Hty. cbn [negb andb] in Hty.
  destruct ((57 <? c) || (c <? 48)) eqn:Hcd; [done|]. rewrite orb_false_iff, !Z.ltb_ge in Hcd.
  destruct (digits_split tt) as (ip & tl & Hsp & Hip & Htl).
  assert (Hne : ip <> []).
  { intros ->. cbn in Hsp. rewrite Hsp in Hc. destruct tl; [done|]. injection Hc as ->. apply (Htl c); [done|lia]. }
  assert (Hno : no_digit (tl ++ d :: rest)).
  { destruct tl as [|z tl]; [done|]. intros x [= <-]. by apply Htl. }
  rewrite Hsp, <- app_assoc, strtol_digits in Hty by done. cbn [st_value st_endptr st_erange] in Hty.
  set (v := decimal 0 ip) in *. pose proof (decimal_nonneg ip 0 ltac:(lia) Hip) as Hv0.
  destruct (_ || _ || _ || _) eqn:Hguard in Hty; [done|]. rewrite !orb_false_iff, !Z.ltb_ge in Hguard.
  destruct Hguard as (((Hdot & Her) & _) & Hmax). rewrite Z.min_r in Hty, Hmax by lia. rewrite <- Hlen.
  destruct tl as [|x fs].
  - exists ip, None, d, rest. rewrite Hsp, app_nil_r in *. unfold point_text. rewrite app_nil_r.
    split_and!; try done. destruct (decide (v = 360)); [by right|left; lia].
  - assert (Hnl : (length ip =? length (ip ++ x :: fs))%nat = false)
      by (apply Nat.eqb_neq; rewrite length_app; cbn; lia).
    rewrite Hnl in Hty, Hdot. cbn [negb andb] in Hdot.
    cbn [app] in Hdot. rewrite list_lookup_middle in Hdot by done. cbn [default] in Hdot.
    apply negb_false_iff, Z.eqb_eq in Hdot. unfold id in Hdot. subst x.
    change (ip ++ (46 :: fs) ++ d :: rest) with (ip ++ 46 :: fs ++ d :: rest) in Hty.
    assert (Hdrop : drop (S (length ip)) (ip ++ 46 :: fs ++ d :: rest) = fs ++ d :: rest)
      by (rewrite <- Nat.add_1_r, <- drop_drop, drop_app_length; done).
    rewrite Hdrop, !andb_true_iff, Nat.eqb_eq, Z.leb_le, orb_true_iff, Z.ltb_lt, Z.eqb_eq, negb_true_iff in Hty.
    rewrite length_app in Hty. cbn [length] in Hty. destruct Hty as (((Hend & Hfr) & _) & Hfz).
    exists ip, (Some fs), d, rest. rewrite Hsp, Htext. unfold point_text. cbn [frac_of].
    destruct fs as [|y fs].
    { split_and!; try done; [by rewrite Hsp|]. destruct (decide (v = 360)); [by right|left; lia]. }
    destruct (strtol_whole (y :: fs) (d :: rest)) as [Hfd Hfv]; [|done|done|lia|done|].
    { rewrite Hsp in Hall, Hsign. apply Forall_app in Hall as [_ Hall]. apply Forall_app in Hsign as [_ Hsign].
      inversion Hall as [|? ? _ Hall']; subst. inversion Hsign as [|? ? _ Hsign']; subst.
      apply Forall_lookup. intros k x Hx. pose proof (Forall_lookup_1 _ _ _ _ Hall' Hx) as [He Hge].
      pose proof (Forall_lookup_1 _ _ _ _ Hsign' Hx) as [? ?]. split_and!; [done|done|by apply primitive_char_space]. }
    split_and!; try done; [by rewrite Hsp|]. destruct (decide (v = 360)) as [Hv|]; [|left; lia].
    right. split; [exact Hv|]. apply decimal_zero; [done|]. etransitivity; [symmetry; exact Hfv|]. destruct Hfz as [?|Hz]; [lia|exact Hz].
Qed.

(** ** What is printed *)

Fixpoint frac_value (m : Z) (fs : list Z) : Z :=
  match fs with
  | [] => 0
  | c :: fs => (c - 48) * m + frac_value (m / 10) fs
  end.

Lemma fracpart_value fs : forall fuel pre rest m acc,
  (length fs < fuel)%nat ->
  fracpart_loop fuel (pre ++ fs ++ rest) (length pre) (length (pre ++ fs)) m acc = acc + frac_value m fs.
Proof.
  induction fs as [|c fs IH]; intros fuel pre rest m acc Hf; (destruct fuel as [|fuel]; [cbn in Hf; lia|]); cbn [fracpart_loop].
  - rewrite app_nil_r, Nat.eqb_refl. cbn. lia.
  - assert (Hne : (length pre =? length (pre ++ c :: fs))%nat = false)
      by (apply Nat.eqb_neq; rewrite length_app; cbn; lia).
    rewrite Hne. cbn [orb app]. rewrite list_lookup_middle by done. cbn [default]. unfold id.
    specialize (IH fuel (pre ++ [c]) rest (m / 10) (acc + (c - 48) * m) ltac:(cbn in Hf; lia)).
    rewrite <- !app_assoc, length_app in IH. cbn [app length] in IH. rewrite Nat.add_1_r in IH. rewrite IH.
    cbn [frac_value]. destruct (Z.eqb_spec m 0) as [->|]; [|lia].
    assert (Hz : forall l, frac_value 0 l = 0) by (induction l as [|x l IHl]; cbn; [done|rewrite Z.div_0_l by lia; lia]).
    rewrite Z.div_0_l, Hz by lia. lia.
Qed.

(** One turn of the loop over the digits, the point aside. *)
Lemma digits_turn fuel v m (out : list Z) :
  0 < m -> m <> 100000 -> (length out < 15)%nat ->
  digits_loop (S fuel) 16 v m out
  = if (negb (v mod m =? 0) || (1000000 <=? m / 10)) && negb (m / 10 =? 0)
    then digits_loop fuel 16 (v mod m) (m / 10) (out ++ [48 + v / m])
    else out ++ [48 + v / m].
Proof.
  intros Hm Hne Hlen. cbn [digits_loop]. change (LGTD_JSONRPC_FLOAT_PREC / 10) with 100000.
  rewrite (proj2 (Z.eqb_neq m 100000)) by done. unfold put_char.
  assert (Hl : (length out =? 16)%nat = false) by (apply Nat.eqb_neq; lia). rewrite Hl.
  assert (Hl2 : (length (out ++ [(48 + v / m)%Z]) =? 16)%nat = false)
    by (apply Nat.eqb_neq; rewrite length_app; cbn; lia).
  rewrite Hl2, andb_true_r. replace (v - v / m * m) with (v mod m) by (pose proof (Z.div_mod v m); lia). done.
Qed.

Lemma pow10_succ j : 10 ^ Z.of_nat (S j) = 10 * 10 ^ Z.of_nat j.
Proof. rewrite Nat2Z.inj_succ, Z.pow_succ_r by lia. done. Qed.

Lemma pow10_pos j : 0 < 10 ^ Z.of_nat j.
Proof. apply Z.pow_pos_nonneg; lia. Qed.

Lemma pow10_div j : 10 ^ Z.of_nat (S j) / 10 = 10 ^ Z.of_nat j.
Proof. rewrite pow10_succ, Z.mul_comm. by apply Z.div_mul. Qed.

Lemma quotient_digit v j : 0 <= v < 10 ^ Z.of_nat (S j) -> 0 <= v / 10 ^ Z.of_nat j <= 9.
Proof.
  intros Hv. rewrite pow10_succ in Hv. pose proof (pow10_pos j). split; [apply Z.div_pos; lia|].
  assert (v / 10 ^ Z.of_nat j < 10); [|lia]. apply Z.div_lt_upper_bound; lia.
Qed.

(** The digits after the point, from the second on. *)
Lemma digits_frac j : (j <= 4)%nat -> forall fuel v out,
  (j < fuel)%nat -> 0 < v < 10 ^ Z.of_nat (S j) -> (length out + j < 15)%nat ->
  exists fs, digits_loop fuel 16 v (10 ^ Z.of_nat j) out = out ++ fs
  /\ Forall (fun c => digit c) fs /\ (length fs <= S j)%nat /\ frac_value (10 ^ Z.of_nat j) fs = v.
Proof.
  intros Hj. assert (Hne : forall i, (i <= 4)%nat -> 10 ^ Z.of_nat i <> 100000).
  { intros i Hi. do 5 (destruct i as [|i]; [done|]). lia. }
  induction j as [|j IH]; intros fuel v out Hf Hv Hlen; (destruct fuel as [|fuel]; [lia|]);
    rewrite digits_turn by (apply pow10_pos || apply Hne, Hj || lia).
  - cbn in Hv. change (10 ^ Z.of_nat 0) with 1. rewrite Z.div_1_r, andb_false_r. exists [48 + v].
    split_and!; [done|repeat constructor; lia|done|cbn; lia].
  - pose proof (quotient_digit v (S j) ltac:(lia)) as Hq. set (q := v / 10 ^ Z.of_nat (S j)) in *.
    pose proof (pow10_pos (S j)) as Hp. pose proof (Z.div_mod v (10 ^ Z.of_nat (S j)) ltac:(lia)) as Hdm. fold q in Hdm.
    pose proof (Z.mod_pos_bound v (10 ^ Z.of_nat (S j)) Hp). set (r := v mod 10 ^ Z.of_nat (S j)) in *.
    rewrite pow10_div. pose proof (pow10_pos j). rewrite (proj2 (Z.eqb_neq (10 ^ Z.of_nat j) 0)), andb_true_r by lia.
    assert (Hsmall : (1000000 <=? 10 ^ Z.of_nat j) = false).
    { apply Z.leb_gt. change 1000000 with (10 ^ 6). apply Z.pow_lt_mono_r; lia. }
    rewrite Hsmall, orb_false_r. destruct (Z.eqb_spec r 0) as [Hr|Hr]; cbn [negb].
    + exists [48 + q]. split_and!; [done|repeat constructor; lia|cbn; lia|]. cbn [frac_value]. lia.
    + destruct (IH ltac:(lia) fuel r (out ++ [48 + q])) as (fs & -> & Hfs & Hl & Hval); [lia|lia|rewrite length_app; cbn; lia|].
      exists ((48 + q) :: fs). rewrite <- app_assoc. split_and!; [done|constructor; [lia|done]|cbn; lia|].
      cbn [frac_value]. rewrite pow10_div, Hval. lia.
Qed.

(** The point and the digits after it. *)
Lemma digits_point fuel v out :
  (6 <= fuel)%nat -> 0 < v < 1000000 -> (length out <= 3)%nat ->
  exists fs, digits_loop fuel 16 v 100000 out = (if (length out =? 0)%nat then [48] else out) ++ 46 :: fs
  /\ Forall (fun c => digit c) fs /\ (length fs <= 6)%nat /\ frac_value 100000 fs = v.
Proof.
  intros Hf Hv Hlen. destruct fuel as [|fuel]; [lia|]. cbn [digits_loop]. change (LGTD_JSONRPC_FLOAT_PREC / 10) with 100000.
  rewrite Z.eqb_refl. set (out0 := if (length out =? 0)%nat then [48] else out).
  assert (Hout0 : (if (length out =? 0)%nat then out ++ [48] else out) = out0 /\ (length out0 <= 3)%nat).
  { unfold out0. destruct out; cbn in *; [split; [done|lia]|done]. }
  destruct Hout0 as [-> Hl0]. unfold put_char.
  assert (Hl1 : (length out0 =? 16)%nat = false) by (apply Nat.eqb_neq; lia). rewrite Hl1.
  assert (Hl2 : (length (out0 ++ [46%Z]) =? 16)%nat = false) by (apply Nat.eqb_neq; rewrite length_app; cbn; lia). rewrite Hl2.
  set (q := v / 100000). assert (Hq : 0 <= q <= 9) by (apply (quotient_digit v 5); lia).
  assert (Hl3 : (length ((out0 ++ [46%Z]) ++ [(48 + q)%Z]) =? 16)%nat = false)
    by (apply Nat.eqb_neq; rewrite !length_app; cbn; lia). rewrite Hl3.
  pose proof (Z.div_mod v 100000 ltac:(lia)) as Hdm. fold q in Hdm. pose proof (Z.mod_pos_bound v 100000 ltac:(lia)).
  replace (v - q * 100000) with (v mod 100000) by lia. change (100000 / 10) with 10000.
  change (LGTD_JSONRPC_FLOAT_PREC <=? 10000) with false. change (10000 =? 0) with false.
  rewrite orb_false_r. cbn [negb]. rewrite !andb_true_r. destruct (Z.eqb_spec (v mod 100000) 0) as [Hr|Hr]; cbn [negb].
  - exists [48 + q]. rewrite <- app_assoc. split_and!; [done|repeat constructor; lia|cbn; lia|cbn [frac_value]; lia].
  - destruct (digits_frac 4 ltac:(lia) fuel (v mod 100000) ((out0 ++ [46]) ++ [48 + q])) as (fs & Hrun & Hfs & Hl & Hval).
    { lia. } { change (10 ^ Z.of_nat 5) with 100000. lia. } { rewrite !length_app. cbn. lia. }
    change (10 ^ Z.of_nat 4) with 10000 in *. exists ((48 + q) :: fs). rewrite Hrun, <- !app_assoc.
    split_and!; [done|constructor; [lia|done]|cbn; lia|]. cbn [frac_value]. change (100000 / 10) with 10000. lia.
Qed.

(** A printed number: its integer part, without zeros before it, and its millionths when there are some. *)
Record printed (v : Z) (ip : list Z) (fp : option (list Z)) : Prop := {
  pr_digits : Forall (fun c => digit c) ip;
  pr_int : decimal 0 ip = v / 1000000;
  pr_frac : Forall (fun c => digit c) (frac_of fp) /\ (length (frac_of fp) <= 6)%nat
            /\ frac_value 100000 (frac_of fp) = v mod 1000000;
  pr_lead : ip = [48] \/ 10 ^ Z.of_nat (Nat.pred (length ip)) <= v / 1000000;
  pr_point : fp <> Some []
}.

Lemma decimal_cons acc c ds : decimal acc (c :: ds) = decimal (acc * 10 + (c - 48)) ds.
Proof. done. Qed.

Lemma decimal_bound ds : forall acc, Forall (fun c => digit c) ds -> decimal acc ds < (acc + 1) * 10 ^ Z.of_nat (length ds).
Proof.
  induction ds as [|c ds IH]; intros acc Hds; [cbn; lia|]. apply Forall_cons in Hds as [Hc Hds]. rewrite decimal_cons.
  specialize (IH (acc * 10 + (c - 48)) Hds). cbn [length]. pose proof (pow10_succ (length ds)). pose proof (pow10_pos (length ds)). nia.
Qed.

(** From the digit of the millions times [10^j] on. *)
Lemma digits_int j : (j <= 2)%nat -> forall fuel v out acc,
  (7 + j <= fuel)%nat -> 0 <= v < 10 ^ Z.of_nat (7 + j) -> (length out + j <= 2)%nat ->
  exists ip fp, digits_loop fuel 16 v (10 ^ Z.of_nat (6 + j)) out = out ++ point_text ip fp
  /\ Forall (fun c => digit c) ip /\ length ip = S j /\ decimal acc ip = acc * 10 ^ Z.of_nat (S j) + v / 1000000
  /\ Forall (fun c => digit c) (frac_of fp) /\ (length (frac_of fp) <= 6)%nat
  /\ frac_value 100000 (frac_of fp) = v mod 1000000 /\ fp <> Some [].
Proof.
  intros Hj. induction j as [|j IH]; intros fuel v out acc Hf Hv Hlen; (destruct fuel as [|fuel]; [lia|]).
  - rewrite digits_turn; [|apply pow10_pos|done|lia]. change (10 ^ Z.of_nat (6 + 0)) with 1000000.
    change (10 ^ Z.of_nat 1) with 10. change (10 ^ Z.of_nat (7 + 0)) with 10000000 in Hv.
    pose proof (quotient_digit v 6 ltac:(change (10 ^ Z.of_nat 7) with 10000000; lia)) as Hq.
    change (10 ^ Z.of_nat 6) with 1000000 in Hq. set (q := v / 1000000) in *.
    change (1000000 / 10) with 100000. change (1000000 <=? 100000) with false. change (100000 =? 0) with false.
    rewrite orb_false_r, andb_true_r. pose proof (Z.mod_pos_bound v 1000000 ltac:(lia)).
    destruct (Z.eqb_spec (v mod 1000000) 0) as [Hr|Hr]; cbn [negb].
    + exists [48 + q], None. unfold point_text. split_and!; try done; [repeat constructor; lia|cbn; lia|cbn; lia].
    + destruct (digits_point fuel (v mod 1000000) (out ++ [48 + q])) as (fs & Hrun & Hfs & Hl & Hval);
        [lia|lia|rewrite length_app; cbn; lia|].
      assert (Hne : (length (out ++ [(48 + q)%Z]) =? 0)%nat = false) by (apply Nat.eqb_neq; rewrite length_app; cbn; lia).
      rewrite Hne in Hrun. exists [48 + q], (Some fs). rewrite Hrun, <- app_assoc. unfold point_text.
      split_and!; try done; [repeat constructor; lia|cbn; lia|]. intros [= ->]. cbn in Hval. lia.
  - assert (Hm : 10 ^ Z.of_nat (6 + S j) <> 100000)
      by (change 100000 with (10 ^ 5); intros He; apply Z.pow_inj_r in He; lia).
    rewrite digits_turn; [|apply pow10_pos|exact Hm|lia]. replace (6 + S j)%nat with (S (6 + j)) by lia.
    pose proof (quotient_digit v (S (6 + j)) ltac:(replace (S (S (6 + j))) with (7 + S j)%nat by lia; lia)) as Hq. set (m := 10 ^ Z.of_nat (S (6 + j))) in *.
    set (q := v / m) in *. rewrite (pow10_div (6 + j) : m / 10 = _).
    pose proof (pow10_pos (S (6 + j))) as Hp. fold m in Hp. pose proof (Z.mod_pos_bound v m Hp) as Hmod.
    pose proof (Z.div_mod v m ltac:(lia)) as Hdm. fold q in Hdm.
    assert (Hbig : (1000000 <=? 10 ^ Z.of_nat (6 + j)) = true).
    { apply Z.leb_le. change 1000000 with (10 ^ 6). apply Z.pow_le_mono_r; lia. }
    pose proof (pow10_pos (6 + j)). rewrite Hbig, orb_true_r, (proj2 (Z.eqb_neq (10 ^ Z.of_nat (6 + j)) 0)) by lia. cbn [andb negb].
    destruct (IH ltac:(lia) fuel (v mod m) (out ++ [48 + q]) (acc * 10 + q)) as (ip & fp & Hrun & Hip & Hl & Hdec & Hfs & Hfl & Hfv & Hpt);
      [lia|unfold m in *; replace (7 + j)%nat with (S (6 + j)) by lia; lia|rewrite length_app; cbn; lia|].
    assert (Hmm : m = 10 ^ Z.of_nat (S j) * 1000000).
    { unfold m. change 1000000 with (10 ^ 6). rewrite <- Z.pow_add_r by lia. f_equal. lia. }
    exists ((48 + q) :: ip), fp. rewrite Hrun, <- app_assoc. split_and!; try done.
    + constructor; [lia|done].
    + cbn. lia.
    + rewrite decimal_cons. replace (48 + q - 48) with q by lia. rewrite Hdec, (pow10_succ (S j)).
      assert (Hsplit : v / 1000000 = q * 10 ^ Z.of_nat (S j) + v mod m / 1000000).
      { rewrite Hdm at 1. rewrite Hmm at 1. replace (10 ^ Z.of_nat (S j) * 1000000 * q + v mod m)
          with (q * 10 ^ Z.of_nat (S j) * 1000000 + v mod m) by lia. by rewrite Z.div_add_l by lia. }
      lia.
    + rewrite Hfv, Hmm. apply Z.mod_mod_divide. by exists (10 ^ Z.of_nat (S j)).
Qed.

Lemma multiplier_spec fuel : forall j v,
  10 ^ Z.of_nat j <= v < 10 ^ Z.of_nat (j + fuel) ->
  exists k, multiplier_loop fuel v (10 ^ Z.of_nat j) = 10 ^ Z.of_nat k /\ 10 ^ Z.of_nat k <= v < 10 ^ Z.of_nat (S k).
Proof.
  induction fuel as [|fuel IH]; intros j v Hv; [rewrite Nat.add_0_r in Hv; lia|]. cbn [multiplier_loop].
  rewrite (Z.mul_comm _ 10), <- pow10_succ. pose proof (pow10_pos (S j)).
  destruct (Z.eqb_spec (v / 10 ^ Z.of_nat (S j)) 0) as [Hq|Hq].
  - exists j. split; [done|]. apply Z.div_small_iff in Hq; lia.
  - apply IH. split; [|replace (S j + fuel)%nat with (j + S fuel)%nat by lia; apply Hv].
    destruct (Z.le_gt_cases (10 ^ Z.of_nat (S j)) v) as [|Hlt]; [done|]. destruct Hq. apply Z.div_small. lia.
Qed.

(** The number printed for [value], not zero and less than 1000. *)
Definition print_value (value : Z) : list Z :=
  let multiplier := multiplier_loop 10 value 1 in
  digits_loop 10 16 value multiplier
    (if multiplier <? LGTD_JSONRPC_FLOAT_PREC / 10
     then zeros_loop 10 16 multiplier 10 (put_char 16 46 [48]) else []).

Lemma zeros_printed k : (k <= 4)%nat ->
  zeros_loop 10 16 (10 ^ Z.of_nat k) 10 (put_char 16 46 [48]) = [48; 46] ++ replicate (5 - k) 48.
Proof. intros Hk. do 5 (destruct k as [|k]; [reflexivity|]). lia. Qed.

Lemma frac_value_zeros k fs : (k <= 5)%nat -> frac_value 100000 (replicate (5 - k) 48 ++ fs) = frac_value (10 ^ Z.of_nat k) fs.
Proof. intros Hk. do 6 (destruct k as [|k]; [reflexivity|]). lia. Qed.

Lemma print_value_printed v :
  0 < v < 1000000000 -> exists ip fp, print_value v = point_text ip fp /\ (1 <= length ip <= 3)%nat /\ printed v ip fp.
Proof.
  intros Hv. destruct (multiplier_spec 10 0 v) as (k & Hm & Hk); [cbn; lia|].
  change (10 ^ Z.of_nat 0) with 1 in Hm. unfold print_value. rewrite Hm.
  assert (Hk8 : (k <= 8)%nat).
  { destruct (le_gt_dec k 8) as [|Hgt]; [done|]. assert (10 ^ 9 <= 10 ^ Z.of_nat k) by (apply Z.pow_le_mono_r; lia). lia. }
  change (LGTD_JSONRPC_FLOAT_PREC / 10) with (10 ^ Z.of_nat 5).
  destruct (le_gt_dec k 4) as [Hk4|Hk4]; [|destruct (decide (k = 5%nat)) as [->|Hk5]].
  - rewrite (proj2 (Z.ltb_lt _ _)) by (apply Z.pow_lt_mono_r; lia). rewrite zeros_printed by done.
    destruct (digits_frac k Hk4 10 v ([48; 46] ++ replicate (5 - k) 48)) as (fs & -> & Hfs & Hl & Hval);
      [lia|pose proof (pow10_pos k); lia|rewrite length_app, length_replicate; cbn; lia|].
    assert (Hlt : v < 1000000) by (assert (10 ^ Z.of_nat (S k) <= 10 ^ 5) by (apply Z.pow_le_mono_r; lia); lia).
    exists [48], (Some (replicate (5 - k) 48 ++ fs)). split_and!; [by rewrite <- app_assoc|cbn; lia|cbn; lia|].
    constructor; cbn [frac_of].
    + by constructor.
    + rewrite Z.div_small by lia. done.
    + split_and!; [apply Forall_app; split; [by apply Forall_replicate|done]|rewrite length_app, length_replicate; lia|].
      rewrite frac_value_zeros, Z.mod_small by lia. done.
    + by left.
    + intros [= Hnil]. apply (f_equal length) in Hnil. rewrite length_app, length_replicate in Hnil. cbn in Hnil. lia.
  - rewrite Z.ltb_irrefl. change (10 ^ Z.of_nat 5) with 100000 in *. change (10 ^ Z.of_nat 6) with 1000000 in *.
    destruct (digits_point 10 v []) as (fs & -> & Hfs & Hl & Hval); [lia|lia|cbn; lia|].
    exists [48], (Some fs). split_and!; [done|cbn; lia|cbn; lia|]. constructor; cbn [frac_of].
    + by constructor.
    + rewrite Z.div_small by lia. done.
    + rewrite Z.mod_small by lia. done.
    + by left.
    + intros [= ->]. cbn in Hval. lia.
  - rewrite (proj2 (Z.ltb_ge _ _)) by (apply Z.pow_le_mono_r; lia).
    replace k with (6 + (k - 6))%nat in * by lia. set (j := (k - 6)%nat) in *.
    destruct (digits_int j ltac:(lia) 10 v [] 0) as (ip & fp & -> & Hip & Hl & Hdec & Hfd & Hfl & Hfv & Hpt); [lia|pose proof (pow10_pos (6 + j)); by split; [lia|apply Hk]|cbn; lia|].
    exists ip, fp. split_and!; [done|lia|lia|]. constructor; try done. right. rewrite Hl. cbn [Nat.pred].
    apply Z.div_le_lower_bound; [lia|]. change 1000000 with (10 ^ Z.of_nat 6). rewrite <- Z.pow_add_r by lia.
    rewrite <- Nat2Z.inj_add. apply Hk.
Qed.

(** A printed number never fills its buffer. *)
Lemma printed_length v ip fp : printed v ip fp -> (length ip <= 3)%nat -> (length (point_text ip fp) <= 10)%nat.
Proof.
  intros [_ _ (_ & Hl & _) _ _] Hip. unfold point_text. rewrite length_app. destruct fp; cbn in *; lia.
Qed.

(** The run of the printing function is [print_value]. *)
Lemma float_string_value {S} v (s : S) :
  v = 0 \/ (length (print_value v) <= 15)%nat ->
  float_string v 16 s = Ret (if v =? 0 then [48] else print_value v) s.
Proof.
  intros Hlen. unfold float_string, print_value in *. cbv zeta in *. destruct (v =? 0) eqn:Hv; [done|].
  destruct Hlen as [Hz|Hlen]; [by apply Z.eqb_neq in Hv|].
  set (out := digits_loop 10 16 v _ _) in *. clearbody out.
  rewrite (proj2 (Nat.leb_le (length out) 16)) by lia.
  rewrite (run_bind _ _ s tt s eq_refl). rewrite Nat.min_l, firstn_all by lia. done.
Qed.

Lemma float_string_run {S} encoded stop (s : S) :
  0 < stop ->
  let v := encoded * (stop * 1000000) / 65535 in
  v = 0 \/ (length (print_value v) <= 15)%nat ->
  lgtd_jsonrpc_uint16_range_to_float_string encoded 0 stop 16 s = Ret (if v =? 0 then [48] else print_value v) s.
Proof.
  intros Hstop v Hlen. rewrite <- float_string_value by exact Hlen. unfold lgtd_jsonrpc_uint16_range_to_float_string.
  rewrite (run_bind _ _ s tt s eq_refl). rewrite (proj2 (Z.ltb_lt 0 stop)) by lia.
  rewrite (run_bind _ _ s tt s eq_refl). cbv zeta.
  assert (Hrange : stop * LGTD_JSONRPC_FLOAT_PREC - 0 * LGTD_JSONRPC_FLOAT_PREC = stop * 1000000)
    by (unfold LGTD_JSONRPC_FLOAT_PREC; lia).
  rewrite Hrange. exact eq_refl.
Qed.
