(* ===== verification/NumberThms.v ===== *)
(** * Numbers of the API

    The properties of the conversions of core/jsonrpc.c between the decimal
    numbers of requests and responses and the 16-bit components of a color. *)

From Stdlib Require Import ZArith Lia String.
From stdpp Require Import base tactics list.
From S2P Require Import Prelude CLib Jsmn JsmnSpec JsonNumbers NumberSpec.

(** The check of a component, by the end of its range. *)
Definition component_check (stop : Z) : jsmntok_t -> list Z -> bool :=
  if stop =? 1 then lgtd_jsonrpc_type_float_between_0_and_1 else lgtd_jsonrpc_type_float_between_0_and_360.

(** C40: a component of a color that passes its check (a saturation, a brightness or
    a skew ratio between 0 and 1, or a hue between 0 and 360 without a sign) is
    converted without a failed assertion or an overflow to an integer from 0 to
    65535, as the commands on colors assert; the text of the token is the one the
    tokenizer found. *)
Theorem component_in_range {S} json t stop (s : S) :
  stop = 1 \/ (stop = 360 /\ Forall (fun c => c <> 43 /\ c <> 45) (token_text t json)) ->
  scanned_primitive json t -> component_check stop t json = true ->
  exists r, lgtd_jsonrpc_float_range_to_uint16 (text_at t json) (LGTD_JSONRPC_TOKEN_LEN t) 0 stop s = Ret r s
  /\ 0 <= r <= 65535.
Proof.
  intros Hstop Hscan Hcheck.
  assert (Htext : exists ip fp d rest, text_at t json = point_text ip fp ++ d :: rest /\ ends_primitive d = true
    /\ LGTD_JSONRPC_TOKEN_LEN t = length (point_text ip fp)
    /\ ip <> [] /\ Forall (fun c => digit c) ip /\ Forall (fun c => digit c) (frac_of fp)
    /\ (decimal 0 ip < stop \/ (decimal 0 ip = stop /\ Forall (fun c => c = 48) (frac_of fp)))).
  { destruct Hstop as [->|[-> Hsign]].
    - destruct (type_float01_text json t Hscan Hcheck) as (ip & fp & d & rest & H1 & H2 & H3 & H4 & H5 & H6 & H7).
      exists ip, fp, d, rest. split_and!; try done. destruct H7 as [->|H7]; [left; lia|by right].
    - by apply type_hue_text. }
  destruct Htext as (ip & fp & d & rest & -> & Hd & -> & Hne & Hip & Hfp & Hv).
  assert (Hle : stop <= 360 /\ 0 < stop) by (destruct Hstop as [->|[-> _]]; lia).
  destruct (float_range_run ip fp (d :: rest) stop s) as (frac & -> & Hfrac & _ & Hzero & _);
    [done|done|by apply ends_no_digit|destruct Hv; lia|lia|done|].
  eexists. split; [reflexivity|]. pose proof (decimal_nonneg ip 0 ltac:(lia) Hip).
  split; [apply Z.div_pos; lia|].
  assert (Hsum : decimal 0 ip * 1000000 + frac <= stop * 1000000)
    by (destruct Hv as [?|[? Hz]]; [lia|rewrite (Hzero Hz); lia]).
  transitivity (stop * 1000000 * 65535 / (stop * 1000000)); [apply Z.div_le_mono; nia|].
  rewrite Z.mul_comm, Z.div_mul by lia. done.
Qed.

(** C33: what [get_light_state] prints for a component of a color, read back as a
    parameter of a command, is the component or the integer below it, and exactly
    the component at both ends of the range: every 16-bit value, for the ranges up
    to 1 and up to 360, in the buffers of 16 bytes the command uses. *)
Theorem component_roundtrip {S} encoded stop rest (s : S) :
  0 <= encoded <= 65535 -> stop = 1 \/ stop = 360 -> no_digit rest ->
  exists text r,
  lgtd_jsonrpc_uint16_range_to_float_string encoded 0 stop 16 s = Ret text s
  /\ lgtd_jsonrpc_float_range_to_uint16 (text ++ rest) (length text) 0 stop s = Ret r s
  /\ encoded - 1 <= r <= encoded /\ (encoded = 0 \/ encoded = 65535 -> r = encoded).
Proof.
  intros He Hstop Hrest. assert (Hle : 0 < stop <= 360) by lia.
  set (v := encoded * (stop * 1000000) / 65535).
  assert (Hv : 0 <= v <= 360000000) by (split; [apply Z.div_pos; nia|apply Z.div_le_upper_bound; nia]).
  assert (Hprint : exists ip fp, (1 <= length ip <= 3)%nat /\ printed v ip fp
    /\ lgtd_jsonrpc_uint16_range_to_float_string encoded 0 stop 16 s = Ret (point_text ip fp) s).
  { destruct (decide (v = 0)) as [Hz|Hne].
    - exists [48], None. split_and!; [cbn; lia|cbn; lia|rewrite Hz; constructor; [by repeat constructor..|by left|done]|].
      rewrite float_string_run; [|lia|by left]. fold v. by rewrite Hz.
    - destruct (print_value_printed v ltac:(lia)) as (ip & fp & Hpv & Hlen & Hp). exists ip, fp. split_and!; [lia|lia|done|].
      pose proof (printed_length v ip fp Hp ltac:(lia)) as Hl.
      rewrite float_string_run; [|lia|right; fold v; rewrite Hpv; lia]. fold v.
      by rewrite (proj2 (Z.eqb_neq v 0)), Hpv. }
  destruct Hprint as (ip & fp & Hlen & [Hip Hint (Hfd & Hfl & Hfv) _ _] & Hrun).
  assert (Hv6 : v / 1000000 <= 360) by (apply Z.div_le_upper_bound; lia).
  destruct (float_range_run ip fp rest stop s) as (frac & Hread & _ & Hnone & _ & Hsome);
    [by destruct ip; cbn in Hlen; [lia|]|done|done|lia|lia|done|].
  assert (Hfrac : frac = v mod 1000000).
  { destruct fp as [fs|]; [|rewrite Hnone by done; exact Hfv]. rewrite (Hsome fs eq_refl).
    cbn [frac_of] in Hfl, Hfv. rewrite <- Hfv.
    pose proof (fracpart_value fs 7 (ip ++ [46]) rest 100000 0 ltac:(lia)) as Hfp.
    rewrite <- !app_assoc, length_app in Hfp. cbn [app length] in Hfp. rewrite Hfp. lia. }
  exists (point_text ip fp), (v * 65535 / (stop * 1000000)). split; [done|]. split.
  { rewrite Hread, Hint, Hfrac. pose proof (Z.div_mod v 1000000 ltac:(lia)) as Hdm.
    f_equal. f_equal. f_equal. lia. }
  pose proof (Z.div_mod (encoded * (stop * 1000000)) 65535 ltac:(lia)) as Hd1. fold v in Hd1.
  pose proof (Z.mod_pos_bound (encoded * (stop * 1000000)) 65535 ltac:(lia)) as Hm1.
  split; [split|].
  - apply Z.div_le_lower_bound; nia.
  - apply Z.div_le_upper_bound; nia.
  - intros [->| ->].
    + unfold v. rewrite Z.mul_0_l. apply Z.div_0_l. lia.
    + unfold v. rewrite (Z.mul_comm 65535), Z.div_mul by lia. rewrite Z.mul_comm. apply Z.div_mul. lia.
Qed.

(** A hue with a sign after its point passes its check and is converted to a
    negative number, for which [lgtd_proto_set_light_from_hsbk] fails its
    assertion: here [0.+5]. *)
Theorem hue_sign_negative :
  let json := bytes_of_string "0.+5," in
  let t := {| tok_type := JSMN_PRIMITIVE; tok_start := Some 0%nat; tok_end := Some 4%nat; tok_size := 0; tok_parent := None |} in
  scanned_primitive json t /\ lgtd_jsonrpc_type_float_between_0_and_360 t json = true
  /\ lgtd_jsonrpc_float_range_to_uint16 (S := unit) (text_at t json) (LGTD_JSONRPC_TOKEN_LEN t) 0 360 tt = Ret (-81) tt.
Proof.
  cbv zeta. split_and!; [|reflexivity|reflexivity]. exists 0%nat, 4%nat, 48. split_and!; reflexivity.
Qed.

(** ** Witnesses *)

Definition saturation_example : jsmntok_t :=
  {| tok_type := JSMN_PRIMITIVE; tok_start := Some 1%nat; tok_end := Some 5%nat; tok_size := 0; tok_parent := None |}.

Lemma component_in_range_witness :
  exists r, lgtd_jsonrpc_float_range_to_uint16 (S := unit) (text_at saturation_example (bytes_of_string "[0.25]"))
    (LGTD_JSONRPC_TOKEN_LEN saturation_example) 0 1 tt = Ret r tt /\ 0 <= r <= 65535.
Proof.
  refine (component_in_range (bytes_of_string "[0.25]") saturation_example 1 tt _ _ _).
  - by left.
  - exists 1%nat, 5%nat, 48. split_and!; reflexivity.
  - reflexivity.
Defined.

Lemma component_roundtrip_witness :
  exists text r,
  lgtd_jsonrpc_uint16_range_to_float_string (S := unit) 32767 0 360 16 tt = Ret text tt
  /\ lgtd_jsonrpc_float_range_to_uint16 (text ++ [44]) (length text) 0 360 tt = Ret r tt
  /\ 32767 - 1 <= r <= 32767 /\ (32767 = 0 \/ 32767 = 65535 -> r = 32767).
Proof.
  refine (component_roundtrip 32767 360 [44] tt _ _ _); [lia|by right|]. intros c [= <-]. lia.
Defined.
