(* ===== verification/Printf.v ===== *)
(** * Printing

    The conversions of [snprintf] the daemon uses, and the functions of
    [core/utils.c] and macros of [core/lightsd.h] that print addresses, durations
    and times. *)

From Stdlib Require Import ZArith Lia String.
From stdpp Require Import base tactics list.
From S2P Require Import Prelude CLib.

(** ** Conversions *)

(** [%u]: at most twenty digits. *)
Fixpoint dec_loop (fuel : nat) (n : Z) (acc : list Z) : list Z :=
  match fuel with
  | O => acc
  | S fuel => if n <? 10 then (48 + n) :: acc else dec_loop fuel (n / 10) ((48 + n mod 10) :: acc)
  end.
Definition print_u (n : Z) : list Z := dec_loop 20 n [].

(** [%d]. *)
Definition print_d (n : Z) : list Z := if n <? 0 then 45 :: print_u (- n) else print_u n.

(** [%02d]. *)
Definition print_02d (n : Z) : list Z :=
  let s := print_d n in replicate (2 - length s) 48 ++ s.

Definition hex_digit (n : Z) : Z := if n <? 10 then 48 + n else 87 + n.

(** [%02hhx]. *)
Definition print_02hhx (b : Z) : list Z := [hex_digit (b / 16); hex_digit (b mod 16)].

(** [%x], on 32 bits. *)
Fixpoint hex_loop (fuel : nat) (n : Z) (acc : list Z) : list Z :=
  match fuel with
  | O => acc
  | S fuel => if n <? 16 then hex_digit n :: acc else hex_loop fuel (n / 16) (hex_digit (n mod 16) :: acc)
  end.
Definition print_x (n : Z) : list Z := hex_loop 8 n [].

(** [snprintf] into [size] bytes: what is left before the terminator. *)
Definition snprintf (size : nat) (text : list Z) : list Z := take (size - 1) text.

(** [LGTD_SNPRINTF_APPEND(buf, i, bufsz, text)]. [buf] has the first [i] characters
    that were written: [i] is at most [bufsz], and is [bufsz] once a text was cut. *)
Definition LGTD_SNPRINTF_APPEND (buf : list Z) (bufsz : nat) (text : list Z) : list Z := take bufsz (buf ++ text).

(** ** core/utils.c *)

Definition lgtd_iee8023mactoa (a : list Z) : list Z :=
  let b i := print_02hhx (default 0 (a !! i)) in
  b 0%nat ++ [58] ++ b 1%nat ++ [58] ++ b 2%nat ++ [58] ++ b 3%nat ++ [58] ++ b 4%nat ++ [58] ++ b 5%nat.

(** What the C library prints for the daemon: [inet_ntop] for the addresses of both
    families, [gmtime_r], and [%f]; and the layout of [struct sockaddr]. *)
Record tm : Type := {
  tm_year : Z; tm_mon : Z; tm_mday : Z; tm_hour : Z; tm_min : Z; tm_sec : Z; tm_gmtoff : Z
}.

Inductive sockaddr : Type :=
| sockaddr_in (sin_addr : list Z) (sin_port : Z)
| sockaddr_in6 (sin6_addr : list Z) (sin6_port : Z) (sin6_flowinfo sin6_scope_id : Z)
| sockaddr_un (sun_path : list Z).

#[export] Instance sockaddr_eq_dec : EqDecision sockaddr.
Proof. solve_decision. Defined.

Class LibC : Type := {
  inet_ntop_v4 : list Z -> list Z;
  inet_ntop_v6 : list Z -> list Z;
  gmtime_r : Z -> option tm;
  print_f : Z -> list Z;
  sockaddr_at : list Z -> sockaddr
}.

Section Utils.
Context {C : LibC}.

(** On a host where [inet_ntop] has enough room: the buffers hold the longest
    address. *)
Definition lgtd_sockaddrtoa (peer : sockaddr) (buflen : nat) : list Z :=
  match peer with
  | sockaddr_in a port =>
    snprintf buflen (bytes_of_string "[::ffff:" ++ inet_ntop_v4 a ++ bytes_of_string "]:" ++ print_u port)
  | sockaddr_in6 a port _ _ =>
    snprintf buflen (bytes_of_string "[" ++ inet_ntop_v6 a ++ bytes_of_string "]:" ++ print_u port)
  | sockaddr_un path => snprintf buflen (bytes_of_string "at " ++ cstr path)
  end.

(** [LGTD_SOCKADDRTOA] on a pointer and a buffer of [LGTD_SOCKADDR_STRLEN] bytes. *)
Definition LGTD_SOCKADDR_STRLEN : nat := 128.

Definition LGTD_SOCKADDRTOA {S} (peer : option sockaddr) : M S (list Z) :=
  massert (bool_decide (is_Some peer)) ;;
  peer ← mderef peer;
  mret (lgtd_sockaddrtoa peer LGTD_SOCKADDR_STRLEN).

Definition lgtd_print_duration (secs : Z) (bufsz : nat) : list Z :=
  let days := i32 (secs / (60 * 60 * 24)) in
  let minutes := i32 (secs / 60) in
  let hours := (minutes ÷ 60) in
  let hours := Z.rem hours 24 in
  let minutes := Z.rem minutes 60 in
  let buf := if days =? 0 then [] else LGTD_SNPRINTF_APPEND [] bufsz (print_d days ++ bytes_of_string " days ") in
  take (bufsz - 1) (buf ++ snprintf (bufsz - length buf) (print_02d hours ++ [58] ++ print_02d minutes)).

Definition LGTD_NSECS_TO_SECS (v : Z) : Z := v / 1000000000.
Definition LGTD_SECS_TO_NSECS (v : Z) : Z := v * 1000000000.

(** One millionth of the nanoseconds: these are milliseconds. *)
Definition LGTD_NSECS_TO_USECS (v : Z) : Z := v / 1000000.

Definition LGTD_TM_TO_ISOTIME (t : tm) (bufsz : nat) (usec : Z) : list Z :=
  snprintf bufsz
    (print_d (1900 + tm_year t) ++ [45] ++ print_02d (1 + tm_mon t) ++ [45] ++ print_02d (tm_mday t) ++ [84]
     ++ print_02d (tm_hour t) ++ [58] ++ print_02d (tm_min t) ++ [58] ++ print_02d (tm_sec t)
     ++ (if usec =? 0 then [] else 46 :: print_d usec)
     ++ [if 0 <=? tm_gmtoff t then 43 else 45]
     ++ print_02d (Z.abs (Z.quot (Z.quot (tm_gmtoff t) 60) 60)) ++ [58] ++ print_02d (Z.rem (tm_gmtoff t) (60 * 60))).

Definition lgtd_print_nsec_timestamp (nsec_ts : Z) (bufsz : nat) : list Z :=
  let ts := LGTD_NSECS_TO_SECS nsec_ts in
  match gmtime_r ts with
  | Some tm_utc => LGTD_TM_TO_ISOTIME tm_utc bufsz (LGTD_NSECS_TO_USECS (nsec_ts - LGTD_SECS_TO_NSECS ts))
  | None => []
  end.
End Utils.

(** ** Lemmas *)

Lemma dec_loop_digits fuel : forall n acc,
  0 <= n -> Forall (fun c => 48 <= c <= 57) acc -> Forall (fun c => 48 <= c <= 57) (dec_loop fuel n acc).
Proof.
  induction fuel as [|fuel IH]; intros n acc Hn Hacc; cbn [dec_loop]; [done|].
  destruct (Z.ltb_spec n 10); [constructor; [lia|done]|].
  pose proof (Z.mod_pos_bound n 10 ltac:(lia)). apply IH; [apply Z.div_pos; lia|]. constructor; [lia|done].
Qed.

Lemma dec_loop_nonempty fuel : forall n acc, (0 < fuel)%nat -> dec_loop fuel n acc <> [].
Proof.
  induction fuel as [|fuel IH]; intros n acc Hf; [lia|]. cbn [dec_loop]. destruct (n <? 10); [done|].
  destruct fuel as [|fuel]; [done|]. apply IH. lia.
Qed.

Lemma print_u_digits n : 0 <= n -> Forall (fun c => 48 <= c <= 57) (print_u n).
Proof. intros Hn. by apply dec_loop_digits. Qed.

Lemma print_u_nonempty n : print_u n <> [].
Proof. apply dec_loop_nonempty. lia. Qed.
