(* ===== verification/Session.v ===== *)
(** * Clients and responses

    The client of [core/client.c] as its callbacks see it, and the functions of
    [core/jsonrpc.c] that write responses. A [session] is the daemon and one
    client. *)

From Stdlib Require Import ZArith Lia String.
From stdpp Require Import base tactics list gmap.
From S2P Require Import Prelude CLib World Jsmn JsonNumbers Printf Proto.

(** ** State *)

(** A pointer to a token is the array from that token on; [NULL] is [None]. *)
Abbreviation tok_ptr := (list jsmntok_t).

Record lgtd_jsonrpc_request : Type := {
  req_method : option tok_ptr;
  req_params : option tok_ptr;
  req_params_ntokens : nat;
  req_id : option tok_ptr;
  req_request_ntokens : nat
}.

(** [cl_io] is whether [client->io] is set and [cl_output] what was written to it. *)
Record lgtd_client : Type := {
  cl_io : bool;
  cl_output : list Z;
  cl_addr : option sockaddr;
  cl_jsmn_tokens : list jsmntok_t;
  cl_json : list Z;
  cl_current_request : option lgtd_jsonrpc_request
}.

Record session : Type := {
  se_world : world;
  se_client : lgtd_client
}.

Definition set_cl_io (v : bool) (c : lgtd_client) : lgtd_client :=
  {| cl_io := v; cl_output := cl_output c; cl_jsmn_tokens := cl_jsmn_tokens c; cl_json := cl_json c;
     cl_addr := cl_addr c; cl_current_request := cl_current_request c |}.
Definition set_cl_output (v : list Z) (c : lgtd_client) : lgtd_client :=
  {| cl_io := cl_io c; cl_output := v; cl_jsmn_tokens := cl_jsmn_tokens c; cl_json := cl_json c;
     cl_addr := cl_addr c; cl_current_request := cl_current_request c |}.
Definition set_cl_jsmn_tokens (v : list jsmntok_t) (c : lgtd_client) : lgtd_client :=
  {| cl_io := cl_io c; cl_output := cl_output c; cl_jsmn_tokens := v; cl_json := cl_json c;
     cl_addr := cl_addr c; cl_current_request := cl_current_request c |}.
Definition set_cl_json (v : list Z) (c : lgtd_client) : lgtd_client :=
  {| cl_io := cl_io c; cl_output := cl_output c; cl_jsmn_tokens := cl_jsmn_tokens c; cl_json := v;
     cl_addr := cl_addr c; cl_current_request := cl_current_request c |}.
Definition set_cl_current_request (v : option lgtd_jsonrpc_request) (c : lgtd_client) : lgtd_client :=
  {| cl_io := cl_io c; cl_output := cl_output c; cl_jsmn_tokens := cl_jsmn_tokens c; cl_json := cl_json c;
     cl_addr := cl_addr c; cl_current_request := v |}.

Definition upd_client (f : lgtd_client -> lgtd_client) : M session unit :=
  mmodify (fun s => {| se_world := se_world s; se_client := f (se_client s) |}).

Definition get_client : M session lgtd_client := mgets se_client.

(** Code of the daemon that does not know the client. *)
Definition lift {A} (m : M world A) : M session A := fun s =>
  match m (se_world s) with
  | Ret a w => Ret a {| se_world := w; se_client := se_client s |}
  | Crash c => Crash c
  end.

(** ** Writing *)

Definition lgtd_client_write_buf (buf : list Z) : M session unit :=
  c ← get_client;
  if negb (length buf =? 0)%nat && cl_io c
  then upd_client (fun c => set_cl_output (cl_output c ++ buf) c)
  else mret tt.

Definition lgtd_client_write_string (msg : list Z) : M session unit :=
  c ← get_client;
  if cl_io c then upd_client (fun c => set_cl_output (cl_output c ++ cstr msg) c) else mret tt.

Inductive lgtd_jsonrpc_error_code : Type :=
| LGTD_JSONRPC_SUCCESS
| LGTD_JSONRPC_PARSE_ERROR
| LGTD_JSONRPC_INVALID_REQUEST
| LGTD_JSONRPC_METHOD_NOT_FOUND
| LGTD_JSONRPC_INVALID_PARAMS
| LGTD_JSONRPC_INTERNAL_ERROR
| LGTD_JSONRPC_SERVER_ERROR.

Definition error_code_value (code : lgtd_jsonrpc_error_code) : Z :=
  match code with
  | LGTD_JSONRPC_SUCCESS => 0
  | LGTD_JSONRPC_PARSE_ERROR => -32700
  | LGTD_JSONRPC_INVALID_REQUEST => -32600
  | LGTD_JSONRPC_METHOD_NOT_FOUND => -32601
  | LGTD_JSONRPC_INVALID_PARAMS => -32602
  | LGTD_JSONRPC_INTERNAL_ERROR => -32603
  | LGTD_JSONRPC_SERVER_ERROR => -32000
  end.

(** The quotes of a string are part of the id. *)
Definition lgtd_jsonrpc_write_id : M session unit :=
  c ← get_client;
  match cl_current_request c ≫= req_id with
  | None => lgtd_client_write_string (bytes_of_string "null")
  | Some id =>
    t ← mderef (head id);
    let start := if is_type JSMN_STRING t then (tok_from t - 1)%nat else tok_from t in
    let stop := if is_type JSMN_STRING t then (tok_to t + 1)%nat else tok_to t in
    massert (start <=? stop)%nat ;;
    lgtd_client_write_buf (take (stop - start) (drop start (cl_json c)))
  end.

Definition response_start : M session unit :=
  lgtd_client_write_string (quoted "{'jsonrpc': '2.0', 'id': ") ;;
  lgtd_jsonrpc_write_id.

Definition lgtd_jsonrpc_send_error (code : lgtd_jsonrpc_error_code) (message : string) : M session unit :=
  response_start ;;
  lgtd_client_write_string (quoted ", 'error': {'code': ") ;;
  lgtd_client_write_string (snprintf 8 (print_d (error_code_value code))) ;;
  lgtd_client_write_string (quoted ", 'message': '") ;;
  lgtd_client_write_string (bytes_of_string message) ;;
  lgtd_client_write_string (quoted "'}}").

Definition lgtd_jsonrpc_start_send_response : M session unit :=
  response_start ;;
  lgtd_client_write_string (quoted ", 'result': ").

Definition lgtd_jsonrpc_end_send_response : M session unit := lgtd_client_write_string (quoted "}").

Definition lgtd_jsonrpc_send_response (result : list Z) : M session unit :=
  lgtd_jsonrpc_start_send_response ;;
  lgtd_client_write_string result ;;
  lgtd_jsonrpc_end_send_response.

(** A command of core/proto.c, whose last act is its response. *)
Definition lgtd_client_send_reply (r : reply) : M session unit :=
  match r with
  | SEND_RESULT ok => lgtd_jsonrpc_send_response (bytes_of_string (if (ok : bool) then "true" else "false"))
  | LGTD_CLIENT_INTERNAL_ERROR msg => lgtd_jsonrpc_send_error LGTD_JSONRPC_INTERNAL_ERROR msg
  end.

Definition call_proto (command : M world reply) : M session unit :=
  r ← lift command; lgtd_client_send_reply r.
