(* ===== verification/LightState.v ===== *)
(** * The state of the lights

    [lgtd_proto_get_light_state] of [core/proto.c], which prints the devices of a
    request as JSON. The text of each device goes through a buffer of 2048
    bytes, and the labels of its tags are written after it. *)

From Stdlib Require Import ZArith Lia String.
From stdpp Require Import base tactics list gmap.
From S2P Require Import Prelude CLib WireBits PacketInfo WireProto World GatewayQueue Bulb Router.
From S2P Require Import Jsmn JsonNumbers Printf Proto Session.

Definition lgtd_lifx_bulb_ip_names : list string := ["mcu"%string; "wifi"%string].

Section LightState.
Context {E : Endianness} {C : LibC}.
(** [lgtd_opts.verbosity == LGTD_DEBUG]. *)
Context (debug : bool).

(** One address of [bulb->ips]. *)
Definition print_ip (name : string) (ip : lgtd_lifx_bulb_ip) : list Z :=
  let version := fw_version (ip_fw_info ip) in
  let print_version := print_u (Z.shiftr (Z.land version 0xffff0000) 16) ++ [46] ++ print_u (Z.land version 0xffff) in
  if debug then
    quoted ",'" ++ bytes_of_string name
    ++ quoted "':{'firmware_built_at':'" ++ lgtd_print_nsec_timestamp (fw_built_at (ip_fw_info ip)) 64
    ++ quoted "','firmware_installed_at':'" ++ lgtd_print_nsec_timestamp (fw_installed_at (ip_fw_info ip)) 64
    ++ quoted "','firmware_version':'" ++ print_version
    ++ quoted "','signal_strength':" ++ print_f (is_signal_strength (ip_state ip))
    ++ quoted ",'tx_bytes':" ++ print_u (is_tx_bytes (ip_state ip))
    ++ quoted ",'rx_bytes':" ++ print_u (is_rx_bytes (ip_state ip))
    ++ quoted ",'temperature':" ++ print_u (is_temperature (ip_state ip))
    ++ quoted "}"
  else
    quoted ",'" ++ bytes_of_string name ++ quoted "':{'firmware_version':'" ++ print_version ++ quoted "'}".

Definition PRINT_STRING_OR_NULL (v : option string) : list Z :=
  match v with
  | Some s => quoted "'" ++ bytes_of_string s ++ quoted "'"
  | None => bytes_of_string "null"
  end.

(** The label, or the address of a bulb that has none. *)
Definition print_label (bulb : lgtd_lifx_bulb) : list Z :=
  let label := ls_label (bulb_state bulb) in
  if negb (default 0 (head label) =? 0) then take LGTD_LIFX_LABEL_SIZE (cstr label)
  else snprintf 16 (mjoin (print_02hhx <$> bulb_addr bulb)).

(** The texts appended to the buffer, in order. *)
Definition device_texts (gw : lgtd_lifx_gateway) (bulb : lgtd_lifx_bulb) (h s b : list Z) : list (list Z) :=
  let state := bulb_state bulb in
  [ quoted "{'_lifx':{'addr':'" ++ lgtd_iee8023mactoa (bulb_addr bulb)
    ++ quoted "','gateway':{'site':'" ++ lgtd_iee8023mactoa (gw_site gw)
    ++ quoted "','url':'tcp://" ++ lgtd_sockaddrtoa (sockaddr_at (gw_peer gw)) 128
    ++ quoted "','latency':" ++ print_u (lgtd_lifx_gateway_latency gw) ++ quoted "}" ]
  ++ zip_with print_ip lgtd_lifx_bulb_ip_names (bulb_ips bulb)
  ++ (if debug then
        let product := bulb_product_info bulb in
        let runtime := bulb_runtime_info bulb in
        [ quoted ",'product_info':{'vendor_id':'" ++ print_x (pr_vendor_id product)
          ++ quoted "','product_id':'" ++ print_x (pr_product_id product)
          ++ quoted "','version':" ++ print_u (pr_version product) ++ quoted "}";
          quoted ",'runtime_info':{'time':'" ++ lgtd_print_nsec_timestamp (ri_time runtime) 64
          ++ quoted "','uptime':" ++ print_u (LGTD_NSECS_TO_SECS (ri_uptime runtime))
          ++ quoted ",'downtime':" ++ print_u (LGTD_NSECS_TO_SECS (ri_downtime runtime)) ++ quoted "}}" ]
      else [ quoted "}" ])
  ++ [ quoted ",'_model':"; PRINT_STRING_OR_NULL (bulb_model bulb);
       quoted ",'_vendor':"; PRINT_STRING_OR_NULL (bulb_vendor bulb);
       quoted ",'hsbk':[" ++ h ++ [44] ++ s ++ [44] ++ b ++ [44] ++ print_u (ls_kelvin state)
       ++ quoted "],'power':"
       ++ bytes_of_string (if ls_power state =? LGTD_LIFX_POWER_ON then "true" else "false")
       ++ quoted ",'label':'" ++ print_label bulb ++ quoted "','tags':[" ].

(** The loop over the tags of the bulb; [comma] is whether one was written. *)
Fixpoint write_tags (gw : lgtd_lifx_gateway) (comma : bool) (ids : list Z) : M session unit :=
  match ids with
  | [] => mret tt
  | tag_id :: ids =>
    if has_flag (LGTD_LIFX_WIRE_TAG_ID_TO_VALUE tag_id) (gw_tag_ids gw) then
      t ← mderef (gw_tags gw !! Z.to_nat tag_id ≫= id);
      tag ← lift (get_tag t);
      lgtd_client_write_string (quoted (if comma then ",'" else "'")) ;;
      lgtd_client_write_string (tag_label tag) ;;
      lgtd_client_write_string (quoted "'") ;;
      write_tags gw true ids
    else write_tags gw comma ids
  end.

(** The body of the loop over the devices; [more] is [SLIST_NEXT(device, link)]. *)
Definition write_device (a : addr) (more : bool) : M session unit :=
  bulb ← lift (get_bulb a);
  gw ← lift (get_gw (bulb_gw bulb));
  h ← lgtd_jsonrpc_uint16_range_to_float_string (ls_hue (bulb_state bulb)) 0 360 16;
  s ← lgtd_jsonrpc_uint16_range_to_float_string (ls_saturation (bulb_state bulb)) 0 1 16;
  b ← lgtd_jsonrpc_uint16_range_to_float_string (ls_brightness (bulb_state bulb)) 0 1 16;
  let buf := foldl (fun buf text => LGTD_SNPRINTF_APPEND buf 2048 text) [] (device_texts gw bulb h s b) in
  if (2048 <=? length buf)%nat then mret tt
  else
    lgtd_client_write_string buf ;;
    write_tags gw false (LGTD_LIFX_WIRE_FOREACH_TAG_ID (ls_tags (bulb_state bulb))) ;;
    lgtd_client_write_string (quoted (if more then "]}," else "]}")).

Fixpoint write_devices (devices : list addr) : M session unit :=
  match devices with
  | [] => mret tt
  | a :: devices => write_device a (negb (length devices =? 0)%nat) ;; write_devices devices
  end.

Definition lgtd_proto_get_light_state (targets : list (list Z)) : M session unit :=
  devices ← lift (lgtd_router_targets_to_devices targets);
  match devices with
  | None => lgtd_jsonrpc_send_error LGTD_JSONRPC_INTERNAL_ERROR "couldn't allocate device list"
  | Some devices =>
    c ← get_client;
    LGTD_SOCKADDRTOA (cl_addr c) ;;
    lgtd_jsonrpc_start_send_response ;;
    lgtd_client_write_string (quoted "[") ;;
    write_devices devices ;;
    lgtd_client_write_string (quoted "]") ;;
    lgtd_jsonrpc_end_send_response
  end.
End LightState.
