(* ===== verification/Jsonrpc.v ===== *)
(** * Requests

    The rest of [core/jsonrpc.c]: reading the members of a request against a
    schema, checking the parameters of each method, and dispatching requests and
    batches of requests. *)

From Stdlib Require Import ZArith Lia String.
From stdpp Require Import base tactics list gmap.
From S2P Require Import Prelude CLib WireBits PacketInfo WireProto World Router Proto.
From S2P Require Import Jsmn JsonNumbers Printf Session LightState.

(** ** Schemas *)

(** The offset of a field of the structure that is filled is its name. *)
Record lgtd_jsonrpc_node : Type := {
  node_key : list Z;
  node_value_offset : option string;
  node_ntokens_offset : option string;
  node_type_cmp : jsmntok_t -> list Z -> bool;
  node_optional : bool
}.

Definition LGTD_JSONRPC_NODE (key : string) (value_offset ntokens_offset : option string)
    (type_cmp : jsmntok_t -> list Z -> bool) (optional : bool) : lgtd_jsonrpc_node :=
  {| node_key := bytes_of_string key; node_value_offset := value_offset; node_ntokens_offset := ntokens_offset;
     node_type_cmp := type_cmp; node_optional := optional |}.

(** The structure: its pointers to tokens, null until they are set, and its
    numbers of tokens, zero until they are set. *)
Record output : Type := {
  out_toks : gmap string tok_ptr;
  out_ntokens : gmap string nat
}.

Definition no_output : output := {| out_toks := ∅; out_ntokens := ∅ |}.

Definition LGTD_JSONRPC_SET_JSMNTOK (o : output) (offset : option string) (t : tok_ptr) : output :=
  match offset with
  | Some f => {| out_toks := <[f := t]> (out_toks o); out_ntokens := out_ntokens o |}
  | None => o
  end.

Definition LGTD_JSONRPC_SET_NTOKENS (o : output) (offset : option string) (n : nat) : output :=
  match offset with
  | Some f => {| out_toks := out_toks o; out_ntokens := <[f := n]> (out_ntokens o) |}
  | None => o
  end.

Definition LGTD_JSONRPC_GET_JSMNTOK (o : output) (offset : option string) : option tok_ptr :=
  match offset with Some f => out_toks o !! f | None => None end.

Definition ntokens_at (o : output) (f : string) : nat := default 0%nat (out_ntokens o !! f).

Section Tokens.
Context {S : Type}.
Context (json : list Z).

(** The loop over the [objsize] values of a container, [consume_one] being the
    call for a value that is a container itself. *)
Fixpoint consume_loop (consume_one : nat -> M S nat) (container_type : jsmntype_t) (tokens : tok_ptr)
    (objsize ti parsed : nat) : M S nat :=
  match objsize with
  | O => mret ti
  | Datatypes.S objsize =>
    if (ti <? parsed)%nat then
      let ti := if bool_decide (container_type = JSMN_OBJECT) then Datatypes.S ti else ti in
      v ← mderef (tokens !! ti);
      ti ← (if lgtd_jsonrpc_type_object_or_array v json then consume_one ti else mret (Datatypes.S ti));
      consume_loop consume_one container_type tokens objsize ti parsed
    else mret ti
  end.

(** The index after a container and all it holds. A container that holds another
    comes before it: the number of tokens bounds the depth. *)
Fixpoint consume (fuel : nat) (tokens : tok_ptr) (ti parsed : nat) : M S nat :=
  match fuel with
  | O => mcrash UndefinedBehaviour
  | Datatypes.S fuel =>
    t ← mderef (tokens !! ti);
    massert (lgtd_jsonrpc_type_object_or_array t json) ;;
    massert (ti <? parsed)%nat ;;
    consume_loop (fun ti => consume fuel tokens ti parsed) (tok_type t) tokens (tok_size t) (Datatypes.S ti) parsed
  end.

Definition lgtd_jsonrpc_consume_object_or_array (tokens : tok_ptr) (ti parsed : nat) : M S nat :=
  consume (Datatypes.S parsed) tokens ti parsed.

(** Skips a value. *)
Definition skip_value (tokens : tok_ptr) (ti ntokens : nat) : M S nat :=
  t ← mderef (tokens !! ti);
  if is_type JSMN_OBJECT t || is_type JSMN_ARRAY t
  then lgtd_jsonrpc_consume_object_or_array tokens ti ntokens
  else mret (Datatypes.S ti).

(** The node of a schema whose key is the text of the token. *)
Definition find_node (schema : list lgtd_jsonrpc_node) (t : jsmntok_t) : option lgtd_jsonrpc_node :=
  snd <$> list_find (fun n => (length (node_key n) =? LGTD_JSONRPC_TOKEN_LEN t)%nat
                       && memcmp_eq (node_key n) (text_at t json) (LGTD_JSONRPC_TOKEN_LEN t) = true) schema.

Fixpoint dict_loop (fuel : nat) (schema : list lgtd_jsonrpc_node) (tokens : tok_ptr) (ti ntokens : nat) (o : output) :
    M S (bool * output) :=
  if (ti <? ntokens)%nat then
    match fuel with
    | O => mcrash UndefinedBehaviour
    | Datatypes.S fuel =>
      key ← mderef (tokens !! ti);
      if negb (is_type JSMN_STRING key) then mret (true, o)
      else
        let ti := Datatypes.S ti in
        match find_node schema key with
        | None =>
          ti ← skip_value tokens ti ntokens;
          dict_loop fuel schema tokens ti ntokens o
        | Some node =>
          value ← mderef (tokens !! ti);
          if negb (node_type_cmp node value json) then mret (false, o)
          else if bool_decide (is_Some (LGTD_JSONRPC_GET_JSMNTOK o (node_value_offset node))) then mret (false, o)
          else
            let o := LGTD_JSONRPC_SET_JSMNTOK o (node_value_offset node) (drop ti tokens) in
            ti' ← skip_value tokens ti ntokens;
            let o := LGTD_JSONRPC_SET_NTOKENS o (node_ntokens_offset node) (ti' - ti)%nat in
            dict_loop fuel schema tokens ti' ntokens o
        end
    end
  else mret (true, o).

(** Whether the required pointers are set. *)
Definition required_seen (schema : list lgtd_jsonrpc_node) (o : output) : bool :=
  forallb (fun n => node_optional n || bool_decide (node_value_offset n = None)
                    || bool_decide (is_Some (LGTD_JSONRPC_GET_JSMNTOK o (node_value_offset n)))) schema.

Definition lgtd_jsonrpc_extract_values_from_schema_and_dict (o : output) (schema : list lgtd_jsonrpc_node)
    (tokens : tok_ptr) (ntokens : nat) : M S (bool * output) :=
  if (ntokens =? 0)%nat then mret (false, o)
  else
    t ← mderef (head tokens);
    if negb (is_type JSMN_OBJECT t) then mret (false, o)
    else
      r ← dict_loop ntokens schema tokens 1 ntokens o;
      mret (fst r && required_seen schema (snd r), snd r).

(** [objsize] is the [int] of the code: it is -1 when the loop ends on it. *)
Fixpoint array_loop (schema : list lgtd_jsonrpc_node) (tokens : tok_ptr) (ti ntokens : nat) (objsize : Z) (o : output) :
    M S (bool * output) :=
  match schema with
  | [] => mret (objsize =? 0, o)
  | node :: schema' =>
    if negb (ti <? ntokens)%nat then mret ((objsize =? 0) || node_optional node, o)
    else if objsize =? 0 then mret (node_optional node, o)
    else
      value ← mderef (tokens !! ti);
      if negb (node_type_cmp node value json) then mret (false, o)
      else
        let o := LGTD_JSONRPC_SET_JSMNTOK o (node_value_offset node) (drop ti tokens) in
        ti' ← skip_value tokens ti ntokens;
        let o := LGTD_JSONRPC_SET_NTOKENS o (node_ntokens_offset node) (ti' - ti)%nat in
        array_loop schema' tokens ti' ntokens (objsize - 1) o
  end.

Definition lgtd_jsonrpc_extract_values_from_schema_and_array (o : output) (schema : list lgtd_jsonrpc_node)
    (tokens : tok_ptr) (ntokens : nat) : M S (bool * output) :=
  if (ntokens =? 0)%nat then mret (false, o)
  else
    t ← mderef (head tokens);
    if negb (is_type JSMN_ARRAY t) then mret (false, o)
    else array_loop schema tokens 1 ntokens (Z.of_nat (tok_size t)) o.

(** [params] is null when the request has none. *)
Definition lgtd_jsonrpc_extract_and_validate_params_against_schema (o : output) (schema : list lgtd_jsonrpc_node)
    (params : option tok_ptr) (ntokens : nat) : M S (bool * output) :=
  if (ntokens =? 0)%nat then mret (forallb node_optional schema, o)
  else
    tokens ← mderef params;
    t ← mderef (head tokens);
    if is_type JSMN_OBJECT t then lgtd_jsonrpc_extract_values_from_schema_and_dict o schema tokens ntokens
    else if is_type JSMN_ARRAY t then lgtd_jsonrpc_extract_values_from_schema_and_array o schema tokens ntokens
    else mret (false, o).

(** ** The request *)

Definition request_schema : list lgtd_jsonrpc_node :=
  [ LGTD_JSONRPC_NODE "jsonrpc" None None lgtd_jsonrpc_type_string false;
    LGTD_JSONRPC_NODE "method" (Some "method"%string) None lgtd_jsonrpc_type_string false;
    LGTD_JSONRPC_NODE "params" (Some "params"%string) (Some "params_ntokens"%string)
      lgtd_jsonrpc_type_object_or_array true;
    LGTD_JSONRPC_NODE "id" (Some "id"%string) None lgtd_jsonrpc_type_string_number_or_null true ].

(** The request as the structure has it after the extraction. *)
Definition request_of (o : output) (request_ntokens : nat) : lgtd_jsonrpc_request :=
  {| req_method := out_toks o !! "method"%string; req_params := out_toks o !! "params"%string;
     req_params_ntokens := ntokens_at o "params_ntokens"; req_id := out_toks o !! "id"%string;
     req_request_ntokens := request_ntokens |}.

Definition lgtd_jsonrpc_check_and_extract_request (tokens : tok_ptr) (ntokens : nat) :
    M S (bool * lgtd_jsonrpc_request) :=
  r ← lgtd_jsonrpc_extract_values_from_schema_and_dict no_output request_schema tokens ntokens;
  let o := snd r in
  if negb (fst r) then mret (false, request_of o 0)
  else
    let n := (1 + 2 + 2)%nat in
    let n := match out_toks o !! "params"%string with
             | Some _ => (n + 1 + ntokens_at o "params_ntokens")%nat
             | None => n
             end in
    let n := match out_toks o !! "id"%string with Some _ => (n + 2)%nat | None => n end in
    mret (true, request_of o n).
End Tokens.

(** ** Parameters *)

Definition INVALID_PARAMS : M session unit := lgtd_jsonrpc_send_error LGTD_JSONRPC_INVALID_PARAMS "Invalid parameters".

(** The loop over the tokens of a target, from the last to the first: a target is
    inserted at the head of the list. None is an error, for which a response was
    sent. *)
Fixpoint target_loop (target : tok_ptr) (ti : nat) (targets : list (list Z)) : M session (option (list (list Z))) :=
  match ti with
  | O => mret (Some targets)
  | S ti =>
    t ← mderef (target !! ti);
    c ← get_client;
    if lgtd_jsonrpc_type_string_or_number t (cl_json c) then
      allocated ← lift os_call;
      if (allocated : bool) then target_loop target ti (token_text t (cl_json c) :: targets)
      else
        lgtd_jsonrpc_send_error LGTD_JSONRPC_INTERNAL_ERROR "Can't allocate memory" ;;
        mret None
    else
      INVALID_PARAMS ;;
      mret None
  end.

Definition lgtd_jsonrpc_build_target_list (target : option tok_ptr) (target_ntokens : nat) :
    M session (option (list (list Z))) :=
  massert (bool_decide (is_Some target)) ;;
  if (target_ntokens <? 1)%nat then mret None
  else
    target ← mderef target;
    t ← mderef (head target);
    if is_type JSMN_ARRAY t then target_loop (drop 1 target) (target_ntokens - 1) []
    else if negb (target_ntokens =? 1)%nat then mret None
    else target_loop target target_ntokens [].

(** The token behind a pointer of the structure. *)
Definition param (o : output) (f : string) : M session jsmntok_t :=
  p ← mderef (out_toks o !! f); mderef (head p).

(** Reads a component of a color. *)
Definition component (o : output) (f : string) (stop : Z) : M session Z :=
  t ← param o f;
  c ← get_client;
  lgtd_jsonrpc_float_range_to_uint16 (text_at t (cl_json c)) (LGTD_JSONRPC_TOKEN_LEN t) 0 stop.

(** [int v = strtol(&client->json[params.f->start], NULL, 10)], and whether it set
    [errno] to [ERANGE]. *)
Definition integer (o : output) (f : string) : M session (Z * bool) :=
  t ← param o f;
  c ← get_client;
  let r := strtol (text_at t (cl_json c)) in
  mret (i32 (st_value r), st_erange r).

(** The parameters of the current request. *)
Definition extract_params (schema : list lgtd_jsonrpc_node) : M session (bool * output) :=
  c ← get_client;
  req ← mderef (cl_current_request c);
  lgtd_jsonrpc_extract_and_validate_params_against_schema (cl_json c) no_output schema
    (req_params req) (req_params_ntokens req).

Definition target_node : lgtd_jsonrpc_node :=
  LGTD_JSONRPC_NODE "target" (Some "target"%string) (Some "target_ntokens"%string)
    lgtd_jsonrpc_type_string_number_or_array false.

Definition color_nodes : list lgtd_jsonrpc_node :=
  [ LGTD_JSONRPC_NODE "hue" (Some "h"%string) None lgtd_jsonrpc_type_float_between_0_and_360 false;
    LGTD_JSONRPC_NODE "saturation" (Some "s"%string) None lgtd_jsonrpc_type_float_between_0_and_1 false;
    LGTD_JSONRPC_NODE "brightness" (Some "b"%string) None lgtd_jsonrpc_type_float_between_0_and_1 false;
    LGTD_JSONRPC_NODE "kelvin" (Some "k"%string) None lgtd_jsonrpc_type_integer false ].

Definition set_light_from_hsbk_schema : list lgtd_jsonrpc_node :=
  [target_node] ++ color_nodes
  ++ [ LGTD_JSONRPC_NODE "transition" (Some "t"%string) None lgtd_jsonrpc_type_integer true ].

Definition set_waveform_schema : list lgtd_jsonrpc_node :=
  [target_node; LGTD_JSONRPC_NODE "waveform" (Some "waveform"%string) None lgtd_jsonrpc_type_string false]
  ++ color_nodes
  ++ [ LGTD_JSONRPC_NODE "period" (Some "period"%string) None lgtd_jsonrpc_type_integer false;
       LGTD_JSONRPC_NODE "cycles" (Some "cycles"%string) None lgtd_jsonrpc_type_integer false;
       LGTD_JSONRPC_NODE "skew_ratio" (Some "skew_ratio"%string) None lgtd_jsonrpc_type_float_between_0_and_1 false;
       LGTD_JSONRPC_NODE "transient" (Some "transient"%string) None lgtd_jsonrpc_type_bool true ].

Definition label_schema : list lgtd_jsonrpc_node :=
  [target_node; LGTD_JSONRPC_NODE "label" (Some "label"%string) None lgtd_jsonrpc_type_string false].

(** The conversion of an [int] to a [float], rounded to the nearest even: the bits
    of the result. *)
Definition float_of_int (n : Z) : Z :=
  if n =? 0 then 0
  else
    let m := Z.abs n in
    let e := Z.log2 m in
    let q :=
      if e <=? 23 then m * 2 ^ (23 - e)
      else
        let s := 2 ^ (e - 23) in
        let q := m / s in
        let r := m mod s in
        if 2 * r <? s then q else if s <? 2 * r then q + 1 else q + q mod 2 in
    (if n <? 0 then 2 ^ 31 else 0) + (e + 126) * 2 ^ 23 + q.

Section Methods.
Context {E : Endianness} {C : LibC}.
Context (debug : bool).

Definition lgtd_jsonrpc_check_and_call_set_light_from_hsbk : M session unit :=
  r ← extract_params set_light_from_hsbk_schema;
  let o := snd r in
  if negb (fst r) then INVALID_PARAMS
  else
    h ← component o "h" 360;
    s ← component o "s" 1;
    b ← component o "b" 1;
    k ← integer o "k";
    if (fst k <? 2500) || (9000 <? fst k) || snd k then INVALID_PARAMS
    else
      t ← match out_toks o !! "t"%string with
          | Some _ => integer o "t"
          | None => mret (0, false)
          end;
      if (fst t <? 0) || snd t then INVALID_PARAMS
      else
        targets ← lgtd_jsonrpc_build_target_list (out_toks o !! "target"%string) (ntokens_at o "target_ntokens");
        match targets with
        | None => mret tt
        | Some targets => call_proto (lgtd_proto_set_light_from_hsbk targets h s b (fst k) (fst t))
        end.

(** [errno] is set to 0 once, before the first [strtol]: a token that passed
    [lgtd_jsonrpc_type_integer] never sets it. [cycles] becomes a [float]. *)
Definition lgtd_jsonrpc_check_and_call_set_waveform : M session unit :=
  r ← extract_params set_waveform_schema;
  let o := snd r in
  if negb (fst r) then INVALID_PARAMS
  else
    wt ← param o "waveform";
    c ← get_client;
    let waveform := lgtd_lifx_wire_waveform_string_id_to_type (text_at wt (cl_json c))
                      (LGTD_JSONRPC_TOKEN_LEN wt) in
    if waveform_value waveform =? waveform_value LGTD_LIFX_WAVEFORM_INVALID then INVALID_PARAMS
    else
      h ← component o "h" 360;
      s ← component o "s" 1;
      b ← component o "b" 1;
      k ← integer o "k";
      if (fst k <? 2500) || (9000 <? fst k) || snd k then INVALID_PARAMS
      else
        period ← integer o "period";
        if (fst period <=? 0) || snd k || snd period then INVALID_PARAMS
        else
          cycles ← integer o "cycles";
          if (fst cycles <=? 0) || snd k || snd period || snd cycles then INVALID_PARAMS
          else
            skew_ratio ← component o "skew_ratio" 1;
            let skew_ratio := skew_ratio - 65535 `quot` 2 in
            transient ← match out_toks o !! "transient"%string with
                        | Some p => t ← mderef (head p); mret (char_at t (cl_json c) =? 116)
                        | None => mret true
                        end;
            targets ← lgtd_jsonrpc_build_target_list (out_toks o !! "target"%string) (ntokens_at o "target_ntokens");
            match targets with
            | None => mret tt
            | Some targets =>
              call_proto (lgtd_proto_set_waveform targets waveform h s b (fst k) (fst period)
                             (float_of_int (fst cycles)) skew_ratio transient)
            end.

Definition lgtd_jsonrpc_extract_target_list : M session (option (list (list Z))) :=
  r ← extract_params [target_node];
  if negb (fst r) then INVALID_PARAMS ;; mret None
  else lgtd_jsonrpc_build_target_list (out_toks (snd r) !! "target"%string) (ntokens_at (snd r) "target_ntokens").

Definition CHECK_AND_CALL_TARGETS_ONLY_METHOD (proto_method : list (list Z) -> M session unit) : M session unit :=
  targets ← lgtd_jsonrpc_extract_target_list;
  match targets with
  | None => mret tt
  | Some targets => proto_method targets
  end.

Definition lgtd_jsonrpc_check_and_call_proto_tag_or_untag_or_set_label
    (lgtd_proto_fn : list (list Z) -> list Z -> M world reply) : M session unit :=
  r ← extract_params label_schema;
  let o := snd r in
  if negb (fst r) then INVALID_PARAMS
  else
    targets ← lgtd_jsonrpc_build_target_list (out_toks o !! "target"%string) (ntokens_at o "target_ntokens");
    match targets with
    | None => mret tt
    | Some targets =>
      t ← param o "label";
      c ← get_client;
      allocated ← lift os_call;
      if (allocated : bool)
      then call_proto (lgtd_proto_fn targets (cstr (token_text t (cl_json c))))
      else lgtd_jsonrpc_send_error LGTD_JSONRPC_INTERNAL_ERROR "Can't allocate memory"
    end.

(** ** Dispatch *)

Definition methods : list (list Z * M session unit) :=
  [ (bytes_of_string "power_on", CHECK_AND_CALL_TARGETS_ONLY_METHOD (fun t => call_proto (lgtd_proto_power_on t)));
    (bytes_of_string "power_off", CHECK_AND_CALL_TARGETS_ONLY_METHOD (fun t => call_proto (lgtd_proto_power_off t)));
    (bytes_of_string "power_toggle",
     CHECK_AND_CALL_TARGETS_ONLY_METHOD (fun t => call_proto (lgtd_proto_power_toggle t)));
    (bytes_of_string "set_light_from_hsbk", lgtd_jsonrpc_check_and_call_set_light_from_hsbk);
    (bytes_of_string "set_waveform", lgtd_jsonrpc_check_and_call_set_waveform);
    (bytes_of_string "get_light_state", CHECK_AND_CALL_TARGETS_ONLY_METHOD (lgtd_proto_get_light_state debug));
    (bytes_of_string "tag", lgtd_jsonrpc_check_and_call_proto_tag_or_untag_or_set_label lgtd_proto_tag);
    (bytes_of_string "untag", lgtd_jsonrpc_check_and_call_proto_tag_or_untag_or_set_label lgtd_proto_untag);
    (bytes_of_string "set_label", lgtd_jsonrpc_check_and_call_proto_tag_or_untag_or_set_label lgtd_proto_set_label) ].

(** [batch_sent] is null outside of a batch. *)
Definition lgtd_jsonrpc_batch_prepare_next_part (batch_sent : option Z) : M session unit :=
  match batch_sent with
  | None => mret tt
  | Some n =>
    if n =? 1 then lgtd_client_write_string (bytes_of_string "[")
    else if negb (n =? 0) then lgtd_client_write_string (bytes_of_string ",")
    else mret tt
  end.

(** The end of [lgtd_jsonrpc_dispatch_one] for a request that is not served. *)
Definition dispatch_error (batch_sent : option Z) (request : lgtd_jsonrpc_request)
    (error_code : lgtd_jsonrpc_error_code) (error_msg : string) : M session (nat * option Z) :=
  lgtd_jsonrpc_batch_prepare_next_part batch_sent ;;
  lgtd_jsonrpc_send_error error_code error_msg ;;
  upd_client (set_cl_current_request None) ;;
  mret (req_request_ntokens request, batch_sent).

(** The methods are compared to the text of the token. *)
Definition find_method (json : list Z) (t : jsmntok_t) : option (M session unit) :=
  snd <$> (snd <$> list_find (fun m => (LGTD_JSONRPC_TOKEN_LEN t =? length (fst m))%nat
                              && memcmp_eq (fst m) (text_at t json) (length (fst m)) = true) methods).

(** The number of tokens of the request, and [*batch_sent]. A request without an id
    is a notification: it is served with [client->io] put aside. *)
Definition lgtd_jsonrpc_dispatch_one (tokens : tok_ptr) (ntokens : nat) (batch_sent : option Z) :
    M session (nat * option Z) :=
  let batch_sent := (fun n => n + 1) <$> batch_sent in
  c ← get_client;
  r ← lgtd_jsonrpc_check_and_extract_request (cl_json c) tokens ntokens;
  let request := snd r in
  upd_client (set_cl_current_request (Some request)) ;;
  if negb (fst r) then
    n ← lgtd_jsonrpc_consume_object_or_array (cl_json c) tokens 0 ntokens;
    let request :=
      {| req_method := req_method request; req_params := req_params request;
         req_params_ntokens := req_params_ntokens request; req_id := req_id request; req_request_ntokens := n |} in
    upd_client (set_cl_current_request (Some request)) ;;
    dispatch_error batch_sent request LGTD_JSONRPC_INVALID_REQUEST "Invalid request"
  else
    massert (bool_decide (is_Some (req_method request))) ;;
    massert (negb (req_request_ntokens request =? 0)%nat) ;;
    m ← mderef (req_method request ≫= head);
    match find_method (cl_json c) m with
    | None => dispatch_error batch_sent request LGTD_JSONRPC_METHOD_NOT_FOUND "Method not found"
    | Some method =>
      match req_id request with
      | None =>
        let batch_sent := (fun n => n - 1) <$> batch_sent in
        upd_client (set_cl_io false) ;;
        method ;;
        upd_client (set_cl_io (cl_io c)) ;;
        upd_client (set_cl_current_request None) ;;
        mret (req_request_ntokens request, batch_sent)
      | Some _ =>
        lgtd_jsonrpc_batch_prepare_next_part batch_sent ;;
        method ;;
        upd_client (set_cl_current_request None) ;;
        mret (req_request_ntokens request, batch_sent)
      end
    end.

(** The loop over a batch: every turn moves on by a token at least. *)
Fixpoint batch_loop (fuel : nat) (tokens : tok_ptr) (ti parsed : nat) (batch_sent : Z) : M session Z :=
  if (ti <? parsed)%nat then
    match fuel with
    | O => mcrash UndefinedBehaviour
    | S fuel =>
      c ← get_client;
      tok ← mderef (tokens !! ti);
      if is_type JSMN_OBJECT tok then
        r ← lgtd_jsonrpc_dispatch_one (drop ti tokens) (parsed - ti) (Some batch_sent);
        batch_loop fuel tokens (ti + fst r) parsed (default 0 (snd r))
      else
        let batch_sent := batch_sent + 1 in
        lgtd_jsonrpc_batch_prepare_next_part (Some batch_sent) ;;
        lgtd_jsonrpc_send_error LGTD_JSONRPC_INVALID_REQUEST "Invalid request" ;;
        if is_type JSMN_ARRAY tok then
          ti ← lgtd_jsonrpc_consume_object_or_array (cl_json c) tokens ti parsed;
          batch_loop fuel tokens ti parsed batch_sent
        else batch_loop fuel tokens (S ti) parsed batch_sent
    end
  else mret batch_sent.

Definition lgtd_jsonrpc_dispatch_request (parsed : nat) : M session unit :=
  c ← get_client;
  let tokens := cl_jsmn_tokens c in
  empty ← (if (parsed =? 0)%nat then mret true
           else t ← mderef (head tokens); mret (tok_size t =? 0)%nat);
  if (empty : bool) then lgtd_jsonrpc_send_error LGTD_JSONRPC_INVALID_REQUEST "Invalid request"
  else
    t ← mderef (head tokens);
    if negb (is_type JSMN_ARRAY t) then lgtd_jsonrpc_dispatch_one tokens parsed None ;; mret tt
    else
      batch_sent ← batch_loop parsed tokens 1 parsed 0;
      if negb (batch_sent =? 0) then lgtd_client_write_string (bytes_of_string "]") else mret tt.
End Methods.
