(* ===== verification/JsonrpcLoops.v ===== *)
(** * The loops of core/jsonrpc.c end

    The loops over tokens are written with fuel: the number of tokens. Every turn
    moves on by a token at least, so that more fuel gives the same run. *)

From Stdlib Require Import ZArith Lia String.
From stdpp Require Import base tactics list.
From S2P Require Import Prelude CLib World Jsmn JsonNumbers Printf Session Jsonrpc.

#[local] Open Scope nat_scope.

(** What holds of the value of every run that returns. *)
Definition returns {S A} (m : M S A) (P : A -> Prop) : Prop := forall s a s', m s = Ret a s' -> P a.

Lemma returns_bind {S A B} (m : M S A) (k : A -> M S B) (Q : A -> Prop) (P : B -> Prop) :
  returns m Q -> (forall a, Q a -> returns (k a) P) -> returns (m ≫= k) P.
Proof.
  intros Hm Hk s b s'. unfold mbind, M_bind. destruct (m s) as [a s1|] eqn:Hrun; [|done].
  apply Hk. by eapply Hm.
Qed.

Lemma returns_any {S A} (m : M S A) : returns m (fun _ => True).
Proof. done. Qed.

Lemma returns_ret {S A} (a : A) (P : A -> Prop) : P a -> returns (mret a : M S A) P.
Proof. intros Ha s a' s' Hrun. by injection Hrun as <- _. Qed.

Lemma returns_assert {S} (b : bool) : returns (massert b : M S unit) (fun _ => b = true).
Proof. by destruct b. Qed.

(** Two runs that agree up to a point agree. *)
Lemma bind_ext {S A B} (m : M S A) (k1 k2 : A -> M S B) (Q : A -> Prop) s :
  returns m Q -> (forall a s', Q a -> k1 a s' = k2 a s') -> (m ≫= k1) s = (m ≫= k2) s.
Proof.
  intros Hm Hk. unfold mbind, M_bind. destruct (m s) as [a s1|] eqn:Hrun; [|done]. apply Hk. by eapply Hm.
Qed.

Lemma bind_agree {S A B} (m1 m2 : M S A) (k1 k2 : A -> M S B) (Q : A -> Prop) s :
  (forall s', m1 s' = m2 s') -> returns m1 Q -> (forall a s', Q a -> k1 a s' = k2 a s') -> (m1 ≫= k1) s = (m2 ≫= k2) s.
Proof.
  intros Heq Hm Hk. unfold mbind, M_bind. rewrite <- Heq. destruct (m1 s) as [a s1|] eqn:Hrun; [|done]. apply Hk. by eapply Hm.
Qed.

Section Loops.
Context {S : Type} (json : list Z).

(** ** A container *)

Lemma consume_one_moves (f : nat -> M S nat) (b : bool) ti :
  returns (f ti) (lt ti) -> returns (if b then f ti else mret (Datatypes.S ti)) (lt ti).
Proof. intros Hf. destruct b; [done|]. apply returns_ret; cbn; lia. Qed.

Lemma consume_loop_moves (f : nat -> M S nat) type tokens n : forall ti parsed,
  (forall i, returns (f i) (lt i)) -> returns (consume_loop json f type tokens n ti parsed) (le ti).
Proof.
  induction n as [|n IH]; intros ti parsed Hf; cbn [consume_loop]; [apply returns_ret; cbn; lia|].
  destruct (ti <? parsed); [|apply returns_ret; cbn; lia]. set (ti1 := if bool_decide _ then _ else _).
  assert (Hti : ti <= ti1) by (unfold ti1; case_bool_decide; lia). cbv zeta.
  apply (returns_bind _ _ (fun _ => True)); [done|]. intros v _.
  apply (returns_bind _ _ (lt ti1)); [by apply consume_one_moves|]. intros ti2 Hlt s r s' Hrun.
  pose proof (IH ti2 parsed Hf s r s' Hrun). lia.
Qed.

Lemma consume_moves fuel tokens parsed : forall ti, returns (consume (S := S) json fuel tokens ti parsed) (lt ti).
Proof.
  induction fuel as [|fuel IH]; intros ti; cbn [consume]; [done|].
  apply (returns_bind _ _ (fun _ => True)); [done|]. intros t _.
  do 2 (apply (returns_bind _ _ (fun _ => True)); [done|]; intros [] _).
  by apply consume_loop_moves.
Qed.

(** The loop only calls for containers after the index it starts from. *)
Lemma consume_loop_agree (f g : nat -> M S nat) type tokens n : forall lo ti parsed s,
  lo <= ti -> (forall i s, lo <= i -> f i s = g i s) -> (forall i, returns (f i) (lt i)) ->
  consume_loop json f type tokens n ti parsed s = consume_loop json g type tokens n ti parsed s.
Proof.
  induction n as [|n IH]; intros lo ti parsed s Hlo Hfg Hf; cbn [consume_loop]; [done|].
  destruct (ti <? parsed); [|done]. set (ti1 := if bool_decide _ then _ else _).
  assert (Hti : ti <= ti1) by (unfold ti1; case_bool_decide; lia). cbv zeta.
  apply (bind_ext _ _ _ (fun _ => True)); [done|]. intros v s1 _. cbv beta.
  apply (bind_agree _ _ _ _ (lt ti1)); [intros s2; destruct (lgtd_jsonrpc_type_object_or_array v json); [apply Hfg; lia|done]
    |by apply consume_one_moves|].
  intros ti2 s2 Hlt. apply (IH lo); [lia|done|done].
Qed.

(** A call for a container calls for containers after it, before the end. *)
Lemma consume_fuel tokens parsed fuel1 : forall fuel2 ti s,
  parsed - ti < fuel1 -> parsed - ti < fuel2 ->
  consume (S := S) json fuel1 tokens ti parsed s = consume json fuel2 tokens ti parsed s.
Proof.
  induction fuel1 as [|fuel1 IH]; intros [|fuel2] ti s H1 H2; [lia..|]. cbn [consume].
  apply (bind_ext _ _ _ (fun _ => True)); [done|]. intros t s1 _.
  apply (bind_ext _ _ _ (fun _ => True)); [done|]. intros [] s2 _.
  apply (bind_ext _ _ _ (fun _ => (ti <? parsed) = true)); [apply returns_assert|]. intros [] s3 Hlt%Nat.ltb_lt.
  apply (consume_loop_agree _ _ _ _ _ (Datatypes.S ti)); [done| |intros i; apply consume_moves].
  intros i s4 Hi. apply IH; lia.
Qed.

Lemma skip_value_moves tokens ti ntokens : returns (skip_value (S := S) json tokens ti ntokens) (lt ti).
Proof.
  apply (returns_bind _ _ (fun _ => True)); [done|]. intros t _. destruct (_ || _); [apply consume_moves|apply returns_ret; cbn; lia].
Qed.

(** ** An object *)

Lemma dict_loop_fuel schema tokens ntokens fuel1 : forall fuel2 ti o s,
  ntokens - ti <= fuel1 -> ntokens - ti <= fuel2 ->
  dict_loop (S := S) json fuel1 schema tokens ti ntokens o s = dict_loop json fuel2 schema tokens ti ntokens o s.
Proof.
  induction fuel1 as [|fuel1 IH]; intros [|fuel2] ti o s H1 H2; cbn [dict_loop]; try done;
    destruct (Nat.ltb_spec ti ntokens) as [Hlt|]; try done; try lia.
  apply (bind_ext _ _ _ (fun _ => True)); [done|]. intros key s1 _. destruct (negb _); [done|]. cbv zeta.
  destruct (find_node json schema key) as [node|].
  - apply (bind_ext _ _ _ (fun _ => True)); [done|]. intros value s2 _. destruct (negb _); [done|].
    destruct (bool_decide _); [done|].
    apply (bind_ext _ _ _ (lt (Datatypes.S ti))); [apply skip_value_moves|]. intros ti' s3 Hti. apply IH; lia.
  - apply (bind_ext _ _ _ (lt (Datatypes.S ti))); [apply skip_value_moves|]. intros ti' s3 Hti. apply IH; lia.
Qed.
End Loops.

(** ** A batch *)

Section Batch.
Context {E : CLib.Endianness} {C : LibC} (debug : bool).

(** Whatever the methods do, a request has a token at least. *)
Lemma dispatch_one_moves tokens ntokens batch_sent :
  returns (lgtd_jsonrpc_dispatch_one debug tokens ntokens batch_sent) (fun r => 0 < fst r).
Proof.
  unfold lgtd_jsonrpc_dispatch_one.
  assert (Hstep : forall A B (m : M session A) (k : A -> M session B) P,
    (forall a, returns (k a) P) -> returns (m ≫= k) P)
    by (intros A B m k P Hk; apply (returns_bind _ _ (fun _ => True)); [done|by intros a _]).
  assert (Herr : forall b req code msg, 0 < req_request_ntokens req -> returns (dispatch_error b req code msg) (fun r => 0 < fst r))
    by (intros b req code msg Hreq; unfold dispatch_error; do 3 (apply Hstep; intros []); apply returns_ret; cbn; lia).
  apply Hstep. intros c. apply Hstep. intros [ok req]. cbv zeta. apply Hstep. intros []. cbn [fst snd].
  destruct (negb ok).
  - apply (returns_bind _ _ (lt 0)); [apply consume_moves|]. intros n Hn. apply Hstep. intros []. by apply Herr.
  - apply Hstep. intros []. apply (returns_bind _ _ _ _ (returns_assert _)). intros [] Hreq%negb_true_iff%Nat.eqb_neq.
    apply Hstep. intros m. destruct (find_method debug (cl_json c) m) as [method|]; [|apply Herr; lia].
    destruct (req_id req); repeat (apply Hstep; intros []); apply returns_ret; cbn; lia.
Qed.

Lemma batch_loop_fuel tokens parsed fuel1 : forall fuel2 ti batch_sent s,
  parsed - ti <= fuel1 -> parsed - ti <= fuel2 ->
  batch_loop debug fuel1 tokens ti parsed batch_sent s = batch_loop debug fuel2 tokens ti parsed batch_sent s.
Proof.
  induction fuel1 as [|fuel1 IH]; intros [|fuel2] ti batch_sent s H1 H2; cbn [batch_loop]; try done;
    destruct (Nat.ltb_spec ti parsed) as [Hlt|]; try done; try lia.
  apply (bind_ext _ _ _ (fun _ => True)); [done|]. intros c s1 _.
  apply (bind_ext _ _ _ (fun _ => True)); [done|]. intros tok s2 _. destruct (is_type JSMN_OBJECT tok).
  { apply (bind_ext _ _ _ (fun r => 0 < fst r)); [apply dispatch_one_moves|]. intros r s3 Hr. apply IH; lia. }
  cbv zeta. do 2 (apply (bind_ext _ _ _ (fun _ => True)); [done|]; intros [] ? _).
  destruct (is_type JSMN_ARRAY tok); [|apply IH; lia].
  apply (bind_ext _ _ _ (lt ti)); [apply consume_moves|]. intros ti' s5 Hti. apply IH; lia.
Qed.
End Batch.
