(* ===== verification/JsonrpcSpec.v ===== *)
(** * Requests as JSON values

    The functions of core/jsonrpc.c walk over an array of tokens. Here they are
    related to the JSON value the tokens stand for: skipping a container skips its
    tokens, and extracting against a schema visits the members of an object in
    order. *)

From Stdlib Require Import ZArith Lia String.
From stdpp Require Import base tactics list gmap.
From S2P Require Import Prelude CLib World Proto Jsmn JsmnSpec JsonText JsonNumbers Printf Session Jsonrpc.

#[local] Open Scope nat_scope.

(** Appended lists, associated to the right. *)
Ltac app_norm := repeat first [rewrite <- app_assoc | progress (cbn [app])].

(** ** The first token of a value *)

Definition json_type (v : json) : jsmntype_t :=
  match v with
  | JPrimitive _ => JSMN_PRIMITIVE
  | JString _ => JSMN_STRING
  | JArray _ => JSMN_ARRAY
  | JObject _ => JSMN_OBJECT
  end.

Definition json_size (v : json) : nat :=
  match v with
  | JPrimitive _ | JString _ => 0
  | JArray l => length l
  | JObject l => length l
  end.

Lemma tokens_of_cons v pos i parent :
  exists t rest, tokens_of v pos i parent = t :: rest /\ tok_type t = json_type v /\ tok_size t = json_size v.
Proof.
  destruct v as [t|t|l|l]; [by eexists _, _..| |].
  - rewrite tokens_of_array. by eexists _, _.
  - rewrite tokens_of_object. by eexists _, _.
Qed.

Definition container (v : json) : bool := is_container (json_type v).

Lemma type_object_or_array_tok t json v :
  tok_type t = json_type v -> lgtd_jsonrpc_type_object_or_array t json = container v.
Proof. intros Ht. unfold lgtd_jsonrpc_type_object_or_array, is_type, container, is_container. by rewrite Ht. Qed.

Lemma ntokens_pos v : 0 < ntokens v.
Proof. destruct v; cbn; lia. Qed.

Lemma scalar_ntokens v : container v = false -> ntokens v = 1.
Proof. by destruct v. Qed.

(** ** Skipping a value *)

Section Consume.
Context {S : Type} (json : list Z).

(** What a call for a nested container does, on values of the array. *)
Definition consumes (f : nat -> M S nat) (tokens : list jsmntok_t) (v : JsonText.json) (parsed : nat) : Prop :=
  forall before more pos i parent s,
  tokens = before ++ tokens_of v pos i parent ++ more -> length before + ntokens v <= parsed -> container v = true ->
  f (length before) s = Ret (length before + ntokens v) s.

(** One value of the loop. *)
Lemma consume_one f tokens v parsed before more pos i parent (s : S) :
  consumes f tokens v parsed -> tokens = before ++ tokens_of v pos i parent ++ more -> length before + ntokens v <= parsed ->
  (t ← mderef (tokens !! length before);
   if lgtd_jsonrpc_type_object_or_array t json then f (length before) else mret (Datatypes.S (length before))) s
  = Ret (length before + ntokens v) s.
Proof.
  intros Hf Htok Hp. destruct (tokens_of_cons v pos i parent) as (t & rest & Hv & Hty & _).
  assert (Hlook : tokens !! length before = Some t) by (rewrite Htok, Hv; by apply list_lookup_middle).
  rewrite (run_bind _ _ s t s) by (by rewrite Hlook). rewrite (type_object_or_array_tok _ _ v Hty).
  destruct (container v) eqn:Hc; [by apply (Hf before more pos i parent)|].
  rewrite (scalar_ntokens v Hc), Nat.add_1_r. done.
Qed.

Lemma consume_values f l tokens parsed more : Forall (fun v => consumes f tokens v parsed) l ->
  forall before pos i k (s : S), tokens = before ++ values_tokens i l pos k ++ more ->
  length before + sum_list (ntokens <$> l) <= parsed ->
  consume_loop json f JSMN_ARRAY tokens (length l) (length before) parsed s = Ret (length before + sum_list (ntokens <$> l)) s.
Proof.
  induction 1 as [|v l Hv _ IH]; intros before pos i k s Htok Hp; cbn [consume_loop length].
  { cbn. by rewrite Nat.add_0_r. }
  change (sum_list (ntokens <$> v :: l)) with (ntokens v + sum_list (ntokens <$> l)) in *.
  pose proof (ntokens_pos v). rewrite (proj2 (Nat.ltb_lt _ _)) by lia.
  rewrite bool_decide_eq_false_2 by done. cbv zeta. cbn [values_tokens] in Htok. rewrite <- app_assoc in Htok.
  pose proof (consume_one f tokens v parsed before _ _ _ _ s Hv Htok ltac:(lia)) as Hone.
  unfold mbind, M_bind in *. destruct (mderef _ s) as [t s1|]; [|done]. rewrite Hone.
  specialize (IH (before ++ tokens_of v pos k (Some i)) (Datatypes.S (pos + length (print v))) i (k + ntokens v) s).
  rewrite length_app, length_tokens_of in IH. rewrite IH; [f_equal; lia|by rewrite <- app_assoc|lia].
Qed.

Lemma consume_members f l tokens parsed more : Forall (fun m => consumes f tokens m.2 parsed) l ->
  forall before pos i k (s : S), tokens = before ++ members_tokens i l pos k ++ more ->
  length before + sum_list ((fun m => Datatypes.S (ntokens m.2)) <$> l) <= parsed ->
  consume_loop json f JSMN_OBJECT tokens (length l) (length before) parsed s
  = Ret (length before + sum_list ((fun m => Datatypes.S (ntokens m.2)) <$> l)) s.
Proof.
  induction 1 as [|[key v] l Hv _ IH]; intros before pos i k s Htok Hp; cbn [consume_loop length].
  { cbn. by rewrite Nat.add_0_r. }
  cbn [snd] in Hv. set (rest := sum_list ((fun m => Datatypes.S (ntokens m.2)) <$> l)) in *.
  change (sum_list ((fun m => Datatypes.S (ntokens m.2)) <$> (key, v) :: l)) with (Datatypes.S (ntokens v) + rest) in *.
  rewrite (proj2 (Nat.ltb_lt _ _)) by lia. rewrite bool_decide_eq_true_2 by done. cbv zeta.
  cbn [members_tokens] in Htok. cbv zeta in Htok. set (kt := set_tok_size 1 _) in Htok.
  assert (Htok' : tokens = (before ++ [kt]) ++ tokens_of v (pos + length key + 3) (Datatypes.S k) (Some k)
    ++ members_tokens i l (Datatypes.S (pos + length key + 3 + length (print v))) (Datatypes.S k + ntokens v) ++ more)
    by (rewrite Htok; cbn [app]; by rewrite <- !app_assoc).
  assert (Hlen : length (before ++ [kt]) = Datatypes.S (length before)) by (rewrite length_app; cbn; lia).
  pose proof (consume_one f tokens v parsed (before ++ [kt]) _ _ _ _ s Hv Htok' ltac:(rewrite Hlen; lia)) as Hone.
  rewrite Hlen in Hone. unfold mbind, M_bind in *. destruct (mderef _ s) as [t s1|]; [|done]. rewrite Hone.
  specialize (IH ((before ++ [kt]) ++ tokens_of v (pos + length key + 3) (Datatypes.S k) (Some k))
    (Datatypes.S (pos + length key + 3 + length (print v))) i (Datatypes.S k + ntokens v) s).
  rewrite length_app, length_tokens_of, Hlen in IH. rewrite IH; [f_equal; lia|by rewrite <- app_assoc|lia].
Qed.

Lemma sum_list_ge {A} (f : A -> nat) l x : x ∈ l -> f x <= sum_list (f <$> l).
Proof.
  intros Hx. induction l as [|y l IH]; [by apply not_elem_of_nil in Hx|].
  change (sum_list (f <$> y :: l)) with (f y + sum_list (f <$> l)).
  apply elem_of_cons in Hx as [->|Hx]; [lia|]. specialize (IH Hx). lia.
Qed.

Lemma consume_value tokens parsed v : forall fuel, ntokens v <= fuel ->
  consumes (fun ti => consume json fuel tokens ti parsed) tokens v parsed.
Proof.
  induction v as [t|t|l IH|l IH] using json_ind'; intros fuel Hfuel before more pos i parent s Htok Hp Hc; try done.
  - destruct fuel as [|fuel]; [cbn in Hfuel; lia|]. cbn [consume]. rewrite tokens_of_array in Htok.
    set (t := container_tok _ _ _ _ _) in Htok.
    assert (Hlook : tokens !! length before = Some t) by (rewrite Htok; by apply list_lookup_middle).
    rewrite (run_bind _ _ s t s) by (by rewrite Hlook). rewrite (run_bind _ _ s tt s) by done.
    pose proof (ntokens_pos (JArray l)). rewrite (proj2 (Nat.ltb_lt (length before) parsed)) by lia.
    rewrite (run_bind _ _ s tt s) by done. cbn [ntokens] in *. change (tok_type t) with JSMN_ARRAY. change (tok_size t) with (length l).
    replace (Datatypes.S (length before)) with (length (before ++ [t])) by (rewrite length_app; cbn; lia).
    rewrite (consume_values _ l tokens parsed more) with (pos := Datatypes.S pos) (i := i) (k := Datatypes.S i).
    + f_equal. rewrite length_app. cbn. lia.
    + apply Forall_forall. intros v Hv. apply (Forall_forall (fun v => _) l) with (x := v) in IH; [|done]. apply IH.
      pose proof (sum_list_ge ntokens l v Hv). lia.
    + rewrite Htok, <- app_assoc. done.
    + rewrite length_app. cbn. lia.
  - destruct fuel as [|fuel]; [cbn in Hfuel; lia|]. cbn [consume]. rewrite tokens_of_object in Htok.
    set (t := container_tok _ _ _ _ _) in Htok.
    assert (Hlook : tokens !! length before = Some t) by (rewrite Htok; by apply list_lookup_middle).
    rewrite (run_bind _ _ s t s) by (by rewrite Hlook). rewrite (run_bind _ _ s tt s) by done.
    pose proof (ntokens_pos (JObject l)). rewrite (proj2 (Nat.ltb_lt (length before) parsed)) by lia.
    rewrite (run_bind _ _ s tt s) by done. cbn [ntokens] in *. change (tok_type t) with JSMN_OBJECT. change (tok_size t) with (length l).
    replace (Datatypes.S (length before)) with (length (before ++ [t])) by (rewrite length_app; cbn; lia).
    rewrite (consume_members _ l tokens parsed more) with (pos := Datatypes.S pos) (i := i) (k := Datatypes.S i).
    + f_equal. rewrite length_app. cbn. lia.
    + apply Forall_forall. intros m Hm. apply (Forall_forall (fun m => _) l) with (x := m) in IH; [|done]. apply IH.
      pose proof (sum_list_ge (fun m => Datatypes.S (ntokens m.2)) l m Hm). cbn in *. lia.
    + rewrite Htok, <- app_assoc. done.
    + rewrite length_app. cbn. lia.
Qed.

(** [skip_value] moves past the tokens of a value. *)
Lemma skip_value_run tokens v before more pos i parent ntoks (s : S) :
  tokens = before ++ tokens_of v pos i parent ++ more -> length before + ntokens v <= ntoks ->
  skip_value json tokens (length before) ntoks s = Ret (length before + ntokens v) s.
Proof.
  intros Htok Hp. destruct (tokens_of_cons v pos i parent) as (t & rest & Hv & Hty & _). unfold skip_value.
  assert (Hlook : tokens !! length before = Some t) by (rewrite Htok, Hv; by apply list_lookup_middle).
  rewrite (run_bind _ _ s t s) by (by rewrite Hlook). change (is_type JSMN_OBJECT t || is_type JSMN_ARRAY t)
    with (lgtd_jsonrpc_type_object_or_array t json). rewrite (type_object_or_array_tok _ _ v Hty).
  destruct (container v) eqn:Hc; [|by rewrite (scalar_ntokens v Hc), Nat.add_1_r].
  apply (consume_value tokens ntoks v (Datatypes.S ntoks) ltac:(lia) before more pos i parent s Htok Hp Hc).
Qed.
End Consume.

(** ** The members of an object against a schema *)

Definition find_key (schema : list lgtd_jsonrpc_node) (key : list Z) : option lgtd_jsonrpc_node :=
  snd <$> list_find (fun n => node_key n = key) schema.

(** What the extraction is to do, member by member. Every value is at its pointer
    into the tokens. *)
Fixpoint dict_ref (json : list Z) (schema : list lgtd_jsonrpc_node) (i : nat) (l : list (list Z * JsonText.json))
    (pos k : nat) (more : list jsmntok_t) (o : output) : bool * output :=
  match l with
  | [] => (true, o)
  | (key, v) :: l =>
    let pos' := S (pos + length (member_text (key, v))) in
    let k' := k + S (ntokens v) in
    match find_key schema key with
    | None => dict_ref json schema i l pos' k' more o
    | Some node =>
      let p := tokens_of v (pos + length key + 3) (S k) (Some k) ++ members_tokens i l pos' k' ++ more in
      if negb (default true ((fun t => node_type_cmp node t json) <$> head p))
         || bool_decide (is_Some (LGTD_JSONRPC_GET_JSMNTOK o (node_value_offset node)))
      then (false, o)
      else dict_ref json schema i l pos' k' more
             (LGTD_JSONRPC_SET_NTOKENS (LGTD_JSONRPC_SET_JSMNTOK o (node_value_offset node) p)
                (node_ntokens_offset node) (ntokens v))
    end
  end.

Lemma string_tok_text json pos t parent size pre rest :
  json = pre ++ 34%Z :: t ++ 34%Z :: rest -> length pre = pos ->
  let tok := set_tok_size size (scalar_tok JSMN_STRING (S pos) (S pos + length t) parent) in
  token_text tok json = t /\ LGTD_JSONRPC_TOKEN_LEN tok = length t /\ text_at tok json = t ++ 34%Z :: rest.
Proof.
  intros -> <- tok. assert (Hlen : LGTD_JSONRPC_TOKEN_LEN tok = length t) by (unfold LGTD_JSONRPC_TOKEN_LEN, tok_to, tok_from; cbn; lia).
  assert (Htext : text_at tok (pre ++ 34%Z :: t ++ 34%Z :: rest) = t ++ 34%Z :: rest) by (unfold text_at, tok_from; cbn [tok_start tok set_tok_size scalar_tok default]; apply drop_after).
  split_and!; [|done|done]. unfold token_text. by rewrite Hlen, Htext, take_app_length.
Qed.

Lemma find_node_key json schema tok key :
  token_text tok json = key -> LGTD_JSONRPC_TOKEN_LEN tok = length key -> find_node json schema tok = find_key schema key.
Proof.
  intros Htext Hlen. unfold find_node, find_key. f_equal. apply list_find_ext. intros n.
  rewrite Hlen, andb_true_iff, Nat.eqb_eq. unfold memcmp_eq. rewrite bool_decide_eq_true.
  unfold token_text in Htext. rewrite Hlen in Htext. rewrite Htext. split.
  - intros [Hl Ht]. by rewrite <- Hl, firstn_all in Ht.
  - intros ->. by rewrite firstn_all.
Qed.

(** Nothing more is a key: the tokens end or the next one is not a string. *)
Definition ends_dict (more : list jsmntok_t) (ti ntoks : nat) : Prop :=
  ntoks = ti \/ exists t rest, more = t :: rest /\ tok_type t <> JSMN_STRING.

Lemma is_type_true type t : tok_type t = type -> is_type type t = true.
Proof. intros H. by apply bool_decide_eq_true_2. Qed.
Lemma is_type_false type t : tok_type t <> type -> is_type type t = false.
Proof. intros H. by apply bool_decide_eq_false_2. Qed.

Lemma dict_loop_end {A} json schema before more ntoks o (s : A) fuel :
  ends_dict more (length before) ntoks -> ntoks <= length before + fuel ->
  dict_loop json fuel schema (before ++ more) (length before) ntoks o s = Ret (true, o) s.
Proof.
  intros Hend Hf. destruct (Nat.ltb_spec (length before) ntoks) as [Hlt|Hge].
  - destruct Hend as [->|(t & rest & -> & Ht)]; [lia|]. destruct fuel as [|fuel]; [lia|]. cbn [dict_loop].
    rewrite (proj2 (Nat.ltb_lt _ _)) by done.
    rewrite (run_bind _ _ s t s) by (by rewrite list_lookup_middle). by rewrite is_type_false.
  - destruct fuel; cbn [dict_loop]; by rewrite (proj2 (Nat.ltb_ge _ _)).
Qed.

(** The text of the first member of an object, and of what is after it. *)
Lemma first_member_text json pre key v l rest :
  json = pre ++ commas (member_text <$> (key, v) :: l) ++ 125%Z :: rest ->
  exists rest', json = pre ++ 34%Z :: key ++ 34%Z :: rest'
    /\ (l <> [] -> json = (pre ++ member_text (key, v) ++ [44%Z]) ++ commas (member_text <$> l) ++ 125%Z :: rest).
Proof.
  intros ->. cbn [fmap list_fmap]. destruct l as [|m l].
  - cbn [commas fmap list_fmap]. unfold member_text. cbn [fst snd]. eexists. split; [|done]. rewrite <- !app_assoc. cbn [app].
    rewrite <- !app_assoc. reflexivity.
  - rewrite commas_cons by done. unfold member_text at 1 3. cbn [fst snd]. eexists. split.
    + rewrite <- !app_assoc. cbn [app]. rewrite <- !app_assoc. reflexivity.
    + intros _. unfold member_text at 2. cbn [fst snd fmap list_fmap]. rewrite <- !app_assoc. done.
Qed.

Lemma dict_loop_members {A} json schema more tokens ntoks : forall l pre before i pos k o fuel rest (s : A),
  tokens = before ++ members_tokens i l pos k ++ more ->
  json = pre ++ commas (member_text <$> l) ++ 125%Z :: rest -> length pre = pos ->
  let n := sum_list ((fun m => S (ntokens m.2)) <$> l) in
  length before + n <= ntoks -> ntoks <= length before + fuel -> ends_dict more (length before + n) ntoks ->
  dict_loop json fuel schema tokens (length before) ntoks o s = Ret (dict_ref json schema i l pos k more o) s.
Proof.
  induction l as [|[key v] l IH]; intros pre before i pos k o fuel rest s Htok Hjson Hpos n Hle Hfuel Hend.
  { subst n. cbn [fmap list_fmap sum_list_with] in Hend. rewrite Nat.add_0_r in Hend. rewrite Htok. by apply dict_loop_end. }
  set (n' := sum_list ((fun m => S (ntokens m.2)) <$> l)) in *. change n with (S (ntokens v) + n') in *. clear n.
  pose proof (first_member_text json pre key v l rest Hjson) as Hj.
  destruct Hj as (rest' & Hkey & Hnext). destruct fuel as [|fuel]; [lia|]. cbn [dict_loop dict_ref].
  rewrite (proj2 (Nat.ltb_lt _ _)) by lia. rewrite members_tokens_cons in Htok.
  destruct (string_tok_text json pos key (Some i) 1 pre rest' Hkey Hpos) as (Htext & Hlen & _).
  cbn [members_tokens] in Htok. cbv zeta in Htok. rewrite app_nil_r in Htok.
  set (kt := set_tok_size 1 _) in *.
  assert (Htok' : tokens = (before ++ [kt]) ++ tokens_of v (pos + length key + 3) (S k) (Some k)
    ++ members_tokens i l (S (pos + length (member_text (key, v)))) (k + S (ntokens v)) ++ more)
    by (rewrite Htok; cbn [app]; by rewrite <- !app_assoc).
  set (vts := tokens_of v _ _ _) in *. set (mts := members_tokens i l _ _) in *.
  assert (Hlen1 : length (before ++ [kt]) = S (length before)) by (rewrite length_app; cbn; lia).
  rewrite (run_bind _ _ s kt s) by (rewrite Htok; cbn [app]; by rewrite list_lookup_middle).
  rewrite is_type_true by done. cbn [negb]. cbv zeta. rewrite (find_node_key json schema kt key Htext Hlen).
  pose proof (skip_value_run json tokens v (before ++ [kt]) (mts ++ more) _ _ _ ntoks s Htok' ltac:(rewrite Hlen1; lia)) as Hskip.
  rewrite Hlen1 in Hskip.
  assert (Hrec : forall o, dict_loop json fuel schema tokens (S (length before) + ntokens v) ntoks o s
    = Ret (dict_ref json schema i l (S (pos + length (member_text (key, v)))) (k + S (ntokens v)) more o) s).
  { intros o'. assert (Hl2 : S (length before) + ntokens v = length ((before ++ [kt]) ++ vts))
      by (unfold vts; rewrite length_app, length_tokens_of, Hlen1; done).
    destruct (decide (l = [])) as [->|Hne].
    - cbn [dict_ref]. rewrite Htok', Hl2. subst mts. cbn [members_tokens app].
      rewrite app_assoc. apply dict_loop_end; [|lia].
      rewrite <- Hl2. by replace (S (length before) + ntokens v) with (length before + (S (ntokens v) + n')) by (cbn; lia).
    - rewrite Hl2. apply (IH (pre ++ member_text (key, v) ++ [44%Z]) _ _ _ _ _ fuel rest s);
        [rewrite Htok'; by rewrite !app_assoc|by apply Hnext| | | |].
      + rewrite !length_app. cbn. lia.
      + fold n'. lia.
      + lia.
      + fold n'. rewrite <- Hl2. by replace (S (length before) + ntokens v + n') with (length before + (S (ntokens v) + n')) by lia. }
  destruct (find_key schema key) as [node|].
  - destruct (tokens_of_cons v (pos + length key + 3) (S k) (Some k)) as (t & vrest & Hv & _). fold vts in Hv.
    assert (Hval : tokens !! S (length before) = Some t)
      by (rewrite <- Hlen1, Htok', Hv; by apply list_lookup_middle).
    rewrite Hval, (run_bind _ _ s t s) by done. rewrite Hv. cbn [app head fmap option_fmap option_map default]. unfold id.
    destruct (node_type_cmp node t json); [|done]. cbn [negb orb].
    destruct (bool_decide _); [done|]. rewrite (run_bind _ _ s _ s Hskip).
    assert (Hdrop : drop (S (length before)) tokens = t :: vrest ++ mts ++ more)
      by (rewrite <- Hlen1, Htok', drop_app_length, Hv; done).
    rewrite Hdrop. replace (S (length before) + ntokens v - S (length before)) with (ntokens v) by lia. apply Hrec.
  - rewrite (run_bind _ _ s _ s Hskip). apply Hrec.
Qed.

(** An object against a schema. *)
Lemma extract_dict_run {A} json schema l pos i parent more ntoks pre rest o (s : A) :
  json = pre ++ print (JObject l) ++ rest -> length pre = pos ->
  ntokens (JObject l) <= ntoks -> ends_dict more (ntokens (JObject l)) ntoks ->
  lgtd_jsonrpc_extract_values_from_schema_and_dict json o schema (tokens_of (JObject l) pos i parent ++ more) ntoks s
  = let r := dict_ref json schema i l (S pos) (S i) more o in Ret (fst r && required_seen schema (snd r), snd r) s.
Proof.
  intros Hjson Hpos Hn Hend. unfold lgtd_jsonrpc_extract_values_from_schema_and_dict.
  pose proof (ntokens_pos (JObject l)). rewrite (proj2 (Nat.eqb_neq ntoks 0)) by lia.
  rewrite tokens_of_object. set (t := container_tok _ _ _ _ _).
  rewrite (run_bind _ _ s t s) by done. rewrite is_type_true by done. cbn [negb].
  pose proof (dict_loop_members json schema more ((t :: members_tokens i l (S pos) (S i)) ++ more) ntoks l
    (pre ++ [123%Z]) [t] i (S pos) (S i) o ntoks rest s eq_refl) as Hloop.
  cbn [length Nat.add] in Hloop. rewrite (run_bind _ _ s _ s (Hloop ltac:(
    rewrite Hjson, <- app_assoc; cbn [app print]; by rewrite <- app_assoc) ltac:(rewrite length_app; cbn; lia)
    Hn ltac:(lia) Hend)). done.
Qed.

(** ** Targets *)

Lemma string_values_tokens json : forall ts pre rest i k,
  json = pre ++ commas (print <$> (JString <$> ts)) ++ rest ->
  Forall2 (fun t x => tok_type t = JSMN_STRING /\ token_text t json = x)
    (values_tokens i (JString <$> ts) (length pre) k) ts.
Proof.
  induction ts as [|x ts IH]; intros pre rest i k Hjson; [constructor|].
  change (JString <$> x :: ts) with (JString x :: (JString <$> ts)) in *. cbn [values_tokens].
  assert (Hj : exists r, json = pre ++ 34%Z :: x ++ 34%Z :: r
    /\ (ts <> [] -> json = (pre ++ print (JString x) ++ [44%Z]) ++ commas (print <$> (JString <$> ts)) ++ rest)).
  { change (print <$> JString x :: (JString <$> ts)) with (print (JString x) :: (print <$> (JString <$> ts))) in Hjson.
    destruct ts as [|y ts].
    - cbn [fmap list_fmap commas print] in Hjson. exists rest. split; [|done]. rewrite Hjson. cbn [app]. by rewrite <- app_assoc.
    - rewrite commas_cons in Hjson by done. eexists. split; [|intros _; by rewrite Hjson, <- !app_assoc].
      rewrite Hjson. cbn [app print]. rewrite <- !app_assoc. reflexivity. }
  destruct Hj as (r & Hx & Hnext). cbn [tokens_of app]. constructor.
  - split; [done|]. apply (string_tok_text json (length pre) x (Some i) 0 pre r Hx eq_refl).
  - destruct ts as [|y ts]; [constructor|]. specialize (Hnext ltac:(done)).
    replace (S (length pre + length (print (JString x)))) with (length (pre ++ print (JString x) ++ [44%Z]))
      by (rewrite !length_app; cbn [length]; lia).
    by apply (IH _ rest).
Qed.

(** Every allocation succeeds. *)
Lemma os_call_run w : w_os_results w = [] -> os_call w = Ret true w.
Proof. intros Hr. unfold os_call. by rewrite Hr. Qed.

Lemma lift_run {A} (m : M world A) s a w : m (se_world s) = Ret a w -> lift m s = Ret a {| se_world := w; se_client := se_client s |}.
Proof. unfold lift. by intros ->. Qed.

Lemma target_loop_run json ts : forall tks target acc s,
  Forall2 (fun t x => tok_type t = JSMN_STRING /\ token_text t json = x) tks ts ->
  tks `prefix_of` target -> cl_json (se_client s) = json -> w_os_results (se_world s) = [] ->
  target_loop target (length ts) acc s = Ret (Some (ts ++ acc)) s.
Proof.
  induction ts as [|x ts IH] using rev_ind; intros tks target acc s Hts Hpre Hjson Hos.
  { done. }
  apply Forall2_app_inv_r in Hts as (tks1 & tks2 & Hts1 & Hts2 & ->).
  apply Forall2_cons_inv_r in Hts2 as (t & tks3 & [Hty Htext] & Hts3 & ->). inversion Hts3; subst tks3.
  pose proof (Forall2_length _ _ _ Hts1) as Hlen. destruct Hpre as [more ->].
  rewrite length_app, Nat.add_1_r. cbn [target_loop].
  rewrite (run_bind _ _ s t s) by (rewrite <- Hlen, <- app_assoc; cbn [app]; by rewrite list_lookup_middle).
  rewrite (run_bind _ _ s (se_client s) s) by done.
  assert (Htrue : lgtd_jsonrpc_type_string_or_number t (cl_json (se_client s)) = true)
    by (unfold lgtd_jsonrpc_type_string_or_number, lgtd_jsonrpc_type_string; by rewrite is_type_true).
  rewrite Htrue. rewrite (run_bind _ _ s true s).
  - rewrite Hjson, Htext, (IH tks1); [by rewrite <- app_assoc|done| |done|done]. exists ([t] ++ more). by rewrite <- app_assoc.
  - rewrite (lift_run _ _ true (se_world s)) by (by apply os_call_run). by destruct s.
Qed.

Definition target_params (ts : list (list Z)) : JsonText.json :=
  JObject [(bytes_of_string "target", JArray (JString <$> ts))].

(** The list of targets of a request. *)
Lemma build_target_list_run json pre rest pos i parent more ts s :
  json = pre ++ print (JArray (JString <$> ts)) ++ rest -> length pre = pos ->
  cl_json (se_client s) = json -> w_os_results (se_world s) = [] ->
  lgtd_jsonrpc_build_target_list (Some (tokens_of (JArray (JString <$> ts)) pos i parent ++ more))
    (ntokens (JArray (JString <$> ts))) s = Ret (Some ts) s.
Proof.
  intros Hjson Hpos Hcl Hos. unfold lgtd_jsonrpc_build_target_list.
  rewrite (run_bind _ _ s tt s) by done. cbn [ntokens]. rewrite (proj2 (Nat.ltb_ge _ 1)) by lia.
  erewrite (run_bind _ _ s _ s) by reflexivity. rewrite tokens_of_array. set (t := container_tok _ _ _ _ _).
  rewrite (run_bind _ _ s t s) by done. rewrite is_type_true by done.
  cbn [drop app]. rewrite Nat.sub_succ, Nat.sub_0_r.
  assert (Hsum : sum_list (ntokens <$> (JString <$> ts)) = length ts).
  { clear. induction ts as [|x ts IH]; [done|]. cbn. by rewrite <- IH. }
  rewrite Hsum. rewrite (target_loop_run json ts (values_tokens i (JString <$> ts) (S pos) (S i)));
    [by rewrite app_nil_r| |by exists more|done|done].
  replace (S pos) with (length (pre ++ [91%Z])) by (rewrite length_app; cbn; lia).
  apply (string_values_tokens json ts _ (93%Z :: rest)). rewrite Hjson. cbn [print]. rewrite <- !app_assoc. cbn [app].
  by rewrite <- app_assoc.
Qed.

Lemma extract_target_list_run json pre rest pos i parent more ts req s :
  json = pre ++ print (target_params ts) ++ rest -> length pre = pos ->
  cl_json (se_client s) = json -> w_os_results (se_world s) = [] ->
  cl_current_request (se_client s) = Some req ->
  req_params req = Some (tokens_of (target_params ts) pos i parent ++ more) ->
  req_params_ntokens req = ntokens (target_params ts) ->
  lgtd_jsonrpc_extract_target_list s = Ret (Some ts) s.
Proof.
  intros Hjson Hpos Hcl Hos Hreq Hparams Hn. unfold lgtd_jsonrpc_extract_target_list.
  set (l := [(bytes_of_string "target", JArray (JString <$> ts))]).
  set (vpos := (S pos + 6 + 3)%nat). set (arr := JArray (JString <$> ts)).
  set (p := tokens_of arr vpos (S (S i)) (Some (S i)) ++ more).
  set (o := LGTD_JSONRPC_SET_NTOKENS (LGTD_JSONRPC_SET_JSMNTOK no_output (Some "target"%string) p)
              (Some "target_ntokens"%string) (ntokens arr)).
  assert (Hex : extract_params [target_node] s = Ret (true, o) s).
  { unfold extract_params. rewrite (run_bind _ _ s (se_client s) s) by done.
    rewrite Hreq, (run_bind _ _ s req s) by done. unfold lgtd_jsonrpc_extract_and_validate_params_against_schema.
    rewrite Hn, Hparams, Hcl. pose proof (ntokens_pos (target_params ts)). rewrite (proj2 (Nat.eqb_neq _ 0)) by lia.
    erewrite (run_bind _ _ s _ s) by reflexivity. unfold target_params in *. fold l in Hjson, Hparams, Hn |- *.
    rewrite (run_bind _ _ s (container_tok JSMN_OBJECT pos (pos + length (print (JObject l))) (length l) parent) s)
      by (by rewrite tokens_of_object).
    rewrite is_type_true by done.
    rewrite (extract_dict_run json [target_node] l pos i parent more (ntokens (JObject l)) pre rest) by (done || by left).
    unfold l. cbn [dict_ref]. change (find_key [target_node] (bytes_of_string "target")) with (Some target_node).
    cbv iota. cbn [members_tokens app].
    assert (Hhead : exists t r, tokens_of arr vpos (S (S i)) (Some (S i)) = t :: r /\ tok_type t = JSMN_ARRAY).
    { destruct (tokens_of_cons arr vpos (S (S i)) (Some (S i))) as (t & r & -> & Ht & _). by exists t, r. }
    destruct Hhead as (t & r & Htr & Hty). fold arr. change (S pos + length (bytes_of_string "target") + 3) with vpos.
    fold p. assert (Hp : head p = Some t) by (unfold p; by rewrite Htr). rewrite Hp. cbn [fmap option_fmap option_map default].
    assert (Hcmp : node_type_cmp target_node t json = true).
    { change (lgtd_jsonrpc_type_string_number_or_array t json = true).
      unfold lgtd_jsonrpc_type_string_number_or_array, lgtd_jsonrpc_type_array. rewrite (is_type_true JSMN_ARRAY t Hty). by rewrite orb_true_r. }
    unfold id. rewrite Hcmp. cbn [negb orb].
    change (bool_decide (is_Some (LGTD_JSONRPC_GET_JSMNTOK no_output (node_value_offset target_node)))) with false.
    cbv iota. change (node_value_offset target_node) with (Some "target"%string).
    change (node_ntokens_offset target_node) with (Some "target_ntokens"%string). fold o. cbn [fst snd andb].
    assert (Hseen : required_seen [target_node] o = true).
    { cbn [required_seen forallb]. unfold required_seen. cbn [forallb]. rewrite andb_true_r.
      change (LGTD_JSONRPC_GET_JSMNTOK o (node_value_offset target_node)) with (Some p). by rewrite orb_true_r. }
    by rewrite Hseen. }
  rewrite (run_bind _ _ s _ s Hex). cbn [fst snd negb].
  change (out_toks o !! "target"%string) with (Some p). change (ntokens_at o "target_ntokens") with (ntokens arr).
  apply (build_target_list_run json (pre ++ quoted "{'target':") (quoted "}" ++ rest)); [|rewrite length_app; unfold vpos; cbn; lia|done|done].
  rewrite Hjson, <- !app_assoc. f_equal. unfold target_params. cbn [print fmap list_fmap commas fst snd].
  cbn [app]. rewrite <- !app_assoc. cbn [app]. rewrite <- !app_assoc. reflexivity.
Qed.

(** ** Writing responses *)

(** What is written to a client that has no connection is lost. *)
Definition client_write (s : session) (bytes : list Z) : session :=
  {| se_world := se_world s;
     se_client := set_cl_output (cl_output (se_client s) ++ (if cl_io (se_client s) then bytes else [])) (se_client s) |}.

Lemma client_write_write s a b : client_write (client_write s a) b = client_write s (a ++ b).
Proof. destruct s as [w []]. unfold client_write, set_cl_output. cbn. destruct cl_io; by rewrite <- ?app_assoc, ?app_nil_r. Qed.

Lemma client_write_nil s : client_write s [] = s.
Proof. destruct s as [w []]. unfold client_write, set_cl_output. cbn. destruct cl_io; by rewrite app_nil_r. Qed.

Lemma client_write_lost s b : cl_io (se_client s) = false -> client_write s b = s.
Proof. intros Hio. rewrite <- (client_write_nil s) at 2. unfold client_write. by rewrite Hio. Qed.

Lemma write_string_run msg s : lgtd_client_write_string msg s = Ret tt (client_write s (cstr msg)).
Proof.
  unfold lgtd_client_write_string. rewrite (run_bind _ _ s (se_client s) s) by done.
  destruct (cl_io (se_client s)) eqn:Hio; [|by rewrite client_write_lost].
  unfold client_write. by rewrite Hio.
Qed.

Lemma write_buf_run buf s : buf <> [] -> lgtd_client_write_buf buf s = Ret tt (client_write s buf).
Proof.
  intros Hne. unfold lgtd_client_write_buf. rewrite (run_bind _ _ s (se_client s) s) by done.
  destruct buf as [|c buf]; [done|]. cbn [length Nat.eqb negb andb].
  destruct (cl_io (se_client s)) eqn:Hio; [|by rewrite client_write_lost]. unfold client_write. by rewrite Hio.
Qed.

(** The ids a client may give: strings and numbers. *)
Definition valid_id (id : JsonText.json) : Prop :=
  match id with
  | JString _ => True
  | JPrimitive (c :: _) => (c = 45 \/ 48 <= c <= 57)%Z
  | _ => False
  end.

Lemma write_id_run json pre rest id pos i parent more req s :
  valid_id id -> json = pre ++ print id ++ rest -> length pre = pos ->
  cl_json (se_client s) = json ->
  cl_current_request (se_client s) = Some req -> req_id req = Some (tokens_of id pos i parent ++ more) ->
  lgtd_jsonrpc_write_id s = Ret tt (client_write s (print id)).
Proof.
  intros Hid Hjson Hpos Hcl Hreq Hptr. unfold lgtd_jsonrpc_write_id.
  rewrite (run_bind _ _ s (se_client s) s) by done. rewrite Hreq. cbn [mbind option_bind]. rewrite Hptr, Hcl.
  assert (Hdrop : drop pos json = print id ++ rest) by (by rewrite Hjson, <- Hpos, drop_app_length).
  destruct id as [x|x| |]; try done.
  - cbn [tokens_of app]. rewrite (run_bind _ _ s _ s) by reflexivity. rewrite is_type_false by done. cbn [tok_from tok_to tok_start tok_end scalar_tok default].
    rewrite (proj2 (Nat.leb_le _ _)) by (cbn; lia). rewrite (run_bind _ _ s tt s) by done. unfold tok_from, tok_to. cbn [tok_start tok_end scalar_tok].
    unfold default, from_option, Datatypes.id. rewrite Hdrop. cbn [print].
    replace (pos + length x - pos) with (length x) by lia. rewrite take_app_length. apply write_buf_run; by destruct x.
  - cbn [tokens_of app]. rewrite (run_bind _ _ s _ s) by reflexivity. rewrite is_type_true by done.
    unfold tok_from, tok_to. cbn [tok_start tok_end scalar_tok]. unfold default, from_option, Datatypes.id.
    rewrite (proj2 (Nat.leb_le _ _)) by lia. rewrite (run_bind _ _ s tt s) by done.
    replace (S pos - 1) with pos by lia. rewrite Hdrop.
    replace (S pos + length x + 1 - pos) with (length (print (JString x))) by (cbn [print length]; rewrite length_app; cbn; lia).
    rewrite take_app_length. by apply write_buf_run.
Qed.

Definition response_text (id : JsonText.json) (result : list Z) : list Z :=
  quoted "{'jsonrpc': '2.0', 'id': " ++ print id ++ quoted ", 'result': " ++ result ++ quoted "}".

(** The session serves a request with this id: its token points at the text. *)
Definition serves (s : session) (id : JsonText.json) : Prop :=
  valid_id id /\ exists pre rest i parent more req,
  cl_json (se_client s) = pre ++ print id ++ rest /\ cl_current_request (se_client s) = Some req
  /\ req_id req = Some (tokens_of id (length pre) i parent ++ more).

Lemma write_bind {A} msg (k : M session A) s :
  (lgtd_client_write_string msg ;; k) s = k (client_write s (cstr msg)).
Proof. by rewrite (run_bind _ _ s _ _ (write_string_run msg s)). Qed.

Lemma response_start_run s id :
  serves s id -> response_start s = Ret tt (client_write s (quoted "{'jsonrpc': '2.0', 'id': " ++ print id)).
Proof.
  intros (Hid & pre & rest & i & parent & more & req & Hjson & Hreq & Hptr). unfold response_start.
  rewrite write_bind by done. set (s1 := client_write s (cstr _)).
  rewrite (write_id_run (pre ++ print id ++ rest) pre rest id (length pre) i parent more req s1) by done.
  unfold s1. by rewrite client_write_write.
Qed.

Lemma start_send_response_run s id :
  serves s id ->
  lgtd_jsonrpc_start_send_response s
  = Ret tt (client_write s (quoted "{'jsonrpc': '2.0', 'id': " ++ print id ++ quoted ", 'result': ")).
Proof.
  intros Hs. unfold lgtd_jsonrpc_start_send_response.
  rewrite (run_bind _ _ s _ _ (response_start_run s id Hs)).
  rewrite write_string_run by done. rewrite client_write_write. by app_norm.
Qed.

Lemma send_response_run s id result :
  serves s id -> lgtd_jsonrpc_send_response result s = Ret tt (client_write s (response_text id (cstr result))).
Proof.
  intros Hs. unfold lgtd_jsonrpc_send_response, lgtd_jsonrpc_end_send_response.
  rewrite (run_bind _ _ s _ _ (start_send_response_run s id Hs)).
  rewrite write_bind, write_string_run by done. rewrite !client_write_write. unfold response_text. by app_norm.
Qed.

Definition error_text (id : JsonText.json) (code : lgtd_jsonrpc_error_code) (message : string) : list Z :=
  quoted "{'jsonrpc': '2.0', 'id': " ++ print id ++ quoted ", 'error': {'code': " ++ print_d (error_code_value code)
  ++ quoted ", 'message': '" ++ bytes_of_string message ++ quoted "'}}".

Lemma send_error_run s id code message :
  serves s id -> cstr (bytes_of_string message) = bytes_of_string message ->
  lgtd_jsonrpc_send_error code message s = Ret tt (client_write s (error_text id code message)).
Proof.
  intros Hs Hmsg. unfold lgtd_jsonrpc_send_error.
  rewrite (run_bind _ _ s _ _ (response_start_run s id Hs)). do 4 rewrite write_bind by done.
  rewrite write_string_run by done. rewrite !client_write_write, Hmsg. unfold error_text.
  assert (Hcode : cstr (snprintf 8 (print_d (error_code_value code))) = print_d (error_code_value code)) by (by destruct code).
  rewrite Hcode. by app_norm.
Qed.

(** ** A whole request *)

Definition request_json (name : list Z) (params id : JsonText.json) : JsonText.json :=
  JObject [ (bytes_of_string "jsonrpc", JString (bytes_of_string "2.0")); (bytes_of_string "method", JString name);
            (bytes_of_string "params", params); (bytes_of_string "id", id) ].

(** Where the values of the request start. *)
Definition method_pos : nat := 26.
Definition params_pos (name : list Z) : nat := method_pos + length name + 12.
Definition id_pos (name : list Z) (params : JsonText.json) : nat := params_pos name + length (print params) + 6.

Lemma request_text name params id :
  exists mid, print (request_json name params id)
  = quoted "{'jsonrpc':'2.0','method':" ++ mid
  /\ mid = print (JString name) ++ quoted ",'params':" ++ print params ++ quoted ",'id':" ++ print id ++ quoted "}".
Proof.
  eexists. split; [|reflexivity]. unfold request_json. cbn [print fmap list_fmap commas fst snd].
  app_norm. reflexivity.
Qed.

(** The tokens of the values, with the text and pointers of the request. *)
Lemma request_places name params id :
  let text := print (request_json name params id) in
  (exists pre rest, text = pre ++ print (JString name) ++ rest /\ length pre = method_pos)
  /\ (exists pre rest, text = pre ++ print params ++ rest /\ length pre = params_pos name)
  /\ (exists pre rest, text = pre ++ print id ++ rest /\ length pre = id_pos name params).
Proof.
  cbv zeta. destruct (request_text name params id) as (mid & -> & ->). split_and!.
  - eexists _, _. split; [reflexivity|done].
  - exists (quoted "{'jsonrpc':'2.0','method':" ++ print (JString name) ++ quoted ",'params':"). eexists.
    split; [rewrite <- !app_assoc; reflexivity|]. rewrite !length_app. cbn [print length]. rewrite length_app.
    unfold params_pos, method_pos. cbn. lia.
  - exists (quoted "{'jsonrpc':'2.0','method':" ++ print (JString name) ++ quoted ",'params':" ++ print params ++ quoted ",'id':").
    eexists. split; [rewrite <- !app_assoc; reflexivity|]. rewrite !length_app. cbn [print length]. rewrite length_app.
    unfold id_pos, params_pos, method_pos. cbn. lia.
Qed.

Lemma id_type json pre rest id pos i parent :
  valid_id id -> json = pre ++ print id ++ rest -> length pre = pos ->
  exists t r, tokens_of id pos i parent = t :: r /\ lgtd_jsonrpc_type_string_number_or_null t json = true.
Proof.
  intros Hid Hjson Hpos. destruct id as [x|x| |]; try done; eexists _, []; (split; [reflexivity|]).
  - destruct x as [|c x]; [done|]. unfold lgtd_jsonrpc_type_string_number_or_null, lgtd_jsonrpc_type_number.
    rewrite is_type_true by done.
    assert (Hc : char_at (scalar_tok JSMN_PRIMITIVE pos (pos + length (c :: x)) parent) json = c).
    { unfold char_at, text_at, tok_from. cbn [tok_start scalar_tok default from_option]. unfold Datatypes.id.
      by rewrite Hjson, <- Hpos, drop_app_length. }
    rewrite Hc. cbn [andb]. destruct Hid as [->|Hid]; [done|].
    rewrite (proj2 (Z.leb_le 48 c)), (proj2 (Z.leb_le c 57)) by lia. by rewrite orb_true_r.
  - unfold lgtd_jsonrpc_type_string_number_or_null, lgtd_jsonrpc_type_string. rewrite (is_type_true JSMN_STRING) by done.
    by rewrite orb_true_r.
Qed.

(** One member that the schema knows and that is valid. *)
Lemma dict_ref_member json schema i key v l pos k more o node t r vpos pos' :
  find_key schema key = Some node -> pos + length key + 3 = vpos -> S (pos + length (member_text (key, v))) = pos' ->
  tokens_of v vpos (S k) (Some k) = t :: r ->
  node_type_cmp node t json = true -> LGTD_JSONRPC_GET_JSMNTOK o (node_value_offset node) = None ->
  dict_ref json schema i ((key, v) :: l) pos k more o
  = dict_ref json schema i l pos' (k + S (ntokens v)) more
      (LGTD_JSONRPC_SET_NTOKENS
         (LGTD_JSONRPC_SET_JSMNTOK o (node_value_offset node)
            (tokens_of v vpos (S k) (Some k) ++ members_tokens i l pos' (k + S (ntokens v)) ++ more))
         (node_ntokens_offset node) (ntokens v)).
Proof.
  intros Hkey <- <- Hv Hty Hnone. cbn [dict_ref]. rewrite Hkey, Hv. cbn [app head fmap option_fmap option_map default from_option].
  unfold Datatypes.id. rewrite Hty, Hnone. done.
Qed.

Lemma length_member_text key v : length (member_text (key, v)) = length key + 3 + length (print v).
Proof. unfold member_text. cbn [fst snd]. rewrite length_app. cbn [length]. rewrite length_app. cbn. lia. Qed.

Lemma request_dict name params id :
  container params = true -> valid_id id ->
  let text := print (request_json name params id) in
  exists m1 m2 m3, dict_ref text request_schema 0
    [ (bytes_of_string "jsonrpc", JString (bytes_of_string "2.0")); (bytes_of_string "method", JString name);
      (bytes_of_string "params", params); (bytes_of_string "id", id) ] 1 1 [] no_output
  = (true,
     let o := LGTD_JSONRPC_SET_JSMNTOK no_output (Some "method"%string) (tokens_of (JString name) method_pos 4 (Some 3) ++ m1) in
     let o := LGTD_JSONRPC_SET_NTOKENS
                (LGTD_JSONRPC_SET_JSMNTOK o (Some "params"%string) (tokens_of params (params_pos name) 6 (Some 5) ++ m2))
                (Some "params_ntokens"%string) (ntokens params) in
     LGTD_JSONRPC_SET_JSMNTOK o (Some "id"%string)
       (tokens_of id (id_pos name params) (7 + ntokens params) (Some (6 + ntokens params)) ++ m3)).
Proof.
  intros Hc Hid text. destruct (request_places name params id) as (_ & _ & (pre3 & rest3 & Ht3 & Hp3)).
  destruct (tokens_of_cons params (params_pos name) 6 (Some 5)) as (tp & rp & Hptoks & Hpty & _).
  destruct (id_type text pre3 rest3 id (id_pos name params) (7 + ntokens params) (Some (6 + ntokens params)) Hid Ht3 Hp3)
    as (ti & ri & Hitoks & Hity).
  pose proof (length_member_text (bytes_of_string "method") (JString name)) as Hl2.
  pose proof (length_member_text (bytes_of_string "params") params) as Hl3.
  change (length (bytes_of_string "method")) with 6 in Hl2. change (length (bytes_of_string "params")) with 6 in Hl3.
  assert (Hlj : length (print (JString name)) = length name + 2) by (cbn [print length]; rewrite length_app; cbn; lia).
  rewrite Hlj in Hl2. eexists _, _, _.
  erewrite (dict_ref_member _ _ _ _ (JString (bytes_of_string "2.0")) _ 1 1 _ _ _ _ _ 11 17);
    [|reflexivity|reflexivity|reflexivity|reflexivity|reflexivity|reflexivity].
  erewrite (dict_ref_member _ _ _ _ (JString name) _ 17 _ _ _ _ _ _ method_pos (29 + length name));
    [|reflexivity|reflexivity|rewrite Hl2; lia|reflexivity|reflexivity|reflexivity].
  erewrite (dict_ref_member _ _ _ _ params _ (29 + length name) _ _ _ _ tp rp (params_pos name) (39 + length name + length (print params)));
    [|reflexivity|unfold params_pos, method_pos; cbn; lia|rewrite Hl3; lia|exact Hptoks| |reflexivity].
  2:{ change (lgtd_jsonrpc_type_object_or_array tp text = true). by rewrite (type_object_or_array_tok tp text params Hpty). }
  erewrite (dict_ref_member _ _ _ _ id _ _ _ _ _ _ ti ri (id_pos name params));
    [|reflexivity|unfold id_pos, params_pos, method_pos; cbn; lia|reflexivity|exact Hitoks|exact Hity|reflexivity].
  cbn [dict_ref]. reflexivity.
Qed.

Lemma request_extract {A} name params id n (s : A) :
  container params = true -> valid_id id -> n = ntokens (request_json name params id) ->
  exists m1 m2 m3,
  lgtd_jsonrpc_check_and_extract_request (print (request_json name params id))
    (tokens_of (request_json name params id) 0 0 None) n s
  = Ret (true,
         {| req_method := Some (tokens_of (JString name) method_pos 4 (Some 3) ++ m1);
            req_params := Some (tokens_of params (params_pos name) 6 (Some 5) ++ m2);
            req_params_ntokens := ntokens params;
            req_id := Some (tokens_of id (id_pos name params) (7 + ntokens params) (Some (6 + ntokens params)) ++ m3);
            req_request_ntokens := n |}) s.
Proof.
  intros Hc Hid ->. unfold lgtd_jsonrpc_check_and_extract_request.
  destruct (request_dict name params id Hc Hid) as (m1 & m2 & m3 & Hdict). exists m1, m2, m3.
  rewrite <- (app_nil_r (tokens_of (request_json name params id) 0 0 None)).
  set (text := print (request_json name params id)) in *. unfold request_json.
  rewrite (run_bind _ _ s _ s (extract_dict_run text request_schema _ 0 0 None [] _ [] [] no_output s
    ltac:(by rewrite app_nil_r) eq_refl (le_n _) ltac:(by left))).
  rewrite Hdict. cbv zeta. cbn [fst snd]. 
  set (p1 := tokens_of (JString name) _ _ _ ++ m1). set (p2 := tokens_of params _ _ _ ++ m2). set (p3 := tokens_of id _ _ _ ++ m3).
  clearbody p1 p2 p3. set (o := LGTD_JSONRPC_SET_JSMNTOK _ _ p3).
  assert (Hid_len : ntokens id = 1) by (destruct id as [[|]| | |]; done).
  change (required_seen request_schema o) with true. cbn [andb negb].
  change (out_toks o !! "params"%string) with (Some p2). change (out_toks o !! "id"%string) with (Some p3). cbv iota.
  change (ntokens_at o "params_ntokens") with (ntokens params). unfold request_of.
  change (out_toks o !! "method"%string) with (Some p1). change (out_toks o !! "params"%string) with (Some p2).
  change (out_toks o !! "id"%string) with (Some p3). change (ntokens_at o "params_ntokens") with (ntokens params).
  do 3 f_equal. cbn. unfold Datatypes.id. lia.
Qed.

(** ** Dispatch *)

Section Dispatch.
Context {E : Endianness} {C : LibC} (debug : bool).

Definition find_name (name : list Z) : option (M session unit) :=
  snd <$> (snd <$> list_find (fun m => fst m = name) (methods debug)).

Lemma find_method_name json t name :
  token_text t json = name -> LGTD_JSONRPC_TOKEN_LEN t = length name -> find_method debug json t = find_name name.
Proof.
  intros Htext Hlen. unfold find_method, find_name. f_equal. f_equal. apply list_find_ext. intros m.
  rewrite Hlen, andb_true_iff, Nat.eqb_eq. unfold memcmp_eq. rewrite bool_decide_eq_true.
  unfold token_text in Htext. rewrite Hlen in Htext. split.
  - intros [Hl Ht]. rewrite <- Hl, Htext, Hl, firstn_all in Ht. done.
  - intros ->. by rewrite firstn_all.
Qed.

(** The session while the request is served. *)
Definition serving (s : session) (req : lgtd_jsonrpc_request) : session :=
  {| se_world := se_world s; se_client := set_cl_current_request (Some req) (se_client s) |}.

Definition served (s : session) : session :=
  {| se_world := se_world s; se_client := set_cl_current_request None (se_client s) |}.

(** The request the extraction finds: its pointers are at the values. *)
Definition extracted (name : list Z) (params id : JsonText.json) (m1 m2 m3 : tok_ptr) : lgtd_jsonrpc_request :=
  {| req_method := Some (tokens_of (JString name) method_pos 4 (Some 3) ++ m1);
     req_params := Some (tokens_of params (params_pos name) 6 (Some 5) ++ m2);
     req_params_ntokens := ntokens params;
     req_id := Some (tokens_of id (id_pos name params) (7 + ntokens params) (Some (6 + ntokens params)) ++ m3);
     req_request_ntokens := ntokens (request_json name params id) |}.

(** A request up to the search for its method. *)
Lemma dispatch_one_found name params id s :
  container params = true -> valid_id id -> cl_json (se_client s) = print (request_json name params id) ->
  exists m1 m2 m3, let req := extracted name params id m1 m2 m3 in
  lgtd_jsonrpc_dispatch_one debug (tokens_of (request_json name params id) 0 0 None)
    (ntokens (request_json name params id)) None s
  = match find_name name with
    | None => dispatch_error None req LGTD_JSONRPC_METHOD_NOT_FOUND "Method not found"
    | Some method => method ;; upd_client (set_cl_current_request None) ;; mret (req_request_ntokens req, None)
    end (serving s req).
Proof.
  intros Hc Hid Hjson. unfold lgtd_jsonrpc_dispatch_one. cbn [fmap option_fmap option_map].
  rewrite (run_bind _ _ s (se_client s) s) by done. rewrite Hjson.
  destruct (request_extract name params id _ s Hc Hid eq_refl) as (m1 & m2 & m3 & Hex). exists m1, m2, m3.
  cbv zeta. rewrite (run_bind _ _ s _ s Hex). cbn [fst snd]. fold (extracted name params id m1 m2 m3).
  set (req := extracted name params id m1 m2 m3).
  rewrite (run_bind _ _ s tt (serving s req)) by done. cbn [negb].
  rewrite (run_bind _ _ _ tt (serving s req)) by done.
  change (req_request_ntokens req) with (ntokens (request_json name params id)).
  pose proof (ntokens_pos (request_json name params id)) as Hpos. rewrite (proj2 (Nat.eqb_neq _ 0)) by lia.
  rewrite (run_bind _ _ _ tt (serving s req)) by done.
  destruct (request_places name params id) as ((pre1 & rest1 & Ht1 & Hp1) & _).
  set (mt := scalar_tok JSMN_STRING (S method_pos) (S method_pos + length name) (Some 3)).
  rewrite (run_bind _ _ _ mt (serving s req)) by done.
  cbn [print app] in Ht1. rewrite <- app_assoc in Ht1. cbn [app] in Ht1.
  destruct (string_tok_text (print (request_json name params id)) method_pos name (Some 3) 0 pre1 rest1 Ht1 Hp1)
    as (Htext & Hlen & _).
  change (set_tok_size 0 _) with mt in Htext, Hlen.
  rewrite (find_method_name _ mt name Htext Hlen). destruct (find_name name); [|done].
  cbn [req_id req extracted lgtd_jsonrpc_batch_prepare_next_part]. by rewrite (run_bind _ _ _ tt (serving s req)) by done.
Qed.

(** A request of a method of the table, given what the method does. *)
Lemma dispatch_one_run name params id method s s' :
  container params = true -> valid_id id -> find_name name = Some method ->
  cl_json (se_client s) = print (request_json name params id) ->
  (forall m1 m2 m3, exists s1, served s1 = s' /\ method (serving s (extracted name params id m1 m2 m3)) = Ret tt s1) ->
  lgtd_jsonrpc_dispatch_one debug (tokens_of (request_json name params id) 0 0 None)
    (ntokens (request_json name params id)) None s
  = Ret (ntokens (request_json name params id), None) s'.
Proof.
  intros Hc Hid Hname Hjson Hmethod. destruct (dispatch_one_found name params id s Hc Hid Hjson) as (m1 & m2 & m3 & ->).
  destruct (Hmethod m1 m2 m3) as (s1 & <- & Hrun). rewrite Hname. by rewrite (run_bind _ _ _ tt s1 Hrun).
Qed.

Lemma extracted_serves name params id m1 m2 m3 s :
  valid_id id -> cl_json (se_client s) = print (request_json name params id) ->
  serves (serving s (extracted name params id m1 m2 m3)) id.
Proof.
  intros Hid Hjson. split; [done|].
  destruct (request_places name params id) as (_ & _ & (pre3 & rest3 & Ht3 & Hp3)). eexists pre3, rest3, _, _, _, _.
  split_and!; [cbn; by rewrite Hjson, <- Ht3|reflexivity|cbn; by rewrite Hp3].
Qed.

(** A request whose method is not in the table. *)
Lemma dispatch_one_unknown name params id s :
  container params = true -> valid_id id -> find_name name = None ->
  cl_json (se_client s) = print (request_json name params id) ->
  lgtd_jsonrpc_dispatch_one debug (tokens_of (request_json name params id) 0 0 None)
    (ntokens (request_json name params id)) None s
  = Ret (ntokens (request_json name params id), None)
      (client_write (served s) (error_text id LGTD_JSONRPC_METHOD_NOT_FOUND "Method not found")).
Proof.
  intros Hc Hid Hname Hjson. destruct (dispatch_one_found name params id s Hc Hid Hjson) as (m1 & m2 & m3 & ->).
  rewrite Hname. unfold dispatch_error. set (s1 := serving s _). rewrite (run_bind _ _ s1 tt s1) by done.
  erewrite run_bind by (apply send_error_run; [by apply extracted_serves|reflexivity]). done.
Qed.

(** A method that answers a list of targets with a result, for a client at this
    address. *)
Definition answers (f : list (list Z) -> M session unit) (ts : list (list Z)) (result : list Z) (w w' : world)
    (addr : option sockaddr) : Prop :=
  forall c id, cl_addr c = addr -> serves {| se_world := w; se_client := c |} id ->
  f ts {| se_world := w; se_client := c |}
  = Ret tt (client_write {| se_world := w'; se_client := c |} (response_text id result)).

Lemma command_answers (command : list (list Z) -> M world reply) ts ok w w' addr :
  command ts w = Ret (SEND_RESULT ok) w' ->
  answers (fun t => call_proto (command t)) ts (bytes_of_string (if ok then "true" else "false")) w w' addr.
Proof.
  intros Hcommand c id _ Hs. unfold call_proto. rewrite (run_bind _ _ _ _ _ (lift_run (command ts) {| se_world := w; se_client := c |} _ w' Hcommand)).
  assert (Hs' : serves {| se_world := w'; se_client := c |} id) by exact Hs.
  destruct ok; cbn [lgtd_client_send_reply]; by apply send_response_run.
Qed.

Lemma targets_method_run name ts id f result w' s m1 m2 m3 :
  valid_id id -> w_os_results (se_world s) = [] ->
  cl_json (se_client s) = print (request_json name (target_params ts) id) ->
  answers f ts result (se_world s) w' (cl_addr (se_client s)) ->
  let req := extracted name (target_params ts) id m1 m2 m3 in
  CHECK_AND_CALL_TARGETS_ONLY_METHOD f (serving s req)
  = Ret tt (client_write (serving {| se_world := w'; se_client := se_client s |} req) (response_text id result)).
Proof.
  intros Hid Hos Hjson Hf req. unfold CHECK_AND_CALL_TARGETS_ONLY_METHOD.
  destruct (request_places name (target_params ts) id) as (_ & (pre2 & rest2 & Ht2 & Hp2) & _).
  rewrite (run_bind _ _ (serving s req) (Some ts) (serving s req))
    by (by eapply (extract_target_list_run _ pre2 rest2)).
  apply Hf; [done|]. by apply (extracted_serves name (target_params ts) id m1 m2 m3 s).
Qed.
End Dispatch.
