(* ===== verification/Client.v ===== *)
(** * Reading requests

    [lgtd_client_read_callback] of [core/client.c]: the loop that finds requests in
    the input buffer of a client and dispatches them. The buffers of libevent are a
    parameter, with what their documentation says of the functions that are used. *)

From Stdlib Require Import ZArith Lia String.
From stdpp Require Import base tactics list gmap.
From S2P Require Import Prelude CLib World Jsmn JsonNumbers Printf Session Jsonrpc.

Definition LGTD_CLIENT_MAX_REQUEST_BUF_SIZE : nat := 4096.

(** ** The input buffer *)

(** A buffer holds bytes, of which the first ones are contiguous in memory. *)
Class Libevent : Type := {
  evbuffer : Type;
  evbuffer_bytes : evbuffer -> list Z;
  evbuffer_get_length : evbuffer -> nat;
  (** the [evbuffer_get_contiguous_space] bytes at the beginning *)
  evbuffer_contiguous : evbuffer -> list Z;
  (** [evbuffer_pullup(input, -1)] *)
  evbuffer_pullup : evbuffer -> evbuffer;
  evbuffer_drain : nat -> evbuffer -> evbuffer;
  evbuffer_new : evbuffer;
  (** what a read puts at the end *)
  evbuffer_add : list Z -> evbuffer -> evbuffer;
  get_length_bytes : forall input, evbuffer_get_length input = length (evbuffer_bytes input);
  contiguous_bytes : forall input, evbuffer_contiguous input `prefix_of` evbuffer_bytes input;
  pullup_bytes : forall input, evbuffer_bytes (evbuffer_pullup input) = evbuffer_bytes input;
  pullup_contiguous : forall input, evbuffer_contiguous (evbuffer_pullup input) = evbuffer_bytes input;
  drain_bytes : forall n input, evbuffer_bytes (evbuffer_drain n input) = drop n (evbuffer_bytes input);
  new_bytes : evbuffer_bytes evbuffer_new = [];
  add_bytes : forall bytes input, evbuffer_bytes (evbuffer_add bytes input) = evbuffer_bytes input ++ bytes
}.

(** The array of tokens after a [reallocarray] that works: the tokens it had, and
    whatever was in the memory that was added. *)
Definition undefined_token : jsmntok_t :=
  {| tok_type := JSMN_UNDEFINED; tok_start := None; tok_end := None; tok_size := 0; tok_parent := None |}.

Definition reallocarray (tokens : list jsmntok_t) (n : nat) : list jsmntok_t :=
  take n (tokens ++ replicate n undefined_token).

(** ** The callback *)

Section ReadCallback.
Context {E : Endianness} {C : LibC} {L : Libevent}.
Context (debug : bool).

(** The end of a turn: everything is pulled up and the loop goes on if there is
    something. *)
Definition resume_parsing (loop : list Z -> evbuffer -> M session (option evbuffer)) (input : evbuffer) :
    M session (option evbuffer) :=
  let input := evbuffer_pullup input in
  let buf := evbuffer_contiguous input in
  if (length buf =? 0)%nat then mret (Some input) else loop buf input.

(** The loop. [buf] is the [nbytes] bytes it looks at, which are at the beginning of
    the input, [tokens] whether the local pointer of that name is set, and
    [ntokens] the size of the array. [reallocs] is whether the calls of [reallocarray]
    to come work, in their order, and they do after the end of the list: one that fails
    leaves a null pointer both in [tokens] and in the client, whose array is lost, and
    the same bytes are parsed again. None means that the fuel is spent. *)
Fixpoint read_loop (fuel : nat) (reallocs : list bool) (buf : list Z) (input : evbuffer) (tokens : bool)
    (ntokens : nat) : M session (option evbuffer) :=
  match fuel with
  | O => mret None
  | S fuel =>
    let resume := resume_parsing (fun buf input => read_loop fuel reallocs buf input tokens ntokens) in
    c ← get_client;
    match jsmn_parse buf (jsmn_init (if tokens then Some (take ntokens (cl_jsmn_tokens c)) else None)) with
    | Crash c => mcrash c
    | Ret rv st =>
      upd_client (fun c => set_cl_jsmn_tokens (default (cl_jsmn_tokens c) (js_tokens st)) c) ;;
      match rv with
      | inl JSMN_ERROR_NOMEM | inl JSMN_ERROR_INVAL => resume (evbuffer_drain (length buf) input)
      | inl JSMN_ERROR_PART | inr O =>
        let buflen := evbuffer_get_length input in
        if (LGTD_CLIENT_MAX_REQUEST_BUF_SIZE <? buflen)%nat then resume (evbuffer_drain buflen input)
        else if (length buf =? buflen)%nat then mret (Some input)
        else resume input
      | inr n =>
        if (tokens : bool) then
          upd_client (set_cl_json buf) ;;
          lgtd_jsonrpc_dispatch_request debug n ;;
          upd_client (set_cl_json []) ;;
          t ← mderef (default [] (js_tokens st) !! 0%nat);
          let request_size := tok_to t in
          let input := evbuffer_drain request_size input in
          if (request_size <? length buf)%nat then read_loop fuel reallocs (drop request_size buf) input false n
          else resume_parsing (fun buf input => read_loop fuel reallocs buf input false n) input
        else
          match reallocs with
          | false :: reallocs =>
            upd_client (set_cl_jsmn_tokens []) ;;
            read_loop fuel reallocs buf input false n
          | _ =>
            upd_client (fun c => set_cl_jsmn_tokens (reallocarray (cl_jsmn_tokens c) n) c) ;;
            read_loop fuel (tail reallocs) buf input true n
          end
      end
    end
  end.

(** A request takes two turns, one to count its tokens and one to parse it, and is
    at least a byte long; the first chain is parsed alone and then with the others,
    and a [reallocarray] that fails takes one more turn: this is fuel enough. *)
Definition read_fuel (reallocs : list bool) (input : evbuffer) : nat :=
  2 * evbuffer_get_length input + 6 + length reallocs.

(** What is left of the input. An empty buffer is parsed too. *)
Definition lgtd_client_read_callback (reallocs : list bool) (input : evbuffer) : M session (option evbuffer) :=
  c ← get_client;
  LGTD_SOCKADDRTOA (cl_addr c) ;;
  read_loop (read_fuel reallocs input) reallocs (evbuffer_contiguous input) input false 0.
End ReadCallback.

(** ** Buffers as lists of chains *)

Fixpoint chains_drain (n : nat) (input : list (list Z)) : list (list Z) :=
  match input with
  | [] => []
  | chain :: input =>
    if (n <? length chain)%nat then drop n chain :: input else chains_drain (n - length chain) input
  end.

Definition chains_pullup (input : list (list Z)) : list (list Z) :=
  match mjoin input with [] => [] | bytes => [bytes] end.

Lemma chains_drain_bytes n input : mjoin (chains_drain n input) = drop n (mjoin input).
Proof.
  revert n. induction input as [|chain input IH]; intros n; [by destruct n|]. cbn [chains_drain].
  change (mjoin (chain :: input)) with (chain ++ mjoin input). destruct (Nat.ltb_spec n (length chain)) as [Hlt|Hge].
  - change (mjoin (drop n chain :: input)) with (drop n chain ++ mjoin input). by rewrite drop_app_le by lia.
  - by rewrite IH, drop_app_ge.
Qed.

Lemma chains_pullup_bytes input :
  mjoin (chains_pullup input) = mjoin input /\ default [] (head (chains_pullup input)) = mjoin input.
Proof. unfold chains_pullup. destruct (mjoin input) as [|b bytes] eqn:Hj; [done|]. cbn. by rewrite app_nil_r. Qed.

Program Definition chains : Libevent := {|
  evbuffer := list (list Z);
  evbuffer_bytes input := mjoin input;
  evbuffer_get_length input := length (mjoin input);
  evbuffer_contiguous input := default [] (head input);
  evbuffer_pullup := chains_pullup;
  evbuffer_drain := chains_drain;
  evbuffer_new := [];
  evbuffer_add bytes input := input ++ [bytes]
|}.
Next Obligation. done. Qed.
Next Obligation. intros [|chain input]; [by exists []|by exists (mjoin input)]. Qed.
Next Obligation. intros input. apply chains_pullup_bytes. Qed.
Next Obligation. intros input. apply chains_pullup_bytes. Qed.
Next Obligation. intros n input. apply chains_drain_bytes. Qed.
Next Obligation. done. Qed.
Next Obligation. intros bytes input. cbv beta. rewrite (join_app input [bytes]). cbn. by rewrite app_nil_r. Qed.
