(* ===== verification/ClientSpec.v ===== *)
(** * From the bytes of a client to its responses

    The read callback ends on any input, and serves a request: the methods that
    only have targets, from the text of the request to the text of the
    response. *)

From Stdlib Require Import ZArith Lia String.
From stdpp Require Import base tactics list gmap.
From S2P Require Import Prelude CLib World Proto Jsmn JsmnSpec JsonText JsonNumbers Printf Session Jsonrpc.
From S2P Require Import LightState JsonrpcSpec Client WireProto.

#[local] Open Scope nat_scope.

(** ** The input buffer *)

Lemma length_drain `{Libevent} input n : evbuffer_get_length (evbuffer_drain n input) = evbuffer_get_length input - n.
Proof. by rewrite !get_length_bytes, drain_bytes, length_drop. Qed.

Lemma contiguous_le `{Libevent} input : length (evbuffer_contiguous input) <= evbuffer_get_length input.
Proof. rewrite get_length_bytes. apply prefix_length, contiguous_bytes. Qed.

(** ** Termination *)

Section Termination.
Context {E : Endianness} {C : LibC} {L : Libevent} (debug : bool).

(** A run that does not spend its fuel. *)
Definition ends {A} (m : M session (option A)) : Prop := forall s s', m s <> Ret None s'.

Lemma ends_bind {A B} (m : M session A) (k : A -> M session (option B)) : (forall a, ends (k a)) -> ends (m ≫= k).
Proof. intros Hk s s'. unfold mbind, M_bind. destruct (m s) as [a s1|]; [apply Hk|done]. Qed.

Lemma ends_deref {A B} (a : A) (k : A -> M session (option B)) : ends (k a) -> ends (mderef (Some a) ≫= k).
Proof. done. Qed.

(** What is left to do: a turn for each [reallocarray] that may fail, twice the
    bytes, one turn for the count, and two when the first chain is not all. *)
Definition measure (reallocs : list bool) (buf : list Z) (input : evbuffer) (tokens : bool) : nat :=
  length reallocs + 2 * evbuffer_get_length input + (if tokens then 0 else 1)
  + (if length buf =? evbuffer_get_length input then 0 else 2).

Lemma resume_ends fuel reallocs tokens ntokens input :
  (forall buf input, length buf <= evbuffer_get_length input -> (buf = [] -> tokens = false) ->
     measure reallocs buf input tokens < fuel -> ends (read_loop debug fuel reallocs buf input tokens ntokens)) ->
  length reallocs + 2 * evbuffer_get_length input + (if tokens then 0 else 1) < fuel ->
  ends (resume_parsing (fun buf input => read_loop debug fuel reallocs buf input tokens ntokens) input).
Proof.
  intros IH Hlt. unfold resume_parsing. rewrite pullup_contiguous.
  assert (Hlen : evbuffer_get_length (evbuffer_pullup input) = evbuffer_get_length input)
    by (by rewrite !get_length_bytes, pullup_bytes).
  rewrite <- get_length_bytes. destruct (Nat.eqb_spec (evbuffer_get_length input) 0) as [|Hne]; [by intros s s'|].
  apply IH; [by rewrite Hlen, get_length_bytes|by intros Hz; rewrite get_length_bytes, Hz in Hne|].
  unfold measure. rewrite Hlen, <- get_length_bytes, Nat.eqb_refl. lia.
Qed.

(** A text that was parsed is longer than nothing. *)
Lemma parsed_first buf l r st n t :
  jsmn_parse buf (jsmn_init (Some l)) = Ret r st -> r = inr (S n) -> default [] (js_tokens st) !! 0 = Some t ->
  0 < tok_to t <= length buf.
Proof.
  intros Hrun Hn Ht. destruct (wp_run _ _ _ (wp_jsmn_parse buf l)) as (r' & st' & Hrun' & Hr).
  rewrite Hrun in Hrun'. injection Hrun' as <- <-. destruct (Hr _ Hn) as (Hnext & Hopen & l' & Hok & _).
  rewrite (po_tokens _ _ _ Hok) in Ht. cbn [default from_option] in Ht.
  destruct (parser_ok_closed _ _ _ 0 t Hok Hopen ltac:(lia) Ht) as [(s & e & _ & He & ? & ?) _].
  unfold tok_to. rewrite He. cbn. lia.
Qed.

Lemma read_loop_ends fuel : forall reallocs buf input tokens ntokens,
  length buf <= evbuffer_get_length input -> (buf = [] -> tokens = false) ->
  measure reallocs buf input tokens < fuel -> ends (read_loop debug fuel reallocs buf input tokens ntokens).
Proof.
  induction fuel as [|fuel IH]; intros reallocs buf input tokens ntokens Hlen Hbuf Hm; [lia|]. cbn [read_loop].
  apply ends_bind. intros c. cbv zeta.
  assert (Hresume : forall tokens ntokens input', length reallocs + 2 * evbuffer_get_length input' + (if (tokens : bool) then 0 else 1) < fuel ->
    ends (resume_parsing (fun buf input => read_loop debug fuel reallocs buf input tokens ntokens) input')).
  { intros tk nt input' Hlt. apply resume_ends; [|done]. intros; by apply IH. }
  unfold measure in Hm.
  destruct (jsmn_parse buf _) as [rv st|] eqn:Hparse; [|by intros s s']. apply ends_bind. intros _.
  assert (Hpart : ends (if LGTD_CLIENT_MAX_REQUEST_BUF_SIZE <? evbuffer_get_length input
    then resume_parsing (fun buf input => read_loop debug fuel reallocs buf input tokens ntokens) (evbuffer_drain (evbuffer_get_length input) input)
    else if length buf =? evbuffer_get_length input then mret (Some input)
    else resume_parsing (fun buf input => read_loop debug fuel reallocs buf input tokens ntokens) input)).
  { destruct (LGTD_CLIENT_MAX_REQUEST_BUF_SIZE <? _) eqn:Hmax.
    - apply Nat.ltb_lt in Hmax. apply Hresume. rewrite length_drain. unfold LGTD_CLIENT_MAX_REQUEST_BUF_SIZE in Hmax. lia.
    - destruct (length buf =? _); [by intros s s'|]. apply Hresume. lia. }
  assert (Hinval : rv = inl JSMN_ERROR_NOMEM \/ rv = inl JSMN_ERROR_INVAL ->
    ends (resume_parsing (fun buf input => read_loop debug fuel reallocs buf input tokens ntokens) (evbuffer_drain (length buf) input))).
  { intros Hrv. apply Hresume. rewrite length_drain. destruct buf as [|b buf]; [|cbn [length] in *; lia].
    rewrite (Hbuf eq_refl) in Hparse. vm_compute in Hparse. destruct Hrv; congruence. }
  destruct rv as [[]|[|n]]; [by apply Hinval; left|by apply Hinval; right|exact Hpart|exact Hpart|].
  destruct tokens.
  - do 3 (apply ends_bind; intros _). destruct (default [] (js_tokens st) !! 0) as [t|] eqn:Ht; [|by intros s s'].
    pose proof (parsed_first _ _ _ _ n t Hparse eq_refl Ht) as Hsize. apply ends_deref.
    destruct (Nat.ltb_spec (tok_to t) (length buf)) as [Hlt|Hge].
    + apply IH; [rewrite length_drop, length_drain; lia|done|]. unfold measure. rewrite length_drop, length_drain.
      destruct (Nat.eqb_spec (length buf) (evbuffer_get_length input)) as [Heq|Hne].
      * rewrite (proj2 (Nat.eqb_eq _ _)) by lia. lia.
      * destruct (_ =? _); lia.
    + apply Hresume. rewrite length_drain. lia.
  - assert (Hne : buf <> []) by (intros ->; vm_compute in Hparse; congruence).
    destruct reallocs as [|[] reallocs]; cbn [tail length] in *; apply ends_bind; intros _;
      apply IH; try done; unfold measure; cbn [length]; lia.
Qed.

Lemma read_callback_ends reallocs input : ends (lgtd_client_read_callback debug reallocs input).
Proof.
  unfold lgtd_client_read_callback. do 2 (apply ends_bind; intros ?). apply read_loop_ends; [apply contiguous_le|done|]. unfold measure, read_fuel.
  destruct (_ =? _); lia.
Qed.
End Termination.

(** ** A request *)

Section Served.
Context {E : Endianness} {C : LibC} {L : Libevent} (debug : bool).

(** The methods that only have targets. *)
Definition targets_methods : list (list Z * (list (list Z) -> M session unit)) :=
  [ (bytes_of_string "power_on", fun t => call_proto (lgtd_proto_power_on t));
    (bytes_of_string "power_off", fun t => call_proto (lgtd_proto_power_off t));
    (bytes_of_string "power_toggle", fun t => call_proto (lgtd_proto_power_toggle t));
    (bytes_of_string "get_light_state", lgtd_proto_get_light_state debug) ].

Lemma targets_method_name name f :
  (name, f) ∈ targets_methods -> find_name debug name = Some (CHECK_AND_CALL_TARGETS_ONLY_METHOD f) /\ wf_string name = true.
Proof.
  unfold targets_methods. rewrite !elem_of_cons, elem_of_nil.
  intros [[= -> ->]|[[= -> ->]|[[= -> ->]|[[= -> ->]|[]]]]]; split; reflexivity.
Qed.

(** The commands of core/proto.c that answer with a boolean and only have targets. *)
Definition power_commands : list (list Z * (list (list Z) -> M world reply)) :=
  [ (bytes_of_string "power_on", lgtd_proto_power_on); (bytes_of_string "power_off", lgtd_proto_power_off);
    (bytes_of_string "power_toggle", lgtd_proto_power_toggle) ].

Lemma power_command_method name command :
  (name, command) ∈ power_commands -> (name, fun t => call_proto (command t)) ∈ targets_methods.
Proof.
  unfold power_commands, targets_methods. rewrite !elem_of_cons, !elem_of_nil.
  intros [[= -> ->]|[[= -> ->]|[[= -> ->]|[]]]]; [by left|by right; left|by right; right; left].
Qed.

(** The client while and after the request is served. *)
Definition client_with (c : lgtd_client) (json : list Z) (tokens : list jsmntok_t) (output : list Z)
    (request : option lgtd_jsonrpc_request) : lgtd_client :=
  {| cl_io := cl_io c; cl_output := output; cl_jsmn_tokens := tokens; cl_json := json; cl_addr := cl_addr c; cl_current_request := request |}.

(** An object that is not empty is one request. *)
Lemma dispatch_object_run v n c s s' :
  json_type v = JSMN_OBJECT -> json_size v <> 0 -> se_client s = client_with c (print v) (tokens_of v 0 0 None) (cl_output c) (cl_current_request c) ->
  lgtd_jsonrpc_dispatch_one debug (tokens_of v 0 0 None) (ntokens v) None s = Ret (n, None) s' ->
  lgtd_jsonrpc_dispatch_request debug (ntokens v) s = Ret tt s'.
Proof.
  intros Hobj Hsize0 Hs Hone. unfold lgtd_jsonrpc_dispatch_request.
  rewrite (run_bind _ _ s (se_client s) s) by done.
  pose proof (ntokens_pos v) as Hn. rewrite (proj2 (Nat.eqb_neq (ntokens v) 0)) by lia.
  destruct (tokens_of_cons v 0 0 None) as (t & rest & Ht & Hty & Hsize).
  rewrite Hs. change (cl_jsmn_tokens _) with (tokens_of v 0 0 None).
  rewrite (run_bind _ _ s false s).
  2:{ unfold mbind, M_bind. rewrite Ht. cbn. by rewrite Hsize, (proj2 (Nat.eqb_neq _ 0)). }
  rewrite (run_bind _ _ s t s) by (by rewrite Ht). rewrite is_type_false by (by rewrite Hty, Hobj). cbn [negb].
  by rewrite (run_bind _ _ s _ _ Hone).
Qed.

Lemma dispatch_targets_run name f ts id result w w' c :
  (name, f) ∈ targets_methods -> valid_id id -> w_os_results w = [] -> answers f ts result w w' (cl_addr c) ->
  let v := request_json name (target_params ts) id in
  lgtd_jsonrpc_dispatch_request debug (ntokens v)
    {| se_world := w; se_client := client_with c (print v) (tokens_of v 0 0 None) (cl_output c) (cl_current_request c) |}
  = Ret tt {| se_world := w';
      se_client := client_with c (print v) (tokens_of v 0 0 None) (cl_output c ++ (if cl_io c then response_text id result else [])) None |}.
Proof.
  intros Hname Hid Hos Hf v. destruct (targets_method_name name f Hname) as [Hfind _].
  set (s := {| se_world := w; se_client := _ |}). set (r := response_text id result).
  apply (dispatch_object_run v (ntokens v) c); [done|done|done|].
  change {| se_world := w'; se_client := _ |} with (client_write (served {| se_world := w'; se_client := se_client s |}) r).
  apply (dispatch_one_run debug name (target_params ts) id (CHECK_AND_CALL_TARGETS_ONLY_METHOD f) s);
    [done|done|exact Hfind|done|].
  intros m1 m2 m3. eexists. split; [|by apply (targets_method_run name ts id f result w' s m1 m2 m3)]. done.
Qed.

Lemma reallocarray_length tokens n : length (take n (reallocarray tokens n)) = n.
Proof.
  unfold reallocarray. rewrite take_take, Nat.min_id, length_take, length_app, length_replicate. lia.
Qed.

Lemma request_wf name params id :
  wf_string name = true -> wf_json params = true -> wf_json id = true -> wf_json (request_json name params id) = true.
Proof. intros Hname Hp Hid. unfold request_json. cbn [wf_json forallb fst snd]. by rewrite Hname, Hp, Hid. Qed.

Lemma target_params_wf ts : forallb wf_string ts = true -> wf_json (target_params ts) = true.
Proof.
  intros Hts. unfold target_params. cbn [wf_json forallb fst snd].
  assert (Hl : forallb wf_json (JString <$> ts) = true).
  { induction ts as [|t ts IH]; [done|]. apply andb_true_iff in Hts as [Ht Hts]. cbn [fmap list_fmap forallb wf_json].
    by rewrite Ht, IH. }
  by rewrite Hl.
Qed.

(** The two turns of a request. *)
Lemma read_loop_count fuel buf input ntokens m st s :
  jsmn_parse buf (jsmn_init None) = Ret (inr (S m)) st -> js_tokens st = None ->
  read_loop debug (S fuel) [] buf input false ntokens s
  = read_loop debug fuel [] buf input true (S m)
      {| se_world := se_world s;
         se_client := set_cl_jsmn_tokens (reallocarray (cl_jsmn_tokens (se_client s)) (S m)) (se_client s) |}.
Proof.
  intros Hcount Hst. cbn [read_loop]. rewrite (run_bind _ _ s (se_client s) s) by done. cbv zeta. rewrite Hcount, Hst.
  rewrite (run_bind _ _ s tt s) by (by destruct s as [w []]). erewrite run_bind by reflexivity. done.
Qed.

Lemma read_loop_request fuel buf input ntokens m st toks t s s' :
  jsmn_parse buf (jsmn_init (Some (take ntokens (cl_jsmn_tokens (se_client s))))) = Ret (inr (S m)) st ->
  js_tokens st = Some toks -> toks !! 0 = Some t -> tok_to t = length buf -> evbuffer_bytes input = buf ->
  lgtd_jsonrpc_dispatch_request debug (S m)
    {| se_world := se_world s; se_client := set_cl_json buf (set_cl_jsmn_tokens toks (se_client s)) |} = Ret tt s' ->
  exists rest, read_loop debug (S fuel) [] buf input true ntokens s
    = Ret (Some rest) {| se_world := se_world s'; se_client := set_cl_json [] (se_client s') |}
  /\ evbuffer_bytes rest = [].
Proof.
  intros Hparse Hst Ht Hsize Hinput Hdispatch. cbn [read_loop]. rewrite (run_bind _ _ s (se_client s) s) by done.
  cbv zeta. rewrite Hparse, Hst. cbn [default from_option]. unfold Datatypes.id.
  do 2 erewrite run_bind by reflexivity.
  rewrite (run_bind _ _ _ tt s' Hdispatch). erewrite run_bind by reflexivity.
  rewrite (run_bind _ _ _ t {| se_world := se_world s'; se_client := set_cl_json [] (se_client s') |}) by (by rewrite Ht).
  rewrite Hsize, Nat.ltb_irrefl. unfold resume_parsing. rewrite pullup_contiguous, drain_bytes, Hinput, drop_all.
  eexists. split; [done|]. by rewrite pullup_bytes, drain_bytes, Hinput, drop_all.
Qed.

(** The buffer holds these bytes, contiguous. *)
Definition holds (input : evbuffer) (text : list Z) : Prop :=
  evbuffer_bytes input = text /\ evbuffer_contiguous input = text.

(** From the bytes of a value in the buffer to the end of its dispatch: the two
    passes of the tokenizer, then the buffer is empty. *)
Lemma value_served v input w w' c out req :
  json_type v = JSMN_OBJECT -> wf_json v = true -> is_Some (cl_addr c) -> holds input (print v) ->
  lgtd_jsonrpc_dispatch_request debug (ntokens v)
    {| se_world := w; se_client := client_with c (print v) (tokens_of v 0 0 None) (cl_output c) (cl_current_request c) |}
  = Ret tt {| se_world := w'; se_client := client_with c (print v) (tokens_of v 0 0 None) out req |} ->
  exists rest, lgtd_client_read_callback debug [] input {| se_world := w; se_client := c |}
    = Ret (Some rest) {| se_world := w'; se_client := client_with c [] (tokens_of v 0 0 None) out req |}
  /\ evbuffer_bytes rest = [].
Proof.
  intros Hobj Hwf [addr Haddr] [Hbytes Hcont] Hrun. assert (Hnp : forall t, v <> JPrimitive t) by (by intros t ->).
  set (text := print v) in *. set (n := ntokens v) in *.
  assert (Hn : exists m, n = S m) by (pose proof (ntokens_pos v); exists (pred n); unfold n; lia). destruct Hn as [m Hm].
  destruct (count_print v (replicate n undefined_token) Hwf Hnp ltac:(by rewrite length_replicate)) as [st0 Hcount].
  fold n in Hcount. assert (Hst0 : js_tokens st0 = None).
  { destruct (count_run text) as (r & st & Hst & Hnone). unfold text in Hst. rewrite Hcount in Hst. by injection Hst as _ <-. }
  set (l := take n (reallocarray (cl_jsmn_tokens c) n)).
  assert (Hl : length l = n) by apply reallocarray_length.
  pose proof (parse_print v l Hwf Hnp ltac:(by rewrite Hl)) as Hparse. fold n text in Hparse.
  rewrite drop_ge, app_nil_r in Hparse by (by rewrite Hl).
  unfold lgtd_client_read_callback. set (s0 := {| se_world := w; se_client := c |}).
  rewrite (run_bind _ _ s0 c s0) by done. erewrite (run_bind _ _ s0) by (by rewrite Haddr).
  replace (read_fuel [] input) with (S (S (2 * evbuffer_get_length input + 4))) by (unfold read_fuel; cbn; lia).
  rewrite Hcont.
  rewrite Hm in Hcount. rewrite (read_loop_count _ text input 0 m st0 s0 Hcount Hst0). rewrite <- Hm.
  assert (Ht : exists t, tokens_of v 0 0 None !! 0 = Some t /\ tok_to t = length text).
  { destruct v as [| | |members]; try done. rewrite tokens_of_object. by eexists. }
  destruct Ht as (t & Ht & Hend). rewrite Hm in Hrun. set (s1 := {| se_world := se_world s0; se_client := _ |}).
  assert (Hparse1 : jsmn_parse text (jsmn_init (Some (take n (cl_jsmn_tokens (se_client s1)))))
    = Ret (inr (S m)) {| js_pos := length text; js_toknext := n; js_toksuper := None; js_tokens := Some (tokens_of v 0 0 None) |})
    by (rewrite <- Hm; exact Hparse).
  exact (read_loop_request _ text input n m _ (tokens_of v 0 0 None) t s1 _ Hparse1 eq_refl Ht Hend Hbytes Hrun).
Qed.

(** From the bytes of a request in the buffer to the bytes of its response. *)
Lemma method_served name f ts id result input w w' c :
  (name, f) ∈ targets_methods -> forallb wf_string ts = true -> wf_json id = true -> valid_id id ->
  is_Some (cl_addr c) -> w_os_results w = [] -> answers f ts result w w' (cl_addr c) ->
  let v := request_json name (target_params ts) id in
  holds input (print v) ->
  exists rest, lgtd_client_read_callback debug [] input {| se_world := w; se_client := c |}
  = Ret (Some rest) {| se_world := w';
      se_client := client_with c [] (tokens_of v 0 0 None) (cl_output c ++ (if cl_io c then response_text id result else [])) None |}
  /\ evbuffer_bytes rest = [].
Proof.
  intros Hname Hts Hwid Hid Haddr Hos Hf v Hin. destruct (targets_method_name name f Hname) as [_ Hwn].
  apply value_served; [done|apply request_wf; [done|by apply target_params_wf|done]|done|done|by apply (dispatch_targets_run name f)].
Qed.

Lemma unknown_served name params id input w c :
  find_name debug name = None -> container params = true -> wf_string name = true -> wf_json params = true ->
  wf_json id = true -> valid_id id -> is_Some (cl_addr c) ->
  let v := request_json name params id in
  holds input (print v) ->
  exists rest, lgtd_client_read_callback debug [] input {| se_world := w; se_client := c |}
  = Ret (Some rest) {| se_world := w;
      se_client := client_with c [] (tokens_of v 0 0 None)
        (cl_output c ++ (if cl_io c then error_text id LGTD_JSONRPC_METHOD_NOT_FOUND "Method not found" else [])) None |}
  /\ evbuffer_bytes rest = [].
Proof.
  intros Hname Hc Hwn Hwp Hwid Hid Haddr v Hin. apply value_served; [done|by apply request_wf|done|done|].
  apply (dispatch_object_run v (ntokens v) c); [done|done|done|]. by apply dispatch_one_unknown.
Qed.
End Served.
