(* ===== verification/LightStateSpec.v ===== *)
(** * The state of the lights is JSON

    [lgtd_proto_get_light_state] writes the text of a JSON array with an object
    per device: the value is given here, it is JSON, and the bytes that are written
    are its text. *)

From Stdlib Require Import ZArith Lia String.
From stdpp Require Import base tactics list gmap.
From S2P Require Import Prelude CLib WireBits PacketInfo WireProto World Tagging GatewayQueue.
From S2P Require Import BulbTable Router Bulb Gateway Proto TagsInv SendSpec DeviceInv DeviceOps Invariant RouterSpec ProtoInv.
From S2P Require Import Jsmn JsmnSpec JsonText JsonNumbers NumberSpec Printf Session LightState JsonrpcSpec Example.

(** ** JSON texts *)

(** A string of RFC 8259: also without control characters (bytes above 127 are left to
    the encoding). *)
Definition json_string (t : list Z) : bool := wf_string t && forallb (fun c => 32 <=? c) t.

(** A text that needs no escape. *)
Definition plain (t : list Z) : bool := forallb (fun c => (32 <=? c) && negb (c =? 34) && negb (c =? 92)) t.

(** A number: an integer without zeros before it, and perhaps a sign and a fraction. *)
Definition is_digit (c : Z) : bool := (48 <=? c) && (c <=? 57).

Definition json_integer (t : list Z) : bool :=
  match t with
  | [] => false
  | c :: ds => forallb is_digit t && (negb (c =? 48) || (length ds =? 0)%nat)
  end.

Definition json_number (t : list Z) : Prop :=
  exists sign ip fp, t = sign ++ point_text ip fp /\ (sign = [] \/ sign = [45]) /\ json_integer ip = true
  /\ forall fs, fp = Some fs -> fs <> [] /\ forallb is_digit fs = true.

Fixpoint valid_json (v : json) : Prop :=
  match v with
  | JPrimitive t => t ∈ [bytes_of_string "true"; bytes_of_string "false"; bytes_of_string "null"] \/ json_number t
  | JString t => json_string t = true
  | JArray l => foldr (fun v P => valid_json v /\ P) True l
  | JObject l => foldr (fun m P => (json_string m.1 = true /\ valid_json m.2) /\ P) True l
  end.

Lemma valid_array l : valid_json (JArray l) <-> Forall valid_json l.
Proof.
  cbn [valid_json]. induction l as [|v l IH]; cbn [foldr]; [split; [constructor|done]|]. by rewrite IH, Forall_cons.
Qed.

Lemma valid_object l : valid_json (JObject l) <-> Forall (fun m => json_string m.1 = true /\ valid_json m.2) l.
Proof.
  cbn [valid_json]. induction l as [|m l IH]; cbn [foldr]; [split; [constructor|done]|]. by rewrite IH, Forall_cons.
Qed.

Lemma plain_app t u : plain (t ++ u) = plain t && plain u.
Proof. apply forallb_app. Qed.

Lemma plain_take n t : plain t = true -> plain (take n t) = true.
Proof. intros Ht. rewrite <- (take_drop n t), plain_app in Ht. by apply andb_true_iff in Ht as [? _]. Qed.

Lemma plain_string t : plain t = true -> json_string t = true.
Proof.
  intros Ht. apply andb_true_iff. split; induction t as [|c t IH]; [done| |done|]; cbn [plain forallb] in *;
    apply andb_true_iff in Ht as [[[Hc Hq]%andb_true_iff Hb]%andb_true_iff Ht]; apply Z.leb_le in Hc;
    apply negb_true_iff, Z.eqb_neq in Hq, Hb.
  - rewrite wf_string_byte; [by apply IH|]. rewrite !elem_of_cons, elem_of_nil. lia.
  - rewrite (proj2 (Z.leb_le _ _)) by lia. by apply IH.
Qed.

Lemma plain_bytes t : Forall (fun c => 48 <= c <= 57 \/ 97 <= c <= 102 \/ c = 45 \/ c = 46 \/ c = 58 \/ c = 43 \/ c = 84) t -> plain t = true.
Proof.
  intros Ht. apply forallb_forall. intros c Hc%list_elem_of_In. rewrite Forall_forall in Ht. specialize (Ht c Hc).
  rewrite (proj2 (Z.leb_le 32 c)), (proj2 (Z.eqb_neq c 34)), (proj2 (Z.eqb_neq c 92)) by lia. done.
Qed.

Lemma is_digit_spec c : is_digit c = true <-> 48 <= c <= 57.
Proof. unfold is_digit. rewrite andb_true_iff, !Z.leb_le. done. Qed.

Lemma digits_spec t : forallb is_digit t = true <-> Forall (fun c => 48 <= c <= 57) t.
Proof.
  rewrite forallb_forall, Forall_forall. setoid_rewrite <- list_elem_of_In. setoid_rewrite is_digit_spec. done.
Qed.

Lemma integer_number t : json_integer t = true -> json_number t.
Proof. intros Ht. exists [], t, None. unfold point_text. rewrite app_nil_r. split_and!; [done|by left|done|done]. Qed.

(** ** Printed numbers *)

Lemma dec_loop_integer fuel : forall n acc,
  0 <= n < 10 ^ Z.of_nat (S fuel) ->
  exists c ds, dec_loop (S fuel) n acc = (c :: ds) ++ acc /\ Forall (fun c => 48 <= c <= 57) (c :: ds)
    /\ (c <> 48 \/ ds = []) /\ (0 < n -> c <> 48).
Proof.
  induction fuel as [|fuel IH]; intros n acc Hn.
  - change (10 ^ Z.of_nat 1) with 10 in Hn. cbn [dec_loop]. rewrite (proj2 (Z.ltb_lt _ _)) by lia.
    exists (48 + n), []. split_and!; [done|repeat constructor; lia|by right|lia].
  - change (dec_loop (S (S fuel)) n acc)
      with (if n <? 10 then (48 + n) :: acc else dec_loop (S fuel) (n / 10) ((48 + n mod 10) :: acc)).
    destruct (Z.ltb_spec n 10) as [Hlt|Hge].
    { exists (48 + n), []. split_and!; [done|repeat constructor; lia|by right|lia]. }
    pose proof (Z.mod_pos_bound n 10 ltac:(lia)). pose proof (Z.div_le_lower_bound n 10 1 ltac:(lia) ltac:(lia)).
    rewrite Nat2Z.inj_succ, Z.pow_succ_r in Hn by lia.
    destruct (IH (n / 10) ((48 + n mod 10) :: acc)) as (c & ds & -> & Hds & _ & Hc);
      [split; [lia|apply Z.div_lt_upper_bound; lia]|].
    exists c, (ds ++ [48 + n mod 10]). apply Forall_cons in Hds as [Hcd Hds].
    split_and!; [cbn [app]; by rewrite <- app_assoc|constructor; [done|apply Forall_app; split; [done|repeat constructor; lia]]
      |left; apply Hc; lia|intros _; apply Hc; lia].
Qed.

Lemma print_u_integer n : 0 <= n < 2 ^ 64 -> json_integer (print_u n) = true.
Proof.
  intros Hn. unfold print_u. destruct (dec_loop_integer 19 n []) as (c & ds & Hp & Hds & Hc & _); [cbn; lia|].
  rewrite Hp, app_nil_r. cbn [json_integer]. rewrite (proj2 (digits_spec _) Hds). cbn [andb].
  destruct Hc as [Hc| ->]; [by rewrite (proj2 (Z.eqb_neq _ _))|by rewrite orb_true_r].
Qed.

Lemma print_u_number n : 0 <= n < 2 ^ 64 -> valid_json (JPrimitive (print_u n)).
Proof. intros Hn. right. by apply integer_number, print_u_integer. Qed.

Lemma print_u_plain n : 0 <= n -> plain (print_u n) = true.
Proof. intros Hn. apply plain_bytes. eapply Forall_impl; [by apply print_u_digits|]. cbn. lia. Qed.

Lemma print_d_plain n : plain (print_d n) = true.
Proof. unfold print_d. destruct (Z.ltb_spec n 0); [apply (print_u_plain (- n)); lia|by apply print_u_plain]. Qed.

Lemma print_02d_plain n : plain (print_02d n) = true.
Proof.
  unfold print_02d. cbv zeta. rewrite plain_app, print_d_plain. rewrite plain_bytes; [done|].
  apply Forall_replicate. lia.
Qed.

Lemma hex_digit_plain n : 0 <= n < 16 -> 48 <= hex_digit n <= 57 \/ 97 <= hex_digit n <= 102.
Proof. unfold hex_digit. destruct (Z.ltb_spec n 10); lia. Qed.

Lemma print_x_plain n : 0 <= n -> plain (print_x n) = true.
Proof.
  intros Hn. apply plain_bytes. unfold print_x. cut (Forall (fun c => 48 <= c <= 57 \/ 97 <= c <= 102) (hex_loop 8 n [])).
  { intros Hf. eapply Forall_impl; [exact Hf|]. cbn. lia. }
  generalize (Forall_nil_2 (fun c => 48 <= c <= 57 \/ 97 <= c <= 102)).
  revert n Hn. generalize (@nil Z). generalize 8%nat. intros fuel.
  induction fuel as [|fuel IH]; intros acc n Hn Hacc; cbn [hex_loop]; [done|].
  destruct (Z.ltb_spec n 16); [constructor; [by apply hex_digit_plain|done]|].
  apply IH; [by apply Z.div_pos|]. constructor; [apply hex_digit_plain, Z.mod_pos_bound; lia|done].
Qed.

Lemma print_02hhx_plain b : is_byte b -> plain (print_02hhx b) = true.
Proof.
  intros Hb. unfold is_byte in Hb. pose proof (Z.mod_pos_bound b 16 ltac:(lia)).
  assert (0 <= b / 16 < 16) by (split; [apply Z.div_pos; lia|apply Z.div_lt_upper_bound; lia]).
  apply plain_bytes. pose proof (hex_digit_plain (b / 16)). pose proof (hex_digit_plain (b mod 16)).
  unfold print_02hhx. constructor; [lia|]. constructor; [lia|]. constructor.
Qed.

Lemma timestamp_plain {C : LibC} n size : plain (lgtd_print_nsec_timestamp n size) = true.
Proof.
  unfold lgtd_print_nsec_timestamp. cbv zeta. destruct (gmtime_r _) as [t|]; [|done]. unfold LGTD_TM_TO_ISOTIME, snprintf.
  apply plain_take. rewrite !plain_app, !print_02d_plain, print_d_plain.
  set (usec := LGTD_NSECS_TO_USECS _). destruct (usec =? 0), (0 <=? tm_gmtoff t); try done.
  all: change (46 :: print_d usec) with ([46] ++ print_d usec); by rewrite plain_app, print_d_plain.
Qed.

(** What a number in millionths is printed as: its value, digit by digit. *)
Definition component_shown (encoded stop : Z) (t : list Z) : Prop :=
  exists ip fp, t = point_text ip fp /\ printed (encoded * (stop * 1000000) / 65535) ip fp.

Lemma component_number encoded stop t : 0 <= encoded -> 0 < stop -> component_shown encoded stop t -> json_number t.
Proof.
  intros He Hstop (ip & fp & -> & [Hip Hint (Hfp & _ & _) Hlead Hpt]).
  exists [], ip, fp. split_and!; [done|by left| |].
  2:{ intros fs ->. split; [by intros ->|by apply digits_spec]. }
  set (v := encoded * (stop * 1000000) / 65535) in *.
  destruct ip as [|c ds]; [destruct Hlead as [|Hl]; [done|]; cbn in Hl, Hint; lia|].
  cbn [json_integer]. rewrite (proj2 (digits_spec (c :: ds)) Hip). cbn [andb].
  destruct Hlead as [[= -> ->]|Hl]; [done|]. destruct (Z.eqb_spec c 48) as [->|]; [|done]. exfalso.
  apply Forall_cons in Hip as [_ Hds]. rewrite decimal_cons in Hint. cbn in Hl.
  pose proof (decimal_bound ds 0 Hds) as Hb. change (0 * 10 + (48 - 48)) with 0 in Hint. lia.
Qed.

Section LightStateJson.
Context {E : Endianness} {C : LibC} (debug : bool).

Abbreviation key s := (bytes_of_string s).
Abbreviation text s := (JString (bytes_of_string s)).

(** ** The value of a device *)

(** Major and minor number: the two halves of 32 bits. *)
Definition version_text (version : Z) : list Z :=
  print_u (version / 2 ^ 16 mod 2 ^ 16) ++ [46] ++ print_u (version mod 2 ^ 16).

(** The bytes of an address in hexadecimal, with colons between them. *)
Fixpoint colons (texts : list (list Z)) : list Z :=
  match texts with
  | [] => []
  | [t] => t
  | t :: texts => t ++ 58 :: colons texts
  end.

Definition mac_text (a : addr) : list Z := colons (print_02hhx <$> a).

Definition ip_json (name : string) (ip : lgtd_lifx_bulb_ip) : list Z * json :=
  let info := ip_fw_info ip in
  (bytes_of_string name, JObject
    (if debug then
       [ (key "firmware_built_at", JString (lgtd_print_nsec_timestamp (fw_built_at info) 64));
         (key "firmware_installed_at", JString (lgtd_print_nsec_timestamp (fw_installed_at info) 64));
         (key "firmware_version", JString (version_text (fw_version info)));
         (key "signal_strength", JPrimitive (print_f (is_signal_strength (ip_state ip))));
         (key "tx_bytes", JPrimitive (print_u (is_tx_bytes (ip_state ip))));
         (key "rx_bytes", JPrimitive (print_u (is_rx_bytes (ip_state ip))));
         (key "temperature", JPrimitive (print_u (is_temperature (ip_state ip)))) ]
     else [ (key "firmware_version", JString (version_text (fw_version info))) ])).

Definition debug_json (bulb : lgtd_lifx_bulb) : list (list Z * json) :=
  if debug then
    let product := bulb_product_info bulb in
    let runtime := bulb_runtime_info bulb in
    [ (key "product_info", JObject
        [ (key "vendor_id", JString (print_x (pr_vendor_id product)));
          (key "product_id", JString (print_x (pr_product_id product)));
          (key "version", JPrimitive (print_u (pr_version product))) ]);
      (key "runtime_info", JObject
        [ (key "time", JString (lgtd_print_nsec_timestamp (ri_time runtime) 64));
          (key "uptime", JPrimitive (print_u (LGTD_NSECS_TO_SECS (ri_uptime runtime))));
          (key "downtime", JPrimitive (print_u (LGTD_NSECS_TO_SECS (ri_downtime runtime)))) ]) ]
  else [].

Definition lifx_json (gw : lgtd_lifx_gateway) (bulb : lgtd_lifx_bulb) : json :=
  JObject
    ([ (key "addr", JString (mac_text (bulb_addr bulb)));
       (key "gateway", JObject
          [ (key "site", JString (mac_text (gw_site gw)));
            (key "url", JString (key "tcp://" ++ lgtd_sockaddrtoa (sockaddr_at (gw_peer gw)) 128));
            (key "latency", JPrimitive (print_u (lgtd_lifx_gateway_latency gw))) ]) ]
     ++ zip_with ip_json lgtd_lifx_bulb_ip_names (bulb_ips bulb) ++ debug_json bulb).

Definition string_or_null (v : option string) : json :=
  match v with Some s => text s | None => JPrimitive (key "null") end.

(** The text the code prints for a component of a color. *)
Definition component_text (encoded stop : Z) : list Z :=
  let v := encoded * (stop * 1000000) / 65535 in if v =? 0 then [48] else print_value v.

(** The tags of the bulb that its gateway knows. *)
Definition bulb_tag_labels (w : world) (gw : lgtd_lifx_gateway) (ids : list Z) : list (list Z) :=
  omap (fun i => if has_flag (LGTD_LIFX_WIRE_TAG_ID_TO_VALUE i) (gw_tag_ids gw)
                 then t ← mjoin (gw_tags gw !! Z.to_nat i); tag ← w_tags w !! t; Some (cstr (tag_label tag))
                 else None) ids.

(** The label of the bulb, or its address if it has none. *)
Definition label_text (bulb : lgtd_lifx_bulb) : list Z :=
  if decide (cstr (ls_label (bulb_state bulb)) = []) then mjoin (print_02hhx <$> bulb_addr bulb)
  else cstr (ls_label (bulb_state bulb)).

(** [h], [s] and [b] are the texts of the components of its color. *)
Definition device_json (h s b : list Z) (w : world) (gw : lgtd_lifx_gateway) (bulb : lgtd_lifx_bulb) : json :=
  let state := bulb_state bulb in
  JObject
    [ (key "_lifx", lifx_json gw bulb);
      (key "_model", string_or_null (bulb_model bulb));
      (key "_vendor", string_or_null (bulb_vendor bulb));
      (key "hsbk", JArray
        [ JPrimitive h; JPrimitive s; JPrimitive b; JPrimitive (print_u (ls_kelvin state)) ]);
      (key "power", JPrimitive (if ls_power state =? LGTD_LIFX_POWER_ON then key "true" else key "false"));
      (key "label", JString (label_text bulb));
      (key "tags", JArray (JString <$> bulb_tag_labels w gw (tag_bits (ls_tags state)))) ].

(** ** Its text *)

Lemma commas_cons_mjoin t texts : commas (t :: texts) = t ++ mjoin (cons 44 <$> texts).
Proof.
  revert t. induction texts as [|u texts IH]; intros t; [cbn; by rewrite app_nil_r|].
  rewrite commas_cons by done. by rewrite IH.
Qed.

(** The text of a value, down to its leaves. *)
Ltac print_norm :=
  repeat (progress (cbn [print fmap list_fmap mjoin list_join fst snd]; rewrite ?commas_cons_mjoin; unfold member_text));
  app_norm.

Definition printed_device (w : world) (gw : lgtd_lifx_gateway) (bulb : lgtd_lifx_bulb) : json :=
  device_json (component_text (ls_hue (bulb_state bulb)) 360) (component_text (ls_saturation (bulb_state bulb)) 1)
    (component_text (ls_brightness (bulb_state bulb)) 1) w gw bulb.

Definition head_text (gw : lgtd_lifx_gateway) (bulb : lgtd_lifx_bulb) : list Z :=
  mjoin (device_texts debug gw bulb (component_text (ls_hue (bulb_state bulb)) 360)
           (component_text (ls_saturation (bulb_state bulb)) 1) (component_text (ls_brightness (bulb_state bulb)) 1)).

Lemma version_halves version :
  Z.shiftr (Z.land version 0xffff0000) 16 = version / 2 ^ 16 mod 2 ^ 16 /\ Z.land version 0xffff = version mod 2 ^ 16.
Proof.
  rewrite Z.shiftr_land. change (Z.shiftr 0xffff0000 16) with (Z.ones 16). change 0xffff with (Z.ones 16).
  by rewrite !Z.land_ones, Z.shiftr_div_pow2 by lia.
Qed.

Lemma ip_text name ip : print_ip debug name ip = 44 :: member_text (ip_json name ip).
Proof.
  unfold print_ip, ip_json, member_text, version_text. destruct (version_halves (fw_version (ip_fw_info ip))) as [-> ->].
  destruct debug; cbn [fst snd print fmap list_fmap commas]; app_norm; reflexivity.
Qed.

Lemma string_or_null_text v : PRINT_STRING_OR_NULL v = print (string_or_null v).
Proof. by destruct v. Qed.

(** The functions of the code that print the leaves. *)
Lemma mactoa_text a : length a = 6%nat -> lgtd_iee8023mactoa a = mac_text a.
Proof. intros Ha. do 6 (destruct a as [|? a]; [done|]). destruct a; [|done]. reflexivity. Qed.

Lemma cstr_length t : (length (cstr t) <= length t)%nat.
Proof. induction t as [|c t IH]; cbn; [lia|]. destruct (c =? 0); cbn; lia. Qed.

Lemma print_label_text bulb :
  length (bulb_addr bulb) = 6%nat -> (length (ls_label (bulb_state bulb)) <= 32)%nat -> print_label bulb = label_text bulb.
Proof.
  intros Ha Hl. unfold print_label, label_text. set (label := ls_label (bulb_state bulb)) in *.
  assert (Hc : (length (cstr label) <= 32)%nat) by (pose proof (cstr_length label); lia).
  assert (Hhead : negb (default 0 (head label) =? 0) = negb (bool_decide (cstr label = []))).
  { destruct label as [|c t]; [done|]. cbn. destruct (c =? 0); [done|]. done. }
  rewrite Hhead. case_decide as Hd; [rewrite bool_decide_eq_true_2 by done|rewrite bool_decide_eq_false_2 by done]; cbn [negb].
  - unfold snprintf. apply take_ge. generalize (bulb_addr bulb), Ha. intros a Hlen.
    do 6 (destruct a as [|? a]; [done|]). destruct a; [|done]. cbn. lia.
  - apply take_ge. exact Hc.
Qed.

(** The texts of the buffer, the labels of the tags and the end of the object. *)
Lemma device_text w gw bulb :
  length (bulb_ips bulb) = 2%nat -> length (bulb_addr bulb) = 6%nat -> length (gw_site gw) = 6%nat ->
  (length (ls_label (bulb_state bulb)) <= 32)%nat ->
  head_text gw bulb ++ commas (print <$> (JString <$> bulb_tag_labels w gw (tag_bits (ls_tags (bulb_state bulb))))) ++ quoted "]}"
  = print (printed_device w gw bulb).
Proof.
  intros Hips Haddr Hsite Hlabel. unfold printed_device. destruct (bulb_ips bulb) as [|ip1 [|ip2 [|]]] eqn:Hb; try done.
  unfold head_text, device_texts, device_json, lifx_json. rewrite Hb. cbn [zip_with lgtd_lifx_bulb_ip_names].
  rewrite !ip_text, !string_or_null_text, !mactoa_text, print_label_text by done. unfold debug_json. set (tags := JString <$> _). set (power := ls_power _ =? _).
  assert (Hpower : bytes_of_string (if power then "true" else "false") = if power then key "true" else key "false") by (by destruct power).
  rewrite Hpower. destruct debug; cbn [app]; print_norm; reflexivity.
Qed.

(** ** What is written *)

Lemma append_all texts : forall buf,
  (length (buf ++ mjoin texts) < 2048)%nat ->
  foldl (fun buf text => LGTD_SNPRINTF_APPEND buf 2048 text) buf texts = buf ++ mjoin texts.
Proof.
  induction texts as [|t texts IH]; intros buf Hlen; [cbn; by rewrite app_nil_r|].
  change (mjoin (t :: texts)) with (t ++ mjoin texts) in *. cbn [foldl]. rewrite app_assoc in Hlen.
  assert (Ht : LGTD_SNPRINTF_APPEND buf 2048 t = buf ++ t).
  { unfold LGTD_SNPRINTF_APPEND. apply take_ge. rewrite length_app in Hlen |- *. rewrite length_app in Hlen. lia. }
  rewrite Ht, IH by done. by rewrite app_assoc.
Qed.

(** The cell of a tag that its gateway knows. *)
Lemma known_tag w p gw i :
  world_inv w -> w_gateways w !! p = Some gw -> 0 <= i < 64 ->
  has_flag (LGTD_LIFX_WIRE_TAG_ID_TO_VALUE i) (gw_tag_ids gw) = true ->
  exists t tag, gw_tags gw !! Z.to_nat i = Some (Some t) /\ w_tags w !! t = Some tag.
Proof.
  intros Hi Hp Hrange Hflag. unfold has_flag in Hflag. rewrite Z.land_comm in Hflag.
  change (has_flag (gw_tag_ids gw) (LGTD_LIFX_WIRE_TAG_ID_TO_VALUE i) = true) in Hflag. rewrite has_flag_bit in Hflag by done.
  pose proof (tio_bits _ (ri_tag_ids _ (wi_rest _ Hi) p gw Hp) (Z.to_nat i) ltac:(lia)) as [Hb _].
  rewrite Z2Nat.id in Hb by lia. destruct (Hb Hflag) as [t Ht].
  destruct (gw_tags gw !! Z.to_nat i) as [[t'|]|] eqn:Hc; try done. injection Ht as ->.
  destruct (ti_cells _ _ _ (ri_tags _ (wi_rest _ Hi)) p (Z.to_nat i) t) as (_ & tag & Htag & _).
  { unfold cell. rewrite Hp. cbn. by rewrite Hc. }
  by exists t, tag.
Qed.

Lemma write_tags_run p gw ids : forall comma s,
  world_inv (se_world s) -> w_gateways (se_world s) !! p = Some gw -> Forall (fun i => 0 <= i < 64) ids ->
  let texts := print <$> (JString <$> bulb_tag_labels (se_world s) gw ids) in
  write_tags gw comma ids s = Ret tt (client_write s (if comma then mjoin (cons 44 <$> texts) else commas texts)).
Proof.
  induction ids as [|i ids IH]; intros comma s Hi Hp Hids; cbn [write_tags].
  { cbn. by destruct comma; rewrite client_write_nil. }
  inversion Hids as [|? ? Hrange Hids']; subst. unfold bulb_tag_labels. cbn [omap list_omap].
  change (omap _ ids) with (bulb_tag_labels (se_world s) gw ids).
  destruct (has_flag _ _) eqn:Hflag; [|by apply IH].
  destruct (known_tag _ p gw i Hi Hp Hrange Hflag) as (t & tag & Ht & Htag). rewrite Ht.
  rewrite (run_bind _ _ s t s) by done.
  rewrite (run_bind _ _ s tag s) by (rewrite (lift_run _ _ tag (se_world s)); [by destruct s|by apply get_tag_ret]).
  cbn [mjoin option_join mbind option_bind]. rewrite Htag. cbn [mbind option_bind]. cbv iota.
  do 3 rewrite write_bind by done. rewrite IH by done. rewrite !client_write_write. f_equal. f_equal.
  cbn [se_world client_write]. set (rest := bulb_tag_labels _ _ ids). cbn [fmap list_fmap]. destruct comma.
  - cbn [mjoin list_join fmap list_fmap print]. app_norm. reflexivity.
  - rewrite commas_cons_mjoin. cbn [print]. app_norm. reflexivity.
Qed.

Lemma component_run {S} encoded stop (s : S) :
  0 <= encoded <= 65535 -> stop = 1 \/ stop = 360 ->
  lgtd_jsonrpc_uint16_range_to_float_string encoded 0 stop 16 s = Ret (component_text encoded stop) s.
Proof.
  intros He Hstop. apply float_string_run; [lia|]. set (v := encoded * (stop * 1000000) / 65535).
  assert (Hv : 0 <= v <= 360000000) by (split; [apply Z.div_pos; nia|apply Z.div_le_upper_bound; nia]).
  destruct (decide (v = 0)) as [Hz|Hne]; [by left|right].
  destruct (print_value_printed v ltac:(lia)) as (ip & fp & -> & Hlen & Hp).
  pose proof (printed_length v ip fp Hp ltac:(lia)). lia.
Qed.

Lemma component_text_shown encoded stop :
  0 <= encoded <= 65535 -> stop = 1 \/ stop = 360 -> component_shown encoded stop (component_text encoded stop).
Proof.
  intros He Hstop. unfold component_text, component_shown. set (v := encoded * (stop * 1000000) / 65535).
  assert (Hv : 0 <= v <= 360000000) by (split; [apply Z.div_pos; nia|apply Z.div_le_upper_bound; nia]).
  destruct (Z.eqb_spec v 0) as [->|Hne].
  - exists [48], None. split; [done|]. constructor; [by repeat constructor..|by left|done].
  - destruct (print_value_printed v ltac:(lia)) as (ip & fp & -> & _ & Hp). by exists ip, fp.
Qed.

(** A device that can be printed: its fields have values of their C types, its text fits
    the buffer of the code, and what is printed as it is needs no escape: the label, the
    name of the product, the address of the gateway as [inet_ntop] writes it; with the
    details of debugging, [%f] writes a finite number. *)
Definition device_numbers (gw : lgtd_lifx_gateway) (bulb : lgtd_lifx_bulb) : list Z :=
  [ls_kelvin (bulb_state bulb); gw_last_req_at gw; gw_last_pkt_at gw;
   pr_vendor_id (bulb_product_info bulb); pr_product_id (bulb_product_info bulb); pr_version (bulb_product_info bulb);
   ri_uptime (bulb_runtime_info bulb); ri_downtime (bulb_runtime_info bulb)]
  ++ (bulb_ips bulb ≫= fun ip => [is_tx_bytes (ip_state ip); is_rx_bytes (ip_state ip); is_temperature (ip_state ip)]).

Record printable (gw : lgtd_lifx_gateway) (bulb : lgtd_lifx_bulb) : Prop := {
  pt_color : 0 <= ls_hue (bulb_state bulb) <= 65535 /\ 0 <= ls_saturation (bulb_state bulb) <= 65535
             /\ 0 <= ls_brightness (bulb_state bulb) <= 65535;
  pt_numbers : Forall (fun n => 0 <= n < 2 ^ 64) (device_numbers gw bulb);
  pt_bytes : Forall is_byte (bulb_addr bulb) /\ Forall is_byte (gw_site gw);
  pt_label : (length (ls_label (bulb_state bulb)) <= 32)%nat /\ plain (cstr (ls_label (bulb_state bulb))) = true;
  pt_names : Forall (fun v => forall s, v = Some s -> plain (bytes_of_string s) = true) [bulb_model bulb; bulb_vendor bulb];
  pt_url : plain (lgtd_sockaddrtoa (sockaddr_at (gw_peer gw)) 128) = true;
  pt_signal : debug = true -> Forall (fun ip => json_number (print_f (is_signal_strength (ip_state ip)))) (bulb_ips bulb);
  pt_size : (length (head_text gw bulb) < 2048)%nat
}.

(** ** It is JSON *)

Lemma mac_plain a : Forall is_byte a -> plain (mac_text a) = true.
Proof.
  unfold mac_text. induction 1 as [|b a Hb _ IH]; [done|]. cbn [fmap list_fmap colons].
  destruct (print_02hhx <$> a) as [|t texts]; [by apply print_02hhx_plain|].
  rewrite plain_app, print_02hhx_plain by done. exact IH.
Qed.

Lemma version_plain version : plain (version_text version) = true.
Proof.
  unfold version_text. rewrite !plain_app, !print_u_plain; [done|..]; apply Z.mod_pos_bound; lia.
Qed.

Lemma ip_valid name ip :
  name ∈ lgtd_lifx_bulb_ip_names ->
  Forall (fun n => 0 <= n < 2 ^ 64) [is_tx_bytes (ip_state ip); is_rx_bytes (ip_state ip); is_temperature (ip_state ip)] ->
  (debug = true -> json_number (print_f (is_signal_strength (ip_state ip)))) ->
  json_string (ip_json name ip).1 = true /\ valid_json (ip_json name ip).2.
Proof.
  intros Hname Hn Hsig. rewrite !Forall_cons in Hn. destruct Hn as (Htx & Hrx & Htemp & _). split.
  { unfold lgtd_lifx_bulb_ip_names in Hname. rewrite !elem_of_cons, elem_of_nil in Hname. by destruct Hname as [->|[->|[]]]. }
  unfold ip_json. cbn [snd]. destruct debug; rewrite valid_object; repeat apply Forall_cons_2; try apply Forall_nil_2;
    (split; [reflexivity|]); cbn [snd].
  all: try (by apply print_u_number). all: try (right; by apply Hsig). all: apply plain_string; first [apply timestamp_plain|apply version_plain].
Qed.

Lemma string_or_null_valid v : (forall s, v = Some s -> plain (bytes_of_string s) = true) -> valid_json (string_or_null v).
Proof. intros Hv. destruct v as [s|]; [by apply plain_string, Hv|]. left. by do 2 right; left. Qed.

Lemma latency_range gw :
  0 <= gw_last_req_at gw < 2 ^ 64 -> 0 <= gw_last_pkt_at gw < 2 ^ 64 -> 0 <= lgtd_lifx_gateway_latency gw < 2 ^ 64.
Proof. unfold lgtd_lifx_gateway_latency. destruct (Z.ltb_spec (gw_last_req_at gw) (gw_last_pkt_at gw)); lia. Qed.

Lemma seconds_range v : 0 <= v < 2 ^ 64 -> 0 <= LGTD_NSECS_TO_SECS v < 2 ^ 64.
Proof.
  intros Hv. unfold LGTD_NSECS_TO_SECS. split; [apply Z.div_pos; lia|]. apply Z.div_lt_upper_bound; lia.
Qed.

(** The members of an object that are given one by one. *)
Ltac members := rewrite ?valid_object, ?valid_array; repeat apply Forall_cons_2; try apply Forall_nil_2;
  try (split; [reflexivity|]); cbn [snd].

Lemma debug_valid bulb gw :
  printable gw bulb -> Forall (fun m => json_string m.1 = true /\ valid_json m.2) (debug_json bulb).
Proof.
  intros Hpr. pose proof (pt_numbers _ _ Hpr) as Hn. unfold device_numbers in Hn. rewrite Forall_app, !Forall_cons in Hn.
  destruct Hn as [(_ & _ & _ & Hvid & Hpid & Hver & Hup & Hdown & _) _]. unfold debug_json. destruct debug; [|constructor].
  members; members; try (by apply print_u_number); try (by apply print_u_number, seconds_range).
  all: apply plain_string; try apply timestamp_plain; apply print_x_plain; lia.
Qed.

Lemma lifx_valid gw bulb : length (bulb_ips bulb) = 2%nat -> printable gw bulb -> valid_json (lifx_json gw bulb).
Proof.
  intros Hips Hpr. pose proof (debug_valid bulb gw Hpr) as Hdebug. destruct Hpr as [_ Hn [Ha Hsite] _ _ Hurl Hsig _].
  unfold device_numbers in Hn. rewrite Forall_app, !Forall_cons in Hn. destruct Hn as [(_ & Hreq & Hpkt & _) Hn].
  unfold lifx_json. rewrite valid_object, !Forall_app. split_and!; [| |done].
  - members; [by apply plain_string, mac_plain|]. members; [by apply plain_string, mac_plain| |by apply print_u_number, latency_range].
    apply plain_string. rewrite plain_app, Hurl. reflexivity.
  - destruct (bulb_ips bulb) as [|ip1 [|ip2 [|]]]; try done. cbn [zip_with lgtd_lifx_bulb_ip_names].
    cbn [mbind list_bind app] in Hn. rewrite !Forall_cons in Hn. destruct Hn as (H1 & H2 & H3 & H4 & H5 & H6 & _).
    apply Forall_cons_2; [|apply Forall_cons_2; [|constructor]]; (apply ip_valid; [|by repeat apply Forall_cons_2|]).
    1: by left. 2: by right; left.
    all: intros Hd; specialize (Hsig Hd); rewrite !Forall_cons in Hsig; apply Hsig.
Qed.

Lemma device_valid h s b w gw bulb :
  length (bulb_ips bulb) = 2%nat -> printable gw bulb -> json_number h -> json_number s -> json_number b ->
  (forall t tag, w_tags w !! t = Some tag -> plain (cstr (tag_label tag)) = true) ->
  valid_json (device_json h s b w gw bulb).
Proof.
  intros Hips Hpr Hh Hs Hb Htags. pose proof (lifx_valid gw bulb Hips Hpr) as Hlifx.
  destruct Hpr as [_ Hn [Ha _] [_ Hlabel] Hnames _ _ _].
  rewrite !Forall_cons in Hnames. destruct Hnames as (Hmodel & Hvendor & _).
  unfold device_numbers in Hn. rewrite Forall_app, Forall_cons in Hn. destruct Hn as [[Hk _] _].
  unfold device_json. cbv zeta. members; [done|by apply string_or_null_valid|by apply string_or_null_valid| | | |].
  - members; [by right|by right|by right|by apply print_u_number].
  - left. destruct (_ =? _); [by left|by right; left].
  - apply plain_string. unfold label_text. case_decide; [|done].
    induction Ha as [|x l Hx _ IH]; [done|]. cbn [fmap list_fmap mjoin list_join]. by rewrite plain_app, print_02hhx_plain.
  - rewrite valid_array, Forall_fmap. apply Forall_forall. intros t. unfold bulb_tag_labels. rewrite list_elem_of_omap.
    intros (i & _ & Hi). cbn [compose]. apply plain_string. destruct (has_flag _ _); [|done].
    destruct (mjoin _) as [tp|]; [|done]. cbn [mbind option_bind] in Hi.
    destruct (w_tags w !! tp) as [tag|] eqn:Ht; [|done]. cbn in Hi. injection Hi as <-. by eapply Htags.
Qed.

(** No byte of such a text is zero. *)
Lemma json_string_nonzero t : json_string t = true -> Forall (fun b => b <> 0) t.
Proof.
  intros [_ Ht]%andb_true_iff. apply Forall_forall. intros c Hc%list_elem_of_In.
  apply (proj1 (forallb_forall _ _) Ht), Z.leb_le in Hc. lia.
Qed.

Lemma json_number_nonzero t : json_number t -> Forall (fun b => b <> 0) t.
Proof.
  intros (sign & ip & fp & -> & Hsign & Hip & Hfp).
  assert (Hds : forall ds, forallb is_digit ds = true -> Forall (fun b => b <> 0) ds)
    by (intros ds Hd%digits_spec; eapply Forall_impl; [exact Hd|]; cbn; lia).
  apply Forall_app. split; [by destruct Hsign as [-> | ->]; repeat constructor|].
  unfold point_text. apply Forall_app. split.
  - apply Hds. destruct ip as [|c ds]; [done|]. cbn [json_integer] in Hip. by apply andb_true_iff in Hip as [? _].
  - destruct fp as [fs|]; [|constructor]. constructor; [done|]. by apply Hds, (Hfp fs).
Qed.

Lemma commas_nonzero texts : Forall (Forall (fun b : Z => b <> 0)) texts -> Forall (fun b => b <> 0) (commas texts).
Proof.
  induction 1 as [|t texts Ht Hts IH]; [constructor|]. destruct texts as [|u texts]; [done|].
  rewrite commas_cons by done. apply Forall_app. split; [done|]. by constructor.
Qed.

Lemma valid_json_nonzero v : valid_json v -> Forall (fun b => b <> 0) (print v).
Proof.
  assert (Hq : forall t e, Forall (fun b : Z => b <> 0) t -> Forall (fun b => b <> 0) e -> Forall (fun b => b <> 0) (34 :: t ++ e))
    by (intros t e Ht He; constructor; [done|by apply Forall_app]).
  induction v as [t|t|l IH|l IH] using json_ind'; intros Hv.
  - destruct Hv as [Hv|Hv]; [|by apply json_number_nonzero].
    rewrite !elem_of_cons, elem_of_nil in Hv. by destruct Hv as [->|[->|[->|[]]]]; cbn; repeat constructor.
  - cbn [print]. apply Hq; [by apply json_string_nonzero|by repeat constructor].
  - cbn [print]. constructor; [done|]. apply Forall_app. split; [|by repeat constructor]. apply commas_nonzero.
    apply valid_array in Hv. apply Forall_fmap. eapply Forall_impl; [exact (proj2 (Forall_and _ _) (conj IH Hv))|]. cbn. tauto.
  - cbn [print]. constructor; [done|]. apply Forall_app. split; [|by repeat constructor]. apply commas_nonzero.
    apply valid_object in Hv. apply Forall_fmap. eapply Forall_impl; [exact (proj2 (Forall_and _ _) (conj IH Hv))|].
    intros m [Hm [Hk Hmv]]. cbn. apply Forall_cons. split; [done|]. apply Forall_app.
    split; [|by apply Hm]. apply Forall_app. split; [by apply json_string_nonzero|by repeat constructor].
Qed.

Lemma tag_bits_range tags : Forall (fun i => 0 <= i < 64) (tag_bits tags).
Proof.
  apply Forall_forall. intros i. unfold tag_bits. rewrite list_elem_of_filter, list_elem_of_fmap.
  intros (_ & n & -> & Hn%elem_of_seq). lia.
Qed.

(** The labels of the tags need no escape. *)
Definition plain_tags (w : world) : Prop :=
  forall t tag, w_tags w !! t = Some tag -> plain (cstr (tag_label tag)) = true.

Lemma printed_device_valid w a gw bulb :
  world_inv w -> w_bulbs_table w !! a = Some bulb -> printable gw bulb -> plain_tags w -> valid_json (printed_device w gw bulb).
Proof.
  intros Hi Hb Hpr Htags. destruct (pt_color _ _ Hpr) as (Hh & Hs & Hbr).
  pose proof (bi_ok _ _ (dv_bulbs _ _ _ (wi_devices _ Hi)) a bulb Hb) as Hok.
  apply device_valid; [apply (bo_ips _ _ Hok)|done| | | |done]; (eapply component_number; [..|apply component_text_shown]); lia.
Qed.

Lemma write_device_run a bulb gw more s :
  world_inv (se_world s) -> w_bulbs_table (se_world s) !! a = Some bulb ->
  w_gateways (se_world s) !! bulb_gw bulb = Some gw -> printable gw bulb -> plain_tags (se_world s) ->
  write_device debug a more s
  = Ret tt (client_write s (print (printed_device (se_world s) gw bulb) ++ (if more then [44] else []))).
Proof.
  intros Hi Hb Hg Hpr Htags. unfold write_device.
  pose proof (bi_ok _ _ (dv_bulbs _ _ _ (wi_devices _ Hi)) a bulb Hb) as Hok.
  destruct (sd_gateways _ (dv_send _ _ _ (wi_devices _ Hi)) _ gw Hg) as [_ Hsite].
  assert (Haddr : length (bulb_addr bulb) = 6%nat) by (rewrite (bo_addr _ _ Hok); apply (bo_length _ _ Hok)).
  assert (Hnul : Forall (fun b => b <> 0) (head_text gw bulb)).
  { pose proof (valid_json_nonzero _ (printed_device_valid (se_world s) a gw bulb Hi Hb Hpr Htags)) as Hz.
    rewrite <- device_text in Hz by (apply (bo_ips _ _ Hok) || done || apply (pt_label _ _ Hpr)). by apply Forall_app in Hz as [? _]. }
  destruct (pt_label _ _ Hpr) as [Hlabel _]. destruct (pt_color _ _ Hpr) as (Hh & Hs & Hbr). pose proof (pt_size _ _ Hpr) as Hsize.
  rewrite (run_bind _ _ s bulb s) by (rewrite (lift_run _ _ bulb (se_world s)); [by destruct s|by apply get_bulb_ret]).
  rewrite (run_bind _ _ s gw s) by (rewrite (lift_run _ _ gw (se_world s)); [by destruct s|by apply get_gw_ret]).
  rewrite (run_bind _ _ s _ s (component_run (ls_hue (bulb_state bulb)) 360 s Hh ltac:(by right))).
  rewrite (run_bind _ _ s _ s (component_run (ls_saturation (bulb_state bulb)) 1 s Hs ltac:(by left))).
  rewrite (run_bind _ _ s _ s (component_run (ls_brightness (bulb_state bulb)) 1 s Hbr ltac:(by left))).
  cbv zeta. rewrite append_all by exact Hsize. cbn [app]. fold (head_text gw bulb).
  rewrite (proj2 (Nat.leb_gt 2048 (length (head_text gw bulb)))) by lia. rewrite write_bind by done. rewrite cstr_id by done.
  rewrite foreach_tag_id_bits by apply (bo_tags _ _ Hok).
  erewrite run_bind by (apply (write_tags_run (bulb_gw bulb)); [done|done|apply tag_bits_range]).
  rewrite write_string_run by done. rewrite !client_write_write. f_equal. f_equal. cbn [se_world client_write].
  rewrite <- device_text by (apply (bo_ips _ _ Hok) || done). destruct more; app_norm; done.
Qed.

(** The value of a bulb of the daemon: the components of its color are shown with all of their millionths. *)
Definition describes (w : world) (a : addr) (v : json) : Prop :=
  exists bulb gw h s b, w_bulbs_table w !! a = Some bulb /\ w_gateways w !! bulb_gw bulb = Some gw
  /\ component_shown (ls_hue (bulb_state bulb)) 360 h /\ component_shown (ls_saturation (bulb_state bulb)) 1 s
  /\ component_shown (ls_brightness (bulb_state bulb)) 1 b
  /\ v = device_json h s b w gw bulb.

(** The one that is printed. *)
Definition prints (w : world) (a : addr) (v : json) : Prop :=
  exists bulb gw, w_bulbs_table w !! a = Some bulb /\ w_gateways w !! bulb_gw bulb = Some gw
  /\ printable gw bulb /\ v = printed_device w gw bulb.

Lemma prints_describes w a v : world_inv w -> plain_tags w -> prints w a v -> describes w a v /\ valid_json v.
Proof.
  intros Hi Htags (bulb & gw & Hb & Hg & Hpr & ->). split; [|by eapply printed_device_valid].
  destruct (pt_color _ _ Hpr) as (Hh & Hs & Hbr). exists bulb, gw. unfold printed_device.
  eexists _, _, _. split_and!; [done|done|by apply component_text_shown; [|right]|by apply component_text_shown; [|left]..|done].
Qed.

Lemma write_devices_run devices values : forall s,
  world_inv (se_world s) -> plain_tags (se_world s) -> Forall2 (prints (se_world s)) devices values ->
  write_devices debug devices s = Ret tt (client_write s (commas (print <$> values))).
Proof.
  revert values. induction devices as [|a devices IH]; intros values s Hi Htags Hall; inversion Hall; subst; cbn [write_devices].
  { cbn. by rewrite client_write_nil. }
  match goal with H : prints _ a _, H' : Forall2 _ devices _ |- _ =>
    destruct H as (bulb & gw & Hb & Hg & Hpr & ->); rename H' into Hrest end.
  erewrite run_bind by (by apply (write_device_run a bulb gw)).
  erewrite IH by done. rewrite client_write_write. f_equal. f_equal. set (v := printed_device _ _ _).
  inversion Hrest; subst.
  - cbn [fmap list_fmap commas length Nat.eqb negb]. by rewrite !app_nil_r.
  - cbn [length Nat.eqb negb]. cbn [fmap list_fmap]. rewrite (commas_cons (print v)) by done. by app_norm.
Qed.

(** The command answers with the values of the devices. *)
Lemma light_state_answers ts devices values w addr :
  is_Some addr ->
  world_inv w -> plain_tags w -> lgtd_router_targets_to_devices ts w = Ret (Some devices) w -> Forall2 (prints w) devices values ->
  answers (lgtd_proto_get_light_state debug) ts (print (JArray values)) w w addr.
Proof.
  intros [peer ->] Hi Htags Hdev Hall c id Haddr Hs. unfold lgtd_proto_get_light_state.
  rewrite (run_bind _ _ _ _ _ (lift_run _ {| se_world := w; se_client := c |} _ w Hdev)).
  rewrite (run_bind _ _ {| se_world := w; se_client := c |} c {| se_world := w; se_client := c |}) by done.
  erewrite (run_bind _ _ {| se_world := w; se_client := c |}) by (by rewrite Haddr).
  rewrite (run_bind _ _ _ _ _ (start_send_response_run {| se_world := w; se_client := c |} id Hs)).
  rewrite write_bind by done. erewrite run_bind by (by apply write_devices_run). rewrite write_bind by done.
  unfold lgtd_jsonrpc_end_send_response. rewrite write_string_run by done. rewrite !client_write_write.
  unfold response_text. cbn [print]. by app_norm.
Qed.

(** When no allocation fails, the targets become the devices they select. *)
Lemma devices_selected w ts :
  world_inv w -> w_os_results w = [] ->
  exists devices, lgtd_router_targets_to_devices ts w = Ret (Some devices) w /\ selection w ts devices.
Proof.
  intros Hi Hos. destruct (wp_run (lgtd_router_targets_to_devices ts)
    (fun r w' => w' = w /\ exists devices, r = Some devices /\ selection w ts devices) w)
    as (r & w' & Hrun & -> & devices & -> & Hsel); [|by exists devices].
  apply wp_targets_to_devices; [done|intros rs [_ Hf]|intros rs l [Hrs _] Hnd Hm].
  - rewrite Hos in Hf. by destruct (not_elem_of_nil false (Hf I)).
  - split; [|by exists l]. rewrite Hos in Hrs. apply suffix_nil_inv in Hrs as ->. destruct w. cbn in Hos. by subst.
Qed.

Lemma printed_described w devices values :
  world_inv w -> plain_tags w -> Forall2 (prints w) devices values ->
  Forall2 (describes w) devices values /\ valid_json (JArray values).
Proof.
  intros Hi Htags Hall. rewrite valid_array. induction Hall as [|a v devices values Hv _ [IH1 IH2]]; [by split; constructor|].
  destruct (prints_describes w a v Hi Htags Hv). by split; constructor.
Qed.

Lemma selection_printed w ts devices :
  world_inv w -> selection w ts devices ->
  (forall a bulb gw, w_bulbs_table w !! a = Some bulb -> w_gateways w !! bulb_gw bulb = Some gw -> printable gw bulb) ->
  exists values, Forall2 (prints w) devices values.
Proof.
  intros Hi [_ Hm] Hpr. assert (Hin : forall a, a ∈ devices -> exists v, prints w a v).
  { intros a (t & _ & bulb & Hb & _)%Hm. destruct (gateway_of_bulb w a bulb Hi Hb) as [gw Hg].
    exists (printed_device w gw bulb), bulb, gw. split_and!; [done|done|by apply (Hpr a)|done]. }
  clear Hm. induction devices as [|a devices IH]; [by exists []|].
  destruct (Hin a ltac:(by left)) as [v Hv]. destruct IH as [values Hvalues]; [intros x Hx; apply Hin; by right|].
  exists (v :: values). by constructor.
Qed.
End LightStateJson.
