(* ===== verification/RpcThms.v ===== *)
(** * Requests, from the bytes of a client to its response

    The properties of core/client.c, core/jsonrpc.c and the commands they call,
    and the runs where they stop short of their intent. *)

From Stdlib Require Import ZArith Lia String.
From stdpp Require Import base tactics list gmap.
From S2P Require Import Prelude CLib WireBits PacketInfo WireProto World Proto Invariant RouterSpec Daemon Example.
From S2P Require Import Jsmn JsonText JsonNumbers Printf Session LightState Jsonrpc JsonrpcLoops JsonrpcSpec.
From S2P Require Import Client ClientSpec LightStateSpec.

(** ** A C library and a client, for the examples *)

#[local] Existing Instance little.

#[local] Instance example_libc : LibC := {|
  inet_ntop_v4 := fun _ => bytes_of_string "192.168.1.10";
  inet_ntop_v6 := fun _ => [];
  gmtime_r := fun _ => None;
  print_f := fun _ => [48];
  sockaddr_at := fun b => sockaddr_in (take 4 (drop 4 b)) 56700 |}.

#[local] Existing Instance chains.

Definition example_client : lgtd_client :=
  {| cl_io := true; cl_output := []; cl_jsmn_tokens := []; cl_json := [];
     cl_addr := Some (sockaddr_in [127; 0; 0; 1] 33000); cl_current_request := None |}.

(** A run of the read callback on the chains of an input buffer. *)
Definition serve (w : world) (input : list (list Z)) : outcome session (option (list (list Z))) :=
  lgtd_client_read_callback false [] input {| se_world := w; se_client := example_client |}.

(** The end of the run: what is left in the buffer, and what was written. *)
Definition served_text (o : outcome session (option (list (list Z)))) : option (list (list Z) * list Z) :=
  match o with
  | Ret (Some rest) s => Some (rest, cl_output (se_client s))
  | _ => None
  end.

Definition example_ts : list (list Z) := [kitchen; bytes_of_string "#room"].
Definition example_id : json := JString (bytes_of_string "x1").

(** ** Requests that are served *)

(** C27: the daemon serves a client from the bytes it sends to the bytes it reads:
    for each of [power_on], [power_off] and [power_toggle], any list of targets
    and any id that is a string or a number, when the input buffer holds the text of
    the request contiguous in its first chain (a request cut by the end of a chain
    is not found, see [requests_fall_short]) and no allocation fails, the read callback
    runs the command of core/proto.c on exactly these targets, writes one response
    with the id of the request and the result of the command, and leaves the buffer
    empty. *)
Theorem request_served {E : Endianness} {C : LibC} {L : Libevent} debug name command ts id input ok w w' c :
  holds input (print (request_json name (target_params ts) id)) -> (name, command) ∈ power_commands -> forallb wf_string ts = true -> wf_json id = true -> valid_id id ->
  cl_io c = true -> is_Some (cl_addr c) -> w_os_results w = [] -> command ts w = Ret (SEND_RESULT ok) w' ->
  exists rest c', lgtd_client_read_callback debug [] input {| se_world := w; se_client := c |}
    = Ret (Some rest) {| se_world := w'; se_client := c' |}
  /\ evbuffer_bytes rest = []
  /\ cl_output c' = cl_output c ++ response_text id (bytes_of_string (if ok then "true" else "false"))
  /\ cl_io c' = true /\ cl_current_request c' = None.
Proof.
  intros Hin Hname Hts Hwid Hid Hio Haddr Hos Hcommand.
  destruct (method_served debug name (fun t => call_proto (command t)) ts id
    (bytes_of_string (if ok then "true" else "false")) input w w' c) as (rest & Hrun & Hrest); try done.
  - by apply power_command_method.
  - by apply command_answers.
  - rewrite Hio in Hrun. eexists rest, _. split; [exact Hrun|]. by split_and!.
Qed.

Definition example_power_on : world :=
  match lgtd_proto_power_on example_ts example_world with Ret _ w => w | Crash _ => example_world end.

Lemma request_served_witness :
  exists rest c', lgtd_client_read_callback false []
      [print (request_json (bytes_of_string "power_on") (target_params example_ts) example_id)]
      {| se_world := example_world; se_client := example_client |}
    = Ret (Some rest) {| se_world := example_power_on; se_client := c' |}
  /\ evbuffer_bytes rest = []
  /\ cl_output c' = cl_output example_client ++ response_text example_id (bytes_of_string "true")
  /\ cl_io c' = true /\ cl_current_request c' = None.
Proof.
  apply (request_served false (bytes_of_string "power_on") lgtd_proto_power_on example_ts example_id _ true
           example_world example_power_on example_client);
    [by vm_compute|by left|by vm_compute|by vm_compute|exact I|done|by eexists|by vm_compute|by vm_compute].
Defined.

(** C28: [get_light_state] describes the lights: the response to a request for any
    list of targets, contiguous in the buffer, is the text of a JSON array, and it is
    JSON by the grammar of RFC 8259, with one object for each of the bulbs the targets
    select, none twice, that has the address and gateway of the bulb, its color with
    all its millionths, its power, label and tags; nothing else changes. The labels of
    the bulbs and tags need no escape ([proto.c] writes them as they are), the fields
    of the bulbs have values of their C types, their texts fit the 2048 bytes of the
    buffer, and no allocation fails. *)
Theorem light_state_served {E : Endianness} {C : LibC} {L : Libevent} debug ts id input w c :
  holds input (print (request_json (bytes_of_string "get_light_state") (target_params ts) id)) -> world_inv w -> forallb wf_string ts = true -> wf_json id = true -> valid_id id ->
  cl_io c = true -> is_Some (cl_addr c) -> w_os_results w = [] ->
  (forall a bulb gw, w_bulbs_table w !! a = Some bulb -> w_gateways w !! bulb_gw bulb = Some gw -> printable debug gw bulb) ->
  plain_tags w ->
  exists devices values rest c', selection w ts devices /\ Forall2 (describes debug w) devices values
  /\ valid_json (JArray values)
  /\ lgtd_client_read_callback debug [] input {| se_world := w; se_client := c |}
     = Ret (Some rest) {| se_world := w; se_client := c' |}
  /\ evbuffer_bytes rest = []
  /\ cl_output c' = cl_output c ++ response_text id (print (JArray values)).
Proof.
  intros Hin Hi Hts Hwid Hid Hio Haddr Hos Hpr Htags. destruct (devices_selected w ts Hi Hos) as (devices & Hrun & Hsel).
  destruct (selection_printed debug w ts devices Hi Hsel Hpr) as (values & Hvalues).
  destruct (printed_described debug w devices values Hi Htags Hvalues) as [Hdesc Hvalid].
  destruct (method_served debug (bytes_of_string "get_light_state") (lgtd_proto_get_light_state debug) ts id
    (print (JArray values)) input w w c) as (rest & Hserved & Hrest); try done.
  - unfold targets_methods. rewrite !elem_of_cons. by do 3 right; left.
  - by apply (light_state_answers debug ts devices).
  - rewrite Hio in Hserved. eexists devices, values, rest, _. split_and!; [done..|exact Hserved|done|done].
Qed.

(** What [printable] asks for, as a test. *)
Definition ranged (lo hi : Z) (l : list Z) : bool := forallb (fun v => (lo <=? v) && (v <? hi)) l.

Definition printableb (gw : lgtd_lifx_gateway) (bulb : lgtd_lifx_bulb) : bool :=
  let s := bulb_state bulb in
  ranged 0 65536 [ls_hue s; ls_saturation s; ls_brightness s]
  && (ranged 0 (2 ^ 64) (device_numbers gw bulb) && ranged 0 256 (bulb_addr bulb ++ gw_site gw))
  && ((length (ls_label s) <=? 32)%nat && plain (cstr (ls_label s)))
  && forallb (fun v => match v with Some n => plain (bytes_of_string n) | None => true end) [bulb_model bulb; bulb_vendor bulb]
  && (plain (lgtd_sockaddrtoa (sockaddr_at (gw_peer gw)) 128) && (length (head_text false gw bulb) <? 2048)%nat).

Lemma ranged_spec lo hi l : ranged lo hi l = true -> Forall (fun v => lo <= v < hi) l.
Proof.
  intros Hl. apply Forall_forall. intros v Hv%list_elem_of_In.
  apply (proj1 (forallb_forall _ _) Hl), andb_true_iff in Hv as [?%Z.leb_le ?%Z.ltb_lt]. done.
Qed.

Lemma printableb_spec gw bulb : printableb gw bulb = true -> printable false gw bulb.
Proof.
  unfold printableb. intros [[[[Hc%ranged_spec [Hn%ranged_spec Hb%ranged_spec]%andb_true_iff]%andb_true_iff
    [Hl%Nat.leb_le Hp]%andb_true_iff]%andb_true_iff Hnames]%andb_true_iff [Hu Hs%Nat.ltb_lt]%andb_true_iff]%andb_true_iff.
  rewrite !Forall_cons in Hc. apply Forall_app in Hb. split; try done; [lia|].
  cbn [forallb] in Hnames. apply andb_true_iff in Hnames as [Hm [Hv _]%andb_true_iff].
  repeat apply Forall_cons_2; [intros n Hn'; by rewrite Hn' in Hm|intros n Hn'; by rewrite Hn' in Hv|constructor].
Qed.

Lemma example_printable a bulb gw :
  w_bulbs_table example_world !! a = Some bulb -> w_gateways example_world !! bulb_gw bulb = Some gw ->
  printable false gw bulb.
Proof.
  intros Hb Hg. apply printableb_spec.
  assert (Hall : bool_decide (map_Forall (fun _ bulb => map_Forall (fun _ gw => printableb gw bulb = true)
    (w_gateways example_world)) (w_bulbs_table example_world)) = true) by (by vm_compute).
  apply bool_decide_eq_true in Hall. by apply (Hall a bulb Hb _ gw Hg).
Qed.

Lemma example_plain_tags : plain_tags example_world.
Proof.
  intros t tag Ht. assert (Hall : bool_decide (map_Forall (fun _ tag => plain (cstr (tag_label tag)) = true)
    (w_tags example_world)) = true) by (by vm_compute).
  apply bool_decide_eq_true in Hall. exact (Hall t tag Ht).
Qed.

Lemma light_state_served_witness :
  exists devices values rest c', selection example_world example_ts devices
  /\ Forall2 (describes false example_world) devices values
  /\ valid_json (JArray values)
  /\ lgtd_client_read_callback false []
       [print (request_json (bytes_of_string "get_light_state") (target_params example_ts) example_id)]
       {| se_world := example_world; se_client := example_client |}
     = Ret (Some rest) {| se_world := example_world; se_client := c' |}
  /\ evbuffer_bytes rest = []
  /\ cl_output c' = [] ++ response_text example_id (print (JArray values)).
Proof.
  apply (light_state_served false example_ts example_id _ example_world example_client);
    [by vm_compute|apply reachable_inv, reachable_example_world|by vm_compute|by vm_compute|exact I|done|by eexists|by vm_compute|exact example_printable|exact example_plain_tags].
Defined.

(** ** Requests that are refused *)

(** A request for a method that is not one of the daemon's, whatever its
    parameters, gets the error [-32601] of the protocol with the id of the request;
    nothing else changes and the buffer is empty. *)
Theorem unknown_method_answered {E : Endianness} {C : LibC} {L : Libevent} debug name params id input w c :
  holds input (print (request_json name params id)) -> name ∉ (fst <$> methods debug) -> container params = true ->
  wf_string name = true -> wf_json params = true -> wf_json id = true -> valid_id id ->
  cl_io c = true -> is_Some (cl_addr c) ->
  exists rest c', lgtd_client_read_callback debug [] input {| se_world := w; se_client := c |}
    = Ret (Some rest) {| se_world := w; se_client := c' |}
  /\ evbuffer_bytes rest = []
  /\ cl_output c' = cl_output c ++ quoted "{'jsonrpc': '2.0', 'id': " ++ print id
       ++ quoted ", 'error': {'code': -32601, 'message': 'Method not found'}}"
  /\ cl_io c' = true /\ cl_current_request c' = None.
Proof.
  intros Hin Hname Hc Hwn Hwp Hwid Hid Hio Haddr.
  destruct (unknown_served debug name params id input w c) as (rest & Hrun & Hrest); try done.
  - unfold find_name. rewrite (proj2 (list_find_None _ _)); [done|]. apply Forall_forall. intros m Hm <-.
    by apply Hname, list_elem_of_fmap_2.
  - rewrite Hio in Hrun. eexists rest, _. split; [exact Hrun|]. by split_and!.
Qed.

Lemma unknown_method_answered_witness :
  exists rest c', lgtd_client_read_callback false []
      [print (request_json (bytes_of_string "dim") (target_params example_ts) example_id)]
      {| se_world := example_start; se_client := example_client |}
    = Ret (Some rest) {| se_world := example_start; se_client := c' |}
  /\ evbuffer_bytes rest = []
  /\ cl_output c' = [] ++ quoted "{'jsonrpc': '2.0', 'id': " ++ print example_id
       ++ quoted ", 'error': {'code': -32601, 'message': 'Method not found'}}"
  /\ cl_io c' = true /\ cl_current_request c' = None.
Proof.
  apply (unknown_method_answered false (bytes_of_string "dim") (target_params example_ts) example_id _ example_start example_client);
    [by vm_compute| |reflexivity|by vm_compute|by vm_compute|by vm_compute|exact I|done|by eexists].
  intros Hin. cbn [fmap list_fmap methods fst] in Hin. rewrite !elem_of_cons, elem_of_nil in Hin.
  repeat destruct Hin as [Hin|Hin]; done.
Defined.

(** ** Where the code stops short of its intent *)

(** Requests that are not served as they should. Three stop the daemon:
    [power_on] with no parameter in its array, which is accepted as if its target were
    there; an object with a key and no value, whose tokens are read past their end;
    and a color whose hue is [0.+5], which is accepted as a number and converts to a
    value under its range. The others depend on how they arrive: one that is split over two
    chains after a token gets no response, its bytes dropped without a trace, when the same bytes in
    one chain are served; and when a batch and a request are in the buffer
    together, the request is served twice. *)
Theorem requests_fall_short :
  let head := quoted "{'jsonrpc':'2.0'," in
  let tail := quoted "'method':'power_on','params':['*'],'id':2}" in
  let batch := quoted "[{'jsonrpc':'2.0','method':'power_on','params':['*'],'id':1}]" in
  let answer := response_text (JPrimitive [50]) (bytes_of_string "true") in
  serve example_start [quoted "{'jsonrpc':'2.0','method':'power_on','params':[],'id':'x'}"] = Crash AssertFailed
  /\ serve example_start [quoted "{'method'}"] = Crash UndefinedBehaviour
  /\ serve example_start
       [quoted "{'jsonrpc':'2.0','method':'set_light_from_hsbk','params':['*',0.+5,1,1,3500,0],'id':'x'}"]
     = Crash AssertFailed
  /\ served_text (serve example_start [head ++ tail]) = Some ([], answer)
  /\ served_text (serve example_start [head; tail]) = Some ([], [])
  /\ served_text (serve example_start [batch ++ head ++ tail])
     = Some ([], [91] ++ response_text (JPrimitive [49]) (bytes_of_string "true") ++ [44] ++ answer ++ [93] ++ answer).
Proof. cbv zeta. split_and!; by vm_compute. Qed.
