(* ===== verification/Files.v ===== *)
(** * Files

    The file system, a parameter with what the manual pages say of the calls the
    daemon makes, and [dirname] of the C library. *)

From Stdlib Require Import ZArith Lia String.
From stdpp Require Import base tactics list gmap.
From S2P Require Import Prelude CLib World.

(** ** The file system *)

Inductive file_kind : Type := S_IFDIR | S_IFIFO | S_IFSOCK | S_IFREG.

#[export] Instance file_kind_eq_dec : EqDecision file_kind.
Proof. solve_decision. Defined.

(** What [stat] says: the kind of the file, [ENOENT], or another error. *)
Inductive stat_result : Type :=
| stat_is (k : file_kind)
| stat_ENOENT
| stat_error.

#[export] Instance stat_result_eq_dec : EqDecision stat_result.
Proof. solve_decision. Defined.

(** What a call that makes or removes a file returns. *)
Inductive file_result : Type := file_ok | file_EEXIST | file_ENOENT | file_error.

(** A call that works makes the file; [mkdir] does not turn a directory into
    something else. *)
Class FileSystem : Type := {
  fs : Type;
  fs_stat : list Z -> fs -> stat_result;
  fs_mkdir : list Z -> fs -> file_result * fs;
  fs_mkfifo : list Z -> fs -> file_result * fs;
  fs_bind : list Z -> fs -> file_result * fs;
  fs_unlink : list Z -> fs -> file_result * fs;
  fs_chmod : list Z -> fs -> bool;
  mkdir_makes : forall p f f', fs_mkdir p f = (file_ok, f') -> fs_stat p f' = stat_is S_IFDIR;
  mkdir_keeps : forall p q f, fs_stat q f = stat_is S_IFDIR -> fs_stat q (snd (fs_mkdir p f)) = stat_is S_IFDIR;
  bind_makes : forall p f f', fs_bind p f = (file_ok, f') -> fs_stat p f' = stat_is S_IFSOCK
}.

(** ** [dirname] *)

Definition SLASH : Z := 47.
Definition DOT : Z := 46.

(** Without the slashes at the end; on the text backwards. *)
Fixpoint drop_slashes (rev_path : list Z) : list Z :=
  match rev_path with
  | [] => []
  | c :: rev_path' => if c =? SLASH then drop_slashes rev_path' else rev_path
  end.

(** Without the characters after the last slash. *)
Fixpoint drop_name (rev_path : list Z) : list Z :=
  match rev_path with
  | [] => []
  | c :: rev_path' => if c =? SLASH then rev_path else drop_name rev_path'
  end.

Definition dirname (path : list Z) : list Z :=
  match drop_slashes (rev path) with
  | [] => if (length path =? 0)%nat then [DOT] else [SLASH]
  | rev_path =>
    match drop_name rev_path with
    | [] => [DOT]
    | rev_dir =>
      match drop_slashes rev_dir with
      | [] => [SLASH]
      | rev_dir => rev rev_dir
      end
    end
  end.

(** ** A file system in memory *)

Section Memory.
Abbreviation files := (gmap (list Z) file_kind).

Definition make (k : file_kind) (p : list Z) (f : files) : file_result * files :=
  match f !! p with
  | Some _ => (file_EEXIST, f)
  | None => (file_ok, <[p := k]> f)
  end.

Definition memory_unlink (p : list Z) (f : files) : file_result * files :=
  match f !! p with
  | None => (file_ENOENT, f)
  | Some S_IFDIR => (file_error, f)
  | Some _ => (file_ok, delete p f)
  end.

Definition memory_stat (p : list Z) (f : files) : stat_result :=
  match f !! p with Some k => stat_is k | None => stat_ENOENT end.

Lemma make_makes k p f f' : make k p f = (file_ok, f') -> memory_stat p f' = stat_is k.
Proof.
  unfold make, memory_stat. destruct (f !! p); [by intros [=]|]. intros [= <-]. by rewrite lookup_insert_eq.
Qed.

Lemma make_keeps k p q f k' : memory_stat q f = stat_is k' -> memory_stat q (snd (make k p f)) = stat_is k'.
Proof.
  unfold make, memory_stat. destruct (f !! p) eqn:Hp; [done|]. destruct (f !! q) eqn:Hq; [|done].
  cbn. rewrite lookup_insert_ne by congruence. by rewrite Hq.
Qed.

Definition memory : FileSystem := {|
  fs := files;
  fs_stat := memory_stat;
  fs_mkdir := make S_IFDIR;
  fs_mkfifo := make S_IFIFO;
  fs_bind := make S_IFSOCK;
  fs_unlink := memory_unlink;
  fs_chmod p f := bool_decide (is_Some (f !! p));
  mkdir_makes := make_makes S_IFDIR;
  mkdir_keeps p q f := make_keeps S_IFDIR p q f S_IFDIR;
  bind_makes := make_makes S_IFSOCK
|}.
End Memory.

(** ** Parents *)

Lemma drop_slashes_length l : (length (drop_slashes l) <= length l)%nat.
Proof. induction l as [|c l IH]; cbn [drop_slashes]; [lia|]. destruct (_ =? _); cbn [length] in *; lia. Qed.

Lemma drop_name_length c l : c <> SLASH -> (length (drop_name (c :: l)) < S (length l))%nat.
Proof.
  intros Hc. cbn [drop_name]. rewrite (proj2 (Z.eqb_neq _ _) Hc). clear Hc.
  induction l as [|d l IH]; cbn [drop_name]; [cbn; lia|]. destruct (_ =? _); cbn [length] in *; lia.
Qed.

Lemma drop_slashes_head l c l' : drop_slashes l = c :: l' -> c <> SLASH.
Proof.
  induction l as [|d l IH]; cbn [drop_slashes]; [done|]. destruct (Z.eqb_spec d SLASH); [done|]. by intros [= <- _].
Qed.

(** A parent is shorter, or one of the two directories that are their own parent. *)
Lemma dirname_shorter path :
  (length (dirname path) < length path)%nat \/ dirname path = [DOT] \/ dirname path = [SLASH].
Proof.
  unfold dirname. pose proof (drop_slashes_length (rev path)) as Hlen. rewrite length_rev in Hlen.
  destruct (drop_slashes (rev path)) as [|c l] eqn:Hs.
  { destruct (length path =? 0)%nat; [by right; left|by right; right]. }
  pose proof (drop_name_length c l (drop_slashes_head _ _ _ Hs)) as Hn.
  destruct (drop_name (c :: l)) as [|d m] eqn:Hd; [by right; left|].
  pose proof (drop_slashes_length (d :: m)) as Hlen2.
  destruct (drop_slashes (d :: m)) as [|e m'] eqn:He; [by right; right|]. left.
  rewrite length_rev. cbn [length] in *. lia.
Qed.

Lemma dirname_forall (P : Z -> Prop) path : P DOT -> P SLASH -> Forall P path -> Forall P (dirname path).
Proof.
  intros Hdot Hslash Hp. assert (Hds : forall l, Forall P l -> Forall P (drop_slashes l)).
  { induction 1; cbn [drop_slashes]; [constructor|]. destruct (_ =? _); [done|by constructor]. }
  assert (Hdn : forall l, Forall P l -> Forall P (drop_name l)).
  { induction 1; cbn [drop_name]; [constructor|]. destruct (_ =? _); [by constructor|done]. }
  unfold dirname. pose proof (Hds _ (List.Forall_rev Hp)) as H1.
  destruct (drop_slashes (rev path)) as [|c l]; [destruct (length path =? 0)%nat; by repeat constructor|].
  pose proof (Hdn _ H1) as H2. destruct (drop_name (c :: l)) as [|d m]; [by repeat constructor|].
  pose proof (Hds _ H2) as H3. destruct (drop_slashes (d :: m)); [by repeat constructor|]. by apply List.Forall_rev.
Qed.

(** The directories above a file, as [dirname] finds them. *)
Inductive ancestor : list Z -> list Z -> Prop :=
| ancestor_parent fp : dirname fp <> fp -> ancestor fp (dirname fp)
| ancestor_above fp d : dirname fp <> fp -> ancestor (dirname fp) d -> ancestor fp d.
