(* ===== verification/ServerState.v ===== *)
(** * The sockets and pipes of the daemon

    The state of [core/client.c], [core/pipe.c] and [core/listen.c] around the
    [world]: connections, command pipes and listening sockets, the files they
    live at, and the descriptors that were closed. *)

From Stdlib Require Import ZArith Lia String.
From stdpp Require Import base tactics list gmap.
From S2P Require Import Prelude CLib World Jsmn Printf Session Client Files.

Section State.
Context {L : Libevent} {F : FileSystem}.

(** A client with the input buffer of its [bufferevent]. *)
Record connection : Type := {
  co_client : lgtd_client;
  co_input : evbuffer
}.

Record lgtd_command_pipe : Type := {
  pipe_path : list Z;
  pipe_fd : Z;
  pipe_read_buf : evbuffer;
  pipe_client : lgtd_client
}.

Record lgtd_listen : Type := {
  li_sockaddr : sockaddr
}.

(** The lists hold the pointers of their elements, first element first; [sv_next]
    is the next pointer [calloc] returns. [sv_opened] has the descriptors [open] and
    [socket] returned for pipes and Unix sockets, and [sv_closed] the ones that were
    given to [close], in order. *)
Record server : Type := {
  sv_world : world;
  sv_clients : list (positive * connection);
  sv_pipes : list (positive * lgtd_command_pipe);
  sv_listeners : list lgtd_listen;
  sv_next : positive;
  sv_fs : fs;
  sv_opened : list Z;
  sv_closed : list Z
}.

Definition set_sv_world (v : world) (s : server) : server :=
  {| sv_world := v; sv_clients := sv_clients s; sv_pipes := sv_pipes s; sv_listeners := sv_listeners s;
     sv_next := sv_next s; sv_fs := sv_fs s; sv_opened := sv_opened s; sv_closed := sv_closed s |}.
Definition set_sv_clients (v : list (positive * connection)) (s : server) : server :=
  {| sv_world := sv_world s; sv_clients := v; sv_pipes := sv_pipes s; sv_listeners := sv_listeners s;
     sv_next := sv_next s; sv_fs := sv_fs s; sv_opened := sv_opened s; sv_closed := sv_closed s |}.
Definition set_sv_pipes (v : list (positive * lgtd_command_pipe)) (s : server) : server :=
  {| sv_world := sv_world s; sv_clients := sv_clients s; sv_pipes := v; sv_listeners := sv_listeners s;
     sv_next := sv_next s; sv_fs := sv_fs s; sv_opened := sv_opened s; sv_closed := sv_closed s |}.
Definition set_sv_listeners (v : list lgtd_listen) (s : server) : server :=
  {| sv_world := sv_world s; sv_clients := sv_clients s; sv_pipes := sv_pipes s; sv_listeners := v;
     sv_next := sv_next s; sv_fs := sv_fs s; sv_opened := sv_opened s; sv_closed := sv_closed s |}.
Definition set_sv_next (v : positive) (s : server) : server :=
  {| sv_world := sv_world s; sv_clients := sv_clients s; sv_pipes := sv_pipes s; sv_listeners := sv_listeners s;
     sv_next := v; sv_fs := sv_fs s; sv_opened := sv_opened s; sv_closed := sv_closed s |}.
Definition set_sv_fs (v : fs) (s : server) : server :=
  {| sv_world := sv_world s; sv_clients := sv_clients s; sv_pipes := sv_pipes s; sv_listeners := sv_listeners s;
     sv_next := sv_next s; sv_fs := v; sv_opened := sv_opened s; sv_closed := sv_closed s |}.
Definition set_sv_closed (v : list Z) (s : server) : server :=
  {| sv_world := sv_world s; sv_clients := sv_clients s; sv_pipes := sv_pipes s; sv_listeners := sv_listeners s;
     sv_next := sv_next s; sv_fs := sv_fs s; sv_opened := sv_opened s; sv_closed := v |}.
Definition set_sv_opened (v : list Z) (s : server) : server :=
  {| sv_world := sv_world s; sv_clients := sv_clients s; sv_pipes := sv_pipes s; sv_listeners := sv_listeners s;
     sv_next := sv_next s; sv_fs := sv_fs s; sv_opened := v; sv_closed := sv_closed s |}.

(** ** Running the parts *)

(** Code of the daemon that does not know its sockets. *)
Definition on_world {A} (m : M world A) : M server A := fun s =>
  match m (sv_world s) with
  | Ret a w => Ret a (set_sv_world w s)
  | Crash c => Crash c
  end.

(** A call that may fail: an allocation, or one of libevent. *)
Definition call : M server bool := on_world os_call.

(** Code that serves one client: the client is where it is until the end. *)
Definition on_client {A} (c : lgtd_client) (m : M session A) : M server (A * lgtd_client) := fun s =>
  match m {| se_world := sv_world s; se_client := c |} with
  | Ret a s' => Ret (a, se_client s') (set_sv_world (se_world s') s)
  | Crash c => Crash c
  end.

Definition fs_call {A} (f : fs -> A * fs) : M server A := fun s =>
  let (a, fs') := f (sv_fs s) in Ret a (set_sv_fs fs' s).

Definition stat (path : list Z) : M server stat_result := mgets (fun s => fs_stat path (sv_fs s)).

Definition close (fd : Z) : M server unit := mmodify (fun s => set_sv_closed (sv_closed s ++ [fd]) s).

(** [open] or [socket], which returns [fd] when it works. *)
Definition open_descriptor (fd : Z) : M server bool :=
  ok ← call;
  (if (ok : bool) then mmodify (fun s => set_sv_opened (sv_opened s ++ [fd]) s) else mret tt) ;;
  mret ok.

(** A new pointer. *)
Definition fresh : M server positive := fun s => Ret (sv_next s) (set_sv_next (Pos.succ (sv_next s)) s).

(** ** Elements of a list, by pointer *)

Definition assoc {A} (p : positive) (l : list (positive * A)) : option A :=
  snd <$> (snd <$> list_find (fun x => fst x = p) l).

Definition assoc_set {A} (p : positive) (a : A) (l : list (positive * A)) : list (positive * A) :=
  (fun x => if bool_decide (fst x = p) then (p, a) else x) <$> l.

Definition assoc_remove {A} (p : positive) (l : list (positive * A)) : list (positive * A) :=
  filter (fun x => fst x <> p) l.
End State.
