(* ===== verification/Connections.v ===== *)
(** * Connections

    The rest of [core/client.c]: clients are opened, read from and closed. *)

From Stdlib Require Import ZArith Lia String.
From stdpp Require Import base tactics list gmap.
From S2P Require Import Prelude CLib World Jsmn Printf Session Client Files ServerState.

Section Connections.
Context {E : Endianness} {C : LibC} {L : Libevent} {F : FileSystem} (debug : bool).

Definition get_connection (p : positive) : M server connection :=
  s ← mget; mderef (assoc p (sv_clients s)).

(** A pointer to the client, or none when a call failed: what was made is freed. *)
Definition lgtd_client_open (addr : sockaddr) : M server (option positive) :=
  client ← call;
  if negb client then mret None else
  io ← call;
  if negb io then mret None else
  copied ← call;
  if negb copied then mret None else
  enabled ← call;
  if negb enabled then mret None else
  p ← fresh;
  let client :=
    {| cl_io := true; cl_output := []; cl_addr := Some addr; cl_jsmn_tokens := []; cl_json := [];
       cl_current_request := None |} in
  mmodify (fun s => set_sv_clients ((p, {| co_client := client; co_input := evbuffer_new |}) :: sv_clients s) s) ;;
  on_world (lgtd_stats_add counter_clients 1) ;;
  mret (Some p).

Definition lgtd_client_close (p : positive) : M server unit :=
  c ← get_connection p;
  massert (cl_io (co_client c)) ;;
  on_world (lgtd_stats_add counter_clients (-1)) ;;
  mmodify (fun s => set_sv_clients (assoc_remove p (sv_clients s)) s).

Definition lgtd_client_close_all : M server unit :=
  s ← mget;
  mforeach (fst <$> sv_clients s) lgtd_client_close.

(** [events] has [BEV_EVENT_ERROR] or [BEV_EVENT_EOF]. *)
Definition lgtd_client_event_callback (error_or_eof : bool) (p : positive) : M server unit :=
  c ← get_connection p;
  if error_or_eof then
    LGTD_SOCKADDRTOA (cl_addr (co_client c)) ;;
    lgtd_client_close p
  else mret tt.

(** libevent reads bytes and runs the read callback. *)
Definition client_readable (reallocs : list bool) (bytes : list Z) (p : positive) : M server unit :=
  c ← get_connection p;
  r ← on_client (co_client c) (lgtd_client_read_callback debug reallocs (evbuffer_add bytes (co_input c)));
  rest ← mderef (fst r);
  mmodify (fun s => set_sv_clients (assoc_set p {| co_client := snd r; co_input := rest |} (sv_clients s)) s).
End Connections.
