(* ===== verification/Pipe.v ===== *)
(** * Command pipes

    [core/pipe.c], and [lgtd_daemon_makedirs] of [core/daemon.c]. *)

From Stdlib Require Import ZArith Lia String.
From stdpp Require Import base tactics list gmap.
From S2P Require Import Prelude CLib World Jsmn JsonNumbers Printf Session Jsonrpc Client Files ServerState.

(** ** Parent directories *)

Section Makedirs.
Context {L : Libevent} {F : FileSystem}.

(** A path is shorter than the one it is the parent of, but for the ones that have
    no slash: none means that the fuel is spent. *)
Fixpoint _lgtd_daemon_makedirs (fuel : nat) (fp : list Z) : M server (option bool) :=
  match fuel with
  | O => mret None
  | S fuel =>
    fpsave ← call;
    if negb fpsave then mret (Some false) else
    next_dup ← call;
    if negb next_dup then mret (Some false) else
    let next := dirname fp in
    if strcmp_eq next fp then mret (Some true)
    else
      ok ← _lgtd_daemon_makedirs fuel next;
      match ok with
      | Some true =>
        sb ← stat next;
        match sb with
        | stat_ENOENT =>
          r ← fs_call (fs_mkdir next);
          mret (Some (match r with file_ok => true | _ => false end))
        | stat_is S_IFDIR => mret (Some true)
        | _ => mret (Some false)
        end
      | r => mret r
      end
  end.

Definition makedirs_fuel (filepath : list Z) : nat := length filepath + 3.

(** [filepath] is a C string. *)
Definition lgtd_daemon_makedirs (filepath : list Z) : M server bool :=
  r ← _lgtd_daemon_makedirs (makedirs_fuel filepath) filepath;
  mderef r.
End Makedirs.

Section Pipe.
Context {E : Endianness} {C : LibC} {L : Libevent} {F : FileSystem} (debug : bool).

(** ** Opening and closing *)

Definition get_pipe (p : positive) : M server lgtd_command_pipe :=
  s ← mget; mderef (assoc p (sv_pipes s)).

(** [_lgtd_command_pipe_close] *)
Definition command_pipe_close (p : positive) : M server unit :=
  pipe ← get_pipe p;
  (if negb (pipe_fd pipe =? -1) then close (pipe_fd pipe) else mret tt) ;;
  mmodify (fun s => set_sv_pipes (assoc_remove p (sv_pipes s)) s).

Definition lgtd_command_pipe_close (p : positive) : M server unit :=
  pipe ← get_pipe p;
  command_pipe_close p ;;
  fs_call (fs_unlink (pipe_path pipe)) ;;
  mret tt.

(** The [error] exit of [_lgtd_command_pipe_open]: [fd] is the descriptor of the
    structure then. *)
Definition pipe_open_error (fd : Z) : M server bool :=
  (if negb (fd =? -1) then close fd else mret tt) ;;
  mret false.

(** The calls after the pipe was opened. *)
Definition pipe_open_events (path : list Z) (fd : Z) : M server bool :=
  nonblocking ← call; if negb nonblocking then pipe_open_error fd else
  read_ev ← call; if negb read_ev then pipe_open_error fd else
  read_buf ← call; if negb read_buf then pipe_open_error fd else
  added ← call; if negb added then pipe_open_error fd else
  p ← fresh;
  let client :=
    {| cl_io := false; cl_output := []; cl_addr := None; cl_jsmn_tokens := []; cl_json := [];
       cl_current_request := None |} in
  mmodify (fun s => set_sv_pipes
    ((p, {| pipe_path := path; pipe_fd := fd; pipe_read_buf := evbuffer_new; pipe_client := client |})
     :: sv_pipes s) s) ;;
  mret true.

(** [_lgtd_command_pipe_open]; [fd] is what [open] returns when it works. [calloc]
    sets the descriptor of the structure to 0, and it is set to -1 after [stat]. *)
Definition command_pipe_open (path : list Z) (fd : Z) : M server bool :=
  s ← mget;
  if bool_decide (Exists (fun x => strcmp_eq (pipe_path (snd x)) path = true) (sv_pipes s)) then mret true
  else
    dirs ← lgtd_daemon_makedirs path;
    if negb dirs then mret false else
    pipe ← call;
    if negb pipe then mret false else
    sb ← stat path;
    if negb (bool_decide (sb = stat_ENOENT \/ sb = stat_is S_IFIFO)) then pipe_open_error 0
    else
      made ← fs_call (fs_mkfifo path);
      match made with
      | file_ok | file_EEXIST =>
        mode ← mgets (fun s => fs_chmod path (sv_fs s));
        if negb mode then pipe_open_error (-1) else
        opened ← open_descriptor fd;
        if negb opened then pipe_open_error (-1) else
        pipe_open_events path fd
      | _ => pipe_open_error (-1)
      end.

Definition lgtd_command_pipe_open (path : list Z) (fd : Z) : M server bool := command_pipe_open path fd.

(** The result of the opening is only logged. *)
Definition lgtd_command_pipe_reset (p : positive) (fd : Z) : M server unit :=
  pipe ← get_pipe p;
  command_pipe_close p ;;
  command_pipe_open (pipe_path pipe) fd ;;
  mret tt.

Definition lgtd_command_pipe_close_all : M server unit :=
  s ← mget;
  mforeach (fst <$> sv_pipes s) lgtd_command_pipe_close.

(** ** Reading *)

(** The requests in the buffer, which is pulled up. [tokens] is whether the local pointer of that name
    is set and [reallocs] whether the calls of [reallocarray] to come work, as in [read_loop]; the result is what is
    left of the buffer and the flag [drain]. None means that the fuel is spent. *)
Fixpoint pipe_requests (fuel : nat) (reallocs : list bool) (input : evbuffer) (tokens : bool) (ntokens : nat) :
    M session (option (evbuffer * bool)) :=
  match fuel with
  | O => mret None
  | S fuel =>
    let buf := evbuffer_contiguous input in
    let bufsz := evbuffer_get_length input in
    c ← get_client;
    match jsmn_parse buf (jsmn_init (if tokens then Some (take ntokens (cl_jsmn_tokens c)) else None)) with
    | Crash c => mcrash c
    | Ret rv st =>
      upd_client (fun c => set_cl_jsmn_tokens (default (cl_jsmn_tokens c) (js_tokens st)) c) ;;
      match rv with
      | inl JSMN_ERROR_NOMEM | inl JSMN_ERROR_INVAL => mret (Some (input, true))
      | inl JSMN_ERROR_PART | inr O =>
        mret (Some (input, (LGTD_CLIENT_MAX_REQUEST_BUF_SIZE <=? bufsz)%nat))
      | inr n =>
        if (tokens : bool) then
          upd_client (set_cl_json buf) ;;
          lgtd_jsonrpc_dispatch_request debug n ;;
          upd_client (set_cl_json []) ;;
          t ← mderef (default [] (js_tokens st) !! 0%nat);
          let request_size := tok_to t in
          let input := evbuffer_drain request_size input in
          if (bufsz <=? request_size)%nat then mret (Some (input, false))
          else pipe_requests fuel reallocs (evbuffer_pullup input) false n
        else
          match reallocs with
          | false :: reallocs =>
            upd_client (set_cl_jsmn_tokens []) ;;
            pipe_requests fuel reallocs input false n
          | _ =>
            upd_client (fun c => set_cl_jsmn_tokens (reallocarray (cl_jsmn_tokens c) n) c) ;;
            pipe_requests fuel (tail reallocs) input true n
          end
      end
    end
  end.

Definition pipe_fuel (reallocs : list bool) (input : evbuffer) : nat :=
  2 * evbuffer_get_length input + 2 + length reallocs.

(** What [evbuffer_read] returns: the bytes it added, 0 at the end of the file, or
    -1 with [EINTR], [EAGAIN] or another error. *)
Inductive read_result : Type :=
| read_bytes (bytes : list Z)
| read_EOF
| read_EINTR
| read_EAGAIN
| read_error.

(** The loop of the callback, over the results of [evbuffer_read]; a pipe with nothing
    more to read returns [EAGAIN]. [reallocs] has the results of [reallocarray] for the bytes of each read. The result
    is whether the pipe is reset. *)
Fixpoint pipe_read_loop (reallocs : list (list bool)) (reads : list read_result) (p : positive) : M server bool :=
  match reads with
  | [] | read_EAGAIN :: _ => mret false
  | read_EOF :: _ | read_error :: _ => mret true
  | read_EINTR :: reads => pipe_read_loop reallocs reads p
  | read_bytes bytes :: reads =>
    pipe ← get_pipe p;
    let input := evbuffer_pullup (evbuffer_add bytes (pipe_read_buf pipe)) in
    let results := default [] (head reallocs) in
    r ← on_client (pipe_client pipe) (pipe_requests (pipe_fuel results input) results input false 0);
    q ← mderef (fst r);
    let input := fst q in
    let input := if (snd q : bool) then evbuffer_drain (evbuffer_get_length input) input else input in
    mmodify (fun s => set_sv_pipes (assoc_set p
      {| pipe_path := pipe_path pipe; pipe_fd := pipe_fd pipe; pipe_read_buf := input; pipe_client := snd r |}
      (sv_pipes s)) s) ;;
    pipe_read_loop (tail reallocs) reads p
  end.

(** [fd] is the descriptor of the pipe if it is opened again. *)
Definition lgtd_command_pipe_read_callback (reallocs : list (list bool)) (reads : list read_result) (fd : Z)
    (p : positive) : M server unit :=
  reset ← pipe_read_loop reallocs reads p;
  if (reset : bool) then lgtd_command_pipe_reset p fd else mret tt.
End Pipe.
