(* ===== verification/Listen.v ===== *)
(** * Listening sockets

    [core/listen.c]. The sizes of socket addresses are those of Linux. *)

From Stdlib Require Import ZArith Lia String.
From stdpp Require Import base tactics list gmap.
From S2P Require Import Prelude CLib World Jsmn Printf Session Client Files ServerState Connections Pipe.

(** [sizeof] the structures *)
Definition sockaddr_len (a : sockaddr) : Z :=
  match a with
  | sockaddr_in _ _ => 16
  | sockaddr_in6 _ _ _ _ => 28
  | sockaddr_un _ => 110
  end.

Definition maxpathlen : nat := 108.

Section Listen.
Context {E : Endianness} {C : LibC} {L : Libevent} {F : FileSystem}.

(** [sockname] is what [getsockname] stores, for a client of a Unix socket. A client
    that cannot be opened is the null pointer, which the warning follows. *)
Definition lgtd_listen_accept_new_client (listener : lgtd_listen) (addr sockname : sockaddr) : M server unit :=
  LGTD_SOCKADDRTOA (Some (li_sockaddr listener)) ;;
  client ← match addr with
           | sockaddr_un _ => lgtd_client_open sockname
           | _ => lgtd_client_open addr
           end;
  match client with
  | None => mcrash UndefinedBehaviour
  | Some _ => mret tt
  end.

Fixpoint listen_close_loop (listeners : list lgtd_listen) : M server unit :=
  match listeners with
  | [] => mret tt
  | listener :: listeners =>
    mmodify (set_sv_listeners listeners) ;;
    match li_sockaddr listener with
    | sockaddr_un path => fs_call (fs_unlink (cstr path)) ;; mret tt
    | _ => mret tt
    end ;;
    LGTD_SOCKADDRTOA (Some (li_sockaddr listener)) ;;
    listen_close_loop listeners
  end.

Definition lgtd_listen_close_all : M server unit :=
  s ← mget;
  listen_close_loop (sv_listeners s).

(** The test of [lgtd_listen_open] on a listener and an address. *)
Definition listens_at (it : sockaddr) (listener : lgtd_listen) : bool :=
  (sockaddr_len (li_sockaddr listener) =? sockaddr_len it) && negb (bool_decide (li_sockaddr listener = it)).

(** The loop over the addresses. *)
Fixpoint listen_open_loop (addrs : list sockaddr) : M server bool :=
  match addrs with
  | [] => mret true
  | it :: addrs =>
    s ← mget;
    if existsb (listens_at it) (sv_listeners s) then mret true
    else
      listener ← call; if negb listener then mret false else
      copied ← call; if negb copied then mret false else
      bound ← call; if negb bound then mret false else
      mmodify (fun s => set_sv_listeners ({| li_sockaddr := it |} :: sv_listeners s) s) ;;
      listen_open_loop addrs
  end.

(** [res] is what [evutil_getaddrinfo] finds, none when it fails. *)
Definition lgtd_listen_open (res : option (list sockaddr)) : M server bool :=
  match res with
  | None => mret false
  | Some addrs => listen_open_loop addrs
  end.

(** The test of [lgtd_listen_unix_open] on a listener and a path. *)
Definition listens_at_path (path : list Z) (listener : lgtd_listen) : bool :=
  match li_sockaddr listener with
  | sockaddr_un sun_path => strcmp_eq sun_path path
  | _ => false
  end.

(** The [error] exit: [fd] is the socket or -1. *)
Definition unix_open_error (path : list Z) (fd : Z) : M server bool :=
  (if negb (fd =? -1) then close fd else mret tt) ;;
  fs_call (fs_unlink path) ;;
  mret false.

(** The calls on the socket, once there is no file at the path. *)
Definition unix_bind (path : list Z) (fd : Z) : M server bool :=
  bound ← fs_call (fs_bind path);
  match bound with
  | file_ok =>
    mode ← mgets (fun s => fs_chmod path (sv_fs s));
    if negb mode then unix_open_error path fd else
    evlistener ← call;
    if negb evlistener then unix_open_error path fd else
    mmodify (fun s => set_sv_listeners ({| li_sockaddr := sockaddr_un path |} :: sv_listeners s) s) ;;
    mret true
  | _ => unix_open_error path fd
  end.

(** [fd] is what [socket] returns when it works. *)
Definition lgtd_listen_unix_open (path : list Z) (fd : Z) : M server bool :=
  if (maxpathlen <? length path)%nat then mret false
  else
    s ← mget;
    if existsb (listens_at_path path) (sv_listeners s) then mret true
    else
      dirs ← lgtd_daemon_makedirs path;
      if negb dirs then mret false else
      listener ← call; if negb listener then unix_open_error path (-1) else
      sockpath ← call; if negb sockpath then unix_open_error path (-1) else
      socket ← open_descriptor fd; if negb socket then unix_open_error path (-1) else
      nonblocking ← call; if negb nonblocking then unix_open_error path fd else
      sb ← stat path;
      match sb with
      | stat_ENOENT => unix_bind path fd
      | stat_is S_IFSOCK =>
        removed ← fs_call (fs_unlink path);
        match removed with
        | file_ok | file_ENOENT => unix_bind path fd
        | _ => unix_open_error path fd
        end
      | _ => unix_open_error path fd
      end.
End Listen.
