(* ===== verification/MakedirsSpec.v ===== *)
(** * The directories above a file

    [lgtd_daemon_makedirs] ends on every path and, when it works, leaves a
    directory at each ancestor of the file. *)

From Stdlib Require Import ZArith Lia String.
From stdpp Require Import base tactics list gmap.
From S2P Require Import Prelude CLib World Invariant Session Client Files ServerState Pipe.

Section Makedirs.
Context {L : Libevent} {F : FileSystem}.

(** What making directories may change. *)
Definition files_frame (s s' : server) : Prop :=
  exists rs f, s' = set_sv_fs f (set_sv_world (set_w_os_results rs (sv_world s)) s).

Lemma files_frame_refl s : files_frame s s.
Proof. exists (w_os_results (sv_world s)), (sv_fs s). by destruct s as [[]]. Qed.

Lemma files_frame_trans s1 s2 s3 : files_frame s1 s2 -> files_frame s2 s3 -> files_frame s1 s3.
Proof. intros (r1 & f1 & ->) (r2 & f2 & ->). exists r2, f2. by destruct s1 as [[]]. Qed.

(** The directories stay. *)
Definition dirs_kept (s s' : server) : Prop :=
  forall d, fs_stat d (sv_fs s) = stat_is S_IFDIR -> fs_stat d (sv_fs s') = stat_is S_IFDIR.

Lemma wp_call (Q : bool -> server -> Prop) s :
  (forall b rs, Q b (set_sv_world (set_w_os_results rs (sv_world s)) s)) -> wp call Q s.
Proof.
  intros HQ. unfold wp, call, on_world, os_call. destruct (w_os_results (sv_world s)) as [|r rs] eqn:Hrs.
  - specialize (HQ true []). replace (set_w_os_results [] (sv_world s)) with (sv_world s) in HQ; [done|].
    destruct (sv_world s). cbn in Hrs. by subst.
  - apply HQ.
Qed.

Definition made (fp : list Z) (s : server) (r : option bool) (s' : server) : Prop :=
  files_frame s s' /\ dirs_kept s s' /\ exists ok, r = Some ok
  /\ (ok = true -> forall d, ancestor fp d -> fs_stat d (sv_fs s') = stat_is S_IFDIR).

Lemma made_false fp s s' : files_frame s s' -> dirs_kept s s' -> made fp s (Some false) s'.
Proof. intros Hf Hd. split; [done|]. split; [done|]. by exists false. Qed.

Lemma made_root fp s s' : files_frame s s' -> dirs_kept s s' -> dirname fp = fp -> made fp s (Some true) s'.
Proof. intros Hf Hd Hroot. split; [done|]. split; [done|]. exists true. split; [done|]. intros _ d Ha. by destruct Ha. Qed.

(** One more ancestor. *)
Lemma made_next fp s s1 s2 :
  made (dirname fp) s (Some true) s1 -> files_frame s1 s2 -> dirs_kept s1 s2 ->
  fs_stat (dirname fp) (sv_fs s2) = stat_is S_IFDIR -> made fp s (Some true) s2.
Proof.
  intros (Hf1 & Hd1 & ok & [= <-] & Hanc) Hf2 Hd2 Hnext. split; [by eapply files_frame_trans|].
  split; [intros d Hd; by apply Hd2, Hd1|]. exists true. split; [done|]. intros _ d Ha.
  inversion Ha as [|fp' d' _ Hup]; subst; [done|]. by apply Hd2, Hanc.
Qed.

(** The parents that are their own parent need one turn, the others one per
    character at most. *)
Definition enough (fuel : nat) (fp : list Z) : Prop :=
  (length fp + 2 <= fuel)%nat \/ (1 <= fuel)%nat /\ dirname fp = fp.

Lemma enough_next fuel fp : enough (S fuel) fp -> dirname fp <> fp -> enough fuel (dirname fp).
Proof.
  intros [Hf|[_ ?]] Hne; [|done]. destruct (dirname_shorter fp) as [Hlt|[->| ->]]; [left; lia| |];
    right; (split; [lia|reflexivity]).
Qed.

Lemma call_frame rs s : let s' := set_sv_world (set_w_os_results rs (sv_world s)) s in
  files_frame s s' /\ sv_fs s' = sv_fs s.
Proof. split; [|done]. exists rs, (sv_fs s). by destruct s. Qed.

Lemma wp_makedirs fuel : forall fp s,
  Forall (fun c => c <> 0) fp -> enough fuel fp -> wp (_lgtd_daemon_makedirs fuel fp) (made fp s) s.
Proof.
  induction fuel as [|fuel IH]; intros fp s Hc Hfuel; [destruct Hfuel as [?|[? _]]; lia|]. cbn [_lgtd_daemon_makedirs].
  apply wp_bind, wp_call. intros b1 rs1. set (s1 := set_sv_world _ s).
  destruct (call_frame rs1 s) as [Hf1 He1]. fold s1 in Hf1, He1.
  assert (Hk1 : dirs_kept s s1) by (intros d; by rewrite He1).
  destruct b1; [|by apply wp_ret, made_false]. cbn [negb].
  apply wp_bind, wp_call. intros b2 rs2. set (s2 := set_sv_world _ s1).
  destruct (call_frame rs2 s1) as [Hf2 He2]. fold s2 in Hf2, He2.
  pose proof (files_frame_trans _ _ _ Hf1 Hf2) as Hf. assert (Hk : dirs_kept s s2) by (intros d; by rewrite He2).
  destruct b2; [|by apply wp_ret, made_false]. cbn [negb]. cbv zeta.
  assert (Hc' : Forall (fun c => c <> 0) (dirname fp)) by (by apply dirname_forall; [unfold DOT; lia|unfold SLASH; lia|]).
  unfold strcmp_eq. rewrite !cstr_id by done. destruct (decide (dirname fp = fp)) as [Heq|Hne].
  { rewrite bool_decide_eq_true_2 by done. by apply wp_ret, made_root. }
  rewrite bool_decide_eq_false_2 by done.
  apply wp_bind. eapply wp_mono; [apply IH; [done|by apply enough_next]|]. intros r s3 (Hf3 & Hk3 & ok & -> & Hok).
  pose proof (files_frame_trans _ _ _ Hf Hf3) as Hf'.
  assert (Hk' : dirs_kept s s3) by (intros d Hd; by apply Hk3, Hk).
  destruct ok; [|by apply wp_ret, made_false].
  assert (Hmade : made (dirname fp) s (Some true) s3) by (split; [done|]; split; [done|]; by exists true).
  apply wp_bind, wp_gets. destruct (fs_stat (dirname fp) (sv_fs s3)) as [[]| |] eqn:Hstat;
    try (by apply wp_ret, made_false).
  { apply wp_ret. eapply made_next; [done|apply files_frame_refl|by intros d|done]. }
  apply wp_bind. unfold wp at 1, fs_call. destruct (fs_mkdir (dirname fp) (sv_fs s3)) as [r f] eqn:Hmk.
  assert (Hf4 : files_frame s3 (set_sv_fs f s3)) by (exists (w_os_results (sv_world s3)), f; by destruct s3 as [[]]).
  assert (Hk4 : dirs_kept s3 (set_sv_fs f s3)).
  { intros d Hd. cbn. pose proof (mkdir_keeps (dirname fp) d _ Hd) as Hkeep. by rewrite Hmk in Hkeep. }
  apply wp_ret. destruct r; [|apply made_false; [exact (files_frame_trans _ _ _ Hf' Hf4)|intros d Hd; by apply Hk4, Hk']..].
  eapply made_next; [done|done|done|]. cbn. by eapply mkdir_makes.
Qed.

(** ** When it works *)

(** As long as [P] holds of the files, each ancestor is a directory or can be made. *)
Definition makeable (P : fs -> Prop) (fp : list Z) : Prop :=
  forall d f, ancestor fp d -> P f ->
  fs_stat d f = stat_is S_IFDIR \/ fs_stat d f = stat_ENOENT /\ exists f', fs_mkdir d f = (file_ok, f') /\ P f'.

Lemma wp_call_ok (Q : bool -> server -> Prop) s : w_os_results (sv_world s) = [] -> Q true s -> wp call Q s.
Proof. intros Hos HQ. unfold wp, call, on_world, os_call. rewrite Hos. by destruct s. Qed.

Lemma wp_makedirs_works P fuel : forall fp s,
  Forall (fun c => c <> 0) fp -> enough fuel fp -> makeable P fp -> P (sv_fs s) -> w_os_results (sv_world s) = [] ->
  wp (_lgtd_daemon_makedirs fuel fp)
    (fun r s' => r = Some true /\ P (sv_fs s') /\ w_os_results (sv_world s') = []) s.
Proof.
  induction fuel as [|fuel IH]; intros fp s Hc Hfuel Hmake HP Hos; [destruct Hfuel as [?|[? _]]; lia|].
  cbn [_lgtd_daemon_makedirs]. do 2 (apply wp_bind, wp_call_ok; [done|cbn [negb]]). cbv zeta.
  assert (Hc' : Forall (fun c => c <> 0) (dirname fp)) by (by apply dirname_forall; [unfold DOT; lia|unfold SLASH; lia|]).
  unfold strcmp_eq. rewrite !cstr_id by done. destruct (decide (dirname fp = fp)) as [Heq|Hne].
  { rewrite bool_decide_eq_true_2 by done. by apply wp_ret. }
  rewrite bool_decide_eq_false_2 by done.
  apply wp_bind. eapply wp_mono; [apply (IH (dirname fp) s); [done|by apply enough_next| |done|done]|].
  { intros d f Hd. by apply Hmake, ancestor_above. }
  intros r s1 (-> & HP1 & Hos1). apply wp_bind, wp_gets.
  destruct (Hmake (dirname fp) (sv_fs s1) (ancestor_parent _ Hne) HP1) as [-> |(-> & f' & Hmk & HP')]; [by apply wp_ret|].
  apply wp_bind. unfold wp at 1, fs_call. rewrite Hmk. by apply wp_ret.
Qed.

Lemma wp_lgtd_daemon_makedirs fp s :
  Forall (fun c => c <> 0) fp ->
  wp (lgtd_daemon_makedirs fp) (fun ok s' => files_frame s s' /\ dirs_kept s s'
    /\ (ok = true -> forall d, ancestor fp d -> fs_stat d (sv_fs s') = stat_is S_IFDIR)) s.
Proof.
  intros Hc. apply wp_bind. eapply wp_mono; [apply wp_makedirs; [done|left; unfold makedirs_fuel; lia]|].
  intros r s' (Hf & Hk & ok & -> & Hok). apply wp_ret. by split_and!.
Qed.

Lemma lgtd_daemon_makedirs_works P fp s :
  Forall (fun c => c <> 0) fp -> makeable P fp -> P (sv_fs s) -> w_os_results (sv_world s) = [] ->
  wp (lgtd_daemon_makedirs fp) (fun ok _ => ok = true) s.
Proof.
  intros Hc Hmake HP Hos. apply wp_bind. eapply wp_mono.
  - apply (wp_makedirs_works P); [done|left; unfold makedirs_fuel; lia|done..].
  - intros r s' (-> & _). by apply wp_ret.
Qed.
End Makedirs.
