(* ===== verification/JsmnPrefix.v ===== *)
(** * A text that is cut short

    What the tokenizer does with the beginning of the text of an object: it asks for
    more, in the first or in the second pass, and never refuses it. *)

From Stdlib Require Import ZArith Lia.
From stdpp Require Import base tactics list relations.
From S2P Require Import Prelude CLib Jsmn JsmnSpec JsonText.

#[local] Open Scope nat_scope.

(** ** Scanning *)

Lemma string_scan_prefix n : forall r suf pos hex p, length r <= n ->
  string_scan (r ++ suf) pos hex = scan_found p ->
  string_scan r pos hex = scan_found p \/ string_scan r pos hex = scan_error JSMN_ERROR_PART.
Proof.
  induction n as [|n IH]; intros [|c r] suf pos hex p Hlen; cbn [length] in Hlen; [by right|lia|by right|].
  cbn [app string_scan]. destruct (c =? 0)%Z; [done|]. destruct hex as [|hex].
  - destruct (c =? 34)%Z; [by left|]. destruct (c =? 92)%Z; [|apply IH; lia].
    destruct r as [|c2 r2]; [by right|]. cbn [app length] in *.
    destruct (is_escape c2); [apply IH; lia|]. destruct (c2 =? 117)%Z; [apply IH; lia|done].
  - destruct (is_hex c); [apply IH; lia|done].
Qed.

Lemma primitive_scan_prefix r : forall suf pos p,
  primitive_scan (r ++ suf) pos = scan_found p ->
  primitive_scan r pos = scan_found p \/ primitive_scan r pos = scan_error JSMN_ERROR_PART.
Proof.
  induction r as [|c r IH]; intros suf pos p; cbn [app primitive_scan]; [by right|].
  destruct (c =? 0)%Z; [done|]. destruct (ends_primitive c); [by left|]. destruct (_ || _); [done|]. apply IH.
Qed.

Section Prefix.
Context (pre suf : list Z).
Abbreviation js := (pre ++ suf).

(** ** The counting pass *)

Lemma advance_prefix c pos n p :
  pos < length pre -> advance js c pos = inr (n, p) ->
  advance pre c pos = inr (n, p) \/ advance pre c pos = inl JSMN_ERROR_PART.
Proof.
  intros Hpos. unfold advance. destruct (_ || _); [by left|]. destruct (_ || _); [by left|].
  destruct (c =? 34)%Z.
  { rewrite drop_app_le by lia. destruct (string_scan (drop (S pos) pre ++ suf) _ _) as [q|] eqn:Hs; [|done].
    destruct (string_scan_prefix _ _ _ _ _ _ (le_n _) Hs) as [-> | ->]; [by left|by right]. }
  destruct (_ || _); [by left|]. destruct (starts_primitive c); [|done].
  rewrite drop_app_le by lia. destruct (primitive_scan (drop pos pre ++ suf) _) as [q|] eqn:Hs; [|done].
  destruct (primitive_scan_prefix _ _ _ _ Hs) as [-> | ->]; [by left|by right].
Qed.

Lemma counting_prefix fuel : forall fuel' pos count c,
  pos <= length pre -> length pre <= pos + fuel' -> counting fuel js pos count = inr c ->
  counting fuel' pre pos count = inl JSMN_ERROR_PART \/ exists c', counting fuel' pre pos count = inr c'.
Proof.
  induction fuel as [|fuel IH]; intros fuel' pos count c Hpos Hf;
    (destruct (decide (pos < length pre)) as [Hlt|Hge];
     [|intros _; right; exists count; destruct fuel'; cbn [counting]; by rewrite lookup_ge_None_2 by lia]);
    (destruct fuel' as [|fuel']; [lia|]); cbn [counting]; rewrite lookup_app_l by done;
    (destruct (lookup_lt_is_Some_2 pre pos Hlt) as [ch Hch]; rewrite Hch); (destruct (ch =? 0)%Z; [intros _; right; by eexists|]); [done|].
  destruct (advance js ch pos) as [e|[n p]] eqn:Ha; [done|]. intros Hcnt.
  destruct (advance_prefix _ _ _ _ Hlt Ha) as [Hp|Hp]; rewrite Hp; [|by left].
  pose proof (advance_bound _ _ _ _ _ Hch Hp). apply (IH fuel' (S p) (count + n) c); [lia|lia|done].
Qed.

(** ** One character, on the text and on its beginning *)

Lemma parse_char_prefix c st n st1 :
  js_pos st < length pre -> parse_char js c st = Ret (inr n) st1 -> is_Some (js_tokens st) ->
  advance pre c (js_pos st) <> inl JSMN_ERROR_PART -> parse_char pre c st = Ret (inr n) st1.
Proof.
  intros Hpos Hrun [l Hl] Hadv. unfold parse_char in *.
  destruct (Z.eqb_spec c 123) as [->|H1]; [done|]. destruct (Z.eqb_spec c 91) as [->|H2]; [done|].
  destruct (Z.eqb_spec c 125) as [->|H3]; [done|]. destruct (Z.eqb_spec c 93) as [->|H4]; [done|].
  unfold advance in Hadv. rewrite !(proj2 (Z.eqb_neq c _)) in Hadv by done. cbn [orb] in Hadv.
  destruct (c =? 34)%Z.
  { rewrite (parse_scalar_string js _ _ Hl) in Hrun. rewrite (parse_scalar_string pre _ _ Hl). rewrite drop_app_le in Hrun by lia.
    destruct (string_scan (drop (S (js_pos st)) pre ++ suf) _ _) as [q|] eqn:Hs; [|done].
    destruct (string_scan_prefix _ _ _ _ _ _ (le_n _) Hs) as [Hq|Hq]; rewrite Hq in *; done. }
  destruct (is_space c); [done|]. destruct (c =? 58)%Z; [done|]. destruct (c =? 44)%Z; [done|]. cbn [orb] in Hadv.
  destruct (starts_primitive c); [|done]. unfold mbind at 1, M_bind at 1. unfold mbind at 1, M_bind at 1 in Hrun.
  destruct (may_be_primitive st) as [ok st'|] eqn:Hmay; [|done].
  assert (st' = st) as ->.
  { unfold may_be_primitive, mbind, M_bind, mget in Hmay. cbn in Hmay. rewrite Hl in Hmay.
    destruct (js_toksuper st); [|by injection Hmay]. unfold get_tok, mbind, M_bind, mget, mderef in Hmay. rewrite Hl in Hmay. cbn in Hmay.
    destruct (l !! _); [by injection Hmay|done]. }
  destruct ok; [|done]. rewrite (parse_scalar_primitive js _ _ Hl) in Hrun. rewrite (parse_scalar_primitive pre _ _ Hl). rewrite drop_app_le in Hrun by lia.
  destruct (primitive_scan (drop (js_pos st) pre ++ suf) _) as [q|] eqn:Hs; [|done].
  destruct (primitive_scan_prefix _ _ _ _ Hs) as [Hq|Hq]; rewrite Hq in *; done.
Qed.
End Prefix.

(** ** More tokens

    A turn that does not run out of tokens does the same on a longer array. *)

Section Longer.
Context (x : list jsmntok_t).

Definition longer (st : jsmn_parser) : jsmn_parser :=
  match js_tokens st with
  | Some l => set_tokens (l ++ x) st
  | None => st
  end.

Lemma longer_tokens st l : js_tokens st = Some l -> js_tokens (longer st) = Some (l ++ x).
Proof. unfold longer. by intros ->. Qed.

Lemma longer_fields st :
  js_pos (longer st) = js_pos st /\ js_toknext (longer st) = js_toknext st /\ js_toksuper (longer st) = js_toksuper st.
Proof. unfold longer. by destruct (js_tokens st). Qed.

Lemma longer_ok len st l : parser_ok len st l -> parser_ok len (longer st) (l ++ x).
Proof.
  intros [Ht Hn Hs Htoks]. destruct (longer_fields st) as (Hp & Hk & Hsup).
  constructor; rewrite ?Hp, ?Hk, ?Hsup; [by apply longer_tokens|rewrite length_app; lia|done|].
  intros i t Hi. rewrite lookup_app_l by lia. by apply Htoks.
Qed.

Lemma get_tok_run st l i t : js_tokens st = Some l -> l !! i = Some t -> get_tok i st = Ret t st.
Proof. intros Hl Ht. unfold get_tok, mbind, M_bind, mget, mderef. rewrite Hl. cbn. by rewrite Ht. Qed.

Lemma get_tok_inv st l i t st1 : js_tokens st = Some l -> get_tok i st = Ret t st1 -> st1 = st /\ l !! i = Some t.
Proof.
  intros Hl. unfold get_tok, mbind, M_bind, mget, mderef. rewrite Hl. cbn. destruct (l !! i); [|done]. by intros [= <- <-].
Qed.

Lemma upd_tok_run st l i f t : js_tokens st = Some l -> l !! i = Some t -> upd_tok i f st = Ret tt (set_tokens (<[i := f t]> l) st).
Proof. intros Hl Ht. unfold upd_tok, mbind, M_bind, mget, mderef. rewrite Hl. cbn. by rewrite Ht. Qed.

Lemma upd_tok_inv st l i f st1 :
  js_tokens st = Some l -> upd_tok i f st = Ret tt st1 ->
  exists t, l !! i = Some t /\ st1 = set_tokens (<[i := f t]> l) st.
Proof.
  intros Hl. unfold upd_tok, mbind, M_bind, mget, mderef. rewrite Hl. cbn. destruct (l !! i) as [t|]; [|done].
  intros [= <-]. by exists t.
Qed.

Lemma close_container_longer type fuel : forall st l i b st1,
  js_tokens st = Some l -> close_container fuel type i st = Ret b st1 ->
  close_container fuel type i (longer st) = Ret b (longer st1).
Proof.
  induction fuel as [|fuel IH]; intros st l i b st1 Hl; cbn [close_container]; [done|].
  unfold mbind at 1, M_bind at 1. destruct (get_tok i st) as [t s|] eqn:Hget; [|done].
  destruct (get_tok_inv _ _ _ _ _ Hl Hget) as [-> Ht].
  assert (Ht' : (l ++ x) !! i = Some t) by (by apply lookup_app_l_Some).
  rewrite (run_bind _ _ _ t _ (get_tok_run _ _ _ _ (longer_tokens _ _ Hl) Ht')).
  destruct (longer_fields st) as (Hp & _ & Hsup). destruct (is_open t).
  - case_bool_decide; [|by intros [= <- <-]]. unfold mbind at 1, M_bind at 1. cbn [mget].
    unfold mbind at 1, M_bind at 1. destruct (upd_tok i _ st) as [[] s1|] eqn:Hupd; [|done].
    destruct (upd_tok_inv _ _ _ _ _ Hl Hupd) as (t' & Htt & ->). rewrite Ht in Htt. injection Htt as <-.
    intros [= <- <-]. unfold mbind at 1, M_bind at 1. cbn [mget]. rewrite Hp.
    rewrite (run_bind _ _ _ _ _ (upd_tok_run _ _ _ _ _ (longer_tokens _ _ Hl) Ht')).
    rewrite insert_app_l by (by eapply lookup_lt_Some). unfold longer. rewrite Hl. done.
  - destruct (tok_parent t) as [p|]; [by apply (IH st l)|]. unfold mbind, M_bind, mget. rewrite Hsup. by intros [= <- <-].
Qed.

Lemma insert_bump_longer sup (l : list jsmntok_t) i t :
  i < length l -> (forall k, sup = Some k -> k < length l) ->
  <[i := t]> (bump sup (l ++ x)) = <[i := t]> (bump sup l) ++ x.
Proof. intros Hi Hsup. rewrite bump_app by done. by rewrite insert_app_l by (by rewrite length_bump). Qed.

Lemma bump_insert_longer sup (l : list jsmntok_t) i t :
  i < length l -> (forall k, sup = Some k -> k < length l) ->
  bump sup (<[i := t]> (l ++ x)) = bump sup (<[i := t]> l) ++ x.
Proof. intros Hi Hsup. rewrite insert_app_l by done. rewrite bump_app; [done|]. by rewrite length_insert. Qed.

Lemma super_bound len st l : parser_ok len st l -> forall k, js_toksuper st = Some k -> k < length l.
Proof. intros Hok k Hk%(po_super _ _ _ Hok). pose proof (po_next _ _ _ Hok). lia. Qed.

(** What the turns that make a token come to. *)
Definition opened_st (type : jsmntype_t) (st : jsmn_parser) (l : list jsmntok_t) : jsmn_parser :=
  {| js_pos := js_pos st; js_toknext := S (js_toknext st); js_toksuper := Some (js_toknext st);
     js_tokens := Some (<[js_toknext st := open_tok type (js_pos st) (js_toksuper st)]> (bump (js_toksuper st) l)) |}.

Definition scalar_st (type : jsmntype_t) (start p pos' : nat) (st : jsmn_parser) (l : list jsmntok_t) : jsmn_parser :=
  {| js_pos := pos'; js_toknext := S (js_toknext st); js_toksuper := js_toksuper st;
     js_tokens := Some (bump (js_toksuper st) (<[js_toknext st := scalar_tok type start p (js_toksuper st)]> l)) |}.

Definition open_turn (type : jsmntype_t) : M jsmn_parser (jsmnerr + nat) :=
  ok ← open_container type; turn ok JSMN_ERROR_NOMEM 1.

Definition scalar_turn (type : jsmntype_t) (start p pos' : nat) : M jsmn_parser (jsmnerr + nat) :=
  parse_scalar (ok ← new_token type start p;
                if (ok : bool) then mmodify (set_pos pos') ;; mret None else mret (Some JSMN_ERROR_NOMEM)).

Lemma open_turn_run len type st l :
  parser_ok len st l -> js_toknext st < length l -> open_turn type st = Ret (inr 1) (opened_st type st l).
Proof.
  intros Hok Hlt. assert (Hw : wp (open_turn type) (fun b s => b = inr 1 /\ s = opened_st type st l) st).
  { apply wp_bind. eapply wp_open_container; [exact Hok|lia|]. intros _. by apply wp_ret. }
  by destruct (wp_run _ _ _ Hw) as (b & s & Hb & -> & ->).
Qed.

Lemma scalar_turn_run len type start p pos' st l :
  parser_ok len st l -> start <= p <= len /\ 0 < p -> start <= pos' -> js_pos st <= pos' -> js_toknext st < length l ->
  scalar_turn type start p pos' st = Ret (inr 1) (scalar_st type start p pos' st l).
Proof.
  intros Hok Hse Hs1 Hs2 Hlt.
  assert (Hw : wp (scalar_turn type start p pos') (fun b s => b = inr 1 /\ s = scalar_st type start p pos' st l) st).
  { eapply wp_scalar; [exact Hok|done|done|done|lia|]. intros _ l' -> _. done. }
  by destruct (wp_run _ _ _ Hw) as (b & s & Hb & -> & ->).
Qed.

Lemma open_turn_full len type st l r st1 :
  parser_ok len st l -> open_turn type st = Ret r st1 -> r <> inl JSMN_ERROR_NOMEM -> js_toknext st < length l.
Proof.
  intros Hok Hrun Hr. pose proof (po_next _ _ _ Hok). destruct (decide (js_toknext st = length l)) as [Hfull|]; [|lia]. exfalso.
  assert (Hw : wp (open_turn type) (fun b _ => b = inl JSMN_ERROR_NOMEM) st).
  { apply wp_bind. eapply wp_open_container; [exact Hok|intros _; by apply wp_ret|lia]. }
  destruct (wp_run _ _ _ Hw) as (b & s & Hb & ->). rewrite Hb in Hrun. by injection Hrun as <-.
Qed.

Lemma scalar_turn_full len type start p pos' st l r st1 :
  parser_ok len st l -> start <= p <= len /\ 0 < p -> start <= pos' -> js_pos st <= pos' ->
  scalar_turn type start p pos' st = Ret r st1 -> r <> inl JSMN_ERROR_NOMEM -> js_toknext st < length l.
Proof.
  intros Hok Hse Hs1 Hs2 Hrun Hr. pose proof (po_next _ _ _ Hok).
  destruct (decide (js_toknext st = length l)) as [Hfull|]; [|lia]. exfalso.
  assert (Hw : wp (scalar_turn type start p pos') (fun b _ => b = inl JSMN_ERROR_NOMEM) st)
    by (eapply wp_scalar; [exact Hok|done|done|done|done|lia]).
  destruct (wp_run _ _ _ Hw) as (b & s & Hb & ->). rewrite Hb in Hrun. by injection Hrun as <-.
Qed.

Lemma open_container_longer len type st l r st1 :
  parser_ok len st l -> open_turn type st = Ret r st1 -> r <> inl JSMN_ERROR_NOMEM ->
  open_turn type (longer st) = Ret r (longer st1).
Proof.
  intros Hok Hrun Hr. pose proof (open_turn_full _ _ _ _ _ _ Hok Hrun Hr) as Hlt.
  rewrite (open_turn_run _ _ _ _ Hok Hlt) in Hrun. injection Hrun as <- <-. destruct (longer_fields st) as (Hp & Hn & Hs).
  rewrite (open_turn_run _ _ _ _ (longer_ok _ _ _ Hok)) by (rewrite Hn, length_app; lia).
  unfold longer at 2. unfold opened_st, set_tokens. cbn. rewrite Hp, Hn, Hs, insert_bump_longer; [done|done|].
  by apply (super_bound len).
Qed.

Lemma scalar_longer len st l type start p pos' r st1 :
  parser_ok len st l -> start <= p <= len /\ 0 < p -> start <= pos' -> js_pos st <= pos' ->
  scalar_turn type start p pos' st = Ret r st1 -> r <> inl JSMN_ERROR_NOMEM ->
  scalar_turn type start p pos' (longer st) = Ret r (longer st1).
Proof.
  intros Hok Hse Hs1 Hs2 Hrun Hr. pose proof (scalar_turn_full _ _ _ _ _ _ _ _ _ Hok Hse Hs1 Hs2 Hrun Hr) as Hlt.
  rewrite (scalar_turn_run _ _ _ _ _ _ _ Hok Hse Hs1 Hs2 Hlt) in Hrun. injection Hrun as <- <-.
  destruct (longer_fields st) as (Hp & Hn & Hs).
  rewrite (scalar_turn_run _ _ _ _ _ _ _ (longer_ok _ _ _ Hok)) by (done || rewrite ?Hp, ?Hn, ?length_app; lia).
  unfold longer at 2. unfold scalar_st, set_tokens. cbn. rewrite Hn, Hs, bump_insert_longer; [done|done|].
  by apply (super_bound len).
Qed.

Lemma parse_char_longer js c st l r st1 :
  parser_ok (length js) st l -> js !! js_pos st = Some c -> parse_char js c st = Ret r st1 -> r <> inl JSMN_ERROR_NOMEM ->
  parse_char js c (longer st) = Ret r (longer st1).
Proof.
  intros Hok Hc Hrun Hr. pose proof (po_tokens _ _ _ Hok) as Hl. pose proof (longer_tokens _ _ Hl) as Hl'.
  destruct (longer_fields st) as (Hp & Hn & Hs). pose proof (lookup_lt_Some _ _ _ Hc) as Hpos.
  assert (Hclose : forall type, (ok ← parse_close type; turn ok JSMN_ERROR_INVAL 0) st = Ret r st1 ->
    (ok ← parse_close type; turn ok JSMN_ERROR_INVAL 0) (longer st) = Ret r (longer st1)).
  { intros type. unfold parse_close, turn, mbind, M_bind, mget. rewrite Hl, Hl', Hn. destruct (js_toknext st) as [|i]; [by intros [= <- <-]|].
    destruct (close_container (S i) type i st) as [b s|] eqn:Hcl; [|done].
    rewrite (close_container_longer _ _ _ _ _ _ _ Hl Hcl). intros Hb. by injection Hb as <- <-. }
  unfold parse_char in *.
  destruct (Z.eqb_spec c 123) as [->|H1]; [by apply (open_container_longer (length js) _ _ l)|].
  destruct (Z.eqb_spec c 91) as [->|H2]; [by apply (open_container_longer (length js) _ _ l)|].
  destruct (Z.eqb_spec c 125) as [->|H3]; [by apply Hclose|].
  destruct (Z.eqb_spec c 93) as [->|H4]; [by apply Hclose|].
  destruct (c =? 34)%Z.
  { rewrite (parse_scalar_string js _ _ Hl) in Hrun. rewrite (parse_scalar_string js _ _ Hl'), Hp.
    destruct (string_scan _ _ _) as [q|] eqn:Hscan; [|by injection Hrun as <- <-].
    apply string_scan_found with (n := length (drop (S (js_pos st)) js)) in Hscan; [|done].
    rewrite length_drop in Hscan. by eapply scalar_longer; [exact Hok|lia|lia|lia| |]. }
  destruct (is_space c); [by injection Hrun as <- <-|].
  destruct (c =? 58)%Z.
  { injection Hrun as <- <-. unfold parse_colon, mbind, M_bind, mmodify. rewrite Hn. unfold longer. cbn. by rewrite Hl. }
  destruct (c =? 44)%Z.
  { unfold parse_comma, mbind, M_bind, mget in *. rewrite Hl', Hs. rewrite Hl in Hrun.
    destruct (js_toksuper st) as [k|]; [|by injection Hrun as <- <-].
    destruct (get_tok k st) as [t s|] eqn:Hget; [|done]. destruct (get_tok_inv _ _ _ _ _ Hl Hget) as [-> Ht].
    rewrite (get_tok_run _ _ _ t Hl') by (by apply lookup_app_l_Some).
    destruct (is_container _); injection Hrun as <- <-; [done|]. unfold longer. cbn. by rewrite Hl. }
  destruct (starts_primitive c) eqn:Hst; [|by injection Hrun as <- <-].
  assert (Hprim : parse_scalar (jsmn_parse_primitive js) st = Ret r st1 ->
    parse_scalar (jsmn_parse_primitive js) (longer st) = Ret r (longer st1)).
  { intros Hq. rewrite (parse_scalar_primitive js _ _ Hl) in Hq. rewrite (parse_scalar_primitive js _ _ Hl'), Hp.
    destruct (primitive_scan _ _) as [q|] eqn:Hscan; [|by injection Hq as <- <-].
    apply (primitive_scan_start js _ c) in Hscan; [|done|done]. by eapply scalar_longer; [exact Hok|lia|lia|lia| |]. }
  unfold may_be_primitive, mbind at 1, M_bind at 1 in Hrun. unfold may_be_primitive, mbind at 1, M_bind at 1.
  unfold mbind at 1, M_bind at 1, mget at 1 in Hrun. unfold mbind at 1, M_bind at 1, mget at 1.
  rewrite Hl', Hs. rewrite Hl in Hrun. destruct (js_toksuper st) as [k|]; [|by apply Hprim].
  unfold mbind at 1, M_bind at 1 in Hrun. unfold mbind at 1, M_bind at 1.
  destruct (get_tok k st) as [t s|] eqn:Hget; [|done]. destruct (get_tok_inv _ _ _ _ _ Hl Hget) as [-> Ht].
  rewrite (get_tok_run _ _ _ t Hl') by (by apply lookup_app_l_Some). cbn [mret M_ret] in *.
  destruct (negb _); [by apply Hprim|by injection Hrun as <- <-].
Qed.
End Longer.

(** ** The token of the root

    Once it is closed its end does not move. *)

Definition root_end (e : nat) (st : jsmn_parser) : Prop :=
  exists l t, js_tokens st = Some l /\ l !! 0 = Some t /\ tok_end t = Some e.

Lemma bump_root sup (l : list jsmntok_t) t e :
  l !! 0 = Some t -> tok_end t = Some e -> exists t', bump sup l !! 0 = Some t' /\ tok_end t' = Some e.
Proof.
  intros Ht He. destruct sup as [[|k]|]; cbn [bump]; [|rewrite list_lookup_alter_ne by lia; by exists t|by exists t].
  rewrite list_lookup_alter_eq, Ht. by eexists.
Qed.

Lemma close_root type fuel : forall st i b st1 e,
  root_end e st -> close_container fuel type i st = Ret b st1 -> root_end e st1.
Proof.
  induction fuel as [|fuel IH]; intros st i b st1 e (l & t0 & Hl & H0 & He); cbn [close_container]; [done|].
  unfold mbind at 1, M_bind at 1. destruct (get_tok i st) as [t s|] eqn:Hget; [|done].
  destruct (get_tok_inv _ _ _ _ _ Hl Hget) as [-> Ht]. assert (Hroot : root_end e st) by (by exists l, t0).
  destruct (is_open t) eqn:Hopen.
  - case_bool_decide; [|by intros [= <- <-]]. unfold mbind at 1, M_bind at 1. cbn [mget].
    rewrite (run_bind _ _ _ _ _ (upd_tok_run _ _ _ _ _ Hl Ht)). intros [= <- <-].
    destruct i as [|i].
    { exfalso. rewrite Ht in H0. injection H0 as ->. unfold is_open in Hopen. rewrite He in Hopen. by rewrite andb_false_r in Hopen. }
    exists (<[S i := set_tok_end (Some (S (js_pos st))) t]> l), t0. split; [done|]. by rewrite list_lookup_insert_ne.
  - destruct (tok_parent t) as [p|]; [by apply IH|]. unfold mbind, M_bind, mget. by intros [= <- <-].
Qed.

Lemma parse_char_root js c st l n st1 e :
  parser_ok (length js) st l -> js !! js_pos st = Some c -> 1 <= js_toknext st -> root_end e st ->
  parse_char js c st = Ret (inr n) st1 -> root_end e st1.
Proof.
  intros Hok Hc Hnext Hroot Hrun. pose proof (po_tokens _ _ _ Hok) as Hl. pose proof (lookup_lt_Some _ _ _ Hc) as Hpos.
  pose proof Hroot as (l0 & t0 & Hl0 & H0 & He). rewrite Hl in Hl0. injection Hl0 as <-.
  assert (Hopen : forall type, open_turn type st = Ret (inr n) st1 -> root_end e st1).
  { intros type Hq. pose proof (open_turn_full _ _ _ _ _ _ Hok Hq ltac:(done)) as Hlt.
    rewrite (open_turn_run _ _ _ _ Hok Hlt) in Hq. injection Hq as _ <-.
    destruct (bump_root (js_toksuper st) l t0 e H0 He) as (t' & Ht' & He').
    eexists _, t'. split; [reflexivity|]. by rewrite list_lookup_insert_ne by lia. }
  assert (Hscalar : forall type start p pos', start <= p <= length js /\ 0 < p -> start <= pos' -> js_pos st <= pos' ->
    scalar_turn type start p pos' st = Ret (inr n) st1 -> root_end e st1).
  { intros type start p pos' H1 H2 H3 Hq. pose proof (scalar_turn_full _ _ _ _ _ _ _ _ _ Hok H1 H2 H3 Hq ltac:(done)) as Hlt.
    rewrite (scalar_turn_run _ _ _ _ _ _ _ Hok H1 H2 H3 Hlt) in Hq. injection Hq as _ <-.
    set (tok := scalar_tok type start p (js_toksuper st)).
    destruct (bump_root (js_toksuper st) (<[js_toknext st := tok]> l) t0 e) as (t' & Ht' & He');
      [by rewrite list_lookup_insert_ne by lia|done|]. by eexists _, t'. }
  assert (Hclose : forall type, (ok ← parse_close type; turn ok JSMN_ERROR_INVAL 0) st = Ret (inr n) st1 -> root_end e st1).
  { intros type. unfold parse_close, turn, mbind, M_bind, mget. rewrite Hl. destruct (js_toknext st) as [|i]; [lia|].
    destruct (close_container (S i) type i st) as [b s|] eqn:Hcl; [|done]. intros Hb. injection Hb as _ <-.
    by eapply close_root. }
  assert (Hsuper : forall sup, root_end e (set_toksuper sup st)) by (intros sup; by exists l, t0).
  unfold parse_char in Hrun.
  destruct (c =? 123)%Z; [by apply (Hopen JSMN_OBJECT)|]. destruct (c =? 91)%Z; [by apply (Hopen JSMN_ARRAY)|].
  destruct (c =? 125)%Z; [by apply (Hclose JSMN_OBJECT)|]. destruct (c =? 93)%Z; [by apply (Hclose JSMN_ARRAY)|].
  destruct (c =? 34)%Z.
  { rewrite (parse_scalar_string js _ _ Hl) in Hrun. destruct (string_scan _ _ _) as [q|] eqn:Hscan; [|done].
    apply string_scan_found with (n := length (drop (S (js_pos st)) js)) in Hscan; [|done].
    rewrite length_drop in Hscan. by eapply Hscalar; [| | |exact Hrun]; lia. }
  destruct (is_space c); [by injection Hrun as _ <-|]. destruct (c =? 58)%Z; [injection Hrun as _ <-; apply Hsuper|].
  destruct (c =? 44)%Z.
  { unfold parse_comma, mbind, M_bind, mget in Hrun. rewrite Hl in Hrun.
    destruct (js_toksuper st) as [k|]; [|by injection Hrun as _ <-].
    destruct (get_tok k st) as [t s|] eqn:Hget; [|done]. destruct (get_tok_inv _ _ _ _ _ Hl Hget) as [-> Ht].
    destruct (is_container _); injection Hrun as _ <-; [done|]. apply Hsuper. }
  destruct (starts_primitive c) eqn:Hst; [|done].
  assert (Hprim : parse_scalar (jsmn_parse_primitive js) st = Ret (inr n) st1 -> root_end e st1).
  { intros Hq. rewrite (parse_scalar_primitive js _ _ Hl) in Hq. destruct (primitive_scan _ _) as [q|] eqn:Hscan; [|done].
    apply (primitive_scan_start js _ c) in Hscan; [|done|done]. by eapply Hscalar; [| | |exact Hq]; lia. }
  unfold may_be_primitive, mbind at 1, M_bind at 1 in Hrun. unfold mbind at 1, M_bind at 1, mget at 1 in Hrun.
  rewrite Hl in Hrun. destruct (js_toksuper st) as [k|]; [|by apply Hprim].
  unfold mbind at 1, M_bind at 1 in Hrun. destruct (get_tok k st) as [t s|] eqn:Hget; [|done].
  destruct (get_tok_inv _ _ _ _ _ Hl Hget) as [-> Ht]. cbn [mret M_ret] in Hrun.
  destruct (negb _); [by apply Hprim|done].
Qed.

Lemma step_next js s s' l :
  step js s s' -> parser_ok (length js) s.1 l -> js_toknext s.1 <= js_toknext s'.1.
Proof.
  intros (c & n & st1 & Hc & _ & Hp & ->) Hok. pose proof (wp_parse_char js c s.1 l Hok Hc) as Hw.
  unfold wp in Hw. rewrite Hp in Hw. destruct Hw as (_ & Hn & _). cbn. lia.
Qed.

Lemma steps_root js s s' e :
  rtc (step js) s s' -> forall l, parser_ok (length js) s.1 l -> 1 <= js_toknext s.1 -> root_end e s.1 -> root_end e s'.1.
Proof.
  induction 1 as [s|s s1 s2 Hstep _ IH]; intros l Hok Hn Hroot; [done|].
  destruct (step_ok _ _ _ _ Hstep Hok) as (l1 & Hok1 & _). pose proof (step_next _ _ _ _ Hstep Hok).
  apply (IH l1); [done|lia|]. destruct Hstep as (c & n & st1 & Hc & _ & Hp & ->).
  destruct (parse_char_root _ _ _ _ _ _ _ Hok Hc Hn Hroot Hp) as (l' & t & Hl & Ht). by exists l', t.
Qed.

(** ** The parsing pass *)

Section Loop.
Context (pre suf : list Z) (x : list jsmntok_t).
Abbreviation js := (pre ++ suf).

Lemma longer_set_pos p st : longer x (set_pos p st) = set_pos p (longer x st).
Proof. unfold longer. cbn. by destruct (js_tokens st). Qed.

(** A turn on the beginning of the text, with no more tokens than it has. *)
Lemma prefix_turn st l count c fuel s' :
  parser_ok (length pre) st l -> js_pos st < length pre -> count = js_toknext st ->
  counting (S fuel) pre (js_pos st) count = inr c -> c <= length l ->
  step js (longer x st, count) s' ->
  exists ch n st1 l1, pre !! js_pos st = Some ch /\ ch <> 0%Z /\ parse_char pre ch st = Ret (inr n) st1
  /\ parser_ok (length pre) st1 l1 /\ length l1 = length l /\ js_toknext st1 = js_toknext st + n /\ js_pos st <= js_pos st1 < length pre
  /\ counting fuel pre (S (js_pos st1)) (count + n) = inr c
  /\ s' = (longer x (set_pos (S (js_pos st1)) st1), count + n).
Proof.
  intros Hok Hpos Hcount Hcnt Hle (ch & n & st1' & Hch & Hch0 & Hp & ->). cbn [fst snd] in *.
  destruct (longer_fields x st) as (Hfp & _ & _). rewrite Hfp, lookup_app_l in Hch by done.
  pose proof (longer_tokens x _ _ (po_tokens _ _ _ Hok)) as Hlt.
  cbn [counting] in Hcnt. rewrite Hch, (proj2 (Z.eqb_neq _ _) Hch0) in Hcnt.
  destruct (advance pre ch (js_pos st)) as [e|[n' p]] eqn:Hadv; [done|].
  pose proof (parse_char_prefix pre suf ch (longer x st) n st1' ltac:(by rewrite Hfp) Hp ltac:(by rewrite Hlt; eexists)
    ltac:(by rewrite Hfp, Hadv)) as Hp'.
  destruct (wp_run _ _ _ (wp_parse_char pre ch st l Hok Hch)) as (r & st1 & Hrun & Hturn).
  assert (Hr : r <> inl JSMN_ERROR_NOMEM).
  { intros ->. cbn [turn_ok] in Hturn. rewrite Hadv in Hturn. destruct Hturn as [[? ?]|[?|[Hfull [p' [= -> _]]]]]; [done|done|].
    apply counting_le in Hcnt. lia. }
  pose proof (parse_char_longer x pre ch st l r st1 Hok Hch Hrun Hr) as Hp2. rewrite Hp' in Hp2. injection Hp2 as <- ->.
  destruct Hturn as (Hadv' & Hn & Hpos' & l1 & Hok1 & Hl1). rewrite Hadv in Hadv'. injection Hadv' as -> ->.
  exists ch, n, st1, l1. split_and!; try done; try lia. rewrite longer_set_pos. by destruct (longer_fields x st1) as (-> & _ & _).
Qed.

Lemma prefix_loop fuel : forall st l count c s',
  parser_ok (length pre) st l -> js_pos st <= length pre -> count = js_toknext st -> length pre <= js_pos st + fuel ->
  counting fuel pre (js_pos st) count = inr c -> c <= length l -> suf <> [] ->
  rtc (step js) (longer x st, count) s' -> js_pos s'.1 = length js ->
  exists st2 l2, parse_loop fuel pre count st = Ret (inr c) st2 /\ parser_ok (length pre) st2 l2
  /\ js_toknext st2 = c /\ rtc (step js) (longer x st2, c) s'.
Proof.
  induction fuel as [|fuel IH]; intros st l count c s' Hok Hpos Hcount Hfuel Hcnt Hle Hsuf Hsteps Hend;
    (destruct (decide (js_pos st < length pre)) as [Hlt|Hge];
     [|exists st, l; cbn [counting] in Hcnt; rewrite lookup_ge_None_2 in Hcnt by lia; injection Hcnt as <-;
       cbn [parse_loop]; unfold mbind, M_bind, mget; rewrite lookup_ge_None_2 by lia; by split_and!]); [lia|].
  destruct (rtc_inv _ _ Hsteps) as [<-|(s1 & Hstep & Hrest)].
  { exfalso. cbn [fst] in Hend. destruct (longer_fields x st) as (Hfp & _ & _). rewrite Hfp, length_app in Hend. lia. }
  destruct (prefix_turn st l count c fuel s1 Hok Hlt Hcount Hcnt Hle Hstep)
    as (ch & n & st1 & l1 & Hch & Hch0 & Hrun & Hok1 & Hl1 & Hn1 & Hp1 & Hcnt1 & ->).
  destruct (IH (set_pos (S (js_pos st1)) st1) l1 (count + n) c s') as (st2 & l2 & Hloop & Hok2 & Hn2 & Hsteps2);
    [by apply parser_ok_step|cbn; lia|cbn; lia|cbn; lia|done|lia|done|done|done|].
  exists st2, l2. split_and!; [|done|done|done]. cbn [parse_loop]. unfold mbind, M_bind, mget.
  rewrite Hch, (proj2 (Z.eqb_neq _ _) Hch0), Hrun. cbn [mmodify]. exact Hloop.
Qed.
End Loop.

(** ** The beginning of an object *)

Lemma object_steps v l :
  wf_json v = true -> (forall t, v <> JPrimitive t) -> ntokens v <= length l ->
  rtc (step (print v)) (jsmn_init (Some l), 0)
    (at_ (length (print v)) (tokens_of v 0 0 None) None (drop (ntokens v) l), ntokens v).
Proof.
  intros Hwf Hv Hl. assert (Hdel : delimited v []) by (destruct v as [t| | |]; [by destruct (Hv t)|done..]).
  assert (Hok : ok (print v) (at_ 0 [] None l)) by (exists l; apply parser_ok_init).
  pose proof (values_are_ok v Hwf (print v) [] [] [] None l 0 ltac:(by rewrite app_nil_r) Hdel Hok ltac:(done) Hl) as Hs.
  exact Hs.
Qed.

(** The first pass asks for more, or counts tokens that the second pass finds
    unclosed. *)
Lemma object_prefix members pre suf l :
  let v := JObject members in
  wf_json v = true -> print v = pre ++ suf -> suf <> [] ->
  (exists st, jsmn_parse pre (jsmn_init None) = Ret (inl JSMN_ERROR_PART) st /\ js_tokens st = None)
  \/ exists c st, jsmn_parse pre (jsmn_init None) = Ret (inr c) st /\ js_tokens st = None
     /\ (c = 0 \/ (length l = c -> exists st2, jsmn_parse pre (jsmn_init (Some l)) = Ret (inl JSMN_ERROR_PART) st2)).
Proof.
  intros v Hwf Hjs Hsuf. assert (Hnp : forall t, v <> JPrimitive t) by done.
  destruct (null_parse_loop pre (length pre) 0 0 ltac:(lia)) as [p0 Hnull].
  assert (Hpass : exists st, js_tokens st = None /\ jsmn_parse pre (jsmn_init None) = Ret (counting (length pre) pre 0 0) st).
  { eexists. split; [|unfold jsmn_parse, mbind, M_bind; cbn [mget]; change (js_toknext (jsmn_init None)) with 0;
      unfold jsmn_init at 1; rewrite Hnull; cbv iota beta; by destruct (counting (length pre) pre 0 0)]. done. }
  destruct Hpass as (st0 & Hst0 & Hpass).
  assert (Hfull : counting (length (print v)) (print v) 0 0 = inr (ntokens v)).
  { set (l1 := replicate (ntokens v) (container_tok JSMN_OBJECT 0 0 0 None)).
    pose proof (wp_parse_loop (print v) (length (print v)) (jsmn_init (Some l1)) l1 0 (parser_ok_init _ l1) (le_n _) eq_refl) as Hw.
    unfold wp in Hw. rewrite (parse_print_loop v l1 Hwf Hnp) in Hw by (unfold l1; by rewrite length_replicate).
    by destruct Hw as (_ & _ & Hc). }
  rewrite Hjs in Hfull. destruct (counting_prefix pre suf _ (length pre) 0 0 _ ltac:(lia) ltac:(lia) Hfull) as [Hc|[c Hc]];
    rewrite Hc in Hpass; [left; by exists st0|]. right. exists c, st0. split_and!; [done|done|].
  destruct (decide (c = 0)) as [|Hc0]; [by left|right]. intros Hl.
  set (x := replicate (ntokens v) (container_tok JSMN_OBJECT 0 0 0 None)).
  pose proof (object_steps v (l ++ x) Hwf Hnp ltac:(unfold x; rewrite length_app, length_replicate; lia)) as Hsteps.
  rewrite Hjs in Hsteps. change (jsmn_init (Some (l ++ x))) with (longer x (jsmn_init (Some l))) in Hsteps.
  destruct (prefix_loop pre suf x (length pre) (jsmn_init (Some l)) l 0 c _ (parser_ok_init _ l) ltac:(cbn; lia) eq_refl
    ltac:(cbn; lia) Hc ltac:(lia) Hsuf Hsteps eq_refl) as (st2 & l2 & Hloop & Hok2 & Hn2 & Hsteps2).
  exists st2. unfold jsmn_parse, mbind, M_bind. cbn [mget]. change (js_toknext (jsmn_init (Some l))) with 0. rewrite Hloop.
  destruct (has_open st2) eqn:Hopen; [done|exfalso].
  destruct (parser_ok_lookup _ _ _ 0 Hok2 ltac:(lia)) as (t & Ht & _).
  destruct (parser_ok_closed _ _ _ 0 t Hok2 Hopen ltac:(lia) Ht) as [(s & e & _ & He & Hse & _) _].
  assert (Hroot : root_end e (longer x st2)).
  { exists (l2 ++ x), t. split_and!; [apply longer_tokens, Hok2|by apply lookup_app_l_Some|done]. }
  assert (Hokx : parser_ok (length (pre ++ suf)) (longer x st2) (l2 ++ x)).
  { apply longer_ok. destruct Hok2 as [H1 H2 H3 H4]. constructor; [done..|]. intros i t' Hi Hti.
    destruct (H4 i t' Hi Hti) as [(s' & Hs' & Hsp & He') Hpar]. constructor; [|done]. exists s'. split_and!; [done|done|].
    rewrite length_app. destruct (tok_end t'); [lia|done]. }
  destruct (longer_fields x st2) as (_ & Hnx & _).
  pose proof (steps_root _ _ _ e Hsteps2 _ Hokx ltac:(cbn [fst]; lia) Hroot) as (lf & tf & Hlf & Htf & Hef).
  injection Hlf as <-. injection Htf as <-. injection Hef as He2. change (length (print v) = e) in He2.
  assert (Hlen : length (print v) = length pre + length suf) by (by rewrite Hjs, length_app). destruct suf; [done|].
  cbn [length] in Hlen. lia.
Qed.
