(* ===== verification/PipeSpec.v ===== *)
(** * Requests on a command pipe

    A request is served once, when its last byte is read, however its bytes
    arrive. *)

From Stdlib Require Import ZArith Lia String.
From stdpp Require Import base tactics list gmap.
From S2P Require Import Prelude CLib World Proto Jsmn JsmnSpec JsonText JsmnPrefix JsonNumbers Printf Session Jsonrpc.
From S2P Require Import JsonrpcSpec Client ClientSpec Files ServerState Pipe.

#[local] Open Scope nat_scope.

(** ** Elements of a list, by pointer *)

Lemma assoc_set_eq {A} p (a b : A) l : assoc p l = Some b -> assoc p (assoc_set p a l) = Some a.
Proof.
  unfold assoc, assoc_set. induction l as [|[q y] l IH]; [done|]. cbn. case_decide as Hq; cbn.
  - subst q. rewrite bool_decide_eq_true_2 by done. cbn. by rewrite decide_True.
  - rewrite bool_decide_eq_false_2 by done. cbn. rewrite decide_False by done.
    destruct (list_find _ l) as [[i z]|] eqn:Hl; [|done]. intros Hb. cbn in *.
    assert (Ha := IH Hb). destruct (list_find _ (_ <$> l)) as [[j u]|]; [|done]. exact Ha.
Qed.

Lemma assoc_set_set {A} p (a b : A) l : assoc_set p b (assoc_set p a l) = assoc_set p b l.
Proof.
  unfold assoc_set. rewrite <- list_fmap_compose. apply list_fmap_ext. intros i [q y] _. cbn.
  destruct (decide (q = p)) as [->|Hq].
  - rewrite (bool_decide_eq_true_2 (p = p)) by done. cbn. by rewrite bool_decide_eq_true_2.
  - rewrite (bool_decide_eq_false_2 (q = p)) by done. cbn. by rewrite bool_decide_eq_false_2.
Qed.

Lemma assoc_set_same {A} p (a : A) l : NoDup (fst <$> l) -> assoc p l = Some a -> assoc_set p a l = l.
Proof.
  unfold assoc, assoc_set. induction l as [|[q y] l IH]; [done|]. cbn. intros [Hq Hnd]%NoDup_cons. case_decide as Hqp; cbn.
  - intros [= ->]. subst q. rewrite bool_decide_eq_true_2 by done. f_equal.
    transitivity (id <$> l); [|by apply list_fmap_id]. apply list_fmap_ext. intros i [r z] Hr. cbn.
    rewrite bool_decide_eq_false_2; [done|]. intros ->. apply Hq, list_elem_of_fmap. exists (p, z). split; [done|].
    by eapply list_elem_of_lookup_2.
  - rewrite bool_decide_eq_false_2 by done. intros Ha. f_equal. apply IH; [done|].
    destruct (list_find _ l) as [[i z]|]; [|done]. exact Ha.
Qed.

Section PipeServed.
Context {E : Endianness} {C : LibC} {L : Libevent} {F : FileSystem} (debug : bool).

(** ** Termination *)

(** A turn for each [reallocarray] that may fail, twice the bytes and one turn for the count; a request is at least a byte long. *)
Lemma pipe_requests_ends fuel : forall reallocs input tokens ntokens,
  length reallocs + 2 * evbuffer_get_length input + (if (tokens : bool) then 0 else 1) < fuel ->
  ends (pipe_requests debug fuel reallocs input tokens ntokens).
Proof.
  induction fuel as [|fuel IH]; intros reallocs input tokens ntokens Hm; [lia|]. cbn [pipe_requests].
  apply ends_bind. intros c. destruct (jsmn_parse _ _) as [rv st|] eqn:Hparse; [|by intros s s'].
  apply ends_bind. intros _. destruct rv as [[]|[|n]]; try (by intros s s'). destruct tokens.
  - do 3 (apply ends_bind; intros _). destruct (default [] (js_tokens st) !! 0) as [t|] eqn:Ht; [|by intros s s'].
    pose proof (parsed_first _ _ _ _ n t Hparse eq_refl Ht) as Hsize. pose proof (contiguous_le input) as Hle.
    apply ends_deref. destruct (_ <=? _); [by intros s s'|]. apply IH.
    rewrite get_length_bytes, pullup_bytes, <- get_length_bytes, length_drain. lia.
  - destruct reallocs as [|[] reallocs]; cbn [tail length] in *; apply ends_bind; intros _; apply IH; cbn [length]; lia.
Qed.

Lemma pipe_reads_end reallocs input : ends (pipe_requests debug (pipe_fuel reallocs input) reallocs input false 0).
Proof. apply pipe_requests_ends. unfold pipe_fuel. lia. Qed.

(** ** Objects *)

(** The client of the pipe between two reads: only its array of tokens changes. *)
Definition idle (c : lgtd_client) (tokens : list jsmntok_t) : lgtd_client :=
  client_with c (cl_json c) tokens (cl_output c) (cl_current_request c).

Lemma idle_self c : idle c (cl_jsmn_tokens c) = c.
Proof. by destruct c. Qed.

(** The first pass counts the tokens and the second one is run. *)
Lemma pipe_requests_count fuel input ntokens m st s :
  jsmn_parse (evbuffer_contiguous input) (jsmn_init None) = Ret (inr (S m)) st -> js_tokens st = None ->
  pipe_requests debug (S fuel) [] input false ntokens s
  = pipe_requests debug fuel [] input true (S m)
      {| se_world := se_world s;
         se_client := set_cl_jsmn_tokens (reallocarray (cl_jsmn_tokens (se_client s)) (S m)) (se_client s) |}.
Proof.
  intros Hcount Hst. cbn [pipe_requests]. cbv zeta. rewrite (run_bind _ _ s (se_client s) s) by done. rewrite Hcount, Hst.
  rewrite (run_bind _ _ s tt s) by (by destruct s as [w []]). erewrite run_bind by reflexivity. done.
Qed.

(** The beginning of an object stays in the buffer. *)
Lemma pipe_requests_part members pre suf input fuel w c :
  wf_json (JObject members) = true -> print (JObject members) = pre ++ suf -> suf <> [] ->
  holds input pre -> length pre < LGTD_CLIENT_MAX_REQUEST_BUF_SIZE ->
  exists tokens, pipe_requests debug (S (S fuel)) [] input false 0 {| se_world := w; se_client := c |}
    = Ret (Some (input, false)) {| se_world := w; se_client := idle c tokens |}.
Proof.
  intros Hwf Hjs Hsuf [Hbytes Hcont] Hmax.
  assert (Hsmall : (LGTD_CLIENT_MAX_REQUEST_BUF_SIZE <=? evbuffer_get_length input) = false)
    by (apply Nat.leb_gt; by rewrite get_length_bytes, Hbytes).
  set (s := {| se_world := w; se_client := c |}).
  assert (Hc : forall n, length (take n (reallocarray (cl_jsmn_tokens c) n)) = n) by (intros n; apply reallocarray_length).
  destruct (object_prefix members pre suf [] Hwf Hjs Hsuf) as [(st & Hpart & Hst)|(n & st & Hcount & Hst & _)].
  - exists (cl_jsmn_tokens c). cbn [pipe_requests]. rewrite (run_bind _ _ s c s) by done. cbv zeta. rewrite Hcont, Hpart, Hst.
    rewrite (run_bind _ _ s tt s) by (by destruct c). rewrite Hsmall, idle_self. done.
  - destruct n as [|m].
    { exists (cl_jsmn_tokens c). cbn [pipe_requests]. rewrite (run_bind _ _ s c s) by done. cbv zeta. rewrite Hcont, Hcount, Hst.
      rewrite (run_bind _ _ s tt s) by (by destruct c). rewrite Hsmall, idle_self. done. }
    rewrite (pipe_requests_count _ input 0 m st s) by (done || by rewrite Hcont).
    set (l := take (S m) (reallocarray (cl_jsmn_tokens c) (S m))).
    destruct (object_prefix members pre suf l Hwf Hjs Hsuf) as [(st' & Hpart & _)|(n & st' & Hcount' & _ & Hl)];
      [by rewrite Hpart in Hcount|]. rewrite Hcount in Hcount'. injection Hcount' as <- <-.
    destruct Hl as [|Hl]; [done|]. destruct (Hl (Hc (S m))) as [st2 Hpart].
    set (s1 := {| se_world := se_world s; se_client := _ |}). cbn [pipe_requests].
    rewrite (run_bind _ _ s1 (se_client s1) s1) by done. cbv zeta. rewrite Hcont.
    change (take (S m) (cl_jsmn_tokens (se_client s1))) with l. rewrite Hpart. erewrite run_bind by reflexivity.
    rewrite Hsmall. by eexists.
Qed.

(** A whole object is dispatched and leaves the buffer empty. *)
Lemma pipe_requests_object v input fuel w w' c out req :
  json_type v = JSMN_OBJECT -> wf_json v = true -> holds input (print v) ->
  lgtd_jsonrpc_dispatch_request debug (ntokens v)
    {| se_world := w; se_client := client_with c (print v) (tokens_of v 0 0 None) (cl_output c) (cl_current_request c) |}
  = Ret tt {| se_world := w'; se_client := client_with c (print v) (tokens_of v 0 0 None) out req |} ->
  exists rest, pipe_requests debug (S (S fuel)) [] input false 0 {| se_world := w; se_client := c |}
    = Ret (Some (rest, false)) {| se_world := w'; se_client := client_with c [] (tokens_of v 0 0 None) out req |}
  /\ evbuffer_bytes rest = [].
Proof.
  intros Hobj Hwf [Hbytes Hcont] Hrun. assert (Hnp : forall t, v <> JPrimitive t) by (by intros t ->).
  set (s := {| se_world := w; se_client := c |}). set (n := ntokens v) in *.
  destruct n as [|m] eqn:Hm; [pose proof (ntokens_pos v); unfold n in Hm; lia|].
  destruct (count_print v (replicate n undefined_token) Hwf Hnp ltac:(by rewrite length_replicate)) as [st0 Hcount].
  assert (Hst0 : js_tokens st0 = None).
  { destruct (count_run (print v)) as (r & st & Hst & Hnone). rewrite Hcount in Hst. by injection Hst as _ <-. }
  fold n in Hcount. rewrite Hm in Hcount.
  rewrite (pipe_requests_count _ input 0 m st0 s) by (done || by rewrite Hcont).
  set (l := take (S m) (reallocarray (cl_jsmn_tokens c) (S m))).
  assert (Hl : length l = S m) by apply reallocarray_length.
  pose proof (parse_print v l Hwf Hnp ltac:(fold n; rewrite Hl, Hm; lia)) as Hparse. fold n in Hparse.
  rewrite drop_ge, app_nil_r in Hparse by (by rewrite Hl, Hm).
  set (s1 := {| se_world := se_world s; se_client := _ |}). cbn [pipe_requests].
  rewrite (run_bind _ _ s1 (se_client s1) s1) by done. cbv zeta. rewrite Hcont.
  change (take (S m) (cl_jsmn_tokens (se_client s1))) with l. rewrite Hparse, Hm. cbn [js_tokens default from_option]. unfold Datatypes.id.
  do 2 erewrite run_bind by reflexivity.
  set (s2 := {| se_world := w'; se_client := client_with c (print v) (tokens_of v 0 0 None) out req |}) in Hrun.
  rewrite (run_bind _ _ _ tt s2 Hrun). erewrite run_bind by reflexivity.
  assert (Ht : exists t, tokens_of v 0 0 None !! 0 = Some t /\ tok_to t = length (print v)).
  { destruct v as [| | |members]; try done. rewrite tokens_of_object. by eexists. }
  destruct Ht as (t & Ht & Hend). set (s3 := {| se_world := w'; se_client := client_with c [] (tokens_of v 0 0 None) out req |}).
  rewrite (run_bind _ _ _ t s3) by (by rewrite Ht). rewrite Hend.
  rewrite (proj2 (Nat.leb_le _ _)) by (by rewrite get_length_bytes, Hbytes).
  eexists. split; [reflexivity|]. by rewrite drain_bytes, Hbytes, drop_all.
Qed.

(** ** The reads *)

(** The reads of some bytes, in pieces of any size. *)
Inductive arrives : list read_result -> list Z -> Prop :=
| arrives_nil : arrives [] []
| arrives_EINTR reads text : arrives reads text -> arrives (read_EINTR :: reads) text
| arrives_bytes bytes reads text : bytes <> [] -> arrives reads text -> arrives (read_bytes bytes :: reads) (bytes ++ text).

(** The pipe with another buffer and another state of its client. *)
Definition pipe_with (pipe : lgtd_command_pipe) (buf : evbuffer) (c : lgtd_client) : lgtd_command_pipe :=
  {| pipe_path := pipe_path pipe; pipe_fd := pipe_fd pipe; pipe_read_buf := buf; pipe_client := c |}.

(** The daemon when only the world and that pipe changed. *)
Definition with_pipe (s : server) (p : positive) (pipe : lgtd_command_pipe) (w : world) : server :=
  set_sv_pipes (assoc_set p pipe (sv_pipes s)) (set_sv_world w s).

Lemma with_pipe_twice s p pipe pipe' w w' : with_pipe (with_pipe s p pipe w) p pipe' w' = with_pipe s p pipe' w'.
Proof. unfold with_pipe at 3. by rewrite <- (assoc_set_set p pipe pipe' (sv_pipes s)). Qed.

Lemma pipe_added bytes buf pre :
  evbuffer_bytes buf = pre -> holds (evbuffer_pullup (evbuffer_add bytes buf)) (pre ++ bytes).
Proof. intros <-. split; [by rewrite pullup_bytes, add_bytes|by rewrite pullup_contiguous, add_bytes]. Qed.

Lemma pipe_fuel_two input : exists fuel, pipe_fuel [] input = S (S fuel).
Proof. exists (2 * evbuffer_get_length input). unfold pipe_fuel. cbn. lia. Qed.

(** One read. *)
Lemma pipe_read_step bytes reads p pipe s rest w' c' :
  assoc p (sv_pipes s) = Some pipe ->
  let input := evbuffer_pullup (evbuffer_add bytes (pipe_read_buf pipe)) in
  pipe_requests debug (pipe_fuel [] input) [] input false 0 {| se_world := sv_world s; se_client := pipe_client pipe |}
  = Ret (Some (rest, false)) {| se_world := w'; se_client := c' |} ->
  pipe_read_loop debug [] (read_bytes bytes :: reads) p s
  = pipe_read_loop debug [] reads p (with_pipe s p (pipe_with pipe rest c') w').
Proof.
  intros Hp input Hrun. cbn [pipe_read_loop]. rewrite (run_bind _ _ s pipe s).
  2:{ unfold get_pipe, mbind, M_bind, mget. by rewrite Hp. }
  cbv zeta. cbn [head tail default]. fold input. rewrite (run_bind _ _ s (Some (rest, false), c') (set_sv_world w' s)).
  2:{ unfold on_client. by rewrite Hrun. }
  cbn [fst]. rewrite (run_bind _ _ _ (rest, false) (set_sv_world w' s)) by done. by erewrite run_bind by reflexivity.
Qed.

(** After the last byte. *)
Lemma pipe_read_nothing reads text p s : arrives reads text -> text = [] -> pipe_read_loop debug [] reads p s = Ret false s.
Proof.
  induction 1 as [|reads text _ IH|bytes reads text Hb _ _]; [done|exact IH|].
  intros [? _]%app_eq_nil. done.
Qed.

(** An object that arrives in pieces: its beginning waits in the buffer, and it is
    dispatched after its last byte. *)
Lemma pipe_object_served members reads text p pipe w w' c out req :
  let v := JObject members in
  wf_json v = true -> length (print v) <= LGTD_CLIENT_MAX_REQUEST_BUF_SIZE ->
  lgtd_jsonrpc_dispatch_request debug (ntokens v)
    {| se_world := w; se_client := client_with c (print v) (tokens_of v 0 0 None) (cl_output c) (cl_current_request c) |}
  = Ret tt {| se_world := w'; se_client := client_with c (print v) (tokens_of v 0 0 None) out req |} ->
  arrives reads text -> text <> [] -> forall s tokens buf,
  assoc p (sv_pipes s) = Some (pipe_with pipe buf (idle c tokens)) -> sv_world s = w -> print v = evbuffer_bytes buf ++ text ->
  exists rest, pipe_read_loop debug [] reads p s
    = Ret false (with_pipe s p (pipe_with pipe rest (client_with c [] (tokens_of v 0 0 None) out req)) w')
  /\ evbuffer_bytes rest = [].
Proof.
  intros v Hwf Hmax Hdispatch. induction 1 as [|reads text Ha IH|bytes reads text Hb Ha IH]; intros Ht s tokens buf Hp Hw Hv.
  - done.
  - by apply (IH Ht s tokens buf).
  - set (input := evbuffer_pullup (evbuffer_add bytes buf)).
    pose proof (pipe_added bytes buf _ eq_refl) as Hin. fold input in Hin. destruct (pipe_fuel_two input) as [fuel Hfuel].
    destruct (decide (text = [])) as [->|Htext].
    + rewrite app_nil_r in Hv. rewrite <- Hv in Hin.
      destruct (pipe_requests_object v input fuel w w' (idle c tokens) out req eq_refl Hwf Hin Hdispatch) as (rest & Hrun & Hrest).
      exists rest. split; [|done]. rewrite (pipe_read_step bytes reads p _ s rest w' (client_with c [] (tokens_of v 0 0 None) out req) Hp).
      2:{ cbn [pipe_read_buf pipe_client pipe_with]. fold input. rewrite Hfuel, Hw. exact Hrun. }
      by rewrite (pipe_read_nothing reads [] p).
    + rewrite app_assoc in Hv. assert (Hlen : length (evbuffer_bytes buf ++ bytes) < LGTD_CLIENT_MAX_REQUEST_BUF_SIZE).
      { rewrite Hv, length_app in Hmax. destruct text; [done|]. cbn [length] in Hmax. lia. }
      destruct (pipe_requests_part members _ text input fuel w (idle c tokens) Hwf Hv Htext Hin Hlen) as [tokens' Hrun].
      rewrite (pipe_read_step bytes reads p _ s input w (idle c tokens') Hp).
      2:{ cbn [pipe_read_buf pipe_client pipe_with]. fold input. rewrite Hfuel, Hw. exact Hrun. }
      destruct (IH Htext (with_pipe s p (pipe_with pipe input (idle c tokens')) w) tokens' input) as (rest & Hend & Hrest).
      * by eapply assoc_set_eq.
      * done.
      * by rewrite (proj1 Hin).
      * exists rest. split; [|done]. rewrite with_pipe_twice in Hend. exact Hend.
Qed.
End PipeServed.
