(* ===== verification/SocketsSpec.v ===== *)
(** * Opening pipes and sockets

    What [lgtd_command_pipe_open] and [lgtd_listen_unix_open] leave on each of
    their exits. *)

From Stdlib Require Import ZArith Lia String.
From stdpp Require Import base tactics list gmap.
From S2P Require Import Prelude CLib World Invariant Jsmn Printf Session Client Files ServerState Connections Pipe Listen MakedirsSpec.

Section Sockets.
Context {L : Libevent} {F : FileSystem}.

(** What is open is as it was. *)
Record same_sockets (s s' : server) : Prop := {
  ss_clients : sv_clients s' = sv_clients s;
  ss_pipes : sv_pipes s' = sv_pipes s;
  ss_listeners : sv_listeners s' = sv_listeners s;
  ss_next : sv_next s' = sv_next s;
  ss_world : exists rs, sv_world s' = set_w_os_results rs (sv_world s)
}.

(** The descriptors [os] were opened and [cs] were closed, and nothing else. *)
Definition descriptors (os cs : list Z) (s s' : server) : Prop :=
  same_sockets s s' /\ sv_opened s' = sv_opened s ++ os /\ sv_closed s' = sv_closed s ++ cs.

(** Nothing is open or closed that was not. *)
Definition untouched (s s' : server) : Prop :=
  same_sockets s s' /\ sv_opened s' = sv_opened s /\ sv_closed s' = sv_closed s.

Lemma descriptors_none s s' : untouched s s' <-> descriptors [] [] s s'.
Proof. unfold descriptors. by rewrite !app_nil_r. Qed.

Lemma untouched_files s s' : files_frame s s' -> untouched s s'.
Proof. intros (rs & f & ->). split; [split; cbn; eauto|by split]. Qed.

Lemma untouched_trans s1 s2 s3 : untouched s1 s2 -> untouched s2 s3 -> untouched s1 s3.
Proof.
  intros [[Hc1 Hp1 Hl1 Hn1 [r1 Hw1]] [Ho1 Hk1]] [[Hc2 Hp2 Hl2 Hn2 [r2 Hw2]] [Ho2 Hk2]]. split; [split|split]; try congruence.
  exists r2. rewrite Hw2, Hw1. by destruct (sv_world s1).
Qed.

Lemma untouched_same s1 s2 s3 : same_sockets s1 s2 -> untouched s2 s3 -> same_sockets s1 s3.
Proof.
  intros [Hc1 Hp1 Hl1 Hn1 [r1 Hw1]] [[Hc2 Hp2 Hl2 Hn2 [r2 Hw2]] _]. split; try congruence.
  exists r2. rewrite Hw2, Hw1. by destruct (sv_world s1).
Qed.

Lemma descriptors_then os cs s1 s2 s3 : descriptors os cs s1 s2 -> untouched s2 s3 -> descriptors os cs s1 s3.
Proof.
  intros [[Hc1 Hp1 Hl1 Hn1 [r1 Hw1]] [Ho1 Hk1]] [[Hc2 Hp2 Hl2 Hn2 [r2 Hw2]] [Ho2 Hk2]]. split; [split|split]; try congruence.
  exists r2. rewrite Hw2, Hw1. by destruct (sv_world s1).
Qed.

(** The steps that only look, or ask the system. *)
Lemma wp_call_then {B} (k : bool -> M server B) (Q : B -> server -> Prop) os cs s0 s :
  descriptors os cs s0 s -> (forall b s', descriptors os cs s0 s' -> sv_fs s' = sv_fs s -> wp (k b) Q s') -> wp (call ≫= k) Q s.
Proof.
  intros Hs Hk. apply wp_bind, wp_call. intros b rs. apply Hk; [|done].
  eapply descriptors_then; [exact Hs|]. split; [split; cbn; eauto|done].
Qed.

Lemma wp_open_then {B} fd (k : bool -> M server B) (Q : B -> server -> Prop) s0 s :
  untouched s0 s ->
  (forall b s', descriptors (if (b : bool) then [fd] else []) [] s0 s' -> sv_fs s' = sv_fs s -> wp (k b) Q s') ->
  wp (open_descriptor fd ≫= k) Q s.
Proof.
  intros Hs%descriptors_none Hk. apply wp_bind. unfold open_descriptor. eapply wp_call_then; [exact Hs|].
  intros b s' Hs' Hfs. apply wp_bind. destruct b; [apply wp_modify|]; apply wp_ret; try apply wp_ret; (apply Hk; [|done]); [|done].
  destruct Hs' as [[Hc Hp Hl Hn Hw] [Ho Hcl]]. split; [by split|]. cbn. rewrite Ho, app_nil_r. by rewrite Hcl.
Qed.

Lemma wp_fs_then {A B} (f : fs -> A * fs) (k : A -> M server B) (Q : B -> server -> Prop) os cs s0 s :
  descriptors os cs s0 s -> (forall a s', descriptors os cs s0 s' -> f (sv_fs s) = (a, sv_fs s') -> wp (k a) Q s') -> wp (fs_call f ≫= k) Q s.
Proof.
  intros Hs Hk. apply wp_bind. unfold wp at 1, fs_call. destruct (f (sv_fs s)) as [a fs'] eqn:Hf.
  apply Hk; [|done]. eapply descriptors_then; [exact Hs|]. apply untouched_files.
  exists (w_os_results (sv_world s)), fs'. by destruct s as [[]].
Qed.

Lemma wp_makedirs_then {B} path (k : bool -> M server B) (Q : B -> server -> Prop) s0 s :
  Forall (fun c => c <> 0) path -> untouched s0 s ->
  (forall ok s', untouched s0 s' -> wp (k ok) Q s') -> wp (lgtd_daemon_makedirs path ≫= k) Q s.
Proof.
  intros Hc Hs Hk. apply wp_bind. eapply wp_mono; [by apply wp_lgtd_daemon_makedirs|].
  intros ok s' (Hf & _). apply Hk. eapply untouched_trans; [exact Hs|by apply untouched_files].
Qed.

(** ** Pipes *)

Definition has_pipe (path : list Z) (s : server) : Prop :=
  Exists (fun x => strcmp_eq (pipe_path (snd x)) path = true) (sv_pipes s).

Definition new_pipe (path : list Z) (fd : Z) : lgtd_command_pipe :=
  {| pipe_path := path; pipe_fd := fd; pipe_read_buf := evbuffer_new;
     pipe_client := {| cl_io := false; cl_output := []; cl_addr := None; cl_jsmn_tokens := []; cl_json := [];
                       cl_current_request := None |} |}.

(** The file at the path is neither a pipe nor missing. *)
Definition not_a_pipe (path : list Z) (s : server) : Prop :=
  fs_stat path (sv_fs s) <> stat_ENOENT /\ fs_stat path (sv_fs s) <> stat_is S_IFIFO.

(** The descriptor is opened and is the pipe's; on a failure exactly what was opened
    is closed, but for a file that is not a pipe, where nothing was opened and 0
    is closed. *)
Definition pipe_opened (path : list Z) (fd : Z) (s : server) (ok : bool) (s' : server) : Prop :=
  if ok then
    has_pipe path s /\ s' = s
    \/ ~ has_pipe path s /\ exists s1, descriptors [fd] [] s s1
       /\ s' = set_sv_pipes ((sv_next s, new_pipe path fd) :: sv_pipes s) (set_sv_next (Pos.succ (sv_next s)) s1)
  else (exists os, (os = [] \/ os = [fd]) /\ descriptors os os s s') \/ (descriptors [] [0] s s' /\ not_a_pipe path s').

(** The same, whatever [fd] is: -1 is not closed. *)
Definition pipe_kept (path : list Z) (fd : Z) (s : server) (ok : bool) (s' : server) : Prop :=
  if ok then pipe_opened path fd s true s' else same_sockets s s' /\ (fd <> -1 -> pipe_opened path fd s false s').

Lemma wp_pipe_open_error path fd os x s s1 :
  descriptors os [] s s1 -> (os = [] /\ x = -1) \/ (os = [fd] /\ x = fd) \/ (os = [] /\ x = 0 /\ not_a_pipe path s1) ->
  wp (pipe_open_error x) (pipe_kept path fd s) s1.
Proof.
  intros Hs Hx. pose proof Hs as [Hsame [Ho Hk]]. rewrite app_nil_r in Hk. unfold pipe_open_error. apply wp_bind.
  destruct (Z.eqb_spec x (-1)) as [->|Hne]; cbn [negb].
  - apply wp_ret, wp_ret. split; [done|]. intros Hfd. left. exists []. split; [by left|].
    destruct Hx as [[-> _]|[[_ ?]|(_ & ? & _)]]; [done|congruence|done].
  - unfold close. apply wp_modify, wp_ret. pose proof Hsame as [Hc Hp Hl Hn Hw]. split; [by split|]. intros Hfd. cbn [pipe_opened].
    assert (Hd : descriptors os [x] s (set_sv_closed (sv_closed s1 ++ [x]) s1)) by (split; [by split|split; [done|cbn; by rewrite Hk]]).
    destruct Hx as [[_ ->]|[[-> ->]|(-> & -> & Hfile)]]; [done|left; exists [fd]; by split; [right|]|by right].
Qed.

Lemma wp_pipe_open_events path fd s s1 :
  descriptors [fd] [] s s1 -> ~ has_pipe path s -> wp (pipe_open_events path fd) (pipe_kept path fd s) s1.
Proof.
  intros Hs Hno. unfold pipe_open_events.
  do 4 (eapply wp_call_then; [eassumption|]; clear Hs; intros [] ? Hs _; cbn [negb];
        [|eapply wp_pipe_open_error; [done|by right; left]]).
  pose proof Hs as [[Hc Hp Hl Hn Hw] Hk].
  apply wp_bind. unfold wp at 1, fresh. cbv zeta. apply wp_bind, wp_modify, wp_ret.
  cbn [pipe_kept pipe_opened]. right. split; [done|]. eexists. split; [exact Hs|]. cbn. by rewrite Hp, Hn.
Qed.

Lemma wp_command_pipe_open path fd s :
  Forall (fun c => c <> 0) path -> wp (command_pipe_open path fd) (pipe_kept path fd s) s.
Proof.
  intros Hc. unfold command_pipe_open. apply wp_bind, wp_get. case_bool_decide as Hhas; [apply wp_ret; by left|].
  assert (Hsame : forall s1, descriptors [] [] s s1 -> pipe_kept path fd s false s1).
  { intros s1 Hs. split; [apply Hs|]. intros _. left. exists []. by split; [left|]. }
  eapply wp_makedirs_then; [done|by apply untouched_files, files_frame_refl|]. intros ok s1 Hs1%descriptors_none.
  destruct ok; cbn [negb]; [|by apply wp_ret, Hsame].
  eapply wp_call_then; [done|]. intros [] s2 Hs2 _; cbn [negb]; [|by apply wp_ret, Hsame].
  apply wp_bind, wp_gets. case_bool_decide as Hfile; cbn [negb].
  2:{ eapply wp_pipe_open_error; [exact Hs2|]. right; right. unfold not_a_pipe. tauto. }
  eapply wp_fs_then; [done|]. intros made s3 Hs3 _.
  assert (Herr : wp (pipe_open_error (-1)) (pipe_kept path fd s) s3) by (eapply wp_pipe_open_error; [exact Hs3|by left]).
  assert (Hopen : wp (mode ← mgets (fun s => fs_chmod path (sv_fs s)); if negb mode then pipe_open_error (-1) else
    opened ← open_descriptor fd; if negb opened then pipe_open_error (-1) else pipe_open_events path fd) (pipe_kept path fd s) s3).
  { apply wp_bind, wp_gets. destruct (negb _); [done|].
    eapply wp_open_then; [by apply descriptors_none|]. intros [] s4 Hs4 _; cbn [negb];
      [by apply wp_pipe_open_events|eapply wp_pipe_open_error; [exact Hs4|by left]]. }
  by destruct made.
Qed.

(** ** Unix sockets *)

(** A socket is at the path, its listener is in the list and the descriptor is open, or
    exactly what was opened is closed. *)
Definition unix_opened (path : list Z) (fd : Z) (s : server) (ok : bool) (s' : server) : Prop :=
  if ok then
    existsb (listens_at_path path) (sv_listeners s) = true /\ s' = s
    \/ existsb (listens_at_path path) (sv_listeners s) = false /\ fs_stat path (sv_fs s') = stat_is S_IFSOCK
       /\ exists s1, descriptors [fd] [] s s1 /\ s' = set_sv_listeners ({| li_sockaddr := sockaddr_un path |} :: sv_listeners s) s1
  else exists os, (os = [] \/ os = [fd]) /\ descriptors os os s s'.

Definition unix_kept (path : list Z) (fd : Z) (s : server) (ok : bool) (s' : server) : Prop :=
  if ok then unix_opened path fd s true s' else same_sockets s s' /\ (fd <> -1 -> unix_opened path fd s false s').

Lemma wp_unix_open_error path fd os x s s1 :
  descriptors os [] s s1 -> (os = [] /\ x = -1) \/ (os = [fd] /\ x = fd) -> wp (unix_open_error path x) (unix_kept path fd s) s1.
Proof.
  intros Hs Hx. pose proof Hs as [Hsame [Ho Hk]]. rewrite app_nil_r in Hk. unfold unix_open_error. apply wp_bind.
  assert (Hend : forall s2, same_sockets s s2 -> (fd <> -1 -> descriptors os os s s2) ->
    wp (fs_call (fs_unlink path) ;; mret false) (unix_kept path fd s) s2).
  { intros s2 [Hc Hp Hl Hn Hw] Hd. eapply (wp_fs_then _ _ _ [] [] s2); [by apply descriptors_none, untouched_files, files_frame_refl|].
    intros r s3 Hs3%descriptors_none _. apply wp_ret. split.
    - eapply untouched_same; [|exact Hs3]. by split.
    - intros Hfd. exists os. split; [by destruct Hx as [[-> _]|[-> _]]; [left|right]|]. eapply descriptors_then; [by apply Hd|done]. }
  destruct (Z.eqb_spec x (-1)) as [->|Hne]; cbn [negb].
  - apply wp_ret. apply Hend; [done|]. intros Hfd. destruct Hx as [[-> _]|[_ ?]]; [done|congruence].
  - unfold close. apply wp_modify. pose proof Hsame as [Hc Hp Hl Hn Hw]. apply Hend; [by split|]. intros Hfd.
    destruct Hx as [[_ ->]|[-> ->]]; [done|]. split; [by split|]. split; [done|]. cbn. by rewrite Hk.
Qed.

Lemma wp_unix_bind path fd s s1 :
  descriptors [fd] [] s s1 -> existsb (listens_at_path path) (sv_listeners s) = false ->
  wp (unix_bind path fd) (unix_kept path fd s) s1.
Proof.
  intros Hs Hno. unfold unix_bind. eapply wp_fs_then; [done|]. intros bound s2 Hs2 Hbind.
  destruct bound; try (by eapply wp_unix_open_error; [exact Hs2|right]). apply bind_makes in Hbind.
  apply wp_bind, wp_gets. destruct (negb _); [by eapply wp_unix_open_error; [exact Hs2|right]|].
  eapply wp_call_then; [done|]. intros [] s3 Hs3 Hfs; cbn [negb]; [|by eapply wp_unix_open_error; [exact Hs3|right]].
  apply wp_bind, wp_modify, wp_ret. right. split; [done|]. cbn. rewrite Hfs. split; [done|].
  exists s3. by rewrite (ss_listeners _ _ (proj1 Hs3)).
Qed.

Lemma wp_lgtd_listen_unix_open path fd s :
  Forall (fun c => c <> 0) path -> wp (lgtd_listen_unix_open path fd) (unix_kept path fd s) s.
Proof.
  intros Hc. unfold lgtd_listen_unix_open.
  assert (Hsame : forall s1, untouched s s1 -> unix_kept path fd s false s1).
  { intros s1 Hs. split; [apply Hs|]. intros _. exists []. split; [by left|by apply descriptors_none]. }
  assert (Hs : untouched s s) by apply untouched_files, files_frame_refl.
  destruct (_ <? _)%nat; [by apply wp_ret, Hsame|]. apply wp_bind, wp_get.
  destruct (existsb _ _) eqn:Hhas; [apply wp_ret; by left|].
  eapply wp_makedirs_then; [done|done|]. clear Hs. intros [] ? Hs; cbn [negb]; [|by apply wp_ret, Hsame].
  apply descriptors_none in Hs.
  do 2 (eapply wp_call_then; [eassumption|]; clear Hs; intros [] ? Hs _; cbn [negb]; [|by eapply wp_unix_open_error; [eassumption|left]]).
  apply descriptors_none in Hs. eapply wp_open_then; [eassumption|]. clear Hs. intros [] ? Hs _; cbn [negb];
    [|by eapply wp_unix_open_error; [eassumption|left]].
  eapply wp_call_then; [eassumption|]. clear Hs. intros [] ? Hs _; cbn [negb]; [|by eapply wp_unix_open_error; [eassumption|right]].
  apply wp_bind, wp_gets.
  destruct (fs_stat _ _) as [[]| |]; try (by eapply wp_unix_open_error; [eassumption|right]); [|by apply wp_unix_bind].
  eapply wp_fs_then; [eassumption|]. intros removed s2 Hs2 _.
  destruct removed; try (by eapply wp_unix_open_error; [eassumption|right]); by apply wp_unix_bind.
Qed.
End Sockets.
