(* ===== verification/ServerThms.v ===== *)
(** * Command pipes and listening sockets

    The properties of core/pipe.c, core/listen.c and the directories core/daemon.c
    makes for them, and the runs where they stop short of their intent. *)

From Stdlib Require Import ZArith Lia String.
From stdpp Require Import base tactics list gmap.
From S2P Require Import Prelude CLib WireBits PacketInfo WireProto World Proto Invariant Daemon Example.
From S2P Require Import Jsmn JsmnSpec JsonText JsonNumbers Printf Session Jsonrpc JsonrpcLoops JsonrpcSpec Client ClientSpec RpcThms.
From S2P Require Import Files ServerState Connections Pipe Listen MakedirsSpec PipeSpec SocketsSpec.

(** ** A daemon with a pipe, for the examples *)

#[local] Existing Instance little.
#[local] Existing Instance example_libc.
#[local] Existing Instance chains.
#[local] Existing Instance memory.

Definition run_path : list Z := bytes_of_string "/run/lightsd/pipe".

Definition example_pipe : lgtd_command_pipe :=
  {| pipe_path := run_path; pipe_fd := 7; pipe_read_buf := evbuffer_new;
     pipe_client := {| cl_io := false; cl_output := []; cl_addr := None; cl_jsmn_tokens := []; cl_json := [];
                       cl_current_request := None |} |}.

Definition example_files : fs :=
  list_to_map ((fun d => (bytes_of_string d, S_IFDIR)) <$> ["/"; "/run"; "/home"]%string).

Definition example_server (w : world) : server :=
  {| sv_world := w; sv_clients := []; sv_pipes := [(1%positive, example_pipe)]; sv_listeners := []; sv_next := 2;
     sv_fs := example_files; sv_opened := []; sv_closed := [] |}.

(** ** Requests on a pipe *)

(** C29: a command pipe serves a request when its last byte arrives: whatever the
    pieces the text of a [power_on], [power_off] or [power_toggle] request is read in,
    interrupted or not, the read callback runs the command of core/proto.c on exactly
    its targets, once, after the last piece; it writes no response, leaves the buffer
    of the pipe empty and changes nothing else. A request is at most 4096 bytes, and
    no allocation fails. *)
Theorem pipe_served {E : Endianness} {C : LibC} {L : Libevent} {F : FileSystem} debug name command ts id reads fd p pipe ok s w' :
  arrives reads (print (request_json name (target_params ts) id)) ->
  (length (print (request_json name (target_params ts) id)) <= LGTD_CLIENT_MAX_REQUEST_BUF_SIZE)%nat ->
  (name, command) ∈ power_commands -> forallb wf_string ts = true -> wf_json id = true -> valid_id id ->
  assoc p (sv_pipes s) = Some pipe -> evbuffer_bytes (pipe_read_buf pipe) = [] -> cl_io (pipe_client pipe) = false ->
  w_os_results (sv_world s) = [] -> command ts (sv_world s) = Ret (SEND_RESULT ok) w' ->
  exists rest c', lgtd_command_pipe_read_callback debug [] reads fd p s = Ret tt (with_pipe s p (pipe_with pipe rest c') w')
  /\ evbuffer_bytes rest = []
  /\ cl_output c' = cl_output (pipe_client pipe) /\ cl_current_request c' = None.
Proof.
  intros Ha Hmax Hname Hts Hwid Hid Hp Hbuf Hio Hos Hcommand. set (c := pipe_client pipe) in *.
  set (v := request_json name (target_params ts) id) in *.
  pose proof (power_command_method debug _ _ Hname) as Hm. destruct (targets_method_name debug _ _ Hm) as [_ Hwn].
  pose proof (dispatch_targets_run debug name _ ts id _ (sv_world s) w' c Hm Hid Hos (command_answers command ts ok _ _ _ Hcommand)) as Hrun.
  rewrite Hio, app_nil_r in Hrun.
  assert (Hself : pipe_with pipe (pipe_read_buf pipe) (idle c (cl_jsmn_tokens c)) = pipe) by (rewrite idle_self; by destruct pipe).
  destruct (pipe_object_served debug _ reads (print v) p pipe (sv_world s) w' c _ _
    (request_wf name _ id Hwn (target_params_wf ts Hts) Hwid) Hmax Hrun Ha ltac:(done) s (cl_jsmn_tokens c) (pipe_read_buf pipe))
    as (rest & Hend & Hrest); [by rewrite Hself|done|by rewrite Hbuf|].
  unfold lgtd_command_pipe_read_callback. rewrite (run_bind _ _ _ _ _ Hend). by eexists rest, _.
Qed.

Lemma pipe_served_witness :
  let text := print (request_json (bytes_of_string "power_on") (target_params example_ts) example_id) in
  exists rest c',
    lgtd_command_pipe_read_callback false []
      [read_bytes (take 15 text); read_EINTR; read_bytes (take 20 (drop 15 text)); read_bytes (drop 35 text)] 7 1
      (example_server example_world)
    = Ret tt (with_pipe (example_server example_world) 1 (pipe_with example_pipe rest c') example_power_on)
  /\ evbuffer_bytes rest = []
  /\ cl_output c' = [] /\ cl_current_request c' = None.
Proof.
  apply (pipe_served false (bytes_of_string "power_on") lgtd_proto_power_on example_ts example_id _ 7 1 example_pipe true
           (example_server example_world) example_power_on);
    [|apply Nat.leb_le; by vm_compute|by left|by vm_compute|by vm_compute|exact I|by vm_compute|done|done|by vm_compute|by vm_compute].
  eapply (eq_ind _ (arrives _)).
  - apply arrives_bytes; [by vm_compute|]. apply arrives_EINTR. do 2 (apply arrives_bytes; [by vm_compute|]). constructor.
  - by vm_compute.
Defined.

(** ** Directories *)

(** C31: [lgtd_daemon_makedirs] makes the directories above a file: on every path it
    returns, changes nothing but files and keeps every directory; when it returns true there is
    a directory at each ancestor of the path that [dirname] finds, up to the root; and
    it returns true when no allocation fails and each ancestor is a directory or can
    be made. *)
Theorem makedirs_correct {L : Libevent} {F : FileSystem} fp s :
  Forall (fun c => c <> 0) fp ->
  exists ok s', lgtd_daemon_makedirs fp s = Ret ok s' /\ files_frame s s' /\ dirs_kept s s'
  /\ (ok = true -> forall d, ancestor fp d -> fs_stat d (sv_fs s') = stat_is S_IFDIR)
  /\ (forall P, makeable P fp -> P (sv_fs s) -> w_os_results (sv_world s) = [] -> ok = true).
Proof.
  intros Hc. destruct (wp_run _ _ _ (wp_lgtd_daemon_makedirs fp s Hc)) as (ok & s' & Hrun & Hf & Hd & Hok).
  exists ok, s'. split_and!; [done..|]. intros P Hmake HP Hos.
  destruct (wp_run _ _ _ (lgtd_daemon_makedirs_works P fp s Hc Hmake HP Hos)) as (ok' & s'' & Hrun' & ->).
  rewrite Hrun in Hrun'. by injection Hrun' as ->.
Qed.

Lemma makedirs_correct_witness :
  exists ok s', lgtd_daemon_makedirs run_path (example_server example_world) = Ret ok s'
  /\ files_frame (example_server example_world) s' /\ dirs_kept (example_server example_world) s'
  /\ (ok = true -> forall d, ancestor run_path d -> fs_stat d (sv_fs s') = stat_is S_IFDIR)
  /\ (forall P, makeable P run_path -> P (sv_fs (example_server example_world)) ->
       w_os_results (sv_world (example_server example_world)) = [] -> ok = true).
Proof.
  apply (makedirs_correct run_path (example_server example_world)).
  apply (bool_decide_unpack _). by vm_compute.
Defined.

(** That directory was not there. *)
Example makedirs_run :
  match lgtd_daemon_makedirs run_path (example_server example_world) with
  | Ret ok s' => (ok, fs_stat (bytes_of_string "/run/lightsd") (sv_fs s'), fs_stat (bytes_of_string "/run/lightsd") example_files)
  | Crash _ => (false, stat_error, stat_error)
  end = (true, stat_is S_IFDIR, stat_ENOENT).
Proof. by vm_compute. Qed.

(** ** Opening *)

(** C30: opening a command pipe or a Unix socket at any path returns, with all of it or
    nothing. True means that one was at the path already and nothing changed, or that
    the new one is first in its list, on the one descriptor that was opened, none was
    closed and, for a socket, the file is a socket; false that the lists of pipes,
    listeners and clients are as they were and exactly the descriptor that was opened,
    if there was one, was closed. The exception is a command pipe at a file that is
    not a pipe: nothing was opened and the descriptor 0 is closed. *)
Theorem sockets_opened {L : Libevent} {F : FileSystem} path fd s :
  Forall (fun c => c <> 0) path -> fd <> -1 ->
  (exists ok s', lgtd_command_pipe_open path fd s = Ret ok s' /\ pipe_opened path fd s ok s')
  /\ (exists ok s', lgtd_listen_unix_open path fd s = Ret ok s' /\ unix_opened path fd s ok s').
Proof.
  intros Hc Hfd. split.
  - destruct (wp_run _ _ _ (wp_command_pipe_open path fd s Hc)) as (ok & s' & Hrun & Hs). exists ok, s'. split; [exact Hrun|].
    destruct ok; [exact Hs|by apply Hs].
  - destruct (wp_run _ _ _ (wp_lgtd_listen_unix_open path fd s Hc)) as (ok & s' & Hrun & Hs). exists ok, s'. split; [exact Hrun|].
    destruct ok; [exact Hs|by apply Hs].
Qed.

Lemma sockets_opened_witness :
  let path := bytes_of_string "/home/lights" in
  let s := example_server example_world in
  (exists ok s', lgtd_command_pipe_open path 8 s = Ret ok s' /\ pipe_opened path 8 s ok s')
  /\ (exists ok s', lgtd_listen_unix_open path 8 s = Ret ok s' /\ unix_opened path 8 s ok s').
Proof.
  apply (sockets_opened (bytes_of_string "/home/lights") 8 (example_server example_world)); [|discriminate].
  apply (bool_decide_unpack _). by vm_compute.
Defined.

(** ** Termination *)


(** ** Where the code stops short of its intent *)

(** While [reallocarray] fails, the loops do nothing but parse the same request again: any
    number of turns is spent without a response and without an end. *)
Theorem realloc_starves {E : Endianness} {C : LibC} {L : Libevent} debug v input fuel s :
  wf_json v = true -> json_type v = JSMN_OBJECT -> holds input (print v) ->
  (exists s', read_loop debug fuel (replicate fuel false) (print v) input false 0 s = Ret None s'
     /\ se_world s' = se_world s /\ cl_output (se_client s') = cl_output (se_client s))
  /\ (exists s', pipe_requests debug fuel (replicate fuel false) input false 0 s = Ret None s'
     /\ se_world s' = se_world s /\ cl_output (se_client s') = cl_output (se_client s)).
Proof.
  intros Hwf Hobj [_ Hcont]. assert (Hnp : forall t, v <> JPrimitive t) by (by intros t ->).
  destruct (count_print v (replicate (ntokens v) undefined_token) Hwf Hnp ltac:(by rewrite length_replicate)) as [st Hcount].
  assert (Hst : js_tokens st = None).
  { destruct (count_run (print v)) as (r & st' & Hrun & Hnone). rewrite Hcount in Hrun. by injection Hrun as _ <-. }
  destruct (ntokens v) as [|m] eqn:Hm; [pose proof (ntokens_pos v); lia|].
  generalize 0%nat at 1 2. intros k. split; revert k s; (induction fuel as [|fuel IH]; intros k s; [by exists s|]).
  all: cbn [read_loop pipe_requests replicate]; cbv zeta; rewrite ?Hcont, (run_bind _ _ s (se_client s) s), Hcount, Hst by done.
  all: rewrite (run_bind _ _ s tt s) by (by destruct s as [w []]); erewrite run_bind by reflexivity.
  all: destruct (IH (S m) {| se_world := se_world s; se_client := set_cl_jsmn_tokens [] (se_client s) |}) as (s' & -> & Hw & Ho);
    by exists s'.
Qed.

Lemma realloc_starves_witness :
  let v := request_json (bytes_of_string "power_on") (target_params example_ts) example_id in
  let s := {| se_world := example_world; se_client := example_client |} in
  exists s', read_loop false 100 (replicate 100 false) (print v) [print v] false 0 s = Ret None s'
    /\ cl_output (se_client s') = [].
Proof.
  cbv zeta. set (v := request_json _ _ _).
  destruct (@realloc_starves little example_libc chains false v [print v] 100 {| se_world := example_world; se_client := example_client |})
    as [(s' & Hrun & _ & Ho) _]; [by vm_compute|reflexivity|by vm_compute|]. exists s'. split; [exact Hrun|exact Ho].
Defined.

Definition bare_server (w : world) (files : fs) : server :=
  {| sv_world := w; sv_clients := []; sv_pipes := []; sv_listeners := []; sv_next := 1; sv_fs := files; sv_opened := []; sv_closed := [] |}.

Definition notes : list Z := bytes_of_string "/home/notes".

(** The files with a regular file among them. *)
Definition files_with_notes : fs := <[notes := S_IFREG]> example_files.

Definition light_state_request : list Z :=
  quoted "{'jsonrpc':'2.0','method':'get_light_state','params':['*'],'id':'x'}".

(** The result of a run and the part of its state that is looked at. *)
Definition seen {A B} (look : server -> B) (o : outcome server A) : option (A * B) :=
  match o with
  | Ret a s => Some (a, look s)
  | Crash _ => None
  end.

(** Five runs of core/listen.c and core/pipe.c against their intent. Listening on two
    TCP ports of the loopback address succeeds with a listener for the first one
    only; a client that cannot be allocated crashes the daemon, which prints the
    address of the null client; a Unix socket asked for at the path of a regular
    file fails but removes the file; a command pipe asked for there fails but
    closes the descriptor 0; and [get_light_state] on a command pipe fails an
    assertion, the client of a pipe having no address. *)
Theorem sockets_fall_short :
  let port n := sockaddr_in [127; 0; 0; 1] n in
  let s := bare_server example_world files_with_notes in
  seen sv_listeners ((lgtd_listen_open (Some [port 1]) ;; lgtd_listen_open (Some [port 2])) s)
    = Some (true, [{| li_sockaddr := port 1 |}])
  /\ lgtd_listen_accept_new_client {| li_sockaddr := port 1 |} (port 3) (port 1)
       (bare_server (set_w_os_results [false] example_world) example_files) = Crash UndefinedBehaviour
  /\ seen (fun s => fs_stat notes (sv_fs s)) (lgtd_listen_unix_open notes 8 s) = Some (false, stat_ENOENT)
  /\ seen sv_closed (lgtd_command_pipe_open notes 8 s) = Some (false, [0])
  /\ lgtd_command_pipe_read_callback false [] [read_bytes light_state_request] 7 1 (example_server example_world)
     = Crash AssertFailed.
Proof. cbv zeta. split_and!; by vm_compute. Qed.
