(* ===== verification/Process.v ===== *)
(** * The process

    [core/daemon.c]: the user it runs as, the pid file, its title, and the formats
    and facilities of syslog; the options of [core/lightsd.h], the signals of
    [core/lightsd.c] and its cleanup, which every error runs before it exits. *)

From Stdlib Require Import ZArith Lia String.
From stdpp Require Import base tactics list gmap.
From S2P Require Import Prelude CLib World Gateway Discovery Jsmn Printf Session Client Files ServerState.
From S2P Require Import Connections Pipe Listen.

(** ** Options *)

Inductive lgtd_verbosity : Type := LGTD_DEBUG | LGTD_INFO | LGTD_WARN | LGTD_ERR.

Record lgtd_opts : Type := {
  opts_foreground : bool;
  opts_log_timestamps : bool;
  opts_verbosity : lgtd_verbosity;
  opts_user : option (list Z);
  opts_group : option (list Z);
  opts_syslog : bool;
  opts_syslog_facility : Z;
  opts_syslog_ident : list Z;
  opts_pidfile : option (list Z)
}.

Definition set_opts_foreground (v : bool) (r : lgtd_opts) : lgtd_opts :=
  {| opts_foreground := v; opts_log_timestamps := opts_log_timestamps r; opts_verbosity :=
     opts_verbosity r; opts_user := opts_user r; opts_group := opts_group r; opts_syslog :=
     opts_syslog r; opts_syslog_facility := opts_syslog_facility r; opts_syslog_ident :=
     opts_syslog_ident r; opts_pidfile := opts_pidfile r |}.
Definition set_opts_log_timestamps (v : bool) (r : lgtd_opts) : lgtd_opts :=
  {| opts_foreground := opts_foreground r; opts_log_timestamps := v; opts_verbosity :=
     opts_verbosity r; opts_user := opts_user r; opts_group := opts_group r; opts_syslog :=
     opts_syslog r; opts_syslog_facility := opts_syslog_facility r; opts_syslog_ident :=
     opts_syslog_ident r; opts_pidfile := opts_pidfile r |}.
Definition set_opts_verbosity (v : lgtd_verbosity) (r : lgtd_opts) : lgtd_opts :=
  {| opts_foreground := opts_foreground r; opts_log_timestamps := opts_log_timestamps r;
     opts_verbosity := v; opts_user := opts_user r; opts_group := opts_group r; opts_syslog
     := opts_syslog r; opts_syslog_facility := opts_syslog_facility r; opts_syslog_ident :=
     opts_syslog_ident r; opts_pidfile := opts_pidfile r |}.
Definition set_opts_user (v : option (list Z)) (r : lgtd_opts) : lgtd_opts :=
  {| opts_foreground := opts_foreground r; opts_log_timestamps := opts_log_timestamps r;
     opts_verbosity := opts_verbosity r; opts_user := v; opts_group := opts_group r;
     opts_syslog := opts_syslog r; opts_syslog_facility := opts_syslog_facility r;
     opts_syslog_ident := opts_syslog_ident r; opts_pidfile := opts_pidfile r |}.
Definition set_opts_group (v : option (list Z)) (r : lgtd_opts) : lgtd_opts :=
  {| opts_foreground := opts_foreground r; opts_log_timestamps := opts_log_timestamps r;
     opts_verbosity := opts_verbosity r; opts_user := opts_user r; opts_group := v;
     opts_syslog := opts_syslog r; opts_syslog_facility := opts_syslog_facility r;
     opts_syslog_ident := opts_syslog_ident r; opts_pidfile := opts_pidfile r |}.
Definition set_opts_syslog (v : bool) (r : lgtd_opts) : lgtd_opts :=
  {| opts_foreground := opts_foreground r; opts_log_timestamps := opts_log_timestamps r;
     opts_verbosity := opts_verbosity r; opts_user := opts_user r; opts_group := opts_group
     r; opts_syslog := v; opts_syslog_facility := opts_syslog_facility r; opts_syslog_ident
     := opts_syslog_ident r; opts_pidfile := opts_pidfile r |}.
Definition set_opts_syslog_facility (v : Z) (r : lgtd_opts) : lgtd_opts :=
  {| opts_foreground := opts_foreground r; opts_log_timestamps := opts_log_timestamps r;
     opts_verbosity := opts_verbosity r; opts_user := opts_user r; opts_group := opts_group
     r; opts_syslog := opts_syslog r; opts_syslog_facility := v; opts_syslog_ident :=
     opts_syslog_ident r; opts_pidfile := opts_pidfile r |}.
Definition set_opts_syslog_ident (v : list Z) (r : lgtd_opts) : lgtd_opts :=
  {| opts_foreground := opts_foreground r; opts_log_timestamps := opts_log_timestamps r;
     opts_verbosity := opts_verbosity r; opts_user := opts_user r; opts_group := opts_group
     r; opts_syslog := opts_syslog r; opts_syslog_facility := opts_syslog_facility r;
     opts_syslog_ident := v; opts_pidfile := opts_pidfile r |}.
Definition set_opts_pidfile (v : option (list Z)) (r : lgtd_opts) : lgtd_opts :=
  {| opts_foreground := opts_foreground r; opts_log_timestamps := opts_log_timestamps r;
     opts_verbosity := opts_verbosity r; opts_user := opts_user r; opts_group := opts_group
     r; opts_syslog := opts_syslog r; opts_syslog_facility := opts_syslog_facility r;
     opts_syslog_ident := opts_syslog_ident r; opts_pidfile := v |}.

(** ** Users *)

Record passwd : Type := {
  pw_name : list Z;
  pw_uid : Z;
  pw_gid : Z
}.

Record group : Type := {
  gr_name : list Z;
  gr_gid : Z
}.

(** The databases of users and groups. *)
Class Accounts : Type := {
  getpwnam : list Z -> option passwd;
  getgrnam : list Z -> option group;
  getgrgid : Z -> option group
}.

(** ** Signals *)

(** [lgtd_signals]: SIGINT, SIGTERM and SIGQUIT. *)
Definition lgtd_signals : list Z := [2; 15; 3].

(** [lgtd_signal_evs], where an event is there or not (a null pointer, or an event
    that was freed), and is added or not; [lgtd_last_signal_received], whether SIGPIPE
    is ignored and whether the event loop was told to stop. *)
Record signals : Type := {
  lgtd_signal_evs : list (option bool);
  lgtd_last_signal_received : Z;
  sg_sigpipe_ignored : bool;
  sg_loopbreak : bool
}.

Definition no_signals : signals :=
  {| lgtd_signal_evs := [None; None; None]; lgtd_last_signal_received := 0; sg_sigpipe_ignored := false;
     sg_loopbreak := false |}.

Definition set_signal_ev (i : nat) (ev : option bool) (r : signals) : signals :=
  {| lgtd_signal_evs := <[i := ev]> (lgtd_signal_evs r); lgtd_last_signal_received := lgtd_last_signal_received r;
     sg_sigpipe_ignored := sg_sigpipe_ignored r; sg_loopbreak := sg_loopbreak r |}.
Definition set_last_signal_received (v : Z) (r : signals) : signals :=
  {| lgtd_signal_evs := lgtd_signal_evs r; lgtd_last_signal_received := v;
     sg_sigpipe_ignored := sg_sigpipe_ignored r; sg_loopbreak := sg_loopbreak r |}.
Definition set_sigpipe_ignored (v : bool) (r : signals) : signals :=
  {| lgtd_signal_evs := lgtd_signal_evs r; lgtd_last_signal_received := lgtd_last_signal_received r;
     sg_sigpipe_ignored := v; sg_loopbreak := sg_loopbreak r |}.
Definition set_loopbreak (v : bool) (r : signals) : signals :=
  {| lgtd_signal_evs := lgtd_signal_evs r; lgtd_last_signal_received := lgtd_last_signal_received r;
     sg_sigpipe_ignored := sg_sigpipe_ignored r; sg_loopbreak := v |}.

Section State.
Context {L : Libevent} {F : FileSystem}.

(** The effective ids of the process, what [chown] was called on with success (a
    descriptor stands for the path it was opened at), and if the events of the
    discovery are there. *)
Record process : Type := {
  pr_server : server;
  pr_opts : lgtd_opts;
  pr_user_info : option passwd;
  pr_group_info : option group;
  pr_euid : Z;
  pr_egid : Z;
  pr_groups : list Z;
  pr_owners : list (list Z * (Z * Z));
  pr_discovery_evs : bool;
  pr_proctitle_initialized : bool;
  pr_signals : signals
}.

Definition set_pr_server (v : server) (r : process) : process :=
  {| pr_server := v; pr_opts := pr_opts r; pr_user_info := pr_user_info r; pr_group_info :=
     pr_group_info r; pr_euid := pr_euid r; pr_egid := pr_egid r; pr_groups := pr_groups r;
     pr_owners := pr_owners r; pr_discovery_evs := pr_discovery_evs r;
     pr_proctitle_initialized := pr_proctitle_initialized r; pr_signals := pr_signals r |}.
Definition set_pr_opts (v : lgtd_opts) (r : process) : process :=
  {| pr_server := pr_server r; pr_opts := v; pr_user_info := pr_user_info r; pr_group_info :=
     pr_group_info r; pr_euid := pr_euid r; pr_egid := pr_egid r; pr_groups := pr_groups r;
     pr_owners := pr_owners r; pr_discovery_evs := pr_discovery_evs r;
     pr_proctitle_initialized := pr_proctitle_initialized r; pr_signals := pr_signals r |}.
Definition set_pr_user_info (v : option passwd) (r : process) : process :=
  {| pr_server := pr_server r; pr_opts := pr_opts r; pr_user_info := v; pr_group_info :=
     pr_group_info r; pr_euid := pr_euid r; pr_egid := pr_egid r; pr_groups := pr_groups r;
     pr_owners := pr_owners r; pr_discovery_evs := pr_discovery_evs r;
     pr_proctitle_initialized := pr_proctitle_initialized r; pr_signals := pr_signals r |}.
Definition set_pr_group_info (v : option group) (r : process) : process :=
  {| pr_server := pr_server r; pr_opts := pr_opts r; pr_user_info := pr_user_info r;
     pr_group_info := v; pr_euid := pr_euid r; pr_egid := pr_egid r; pr_groups := pr_groups
     r; pr_owners := pr_owners r; pr_discovery_evs := pr_discovery_evs r;
     pr_proctitle_initialized := pr_proctitle_initialized r; pr_signals := pr_signals r |}.
Definition set_pr_euid (v : Z) (r : process) : process :=
  {| pr_server := pr_server r; pr_opts := pr_opts r; pr_user_info := pr_user_info r;
     pr_group_info := pr_group_info r; pr_euid := v; pr_egid := pr_egid r; pr_groups :=
     pr_groups r; pr_owners := pr_owners r; pr_discovery_evs := pr_discovery_evs r;
     pr_proctitle_initialized := pr_proctitle_initialized r; pr_signals := pr_signals r |}.
Definition set_pr_egid (v : Z) (r : process) : process :=
  {| pr_server := pr_server r; pr_opts := pr_opts r; pr_user_info := pr_user_info r;
     pr_group_info := pr_group_info r; pr_euid := pr_euid r; pr_egid := v; pr_groups :=
     pr_groups r; pr_owners := pr_owners r; pr_discovery_evs := pr_discovery_evs r;
     pr_proctitle_initialized := pr_proctitle_initialized r; pr_signals := pr_signals r |}.
Definition set_pr_groups (v : list Z) (r : process) : process :=
  {| pr_server := pr_server r; pr_opts := pr_opts r; pr_user_info := pr_user_info r;
     pr_group_info := pr_group_info r; pr_euid := pr_euid r; pr_egid := pr_egid r; pr_groups
     := v; pr_owners := pr_owners r; pr_discovery_evs := pr_discovery_evs r;
     pr_proctitle_initialized := pr_proctitle_initialized r; pr_signals := pr_signals r |}.
Definition set_pr_owners (v : list (list Z * (Z * Z))) (r : process) : process :=
  {| pr_server := pr_server r; pr_opts := pr_opts r; pr_user_info := pr_user_info r;
     pr_group_info := pr_group_info r; pr_euid := pr_euid r; pr_egid := pr_egid r; pr_groups
     := pr_groups r; pr_owners := v; pr_discovery_evs := pr_discovery_evs r;
     pr_proctitle_initialized := pr_proctitle_initialized r; pr_signals := pr_signals r |}.
Definition set_pr_discovery_evs (v : bool) (r : process) : process :=
  {| pr_server := pr_server r; pr_opts := pr_opts r; pr_user_info := pr_user_info r;
     pr_group_info := pr_group_info r; pr_euid := pr_euid r; pr_egid := pr_egid r; pr_groups
     := pr_groups r; pr_owners := pr_owners r; pr_discovery_evs := v;
     pr_proctitle_initialized := pr_proctitle_initialized r; pr_signals := pr_signals r |}.
Definition set_pr_proctitle_initialized (v : bool) (r : process) : process :=
  {| pr_server := pr_server r; pr_opts := pr_opts r; pr_user_info := pr_user_info r;
     pr_group_info := pr_group_info r; pr_euid := pr_euid r; pr_egid := pr_egid r; pr_groups
     := pr_groups r; pr_owners := pr_owners r; pr_discovery_evs := pr_discovery_evs r;
     pr_proctitle_initialized := v; pr_signals := pr_signals r |}.
Definition set_pr_signals (v : signals) (r : process) : process :=
  {| pr_server := pr_server r; pr_opts := pr_opts r; pr_user_info := pr_user_info r;
     pr_group_info := pr_group_info r; pr_euid := pr_euid r; pr_egid := pr_egid r; pr_groups
     := pr_groups r; pr_owners := pr_owners r; pr_discovery_evs := pr_discovery_evs r;
     pr_proctitle_initialized := pr_proctitle_initialized r; pr_signals := v |}.

(** Code that does not know of the process. *)
Definition on_server {A} (m : M server A) : M process A := fun s =>
  match m (pr_server s) with
  | Ret a v => Ret a (set_pr_server v s)
  | Crash c => Crash c
  end.

Definition pr_call : M process bool := on_server call.
Definition pr_world {A} (m : M world A) : M process A := on_server (on_world m).

Definition upd_signals (f : signals -> signals) : M process unit :=
  mmodify (fun s => set_pr_signals (f (pr_signals s)) s).
End State.

(** ** Shut down *)

Definition lgtd_timer_stop_all : M world unit :=
  w ← mget;
  mforeach (fst <$> map_to_list (w_timers w)) lgtd_timer_stop.

Section Cleanup.
Context {E : Endianness} {C : LibC} {L : Libevent} {F : FileSystem}.

(** An event that is freed is not pending. *)
Definition lgtd_lifx_discovery_close : M process unit :=
  pr_world (mmodify (fun w => set_w_watchdog_pending false (set_w_discovery_ev None w))) ;;
  mmodify (set_pr_discovery_evs false).

(** [event_del] and [event_free] need an event. *)
Definition event_del (i : nat) : M process unit :=
  s ← mget;
  mderef (mjoin (lgtd_signal_evs (pr_signals s) !! i)) ;;
  upd_signals (set_signal_ev i (Some false)).

Definition event_free (i : nat) : M process unit :=
  s ← mget;
  mderef (mjoin (lgtd_signal_evs (pr_signals s) !! i)) ;;
  upd_signals (set_signal_ev i None).

Definition lgtd_close_signal_handling : M process unit :=
  mforeach (seq 0 (length lgtd_signals)) (fun i => event_del i ;; event_free i).

(** The base of libevent is freed too. *)
Definition lgtd_cleanup : M process unit :=
  lgtd_lifx_discovery_close ;;
  on_server lgtd_listen_close_all ;;
  on_server lgtd_command_pipe_close_all ;;
  on_server lgtd_client_close_all ;;
  pr_world lgtd_lifx_broadcast_close ;;
  pr_world lgtd_lifx_gateway_close_all ;;
  pr_world lgtd_timer_stop_all ;;
  lgtd_close_signal_handling ;;
  s ← mget;
  match opts_pidfile (pr_opts s) with
  | Some pidfile => on_server (fs_call (fs_unlink pidfile)) ;; mret tt
  | None => mret tt
  end.

(** [lgtd_err] and [lgtd_errx] clean up and exit. *)
Definition lgtd_err {X} : M process X := lgtd_cleanup ;; mcrash Exited.

(** Code of the network that may call [lgtd_err]. The error does not say what it did before it
    gave up (it set the timer of the discovery), which the cleanup does not look at: the cleanup
    is run from where the code began. *)
Definition pr_world_err {X} (m : M world X) : M process X := fun s =>
  match pr_world m s with
  | Crash Exited => lgtd_err s
  | o => o
  end.
End Cleanup.

Section Daemon.
Context {E : Endianness} {C : LibC} {A : Accounts} {L : Libevent} {F : FileSystem}.

(** The child goes on; its parent exits. *)
Definition SUMMON (m : M process bool) : M process bool :=
  forked ← pr_call;
  if negb forked then mret false else m.

Definition dup2_null (m : M process bool) : M process bool :=
  stdin ← pr_call; if negb stdin then mret false else
  stdout ← pr_call; if negb stdout then mret false else
  stderr ← pr_call; if negb stderr then mret false else
  m.

Definition lgtd_daemon_unleash : M process bool :=
  root ← pr_call;
  if negb root then mret false else
  null ← pr_call;
  if negb null then mret false else
  dup2_null (SUMMON (SUMMON (mret true))).

(** *** Privileges *)

Definition lgtd_daemon_die_if_running_as_root_unless_requested (requested_user : option (list Z)) : M process unit :=
  if match requested_user with Some user => strcmp_eq user (bytes_of_string "root") | None => false end then mret tt
  else
    s ← mget;
    if (pr_euid s =? 0) || (pr_egid s =? 0) then lgtd_err else mret tt.

Definition lgtd_daemon_set_user (user : list Z) : M process unit :=
  match getpwnam user with
  | None => lgtd_err
  | Some user_info => mmodify (set_pr_user_info (Some user_info))
  end.

(** The name of the group of the user is read before the pointer is tested. *)
Definition lgtd_daemon_set_group (gr : option (list Z)) : M process unit :=
  s ← mget;
  massert (bool_decide (is_Some (pr_user_info s))) ;;
  user_info ← mderef (pr_user_info s);
  group_info ← match gr with
               | Some gr => mret (getgrnam gr)
               | None =>
                 group_info ← mderef (getgrgid (pw_gid user_info));
                 mret (Some group_info)
               end;
  match group_info with
  | None => lgtd_err
  | Some group_info => mmodify (set_pr_group_info (Some group_info))
  end.

(** [chown] on a path, or [fchown] on a descriptor that was opened there. *)
Definition chown (path : list Z) (uid gid : Z) : M process bool :=
  ok ← pr_call;
  (if (ok : bool) then mmodify (fun s => set_pr_owners ((path, (uid, gid)) :: pr_owners s) s) else mret tt) ;;
  mret ok.

Definition lgtd_daemon_chown_dir_of (filepath : list Z) (uid gid : Z) : M process bool :=
  fp ← pr_call;
  if negb fp then mret false
  else chown (dirname filepath) uid gid.

(** The file and the directory it is in, or the process exits. *)
Definition chown_both (path : list Z) (uid gid : Z) : M process unit :=
  dir ← lgtd_daemon_chown_dir_of path uid gid;
  if negb dir then lgtd_err else
  file ← chown path uid gid;
  if negb file then lgtd_err else mret tt.

Definition chown_listener (uid gid : Z) (listener : lgtd_listen) : M process unit :=
  match li_sockaddr listener with
  | sockaddr_un path => chown_both (cstr path) uid gid
  | _ => mret tt
  end.

Definition lgtd_daemon_drop_privileges : M process unit :=
  s ← mget;
  massert (bool_decide (is_Some (pr_user_info s))) ;;
  massert (bool_decide (is_Some (pr_group_info s))) ;;
  user_info ← mderef (pr_user_info s);
  group_info ← mderef (pr_group_info s);
  let uid := pw_uid user_info in
  let gid := gr_gid group_info in
  mforeach (snd <$> sv_pipes (pr_server s)) (fun pipe => chown_both (pipe_path pipe) uid gid) ;;
  mforeach (sv_listeners (pr_server s)) (chown_listener uid gid) ;;
  setgid ← pr_call;
  if negb setgid then lgtd_err else
  mmodify (set_pr_egid gid) ;;
  setgroups ← pr_call;
  if negb setgroups then lgtd_err else
  mmodify (set_pr_groups [gid]) ;;
  setuid ← pr_call;
  if negb setuid then lgtd_err else
  mmodify (set_pr_euid uid).

(** The file is opened, given to the user and written to. *)
Definition lgtd_daemon_write_pidfile (filepath : list Z) : M process bool :=
  fd ← pr_call;
  if negb fd then mret false else
  s ← mget;
  match pr_user_info s, pr_group_info s with
  | Some user_info, Some group_info => chown filepath (pw_uid user_info) (gr_gid group_info) ;; mret tt
  | _, _ => mret tt
  end ;;
  pr_call.

(** *** The title *)

Definition LGTD_DAEMON_TITLE_SIZE : nat := 2048.

Definition TITLE_APPEND (title text : list Z) : list Z := LGTD_SNPRINTF_APPEND title LGTD_DAEMON_TITLE_SIZE text.

(** The character before the position, if there is one: the terminator is there once
    a text was cut. *)
Definition title_last (title : list Z) : option Z :=
  if (length title =? LGTD_DAEMON_TITLE_SIZE)%nat then Some 0 else last title.

Definition PREFIX (title text : list Z) : list Z :=
  TITLE_APPEND title ((if bool_decide (title_last title = Some 41) then bytes_of_string "; " else []) ++ text).

Definition ADD_ITEM (title text : list Z) : list Z :=
  TITLE_APPEND title
    ((if bool_decide (title_last title = None \/ title_last title = Some 40) then [] else bytes_of_string ", ") ++ text).

Definition LOOP (items : list (list Z)) (prefix title : list Z) : list Z :=
  match items with
  | [] => title
  | _ => TITLE_APPEND (foldl ADD_ITEM (PREFIX title (prefix ++ bytes_of_string "(")) items) (bytes_of_string ")")
  end.

Definition lgtd_daemon_update_proctitle_format_sockaddr (sa : sockaddr) (buflen : nat) : list Z :=
  match sa with
  | sockaddr_un sun_path => cstr sun_path
  | _ => lgtd_sockaddrtoa sa buflen
  end.

(** The bytes of the buffer before the terminator. *)
Definition proctitle (s : server) : list Z :=
  let count f := print_d (get_counter f (w_counters (sv_world s))) in
  let title := LOOP ((fun l => lgtd_daemon_update_proctitle_format_sockaddr (li_sockaddr l) LGTD_SOCKADDR_STRLEN) <$> sv_listeners s)
                 (bytes_of_string "listening_on") [] in
  let title := LOOP ((fun x => cstr (pipe_path (snd x))) <$> sv_pipes s) (bytes_of_string "command_pipes") title in
  let title := match w_gateway_list (sv_world s) with
               | [] => title
               | _ => PREFIX title (bytes_of_string "lifx_gateways(found=" ++ count counter_gateways ++ bytes_of_string ")")
               end in
  let title := PREFIX title (bytes_of_string "bulbs(found=" ++ count counter_bulbs ++ bytes_of_string ", on="
                             ++ count counter_bulbs_powered_on ++ bytes_of_string ")") in
  let title := PREFIX title (bytes_of_string "clients(connected=" ++ count counter_clients ++ bytes_of_string ")") in
  take (LGTD_DAEMON_TITLE_SIZE - 1) title.

(** The title that is set, if one is. It is output only, and its updates are left out
    elsewhere. *)
Definition lgtd_daemon_update_proctitle : M process (option (list Z)) :=
  s ← mget;
  mret (if negb (pr_proctitle_initialized s) then None else Some (proctitle (pr_server s))).

(** [have_setproctitle] is [LGTD_HAVE_SETPROCTITLE]. *)
Definition lgtd_daemon_setup_proctitle (have_setproctitle : bool) : M process unit :=
  if have_setproctitle then mret tt
  else
    lgtd_daemon_update_proctitle ;;
    mmodify (set_pr_proctitle_initialized true).

(** *** Syslog *)

Definition syslog_facilities : list (list Z * Z) :=
  [ (bytes_of_string "daemon", 24); (bytes_of_string "user", 8); (bytes_of_string "local0", 128);
    (bytes_of_string "local1", 136); (bytes_of_string "local2", 144); (bytes_of_string "local3", 152);
    (bytes_of_string "local4", 160); (bytes_of_string "local5", 168); (bytes_of_string "local6", 176);
    (bytes_of_string "local7", 184) ].

Definition lgtd_daemon_syslog_facilitytoi (facility : list Z) : M process Z :=
  match list_find (fun f => strcmp_eq facility (fst f) = true) syslog_facilities with
  | Some (_, f) => mret (snd f)
  | None => lgtd_err
  end.

(** [": %m"] with its terminator. *)
Definition errno_format : list Z := bytes_of_string ": %m" ++ [0].

(** The [sz] bytes of the buffer after the call; [old] is what was in them and
    [ndebug] is [NDEBUG]. *)
Definition lgtd_daemon_setup_errfmt {S} (ndebug : bool) (fmt : list Z) (old : list Z) : M S (list Z) :=
  let sz := length old in
  let n := Nat.min (sz - 1) (length (cstr fmt) + 1) in
  let errfmt := take n (cstr fmt ++ [0]) ++ drop n old in
  if (n - 1 + length errno_format <=? sz)%nat then
    mret (take (n - 1) errfmt ++ errno_format ++ drop (n - 1 + length errno_format) errfmt)
  else
    if ndebug then mret (<[n := 0]> errfmt) else mcrash AssertFailed.
End Daemon.
