(* ===== verification/Startup.v ===== *)
(** * Start up

    [core/lightsd.c], with what it calls of [lifx/discovery.c] and [lifx/wire_proto.c] before
    the event loop; the cleanup is in [Process]. *)

From Stdlib Require Import ZArith Lia String.
From stdpp Require Import base tactics list gmap.
From S2P Require Import Prelude CLib World Gateway Discovery Jsmn Printf Session Client Files ServerState.
From S2P Require Import Connections Pipe Listen Process.

(** ** Setup *)

Definition set_w_client_id (v : Z) (r : world) : world :=
  {| w_gateways := w_gateways r; w_gateway_list := w_gateway_list r; w_bulbs_table := w_bulbs_table r;
     w_tags := w_tags r; w_tag_list := w_tag_list r; w_timers := w_timers r; w_counters := w_counters r;
     w_broadcast_write_ev := w_broadcast_write_ev r; w_watchdog_pending := w_watchdog_pending r;
     w_discovery_timeout := w_discovery_timeout r; w_discovery_ev := w_discovery_ev r; w_client_id := v;
     w_now := w_now r; w_os_results := w_os_results r; w_clock := w_clock r |}.

Section Startup.
Context {E : Endianness} {C : LibC} {A : Accounts} {L : Libevent} {F : FileSystem}.

(** The loop of [lgtd_lifx_wire_setup] over what [lgtd_daemon_randuint32] reads: a read
    that fails, which is the end of the list, is an error. *)
Fixpoint lgtd_lifx_wire_setup (randoms : list Z) : M process unit :=
  match randoms with
  | [] => lgtd_err
  | v :: randoms =>
    pr_world (mmodify (set_w_client_id v)) ;;
    if v =? 0 then lgtd_lifx_wire_setup randoms else mret tt
  end.

Definition lgtd_lifx_discovery_setup : M process bool :=
  s ← mget;
  massert (negb (pr_discovery_evs s)) ;;
  timeout_ev ← pr_call;
  interval_ev ← pr_call;
  if timeout_ev && interval_ev then mmodify (set_pr_discovery_evs true) ;; mret true
  else lgtd_lifx_discovery_close ;; mret false.

(** The result of [evsignal_new] is stored before it is tested. *)
Definition setup_signal (i : nat) : M process unit :=
  signal_ev ← pr_call;
  upd_signals (set_signal_ev i (if (signal_ev : bool) then Some false else None)) ;;
  if negb signal_ev then lgtd_err else
  added ← pr_call;
  if negb added then lgtd_err else upd_signals (set_signal_ev i (Some true)).

Definition lgtd_setup_signal_handling : M process unit :=
  mforeach (seq 0 (length lgtd_signals)) setup_signal ;;
  sigaction ← pr_call;
  if negb sigaction then lgtd_err else upd_signals (set_sigpipe_ignored true).

(** The event is deleted for the default behavior of the signal to be back. *)
Definition lgtd_signal_event_callback (signum : Z) (ctx : nat) : M process unit :=
  massert (ctx <? length lgtd_signals)%nat ;;
  s ← mget;
  massert (ctx <? length (lgtd_signal_evs (pr_signals s)))%nat ;;
  massert (bool_decide (lgtd_signals !! ctx = Some signum)) ;;
  upd_signals (set_last_signal_received signum) ;;
  event_del ctx ;;
  upd_signals (set_loopbreak true).

(** ** Options *)

(** What [getopt_long] returns, with [optarg]. *)
Inductive getopt_result : Type :=
| opt_listen (optarg : list Z)
| opt_command_pipe (optarg : list Z)
| opt_socket (optarg : list Z)
| opt_foreground
| opt_daemonize
| opt_pidfile (optarg : list Z)
| opt_user (optarg : list Z)
| opt_group (optarg : list Z)
| opt_syslog
| opt_syslog_facility (optarg : list Z)
| opt_syslog_ident (optarg : list Z)
| opt_no_timestamps
| opt_help
| opt_verbosity (optarg : list Z)
| opt_version
| opt_prefix
| opt_rundir
| opt_unknown.

(** The text before the last colon and the one after it. *)
Fixpoint strrchr_colon (s : list Z) : option (list Z * list Z) :=
  match s with
  | [] => None
  | c :: s' =>
    match strrchr_colon s' with
    | Some (before, after) => Some (c :: before, after)
    | None => if c =? 58 then Some ([], s') else None
    end
  end.

Definition tolower (c : Z) : Z := if (65 <=? c) && (c <=? 90) then c + 32 else c.

Definition strcasecmp_eq (s t : list Z) : bool := bool_decide (tolower <$> cstr s = tolower <$> cstr t).

Definition verbose_levels : list (list Z * lgtd_verbosity) :=
  [ (bytes_of_string "debug", LGTD_DEBUG); (bytes_of_string "info", LGTD_INFO);
    (bytes_of_string "warning", LGTD_WARN); (bytes_of_string "error", LGTD_ERR) ].

Definition upd_opts (f : lgtd_opts -> lgtd_opts) : M process unit :=
  mmodify (fun s => set_pr_opts (f (pr_opts s)) s).

(** [lgtd_usage], and the options that print something, clean up and exit. *)
Definition lgtd_usage {B} : M process B := lgtd_cleanup ;; mcrash Exited.

(** The name resolution, and the descriptor the system gives for a path. *)
Context (getaddrinfo : list Z -> list Z -> option (list sockaddr)) (new_fd : list Z -> Z).

Definition run_option (o : getopt_result) : M process unit :=
  match o with
  | opt_listen optarg =>
    match strrchr_colon (cstr optarg) with
    | None | Some (_, []) => lgtd_usage
    | Some (addr, port) =>
      ok ← on_server (lgtd_listen_open (getaddrinfo addr port));
      if negb ok then mcrash Exited else mret tt
    end
  | opt_command_pipe optarg =>
    ok ← on_server (lgtd_command_pipe_open (cstr optarg) (new_fd optarg));
    if negb ok then mcrash Exited else mret tt
  | opt_socket optarg =>
    ok ← on_server (lgtd_listen_unix_open (cstr optarg) (new_fd optarg));
    if negb ok then mcrash Exited else mret tt
  | opt_foreground => upd_opts (set_opts_foreground true)
  | opt_daemonize => upd_opts (set_opts_foreground false)
  | opt_pidfile optarg => upd_opts (set_opts_pidfile (Some optarg))
  | opt_user optarg => upd_opts (set_opts_user (Some optarg))
  | opt_group optarg => upd_opts (set_opts_group (Some optarg))
  | opt_syslog => upd_opts (set_opts_syslog true)
  | opt_syslog_facility optarg =>
    facility ← lgtd_daemon_syslog_facilitytoi optarg;
    upd_opts (set_opts_syslog_facility facility)
  | opt_syslog_ident optarg => upd_opts (set_opts_syslog_ident optarg)
  | opt_no_timestamps => upd_opts (set_opts_log_timestamps false)
  | opt_verbosity optarg =>
    match list_find (fun l => strcasecmp_eq optarg (fst l) = true) verbose_levels with
    | Some (_, l) => upd_opts (set_opts_verbosity (snd l))
    | None => lgtd_err
    end
  | opt_version => lgtd_usage
  | opt_prefix | opt_rundir => mcrash Exited
  | opt_help | opt_unknown => lgtd_usage
  end.

(** What [--prefix] and [--rundir] print for a directory, a literal of the build: the
    character that is looked at is the last one of the array. *)
Definition print_dir (dir : list Z) : list Z :=
  let array := dir ++ [0] in
  dir ++ (if bool_decide (array !! (length array - 1)%nat = Some 47) then [] else [47]) ++ [10].

(** ** The main function *)

(** A pid file that cannot be written is only a warning. *)
Definition write_pidfile_if (pidfile : option (list Z)) : M process unit :=
  match pidfile with
  | Some pidfile => lgtd_daemon_write_pidfile pidfile ;; mret tt
  | None => mret tt
  end.

Definition setup_user : M process unit :=
  s ← mget;
  match opts_user (pr_opts s) with
  | Some user =>
    lgtd_daemon_set_user user ;;
    lgtd_daemon_set_group (opts_group (pr_opts s)) ;;
    write_pidfile_if (opts_pidfile (pr_opts s)) ;;
    lgtd_daemon_drop_privileges
  | None => if bool_decide (is_Some (opts_group (pr_opts s))) then lgtd_err else mret tt
  end ;;
  s ← mget;
  lgtd_daemon_die_if_running_as_root_unless_requested (opts_user (pr_opts s)).

Definition setup_lifx (randoms : list Z) : M process unit :=
  lgtd_lifx_wire_setup randoms ;;
  discovery ← lgtd_lifx_discovery_setup;
  if negb discovery then lgtd_err else
  broadcast ← pr_world lgtd_lifx_broadcast_setup;
  if negb broadcast then lgtd_err else mret tt.

(** The main function up to the event loop, without the log; [have_setproctitle] is
    [LGTD_HAVE_SETPROCTITLE], [options] what [getopt_long] returns and [randoms]
    what is read from /dev/urandom. *)
Definition main (have_setproctitle : bool) (argc : Z) (options : list getopt_result) (randoms : list Z) : M process unit :=
  lgtd_daemon_setup_proctitle have_setproctitle ;;
  lgtd_setup_signal_handling ;;
  (if argc =? 1 then lgtd_usage else mret tt) ;;
  mforeach options run_option ;;
  setup_user ;;
  setup_lifx randoms ;;
  s ← mget;
  (if opts_foreground (pr_opts s) then mret tt
   else ok ← lgtd_daemon_unleash; if negb ok then lgtd_err else mret tt) ;;
  write_pidfile_if (opts_pidfile (pr_opts s)) ;;
  pr_world_err lgtd_lifx_discovery_start ;;
  lgtd_daemon_update_proctitle ;;
  mret tt.

(** What is left of it after the event loop, and the status of the process. *)
Definition main_end : M process Z :=
  lgtd_cleanup ;;
  mret 0.
End Startup.
