(* ===== verification/Log.v ===== *)
(** * Logging

    [core/log.c], [core/console.c] and the syslog functions of [core/daemon.c]: what
    a message becomes on the standard error or in the system log, and how the process ends on an error;
    the log callback of libevent and the defaults of the options in [core/lightsd.c].

    A message is a format and its arguments. An argument stands for its own text, so that
    formatting puts texts in the place of directives, and [%m] is the text of [errno]. *)

From Stdlib Require Import ZArith Lia String.
From stdpp Require Import base tactics list gmap.
From S2P Require Import Prelude CLib World Jsmn Printf Session Client Files ServerState Pipe Process Startup.

(** ** Formats *)

Definition va_list : Type := list (list Z).

(** The letters that end a directive, [%] and [m] aside. *)
Definition conversions : list Z := bytes_of_string "diouxXcspfFeEgGaA".

(** [spec]: a directive has begun. *)
Fixpoint vformat (m : list Z) (spec : bool) (fmt : list Z) (ap : va_list) : list Z :=
  match fmt with
  | [] => []
  | c :: fmt =>
    if spec then
      if c =? 37 then 37 :: vformat m false fmt ap
      else if c =? 109 then m ++ vformat m false fmt ap
      else if bool_decide (c ∈ conversions) then
        match ap with
        | [] => vformat m false fmt []
        | text :: ap => text ++ vformat m false fmt ap
        end
      else vformat m true fmt ap
    else if c =? 37 then vformat m true fmt ap
    else c :: vformat m false fmt ap
  end.

(** ** What the C library has for the log *)

(** The text of an error, the name of the program and what is in memory that was not
    written to. *)
Class LogEnv : Type := {
  strerror : Z -> list Z;
  progname : list Z;
  garbage : nat -> list Z;
  garbage_length : forall n, length (garbage n) = n
}.

Definition LOG_ERR : Z := 3.
Definition LOG_WARNING : Z := 4.
Definition LOG_INFO : Z := 6.
Definition LOG_DEBUG : Z := 7.

Definition LOG_MASK (priority : Z) : Z := Z.shiftl 1 priority.
Definition LOG_UPTO (priority : Z) : Z := Z.shiftl 1 (priority + 1) - 1.

Definition verbosity_to_Z (v : lgtd_verbosity) : Z :=
  match v with LGTD_DEBUG => 0 | LGTD_INFO => 1 | LGTD_WARN => 2 | LGTD_ERR => 3 end.

Definition LGTD_ERROR_MSG_BUFSIZE : nat := 2048.
Definition LGTD_DAEMON_ERRFMT_SIZE : nat := 4096.

(** The options before any is read; [ndebug] is [NDEBUG]. *)
Definition initial_opts (ndebug : bool) : lgtd_opts :=
  {| opts_foreground := true; opts_log_timestamps := true;
     opts_verbosity := if ndebug then LGTD_WARN else LGTD_INFO; opts_user := None; opts_group := None;
     opts_syslog := false; opts_syslog_facility := 24; opts_syslog_ident := bytes_of_string "lightsd";
     opts_pidfile := None |}.

Section State.
Context {L : Libevent} {F : FileSystem}.

(** The process, [errno], the local time if there is one, what was written on the standard error, and the system
    log: its records, the mask, and the identifier and facility of [openlog]. *)
Record logs : Type := {
  lg_process : process;
  lg_errno : Z;
  lg_now : option (tm * Z);
  lg_stderr : list Z;
  lg_syslog : list (Z * list Z);
  lg_mask : Z;
  lg_open : option (list Z * Z)
}.

Definition set_lg_process (v : process) (r : logs) : logs :=
  {| lg_process := v; lg_errno := lg_errno r; lg_now := lg_now r; lg_stderr := lg_stderr r; lg_syslog := lg_syslog r;
     lg_mask := lg_mask r; lg_open := lg_open r |}.
Definition set_lg_errno (v : Z) (r : logs) : logs :=
  {| lg_process := lg_process r; lg_errno := v; lg_now := lg_now r; lg_stderr := lg_stderr r; lg_syslog := lg_syslog r;
     lg_mask := lg_mask r; lg_open := lg_open r |}.
Definition set_lg_stderr (v : list Z) (r : logs) : logs :=
  {| lg_process := lg_process r; lg_errno := lg_errno r; lg_now := lg_now r; lg_stderr := v; lg_syslog := lg_syslog r;
     lg_mask := lg_mask r; lg_open := lg_open r |}.
Definition set_lg_syslog (v : list (Z * list Z)) (r : logs) : logs :=
  {| lg_process := lg_process r; lg_errno := lg_errno r; lg_now := lg_now r; lg_stderr := lg_stderr r; lg_syslog := v;
     lg_mask := lg_mask r; lg_open := lg_open r |}.
Definition set_lg_mask (v : Z) (r : logs) : logs :=
  {| lg_process := lg_process r; lg_errno := lg_errno r; lg_now := lg_now r; lg_stderr := lg_stderr r; lg_syslog := lg_syslog r;
     lg_mask := v; lg_open := lg_open r |}.
Definition set_lg_open (v : option (list Z * Z)) (r : logs) : logs :=
  {| lg_process := lg_process r; lg_errno := lg_errno r; lg_now := lg_now r; lg_stderr := lg_stderr r; lg_syslog := lg_syslog r;
     lg_mask := lg_mask r; lg_open := v |}.

Definition lg_opts (s : logs) : lgtd_opts := pr_opts (lg_process s).

Definition on_process {X} (m : M process X) : M logs X := fun s =>
  match m (lg_process s) with
  | Ret a v => Ret a (set_lg_process v s)
  | Crash c => Crash c
  end.

Definition write_stderr (text : list Z) : M logs unit :=
  mmodify (fun s => set_lg_stderr (lg_stderr s ++ text) s).
End State.

Section Log.
Context {E : Endianness} {C : LibC} {L : Libevent} {F : FileSystem} {V : LogEnv}.

(** [NDEBUG], and what the cleanup leaves in [errno]. *)
Context (ndebug : bool) (errno_after_cleanup : Z).

(** *** The C library *)

Definition format_now (s : logs) (fmt : list Z) (ap : va_list) : list Z :=
  vformat (strerror (lg_errno s)) false (cstr fmt) ap.

Definition vfprintf_stderr (fmt : list Z) (ap : va_list) : M logs unit :=
  s ← mget;
  write_stderr (format_now s fmt ap).

(** [vwarn] ends with the text of [errno], and [vwarnx] does not. *)
Definition vwarn (fmt : list Z) (ap : va_list) : M logs unit :=
  s ← mget;
  write_stderr (progname ++ bytes_of_string ": " ++ format_now s fmt ap ++ bytes_of_string ": "
                ++ strerror (lg_errno s) ++ [10]).

Definition vwarnx (fmt : list Z) (ap : va_list) : M logs unit :=
  s ← mget;
  write_stderr (progname ++ bytes_of_string ": " ++ format_now s fmt ap ++ [10]).

(** [vsyslog]: a priority that is not in the mask is dropped. *)
Definition vsyslog (priority : Z) (fmt : list Z) (ap : va_list) : M logs unit :=
  s ← mget;
  if Z.land (lg_mask s) (LOG_MASK priority) =? 0 then mret tt
  else mput (set_lg_syslog (lg_syslog s ++ [(priority, format_now s fmt ap)]) s).

Definition cleanup_then {X} (m : M logs X) : M logs X :=
  on_process lgtd_cleanup ;;
  mmodify (set_lg_errno errno_after_cleanup) ;;
  m.

(** *** core/console.c *)

Definition lgtd_console_isotime_now (bufsz : nat) : M logs (list Z) :=
  s ← mget;
  massert (0 <? bufsz)%nat ;;
  mret (match lg_now s with
        | Some (tm_now, usec) => LGTD_TM_TO_ISOTIME tm_now bufsz usec
        | None => []
        end).

Definition lgtd_console_log_header (loglvl : list Z) (showprogname : bool) : M logs unit :=
  let name := if showprogname then bytes_of_string "lightsd: " else [] in
  s ← mget;
  if opts_log_timestamps (lg_opts s) then
    timestr ← lgtd_console_isotime_now 64;
    write_stderr (bytes_of_string "[" ++ timestr ++ bytes_of_string "] [" ++ loglvl ++ bytes_of_string "] " ++ name)
  else write_stderr (bytes_of_string "[" ++ loglvl ++ bytes_of_string "] " ++ name).

(** The functions that do not return give the status of the process; [err] and [errx]
    write what [warn] and [warnx] do before they exit. *)
Definition lgtd_console_err (eval : Z) (fmt : list Z) (ap : va_list) : M logs Z :=
  s ← mget;
  let errsave := lg_errno s in
  let errmsg := snprintf LGTD_ERROR_MSG_BUFSIZE (format_now s fmt ap) in
  cleanup_then (
    lgtd_console_log_header (bytes_of_string "ERR") false ;;
    mmodify (set_lg_errno errsave) ;;
    vwarn (bytes_of_string "%s") [errmsg] ;;
    mret eval).

Definition lgtd_console_errx (eval : Z) (fmt : list Z) (ap : va_list) : M logs Z :=
  s ← mget;
  let errmsg := snprintf LGTD_ERROR_MSG_BUFSIZE (format_now s fmt ap) in
  cleanup_then (
    lgtd_console_log_header (bytes_of_string "ERR") false ;;
    vwarnx (bytes_of_string "%s") [errmsg] ;;
    mret eval).

Definition lgtd_console_warn (fmt : list Z) (ap : va_list) : M logs unit :=
  lgtd_console_log_header (bytes_of_string "WARN") false ;;
  vwarn fmt ap.

Definition lgtd_console_warnx (fmt : list Z) (ap : va_list) : M logs unit :=
  lgtd_console_log_header (bytes_of_string "WARN") false ;;
  vwarnx fmt ap.

Definition lgtd_console_info (fmt : list Z) (ap : va_list) : M logs unit :=
  lgtd_console_log_header (bytes_of_string "INFO") true ;;
  vfprintf_stderr fmt ap ;;
  write_stderr [10].

Definition lgtd_console_debug (fmt : list Z) (ap : va_list) : M logs unit :=
  lgtd_console_log_header (bytes_of_string "DEBUG") true ;;
  vfprintf_stderr fmt ap ;;
  write_stderr [10].

(** *** core/daemon.c *)

Definition syslog_priorities : list Z := [LOG_DEBUG; LOG_INFO; LOG_WARNING; LOG_ERR].

Definition lgtd_daemon_syslog_open (ident : list Z) (level : lgtd_verbosity) (facility : Z) : M logs unit :=
  let i := Z.to_nat (verbosity_to_Z level) in
  massert (i <? length syslog_priorities)%nat ;;
  mmodify (set_lg_open (Some (ident, facility))) ;;
  priority ← mderef (syslog_priorities !! i);
  mmodify (set_lg_mask (LOG_UPTO priority)).

Definition lgtd_daemon_syslog_err (eval : Z) (fmt : list Z) (ap : va_list) : M logs Z :=
  errfmt ← lgtd_daemon_setup_errfmt ndebug fmt (garbage LGTD_DAEMON_ERRFMT_SIZE);
  vsyslog LOG_ERR errfmt ap ;;
  cleanup_then (mret eval).

Definition lgtd_daemon_syslog_errx (eval : Z) (fmt : list Z) (ap : va_list) : M logs Z :=
  vsyslog LOG_ERR fmt ap ;;
  cleanup_then (mret eval).

Definition lgtd_daemon_syslog_warn (fmt : list Z) (ap : va_list) : M logs unit :=
  errfmt ← lgtd_daemon_setup_errfmt ndebug fmt (garbage LGTD_DAEMON_ERRFMT_SIZE);
  vsyslog LOG_WARNING errfmt ap.

Definition lgtd_daemon_syslog_warnx (fmt : list Z) (ap : va_list) : M logs unit :=
  vsyslog LOG_WARNING fmt ap.

Definition lgtd_daemon_syslog_info (fmt : list Z) (ap : va_list) : M logs unit :=
  vsyslog LOG_INFO fmt ap.

Definition lgtd_daemon_syslog_debug (fmt : list Z) (ap : va_list) : M logs unit :=
  vsyslog LOG_DEBUG fmt ap.

(** What [open] and [read] give for /dev/urandom: an error, or the bytes of the call. *)
Definition lgtd_daemon_randuint32 {S} (urandom : option (list Z)) : M S Z :=
  match urandom with
  | None => mcrash Exited
  | Some bytes => if negb (length bytes =? 4)%nat then mcrash Exited else mret (load bytes)
  end.

(** *** core/log.c *)

Definition lgtd_log_setup : M logs unit :=
  s ← mget;
  let opts := lg_opts s in
  if opts_syslog opts then
    lgtd_daemon_syslog_open (opts_syslog_ident opts) (opts_verbosity opts) (opts_syslog_facility opts)
  else mret tt.

Definition ERRFN (syslog_fn console_fn : Z -> list Z -> va_list -> M logs Z)
    (eval : Z) (fmt : list Z) (ap : va_list) : M logs Z :=
  s ← mget;
  if opts_syslog (lg_opts s) then syslog_fn eval fmt ap else console_fn eval fmt ap.

Definition lgtd_log_err : Z -> list Z -> va_list -> M logs Z := ERRFN lgtd_daemon_syslog_err lgtd_console_err.
Definition lgtd_log_errx : Z -> list Z -> va_list -> M logs Z := ERRFN lgtd_daemon_syslog_errx lgtd_console_errx.

Definition LOGFN (level : lgtd_verbosity) (syslog_fn console_fn : list Z -> va_list -> M logs unit)
    (fmt : list Z) (ap : va_list) : M logs unit :=
  s ← mget;
  if verbosity_to_Z level <? verbosity_to_Z (opts_verbosity (lg_opts s)) then mret tt
  else if opts_syslog (lg_opts s) then syslog_fn fmt ap else console_fn fmt ap.

Definition lgtd_warn : list Z -> va_list -> M logs unit := LOGFN LGTD_WARN lgtd_daemon_syslog_warn lgtd_console_warn.
Definition lgtd_warnx : list Z -> va_list -> M logs unit := LOGFN LGTD_WARN lgtd_daemon_syslog_warnx lgtd_console_warnx.
Definition lgtd_info : list Z -> va_list -> M logs unit := LOGFN LGTD_INFO lgtd_daemon_syslog_info lgtd_console_info.
Definition lgtd_debug : list Z -> va_list -> M logs unit := LOGFN LGTD_DEBUG lgtd_daemon_syslog_debug lgtd_console_debug.

(** *** core/lightsd.c *)

(** The severities of libevent are [EVENT_LOG_DEBUG] to [EVENT_LOG_ERR]. *)
Definition lgtd_libevent_log (severity : Z) (msg : list Z) : M logs unit :=
  let fmt := bytes_of_string "%s" in
  if severity =? 0 then lgtd_debug fmt [msg]
  else if severity =? 1 then lgtd_info fmt [msg]
  else if severity =? 2 then lgtd_warnx fmt [msg]
  else if severity =? 3 then lgtd_warnx fmt [msg]
  else mret tt.
End Log.
