(* ===== verification/CleanupSpec.v ===== *)
(** * Shutting down

    [lgtd_cleanup] closes everything that is open, in its order: the broadcast
    endpoint goes before the gateways, whose closing does not look at it. *)

From Stdlib Require Import ZArith Lia String.
From stdpp Require Import base tactics list gmap.
From S2P Require Import Prelude CLib WireBits PacketInfo WireProto World Tagging GatewayQueue BulbTable Bulb Gateway Discovery.
From S2P Require Import SendSpec DeviceInv DeviceOps Invariant EventsInv Daemon Jsmn Printf Session Client Files ServerState Connections Pipe Listen Process Startup.

(** ** The broadcast endpoint *)

(** The endpoint is closed, and whatever the id of the client. *)
Definition offline (client_id : Z) (w : world) : world :=
  set_w_client_id client_id (set_w_broadcast_write_ev None w).

Create HintDb blinds.

Ltac blind_step :=
  lazymatch goal with
  | |- forall _, _ => intros ?
  | |- blind _ (mret _) => apply blind_ret
  | |- blind _ (mcrash _) => apply blind_crash
  | |- blind _ (massert _) => apply blind_assert
  | |- blind _ (mderef _) => apply blind_deref
  | |- blind _ (mget ≫= _) => apply blind_get; [done|]
  | |- blind _ (_ ≫= _) => apply blind_bind
  | |- blind _ (mforeach _ _) => apply blind_foreach
  | |- blind _ (mwhen _ _) => apply blind_when
  | |- blind _ (mmodify _) => apply blind_modify; done
  | |- blind _ (match ?x with _ => _ end) => destruct x
  | |- blind _ _ => solve [eauto with blinds]
  end.
Ltac blind_tac := repeat blind_step.

Section Offline.
Context {E : Endianness} (id : Z).

Lemma offline_get_gw p : blind (offline id) (get_gw p).
Proof. unfold get_gw. blind_tac. Qed.
Lemma offline_get_bulb a : blind (offline id) (get_bulb a).
Proof. unfold get_bulb. blind_tac. Qed.
Lemma offline_get_tag t : blind (offline id) (get_tag t).
Proof. unfold get_tag. blind_tac. Qed.
Lemma offline_get_timer t : blind (offline id) (get_timer t).
Proof. unfold get_timer. blind_tac. Qed.
#[local] Hint Resolve offline_get_gw offline_get_bulb offline_get_tag offline_get_timer : blinds.

Lemma offline_upd_gw p f : blind (offline id) (upd_gw p f).
Proof. unfold upd_gw. blind_tac. Qed.
Lemma offline_stats_add f v : blind (offline id) (lgtd_stats_add f v).
Proof. unfold lgtd_stats_add. blind_tac. Qed.
Lemma offline_timer_stop t : blind (offline id) (lgtd_timer_stop t).
Proof. unfold lgtd_timer_stop. blind_tac. Qed.
Lemma offline_get_refcount p i : blind (offline id) (get_refcount p i).
Proof. unfold get_refcount. blind_tac. Qed.
#[local] Hint Resolve offline_upd_gw offline_stats_add offline_timer_stop offline_get_refcount : blinds.

Lemma offline_decref t p : blind (offline id) (lgtd_lifx_tagging_decref t p).
Proof. unfold lgtd_lifx_tagging_decref, upd_tag, lgtd_lifx_tagging_deallocate_tag. blind_tac. Qed.
Lemma offline_count_tagged l a i : blind (offline id) (count_tagged l a i).
Proof. induction l; cbn [count_tagged]; blind_tac. Qed.
#[local] Hint Resolve offline_decref offline_count_tagged : blinds.

Lemma offline_bulb_close a : blind (offline id) (lgtd_lifx_bulb_close a).
Proof. unfold lgtd_lifx_bulb_close. blind_tac. Qed.
#[local] Hint Resolve offline_bulb_close : blinds.

Lemma offline_remove_and_close_bulb p a : blind (offline id) (lgtd_lifx_gateway_remove_and_close_bulb p a).
Proof. unfold lgtd_lifx_gateway_remove_and_close_bulb, set_refcount. blind_tac. Qed.
#[local] Hint Resolve offline_remove_and_close_bulb : blinds.

Lemma offline_close_bulbs fuel p : blind (offline id) (close_bulbs fuel p).
Proof. induction fuel; cbn [close_bulbs]; blind_tac. Qed.
#[local] Hint Resolve offline_close_bulbs : blinds.

Lemma offline_gateway_close p : blind (offline id) (lgtd_lifx_gateway_close p).
Proof. unfold lgtd_lifx_gateway_close, decref_all. blind_tac. Qed.
#[local] Hint Resolve offline_gateway_close : blinds.

Lemma offline_gateway_close_all : blind (offline id) lgtd_lifx_gateway_close_all.
Proof. unfold lgtd_lifx_gateway_close_all. blind_tac. Qed.
End Offline.

(** ** Lists *)

(** The unlinked files. *)
Definition unlink_all `{FileSystem} (paths : list (list Z)) (f : fs) : fs :=
  foldl (fun f p => snd (fs_unlink p f)) f paths.

Section Close.
Context {E : Endianness} {C : LibC} {A : Accounts} {L : Libevent} {F : FileSystem}.

Definition unix_paths (listeners : list lgtd_listen) : list (list Z) :=
  omap (fun l => match li_sockaddr l with sockaddr_un path => Some (cstr path) | _ => None end) listeners.

Lemma listen_close_run listeners : forall s, sv_listeners s = listeners ->
  listen_close_loop listeners s
  = Ret tt (set_sv_listeners [] (set_sv_fs (unlink_all (unix_paths listeners) (sv_fs s)) s)).
Proof.
  induction listeners as [|[sa] listeners IH]; intros s Hs; [by destruct s; cbn in Hs; subst|].
  cbn [listen_close_loop]. erewrite run_bind by reflexivity. cbn [li_sockaddr].
  destruct sa as [a port|a port flow scope|path].
  1,2: erewrite run_bind by reflexivity; erewrite run_bind by reflexivity; by rewrite IH.
  erewrite (run_bind _ _ _ tt (set_sv_fs (snd (fs_unlink (cstr path) (sv_fs s))) (set_sv_listeners listeners s))).
  - erewrite run_bind by reflexivity. by rewrite IH.
  - unfold mbind, M_bind, fs_call. cbn [sv_fs set_sv_listeners]. by destruct (fs_unlink _ _).
Qed.

(** An element of a list without duplicates is found and removed. *)
Lemma assoc_head {X} p (x : X) l : assoc p ((p, x) :: l) = Some x.
Proof. unfold assoc. cbn. by rewrite decide_True. Qed.

Lemma assoc_remove_head {X} p (x : X) l : p ∉ (fst <$> l) -> assoc_remove p ((p, x) :: l) = l.
Proof.
  intros Hp. unfold assoc_remove. rewrite filter_cons_False by (cbn; naive_solver).
  induction l as [|[q y] l IH]; [done|]. cbn [fmap list_fmap fst] in Hp. apply not_elem_of_cons in Hp as [Hq Hl].
  rewrite filter_cons_True by (cbn; congruence). by rewrite IH.
Qed.

Lemma pipes_close_run l : forall s, sv_pipes s = l -> NoDup (fst <$> l) ->
  mforeach (fst <$> l) lgtd_command_pipe_close s
  = Ret tt (set_sv_pipes [] (set_sv_closed (sv_closed s ++ filter (fun fd => fd <> -1) (pipe_fd ∘ snd <$> l))
      (set_sv_fs (unlink_all (pipe_path ∘ snd <$> l) (sv_fs s)) s))).
Proof.
  induction l as [|[p pipe] l IH]; intros s Hs Hnd.
  { destruct s. cbn in Hs |- *. subst. by rewrite app_nil_r. }
  apply NoDup_cons in Hnd as [Hp Hnd]. cbn [fmap list_fmap fst mforeach].
  assert (Hget : get_pipe p s = Ret pipe s) by (unfold get_pipe, mbind, M_bind, mget; by rewrite Hs, assoc_head).
  set (s1 := set_sv_closed (sv_closed s ++ if negb (pipe_fd pipe =? -1) then [pipe_fd pipe] else []) s).
  assert (Hclose : command_pipe_close p s = Ret tt (set_sv_pipes l s1)).
  { unfold command_pipe_close. rewrite (run_bind _ _ _ _ _ Hget). rewrite (run_bind _ _ s tt s1).
    - unfold mmodify. cbn [sv_pipes set_sv_closed s1]. change (sv_pipes s1) with (sv_pipes s). by rewrite Hs, assoc_remove_head.
    - unfold s1, close, mmodify. destruct (negb _); [done|]. rewrite app_nil_r. by destruct s. }
  rewrite (run_bind _ _ s tt (set_sv_fs (snd (fs_unlink (pipe_path pipe) (sv_fs s))) (set_sv_pipes l s1))).
  2:{ unfold lgtd_command_pipe_close. rewrite (run_bind _ _ _ _ _ Hget), (run_bind _ _ _ _ _ Hclose).
      unfold mbind, M_bind, fs_call. change (sv_fs (set_sv_pipes l s1)) with (sv_fs s). by destruct (fs_unlink _ _). }
  rewrite IH by done. f_equal. destruct s. unfold s1, set_sv_pipes, set_sv_closed, set_sv_fs. cbn -[filter].
  rewrite filter_cons. destruct (Z.eqb_spec (pipe_fd pipe) (-1)) as [He|He]; cbn [negb].
  - rewrite decide_False by (by intros []). by rewrite app_nil_r.
  - rewrite decide_True by done. by rewrite <- app_assoc.
Qed.

(** ** Clients *)

(** The counter is the number of clients, which have a connection and pointers of
    their own. *)
Record clients_ok (s : server) : Prop := {
  co_count : stats_clients (w_counters (sv_world s)) = Z.of_nat (length (sv_clients s));
  co_nodup : NoDup (fst <$> sv_clients s);
  co_io : Forall (fun x => cl_io (co_client (snd x)) = true) (sv_clients s)
}.

Definition set_clients_counter (v : Z) (w : world) : world :=
  set_w_counters (set_stats_clients v (w_counters w)) w.

Lemma clients_close_run l : forall s, sv_clients s = l -> clients_ok s ->
  mforeach (fst <$> l) lgtd_client_close s
  = Ret tt (set_sv_clients [] (set_sv_world (set_clients_counter 0 (sv_world s)) s)).
Proof.
  induction l as [|[p c] l IH]; intros s Hs [Hn Hnd Hio]; rewrite Hs in *.
  { cbn in Hn. destruct s as [[]]. cbn in *. subst. unfold set_clients_counter. cbn. by destruct w_counters; cbn in *; subst. }
  apply NoDup_cons in Hnd as [Hp Hnd]. apply Forall_cons in Hio as [Hc Hio]. cbn [fmap list_fmap fst mforeach].
  set (v := Z.of_nat (length l)). set (s1 := set_sv_clients l (set_sv_world (set_clients_counter v (sv_world s)) s)).
  rewrite (run_bind _ _ s tt s1).
  - rewrite (IH s1) by (done || by split). by destruct s as [[]].
  - unfold lgtd_client_close. rewrite (run_bind _ _ s c s) by (unfold get_connection, mbind, M_bind, mget; by rewrite Hs, assoc_head).
    cbn [fst snd] in Hc. rewrite Hc. erewrite run_bind by reflexivity.
    rewrite (run_bind _ _ s tt (set_sv_world (set_clients_counter v (sv_world s)) s)).
    + unfold mmodify, s1. change (sv_clients (set_sv_world _ s)) with (sv_clients s). by rewrite Hs, assoc_remove_head.
    + unfold on_world, lgtd_stats_add. unfold mbind, M_bind, mget. cbn [get_counter]. rewrite Hn.
      replace (Z.of_nat (length ((p, c) :: l)) + -1) with v by (unfold v; cbn [length]; lia).
      rewrite (proj2 (Z.leb_le _ _)) by (unfold v; lia). unfold massert, mret, M_ret, mmodify. rewrite Hn.
      replace (Z.of_nat (length ((p, c) :: l)) + -1) with v by (unfold v; cbn [length]; lia). done.
Qed.

(** ** Timers *)

Lemma wp_timer_stop_all w : wp lgtd_timer_stop_all (fun _ w' => w' = set_w_timers ∅ w) w.
Proof.
  unfold lgtd_timer_stop_all. apply wp_bind, wp_get.
  apply (wp_foreach (fun l w' => NoDup l /\ (forall t, t ∈ l <-> is_Some (w_timers w' !! t)) /\ exists m, w' = set_w_timers m w)).
  - split_and!; [apply NoDup_fst_map_to_list| |exists (w_timers w); by destruct w].
    intros t. rewrite list_elem_of_fmap. split.
    + intros ([t' tm] & -> & Ht). exists tm. by apply elem_of_map_to_list.
    + intros [tm Ht]. exists (t, tm). split; [done|]. by apply elem_of_map_to_list.
  - intros t l w' ([Ht Hl]%NoDup_cons & Hin & m & ->). destruct (proj1 (Hin t)) as [tm Htm]; [by left|].
    unfold lgtd_timer_stop, get_timer. apply wp_bind, wp_bind, wp_get. eapply wp_deref; [exact Htm|]. apply wp_modify.
    split_and!; [done| |by exists (delete t m); destruct w]. intros u. cbn in Hin |- *.
    destruct (decide (u = t)) as [->|Hne]; [by rewrite lookup_delete_eq; split; [|intros []]|].
    rewrite lookup_delete_ne by done. rewrite <- Hin, elem_of_cons. split; [by right|by intros [?|?]].
  - intros w' (_ & Hin & m & ->). f_equal. apply map_eq. intros t. rewrite lookup_empty. cbn in Hin.
    destruct (m !! t) as [tm|] eqn:Ht; [|done]. assert (Hn : t ∈ []) by (apply Hin; by rewrite Ht). by apply elem_of_nil in Hn.
Qed.

(** ** What closing the gateways keeps *)

Record close_frame (w w' : world) : Prop := {
  cf_clients : stats_clients (w_counters w') = stats_clients (w_counters w);
  cf_broadcast : w_broadcast_write_ev w' = w_broadcast_write_ev w;
  cf_discovery : w_discovery_ev w' = w_discovery_ev w;
  cf_watchdog : w_watchdog_pending w' = w_watchdog_pending w
}.

#[local] Instance close_frame_refl : Reflexive close_frame.
Proof. by split. Qed.
#[local] Instance close_frame_trans : Transitive close_frame.
Proof. intros w1 w2 w3 [] []. split; congruence. Qed.

#[local] Hint Extern 1 (framed close_frame (mmodify _)) => apply framed_modify; by split : frames.

Lemma close_frame_gateway_close_all : framed close_frame lgtd_lifx_gateway_close_all.
Proof.
  assert (Hstats : forall f v, f <> counter_clients -> framed close_frame (lgtd_stats_add f v)).
  { intros f v Hf. unfold lgtd_stats_add. frame. apply framed_modify. intros w. by destruct f. }
  assert (Hbulb : forall p a, framed close_frame (lgtd_lifx_gateway_remove_and_close_bulb p a)).
  { intros p a. unfold lgtd_lifx_gateway_remove_and_close_bulb, lgtd_lifx_bulb_close, set_refcount, get_refcount, upd_gw, get_gw, get_bulb.
    assert (forall l x i, framed close_frame (count_tagged l x i)) by (intros l x i; induction l; cbn [count_tagged]; unfold get_bulb; frame).
    frame; by apply Hstats. }
  assert (Hbulbs : forall fuel p, framed close_frame (close_bulbs fuel p))
    by (intros fuel p; induction fuel; cbn [close_bulbs]; unfold get_gw; frame).
  unfold lgtd_lifx_gateway_close_all, lgtd_lifx_gateway_close, lgtd_timer_stop, decref_all, lgtd_lifx_tagging_decref,
    lgtd_lifx_tagging_deallocate_tag, upd_gw, upd_tag, get_gw, get_tag, get_timer.
  frame; by apply Hstats.
Qed.

(** ** The whole *)

Lemma wp_on_server {X} (m : M server X) (Q : X -> process -> Prop) s :
  wp m (fun a v => Q a (set_pr_server v s)) (pr_server s) -> wp (on_server m) Q s.
Proof. unfold wp, on_server. by destruct (m (pr_server s)). Qed.

Lemma wp_on_world {X} (m : M world X) (Q : X -> server -> Prop) s :
  wp m (fun a w => Q a (set_sv_world w s)) (sv_world s) -> wp (on_world m) Q s.
Proof. unfold wp, on_world. by destruct (m (sv_world s)). Qed.

(** The gateways can be closed: the invariant holds, but for the broadcast
    endpoint, which may be closed, and the id of the client, which may not be set. *)
Definition closable (w : world) : Prop :=
  exists id, world_inv (set_w_client_id id (set_w_broadcast_write_ev (Some false) w)).

Lemma closable_inv w : world_inv w -> closable w.
Proof.
  intros Hi. exists (w_client_id w). by apply (world_inv_broadcast w (Some false)).
Qed.

(** The counter of clients, the broadcast endpoint and the events do not matter. *)
Record same_devices (w w' : world) : Prop := {
  sm_gateways : w_gateways w' = w_gateways w /\ w_gateway_list w' = w_gateway_list w;
  sm_bulbs : w_bulbs_table w' = w_bulbs_table w;
  sm_tags : w_tags w' = w_tags w /\ w_tag_list w' = w_tag_list w;
  sm_timers : w_timers w' = w_timers w;
  sm_now : w_now w' = w_now w;
  sm_counters : set_stats_clients 0 (w_counters w') = set_stats_clients 0 (w_counters w)
}.

Lemma closable_same w w' : closable w -> same_devices w w' -> closable w'.
Proof.
  intros (id & [Hd Hr]) [[HG HL] HB [HT HTL] HM HN HC]. exists id.
  assert (Hg := f_equal stats_gateways HC). assert (Hb := f_equal stats_bulbs HC). assert (Ho := f_equal stats_bulbs_powered_on HC).
  destruct w, w'. cbn in *. subst. destruct Hd as [Hsend Hcounts Hbulbs Hfound Hon], Hr. split.
  - split; cbn in *; [by destruct Hsend; split|done|done|congruence|congruence].
  - split; cbn in *; try done. congruence.
Qed.

(** The event of each signal is there. *)
Definition signals_set (s : process) : Prop :=
  exists a b c, lgtd_signal_evs (pr_signals s) = [Some a; Some b; Some c].

(** None is after they were freed. *)
Definition signals_freed (g : signals) : signals :=
  {| lgtd_signal_evs := [None; None; None]; lgtd_last_signal_received := lgtd_last_signal_received g;
     sg_sigpipe_ignored := sg_sigpipe_ignored g; sg_loopbreak := sg_loopbreak g |}.

Lemma close_signals_run s :
  signals_set s -> lgtd_close_signal_handling s = Ret tt (set_pr_signals (signals_freed (pr_signals s)) s).
Proof. destruct s as [? ? ? ? ? ? ? ? ? ? [evs ? ? ?]]. by intros (a & b & c & [= ->]). Qed.

(** Where the event of a signal is missing, the null pointer is followed. *)
Lemma wpc_close_signals s :
  length (lgtd_signal_evs (pr_signals s)) = 3%nat ->
  wpc (fun c => c = UndefinedBehaviour /\ ~ signals_set s) lgtd_close_signal_handling
    (fun _ s' => s' = set_pr_signals (signals_freed (pr_signals s)) s) s.
Proof.
  destruct s as [? ? ? ? ? ? ? ? ? ? [evs ? ? ?]]. cbn. destruct evs as [|a [|b [|c [|]]]]; intros [=].
  destruct a as [a|]; [|split; [done|by intros (? & ? & ? & [=])]]. destruct b as [b|]; [|split; [done|by intros (? & ? & ? & [=])]].
  destruct c as [c|]; [done|split; [done|by intros (? & ? & ? & [=])]].
Qed.

(** The files that are removed, in order. *)
Definition removed_files (s : process) : list (list Z) :=
  unix_paths (sv_listeners (pr_server s)) ++ (pipe_path ∘ snd <$> sv_pipes (pr_server s))
  ++ option_list (opts_pidfile (pr_opts s)).

Record cleaned (s s' : process) : Prop := {
  cd_listeners : sv_listeners (pr_server s') = [];
  cd_pipes : sv_pipes (pr_server s') = [];
  cd_clients : sv_clients (pr_server s') = [];
  cd_closed : sv_closed (pr_server s')
    = sv_closed (pr_server s) ++ filter (fun fd => fd <> -1) (pipe_fd ∘ snd <$> sv_pipes (pr_server s));
  cd_files : sv_fs (pr_server s') = unlink_all (removed_files s) (sv_fs (pr_server s));
  cd_gateways : w_gateways (sv_world (pr_server s')) = ∅;
  cd_bulbs : w_bulbs_table (sv_world (pr_server s')) = ∅;
  cd_timers : w_timers (sv_world (pr_server s')) = ∅;
  cd_counters : w_counters (sv_world (pr_server s'))
    = {| stats_gateways := 0; stats_bulbs := 0; stats_bulbs_powered_on := 0; stats_clients := 0 |};
  cd_broadcast : w_broadcast_write_ev (sv_world (pr_server s')) = None;
  cd_discovery : w_discovery_ev (sv_world (pr_server s')) = None /\ pr_discovery_evs s' = false;
  cd_signals : pr_signals s' = signals_freed (pr_signals s)
}.

(** Closing the gateways when the endpoint is closed. *)
Lemma wp_close_all_offline w :
  closable w -> w_broadcast_write_ev w = None ->
  wp lgtd_lifx_gateway_close_all (fun _ w' => close_frame w w' /\ w_gateways w' = ∅ /\ w_bulbs_table w' = ∅
    /\ stats_gateways (w_counters w') = 0 /\ stats_bulbs (w_counters w') = 0 /\ stats_bulbs_powered_on (w_counters w') = 0) w.
Proof.
  intros [id Hi] Hev. set (w1 := set_w_client_id id (set_w_broadcast_write_ev (Some false) w)).
  assert (Hw : w = offline (w_client_id w) w1) by (destruct w; cbn in Hev; by subst).
  assert (Hrun : wp lgtd_lifx_gateway_close_all (fun _ w' => w_gateways w' = ∅ /\ w_bulbs_table w' = ∅
    /\ stats_gateways (w_counters w') = 0 /\ stats_bulbs (w_counters w') = 0 /\ stats_bulbs_powered_on (w_counters w') = 0) w).
  { rewrite Hw. apply wp_blind; [apply offline_gateway_close_all|]. apply wp_close_all; [exact Hi|].
    intros w' [Hd Hr] HG HB. split_and!; [done|done|..].
    - cbn. by rewrite (ri_found _ Hr), HG.
    - cbn. by rewrite (dv_found _ _ _ Hd), HB.
    - cbn. rewrite (dv_on _ _ _ Hd), HB. unfold power_count. by rewrite dom_empty_L. }
  pose proof (close_frame_gateway_close_all w) as Hf. unfold wp in *.
  destruct (lgtd_lifx_gateway_close_all w) as [[] w'|]; [|done]. by split.
Qed.

Lemma unlink_all_app l k f : unlink_all (l ++ k) f = unlink_all k (unlink_all l f).
Proof. apply foldl_app. Qed.

(** With the array of the signals, the cleanup goes wrong only where the event of one is missing. *)
Lemma wpc_lgtd_cleanup s :
  clients_ok (pr_server s) -> NoDup (fst <$> sv_pipes (pr_server s)) -> closable (sv_world (pr_server s)) ->
  length (lgtd_signal_evs (pr_signals s)) = 3%nat ->
  wpc (fun c => c = UndefinedBehaviour /\ ~ signals_set s) lgtd_cleanup (fun _ s' => cleaned s s') s.
Proof.
  intros Hc Hnd Hw Hsig. unfold lgtd_cleanup.
  apply wpc_bind_wp, wp_bind, wp_on_server, wp_on_world, wp_modify, wp_modify.
  apply wpc_bind_wp, wp_on_server. unfold lgtd_listen_close_all. apply wp_bind, wp_get. eapply wp_of_run; [by apply listen_close_run|].
  apply wpc_bind_wp, wp_on_server. unfold lgtd_command_pipe_close_all. apply wp_bind, wp_get. eapply wp_of_run; [by apply pipes_close_run|].
  apply wpc_bind_wp, wp_on_server. unfold lgtd_client_close_all. apply wp_bind, wp_get.
  eapply wp_of_run; [apply clients_close_run; [done|by destruct Hc; split]|].
  apply wpc_bind_wp, wp_on_server, wp_on_world, wp_modify.
  apply wpc_bind_wp, wp_on_server, wp_on_world. eapply wp_mono.
  { apply wp_close_all_offline; [|done]. by apply (closable_same _ _ Hw). }
  intros _ w' ([Hcl Hev Hdisc _] & HG & HB & Hg & Hb & Hon).
  apply wpc_bind_wp, wp_on_server, wp_on_world. eapply wp_mono; [apply wp_timer_stop_all|]. intros _ w'' ->.
  apply wpc_bind. eapply wpc_mono; [eapply wpc_weaken; [|by apply wpc_close_signals]; by intros c Hsg|]. intros _ s3 ->. apply wpc_bind_wp, wp_get. cbn in Hcl, Hev, Hdisc.
  assert (Hend : forall f, f = unlink_all (removed_files s) (sv_fs (pr_server s)) -> forall s',
    pr_server s' = set_sv_fs f (set_sv_clients [] (set_sv_pipes [] (set_sv_listeners [] (set_sv_closed
      (sv_closed (pr_server s) ++ filter (fun fd => fd <> -1) (pipe_fd ∘ snd <$> sv_pipes (pr_server s)))
      (set_sv_world (set_w_timers ∅ w') (pr_server s)))))) -> pr_discovery_evs s' = false ->
    pr_signals s' = signals_freed (pr_signals s) -> cleaned s s').
  { intros f -> s' Hs' Hevs Hsg. split; rewrite ?Hs'; cbn; try done.
    destruct (w_counters w'). cbn in *. by subst. }
  unfold removed_files in Hend. rewrite !unlink_all_app in Hend.
  cbn [pr_opts set_pr_server set_pr_discovery_evs set_pr_signals]. destruct (opts_pidfile (pr_opts s)) as [pidfile|] eqn:Hpid.
  - apply wpc_bind_wp, wp_on_server. unfold wp at 1, fs_call. cbn.
    destruct (fs_unlink pidfile _) as [r f] eqn:Hun. eapply Hend; [|reflexivity|done|done].
    symmetry. exact (f_equal snd Hun).
  - apply wpc_ret. by eapply Hend.
Qed.

Lemma wp_lgtd_cleanup s :
  clients_ok (pr_server s) -> NoDup (fst <$> sv_pipes (pr_server s)) -> closable (sv_world (pr_server s)) -> signals_set s ->
  wp lgtd_cleanup (fun _ s' => cleaned s s') s.
Proof.
  intros Hc Hnd Hw Hsig. eapply wp_of_wpc; [|apply wpc_lgtd_cleanup; try done; by destruct Hsig as (a & b & c & ->)].
  by intros c [_ []].
Qed.
End Close.
