(* ===== verification/StartSpec.v ===== *)
(** * Starting

    The main function exits or gets to its event loop, with the invariant of the
    daemon and the privileges that were asked for. *)

From Stdlib Require Import ZArith Lia String.
From stdpp Require Import base tactics list gmap.
From S2P Require Import Prelude CLib WireBits PacketInfo WireProto World Gateway Discovery Invariant EventsInv Daemon.
From S2P Require Import Jsmn Printf Session Client Files ServerState Connections Pipe Listen MakedirsSpec SocketsSpec.
From S2P Require Import Process Startup CleanupSpec.

(** ** Before the setup *)

Definition blank_world (now : Z) : world :=
  set_w_broadcast_write_ev None (initial_world 0 now).

Section Start.
Context {E : Endianness} {C : LibC} {A : Accounts} {L : Libevent} {F : FileSystem}.

(** Pointers are not used twice. *)
Definition pointers_ok {X} (next : positive) (l : list (positive * X)) : Prop :=
  NoDup (fst <$> l) /\ Forall (fun x => (fst x < next)%positive) l.

Lemma pointers_ok_cons {X} next (x : X) l : pointers_ok next l -> pointers_ok (Pos.succ next) ((next, x) :: l).
Proof.
  intros [Hnd Hlt]. split.
  - constructor; [|done]. intros (y & Hy & Hin)%list_elem_of_fmap. rewrite Forall_forall in Hlt.
    specialize (Hlt y Hin). cbn in *. rewrite <- Hy in Hlt. lia.
  - constructor; [cbn; lia|]. eapply Forall_impl; [exact Hlt|]. cbn. lia.
Qed.

Lemma pointers_ok_next {X} next (l : list (positive * X)) : pointers_ok next l -> pointers_ok (Pos.succ next) l.
Proof. intros [Hnd Hlt]. split; [done|]. eapply Forall_impl; [exact Hlt|]. cbn. lia. Qed.

(** *** The invariant of the connections and pipes *)

Definition pipe_ok (pipe : lgtd_command_pipe) : Prop := Forall (fun c => c <> 0) (pipe_path pipe).

Record server_ok (s : server) : Prop := {
  so_count : stats_clients (w_counters (sv_world s)) = Z.of_nat (length (sv_clients s));
  so_clients : pointers_ok (sv_next s) (sv_clients s);
  so_io : Forall (fun x => cl_io (co_client (snd x)) = true) (sv_clients s);
  so_pipes : pointers_ok (sv_next s) (sv_pipes s);
  so_paths : Forall (fun x => pipe_ok (snd x)) (sv_pipes s)
}.

Lemma server_ok_clients s : server_ok s -> clients_ok s.
Proof. intros [Hn [Hnd _] Hio _ _]. by split. Qed.

Lemma server_ok_same s s' : server_ok s -> same_sockets s s' -> server_ok s'.
Proof.
  intros [Hn Hc Hio Hp Hpa] [Hc' Hp' _ Hn' [rs Hw']]. split; rewrite ?Hw', ?Hc', ?Hp', ?Hn'; done.
Qed.

Lemma server_ok_new_pipe s s1 path fd :
  server_ok s1 -> same_sockets s s1 -> Forall (fun c => c <> 0) path ->
  server_ok (set_sv_pipes ((sv_next s, new_pipe path fd) :: sv_pipes s) (set_sv_next (Pos.succ (sv_next s)) s1)).
Proof.
  intros [Hn Hc Hio Hp Hpa] [Hc' Hp' _ Hn' _] Hpath. rewrite <- Hn', <- Hp'.
  split; cbn; [done|by apply pointers_ok_next|done|by apply pointers_ok_cons|by constructor].
Qed.

(** No client yet, and a world that only spent results of calls. *)
Record starting (now : Z) (s : server) : Prop := {
  sp_world : exists rs, sv_world s = set_w_os_results rs (blank_world now);
  sp_clients : sv_clients s = [];
  sp_ok : server_ok s
}.

Lemma starting_same now s s' : starting now s -> same_sockets s s' -> starting now s'.
Proof.
  intros [[rs Hw] Hc Hs] Hsame. pose proof (server_ok_same _ _ Hs Hsame) as Hs'. destruct Hsame as [Hc' Hp' _ Hn' [rs' Hw']].
  split; [|congruence|done]. exists rs'. by rewrite Hw', Hw.
Qed.

Lemma starting_closable now rs : 0 < now < 2 ^ 64 -> closable (set_w_os_results rs (blank_world now)).
Proof.
  intros Hn. exists 1. assert (Hi : world_inv (initial_world 1 now)) by (by apply world_inv_initial).
  by apply (world_inv_os _ rs) in Hi.
Qed.

(** *** The options *)

Lemma wp_listen_open_loop now addrs : forall s,
  starting now s -> wp (listen_open_loop addrs) (fun _ s' => starting now s') s.
Proof.
  assert (Hk : forall s s', untouched s s' -> starting now s -> starting now s')
    by (intros s s' [Hs _] Hst; by apply (starting_same now s)).
  induction addrs as [|it addrs IH]; intros s Hs; [by apply wp_ret|]. cbn [listen_open_loop].
  apply wp_bind, wp_get. destruct (existsb _ _); [by apply wp_ret|].
  assert (Hself : descriptors [] [] s s) by (by apply descriptors_none, untouched_files, files_frame_refl).
  do 3 (eapply wp_call_then; [eassumption|]; clear Hself; intros [] ? Hself _; cbn [negb]; [|by apply wp_ret, (Hk s); [apply descriptors_none|]]).
  apply wp_bind, wp_modify. apply IH. apply descriptors_none in Hself. destruct (Hk _ _ Hself Hs) as [Hw Hc []]. by split.
Qed.

Lemma wp_pipe_open_starting now path fd s :
  starting now s -> wp (lgtd_command_pipe_open (cstr path) fd) (fun _ s' => starting now s') s.
Proof.
  intros Hs. eapply wp_mono; [apply wp_command_pipe_open, cstr_nonzero|]. intros ok s' Ho.
  destruct ok; [|by apply (starting_same now s), Ho].
  destruct Ho as [[_ ->]|(_ & s1 & [Hsame _] & ->)]; [done|].
  pose proof (starting_same now _ _ Hs Hsame) as [Hw Hc Hok]. split; [done|done|]. apply (server_ok_new_pipe s); [done|done|apply cstr_nonzero].
Qed.

Lemma wp_unix_open_starting now path fd s :
  starting now s -> wp (lgtd_listen_unix_open (cstr path) fd) (fun _ s' => starting now s') s.
Proof.
  intros Hs. eapply wp_mono; [apply wp_lgtd_listen_unix_open, cstr_nonzero|]. intros ok s' Ho.
  destruct ok; [|by apply (starting_same now s), Ho].
  destruct Ho as [[_ ->]|(_ & _ & s1 & [Hsame _] & ->)]; [done|].
  by destruct (starting_same now _ _ Hs Hsame) as [Hw Hc []]; split.
Qed.

Definition not_set_up (now : Z) (s : process) : Prop := starting now (pr_server s) /\ pr_discovery_evs s = false.

(** The same with the events of the signals, for the options. *)
Definition options_ready (now : Z) (s : process) : Prop := not_set_up now s /\ signals_set s.

(** The daemon can clean up. *)
Record ready (s : process) : Prop := {
  rd_server : server_ok (pr_server s);
  rd_world : closable (sv_world (pr_server s));
  rd_signals : signals_set s
}.

Lemma options_ready_ready now s : 0 < now < 2 ^ 64 -> options_ready now s -> ready s.
Proof. intros Hn [[[[rs Hw] Hc Hok] _] Hsig]. split; [done|rewrite Hw; by apply starting_closable|done]. Qed.

(** An error is an exit, since the cleanup returns. *)
Lemma wpx_err {B} (Q : B -> process -> Prop) s : ready s -> wpx lgtd_err Q s.
Proof.
  intros [Hok Hw Hsig]. unfold lgtd_err. apply wpx_bind_wp. eapply wp_mono; [|by intros [] s' _; apply wpx_exit].
  apply wp_lgtd_cleanup; [by apply server_ok_clients|apply (so_pipes _ Hok)|done|done].
Qed.

Lemma wpx_usage {B} now (Q : B -> process -> Prop) s :
  0 < now < 2 ^ 64 -> options_ready now s -> wpx lgtd_usage Q s.
Proof. intros Hn Hs. by apply wpx_err, (options_ready_ready now). Qed.

Lemma wpx_on_server {B X} (m : M server B) (k : B -> M process X) (Q : X -> process -> Prop) s :
  wp m (fun b v => wpx (k b) Q (set_pr_server v s)) (pr_server s) -> wpx (on_server m ≫= k) Q s.
Proof. intros Hm. by apply wpx_bind_wp, wp_on_server. Qed.

Lemma wpx_run_option getaddrinfo new_fd now o s :
  0 < now < 2 ^ 64 -> options_ready now s ->
  wpx (run_option getaddrinfo new_fd o) (fun _ s' => options_ready now s') s.
Proof.
  intros Hn Hs. pose proof Hs as [[Hst Hevs] Hsig]. pose proof (options_ready_ready now s Hn Hs) as Hready.
  assert (Hopen : forall m : M server bool, wp m (fun _ s' => starting now s') (pr_server s) ->
    wpx (ok ← on_server m; if negb ok then mcrash Exited else mret tt) (fun _ s' => options_ready now s') s).
  { intros m Hm. apply wpx_on_server. eapply wp_mono; [exact Hm|]. intros [] s' Hs'; [|done]. by apply wpx_ret; split. }
  assert (Hset : forall f, wpx (upd_opts f) (fun _ s' => options_ready now s') s) by done.
  destruct o; cbn [run_option]; try apply Hset; try done; try (by eapply wpx_usage).
  - destruct (strrchr_colon _) as [[addr [|c port]]|]; try (by eapply wpx_usage). apply Hopen.
    unfold lgtd_listen_open. destruct (getaddrinfo _ _); [by apply wp_listen_open_loop|by apply wp_ret].
  - by apply Hopen, wp_pipe_open_starting.
  - by apply Hopen, wp_unix_open_starting.
  - unfold lgtd_daemon_syslog_facilitytoi. destruct (list_find _ _) as [[i f]|]; [|by apply wpx_bind, wpx_err]. apply wpx_bind, wpx_ret. apply Hset.
  - destruct (list_find _ _) as [[i l]|]; [apply Hset|by apply wpx_err].
Qed.

(** *** Privileges *)

(** Files may have a new owner, and nothing else changes. *)
Record kept (s s' : process) : Prop := {
  kp_server : untouched (pr_server s) (pr_server s');
  kp_opts : pr_opts s' = pr_opts s;
  kp_user : pr_user_info s' = pr_user_info s;
  kp_group : pr_group_info s' = pr_group_info s;
  kp_ids : (pr_euid s', pr_egid s', pr_groups s') = (pr_euid s, pr_egid s, pr_groups s);
  kp_evs : pr_discovery_evs s' = pr_discovery_evs s;
  kp_owners : pr_owners s ⊆ pr_owners s';
  kp_signals : pr_signals s' = pr_signals s
}.

Lemma untouched_refl (s : server) : untouched s s.
Proof. apply untouched_files, files_frame_refl. Qed.

#[local] Instance kept_refl : Reflexive kept.
Proof. intros s. by split; [apply untouched_refl|..]. Qed.
#[local] Instance kept_trans : Transitive kept.
Proof.
  intros s1 s2 s3 [Hs1 ? ? ? ? ? Ho1 ?] [Hs2 ? ? ? ? ? Ho2 ?]. split; try congruence.
  - by eapply untouched_trans.
  - by transitivity (pr_owners s2).
Qed.

Lemma kept_ready s s' : kept s s' -> ready s -> ready s'.
Proof.
  intros [[Hsame _] _ _ _ _ _ _ Hsig] [Hok Hw Hset]. split; [by apply (server_ok_same (pr_server s))| |].
  - destruct Hsame as [_ _ _ _ [rs ->]]. by apply (closable_same _ _ Hw).
  - unfold signals_set. by rewrite Hsig.
Qed.

Lemma wp_pr_call (Q : bool -> process -> Prop) s : (forall b s', kept s s' -> Q b s') -> wp pr_call Q s.
Proof.
  intros HQ. apply wp_on_server, wp_call. intros b rs. apply HQ. split; try done.
  split; [split; cbn; eauto|done].
Qed.

(** The file and its directory belong to the user. *)
Definition owned (uid gid : Z) (s : process) (path : list Z) : Prop :=
  (path, (uid, gid)) ∈ pr_owners s /\ (dirname path, (uid, gid)) ∈ pr_owners s.

Lemma owned_sub uid gid s s' path : pr_owners s ⊆ pr_owners s' -> owned uid gid s path -> owned uid gid s' path.
Proof. intros Hs [H1 H2]. split; by apply Hs. Qed.

Lemma owned_kept uid gid s s' path : owned uid gid s path -> kept s s' -> owned uid gid s' path.
Proof. intros Ho Hk. eapply owned_sub; [apply (kp_owners _ _ Hk)|done]. Qed.

Lemma wp_chown path uid gid s :
  wp (chown path uid gid) (fun ok s' => kept s s' /\ (ok = true -> (path, (uid, gid)) ∈ pr_owners s')) s.
Proof.
  unfold chown. apply wp_bind, wp_pr_call. intros [] s1 Hk; apply wp_bind.
  - apply wp_modify, wp_ret. split; [|intros _; by left]. transitivity s1; [done|]. split; try done; [apply untouched_refl|].
    intros x Hx. by right.
  - by apply wp_ret, wp_ret.
Qed.

Lemma wpx_chown_both path uid gid s :
  ready s -> wpx (chown_both path uid gid) (fun _ s' => kept s s' /\ owned uid gid s' path) s.
Proof.
  intros Hr. unfold chown_both, lgtd_daemon_chown_dir_of. apply wpx_bind_wp, wp_bind, wp_pr_call.
  intros [] s1 Hk1; cbn [negb]; [|by apply wp_ret, wpx_err, (kept_ready s)]. pose proof (kept_ready _ _ Hk1 Hr) as Hr1.
  eapply wp_mono; [apply wp_chown|]. intros [] s2 [Hk2 Hd]; cbn [negb]; [|by apply wpx_err, (kept_ready s1)].
  apply wpx_bind_wp. pose proof (kept_ready _ _ Hk2 Hr1) as Hr2.
  eapply wp_mono; [apply wp_chown|]. intros [] s3 [Hk3 Hf]; cbn [negb]; [|by apply wpx_err, (kept_ready s2)]. apply wpx_ret.
  split; [by transitivity s2; [transitivity s1|]|]. split; [by apply Hf|]. by apply (kp_owners _ _ Hk3), Hd.
Qed.

(** A loop that makes each element right keeps what was made right. *)
Lemma wpx_each {X} (ok : process -> X -> Prop) (l : list X) body s :
  (forall x s1 s2, ok s1 x -> kept s1 s2 -> ok s2 x) ->
  (forall x s1, kept s s1 -> wpx (body x) (fun _ s2 => kept s1 s2 /\ ok s2 x) s1) ->
  wpx (mforeach l body) (fun _ s' => kept s s' /\ Forall (ok s') l) s.
Proof.
  intros Hok Hbody. revert s Hbody. induction l as [|x l IH]; intros s Hbody; cbn [mforeach]; [by apply wpx_ret|].
  apply wpx_bind. eapply wpx_mono; [by apply Hbody|]. intros _ s1 [Hk1 H1]. eapply wpx_mono; [apply IH|].
  - intros y s2 Hk2. apply Hbody. by transitivity s1.
  - intros _ s2 [Hk2 H2]. split; [by transitivity s1|]. constructor; [by eapply Hok|done].
Qed.

Definition listener_owned (uid gid : Z) (s : process) (l : lgtd_listen) : Prop :=
  match li_sockaddr l with sockaddr_un path => owned uid gid s (cstr path) | _ => True end.

(** The process runs as that user, who has what is open. *)
Record runs_as (uid gid : Z) (s : process) : Prop := {
  ra_euid : pr_euid s = uid;
  ra_egid : pr_egid s = gid;
  ra_groups : pr_groups s = [gid];
  ra_pipes : Forall (fun x => owned uid gid s (pipe_path (snd x))) (sv_pipes (pr_server s));
  ra_listeners : Forall (listener_owned uid gid s) (sv_listeners (pr_server s))
}.

(** Nothing but owners and ids changed. *)
Definition kept_files (s s' : process) : Prop :=
  untouched (pr_server s) (pr_server s') /\ pr_opts s' = pr_opts s /\ pr_discovery_evs s' = pr_discovery_evs s
  /\ pr_signals s' = pr_signals s.

Lemma kept_kept_files s s' : kept s s' -> kept_files s s'.
Proof. intros Hk. by destruct Hk. Qed.

Lemma wpx_drop_privileges ui gi s :
  ready s -> pr_user_info s = Some ui -> pr_group_info s = Some gi ->
  wpx lgtd_daemon_drop_privileges (fun _ s' => kept_files s s' /\ runs_as (pw_uid ui) (gr_gid gi) s') s.
Proof.
  intros Hr Hu Hg. unfold lgtd_daemon_drop_privileges. apply wpx_bind_wp, wp_get. rewrite Hu, Hg.
  do 2 (apply wpx_bind_wp, wp_assert; [done|]). do 2 (apply wpx_bind_wp; eapply wp_deref; [done|]). cbv zeta.
  set (uid := pw_uid ui). set (gid := gr_gid gi).
  apply wpx_bind. eapply wpx_mono.
  { apply (wpx_each (fun s' pipe => owned uid gid s' (pipe_path pipe))); [by intros ? ? ?; apply owned_kept|].
    intros pipe s1 Hk1. by apply wpx_chown_both, (kept_ready s). }
  intros _ s1 [Hk1 H1]. apply wpx_bind. eapply wpx_mono.
  { apply (wpx_each (listener_owned uid gid)).
    - intros [[]] ? ?; try done. by apply owned_kept.
    - intros [[]] s2 Hk2; [by apply wpx_ret..|]. apply wpx_chown_both. by apply (kept_ready s1), (kept_ready s). }
  intros _ s2 [Hk2 H2].
  assert (Hr2 : ready s2) by (by apply (kept_ready s1), (kept_ready s)).
  apply wpx_bind_wp, wp_pr_call. intros okg s3 Hk3. assert (Hr3 : ready s3) by (by apply (kept_ready s2)).
  destruct okg; cbn [negb]; [|by apply wpx_err]. apply wpx_bind_wp, wp_modify.
  apply wpx_bind_wp, wp_pr_call. intros okgs s4 Hk4. assert (Hr4 : ready s4) by (apply (kept_ready _ _ Hk4); by destruct Hr3).
  destruct okgs; cbn [negb]; [|by apply wpx_err]. apply wpx_bind_wp, wp_modify.
  apply wpx_bind_wp, wp_pr_call. intros oku s5 Hk5. assert (Hr5 : ready s5) by (apply (kept_ready _ _ Hk5); by destruct Hr4).
  destruct oku; cbn [negb]; [|by apply wpx_err]. apply wpx_of_wp, wp_modify.
  assert (Hk : kept s s3) by (by transitivity s2; [transitivity s1|]).
  assert (Hfiles : kept_files s (set_pr_euid uid s5)).
  { destruct Hk as [Hs3 Ho3 _ _ _ He3 _ Hg3], Hk4 as [Hs4 Ho4 _ _ _ He4 _ Hg4], Hk5 as [Hs5 Ho5 _ _ _ He5 _ Hg5]. cbn in *.
    split_and!; cbn; [|congruence..]. eapply untouched_trans; [exact Hs3|]. by eapply untouched_trans. }
  split; [exact Hfiles|]. destruct Hfiles as ([[_ Hpipes Hlisten _ _] _] & _ & _ & _).
  assert (Ho : pr_owners s1 ⊆ pr_owners s5 /\ pr_owners s2 ⊆ pr_owners s5).
  { pose proof (kp_owners _ _ Hk2). pose proof (kp_owners _ _ Hk3). pose proof (kp_owners _ _ Hk4).
    pose proof (kp_owners _ _ Hk5). cbn in *. set_solver. }
  pose proof (kp_ids _ _ Hk5) as [= He5 Hg5 Hgr5]. pose proof (kp_ids _ _ Hk4) as [= He4 Hg4 Hgr4]. cbn in *.
  split; cbn; [done|congruence|done| |].
  - rewrite Hpipes. rewrite Forall_fmap in H1. eapply Forall_impl; [exact H1|]. intros [p pipe]. apply (owned_sub _ _ s1), Ho.
  - rewrite Hlisten. eapply Forall_impl; [exact H2|]. intros [[]]; try done. apply (owned_sub _ _ s2), Ho.
Qed.

Lemma wp_write_pidfile path s : wp (lgtd_daemon_write_pidfile path) (fun _ s' => kept s s') s.
Proof.
  unfold lgtd_daemon_write_pidfile. apply wp_bind, wp_pr_call. intros [] s1 Hk1; cbn [negb]; [|by apply wp_ret].
  apply wp_bind, wp_get.
  assert (Hend : forall s2, kept s s2 -> wp pr_call (fun _ s' => kept s s') s2)
    by (intros s2 Hk2; apply wp_pr_call; intros _ s3 Hk3; by transitivity s2).
  apply wp_bind. destruct (pr_user_info s1) as [ui|]; [destruct (pr_group_info s1) as [gi|]|]; [|by apply wp_ret, Hend..].
  apply wp_bind. eapply wp_mono; [apply wp_chown|]. intros _ s2 [Hk2 _]. apply wp_ret, Hend. by transitivity s1.
Qed.

Lemma wp_write_pidfile_if pidfile s : wp (write_pidfile_if pidfile) (fun _ s' => kept s s') s.
Proof.
  destruct pidfile; [|by apply wp_ret]. apply wp_bind. eapply wp_mono; [apply wp_write_pidfile|]. intros ? s' Hk. by apply wp_ret.
Qed.

(** The group of the options, or the one of the user. *)
Definition group_of (opts : lgtd_opts) (ui : passwd) : option group :=
  match opts_group opts with
  | Some gr => getgrnam gr
  | None => getgrgid (pw_gid ui)
  end.

(** The user of the options is the one the process runs as, and it is not root
    unless it was asked for. *)
Record unprivileged (s : process) : Prop := {
  up_root : (exists user, opts_user (pr_opts s) = Some user /\ strcmp_eq user (bytes_of_string "root") = true)
    \/ pr_euid s <> 0 /\ pr_egid s <> 0;
  up_user : forall user, opts_user (pr_opts s) = Some user -> exists ui gi, getpwnam user = Some ui
    /\ group_of (pr_opts s) ui = Some gi /\ runs_as (pw_uid ui) (gr_gid gi) s
}.

(** The group of every user is in the database. *)
Definition groups_exist : Prop := forall user ui, getpwnam user = Some ui -> is_Some (getgrgid (pw_gid ui)).

Lemma not_set_up_kept now s s' : not_set_up now s -> kept_files s s' -> not_set_up now s'.
Proof. intros [Hs He] ([Hsame _] & _ & He' & _). split; [by apply (starting_same now (pr_server s))|congruence]. Qed.

Lemma options_ready_kept now s s' : options_ready now s -> kept_files s s' -> options_ready now s'.
Proof.
  intros [Hs Hsig] Hk. split; [by apply (not_set_up_kept now s)|]. destruct Hk as (_ & _ & _ & Hg). unfold signals_set. by rewrite Hg.
Qed.

(** Users and groups. *)
Lemma wpx_user_and_group user s (Q : unit -> process -> Prop) :
  groups_exist -> ready s ->
  (forall ui gi, getpwnam user = Some ui -> group_of (pr_opts s) ui = Some gi ->
     Q tt (set_pr_group_info (Some gi) (set_pr_user_info (Some ui) s))) ->
  wpx (lgtd_daemon_set_user user ;; lgtd_daemon_set_group (opts_group (pr_opts s))) Q s.
Proof.
  intros Hgroups Hr HQ. unfold lgtd_daemon_set_user, lgtd_daemon_set_group.
  destruct (getpwnam user) as [ui|] eqn:Hu; [|by apply wpx_bind, wpx_err]. apply wpx_bind_wp, wp_modify, wpx_bind_wp, wp_get.
  apply wpx_bind_wp, wp_assert; [done|]. apply wpx_bind_wp. eapply wp_deref; [done|]. unfold group_of in HQ.
  destruct (opts_group (pr_opts s)) as [gr|].
  - apply wpx_bind_wp, wp_ret. destruct (getgrnam gr) as [gi|] eqn:Hg; [by apply HQ|].
    apply wpx_err. by destruct Hr.
  - destruct (Hgroups user ui Hu) as [gi Hg]. apply wpx_bind_wp, wp_bind. eapply wp_deref; [exact Hg|]. apply wp_ret. by apply HQ.
Qed.

Lemma wpx_assoc {X Y Z'} (m : M process X) (k : X -> M process Y) (k' : Y -> M process Z') (Q : Z' -> process -> Prop) s :
  wpx ((m ≫= k) ≫= k') Q s -> wpx (m ≫= fun x => k x ≫= k') Q s.
Proof. unfold wpx, mbind, M_bind. by destruct (m s). Qed.

Lemma wpx_setup_user now s :
  0 < now < 2 ^ 64 -> groups_exist -> options_ready now s -> wpx setup_user (fun _ s' => options_ready now s' /\ unprivileged s') s.
Proof.
  intros Hnow Hgroups Hs. unfold setup_user. apply wpx_bind_wp, wp_get.
  assert (Hdie : forall s', options_ready now s' ->
    (forall user, opts_user (pr_opts s') = Some user -> exists ui gi, getpwnam user = Some ui
       /\ group_of (pr_opts s') ui = Some gi /\ runs_as (pw_uid ui) (gr_gid gi) s') ->
    wpx (s ← mget; lgtd_daemon_die_if_running_as_root_unless_requested (opts_user (pr_opts s)))
      (fun _ s' => options_ready now s' /\ unprivileged s') s').
  { intros s' Hs' Huser. apply wpx_bind_wp, wp_get. unfold lgtd_daemon_die_if_running_as_root_unless_requested.
    assert (Hend : (exists user, opts_user (pr_opts s') = Some user /\ strcmp_eq user (bytes_of_string "root") = true)
      \/ pr_euid s' <> 0 /\ pr_egid s' <> 0 -> options_ready now s' /\ unprivileged s') by (intros; by split; [|split]).
    assert (Hids : wpx (s ← mget; if (pr_euid s =? 0) || (pr_egid s =? 0) then lgtd_err else mret tt)
      (fun _ s' => options_ready now s' /\ unprivileged s') s').
    { apply wpx_bind_wp, wp_get. destruct (Z.eqb_spec (pr_euid s') 0); [by apply wpx_err, (options_ready_ready now)|].
      destruct (Z.eqb_spec (pr_egid s') 0); [by apply wpx_err, (options_ready_ready now)|]. apply wpx_ret, Hend. by right. }
    destruct (opts_user (pr_opts s')) as [user|] eqn:Hu; [|exact Hids].
    destruct (strcmp_eq user _) eqn:Hroot; [|exact Hids]. apply wpx_ret, Hend. left. by exists user. }
  apply wpx_bind. destruct (opts_user (pr_opts s)) as [user|] eqn:Hu.
  - apply wpx_assoc, wpx_bind. apply wpx_user_and_group; [done|by apply (options_ready_ready now)|]. intros ui gi Hui Hgi.
    set (s1 := set_pr_group_info _ _).
    apply wpx_bind_wp. eapply wp_mono; [apply wp_write_pidfile_if|]. intros ? s2 Hk2.
    assert (Hu2 : pr_user_info s2 = Some ui) by (by rewrite (kp_user _ _ Hk2)).
    assert (Hg2 : pr_group_info s2 = Some gi) by (by rewrite (kp_group _ _ Hk2)).
    assert (Hs2 : options_ready now s2) by (by apply (options_ready_kept now s1); [|apply kept_kept_files]).
    eapply wpx_mono; [by apply wpx_drop_privileges; [apply (options_ready_ready now)|..]|]. intros _ s3 [Hf Hruns].
    assert (Hopts : pr_opts s3 = pr_opts s) by (rewrite (proj1 (proj2 Hf)); apply (kp_opts _ _ Hk2)).
    apply Hdie.
    + by apply (options_ready_kept now s2).
    + intros user'. rewrite Hopts, Hu. intros [= <-]. by exists ui, gi.
  - case_bool_decide; [by apply wpx_err, (options_ready_ready now)|]. apply wpx_ret, Hdie; [done|]. by rewrite Hu.
Qed.

(** *** After the privileges are dropped *)

(** What is open and the privileges stay. *)
Record later (s s' : process) : Prop := {
  la_opts : pr_opts s' = pr_opts s;
  la_ids : (pr_euid s', pr_egid s', pr_groups s') = (pr_euid s, pr_egid s, pr_groups s);
  la_owners : pr_owners s ⊆ pr_owners s';
  la_listeners : sv_listeners (pr_server s') = sv_listeners (pr_server s);
  la_pipes : sv_pipes (pr_server s') = sv_pipes (pr_server s);
  la_clients : sv_clients (pr_server s') = sv_clients (pr_server s);
  la_next : sv_next (pr_server s') = sv_next (pr_server s);
  la_signals : pr_signals s' = pr_signals s
}.

#[local] Instance later_refl : Reflexive later.
Proof. by split. Qed.
#[local] Instance later_trans : Transitive later.
Proof.
  intros s1 s2 s3 [? ? Ho1] [? ? Ho2]. split; try congruence. by transitivity (pr_owners s2).
Qed.

Lemma later_kept s s' : kept s s' -> later s s'.
Proof. by intros [[[] _] ? ? ? ? ? ? ?]. Qed.

Lemma unprivileged_later s s' : unprivileged s -> later s s' -> unprivileged s'.
Proof.
  intros [Hroot Huser] [Ho Hids How Hl Hp _ _ _]. injection Hids as Heu Heg Hgr. split; rewrite Ho; [by rewrite Heu, Heg|].
  intros user Hu. destruct (Huser user Hu) as (ui & gi & Hui & Hgi & [Hr1 Hr2 Hr3 Hr4 Hr5]). exists ui, gi. split_and!; [done..|].
  split; try congruence.
  - rewrite Hp. eapply Forall_impl; [exact Hr4|]. intros [p pipe]. by apply owned_sub.
  - rewrite Hl. eapply Forall_impl; [exact Hr5|]. intros [[]]; try done. by apply owned_sub.
Qed.

(** The daemon can still clean up when the devices are the same. *)
Lemma later_ready s s' :
  ready s -> later s s' -> same_devices (sv_world (pr_server s)) (sv_world (pr_server s')) ->
  stats_clients (w_counters (sv_world (pr_server s'))) = stats_clients (w_counters (sv_world (pr_server s))) -> ready s'.
Proof.
  intros [[Hn Hc Hio Hp Hpa] Hw Hsig] [_ _ _ _ Hpipes Hclients Hnext Hset] Hsame Hcount. split.
  - split; rewrite ?Hcount, ?Hclients, ?Hpipes, ?Hnext; done.
  - by apply (closable_same _ _ Hw).
  - unfold signals_set. by rewrite Hset.
Qed.

Definition with_client_id (v : Z) (s : process) : process :=
  set_pr_server (set_sv_world (set_w_client_id v (sv_world (pr_server s))) (pr_server s)) s.

Lemma wpx_wire_setup randoms : forall s, ready s ->
  wpx (lgtd_lifx_wire_setup randoms) (fun _ s' => exists v, v <> 0 /\ s' = with_client_id v s) s.
Proof.
  induction randoms as [|v randoms IH]; intros s Hr; [by apply wpx_err|]. cbn [lgtd_lifx_wire_setup].
  apply wpx_bind_wp, wp_on_server, wp_on_world, wp_modify. fold (with_client_id v s).
  destruct (Z.eqb_spec v 0) as [->|Hv]; [|apply wpx_ret; by exists v].
  eapply wpx_mono; [by apply IH, (later_ready s)|]. intros _ w' (v & Hv & ->). by exists v.
Qed.

Lemma wpx_pr_world {B X} (m : M world B) (k : B -> M process X) (Q : X -> process -> Prop) s :
  wpx m (fun b w => wpx (k b) Q (set_pr_server (set_sv_world w (pr_server s)) s)) (sv_world (pr_server s)) ->
  wpx (pr_world m ≫= k) Q s.
Proof. unfold wpx, pr_world, on_server, on_world, mbind, M_bind. by destruct (m _) as [|[]]. Qed.

Lemma wpx_pr_world_err {X} (m : M world X) (Q : X -> process -> Prop) s :
  ready s -> wpx m (fun a w => Q a (set_pr_server (set_sv_world w (pr_server s)) s)) (sv_world (pr_server s)) ->
  wpx (pr_world_err m) Q s.
Proof.
  intros Hr Hm. pose proof (wpx_err Q s Hr) as He. unfold wpx in *. unfold pr_world_err, pr_world, on_server, on_world.
  by destruct (m _) as [|[]].
Qed.

Lemma wpx_setup_lifx now randoms s :
  0 < now < 2 ^ 64 -> options_ready now s ->
  wpx (setup_lifx randoms) (fun _ s' => later s s' /\ exists id rs, id <> 0
    /\ sv_world (pr_server s') = set_w_os_results rs (initial_world id now)) s.
Proof.
  intros Hnow Hs. pose proof (options_ready_ready now s Hnow Hs) as Hr. destruct Hs as [[[[rs Hw] _ _] Hevs] _].
  unfold setup_lifx. apply wpx_bind. eapply wpx_mono; [by apply wpx_wire_setup|].
  intros _ s1' (id & Hid & ->). set (s1 := with_client_id id s).
  assert (Hs1 : later s s1) by done. assert (Hr1 : ready s1) by (by apply (later_ready s)). unfold lgtd_lifx_discovery_setup.
  apply wpx_bind_wp, wp_bind, wp_get, wp_bind, wp_assert; [by cbn; rewrite Hevs|].
  apply wp_bind, wp_pr_call. intros b1 s2 Hk2. apply wp_bind, wp_pr_call. intros b2 s3 Hk3.
  assert (Hk : kept s1 s3) by (by transitivity s2). destruct (kp_server _ _ Hk) as [[_ _ _ _ [rs3 Hw3]] _].
  pose proof (kept_ready _ _ Hk Hr1) as Hr3. change (sv_world (pr_server s1)) with (set_w_client_id id (sv_world (pr_server s))) in Hw3. rewrite Hw in Hw3.
  destruct (b1 && b2).
  - apply wp_bind, wp_modify, wp_ret. cbn [negb]. apply wpx_pr_world, wpx_of_wp, wp_broadcast_setup.
    { cbn. by rewrite Hw3. }
    intros ok rs4 _. destruct ok; cbn [negb]; [|by apply wpx_err, (later_ready s3)]. apply wpx_ret. split.
    + transitivity s3; [|done]. transitivity s1; [done|by apply later_kept].
    + exists id, rs4. split; [done|]. cbn. by rewrite Hw3.
  - unfold lgtd_lifx_discovery_close. apply wp_bind, wp_bind, wp_on_server, wp_on_world, wp_modify, wp_modify, wp_ret. by apply wpx_err, (later_ready s3).
Qed.

Lemma wp_unleash s : wp lgtd_daemon_unleash (fun _ s' => kept s s') s.
Proof.
  unfold lgtd_daemon_unleash, dup2_null, SUMMON. assert (Hs : kept s s) by done.
  assert (Hcall : forall m s1, kept s s1 -> (forall s2, kept s s2 -> wp m (fun _ s' => kept s s') s2) ->
    wp (b ← pr_call; if negb b then mret false else m) (fun _ s' => kept s s') s1).
  { intros m s1 Hk1 Hm. apply wp_bind, wp_pr_call. intros [] s2 Hk2; cbn [negb].
    - apply Hm. by transitivity s1.
    - apply wp_ret. by transitivity s1. }
  do 7 (apply Hcall; [done|]; clear Hs; intros ? Hs). by apply wp_ret.
Qed.

Lemma wpc_run {St X} Cr (m : M St X) (Q : X -> St -> Prop) s a s' : wpc Cr m Q s -> m s = Ret a s' -> Q a s'.
Proof. unfold wpc. intros Hm Hrun. by rewrite Hrun in Hm. Qed.

Lemma wpx_framed {St X} R (m : M St X) (Q : X -> St -> Prop) s :
  framed R m -> wpx m Q s -> wpx m (fun a s' => Q a s' /\ R s s') s.
Proof. intros Hf. specialize (Hf s). unfold wpx. by destruct (m s) as [|[]]. Qed.

Definition same_counters (w w' : world) : Prop := w_counters w' = w_counters w.

#[local] Instance same_counters_refl : Reflexive same_counters.
Proof. done. Qed.
#[local] Instance same_counters_trans : Transitive same_counters.
Proof. unfold same_counters. intros ? ? ?. congruence. Qed.

Lemma same_counters_os : framed same_counters os_call.
Proof. intros w. unfold os_call. by destruct (w_os_results w). Qed.

#[local] Hint Resolve same_counters_os : frames.
#[local] Hint Extern 1 (framed same_counters (mmodify _)) => by apply framed_modify : frames.

Lemma discovery_keeps_counters : framed same_counters lgtd_lifx_discovery_timeout_event_callback.
Proof. unfold lgtd_lifx_discovery_timeout_event_callback, lgtd_lifx_broadcast_discovery. frame. Qed.

(** The daemon in its event loop. *)
Record started (s : process) : Prop := {
  sd_inv : world_inv (sv_world (pr_server s));
  sd_endpoint : w_broadcast_write_ev (sv_world (pr_server s)) = Some true;
  sd_privileges : unprivileged s;
  sd_server : server_ok (pr_server s);
  sd_signals : signals_set s
}.

(** The events of the signals are made one after the other. *)
Definition signals_upto (n : nat) (s : process) : Prop :=
  lgtd_signal_evs (pr_signals s) = replicate n (Some true) ++ replicate (3 - n) None.

(** The results of the calls to come. *)
Definition results (s : process) : list bool := w_os_results (sv_world (pr_server s)).

Lemma wp_pr_call_results (Q : bool -> process -> Prop) s :
  (forall b s', kept s s' -> results s' = drop 1 (results s) -> (b = false -> results s !! 0%nat = Some false) -> Q b s') ->
  wp pr_call Q s.
Proof.
  intros HQ. apply wp_on_server, wp_on_world. unfold wp, os_call. destruct (w_os_results _) as [|b rs] eqn:Hr.
  - apply HQ; [|by unfold results; cbn; rewrite Hr|done].
    split; try done. split; [|done]. split; try done. exists []. cbn. destruct (sv_world _). cbn in Hr |- *. by subst.
  - apply HQ; [|by unfold results; cbn; rewrite Hr|unfold results; rewrite Hr; by intros ->].
    split; try done. split; [|done]. split; cbn; eauto.
Qed.

(** The error that follows a failure exits, unless the event of a signal is missing. *)
Lemma wpc_err {B} (Cr : crash -> Prop) (Q : B -> process -> Prop) s :
  server_ok (pr_server s) -> closable (sv_world (pr_server s)) -> length (lgtd_signal_evs (pr_signals s)) = 3%nat ->
  Cr Exited -> (~ signals_set s -> Cr UndefinedBehaviour) -> wpc Cr lgtd_err Q s.
Proof.
  intros Hok Hw Hlen Hexit Hub. unfold lgtd_err. apply wpc_bind. eapply wpc_mono; [|by intros [] s' _; exact Hexit].
  eapply wpc_weaken; [|apply wpc_lgtd_cleanup; [by apply server_ok_clients|apply (so_pipes _ Hok)|done|done]].
  intros c [-> Hno]. by apply Hub.
Qed.

(** How the setup of the signals may stop: a null event is followed where one of the first five calls fails, which
    are those before the events are all there. *)
Definition signals_stop (s : process) (c : crash) : Prop :=
  c = Exited \/ (c = UndefinedBehaviour /\ false ∈ take 5 (results s)).

Lemma failed_in_time (rs : list bool) n : (n < 5)%nat -> drop n rs !! 0%nat = Some false -> false ∈ take 5 rs.
Proof.
  intros Hn. rewrite lookup_drop, Nat.add_0_r. intros Hf. apply list_elem_of_lookup. exists n. by rewrite lookup_take_lt.
Qed.

(** What the loop over the signals keeps, from [s0] on. *)
Record signals_made (s0 : process) (n : nat) (s : process) : Prop := {
  sm_kept : kept s0 (set_pr_signals (pr_signals s0) s);
  sm_upto : signals_upto n s;
  sm_results : results s = drop (2 * n) (results s0)
}.

Lemma signals_upto_length n s : (n <= 3)%nat -> signals_upto n s -> length (lgtd_signal_evs (pr_signals s)) = 3%nat.
Proof. unfold signals_upto. intros Hn ->. rewrite length_app, !length_replicate. lia. Qed.

(** What the calls between two signals keep. *)
Lemma kept_signals s0 s g s' :
  kept s0 (set_pr_signals (pr_signals s0) s) -> kept (set_pr_signals g s) s' -> kept s0 (set_pr_signals (pr_signals s0) s').
Proof. intros Hk [Hs Ho Hu Hg Hids He How Hsg]. transitivity (set_pr_signals (pr_signals s0) s); [done|]. by split. Qed.

Lemma signals_made_closable s0 s :
  server_ok (pr_server s0) -> closable (sv_world (pr_server s0)) -> kept s0 (set_pr_signals (pr_signals s0) s) ->
  server_ok (pr_server s) /\ closable (sv_world (pr_server s)).
Proof.
  intros Hok Hw [[Hsame _] _ _ _ _ _ _ _]. cbn in Hsame. split; [by apply (server_ok_same (pr_server s0))|].
  destruct Hsame as [_ _ _ _ [rs ->]]. by apply (closable_same _ _ Hw).
Qed.

Lemma wpc_setup_signal s0 i s :
  server_ok (pr_server s0) -> closable (sv_world (pr_server s0)) -> (i < 3)%nat -> signals_made s0 i s ->
  wpc (signals_stop s0) (setup_signal i) (fun _ s' => signals_made s0 (S i) s') s.
Proof.
  intros Hok Hw Hi [Hk Hup Hres]. unfold setup_signal.
  assert (Herr : forall n s', kept s0 (set_pr_signals (pr_signals s0) s') ->
    length (lgtd_signal_evs (pr_signals s')) = 3%nat -> drop n (results s0) !! 0%nat = Some false ->
    (n < 5)%nat \/ signals_set s' -> wpc (signals_stop s0) lgtd_err (fun (_ : unit) s' => signals_made s0 (S i) s') s').
  { intros n s' Hk' Hlen Hf Hn. destruct (signals_made_closable s0 s' Hok Hw Hk') as [Hok' Hw'].
    apply wpc_err; [done|done|done|by left|]. intros Hno. right. split; [done|]. destruct Hn as [Hn|Hn]; [|done].
    by apply (failed_in_time _ n). }
  apply wpc_bind_wp, wp_pr_call_results. intros ev s1 Hk1 Hres1 Hf1. rewrite Hres in Hres1, Hf1.
  pose proof (kept_signals s0 s (pr_signals s) s1 Hk ltac:(by destruct s)) as Hk1'.
  assert (Hevs1 : lgtd_signal_evs (pr_signals s1) = replicate i (Some true) ++ replicate (3 - i) None)
    by (by rewrite (kp_signals _ _ Hk1)).
  apply wpc_bind_wp, wp_modify. set (s2 := set_pr_signals _ s1).
  assert (Hlen2 : length (lgtd_signal_evs (pr_signals s2)) = 3%nat)
    by (cbn; rewrite length_insert, Hevs1, length_app, !length_replicate; lia).
  destruct ev; cbn [negb].
  2:{ apply (Herr (2 * i)%nat s2); [done|done|by apply Hf1|left; lia]. }
  apply wpc_bind_wp, wp_pr_call_results. intros added s3 Hk3 Hres3 Hf3.
  change (results s2) with (results s1) in Hres3, Hf3. rewrite Hres1, drop_drop in Hres3, Hf3.
  pose proof (kept_signals s0 s1 _ s3 Hk1' Hk3) as Hk3'.
  assert (Hevs3 : pr_signals s3 = pr_signals s2) by apply (kp_signals _ _ Hk3).
  destruct added; cbn [negb].
  2:{ apply (Herr (2 * i + 1)%nat s3); [done|by rewrite Hevs3|by apply Hf3|].
      destruct (decide (i = 2%nat)) as [->|Hne]; [right|left; lia]. exists true, true, false. rewrite Hevs3. cbn. by rewrite Hevs1. }
  apply wpc_of_wp, wp_modify. split; [done| |].
  - unfold signals_upto. cbn. rewrite Hevs3. cbn. rewrite Hevs1. by destruct i as [|[|[|]]]; [..|lia].
  - change (results (set_pr_signals _ s3)) with (results s3). rewrite Hres3, drop_drop. f_equal. lia.
Qed.

Lemma wpc_setup_signal_handling s :
  server_ok (pr_server s) -> closable (sv_world (pr_server s)) -> signals_upto 0 s ->
  wpc (signals_stop s) lgtd_setup_signal_handling (fun _ s' => kept s (set_pr_signals (pr_signals s) s') /\ signals_set s') s.
Proof.
  intros Hok Hw Hs. unfold lgtd_setup_signal_handling.
  apply wpc_bind, (wpc_foreach _ (fun l s' => exists n, l = seq n (3 - n) /\ (n <= 3)%nat /\ signals_made s n s')).
  - exists 0%nat. split_and!; [done|lia|]. split; [by destruct s|done|by rewrite drop_0].
  - intros x l s1 (n & Hl & Hn & Hs1). destruct (decide (n = 3%nat)) as [->|Hne]; [done|].
    replace (3 - n)%nat with (S (2 - n)) in Hl by lia. injection Hl as -> ->.
    eapply wpc_mono; [by apply wpc_setup_signal; [..|lia|]|]. intros u s2 Hs2. exists (S n). by split_and!; [f_equal; lia|lia|].
  - intros s1 (n & Hl & Hn & [Hk Hup _]). assert (n = 3%nat) as -> by (destruct n as [|[|[|[|]]]]; try done; lia).
    assert (Hset : signals_set s1) by (by exists true, true, true).
    apply wpc_bind_wp, wp_pr_call. intros b s2 Hk2. pose proof (kept_signals s s1 (pr_signals s1) s2 Hk ltac:(by destruct s1)) as Hk2'.
    assert (Hset2 : signals_set s2) by (unfold signals_set; by rewrite (kp_signals _ _ Hk2)).
    destruct b; cbn [negb].
    + by apply wpc_of_wp, wp_modify.
    + destruct (signals_made_closable s s2 Hok Hw Hk2') as [Hok2 Hw2]. apply wpc_of_wpx; [by left|]. by apply wpx_err.
Qed.

(** *** The end *)

Lemma cleanup_run s :
  server_ok (pr_server s) -> closable (sv_world (pr_server s)) -> signals_set s ->
  exists s', lgtd_cleanup s = Ret tt s' /\ cleaned s s'.
Proof.
  intros Hok Hw Hsig.
  destruct (wp_run _ _ _ (wp_lgtd_cleanup s (server_ok_clients _ Hok) (proj1 (so_pipes _ Hok)) Hw Hsig)) as ([] & s' & Hrun & Hc).
  by exists s'.
Qed.

Lemma signal_callback_run s i signum :
  lgtd_signals !! i = Some signum -> signals_set s ->
  exists s', lgtd_signal_event_callback signum i s = Ret tt s'
    /\ s' = set_pr_signals (set_loopbreak true (set_signal_ev i (Some false) (set_last_signal_received signum (pr_signals s)))) s
    /\ signals_set s'.
Proof.
  intros Hi (a & b & c & Hevs). eexists. split_and!; [|done|].
  - unfold lgtd_signal_event_callback. destruct s as [? ? ? ? ? ? ? ? ? ? [evs ? ? ?]]. cbn in Hevs. subst evs.
    by destruct i as [|[|[|i]]]; [injection Hi as <-..|].
  - unfold signals_set. cbn. rewrite Hevs. destruct i as [|[|[|i]]]; [by eexists _, _, _..|done].
Qed.

(** *** The whole *)

(** A process that has only just begun. *)
Definition fresh_process (now : Z) (s : process) : Prop := not_set_up now s /\ signals_upto 0 s.

Lemma wp_setup_proctitle have_setproctitle now s :
  fresh_process now s -> wp (lgtd_daemon_setup_proctitle have_setproctitle) (fun _ s' => fresh_process now s' /\ results s' = results s) s.
Proof.
  intros Hs. unfold lgtd_daemon_setup_proctitle. destruct have_setproctitle; [by apply wp_ret|].
  apply wp_bind, wp_bind, wp_get, wp_ret. by apply wp_modify.
Qed.

(** With the endpoint open only an exit is left. *)
Lemma wpx_of_stops {X} (m : M world X) (Q : X -> world -> Prop) w s :
  is_Some (w_broadcast_write_ev w) -> wpc (stops w) m Q s -> wpx m Q s.
Proof.
  intros [ev Hev]. unfold wpc, wpx. destruct (m s) as [|c]; [done|]. intros [->|[_ Hno]]; [done|congruence].
Qed.

(** The discovery starts in the state the setup left. *)
Lemma wpx_discovery_start s :
  ready s -> world_inv (sv_world (pr_server s)) -> w_discovery_ev (sv_world (pr_server s)) = None ->
  is_Some (w_broadcast_write_ev (sv_world (pr_server s))) ->
  wpx (pr_world_err lgtd_lifx_discovery_start) (fun _ s' => exists w', s' = set_pr_server (set_sv_world w' (pr_server s)) s
    /\ world_inv w' /\ w_broadcast_write_ev w' = Some true /\ same_counters (sv_world (pr_server s)) w') s.
Proof.
  intros Hr Hi Hev [ev Hopen]. apply wpx_pr_world_err; [done|]. unfold lgtd_lifx_discovery_start.
  apply wpx_bind_wp, wp_get, wpx_bind_wp, wp_assert; [by rewrite Hev|]. apply wpx_bind_wp, wp_modify.
  eapply wpx_mono.
  { apply wpx_framed; [apply discovery_keeps_counters|]. eapply wpx_of_stops; [|apply wpc_discovery_callback]; [by exists ev|].
    pose proof (world_inv_discovery _ LGTD_LIFX_DISCOVERY_ACTIVE_DISCOVERY_INTERVAL_MSECS (w_discovery_ev (sv_world (pr_server s))) Hi) as Hi1.
    by destruct (sv_world (pr_server s)). }
  intros ? w' [(Hi' & _ & _ & _ & Hev') Hcount]. by exists w'.
Qed.

Lemma wpc_main getaddrinfo new_fd have_setproctitle argc options randoms now s :
  0 < now < 2 ^ 64 -> groups_exist -> fresh_process now s ->
  wpc (signals_stop s) (main getaddrinfo new_fd have_setproctitle argc options randoms) (fun _ s' => started s') s.
Proof.
  intros Hnow Hgroups Hfresh. unfold main. apply wpc_bind_wp. eapply wp_mono; [by apply (wp_setup_proctitle _ now)|].
  intros ? s00 [[Hs00 Hsig00] Hres]. pose proof Hs00 as [[[rs0 Hw00] _ Hok00] _].
  apply wpc_bind. eapply wpc_mono.
  { eapply wpc_weaken; [|apply wpc_setup_signal_handling; [done|rewrite Hw00; by apply starting_closable|done]].
    unfold signals_stop. by rewrite Hres. }
  intros ? s0 [Hk0 Hsig0].
  assert (Hs0 : options_ready now s0).
  { split; [|done]. pose proof (not_set_up_kept now s00 _ Hs00 (kept_kept_files _ _ Hk0)) as Hs0. by destruct s0. }
  apply wpc_of_wpx; [by left|]. apply wpx_bind. destruct (argc =? 1); [by eapply wpx_usage|]. apply wpx_ret.
  apply wpx_bind, (wpx_foreach (fun _ s => options_ready now s)); [done|intros; by apply wpx_run_option|]. intros s1 Hs1.
  apply wpx_bind. eapply wpx_mono; [by apply wpx_setup_user|]. intros ? s2 [Hs2 Hup2].
  apply wpx_bind. eapply wpx_mono; [by apply (wpx_setup_lifx now)|]. intros ? s3 (Hl3 & id & rs & Hid & Hw3).
  assert (Hr3 : ready s3).
  { apply (later_ready s2); [by apply (options_ready_ready now)|done|..]; destruct Hs2 as [[[[rs2 Hw2] _ _] _] _]; by rewrite Hw2, Hw3. }
  apply wpx_bind_wp, wp_get, wpx_bind. eapply (wpx_mono _ (fun _ s' => kept s3 s')).
  { destruct (opts_foreground _); [by apply wpx_ret|]. apply wpx_bind_wp. eapply wp_mono; [apply wp_unleash|].
    intros [] s4 Hk; [by apply wpx_ret|by apply wpx_err, (kept_ready s3)]. }
  intros ? s4 Hk4. apply wpx_bind_wp. eapply wp_mono; [apply wp_write_pidfile_if|]. intros ? s5 Hk5.
  assert (Hk : kept s3 s5) by (by transitivity s4). destruct (kp_server _ _ Hk) as [[_ _ _ _ [rs5 Hw5]] _].
  assert (Hi5 : world_inv (sv_world (pr_server s5)))
    by (rewrite Hw5, Hw3; by apply (world_inv_os _ rs5), (world_inv_os _ rs), world_inv_initial).
  assert (Hl5 : later s2 s5) by (transitivity s3; [done|by apply later_kept]).
  apply wpx_bind. eapply wpx_mono.
  { apply wpx_discovery_start; [by apply (kept_ready s3)|done|by rewrite Hw5, Hw3|by rewrite Hw5, Hw3]. }
  intros ? ? (w' & -> & Hi' & Hev' & Hcount). apply wpx_bind_wp, wp_bind, wp_get, wp_ret, wpx_ret.
  destruct Hs2 as [[[_ Hc2 Hok2] _] Hsig2]. destruct Hl5 as [Ho5 Hids5 How5 Hli5 Hp5 Hc5 Hn5 Hg5]. split; cbn.
  - done.
  - done.
  - apply (unprivileged_later s2); [done|by split].
  - rewrite Hw5, Hw3 in Hcount. destruct Hok2. split; cbn; rewrite ?Hn5, ?Hc5, ?Hp5; try done. by rewrite Hc2, Hcount.
  - unfold signals_set. cbn. by rewrite Hg5.
Qed.
End Start.
