(* ===== verification/ClientsInv.v ===== *)
(** * The clients are counted

    The counter of clients is the number of connections: only opening and closing a
    client change it, and serving a client leaves its connection alone. *)

From Stdlib Require Import ZArith Lia String.
From stdpp Require Import base tactics list gmap.
From S2P Require Import Prelude CLib WireBits PacketInfo WireProto World Tagging GatewayQueue BulbTable Router Bulb Gateway.
From S2P Require Import Discovery Proto WorldFrames Daemon Jsmn JsonNumbers Printf Session LightState Jsonrpc Client Files ServerState.
From S2P Require Import Connections Pipe Listen MakedirsSpec SocketsSpec CleanupSpec StartSpec.

(** ** The LIFX side *)

Definition same_clients (w w' : world) : Prop := stats_clients (w_counters w') = stats_clients (w_counters w).

#[export] Instance same_clients_refl : Reflexive same_clients.
Proof. done. Qed.
#[export] Instance same_clients_trans : Transitive same_clients.
Proof. unfold same_clients. intros ? ? ?. congruence. Qed.

Lemma same_clients_os : framed same_clients os_call.
Proof. intros w. unfold os_call. by destruct (w_os_results w). Qed.
Lemma same_clients_clock : framed same_clients lgtd_time_monotonic_msecs.
Proof. intros w. unfold lgtd_time_monotonic_msecs. by destruct (w_clock w). Qed.

#[export] Hint Resolve same_clients_os same_clients_clock : frames.
#[export] Hint Extern 1 (framed same_clients (mmodify _)) => by apply framed_modify : frames.

Lemma same_clients_gentle {A} (m : M world A) : framed gentle m -> framed same_clients m.
Proof. intros Hm w. specialize (Hm w). destruct (m w); [apply Hm|done]. Qed.

Section World.
Context {E : Endianness}.

(** The endpoint may be lost, where the counter is not. *)
Lemma same_clients_broadcast timeout read write : framed same_clients (lgtd_lifx_broadcast_event_callback timeout read write).
Proof.
  assert (Hreceive : forall rs, framed same_clients (lgtd_lifx_wire_handle_receive rs None)).
  { intros rs. apply same_clients_gentle, gentle_receive. }
  frame_all; apply Hreceive.
Qed.

(** No event of the LIFX side and no command changes the counter. *)
Lemma same_clients_event e : framed same_clients (run_event e).
Proof.
  destruct e; try (by apply same_clients_gentle, gentle_event). cbn [run_event]. frame. apply same_clients_broadcast.
Qed.
End World.

(** ** A client that is served *)

Record same_connection (s s' : session) : Prop := {
  sc_world : gentle (se_world s) (se_world s');
  sc_io : cl_io (se_client s') = cl_io (se_client s);
  sc_addr : cl_addr (se_client s') = cl_addr (se_client s)
}.

#[export] Instance same_connection_refl : Reflexive same_connection.
Proof. by split. Qed.
#[export] Instance same_connection_trans : Transitive same_connection.
Proof. intros s1 s2 s3 [] []. split; [by etransitivity|congruence..]. Qed.

Lemma same_connection_lift {A} (m : M world A) : framed gentle m -> framed same_connection (lift m).
Proof. intros Hm s. unfold lift. specialize (Hm (se_world s)). destruct (m (se_world s)); [|done]. by split. Qed.

Lemma same_connection_upd f :
  (forall c, cl_io (f c) = cl_io c) -> (forall c, cl_addr (f c) = cl_addr c) -> framed same_connection (upd_client f).
Proof. intros Hio Haddr s. split; cbn; [done|apply Hio|apply Haddr]. Qed.

#[export] Hint Extern 1 (framed same_connection (upd_client _)) => by apply same_connection_upd : frames.
#[export] Hint Extern 1 (framed same_connection (lift _)) => apply same_connection_lift; frame_all : frames.

Section Session.
Context {E : Endianness} {C : LibC} (debug : bool).

Lemma same_connection_write_string msg : framed same_connection (lgtd_client_write_string msg).
Proof. frame_all. Qed.
Lemma same_connection_write_buf buf : framed same_connection (lgtd_client_write_buf buf).
Proof. frame_all. Qed.
#[local] Hint Resolve same_connection_write_string same_connection_write_buf : frames.
Lemma same_connection_error code msg : framed same_connection (lgtd_jsonrpc_send_error code msg).
Proof. frame_all. Qed.
Lemma same_connection_reply r : framed same_connection (lgtd_client_send_reply r).
Proof. frame_all. Qed.
#[local] Hint Resolve same_connection_error same_connection_reply : frames.

(** *** The extraction of values *)

Lemma same_connection_consume json fuel : forall tokens ti parsed,
  framed same_connection (consume json fuel tokens ti parsed).
Proof.
  induction fuel as [|fuel IH]; intros tokens ti parsed; cbn [consume]; frame_step; frame.
  generalize (tok_size a) (S ti). intros n. induction n; intros ti'; cbn [consume_loop]; frame; apply IH || apply IHn.
Qed.
#[local] Hint Resolve same_connection_consume : frames.

Lemma same_connection_dict json fuel : forall schema tokens ti ntokens o,
  framed same_connection (dict_loop json fuel schema tokens ti ntokens o).
Proof. induction fuel as [|fuel IH]; intros schema tokens ti ntokens o; cbn [dict_loop]; frame_all. Qed.
Lemma same_connection_array json schema : forall tokens ti ntokens objsize o,
  framed same_connection (array_loop json schema tokens ti ntokens objsize o).
Proof. induction schema as [|node schema IH]; intros tokens ti ntokens objsize o; cbn [array_loop]; frame_all. Qed.
Lemma same_connection_targets target ti : forall targets, framed same_connection (target_loop target ti targets).
Proof. induction ti as [|ti IH]; intros targets; cbn [target_loop]; frame_all. Qed.
#[local] Hint Resolve same_connection_dict same_connection_array same_connection_targets : frames.

(** *** The methods *)

Lemma same_connection_tags gw ids : forall comma, framed same_connection (write_tags gw comma ids).
Proof. induction ids as [|i ids IH]; intros comma; cbn [write_tags]; frame_all. Qed.
#[local] Hint Resolve same_connection_tags : frames.
Lemma same_connection_devices devices : framed same_connection (write_devices debug devices).
Proof. induction devices as [|a devices IH]; cbn [write_devices]; frame_all. Qed.
#[local] Hint Resolve same_connection_devices : frames.

Lemma same_connection_methods : Forall (fun m => framed same_connection (snd m)) (methods debug).
Proof. unfold methods. repeat constructor; cbn [snd]; frame_all. Qed.

Lemma same_connection_found json t method : find_method debug json t = Some method -> framed same_connection method.
Proof.
  unfold find_method. destruct (list_find _ _) as [[i m]|] eqn:Hf; [|done]. intros [= <-].
  apply list_find_Some in Hf as (Hm & _). pose proof same_connection_methods as Hall. rewrite Forall_lookup in Hall. by eapply Hall.
Qed.

(** *** Dispatch *)

(** A run from [s] that ends in relation with [s0]. *)
Definition leads {X} (s0 : session) (m : M session X) (s : session) : Prop :=
  match m s with
  | Ret _ s' => same_connection s0 s'
  | Crash _ => True
  end.

Lemma leads_framed {X} s0 (m : M session X) s : same_connection s0 s -> framed same_connection m -> leads s0 m s.
Proof. intros Hs Hm. specialize (Hm s). unfold leads. destruct (m s); [|done]. by etransitivity. Qed.

Lemma leads_bind {X Y} s0 (m : M session X) (k : X -> M session Y) s :
  same_connection s0 s -> framed same_connection m -> (forall a s', same_connection s0 s' -> leads s0 (k a) s') -> leads s0 (m ≫= k) s.
Proof.
  intros Hs Hm Hk. specialize (Hm s). unfold leads, mbind, M_bind. destruct (m s) as [a s'|]; [|done]. apply Hk. by etransitivity.
Qed.

Lemma leads_client {Y} s0 (k : lgtd_client -> M session Y) s : leads s0 (k (se_client s)) s -> leads s0 (get_client ≫= k) s.
Proof. done. Qed.

(** A notification: the connection is put aside and back. *)
Lemma leads_notification {Y} s0 (method : M session unit) (k : M session Y) s :
  same_connection s0 s -> framed same_connection method -> framed same_connection k ->
  leads s0 (upd_client (set_cl_io false) ;; method ;; upd_client (set_cl_io (cl_io (se_client s0))) ;; k) s.
Proof.
  intros [Hw Hio Haddr] Hm Hk. unfold leads, mbind, M_bind, upd_client at 1, mmodify at 1. set (s1 := {| se_world := _ |}).
  specialize (Hm s1). destruct (method s1) as [a s2|]; [|done]. destruct Hm as [Hw2 _ Haddr2]. cbn in Hw2, Haddr2.
  unfold upd_client, mmodify. set (s3 := {| se_world := _ |}).
  assert (Hs3 : same_connection s0 s3) by (split; [by etransitivity|done|cbn; congruence]).
  by apply (leads_framed s0 k s3).
Qed.

Lemma same_connection_one tokens ntokens batch_sent :
  framed same_connection (lgtd_jsonrpc_dispatch_one debug tokens ntokens batch_sent).
Proof.
  intros s. change (leads s (lgtd_jsonrpc_dispatch_one debug tokens ntokens batch_sent) s).
  unfold lgtd_jsonrpc_dispatch_one. cbv zeta. apply leads_client.
  apply leads_bind; [done|frame_all|]. intros r s1 Hs1. apply leads_bind; [done|frame_all|]. intros _ s2 Hs2.
  destruct (negb (fst r)); [apply leads_framed; [done|frame_all]|].
  do 2 (apply leads_bind; [done|frame_all|]; clear dependent s2; intros _ s2 Hs2).
  apply leads_bind; [done|frame_all|]. intros t s3 Hs3.
  destruct (find_method _ _ _) as [method|] eqn:Hm; [|apply leads_framed; [done|frame_all]].
  apply same_connection_found in Hm. destruct (req_id (snd r)).
  - apply leads_framed; [done|]. frame_all; exact Hm.
  - apply leads_notification; [done|done|frame_all].
Qed.
#[local] Hint Resolve same_connection_one : frames.

Lemma same_connection_batch fuel : forall tokens ti parsed batch_sent,
  framed same_connection (batch_loop debug fuel tokens ti parsed batch_sent).
Proof. induction fuel as [|fuel IH]; intros tokens ti parsed batch_sent; cbn [batch_loop]; frame_all. Qed.
#[local] Hint Resolve same_connection_batch : frames.
Lemma same_connection_request parsed : framed same_connection (lgtd_jsonrpc_dispatch_request debug parsed).
Proof. frame_all. Qed.
#[local] Hint Resolve same_connection_request : frames.

(** *** The callbacks *)

Context {L : Libevent}.

Lemma same_connection_read_loop fuel : forall reallocs buf input tokens ntokens,
  framed same_connection (read_loop debug fuel reallocs buf input tokens ntokens).
Proof. induction fuel as [|fuel IH]; intros reallocs buf input tokens ntokens; cbn [read_loop]; frame_all. Qed.
#[local] Hint Resolve same_connection_read_loop : frames.
Lemma same_connection_read reallocs input : framed same_connection (lgtd_client_read_callback debug reallocs input).
Proof. frame_all. Qed.

Lemma same_connection_pipe fuel : forall reallocs input tokens ntokens,
  framed same_connection (pipe_requests debug fuel reallocs input tokens ntokens).
Proof. induction fuel as [|fuel IH]; intros reallocs input tokens ntokens; cbn [pipe_requests]; frame_all. Qed.
End Session.
