(* ===== verification/ServerInv.v ===== *)
(** * The invariant of the connections and pipes

    The events of the whole daemon, those of clients and pipes with those of the LIFX side,
    keep the lists of clients and pipes and the counter of clients right. *)

From Stdlib Require Import ZArith Lia String.
From stdpp Require Import base tactics list gmap.
From S2P Require Import Prelude CLib WireBits PacketInfo WireProto World Gateway Discovery Proto Daemon Jsmn JsonNumbers Printf.
From S2P Require Import Session Jsonrpc Client Files ServerState Connections Pipe Listen MakedirsSpec SocketsSpec PipeSpec.
From S2P Require Import Process Startup CleanupSpec StartSpec ClientsInv.

(** ** Lists of pointers *)

Lemma assoc_split {X} p (x : X) l : assoc p l = Some x -> exists l1 l2, l = l1 ++ (p, x) :: l2 /\ p ∉ (fst <$> l1).
Proof.
  unfold assoc. destruct (list_find _ l) as [[i [q y]]|] eqn:Hf; [|done]. intros [= ->].
  apply list_find_Some in Hf as (Hi & Hq & Hlt). cbn in Hq. subst q. exists (take i l), (drop (S i) l).
  split; [by rewrite take_drop_middle|]. intros ([q z] & Hp & Hin)%list_elem_of_fmap. cbn in Hp. subst q.
  apply list_elem_of_lookup in Hin as [j Hj]. apply lookup_take_Some in Hj as [Hj Hji]. by apply (Hlt j (p, z)).
Qed.

Lemma assoc_remove_split {X} p (x : X) l1 l2 :
  p ∉ (fst <$> l1) -> p ∉ (fst <$> l2) -> assoc_remove p (l1 ++ (p, x) :: l2) = l1 ++ l2.
Proof.
  assert (Hid : forall l : list (positive * X), p ∉ (fst <$> l) -> assoc_remove p l = l).
  { induction l as [|[q y] l IH]; [done|]. cbn [fmap list_fmap fst]. intros [Hq Hl]%not_elem_of_cons.
    unfold assoc_remove. rewrite filter_cons_True by (cbn; congruence). f_equal. by apply IH. }
  intros H1 H2. unfold assoc_remove. rewrite filter_app. f_equal; [by apply Hid|].
  rewrite filter_cons_False by (cbn; by intros []). by apply Hid.
Qed.

Lemma assoc_set_keys {X} p (x : X) l : fst <$> assoc_set p x l = fst <$> l.
Proof.
  unfold assoc_set. rewrite <- list_fmap_compose. apply list_fmap_ext. intros i [q y] _. cbn.
  by case_bool_decide; subst.
Qed.

Lemma assoc_set_forall {X} (P : X -> Prop) p x l :
  P x -> Forall (fun y => P (snd y)) l -> Forall (fun y => P (snd y)) (assoc_set p x l).
Proof.
  intros Hx Hl. unfold assoc_set. apply Forall_fmap. eapply Forall_impl; [exact Hl|]. intros [q y] Hy. cbn. by case_bool_decide.
Qed.

Lemma pointers_ok_set {X} next p (x : X) l : pointers_ok next l -> pointers_ok next (assoc_set p x l).
Proof.
  intros [Hnd Hlt]. split; [by rewrite assoc_set_keys|].
  rewrite <- (Forall_fmap fst (fun q => (q < next)%positive)) in Hlt |- *. by rewrite assoc_set_keys.
Qed.

Lemma pointers_ok_split {X} next p (x : X) l1 l2 :
  pointers_ok next (l1 ++ (p, x) :: l2) -> pointers_ok next (l1 ++ l2) /\ p ∉ (fst <$> l2).
Proof.
  intros [Hnd Hlt]. rewrite fmap_app, fmap_cons in Hnd. apply NoDup_app in Hnd as (H1 & Hx & [Hp H2]%NoDup_cons).
  rewrite Forall_app, Forall_cons in Hlt. destruct Hlt as (Hl1 & _ & Hl2). split; [|done]. split.
  - rewrite fmap_app. apply NoDup_app. split_and!; [done| |done]. intros q Hq Hq2. apply (Hx q Hq). by right.
  - by rewrite Forall_app.
Qed.

(** ** The invariant *)

Section Invariant.
Context {E : Endianness} {C : LibC} {L : Libevent} {F : FileSystem} (debug : bool).

(** Code that keeps the invariant when it returns. *)
Definition preserves {X} (m : M server X) : Prop :=
  forall s, server_ok s -> match m s with
                           | Ret _ s' => server_ok s'
                           | Crash _ => True
                           end.

Lemma preserves_ret {X} (x : X) : preserves (mret x).
Proof. by intros s. Qed.
Lemma preserves_crash {X} c : preserves (mcrash c : M server X).
Proof. by intros s. Qed.
Lemma preserves_bind {X Y} (m : M server X) (k : X -> M server Y) :
  preserves m -> (forall x, preserves (k x)) -> preserves (m ≫= k).
Proof. intros Hm Hk s Hs. unfold mbind, M_bind. specialize (Hm s Hs). destruct (m s) as [x s'|]; [by apply Hk|done]. Qed.
Lemma preserves_deref {X} (o : option X) : preserves (mderef o).
Proof. destruct o; [apply preserves_ret|apply preserves_crash]. Qed.

Lemma preserves_run {X} (m : M server X) s a s' : preserves m -> server_ok s -> m s = Ret a s' -> server_ok s'.
Proof. intros Hm Hs Hrun. specialize (Hm s Hs). by rewrite Hrun in Hm. Qed.

Lemma preserves_wp {X} (m : M server X) : (forall s, server_ok s -> wp m (fun _ s' => server_ok s') s) -> preserves m.
Proof. intros Hm s Hs. specialize (Hm s Hs). unfold wp in Hm. by destruct (m s). Qed.

(** *** The LIFX side *)

Lemma server_ok_world w s : server_ok s -> same_clients (sv_world s) w -> server_ok (set_sv_world w s).
Proof. intros [Hn Hc Hio Hp Hpa] Hw. split; cbn; [by rewrite Hw|done..]. Qed.

Lemma preserves_on_world {X} (m : M world X) : framed same_clients m -> preserves (on_world m).
Proof.
  intros Hm s Hs. unfold on_world. specialize (Hm (sv_world s)). destruct (m (sv_world s)) as [x w|]; [|done].
  by apply server_ok_world.
Qed.

(** *** Clients *)

Lemma wp_client_open addr s : server_ok s -> wp (lgtd_client_open addr) (fun _ s' => server_ok s') s.
Proof.
  intros Hs. unfold lgtd_client_open. pose proof (proj1 (descriptors_none _ _) (untouched_refl s)) as Hu.
  do 4 (eapply wp_call_then; [eassumption|]; clear Hu; intros [] ? Hu _; cbn [negb];
        [|apply wp_ret; by eapply server_ok_same; [|apply Hu]]).
  destruct (server_ok_same _ _ Hs (proj1 Hu)) as [Hn Hc Hio Hp Hpa].
  apply wp_bind. unfold wp at 1, fresh. cbv zeta. apply wp_bind, wp_modify, wp_bind, wp_on_world.
  unfold lgtd_stats_add. apply wp_bind, wp_get, wp_bind, wp_assert.
  { cbn. rewrite Hn. apply Z.leb_le. lia. }
  apply wp_modify, wp_ret. split; cbn.
  - rewrite Hn. lia.
  - by apply pointers_ok_cons.
  - by constructor.
  - by apply pointers_ok_next.
  - done.
Qed.

Lemma preserves_client_close p : preserves (lgtd_client_close p).
Proof.
  intros s Hs. unfold lgtd_client_close, get_connection. pose proof Hs as [Hn Hc Hio Hp Hpa].
  destruct (assoc p (sv_clients s)) as [c|] eqn:Ha; [|unfold mbind, M_bind, mget; by rewrite Ha].
  rewrite (run_bind _ _ s c s) by (unfold mbind, M_bind, mget; by rewrite Ha).
  destruct (assoc_split p c _ Ha) as (l1 & l2 & Hl & H1). rewrite Hl in Hc. destruct (pointers_ok_split _ _ _ _ _ Hc) as [Hc' H2].
  assert (Hcio : cl_io (co_client c) = true /\ Forall (fun x => cl_io (co_client (snd x)) = true) (l1 ++ l2)).
  { rewrite Hl in Hio. rewrite Forall_app, Forall_cons in Hio. destruct Hio as (Ho1 & Hco & Ho2). by rewrite Forall_app. }
  destruct Hcio as [Hco Hio']. rewrite Hco. erewrite run_bind by reflexivity.
  set (v := Z.of_nat (length (l1 ++ l2))).
  assert (Hv : stats_clients (w_counters (sv_world s)) + -1 = v).
  { rewrite Hn, Hl. unfold v. rewrite !length_app. cbn [length]. lia. }
  rewrite (run_bind _ _ s tt (set_sv_world (set_clients_counter v (sv_world s)) s)).
  - unfold mmodify. split; cbn -[assoc_remove]; rewrite ?Hl, ?assoc_remove_split by done; done.
  - unfold on_world, lgtd_stats_add, mbind, M_bind, mget. cbn [get_counter]. rewrite Hv.
    rewrite (proj2 (Z.leb_le _ _)) by (unfold v; lia). unfold massert, mret, M_ret, mmodify. by rewrite Hv.
Qed.

(** Serving a client leaves its connection. *)
Lemma on_client_run {X} c (m : M session X) s :
  framed same_connection m ->
  match on_client c m s with
  | Ret r s' => cl_io (snd r) = cl_io c /\ exists w, s' = set_sv_world w s /\ same_clients (sv_world s) w
  | Crash _ => True
  end.
Proof.
  intros Hm. unfold on_client. specialize (Hm {| se_world := sv_world s; se_client := c |}).
  destruct (m _) as [x s'|]; [|done]. destruct Hm as [Hw Hio _]. cbn in *. split; [done|]. exists (se_world s'). split; [done|apply Hw].
Qed.

Lemma preserves_client_readable reallocs bytes p : preserves (client_readable debug reallocs bytes p).
Proof.
  intros s Hs. unfold client_readable, get_connection.
  destruct (assoc p (sv_clients s)) as [c|] eqn:Ha; [|unfold mbind, M_bind, mget; by rewrite Ha].
  rewrite (run_bind _ _ s c s) by (unfold mbind, M_bind, mget; by rewrite Ha).
  pose proof (on_client_run (co_client c) _ s (same_connection_read debug reallocs (evbuffer_add bytes (co_input c)))) as Hrun.
  unfold mbind at 1, M_bind at 1. destruct (on_client _ _ s) as [r s1|]; [|done]. destruct Hrun as (Hio & w & -> & Hw).
  destruct (fst r) as [rest|]; [|done]. unfold mderef, mbind, M_bind, mret, M_ret, mmodify.
  pose proof Hs as [_ Hc Hios _ _]. destruct (server_ok_world w s Hs Hw) as [Hn _ _ Hp Hpa]. split; cbn; [|by apply pointers_ok_set| |done|done].
  - unfold assoc_set. by rewrite length_fmap.
  - apply (assoc_set_forall (fun y => cl_io (co_client y) = true)); [|done]. cbn. rewrite Hio.
    destruct (assoc_split p c _ Ha) as (l1 & l2 & Hl & _). rewrite Hl, Forall_app, Forall_cons in Hios. apply Hios.
Qed.

(** *** Pipes *)

Lemma wp_pipe_open path fd s :
  Forall (fun c => c <> 0) path -> server_ok s -> wp (command_pipe_open path fd) (fun _ s' => server_ok s') s.
Proof.
  intros Hpath Hs. eapply wp_mono; [by apply wp_command_pipe_open|]. intros [] s' Ho; [|by eapply server_ok_same; [|apply Ho]].
  destruct Ho as [[_ ->]|(_ & s1 & [Hsame _] & ->)]; [done|].
  apply server_ok_new_pipe; [by eapply server_ok_same|done|done].
Qed.

Lemma get_pipe_run p s pipe : assoc p (sv_pipes s) = Some pipe -> get_pipe p s = Ret pipe s.
Proof. intros Hp. unfold get_pipe, mbind, M_bind, mget. by rewrite Hp. Qed.

Lemma get_pipe_none p s : assoc p (sv_pipes s) = None -> get_pipe p s = Crash UndefinedBehaviour.
Proof. intros Hp. unfold get_pipe, mbind, M_bind, mget. by rewrite Hp. Qed.

Lemma pipe_ok_found p s pipe : server_ok s -> assoc p (sv_pipes s) = Some pipe -> pipe_ok pipe.
Proof.
  intros Hs Ha. destruct (assoc_split p pipe _ Ha) as (l1 & l2 & Hl & _). pose proof (so_paths _ Hs) as Hpa.
  rewrite Hl, Forall_app, Forall_cons in Hpa. apply Hpa.
Qed.

Lemma preserves_pipe_close p : preserves (command_pipe_close p).
Proof.
  intros s Hs. unfold command_pipe_close. unfold mbind at 1, M_bind at 1.
  destruct (assoc p (sv_pipes s)) as [pipe|] eqn:Ha; [|by rewrite (get_pipe_none p s Ha)]. rewrite (get_pipe_run p s pipe Ha).
  destruct (assoc_split p pipe _ Ha) as (l1 & l2 & Hl & H1). destruct Hs as [Hn Hc Hio Hp Hpa]. rewrite Hl in Hp, Hpa.
  destruct (pointers_ok_split _ _ _ _ _ Hp) as [Hp' H2]. rewrite Forall_app, Forall_cons in Hpa.
  assert (Hend : forall closed, server_ok (set_sv_pipes (assoc_remove p (sv_pipes s)) (set_sv_closed closed s))).
  { intros closed. split; cbn -[assoc_remove]; rewrite ?Hl, ?assoc_remove_split by done; try done. rewrite Forall_app. by split; apply Hpa. }
  unfold mbind, M_bind, close, mmodify. destruct (negb _); [apply Hend|].
  specialize (Hend (sv_closed s)). by destruct s.
Qed.

Lemma preserves_pipe_reset p fd : preserves (lgtd_command_pipe_reset p fd).
Proof.
  intros s Hs. unfold lgtd_command_pipe_reset. unfold mbind at 1, M_bind at 1.
  destruct (assoc p (sv_pipes s)) as [pipe|] eqn:Ha; [|by rewrite (get_pipe_none p s Ha)]. rewrite (get_pipe_run p s pipe Ha).
  revert s Hs Ha. cut (pipe_ok pipe -> preserves (command_pipe_close p ;; command_pipe_open (pipe_path pipe) fd ;; mret tt)).
  { intros Hm s Hs Ha. apply Hm; [by eapply pipe_ok_found|done]. }
  intros Hpath. apply preserves_bind; [apply preserves_pipe_close|]. intros _.
  apply preserves_bind; [apply preserves_wp; intros; by apply wp_pipe_open|]. intros _. apply preserves_ret.
Qed.

Lemma preserves_pipe_reads reads p : forall reallocs, preserves (pipe_read_loop debug reallocs reads p).
Proof.
  induction reads as [|r reads IH]; intros reallocs; [apply preserves_ret|]. destruct r as [bytes| | | |]; cbn [pipe_read_loop]; try apply preserves_ret; [|apply IH].
  intros s Hs. unfold mbind at 1, M_bind at 1.
  destruct (assoc p (sv_pipes s)) as [pipe|] eqn:Ha; [|by rewrite (get_pipe_none p s Ha)]. rewrite (get_pipe_run p s pipe Ha).
  cbv zeta. set (input := evbuffer_pullup _). set (results := default [] (head reallocs)).
  pose proof (on_client_run (pipe_client pipe) _ s (same_connection_pipe debug (pipe_fuel results input) results input false 0)) as Hrun.
  unfold mbind at 1, M_bind at 1. destruct (on_client _ _ s) as [q s1|]; [|done]. destruct Hrun as (_ & w & -> & Hw).
  destruct (fst q) as [rest|]; [|done]. unfold mderef, mbind, M_bind, mret, M_ret, mmodify. apply IH.
  pose proof (pipe_ok_found p s pipe Hs Ha) as Hok. destruct (server_ok_world w s Hs Hw) as [Hn Hc Hio Hp Hpa].
  split; cbn -[assoc_set]; [done..|by apply pointers_ok_set|]. by apply (assoc_set_forall pipe_ok).
Qed.

(** ** The events of the daemon *)

Inductive server_event : Type :=
| sev_world (e : event)
| sev_accept (listener : lgtd_listen) (addr sockname : sockaddr)
| sev_client_event (error_or_eof : bool) (p : positive)
| sev_client_read (reallocs : list bool) (bytes : list Z) (p : positive)
| sev_pipe_read (reallocs : list (list bool)) (reads : list read_result) (fd : Z) (p : positive).

Definition run_server_event (e : server_event) : M server unit :=
  match e with
  | sev_world e => on_world (run_event e)
  | sev_accept listener addr sockname => lgtd_listen_accept_new_client listener addr sockname
  | sev_client_event error_or_eof p => lgtd_client_event_callback error_or_eof p
  | sev_client_read reallocs bytes p => client_readable debug reallocs bytes p
  | sev_pipe_read reallocs reads fd p => lgtd_command_pipe_read_callback debug reallocs reads fd p
  end.

Lemma preserves_sockaddrtoa peer : preserves (LGTD_SOCKADDRTOA peer).
Proof. destruct peer; [apply preserves_ret|apply preserves_crash]. Qed.

Lemma preserves_get_connection p : preserves (get_connection p).
Proof. intros s Hs. unfold get_connection, mbind, M_bind, mget. by destruct (assoc p (sv_clients s)). Qed.

Lemma preserves_event e : preserves (run_server_event e).
Proof.
  destruct e as [e|listener addr sockname|b p|reallocs bytes p|reallocs reads fd p]; cbn [run_server_event].
  - apply preserves_on_world, same_clients_event.
  - unfold lgtd_listen_accept_new_client. apply preserves_bind; [apply preserves_sockaddrtoa|]. intros _.
    apply preserves_bind; [|intros [?|]; [apply preserves_ret|apply preserves_crash]].
    apply preserves_wp. intros s Hs. destruct addr; by apply wp_client_open.
  - unfold lgtd_client_event_callback. apply preserves_bind; [apply preserves_get_connection|]. intros c.
    destruct b; [|apply preserves_ret]. apply preserves_bind; [apply preserves_sockaddrtoa|]. intros _. apply preserves_client_close.
  - apply preserves_client_readable.
  - unfold lgtd_command_pipe_read_callback. apply preserves_bind; [apply preserves_pipe_reads|].
    intros []; [apply preserves_pipe_reset|apply preserves_ret].
Qed.

(** What a sequence of events leads to, the environment being any at each of them. *)
Inductive server_reaches : server -> server -> Prop :=
| reaches_start s : server_reaches s s
| reaches_step s s1 e rs ds s2 : server_reaches s s1 ->
    run_server_event e (set_sv_world (environment rs ds (sv_world s1)) s1) = Ret tt s2 -> server_reaches s s2.

Lemma server_ok_environment rs ds s : server_ok s -> server_ok (set_sv_world (environment rs ds (sv_world s)) s).
Proof. intros Hs. by apply server_ok_world. Qed.

Lemma server_reaches_ok s s' : server_ok s -> server_reaches s s' -> server_ok s'.
Proof.
  intros Hs. induction 1 as [|s s1 e rs ds s2 _ IH Hrun]; [done|].
  exact (preserves_run _ _ _ _ (preserves_event e) (server_ok_environment rs ds s1 (IH Hs)) Hrun).
Qed.
End Invariant.
