(* ===== verification/StartThms.v ===== *)
(** * From start up to shut down

    The properties of core/lightsd.c and core/daemon.c, the invariant of the whole
    daemon between them, and the runs where they stop short of their intent. *)

From Stdlib Require Import ZArith Lia String.
From stdpp Require Import base tactics list gmap.
From S2P Require Import Prelude CLib WireBits PacketInfo WireProto World Gateway Discovery Proto Invariant Daemon Example.
From S2P Require Import Jsmn JsonText JsonNumbers Printf Session Jsonrpc Client RpcThms Files ServerState Connections Pipe Listen.
From S2P Require Import SocketsSpec ServerThms Process Startup CleanupSpec StartSpec ClientsInv ServerInv.

(** ** A process, for the examples *)

#[local] Existing Instance little.
#[local] Existing Instance example_libc.
#[local] Existing Instance chains.
#[local] Existing Instance memory.

Definition lights : list Z := bytes_of_string "lights".

#[local] Instance example_accounts : Accounts := {|
  getpwnam name := if bool_decide (name = lights) then Some {| pw_name := lights; pw_uid := 1000; pw_gid := 100 |} else None;
  getgrnam _ := None;
  getgrgid gid := if gid =? 100 then Some {| gr_name := bytes_of_string "users"; gr_gid := 100 |} else None
|}.

Definition default_opts : lgtd_opts :=
  {| opts_foreground := true; opts_log_timestamps := true; opts_verbosity := LGTD_INFO; opts_user := None;
     opts_group := None; opts_syslog := false; opts_syslog_facility := 24; opts_syslog_ident := bytes_of_string "lightsd";
     opts_pidfile := None |}.

(** A process of root. *)
Definition new_process : process :=
  {| pr_server := bare_server (blank_world 1) example_files; pr_opts := default_opts; pr_user_info := None;
     pr_group_info := None; pr_euid := 0; pr_egid := 0; pr_groups := [0]; pr_owners := []; pr_discovery_evs := false;
     pr_proctitle_initialized := false; pr_signals := no_signals |}.

Lemma new_process_ok : fresh_process 1 new_process.
Proof.
  split; [|done]. split; [|done]. split; [by exists []|done|].
  split; [done|by split; constructor|apply Forall_nil_2|by split; constructor|apply Forall_nil_2].
Qed.

Lemma example_groups_exist : groups_exist.
Proof. intros user ui. cbn. case_bool_decide; [|done]. intros [= <-]. by eexists. Qed.

Definition example_options : list getopt_result :=
  [ opt_command_pipe run_path; opt_socket (bytes_of_string "/run/lightsd/socket"); opt_listen (bytes_of_string "127.0.0.1:9000");
    opt_user lights; opt_pidfile (bytes_of_string "/run/lightsd.pid"); opt_daemonize ].

(** ** Start up *)

(** C17: if the group of every user exists, the main function exits, after the cleanup where it ends in an error, or gets to
    its event loop, with no failed assertion and no bad pointer, whatever its options, the results of system calls and what
    is read from /dev/urandom, but for one case: when one of the first five calls fails, those that make the events of the
    signals before all of them are there, the cleanup may follow a null event. In the event loop the invariant of the daemon
    holds and the broadcast endpoint is open; it runs as the user and group of its options, who have the sockets, the pipes and
    their directories; and it does not run as root or with the group of root
    unless [-u root] was given. *)
Theorem started_correct {E : Endianness} {C : LibC} {A : Accounts} {L : Libevent} {F : FileSystem}
    getaddrinfo new_fd have_setproctitle argc options randoms now s :
  0 < now < 2 ^ 64 -> groups_exist -> fresh_process now s ->
  match main getaddrinfo new_fd have_setproctitle argc options randoms s with
  | Ret _ s' => started s'
  | Crash c => c = Exited \/ (c = UndefinedBehaviour /\ false ∈ take 5 (w_os_results (sv_world (pr_server s))))
  end.
Proof.
  intros Hnow Hgroups Hs. exact (wpc_main getaddrinfo new_fd have_setproctitle argc options randoms now s Hnow Hgroups Hs).
Qed.

(** The state a run ends in. *)
Definition returned {S} (o : outcome S unit) (s0 : S) : S := match o with Ret _ s => s | Crash _ => s0 end.

Lemma returned_run {S} (o : outcome S unit) s0 : is_ret o = true -> o = Ret tt (returned o s0).
Proof. by destruct o as [[] s|]. Qed.

Definition example_started : process :=
  returned (main (fun _ _ => Some [sockaddr_in [127; 0; 0; 1] 9000]) (fun _ => 7) false 12 example_options [0; 77] new_process) new_process.

Lemma example_main_run :
  main (fun _ _ => Some [sockaddr_in [127; 0; 0; 1] 9000]) (fun _ => 7) false 12 example_options [0; 77] new_process
  = Ret tt example_started.
Proof. apply returned_run. by vm_compute. Qed.

(** The example gets to its event loop, as the user. *)
Lemma started_correct_witness :
  started example_started
  /\ (pr_euid example_started, pr_egid example_started, pr_groups example_started,
      length (sv_listeners (pr_server example_started)), w_client_id (sv_world (pr_server example_started)))
     = (1000, 100, [100], 2%nat, 77).
Proof.
  split; [|by vm_compute].
  assert (H : match main (fun _ _ => Some [sockaddr_in [127; 0; 0; 1] 9000]) (fun _ => 7) false 12 example_options [0; 77] new_process with
              | Ret _ s' => started s'
              | Crash c => c = Exited \/ (c = UndefinedBehaviour /\ false ∈ take 5 (w_os_results (sv_world (pr_server new_process))))
              end).
  { apply (started_correct (fun _ _ => Some [sockaddr_in [127; 0; 0; 1] 9000]) (fun _ => 7) false 12 example_options [0; 77] 1 new_process);
      [lia|exact example_groups_exist|exact new_process_ok]. }
  rewrite example_main_run in H. exact H.
Defined.

(** ** Between them *)

(** C18: the daemon knows its clients: after the start and any sequence of events of
    clients, command pipes, listening sockets, timers and LIFX sockets, in which any call may fail,
    the counter of clients is the number of connections, each connection and each
    pipe has a pointer of its own, and no served request, notifications included,
    loses the connection of its client. *)
Theorem clients_counted {E : Endianness} {C : LibC} {A : Accounts} {L : Libevent} {F : FileSystem}
    debug getaddrinfo new_fd have_setproctitle argc options randoms now s0 s s' :
  0 < now < 2 ^ 64 -> groups_exist -> fresh_process now s0 ->
  main getaddrinfo new_fd have_setproctitle argc options randoms s0 = Ret tt s ->
  server_reaches debug (pr_server s) s' -> server_ok s'.
Proof.
  intros Hnow Hgroups Hs0 Hmain Hreach. apply (server_reaches_ok debug (pr_server s)), Hreach. apply sd_server.
  exact (wpc_run _ _ _ _ _ _ (wpc_main getaddrinfo new_fd have_setproctitle argc options randoms now s0 Hnow Hgroups Hs0) Hmain).
Qed.

(** A client is accepted. *)
Definition example_accept : server_event :=
  sev_accept {| li_sockaddr := sockaddr_in [127; 0; 0; 1] 9000 |} (sockaddr_in [127; 0; 0; 1] 40000) (sockaddr_in [127; 0; 0; 1] 9000).

Definition example_idle : server :=
  set_sv_world (environment [] [] (sv_world (pr_server example_started))) (pr_server example_started).

Definition example_served : server := returned (run_server_event false example_accept example_idle) example_idle.

Lemma example_accept_run : run_server_event false example_accept example_idle = Ret tt example_served.
Proof. apply returned_run. by vm_compute. Qed.

Lemma clients_counted_witness : server_ok example_served /\ length (sv_clients example_served) = 1%nat.
Proof.
  split; [|by vm_compute].
  apply (clients_counted false (fun _ _ => Some [sockaddr_in [127; 0; 0; 1] 9000]) (fun _ => 7) false 12 example_options [0; 77] 1
           new_process example_started example_served);
    [lia|exact example_groups_exist|exact new_process_ok|exact example_main_run|].
  apply (reaches_step false _ (pr_server example_started) example_accept [] []); [constructor|exact example_accept_run].
Defined.

(** ** Shut down *)

(** C19: the cleanup of a daemon whose invariants hold and whose signals are set up returns and closes everything:
    no listener, pipe, client, gateway, bulb, timer or event of a signal is left and the counters are
    zero, the descriptors of the pipes are closed, and the sockets, the pipes and the pid
    file are unlinked, in that order, and no other file is. It does not matter
    whether the broadcast endpoint is open. *)
Theorem cleanup_correct {E : Endianness} {C : LibC} {L : Libevent} {F : FileSystem} s :
  server_ok (pr_server s) -> closable (sv_world (pr_server s)) -> signals_set s ->
  exists s', lgtd_cleanup s = Ret tt s' /\ cleaned s s'.
Proof. apply cleanup_run. Qed.

(** A daemon with a client, a pipe and a socket, and the lights of the example. *)
Definition example_end : process :=
  set_pr_server
    {| sv_world := set_clients_counter 1 example_world;
       sv_clients := [(2%positive, {| co_client := example_client; co_input := [] |})];
       sv_pipes := [(1%positive, example_pipe)]; sv_listeners := [{| li_sockaddr := sockaddr_un (bytes_of_string "/run/socket") |}];
       sv_next := 3; sv_fs := example_files; sv_opened := []; sv_closed := [] |}
    (set_pr_signals {| lgtd_signal_evs := [Some true; Some true; Some true]; lgtd_last_signal_received := 0;
                       sg_sigpipe_ignored := true; sg_loopbreak := false |} new_process).

Lemma example_end_ok : server_ok (pr_server example_end) /\ closable (sv_world (pr_server example_end)).
Proof.
  split.
  - split; cbn [pr_server example_end set_pr_server sv_clients sv_pipes sv_next].
    + by vm_compute.
    + split; [by apply NoDup_singleton|by repeat constructor].
    + by repeat constructor.
    + split; [by apply NoDup_singleton|by repeat constructor].
    + apply Forall_singleton. apply (bool_decide_unpack _). by vm_compute.
  - apply (closable_same example_world); [apply closable_inv, reachable_inv, reachable_example_world|].
    cbn [pr_server example_end set_pr_server sv_world]. generalize example_world. by split.
Qed.

Lemma cleanup_correct_witness : exists s', lgtd_cleanup example_end = Ret tt s' /\ cleaned example_end s'.
Proof. apply (cleanup_correct example_end); [apply example_end_ok..|by exists true, true, true]. Defined.

(** C20: a signal ends the daemon in order. In a daemon that was started the callback of each of SIGINT,
    SIGTERM and SIGQUIT runs with no failed assertion, notes the signal, stops the event loop and takes its
    own event out, so that a second signal of that kind has its default behavior, and only that one; what is left of the main function then
    closes everything and the status of the process is 0. *)
Theorem signal_ends_daemon {E : Endianness} {C : LibC} {A : Accounts} {L : Libevent} {F : FileSystem} s i signum :
  started s -> lgtd_signals !! i = Some signum ->
  exists s1 s2,
    lgtd_signal_event_callback signum i s = Ret tt s1
    /\ pr_signals s1 = set_loopbreak true (set_signal_ev i (Some false) (set_last_signal_received signum (pr_signals s)))
    /\ main_end s1 = Ret 0 s2 /\ cleaned s1 s2.
Proof.
  intros [Hi _ _ Hok Hsig] Hsignum. destruct (signal_callback_run s i signum Hsignum Hsig) as (s1 & Hrun & Hs1 & Hsig1).
  destruct (cleanup_run s1) as (s2 & Hclean & Hc); [by rewrite Hs1|rewrite Hs1; by apply closable_inv|done|].
  exists s1, s2. split_and!; [done|by rewrite Hs1| |done]. unfold main_end. by rewrite (run_bind _ _ _ _ _ Hclean).
Qed.

Lemma signal_ends_daemon_witness :
  exists s1 s2,
    lgtd_signal_event_callback 15 1 example_started = Ret tt s1
    /\ pr_signals s1 = set_loopbreak true (set_signal_ev 1 (Some false) (set_last_signal_received 15 (pr_signals example_started)))
    /\ main_end s1 = Ret 0 s2 /\ cleaned s1 s2.
Proof.
  apply (signal_ends_daemon example_started 1 15); [|done].
  apply (wpc_run _ _ _ _ tt _ (wpc_main (fun _ _ => Some [sockaddr_in [127; 0; 0; 1] 9000]) (fun _ => 7) false 12 example_options [0; 77] 1
           new_process ltac:(lia) example_groups_exist new_process_ok)), example_main_run.
Defined.

(** ** Where the code stops short of its intent *)

(** The databases have a user whose group is not there. *)
Definition stray_accounts : Accounts := {|
  getpwnam _ := Some {| pw_name := lights; pw_uid := 1000; pw_gid := 100 |};
  getgrnam _ := None;
  getgrgid _ := None
|}.

(** Four runs of core/daemon.c and core/lightsd.c against their intent. A user whose group is not in
    the database crashes the daemon, which reads the name of the null group before it
    tests it; where the system has [setproctitle] the title is never set; and
    [--prefix] ends in two slashes when the prefix ends in one, the character that is
    looked at being the terminator. When the event of a signal cannot be made, the cleanup that [lgtd_err]
    runs deletes the null pointer it got. *)
Theorem start_falls_short :
  lgtd_daemon_set_group (A := stray_accounts) None
    (set_pr_user_info (Some {| pw_name := lights; pw_uid := 1000; pw_gid := 100 |}) new_process) = Crash UndefinedBehaviour
  /\ (lgtd_daemon_setup_proctitle true ;; lgtd_daemon_update_proctitle) new_process = Ret None new_process
  /\ print_dir (bytes_of_string "/opt/") = bytes_of_string "/opt//" ++ [10]
  /\ lgtd_setup_signal_handling (set_pr_server (set_sv_world (set_w_os_results [false] (blank_world 1)) (pr_server new_process)) new_process)
     = Crash UndefinedBehaviour.
Proof. split_and!; [done|done|by vm_compute..]. Qed.
