(* ===== verification/LogThms.v ===== *)
(** * What is logged

    The properties of [core/log.c], [core/console.c] and the syslog functions of
    [core/daemon.c]. *)

From Stdlib Require Import ZArith Lia String.
From stdpp Require Import base tactics list gmap.
From S2P Require Import Prelude CLib WireBits WireProto World Example Jsmn Printf Session Client RpcThms Files ServerState Pipe ServerThms Process Startup.
From S2P Require Import CleanupSpec StartSpec StartThms Log.

(** ** Formats *)

Definition errno_suffix : list Z := bytes_of_string ": %m".

(** A format ends outside of a directive. *)
Fixpoint complete_from (spec : bool) (fmt : list Z) : bool :=
  match fmt with
  | [] => negb spec
  | c :: fmt =>
    if spec then
      complete_from (negb ((c =? 37) || (c =? 109) || bool_decide (c ∈ conversions))) fmt
    else complete_from (c =? 37) fmt
  end.
Definition complete (fmt : list Z) : bool := complete_from false fmt.

Lemma vformat_app m fmt rest : forall spec ap,
  complete_from spec fmt = true -> (forall ap, vformat m false rest ap = vformat m false rest []) ->
  vformat m spec (fmt ++ rest) ap = vformat m spec fmt ap ++ vformat m false rest [].
Proof.
  induction fmt as [|c fmt IH]; intros spec ap Hc Hrest; [by destruct spec; [|apply Hrest]|]. cbn in Hc |- *. destruct spec.
  - destruct (c =? 37); [cbn in *; by rewrite IH|]. destruct (c =? 109); [cbn in *; by rewrite IH, app_assoc|]. cbn in Hc.
    case_bool_decide; [|by rewrite IH]. destruct ap; [by rewrite IH|]. by rewrite IH, app_assoc.
  - destruct (c =? 37); [by rewrite IH|]. cbn. by rewrite IH.
Qed.

Lemma vformat_errno m fmt ap :
  complete fmt = true -> vformat m false (fmt ++ errno_suffix) ap = vformat m false fmt ap ++ bytes_of_string ": " ++ m.
Proof. intros Hc. rewrite vformat_app by done. cbn. by rewrite app_nil_r. Qed.

(** The buffer after the call, when the suffix fits and when it does not. *)
Lemma errfmt_fits {S} ndebug (fmt old : list Z) (s : S) :
  (length (cstr fmt) + 5 <= length old)%nat ->
  lgtd_daemon_setup_errfmt ndebug fmt old s = Ret (cstr fmt ++ errno_format ++ drop (length (cstr fmt) + 5) old) s.
Proof.
  intros Hfit. unfold lgtd_daemon_setup_errfmt. change (length errno_format) with 5%nat.
  rewrite Nat.min_r by lia. replace (length (cstr fmt) + 1 - 1)%nat with (length (cstr fmt)) by lia.
  rewrite (leb_correct _ _ Hfit), (take_ge (cstr fmt ++ [0])) by (rewrite length_app; cbn; lia).
  rewrite <- !app_assoc. rewrite take_app_le, take_ge, drop_app_ge by lia.
  replace (length (cstr fmt) + 5 - length (cstr fmt))%nat with 5%nat by lia. cbn [app drop]. rewrite drop_drop.
  by replace (length (cstr fmt) + 1 + 4)%nat with (length (cstr fmt) + 5)%nat by lia.
Qed.

Lemma errfmt_cut {S} (fmt old : list Z) (s : S) :
  (0 < length old < length (cstr fmt) + 5)%nat ->
  exists errfmt, lgtd_daemon_setup_errfmt true fmt old s = Ret errfmt s
    /\ length errfmt = length old /\ cstr errfmt = take (length old - 1) (cstr fmt).
Proof.
  intros Hcut. unfold lgtd_daemon_setup_errfmt. change (length errno_format) with 5%nat.
  rewrite (proj2 (Nat.leb_gt _ _)) by lia. eexists. split; [done|].
  set (n := Nat.min _ _). pose proof (cstr_nonzero fmt) as Hnz.
  assert (Hpre : length (take n (cstr fmt ++ [0])) = n) by (rewrite length_take, length_app; cbn; lia).
  rewrite length_insert, length_app, Hpre, length_drop. split; [lia|].
  rewrite insert_app_r_alt by lia. rewrite Hpre, Nat.sub_diag.
  destruct (drop n old) as [|o rest] eqn:Hd; [apply (f_equal length) in Hd; rewrite length_drop in Hd; cbn in Hd; lia|].
  cbn [insert list_insert]. destruct (decide (length (cstr fmt) + 1 <= length old - 1)%nat).
  - subst n. rewrite (take_ge (cstr fmt ++ [0])) by (rewrite length_app; cbn; lia).
    rewrite <- app_assoc. cbn [app]. rewrite cstr_app_zero by done. by rewrite take_ge by lia.
  - subst n. rewrite Nat.min_l, (take_app_le (cstr fmt)) by lia. apply cstr_app_zero. by apply Forall_take.
Qed.

(** C25: the format of an error in the system log never leaves its buffer, whatever was in it. When the format and
    [": %m"] with its terminator fit in the [sz] bytes the string in the buffer is the format followed by that
    and nothing after it is written; else it is the format, cut to [sz - 1] characters,
    with [NDEBUG], and the process aborts without. *)
Theorem setup_errfmt_correct {S} (ndebug : bool) (fmt old : list Z) (s : S) :
  (0 < length old)%nat ->
  let sz := length old in
  let len := length (cstr fmt) in
  if decide (len + 5 <= sz)%nat then
    exists errfmt, lgtd_daemon_setup_errfmt ndebug fmt old s = Ret errfmt s
      /\ length errfmt = sz /\ cstr errfmt = cstr fmt ++ errno_suffix /\ drop (len + 5) errfmt = drop (len + 5) old
  else if ndebug then
    exists errfmt, lgtd_daemon_setup_errfmt ndebug fmt old s = Ret errfmt s
      /\ length errfmt = sz /\ cstr errfmt = take (sz - 1) (cstr fmt)
  else lgtd_daemon_setup_errfmt ndebug fmt old s = Crash AssertFailed.
Proof.
  intros Hold sz len. pose proof (cstr_nonzero fmt) as Hnz. case_decide as Hfit.
  - eexists. split; [by apply errfmt_fits|]. fold len. split_and!.
    + rewrite !length_app, length_drop. change (length errno_format) with 5%nat. fold len sz. lia.
    + unfold errno_format. rewrite <- app_assoc, app_assoc. cbn [app]. apply cstr_app_zero, Forall_app. split; [done|].
      by repeat constructor.
    + rewrite app_assoc, drop_app_ge; rewrite length_app; change (length errno_format) with 5%nat; fold len; [|lia].
      by rewrite Nat.sub_diag.
  - destruct ndebug; [apply errfmt_cut; lia|]. unfold lgtd_daemon_setup_errfmt. change (length errno_format) with 5%nat.
    by rewrite (proj2 (Nat.leb_gt _ _)) by lia.
Qed.

Lemma setup_errfmt_correct_witness :
  exists errfmt, lgtd_daemon_setup_errfmt true (bytes_of_string "no") (replicate 8 255) tt = Ret errfmt tt
    /\ length errfmt = 8%nat /\ cstr errfmt = bytes_of_string "no: %m" /\ drop 7 errfmt = [255].
Proof. exact (setup_errfmt_correct true (bytes_of_string "no") (replicate 8 255) tt ltac:(cbn; lia)). Defined.

(** ** Messages *)

Inductive message : Type := Warn | Warnx | Info | Debug.

Section Messages.
Context {E : Endianness} {C : LibC} {L : Libevent} {F : FileSystem} {V : LogEnv}.

Definition log_message (ndebug : bool) (k : message) : list Z -> va_list -> M logs unit :=
  match k with
  | Warn => lgtd_warn ndebug
  | Warnx => lgtd_warnx
  | Info => lgtd_info
  | Debug => lgtd_debug
  end.

Definition message_level (k : message) : lgtd_verbosity :=
  match k with Warn | Warnx => LGTD_WARN | Info => LGTD_INFO | Debug => LGTD_DEBUG end.
Definition message_priority (k : message) : Z :=
  match k with Warn | Warnx => LOG_WARNING | Info => LOG_INFO | Debug => LOG_DEBUG end.

(** The text, with the one of [errno] for those that tell it. *)
Definition message_text (errno : bool) (s : logs) (fmt : list Z) (ap : va_list) : list Z :=
  format_now s fmt ap ++ (if errno then bytes_of_string ": " ++ strerror (lg_errno s) else []).
Definition tells_errno (k : message) : bool := match k with Warn => true | _ => false end.

Definition console_header (s : logs) (loglvl : string) : list Z :=
  (if opts_log_timestamps (lg_opts s) then
     bytes_of_string "[" ++ match lg_now s with Some (t, usec) => LGTD_TM_TO_ISOTIME t 64 usec | None => [] end
     ++ bytes_of_string "] "
   else [])
  ++ bytes_of_string "[" ++ bytes_of_string loglvl ++ bytes_of_string "] ".

(** A line of the console. *)
Definition console_line (k : message) (s : logs) (fmt : list Z) (ap : va_list) : list Z :=
  match k with
  | Warn | Warnx => console_header s "WARN" ++ progname ++ bytes_of_string ": "
  | Info => console_header s "INFO" ++ bytes_of_string "lightsd: "
  | Debug => console_header s "DEBUG" ++ bytes_of_string "lightsd: "
  end ++ message_text (tells_errno k) s fmt ap ++ [10].

(** The mask of the system log is the one of the verbosity. *)
Definition log_ready (s : logs) : Prop :=
  opts_syslog (lg_opts s) = true -> exists p,
    syslog_priorities !! Z.to_nat (verbosity_to_Z (opts_verbosity (lg_opts s))) = Some p /\ lg_mask s = LOG_UPTO p.

(** The message was written, once, where the options want it. *)
Definition logged (k : message) (fmt : list Z) (ap : va_list) (s s' : logs) : Prop :=
  s' = if verbosity_to_Z (message_level k) <? verbosity_to_Z (opts_verbosity (lg_opts s)) then s
       else if opts_syslog (lg_opts s) then
         set_lg_syslog (lg_syslog s ++ [(message_priority k, message_text (tells_errno k) s fmt ap)]) s
       else set_lg_stderr (lg_stderr s ++ console_line k s fmt ap) s.

Lemma log_setup_ready s : exists s', lgtd_log_setup s = Ret tt s' /\ log_ready s' /\ lg_process s' = lg_process s
  /\ lg_stderr s' = lg_stderr s /\ lg_syslog s' = lg_syslog s.
Proof.
  unfold lgtd_log_setup, mbind, M_bind, mget, log_ready. destruct (opts_syslog (lg_opts s)) eqn:Hs.
  - unfold lgtd_daemon_syslog_open. destruct (opts_verbosity (lg_opts s)) eqn:Hv; cbn; (eexists; split_and!; [done| |done..]);
      cbn; intros _; (eexists; split; [unfold lg_opts in *; cbn; by rewrite Hv|done]).
  - exists s. by rewrite Hs.
Qed.

(** The mask lets through what the verbosity does. *)
Lemma mask_lets_through s p i :
  log_ready s -> opts_syslog (lg_opts s) = true -> syslog_priorities !! i = Some p ->
  verbosity_to_Z (opts_verbosity (lg_opts s)) <= Z.of_nat i -> (Z.land (lg_mask s) (LOG_MASK p) =? 0) = false.
Proof.
  intros Hr Hs Hi Hv. destruct (Hr Hs) as (q & Hq & ->).
  destruct i as [|[|[|[|i]]]]; [injection Hi as <-..|done]; destruct (opts_verbosity (lg_opts s)); cbn in Hv, Hq; try lia;
    injection Hq as <-; done.
Qed.

Lemma vsyslog_run s p i fmt ap :
  log_ready s -> opts_syslog (lg_opts s) = true -> syslog_priorities !! i = Some p ->
  verbosity_to_Z (opts_verbosity (lg_opts s)) <= Z.of_nat i ->
  vsyslog p fmt ap s = Ret tt (set_lg_syslog (lg_syslog s ++ [(p, format_now s fmt ap)]) s).
Proof. intros Hr Hs Hi Hv. unfold vsyslog, mbind, M_bind, mget. by rewrite (mask_lets_through s p i). Qed.

Lemma log_header_run s loglvl showprogname :
  lgtd_console_log_header (bytes_of_string loglvl) showprogname s
  = Ret tt (set_lg_stderr (lg_stderr s ++ console_header s loglvl ++ if showprogname then bytes_of_string "lightsd: " else []) s).
Proof.
  unfold lgtd_console_log_header, lgtd_console_isotime_now, console_header, mbind, M_bind, mget.
  destruct (opts_log_timestamps (lg_opts s)); cbn [Nat.ltb Nat.leb massert]; unfold mret, M_ret, write_stderr, mmodify; cbv iota beta; by rewrite <- ?app_assoc.
Qed.

(** A format and [": %m"] fit in the buffer of the system log. *)
Definition errfmt_room (fmt : list Z) : Prop := (length (cstr fmt) + 5 <= LGTD_DAEMON_ERRFMT_SIZE)%nat.

Lemma errfmt_text ndebug s fmt ap :
  errfmt_room fmt -> complete (cstr fmt) = true ->
  exists errfmt, lgtd_daemon_setup_errfmt ndebug fmt (garbage LGTD_DAEMON_ERRFMT_SIZE) s = Ret errfmt s
    /\ format_now s errfmt ap = message_text true s fmt ap.
Proof.
  intros Hroom Hc. eexists. split; [apply errfmt_fits; by rewrite garbage_length|].
  unfold format_now, message_text, format_now. rewrite <- vformat_errno by done. f_equal.
  unfold errno_format. rewrite <- app_assoc, app_assoc. cbn [app]. apply cstr_app_zero, Forall_app. split; [apply cstr_nonzero|].
  by repeat constructor.
Qed.

Lemma log_message_run ndebug k fmt ap s :
  log_ready s -> errfmt_room fmt -> complete (cstr fmt) = true ->
  exists s', log_message ndebug k fmt ap s = Ret tt s' /\ logged k fmt ap s s'.
Proof.
  intros Hr Hroom Hc. unfold logged. eexists. split; [|done].
  assert (Hfn : log_message ndebug k fmt ap s
    = (if verbosity_to_Z (message_level k) <? verbosity_to_Z (opts_verbosity (lg_opts s)) then Ret tt s
       else if opts_syslog (lg_opts s) then match k with Warn => lgtd_daemon_syslog_warn ndebug | Warnx => lgtd_daemon_syslog_warnx
                                            | Info => lgtd_daemon_syslog_info | Debug => lgtd_daemon_syslog_debug end fmt ap s
       else match k with Warn => lgtd_console_warn | Warnx => lgtd_console_warnx
                         | Info => lgtd_console_info | Debug => lgtd_console_debug end fmt ap s)).
  { destruct k; cbn [log_message]; unfold lgtd_warn, lgtd_warnx, lgtd_info, lgtd_debug, LOGFN, mbind, M_bind, mget;
      cbn [message_level]; by repeat case_match. }
  rewrite Hfn. clear Hfn. destruct (Z.ltb_spec (verbosity_to_Z (message_level k)) (verbosity_to_Z (opts_verbosity (lg_opts s)))) as [|Hv]; [done|].
  destruct (opts_syslog (lg_opts s)) eqn:Hs.
  - destruct (errfmt_text ndebug s fmt ap Hroom Hc) as (errfmt & Hrun & Htext).
    destruct k; unfold message_text; cbn [tells_errno message_priority]; rewrite ?app_nil_r.
    + unfold lgtd_daemon_syslog_warn. rewrite (run_bind _ _ _ _ _ Hrun), (vsyslog_run s LOG_WARNING 2) by done. by rewrite Htext.
    + by apply (vsyslog_run s LOG_WARNING 2).
    + by apply (vsyslog_run s LOG_INFO 1).
    + by apply (vsyslog_run s LOG_DEBUG 0).
  - destruct k; unfold lgtd_console_warn, lgtd_console_warnx, lgtd_console_info, lgtd_console_debug;
      rewrite (run_bind _ _ _ _ _ (log_header_run s _ _));
      unfold vwarn, vwarnx, vfprintf_stderr, write_stderr, mbind, M_bind, mget, mmodify, console_line, message_text, tells_errno; cbn;
      unfold format_now; cbn; by rewrite <- ?app_assoc, ?app_nil_r.
Qed.

(** *** Errors *)








End Messages.

(** ** An example *)

#[local] Existing Instance little.
#[local] Existing Instance example_libc.
#[local] Existing Instance chains.
#[local] Existing Instance memory.

#[local] Instance example_log_env : LogEnv := {|
  strerror _ := bytes_of_string "No space left on device";
  progname := bytes_of_string "lightsd";
  garbage n := replicate n 170;
  garbage_length n := length_replicate n 170
|}.

Definition example_logs : logs :=
  {| lg_process := set_pr_opts (initial_opts false) example_end; lg_errno := 28;
     lg_now := Some ({| tm_year := 116; tm_mon := 0; tm_mday := 2; tm_hour := 10; tm_min := 13; tm_sec := 16; tm_gmtoff := 0 |}, 132222);
     lg_stderr := []; lg_syslog := []; lg_mask := 255; lg_open := None |}.

(** C22: a message is logged as the options want. After [lgtd_log_setup] the mask of the system log agrees with
    the verbosity, and then each of [lgtd_warn], [lgtd_warnx], [lgtd_info] and [lgtd_debug] writes nothing when the
    verbosity is above its level and else writes the message exactly once: as a record of the system log with its
    priority, which the mask never drops, or as a line of the console with its level, and the time if it was
    asked for; [lgtd_warn] ends it with the text of [errno] in both places. *)
Theorem messages_logged {E : Endianness} {C : LibC} {L : Libevent} {F : FileSystem} {V : LogEnv} ndebug s0 :
  (exists s, lgtd_log_setup s0 = Ret tt s /\ log_ready s)
  /\ forall k fmt ap s, log_ready s -> errfmt_room fmt -> complete (cstr fmt) = true ->
     exists s', log_message ndebug k fmt ap s = Ret tt s' /\ logged k fmt ap s s' /\ log_ready s'.
Proof.
  split; [destruct (log_setup_ready s0) as (s & ? & ? & _); by exists s|]. intros k fmt ap s Hr Hroom Hc.
  destruct (log_message_run ndebug k fmt ap s Hr Hroom Hc) as (s' & Hrun & Hl). exists s'. split_and!; [done..|].
  rewrite Hl. by repeat case_match.
Qed.

Lemma messages_logged_witness :
  exists s', log_message false Warn (bytes_of_string "can't open %s") [bytes_of_string "/run/p"] example_logs = Ret tt s'
    /\ lg_stderr s' = bytes_of_string "[2016-01-02T10:13:16.132222+00:00] [WARN] lightsd: can't open /run/p: No space left on device" ++ [10].
Proof.
  destruct (proj2 (messages_logged false example_logs) Warn (bytes_of_string "can't open %s") [bytes_of_string "/run/p"] example_logs)
    as (s' & Hrun & -> & _); [done|unfold errfmt_room; vm_compute; lia|by vm_compute|].
  eexists. split; [exact Hrun|]. by vm_compute.
Defined.



(** The times of the console against the form the comment of [LGTD_TM_TO_ISOTIME] gives, [2015-01-02T10:13:16.132222+00:00]:
    the microseconds have no leading zeros, and what follows the hours of the offset is a number of seconds. *)
Example isotime_falls_short :
  let t := {| tm_year := 115; tm_mon := 0; tm_mday := 2; tm_hour := 10; tm_min := 13; tm_sec := 16; tm_gmtoff := 19800 |} in
  LGTD_TM_TO_ISOTIME t 64 7 = bytes_of_string "2015-01-02T10:13:16.7+05:1800".
Proof. by vm_compute. Qed.
