(* ===== verification/RbTree.v ===== *)
(** * The red-black trees of compat/generic/sys/tree.h

    The table of the bulbs and the one of the packet types are red-black trees made by
    the macros of [sys/tree.h]. This file has the functions those macros
    generate, on a memory of nodes with their three pointers and their color.

    The macros have each case twice, for a side of the tree and for the other one:
    a [side] stands for the two here. A pointer is [None] when it is [NULL]; reading
    a node that is not in the memory is undefined. A loop is given one turn more than there are nodes. *)

From Stdlib Require Import ZArith Lia.
From stdpp Require Import base tactics list gmap.
From S2P Require Import Prelude.

Inductive rb_color : Type := RB_BLACK | RB_RED.

#[export] Instance rb_color_eq_dec : EqDecision rb_color.
Proof. solve_decision. Defined.

Inductive side : Type := L | R.

#[export] Instance side_eq_dec : EqDecision side.
Proof. solve_decision. Defined.

Definition other (d : side) : side := match d with L => R | R => L end.

Definition ptr : Type := positive.

(** [RB_ENTRY]. *)
Record rb_entry : Type := {
  rbe_left : option ptr;
  rbe_right : option ptr;
  rbe_parent : option ptr;
  rbe_color : rb_color
}.

Definition set_rbe_left (v : option ptr) (e : rb_entry) : rb_entry :=
  {| rbe_left := v; rbe_right := rbe_right e; rbe_parent := rbe_parent e; rbe_color := rbe_color e |}.
Definition set_rbe_right (v : option ptr) (e : rb_entry) : rb_entry :=
  {| rbe_left := rbe_left e; rbe_right := v; rbe_parent := rbe_parent e; rbe_color := rbe_color e |}.
Definition set_rbe_parent (v : option ptr) (e : rb_entry) : rb_entry :=
  {| rbe_left := rbe_left e; rbe_right := rbe_right e; rbe_parent := v; rbe_color := rbe_color e |}.
Definition set_rbe_color (v : rb_color) (e : rb_entry) : rb_entry :=
  {| rbe_left := rbe_left e; rbe_right := rbe_right e; rbe_parent := rbe_parent e; rbe_color := v |}.

Definition rbe_child (d : side) (e : rb_entry) : option ptr :=
  match d with L => rbe_left e | R => rbe_right e end.
Definition set_rbe_child (d : side) (v : option ptr) (e : rb_entry) : rb_entry :=
  match d with L => set_rbe_left v e | R => set_rbe_right v e end.

(** [RB_HEAD], and the link of every node. *)
Record rb_head : Type := {
  rbh_root : option ptr;
  rb_mem : gmap ptr rb_entry
}.

Definition RB_INITIALIZER (mem : gmap ptr rb_entry) : rb_head := {| rbh_root := None; rb_mem := mem |}.

Definition RB_EMPTY (h : rb_head) : bool := bool_decide (rbh_root h = None).

(** ** Accesses *)

Definition node (elm : option ptr) : M rb_head rb_entry :=
  h ← mget;
  mderef (elm ≫= fun p => rb_mem h !! p).

Definition set_node (f : rb_entry -> rb_entry) (elm : option ptr) : M rb_head unit :=
  p ← mderef elm;
  e ← node elm;
  mmodify (fun h => {| rbh_root := rbh_root h; rb_mem := <[p := f e]> (rb_mem h) |}).

Definition RB_CHILD (d : side) (elm : option ptr) : M rb_head (option ptr) := e ← node elm; mret (rbe_child d e).
Definition RB_LEFT : option ptr -> M rb_head (option ptr) := RB_CHILD L.
Definition RB_RIGHT : option ptr -> M rb_head (option ptr) := RB_CHILD R.
Definition RB_PARENT (elm : option ptr) : M rb_head (option ptr) := e ← node elm; mret (rbe_parent e).
Definition RB_COLOR (elm : option ptr) : M rb_head rb_color := e ← node elm; mret (rbe_color e).
Definition RB_ROOT : M rb_head (option ptr) := mgets rbh_root.

Definition set_child (d : side) (elm v : option ptr) : M rb_head unit := set_node (set_rbe_child d v) elm.
Definition set_parent (elm v : option ptr) : M rb_head unit := set_node (set_rbe_parent v) elm.
Definition set_color (elm : option ptr) (c : rb_color) : M rb_head unit := set_node (set_rbe_color c) elm.
Definition set_root (v : option ptr) : M rb_head unit :=
  mmodify (fun h => {| rbh_root := v; rb_mem := rb_mem h |}).

Definition not_null (p : option ptr) : bool := bool_decide (is_Some p).

(** [if (child) RB_PARENT(child) = parent]. *)
Definition set_parent_if (child parent : option ptr) : M rb_head unit :=
  mwhen (not_null child) (set_parent child parent).

(** The child of [parent] that is [elm], or the root, becomes [v]. *)
Definition replace_child (parent elm v : option ptr) : M rb_head unit :=
  if not_null parent then
    left ← RB_LEFT parent;
    if bool_decide (left = elm) then set_child L parent v else set_child R parent v
  else set_root v.

Definition RB_SET (elm parent : option ptr) : M rb_head unit :=
  set_parent elm parent ;;
  set_child R elm None ;;
  set_child L elm None ;;
  set_color elm RB_RED.

Definition RB_SET_BLACKRED (black red : option ptr) : M rb_head unit :=
  set_color black RB_BLACK ;;
  set_color red RB_RED.

(** ** Rotations *)

(** To the side [d]: what is left in [tmp]. *)
Definition RB_ROTATE (d : side) (elm : option ptr) : M rb_head (option ptr) :=
  tmp ← RB_CHILD (other d) elm;
  inner ← RB_CHILD d tmp;
  set_child (other d) elm inner ;;
  set_parent_if inner elm ;;
  parent ← RB_PARENT elm;
  set_parent tmp parent ;;
  replace_child parent elm tmp ;;
  set_child d tmp elm ;;
  set_parent elm tmp ;;
  mret tmp.

Definition RB_ROTATE_LEFT : option ptr -> M rb_head (option ptr) := RB_ROTATE L.
Definition RB_ROTATE_RIGHT : option ptr -> M rb_head (option ptr) := RB_ROTATE R.

(** The color of a node that may be [NULL]. *)
Definition is_black (elm : option ptr) : M rb_head bool :=
  if not_null elm then c ← RB_COLOR elm; mret (bool_decide (c = RB_BLACK)) else mret true.

(** ** RB_INSERT_COLOR *)

(** The body of the loop when [parent] is on the side [d] of [gparent]; it returns the new [elm]. *)
Definition insert_color_body (d : side) (elm parent gparent : option ptr) : M rb_head (option ptr) :=
  tmp ← RB_CHILD (other d) gparent;
  black ← is_black tmp;
  if negb black then
    set_color tmp RB_BLACK ;;
    RB_SET_BLACKRED parent gparent ;;
    mret gparent
  else
    inner ← RB_CHILD (other d) parent;
    '(elm, parent) ← (if bool_decide (inner = elm) then RB_ROTATE d parent ;; mret (parent, elm)
                      else mret (elm, parent));
    RB_SET_BLACKRED parent gparent ;;
    RB_ROTATE (other d) gparent ;;
    mret elm.

Fixpoint insert_color_loop (fuel : nat) (elm : option ptr) : M rb_head unit :=
  match fuel with
  | O => mcrash UndefinedBehaviour
  | S fuel =>
    parent ← RB_PARENT elm;
    black ← is_black parent;
    if (black : bool) then mret tt
    else
      gparent ← RB_PARENT parent;
      left ← RB_LEFT gparent;
      elm ← insert_color_body (if bool_decide (parent = left) then L else R) elm parent gparent;
      insert_color_loop fuel elm
  end.

Definition turns : M rb_head nat := mgets (fun h => S (size (rb_mem h))).

Definition RB_INSERT_COLOR (elm : option ptr) : M rb_head unit :=
  fuel ← turns;
  insert_color_loop fuel elm ;;
  root ← RB_ROOT;
  set_color root RB_BLACK.

(** ** RB_REMOVE_COLOR *)

(** The second part of the body: [tmp] is the other child of [parent]. It returns [parent], [elm] and
    if the loop goes on. *)
Definition remove_color_fix (d : side) (parent tmp : option ptr) : M rb_head (option ptr * option ptr * bool) :=
  near ← RB_CHILD d tmp;
  near_black ← is_black near;
  far ← RB_CHILD (other d) tmp;
  far_black ← is_black far;
  if near_black && far_black then
    set_color tmp RB_RED ;;
    gparent ← RB_PARENT parent;
    mret (gparent, parent, true)
  else
    tmp ← (if (far_black : bool) then
             mwhen (not_null near) (set_color near RB_BLACK) ;;
             set_color tmp RB_RED ;;
             RB_ROTATE (other d) tmp ;;
             RB_CHILD (other d) parent
           else mret tmp);
    color ← RB_COLOR parent;
    set_color tmp color ;;
    set_color parent RB_BLACK ;;
    far ← RB_CHILD (other d) tmp;
    mwhen (not_null far) (set_color far RB_BLACK) ;;
    RB_ROTATE d parent ;;
    root ← RB_ROOT;
    mret (parent, root, false).

Definition remove_color_body (d : side) (parent : option ptr) : M rb_head (option ptr * option ptr * bool) :=
  tmp ← RB_CHILD (other d) parent;
  color ← RB_COLOR tmp;
  tmp ← (if bool_decide (color = RB_RED) then
           RB_SET_BLACKRED tmp parent ;;
           RB_ROTATE d parent ;;
           RB_CHILD (other d) parent
         else mret tmp);
  remove_color_fix d parent tmp.

Fixpoint remove_color_loop (fuel : nat) (parent elm : option ptr) : M rb_head (option ptr) :=
  match fuel with
  | O => mcrash UndefinedBehaviour
  | S fuel =>
    black ← is_black elm;
    root ← RB_ROOT;
    if black && bool_decide (elm <> root) then
      left ← RB_LEFT parent;
      '(parent, elm, more) ← remove_color_body (if bool_decide (left = elm) then L else R) parent;
      if (more : bool) then remove_color_loop fuel parent elm else mret elm
    else mret elm
  end.

Definition RB_REMOVE_COLOR (parent elm : option ptr) : M rb_head unit :=
  fuel ← turns;
  elm ← remove_color_loop fuel parent elm;
  mwhen (not_null elm) (set_color elm RB_BLACK).

(** ** RB_REMOVE *)

Fixpoint furthest_loop (d : side) (fuel : nat) (elm : option ptr) : M rb_head (option ptr) :=
  match fuel with
  | O => mcrash UndefinedBehaviour
  | S fuel =>
    next ← RB_CHILD d elm;
    if not_null next then furthest_loop d fuel next else mret elm
  end.

(** The last node of a branch that only goes to the side [d]. *)
Definition furthest (d : side) (elm : option ptr) : M rb_head (option ptr) :=
  fuel ← turns;
  furthest_loop d fuel elm.

(** [RB_AUGMENT] is empty, and the loop that calls it on the way to the root only
    follows the parents. *)
Fixpoint augment_loop (fuel : nat) (left : option ptr) : M rb_head unit :=
  match fuel with
  | O => mcrash UndefinedBehaviour
  | S fuel =>
    left ← RB_PARENT left;
    if not_null left then augment_loop fuel left else mret tt
  end.

(** [elm] has a child at most, which takes its place: the parent, the child and the color. *)
Definition unlink_node (elm child : option ptr) : M rb_head (option ptr * rb_color) :=
  parent ← RB_PARENT elm;
  color ← RB_COLOR elm;
  set_parent_if child parent ;;
  replace_child parent elm child ;;
  mret (parent, color).

(** [elm], which is not in the tree any more, takes the place of [old]. *)
Definition take_place (old elm : option ptr) : M rb_head unit :=
  field ← node old;
  set_node (fun _ => field) elm ;;
  old_parent ← RB_PARENT old;
  replace_child old_parent old elm ;;
  old_left ← RB_LEFT old;
  set_parent old_left elm ;;
  old_right ← RB_RIGHT old;
  set_parent_if old_right elm.

(** [old] has both children: the one that follows it takes its place. *)
Definition remove_inner (old : option ptr) : M rb_head (option ptr * option ptr * rb_color) :=
  right ← RB_RIGHT old;
  elm ← furthest L right;
  child ← RB_RIGHT elm;
  '(parent, color) ← unlink_node elm child;
  elm_parent ← RB_PARENT elm;
  let parent := if bool_decide (elm_parent = old) then elm else parent in
  take_place old elm ;;
  fuel ← turns;
  mwhen (not_null parent) (augment_loop fuel parent) ;;
  mret (parent, child, color).

Definition RB_REMOVE (old : option ptr) : M rb_head (option ptr) :=
  left ← RB_LEFT old;
  right ← RB_RIGHT old;
  '(parent, child, color) ←
    (if negb (not_null left) then '(parent, color) ← unlink_node old right; mret (parent, right, color)
     else if negb (not_null right) then '(parent, color) ← unlink_node old left; mret (parent, left, color)
     else remove_inner old);
  mwhen (bool_decide (color = RB_BLACK)) (RB_REMOVE_COLOR parent child) ;;
  mret old.

(** ** Searches *)

Section Keys.
Context {K : Type}.

(** What is compared in a node, and the comparison. *)
Context (key : ptr -> K) (cmp : K -> K -> Z).

Fixpoint insert_search (fuel : nat) (elm : K) (parent : option ptr) (comp : Z) (tmp : option ptr)
    : M rb_head (option ptr * Z * option ptr) :=
  match fuel with
  | O => mcrash UndefinedBehaviour
  | S fuel =>
    match tmp with
    | None => mret (parent, comp, None)
    | Some p =>
      let comp := cmp elm (key p) in
      if comp <? 0 then next ← RB_LEFT tmp; insert_search fuel elm tmp comp next
      else if 0 <? comp then next ← RB_RIGHT tmp; insert_search fuel elm tmp comp next
      else mret (tmp, comp, tmp)
    end
  end.

(** A new node, and the place of the last comparison. *)
Definition link_node (elm parent : option ptr) (comp : Z) : M rb_head unit :=
  RB_SET elm parent ;;
  if not_null parent then
    if comp <? 0 then set_child L parent elm else set_child R parent elm
  else set_root elm.

(** The node with the same key if there is one, and nothing is changed then. *)
Definition RB_INSERT (elm : ptr) : M rb_head (option ptr) :=
  fuel ← turns;
  root ← RB_ROOT;
  '(parent, comp, found) ← insert_search fuel (key elm) None 0 root;
  if not_null found then mret found
  else
    link_node (Some elm) parent comp ;;
    RB_INSERT_COLOR (Some elm) ;;
    mret None.

Fixpoint find_loop (fuel : nat) (elm : K) (tmp : option ptr) : M rb_head (option ptr) :=
  match fuel with
  | O => mcrash UndefinedBehaviour
  | S fuel =>
    match tmp with
    | None => mret None
    | Some p =>
      let comp := cmp elm (key p) in
      if comp <? 0 then next ← RB_LEFT tmp; find_loop fuel elm next
      else if 0 <? comp then next ← RB_RIGHT tmp; find_loop fuel elm next
      else mret tmp
    end
  end.

Definition RB_FIND (elm : K) : M rb_head (option ptr) :=
  fuel ← turns;
  root ← RB_ROOT;
  find_loop fuel elm root.

(** The first node that is not before the key. *)
Fixpoint nfind_loop (fuel : nat) (elm : K) (tmp res : option ptr) : M rb_head (option ptr) :=
  match fuel with
  | O => mcrash UndefinedBehaviour
  | S fuel =>
    match tmp with
    | None => mret res
    | Some p =>
      let comp := cmp elm (key p) in
      if comp <? 0 then next ← RB_LEFT tmp; nfind_loop fuel elm next tmp
      else if 0 <? comp then next ← RB_RIGHT tmp; nfind_loop fuel elm next res
      else mret tmp
    end
  end.

Definition RB_NFIND (elm : K) : M rb_head (option ptr) :=
  fuel ← turns;
  root ← RB_ROOT;
  nfind_loop fuel elm root None.
End Keys.

(** ** Iterations *)

(** The first ancestor that is reached from the side [d]. *)
Fixpoint ancestor_loop (d : side) (fuel : nat) (elm : option ptr) : M rb_head (option ptr) :=
  match fuel with
  | O => mcrash UndefinedBehaviour
  | S fuel =>
    parent ← RB_PARENT elm;
    if not_null parent then
      child ← RB_CHILD (other d) parent;
      if bool_decide (elm = child) then ancestor_loop d fuel parent else mret parent
    else mret parent
  end.

(** [RB_NEXT] for the right side and [RB_PREV] for the left one: towards the side [other d]. *)
Definition RB_STEP (d : side) (elm : option ptr) : M rb_head (option ptr) :=
  fuel ← turns;
  child ← RB_CHILD (other d) elm;
  if not_null child then furthest d child
  else
    parent ← RB_PARENT elm;
    up ← (if not_null parent then near ← RB_CHILD d parent; mret (bool_decide (elm = near)) else mret false);
    if (up : bool) then mret parent else ancestor_loop d fuel elm.

Definition RB_NEXT : option ptr -> M rb_head (option ptr) := RB_STEP L.
Definition RB_PREV : option ptr -> M rb_head (option ptr) := RB_STEP R.

Fixpoint minmax_loop (d : side) (fuel : nat) (parent tmp : option ptr) : M rb_head (option ptr) :=
  match fuel with
  | O => mcrash UndefinedBehaviour
  | S fuel =>
    if not_null tmp then next ← RB_CHILD d tmp; minmax_loop d fuel tmp next else mret parent
  end.

Definition RB_MINMAX (d : side) : M rb_head (option ptr) :=
  fuel ← turns;
  root ← RB_ROOT;
  minmax_loop d fuel None root.

Definition RB_MIN : M rb_head (option ptr) := RB_MINMAX L.
Definition RB_MAX : M rb_head (option ptr) := RB_MINMAX R.

(** The nodes [RB_FOREACH] gives to its body when that leaves the tree alone, and, for the side [R],
    [RB_FOREACH_REVERSE]. *)
Fixpoint foreach_loop (d : side) (fuel : nat) (x : option ptr) : M rb_head (list ptr) :=
  match fuel with
  | O => mcrash UndefinedBehaviour
  | S fuel =>
    match x with
    | None => mret []
    | Some p => next ← RB_STEP d x; rest ← foreach_loop d fuel next; mret (p :: rest)
    end
  end.

Definition RB_FOREACH (d : side) : M rb_head (list ptr) :=
  fuel ← turns;
  x ← RB_MINMAX d;
  foreach_loop d fuel x.

(** [RB_FOREACH_SAFE]: the node after is taken before the body runs, which may remove the one it was given. *)
Fixpoint foreach_safe_loop (fuel : nat) (x : option ptr) (body : ptr -> M rb_head unit) : M rb_head unit :=
  match fuel with
  | O => mcrash UndefinedBehaviour
  | S fuel =>
    match x with
    | None => mret tt
    | Some p => y ← RB_NEXT x; body p ;; foreach_safe_loop fuel y body
    end
  end.

Definition RB_FOREACH_SAFE (body : ptr -> M rb_head unit) : M rb_head unit :=
  fuel ← turns;
  x ← RB_MIN;
  foreach_safe_loop fuel x body.
