(* ===== verification/RbShape.v ===== *)
(** * Red-black trees: what is in the memory

    A tree, and a tree with a hole: the nodes on the way from a node to the root, each with its other
    branch. The memory holds the tree with the hole filled, and each macro of
    [sys/tree.h] that changes pointers or colors changes the tree. *)

From Stdlib Require Import ZArith Lia.
From stdpp Require Import base tactics list gmap fin_maps fin_map_dom.
From S2P Require Import Prelude RbTree.

Inductive tree : Type :=
| Leaf
| Node (c : rb_color) (l : tree) (x : ptr) (r : tree).

#[export] Instance tree_eq_dec : EqDecision tree.
Proof. solve_decision. Defined.

(** A node whose branch on the side [d] is [t]. *)
Definition mk (d : side) (c : rb_color) (t : tree) (x : ptr) (s : tree) : tree :=
  match d with L => Node c t x s | R => Node c s x t end.

Lemma mk_other d c t x s : mk (other d) c t x s = mk d c s x t.
Proof. by destruct d. Qed.

Lemma mk_not_leaf t : t = Leaf \/ forall d, exists c l x r, t = mk d c l x r.
Proof. destruct t as [|c l x r]; [by left|right]. intros []; [by exists c, l, x, r|by exists c, r, x, l]. Qed.

Fixpoint inorder (t : tree) : list ptr :=
  match t with
  | Leaf => []
  | Node _ l x r => inorder l ++ x :: inorder r
  end.

Definition root (t : tree) : option ptr := match t with Leaf => None | Node _ _ x _ => Some x end.
Definition color (t : tree) : rb_color := match t with Leaf => RB_BLACK | Node c _ _ _ => c end.

Lemma root_mk d c t x s : root (mk d c t x s) = Some x.
Proof. by destruct d. Qed.
Lemma color_mk d c t x s : color (mk d c t x s) = c.
Proof. by destruct d. Qed.

Lemma root_elem t x : root t = Some x -> x ∈ inorder t.
Proof. destruct t; [done|]. intros [= ->]. cbn. set_solver. Qed.

(** ** Trees with a hole *)

Record frame : Type := F {
  f_side : side;
  f_color : rb_color;
  f_node : ptr;
  f_sib : tree
}.

Fixpoint plug (k : list frame) (t : tree) : tree :=
  match k with
  | [] => t
  | f :: k => plug k (mk (f_side f) (f_color f) t (f_node f) (f_sib f))
  end.

Fixpoint hole_nodes (k : list frame) : list ptr :=
  match k with
  | [] => []
  | f :: k => f_node f :: inorder (f_sib f) ++ hole_nodes k
  end.

Definition hole_parent (k : list frame) : option ptr := f_node <$> head k.

(** What comes before and after the hole. *)
Fixpoint before (k : list frame) : list ptr :=
  match k with
  | [] => []
  | F L _ _ _ :: k => before k
  | F R _ x s :: k => before k ++ inorder s ++ [x]
  end.
Fixpoint after (k : list frame) : list ptr :=
  match k with
  | [] => []
  | F L _ x s :: k => x :: inorder s ++ after k
  | F R _ _ _ :: k => after k
  end.

Lemma inorder_plug k : forall t, inorder (plug k t) = before k ++ inorder t ++ after k.
Proof.
  induction k as [|[[] c x s] k IH]; intros t; cbn [plug before after]; [by rewrite app_nil_r| |]; rewrite IH; cbn;
    by rewrite <- ?app_assoc.
Qed.

Lemma inorder_plug_eq k t t' : inorder t = inorder t' -> inorder (plug k t) = inorder (plug k t').
Proof. intros Heq. by rewrite !inorder_plug, Heq. Qed.

(** Trees with the same nodes in the same order. *)
Ltac same_inorder :=
  apply inorder_plug_eq; repeat match goal with |- context [mk ?d _ _ _ _] => is_var d; destruct d end;
  cbn; repeat first [rewrite <- app_assoc | rewrite <- app_comm_cons]; reflexivity.

Lemma plug_app k1 k2 t : plug (k1 ++ k2) t = plug k2 (plug k1 t).
Proof. revert t. induction k1 as [|f k1 IH]; intros t; [done|]. apply IH. Qed.

(** ** The memory *)

(** A node with its child on the side [d] and the other one. *)
Definition entry (d : side) (c : rb_color) (child sib parent : option ptr) : rb_entry :=
  match d with
  | L => {| rbe_left := child; rbe_right := sib; rbe_parent := parent; rbe_color := c |}
  | R => {| rbe_left := sib; rbe_right := child; rbe_parent := parent; rbe_color := c |}
  end.

Fixpoint tree_in (m : gmap ptr rb_entry) (t : tree) (parent : option ptr) : Prop :=
  match t with
  | Leaf => True
  | Node c l x r => m !! x = Some (entry L c (root l) (root r) parent) /\ tree_in m l (Some x) /\ tree_in m r (Some x)
  end.

Fixpoint hole_in (m : gmap ptr rb_entry) (rt : option ptr) (k : list frame) (v : option ptr) : Prop :=
  match k with
  | [] => rt = v
  | F d c x s :: k =>
    m !! x = Some (entry d c v (root s) (hole_parent k)) /\ tree_in m s (Some x) /\ hole_in m rt k (Some x)
  end.

(** The memory has the tree [t] in the hole of [k]. *)
Record has_tree (h : rb_head) (k : list frame) (t : tree) : Prop := {
  ht_hole : hole_in (rb_mem h) (rbh_root h) k (root t);
  ht_tree : tree_in (rb_mem h) t (hole_parent k);
  ht_nodup : NoDup (hole_nodes k ++ inorder t)
}.

Lemma tree_in_mk m d c t x s parent :
  tree_in m (mk d c t x s) parent
  <-> m !! x = Some (entry d c (root t) (root s) parent) /\ tree_in m t (Some x) /\ tree_in m s (Some x).
Proof. destruct d; cbn; tauto. Qed.

Lemma inorder_mk d c t x s : inorder (mk d c t x s) ≡ₚ x :: inorder t ++ inorder s.
Proof. destruct d; cbn; solve_Permutation. Qed.

(** Moving in the tree. *)
Lemma has_tree_frame h d c x s k t : has_tree h (F d c x s :: k) t <-> has_tree h k (mk d c t x s).
Proof.
  assert (Hp : hole_nodes (F d c x s :: k) ++ inorder t ≡ₚ hole_nodes k ++ inorder (mk d c t x s)).
  { rewrite inorder_mk. cbn. solve_Permutation. }
  split; intros [Hh Ht Hnd].
  - destruct Hh as (Hx & Hs & Hk). split; [by rewrite root_mk|by apply tree_in_mk|by rewrite <- Hp].
  - rewrite root_mk in Hh. apply tree_in_mk in Ht as (Hx & Ht & Hs). split; [done|done|by rewrite Hp].
Qed.

Lemma has_tree_up h d c x s k t : has_tree h (F d c x s :: k) t -> has_tree h k (mk d c t x s).
Proof. apply has_tree_frame. Qed.

Lemma has_tree_plug h k k' t : has_tree h (k ++ k') t <-> has_tree h k' (plug k t).
Proof. revert t. induction k as [|[d c x s] k IH]; intros t; [done|]. cbn [app plug]. rewrite <- IH. apply has_tree_frame. Qed.

Lemma has_tree_whole h k t : has_tree h k t <-> has_tree h [] (plug k t).
Proof. by rewrite <- has_tree_plug, app_nil_r. Qed.

Lemma has_tree_of_plug h k t : has_tree h k t -> has_tree h [] (plug k t).
Proof. apply has_tree_whole. Qed.

Lemma has_tree_node h k d c t x s :
  has_tree h k (mk d c t x s) -> rb_mem h !! x = Some (entry d c (root t) (root s) (hole_parent k)).
Proof. intros [_ Ht _]. by apply tree_in_mk in Ht as (Hx & _). Qed.

(** What a tree says only depends on its own nodes. *)
Lemma tree_in_ext m m' t parent :
  (forall p, p ∈ inorder t -> m' !! p = m !! p) -> tree_in m t parent -> tree_in m' t parent.
Proof.
  revert parent. induction t as [|c l IHl x r IHr]; intros parent Hm; [done|]. cbn in *. intros (Hx & Hl & Hr).
  split_and!; [rewrite Hm; [done|set_solver]|apply IHl; [set_solver|done]|apply IHr; [set_solver|done]].
Qed.

Lemma hole_in_ext m m' rt k v :
  (forall p, p ∈ hole_nodes k -> m' !! p = m !! p) -> hole_in m rt k v -> hole_in m' rt k v.
Proof.
  revert v. induction k as [|[d c x s] k IH]; intros v Hm; [done|]. cbn in *. intros (Hx & Hs & Hk).
  split_and!; [rewrite Hm; [done|set_solver]|apply (tree_in_ext m); [set_solver|done]|apply IH; [set_solver|done]].
Qed.

(** Nodes of the tree are nodes of the memory. *)
Lemma tree_in_dom m t parent p : tree_in m t parent -> p ∈ inorder t -> is_Some (m !! p).
Proof.
  revert parent. induction t as [|c l IHl x r IHr]; intros parent; cbn; [by intros _ ?%elem_of_nil|]. intros (Hx & Hl & Hr).
  rewrite elem_of_app, elem_of_cons. intros [?|[->|?]]; [by eapply IHl|by rewrite Hx|by eapply IHr].
Qed.

Lemma has_tree_size h k t : has_tree h k t -> (length (inorder (plug k t)) <= size (rb_mem h))%nat.
Proof.
  intros [_ Ht Hnd]%has_tree_whole. cbn in *. rewrite <- size_dom, <- (size_list_to_set (C := gset ptr) _ Hnd).
  apply subseteq_size. intros p. rewrite elem_of_list_to_set, elem_of_dom. by apply tree_in_dom with (parent := None).
Qed.

(** ** Runs *)

Lemma wp_node h x e (Q : rb_entry -> rb_head -> Prop) :
  rb_mem h !! x = Some e -> Q e h -> wp (node (Some x)) Q h.
Proof. intros Hx HQ. unfold node. apply wp_bind, wp_get. by apply (wp_deref _ _ _ e). Qed.

Lemma wp_child d h x e (Q : option ptr -> rb_head -> Prop) :
  rb_mem h !! x = Some e -> Q (rbe_child d e) h -> wp (RB_CHILD d (Some x)) Q h.
Proof. intros Hx HQ. apply wp_bind, (wp_node h x e); [done|]. by apply wp_ret. Qed.

Lemma wp_parent h x e (Q : option ptr -> rb_head -> Prop) :
  rb_mem h !! x = Some e -> Q (rbe_parent e) h -> wp (RB_PARENT (Some x)) Q h.
Proof. intros Hx HQ. apply wp_bind, (wp_node h x e); [done|]. by apply wp_ret. Qed.

Lemma wp_color h x e (Q : rb_color -> rb_head -> Prop) :
  rb_mem h !! x = Some e -> Q (rbe_color e) h -> wp (RB_COLOR (Some x)) Q h.
Proof. intros Hx HQ. apply wp_bind, (wp_node h x e); [done|]. by apply wp_ret. Qed.

Definition put_node (x : ptr) (e : rb_entry) (h : rb_head) : rb_head :=
  {| rbh_root := rbh_root h; rb_mem := <[x := e]> (rb_mem h) |}.

Lemma wp_set_node f h x e (Q : unit -> rb_head -> Prop) :
  rb_mem h !! x = Some e -> Q tt (put_node x (f e) h) -> wp (set_node f (Some x)) Q h.
Proof.
  intros Hx HQ. unfold set_node. apply wp_bind, (wp_deref _ _ _ x); [done|].
  apply wp_bind, (wp_node h x e); [done|]. by apply wp_modify.
Qed.

Lemma wp_is_black h k t (Q : bool -> rb_head -> Prop) :
  has_tree h k t -> Q (bool_decide (color t = RB_BLACK)) h -> wp (is_black (root t)) Q h.
Proof.
  intros Ht HQ. unfold is_black, not_null. destruct t as [|c l x r]; cbn in HQ |- *; [by apply wp_ret|].
  apply wp_bind. eapply wp_color; [by apply (has_tree_node h k L c l x r)|]. by apply wp_ret.
Qed.

(** ** Writes *)

Lemma rbe_child_entry d c t s p : rbe_child d (entry d c t s p) = t.
Proof. by destruct d. Qed.
Lemma rbe_other_entry d c t s p : rbe_child (other d) (entry d c t s p) = s.
Proof. by destruct d. Qed.
Lemma rbe_parent_entry d c t s p : rbe_parent (entry d c t s p) = p.
Proof. by destruct d. Qed.
Lemma rbe_color_entry d c t s p : rbe_color (entry d c t s p) = c.
Proof. by destruct d. Qed.
Lemma set_child_entry d c t s p v : set_rbe_child d v (entry d c t s p) = entry d c v s p.
Proof. by destruct d. Qed.
Lemma set_other_entry d c t s p v : set_rbe_child (other d) v (entry d c t s p) = entry d c t v p.
Proof. by destruct d. Qed.
Lemma set_parent_entry d c t s p v : set_rbe_parent v (entry d c t s p) = entry d c t s v.
Proof. by destruct d. Qed.
Lemma set_color_entry d c t s p v : set_rbe_color v (entry d c t s p) = entry d v t s p.
Proof. by destruct d. Qed.
Create Rewrite HintDb entries.
#[export] Hint Rewrite rbe_child_entry rbe_other_entry rbe_parent_entry rbe_color_entry set_child_entry set_other_entry
  set_parent_entry set_color_entry root_mk color_mk : entries.

(** That the nodes are all different, as facts about each part. *)
Lemma elem_of_inorder_mk p d c t x s : p ∈ inorder (mk d c t x s) <-> p = x \/ p ∈ inorder t \/ p ∈ inorder s.
Proof. by rewrite inorder_mk, elem_of_cons, elem_of_app. Qed.

Lemma NoDup_inorder_mk d c t x s :
  NoDup (inorder (mk d c t x s)) <->
  (x ∉ inorder t) /\ (x ∉ inorder s) /\ NoDup (inorder t) /\ (forall p, p ∈ inorder t -> p ∉ inorder s) /\ NoDup (inorder s).
Proof. rewrite inorder_mk, NoDup_cons, NoDup_app, elem_of_app. tauto. Qed.

Ltac nodes_apart H :=
  cbn [hole_nodes app f_node f_sib] in H;
  repeat first [setoid_rewrite NoDup_app in H | setoid_rewrite NoDup_cons in H | setoid_rewrite elem_of_app in H
               | setoid_rewrite elem_of_cons in H | setoid_rewrite elem_of_inorder_mk in H | setoid_rewrite NoDup_inorder_mk in H];
  destruct_and? H.

(** A node that is nowhere else is written to. *)
Lemma tree_in_put m x e t parent : x ∉ inorder t -> tree_in m t parent -> tree_in (<[x := e]> m) t parent.
Proof. intros Hx. apply tree_in_ext. intros p Hp. apply lookup_insert_ne. set_solver. Qed.

Lemma hole_in_put m x e rt k v : x ∉ hole_nodes k -> hole_in m rt k v -> hole_in (<[x := e]> m) rt k v.
Proof. intros Hx. apply hole_in_ext. intros p Hp. apply lookup_insert_ne. set_solver. Qed.

Lemma wp_set_color h k d c c' t x s (Q : unit -> rb_head -> Prop) :
  has_tree h k (mk d c t x s) -> (forall h', has_tree h' k (mk d c' t x s) -> Q tt h') ->
  wp (set_color (Some x) c') Q h.
Proof.
  intros Hh HQ. pose proof (has_tree_node _ _ _ _ _ _ _ Hh) as Hx. eapply wp_set_node; [exact Hx|]. apply HQ.
  destruct Hh as [Hk Ht Hnd]. apply tree_in_mk in Ht as (_ & Ht & Hs). pose proof Hnd as Hd. nodes_apart Hd.
  autorewrite with entries in *. split; cbn; autorewrite with entries.
  - apply hole_in_put; [set_solver|done].
  - apply tree_in_mk. rewrite lookup_insert_eq. split_and!; [done|by apply tree_in_put..].
  - by rewrite inorder_mk in Hnd |- *.
Qed.

(** A branch gets another parent. *)
Lemma tree_in_reparent m d c t x s parent parent' :
  x ∉ inorder t -> x ∉ inorder s -> tree_in m (mk d c t x s) parent ->
  tree_in (<[x := entry d c (root t) (root s) parent']> m) (mk d c t x s) parent'.
Proof.
  intros Ht Hs (_ & Hit & His)%tree_in_mk. apply tree_in_mk. rewrite lookup_insert_eq. split_and!; [done|by apply tree_in_put..].
Qed.

Lemma wp_set_parent_if h t parent parent' (Q : unit -> rb_head -> Prop) :
  tree_in (rb_mem h) t parent -> NoDup (inorder t) ->
  (forall h', rbh_root h' = rbh_root h -> tree_in (rb_mem h') t parent' ->
     (forall p, p ∉ inorder t -> rb_mem h' !! p = rb_mem h !! p) -> Q tt h') ->
  wp (set_parent_if (root t) parent') Q h.
Proof.
  intros Ht Hnd HQ. unfold set_parent_if, not_null. destruct t as [|c l x r]; cbn [root].
  - apply wp_ret. by apply HQ.
  - apply wp_when; [intros _|done]. assert (Ht' := Ht). destruct Ht as (Hx & _). eapply wp_set_node; [exact Hx|].
    rewrite set_parent_entry. pose proof Hnd as Hd. cbn in Hd. nodes_apart Hd. apply HQ; [done| |].
    + apply (tree_in_reparent _ L c l x r parent); [set_solver..|done].
    + intros p Hp. apply lookup_insert_ne. cbn in Hp. set_solver.
Qed.

(** The hole gets another tree. *)
Lemma wp_replace_child h k e v (Q : unit -> rb_head -> Prop) :
  hole_in (rb_mem h) (rbh_root h) k (Some e) -> e ∉ hole_nodes k -> NoDup (hole_nodes k) ->
  (forall h', hole_in (rb_mem h') (rbh_root h') k v -> (forall p, p ∉ hole_nodes k -> rb_mem h' !! p = rb_mem h !! p) -> Q tt h') ->
  wp (replace_child (hole_parent k) (Some e) v) Q h.
Proof.
  intros Hk He Hnd HQ. unfold replace_child, not_null. destruct k as [|[d c x s] k]; cbn [hole_parent head fmap option_fmap option_map f_node].
  - rewrite bool_decide_false by (by intros []). apply wp_modify. by apply HQ.
  - rewrite bool_decide_true by done. destruct Hk as (Hx & Hs & Hk). pose proof Hnd as Hd. nodes_apart Hd. cbn in He.
    assert (Hput : forall d', d' = d -> wp (set_child d' (Some x) v) Q h).
    { intros d' ->. eapply wp_set_node; [exact Hx|]. rewrite set_child_entry. apply HQ.
      - cbn. rewrite lookup_insert_eq. split_and!; [done|apply tree_in_put; [set_solver|done]|apply hole_in_put; [set_solver|done]].
      - intros p Hp. apply lookup_insert_ne. cbn in Hp. set_solver. }
    apply wp_bind. eapply wp_child; [exact Hx|]. destruct d; cbn [rbe_child entry rbe_left].
    + rewrite bool_decide_true by done. by apply Hput.
    + rewrite bool_decide_false; [by apply Hput|]. intros Hr%root_elem. set_solver.
Qed.

(** A rotation. *)
Lemma wp_rotate h k d c c' a b e x y (Q : option ptr -> rb_head -> Prop) :
  has_tree h k (mk d c a x (mk d c' b y e)) ->
  (forall h', has_tree h' k (mk d c' (mk d c a x b) y e) -> Q (Some y) h') ->
  wp (RB_ROTATE d (Some x)) Q h.
Proof.
  intros [Hk Ht Hnd] HQ. pose proof Hnd as Hd. nodes_apart Hd. assert (Hxy : x <> y) by set_solver.
  apply tree_in_mk in Ht as (Hx & Ha & (Hy & Hb & He)%tree_in_mk). autorewrite with entries in *. unfold RB_ROTATE.
  apply wp_bind. eapply wp_child; [exact Hx|]. rewrite rbe_other_entry.
  apply wp_bind. eapply wp_child; [exact Hy|]. rewrite rbe_child_entry.
  apply wp_bind. eapply wp_set_node; [exact Hx|]. rewrite set_other_entry. set (h1 := put_node _ _ h).
  apply wp_bind. apply (wp_set_parent_if h1 b (Some y)); [apply tree_in_put; [set_solver|done]|done|]. intros h2 Hr2 Hb2 Hm2.
  assert (Hx2 : rb_mem h2 !! x = Some (entry d c (root a) (root b) (hole_parent k)))
    by (rewrite Hm2 by set_solver; apply lookup_insert_eq).
  assert (Hy2 : rb_mem h2 !! y = Some (entry d c' (root b) (root e) (Some x)))
    by (rewrite Hm2 by set_solver; cbn; rewrite lookup_insert_ne by done; done).
  assert (Hm2' : forall p, p <> x -> p ∉ inorder b -> rb_mem h2 !! p = rb_mem h !! p)
    by (intros p ? ?; rewrite Hm2 by done; by apply lookup_insert_ne).
  apply wp_bind. eapply wp_parent; [exact Hx2|]. rewrite rbe_parent_entry.
  apply wp_bind. eapply wp_set_node; [exact Hy2|]. rewrite set_parent_entry. set (h3 := put_node _ _ h2).
  apply wp_bind. apply (wp_replace_child h3 k x); [|set_solver|done|].
  { cbn. rewrite Hr2. apply (hole_in_ext (rb_mem h)); [|done]. intros p Hp. rewrite lookup_insert_ne by set_solver. apply Hm2'; set_solver. }
  intros h4 Hk4 Hm4.
  assert (Hm4' : forall p, p <> x -> p <> y -> p ∉ inorder b -> p ∉ hole_nodes k -> rb_mem h4 !! p = rb_mem h !! p)
    by (intros p ? ? ? ?; rewrite Hm4 by done; cbn; rewrite lookup_insert_ne by done; by apply Hm2').
  apply wp_bind. eapply wp_set_node; [rewrite Hm4 by set_solver; apply lookup_insert_eq|]. rewrite set_child_entry.
  apply wp_bind. eapply wp_set_node.
  { cbn. rewrite lookup_insert_ne by done. rewrite Hm4 by set_solver. cbn. rewrite lookup_insert_ne by done. exact Hx2. }
  rewrite set_parent_entry. apply wp_ret, HQ. split; cbn.
  - autorewrite with entries. do 2 (apply hole_in_put; [set_solver|]). done.
  - apply tree_in_mk. autorewrite with entries. rewrite lookup_insert_ne, lookup_insert_eq by done. split_and!; [done| |].
    + apply tree_in_mk. rewrite lookup_insert_eq. split_and!; [done| |]; (do 2 (apply tree_in_put; [set_solver|])).
      * apply (tree_in_ext (rb_mem h)); [|done]. intros p Hp. apply Hm4'; set_solver.
      * apply (tree_in_ext (rb_mem h2)); [|done]. intros p Hp. rewrite Hm4 by set_solver. cbn. apply lookup_insert_ne. set_solver.
    + do 2 (apply tree_in_put; [set_solver|]). apply (tree_in_ext (rb_mem h)); [|done]. intros p Hp. apply Hm4'; set_solver.
  - rewrite !inorder_mk in Hnd |- *. by eapply NoDup_Permutation_proper; [|exact Hnd]; solve_Permutation.
Qed.
