(* ===== verification/RbColors.v ===== *)
(** * Red-black trees: the colors

    The conditions of a red-black tree, for trees and for trees with a hole, and the loop of
    [sys/tree.h] that restores them after a node was inserted. *)

From Stdlib Require Import ZArith Lia.
From stdpp Require Import base tactics list gmap.
From S2P Require Import Prelude RbTree RbShape.

(** Each way to a leaf has [n] black nodes, and no red node has a red child. *)
Fixpoint is_rb (t : tree) (n : nat) : Prop :=
  match t with
  | Leaf => n = 0%nat
  | Node RB_RED l _ r => color l = RB_BLACK /\ color r = RB_BLACK /\ is_rb l n /\ is_rb r n
  | Node RB_BLACK l _ r => match n with O => False | S n => is_rb l n /\ is_rb r n end
  end.

(** The conditions of the comment of [sys/tree.h], with a black root. *)
Definition rb_tree (t : tree) : Prop := color t = RB_BLACK /\ exists n, is_rb t n.

Definition blacken (t : tree) : tree :=
  match t with Leaf => Leaf | Node _ l x r => Node RB_BLACK l x r end.

Lemma is_rb_red d t x s n :
  is_rb (mk d RB_RED t x s) n <-> color t = RB_BLACK /\ color s = RB_BLACK /\ is_rb t n /\ is_rb s n.
Proof. destruct d; cbn; tauto. Qed.

Lemma is_rb_black d t x s n : is_rb (mk d RB_BLACK t x s) (S n) <-> is_rb t n /\ is_rb s n.
Proof. destruct d; cbn; tauto. Qed.

Lemma is_rb_black_inv d t x s n : is_rb (mk d RB_BLACK t x s) n -> exists n', n = S n' /\ is_rb t n' /\ is_rb s n'.
Proof. destruct d, n; cbn; try done; intros []; by eexists. Qed.

Lemma blacken_mk d c t x s : blacken (mk d c t x s) = mk d RB_BLACK t x s.
Proof. by destruct d. Qed.

Lemma inorder_blacken t : inorder (blacken t) = inorder t.
Proof. by destruct t. Qed.

Lemma color_blacken t : color (blacken t) = RB_BLACK.
Proof. by destruct t. Qed.

Lemma blacken_black t : color t = RB_BLACK -> blacken t = t.
Proof. destruct t; [done|]. by cbn; intros ->. Qed.

(** ** Trees with a hole *)

Definition hole_color (k : list frame) : option rb_color := f_color <$> head k.

(** The conditions, for a hole where [n] black nodes are missing. *)
Fixpoint hole_rb (k : list frame) (n : nat) : Prop :=
  match k with
  | [] => True
  | F _ RB_BLACK _ s :: k => is_rb s n /\ hole_rb k (S n)
  | F _ RB_RED _ s :: k => is_rb s n /\ color s = RB_BLACK /\ hole_color k = Some RB_BLACK /\ hole_rb k n
  end.

Definition fits (k : list frame) (t : tree) : Prop := color t = RB_BLACK \/ hole_color k = Some RB_BLACK.

Lemma plug_rb k : forall t n, hole_rb k n -> is_rb t n -> fits k t -> rb_tree (plug k t).
Proof.
  induction k as [|[d c x s] k IH]; intros t n Hk Ht Hf; cbn [plug f_side f_color f_node f_sib].
  - destruct Hf; [|done]. split; [done|by exists n].
  - destruct c; cbn in Hk.
    + destruct Hk as [Hs Hk]. apply (IH _ (S n)); [done|by apply is_rb_black|left; apply color_mk].
    + destruct Hk as (Hs & Hc & Hb & Hk). destruct Hf as [Hf|Hf]; [|done].
      apply (IH _ n); [done|by apply is_rb_red|by right].
Qed.

Lemma unplug_rb k : forall t, rb_tree (plug k t) -> exists n, hole_rb k n /\ is_rb t n /\ fits k t.
Proof.
  induction k as [|[d c x s] k IH]; intros t Ht; cbn [plug f_side f_color f_node f_sib] in Ht.
  - destruct Ht as [Hc [n Ht]]. exists n. by split_and!; [..|left].
  - destruct (IH _ Ht) as (n & Hk & Hm & Hf). destruct c.
    + apply is_rb_black_inv in Hm as (n' & -> & Hm & Hs). exists n'. by split_and!; [..|right].
    + apply is_rb_red in Hm as (Hct & Hcs & Hm & Hs). exists n. destruct Hf as [Hf|Hf]; [by rewrite color_mk in Hf|].
      split_and!; [by split_and!|done|by left].
Qed.

(** ** Below the node that is looked at *)

Lemma wp_set_color_child h k d d' c t u x v y s c0 c' (Q : unit -> rb_head -> Prop) :
  t = mk d' c0 u x v -> has_tree h k (mk d c t y s) ->
  (forall h', has_tree h' k (mk d c (mk d' c' u x v) y s) -> Q tt h') ->
  wp (set_color (Some x) c') Q h.
Proof.
  intros -> Hh HQ. apply has_tree_frame in Hh. eapply wp_set_color; [exact Hh|]. intros h' Hh'. by apply HQ, has_tree_frame.
Qed.

Lemma wp_rotate_child h k d d' c y s c1 c2 a b e x z (Q : option ptr -> rb_head -> Prop) :
  has_tree h k (mk d c (mk d' c1 a x (mk d' c2 b z e)) y s) ->
  (forall h', has_tree h' k (mk d c (mk d' c2 (mk d' c1 a x b) z e) y s) -> Q (Some z) h') ->
  wp (RB_ROTATE d' (Some x)) Q h.
Proof.
  intros Hh HQ. apply has_tree_frame in Hh. eapply wp_rotate; [exact Hh|]. intros h' Hh'. by apply HQ, has_tree_frame.
Qed.

Lemma has_tree_sib h k d c t y s : has_tree h k (mk d c t y s) <-> has_tree h (F (other d) c y t :: k) s.
Proof. by rewrite has_tree_frame, mk_other. Qed.

(** The side a node is on. *)
Lemma side_of_child h k d c t y s x :
  root t = Some x -> has_tree h k (mk d c t y s) ->
  (if bool_decide (Some x = rbe_left (entry d c (root t) (root s) (hole_parent k))) then L else R) = d.
Proof.
  intros Hx [_ _ Hnd]. nodes_apart Hnd. destruct d; cbn; [by rewrite Hx, bool_decide_true|].
  rewrite bool_decide_false; [done|]. intros Hr. symmetry in Hr. apply root_elem in Hr, Hx. set_solver.
Qed.

(** ** After an insertion *)

(** The second part of the body: [elm] is on the side [d] of its red parent [q]. *)
Lemma wp_insert_rotate h k d u x q v g s (Q : option ptr -> rb_head -> Prop) :
  root u = Some x -> has_tree h k (mk d RB_BLACK (mk d RB_RED u q v) g s) ->
  (forall h', has_tree h' (F d RB_BLACK q (mk d RB_RED v g s) :: k) u -> Q (root u) h') ->
  wp (RB_SET_BLACKRED (Some q) (Some g) ;; RB_ROTATE (other d) (Some g) ;; mret (Some x)) Q h.
Proof.
  intros <- Hh HQ. apply wp_bind, wp_bind. eapply wp_set_color_child; [done|exact Hh|]. clear h Hh. intros h Hh.
  eapply wp_set_color; [exact Hh|]. clear h Hh. intros h Hh.
  apply wp_bind. rewrite <- mk_other, <- (mk_other d RB_BLACK) in Hh. eapply wp_rotate; [exact Hh|]. clear h Hh. intros h Hh.
  apply wp_ret, HQ. apply has_tree_frame. by rewrite !mk_other in Hh.
Qed.

(** Where a red node is in a tree that is right but for it, after the body of the loop. *)
Record insert_moved (k : list frame) (t : tree) (k' : list frame) (t' : tree) : Prop := {
  im_red : color t' = RB_RED;
  im_rb : exists n, is_rb t' n /\ hole_rb k' n;
  im_inorder : inorder (plug k' t') = inorder (plug k t);
  im_less : (length k' < length k)%nat
}.

Lemma insert_moved_up d1 d2 t p s1 g s2 k n d l y r :
  s2 = mk d RB_RED l y r -> color t = RB_RED -> is_rb t n -> hole_rb (F d1 RB_RED p s1 :: F d2 RB_BLACK g s2 :: k) n ->
  insert_moved (F d1 RB_RED p s1 :: F d2 RB_BLACK g s2 :: k) t
    k (mk d2 RB_RED (mk d1 RB_BLACK t p s1) g (blacken s2)).
Proof.
  intros -> Hc Ht (Hs1 & Hc1 & _ & Hs2 & Hk). apply is_rb_red in Hs2 as (_ & _ & Hl & Hr). split.
  - apply color_mk.
  - exists (S n). split; [|done]. rewrite blacken_mk. apply is_rb_red.
    split_and!; [apply color_mk..|by apply is_rb_black|by apply is_rb_black].
  - rewrite blacken_mk. cbn [plug f_side f_color f_node f_sib]. same_inorder.
  - cbn. lia.
Qed.

Lemma insert_moved_rotated d u q v g s k k0 t0 n :
  color u = RB_RED -> color v = RB_BLACK -> color s = RB_BLACK -> is_rb u n -> is_rb v n -> is_rb s n -> hole_rb k (S n) ->
  inorder (plug k0 t0) = inorder (plug k (mk d RB_BLACK (mk d RB_RED u q v) g s)) -> (S (length k) < length k0)%nat ->
  insert_moved k0 t0 (F d RB_BLACK q (mk d RB_RED v g s) :: k) u.
Proof.
  intros Hcu Hcv Hcs Hu Hv Hs Hk Hin Hlen. split; [done| |rewrite Hin|done].
  - exists n. split; [done|]. split; [by apply is_rb_red|done].
  - cbn [plug f_side f_color f_node f_sib]. same_inorder.
Qed.

Lemma wp_insert_color_body h d1 d2 t x p s1 g s2 k n (Q : option ptr -> rb_head -> Prop) :
  root t = Some x -> color t = RB_RED -> is_rb t n -> hole_rb (F d1 RB_RED p s1 :: F d2 RB_BLACK g s2 :: k) n ->
  has_tree h (F d1 RB_RED p s1 :: F d2 RB_BLACK g s2 :: k) t ->
  (forall h' k' t', has_tree h' k' t' -> insert_moved (F d1 RB_RED p s1 :: F d2 RB_BLACK g s2 :: k) t k' t' -> Q (root t') h') ->
  wp (insert_color_body d2 (Some x) (Some p) (Some g)) Q h.
Proof.
  intros Hx Hc Ht Hk Hh HQ. pose proof Hk as (Hs1 & Hcs1 & _ & Hs2 & Hk2).
  assert (Hg : has_tree h k (mk d2 RB_BLACK (mk d1 RB_RED t p s1) g s2)) by (by rewrite <- !has_tree_frame).
  unfold insert_color_body. apply wp_bind. eapply wp_child; [exact (has_tree_node _ _ _ _ _ _ _ Hg)|]. rewrite rbe_other_entry.
  apply wp_bind. eapply wp_is_black; [by apply has_tree_sib in Hg; exact Hg|]. destruct (decide (color s2 = RB_BLACK)) as [Hcs2|Hcs2].
  - rewrite bool_decide_true by done. cbn [negb]. apply wp_bind.
    eapply wp_child; [apply has_tree_frame in Hg; exact (has_tree_node _ _ _ _ _ _ _ Hg)|]. apply wp_bind.
    destruct (decide (d1 = d2)) as [->|Hd].
    + rewrite rbe_other_entry, bool_decide_false.
      2: { intros Hr%root_elem. apply root_elem in Hx. destruct Hh as [_ _ Hnd]. nodes_apart Hnd. set_solver. }
      apply wp_ret. apply (wp_insert_rotate h k d2 t x p s1 g s2); [done..|]. intros h' Hh'. apply (HQ _ _ _ Hh').
      apply (insert_moved_rotated _ _ _ _ _ _ _ _ _ n); try done. cbn. lia.
    + assert (d1 = other d2) as -> by (by destruct d1, d2). rewrite rbe_child_entry, bool_decide_true by done.
      destruct (mk_not_leaf t) as [->|Hm]; [done|]. destruct (Hm d2) as (c & l & x' & r & ->).
      autorewrite with entries in *. injection Hx as ->. subst c. apply is_rb_red in Ht as (Hcl & Hcr & Hl & Hr).
      rewrite mk_other in Hg. apply wp_bind. eapply wp_rotate_child; [exact Hg|]. intros h1 Hh1. apply wp_ret.
      apply (wp_insert_rotate h1 k d2 (mk d2 RB_RED s1 p l) p x r g s2); [apply root_mk|done|]. intros h' Hh'. apply (HQ _ _ _ Hh').
      apply (insert_moved_rotated _ _ _ _ _ _ _ _ _ n); try done.
      * apply color_mk.
      * by apply is_rb_red.
      * cbn [plug f_side f_color f_node f_sib]. same_inorder.
      * cbn. lia.
  - rewrite bool_decide_false by done. cbn [negb]. destruct (mk_not_leaf s2) as [->|Hm]; [done|].
    destruct (Hm L) as (c & l & y & r & ->). rewrite color_mk in Hcs2. assert (c = RB_RED) as -> by (by destruct c).
    rewrite root_mk. apply wp_bind. eapply (wp_set_color _ _ L); [by apply has_tree_sib in Hg; exact Hg|]. intros h1 Hh1.
    apply has_tree_sib in Hh1. apply wp_bind, wp_bind. eapply wp_set_color_child; [done|exact Hh1|]. intros h2 Hh2.
    eapply wp_set_color; [exact Hh2|]. intros h3 Hh3. apply wp_ret. rewrite <- (root_mk d2 RB_RED (mk d1 RB_BLACK t p s1) g (mk L RB_BLACK l y r)).
    apply (HQ _ _ _ Hh3). exact (insert_moved_up d1 d2 t p s1 g _ k n L l y r eq_refl Hc Ht Hk).
Qed.

(** The loop ends with a tree that is right but for its root, which may be red. *)
Lemma wp_insert_color_loop fuel : forall h k t x n (Q : unit -> rb_head -> Prop),
  (length k < fuel)%nat -> root t = Some x -> color t = RB_RED -> is_rb t n -> hole_rb k n -> has_tree h k t ->
  (forall h' t', has_tree h' [] t' -> (exists n', is_rb t' n') -> inorder t' = inorder (plug k t) -> Q tt h') ->
  wp (insert_color_loop fuel (Some x)) Q h.
Proof.
  induction fuel as [|fuel IH]; intros h k t x n Q Hfuel Hx Hc Ht Hk Hh HQ; [lia|]. cbn [insert_color_loop].
  destruct (mk_not_leaf t) as [->|Hm]; [done|]. destruct (Hm L) as (c & l & x' & r & ->).
  rewrite root_mk in Hx. injection Hx as ->. rewrite color_mk in Hc. subst c.
  apply wp_bind. eapply wp_parent; [exact (has_tree_node _ _ _ _ _ _ _ Hh)|]. rewrite rbe_parent_entry. apply wp_bind.
  destruct k as [|[d1 c1 p s1] k1].
  { apply wp_ret, wp_ret. apply (HQ h (mk L RB_RED l x r)); [done|by exists n|done]. }
  pose proof (has_tree_up _ _ _ _ _ _ _ Hh) as Hp.
  change (hole_parent (F d1 c1 p s1 :: k1)) with (Some p). rewrite <- (root_mk d1 c1 (mk L RB_RED l x r) p s1).
  eapply wp_is_black; [exact Hp|]. rewrite color_mk, root_mk. destruct c1; cbn [bool_decide].
  - apply wp_ret. apply (HQ h (plug (F d1 RB_BLACK p s1 :: k1) (mk L RB_RED l x r))); [by apply has_tree_of_plug| |done].
    apply (plug_rb _ _ n); [done|done|by right].
  - destruct k1 as [|[d2 c2 g s2] k2]; [by destruct Hk as (_ & _ & ? & _)|].
    assert (c2 = RB_BLACK) as -> by (by destruct Hk as (_ & _ & [= ->] & _)).
    apply wp_bind. eapply wp_parent; [exact (has_tree_node _ _ _ _ _ _ _ Hp)|]. rewrite rbe_parent_entry.
    pose proof (has_tree_up _ _ _ _ _ _ _ Hp) as Hg. apply wp_bind. eapply wp_child; [exact (has_tree_node _ _ _ _ _ _ _ Hg)|].
    unfold rbe_child. rewrite (side_of_child h k2 d2 RB_BLACK _ g s2 p); [|apply root_mk|done]. apply wp_bind.
    apply (wp_insert_color_body h d1 d2 (mk L RB_RED l x r) x p s1 g s2 k2 n); [done..|].
    intros h' k' t' Hh' [Hred (n' & Ht' & Hk') Hin Hless]. destruct t' as [|c' l' x' r']; [done|]. cbn in Hred. subst c'.
    apply (IH h' k' (Node RB_RED l' x' r') x' n'); try done; [lia|]. intros h'' t'' Hh'' Hrb Hin''. apply (HQ h'' t''); [done..|congruence].
Qed.

Lemma wp_turns h k t (Q : nat -> rb_head -> Prop) :
  has_tree h k t -> (forall fuel, (length (inorder (plug k t)) < fuel)%nat -> Q fuel h) -> wp turns Q h.
Proof. intros Hh HQ. apply wp_gets, HQ. pose proof (has_tree_size h k t Hh). lia. Qed.

Lemma length_hole k t : (length k + length (inorder t) <= length (inorder (plug k t)))%nat.
Proof.
  revert t. induction k as [|[d c x s] k IH]; intros t; cbn [plug length f_side f_color f_node f_sib]; [lia|].
  specialize (IH (mk d c t x s)). rewrite inorder_mk in IH. cbn in IH. rewrite length_app in IH. lia.
Qed.

Lemma wp_insert_color h k x (Q : unit -> rb_head -> Prop) :
  rb_tree (plug k Leaf) -> has_tree h k (Node RB_RED Leaf x Leaf) ->
  (forall h' t', has_tree h' [] t' -> rb_tree t' -> inorder t' = before k ++ x :: after k -> Q tt h') ->
  wp (RB_INSERT_COLOR (Some x)) Q h.
Proof.
  intros Hrb Hh HQ. destruct (unplug_rb k Leaf Hrb) as (n & Hk & -> & _). unfold RB_INSERT_COLOR.
  apply wp_bind. eapply wp_turns; [exact Hh|]. intros fuel Hfuel.
  apply wp_bind. apply (wp_insert_color_loop fuel h k (Node RB_RED Leaf x Leaf) x 0); try done.
  { pose proof (length_hole k (Node RB_RED Leaf x Leaf)). lia. }
  intros h' t' Hh' (n & Hn) Hin. rewrite inorder_plug in Hin. cbn in Hin. apply wp_bind, wp_gets.
  pose proof (ht_hole _ _ _ Hh') as Hroot. cbn in Hroot. rewrite Hroot.
  destruct (mk_not_leaf t') as [->|Hm]; [cbn in Hin; by destruct (before k)|]. destruct (Hm L) as (c & l & y & r & ->).
  rewrite root_mk. eapply wp_set_color; [exact Hh'|]. intros h2 Hh2. apply (HQ h2 _ Hh2); [|by rewrite <- Hin; destruct c].
  split; [done|]. destruct c; [by exists n|]. exists (S n). apply is_rb_red in Hn as (_ & _ & Hl & Hr). by apply (is_rb_black L).
Qed.
