(* ===== verification/RbRemove.v ===== *)
(** * Red-black trees: insertion and removal

    The loop of [sys/tree.h] that restores the colors when a black node is missing
    above a tree: the sibling is never [NULL] and the tree is right again when it ends;
    then [RB_REMOVE] and what [RB_INSERT] does with a new node. *)

From Stdlib Require Import ZArith Lia.
From stdpp Require Import base tactics list gmap.
From S2P Require Import Prelude RbTree RbShape RbColors.

(** A black node is missing in the hole, or [t] has a red root that can be it. *)
Record deficit (k : list frame) (t : tree) (n : nat) : Prop := {
  df_hole : hole_rb k (S n);
  df_black : color t = RB_BLACK -> is_rb t n;
  df_red : color t = RB_RED -> is_rb (blacken t) (S n)
}.

Lemma wp_set_color_sib h k d d' c t y s u x v c0 c' (Q : unit -> rb_head -> Prop) :
  s = mk d' c0 u x v -> has_tree h k (mk d c t y s) ->
  (forall h', has_tree h' k (mk d c t y (mk d' c' u x v)) -> Q tt h') ->
  wp (set_color (Some x) c') Q h.
Proof.
  intros -> Hh HQ. apply has_tree_sib in Hh. eapply wp_set_color; [exact Hh|]. intros h' Hh'. by apply HQ, has_tree_sib.
Qed.

Lemma rb_black_shape t n d : color t = RB_BLACK -> is_rb t (S n) -> exists l x r, t = mk d RB_BLACK l x r /\ is_rb l n /\ is_rb r n.
Proof.
  intros Hc Ht. destruct (mk_not_leaf t) as [->|Hm]; [done|]. destruct (Hm d) as (c & l & x & r & ->).
  rewrite color_mk in Hc. subst c. apply is_rb_black in Ht. by exists l, x, r.
Qed.

Lemma rb_red_shape t n d : color t = RB_RED -> is_rb t n ->
  exists l x r, t = mk d RB_RED l x r /\ color l = RB_BLACK /\ color r = RB_BLACK /\ is_rb l n /\ is_rb r n.
Proof.
  intros Hc Ht. destruct (mk_not_leaf t) as [->|Hm]; [done|]. destruct (Hm d) as (c & l & x & r & ->).
  rewrite color_mk in Hc. subst c. apply is_rb_red in Ht. by exists l, x, r.
Qed.

(** The last rotation: the far child of the sibling is red. *)
Lemma wp_remove_rotate h k d c t x cs near y a w b (Q : option ptr * option ptr * bool -> rb_head -> Prop) :
  has_tree h k (mk d c t x (mk d cs near y (mk d RB_RED a w b))) ->
  (forall h', has_tree h' k (mk d c (mk d RB_BLACK t x near) y (mk d RB_BLACK a w b)) -> Q (Some x, rbh_root h', false) h') ->
  wp (color ← RB_COLOR (Some x);
      set_color (Some y) color ;;
      set_color (Some x) RB_BLACK ;;
      far ← RB_CHILD (other d) (Some y);
      mwhen (not_null far) (set_color far RB_BLACK) ;;
      RB_ROTATE d (Some x) ;;
      root ← RB_ROOT;
      mret (Some x, root, false)) Q h.
Proof.
  intros Hh HQ. apply wp_bind. eapply wp_color; [exact (has_tree_node _ _ _ _ _ _ _ Hh)|]. rewrite rbe_color_entry.
  apply wp_bind. eapply wp_set_color_sib; [done|exact Hh|]. clear h Hh. intros h Hh.
  apply wp_bind. eapply wp_set_color; [exact Hh|]. clear h Hh. intros h Hh.
  apply wp_bind. eapply wp_child; [apply has_tree_sib in Hh; exact (has_tree_node _ _ _ _ _ _ _ Hh)|].
  rewrite rbe_other_entry, root_mk. apply wp_bind, wp_when; [intros _|done].
  apply has_tree_sib in Hh. eapply wp_set_color_sib; [done|exact Hh|]. clear h Hh. intros h Hh. apply has_tree_sib in Hh.
  apply wp_bind. eapply wp_rotate; [exact Hh|]. clear h Hh. intros h Hh.
  apply wp_bind, wp_gets, wp_ret. by apply HQ.
Qed.

Lemma removed_rotated k d c t x y near a w b n :
  hole_rb k (if decide (c = RB_BLACK) then S (S n) else S n) -> (c = RB_RED -> hole_color k = Some RB_BLACK) ->
  is_rb t n -> is_rb near n -> is_rb a n -> is_rb b n ->
  rb_tree (plug k (mk d c (mk d RB_BLACK t x near) y (mk d RB_BLACK a w b))).
Proof.
  intros Hk Hc Ht Hn Ha Hb. apply (plug_rb k _ (if decide (c = RB_BLACK) then S (S n) else S n)); [done| |].
  - destruct c; cbn; [apply is_rb_black|apply is_rb_red]; split_and!; try apply color_mk; by apply is_rb_black.
  - destruct c; [left; apply color_mk|right; by apply Hc].
Qed.

Section Fix.
Context (k : list frame) (d : side) (c : rb_color) (t : tree) (x : ptr) (n : nat).
Context (Hct : color t = RB_BLACK) (Ht : is_rb t n).
Context (Hk : hole_rb k (if decide (c = RB_BLACK) then S (S n) else S n)) (Hcol : c = RB_RED -> hole_color k = Some RB_BLACK).

(** The sibling is black and its far child is red. *)
Lemma wp_remove_finish h near y a w b t0 (Q : option ptr * option ptr * bool -> rb_head -> Prop) :
  is_rb near n -> is_rb a n -> is_rb b n -> has_tree h k (mk d c t x (mk d RB_BLACK near y (mk d RB_RED a w b))) ->
  inorder (plug k (mk d c t x (mk d RB_BLACK near y (mk d RB_RED a w b)))) = inorder (plug k t0) ->
  (forall h' t' p, has_tree h' [] t' -> rb_tree t' -> inorder t' = inorder (plug k t0) -> Q (p, root t', false) h') ->
  wp (color ← RB_COLOR (Some x);
      set_color (Some y) color ;;
      set_color (Some x) RB_BLACK ;;
      far ← RB_CHILD (other d) (Some y);
      mwhen (not_null far) (set_color far RB_BLACK) ;;
      RB_ROTATE d (Some x) ;;
      root ← RB_ROOT;
      mret (Some x, root, false)) Q h.
Proof.
  intros Hn Ha Hb Hh Hin Hend. eapply wp_remove_rotate; [exact Hh|]. intros h1 Hh1.
  pose proof (has_tree_of_plug _ _ _ Hh1) as Hw. pose proof (ht_hole _ _ _ Hw) as Hroot. cbn in Hroot. rewrite Hroot.
  apply (Hend _ _ _ Hw); [by apply (removed_rotated k d c t x y near a w b n)|]. rewrite <- Hin. same_inorder.
Qed.

(** The sibling is black. *)
Lemma wp_remove_color_fix h near y far (Q : option ptr * option ptr * bool -> rb_head -> Prop) :
  is_rb near n -> is_rb far n -> has_tree h k (mk d c t x (mk d RB_BLACK near y far)) ->
  (forall h' t' n', has_tree h' k t' -> deficit k t' n' -> color t' = c ->
     inorder (plug k t') = inorder (plug k (mk d c t x (mk d RB_BLACK near y far))) -> Q (hole_parent k, root t', true) h') ->
  (forall h' t' p, has_tree h' [] t' -> rb_tree t' ->
     inorder t' = inorder (plug k (mk d c t x (mk d RB_BLACK near y far))) -> Q (p, root t', false) h') ->
  wp (remove_color_fix d (Some x) (Some y)) Q h.
Proof.
  intros Hnear Hfar Hh Hmore Hend. unfold remove_color_fix. pose proof Hh as Hs. apply has_tree_sib in Hs.
  apply wp_bind. eapply wp_child; [exact (has_tree_node _ _ _ _ _ _ _ Hs)|]. rewrite rbe_child_entry.
  apply wp_bind. eapply wp_is_black; [apply has_tree_frame in Hs; exact Hs|].
  apply wp_bind. eapply wp_child; [exact (has_tree_node _ _ _ _ _ _ _ Hs)|]. rewrite rbe_other_entry.
  apply wp_bind. eapply wp_is_black; [rewrite has_tree_sib in Hs; exact Hs|].
  destruct (color far) eqn:Hcf; cbn [bool_decide]; [destruct (color near) eqn:Hcn|]; rewrite ?andb_false_r; cbn [andb].
  - (* both children are black *)
    rewrite !bool_decide_true by done. cbn [andb]. apply wp_bind. eapply wp_set_color_sib; [done|exact Hh|]. intros h1 Hh1.
    apply wp_bind. eapply wp_parent; [exact (has_tree_node _ _ _ _ _ _ _ Hh1)|]. rewrite rbe_parent_entry. apply wp_ret.
    rewrite <- (root_mk d c t x (mk d RB_RED near y far)).
    apply (Hmore _ _ (if decide (c = RB_BLACK) then S n else n) Hh1); [|apply color_mk|same_inorder].
    destruct c; cbn in Hk |- *; (split; [done|rewrite color_mk; intros ?; try done|rewrite color_mk; intros ?; try done]).
    + apply is_rb_black. split; [done|by apply is_rb_red].
    + rewrite blacken_mk. apply is_rb_black. split; [done|by apply is_rb_red].
  - (* the near one is red *)
    rewrite (bool_decide_false (RB_RED = RB_BLACK)), bool_decide_true by done. cbn [andb].
    destruct (rb_red_shape near n d Hcn Hnear) as (b & z & e & -> & Hcb & Hce & Hb & He).
    apply wp_bind, wp_bind. rewrite root_mk. apply wp_when; [intros _|done].
    pose proof Hh as Hs1. rewrite has_tree_sib in Hs1. eapply wp_set_color_child; [done|exact Hs1|]. intros h1 Hh1.
    apply wp_bind. eapply wp_set_color; [exact Hh1|]. intros h2 Hh2. apply wp_bind.
    rewrite <- mk_other, <- (mk_other d RB_BLACK e) in Hh2. eapply wp_rotate; [exact Hh2|]. intros h3 Hh3.
    rewrite !mk_other in Hh3. apply has_tree_sib in Hh3.
    eapply wp_child; [exact (has_tree_node _ _ _ _ _ _ _ Hh3)|]. rewrite rbe_other_entry, root_mk.
    apply (wp_remove_finish h3 b z e y far (mk d c t x (mk d RB_BLACK (mk d RB_RED b z e) y far))); [done..|same_inorder|done].
  - (* the far one is red *)
    apply wp_bind, wp_ret.
    destruct (rb_red_shape far n d Hcf Hfar) as (b & z & e & -> & _ & _ & Hb & He).
    by apply (wp_remove_finish h near y b z e (mk d c t x (mk d RB_BLACK near y (mk d RB_RED b z e)))).
Qed.
End Fix.

(** The body of the loop: the tree is right again, or the hole moved up, or its tree is red now. *)
Lemma wp_remove_color_body h d c x s k t n (Q : option ptr * option ptr * bool -> rb_head -> Prop) :
  color t = RB_BLACK -> is_rb t n -> hole_rb (F d c x s :: k) (S n) -> has_tree h (F d c x s :: k) t ->
  (forall h' k' t' n', has_tree h' k' t' -> deficit k' t' n' -> (color t' = RB_BLACK -> (length k' <= length k)%nat) ->
     inorder (plug k' t') = inorder (plug (F d c x s :: k) t) -> Q (hole_parent k', root t', true) h') ->
  (forall h' t' p, has_tree h' [] t' -> rb_tree t' -> inorder t' = inorder (plug (F d c x s :: k) t) -> Q (p, root t', false) h') ->
  wp (remove_color_body d (Some x)) Q h.
Proof.
  intros Hct Ht Hk Hh Hmore Hend. pose proof (has_tree_up _ _ _ _ _ _ _ Hh) as Hx. unfold remove_color_body.
  assert (Hs : is_rb s (S n)) by (by destruct c; destruct Hk).
  apply wp_bind. eapply wp_child; [exact (has_tree_node _ _ _ _ _ _ _ Hx)|]. rewrite rbe_other_entry.
  destruct (color s) eqn:Hcs.
  - destruct (rb_black_shape s n d Hcs Hs) as (near & y & far & -> & Hnear & Hfar). rewrite root_mk.
    apply wp_bind. eapply wp_color; [apply has_tree_sib in Hx; exact (has_tree_node _ _ _ _ _ _ _ Hx)|]. rewrite rbe_color_entry.
    rewrite bool_decide_false by done. apply wp_bind, wp_ret. apply (wp_remove_color_fix k d c t x n) with (near := near) (far := far); try done.
    + destruct c; cbn in Hk |- *; tauto.
    + intros ->. by destruct Hk as (_ & _ & ? & _).
    + intros h' t' n' Hh' Hd' _ Hin. by apply (Hmore h' k t' n').
  - destruct (rb_red_shape s (S n) d Hcs Hs) as (b & y & e & -> & Hcb & _ & Hb & He). rewrite root_mk.
    assert (c = RB_BLACK) as -> by (destruct c; [done|]; destruct Hk as (_ & Hc & _); by rewrite color_mk in Hc).
    apply wp_bind. eapply wp_color; [pose proof Hx as Hy; apply has_tree_sib in Hy; exact (has_tree_node _ _ _ _ _ _ _ Hy)|].
    rewrite rbe_color_entry, bool_decide_true by done. apply wp_bind, wp_bind, wp_bind.
    eapply wp_set_color_sib; [done|exact Hx|]. intros h1 Hh1. eapply wp_set_color; [exact Hh1|]. intros h2 Hh2.
    apply wp_bind. eapply wp_rotate; [exact Hh2|]. intros h3 Hh3. apply has_tree_frame in Hh3.
    eapply wp_child; [exact (has_tree_node _ _ _ _ _ _ _ Hh3)|]. rewrite rbe_other_entry.
    destruct (rb_black_shape b n d Hcb Hb) as (near & z & far & -> & Hnear & Hfar). rewrite root_mk.
    assert (Hin : inorder (plug (F d RB_BLACK y e :: k) (mk d RB_RED t x (mk d RB_BLACK near z far)))
                  = inorder (plug (F d RB_BLACK x (mk d RB_RED (mk d RB_BLACK near z far) y e) :: k) t))
      by (cbn [plug f_side f_color f_node f_sib]; same_inorder).
    apply (wp_remove_color_fix (F d RB_BLACK y e :: k) d RB_RED t x n) with (near := near) (far := far); try done.
    + by destruct Hk as [_ Hk].
    + intros h' t' n' Hh' Hd' Hc' Hin'. apply (Hmore h' _ t' n'); [done..|by rewrite Hc'|congruence].
    + intros h' t' p Hh' Hrb Hin'. apply (Hend h' t' p); [done..|congruence].
Qed.

(** Above the hole there is a root. *)
Lemma hole_root m rt f k v : hole_in m rt (f :: k) v -> exists p, rt = Some p /\ p ∈ hole_nodes (f :: k).
Proof.
  revert f v. induction k as [|f' k IH]; intros [d c x s] v (_ & _ & Hk).
  - exists x. cbn in *. split; [done|set_solver].
  - destruct (IH f' _ Hk) as (p & -> & Hp). exists p. cbn in *. split; [done|set_solver].
Qed.

Lemma root_of_hole h f k t : has_tree h (f :: k) t -> root t <> rbh_root h.
Proof.
  intros [Hk _ Hnd] Heq. destruct (hole_root _ _ _ _ _ Hk) as (p & Hp & Hin). rewrite Hp in Heq. apply root_elem in Heq.
  apply NoDup_app in Hnd as (_ & Hd & _). by apply (Hd p).
Qed.

Lemma wp_remove_color_loop fuel : forall h k t n (Q : option ptr -> rb_head -> Prop),
  (0 < fuel)%nat -> (color t = RB_BLACK -> (length k < fuel)%nat) -> deficit k t n -> has_tree h k t ->
  (forall h' k' t', has_tree h' k' t' -> rb_tree (plug k' (blacken t')) -> inorder (plug k' t') = inorder (plug k t) -> Q (root t') h') ->
  wp (remove_color_loop fuel (hole_parent k) (root t)) Q h.
Proof.
  induction fuel as [|fuel IH]; intros h k t n Q Hpos Hfuel [Hk Hb Hr] Hh HQ; [lia|]. cbn [remove_color_loop].
  apply wp_bind. eapply wp_is_black; [exact Hh|]. apply wp_bind, wp_gets.
  destruct (color t) eqn:Hc; cbn [bool_decide andb].
  2: { rewrite (bool_decide_false (RB_RED = RB_BLACK)) by done. apply wp_ret, (HQ h k t); [done| |done].
       apply (plug_rb k _ (S n)); [done|by apply Hr|left; apply color_blacken]. }
  rewrite (bool_decide_true (RB_BLACK = RB_BLACK)) by done. cbn [andb]. destruct k as [|[d c x s] k].
  { rewrite bool_decide_false by (intros Hn; apply Hn; symmetry; apply (ht_hole _ _ _ Hh)).
    apply wp_ret, (HQ h [] t); [done| |done]. rewrite blacken_black by done. split; [done|]. exists n. by apply Hb. }
  rewrite bool_decide_true by (by eapply root_of_hole).
  pose proof (has_tree_up _ _ _ _ _ _ _ Hh) as Hx. apply wp_bind. eapply wp_child; [exact (has_tree_node _ _ _ _ _ _ _ Hx)|].
  assert (Hs : is_rb s (S n)) by (by destruct c; destruct Hk).
  assert ((if bool_decide (rbe_child L (entry d c (root t) (root s) (hole_parent k)) = root t) then L else R) = d) as ->.
  { destruct d; cbn; [by rewrite bool_decide_true|]. rewrite bool_decide_false; [done|]. intros Heq.
    destruct s as [|cs sl y sr]; [done|]. symmetry in Heq. apply root_elem in Heq. destruct Hh as [_ _ Hnd]. nodes_apart Hnd. cbn in *. set_solver. }
  apply wp_bind. apply (wp_remove_color_body h d c x s k t n); [done|by apply Hb|done|done| |].
  - intros h' k' t' n' Hh' Hd' Hlen Hin. specialize (Hfuel eq_refl). cbn in Hfuel.
    apply (IH h' k' t' n'); [lia| |done|done|].
    + intros Hc'. specialize (Hlen Hc'). lia.
    + intros h'' k'' t'' Hh'' Hrb Hin''. apply (HQ h'' k'' t''); [done..|congruence].
  - intros h' t' p Hh' Hrb Hin. apply wp_ret. apply (HQ h' [] t'); [done| |done].
    cbn. rewrite blacken_black; [done|by destruct Hrb].
Qed.

Lemma wp_remove_color h k t n (Q : unit -> rb_head -> Prop) :
  deficit k t n -> has_tree h k t ->
  (forall h' t', has_tree h' [] t' -> rb_tree t' -> inorder t' = inorder (plug k t) -> Q tt h') ->
  wp (RB_REMOVE_COLOR (hole_parent k) (root t)) Q h.
Proof.
  intros Hd Hh HQ. unfold RB_REMOVE_COLOR. apply wp_bind. eapply wp_turns; [exact Hh|]. intros fuel Hfuel. apply wp_bind.
  pose proof (length_hole k t). apply (wp_remove_color_loop fuel h k t n); [lia|lia|done|done|].
  intros h' k' t' Hh' Hrb Hin. destruct t' as [|c l x r]; cbn [root not_null].
  - apply wp_ret. apply (HQ h' (plug k' Leaf)); [by apply has_tree_of_plug|done|done].
  - apply wp_when; [intros _|done]. eapply (wp_set_color _ _ L); [exact Hh'|]. intros h2 Hh2.
    apply (HQ h2 _ (has_tree_of_plug _ _ _ Hh2)); [done|]. rewrite <- Hin. by apply inorder_plug_eq.
Qed.

(** ** Finding a node in a tree *)

Lemma elem_of_plug x T : x ∈ inorder T -> exists k c l r, T = plug k (Node c l x r).
Proof.
  induction T as [|c l IHl y r IHr]; cbn; [by intros ?%elem_of_nil|]. rewrite elem_of_app, elem_of_cons. intros [H|[->|H]].
  - destruct (IHl H) as (k & c' & l' & r' & ->). exists (k ++ [F L c y r]), c', l', r'. by rewrite plug_app.
  - by exists [], c, l, r.
  - destruct (IHr H) as (k & c' & l' & r' & ->). exists (k ++ [F R c y l]), c', l', r'. by rewrite plug_app.
Qed.

(** The last node of a branch that only goes to the side [d]. *)
Lemma wp_furthest_loop d fuel : forall h k t (Q : option ptr -> rb_head -> Prop),
  (length (inorder t) <= fuel)%nat -> t <> Leaf -> has_tree h k t ->
  (forall k' c y s, t = plug k' (mk d c Leaf y s) -> Forall (fun f => f_side f = d) k' -> Q (Some y) h) ->
  wp (furthest_loop d fuel (root t)) Q h.
Proof.
  induction fuel as [|fuel IH]; intros h k t Q Hlen Hnl Hh HQ.
  { destruct t; [done|]. cbn in Hlen. rewrite length_app in Hlen. cbn in Hlen. lia. }
  cbn [furthest_loop]. destruct (mk_not_leaf t) as [->|Hm]; [done|]. destruct (Hm d) as (c & l & x & r & ->).
  rewrite root_mk. apply wp_bind. eapply wp_child; [exact (has_tree_node _ _ _ _ _ _ _ Hh)|]. rewrite rbe_child_entry.
  destruct (decide (l = Leaf)) as [->|Hl].
  - cbn. apply wp_ret. by apply (HQ [] c x r).
  - unfold not_null. rewrite bool_decide_true by (by destruct l).
    apply (IH h (F d c x r :: k)); [|done|by apply has_tree_frame|].
    + rewrite inorder_mk in Hlen. cbn in Hlen. rewrite length_app in Hlen. lia.
    + intros k' c' y s -> Hk'. apply (HQ (k' ++ [F d c x r]) c' y s); [by rewrite plug_app|].
      apply Forall_app. split; [done|by constructor].
Qed.

Lemma wp_furthest d h k t (Q : option ptr -> rb_head -> Prop) :
  t <> Leaf -> has_tree h k t ->
  (forall k' c y s, t = plug k' (mk d c Leaf y s) -> Forall (fun f => f_side f = d) k' -> Q (Some y) h) ->
  wp (furthest d (root t)) Q h.
Proof.
  intros Hnl Hh HQ. apply wp_bind. eapply wp_turns; [exact Hh|]. intros fuel Hfuel. eapply wp_furthest_loop; [|done..].
  pose proof (length_hole k t). lia.
Qed.

Lemma before_left k : Forall (fun f => f_side f = L) k -> before k = [].
Proof. induction 1 as [|[[] c x s] k Hf Hk IH]; by cbn. Qed.
Lemma after_right k : Forall (fun f => f_side f = R) k -> after k = [].
Proof. induction 1 as [|[[] c x s] k Hf Hk IH]; by cbn. Qed.

(** ** Removing a node with a child at most *)

Lemma wp_unlink_node h k d c u x (Q : option ptr * rb_color -> rb_head -> Prop) :
  has_tree h k (mk d c u x Leaf) ->
  (forall h', has_tree h' k u -> (forall p, p ∉ hole_nodes k -> p ∉ inorder u -> rb_mem h' !! p = rb_mem h !! p) ->
     Q (hole_parent k, c) h') ->
  wp (unlink_node (Some x) (root u)) Q h.
Proof.
  intros Hh HQ. unfold unlink_node. pose proof (has_tree_node _ _ _ _ _ _ _ Hh) as Hx.
  apply wp_bind. eapply wp_parent; [exact Hx|]. rewrite rbe_parent_entry.
  apply wp_bind. eapply wp_color; [exact Hx|]. rewrite rbe_color_entry.
  destruct Hh as [Hk Ht Hnd]. rewrite root_mk in Hk. apply tree_in_mk in Ht as (_ & Hu & _). rewrite inorder_mk in Hnd. cbn in Hnd.
  rewrite app_nil_r in Hnd. pose proof Hnd as Hd. nodes_apart Hd.
  apply wp_bind. apply (wp_set_parent_if h u (Some x)); [done..|]. intros h1 Hr1 Hu1 Hm1.
  apply wp_bind. apply (wp_replace_child h1 k x); [|set_solver|done|].
  { rewrite Hr1. apply (hole_in_ext (rb_mem h)); [|done]. intros p Hp. apply Hm1. set_solver. }
  intros h2 Hk2 Hm2. apply wp_ret, HQ.
  - split; [done| |].
    + apply (tree_in_ext (rb_mem h1)); [|done]. intros p Hp. apply Hm2. set_solver.
    + apply NoDup_app. split_and!; [done|set_solver|done].
  - intros p Hk' Hu'. by rewrite Hm2, Hm1.
Qed.

(** ** A node takes the place of another one *)

Lemma wp_take_place h k c l x r y (Q : unit -> rb_head -> Prop) :
  has_tree h k (Node c l x r) -> l <> Leaf -> y ∉ hole_nodes k ++ inorder (Node c l x r) -> is_Some (rb_mem h !! y) ->
  (forall h', has_tree h' k (Node c l y r) -> Q tt h') ->
  wp (take_place (Some x) (Some y)) Q h.
Proof.
  intros Hh Hl Hy [ye Hye] HQ. unfold take_place. pose proof (has_tree_node h k L c l x r Hh) as Hx.
  destruct Hh as [Hk (_ & Hil & Hir) Hnd]. cbn in Hy, Hk. pose proof Hnd as Hd. cbn in Hd. nodes_apart Hd.
  assert (Hxy : x <> y) by set_solver.
  apply wp_bind, (wp_node h x _ _ Hx). apply wp_bind. eapply wp_set_node; [exact Hye|]. set (h1 := put_node _ _ h).
  assert (Hx1 : rb_mem h1 !! x = Some (entry L c (root l) (root r) (hole_parent k))) by (cbn; by rewrite lookup_insert_ne).
  apply wp_bind. eapply wp_parent; [exact Hx1|]. rewrite rbe_parent_entry.
  apply wp_bind. apply (wp_replace_child h1 k x); [apply hole_in_put; [set_solver|done]|set_solver|done|]. intros h2 Hk2 Hm2.
  assert (Hx2 : rb_mem h2 !! x = Some (entry L c (root l) (root r) (hole_parent k))) by (rewrite Hm2 by set_solver; done).
  assert (Hm2' : forall p, p <> y -> p ∉ hole_nodes k -> rb_mem h2 !! p = rb_mem h !! p)
    by (intros p ? ?; rewrite Hm2 by done; by apply lookup_insert_ne).
  apply wp_bind. eapply wp_child; [exact Hx2|]. change (rbe_child L (entry L c (root l) (root r) (hole_parent k))) with (root l).
  apply wp_bind. assert (set_parent (root l) (Some y) = set_parent_if (root l) (Some y)) as -> by (by destruct l).
  apply (wp_set_parent_if h2 l (Some x)); [|done|].
  { apply (tree_in_ext (rb_mem h)); [|done]. intros p Hp. apply Hm2'; set_solver. }
  intros h3 Hr3 Hl3 Hm3. apply wp_bind.
  eapply wp_child; [rewrite Hm3 by set_solver; exact Hx2|]. change (rbe_child R (entry L c (root l) (root r) (hole_parent k))) with (root r).
  apply (wp_set_parent_if h3 r (Some x)); [|done|].
  { apply (tree_in_ext (rb_mem h)); [|done]. intros p Hp. rewrite Hm3 by set_solver. apply Hm2'; set_solver. }
  intros h4 Hr4 Hr4' Hm4. apply HQ. split; cbn.
  - rewrite Hr4, Hr3. apply (hole_in_ext (rb_mem h2)); [|done]. intros p Hp. rewrite Hm4, Hm3; [done|set_solver..].
  - split_and!; [|apply (tree_in_ext (rb_mem h3)); [|done]; intros p Hp; apply Hm4; set_solver|done].
    rewrite Hm4, Hm3, Hm2 by set_solver. apply lookup_insert_eq.
  - apply NoDup_app. split_and!; [done|set_solver|]. apply NoDup_app. split_and!; [done|set_solver|]. constructor; [set_solver|done].
Qed.

(** ** RB_REMOVE *)

Lemma wp_augment_loop fuel : forall h k t (Q : unit -> rb_head -> Prop),
  (length k <= fuel)%nat -> k <> [] -> has_tree h k t -> Q tt h -> wp (augment_loop fuel (hole_parent k)) Q h.
Proof.
  induction fuel as [|fuel IH]; intros h [|[d c x s] k] t Q Hlen Hk Hh HQ; try done; cbn in Hlen; [lia|].
  cbn [augment_loop]. pose proof (has_tree_up _ _ _ _ _ _ _ Hh) as Hx.
  apply wp_bind. eapply wp_parent; [exact (has_tree_node _ _ _ _ _ _ _ Hx)|]. rewrite rbe_parent_entry.
  destruct (decide (k = [])) as [->|Hk']; [by apply wp_ret|].
  unfold not_null. rewrite bool_decide_true by (by destruct k). apply (IH h k (mk d c t x s)); [lia|done..].
Qed.

Lemma hole_parent_app k f k' : hole_parent (k ++ f :: k') = match k with [] => Some (f_node f) | _ => hole_parent k end.
Proof. by destruct k. Qed.

Lemma hole_nodes_app k k' : hole_nodes (k ++ k') = hole_nodes k ++ hole_nodes k'.
Proof. induction k as [|f k IH]; [done|]. cbn. by rewrite IH, app_assoc. Qed.

Lemma elem_hole_parent k p : hole_parent k = Some p -> p ∈ hole_nodes k.
Proof. destruct k as [|f k]; [done|]. intros [= <-]. cbn. set_solver. Qed.

(** The names of the nodes do not matter for the colors. *)
Lemma hole_rb_rename k1 d c x y s k2 n : hole_rb (k1 ++ F d c x s :: k2) n -> hole_rb (k1 ++ F d c y s :: k2) n.
Proof.
  revert n. induction k1 as [|[d' c' x' s'] k1 IH]; intros n; cbn; [done|]. destruct c'.
  - intros [? ?]. split; [done|by apply IH].
  - intros (? & ? & Hc & ?). split_and!; [done|done| |by apply IH]. by destruct k1.
Qed.

Lemma wp_remove_inner h k c l x r (Q : option ptr * option ptr * rb_color -> rb_head -> Prop) :
  has_tree h k (Node c l x r) -> l <> Leaf -> r <> Leaf ->
  (forall h' k' c' y u, r = plug k' (Node c' Leaf y u) -> Forall (fun f => f_side f = L) k' ->
     has_tree h' (k' ++ F R c y l :: k) u -> Q (hole_parent (k' ++ F R c y l :: k), root u, c') h') ->
  wp (remove_inner (Some x)) Q h.
Proof.
  intros Hh Hl Hr HQ. unfold remove_inner.
  apply wp_bind. eapply wp_child; [exact (has_tree_node h k L c l x r Hh)|]. change (rbe_child R (entry L ?c ?a ?b ?p)) with b.
  apply wp_bind. assert (Hh0 : has_tree h (F R c x l :: k) r) by (by apply has_tree_frame).
  apply (wp_furthest L h (F R c x l :: k) r); [done..|]. intros k' c' y u -> Hk'. apply has_tree_plug in Hh0.
  pose proof (has_tree_node _ _ _ _ _ _ _ Hh0) as Hy. apply wp_bind. eapply wp_child; [exact Hy|].
  change (rbe_child R (entry L ?c ?a ?b ?p)) with b.
  apply wp_bind. change (mk L c' Leaf y u) with (mk R c' u y Leaf) in Hh0. pose proof (ht_nodup _ _ _ Hh0) as Hnd.
  apply (wp_unlink_node h (k' ++ F R c x l :: k) R c' u y); [exact Hh0|]. intros h1 Hh1 Hm1. rewrite inorder_mk, hole_nodes_app in Hnd. cbn in Hnd.
  rewrite app_nil_r in Hnd. pose proof Hnd as Hd. nodes_apart Hd.
  assert (Hy1 : rb_mem h1 !! y = Some (entry L c' None (root u) (hole_parent (k' ++ F R c x l :: k))))
    by (rewrite Hm1 by (rewrite ?hole_nodes_app; cbn; set_solver); exact Hy).
  apply wp_bind. eapply wp_parent; [exact Hy1|]. rewrite rbe_parent_entry.
  assert (Hpar : (if bool_decide (hole_parent (k' ++ F R c x l :: k) = Some x) then Some y else hole_parent (k' ++ F R c x l :: k))
                 = hole_parent (k' ++ F R c y l :: k)).
  { rewrite !hole_parent_app. destruct k' as [|f k']; [by cbn; rewrite bool_decide_true|]. rewrite bool_decide_false; [done|].
    intros He%elem_hole_parent. set_solver. }
  rewrite Hpar. clear Hpar. apply has_tree_plug, has_tree_up in Hh1. apply wp_bind.
  apply (wp_take_place h1 k c l x (plug k' u) y); [done|done| |by rewrite Hy1|].
  { assert (Hp : inorder (plug k' u) ⊆ hole_nodes k' ++ inorder u).
    { clear. revert u. induction k' as [|[d c x s] k IH]; intros u; [done|]. cbn [plug f_side f_color f_node f_sib].
      intros p Hp%IH. rewrite elem_of_app, elem_of_inorder_mk in Hp. cbn. set_solver. }
    cbn. set_solver. }
  intros h2 Hh2. assert (Hh2' : has_tree h2 (k' ++ F R c y l :: k) u) by (by apply has_tree_plug, has_tree_frame).
  apply wp_bind. eapply wp_turns; [exact Hh2'|]. intros fuel Hfuel. apply wp_bind.
  assert (Hne : k' ++ F R c y l :: k <> []) by (by destruct k'). apply wp_when.
  - intros _. apply (wp_augment_loop fuel h2 (k' ++ F R c y l :: k) u); [|done|done|].
    + pose proof (length_hole (k' ++ F R c y l :: k) u). lia.
    + apply wp_ret. by apply (HQ h2 k' c' y u).
  - intros _. apply wp_ret. by apply (HQ h2 k' c' y u).
Qed.

(** A black node that had a child at most left its place to it. *)
Lemma deficit_unlinked k d u x n : hole_rb k n -> is_rb (mk d RB_BLACK u x Leaf) n -> exists m, n = S m /\ deficit k u m.
Proof.
  intros Hk (m & -> & Hu & _)%is_rb_black_inv. exists m. split; [done|]. split; [done|done|]. intros Hc.
  destruct (rb_red_shape u m L Hc Hu) as (l & y & r & -> & _ & _ & Hl & Hr). rewrite blacken_mk. by apply is_rb_black.
Qed.

Lemma wp_remove_finally h k d c u x n (Q : unit -> rb_head -> Prop) :
  hole_rb k n -> is_rb (mk d c u x Leaf) n -> has_tree h k u ->
  (forall h' t', has_tree h' [] t' -> rb_tree t' -> inorder t' = inorder (plug k u) -> Q tt h') ->
  wp (mwhen (bool_decide (c = RB_BLACK)) (RB_REMOVE_COLOR (hole_parent k) (root u))) Q h.
Proof.
  intros Hk Ht Hh HQ. destruct c; (apply wp_when; intros Hb; [|]); try done.
  - destruct (deficit_unlinked k d u x n Hk Ht) as (m & -> & Hd). by apply (wp_remove_color h k u m).
  - apply is_rb_red in Ht as (Hc & _ & Hu & _). apply (HQ h (plug k u)); [by apply has_tree_of_plug| |done].
    apply (plug_rb k u n); [done|done|by left].
Qed.

Lemma wp_rb_remove h T x (Q : option ptr -> rb_head -> Prop) :
  has_tree h [] T -> rb_tree T -> x ∈ inorder T ->
  (forall h' T' l1 l2, has_tree h' [] T' -> rb_tree T' -> inorder T = l1 ++ x :: l2 -> inorder T' = l1 ++ l2 -> Q (Some x) h') ->
  wp (RB_REMOVE (Some x)) Q h.
Proof.
  intros Hh Hrb Hx HQ. destruct (elem_of_plug x T Hx) as (k & c & l & r & ->). apply has_tree_whole in Hh.
  assert (Hend : forall h' u T', has_tree h' [] T' -> rb_tree T' -> inorder T' = inorder (plug k u) ->
    inorder u = inorder l ++ inorder r -> Q (Some x) h').
  { intros h' u T' Hh' Hrb' Hin Hu. apply (HQ h' T' (before k ++ inorder l) (inorder r ++ after k)); [done|done|..].
    - rewrite inorder_plug. cbn. by rewrite <- !app_assoc.
    - rewrite Hin, inorder_plug, Hu. by rewrite <- !app_assoc. }
  unfold RB_REMOVE. pose proof (has_tree_node h k L c l x r Hh) as Hn.
  apply wp_bind. eapply wp_child; [exact Hn|]. apply wp_bind. eapply wp_child; [exact Hn|].
  change (rbe_child L (entry L ?c ?a ?b ?p)) with a. change (rbe_child R (entry L ?c ?a ?b ?p)) with b.
  destruct (unplug_rb _ _ Hrb) as (n & Hk & Ht & _). apply wp_bind. unfold not_null.
  destruct (decide (l = Leaf)) as [->|Hl]; [|destruct (decide (r = Leaf)) as [->|Hr]].
  - rewrite bool_decide_false by (by intros []). cbn [negb]. apply wp_bind. apply (wp_unlink_node h k R c r x); [exact Hh|].
    intros h1 Hh1 _. apply wp_ret. apply wp_bind. apply (wp_remove_finally h1 k R c r x n); [done..|].
    intros h2 T2 Hh2 Hrb2 Hin2. apply wp_ret. by apply (Hend h2 r T2).
  - rewrite bool_decide_true, bool_decide_false by (by destruct l || by intros []). cbn [negb].
    apply wp_bind. apply (wp_unlink_node h k L c l x); [exact Hh|].
    intros h1 Hh1 _. apply wp_ret. apply wp_bind. apply (wp_remove_finally h1 k L c l x n); [done..|].
    intros h2 T2 Hh2 Hrb2 Hin2. apply wp_ret. apply (Hend h2 l T2); [done..|]. cbn. by rewrite app_nil_r.
  - rewrite !bool_decide_true by (by destruct l, r). cbn [negb]. apply (wp_remove_inner h k c l x r); [done..|].
    intros h1 k' c' y u -> Hk' Hh1. apply wp_bind. change (Node c l x ?t) with (mk R c t x l) in *.
    destruct (unplug_rb (k' ++ F R c x l :: k) (Node c' Leaf y u)) as (m & Hkm & Hum & _); [by rewrite plug_app|].
    apply (wp_remove_finally h1 (k' ++ F R c y l :: k) R c' u y m); [by eapply hole_rb_rename|done|done|].
    intros h2 T2 Hh2 Hrb2 Hin2. rewrite plug_app in Hin2. apply wp_ret.
    apply (Hend h2 (Node c l y (plug k' u)) T2); [done..|]. cbn. f_equal. by rewrite !inorder_plug, before_left.
Qed.
