(* ===== verification/RbSearch.v ===== *)
(** * Red-black trees: searches and iterations

    [RB_FIND], [RB_NFIND] and [RB_INSERT] for a comparison that is a total order, and the
    iterations of [sys/tree.h]. *)

From Stdlib Require Import ZArith Lia.
From stdpp Require Import base tactics list gmap sorting.
From S2P Require Import Prelude RbTree RbShape RbColors RbRemove.

(** What the macros ask of the comparison they are given. *)
Class Comparison {K : Type} (cmp : K -> K -> Z) : Prop := {
  cmp_zero : forall a b, cmp a b = 0 <-> a = b;
  cmp_sign : forall a b, cmp a b < 0 <-> 0 < cmp b a;
  cmp_less : forall a b c, cmp a b < 0 -> cmp b c < 0 -> cmp a c < 0
}.

Fixpoint height (t : tree) : nat :=
  match t with
  | Leaf => 0
  | Node _ l _ r => S (Nat.max (height l) (height r))
  end.

Lemma height_inorder t : (height t <= length (inorder t))%nat.
Proof. induction t; cbn; [done|]. rewrite length_app. cbn. lia. Qed.

Section Search.
Context {K : Type} (key : ptr -> K) (cmp : K -> K -> Z) {Hcmp : Comparison cmp}.

Definition less (p q : ptr) : Prop := cmp (key p) (key q) < 0.

(** The nodes are in the order of their keys. *)
Definition ordered (t : tree) : Prop := StronglySorted less (inorder t).

Lemma cmp_refl a : cmp a a = 0.
Proof. by apply cmp_zero. Qed.

Lemma ordered_node c l x r :
  ordered (Node c l x r) -> ordered l /\ ordered r /\ (forall p, p ∈ inorder l -> less p x) /\ (forall p, p ∈ inorder r -> less x p).
Proof.
  unfold ordered. cbn. intros (Hlt & Hl & Hr)%StronglySorted_app. inversion Hr as [|? ? Hr' Hx]; subst.
  split_and!; [done|done| |]; intros p Hp; [apply Hlt; [done|set_solver]|by rewrite Forall_forall in Hx; apply Hx].
Qed.

(** ** RB_FIND *)

(** What is found for a key among some nodes. *)
Definition finds (elm : K) (l : list ptr) (res : option ptr) : Prop :=
  match res with
  | Some p => p ∈ l /\ key p = elm
  | None => forall p, p ∈ l -> key p <> elm
  end.

Lemma wp_find_loop elm t : forall fuel h k (Q : option ptr -> rb_head -> Prop),
  (height t < fuel)%nat -> has_tree h k t -> ordered t ->
  (forall res, finds elm (inorder t) res -> Q res h) -> wp (find_loop key cmp fuel elm (root t)) Q h.
Proof.
  induction t as [|c l IHl x r IHr]; intros [|fuel] h k Q Hf Hh Ho HQ; try (cbn in Hf; lia); cbn [find_loop root].
  { apply wp_ret, HQ. by intros p ?%elem_of_nil. }
  cbn in Hf. destruct (ordered_node _ _ _ _ Ho) as (Hl & Hr & Hlx & Hxr). pose proof (has_tree_node h k L c l x r Hh) as Hx.
  pose proof (cmp_sign elm (key x)) as Hs. pose proof (cmp_zero elm (key x)) as Hz.
  destruct (Z.ltb_spec (cmp elm (key x)) 0); [|destruct (Z.ltb_spec 0 (cmp elm (key x)))].
  - apply wp_bind. eapply wp_child; [exact Hx|]. apply (IHl fuel h (F L c x r :: k)); [lia|by apply has_tree_frame|done|].
    intros [p|] Hp; apply HQ; cbn in *; [set_solver|]. intros p. rewrite elem_of_app, elem_of_cons. intros [?|[->|Hin]]; [by apply Hp| |].
    + intros <-. rewrite cmp_refl in *. lia.
    + intros <-. specialize (Hxr p Hin). unfold less in Hxr. apply cmp_sign in Hxr. lia.
  - apply wp_bind. eapply wp_child; [exact Hx|]. apply (IHr fuel h (F R c x l :: k)); [lia|by apply has_tree_frame|done|].
    intros [p|] Hp; apply HQ; cbn in *; [set_solver|]. intros p. rewrite elem_of_app, elem_of_cons. intros [Hin|[->|?]]; [| |by apply Hp].
    + intros <-. specialize (Hlx p Hin). unfold less in Hlx. lia.
    + intros <-. rewrite cmp_refl in *. lia.
  - apply wp_ret, HQ. cbn. split; [set_solver|]. symmetry. apply Hz. lia.
Qed.

Lemma wp_rb_find elm h T (Q : option ptr -> rb_head -> Prop) :
  has_tree h [] T -> ordered T -> (forall res, finds elm (inorder T) res -> Q res h) -> wp (RB_FIND key cmp elm) Q h.
Proof.
  intros Hh Ho HQ. apply wp_bind. eapply wp_turns; [exact Hh|]. intros fuel Hfuel. apply wp_bind, wp_gets.
  pose proof (ht_hole _ _ _ Hh) as ->. pose proof (height_inorder T). cbn in Hfuel. apply (wp_find_loop elm T fuel h []); [lia|done..].
Qed.

(** ** RB_NFIND *)

(** The first node that is not before the key. *)
Definition nfinds (elm : K) (l : list ptr) : option ptr := head (filter (fun p => cmp elm (key p) <= 0) l).

Lemma nfinds_before elm l l' : (forall p, p ∈ l -> 0 < cmp elm (key p)) -> nfinds elm (l ++ l') = nfinds elm l'.
Proof.
  unfold nfinds. induction l as [|p l IH]; intros Hl; [done|]. cbn [app]. rewrite filter_cons, decide_False.
  - apply IH. intros q Hq. apply Hl. by right.
  - specialize (Hl p ltac:(left)). lia.
Qed.

Lemma nfinds_from elm l x r :
  cmp elm (key x) <= 0 -> nfinds elm (l ++ x :: r) = match nfinds elm l with Some p => Some p | None => Some x end.
Proof.
  intros Hx. unfold nfinds. rewrite filter_app, filter_cons, decide_True by done. by destruct (filter _ l).
Qed.

Lemma wp_nfind_loop elm t : forall fuel h k res (Q : option ptr -> rb_head -> Prop),
  (height t < fuel)%nat -> has_tree h k t -> ordered t ->
  Q (match nfinds elm (inorder t) with Some p => Some p | None => res end) h -> wp (nfind_loop key cmp fuel elm (root t) res) Q h.
Proof.
  induction t as [|c l IHl x r IHr]; intros [|fuel] h k res Q Hf Hh Ho HQ; try (cbn in Hf; lia); cbn [nfind_loop root].
  { by apply wp_ret. }
  cbn in Hf, HQ. destruct (ordered_node _ _ _ _ Ho) as (Hl & Hr & Hlx & Hxr). pose proof (has_tree_node h k L c l x r Hh) as Hx.
  assert (Hbefore : 0 <= cmp elm (key x) -> forall p, p ∈ inorder l -> 0 < cmp elm (key p)).
  { intros Hle p Hp. specialize (Hlx p Hp). unfold less in Hlx. apply cmp_sign.
    destruct (decide (cmp elm (key x) = 0)) as [Heq%cmp_zero|]; [by rewrite Heq|]. apply (cmp_less _ (key x)); [done|apply cmp_sign; lia]. }
  destruct (Z.ltb_spec (cmp elm (key x)) 0); [|destruct (Z.ltb_spec 0 (cmp elm (key x)))].
  - apply wp_bind. eapply wp_child; [exact Hx|]. apply (IHl fuel h (F L c x r :: k)); [lia|by apply has_tree_frame|done|].
    rewrite nfinds_from in HQ by lia. by destruct (nfinds elm (inorder l)).
  - apply wp_bind. eapply wp_child; [exact Hx|]. apply (IHr fuel h (F R c x l :: k)); [lia|by apply has_tree_frame|done|].
    rewrite (cons_middle x), app_assoc, nfinds_before in HQ; [done|]. intros p. rewrite elem_of_app, list_elem_of_singleton.
    intros [?| ->]; [apply Hbefore; [lia|done]|done].
  - rewrite nfinds_before in HQ by (by apply Hbefore). pose proof (nfinds_from elm [] x (inorder r)) as Hn. cbn in Hn.
    rewrite Hn in HQ by lia. by apply wp_ret.
Qed.

Lemma wp_rb_nfind elm h T (Q : option ptr -> rb_head -> Prop) :
  has_tree h [] T -> ordered T -> Q (nfinds elm (inorder T)) h -> wp (RB_NFIND key cmp elm) Q h.
Proof.
  intros Hh Ho HQ. apply wp_bind. eapply wp_turns; [exact Hh|]. intros fuel Hfuel. apply wp_bind, wp_gets.
  pose proof (ht_hole _ _ _ Hh) as ->. pose proof (height_inorder T). cbn in Hfuel.
  apply (wp_nfind_loop elm T fuel h [] None); [lia|done..|]. by destruct (nfinds elm (inorder T)).
Qed.

(** ** RB_INSERT *)

(** The key goes in the hole. *)
Record belongs (elm : K) (k : list frame) : Prop := {
  bl_before : forall p, p ∈ before k -> cmp (key p) elm < 0;
  bl_after : forall p, p ∈ after k -> cmp elm (key p) < 0
}.

(** The side of the hole, as the last comparison tells it. *)
Definition side_known (comp : Z) (k : list frame) : Prop :=
  match k with
  | [] => True
  | f :: _ => f_side f = if comp <? 0 then L else R
  end.

Lemma wp_insert_search elm t : forall fuel h k comp (Q : option ptr * Z * option ptr -> rb_head -> Prop),
  (height t < fuel)%nat -> has_tree h k t -> ordered t -> belongs elm k -> side_known comp k ->
  (forall p parent comp', p ∈ inorder t -> key p = elm -> Q (parent, comp', Some p) h) ->
  (forall k' comp', plug k' Leaf = plug k t -> belongs elm k' -> side_known comp' k' -> Q (hole_parent k', comp', None) h) ->
  wp (insert_search key cmp fuel elm (hole_parent k) comp (root t)) Q h.
Proof.
  induction t as [|c l IHl x r IHr]; intros [|fuel] h k comp Q Hf Hh Ho Hb Hside Hfound Hleaf; try (cbn in Hf; lia);
    cbn [insert_search root].
  { by apply wp_ret, Hleaf. }
  cbn in Hf. destruct (ordered_node _ _ _ _ Ho) as (Hl & Hr & Hlx & Hxr). pose proof (has_tree_node h k L c l x r Hh) as Hx.
  destruct Hb as [Hbefore Hafter].
  destruct (Z.ltb_spec (cmp elm (key x)) 0) as [Hlt|]; [|destruct (Z.ltb_spec 0 (cmp elm (key x))) as [Hgt|]].
  - apply wp_bind. eapply wp_child; [exact Hx|].
    apply (IHl fuel h (F L c x r :: k)); [lia|by apply has_tree_frame|done| | |intros; apply Hfound; cbn; set_solver|done].
    + split; [done|]. intros p. cbn. rewrite elem_of_cons, elem_of_app. intros [->|[Hp|?]]; [done| |by apply Hafter].
      apply (cmp_less _ (key x)); [done|by apply Hxr].
    + cbn. by rewrite (proj2 (Z.ltb_lt _ _) Hlt).
  - apply wp_bind. eapply wp_child; [exact Hx|].
    apply (IHr fuel h (F R c x l :: k)); [lia|by apply has_tree_frame|done| | |intros; apply Hfound; cbn; set_solver|done].
    + apply cmp_sign in Hgt. split; [|done]. intros p. cbn. rewrite !elem_of_app, list_elem_of_singleton.
      intros [?|[Hp| ->]]; [by apply Hbefore| |done]. apply (cmp_less _ (key x)); [by apply Hlx|done].
    + cbn. by rewrite (proj2 (Z.ltb_ge _ _)) by lia.
  - apply wp_ret, Hfound; [cbn; set_solver|]. symmetry. apply cmp_zero. lia.
Qed.

(** A node is linked in the hole, red and with no children. *)
Lemma wp_link_node h k elm e comp (Q : unit -> rb_head -> Prop) :
  has_tree h k Leaf -> elm ∉ hole_nodes k -> rb_mem h !! elm = Some e -> side_known comp k ->
  (forall h', has_tree h' k (Node RB_RED Leaf elm Leaf) -> Q tt h') ->
  wp (link_node (Some elm) (hole_parent k) comp) Q h.
Proof.
  intros [Hk _ Hnd] Hni He Hside HQ. cbn in Hk, Hnd. rewrite app_nil_r in Hnd.
  unfold link_node. apply wp_bind. unfold RB_SET. do 3 (apply wp_bind; eapply wp_set_node; [(exact He || apply lookup_insert_eq)|]).
  eapply wp_set_node; [apply lookup_insert_eq|]. set (h1 := put_node _ _ _).
  assert (Hm : rb_mem h1 = <[elm := entry L RB_RED None None (hole_parent k)]> (rb_mem h)).
  { cbn. by rewrite !insert_insert_eq. }
  assert (Hk1 : hole_in (rb_mem h1) (rbh_root h1) k None) by (rewrite Hm; by apply hole_in_put).
  assert (He1 : rb_mem h1 !! elm = Some (entry L RB_RED None None (hole_parent k))) by (rewrite Hm; apply lookup_insert_eq).
  assert (Hdone : forall h', hole_in (rb_mem h') (rbh_root h') k (Some elm) ->
    rb_mem h' !! elm = rb_mem h1 !! elm -> Q tt h').
  { intros h' Hk' Hm'. apply HQ. split; cbn; [done|by rewrite Hm', He1|]. apply NoDup_app. split_and!; [done|set_solver|by apply NoDup_singleton]. }
  clearbody h1. clear Hm He1. destruct k as [|[d c x s] k]; cbn [hole_parent head fmap option_fmap option_map f_node].
  - apply wp_modify. by apply Hdone.
  - change (not_null (Some x)) with true. cbv iota. cbn in Hside, Hni. destruct Hk1 as (Hx & Hs & Hk1). nodes_apart Hnd.
    assert (wp (set_child d (Some x) (Some elm)) Q h1); [|by destruct (comp <? 0); subst d].
    eapply wp_set_node; [exact Hx|]. rewrite set_child_entry. apply Hdone; cbn.
    + rewrite lookup_insert_eq. split_and!; [done|apply tree_in_put; [set_solver|done]|apply hole_in_put; [set_solver|done]].
    + apply lookup_insert_ne. set_solver.
Qed.

Lemma wp_rb_insert h T elm (Q : option ptr -> rb_head -> Prop) :
  has_tree h [] T -> rb_tree T -> ordered T -> elm ∉ inorder T -> is_Some (rb_mem h !! elm) ->
  (forall p, p ∈ inorder T -> key p = key elm -> Q (Some p) h) ->
  (forall h' T' l1 l2, has_tree h' [] T' -> rb_tree T' -> ordered T' -> inorder T = l1 ++ l2 -> inorder T' = l1 ++ elm :: l2 ->
     Q None h') ->
  wp (RB_INSERT key cmp elm) Q h.
Proof.
  intros Hh Hrb Ho Hni [e He] Hfound Hnew. apply wp_bind. eapply wp_turns; [exact Hh|]. intros fuel Hfuel. apply wp_bind, wp_gets.
  pose proof (ht_hole _ _ _ Hh) as ->. pose proof (height_inorder T). cbn in Hfuel. apply wp_bind.
  apply (wp_insert_search (key elm) T fuel h [] 0); [lia|done|done|by split; intros p ?%elem_of_nil|done| |].
  - intros p parent comp Hp Hk. apply wp_ret. by apply Hfound.
  - intros k comp Hplug [Hbefore Hafter] Hside. cbn in Hplug. subst T. apply has_tree_whole in Hh.
    unfold ordered in Ho. rewrite inorder_plug in Hni, Ho. cbn in Hni, Ho.
    change (not_null None) with false. cbv iota.
    assert (Hni' : elm ∉ hole_nodes k).
    { intros Hin. apply Hni. clear -Hin. revert Hin. generalize Leaf. induction k as [|[[] c x s] k IH]; intros t; cbn; set_solver. }
    apply wp_bind, (wp_link_node h k elm e comp); [done..|]. intros h1 Hh1. apply wp_bind, (wp_insert_color h1 k elm); [done..|].
    intros h2 T2 Hh2 Hrb2 Hin2. apply wp_ret. apply (Hnew h2 T2 (before k) (after k)); [done|done| |by rewrite inorder_plug|done].
    unfold ordered. rewrite Hin2. apply StronglySorted_app in Ho as (Hlt & Hsb & Hsa). apply StronglySorted_app_2; [|done|].
    + intros p q Hp. rewrite elem_of_cons. intros [->|Hq]; [by apply Hbefore|by apply Hlt].
    + constructor; [done|]. apply Forall_forall. intros q Hq. by apply Hafter.
Qed.
End Search.
