(* ===== verification/RbWalk.v ===== *)
(** * Red-black trees: iterations

    [RB_MIN], [RB_NEXT] and the loops of [sys/tree.h] over a tree, and the same from the
    other end. *)

From Stdlib Require Import ZArith Lia.
From stdpp Require Import base tactics list gmap.
From S2P Require Import Prelude RbTree RbShape RbColors RbRemove.

(** The nodes from the side [d]. *)
Definition from_side (d : side) (l : list ptr) : list ptr := match d with L => l | R => reverse l end.
Definition walk (d : side) (t : tree) : list ptr := from_side d (inorder t).
Definition earlier (d : side) (k : list frame) : list ptr := match d with L => before k | R => reverse (after k) end.
Definition later (d : side) (k : list frame) : list ptr := match d with L => after k | R => reverse (before k) end.

Lemma walk_mk d c t x s : walk d (mk d c t x s) = walk d t ++ x :: walk d s.
Proof. destruct d; unfold walk, from_side; cbn [mk inorder]; [done|]. by rewrite reverse_app, reverse_cons, <- app_assoc. Qed.

Lemma walk_plug d k t : walk d (plug k t) = earlier d k ++ walk d t ++ later d k.
Proof. destruct d; unfold walk, from_side; rewrite inorder_plug; [done|]. by rewrite !reverse_app, <- app_assoc. Qed.

Lemma later_same d c x s k : later d (F d c x s :: k) = x :: walk d s ++ later d k.
Proof. destruct d; unfold later, walk, from_side; cbn [before after]; [done|]. by rewrite !reverse_app, reverse_singleton, <- app_assoc. Qed.

Lemma later_other d c x s k : later d (F (other d) c x s :: k) = later d k.
Proof. by destruct d. Qed.

Lemma earlier_same d k : Forall (fun f => f_side f = d) k -> earlier d k = [].
Proof. intros Hk. destruct d; cbn; [by apply before_left|]. by rewrite after_right. Qed.

Lemma walk_perm d t : walk d t ≡ₚ inorder t.
Proof. destruct d; [done|]. apply reverse_Permutation. Qed.

(** ** One step *)

Lemma wp_ancestor_loop d fuel : forall h k t x (Q : option ptr -> rb_head -> Prop),
  (length k < fuel)%nat -> root t = Some x -> has_tree h k t -> Q (head (later d k)) h ->
  wp (ancestor_loop d fuel (Some x)) Q h.
Proof.
  induction fuel as [|fuel IH]; intros h k t x Q Hlen Hx Hh HQ; [lia|]. cbn [ancestor_loop].
  destruct (mk_not_leaf t) as [->|Hm]; [done|]. destruct (Hm L) as (c0 & l & x0 & r & ->). rewrite root_mk in Hx. injection Hx as ->.
  apply wp_bind. eapply wp_parent; [exact (has_tree_node _ _ _ _ _ _ _ Hh)|]. rewrite rbe_parent_entry.
  destruct k as [|[d' c p s] k]; [apply wp_ret; by destruct d|].
  change (not_null (hole_parent (F d' c p s :: k))) with true. cbv iota.
  pose proof (has_tree_up _ _ _ _ _ _ _ Hh) as Hp.
  apply wp_bind. eapply wp_child; [exact (has_tree_node _ _ _ _ _ _ _ Hp)|]. rewrite root_mk.
  destruct (decide (d' = d)) as [->|Hd].
  - rewrite rbe_other_entry, bool_decide_false; [apply wp_ret; by rewrite later_same in HQ|].
    intros Heq. symmetry in Heq. apply root_elem in Heq. destruct Hh as [_ _ Hnd]. nodes_apart Hnd. set_solver.
  - assert (d' = other d) as -> by (by destruct d, d'). rewrite rbe_child_entry, bool_decide_true by done.
    cbn in Hlen. apply (IH h k (mk (other d) c (mk L c0 l x r) p s)); [lia|apply root_mk|done|by rewrite later_other in HQ].
Qed.

Lemma head_furthest d k c y s : Forall (fun f => f_side f = d) k -> head (walk d (plug k (mk d c Leaf y s))) = Some y.
Proof. intros Hk. rewrite walk_plug, walk_mk, earlier_same by done. by destruct d. Qed.

(** [RB_NEXT], and [RB_PREV]: the next node of the iteration. *)
Lemma wp_rb_step d h k c t x s (Q : option ptr -> rb_head -> Prop) :
  has_tree h k (mk d c t x s) -> Q (head (walk d s ++ later d k)) h -> wp (RB_STEP d (Some x)) Q h.
Proof.
  intros Hh HQ. unfold RB_STEP. pose proof (has_tree_node _ _ _ _ _ _ _ Hh) as Hx.
  apply wp_bind. eapply wp_turns; [exact Hh|]. intros fuel Hfuel.
  apply wp_bind. eapply wp_child; [exact Hx|]. rewrite rbe_other_entry. destruct (decide (s = Leaf)) as [->|Hs].
  - change (not_null (root Leaf)) with false. cbv iota. replace (walk d Leaf) with (@nil ptr) in HQ by (by destruct d). cbn [app] in HQ.
    apply wp_bind. eapply wp_parent; [exact Hx|]. rewrite rbe_parent_entry.
    assert (Hup : wp (ancestor_loop d fuel (Some x)) Q h).
    { eapply wp_ancestor_loop; [|apply root_mk|exact Hh|done]. pose proof (length_hole k (mk d c t x Leaf)). lia. }
    destruct k as [|[d' c' p s'] k]; [by apply wp_bind, wp_ret|].
    change (not_null (hole_parent (F d' c' p s' :: k))) with true. cbv iota.
    pose proof (has_tree_up _ _ _ _ _ _ _ Hh) as Hp.
    apply wp_bind, wp_bind. eapply wp_child; [exact (has_tree_node _ _ _ _ _ _ _ Hp)|]. apply wp_ret. rewrite root_mk.
    case_bool_decide as Heq; [|done]. apply wp_ret. destruct (decide (d' = d)) as [->|Hd]; [by rewrite later_same in HQ|].
    assert (d' = other d) as -> by (by destruct d, d'). exfalso. destruct d; cbn in Heq; symmetry in Heq; apply root_elem in Heq;
      destruct Hh as [_ _ Hnd]; nodes_apart Hnd; set_solver.
  - unfold not_null. rewrite bool_decide_true by (by destruct s).
    apply (wp_furthest d h (F (other d) c x t :: k) s); [done|by apply has_tree_sib|]. intros k' c' y s' -> Hk'.
    pose proof (head_furthest d k' c' y s' Hk') as Hy. destruct (walk d (plug k' (mk d c' Leaf y s'))); [done|]. by injection Hy as ->.
Qed.

(** ** The ends *)

Lemma wp_minmax_loop d fuel : forall h k t parent (Q : option ptr -> rb_head -> Prop),
  (length (inorder t) < fuel)%nat -> has_tree h k t -> Q (match head (walk d t) with Some p => Some p | None => parent end) h ->
  wp (minmax_loop d fuel parent (root t)) Q h.
Proof.
  induction fuel as [|fuel IH]; intros h k t parent Q Hlen Hh HQ; [lia|]. cbn [minmax_loop].
  destruct (mk_not_leaf t) as [->|Hm]; [apply wp_ret; by destruct d|]. destruct (Hm d) as (c & l & x & r & ->).
  rewrite root_mk. change (not_null (Some x)) with true. cbv iota.
  apply wp_bind. eapply wp_child; [exact (has_tree_node _ _ _ _ _ _ _ Hh)|]. rewrite rbe_child_entry.
  rewrite inorder_mk in Hlen. cbn in Hlen. rewrite length_app in Hlen.
  apply (IH h (F d c x r :: k)); [lia|by apply has_tree_frame|]. rewrite walk_mk in HQ. by destruct (walk d l).
Qed.

Lemma wp_rb_minmax d h T (Q : option ptr -> rb_head -> Prop) :
  has_tree h [] T -> Q (head (walk d T)) h -> wp (RB_MINMAX d) Q h.
Proof.
  intros Hh HQ. apply wp_bind. eapply wp_turns; [exact Hh|]. intros fuel Hfuel. apply wp_bind, wp_gets.
  pose proof (ht_hole _ _ _ Hh) as ->. cbn in Hfuel. apply (wp_minmax_loop d fuel h []); [lia|done|]. by destruct (head (walk d T)).
Qed.

(** ** Loops *)

Lemma split_eq {A} (l1 l2 k1 k2 : list A) (x : A) :
  l1 ++ x :: l2 = k1 ++ x :: k2 -> x ∉ l1 -> x ∉ k1 -> l2 = k2.
Proof.
  revert k1. induction l1 as [|a l1 IH]; intros [|b k1] Heq Hl Hk; cbn in Heq; simplify_eq; [done|set_solver|set_solver|].
  apply (IH k1); [done|set_solver..].
Qed.

(** The node after [x]. *)
Lemma wp_rb_step_at d h T l1 x l2 (Q : option ptr -> rb_head -> Prop) :
  has_tree h [] T -> walk d T = l1 ++ x :: l2 -> Q (head l2) h -> wp (RB_STEP d (Some x)) Q h.
Proof.
  intros Hh Hw HQ. assert (Hx : x ∈ inorder T) by (rewrite <- (walk_perm d), Hw; set_solver).
  destruct (elem_of_plug x T Hx) as (k & c & l & r & ->).
  assert (exists t s, Node c l x r = mk d c t x s) as (t & s & Hmk) by (destruct d; [by exists l, r|by exists r, l]).
  assert (Hnd : NoDup (walk d (plug k (Node c l x r)))) by (rewrite walk_perm; by destruct Hh).
  rewrite Hmk in *. apply has_tree_whole in Hh. apply (wp_rb_step d h k c t x s); [done|].
  rewrite walk_plug, walk_mk in Hw, Hnd. rewrite <- app_assoc, app_assoc in Hw, Hnd. cbn [app] in Hw, Hnd.
  assert (l2 = walk d s ++ later d k) as <-; [|done].
  assert (x ∉ earlier d k ++ walk d t) by (apply NoDup_app in Hnd as (_ & Hd & _); set_solver).
  assert (x ∉ l1) by (rewrite Hw in Hnd; apply NoDup_app in Hnd as (_ & Hd & _); set_solver).
  by apply (split_eq l1 l2 (earlier d k ++ walk d t) _ x).
Qed.

Lemma wp_foreach_loop d l2 : forall fuel h T l1 (Q : list ptr -> rb_head -> Prop),
  (length l2 < fuel)%nat -> has_tree h [] T -> walk d T = l1 ++ l2 -> Q l2 h -> wp (foreach_loop d fuel (head l2)) Q h.
Proof.
  induction l2 as [|x l2 IH]; intros [|fuel] h T l1 Q Hf Hh Hw HQ; try (cbn in Hf; lia); cbn [foreach_loop head]; [by apply wp_ret|].
  cbn in Hf. apply wp_bind, (wp_rb_step_at d h T l1 x l2); [done|done|].
  apply wp_bind, (IH fuel h T (l1 ++ [x])); [lia|done|by rewrite <- app_assoc|]. by apply wp_ret.
Qed.

Lemma wp_rb_foreach d h T (Q : list ptr -> rb_head -> Prop) :
  has_tree h [] T -> Q (walk d T) h -> wp (RB_FOREACH d) Q h.
Proof.
  intros Hh HQ. apply wp_bind. eapply wp_turns; [exact Hh|]. intros fuel Hfuel. apply wp_bind, (wp_rb_minmax d h T); [done|].
  apply (wp_foreach_loop d (walk d T) fuel h T []); [|done|done|done]. rewrite walk_perm. cbn in Hfuel. lia.
Qed.

Lemma filter_but_one (p : ptr) (P : Prop) `{!Decision P} (l : list ptr) :
  p ∉ l -> filter (fun q => q = p -> ~ P) l = l.
Proof.
  induction l as [|q l IH]; [done|]. intros [Hp Hl]%not_elem_of_cons. rewrite filter_cons, decide_True by naive_solver. by rewrite IH.
Qed.

(** The safe loop, when its body removes some of the nodes it is given. *)
Lemma wp_foreach_safe_loop (P : ptr -> Prop) `{!forall p, Decision (P p)} body
    (Hbody : forall h T p (Q : unit -> rb_head -> Prop), has_tree h [] T -> rb_tree T -> p ∈ inorder T ->
       (forall h' T', has_tree h' [] T' -> rb_tree T' -> inorder T' = filter (fun q => q = p -> ~ P p) (inorder T) -> Q tt h') ->
       wp (body p) Q h) l2 : forall fuel h T l1 (Q : unit -> rb_head -> Prop),
  (length l2 < fuel)%nat -> has_tree h [] T -> rb_tree T -> inorder T = filter (fun p => ~ P p) l1 ++ l2 ->
  (forall h' T', has_tree h' [] T' -> rb_tree T' -> inorder T' = filter (fun p => ~ P p) (l1 ++ l2) -> Q tt h') ->
  wp (foreach_safe_loop fuel (head l2) body) Q h.
Proof.
  induction l2 as [|x l2 IH]; intros [|fuel] h T l1 Q Hf Hh Hrb Hin HQ; try (cbn in Hf; lia); cbn [foreach_safe_loop head].
  { apply wp_ret, (HQ h T); [done..|]. by rewrite !app_nil_r in *. }
  cbn in Hf. apply wp_bind, (wp_rb_step_at L h T (filter (fun p => ~ P p) l1) x l2); [done|done|].
  assert (Hnd : NoDup (inorder T)) by (by destruct Hh).
  apply wp_bind, (Hbody h T); [done|done|rewrite Hin; set_solver|]. intros h' T' Hh' Hrb' Hin'.
  apply (IH fuel h' T' (l1 ++ [x])); [lia|done|done| |by rewrite <- app_assoc].
  rewrite Hin', Hin, !filter_app, filter_cons. rewrite Hin in Hnd. apply NoDup_app in Hnd as (_ & Hd & [Hx _]%NoDup_cons).
  rewrite !filter_but_one by set_solver. rewrite <- app_assoc. f_equal. rewrite filter_cons, filter_nil.
  destruct (decide (P x)) as [HP|HP].
  - rewrite decide_False by naive_solver. by rewrite decide_False by naive_solver.
  - rewrite decide_True by done. by rewrite decide_True by done.
Qed.

Lemma wp_rb_foreach_safe (P : ptr -> Prop) `{!forall p, Decision (P p)} h T (Q : unit -> rb_head -> Prop) :
  has_tree h [] T -> rb_tree T ->
  (forall h' T', has_tree h' [] T' -> rb_tree T' -> inorder T' = filter (fun p => ~ P p) (inorder T) -> Q tt h') ->
  wp (RB_FOREACH_SAFE (fun p => if decide (P p) then RB_REMOVE (Some p) ;; mret tt else mret tt)) Q h.
Proof.
  intros Hh Hrb HQ. apply wp_bind. eapply wp_turns; [exact Hh|]. intros fuel Hfuel. apply wp_bind, (wp_rb_minmax L h T); [done|].
  cbn [plug] in Hfuel. apply (wp_foreach_safe_loop P) with (l2 := inorder T) (T := T) (l1 := []); [|done..].
  clear Hfuel fuel HQ Hh Hrb T h Q. intros h T p Q Hh Hrb Hp HQ. assert (Hnd : NoDup (inorder T)) by (by destruct Hh). case_decide as HP.
  - apply wp_bind, (wp_rb_remove h T p); [done..|]. intros h' T' l1 l2 Hh' Hrb' Hin Hin'. apply wp_ret, (HQ h' T'); [done|done|].
    rewrite Hin', Hin. rewrite Hin in Hnd. apply NoDup_app in Hnd as (_ & Hd & [Hx _]%NoDup_cons).
    rewrite filter_app, filter_cons, decide_False by naive_solver. by rewrite !filter_but_one by set_solver.
  - apply wp_ret, (HQ h T); [done|done|]. clear -HP. induction (inorder T) as [|q l IHl]; [done|].
    rewrite filter_cons, decide_True by naive_solver. f_equal. exact IHl.
Qed.
