(* ===== verification/RbThms.v ===== *)
(** * The tables of the daemon

    The properties of the red-black trees of [sys/tree.h], with the comparisons of the table of the
    bulbs and of the one of the packet types: they are the finite maps the other files have in their place. *)

From Stdlib Require Import ZArith Lia.
From stdpp Require Import base tactics list gmap sorting vector.
From S2P Require Import Prelude CLib WireProto World RouteSpec RbTree RbShape RbColors RbRemove RbSearch RbWalk.

(** ** Comparisons *)

(** [memcmp] on buffers of the same length. *)
Fixpoint memcmp (a b : list Z) : Z :=
  match a, b with
  | x :: a, y :: b => if x =? y then memcmp a b else x - y
  | _, _ => 0
  end.

(** The address of a bulb, an array of [LGTD_LIFX_ADDR_LENGTH] bytes. *)
Definition address : Type := vec Z LGTD_LIFX_ADDR_LENGTH.

Definition lgtd_lifx_bulb_cmp (a b : address) : Z := memcmp (vec_to_list a) (vec_to_list b).

Definition lgtd_lifx_packet_info_cmp (a b : Z) : Z := a - b.

#[export] Instance packet_info_comparison : Comparison lgtd_lifx_packet_info_cmp.
Proof. unfold lgtd_lifx_packet_info_cmp. split; intros; lia. Qed.

Lemma memcmp_zero a : forall b, length a = length b -> memcmp a b = 0 <-> a = b.
Proof.
  induction a as [|x a IH]; intros [|y b] Hlen; cbn in *; try lia; [done|]. destruct (Z.eqb_spec x y) as [->|Hne].
  - rewrite IH by lia. split; [by intros ->|by intros [= ->]].
  - split; [lia|]. by intros [= ??].
Qed.

Lemma memcmp_sign a : forall b, memcmp a b < 0 <-> 0 < memcmp b a.
Proof.
  induction a as [|x a IH]; intros [|y b]; cbn; try lia. rewrite (Z.eqb_sym y x). destruct (Z.eqb_spec x y); [apply IH|lia].
Qed.

Lemma memcmp_less a : forall b c, length a = length b -> length b = length c -> memcmp a b < 0 -> memcmp b c < 0 -> memcmp a c < 0.
Proof.
  induction a as [|x a IH]; intros [|y b] [|z c] H1 H2; cbn in *; try lia.
  destruct (Z.eqb_spec x y), (Z.eqb_spec y z), (Z.eqb_spec x z); subst; try lia. apply IH; lia.
Qed.

#[export] Instance bulb_comparison : Comparison lgtd_lifx_bulb_cmp.
Proof.
  unfold lgtd_lifx_bulb_cmp. split; intros.
  - rewrite memcmp_zero by (by rewrite !length_vec_to_list). split; [apply vec_to_list_inj2|by intros ->].
  - apply memcmp_sign.
  - apply (memcmp_less _ (vec_to_list b)); by rewrite ?length_vec_to_list.
Qed.

(** The order the other files iterate over the bulbs in. *)
Lemma memcmp_addr_order a : forall b, length a = length b -> memcmp a b <= 0 -> addr_order a b.
Proof.
  unfold addr_order. induction a as [|x a IH]; intros [|y b] Hlen Hle; cbn in *; try lia; try done.
  destruct (Z.ltb_spec x y); [done|]. destruct (Z.eqb_spec x y); cbn; [apply IH; lia|lia].
Qed.

(** ** Insertions and removals *)

(** A tree in the memory, with its conditions. *)
Definition table {K} (key : ptr -> K) (cmp : K -> K -> Z) (h : rb_head) (l : list ptr) : Prop :=
  exists T, has_tree h [] T /\ rb_tree T /\ ordered key cmp T /\ inorder T = l.

Lemma table_nil {K} (key : ptr -> K) cmp mem : table key cmp (RB_INITIALIZER mem) [].
Proof. exists Leaf. split_and!; [|by split; [|exists 0%nat]|constructor|done]. by split; [| |constructor]. Qed.

Lemma table_nodup {K} (key : ptr -> K) cmp h l : table key cmp h l -> NoDup l.
Proof. intros (T & Hh & _ & _ & <-). by destruct Hh. Qed.

Lemma table_sorted {K} (key : ptr -> K) cmp h l : table key cmp h l -> StronglySorted (less key cmp) l.
Proof. by intros (T & _ & _ & Ho & <-). Qed.

Lemma table_insert {K} (key : ptr -> K) (cmp : K -> K -> Z) `{!Comparison cmp} h l elm :
  table key cmp h l -> elm ∉ l -> is_Some (rb_mem h !! elm) ->
  exists res h', RB_INSERT key cmp elm h = Ret res h'
    /\ match res with
       | Some p => h' = h /\ p ∈ l /\ key p = key elm
       | None => (forall p, p ∈ l -> key p <> key elm) /\ exists l1 l2, l = l1 ++ l2 /\ table key cmp h' (l1 ++ elm :: l2)
       end.
Proof.
  intros (T & Hh & Hrb & Ho & <-) Hni Hmem. apply wp_run. apply (wp_rb_insert key cmp h T elm); [done..| |].
  - intros p Hp Hk. done.
  - intros h' T' l1 l2 Hh' Hrb' Ho' Hin Hin'. split; [|exists l1, l2; split; [done|]; by exists T'].
    intros p Hp Hk. unfold ordered in Ho'. rewrite Hin' in Ho'. rewrite Hin, elem_of_app in Hp.
    assert (Hz : cmp (key p) (key elm) = 0 /\ cmp (key elm) (key p) = 0) by (by split; apply cmp_zero).
    destruct Hp as [Hp|Hp].
    + pose proof (StronglySorted_app_1_elem_of _ _ _ p elm Ho' Hp ltac:(set_solver)) as Hl. unfold less in Hl. lia.
    + apply StronglySorted_app in Ho' as (_ & _ & Hs). inversion Hs as [|? ? _ Hf]; subst. rewrite Forall_forall in Hf.
      specialize (Hf p Hp). unfold less in Hf. lia.
Qed.

Lemma table_remove {K} (key : ptr -> K) (cmp : K -> K -> Z) `{!Comparison cmp} h l elm :
  table key cmp h l -> elm ∈ l ->
  exists h', RB_REMOVE (Some elm) h = Ret (Some elm) h' /\ table key cmp h' (filter (fun p => p <> elm) l).
Proof.
  intros (T & Hh & Hrb & Ho & <-) Hin.
  assert (Hnd : NoDup (inorder T)) by (by destruct Hh).
  destruct (wp_run (RB_REMOVE (Some elm)) (fun res h' => res = Some elm /\ table key cmp h' (filter (fun p => p <> elm) (inorder T))) h)
    as (res & h' & Hrun & -> & Ht); [|by exists h'].
  apply (wp_rb_remove h T elm); [done..|]. intros h' T' l1 l2 Hh' Hrb' Hin1 Hin2. split; [done|].
  rewrite Hin1 in Hnd |- *. apply NoDup_app in Hnd as (_ & Hd & [Hx _]%NoDup_cons).
  rewrite filter_app, filter_cons, decide_False by naive_solver. rewrite !filter_ne_id by set_solver.
  exists T'. split_and!; [done|done| |done]. unfold ordered in *. rewrite Hin2. rewrite Hin1 in Ho.
  apply StronglySorted_app in Ho as (Hlt & Hs1 & Hs2). inversion Hs2; subst. apply StronglySorted_app_2; [|done|done].
  intros p q Hp Hq. apply Hlt; [done|by right].
Qed.

(** ** The finite map of a table *)

Lemma table_foreach {K} (key : ptr -> K) cmp h l : table key cmp h l -> RB_FOREACH L h = Ret l h.
Proof.
  intros (T & Hh & _ & _ & <-). destruct (wp_run (RB_FOREACH L) (fun r h' => r = inorder T /\ h' = h) h) as (r & h' & Hrun & -> & ->);
    [by apply (wp_rb_foreach L h T)|done].
Qed.

Lemma table_foreach_safe {K} (key : ptr -> K) cmp (P : ptr -> Prop) `{!forall p, Decision (P p)} h l :
  table key cmp h l ->
  exists h', RB_FOREACH_SAFE (fun p => if decide (P p) then RB_REMOVE (Some p) ;; mret tt else mret tt) h = Ret tt h'
    /\ table key cmp h' (filter (fun p => ~ P p) l).
Proof.
  intros (T & Hh & Hrb & Ho & <-).
  destruct (wp_run (RB_FOREACH_SAFE (fun p => if decide (P p) then RB_REMOVE (Some p) ;; mret tt else mret tt))
              (fun _ h' => table key cmp h' (filter (fun p => ~ P p) (inorder T))) h) as ([] & h' & Hrun & Ht); [|by exists h'].
  apply (wp_rb_foreach_safe P h T); [done..|]. intros h' T' Hh' Hrb' Hin. exists T'. split_and!; [done..| |done].
  unfold ordered in *. rewrite Hin. clear -Ho. induction Ho as [|p l Hl IH Hp]; [constructor|]. rewrite filter_cons.
  case_decide; [|done]. constructor; [done|]. apply Forall_forall. intros q [_ Hq]%list_elem_of_filter. rewrite Forall_forall in Hp. by apply Hp.
Qed.

Lemma finds_unique {K} (key : ptr -> K) cmp `{!Comparison cmp} h l elm r r' :
  table key cmp h l -> finds key elm l r -> finds key elm l r' -> r = r'.
Proof.
  intros Ht%table_sorted. destruct r as [p|], r' as [q|]; cbn; [|naive_solver..|done]. intros [Hp Hkp] [Hq Hkq]. f_equal.
  induction Ht as [|x l Hl IH Hx]; [by apply elem_of_nil in Hp|]. rewrite Forall_forall in Hx. unfold less in Hx.
  assert (Hself : cmp elm elm = 0) by (by apply cmp_zero).
  apply elem_of_cons in Hp as [->|Hp], Hq as [->|Hq]; [done| | |by apply IH].
  - specialize (Hx q Hq). rewrite Hkp, Hkq in Hx. lia.
  - specialize (Hx p Hp). rewrite Hkp, Hkq in Hx. lia.
Qed.

Lemma table_find {K} (key : ptr -> K) cmp `{!Comparison cmp} h l elm :
  table key cmp h l -> exists res, RB_FIND key cmp elm h = Ret res h /\ finds key elm l res.
Proof.
  intros (T & Hh & _ & Ho & <-).
  destruct (wp_run (RB_FIND key cmp elm) (fun r h' => h' = h /\ finds key elm (inorder T) r) h) as (r & h' & Hrun & -> & Hf);
    [by apply (wp_rb_find key cmp elm h T)|by exists r].
Qed.

Section Bulbs.
Context (key : ptr -> address).

Definition addr_of (p : ptr) : addr := vec_to_list (key p).

Definition map_of (l : list ptr) : gmap addr ptr := list_to_map ((fun p => (addr_of p, p)) <$> l).

(** The memory has the table whose finite map is [m]. *)
Definition bulbs_table (h : rb_head) (m : gmap addr ptr) : Prop :=
  exists l, table key lgtd_lifx_bulb_cmp h l /\ m = map_of l.

Lemma fst_pairs l : ((fun p => (addr_of p, p)) <$> l).*1 = addr_of <$> l.
Proof. rewrite <- list_fmap_compose. by apply list_fmap_ext. Qed.

Lemma addresses_nodup h l : table key lgtd_lifx_bulb_cmp h l -> NoDup (addr_of <$> l).
Proof.
  intros Ht%table_sorted. induction Ht as [|x l Hl IH Hx]; [constructor|]. constructor; [|done].
  intros (q & Heq & Hq)%list_elem_of_fmap. rewrite Forall_forall in Hx. specialize (Hx q Hq). unfold less, lgtd_lifx_bulb_cmp in Hx.
  unfold addr_of in Heq. rewrite Heq in Hx. assert (memcmp (vec_to_list (key q)) (vec_to_list (key q)) = 0) by (by apply memcmp_zero). lia.
Qed.

Lemma map_of_lookup h l a p :
  table key lgtd_lifx_bulb_cmp h l -> map_of l !! vec_to_list a = Some p <-> p ∈ l /\ key p = a.
Proof.
  intros Ht. unfold map_of. rewrite <- elem_of_list_to_map by (rewrite fst_pairs; by eapply addresses_nodup).
  rewrite list_elem_of_fmap. split.
  - intros (q & [= Ha ->] & Hq). split; [done|]. by apply vec_to_list_inj2.
  - intros [Hp <-]. by exists p.
Qed.

Lemma map_of_find h l a r :
  table key lgtd_lifx_bulb_cmp h l -> finds key a l r -> map_of l !! vec_to_list a = r.
Proof.
  intros Ht Hf. destruct r as [p|]; [by apply (map_of_lookup h)|]. destruct (map_of l !! vec_to_list a) as [p|] eqn:Hp; [|done].
  apply (map_of_lookup h) in Hp as [Hin Hk]; [|done]. by specialize (Hf p Hin).
Qed.

Lemma map_of_app h l1 p l2 :
  table key lgtd_lifx_bulb_cmp h (l1 ++ p :: l2) -> map_of (l1 ++ p :: l2) = <[addr_of p := p]> (map_of (l1 ++ l2)).
Proof.
  intros Ht%addresses_nodup. rewrite fmap_app in Ht. cbn in Ht. apply NoDup_app in Ht as (_ & Hd & _).
  unfold map_of. rewrite !fmap_app, !list_to_map_app. cbn. rewrite insert_union_r; [done|].
  apply not_elem_of_list_to_map_1. rewrite fst_pairs. intros Hin. by apply (Hd _ Hin); left.
Qed.

Lemma map_of_filter h l (P : ptr -> Prop) `{!forall p, Decision (P p)} :
  table key lgtd_lifx_bulb_cmp h l -> map_of (filter P l) = filter (fun x => P x.2) (map_of l).
Proof.
  intros Ht%addresses_nodup. unfold map_of. induction l as [|p l IH]; [done|]. cbn in Ht. apply NoDup_cons in Ht as [Hni Hnd].
  assert (Hnone : (list_to_map ((fun p => (addr_of p, p)) <$> l) : gmap addr ptr) !! addr_of p = None)
    by (apply not_elem_of_list_to_map_1; by rewrite fst_pairs).
  rewrite filter_cons. cbn [fmap list_fmap list_to_map foldr]. case_decide as HP; cbn.
  - rewrite IH by done. by rewrite map_filter_insert_True.
  - rewrite IH by done. rewrite map_filter_insert_False by done. by rewrite delete_id.
Qed.

Lemma map_of_order h l :
  table key lgtd_lifx_bulb_cmp h l -> addr_of <$> l = merge_sort addr_order (map_to_list (map_of l)).*1.
Proof.
  intros Ht. pose proof (addresses_nodup h l Ht) as Hnd. apply (StronglySorted_unique addr_order).
  - apply table_sorted in Ht. induction Ht as [|p l Hl IH Hp]; [constructor|]. apply NoDup_cons in Hnd as [_ Hnd].
    constructor; [by apply IH|]. apply Forall_fmap. eapply Forall_impl; [exact Hp|]. intros q Hq. apply memcmp_addr_order.
    + apply vec_to_list_same_length.
    + unfold less, lgtd_lifx_bulb_cmp in Hq. unfold addr_of. lia.
  - apply StronglySorted_merge_sort; apply _.
  - rewrite merge_sort_Permutation. unfold map_of. rewrite map_to_list_to_map by (by rewrite fst_pairs). by rewrite fst_pairs.
Qed.
End Bulbs.

(** ** An example *)

(** Four nodes, of which the first three are in the tree. *)
Definition example_mem : gmap ptr rb_entry :=
  list_to_map [ (1%positive, entry L RB_RED None None (Some 2%positive));
                (2%positive, entry L RB_BLACK (Some 1%positive) (Some 3%positive) None);
                (3%positive, entry L RB_RED None None (Some 2%positive));
                (4%positive, entry L RB_RED None None None) ].
Definition example_head : rb_head := {| rbh_root := Some 2%positive; rb_mem := example_mem |}.
Definition example_list : list ptr := [1; 2; 3]%positive.

(** The key of a node is its number, or an address made of it. *)
Definition example_addr (p : ptr) : address := vcons (Z.pos p) (vreplicate 5 0).

Lemma example_table {K} (key : ptr -> K) (cmp : K -> K -> Z) :
  StronglySorted (less key cmp) example_list -> table key cmp example_head example_list.
Proof.
  intros Ho. exists (Node RB_BLACK (Node RB_RED Leaf 1%positive Leaf) 2%positive (Node RB_RED Leaf 3%positive Leaf)).
  split_and!; [|by split; [|exists 1%nat]|done|done]. split; [done|by split_and!|by apply (bool_decide_unpack _)].
Qed.

Lemma example_sorted : StronglySorted (less Z.pos lgtd_lifx_packet_info_cmp) example_list.
Proof. by repeat constructor. Qed.

(** ** The properties *)

(** C11: [RB_INSERT] on a red-black tree returns, with no bad pointer: the node with the same key if there is one, and then
    nothing changed; else [NULL], and the tree is a red-black tree with the new node and all the others, in
    the order of the keys. *)
Theorem rb_insert_correct {K} (key : ptr -> K) (cmp : K -> K -> Z) `{!Comparison cmp} h l elm :
  table key cmp h l -> elm ∉ l -> is_Some (rb_mem h !! elm) ->
  exists res h', RB_INSERT key cmp elm h = Ret res h'
    /\ match res with
       | Some p => h' = h /\ p ∈ l /\ key p = key elm
       | None => (forall p, p ∈ l -> key p <> key elm) /\ exists l1 l2, l = l1 ++ l2 /\ table key cmp h' (l1 ++ elm :: l2)
       end.
Proof. exact (table_insert key cmp h l elm). Qed.

Lemma rb_insert_correct_witness :
  exists res h', RB_INSERT Z.pos lgtd_lifx_packet_info_cmp 4%positive example_head = Ret res h'
    /\ match res with
       | Some p => h' = example_head /\ p ∈ example_list /\ Z.pos p = 4
       | None => (forall p, p ∈ example_list -> Z.pos p <> 4)
                 /\ exists l1 l2, example_list = l1 ++ l2 /\ table Z.pos lgtd_lifx_packet_info_cmp h' (l1 ++ 4%positive :: l2)
       end.
Proof.
  apply (rb_insert_correct Z.pos lgtd_lifx_packet_info_cmp example_head example_list 4%positive);
    [apply example_table, example_sorted|by apply (bool_decide_unpack _)|by eexists].
Defined.

(** C12: [RB_REMOVE] of a node of a red-black tree returns the node, with no bad pointer, and the tree is a
    red-black tree of the other nodes, in the same order. *)
Theorem rb_remove_correct {K} (key : ptr -> K) (cmp : K -> K -> Z) `{!Comparison cmp} h l elm :
  table key cmp h l -> elm ∈ l ->
  exists h', RB_REMOVE (Some elm) h = Ret (Some elm) h' /\ table key cmp h' (filter (fun p => p <> elm) l).
Proof. exact (table_remove key cmp h l elm). Qed.

Lemma rb_remove_correct_witness :
  exists h', RB_REMOVE (Some 2%positive) example_head = Ret (Some 2%positive) h'
    /\ table Z.pos lgtd_lifx_packet_info_cmp h' (filter (fun p => p <> 2%positive) example_list).
Proof.
  apply (rb_remove_correct Z.pos lgtd_lifx_packet_info_cmp example_head example_list 2%positive);
    [apply example_table, example_sorted|by apply (bool_decide_unpack _)].
Defined.

(** *** Height *)

Lemma rb_size t : forall n, is_rb t n -> (2 ^ n <= length (inorder t) + 1)%nat.
Proof.
  induction t as [|[] l IHl x r IHr]; intros n; cbn [is_rb inorder length].
  - intros ->. cbn. lia.
  - destruct n as [|n]; [done|]. intros [Hl%IHl Hr%IHr]. rewrite length_app. cbn [length]. rewrite Nat.pow_succ_r'. lia.
  - intros (_ & _ & Hl%IHl & Hr%IHr). rewrite length_app. cbn [length]. lia.
Qed.

Lemma rb_height t : forall n, is_rb t n -> (height t <= 2 * n + if decide (color t = RB_RED) then 1 else 0)%nat.
Proof.
  induction t as [|[] l IHl x r IHr]; intros n; cbn [is_rb height color].
  - intros ->. cbn. lia.
  - destruct n as [|n]; [done|]. intros [Hl%IHl Hr%IHr]. cbn. repeat case_decide; lia.
  - intros (Hcl & Hcr & Hl%IHl & Hr%IHr). rewrite Hcl, decide_False in Hl by done. rewrite Hcr, decide_False in Hr by done.
    rewrite decide_True by done. lia.
Qed.

(** C24: a lookup is short, as the comment of [sys/tree.h] says: in a tree of [n] nodes the number [d] of keys that [RB_FIND]
    compares at most is no more than 2 lg (n + 1), that is 2 ^ d <= (n + 1) ^ 2, and within these turns
    it finds the node with the key, or says that there is none. *)
Theorem rb_find_bounded {K} (key : ptr -> K) (cmp : K -> K -> Z) `{!Comparison cmp} h l :
  table key cmp h l ->
  exists d, (2 ^ d <= (length l + 1) ^ 2)%nat
    /\ forall elm, exists res, finds key elm l res
       /\ RB_FIND key cmp elm h = Ret res h /\ find_loop key cmp (S d) elm (rbh_root h) h = Ret res h.
Proof.
  intros Ht. pose proof Ht as (T & Hh & [Hb (n & Hn)] & Ho & <-). exists (height T). split.
  - pose proof (rb_size T n Hn) as Hs. pose proof (rb_height T n Hn) as Hht. rewrite Hb, decide_False in Hht by done.
    transitivity (2 ^ (2 * n))%nat; [apply Nat.pow_le_mono_r; lia|]. rewrite Nat.mul_comm, Nat.pow_mul_r.
    apply Nat.pow_le_mono_l. done.
  - intros elm. destruct (table_find key cmp h (inorder T) elm Ht) as (res & Hrun & Hf). exists res. split_and!; [done|done|].
    destruct (wp_run (find_loop key cmp (S (height T)) elm (rbh_root h)) (fun r h' => h' = h /\ finds key elm (inorder T) r) h)
      as (r & h' & Hr & -> & Hf').
    { pose proof (ht_hole _ _ _ Hh) as ->. apply (wp_find_loop key cmp elm T (S (height T)) h []); [lia|done..]. }
    by rewrite Hr, (finds_unique key cmp h (inorder T) elm res r).
Qed.

Lemma rb_find_bounded_witness :
  exists d, (2 ^ d <= (length example_list + 1) ^ 2)%nat
    /\ forall elm, exists res, finds Z.pos elm example_list res
       /\ RB_FIND Z.pos lgtd_lifx_packet_info_cmp elm example_head = Ret res example_head
       /\ find_loop Z.pos lgtd_lifx_packet_info_cmp (S d) elm (rbh_root example_head) example_head = Ret res example_head.
Proof.
  apply (rb_find_bounded Z.pos lgtd_lifx_packet_info_cmp example_head example_list). apply example_table, example_sorted.
Defined.

(** *** Refinement *)

(** C10: the red-black tree of the bulbs is a finite map from addresses, which is what the other files have for
    [lgtd_lifx_bulbs_table]. [RB_FIND] is its lookup. [RB_INSERT] of a new bulb returns the bulb that
    has its address already, and else adds it; [RB_REMOVE] deletes; [RB_FOREACH] visits the bulbs in the order of their
    addresses that the other files use; and [RB_FOREACH_SAFE] whose body removes some of the bulbs it is given
    leaves exactly the other ones. *)
Theorem bulbs_table_refined (key : ptr -> address) h m :
  bulbs_table key h m ->
  (forall a, RB_FIND key lgtd_lifx_bulb_cmp a h = Ret (m !! vec_to_list a) h)
  /\ (forall p, is_Some (rb_mem h !! p) -> m !! addr_of key p <> Some p ->
      exists h', RB_INSERT key lgtd_lifx_bulb_cmp p h = Ret (m !! addr_of key p) h'
        /\ bulbs_table key h' (match m !! addr_of key p with Some _ => m | None => <[addr_of key p := p]> m end))
  /\ (forall p, m !! addr_of key p = Some p ->
      exists h', RB_REMOVE (Some p) h = Ret (Some p) h' /\ bulbs_table key h' (delete (addr_of key p) m))
  /\ (exists l, RB_FOREACH L h = Ret l h /\ addr_of key <$> l = merge_sort addr_order (map_to_list m).*1)
  /\ (forall (P : ptr -> Prop) (Hdec : forall p, Decision (P p)),
      exists h', RB_FOREACH_SAFE (fun p => if decide (P p) then RB_REMOVE (Some p) ;; mret tt else mret tt) h = Ret tt h'
        /\ bulbs_table key h' (filter (fun x => ~ P x.2) m)).
Proof.
  intros (l & Ht & ->). split_and!.
  - intros a. destruct (table_find key lgtd_lifx_bulb_cmp h l a Ht) as (r & Hrun & Hf). by rewrite (map_of_find key h l a r).
  - intros p Hmem Hnot. assert (Hni : p ∉ l) by (intros Hin; apply Hnot; by apply (map_of_lookup key h)).
    destruct (table_insert key lgtd_lifx_bulb_cmp h l p Ht Hni Hmem) as (r & h' & Hrun & Hr).
    assert (Hm : map_of key l !! addr_of key p = r).
    { apply (map_of_find key h l (key p)); [done|]. destruct r as [q|]; cbn; naive_solver. }
    rewrite Hm. exists h'. split; [done|]. destruct r as [q|].
    + destruct Hr as (-> & _). by exists l.
    + destruct Hr as (_ & l1 & l2 & -> & Ht'). exists (l1 ++ p :: l2). split; [done|]. by rewrite (map_of_app key h').
  - intros p [Hin _]%(map_of_lookup key h l (key p) p Ht). destruct (table_remove key lgtd_lifx_bulb_cmp h l p Ht Hin) as (h' & Hrun & Ht').
    exists h'. split; [done|]. exists (filter (fun q => q <> p) l). split; [done|]. rewrite (map_of_filter key h l) by done.
    apply map_eq. intros a. rewrite map_lookup_filter. destruct (decide (a = addr_of key p)) as [->|Hne].
    + rewrite lookup_delete_eq. destruct (map_of key l !! addr_of key p) as [q|] eqn:Hq; [|done]. cbn.
      destruct (proj1 (map_of_lookup key h l (key p) q Ht) Hq) as [Hq' Hk].
      assert (q = p) as ->; [|by rewrite option_guard_False by naive_solver].
      assert (Hqp : finds key (key p) l (Some q) /\ finds key (key p) l (Some p)) by done.
      by apply (inj Some), (finds_unique key lgtd_lifx_bulb_cmp h l (key p)).
    + rewrite lookup_delete_ne by done. destruct (map_of key l !! a) as [q|] eqn:Hq; [|done]. cbn.
      rewrite option_guard_True; [done|]. intros ->. apply Hne. unfold map_of in Hq. apply elem_of_list_to_map_2 in Hq.
      by apply list_elem_of_fmap in Hq as (q & [= -> ->] & _).
  - exists l. split; [by apply (table_foreach key lgtd_lifx_bulb_cmp)|by apply (map_of_order key h)].
  - intros P Hdec. destruct (table_foreach_safe key lgtd_lifx_bulb_cmp P h l Ht) as (h' & Hrun & Ht'). exists h'. split; [done|].
    exists (filter (fun p => ~ P p) l). split; [done|]. by rewrite (map_of_filter key h l).
Qed.

Lemma example_bulbs : bulbs_table example_addr example_head (map_of example_addr example_list).
Proof. exists example_list. split; [|done]. apply example_table. by repeat constructor. Qed.

Lemma bulbs_table_refined_witness :
  RB_FIND example_addr lgtd_lifx_bulb_cmp (example_addr 3%positive) example_head = Ret (Some 3%positive) example_head
  /\ (exists l, RB_FOREACH L example_head = Ret l example_head
       /\ addr_of example_addr <$> l = merge_sort addr_order (map_to_list (map_of example_addr example_list)).*1)
  /\ exists h', RB_REMOVE (Some 2%positive) example_head = Ret (Some 2%positive) h'
       /\ bulbs_table example_addr h' (delete (addr_of example_addr 2%positive) (map_of example_addr example_list)).
Proof.
  destruct (bulbs_table_refined example_addr example_head (map_of example_addr example_list) example_bulbs)
    as (Hfind & _ & Hremove & Hforeach & _).
  split_and!; [apply Hfind|exact Hforeach|]. by apply Hremove.
Defined.
