(* ===== verification/SysQueue.v ===== *)
(** * The linked lists of compat/generic/sys/queue.h

    The macros [SLIST_*] and [LIST_*] that the daemon uses, on a memory of nodes with their pointers, and the proof
    that they are the lists the other files have in their place. A pointer is [None] when it is [NULL];
    a node that is not in the memory is not read. A loop is given one turn more than there are nodes. *)

From Stdlib Require Import ZArith Lia.
From stdpp Require Import base tactics list gmap.
From S2P Require Import Prelude RbTree.

(** ** Singly-linked lists *)

(** [SLIST_HEAD], and the [sle_next] of every node. *)
Record slist_head : Type := {
  slh_first : option ptr;
  sl_mem : gmap ptr (option ptr)
}.

Definition set_slh_first (v : option ptr) : M slist_head unit :=
  mmodify (fun h => {| slh_first := v; sl_mem := sl_mem h |}).

Definition SLIST_FIRST : M slist_head (option ptr) := mgets slh_first.
Definition SLIST_EMPTY (h : slist_head) : bool := bool_decide (slh_first h = None).

Definition SLIST_NEXT (elm : option ptr) : M slist_head (option ptr) :=
  h ← mget;
  mderef (elm ≫= fun p => sl_mem h !! p).

Definition set_sle_next (elm v : option ptr) : M slist_head unit :=
  SLIST_NEXT elm ;;
  p ← mderef elm;
  mmodify (fun h => {| slh_first := slh_first h; sl_mem := <[p := v]> (sl_mem h) |}).

Definition SLIST_INIT : M slist_head unit := set_slh_first None.

Definition SLIST_INSERT_HEAD (elm : option ptr) : M slist_head unit :=
  first ← SLIST_FIRST;
  set_sle_next elm first ;;
  set_slh_first elm.

Definition SLIST_REMOVE_HEAD : M slist_head unit :=
  first ← SLIST_FIRST;
  next ← SLIST_NEXT first;
  set_slh_first next.

(** The node before [elm]. *)
Fixpoint slist_find_prev (fuel : nat) (curelm elm : option ptr) : M slist_head (option ptr) :=
  match fuel with
  | O => mcrash UndefinedBehaviour
  | S fuel =>
    next ← SLIST_NEXT curelm;
    if bool_decide (next = elm) then mret curelm else slist_find_prev fuel next elm
  end.

Definition SLIST_REMOVE (elm : option ptr) : M slist_head unit :=
  first ← SLIST_FIRST;
  if bool_decide (first = elm) then SLIST_REMOVE_HEAD
  else
    fuel ← mgets (fun h => S (size (sl_mem h)));
    curelm ← slist_find_prev fuel first elm;
    next ← SLIST_NEXT curelm;
    next ← SLIST_NEXT next;
    set_sle_next curelm next.

(** The nodes [SLIST_FOREACH] gives to a body that leaves the list alone. *)
Fixpoint slist_foreach_loop (fuel : nat) (var : option ptr) : M slist_head (list ptr) :=
  match fuel with
  | O => mcrash UndefinedBehaviour
  | S fuel =>
    match var with
    | None => mret []
    | Some p => next ← SLIST_NEXT var; rest ← slist_foreach_loop fuel next; mret (p :: rest)
    end
  end.

Definition SLIST_FOREACH : M slist_head (list ptr) :=
  fuel ← mgets (fun h => S (size (sl_mem h)));
  first ← SLIST_FIRST;
  slist_foreach_loop fuel first.

(** ** Lists *)

(** What [le_prev] points to: the first pointer of the head or the one of a node to its next. *)
Inductive slot : Type := lh_first_slot | le_next_slot (p : ptr).

Record list_entry : Type := {
  le_next : option ptr;
  le_prev : option slot
}.

Record list_head : Type := {
  lh_first : option ptr;
  l_mem : gmap ptr list_entry
}.

Definition LIST_FIRST : M list_head (option ptr) := mgets lh_first.
Definition LIST_EMPTY (h : list_head) : bool := bool_decide (lh_first h = None).

Definition list_node (elm : option ptr) : M list_head list_entry :=
  h ← mget;
  mderef (elm ≫= fun p => l_mem h !! p).

Definition LIST_NEXT (elm : option ptr) : M list_head (option ptr) := e ← list_node elm; mret (le_next e).

Definition put_entry (p : ptr) (e : list_entry) (h : list_head) : list_head :=
  {| lh_first := lh_first h; l_mem := <[p := e]> (l_mem h) |}.

Definition set_le_next (elm v : option ptr) : M list_head unit :=
  e ← list_node elm;
  p ← mderef elm;
  mmodify (put_entry p {| le_next := v; le_prev := le_prev e |}).
Definition set_le_prev (elm : option ptr) (v : option slot) : M list_head unit :=
  e ← list_node elm;
  p ← mderef elm;
  mmodify (put_entry p {| le_next := le_next e; le_prev := v |}).

(** A write through [le_prev]. *)
Definition write_slot (s : option slot) (v : option ptr) : M list_head unit :=
  s ← mderef s;
  match s with
  | lh_first_slot => mmodify (fun h => {| lh_first := v; l_mem := l_mem h |})
  | le_next_slot p => set_le_next (Some p) v
  end.

Definition LIST_INSERT_HEAD (elm : ptr) : M list_head unit :=
  first ← LIST_FIRST;
  set_le_next (Some elm) first ;;
  mwhen (bool_decide (is_Some first)) (set_le_prev first (Some (le_next_slot elm))) ;;
  write_slot (Some lh_first_slot) (Some elm) ;;
  set_le_prev (Some elm) (Some lh_first_slot).

Definition LIST_REMOVE (elm : ptr) : M list_head unit :=
  e ← list_node (Some elm);
  mwhen (bool_decide (is_Some (le_next e))) (set_le_prev (le_next e) (le_prev e)) ;;
  e ← list_node (Some elm);
  write_slot (le_prev e) (le_next e).

Fixpoint list_foreach_loop (fuel : nat) (var : option ptr) : M list_head (list ptr) :=
  match fuel with
  | O => mcrash UndefinedBehaviour
  | S fuel =>
    match var with
    | None => mret []
    | Some p => next ← LIST_NEXT var; rest ← list_foreach_loop fuel next; mret (p :: rest)
    end
  end.

Definition LIST_FOREACH : M list_head (list ptr) :=
  fuel ← mgets (fun h => S (size (l_mem h)));
  first ← LIST_FIRST;
  list_foreach_loop fuel first.

(** The body may remove the node it is given. *)
Fixpoint list_foreach_safe_loop (fuel : nat) (var : option ptr) (body : ptr -> M list_head unit) : M list_head unit :=
  match fuel with
  | O => mcrash UndefinedBehaviour
  | S fuel =>
    match var with
    | None => mret tt
    | Some p => tvar ← LIST_NEXT var; body p ;; list_foreach_safe_loop fuel tvar body
    end
  end.

Definition LIST_FOREACH_SAFE (body : ptr -> M list_head unit) : M list_head unit :=
  fuel ← mgets (fun h => S (size (l_mem h)));
  first ← LIST_FIRST;
  list_foreach_safe_loop fuel first body.

(** ** What is in the memory *)

(** A part of a singly-linked list, from [first] to [last]. *)
Fixpoint sl_seg (m : gmap ptr (option ptr)) (first : option ptr) (l : list ptr) (last : option ptr) : Prop :=
  match l with
  | [] => first = last
  | x :: l => first = Some x /\ exists next, m !! x = Some next /\ sl_seg m next l last
  end.

Definition slist (h : slist_head) (l : list ptr) : Prop := NoDup l /\ sl_seg (sl_mem h) (slh_first h) l None.

Lemma sl_seg_app m f l1 l2 e : sl_seg m f (l1 ++ l2) e <-> exists f', sl_seg m f l1 f' /\ sl_seg m f' l2 e.
Proof.
  revert f. induction l1 as [|x l1 IH]; intros f; cbn; [split; [by eexists|by intros (? & -> & ?)]|].
  split.
  - intros (-> & n & Hx & (f' & H1 & H2)%IH). exists f'. split; [|done]. split; [done|]. by exists n.
  - intros (f' & (-> & n & Hx & H1) & H2). split; [done|]. exists n. split; [done|]. apply IH. by exists f'.
Qed.

Lemma sl_seg_put m x v f l e : x ∉ l -> sl_seg m f l e -> sl_seg (<[x := v]> m) f l e.
Proof.
  revert f. induction l as [|y l IH]; intros f; cbn; [done|]. intros [Hxy Hl]%not_elem_of_cons (-> & n & Hy & Hs).
  split; [done|]. exists n. split; [by rewrite lookup_insert_ne|by apply IH].
Qed.

Lemma sl_seg_dom m f l e x : sl_seg m f l e -> x ∈ l -> is_Some (m !! x).
Proof.
  revert f. induction l as [|y l IH]; intros f; cbn; [by intros _ ?%elem_of_nil|]. intros (-> & n & Hy & Hs).
  rewrite elem_of_cons. intros [->|Hx]; [by rewrite Hy|by eapply IH].
Qed.

Lemma length_size {A} (m : gmap ptr A) (l : list ptr) : NoDup l -> (forall x, x ∈ l -> is_Some (m !! x)) -> (length l <= size m)%nat.
Proof.
  intros Hnd Hl. rewrite <- size_dom, <- (size_list_to_set (C := gset ptr) _ Hnd). apply subseteq_size.
  intros x. rewrite elem_of_list_to_set, elem_of_dom. apply Hl.
Qed.

Lemma wp_slist_next h x n (Q : option ptr -> slist_head -> Prop) :
  sl_mem h !! x = Some n -> Q n h -> wp (SLIST_NEXT (Some x)) Q h.
Proof. intros Hx HQ. apply wp_bind, wp_get. by apply (wp_deref _ _ _ n). Qed.

Lemma wp_set_sle_next h x v (Q : unit -> slist_head -> Prop) :
  is_Some (sl_mem h !! x) -> Q tt {| slh_first := slh_first h; sl_mem := <[x := v]> (sl_mem h) |} -> wp (set_sle_next (Some x) v) Q h.
Proof.
  intros [n Hx] HQ. apply wp_bind, (wp_slist_next h x n); [done|]. apply wp_bind, (wp_deref _ _ _ x); [done|]. by apply wp_modify.
Qed.

Lemma wp_slist_insert h l x (Q : unit -> slist_head -> Prop) :
  slist h l -> x ∉ l -> is_Some (sl_mem h !! x) -> (forall h', slist h' (x :: l) -> Q tt h') -> wp (SLIST_INSERT_HEAD (Some x)) Q h.
Proof.
  intros [Hnd Hs] Hni Hx HQ. apply wp_bind, wp_gets. apply wp_bind, wp_set_sle_next; [done|]. apply wp_modify, HQ.
  split; [by constructor|]. cbn. split; [done|]. exists (slh_first h). rewrite lookup_insert_eq. split; [done|by apply sl_seg_put].
Qed.

Lemma wp_slist_remove_head h x l (Q : unit -> slist_head -> Prop) :
  slist h (x :: l) -> (forall h', slist h' l -> Q tt h') -> wp SLIST_REMOVE_HEAD Q h.
Proof.
  intros [[Hni Hnd]%NoDup_cons (Hf & n & Hx & Hs)] HQ. apply wp_bind, wp_gets. rewrite Hf.
  apply wp_bind, (wp_slist_next h x n); [done|]. apply wp_modify, HQ. by split.
Qed.

Lemma wp_slist_find_prev pre : forall fuel h c x l (Q : option ptr -> slist_head -> Prop),
  (length pre < fuel)%nat -> x ∉ pre -> sl_seg (sl_mem h) (Some c) (c :: pre ++ x :: l) None -> Q (last (c :: pre)) h ->
  wp (slist_find_prev fuel (Some c) (Some x)) Q h.
Proof.
  induction pre as [|d pre IH]; intros [|fuel] h c x l Q Hf Hni (_ & n & Hc & Hs) HQ; try (cbn in Hf; lia); cbn [slist_find_prev].
  - destruct Hs as (-> & _). apply wp_bind, (wp_slist_next h c _ _ Hc). rewrite bool_decide_true by done. by apply wp_ret.
  - apply not_elem_of_cons in Hni as [Hxd Hni]. cbn in Hf. pose proof Hs as (-> & _). apply wp_bind, (wp_slist_next h c _ _ Hc).
    rewrite bool_decide_false by congruence. by apply (IH fuel h d x l); [lia|..].
Qed.

Lemma wp_slist_remove h l1 x l2 (Q : unit -> slist_head -> Prop) :
  slist h (l1 ++ x :: l2) -> (forall h', slist h' (l1 ++ l2) -> Q tt h') -> wp (SLIST_REMOVE (Some x)) Q h.
Proof.
  intros Hl HQ. pose proof Hl as [Hnd Hs]. apply wp_bind, wp_gets. destruct l1 as [|c pre].
  - pose proof Hs as (-> & _). rewrite bool_decide_true by done. by apply (wp_slist_remove_head h x l2).
  - pose proof Hs as (-> & _). apply NoDup_app in Hnd as (Hnd1 & Hd & [Hx2 Hnd2]%NoDup_cons).
    rewrite bool_decide_false by (intros [= ->]; apply (Hd x); set_solver). apply wp_bind, wp_gets.
    assert (Hlen : (length ((c :: pre) ++ x :: l2) <= size (sl_mem h))%nat)
      by (apply length_size; [apply Hl|intros; by eapply sl_seg_dom]).
    rewrite length_app in Hlen. cbn in Hlen.
    apply wp_bind. apply (wp_slist_find_prev pre _ h c x l2); [lia|intros Hin; apply (Hd x); set_solver|by rewrite <- (proj1 Hs)|].
    destruct (exists_last (l := c :: pre)) as (pre' & y & Hpre); [done|]. rewrite Hpre in *. rewrite last_snoc.
    apply sl_seg_app in Hs as (f & Hs1 & (-> & n & Hx & Hs2)). apply sl_seg_app in Hs1 as (f & Hs1 & (-> & n' & Hy & Hn')).
    cbn in Hn'. subst n'. apply wp_bind, (wp_slist_next h y _ _ Hy). apply wp_bind, (wp_slist_next h x _ _ Hx).
    assert (Hy1 : y ∉ pre') by (apply NoDup_app in Hnd1 as (_ & Hd1 & _); set_solver).
    assert (Hy2 : y ∉ l2) by (intros ?; apply (Hd y); set_solver).
    apply wp_set_sle_next; [by rewrite Hy|]. apply HQ. split.
    + apply NoDup_app. split_and!; [done|intros z Hz Hz2; apply (Hd z); set_solver|done].
    + rewrite <- app_assoc. apply sl_seg_app. exists (Some y). split; [by apply sl_seg_put|]. split; [done|].
      exists n. cbn. rewrite lookup_insert_eq. split; [done|by apply sl_seg_put].
Qed.

Lemma wp_slist_foreach_loop l : forall fuel h f (Q : list ptr -> slist_head -> Prop),
  (length l < fuel)%nat -> sl_seg (sl_mem h) f l None -> Q l h -> wp (slist_foreach_loop fuel f) Q h.
Proof.
  induction l as [|x l IH]; intros [|fuel] h f Q Hf Hs HQ; try (cbn in Hf; lia); cbn in Hs; cbn [slist_foreach_loop].
  - subst f. by apply wp_ret.
  - destruct Hs as (-> & n & Hx & Hs). cbn in Hf. apply wp_bind, (wp_slist_next h x n); [done|].
    apply wp_bind, (IH fuel h n); [lia|done|]. by apply wp_ret.
Qed.

Lemma wp_slist_foreach h l (Q : list ptr -> slist_head -> Prop) : slist h l -> Q l h -> wp SLIST_FOREACH Q h.
Proof.
  intros [Hnd Hs] HQ. apply wp_bind, wp_gets, wp_bind, wp_gets, wp_slist_foreach_loop with (l := l); [|done|done].
  pose proof (length_size (sl_mem h) l Hnd (fun x => sl_seg_dom _ _ _ _ x Hs)). lia.
Qed.

(** *** Lists with two pointers *)

(** A part of a list: [s] points to it and holds [f], and [e] points to what follows, which is [v]. *)
Fixpoint seg (m : gmap ptr list_entry) (s : slot) (f : option ptr) (l : list ptr) (e : slot) (v : option ptr) : Prop :=
  match l with
  | [] => s = e /\ f = v
  | x :: l => f = Some x /\ exists n, m !! x = Some {| le_next := n; le_prev := Some s |} /\ seg m (le_next_slot x) n l e v
  end.

Definition dlist (h : list_head) (l : list ptr) : Prop :=
  NoDup l /\ exists e, seg (l_mem h) lh_first_slot (lh_first h) l e None.

Lemma seg_app m s f l1 l2 e v : seg m s f (l1 ++ l2) e v <-> exists s' f', seg m s f l1 s' f' /\ seg m s' f' l2 e v.
Proof.
  revert s f. induction l1 as [|x l1 IH]; intros s f; cbn; [split; [by eexists _, _|by intros (? & ? & [-> ->] & ?)]|].
  split.
  - intros (-> & n & Hx & (s' & f' & H1 & H2)%IH). exists s', f'. split; [|done]. split; [done|]. by exists n.
  - intros (s' & f' & (-> & n & Hx & H1) & H2). split; [done|]. exists n. split; [done|]. apply IH. by exists s', f'.
Qed.

Lemma seg_ext m m' s f l e v : (forall x, x ∈ l -> m' !! x = m !! x) -> seg m s f l e v -> seg m' s f l e v.
Proof.
  revert s f. induction l as [|y l IH]; intros s f Hm; [done|]. intros (-> & n & Hy & Hs). split; [done|]. exists n.
  split; [rewrite Hm by (by left); done|]. apply IH; [|done]. intros x Hx. apply Hm. by right.
Qed.

Lemma seg_put m x c s f l e v : x ∉ l -> seg m s f l e v -> seg (<[x := c]> m) s f l e v.
Proof.
  revert s f. induction l as [|y l IH]; intros s f; cbn; [done|]. intros [Hxy Hl]%not_elem_of_cons (-> & n & Hy & Hs).
  split; [done|]. exists n. split; [by rewrite lookup_insert_ne|by apply IH].
Qed.

Lemma seg_dom m s f l e v x : seg m s f l e v -> x ∈ l -> is_Some (m !! x).
Proof.
  revert s f. induction l as [|y l IH]; intros s f; cbn; [by intros _ ?%elem_of_nil|]. intros (-> & n & Hy & Hs).
  rewrite elem_of_cons. intros [->|Hx]; [by rewrite Hy|by eapply IH].
Qed.

Lemma wp_list_node h x n (Q : list_entry -> list_head -> Prop) : l_mem h !! x = Some n -> Q n h -> wp (list_node (Some x)) Q h.
Proof. intros Hx HQ. apply wp_bind, wp_get. by apply (wp_deref _ _ _ n). Qed.

Lemma wp_set_le_next h x c v (Q : unit -> list_head -> Prop) :
  l_mem h !! x = Some c -> Q tt (put_entry x {| le_next := v; le_prev := le_prev c |} h) -> wp (set_le_next (Some x) v) Q h.
Proof.
  intros Hx HQ. apply wp_bind, (wp_list_node h x c); [done|]. apply wp_bind, (wp_deref _ _ _ x); [done|]. by apply wp_modify.
Qed.

Lemma wp_set_le_prev h x c v (Q : unit -> list_head -> Prop) :
  l_mem h !! x = Some c -> Q tt (put_entry x {| le_next := le_next c; le_prev := v |} h) -> wp (set_le_prev (Some x) v) Q h.
Proof.
  intros Hx HQ. apply wp_bind, (wp_list_node h x c); [done|]. apply wp_bind, (wp_deref _ _ _ x); [done|]. by apply wp_modify.
Qed.

(** The first node of a part gets another slot before it. *)
Lemma wp_relink h s s' f l e (Q : unit -> list_head -> Prop) :
  seg (l_mem h) s f l e None -> NoDup l ->
  (forall h' e', lh_first h' = lh_first h -> seg (l_mem h') s' f l e' None -> (forall x, x ∉ l -> l_mem h' !! x = l_mem h !! x) -> Q tt h') ->
  wp (mwhen (bool_decide (is_Some f)) (set_le_prev f (Some s'))) Q h.
Proof.
  intros Hs Hnd HQ. destruct l as [|x l]; cbn in Hs.
  - destruct Hs as [-> ->]. rewrite bool_decide_false by (by intros []). apply wp_ret. by apply (HQ h s').
  - destruct Hs as (-> & n & Hx & Hs). rewrite bool_decide_true by done. apply NoDup_cons in Hnd as [Hni Hnd].
    eapply wp_set_le_prev; [exact Hx|]. apply (HQ _ e); [done| |].
    + cbn. split; [done|]. exists n. rewrite lookup_insert_eq. split; [done|by apply seg_put].
    + intros y [Hy _]%not_elem_of_cons. cbn. by rewrite lookup_insert_ne.
Qed.

(** The last slot of a part gets another value. *)
Lemma wp_write_end h l e f v (Q : unit -> list_head -> Prop) :
  seg (l_mem h) lh_first_slot (lh_first h) l e f -> NoDup l ->
  (forall h', seg (l_mem h') lh_first_slot (lh_first h') l e v -> (forall x, x ∉ l -> l_mem h' !! x = l_mem h !! x) -> Q tt h') ->
  wp (write_slot (Some e) v) Q h.
Proof.
  intros Hs Hnd HQ. apply wp_bind, (wp_deref _ _ _ e); [done|]. destruct l as [|y l] using rev_ind.
  - destruct Hs as [<- _]. apply wp_modify. by apply HQ.
  - apply seg_app in Hs as (s' & f' & Hs1 & -> & n & Hy & <- & ->). apply NoDup_app in Hnd as (Hnd & Hd & _).
    assert (Hni : y ∉ l) by (intros Hin; by apply (Hd y Hin); left).
    eapply wp_set_le_next; [exact Hy|]. apply HQ.
    + apply seg_app. exists s', (Some y). split; [by apply seg_put|]. split; [done|]. exists v. cbn. by rewrite lookup_insert_eq.
    + intros x Hx. cbn. apply lookup_insert_ne. set_solver.
Qed.

Lemma wp_list_insert h l x (Q : unit -> list_head -> Prop) :
  dlist h l -> x ∉ l -> is_Some (l_mem h !! x) -> (forall h', dlist h' (x :: l) -> Q tt h') -> wp (LIST_INSERT_HEAD x) Q h.
Proof.
  intros [Hnd [e Hs]] Hni [c Hx] HQ. apply wp_bind, wp_gets. apply wp_bind. eapply wp_set_le_next; [exact Hx|].
  set (h1 := put_entry _ _ _). apply wp_bind.
  apply (wp_relink h1 lh_first_slot (le_next_slot x) (lh_first h) l e); [by apply seg_put|done|]. intros h2 e' Hf Hs2 Hm2.
  apply wp_bind, wp_bind, (wp_deref _ _ _ lh_first_slot); [done|]. apply wp_modify.
  eapply wp_set_le_prev; [cbn; rewrite Hm2 by done; apply lookup_insert_eq|]. apply HQ. split; [by constructor|]. exists e'.
  cbn. split; [done|]. eexists. rewrite lookup_insert_eq. split; [done|]. cbn. by apply seg_put.
Qed.

Lemma wp_list_remove h l1 x l2 (Q : unit -> list_head -> Prop) :
  dlist h (l1 ++ x :: l2) -> (forall h', dlist h' (l1 ++ l2) -> Q tt h') -> wp (LIST_REMOVE x) Q h.
Proof.
  intros [Hnd [e Hs]] HQ. apply seg_app in Hs as (s & f & Hs1 & -> & n & Hx & Hs2).
  apply NoDup_app in Hnd as (Hnd1 & Hd & [Hx2 Hnd2]%NoDup_cons).
  assert (Hx1 : x ∉ l1) by (intros Hin; by apply (Hd x Hin); left).
  apply wp_bind, (wp_list_node h x _ _ Hx). cbn [le_next le_prev]. apply wp_bind.
  apply (wp_relink h (le_next_slot x) s n l2 e); [done..|]. intros h1 e1 Hf1 Hs1' Hm1.
  apply wp_bind. eapply wp_list_node; [rewrite Hm1 by done; exact Hx|]. cbn [le_next le_prev].
  assert (Hl1 : seg (l_mem h1) lh_first_slot (lh_first h1) l1 s (Some x)).
  { rewrite Hf1. apply (seg_ext (l_mem h)); [|done]. intros y Hy. apply Hm1. intros Hin. apply (Hd y); set_solver. }
  apply (wp_write_end h1 l1 s (Some x) n); [done|done|]. intros h2 Hs2' Hm2. apply HQ. split.
  - apply NoDup_app. split_and!; [done|intros z Hz Hz2; apply (Hd z); set_solver|done].
  - exists e1. apply seg_app. exists s, n. split; [done|].
    apply (seg_ext (l_mem h1)); [|done]. intros y Hy. apply Hm2. intros Hin. apply (Hd y); set_solver.
Qed.

Lemma wp_list_next h x c (Q : option ptr -> list_head -> Prop) : l_mem h !! x = Some c -> Q (le_next c) h -> wp (LIST_NEXT (Some x)) Q h.
Proof. intros Hx HQ. apply wp_bind, (wp_list_node h x c); [done|]. by apply wp_ret. Qed.

Lemma wp_list_foreach_loop l : forall fuel h s f e (Q : list ptr -> list_head -> Prop),
  (length l < fuel)%nat -> seg (l_mem h) s f l e None -> Q l h -> wp (list_foreach_loop fuel f) Q h.
Proof.
  induction l as [|x l IH]; intros [|fuel] h s f e Q Hf Hs HQ; try (cbn in Hf; lia); cbn in Hs; cbn [list_foreach_loop].
  - destruct Hs as [_ ->]. by apply wp_ret.
  - destruct Hs as (-> & n & Hx & Hs). cbn in Hf. apply wp_bind. eapply wp_list_next; [exact Hx|].
    apply wp_bind. eapply IH; [|exact Hs|]; [lia|]. by apply wp_ret.
Qed.

Lemma dlist_size h l : dlist h l -> (length l <= size (l_mem h))%nat.
Proof. intros [Hnd [e Hs]]. apply length_size; [done|]. intros x. by eapply seg_dom. Qed.

Lemma wp_list_foreach h l (Q : list ptr -> list_head -> Prop) : dlist h l -> Q l h -> wp LIST_FOREACH Q h.
Proof.
  intros Hl HQ. pose proof (dlist_size h l Hl). destruct Hl as [Hnd [e Hs]].
  apply wp_bind, wp_gets, wp_bind, wp_gets. eapply wp_list_foreach_loop with (l := l); [lia|exact Hs|done].
Qed.

(** The loop whose body removes some of the nodes. *)
Definition remove_if (P : ptr -> Prop) `{!forall p, Decision (P p)} (p : ptr) : M list_head unit :=
  if decide (P p) then LIST_REMOVE p else mret tt.

Lemma wp_list_foreach_safe_loop (P : ptr -> Prop) `{!forall p, Decision (P p)} l2 : forall fuel h l1 (Q : unit -> list_head -> Prop),
  (length l2 < fuel)%nat -> dlist h (l1 ++ l2) -> (forall h', dlist h' (l1 ++ filter (fun p => ~ P p) l2) -> Q tt h') ->
  wp (list_foreach_safe_loop fuel (head l2) (remove_if P)) Q h.
Proof.
  induction l2 as [|x l2 IH]; intros [|fuel] h l1 Q Hf Hl HQ; try (cbn in Hf; lia); cbn [list_foreach_safe_loop head].
  { by apply wp_ret, HQ. }
  cbn in Hf. pose proof Hl as [_ [e (s & f & _ & -> & n & Hx & Hs)%seg_app]].
  assert (n = head l2) as -> by (destruct l2; cbn in Hs; naive_solver).
  apply wp_bind. eapply wp_list_next; [exact Hx|]. cbn [le_next]. apply wp_bind. unfold remove_if at 1. case_decide as HP.
  - apply (wp_list_remove h l1 x l2); [done|]. intros h' Hl'. apply (IH fuel h' l1); [lia|done|].
    intros h2 Hl2. apply HQ. by rewrite filter_cons, decide_False by naive_solver.
  - apply wp_ret. apply (IH fuel h (l1 ++ [x])); [lia|by rewrite <- app_assoc|].
    intros h2 Hl2. apply HQ. rewrite filter_cons, decide_True by done. by rewrite <- app_assoc in Hl2.
Qed.

Lemma dlist_first h l : dlist h l -> lh_first h = head l.
Proof. intros [_ [e Hs]]. destruct l; cbn in Hs; naive_solver. Qed.

Lemma split_at {A} (x : A) (l : list A) `{!EqDecision A} :
  NoDup l -> x ∈ l -> exists l1 l2, l = l1 ++ x :: l2 /\ filter (fun y => y <> x) l = l1 ++ l2.
Proof.
  intros Hnd (l1 & l2 & ->)%list_elem_of_split. exists l1, l2. split; [done|]. apply NoDup_app in Hnd as (_ & Hd & [Hx _]%NoDup_cons).
  rewrite filter_app, filter_cons, decide_False by naive_solver. rewrite !filter_ne_id; [done|done|]. intros Hin. by apply (Hd x Hin); left.
Qed.

(** C13: the linked lists of [sys/queue.h] are lists, which is what the other files have for them. With the pointers of a memory that
    holds a list of distinct nodes each macro returns with no bad pointer. [LIST_INSERT_HEAD] puts a new node first, [LIST_REMOVE]
    takes a node out through the pointers of the node alone, [LIST_FOREACH] visits the nodes in order, and
    [LIST_FOREACH_SAFE] whose body removes some of the nodes it is given visits all of them
    and leaves exactly the other ones. *)
Theorem list_refined h l :
  dlist h l ->
  LIST_EMPTY h = bool_decide (l = [])
  /\ LIST_FOREACH h = Ret l h
  /\ (forall x, x ∉ l -> is_Some (l_mem h !! x) -> exists h', LIST_INSERT_HEAD x h = Ret tt h' /\ dlist h' (x :: l))
  /\ (forall x, x ∈ l -> exists h', LIST_REMOVE x h = Ret tt h' /\ dlist h' (filter (fun y => y <> x) l))
  /\ (forall (P : ptr -> Prop) (Hdec : forall p, Decision (P p)),
      exists h', LIST_FOREACH_SAFE (remove_if P) h = Ret tt h' /\ dlist h' (filter (fun p => ~ P p) l)).
Proof.
  intros Hl. split_and!.
  - unfold LIST_EMPTY. rewrite (dlist_first h l Hl). by destruct l.
  - destruct (wp_run LIST_FOREACH (fun r h' => r = l /\ h' = h) h) as (r & h' & Hrun & -> & ->); [by apply (wp_list_foreach h l)|done].
  - intros x Hni Hx. destruct (wp_run (LIST_INSERT_HEAD x) (fun _ h' => dlist h' (x :: l)) h) as ([] & h' & Hrun & Hl');
      [by apply (wp_list_insert h l)|by exists h'].
  - intros x Hin. destruct (split_at x l (proj1 Hl) Hin) as (l1 & l2 & -> & Hfilter). rewrite Hfilter.
    destruct (wp_run (LIST_REMOVE x) (fun _ h' => dlist h' (l1 ++ l2)) h) as ([] & h' & Hrun & Hl');
      [by apply (wp_list_remove h l1 x l2)|by exists h'].
  - intros P Hdec. destruct (wp_run (LIST_FOREACH_SAFE (remove_if P)) (fun _ h' => dlist h' (filter (fun p => ~ P p) l)) h)
      as ([] & h' & Hrun & Hl'); [|by exists h'].
    apply wp_bind, wp_gets, wp_bind, wp_gets. rewrite (dlist_first h l Hl). pose proof (dlist_size h l Hl).
    apply (wp_list_foreach_safe_loop P l _ h []); [lia|done|done].
Qed.

(** Three nodes, of which the first two are in the list. *)
Definition example_dlist : list_head :=
  {| lh_first := Some 1%positive;
     l_mem := list_to_map [ (1%positive, {| le_next := Some 2%positive; le_prev := Some lh_first_slot |});
                            (2%positive, {| le_next := None; le_prev := Some (le_next_slot 1%positive) |});
                            (3%positive, {| le_next := None; le_prev := None |}) ] |}.

Lemma example_dlist_ok : dlist example_dlist [1; 2]%positive.
Proof.
  split; [by apply (bool_decide_unpack _)|]. exists (le_next_slot 2%positive).
  split; [done|]. exists (Some 2%positive). split; [done|]. split; [done|]. by exists None.
Qed.

Lemma list_refined_witness :
  LIST_FOREACH example_dlist = Ret [1; 2]%positive example_dlist
  /\ (exists h', LIST_INSERT_HEAD 3%positive example_dlist = Ret tt h' /\ dlist h' [3; 1; 2]%positive)
  /\ exists h', LIST_REMOVE 1%positive example_dlist = Ret tt h' /\ dlist h' (filter (fun y => y <> 1%positive) [1; 2]%positive).
Proof.
  destruct (list_refined example_dlist [1; 2]%positive example_dlist_ok) as (_ & Hforeach & Hinsert & Hremove & _).
  split_and!; [exact Hforeach|apply Hinsert; [by apply (bool_decide_unpack _)|by eexists]|].
  apply Hremove. by apply (bool_decide_unpack _).
Defined.

(** The same for singly-linked lists, where [SLIST_REMOVE] looks for the node before the one it removes. *)
Theorem slist_refined h l :
  slist h l ->
  SLIST_FOREACH h = Ret l h
  /\ (forall x, x ∉ l -> is_Some (sl_mem h !! x) -> exists h', SLIST_INSERT_HEAD (Some x) h = Ret tt h' /\ slist h' (x :: l))
  /\ (forall x l', l = x :: l' -> exists h', SLIST_REMOVE_HEAD h = Ret tt h' /\ slist h' l')
  /\ (forall x, x ∈ l -> exists h', SLIST_REMOVE (Some x) h = Ret tt h' /\ slist h' (filter (fun y => y <> x) l)).
Proof.
  intros Hl. split_and!.
  - destruct (wp_run SLIST_FOREACH (fun r h' => r = l /\ h' = h) h) as (r & h' & Hrun & -> & ->); [by apply (wp_slist_foreach h l)|done].
  - intros x Hni Hx. destruct (wp_run (SLIST_INSERT_HEAD (Some x)) (fun _ h' => slist h' (x :: l)) h) as ([] & h' & Hrun & Hl');
      [by apply (wp_slist_insert h l)|by exists h'].
  - intros x l' ->. destruct (wp_run SLIST_REMOVE_HEAD (fun _ h' => slist h' l') h) as ([] & h' & Hrun & Hl');
      [by apply (wp_slist_remove_head h x l')|by exists h'].
  - intros x Hin. destruct (split_at x l (proj1 Hl) Hin) as (l1 & l2 & -> & Hfilter). rewrite Hfilter.
    destruct (wp_run (SLIST_REMOVE (Some x)) (fun _ h' => slist h' (l1 ++ l2)) h) as ([] & h' & Hrun & Hl');
      [by apply (wp_slist_remove h l1 x l2)|by exists h'].
Qed.
