(* ===== verification/Clocks.v ===== *)
(** * Clocks and sleeping

    The functions of src/compat that give the daemon a monotonic clock, one file per system: POSIX, Darwin and
    Windows. The calls to the system are given by their results. The other files take their time from a list of
    readings, which these functions produce. *)

From Stdlib Require Import ZArith Lia.
From stdpp Require Import base tactics list.
From S2P Require Import Prelude CLib.

(** ** POSIX: compat/generic *)

Record timespec : Type := {
  tv_sec : Z;
  tv_nsec : Z
}.

#[export] Instance timespec_eq_dec : EqDecision timespec.
Proof. solve_decision. Defined.

Definition LGTD_MSECS_TO_TIMESPEC (v : Z) : timespec :=
  {| tv_sec := Z.quot v 1000; tv_nsec := Z.rem v 1000 * 1000000 |}.

(** [tp] is what [clock_gettime] gives. *)
Definition generic_time_monotonic_msecs (tp : timespec) : Z :=
  u64 (tv_sec tp * 1000 + Z.quot (tv_nsec tp) 1000000).

(** What a call of [nanosleep] does: the time passes, a signal comes with [rest] left, which is written in the second
    argument, or the call fails for another reason. *)
Inductive nanosleep_result : Type :=
| slept
| interrupted (rest : timespec)
| failed.

(** The variables of [lgtd_sleep_monotonic_msecs]: [rqtp] points to [remainder] when [sl_from_remainder], and to [request]
    else, and [rmtp] to the other one. [sl_slept] is the time that passed, in nanoseconds. *)
Record sleeper : Type := {
  sl_remainder : timespec;
  sl_request : timespec;
  sl_from_remainder : bool;
  sl_slept : Z
}.

Definition nsecs (t : timespec) : Z := tv_sec t * 1000000000 + tv_nsec t.

(** [*rqtp]. *)
Definition sl_requested (s : sleeper) : timespec :=
  if sl_from_remainder s then sl_remainder s else sl_request s.

(** [LGTD_SWAP]. *)
Definition swap_pointers (s : sleeper) : sleeper :=
  {| sl_remainder := sl_remainder s; sl_request := sl_request s;
     sl_from_remainder := negb (sl_from_remainder s); sl_slept := sl_slept s |}.

Definition nanosleep (r : nanosleep_result) : M sleeper bool := fun s =>
  match r with
  | slept =>
    Ret true {| sl_remainder := sl_remainder s; sl_request := sl_request s;
                sl_from_remainder := sl_from_remainder s; sl_slept := sl_slept s + nsecs (sl_requested s) |}
  | interrupted rest =>
    Ret true {| sl_remainder := if sl_from_remainder s then sl_remainder s else rest;
                sl_request := if sl_from_remainder s then rest else sl_request s;
                sl_from_remainder := sl_from_remainder s;
                sl_slept := sl_slept s + nsecs (sl_requested s) - nsecs rest |}
  | failed => Ret false s
  end.

(** The loop, for at most [fuel] turns: says if it ended. [results i] is what the turn [i] has from [nanosleep]. *)
Fixpoint sleep_loop (results : nat -> nanosleep_result) (fuel i : nat) : M sleeper bool :=
  match fuel with
  | O => mret false
  | S fuel =>
    mmodify swap_pointers ;;
    ok ← nanosleep (results i);
    if (ok : bool) then
      remainder ← mgets sl_remainder;
      if (0 <? tv_sec remainder) && (0 <? tv_nsec remainder) then sleep_loop results fuel (S i) else mret true
    else mcrash AssertFailed
  end.

Definition sleep_start (msecs : Z) : sleeper :=
  {| sl_remainder := LGTD_MSECS_TO_TIMESPEC msecs; sl_request := {| tv_sec := 0; tv_nsec := 0 |};
     sl_from_remainder := false; sl_slept := 0 |}.

Definition generic_sleep_monotonic_msecs (results : nat -> nanosleep_result) (fuel : nat) (msecs : Z) : M sleeper bool :=
  massert (0 <=? msecs) ;;
  mput (sleep_start msecs) ;;
  sleep_loop results fuel 0.

(** ** Darwin *)

Record mach_timebase_info_data_t : Type := {
  numer : Z;
  denom : Z
}.

Definition MSECS_IN_NSEC : Z := 1000000.

(** [info] is what [mach_timebase_info] gives and [time] what [mach_absolute_time] gives; the state is the static
    variable. *)
Definition darwin_time_monotonic_msecs (info : mach_timebase_info_data_t) (time : Z) : M mach_timebase_info_data_t Z :=
  timebase ← mget;
  mwhen (denom timebase =? 0) (mput info) ;;
  timebase ← mget;
  if denom timebase =? 0 then mcrash UndefinedBehaviour
  else mret (u64 (time * numer timebase) / denom timebase / MSECS_IN_NSEC).

(** ** Windows *)

(** [queried] is the frequency [QueryPerformanceFrequency] gives, none when it fails, and [time] the count of
    [QueryPerformanceCounter]; the state is the static variable. A product out of 64 bits is not defined. *)
Definition windows_time_monotonic_msecs (queried : option Z) (time : Z) : M Z Z :=
  frequency ← mget;
  (if frequency =? 0
   then match queried with Some f => mput f | None => mcrash Exited end
   else mret tt) ;;
  frequency ← mget;
  if (time * 1000 <? 2 ^ 63) && (- 2 ^ 63 <=? time * 1000) && negb (frequency =? 0)
  then mret (u64 (Z.quot (time * 1000) frequency))
  else mcrash UndefinedBehaviour.

Definition TIMER_RESOLUTION_MS : Z := 1.

(** The periods begun with [timeBeginPeriod] and not ended, and the times slept. *)
Record windows_timers : Type := {
  wt_periods : list Z;
  wt_slept : list Z
}.

(** [caps] are the limits [timeGetDevCaps] gives. *)
Definition lgtd_set_timer_resolution (caps : option (Z * Z)) (resolution_ms : Z) : M windows_timers Z :=
  match caps with
  | None => mcrash Exited
  | Some (wPeriodMin, wPeriodMax) =>
    let resolution := Z.min (Z.max wPeriodMin resolution_ms) wPeriodMax in
    mmodify (fun s => {| wt_periods := resolution :: wt_periods s; wt_slept := wt_slept s |}) ;;
    mret resolution
  end.

(** [timeEndPeriod] of a period that was not begun fails, which is only printed. *)
Definition lgtd_reset_timer_resolution (resolution_ms : Z) : M windows_timers unit :=
  mmodify (fun s =>
    {| wt_periods := match list_find (eq resolution_ms) (wt_periods s) with
                     | Some (i, _) => delete i (wt_periods s)
                     | None => wt_periods s
                     end;
       wt_slept := wt_slept s |}).

Definition windows_sleep_monotonic_msecs (caps : option (Z * Z)) (msecs : Z) : M windows_timers unit :=
  actual ← lgtd_set_timer_resolution caps TIMER_RESOLUTION_MS;
  mmodify (fun s => {| wt_periods := wt_periods s; wt_slept := wt_slept s ++ [u32 msecs] |}) ;;
  lgtd_reset_timer_resolution actual.

(** ** Theorems *)

Lemma msecs_to_timespec_nsecs v : nsecs (LGTD_MSECS_TO_TIMESPEC v) = v * 1000000.
Proof. unfold nsecs, LGTD_MSECS_TO_TIMESPEC. simpl. pose proof (Z.quot_rem' v 1000). lia. Qed.

(** The three clocks agree: at an instant of [ns] nanoseconds, which the POSIX clock counts in seconds and
    nanoseconds, the one of Darwin in ticks of [numer / denom] nanoseconds and the one of Windows in ticks of [1 / freq]
    seconds, all of them give the number of whole milliseconds, the first call and the later ones, as long as
    the products they compute fit their 64 bits. *)
Theorem clocks_agree (ns ticks counts freq : Z) (tp : timespec) (info : mach_timebase_info_data_t) :
  0 <= ns < 2 ^ 63 ->
  nsecs tp = ns -> 0 <= tv_nsec tp < 1000000000 ->
  0 < denom info -> ticks * numer info = ns * denom info -> ticks * numer info < 2 ^ 64 ->
  0 < freq -> counts * 1000000000 = ns * freq -> counts * 1000 < 2 ^ 63 ->
  generic_time_monotonic_msecs tp = ns / 1000000
  /\ darwin_time_monotonic_msecs info ticks {| numer := 0; denom := 0 |} = Ret (ns / 1000000) info
  /\ darwin_time_monotonic_msecs info ticks info = Ret (ns / 1000000) info
  /\ windows_time_monotonic_msecs (Some freq) counts 0 = Ret (ns / 1000000) freq
  /\ windows_time_monotonic_msecs (Some freq) counts freq = Ret (ns / 1000000) freq.
Proof.
  intros Hns Htp Hn Hd Ht Hfit Hf Hc Hcfit.
  assert (0 <= ns * denom info) by nia. assert (0 <= counts) by nia.
  assert (Hms : 0 <= ns / 1000000 < 2 ^ 64).
  { split; [apply Z.div_pos; lia|]. apply Z.div_lt_upper_bound; lia. }
  assert (Hdarwin : u64 (ticks * numer info) / denom info / MSECS_IN_NSEC = ns / 1000000).
  { unfold u64. by rewrite (Z.mod_small (ticks * numer info)), Ht, Z.div_mul by lia. }
  assert (Hwin : u64 (Z.quot (counts * 1000) freq) = ns / 1000000).
  { rewrite Z.quot_div_nonneg, <- (Z.div_mul_cancel_r (counts * 1000) freq 1000000) by lia.
    replace (counts * 1000 * 1000000) with (ns * freq) by lia. rewrite (Z.mul_comm freq), Z.div_mul_cancel_r by lia.
    unfold u64. by rewrite Z.mod_small. }
  split_and!.
  - unfold generic_time_monotonic_msecs, u64. rewrite Z.quot_div_nonneg by lia.
    replace (tv_sec tp * 1000 + tv_nsec tp / 1000000) with (ns / 1000000); [by rewrite Z.mod_small|].
    rewrite <- Htp. unfold nsecs.
    replace (tv_sec tp * 1000000000 + tv_nsec tp) with (tv_nsec tp + tv_sec tp * 1000 * 1000000) by lia.
    rewrite Z.div_add by lia. lia.
  - unfold darwin_time_monotonic_msecs, mbind, M_bind, mget, mwhen. simpl.
    rewrite (proj2 (Z.eqb_neq (denom info) 0)) by lia. by rewrite Hdarwin.
  - unfold darwin_time_monotonic_msecs, mbind, M_bind, mget, mwhen.
    rewrite (proj2 (Z.eqb_neq (denom info) 0)) by lia. cbn. by rewrite (proj2 (Z.eqb_neq (denom info) 0)), Hdarwin by lia.
  - unfold windows_time_monotonic_msecs, mbind, M_bind, mget, mput. simpl.
    rewrite (proj2 (Z.eqb_neq freq 0)), (proj2 (Z.ltb_lt _ _)), (proj2 (Z.leb_le _ _)), Hwin by lia. done.
  - unfold windows_time_monotonic_msecs, mbind, M_bind, mget, mput.
    rewrite (proj2 (Z.eqb_neq freq 0)) by lia. cbn -[Z.pow].
    rewrite (proj2 (Z.eqb_neq freq 0)), (proj2 (Z.ltb_lt _ _)), (proj2 (Z.leb_le _ _)), Hwin by lia. done.
Qed.

(** A sleep shorter than a second, or of whole seconds, that no signal cuts lasts for the time it was given and ends
    after one turn of its loop. *)
Theorem sleep_whole (results : nat -> nanosleep_result) (fuel : nat) (msecs : Z) (s : sleeper) :
  0 <= msecs < 2 ^ 31 -> msecs < 1000 \/ Z.rem msecs 1000 = 0 -> results 0%nat = slept ->
  exists s', generic_sleep_monotonic_msecs results (S fuel) msecs s = Ret true s' /\ sl_slept s' = msecs * 1000000.
Proof.
  intros Hms Hcase Hr. eexists. unfold generic_sleep_monotonic_msecs, mbind, M_bind, massert.
  rewrite (proj2 (Z.leb_le 0 msecs)) by lia. cbn [mret M_ret mput sleep_loop]. rewrite Hr.
  unfold mbind, M_bind, mmodify, nanosleep, mgets. cbn [swap_pointers sleep_start sl_from_remainder negb sl_remainder].
  assert (Hend : (0 <? tv_sec (LGTD_MSECS_TO_TIMESPEC msecs)) && (0 <? tv_nsec (LGTD_MSECS_TO_TIMESPEC msecs)) = false).
  { apply andb_false_iff. cbn. destruct Hcase as [Hlt| ->]; [left|by right]. by rewrite Z.quot_small by lia. }
  rewrite Hend. split; [reflexivity|]. cbn [sl_slept sl_requested sl_from_remainder sl_remainder].
  apply msecs_to_timespec_nsecs.
Qed.

(** A turn of the loop that no signal cuts. *)
Lemma sleep_loop_slept results fuel i s :
  results i = slept -> 0 < tv_sec (sl_remainder s) -> 0 < tv_nsec (sl_remainder s) ->
  exists s', sleep_loop results (S fuel) i s = sleep_loop results fuel (S i) s'
    /\ sl_remainder s' = sl_remainder s /\ sl_request s' = sl_request s
    /\ sl_from_remainder s' = negb (sl_from_remainder s)
    /\ sl_slept s' = sl_slept s + nsecs (if sl_from_remainder s then sl_request s else sl_remainder s).
Proof.
  intros Hr Hs Hn. eexists. cbn [sleep_loop]. rewrite Hr.
  unfold mbind, M_bind, mmodify, nanosleep, mgets. cbn [swap_pointers sl_remainder].
  rewrite !(proj2 (Z.ltb_lt _ _)) by done. split; [reflexivity|].
  unfold sl_requested. cbn. split_and!; try done. by destruct (sl_from_remainder s).
Qed.

(** But longer ones do not end: the condition of the loop reads [remainder], which is the request of the first turn and
    which [nanosleep] does not change when it is not interrupted, so that the whole sleep is done again every
    other turn. Whatever the number of turns the loop has not ended, and after [2 * n] turns it has slept [n] times what it was
    asked for. *)
Theorem sleep_never_ends (results : nat -> nanosleep_result) (msecs : Z) (s : sleeper) :
  1000 < msecs < 2 ^ 31 -> Z.rem msecs 1000 <> 0 -> (forall i, results i = slept) ->
  forall n, exists s', generic_sleep_monotonic_msecs results (2 * n) msecs s = Ret false s'
    /\ sl_slept s' = Z.of_nat n * (msecs * 1000000).
Proof.
  intros Hms Hrem Hr n.
  assert (Hsec : 0 < tv_sec (LGTD_MSECS_TO_TIMESPEC msecs)) by (cbn; apply Z.quot_str_pos; lia).
  assert (Hnsec : 0 < tv_nsec (LGTD_MSECS_TO_TIMESPEC msecs)).
  { cbn. assert (0 <= Z.rem msecs 1000) by (apply Z.rem_nonneg; lia). lia. }
  assert (Hloop : forall n i s, sl_remainder s = LGTD_MSECS_TO_TIMESPEC msecs ->
    sl_request s = {| tv_sec := 0; tv_nsec := 0 |} -> sl_from_remainder s = false ->
    exists s', sleep_loop results (2 * n) i s = Ret false s'
      /\ sl_slept s' = sl_slept s + Z.of_nat n * (msecs * 1000000)).
  { clear n s. intros n. induction n as [|n IH]; intros i s Hrem' Hreq Hfrom.
    - exists s. split; [done|lia].
    - replace (2 * S n)%nat with (S (S (2 * n))) by lia.
      destruct (sleep_loop_slept results (S (2 * n)) i s) as (s1 & -> & Hrem1 & Hreq1 & Hf1 & Hs1); [done|by rewrite Hrem'..|].
      destruct (sleep_loop_slept results (2 * n) (S i) s1) as (s2 & -> & Hrem2 & Hreq2 & Hf2 & Hs2);
        [done|by rewrite Hrem1, Hrem'..|].
      destruct (IH (S (S i)) s2) as (s' & Hrun & Hs'); [congruence|congruence|by rewrite Hf2, Hf1, Hfrom|].
      exists s'. split; [done|]. rewrite Hs', Hs2, Hs1, Hf1, Hfrom, Hreq1, Hreq, Hrem'.
      cbn [negb]. rewrite msecs_to_timespec_nsecs. unfold nsecs. cbn [tv_sec tv_nsec]. lia. }
  unfold generic_sleep_monotonic_msecs, mbind, M_bind, massert.
  rewrite (proj2 (Z.leb_le 0 msecs)) by lia. cbn [mret M_ret mput].
  destruct (Hloop n 0%nat (sleep_start msecs)) as (s' & Hrun & Hs'); [done..|]. by exists s'.
Qed.

(** And a signal ends a sleep of less than a second: half of the 50 ms are left when it returns. *)
Example sleep_cut_short :
  match generic_sleep_monotonic_msecs (fun _ => interrupted {| tv_sec := 0; tv_nsec := 25000000 |}) 2 50 (sleep_start 0) with
  | Ret ended s => ended = true /\ sl_slept s = 25000000
  | Crash _ => False
  end.
Proof. by vm_compute. Qed.

(** A sleep of Windows asks for a resolution the system has, as near to one millisecond as can be, and gives
    it back. *)
Theorem windows_sleep_balanced (lo hi msecs : Z) (s : windows_timers) :
  lo <= hi ->
  windows_sleep_monotonic_msecs (Some (lo, hi)) msecs s
  = Ret tt {| wt_periods := wt_periods s; wt_slept := wt_slept s ++ [u32 msecs] |}
  /\ exists r s', lgtd_set_timer_resolution (Some (lo, hi)) TIMER_RESOLUTION_MS s = Ret r s'
     /\ lo <= r <= hi /\ (forall r', lo <= r' <= hi -> Z.abs (r - TIMER_RESOLUTION_MS) <= Z.abs (r' - TIMER_RESOLUTION_MS)).
Proof.
  intros Hle. split.
  - unfold windows_sleep_monotonic_msecs, lgtd_reset_timer_resolution, mbind, M_bind, mmodify.
    unfold lgtd_set_timer_resolution, mbind, M_bind, mmodify. cbn [mret M_ret wt_periods wt_slept list_find].
    by rewrite decide_True by done.
  - eexists (Z.min (Z.max lo 1) hi), _. split; [reflexivity|]. unfold TIMER_RESOLUTION_MS.
    split; [lia|]. intros r' Hr'. lia.
Qed.
